(* ===== verification/_CoqProject ===== *)
-Q . S2P
Prelude.v
Interfaces.v
Pmm.v
Liballoc.v
LiballocLayout.v
LiballocInv.v
LiballocSpec.v
DList.v
Bitmap.v
ProcTree.v
Itoa.v
Strings.v
Net.v
NetMem.v
NetSum.v
NetSend.v
NetSpec.v
NetTask.v
Task.v
Interrupts.v
Input.v
Tty.v
Font.v
Framebuffer.v
Console.v
Pci.v
Vmm.v
VmmDir.v
Boot.v
BootSpec.v
FsPath.v
Fs.v
Drivers.v
Tmpfs.v
Tar.v
Vfs.v
FdTable.v
Uaccess.v
UserMem.v
ProcMem.v
Syscall.v
FileCalls.v
KernelPages.v
HeapPages.v
Exec.v
Process.v
Calls.v
ExecSpec.v
