(* ===== verification/Prelude.v ===== *)
(** * myunix: a verification of the kernel

    myunix is a small 32-bit x86 kernel in C (src/kernel).  This library
    models it function by function and proves what makes its parts correct.
    C code is a function in a state monad ([M S A], below) whose runs either
    return a value and a state or stop with a [panic]: a failed [assert], the
    allocator's assert that memory was left, an access outside the memory the
    model owns, a halted cpu, or the model's fuel running out.  [wp m Q E s]
    says that [m], run from [s], returns in [Q] or stops with a panic in [E];
    with [E := never] it is total correctness.  32- and 16-bit integers are
    [Z] with their wrap-around written out ([u32], [u16], [s32]).  Global
    variables and the memory that a component owns are its state record;
    objects of the kernel heap are entries of finite maps named by their
    addresses; a component works on the state of another through a [lens]
    ([zoom]).

    ** The files and the code they model

    - Prelude: the monad, loops with fuel, the rules of [wp] with their
      tactics, machine integers, bits, lists indexed by [Z].
    - Interfaces: the classes [FrameAlloc] and [KHeap] with their laws: what
      the allocators promise to everything else, and small instances to run
      clients on.
    - Pmm: pmm.c on the words of the block bitmap; an instance of
      [FrameAlloc] (pmm_frames).
    - Liballoc (code), LiballocLayout (headers and objects in memory),
      LiballocInv (the invariant, each operation keeps it), LiballocSpec (the
      refinement): liballoc.c on the bytes of memory.
    - DList: list.c on nodes and headers.  Bitmap: bitmap.c.  Itoa:
      misc/itoa.c and misc/oct2bin.c.  Strings: string.c on byte objects.
    - ProcTree: tree.c, the process numbers and the process tree of process.c.
    - Net (net/net.c, udp.c, tcp.c, checksum.c), NetMem (byte rules), NetSum
      (checksums, RFC 1071), NetSend (sending), NetSpec (the answers to a
      frame, each handler gives them), NetTask (the task and the theorems).
    - Task: task.c, arch/i686/atomic.c: run queue, scheduler lock, blocking,
      sleeping, semaphores, mutexes, waiting for a process and ending it.
    - Interrupts: gdt.c, idt.c, isr.c, irq.c, pic.c, pit.c.
    - Input: ringbuffer.c, keyboard.c, serial.c.  Tty: tty.c.  Font and
      Framebuffer: framebuffer.c.  Console: console.c.  Pci: pci.c.
    - Vmm: vmm.c and the kernel stacks of task.c, on physical memory as words
      with the processor's page walk.  VmmDir: the invariant through
      [page_directory_new].
    - Boot: the memory part of kmain.c (the loader's structures, the blocks set
      aside, the mappings); BootSpec: what start-up leaves.
    - HeapPages: the pages of liballoc.c, from vmm.c: an instance of [PageAlloc].
    - FsPath (paths) and Fs (nodes, mounts, operations): fs.c.  Drivers:
      tmpfs.c, tar.c, ramdisk.c, dev_null.c.  Tmpfs, Tar: what these two
      drivers do.  Vfs: [kopen] over both.
    - FdTable: the descriptors of process.c.
    - Uaccess and UserMem: the copy functions of syscall.c, reading and
      writing.  ProcMem: the address spaces of process.c, fork.  Exec: execve;
      KernelPages (pages the kernel fills, kernel stacks) and ExecSpec: what a
      started program finds.
    - Syscall: the bodies of the system calls of syscall.c.  FileCalls: read,
      write and lseek of a process, through paging, descriptors and files.

    Every definition keeps the name of the C function or type it models; a
    loop body or a block that needed a name of its own is called after what it
    does.

    ** How the parts interact

    pmm.c hands out frames, vmm.c maps them, liballoc.c takes its pages from
    vmm.c and every other part its objects from liballoc.c; the drivers hang
    below fs.c, which descriptors and system calls use; system calls reach a
    process's memory through the kernel's page tables.  Clients are verified
    against the classes, so each theorem holds for any allocator that keeps
    the laws: [Section]s take [FrameAllocLaws] and [KHeapLaws].  fs.c calls
    its drivers through function pointers: the class [Handlers] of Fs, of
    which Drivers gives the instance.  Syscall has one heap for paging and
    files, as the kernel has.

    ** What the theorems show

    - Allocation: live blocks never overlap (pmm_live_allocations_disjoint),
      allocation and its inverse on the bitmap, what start-up leaves; the heap
      is a map from addresses to contents for any legal client
      (liballoc_refines), and its pages come from paging and go back there
      (heap_pages_roundtrip).
    - Data structures: lists are sequences (list_operations_refine), bitmaps
      are sets, ring buffers are queues, descriptor tables hand out the lowest
      number and are shared by clones.
    - Paging: the tables stay well-formed and a mapping changes exactly one
      page of one directory (map_page_translates); find_vspace is first fit;
      start-up leads to well-formed tables in which exactly
      the loader's free memory is free and the kernel is mapped
      (kernel_boots).
    - Processes: system calls read and write exactly the memory a process may
      use (copy_from_userspace_safe, copy_to_userspace_writes), and fork gives
      the child a copy that shares nothing (fork_copies_memory); a program is
      started in a memory of its own with its file, its arguments and its
      registers (execve_loads); the tree of processes is the list of their
      parents (process_tree_refines).
    - Files: paths are followed like their elements say, kopen finds the node
      the mounts and directories lead to, tmpfs is byte sequences, a tar
      archive serves the files it holds; a process's file calls are those of a
      file and an offset (file_calls_refine).
    - Scheduling: the queues stay disjoint and tasks are in the state their
      queue says (scheduler_invariant), round robin, first come first served;
      the end of a process wakes who waits for it (exit_wakes_waiter).
    - Devices: interrupts dispatch in order and gates are installed, the
      screens show the text written, lines are edited and read, printf prints
      numerals that read back, the PCI scan finds exactly what answers.
    - Network: the stack answers exactly as specified (net_serves), pings are
      answered, checksums are those of RFC 1071.

    ** Bounds and fuel

    A C loop whose count is not a literal is [loop] with fuel.  The fuel is
    one more than the most rounds the loop's bounds allow (2^20 pages, the
    length of a buffer, the objects of the heap), and the theorems' [E] never
    contains [NoFuel], so a theorem also says that the fuel sufficed.
    Recursion through pointers (paths, mounts, tar entries) has the depth of
    the data as fuel, which the theorems require to be enough.

    ** What is a parameter

    Contents of uninitialised memory ([junk]), the symbols of the linker, what
    devices answer, the frames that arrive.  The TLB is not modelled.
    Interrupts happen only where the code waits for them.

    ** Not modelled

    Output for debugging; the registers and queues of the network card
    (net/e1000.c) and of the USB controllers (usb/), whose behaviour the
    source does not describe; assembly stubs; the undefined-behaviour
    sanitizer's messages; the user programs.
*)
From Stdlib Require Export ZArith Lia Bool.
From stdpp Require Export base numbers list gmap.
Global Open Scope Z_scope.

(** ** Results and the kernel's state monad *)

(** How a run of kernel code can stop without returning: a failed [assert]
    (and [panic]), the assert inside the allocator that memory was left, an
    access outside the memory the model owns, a cpu that halts for good, and
    the model's own fuel running out (which the theorems rule out). *)
Inductive panic : Type := AssertFail | NoMemory | Fault | Halted | NoFuel.

Inductive res (A : Type) : Type :=
  | Ok (a : A)
  | Err (e : panic).
Arguments Ok {A} a.
Arguments Err {A} e.

#[export] Instance panic_eq_dec : EqDecision panic.
Proof. solve_decision. Defined.

(** A kernel computation over a state [S]: C code reads and writes the state
    and either returns or stops for good. *)
Definition M (S A : Type) : Type := S -> res (A * S).

Section monad.
Context {S : Type}.

Definition ret {A} (a : A) : M S A := fun s => Ok (a, s).

Definition fail {A} (e : panic) : M S A := fun _ => Err e.

Definition bind {A B} (m : M S A) (f : A -> M S B) : M S B := fun s =>
  match m s with
  | Ok (a, s') => f a s'
  | Err e => Err e
  end.

Definition gets {A} (f : S -> A) : M S A := fun s => Ok (f s, s).

Definition modify (f : S -> S) : M S unit := fun s => Ok (tt, f s).

(** [assert(b)] of include/assert.h. *)
Definition kassert (b : bool) : M S unit :=
  if b then ret tt else fail AssertFail.

(** An [assert] that an allocation succeeded. *)
Definition kassert_memory (b : bool) : M S unit :=
  if b then ret tt else fail NoMemory.

(** A pointer the code dereferences: a missing object is a fault. *)
Definition some {A} (o : option A) : M S A :=
  match o with Some a => ret a | None => fail Fault end.
End monad.

Declare Scope kernel_scope.
Delimit Scope kernel_scope with kernel.
Notation "'let!' x := m 'in' k" := (bind m (fun x => k))
  (at level 10, x name, m at level 100, k at level 200,
   format "'[v' 'let!'  x  :=  m  'in' '/' k ']'") : kernel_scope.
Notation "'let!' ' x := m 'in' k" := (bind m (fun x => k))
  (at level 10, x pattern, m at level 100, k at level 200) : kernel_scope.
Notation "m >>> k" := (bind m (fun _ => k))
  (at level 199, k at level 200, right associativity) : kernel_scope.
Global Open Scope kernel_scope.

(** ** Loops *)

Section loops.
Context {S : Type}.

(** [while]/[for] with an early exit: [inl] goes round again, [inr] leaves. *)
Fixpoint loop {A B} (fuel : nat) (body : A -> M S (A + B)) (a : A) : M S B :=
  match fuel with
  | O => fail NoFuel
  | Datatypes.S n =>
      let! r := body a in
      match r with
      | inl a' => loop n body a'
      | inr b => ret b
      end
  end.

(** [for (i = i0; i < i0 + n; i++)] without an early exit. *)
Fixpoint for_up (n : nat) (i : Z) (body : Z -> M S unit) : M S unit :=
  match n with
  | O => ret tt
  | Datatypes.S n' => body i >>> for_up n' (i + 1) body
  end.

(** [for (i = i0; i < i0 + n; i++)] whose body may [return]. *)
Fixpoint for_ret {B} (n : nat) (i : Z) (body : Z -> M S (option B)) :
    M S (option B) :=
  match n with
  | O => ret None
  | Datatypes.S n' =>
      let! r := body i in
      match r with
      | Some b => ret (Some b)
      | None => for_ret n' (i + 1) body
      end
  end.

(** [for (i = i0; i < i0 + n; i++)] that updates a local variable. *)
Fixpoint for_fold {A} (n : nat) (i : Z) (a : A) (body : Z -> A -> M S A) :
    M S A :=
  match n with
  | O => ret a
  | Datatypes.S n' => let! a' := body i a in for_fold n' (i + 1) a' body
  end.
End loops.

(** ** Weakest preconditions

    [wp m Q E s]: running [m] from [s] either returns a value and a state in
    [Q] or stops with a panic in [E].  With [E := fun _ => False] it is total
    correctness. *)

Definition wp {S A} (m : M S A) (Q : A -> S -> Prop) (E : panic -> Prop)
    (s : S) : Prop :=
  match m s with
  | Ok (a, s') => Q a s'
  | Err e => E e
  end.

Definition never : panic -> Prop := fun _ => False.
Definition only_assert : panic -> Prop := fun e => e = AssertFail.
Definition only_nomem : panic -> Prop := fun e => e = NoMemory.
(** Some assertion failed, or one that memory was there. *)
Definition assert_or_memory : panic -> Prop := fun e => e = AssertFail \/ e = NoMemory.

Section wp_rules.
Context {S : Type}.
Implicit Types (s : S) (E : panic -> Prop).

Lemma wp_ret {A} (a : A) Q E s : wp (ret a) Q E s <-> Q a s.
Proof. done. Qed.

Lemma wp_fail {A} (e : panic) (Q : A -> S -> Prop) E s :
  wp (fail e) Q E s <-> E e.
Proof. done. Qed.

Lemma wp_bind {A B} (m : M S A) (f : A -> M S B) Q E s :
  wp (bind m f) Q E s <-> wp m (fun a s' => wp (f a) Q E s') E s.
Proof. unfold wp, bind. by destruct (m s) as [[a s']|e]. Qed.

Lemma wp_gets {A} (f : S -> A) Q E s : wp (gets f) Q E s <-> Q (f s) s.
Proof. done. Qed.

Lemma wp_modify (f : S -> S) Q E s : wp (modify f) Q E s <-> Q tt (f s).
Proof. done. Qed.

Lemma wp_kassert (b : bool) Q E s :
  wp (kassert b) Q E s <-> if b then Q tt s else E AssertFail.
Proof. by destruct b. Qed.

Lemma wp_some {A} (o : option A) Q E s :
  wp (some o) Q E s <-> match o with Some a => Q a s | None => E Fault end.
Proof. by destruct o. Qed.

Lemma wp_if {A} (b : bool) (m1 m2 : M S A) Q E s :
  wp (if b then m1 else m2) Q E s <->
  if b then wp m1 Q E s else wp m2 Q E s.
Proof. by destruct b. Qed.

Lemma wp_mono {A} (m : M S A) (Q Q' : A -> S -> Prop) E E' s :
  wp m Q E s ->
  (forall a s', Q a s' -> Q' a s') -> (forall e, E e -> E' e) ->
  wp m Q' E' s.
Proof. unfold wp. destruct (m s) as [[a s']|e]; eauto. Qed.

Lemma wp_conj {A} (m : M S A) (Q Q' : A -> S -> Prop) E s :
  wp m Q E s -> wp m Q' E s -> wp m (fun a s' => Q a s' /\ Q' a s') E s.
Proof. unfold wp. destruct (m s) as [[a s']|e]; eauto. Qed.

(** A loop with invariant [I] and a measure [mu] that each round decreases. *)
Lemma wp_loop {A B} (I : A -> S -> Prop) (mu : A -> S -> nat)
    (body : A -> M S (A + B)) (Q : B -> S -> Prop) E :
  (forall a s, I a s ->
     wp (body a) (fun r s' =>
       match r with
       | inl a' => I a' s' /\ (mu a' s' < mu a s)%nat
       | inr b => Q b s'
       end) E s) ->
  forall fuel a s, I a s -> (mu a s < fuel)%nat -> wp (loop fuel body a) Q E s.
Proof.
  intros Hbody fuel. induction fuel as [|n IH]; intros a s HI Hmu; [lia|].
  simpl. apply wp_bind. eapply wp_mono; [by apply Hbody| |done].
  intros [a'|b] s'; [|done]. intros [HI' Hlt]. apply IH; [done|lia].
Qed.

(** One round of a loop, for proofs by induction on what is left to do. *)
Lemma wp_loop_step {A B} (body : A -> M S (A + B)) (Q : B -> S -> Prop) E n a s :
  wp (body a) (fun r s' =>
    match r with inl a' => wp (loop n body a') Q E s' | inr b => Q b s' end) E s ->
  wp (loop (Datatypes.S n) body a) Q E s.
Proof.
  intros Hb. simpl. apply wp_bind. eapply wp_mono; [exact Hb| |done].
  by intros [a'|b] s'.
Qed.

Lemma wp_for_ret_step {B} (body : Z -> M S (option B)) (Q : option B -> S -> Prop) E n i s :
  wp (body i) (fun r s' =>
    match r with Some b => Q (Some b) s' | None => wp (for_ret n (i + 1) body) Q E s' end) E s ->
  wp (for_ret (Datatypes.S n) i body) Q E s.
Proof.
  intros Hb. simpl. apply wp_bind. eapply wp_mono; [exact Hb| |done].
  by intros [b|] s'.
Qed.

Lemma wp_for_up_step (body : Z -> M S unit) (Q : unit -> S -> Prop) E n i s :
  wp (body i) (fun _ s' => wp (for_up n (i + 1) body) Q E s') E s ->
  wp (for_up (Datatypes.S n) i body) Q E s.
Proof. intros Hb. simpl. by apply wp_bind. Qed.

Lemma wp_for_fold_step {A} (body : Z -> A -> M S A) (Q : A -> S -> Prop) E n i a s :
  wp (body i a) (fun a' s' => wp (for_fold n (i + 1) a' body) Q E s') E s ->
  wp (for_fold (Datatypes.S n) i a body) Q E s.
Proof. intros Hb. simpl. by apply wp_bind. Qed.

Lemma wp_for_up (I : Z -> S -> Prop) (body : Z -> M S unit) E n :
  forall i s, I i s ->
  (forall j s', i <= j < i + Z.of_nat n -> I j s' ->
     wp (body j) (fun _ s'' => I (j + 1) s'') E s') ->
  wp (for_up n i body) (fun _ s' => I (i + Z.of_nat n) s') E s.
Proof.
  induction n as [|n IH]; intros i s HI Hbody; cbn [for_up for_ret].
  - apply wp_ret. replace (i + Z.of_nat 0) with i by lia. done.
  - apply wp_bind. eapply wp_mono; [apply Hbody; [lia|done]| |done].
    intros u s' HI'. replace (i + Z.of_nat (Datatypes.S n))
      with ((i + 1) + Z.of_nat n) by lia.
    apply IH; [done|]. intros j s'' Hj. apply Hbody. lia.
Qed.

Lemma wp_for_ret {B} (I : Z -> S -> Prop) (R : B -> S -> Prop)
    (body : Z -> M S (option B)) E n :
  forall i s, I i s ->
  (forall j s', i <= j < i + Z.of_nat n -> I j s' ->
     wp (body j) (fun r s'' =>
       match r with Some b => R b s'' | None => I (j + 1) s'' end) E s') ->
  wp (for_ret n i body) (fun r s' =>
    match r with Some b => R b s' | None => I (i + Z.of_nat n) s' end) E s.
Proof.
  induction n as [|n IH]; intros i s HI Hbody; cbn [for_up for_ret].
  - apply wp_ret. replace (i + Z.of_nat 0) with i by lia. done.
  - apply wp_bind. eapply wp_mono; [apply Hbody; [lia|done]| |done].
    intros [b|] s' HI'; [by apply wp_ret|].
    replace (i + Z.of_nat (Datatypes.S n))
      with ((i + 1) + Z.of_nat n) by lia.
    apply IH; [done|]. intros j s'' Hj. apply Hbody. lia.
Qed.

Lemma wp_for_fold {A} (I : Z -> A -> S -> Prop) (body : Z -> A -> M S A) E n :
  forall i a s, I i a s ->
  (forall j a' s', i <= j < i + Z.of_nat n -> I j a' s' ->
     wp (body j a') (fun a'' s'' => I (j + 1) a'' s'') E s') ->
  wp (for_fold n i a body) (fun a' s' => I (i + Z.of_nat n) a' s') E s.
Proof.
  induction n as [|n IH]; intros i a s HI Hbody; cbn [for_fold].
  - apply wp_ret. replace (i + Z.of_nat 0) with i by lia. done.
  - apply wp_bind. eapply wp_mono; [apply Hbody; [lia|done]| |done].
    intros a' s' HI'. replace (i + Z.of_nat (Datatypes.S n))
      with ((i + 1) + Z.of_nat n) by lia.
    apply IH; [done|]. intros j a'' s'' Hj. apply Hbody. lia.
Qed.
End wp_rules.

(** Running the first part of a sequence. *)
Lemma run_bind {S A B} (m : M S A) (f : A -> M S B) s :
  bind m f s = match m s with Ok (a, s') => f a s' | Err e => Err e end.
Proof. done. Qed.

(** The defining equations of the loops. *)
Lemma loop_S {S A B} n (body : A -> M S (A + B)) a s :
  loop (Datatypes.S n) body a s =
  bind (body a) (fun r => match r with inl a' => loop n body a' | inr b => ret b end) s.
Proof. done. Qed.

Lemma for_up_S {S} n i (body : Z -> M S unit) s :
  for_up (Datatypes.S n) i body s = bind (body i) (fun _ => for_up n (i + 1) body) s.
Proof. done. Qed.

Lemma for_ret_S {S B} n i (body : Z -> M S (option B)) s :
  for_ret (Datatypes.S n) i body s =
  bind (body i) (fun r => match r with Some b => ret (Some b) | None => for_ret n (i + 1) body end) s.
Proof. done. Qed.

Lemma for_ret_O {S B} i (body : Z -> M S (option B)) s : for_ret 0 i body s = Ok (None, s).
Proof. done. Qed.

(** Reading a triple off a run and back. *)
Lemma wp_run {S A} (m : M S A) Q E s a s' :
  wp m Q E s -> m s = Ok (a, s') -> Q a s'.
Proof. unfold wp. intros H Hr. by rewrite Hr in H. Qed.

Lemma wp_intro {S A} (m : M S A) (Q : A -> S -> Prop) (E : panic -> Prop) s :
  match m s with Ok (a, s') => Q a s' | Err e => E e end -> wp m Q E s.
Proof. done. Qed.

Lemma wp_elim {S A} (m : M S A) (Q : A -> S -> Prop) (E : panic -> Prop) s :
  wp m Q E s -> match m s with Ok (a, s') => Q a s' | Err e => E e end.
Proof. done. Qed.

Lemma wp_never_run {S A} (m : M S A) Q s :
  wp m Q never s -> exists a s', m s = Ok (a, s') /\ Q a s'.
Proof. unfold wp. destruct (m s) as [[a s']|e]; [eauto|done]. Qed.

Create Rewrite HintDb wp.
#[export] Hint Rewrite @wp_ret @wp_fail @wp_bind @wp_gets @wp_modify @wp_kassert
  @wp_some @wp_if : wp.

(** Steps through straight-line code, one monadic operation at a time; stops
    at an [assert], a pointer or a branch. *)
Ltac wp_step :=
  lazymatch goal with
  | |- wp (bind _ _) _ _ _ => refine (proj2 (wp_bind _ _ _ _ _) _)
  | |- wp (ret _) _ _ _ => refine (proj2 (wp_ret _ _ _ _) _)
  | |- wp (gets _) _ _ _ => refine (proj2 (wp_gets _ _ _ _) _)
  | |- wp (modify _) _ _ _ => refine (proj2 (wp_modify _ _ _ _) _)
  | |- wp (fail _) _ _ _ => refine (proj2 (wp_fail _ _ _ _) _)
  end; cbv beta.
Ltac wp_steps := repeat wp_step.

(** The condition of an [assert] or of an [if], left to case analysis. *)
Ltac wp_cond :=
  wp_steps;
  lazymatch goal with
  | |- wp (kassert _) _ _ _ => refine (proj2 (wp_kassert _ _ _ _) _)
  | |- wp (some _) _ _ _ => refine (proj2 (wp_some _ _ _ _) _)
  | |- wp (if _ then _ else _) _ _ _ => refine (proj2 (wp_if _ _ _ _ _ _) _)
  end; cbv beta.

(** Uses a specification of the next operation. *)
Tactic Notation "wp_apply" uconstr(H) :=
  wp_steps; eapply wp_mono; [apply H|cbv beta|cbv beta].

(** An invariant of single steps is an invariant of runs. *)
Lemma rtc_preserves {A} (R : relation A) (P : A -> Prop) x y :
  (forall a b, R a b -> P a -> P b) -> rtc R x y -> P x -> P y.
Proof. intros Hstep Hxy. induction Hxy; eauto. Qed.

(** ** Running a component's code on its part of a larger state *)

Record lens (S T : Type) : Type := Lens {
  lget : S -> T;
  lset : T -> S -> S;
}.
Arguments Lens {S T} _ _.
Arguments lget {S T} _ _.
Arguments lset {S T} _ _ _.

Definition zoom {S T A} (l : lens S T) (m : M T A) : M S A := fun s =>
  match m (lget l s) with
  | Ok (a, t) => Ok (a, lset l t s)
  | Err e => Err e
  end.

Lemma wp_zoom {S T A} (l : lens S T) (m : M T A) Q E s :
  wp (zoom l m) Q E s <-> wp m (fun a t => Q a (lset l t s)) E (lget l s).
Proof. unfold wp, zoom. by destruct (m (lget l s)) as [[a t]|e]. Qed.

(** ** Machine integers *)

(** An [unsigned int], [uint32_t], [uintptr_t] or [size_t] of i686. *)
Definition u32 (z : Z) : Z := z mod 2 ^ 32.
Definition u16 (z : Z) : Z := z mod 2 ^ 16.
Definition u8 (z : Z) : Z := z mod 2 ^ 8.

(** The [int] a 32-bit pattern stands for. *)
Definition s32 (z : Z) : Z :=
  let w := u32 z in if w <? 2 ^ 31 then w else w - 2 ^ 32.

Definition is_u32 (z : Z) : Prop := 0 <= z < 2 ^ 32.
Definition is_u16 (z : Z) : Prop := 0 <= z < 2 ^ 16.
Definition is_u8 (z : Z) : Prop := 0 <= z < 2 ^ 8.

Lemma u32_small z : is_u32 z -> u32 z = z.
Proof. intros H. by apply Z.mod_small. Qed.

Lemma u16_small z : is_u16 z -> u16 z = z.
Proof. intros H. by apply Z.mod_small. Qed.

Lemma u32_range z : is_u32 (u32 z).
Proof. apply Z.mod_pos_bound. lia. Qed.

Lemma u16_range z : is_u16 (u16 z).
Proof. apply Z.mod_pos_bound. lia. Qed.

Lemma u8_range z : is_u8 (u8 z).
Proof. apply Z.mod_pos_bound. lia. Qed.

Create HintDb kernel.
#[export] Hint Resolve u32_range u16_range u8_range : kernel.

(** ** Bits *)

(** [w | (1 << j)], [w & ~(1 << j)] and [w & (1 << j)]. *)
Definition bit_set (w j : Z) : Z := Z.lor w (Z.shiftl 1 j).
Definition bit_clear (w j : Z) : Z := Z.ldiff w (Z.shiftl 1 j).
Definition bit_test (w j : Z) : bool := negb (Z.land w (Z.shiftl 1 j) =? 0).

Lemma shiftl_1_testbit j k :
  0 <= j -> 0 <= k -> Z.testbit (Z.shiftl 1 j) k = (j =? k).
Proof.
  intros Hj Hk. rewrite Z.shiftl_1_l, Z.pow2_bits_eqb by done. done.
Qed.

Lemma bit_set_spec w j k :
  0 <= j -> 0 <= k -> Z.testbit (bit_set w j) k = (j =? k) || Z.testbit w k.
Proof.
  intros. unfold bit_set. by rewrite Z.lor_spec, shiftl_1_testbit, orb_comm.
Qed.

Lemma bit_clear_spec w j k :
  0 <= j -> 0 <= k ->
  Z.testbit (bit_clear w j) k = negb (j =? k) && Z.testbit w k.
Proof.
  intros. unfold bit_clear.
  by rewrite Z.ldiff_spec, shiftl_1_testbit, andb_comm.
Qed.

Lemma bit_test_spec w j : 0 <= j -> bit_test w j = Z.testbit w j.
Proof.
  intros Hj. unfold bit_test. destruct (Z.testbit w j) eqn:E.
  - apply negb_true_iff, Z.eqb_neq. intros H0.
    apply (f_equal (fun z => Z.testbit z j)) in H0.
    rewrite Z.land_spec, E, shiftl_1_testbit, Z.eqb_refl, Z.bits_0 in H0 by done.
    done.
  - apply negb_false_iff, Z.eqb_eq. apply Z.bits_inj'. intros k Hk.
    rewrite Z.land_spec, shiftl_1_testbit, Z.bits_0 by done.
    destruct (Z.eqb_spec j k) as [->|]; [by rewrite E|by rewrite andb_false_r].
Qed.

(** A word stays in its width when bits inside the width change. *)
Lemma bits_bounded n w :
  0 <= n -> (0 <= w < 2 ^ n <-> 0 <= w /\ forall k, n <= k -> Z.testbit w k = false).
Proof.
  intros Hn. split.
  - intros [H0 H1]. split; [done|]. intros k Hk.
    destruct (Z.eq_dec w 0) as [->|]; [apply Z.bits_0|].
    apply Z.bits_above_log2; [done|].
    enough (Z.log2 w < n) by lia. apply Z.log2_lt_pow2; lia.
  - intros [H0 Hk]. split; [done|].
    destruct (Z.eq_dec w 0) as [->|]; [lia|].
    apply Z.log2_lt_pow2; [lia|].
    destruct (Z.lt_ge_cases (Z.log2 w) n) as [|Hge]; [done|].
    specialize (Hk (Z.log2 w) Hge). rewrite Z.bit_log2 in Hk by lia. done.
Qed.

Lemma bit_set_bounded n w j :
  0 <= j < n -> 0 <= w < 2 ^ n -> 0 <= bit_set w j < 2 ^ n.
Proof.
  intros Hj Hw. apply bits_bounded in Hw as [H0 Hk]; [|lia].
  apply bits_bounded; [lia|]. split.
  - unfold bit_set. apply Z.lor_nonneg. split; [done|].
    apply Z.shiftl_nonneg. lia.
  - intros k Hnk. rewrite bit_set_spec, Hk by lia.
    by rewrite (proj2 (Z.eqb_neq j k)) by lia.
Qed.

Lemma bit_clear_bounded n w j :
  0 <= j < n -> 0 <= w < 2 ^ n -> 0 <= bit_clear w j < 2 ^ n.
Proof.
  intros Hj Hw. apply bits_bounded in Hw as [H0 Hk]; [|lia].
  apply bits_bounded; [lia|]. split.
  - unfold bit_clear. apply Z.ldiff_nonneg. by left.
  - intros k Hnk. rewrite bit_clear_spec, Hk by lia. by rewrite andb_false_r.
Qed.

(** [z & ~low] and the low bits of [z], as arithmetic. *)
Lemma land_ones_mod z n : 0 <= n -> Z.land z (Z.ones n) = z mod 2 ^ n.
Proof. intros. by apply Z.land_ones. Qed.

(** Gluing two halves of a number: the high part shifted, the low part in
    the low bits. *)
Lemma lor_shiftl_add lo hi n :
  0 <= n -> 0 <= lo < 2 ^ n -> Z.lor lo (Z.shiftl hi n) = lo + hi * 2 ^ n.
Proof.
  intros Hn Hlo. rewrite <- Z.shiftl_mul_pow2 by done.
  assert (Z.land lo (Z.shiftl hi n) = 0) as Hz.
  { apply Z.bits_inj'. intros k Hk. rewrite Z.land_spec, Z.shiftl_spec, Z.bits_0 by done.
    destruct (Z.lt_ge_cases k n).
    - rewrite (Z.testbit_neg_r hi) by lia. apply andb_false_r.
    - apply bits_bounded in Hlo as [_ ->]; [done|lia..]. }
  rewrite Z.add_nocarry_lxor by done. by rewrite Z.lxor_lor.
Qed.

(** ** Arrays indexed by C integers *)

(** [l[i]], with nothing outside the array. *)
Definition zlookup {A} (l : list A) (i : Z) : option A :=
  if i <? 0 then None else l !! Z.to_nat i.

(** [l[i] = x]; the callers fault first when [i] is outside the array. *)
Definition zinsert {A} (i : Z) (x : A) (l : list A) : list A :=
  if i <? 0 then l else <[Z.to_nat i := x]> l.

Definition zlen {A} (l : list A) : Z := Z.of_nat (length l).

Lemma zlookup_lt_is_Some {A} (l : list A) i :
  is_Some (zlookup l i) <-> 0 <= i < zlen l.
Proof.
  unfold zlookup, zlen. destruct (Z.ltb_spec i 0) as [Hi|Hi].
  - split; [by intros [? ?]|lia].
  - rewrite lookup_lt_is_Some. lia.
Qed.

Lemma zlookup_Some_range {A} (l : list A) i x :
  zlookup l i = Some x -> 0 <= i < zlen l.
Proof. intros H. apply zlookup_lt_is_Some. eauto. Qed.

Lemma zlookup_insert {A} (l : list A) i x :
  0 <= i < zlen l -> zlookup (zinsert i x l) i = Some x.
Proof.
  unfold zlookup, zinsert, zlen. intros H.
  rewrite (proj2 (Z.ltb_ge i 0)) by lia. apply list_lookup_insert_eq. lia.
Qed.

Lemma zlookup_insert_ne {A} (l : list A) i j x :
  i <> j -> zlookup (zinsert i x l) j = zlookup l j.
Proof.
  unfold zlookup, zinsert. intros H.
  destruct (Z.ltb_spec i 0), (Z.ltb_spec j 0); try done.
  apply list_lookup_insert_ne. lia.
Qed.

Lemma zlen_insert {A} (l : list A) i x : zlen (zinsert i x l) = zlen l.
Proof.
  unfold zlen, zinsert. destruct (i <? 0); [done|]. by rewrite length_insert.
Qed.

Lemma zlookup_Forall {A} (P : A -> Prop) (l : list A) i x :
  Forall P l -> zlookup l i = Some x -> P x.
Proof.
  unfold zlookup. destruct (i <? 0); [done|]. intros HF Hx.
  by eapply Forall_lookup_1.
Qed.

Lemma zinsert_Forall {A} (P : A -> Prop) (l : list A) i x :
  Forall P l -> P x -> Forall P (zinsert i x l).
Proof.
  unfold zinsert. destruct (i <? 0); [done|]. intros. by apply Forall_insert.
Qed.

Lemma zlookup_app_mid {A} (pre : list A) x post : zlookup (pre ++ x :: post) (zlen pre) = Some x.
Proof.
  unfold zlookup, zlen. rewrite (proj2 (Z.ltb_ge _ 0)) by lia.
  rewrite Nat2Z.id, list_lookup_middle; done.
Qed.

Lemma zinsert_app_mid {A} (pre : list A) x y post :
  zinsert (zlen pre) y (pre ++ x :: post) = pre ++ y :: post.
Proof.
  unfold zinsert, zlen. rewrite (proj2 (Z.ltb_ge _ 0)) by lia.
  rewrite Nat2Z.id. replace (length pre) with (length pre + 0)%nat by lia.
  by rewrite insert_app_r.
Qed.

Lemma zlen_cons {A} (x : A) l : zlen (x :: l) = 1 + zlen l.
Proof. unfold zlen. cbn. lia. Qed.

Lemma zlen_app {A} (l k : list A) : zlen (l ++ k) = zlen l + zlen k.
Proof. unfold zlen. rewrite length_app. lia. Qed.

Lemma zlen_nil {A} : zlen (@nil A) = 0.
Proof. done. Qed.

Lemma zlen_nonneg {A} (l : list A) : 0 <= zlen l.
Proof. unfold zlen. lia. Qed.

Lemma app_cons_assoc {A} (pre : list A) x post : pre ++ x :: post = (pre ++ [x]) ++ post.
Proof. by rewrite <- app_assoc. Qed.

Lemma drop_cons_lookup {A} n (l : list A) :
  (n < length l)%nat -> exists x, drop n l = x :: drop (S n) l.
Proof.
  intros [x Hx]%lookup_lt_is_Some. exists x. by apply drop_S.
Qed.

Create Rewrite HintDb arrays.
#[export] Hint Rewrite @zlen_insert @zlen_cons @zlen_app @zlen_nil : arrays.

(** ** Byte buffers as the state of a loop *)

(** [str[i]] and [str[i] = c]; outside the buffer is a fault. *)
Definition buf_get (i : Z) : M (list Z) Z :=
  let! b := gets id in some (zlookup b i).

Definition buf_set (i c : Z) : M (list Z) unit :=
  let! old := buf_get i in modify (zinsert i c).

Lemma wp_buf_get pre x post i (Q : Z -> list Z -> Prop) E :
  i = zlen pre -> Q x (pre ++ x :: post) -> wp (buf_get i) Q E (pre ++ x :: post).
Proof. intros -> HQ. unfold buf_get. wp_cond. unfold id. by rewrite zlookup_app_mid. Qed.

Lemma wp_buf_set pre x post i c (Q : unit -> list Z -> Prop) E :
  i = zlen pre -> Q tt (pre ++ c :: post) -> wp (buf_set i c) Q E (pre ++ x :: post).
Proof.
  intros -> HQ. unfold buf_set. wp_steps. apply wp_buf_get; [done|]. wp_steps.
  by rewrite zinsert_app_mid.
Qed.

(** From here on only the rules above reason about runs; evaluation is not
    affected. *)
#[global] Opaque wp loop for_up for_ret for_fold.
