(* ===== verification/Interfaces.v ===== *)
(** * What the components promise one another

    The physical memory manager hands 4 KiB frames to the paging code, the
    kernel heap, the task and the process code; the kernel heap hands objects
    to everything else.  Clients are verified against these classes; pmm.c is
    an instance of [FrameAlloc] (file Pmm). *)
From S2P Require Import Prelude.

Definition BLOCK_SIZE : Z := 4096.

(** ** Physical frames *)

(** [frame_try_alloc] is [pmm_alloc_blocks(1)] (0 when out of memory) and
    [frame_free] is [pmm_free_blocks(p, 1)]; frames are named by number. *)
Class FrameAlloc (F : Type) : Type := {
  frame_try_alloc : M F Z;
  frame_free : Z -> M F unit;
  frame_used : F -> Z -> bool;
  frame_count : F -> Z;
  frame_ok : F -> Prop;
}.

(** [f'] is [f] with frame [b] set to [v]. *)
Definition frame_marked `{FrameAlloc F} (f : F) (v : bool) (b : Z) (f' : F) : Prop :=
  frame_ok f' /\ frame_count f' = frame_count f /\
  forall c, 0 <= c -> frame_used f' c = if b =? c then v else frame_used f c.

Class FrameAllocLaws (F : Type) `{FrameAlloc F} : Prop := {
  frame_try_alloc_spec (f : F) :
    frame_ok f ->
    wp frame_try_alloc (fun p f' =>
      (p = 0 /\ f' = f) \/
      exists b, p = b * BLOCK_SIZE /\ 0 < b < frame_count f /\
        frame_used f b = false /\ frame_marked f true b f') never f;
  frame_free_spec (f : F) (b : Z) :
    frame_ok f -> 0 <= b < frame_count f ->
    wp (frame_free (b * BLOCK_SIZE)) (fun _ f' => frame_marked f false b f') never f;
  frame_count_bound (f : F) : frame_ok f -> 0 <= frame_count f <= 2 ^ 20;
}.

(** [pmm_alloc_blocks_safe(1)]. *)
Definition frame_alloc_safe `{FrameAlloc F} : M F Z :=
  let! v := frame_try_alloc in
  kassert_memory (negb (v =? 0)) >>> ret v.

Lemma frame_alloc_safe_spec `{FrameAllocLaws F} (f : F) :
  frame_ok f ->
  wp frame_alloc_safe (fun p f' =>
    exists b, p = b * BLOCK_SIZE /\ 0 < b < frame_count f /\
      frame_used f b = false /\ frame_marked f true b f') only_nomem f.
Proof.
  intros Hok. unfold frame_alloc_safe, kassert_memory.
  wp_apply frame_try_alloc_spec; [done| |by intros e []].
  intros p f' Hp. wp_cond. destruct (Z.eqb_spec p 0); cbn; [done|]. wp_steps.
  destruct Hp as [[-> _]|Hp]; [done|exact Hp].
Qed.

(** *** Frames named by a predicate

    The smallest implementation of the interface: the first free frame. *)
Record bits : Type := Bits { bits_used : Z -> bool; bits_count : Z }.

Definition bits_alloc : M bits Z := fun f =>
  match list_find (fun b => bits_used f b = false) (seqZ 1 (bits_count f - 1)) with
  | Some (_, b) => Ok (b * BLOCK_SIZE, Bits (fun c => if b =? c then true else bits_used f c) (bits_count f))
  | None => Ok (0, f)
  end.

Definition bits_free (p : Z) : M bits unit := fun f =>
  Ok (tt, Bits (fun c => if p / BLOCK_SIZE =? c then false else bits_used f c) (bits_count f)).

#[export] Instance bits_frames : FrameAlloc bits := {
  frame_try_alloc := bits_alloc;
  frame_free := bits_free;
  frame_used := bits_used;
  frame_count := bits_count;
  frame_ok f := 0 <= bits_count f <= 2 ^ 20;
}.

#[export] Instance bits_frames_laws : FrameAllocLaws bits.
Proof.
  split; [| |done].
  - intros f Hok. apply wp_intro. cbn [frame_try_alloc bits_frames]. unfold bits_alloc.
    destruct (list_find _ _) as [[i b]|] eqn:Hl; [|by left].
    apply list_find_Some in Hl as (Hb & Hu & _). right. exists b. split; [done|].
    apply lookup_seqZ in Hb. cbn in *. split; [lia|]. split; [done|]. done.
  - intros f b Hok Hb. apply wp_intro. cbn. unfold bits_free. rewrite Z.div_mul by done. done.
Qed.

(** ** The kernel heap *)

(** [kcalloc]/[kmalloc] and [kfree] as clients see them: [heap_live] is the
    set of addresses of objects handed out and not freed.  [heap_room h n]:
    [krealloc] finds a block of [n] bytes (it answers NULL otherwise; nothing is
    assumed of when it does). *)
Class KHeap (H : Type) : Type := {
  kcalloc : Z -> M H Z;
  kfree : Z -> M H unit;
  heap_room : H -> Z -> bool;
  heap_live : H -> gset Z;
  heap_ok : H -> Prop;
}.

(** [kcalloc] asserts that it succeeded, so it never answers NULL, and an
    object of no bytes has an address of its own. *)
Class KHeapLaws (H : Type) `{KHeap H} : Prop := {
  heap_live_range (h : H) (p : Z) : heap_ok h -> p ∈ heap_live h -> 0 < p < 2 ^ 32;
  kcalloc_spec (h : H) (n : Z) :
    heap_ok h -> 0 <= n ->
    wp (kcalloc n) (fun p h' =>
      heap_ok h' /\ 0 < p < 2 ^ 32 /\ (p ∉ heap_live h) /\
      heap_live h' = {[ p ]} ∪ heap_live h) only_nomem h;
  kfree_spec (h : H) (p : Z) :
    heap_ok h -> p ∈ heap_live h ->
    wp (kfree p) (fun _ h' =>
      heap_ok h' /\ heap_live h' = heap_live h ∖ {[ p ]}) never h;
}.

(** *** A heap that only bumps a pointer

    The smallest implementation of the interface, used to run the clients on
    concrete inputs. *)
Record bump : Type := Bump { bump_next : Z; bump_live : gset Z }.

Definition bump_ok (h : bump) : Prop :=
  0 < bump_next h <= 2 ^ 32 /\ forall p, p ∈ bump_live h -> 0 < p < bump_next h.

Definition bump_alloc (n : Z) : M bump Z := fun h =>
  let p := bump_next h in
  if (p + Z.max 1 n <? 2 ^ 32) then
    Ok (p, Bump (p + Z.max 1 n) ({[ p ]} ∪ bump_live h))
  else Err NoMemory.

Definition bump_free (p : Z) : M bump unit := fun h =>
  if bool_decide (p ∈ bump_live h) then
    Ok (tt, Bump (bump_next h) (bump_live h ∖ {[ p ]}))
  else Err AssertFail.

#[export] Instance bump_heap : KHeap bump := {
  kcalloc := bump_alloc;
  kfree := bump_free;
  heap_room h n := bump_next h + Z.max 1 n <? 2 ^ 32;
  heap_live := bump_live;
  heap_ok := bump_ok;
}.

#[export] Instance bump_heap_laws : KHeapLaws bump.
Proof.
  split.
  - intros h p [Hn Hl] Hp%Hl. lia.
  - intros h n [Hn Hl] Hpos. cbn. unfold bump_alloc.
    apply wp_intro. destruct (Z.ltb_spec (bump_next h + Z.max 1 n) (2 ^ 32)); [|done].
    split; [split; cbn; [lia|]|].
    + intros p [->%elem_of_singleton|Hp%Hl]%elem_of_union; lia.
    + split; [lia|]. split; [|done]. intros Hin%Hl. lia.
  - intros h p [Hn Hl] Hp. cbn in *. apply wp_intro. unfold bump_free.
    rewrite bool_decide_eq_true_2 by done. split; [|done].
    split; cbn; [done|]. intros q Hq. apply elem_of_difference in Hq as [Hq _]. auto.
Qed.

(** A heap has fewer than 2^32 objects. *)
Lemma heap_live_count `{KHeapLaws H} (h : H) (l : list Z) :
  heap_ok h -> NoDup l -> (forall p, p ∈ l -> p ∈ heap_live h) ->
  Z.of_nat (length l) < 2 ^ 32.
Proof.
  intros Hok Hnd Hl.
  assert (l ⊆+ seqZ 1 (2 ^ 32 - 1)) as Hsub.
  { apply NoDup_submseteq; [done|]. intros p Hp%Hl. apply elem_of_seqZ.
    pose proof (heap_live_range h p Hok Hp). lia. }
  apply submseteq_length in Hsub. rewrite length_seqZ in Hsub. lia.
Qed.
