(* ===== verification/Pmm.v ===== *)
(** * The physical memory manager (kernel/pmm.c)

    The bitmap of physical blocks, with one bit per 4 KiB block, as an array of
    32-bit words, and the operations of pmm.c on it.  The abstract view is the
    predicate [used]: which blocks are taken. *)
From S2P Require Import Prelude Interfaces.

(** The globals [block_map] (the memory it points to, as words) and
    [block_map_size]. *)
Record pmm : Type := Pmm {
  block_map : list Z;
  block_map_size : Z;
}.

Definition set_block_map (m : list Z) (s : pmm) : pmm :=
  Pmm m (block_map_size s).

(** [block_map[i]]. *)
Definition map_word (i : Z) : M pmm Z :=
  let! m := gets block_map in some (zlookup m i).

Definition pmm_set_block (block : Z) : M pmm unit :=
  let! n := gets block_map_size in
  kassert (block <? n) >>>
  let! w := map_word (block / 32) in
  modify (fun s =>
    set_block_map (zinsert (block / 32) (bit_set w (block mod 32)) (block_map s)) s).

Definition pmm_unset_block (block : Z) : M pmm unit :=
  let! n := gets block_map_size in
  kassert (block <? n) >>>
  let! w := map_word (block / 32) in
  modify (fun s =>
    set_block_map (zinsert (block / 32) (bit_clear w (block mod 32)) (block_map s)) s).

Definition pmm_test_block (block : Z) : M pmm bool :=
  let! n := gets block_map_size in
  kassert (block <? n) >>>
  let! w := map_word (block / 32) in
  ret (bit_test w (block mod 32)).

Definition pmm_find_first_free : M pmm Z :=
  let! n := gets block_map_size in
  let! r := for_ret (Z.to_nat (n / 32)) 0 (fun i =>
    let! w := map_word i in
    if w =? 0xFFFFFFFF then ret None
    else for_ret 32 0 (fun j =>
      let! w := map_word i in
      ret (if bit_test w j then None else Some (u32 (i * 32 + j))))) in
  ret (default 0 r).

(** The [while] of [pmm_find_region]: how many of the [size] blocks from
    [start] are free. *)
Definition find_region_extend (start size : Z) (fuel : nat) : M pmm Z :=
  loop fuel (fun len =>
    if len <? size then
      let block := u32 (start + len) in
      let! n := gets block_map_size in
      kassert (block <? n) >>>
      let! t := pmm_test_block block in
      ret (if t then inr len else inl (len + 1))
    else ret (inr len)) 1.

(** One round of the loop over [j]; the word index [i] moves with it. *)
Definition find_region_bit (size : Z) (ij : Z * Z) :
    M pmm ((Z * Z) + (Z + Z)) :=
  let '(i, j) := ij in
  if j <? 32 then
    let! w := map_word i in
    if bit_test w j then ret (inl (i, j + 1))
    else
      let start := u32 (i * 32 + j) in
      let! n := gets block_map_size in
      let! len := find_region_extend start size (2 + Z.to_nat n) in
      if len =? size then ret (inr (inr start))
      else ret (inl (i + len / 32, j + len mod 32 + 1))
  else ret (inr (inl i)).

Definition pmm_find_region (size : Z) : M pmm Z :=
  kassert (negb (size =? 0)) >>>
  if size =? 1 then pmm_find_first_free
  else
    let! n := gets block_map_size in
    loop (1 + Z.to_nat n) (fun i =>
      if i <? n / 32 then
        let! w := map_word i in
        if w =? 0xFFFFFFFF then ret (inl (i + 1))
        else
          let! r := loop 33 (find_region_bit size) (i, 0) in
          ret (match r with inl i' => inl (i' + 1) | inr start => inr start end)
      else ret (inr 0)) 0.

Definition pmm_alloc_blocks (size : Z) : M pmm Z :=
  kassert (negb (size =? 0)) >>>
  let! block := pmm_find_region size in
  if block =? 0 then ret 0
  else
    for_up (Z.to_nat size) 0 (fun i => pmm_set_block (u32 (block + i))) >>>
    ret (u32 (block * BLOCK_SIZE)).

Definition pmm_free_blocks (p size : Z) : M pmm unit :=
  kassert (negb (size =? 0)) >>>
  let block := u32 p / BLOCK_SIZE in
  for_up (Z.to_nat size) 0 (fun i => pmm_unset_block (u32 (block + i))).

Definition pmm_alloc_blocks_safe (size : Z) : M pmm Z :=
  let! v := pmm_alloc_blocks size in
  kassert (negb (v =? 0)) >>> ret v.

Definition pmm_count_free_blocks : M pmm Z :=
  let! n := gets block_map_size in
  for_fold (Z.to_nat n) 0 0 (fun i count =>
    let! t := pmm_test_block i in
    ret (if t then count else count + 1)).

(** [memset(p, 0xFF, n)] on an array of words: [n] counts bytes. *)
Definition memset_ff (n : Z) (mem : list Z) : list Z :=
  imap (fun k w =>
    let b := 4 * Z.of_nat k in
    if b + 4 <=? n then 0xFFFFFFFF
    else if b <? n then Z.lor w (Z.ones (8 * (n - b))) else w) mem.

(** [mem] is the memory at [mem_map]: what the memset does to it.  What it does
    to the memory behind the map is [Boot.filled]. *)
Definition pmm_init (mem : list Z) (mem_size : Z) : M pmm unit :=
  let n := mem_size / BLOCK_SIZE in
  modify (fun _ => Pmm mem n) >>>
  kassert (negb (n =? 0)) >>>
  (if n <=? 4 * zlen mem then ret tt else fail Fault) >>>
  modify (set_block_map (memset_ff n mem)).

(** ** The abstract view *)

Definition used (s : pmm) (b : Z) : bool :=
  match zlookup (block_map s) (b / 32) with
  | Some w => Z.testbit w (b mod 32)
  | None => true
  end.

(** A 32-bit machine has at most 2^20 blocks, and the array holds a bit for
    each block of [block_map_size]. *)
Record pmm_wf (s : pmm) : Prop := PmmWf {
  pmm_wf_words : Forall is_u32 (block_map s);
  pmm_wf_size : 0 <= block_map_size s <= 2 ^ 20;
  pmm_wf_fits : block_map_size s <= 32 * zlen (block_map s);
}.

(** [s'] is [s] with the blocks [b .. b+n-1] set to [v]. *)
Record mark_range (s : pmm) (v : bool) (b n : Z) (s' : pmm) : Prop := MarkRange {
  mark_wf : pmm_wf s';
  mark_size : block_map_size s' = block_map_size s;
  mark_len : zlen (block_map s') = zlen (block_map s);
  mark_used : forall c, 0 <= c ->
    used s' c = if (b <=? c) && (c <? b + n) then v else used s c;
}.

Definition range_free (s : pmm) (b n : Z) : Prop :=
  forall c, b <= c < b + n -> used s c = false.


Lemma block_index s b :
  pmm_wf s -> 0 <= b < block_map_size s ->
  exists w, zlookup (block_map s) (b / 32) = Some w /\ is_u32 w /\
    used s b = Z.testbit w (b mod 32) /\ 0 <= b mod 32 < 32.
Proof.
  intros [Hw Hs Hf] Hb.
  assert (is_Some (zlookup (block_map s) (b / 32))) as [w Ew].
  { apply zlookup_lt_is_Some. pose proof (Z.div_mod b 32 ltac:(lia)).
    pose proof (Z.mod_pos_bound b 32 ltac:(lia)). lia. }
  exists w. split; [done|]. split; [by eapply (zlookup_Forall is_u32)|].
  split; [by unfold used; rewrite Ew|]. apply Z.mod_pos_bound. lia.
Qed.

Lemma used_store s i w c :
  0 <= i < zlen (block_map s) -> 0 <= c ->
  used (set_block_map (zinsert i w (block_map s)) s) c =
  if c / 32 =? i then Z.testbit w (c mod 32) else used s c.
Proof.
  intros Hi Hc. unfold used. cbn.
  destruct (Z.eqb_spec (c / 32) i) as [->|Hne].
  - by rewrite zlookup_insert.
  - by rewrite zlookup_insert_ne.
Qed.

Lemma same_block b c : (b / 32 =? c / 32) && (b mod 32 =? c mod 32) = (b =? c).
Proof.
  apply eq_true_iff_eq. rewrite andb_true_iff, !Z.eqb_eq. split; [|by intros ->].
  intros [Hd Hm]. rewrite (Z.div_mod b 32), (Z.div_mod c 32) by lia. congruence.
Qed.

(** Writing one word back, with the bit of block [b] changed to [v]. *)
Lemma store_bit_mark s b w w' v :
  pmm_wf s -> 0 <= b < block_map_size s ->
  zlookup (block_map s) (b / 32) = Some w -> is_u32 w' ->
  (forall k, 0 <= k -> Z.testbit w' k = if b mod 32 =? k then v else Z.testbit w k) ->
  mark_range s v b 1 (set_block_map (zinsert (b / 32) w' (block_map s)) s).
Proof.
  intros Hwf Hb Ew Hw' Hbits. pose proof (zlookup_Some_range _ _ _ Ew) as Hi.
  destruct Hwf as [HF Hs Hf]. split; cbn; [split; cbn|done|apply zlen_insert|].
  - by apply zinsert_Forall.
  - done.
  - by rewrite zlen_insert.
  - intros c Hc. rewrite used_store by done.
    replace ((b <=? c) && (c <? b + 1)) with (b =? c) by lia.
    rewrite <- (same_block b c).
    destruct (Z.eqb_spec (c / 32) (b / 32)) as [Hd|Hd].
    + rewrite Hbits by (apply Z.mod_pos_bound; lia).
      rewrite Hd, Z.eqb_refl. cbn. destruct (Z.eqb_spec (b mod 32) (c mod 32)); [done|].
      unfold used. by rewrite Hd, Ew.
    + rewrite (proj2 (Z.eqb_neq (b / 32) (c / 32))) by done. done.
Qed.

(** An [assert] fails exactly when [P] does not hold. *)
Definition asserts (P : Prop) : panic -> Prop := fun e => e = AssertFail /\ ~ P.

Lemma wp_set_block s b :
  pmm_wf s -> 0 <= b ->
  wp (pmm_set_block b) (fun _ s' => b < block_map_size s /\ mark_range s true b 1 s')
    (asserts (b < block_map_size s)) s.
Proof.
  intros Hwf Hb. unfold pmm_set_block. wp_cond.
  destruct (Z.ltb_spec b (block_map_size s)) as [Hlt|]; [|split; [done|lia]].
  destruct (block_index s b) as (w & Ew & Hw & _ & Hm); [done|lia|].
  unfold map_word. wp_cond. rewrite Ew. wp_steps. split; [done|].
  eapply store_bit_mark; [done|lia|done| |].
  - apply bit_set_bounded; done.
  - intros k Hk. rewrite bit_set_spec by lia. by destruct (b mod 32 =? k).
Qed.

Lemma wp_unset_block s b :
  pmm_wf s -> 0 <= b ->
  wp (pmm_unset_block b) (fun _ s' => b < block_map_size s /\ mark_range s false b 1 s')
    (asserts (b < block_map_size s)) s.
Proof.
  intros Hwf Hb. unfold pmm_unset_block. wp_cond.
  destruct (Z.ltb_spec b (block_map_size s)) as [Hlt|]; [|split; [done|lia]].
  destruct (block_index s b) as (w & Ew & Hw & _ & Hm); [done|lia|].
  unfold map_word. wp_cond. rewrite Ew. wp_steps. split; [done|].
  eapply store_bit_mark; [done|lia|done| |].
  - apply bit_clear_bounded; done.
  - intros k Hk. rewrite bit_clear_spec by lia. by destruct (b mod 32 =? k).
Qed.

Lemma wp_test_block s b :
  pmm_wf s -> 0 <= b ->
  wp (pmm_test_block b) (fun r s' => s' = s /\ r = used s b /\ b < block_map_size s)
    (asserts (b < block_map_size s)) s.
Proof.
  intros Hwf Hb. unfold pmm_test_block. wp_cond.
  destruct (Z.ltb_spec b (block_map_size s)) as [Hlt|]; [|split; [done|lia]].
  destruct (block_index s b) as (w & Ew & Hw & Hu & Hm); [done|lia|].
  unfold map_word. wp_cond. rewrite Ew. wp_steps.
  by rewrite bit_test_spec, Hu by lia.
Qed.

Lemma mark_range_refl s v b : pmm_wf s -> mark_range s v b 0 s.
Proof.
  intros H. split; [done..|]. intros c Hc.
  by replace ((b <=? c) && (c <? b + 0)) with false by lia.
Qed.

Lemma mark_range_snoc s v b n s1 s2 :
  0 <= b -> 0 <= n ->
  mark_range s v b n s1 -> mark_range s1 v (b + n) 1 s2 ->
  mark_range s v b (n + 1) s2.
Proof.
  intros Hb Hn [W1 S1 L1 U1] [W2 S2 L2 U2].
  split; [done|congruence|congruence|]. intros c Hc. rewrite U2, U1 by done.
  destruct (Z.leb_spec b c), (Z.ltb_spec c (b + n)), (Z.leb_spec (b + n) c),
    (Z.ltb_spec c (b + n + 1)), (Z.ltb_spec c (b + (n + 1))); cbn; try done; lia.
Qed.

(** Two maps of the same length with the same blocks used are the same. *)
Lemma pmm_ext s s' :
  pmm_wf s -> pmm_wf s' -> block_map_size s = block_map_size s' ->
  zlen (block_map s) = zlen (block_map s') ->
  (forall c, 0 <= c -> used s c = used s' c) -> s = s'.
Proof.
  destruct s as [m n], s' as [m' n']. cbn. intros [HF _ _] [HF' _ _] -> Hl Hu.
  cbn in *. f_equal. unfold zlen in Hl. apply list_eq_same_length with (length m'); [done|lia|].
  intros i w w' Hi Hw Hw'. apply Z.bits_inj'. intros k Hk.
  pose proof (Forall_lookup_1 _ _ _ _ HF Hw) as Bw.
  pose proof (Forall_lookup_1 _ _ _ _ HF' Hw') as Bw'.
  apply (bits_bounded 32) in Bw as [_ Bw]; [|lia].
  apply (bits_bounded 32) in Bw' as [_ Bw']; [|lia].
  destruct (Z.lt_ge_cases k 32) as [Hk32|]; [|by rewrite Bw, Bw'].
  specialize (Hu (32 * Z.of_nat i + k) ltac:(lia)). unfold used, zlookup in Hu. cbn in Hu.
  replace ((32 * Z.of_nat i + k) / 32) with (Z.of_nat i) in Hu
    by (apply Z.div_unique with k; lia).
  replace ((32 * Z.of_nat i + k) mod 32) with k in Hu
    by (apply Z.mod_unique with (Z.of_nat i); lia).
  rewrite (proj2 (Z.ltb_ge (Z.of_nat i) 0)), Nat2Z.id, Hw, Hw' in Hu by lia. done.
Qed.

(** ** Searching *)

Lemma full_word_used s b w :
  zlookup (block_map s) (b / 32) = Some w -> w = 0xFFFFFFFF -> used s b = true.
Proof.
  intros Hw ->. unfold used. rewrite Hw. change 0xFFFFFFFF with (Z.ones 32).
  apply Z.ones_spec_low. apply Z.mod_pos_bound. lia.
Qed.

Lemma word_in_map s i :
  pmm_wf s -> 0 <= i < block_map_size s / 32 ->
  exists w, zlookup (block_map s) i = Some w.
Proof.
  intros [_ Hs Hf] Hi. apply zlookup_lt_is_Some.
  pose proof (Z.mul_div_le (block_map_size s) 32 ltac:(lia)). lia.
Qed.

Lemma div32_block i j : 0 <= j < 32 -> (i * 32 + j) / 32 = i.
Proof. intros H. symmetry. apply Z.div_unique with j; lia. Qed.

Lemma mod32_block i j : 0 <= j < 32 -> (i * 32 + j) mod 32 = j.
Proof. intros H. symmetry. apply Z.mod_unique with i; lia. Qed.

Lemma used_word s i j w :
  zlookup (block_map s) i = Some w -> 0 <= j < 32 ->
  used s (i * 32 + j) = bit_test w j.
Proof.
  intros Hw Hj. unfold used. rewrite div32_block, mod32_block, Hw by done.
  by rewrite bit_test_spec by lia.
Qed.

(** Whole words only are searched: the last [block_map_size mod 32] blocks are
    never found. *)
Definition searched (s : pmm) : Z := 32 * (block_map_size s / 32).

(** The least free block, or 0 when there is none. *)
Definition first_free (s : pmm) (r : Z) : Prop :=
  (0 <= r < searched s /\ used s r = false /\
     forall c, 0 <= c < r -> used s c = true) \/
  (r = 0 /\ forall c, 0 <= c < searched s -> used s c = true).

Lemma wp_find_first_free s :
  pmm_wf s ->
  wp pmm_find_first_free (fun r s' => s' = s /\ first_free s r) never s.
Proof.
  intros Hwf. pose proof (pmm_wf_size s Hwf) as Hs.
  pose proof (Z.div_pos (block_map_size s) 32 ltac:(lia) ltac:(lia)) as Hd.
  pose proof (Z.mul_div_le (block_map_size s) 32 ltac:(lia)) as Hd'.
  unfold pmm_find_first_free. wp_steps.
  eapply wp_mono; [eapply (wp_for_ret
    (fun i s' => s' = s /\ forall c, 0 <= c < 32 * i -> used s c = true)
    (fun r s' => s' = s /\ 0 <= r < searched s /\ used s r = false /\
       forall c, 0 <= c < r -> used s c = true))| |done].
  - split; [done|lia].
  - intros i s' Hi [-> Hpre]. destruct (word_in_map s i) as [w Hw]; [done|lia|].
    unfold map_word. wp_cond. rewrite Hw. wp_cond.
    destruct (Z.eqb_spec w 0xFFFFFFFF) as [Hfull|_].
    { wp_steps. split; [done|]. intros c Hc.
      destruct (Z.lt_ge_cases c (32 * i)) as [Hlt|Hge]; [apply Hpre; lia|].
      eapply full_word_used; [|done]. replace (c / 32) with i; [done|].
      apply Z.div_unique with (c - 32 * i); lia. }
    eapply wp_mono; [eapply (wp_for_ret
      (fun j s' => s' = s /\ forall c, 0 <= c < 32 * i + j -> used s c = true)
      (fun r s' => s' = s /\ 0 <= r < searched s /\ used s r = false /\
        forall c, 0 <= c < r -> used s c = true))| |done].
    + split; [done|]. rewrite Z.add_0_r. done.
    + intros j s' Hj [-> Hpre']. wp_cond. rewrite Hw. wp_steps.
      pose proof (used_word s i j w Hw ltac:(lia)) as Hu.
      destruct (bit_test w j).
      * split; [done|]. intros c Hc.
        destruct (Z.eq_dec c (i * 32 + j)) as [->|]; [done|apply Hpre'; lia].
      * unfold searched.
        rewrite u32_small by (unfold is_u32; lia). split; [done|].
        split; [lia|]. split; [done|]. intros c Hc. apply Hpre'. lia.
    + intros [b|] s'; [done|]. intros [-> H]. split; [done|].
      intros c Hc. apply H. lia.
  - intros [b|] s'; wp_steps.
    + intros (-> & H). split; [done|]. left. exact H.
    + intros [-> H]. split; [done|]. right. split; [done|].
      intros c Hc. apply H. unfold searched in Hc. lia.
Qed.

Lemma wp_find_region_extend s start size fuel :
  pmm_wf s -> 0 <= start < block_map_size s + 32 -> 2 <= size ->
  used s start = false -> (Z.to_nat (block_map_size s) + 1 < fuel)%nat ->
  wp (find_region_extend start size fuel)
    (fun len s' => s' = s /\ 1 <= len <= size /\ range_free s start len /\
       if len =? size then start + len <= block_map_size s
       else start + len < block_map_size s /\ used s (start + len) = true)
    (fun e => e = AssertFail /\ range_free s start (block_map_size s - start) /\ block_map_size s < start + size) s.
Proof.
  intros Hwf Hst Hsz Hfree Hfuel. pose proof (pmm_wf_size s Hwf) as Hs.
  unfold find_region_extend.
  apply (wp_loop (fun len s' => s' = s /\ 1 <= len <= size /\ range_free s start len /\
      (len = 1 \/ start + len <= block_map_size s))
    (fun len _ => Z.to_nat (block_map_size s + 1 - len))); [|split; [done|]|lia].
  - intros len s' (-> & Hl & Hr & Hb). wp_cond.
    destruct (Z.ltb_spec len size) as [Hlt|Hge].
    + rewrite u32_small by (unfold is_u32; lia). wp_cond.
      destruct (Z.ltb_spec (start + len) (block_map_size s)) as [Hin|].
      2: { split; [done|]. split; [|lia]. intros c Hc. apply Hr. lia. }
      wp_apply wp_test_block; [done|lia| |by intros e []].
      intros t s' (-> & -> & _). wp_steps. destruct (used s (start + len)) eqn:Hu.
      * split; [done|]. split; [lia|]. split; [done|].
        rewrite (proj2 (Z.eqb_neq len size)) by lia. done.
      * split; [|lia]. split; [done|]. split; [lia|]. split; [|lia].
        intros c Hc. destruct (Z.eq_dec c (start + len)) as [->|]; [done|].
        apply Hr. lia.
    + wp_steps. split; [done|]. split; [lia|]. split; [done|].
      rewrite (proj2 (Z.eqb_eq len size)) by lia. lia.
  - split; [lia|]. split; [|by left]. intros c Hc. by replace c with start by lia.
Qed.

(** What a search for [size] blocks may answer. *)
Definition region_found (s : pmm) (size r : Z) : Prop :=
  0 <= r /\ r + size <= block_map_size s /\ range_free s r size.

(** No free run of [size] blocks starts below block [n]. *)
Definition no_region_below (s : pmm) (size n : Z) : Prop :=
  forall c, 0 <= c < n -> ~ range_free s c size.

(** Free blocks up to the end of a map of whole words. *)
Definition free_to_end (s : pmm) (c : Z) : Prop :=
  block_map_size s mod 32 = 0 /\ 0 <= c < block_map_size s /\ range_free s c (block_map_size s - c).

(** The search has come to block [n]: nothing that it looks for starts below. *)
Definition passed (s : pmm) (size n : Z) : Prop :=
  no_region_below s size n /\ forall c, c < n -> ~ free_to_end s c.

(** A used block rules out every run that crosses it. *)
Lemma passed_extend s size n b :
  passed s size n -> used s b = true -> b < n + size -> (block_map_size s mod 32 = 0 -> b < block_map_size s) ->
  passed s size (b + 1).
Proof.
  intros [Hn Ht] Hu Hb Hend. split.
  - intros c Hc Hfree. destruct (Z.lt_ge_cases c n) as [|Hge].
    + by apply (Hn c); [lia|].
    + rewrite (Hfree b) in Hu by lia. done.
  - intros c Hc (Hm & Hr & Hfree). specialize (Hend Hm). by rewrite (Hfree b) in Hu by lia.
Qed.

Lemma passed_mono s size n m : passed s size n -> m <= n -> passed s size m.
Proof. intros [H Ht] Hle. split; intros c Hc; [apply H|apply Ht]; lia. Qed.

(** The assertion that stops a search: the map ends in free blocks, and there
    is no run of [size] blocks in it. *)
Definition stuck (s : pmm) (size : Z) : panic -> Prop := fun e =>
  e = AssertFail /\ (block_map_size s mod 32 = 0 ->
    (forall c, 0 <= c -> c + size <= block_map_size s -> ~ range_free s c size) /\ exists c, free_to_end s c).

Lemma stuck_at s size c : passed s size c -> 0 <= c -> (block_map_size s mod 32 = 0 -> c < block_map_size s) ->
  range_free s c (block_map_size s - c) -> block_map_size s < c + size -> stuck s size AssertFail.
Proof.
  intros [Hn _] Hc Hlt Hfree Hend. split; [done|]. intros Hm. split.
  - intros b Hb Hbe Hb'. by apply (Hn b); [lia|].
  - exists c. split; [done|]. split; [|done]. specialize (Hlt Hm). lia.
Qed.

Lemma whole_word s i j : block_map_size s mod 32 = 0 -> 32 * i < block_map_size s -> j < 32 -> 32 * i + j < block_map_size s.
Proof. intros Hm Hi Hj. pose proof (Z.div_mod (block_map_size s) 32 ltac:(lia)). lia. Qed.

(** What is used is passed. *)
Lemma passed_used s size n : 1 <= size -> (forall c, 0 <= c < n -> used s c = true) -> n <= block_map_size s -> passed s size n.
Proof.
  intros Hs Hu Hn. split.
  - intros c Hc Hfree. specialize (Hfree c ltac:(lia)). by rewrite Hu in Hfree by lia.
  - intros c Hc (_ & Hr & Hfree). specialize (Hfree c ltac:(lia)). by rewrite Hu in Hfree by lia.
Qed.

Lemma passed_word s size i : 1 <= size -> passed s size (32 * i) -> 32 * i + 32 <= block_map_size s ->
  (forall c, 32 * i <= c < 32 * i + 32 -> used s c = true) -> passed s size (32 * i + 31 + 1).
Proof.
  intros Hs [Hn Ht] Hi Hall. split.
  - intros c Hc Hfree. destruct (Z.lt_ge_cases c (32 * i)); [by apply (Hn c); [lia|]|]. specialize (Hfree c ltac:(lia)). by rewrite Hall in Hfree by lia.
  - intros c Hc Hf. destruct (Z.lt_ge_cases c (32 * i)); [by apply (Ht c)|]. destruct Hf as (_ & _ & Hfree). specialize (Hfree c ltac:(lia)). by rewrite Hall in Hfree by lia.
Qed.

Lemma wp_find_region_bit s size i j :
  pmm_wf s -> 2 <= size -> 0 <= i -> 32 * i < block_map_size s -> 0 <= j ->
  passed s size (32 * i + j) ->
  wp (find_region_bit size (i, j))
    (fun r s' => s' = s /\
       match r with
       | inl (i', j') => i <= i' /\ 32 * i' < block_map_size s /\ j < j' /\ j < 32 /\
           passed s size (32 * i' + j')
       | inr (inl i') => i <= i' /\ 32 * i' < block_map_size s /\
           passed s size (32 * i' + 32)
       | inr (inr start) => region_found s size start /\ passed s size start
       end)
    (stuck s size) s.
Proof.
  intros Hwf Hsz Hi Hib Hj Hno. pose proof (pmm_wf_size s Hwf) as Hs.
  pose proof (pmm_wf_fits s Hwf) as Hf.
  unfold find_region_bit. wp_cond. destruct (Z.ltb_spec j 32) as [Hlt|].
  2: { wp_steps. split; [done|]. do 2 (split; [lia|]).
       eapply passed_mono; [exact Hno|lia]. }
  assert (is_Some (zlookup (block_map s) i)) as [w Hw]
    by (apply zlookup_lt_is_Some; lia).
  unfold map_word. wp_cond. rewrite Hw.
  pose proof (used_word s i j w Hw ltac:(lia)) as Hu. wp_cond.
  destruct (bit_test w j).
  { wp_steps. split; [done|]. do 4 (split; [lia|]).
    replace (32 * i + (j + 1)) with (i * 32 + j + 1) by lia.
    eapply passed_extend; [exact Hno|done|lia|]. intros Hm. pose proof (whole_word s i j Hm Hib Hlt). lia. }
  rewrite u32_small by (unfold is_u32; lia).
  wp_apply wp_find_region_extend; [done|lia|done|done|lia| |].
  2: { intros e (-> & Hfree & Hend). replace (i * 32 + j) with (32 * i + j) in * by lia. apply (stuck_at s size (32 * i + j)); try done; [lia|]. intros Hm. by apply whole_word. }
  intros len s' (-> & Hl & Hr & Hend). wp_cond.
  destruct (Z.eqb_spec len size) as [->|]; wp_steps; (split; [done|]).
  - replace (i * 32 + j) with (32 * i + j) in * by lia. split; [|done]. split; [lia|]. split; [lia|done].
  - destruct Hend as [Hend Hused].
    pose proof (Z.mod_pos_bound len 32 ltac:(lia)).
    pose proof (Z.div_pos len 32 ltac:(lia) ltac:(lia)).
    pose proof (Z.div_mod len 32 ltac:(lia)) as Hdm.
    do 4 (split; [lia|]).
    replace (32 * (i + len / 32) + (j + len mod 32 + 1))
      with (i * 32 + j + len + 1) by lia.
    eapply passed_extend; [exact Hno|done|lia|]. intros _. lia.
Qed.

(** The search never reads outside the map and always ends; the only way it
    can stop the kernel is the [assert] on a candidate that reaches past the
    last block. *)
Lemma wp_find_region s size :
  pmm_wf s -> 1 <= size < 2 ^ 32 ->
  wp (pmm_find_region size)
    (fun r s' => s' = s /\
       ((r = 0 /\ passed s size (searched s)) \/ (region_found s size r /\ passed s size r)))
    (stuck s size) s.
Proof.
  intros Hwf Hsz. pose proof (pmm_wf_size s Hwf) as Hs.
  pose proof (Z.mul_div_le (block_map_size s) 32 ltac:(lia)) as Hd.
  unfold pmm_find_region. wp_cond.
  rewrite (proj2 (Z.eqb_neq size 0)) by lia. cbn. wp_cond.
  destruct (Z.eqb_spec size 1) as [->|].
  { eapply wp_mono; [by apply wp_find_first_free| |by intros e []].
    intros r s' [-> [(Hr & Hu & Hall)|[-> Hall]]]; (split; [done|]); [right|left].
    - unfold searched in Hr. split.
      + split; [lia|]. split; [lia|]. intros c Hc. by replace c with r by lia.
      + apply passed_used; [lia|exact Hall|lia].
    - split; [done|]. apply passed_used; [lia|exact Hall|unfold searched; lia]. }
  wp_steps. apply (wp_loop
    (fun i s' => s' = s /\ 0 <= i /\ passed s size (32 * i))
    (fun i _ => Z.to_nat (block_map_size s - i))); [|split; [done|]|lia].
  2: { split; [done|]. split; intros c Hc; [lia|]. intros (_ & Hr & _). lia. }
  intros i s' (-> & Hi & Hno). wp_cond.
  destruct (Z.ltb_spec i (block_map_size s / 32)) as [Hlt|].
  2: { wp_steps. split; [done|]. left. split; [done|].
       eapply passed_mono; [exact Hno|unfold searched; lia]. }
  destruct (word_in_map s i) as [w Hw]; [done|lia|].
  unfold map_word. wp_cond. rewrite Hw. wp_cond.
  destruct (Z.eqb_spec w 0xFFFFFFFF) as [Hfull|_].
  { wp_steps. split; [|lia]. split; [done|]. split; [lia|]. replace (32 * (i + 1)) with (32 * i + 31 + 1) by lia.
    assert (forall c, 32 * i <= c < 32 * i + 32 -> used s c = true) as Hall.
    { intros c Hc. apply (full_word_used s c w); [|done]. replace (c / 32) with i; [done|]. apply Z.div_unique with (c - 32 * i); lia. }
    apply (passed_word s size i); [lia|exact Hno|lia|done]. }
  wp_steps. eapply wp_mono; [apply (wp_loop
      (fun ij s' => s' = s /\ i <= ij.1 /\ 32 * ij.1 < block_map_size s /\ 0 <= ij.2 /\
         passed s size (32 * ij.1 + ij.2))
      (fun ij _ => Z.to_nat (32 - ij.2)) (find_region_bit size)
      (fun r s' => s' = s /\ match r with
         | inl i' => i <= i' /\ 32 * i' < block_map_size s /\
             passed s size (32 * i' + 32)
         | inr start => region_found s size start /\ passed s size start
         end))| |done]; [| |cbn; lia|].
  - intros [i' j'] s' (-> & H1 & H2 & H3 & H4). cbn in H1, H2, H3, H4.
    eapply wp_mono; [apply wp_find_region_bit; [done|lia..|done]| |done].
    intros [[i2 j2]|[i2|r]] s' [-> H]; cbn in *; [|split; [done|]|done].
    + destruct H as (? & ? & ? & ? & ?). split; [|lia]. split; [done|]. do 3 (split; [lia|]). done.
    + destruct H as (? & ? & ?). do 2 (split; [lia|]). done.
  - cbn. split; [done|]. do 3 (split; [lia|]). by rewrite Z.add_0_r.
  - intros [i'|r] s'; intros [-> H]; wp_steps.
    + destruct H as (? & ? & ?). split; [|lia]. split; [done|]. split; [lia|].
      by replace (32 * (i' + 1)) with (32 * i' + 32) by lia.
    + split; [done|by right].
Qed.

(** ** Allocation *)

Lemma wp_mark_loop (op : Z -> M pmm unit) v s b n :
  pmm_wf s -> 0 <= b -> 0 <= n -> b + n <= 2 ^ 32 ->
  (forall s' c, pmm_wf s' -> 0 <= c ->
     wp (op c) (fun _ s'' => c < block_map_size s' /\ mark_range s' v c 1 s'')
       (asserts (c < block_map_size s')) s') ->
  wp (for_up (Z.to_nat n) 0 (fun i => op (u32 (b + i))))
    (fun _ s' => (n = 0 \/ b + n <= block_map_size s) /\ mark_range s v b n s')
    (asserts (b + n <= block_map_size s)) s.
Proof.
  intros Hwf Hb Hn Hbn Hop.
  eapply wp_mono; [apply (wp_for_up (fun i s' =>
    (i = 0 \/ b + i <= block_map_size s) /\ mark_range s v b i s'))| |done].
  - split; [by left|]. by apply mark_range_refl.
  - intros i s' Hi [Hle Hm]. rewrite u32_small by (unfold is_u32; lia).
    eapply wp_mono; [apply Hop; [apply Hm|lia]| |].
    + intros [] s'' [Hlt Hm']. rewrite (mark_size _ _ _ _ _ Hm) in Hlt.
      split; [lia|]. apply mark_range_snoc with s'; [lia..|done|done].
    + intros e [-> Hnot]. split; [done|]. rewrite (mark_size _ _ _ _ _ Hm) in Hnot. lia.
  - intros [] s'. by rewrite Z.add_0_l, Z2Nat.id by lia.
Qed.

(** What an allocation of [size] blocks at address [p] does. *)
Definition allocated (s : pmm) (size p : Z) (s' : pmm) : Prop :=
  exists b, p = b * BLOCK_SIZE /\ 0 < b /\ b + size <= block_map_size s /\
    range_free s b size /\ mark_range s true b size s'.

(** What "out of memory" means: no run in the searched words, or only the run
    at block 0, whose number is the error value. *)
Definition oom (s : pmm) (size p : Z) (s' : pmm) : Prop :=
  p = 0 /\ s' = s /\
  (no_region_below s size (searched s) \/ range_free s 0 size).

Lemma allocated_address s size p s' :
  pmm_wf s -> 1 <= size -> allocated s size p s' -> 0 < p < 2 ^ 32.
Proof.
  intros Hwf Hsz (b & -> & Hb & Hle & _). pose proof (pmm_wf_size s Hwf).
  unfold BLOCK_SIZE. lia.
Qed.

(** The lowest run of [size] free blocks, by its first block. *)
Definition lowest_run (s : pmm) (size b : Z) : Prop :=
  region_found s size b /\ no_region_below s size b.

Lemma wp_alloc_lowest s size :
  pmm_wf s -> 1 <= size < 2 ^ 32 ->
  wp (pmm_alloc_blocks size)
    (fun p s' =>
      (exists b, lowest_run s size b /\
         if b =? 0 then p = 0 /\ s' = s else p = b * BLOCK_SIZE /\ mark_range s true b size s') \/
      (passed s size (searched s) /\ p = 0 /\ s' = s))
    (stuck s size) s.
Proof.
  intros Hwf Hsz. pose proof (pmm_wf_size s Hwf) as Hs.
  unfold pmm_alloc_blocks. wp_cond. rewrite (proj2 (Z.eqb_neq size 0)) by lia. cbn.
  wp_apply wp_find_region; [done|done| |done].
  intros r s' [-> Hr]. wp_cond. destruct (Z.eqb_spec r 0) as [->|Hr0].
  { wp_steps. destruct Hr as [[_ H]|[H H']]; [by right|left]. exists 0. split; [|done]. split; [done|apply H']. }
  destruct Hr as [[? _]|[Hr Hlow]]; [done|]. pose proof Hr as (Hr1 & Hr2 & Hr3).
  wp_apply (wp_mark_loop pmm_set_block true); [done|lia..| | |].
  - intros s' c Hwf' Hc. by apply wp_set_block.
  - intros [] s' [_ Hm]. wp_steps. left. exists r. split; [split; [done|apply Hlow]|].
    rewrite (proj2 (Z.eqb_neq r 0)) by done. by rewrite u32_small by (unfold is_u32, BLOCK_SIZE; lia).
  - intros e [_ Hnot]. lia.
Qed.

Lemma wp_alloc_blocks s size :
  pmm_wf s -> 1 <= size < 2 ^ 32 ->
  wp (pmm_alloc_blocks size)
    (fun p s' => oom s size p s' \/ allocated s size p s') only_assert s.
Proof.
  intros Hwf Hsz. eapply wp_mono; [by apply wp_alloc_lowest| |by intros e [-> _]].
  intros p s' [(b & [(Hb1 & Hb2 & Hb3) _] & Hout)|([Hno _] & -> & ->)]; [|by repeat (split || left)].
  destruct (Z.eqb_spec b 0) as [->|Hb0].
  - destruct Hout as [-> ->]. left. do 2 (split; [done|]). by right.
  - destruct Hout as [-> Hm]. right. exists b. split; [done|]. split; [lia|]. by split.
Qed.

Lemma wp_free_blocks s b size :
  pmm_wf s -> 0 <= b < 2 ^ 20 -> 1 <= size < 2 ^ 31 ->
  wp (pmm_free_blocks (b * BLOCK_SIZE) size)
    (fun _ s' => b + size <= block_map_size s /\ mark_range s false b size s')
    (asserts (b + size <= block_map_size s)) s.
Proof.
  intros Hwf Hb Hsz. unfold pmm_free_blocks. wp_cond.
  rewrite (proj2 (Z.eqb_neq size 0)) by lia. cbn.
  rewrite u32_small by (unfold is_u32, BLOCK_SIZE; lia).
  rewrite Z.div_mul by (unfold BLOCK_SIZE; lia).
  wp_apply (wp_mark_loop pmm_unset_block false); [done|lia..| | |done].
  - intros s' c Hwf' Hc. by apply wp_unset_block.
  - intros [] s' [Hle Hm]. split; [lia|done].
Qed.

Lemma mark_range_undo s v b n s1 s2 :
  pmm_wf s -> 0 <= b -> (forall c, b <= c < b + n -> used s c = negb v) ->
  mark_range s v b n s1 -> mark_range s1 (negb v) b n s2 -> s2 = s.
Proof.
  intros Hwf Hb Hfree [W1 S1 L1 U1] [W2 S2 L2 U2].
  apply pmm_ext; [done|done|congruence|congruence|]. intros c Hc.
  rewrite U2, U1 by done.
  destruct ((b <=? c) && (c <? b + n)) eqn:E; [|done].
  symmetry. apply Hfree. lia.
Qed.

(** ** Counting *)

(** How many of the first [n] blocks are free. *)
Fixpoint free_below (s : pmm) (n : nat) : Z :=
  match n with
  | O => 0
  | S n' => free_below s n' + (if used s (Z.of_nat n') then 0 else 1)
  end.

Lemma wp_count_free_blocks s :
  pmm_wf s ->
  wp pmm_count_free_blocks
    (fun r s' => s' = s /\ r = free_below s (Z.to_nat (block_map_size s))) never s.
Proof.
  intros Hwf. pose proof (pmm_wf_size s Hwf) as Hs.
  unfold pmm_count_free_blocks. wp_steps.
  eapply wp_mono; [apply (wp_for_fold
    (fun i a s' => s' = s /\ a = free_below s (Z.to_nat i)))| |done].
  - done.
  - intros i a s' Hi [-> ->]. wp_apply wp_test_block; [done|lia| |].
    + intros t s' (-> & -> & _). wp_steps. split; [done|].
      replace (Z.to_nat (i + 1)) with (S (Z.to_nat i)) by lia. cbn.
      rewrite Z2Nat.id by lia. destruct (used s i); lia.
    + intros e [_ Hnot]. lia.
  - intros r s' [-> ->]. split; [done|]. f_equal. lia.
Qed.

Lemma free_below_mark s b n s' k :
  0 <= b -> 0 <= n -> range_free s b n -> mark_range s true b n s' ->
  free_below s k =
    free_below s' k + Z.max 0 (Z.min (Z.of_nat k) (b + n) - b).
Proof.
  intros Hb Hn Hfree [_ _ _ HU]. induction k as [|k IH]; [cbn; lia|].
  cbn [free_below]. rewrite IH, HU by lia.
  destruct (Z.leb_spec b (Z.of_nat k)), (Z.ltb_spec (Z.of_nat k) (b + n)); cbn.
  - rewrite Hfree by lia. lia.
  - destruct (used s (Z.of_nat k)); lia.
  - destruct (used s (Z.of_nat k)); lia.
  - destruct (used s (Z.of_nat k)); lia.
Qed.

(** ** Clients of the allocator *)

(** The allocations a client holds: address and number of blocks. *)
Definition covers (c : Z) (r : Z * Z) : bool :=
  (r.1 / BLOCK_SIZE <=? c) && (c <? r.1 / BLOCK_SIZE + r.2).

Fixpoint owners (c : Z) (l : list (Z * Z)) : nat :=
  match l with
  | [] => 0%nat
  | r :: l' => ((if covers c r then 1 else 0) + owners c l')%nat
  end.

Lemma owners_app c l1 l2 : owners c (l1 ++ l2) = (owners c l1 + owners c l2)%nat.
Proof. induction l1; cbn; lia. Qed.

(** Every interleaving of allocations and frees by clients that give back
    only what they hold. *)
Inductive pmm_step : pmm * list (Z * Z) -> pmm * list (Z * Z) -> Prop :=
  | PmmAlloc s l size p s' :
      1 <= size < 2 ^ 31 -> pmm_alloc_blocks size s = Ok (p, s') -> p <> 0 ->
      pmm_step (s, l) (s', (p, size) :: l)
  | PmmOom s l size s' :
      1 <= size < 2 ^ 31 -> pmm_alloc_blocks size s = Ok (0, s') ->
      pmm_step (s, l) (s', l)
  | PmmFree s l1 p size l2 s' :
      pmm_free_blocks p size s = Ok (tt, s') ->
      pmm_step (s, l1 ++ (p, size) :: l2) (s', l1 ++ l2).

Definition held_by (s : pmm) (r : Z * Z) : Prop :=
  exists b, r.1 = b * BLOCK_SIZE /\ 0 < b /\ 1 <= r.2 < 2 ^ 31 /\
    b + r.2 <= block_map_size s.

Record pmm_inv (x : pmm * list (Z * Z)) : Prop := PmmInv {
  inv_wf : pmm_wf x.1;
  inv_held : Forall (held_by x.1) x.2;
  inv_once : forall c, 0 <= c -> (owners c x.2 <= 1)%nat;
  inv_used : forall c, 0 <= c -> owners c x.2 = 1%nat -> used x.1 c = true;
}.

Lemma covers_block c b n : covers c (b * BLOCK_SIZE, n) = (b <=? c) && (c <? b + n).
Proof. unfold covers, BLOCK_SIZE. cbn. by rewrite Z.div_mul by lia. Qed.

Lemma held_by_size s s' r :
  block_map_size s' = block_map_size s -> held_by s r -> held_by s' r.
Proof. unfold held_by. by intros ->. Qed.

Lemma pmm_step_inv x y : pmm_step x y -> pmm_inv x -> pmm_inv y.
Proof.
  intros Hstep [Hwf Hh Ho Hu].
  destruct Hstep as [s l size p s' Hsz Hrun Hp|s l size s' Hsz Hrun|s l1 p size l2 s' Hrun];
    cbn in *.
  - destruct (wp_run _ _ _ _ _ _ (wp_alloc_blocks s size Hwf ltac:(lia)) Hrun)
      as [(-> & _)|(b & -> & Hb & Hle & Hfree & Hm)]; [done|].
    pose proof (mark_size _ _ _ _ _ Hm) as Hsize.
    split; cbn; [apply Hm| | |].
    + constructor; [exists b; cbn; rewrite Hsize; lia|].
      eapply Forall_impl; [done|]. intros r. by apply held_by_size.
    + intros c Hc. rewrite covers_block.
      destruct ((b <=? c) && (c <? b + size)) eqn:E; [|by apply Ho].
      specialize (Ho c Hc). destruct (owners c l) as [|[|]] eqn:Eo; [lia| |lia].
      specialize (Hu c Hc Eo). rewrite Hfree in Hu by lia. done.
    + intros c Hc. rewrite covers_block, (mark_used _ _ _ _ _ Hm) by done.
      destruct ((b <=? c) && (c <? b + size)); [done|]. by apply Hu.
  - destruct (wp_run _ _ _ _ _ _ (wp_alloc_blocks s size Hwf ltac:(lia)) Hrun)
      as [(_ & -> & _)|(b & Hb0 & Hb & _)]; [done|]. unfold BLOCK_SIZE in Hb0. lia.
  - apply Forall_app in Hh as [Hh1 [Hh2 Hh3]%Forall_cons].
    destruct Hh2 as (b & Hpb & Hb & Hsz & Hle). cbn in *. subst p.
    pose proof (pmm_wf_size s Hwf) as Hs.
    destruct (wp_run _ _ _ _ _ _ (wp_free_blocks s b size Hwf ltac:(lia) ltac:(lia)) Hrun)
      as [_ Hm]. pose proof (mark_size _ _ _ _ _ Hm) as Hsize.
    split; cbn; [apply Hm| | |].
    + apply Forall_app. split; (eapply Forall_impl; [done|]; intros r; by apply held_by_size).
    + intros c Hc. specialize (Ho c Hc). rewrite owners_app in *. cbn in Ho. lia.
    + intros c Hc Ho1. specialize (Ho c Hc). specialize (Hu c Hc).
      rewrite owners_app in *. cbn in Ho, Hu. rewrite covers_block in *.
      rewrite (mark_used _ _ _ _ _ Hm) by done.
      destruct ((b <=? c) && (c <? b + size)); [lia|]. apply Hu. lia.
Qed.

(** ** Initialisation *)

Lemma memset_ff_lookup n mem i w :
  memset_ff n mem !! i = Some w ->
  exists w0, mem !! i = Some w0 /\
    w = if 4 * Z.of_nat i + 4 <=? n then 0xFFFFFFFF
        else if 4 * Z.of_nat i <? n then Z.lor w0 (Z.ones (8 * (n - 4 * Z.of_nat i)))
        else w0.
Proof.
  unfold memset_ff. rewrite list_lookup_imap. intros H.
  destruct (mem !! i) as [w0|] eqn:E; [|done]. cbn in H. exists w0.
  split; [done|]. by injection H as <-.
Qed.

Lemma memset_ff_length n mem : zlen (memset_ff n mem) = zlen mem.
Proof. unfold zlen, memset_ff. by rewrite length_imap. Qed.

Lemma memset_ff_words n mem : Forall is_u32 mem -> Forall is_u32 (memset_ff n mem).
Proof.
  intros HF. apply Forall_lookup_2. intros i w Hw.
  apply memset_ff_lookup in Hw as (w0 & Hw0 & ->).
  pose proof (Forall_lookup_1 _ _ _ _ HF Hw0) as Bw.
  destruct (Z.leb_spec (4 * Z.of_nat i + 4) n); [unfold is_u32; lia|].
  destruct (Z.ltb_spec (4 * Z.of_nat i) n); [|done].
  apply (bits_bounded 32) in Bw as [B0 Bk]; [|lia].
  apply (bits_bounded 32); [lia|]. split.
  - apply Z.lor_nonneg. split; [done|].
    rewrite Z.ones_equiv. pose proof (Z.pow_pos_nonneg 2 (8 * (n - 4 * Z.of_nat i))). lia.
  - intros k Hk. rewrite Z.lor_spec, Bk, Z.ones_spec_high by lia. done.
Qed.

(** Bit [c] lies in byte [c / 8], so setting the first [n] bytes marks every
    block below [8 * n]. *)
Lemma memset_ff_used n mem c :
  0 <= c < 8 * n -> used (Pmm (memset_ff n mem) n) c = true.
Proof.
  intros Hc. pose proof (Z.div_mod c 32 ltac:(lia)) as Hdm.
  pose proof (Z.mod_pos_bound c 32 ltac:(lia)) as Hm.
  unfold used. cbn [block_map]. destruct (zlookup _ (c / 32)) as [w|] eqn:E; [|done].
  unfold zlookup in E. destruct (Z.ltb_spec (c / 32) 0) as [|Hd]; [done|].
  apply memset_ff_lookup in E as (w0 & _ & ->). rewrite Z2Nat.id by lia.
  destruct (Z.leb_spec (4 * (c / 32) + 4) n).
  - change 0xFFFFFFFF with (Z.ones 32). by apply Z.ones_spec_low.
  - rewrite (proj2 (Z.ltb_lt (4 * (c / 32)) n)) by lia.
    rewrite Z.lor_spec, Z.ones_spec_low, orb_true_r by lia. done.
Qed.

Lemma wp_pmm_init mem mem_size s :
  Forall is_u32 mem -> BLOCK_SIZE <= mem_size < 2 ^ 32 ->
  mem_size / BLOCK_SIZE <= 4 * zlen mem ->
  wp (pmm_init mem mem_size)
    (fun _ s' => pmm_wf s' /\ block_map_size s' = mem_size / BLOCK_SIZE /\
       forall c, 0 <= c < 8 * block_map_size s' -> used s' c = true) never s.
Proof.
  intros HF Hsz Hlen. unfold pmm_init.
  assert (1 <= mem_size / BLOCK_SIZE <= 2 ^ 20) as Hn.
  { unfold BLOCK_SIZE in *. split.
    - apply Z.div_le_lower_bound; lia.
    - apply Z.div_le_upper_bound; lia. }
  wp_cond. rewrite (proj2 (Z.eqb_neq _ 0)) by lia. cbn. wp_cond.
  rewrite (proj2 (Z.leb_le _ _)) by done. wp_steps. cbn.
  split; [|split; [done|]].
  - split; cbn; [by apply memset_ff_words|lia|].
    rewrite memset_ff_length. lia.
  - intros c Hc. by apply memset_ff_used.
Qed.

(** ** The instance of [FrameAlloc] *)

#[export] Instance pmm_frames : FrameAlloc pmm := {
  frame_try_alloc := pmm_alloc_blocks 1;
  frame_free p := pmm_free_blocks p 1;
  frame_used := used;
  frame_count := block_map_size;
  frame_ok := pmm_wf;
}.

Lemma mark_one s v b s' : mark_range s v b 1 s' -> frame_marked s v b s'.
Proof.
  intros [Hwf Hs _ Hu]. split; [done|]. split; [done|].
  intros c Hc. cbn. rewrite Hu by done.
  by replace ((b <=? c) && (c <? b + 1)) with (b =? c) by lia.
Qed.

(** For one block the search has no [assert] that can fail. *)
Lemma wp_alloc_one s :
  pmm_wf s ->
  wp (pmm_alloc_blocks 1)
    (fun p s' => exists r, first_free s r /\ p = r * BLOCK_SIZE /\
       if r =? 0 then s' = s else mark_range s true r 1 s') never s.
Proof.
  intros Hwf. pose proof (pmm_wf_size s Hwf) as Hs.
  pose proof (Z.mul_div_le (block_map_size s) 32 ltac:(lia)) as Hd.
  unfold pmm_alloc_blocks. wp_cond. cbn. wp_steps. unfold pmm_find_region.
  wp_cond. cbn. wp_apply wp_find_first_free; [done| |done].
  intros r s' [-> Hr]. wp_cond. destruct (Z.eqb_spec r 0) as [->|Hr0].
  { wp_steps. exists 0. done. }
  assert (0 < r < block_map_size s) as Hrange.
  { destruct Hr as [(Hr & _)|[-> _]]; [unfold searched in Hr; lia|done]. }
  wp_apply (wp_mark_loop pmm_set_block true _ _ 1); [done|lia..| | |].
  - intros s' c Hwf' Hc. by apply wp_set_block.
  - intros [] s' [_ Hm]. wp_steps. exists r. rewrite (proj2 (Z.eqb_neq r 0)) by done.
    rewrite u32_small by (unfold is_u32, BLOCK_SIZE; lia). done.
  - intros e [_ Hnot]. lia.
Qed.

#[export] Instance pmm_frames_laws : FrameAllocLaws pmm.
Proof.
  split.
  - intros s Hwf. pose proof (pmm_wf_size s Hwf) as Hs.
    pose proof (Z.mul_div_le (block_map_size s) 32 ltac:(lia)) as Hd.
    eapply wp_mono; [by apply wp_alloc_one| |done].
    intros p s' (r & Hr & -> & Hm). destruct (Z.eqb_spec r 0) as [->|Hr0]; [by left|].
    right. exists r. destruct Hr as [(Hr & Hu & _)|[-> _]]; [|done].
    unfold searched in Hr. split; [done|]. cbn. split; [lia|]. split; [done|].
    by apply mark_one.
  - intros s b Hwf Hb. cbn in *. pose proof (pmm_wf_size s Hwf) as Hs.
    destruct (Z.eq_dec b (2 ^ 20)); [lia|].
    eapply wp_mono; [apply wp_free_blocks; [done|lia..]| |].
    + intros [] s' [_ Hm]. by apply mark_one.
    + intros e [_ Hnot]. lia.
  - intros s Hwf. apply Hwf.
Qed.

(** ** Properties *)

(** C4. In every state the clients of the allocator can reach from a
    well-formed map by allocating and by freeing what they hold, no block has
    two live owners, every owned block is marked used in the bitmap, and
    freeing a live allocation never panics. *)
Theorem pmm_live_allocations_disjoint s0 s l :
  pmm_wf s0 -> rtc pmm_step (s0, []) (s, l) ->
  (forall c, 0 <= c ->
     (owners c l <= 1)%nat /\ (owners c l = 1%nat -> used s c = true)) /\
  (forall p size, (p, size) ∈ l ->
     exists s', pmm_free_blocks p size s = Ok (tt, s')).
Proof.
  intros Hwf Hsteps.
  assert (pmm_inv (s, l)) as [Hwf' Hh Ho Hu].
  { eapply rtc_preserves; [exact pmm_step_inv|exact Hsteps|].
    split; cbn; [done|constructor|lia|done]. }
  cbn in *. split; [intros c Hc; auto|]. intros p size Hin.
  rewrite Forall_forall in Hh. destruct (Hh _ Hin) as (b & Hb & Hb0 & Hsz & Hle).
  cbn in *. subst p. pose proof (pmm_wf_size s Hwf') as Hs.
  destruct (wp_never_run (pmm_free_blocks (b * BLOCK_SIZE) size) (fun _ _ => True) s)
    as ([] & s' & Hrun & _); [|by eauto].
  eapply wp_mono; [apply wp_free_blocks; [done|lia..]|done|].
  intros e [_ Hnot]. lia.
Qed.

(** C32. What [pmm_alloc_blocks] does with a well-formed map of whole words, in
    every case.  When there is a run of [size] free blocks, it takes the lowest:
    it answers its address and marks exactly its blocks as used, except that a
    run at block 0, whose number is the error value, is answered with 0 and left
    alone.  When there is none it answers 0 and changes nothing if the last
    block of the map is used, and fails an assertion if it is free.  It never
    reads outside the map and always ends. *)
Theorem pmm_alloc_blocks_correct s size :
  pmm_wf s -> block_map_size s mod 32 = 0 -> 1 <= size < 2 ^ 32 ->
  match pmm_alloc_blocks size s with
  | Ok (p, s') =>
      (exists b, lowest_run s size b /\
         if b =? 0 then p = 0 /\ s' = s else p = b * BLOCK_SIZE /\ mark_range s true b size s') \/
      ((forall b, ~ region_found s size b) /\ (0 < block_map_size s -> used s (block_map_size s - 1) = true) /\ p = 0 /\ s' = s)
  | Err e =>
      e = AssertFail /\ (forall b, ~ region_found s size b) /\ 0 < block_map_size s /\ used s (block_map_size s - 1) = false
  end.
Proof.
  intros Hwf Hm Hsz. pose proof (pmm_wf_size s Hwf) as Hs. assert (searched s = block_map_size s) as Hse.
  { unfold searched. pose proof (Z.div_mod (block_map_size s) 32 ltac:(lia)). lia. }
  pose proof (wp_elim _ _ _ _ (wp_alloc_lowest s size Hwf Hsz)) as Hw. destruct (pmm_alloc_blocks size s) as [[p s']|e].
  - destruct Hw as [Hw|([Hno Ht] & -> & ->)]; [by left|right]. rewrite Hse in *. split; [|split; [|done]].
    + intros b (Hb1 & Hb2 & Hb3). by apply (Hno b); [lia|].
    + intros Hpos. destruct (used s (block_map_size s - 1)) eqn:Hu; [done|]. exfalso. apply (Ht (block_map_size s - 1)); [lia|].
      split; [done|]. split; [lia|]. intros c Hc. by replace c with (block_map_size s - 1) by lia.
  - destruct Hw as [-> Hw]. destruct (Hw Hm) as [Hno (c & _ & Hc & Hfree)]. split; [done|]. split; [|split; [lia|]].
    + intros b (Hb1 & Hb2 & Hb3). by apply (Hno b).
    + apply Hfree. lia.
Qed.

(** Freeing an allocation gives back exactly the map from before it. *)
Theorem pmm_alloc_free_roundtrip s size p s' :
  pmm_wf s -> 1 <= size < 2 ^ 31 ->
  pmm_alloc_blocks size s = Ok (p, s') -> p <> 0 ->
  pmm_free_blocks p size s' = Ok (tt, s).
Proof.
  intros Hwf Hsz Hrun Hp.
  destruct (wp_run _ _ _ _ _ _ (wp_alloc_blocks s size Hwf ltac:(lia)) Hrun)
    as [(-> & _)|(b & -> & Hb & Hle & Hfree & Hm)]; [done|].
  pose proof (pmm_wf_size s Hwf) as Hs.
  destruct (wp_never_run (pmm_free_blocks (b * BLOCK_SIZE) size)
    (fun _ s2 => s2 = s) s') as ([] & s2 & Hrun2 & ->); [|done].
  pose proof (mark_size _ _ _ _ _ Hm) as Hsize.
  eapply wp_mono; [apply wp_free_blocks; [apply Hm|lia..]| |].
  - intros [] s2 [_ Hm2]. by eapply (mark_range_undo s true b size s'); [|lia| | |].
  - intros e [_ Hnot]. lia.
Qed.

(** With block 0 reserved, a single-block allocation answers the lowest
    free block, and answers 0 only when every block of the whole words of the
    map is used; it cannot panic. *)
Theorem pmm_alloc_one_first_fit s :
  pmm_wf s -> used s 0 = true ->
  exists p s', pmm_alloc_blocks 1 s = Ok (p, s') /\
    ((p = 0 /\ s' = s /\ forall c, 0 <= c < searched s -> used s c = true) \/
     (exists b, p = b * BLOCK_SIZE /\ 0 < b < searched s /\ used s b = false /\
        (forall c, 0 <= c < b -> used s c = true) /\ mark_range s true b 1 s')).
Proof.
  intros Hwf H0.
  destruct (wp_never_run _ _ _ (wp_alloc_one s Hwf)) as (p & s' & Hrun & r & Hr & -> & Hm).
  exists (r * BLOCK_SIZE), s'. split; [done|].
  destruct (Z.eqb_spec r 0) as [->|Hr0].
  - left. destruct Hr as [(_ & Hf & _)|[_ Hall]]; [by rewrite H0 in Hf|done].
  - right. exists r. destruct Hr as [(Hr & Hf & Hlow)|[-> _]]; [|done].
    split; [done|]. split; [lia|done].
Qed.

(** [pmm_count_free_blocks] counts the free blocks, and an allocation of
    [size] blocks lowers the count by exactly [size]. *)
Theorem pmm_count_after_alloc s size p s' n :
  pmm_wf s -> 1 <= size < 2 ^ 32 ->
  pmm_count_free_blocks s = Ok (n, s) ->
  pmm_alloc_blocks size s = Ok (p, s') -> p <> 0 ->
  n = free_below s (Z.to_nat (block_map_size s)) /\
  pmm_count_free_blocks s' = Ok (n - size, s').
Proof.
  intros Hwf Hsz Hcount Hrun Hp.
  destruct (wp_run _ _ _ _ _ _ (wp_count_free_blocks s Hwf) Hcount) as [_ ->].
  split; [done|].
  destruct (wp_run _ _ _ _ _ _ (wp_alloc_blocks s size Hwf Hsz) Hrun)
    as [(-> & _)|(b & -> & Hb & Hle & Hfree & Hm)]; [done|].
  destruct (wp_never_run _ _ _ (wp_count_free_blocks s' (mark_wf _ _ _ _ _ Hm)))
    as (m & s2 & -> & -> & ->).
  do 2 f_equal. rewrite (mark_size _ _ _ _ _ Hm).
  rewrite (free_below_mark s b size s') by (done || lia). lia.
Qed.

(** C34. [pmm_init] leaves a well-formed map of [mem_size / 4096] blocks with
    every block used, and it fills eight times the memory a bitmap of that
    many blocks takes. *)
Theorem pmm_init_all_used mem mem_size s :
  Forall is_u32 mem -> BLOCK_SIZE <= mem_size < 2 ^ 32 ->
  mem_size / BLOCK_SIZE <= 4 * zlen mem ->
  exists s', pmm_init mem mem_size s = Ok (tt, s') /\ pmm_wf s' /\
    block_map_size s' = mem_size / BLOCK_SIZE /\
    forall c, 0 <= c < 8 * block_map_size s' -> used s' c = true.
Proof.
  intros HF Hsz Hlen.
  destruct (wp_never_run _ _ _ (wp_pmm_init mem mem_size s HF Hsz Hlen))
    as ([] & s' & Hrun & H). by exists s'.
Qed.

(** ** The properties at concrete maps *)

(** 64 blocks; blocks 4-7 and 40-41 are free. *)
Definition sample_map : pmm := Pmm [0xFFFFFF0F; 0xFFFFFCFF] 64.

Lemma sample_map_wf : pmm_wf sample_map.
Proof. split; cbn; [repeat constructor; unfold is_u32; lia|lia|unfold zlen; cbn; lia]. Qed.

Definition sample_map' : pmm := Pmm [0xFFFFFF7F; 0xFFFFFCFF] 64.
Definition sample_live : list (Z * Z) := [(4 * BLOCK_SIZE, 3)].

Example sample_alloc :
  pmm_alloc_blocks 3 sample_map = Ok (4 * BLOCK_SIZE, sample_map').
Proof. vm_compute. reflexivity. Qed.

Definition full_end : pmm := Pmm [0xFFFFFFFF; 0x3FFFFFFF] 64.

Lemma full_end_wf : pmm_wf full_end.
Proof. split; cbn; [|lia|done]. by repeat (apply Forall_cons; split; [done|]). Qed.

(** The last two blocks are free, but no run of three is: the search stops the
    kernel instead of answering 0. *)
Example find_region_asserts_at_the_end :
  pmm_alloc_blocks 3 full_end = Err AssertFail.
Proof. vm_compute. reflexivity. Qed.

(** Block 0 free hides every other free block from single-block allocation. *)
Example block_zero_hides_the_rest :
  pmm_alloc_blocks 1 (Pmm [0] 32) = Ok (0, Pmm [0] 32).
Proof. vm_compute. reflexivity. Qed.

Lemma pmm_live_allocations_disjoint_witness :
  (forall c, 0 <= c ->
     (owners c sample_live <= 1)%nat /\
     (owners c sample_live = 1%nat ->
      used sample_map' c = true)) /\
  (forall p size, (p, size) ∈ sample_live ->
     exists s', pmm_free_blocks p size sample_map' = Ok (tt, s')).
Proof.
  apply (pmm_live_allocations_disjoint sample_map); [apply sample_map_wf|].
  apply rtc_once. apply (PmmAlloc _ _ 3); [lia|exact sample_alloc|].
  unfold BLOCK_SIZE. lia.
Defined.

(** Three blocks from block 4 on; and no three, with the last block free. *)
Lemma pmm_alloc_blocks_correct_witness :
  (exists s', pmm_alloc_blocks 3 sample_map = Ok (4 * BLOCK_SIZE, s') /\ mark_range sample_map true 4 3 s') /\
  forall b, ~ region_found full_end 3 b.
Proof.
  split.
  - pose proof (pmm_alloc_blocks_correct sample_map 3 sample_map_wf eq_refl ltac:(lia)) as Hc. rewrite sample_alloc in Hc.
    destruct Hc as [(b & Hb & Hc)|(_ & _ & Hp & _)]; [|discriminate Hp]. destruct (Z.eqb_spec b 0) as [->|]; [by destruct Hc|].
    destruct Hc as [Hp Hm]. assert (b = 4) as -> by (unfold BLOCK_SIZE in Hp; lia). exists sample_map'. split; [exact sample_alloc|exact Hm].
  - pose proof (pmm_alloc_blocks_correct full_end 3 full_end_wf eq_refl ltac:(lia)) as Hc.
    rewrite find_region_asserts_at_the_end in Hc. apply Hc.
Defined.

Lemma pmm_alloc_free_roundtrip_witness :
  pmm_free_blocks (4 * BLOCK_SIZE) 3 sample_map' = Ok (tt, sample_map).
Proof.
  apply (pmm_alloc_free_roundtrip sample_map 3 (4 * BLOCK_SIZE));
    [apply sample_map_wf|lia|exact sample_alloc|unfold BLOCK_SIZE; lia].
Defined.

Lemma pmm_alloc_one_first_fit_witness :
  exists p s', pmm_alloc_blocks 1 sample_map = Ok (p, s') /\
    ((p = 0 /\ s' = sample_map /\
      forall c, 0 <= c < searched sample_map -> used sample_map c = true) \/
     (exists b, p = b * BLOCK_SIZE /\ 0 < b < searched sample_map /\
        used sample_map b = false /\
        (forall c, 0 <= c < b -> used sample_map c = true) /\
        mark_range sample_map true b 1 s')).
Proof. apply (pmm_alloc_one_first_fit sample_map); [apply sample_map_wf|reflexivity]. Defined.

Lemma pmm_count_after_alloc_witness :
  6 = free_below sample_map 64 /\
  pmm_count_free_blocks sample_map' =
    Ok (6 - 3, sample_map').
Proof.
  apply (pmm_count_after_alloc sample_map 3 (4 * BLOCK_SIZE));
    [apply sample_map_wf|lia|vm_compute; reflexivity|exact sample_alloc|unfold BLOCK_SIZE; lia].
Defined.

Lemma pmm_init_all_used_witness :
  exists s', pmm_init (replicate 16 0) (64 * BLOCK_SIZE) (Pmm [] 0) = Ok (tt, s') /\
    pmm_wf s' /\ block_map_size s' = 64 * BLOCK_SIZE / BLOCK_SIZE /\
    forall c, 0 <= c < 8 * block_map_size s' -> used s' c = true.
Proof.
  apply (pmm_init_all_used (replicate 16 0) (64 * BLOCK_SIZE));
    [repeat constructor; unfold is_u32; lia|unfold BLOCK_SIZE; lia|].
  vm_compute. discriminate.
Defined.
