(* ===== verification/Liballoc.v ===== *)
(** * The kernel heap (kernel/liballoc.c)

    [kmalloc], [kcalloc], [krealloc] and [kfree] on the bytes of memory:
    the headers of the page runs ([liballoc_major]) and of the objects
    ([liballoc_minor]) are 32-bit words in the same memory as the objects, read
    and written at the C structures' offsets, and an access outside the pages
    the heap holds is a fault.  The pages come from the paging code through
    [PageAlloc].  Interrupts and other cpus do not run while an operation
    does, so the spin lock is a flag that an operation finds free.  The
    diagnostics counters of the failing paths are left out with their output. *)
From stdpp Require Import functions.
From S2P Require Import Prelude Interfaces.

(** ** Pages (liballoc_alloc, liballoc_free)

    [page_junk] is what the bytes of new pages hold. *)
Class PageAlloc (P : Type) : Type := {
  page_alloc : Z -> M P Z;
  page_free : Z -> Z -> M P unit;
  page_held : P -> Z -> bool;
  page_junk : P -> Z -> Z;
  page_ok : P -> Prop;
}.

(** The pages from [b] to [b + n]. *)
Definition in_run (b n q : Z) : bool := (b <=? q) && (q <? b + n).

Class PageAllocLaws (P : Type) `{PageAlloc P} : Prop := {
  page_alloc_spec (p : P) (n : Z) :
    page_ok p -> 1 <= n < 2 ^ 20 ->
    wp (page_alloc n) (fun v p' =>
      exists b, v = b * BLOCK_SIZE /\ 0 < b /\ b + n <= 2 ^ 20 - 1 /\ page_ok p' /\
        (forall q, in_run b n q = true -> page_held p q = false) /\
        forall q, page_held p' q = in_run b n q || page_held p q) only_nomem p;
  page_free_spec (p : P) (b n : Z) :
    page_ok p -> 0 < b -> 1 <= n -> (forall q, in_run b n q = true -> page_held p q = true) ->
    wp (page_free (b * BLOCK_SIZE) n) (fun _ p' =>
      page_ok p' /\ forall q, page_held p' q = negb (in_run b n q) && page_held p q) never p;
}.

Definition LIBALLOC_MAGIC : Z := 0xc001c0de.
Definition LIBALLOC_DEAD : Z := 0xdeaddead.
Definition ALIGNMENT : Z := 16.
Definition ALIGN_INFO : Z := 16.
Definition MAJOR_SIZE : Z := 24.
Definition MINOR_SIZE : Z := 24.
Definition l_pageSize : Z := 4096.
Definition l_pageCount : Z := 16.

(** The fields of [struct liballoc_major] at [maj] ... *)
Definition maj_prev (maj : Z) : Z := maj.
Definition maj_next (maj : Z) : Z := maj + 4.
Definition maj_pages (maj : Z) : Z := maj + 8.
Definition maj_size (maj : Z) : Z := maj + 12.
Definition maj_usage (maj : Z) : Z := maj + 16.
Definition maj_first (maj : Z) : Z := maj + 20.

(** ... and of [struct liballoc_minor] at [min]. *)
Definition min_prev (min : Z) : Z := min.
Definition min_next (min : Z) : Z := min + 4.
Definition min_block (min : Z) : Z := min + 8.
Definition min_magic (min : Z) : Z := min + 12.
Definition min_size (min : Z) : Z := min + 16.
Definition min_req_size (min : Z) : Z := min + 20.

Record lstate (P : Type) : Type := LState {
  l_os : P;
  l_mem : Z -> Z;
  l_memRoot : Z;
  l_bestBet : Z;
  l_allocated : Z;
  l_inuse : Z;
  l_locked : bool;
}.
Arguments LState {P} _ _ _ _ _ _ _.
Arguments l_os {P} _.
Arguments l_mem {P} _ _.
Arguments l_memRoot {P} _.
Arguments l_bestBet {P} _.
Arguments l_allocated {P} _.
Arguments l_inuse {P} _.
Arguments l_locked {P} _.

(** ** Words in a memory of bytes *)

Definition load32 (m : Z -> Z) (a : Z) : Z := m a + m (a + 1) * 2 ^ 8 + m (a + 2) * 2 ^ 16 + m (a + 3) * 2 ^ 24.

Definition store32 (m : Z -> Z) (a v : Z) : Z -> Z :=
  <[a + 3 := v / 2 ^ 24 mod 256]> (<[a + 2 := v / 2 ^ 16 mod 256]> (<[a + 1 := v / 2 ^ 8 mod 256]> (<[a := v mod 256]> m))).

(** [n] bytes from [a] on set to [c]. *)
Definition fill (m : Z -> Z) (a n c : Z) : Z -> Z := fun x => if (a <=? x) && (x <? a + n) then c else m x.

(** [n] bytes at [dst] copied from [src]. *)
Definition copy (m : Z -> Z) (dst src n : Z) : Z -> Z :=
  fun x => if (dst <=? x) && (x <? dst + n) then m (src + (x - dst)) else m x.

Section ops.
Context {P : Type} `{PageAlloc P}.
Abbreviation L := (lstate P).
Implicit Types (s : L).

Definition set_l_mem (m : Z -> Z) s : L :=
  LState (l_os s) m (l_memRoot s) (l_bestBet s) (l_allocated s) (l_inuse s) (l_locked s).
Definition set_memRoot (v : Z) s : L :=
  LState (l_os s) (l_mem s) v (l_bestBet s) (l_allocated s) (l_inuse s) (l_locked s).
Definition set_bestBet (v : Z) s : L :=
  LState (l_os s) (l_mem s) (l_memRoot s) v (l_allocated s) (l_inuse s) (l_locked s).
Definition set_allocated (v : Z) s : L :=
  LState (l_os s) (l_mem s) (l_memRoot s) (l_bestBet s) v (l_inuse s) (l_locked s).
Definition set_inuse (v : Z) s : L :=
  LState (l_os s) (l_mem s) (l_memRoot s) (l_bestBet s) (l_allocated s) v (l_locked s).
Definition set_locked (v : bool) s : L :=
  LState (l_os s) (l_mem s) (l_memRoot s) (l_bestBet s) (l_allocated s) (l_inuse s) v.
Definition os_lens : lens L P :=
  Lens l_os (fun p s => LState p (l_mem s) (l_memRoot s) (l_bestBet s) (l_allocated s) (l_inuse s) (l_locked s)).

(** The [n] bytes at [a] lie in held pages. *)
Definition held s (a n : Z) : bool :=
  forallb (fun q => page_held (l_os s) q) (seqZ (a / l_pageSize) ((a + n - 1) / l_pageSize - a / l_pageSize + 1)).

(** A 32-bit field, and a byte. *)
Definition get (a : Z) : M L Z :=
  let! ok := gets (fun s => held s a 4) in
  some (if ok : bool then Some tt else None) >>> gets (fun s => load32 (l_mem s) a).

Definition put (a v : Z) : M L unit :=
  let! ok := gets (fun s => held s a 4) in
  some (if ok : bool then Some tt else None) >>> modify (fun s => set_l_mem (store32 (l_mem s) a v) s).

Definition get8 (a : Z) : M L Z :=
  let! ok := gets (fun s => held s a 1) in
  some (if ok : bool then Some tt else None) >>> gets (fun s => l_mem s a).

Definition put8 (a v : Z) : M L unit :=
  let! ok := gets (fun s => held s a 1) in
  some (if ok : bool then Some tt else None) >>> modify (fun s => set_l_mem (<[a := v mod 256]> (l_mem s)) s).

(** [memset] and [memcpy] on the heap's memory. *)
Definition fill_bytes (a c n : Z) : M L unit :=
  kassert (negb (a =? 0)) >>>
  kassert (negb (n =? 0)) >>>
  let! ok := gets (fun s => held s a n) in
  some (if ok : bool then Some tt else None) >>> modify (fun s => set_l_mem (fill (l_mem s) a n c) s).

Definition copy_bytes (dst src n : Z) : M L unit :=
  kassert (negb (dst =? 0)) >>>
  kassert (negb (src =? 0)) >>>
  kassert (negb (n =? 0)) >>>
  let! ok := gets (fun s => held s dst n && held s src n) in
  some (if ok : bool then Some tt else None) >>> modify (fun s => set_l_mem (copy (l_mem s) dst src n) s).

(** The spin lock: taking a lock that is held never ends. *)
Definition liballoc_lock : M L unit :=
  let! held := gets l_locked in
  if held : bool then fail Halted else modify (set_locked true).

Definition liballoc_unlock : M L unit := modify (set_locked false).

(** ** The macros ALIGN and UNALIGN *)

Definition ALIGN (ptr : Z) : M L Z :=
  let ptr := u32 (ptr + ALIGN_INFO) in
  let diff := Z.land ptr (ALIGNMENT - 1) in
  let '(ptr, diff) :=
    if negb (diff =? 0) then let diff := ALIGNMENT - diff in (u32 (ptr + diff), diff) else (ptr, diff) in
  put8 (ptr - ALIGN_INFO) (diff + ALIGN_INFO) >>>
  ret ptr.

(** [char] is signed. *)
Definition UNALIGN (ptr : Z) : M L Z :=
  let! c := get8 (ptr - ALIGN_INFO) in
  let diff := if c <? 128 then c else u32 (c - 256) in
  ret (if diff <? ALIGNMENT + ALIGN_INFO then u32 (ptr - diff) else ptr).

(** ** The operations *)

(** [ret false] is behind the failed assertion. *)
Definition liballoc_verify_magic (min : Z) : M L bool :=
  let! magic := get (min_magic min) in
  if negb (magic =? LIBALLOC_MAGIC) then kassert false >>> ret false else ret true.

(** The pages hold anything when they come. *)
Definition os_alloc (pages : Z) : M L Z :=
  let! v := zoom os_lens (page_alloc pages) in
  modify (fun s => set_l_mem (fun x => if (v <=? x) && (x <? v + pages * l_pageSize) then page_junk (l_os s) x mod 256 else l_mem s x) s) >>>
  ret v.

Definition allocate_new_page (size : Z) : M L Z :=
  let st := u32 (u32 (size + MAJOR_SIZE) + MINOR_SIZE) in
  let st := if st mod l_pageSize =? 0 then st / l_pageSize else st / l_pageSize + 1 in
  let st := if st <? l_pageCount then l_pageCount else st in
  let! maj := os_alloc st in
  kassert (negb (maj =? 0)) >>>
  put (maj_prev maj) 0 >>>
  put (maj_next maj) 0 >>>
  put (maj_pages maj) st >>>
  put (maj_size maj) (u32 (st * l_pageSize)) >>>
  put (maj_usage maj) MAJOR_SIZE >>>
  put (maj_first maj) 0 >>>
  let! size := get (maj_size maj) in
  modify (fun s => set_allocated (l_allocated s + size) s) >>>
  ret maj.

Definition liballoc_init : M L unit :=
  let! root := gets l_memRoot in
  kassert (root =? 0) >>>
  let! root := allocate_new_page (ALIGNMENT + ALIGN_INFO) in
  modify (set_memRoot root) >>>
  kassert (negb (root =? 0)).

(** What every case of [kmalloc] ends with: the object at [min] is counted,
    its address aligned and the lock released. *)
Definition taken (maj min size : Z) : M L (option Z) :=
  let! usage := get (maj_usage maj) in
  put (maj_usage maj) (u32 (usage + u32 (size + MINOR_SIZE))) >>>
  modify (fun s => set_inuse (l_inuse s + size) s) >>>
  let! p := ALIGN (min + MINOR_SIZE) in
  liballoc_unlock >>>
  ret (Some p).

(** Not enough space: go on with another major, or a new one.  [inl] is
    [continue]; [inr None] is [break]. *)
Definition case1 (maj startedBet diff size : Z) : M L (Z * Z + option Z) :=
  if diff <? u32 (size + MINOR_SIZE) then
    let! next := get (maj_next maj) in
    if negb (next =? 0) then ret (inl (next, startedBet))
    else if startedBet =? 1 then let! root := gets l_memRoot in ret (inl (root, 0))
    else
      let! new := allocate_new_page size in
      put (maj_next maj) new >>>
      let! next := get (maj_next maj) in
      if next =? 0 then ret (inr None)
      else
        put (maj_prev next) maj >>>
        let! maj := get (maj_next maj) in
        ret (inr (Some maj))
  else ret (inr (Some maj)).

(** A brand new block. *)
Definition case2 (maj size req_size : Z) : M L (option Z) :=
  let! first := get (maj_first maj) in
  if first =? 0 then
    put (maj_first maj) (maj + MAJOR_SIZE) >>>
    let! first := get (maj_first maj) in
    put (min_magic first) LIBALLOC_MAGIC >>>
    put (min_prev first) 0 >>>
    put (min_next first) 0 >>>
    put (min_block first) maj >>>
    put (min_size first) size >>>
    put (min_req_size first) req_size >>>
    taken maj first size
  else ret None.

(** Space at the start of the block. *)
Definition case3 (maj size req_size : Z) : M L (option Z) :=
  let! first := get (maj_first maj) in
  let diff := u32 (first - maj - MAJOR_SIZE) in
  if u32 (size + MINOR_SIZE) <=? diff then
    put (min_prev first) (maj + MAJOR_SIZE) >>>
    let! prev := get (min_prev first) in
    put (min_next prev) first >>>
    put (maj_first maj) prev >>>
    put (min_magic prev) LIBALLOC_MAGIC >>>
    put (min_prev prev) 0 >>>
    put (min_block prev) maj >>>
    put (min_size prev) size >>>
    put (min_req_size prev) req_size >>>
    taken maj prev size
  else ret None.

(** One object of the block: space between it and the end of the block, or
    the next object?  [inl] is the next one. *)
Definition case4_round (maj size req_size min : Z) : M L (Z + option Z) :=
  if min =? 0 then ret (inr None)
  else
    let! next := get (min_next min) in
    let! msize := get (min_size min) in
    if next =? 0 then
      let! total := get (maj_size maj) in
      let diff := u32 (maj + total - min - MINOR_SIZE - msize) in
      if u32 (size + MINOR_SIZE) <=? diff then
        put (min_next min) (u32 (min + MINOR_SIZE + msize)) >>>
        let! new := get (min_next min) in
        put (min_prev new) min >>>
        put (min_next new) 0 >>>
        put (min_magic new) LIBALLOC_MAGIC >>>
        put (min_block new) maj >>>
        put (min_size new) size >>>
        put (min_req_size new) req_size >>>
        let! r := taken maj new size in
        ret (inr r)
      else ret (inl next)
    else
      let diff := u32 (next - min - MINOR_SIZE - msize) in
      if u32 (size + MINOR_SIZE) <=? diff then
        let new_min := u32 (min + MINOR_SIZE + msize) in
        put (min_magic new_min) LIBALLOC_MAGIC >>>
        put (min_next new_min) next >>>
        put (min_prev new_min) min >>>
        put (min_size new_min) size >>>
        put (min_req_size new_min) req_size >>>
        put (min_block new_min) maj >>>
        put (min_prev next) new_min >>>
        put (min_next min) new_min >>>
        let! r := taken maj new_min size in
        ret (inr r)
      else ret (inl next).

(** An object takes [MINOR_SIZE] bytes of its block at least. *)
Definition case4 (maj size req_size : Z) : M L (option Z) :=
  let! total := get (maj_size maj) in
  let! first := get (maj_first maj) in
  loop (S (Z.to_nat (total / MINOR_SIZE))) (case4_round maj size req_size) first.

(** Block full: the next block, or a new one.  [None] is [break]. *)
Definition case5 (maj startedBet size : Z) : M L (option (Z * Z)) :=
  let! next := get (maj_next maj) in
  if next =? 0 then
    if startedBet =? 1 then let! root := gets l_memRoot in ret (Some (root, 0))
    else
      let! new := allocate_new_page size in
      put (maj_next maj) new >>>
      let! next := get (maj_next maj) in
      if next =? 0 then ret None
      else put (maj_prev next) maj >>> ret (Some (next, startedBet))
  else ret (Some (next, startedBet)).

(** One round of the search.  The result is the answer of [kmalloc]. *)
Definition kmalloc_round (size req_size : Z) : Z * Z * Z -> M L (Z * Z * Z + Z) :=
  fun '(maj, startedBet, bestSize) =>
  if maj =? 0 then liballoc_unlock >>> ret (inr 0)
  else
    let! total := get (maj_size maj) in
    let! usage := get (maj_usage maj) in
    let diff := u32 (total - usage) in
    let! bestSize := (if bestSize <? diff then modify (set_bestBet maj) >>> ret diff else ret bestSize) in
    let! r := case1 maj startedBet diff size in
    match r with
    | inl (maj, startedBet) => ret (inl (maj, startedBet, bestSize))
    | inr None => liballoc_unlock >>> ret (inr 0)
    | inr (Some maj) =>
        let! p := case2 maj size req_size in
        match p with
        | Some p => ret (inr p)
        | None =>
            let! p := case3 maj size req_size in
            match p with
            | Some p => ret (inr p)
            | None =>
                let! p := case4 maj size req_size in
                match p with
                | Some p => ret (inr p)
                | None =>
                    let! r := case5 maj startedBet size in
                    match r with
                    | None => liballoc_unlock >>> ret (inr 0)
                    | Some (maj, startedBet) => ret (inl (maj, startedBet, bestSize))
                    end
                end
            end
        end
    end.

(** The search passes over each block twice at most; a block has
    [l_pageCount] pages at least. *)
Definition search_fuel s : nat := (2 * Z.to_nat (l_allocated s / (l_pageCount * l_pageSize)) + 4)%nat.

Definition kmalloc (req_size : Z) : M L Z :=
  let size := u32 (req_size + (ALIGNMENT + ALIGN_INFO)) in
  kassert (negb (size =? 0)) >>>
  liballoc_lock >>>
  let! root := gets l_memRoot in
  kassert (negb (root =? 0)) >>>
  let! bet := gets l_bestBet in
  let! '(maj, startedBet, bestSize) :=
    (if negb (bet =? 0) then
       let! total := get (maj_size bet) in
       let! usage := get (maj_usage bet) in
       let bestSize := u32 (total - usage) in
       if u32 (size + MINOR_SIZE) <? bestSize then ret (bet, 1, bestSize) else ret (root, 0, bestSize)
     else ret (root, 0, 0)) in
  let! fuel := gets search_fuel in
  loop fuel (kmalloc_round size req_size) (maj, startedBet, bestSize).

Definition kfree (ptr : Z) : M L unit :=
  kassert (negb (ptr =? 0)) >>>
  let! ptr := UNALIGN ptr in
  liballoc_lock >>>
  let min := u32 (ptr - MINOR_SIZE) in
  let! ok := liballoc_verify_magic min in
  if negb ok then liballoc_unlock
  else
    let! maj := get (min_block min) in
    let! msize := get (min_size min) in
    modify (fun s => set_inuse (l_inuse s - msize) s) >>>
    fill_bytes ptr 0 msize >>>
    let! usage := get (maj_usage maj) in
    put (maj_usage maj) (u32 (usage - (msize + MINOR_SIZE))) >>>
    put (min_magic min) LIBALLOC_DEAD >>>
    let! next := get (min_next min) in
    let! prev := get (min_prev min) in
    (if negb (next =? 0) then put (min_prev next) prev else ret tt) >>>
    (if negb (prev =? 0) then put (min_next prev) next else ret tt) >>>
    (if prev =? 0 then put (maj_first maj) next else ret tt) >>>
    let! first := get (maj_first maj) in
    (if first =? 0 then
       let! next := get (maj_next maj) in
       let! prev := get (maj_prev maj) in
       let! root := gets l_memRoot in
       (if root =? maj then modify (set_memRoot next) else ret tt) >>>
       let! bet := gets l_bestBet in
       (if bet =? maj then modify (set_bestBet 0) else ret tt) >>>
       (if negb (prev =? 0) then put (maj_next prev) next else ret tt) >>>
       (if negb (next =? 0) then put (maj_prev next) prev else ret tt) >>>
       let! total := get (maj_size maj) in
       let! pages := get (maj_pages maj) in
       modify (fun s => set_allocated (l_allocated s - total) s) >>>
       zoom os_lens (page_free maj pages)
     else
       let! bet := gets l_bestBet in
       if negb (bet =? 0) then
         let! btotal := get (maj_size bet) in
         let! busage := get (maj_usage bet) in
         let! total := get (maj_size maj) in
         let! usage := get (maj_usage maj) in
         if s32 (u32 (btotal - busage)) <? s32 (u32 (total - usage)) then modify (set_bestBet maj) else ret tt
       else ret tt) >>>
    liballoc_unlock.

(** [kcalloc(nobj, size)]. *)
Definition kcalloc (nobj size : Z) : M L Z :=
  let real_size := u32 (nobj * size) in
  let! p := kmalloc real_size in
  kassert (negb (p =? 0)) >>>
  (if negb (real_size =? 0) then fill_bytes p 0 real_size else ret tt) >>>
  ret p.

Definition krealloc (p size : Z) : M L Z :=
  if size =? 0 then kfree p >>> ret 0
  else if p =? 0 then kmalloc size
  else
    let! ptr := UNALIGN p in
    liballoc_lock >>>
    let min := u32 (ptr - MINOR_SIZE) in
    let! ok := liballoc_verify_magic min in
    if negb ok then liballoc_unlock >>> ret 0
    else
      let! real_size := get (min_req_size min) in
      if size <=? real_size then put (min_req_size min) size >>> liballoc_unlock >>> ret p
      else
        liballoc_unlock >>>
        let! ptr := kmalloc size in
        kassert (negb (ptr =? 0)) >>>
        copy_bytes ptr p real_size >>>
        kfree p >>>
        ret ptr.
End ops.
