(* ===== verification/LiballocLayout.v ===== *)
(** * The kernel heap: blocks and objects as data

    The heap's two levels of doubly linked lists as Rocq lists, their layout
    in memory, and what inserting and removing an element writes. *)
From stdpp Require Import functions.
From S2P Require Import Prelude Interfaces Liballoc.

(** ** Words and ranges of memory *)

Definition agree (m m' : Z -> Z) (lo hi : Z) : Prop := forall a, lo <= a < hi -> m' a = m a.

Lemma load32_agree m m' a : agree m m' a (a + 4) -> load32 m' a = load32 m a.
Proof. intros Ha. unfold load32. by rewrite !Ha by lia. Qed.

Lemma load32_store32 m a v : is_u32 v -> load32 (store32 m a v) a = v.
Proof.
  intros Hv. unfold load32, store32. repeat (rewrite fn_lookup_insert || rewrite fn_lookup_insert_ne by lia).
  unfold is_u32 in Hv.
  pose proof (Z.div_mod v 256 ltac:(lia)). pose proof (Z.div_mod (v / 2 ^ 8) 256 ltac:(lia)).
  pose proof (Z.div_mod (v / 2 ^ 16) 256 ltac:(lia)).
  assert (v / 2 ^ 8 / 256 = v / 2 ^ 16) by (rewrite Z.div_div by lia; done).
  assert (v / 2 ^ 16 / 256 = v / 2 ^ 24) by (rewrite Z.div_div by lia; done).
  assert (v / 2 ^ 24 mod 256 = v / 2 ^ 24).
  { apply Z.mod_small. split; [apply Z.div_pos; lia|apply Z.div_lt_upper_bound; lia]. }
  change (2 ^ 8) with 256 in *. lia.
Qed.

Lemma store32_ne m a v x : x < a \/ a + 4 <= x -> store32 m a v x = m x.
Proof. intros Hx. unfold store32. by rewrite !fn_lookup_insert_ne by lia. Qed.

Lemma load32_store32_ne m a v b : b + 4 <= a \/ a + 4 <= b -> load32 (store32 m a v) b = load32 m b.
Proof. intros Hb. apply load32_agree. intros x Hx. apply store32_ne. lia. Qed.

Lemma load32_insert_ne m a v b : a < b \/ b + 4 <= a -> load32 (<[a := v]> m) b = load32 m b.
Proof. intros Hb. apply load32_agree. intros x Hx. apply fn_lookup_insert_ne. lia. Qed.

Lemma load32_fill_ne m a n c b : b + 4 <= a \/ a + n <= b -> load32 (fill m a n c) b = load32 m b.
Proof.
  intros Hb. apply load32_agree. intros x Hx. unfold fill.
  destruct (Z.leb_spec a x), (Z.ltb_spec x (a + n)); cbn; try done. lia.
Qed.

Lemma fill_ne m a n c x : x < a \/ a + n <= x -> fill m a n c x = m x.
Proof. intros Hx. unfold fill. destruct (Z.leb_spec a x), (Z.ltb_spec x (a + n)); cbn; try done. lia. Qed.

(** Reads through writes elsewhere, the side conditions by arithmetic. *)
Ltac mem_step :=
  first [ rewrite load32_store32 by (unfold is_u32, LIBALLOC_MAGIC in *; lia) | rewrite load32_store32_ne by lia
        | rewrite load32_insert_ne by lia | rewrite load32_fill_ne by lia
        | rewrite store32_ne by lia | rewrite fill_ne by lia
        | rewrite fn_lookup_insert_ne by lia ].
Ltac mem_steps := repeat mem_step.

(** ** The heap as data

    A block of [k_pages] pages from page [k_base] on with its objects in the
    order of their addresses; an object has its header at [o_min], room for
    [o_size] bytes behind it and was asked for with [o_req] bytes. *)
Record obj : Type := Obj { o_min : Z; o_size : Z; o_req : Z }.
Record block : Type := Block { k_base : Z; k_pages : Z; k_objs : list obj }.

Definition k_maj (b : block) : Z := k_base b * 4096.
Definition k_end (b : block) : Z := k_maj b + k_pages b * 4096.
Definition o_end (o : obj) : Z := o_min o + 24 + o_size o.

(** The address that the caller gets. *)
Definition user_ptr (min : Z) : Z := (min + 55) / 16 * 16.
Definition o_ptr (o : obj) : Z := user_ptr (o_min o).

Definition first_min (l : list obj) (d : Z) : Z := match l with [] => d | o :: _ => o_min o end.
Definition last_min (l : list obj) (d : Z) : Z := default d (o_min <$> last l).
Definition first_maj (l : list block) (d : Z) : Z := match l with [] => d | b :: _ => k_maj b end.
Definition last_maj (l : list block) (d : Z) : Z := default d (k_maj <$> last l).

(** Objects in increasing order between [lo] and [hi], room for the request
    and its alignment in each. *)
Fixpoint layout (lo : Z) (l : list obj) (hi : Z) : Prop :=
  match l with
  | [] => lo <= hi
  | o :: l' => lo <= o_min o /\ 0 <= o_req o /\ o_req o + 32 <= o_size o /\ layout (o_end o) l' hi
  end.

Definition block_ok (b : block) : Prop :=
  0 < k_base b /\ 16 <= k_pages b /\ k_base b + k_pages b <= 2 ^ 20 /\ layout (k_maj b + 24) (k_objs b) (k_end b).

(** *** ... and in memory *)

Definition minor_at (m : Z -> Z) (maj prev next : Z) (o : obj) : Prop :=
  load32 m (min_prev (o_min o)) = prev /\ load32 m (min_next (o_min o)) = next /\
  load32 m (min_block (o_min o)) = maj /\ load32 m (min_magic (o_min o)) = LIBALLOC_MAGIC /\
  load32 m (min_size (o_min o)) = o_size o /\ load32 m (min_req_size (o_min o)) = o_req o /\
  m (o_ptr o - 16) = o_ptr o - (o_min o + 24).

Fixpoint objs_at (m : Z -> Z) (maj prev : Z) (l : list obj) (next : Z) : Prop :=
  match l with
  | [] => True
  | o :: l' => minor_at m maj prev (first_min l' next) o /\ objs_at m maj (o_min o) l' next
  end.

(** The bytes of a block that are in use. *)
Definition usage (l : list obj) : Z := foldr (fun o n => o_size o + 24 + n) 24 l.

Definition block_at (m : Z -> Z) (prev next : Z) (b : block) : Prop :=
  load32 m (maj_prev (k_maj b)) = prev /\ load32 m (maj_next (k_maj b)) = next /\
  load32 m (maj_pages (k_maj b)) = k_pages b /\ load32 m (maj_size (k_maj b)) = k_pages b * 4096 /\
  load32 m (maj_usage (k_maj b)) = usage (k_objs b) /\ load32 m (maj_first (k_maj b)) = first_min (k_objs b) 0 /\
  objs_at m (k_maj b) 0 (k_objs b) 0.

Fixpoint blocks_at (m : Z -> Z) (prev : Z) (l : list block) (next : Z) : Prop :=
  match l with
  | [] => True
  | b :: l' => block_at m prev (first_maj l' next) b /\ blocks_at m (k_maj b) l' next
  end.

Ltac fields := unfold maj_prev, maj_next, maj_pages, maj_size, maj_usage, maj_first,
  min_prev, min_next, min_block, min_magic, min_size, min_req_size in *.

Lemma user_ptr_range min : min + 40 <= user_ptr min <= min + 55.
Proof. unfold user_ptr. pose proof (Z.div_mod (min + 55) 16). pose proof (Z.mod_pos_bound (min + 55) 16). lia. Qed.

Lemma o_ptr_range o : o_min o + 40 <= o_ptr o <= o_min o + 55.
Proof. apply user_ptr_range. Qed.

(** *** Layouts *)

Lemma layout_bounds lo l hi : layout lo l hi -> lo <= hi.
Proof.
  revert lo. induction l as [|o l IH]; intros lo; cbn; [done|]. intros (Hlo & Hr & Hs & Hl%IH).
  unfold o_end in *. lia.
Qed.

Lemma layout_app lo l1 l2 hi : layout lo (l1 ++ l2) hi <->
  exists mid, layout lo l1 mid /\ layout mid l2 hi /\ mid = match last l1 with Some o => o_end o | None => lo end.
Proof.
  revert lo. induction l1 as [|o l1 IH]; intros lo; cbn [app layout last].
  - split; [intros Hl; exists lo; split; [lia|done]|by intros (mid & Hlo & Hl & ->)].
  - rewrite IH. split.
    + intros (A & B & C & mid & Hl1 & Hl2 & ->). eexists. split; [split; [done|split; [done|split; [done|exact Hl1]]]|].
      split; [done|]. rewrite last_cons. by destruct (last l1).
    + intros (mid & (A & B & C & Hl1) & Hl2 & ->). split; [done|]. split; [done|]. split; [done|].
      eexists. split; [exact Hl1|]. split; [done|]. rewrite last_cons. by destruct (last l1).
Qed.

Lemma layout_in lo l hi o : layout lo l hi -> o ∈ l -> lo <= o_min o /\ 0 <= o_req o /\ o_req o + 32 <= o_size o /\ o_end o <= hi.
Proof.
  revert lo. induction l as [|x l IH]; intros lo Hl Ho; [by apply not_elem_of_nil in Ho|]. cbn in Hl.
  destruct Hl as (A & B & C & D). pose proof (layout_bounds _ _ _ D).
  apply elem_of_cons in Ho as [->|Ho]; [unfold o_end in *; lia|].
  apply (IH (o_end x) D) in Ho. unfold o_end in *. lia.
Qed.

(** Two objects of a layout do not overlap. *)
Lemma layout_disjoint lo l hi o o' :
  layout lo l hi -> o ∈ l -> o' ∈ l -> o = o' \/ o_end o <= o_min o' \/ o_end o' <= o_min o.
Proof.
  revert lo. induction l as [|x l IH]; intros lo Hl Ho Ho'; [by apply not_elem_of_nil in Ho|]. cbn in Hl.
  destruct Hl as (_ & _ & _ & D).
  apply elem_of_cons in Ho as [->|Ho], Ho' as [->|Ho']; [by left|..].
  - right; left. by destruct (layout_in _ _ _ _ D Ho').
  - right; right. by destruct (layout_in _ _ _ _ D Ho).
  - by apply (IH (o_end x)).
Qed.

Lemma usage_cons o l : usage (o :: l) = o_size o + 24 + usage l.
Proof. done. Qed.

Lemma usage_app l1 l2 : usage (l1 ++ l2) = usage l1 + usage l2 - 24.
Proof.
  induction l1 as [|o l1 IH]; cbn [app]; [change (usage []) with 24; lia|]. rewrite !usage_cons, IH. lia.
Qed.

Lemma usage_pos l lo hi : layout lo l hi -> 24 <= usage l <= 24 + (hi - lo).
Proof.
  revert lo. induction l as [|o l IH]; intros lo Hl; cbn [layout] in Hl; [change (usage []) with 24; lia|].
  destruct Hl as (A & B & C & D). rewrite usage_cons. apply IH in D. unfold o_end in *. lia.
Qed.

(** *** Frames *)

Lemma minor_at_agree m m' maj p n o :
  32 <= o_size o -> agree m m' (o_min o) (o_end o) -> minor_at m maj p n o -> minor_at m' maj p n o.
Proof.
  intros Hs Ha (A & B & C & D & E & G & I). pose proof (o_ptr_range o). unfold minor_at in *. fields. unfold o_end in *.
  split_and!; try (rewrite (load32_agree m m') by (intros x Hx; apply Ha; lia); done). rewrite Ha by lia. done.
Qed.

Lemma objs_at_agree m m' maj p l n lo hi :
  layout lo l hi -> agree m m' lo hi -> objs_at m maj p l n -> objs_at m' maj p l n.
Proof.
  revert p lo. induction l as [|o l IH]; intros p lo Hl Ha; cbn in *; [done|].
  destruct Hl as (A & B & C & D). pose proof (layout_bounds _ _ _ D) as Hb. intros [Hm Hr]. unfold o_end in *. split.
  - eapply minor_at_agree; [lia| |done]. intros x Hx. apply Ha. unfold o_end in *. lia.
  - eapply IH; [exact D| |done]. intros x Hx. apply Ha. lia.
Qed.

Lemma objs_at_app m maj p l1 l2 n :
  objs_at m maj p (l1 ++ l2) n <-> objs_at m maj p l1 (first_min l2 n) /\ objs_at m maj (last_min l1 p) l2 n.
Proof.
  revert p. induction l1 as [|o l1 IH]; intros p; cbn [app objs_at]; [by split; [|intros [_ ?]]|].
  rewrite IH. assert (first_min (l1 ++ l2) n = first_min l1 (first_min l2 n)) as -> by (by destruct l1).
  assert (last_min (o :: l1) p = last_min l1 (o_min o)) as ->.
  { unfold last_min. rewrite last_cons. by destruct (last l1). }
  tauto.
Qed.

Lemma block_at_agree m m' p n b :
  block_ok b -> agree m m' (k_maj b) (k_end b) -> block_at m p n b -> block_at m' p n b.
Proof.
  intros (_ & Hp & _ & Hl) Ha (A & B & C & D & E & G & I). unfold block_at. fields.
  assert (k_maj b + 24 <= k_end b) as Hk by (by apply layout_bounds in Hl).
  split_and!; try (rewrite (load32_agree m m') by (intros x Hx; apply Ha; unfold k_end in *; lia); done).
  eapply objs_at_agree; [exact Hl| |done]. intros x Hx. apply Ha. lia.
Qed.

Lemma blocks_at_app m p l1 l2 n :
  blocks_at m p (l1 ++ l2) n <-> blocks_at m p l1 (first_maj l2 n) /\ blocks_at m (last_maj l1 p) l2 n.
Proof.
  revert p. induction l1 as [|b l1 IH]; intros p; cbn [app blocks_at]; [by split; [|intros [_ ?]]|].
  rewrite IH. assert (first_maj (l1 ++ l2) n = first_maj l1 (first_maj l2 n)) as -> by (by destruct l1).
  assert (last_maj (b :: l1) p = last_maj l1 (k_maj b)) as ->.
  { unfold last_maj. rewrite last_cons. by destruct (last l1). }
  tauto.
Qed.

Lemma blocks_at_agree m m' p l n :
  Forall block_ok l -> (forall b, b ∈ l -> agree m m' (k_maj b) (k_end b)) ->
  blocks_at m p l n -> blocks_at m' p l n.
Proof.
  revert p. induction l as [|b l IH]; intros p Hok Ha; cbn; [done|]. apply Forall_cons in Hok as [Hb Hok].
  intros [Hbl Hr]. split.
  - eapply block_at_agree; [done| |done]. apply Ha. by left.
  - apply IH; [done| |done]. intros x Hx. apply Ha. by right.
Qed.

(** ** Changing the chains

    The end of a chain of objects may be linked to something else, and so may
    its start. *)
Lemma objs_at_next m m' maj p l n n' lo hi :
  layout lo l hi -> objs_at m maj p l n ->
  (forall a, lo <= a < hi -> (forall x, last l = Some x -> ~ (o_min x + 4 <= a < o_min x + 8)) -> m' a = m a) ->
  (forall x, last l = Some x -> load32 m' (min_next (o_min x)) = n') ->
  objs_at m' maj p l n'.
Proof.
  intros Hl Ho Ha Hn. destruct (last l) as [x|] eqn:Hx; [|by apply last_None in Hx as ->].
  destruct l as [|l1 x' _] using rev_ind; [done|]. rewrite last_snoc in Hx. injection Hx as ->.
  apply layout_app in Hl as (mid & Hl1 & (A & B & C & Hhi) & _). cbn in Hhi. apply objs_at_app in Ho as [Ho1 [Hm _]].
  pose proof (layout_bounds _ _ _ Hl1) as Hb. pose proof (o_ptr_range x). unfold o_end in *.
  apply objs_at_app. split.
  - eapply objs_at_agree; [exact Hl1| |exact Ho1]. intros a Hin. apply Ha; [lia|]. intros ? [= <-]. lia.
  - split; [|done]. destruct Hm as (M1 & M2 & M3 & M4 & M5 & M6 & M7). cbn [first_min] in *. unfold minor_at. fields.
    specialize (Hn x eq_refl).
    assert (agree m m' (o_min x) (o_min x + 4) /\ agree m m' (o_min x + 8) (o_min x + 24 + o_size x)) as [G1 G2].
    { split; intros a Hin; (apply Ha; [lia|]); intros ? [= <-]; lia. }
    split_and!; try (rewrite (load32_agree m m') by (intros a Hin; first [apply G1; lia|apply G2; lia]); done); [done|].
    rewrite G2 by lia. done.
Qed.

Lemma objs_at_prev m m' maj p p' l n lo hi :
  layout lo l hi -> objs_at m maj p l n ->
  (forall a, lo <= a < hi -> (forall y, head l = Some y -> ~ (o_min y <= a < o_min y + 4)) -> m' a = m a) ->
  (forall y, head l = Some y -> load32 m' (min_prev (o_min y)) = p') ->
  objs_at m' maj p' l n.
Proof.
  intros Hl Ho Ha Hn. destruct l as [|y l]; [done|]. cbn in Hl, Ho. destruct Hl as (A & B & C & D), Ho as [Hm Ho].
  pose proof (layout_bounds _ _ _ D) as Hb. pose proof (o_ptr_range y). unfold o_end in *. split.
  - destruct Hm as (M1 & M2 & M3 & M4 & M5 & M6 & M7). unfold minor_at. fields. specialize (Hn y eq_refl).
    assert (agree m m' (o_min y + 4) (o_min y + 24 + o_size y)) as G.
    { intros a Hin. apply Ha; [lia|]. intros ? [= <-]. lia. }
    split_and!; try (rewrite (load32_agree m m') by (intros a Hin; apply G; lia); done); [done|]. rewrite G by lia. done.
  - eapply objs_at_agree; [exact D| |done]. intros a Hin. apply Ha; [lia|]. intros ? [= <-]. lia.
Qed.

(** What inserting [o] between [l1] and [l2] writes. *)
Definition insert_writes (maj : Z) (l1 : list obj) (o : obj) (l2 : list obj) (a : Z) : Prop :=
  maj + 16 <= a < maj + 24 \/ o_min o <= a < o_min o + 24 \/ a = o_ptr o - 16 \/
  (exists x, last l1 = Some x /\ o_min x + 4 <= a < o_min x + 8) \/
  (exists y, head l2 = Some y /\ o_min y <= a < o_min y + 4).

Definition with_objs (b : block) (l : list obj) : block := Block (k_base b) (k_pages b) l.

Lemma block_at_insert m m' p n b l1 o l2 :
  block_ok b -> k_objs b = l1 ++ l2 -> block_ok (with_objs b (l1 ++ o :: l2)) -> block_at m p n b ->
  (forall a, k_maj b <= a < k_end b -> ~ insert_writes (k_maj b) l1 o l2 a -> m' a = m a) ->
  minor_at m' (k_maj b) (last_min l1 0) (first_min l2 0) o ->
  load32 m' (maj_usage (k_maj b)) = usage (l1 ++ o :: l2) ->
  load32 m' (maj_first (k_maj b)) = first_min (l1 ++ o :: l2) 0 ->
  (forall x, last l1 = Some x -> load32 m' (min_next (o_min x)) = o_min o) ->
  (forall y, head l2 = Some y -> load32 m' (min_prev (o_min y)) = o_min o) ->
  block_at m' p n (with_objs b (l1 ++ o :: l2)).
Proof.
  intros Hok Hl (H1 & H2 & H3 & Hlay) (A & B & C & D & _ & _ & Ho) Ha Hm Hu Hf Hx Hy. cbn [k_objs with_objs] in Hlay.
  change (k_maj (with_objs b (l1 ++ o :: l2))) with (k_maj b) in *.
  change (k_end (with_objs b (l1 ++ o :: l2))) with (k_end b) in *.
  apply layout_app in Hlay as (mid & Hlay1 & (L1 & L2 & L3 & Hlay2) & Hmid). rewrite Hl in Ho. apply objs_at_app in Ho as [Ho1 Ho2].
  pose proof (layout_bounds _ _ _ Hlay1). pose proof (layout_bounds _ _ _ Hlay2) as Hb2. pose proof (o_ptr_range o) as Hpo. unfold o_end in *.
  assert (forall x, last l1 = Some x -> k_maj b + 24 <= o_min x /\ o_min x + 24 + o_size x <= mid /\ 32 <= o_size x) as Hin1.
  { intros x Hlx. destruct (layout_in _ _ _ x Hlay1); [by apply last_Some_elem_of|]. unfold o_end in *. lia. }
  assert (forall y, head l2 = Some y -> o_min o + 24 + o_size o <= o_min y) as Hin2.
  { intros y Hly. destruct l2 as [|y' l2]; [done|]. injection Hly as ->. by destruct Hlay2. }
  assert (agree m m' (k_maj b) (k_maj b + 16)) as Gmaj.
  { intros a Hin. apply Ha; [lia|]. intros [W|[W|[W|[(x & Hlx & W)|(y & Hly & W)]]]]; [lia|lia|lia| |].
    - apply Hin1 in Hlx. lia.
    - apply Hin2 in Hly. lia. }
  unfold block_at. fields. cbn [k_pages with_objs k_objs]. change (k_maj (with_objs b (l1 ++ o :: l2))) with (k_maj b).
  split_and!; try (rewrite (load32_agree m m') by (intros a Hin; apply Gmaj; lia); done); [done|done|].
  apply objs_at_app. cbn [first_min objs_at]. split; [|split; [done|]].
  - eapply objs_at_next; [exact Hlay1|exact Ho1| |done]. intros a Hin Hn. apply Ha; [lia|].
    intros [W|[W|[W|[(x & Hlx & W)|(y & Hly & W)]]]]; [lia|lia|lia|by apply (Hn x Hlx)|]. apply Hin2 in Hly. lia.
  - eapply objs_at_prev; [exact Hlay2|exact Ho2| |done]. intros a Hin Hn. apply Ha; [lia|].
    intros [W|[W|[W|[(x & Hlx & W)|(y & Hly & W)]]]]; [lia|lia|lia| |by apply (Hn y Hly)]. apply Hin1 in Hlx. lia.
Qed.

(** What removing [o] from between [l1] and [l2] writes. *)
Definition remove_writes (maj : Z) (l1 : list obj) (o : obj) (l2 : list obj) (a : Z) : Prop :=
  maj + 16 <= a < maj + 24 \/ o_min o <= a < o_end o \/
  (exists x, last l1 = Some x /\ o_min x + 4 <= a < o_min x + 8) \/
  (exists y, head l2 = Some y /\ o_min y <= a < o_min y + 4).

Lemma block_at_remove m m' p n b l1 o l2 :
  block_ok b -> k_objs b = l1 ++ o :: l2 -> block_at m p n b ->
  (forall a, k_maj b <= a < k_end b -> ~ remove_writes (k_maj b) l1 o l2 a -> m' a = m a) ->
  load32 m' (maj_usage (k_maj b)) = usage (l1 ++ l2) ->
  load32 m' (maj_first (k_maj b)) = first_min (l1 ++ l2) 0 ->
  (forall x, last l1 = Some x -> load32 m' (min_next (o_min x)) = first_min l2 0) ->
  (forall y, head l2 = Some y -> load32 m' (min_prev (o_min y)) = last_min l1 0) ->
  block_ok (with_objs b (l1 ++ l2)) /\ block_at m' p n (with_objs b (l1 ++ l2)).
Proof.
  intros (H1 & H2 & H3 & Hlay) Hl (A & B & C & D & _ & _ & Ho) Ha Hu Hf Hx Hy. rewrite Hl in Hlay, Ho.
  apply layout_app in Hlay as (mid & Hlay1 & (L1 & L2 & L3 & Hlay2) & Hmid).
  apply objs_at_app in Ho as [Ho1 [_ Ho2]]. cbn [first_min] in Ho1.
  pose proof (layout_bounds _ _ _ Hlay1). pose proof (layout_bounds _ _ _ Hlay2) as Hb2. unfold o_end in *.
  assert (forall x, last l1 = Some x -> k_maj b + 24 <= o_min x /\ o_min x + 24 + o_size x <= mid /\ 32 <= o_size x) as Hin1.
  { intros x Hlx. destruct (layout_in _ _ _ x Hlay1); [by apply last_Some_elem_of|]. unfold o_end in *. lia. }
  assert (forall y, head l2 = Some y -> o_min o + 24 + o_size o <= o_min y) as Hin2.
  { intros y Hly. destruct l2 as [|y' l2]; [done|]. injection Hly as ->. by destruct Hlay2. }
  split.
  { split; [done|]. split; [done|]. split; [done|]. cbn [k_objs with_objs]. apply layout_app. exists mid.
    split; [done|]. split; [|done]. change (k_end (with_objs b (l1 ++ l2))) with (k_end b).
    destruct l2 as [|y l2]; cbn [layout] in *; [lia|]. destruct Hlay2 as (Y & R). split; [lia|done]. }
  assert (agree m m' (k_maj b) (k_maj b + 16)) as Gmaj.
  { intros a Hin. apply Ha; [lia|]. intros [W|[W|[(x & Hlx & W)|(y & Hly & W)]]]; [lia|unfold o_end in *; lia| |].
    - apply Hin1 in Hlx. lia.
    - apply Hin2 in Hly. lia. }
  unfold block_at. fields. cbn [k_pages with_objs k_objs]. change (k_maj (with_objs b (l1 ++ l2))) with (k_maj b).
  split_and!; try (rewrite (load32_agree m m') by (intros a Hin; apply Gmaj; lia); done); [done|done|].
  apply objs_at_app. split.
  - eapply objs_at_next; [exact Hlay1|exact Ho1| |done]. intros a Hin Hn. apply Ha; [lia|].
    intros [W|[W|[(x & Hlx & W)|(y & Hly & W)]]]; [lia|lia|by apply (Hn x Hlx)|]. apply Hin2 in Hly. lia.
  - eapply objs_at_prev; [exact Hlay2|exact Ho2| |done]. intros a Hin Hn. apply Ha; [lia|].
    intros [W|[W|[(x & Hlx & W)|(y & Hly & W)]]]; [lia|unfold o_end in *; lia| |by apply (Hn y Hly)]. apply Hin1 in Hlx. lia.
Qed.

(** *** Blocks *)

(** A memory that changes inside one block only. *)
Lemma blocks_at_update m m' pre b b' post :
  Forall block_ok (pre ++ b :: post) -> k_base b' = k_base b ->
  (forall x, x ∈ pre \/ x ∈ post -> agree m m' (k_maj x) (k_end x)) ->
  blocks_at m 0 (pre ++ b :: post) 0 ->
  block_at m' (last_maj pre 0) (first_maj post 0) b' ->
  blocks_at m' 0 (pre ++ b' :: post) 0.
Proof.
  intros [Hpre [Hb Hpost]%Forall_cons]%Forall_app Hk Ha [B1 [_ B2]]%blocks_at_app Hb'.
  assert (k_maj b' = k_maj b) as Hm by (unfold k_maj; by rewrite Hk).
  apply blocks_at_app. cbn [first_maj blocks_at]. cbn [first_maj] in B1. rewrite Hm. split; [|split; [done|]].
  - eapply blocks_at_agree; [done| |done]. intros x Hx. apply Ha. by left.
  - eapply blocks_at_agree; [done| |done]. intros x Hx. apply Ha. by right.
Qed.

Lemma blocks_at_mid m pre b post : blocks_at m 0 (pre ++ b :: post) 0 -> block_at m (last_maj pre 0) (first_maj post 0) b.
Proof. intros [_ [Hb _]]%blocks_at_app. done. Qed.

(** The [next] word of the last block of a chain, and the [prev] word of the
    first, may change. *)
Lemma block_at_relink m m' p p' n n' b :
  block_ok b -> block_at m p n b -> agree m m' (k_maj b + 8) (k_end b) ->
  load32 m' (maj_prev (k_maj b)) = p' -> load32 m' (maj_next (k_maj b)) = n' -> block_at m' p' n' b.
Proof.
  intros (_ & Hp & _ & Hl) (A & B & C & D & E & G & I) Ha Hp' Hn'. unfold block_at. fields.
  pose proof (layout_bounds _ _ _ Hl). split_and!; [done|done|..];
    try (rewrite (load32_agree m m') by (intros x Hx; apply Ha; lia); done).
  eapply objs_at_agree; [exact Hl| |done]. intros x Hx. apply Ha. lia.
Qed.

Lemma blocks_at_next m m' p l n n' :
  Forall block_ok l -> blocks_at m p l n ->
  (forall b a, b ∈ l -> k_maj b <= a < k_end b -> (forall x, last l = Some x -> ~ (k_maj x + 4 <= a < k_maj x + 8)) -> m' a = m a) ->
  (forall x, last l = Some x -> load32 m' (maj_next (k_maj x)) = n') ->
  (forall b, b ∈ l -> forall x, last l = Some x -> b = x \/ k_end b <= k_maj x \/ k_end x <= k_maj b) ->
  NoDup (k_base <$> l) ->
  blocks_at m' p l n'.
Proof.
  intros Hok Hb Ha Hn Hd Hnd. destruct l as [|x l1 _] using rev_ind; [done|]. rewrite last_snoc in *.
  apply blocks_at_app in Hb as [Hb1 [Hx _]]. apply Forall_app in Hok as [Hok1 [Hokx _]%Forall_cons].
  assert (k_maj x + 24 <= k_end x) as Hkx by (destruct Hokx as (_ & _ & _ & Hl%layout_bounds); done).
  apply blocks_at_app. split; [|split; [|done]].
  - eapply blocks_at_agree; [done| |done]. intros b Hin a Hab. apply (Ha b); [apply elem_of_app; by left|done|].
    intros ? [= <-]. destruct (Hd b) with x as [->|[Hd'|Hd']]; [apply elem_of_app; by left|done| |lia|lia].
    exfalso. rewrite fmap_app in Hnd. apply NoDup_app in Hnd as (_ & Hnd & _). apply (Hnd (k_base x)).
    + by apply list_elem_of_fmap_2.
    + cbn. by left.
  - eapply block_at_relink; [done|exact Hx| | |by apply Hn].
    + intros a Hin. apply (Ha x); [apply elem_of_app; right; by left|lia|]. intros ? [= <-]. lia.
    + rewrite (load32_agree m m'); [apply Hx|]. fields. intros a Hin.
      apply (Ha x); [apply elem_of_app; right; by left|lia|]. intros ? [= <-]. lia.
Qed.

Lemma blocks_at_prev m m' p p' l n :
  Forall block_ok l -> blocks_at m p l n ->
  (forall b a, b ∈ l -> k_maj b <= a < k_end b -> (forall y, head l = Some y -> ~ (k_maj y <= a < k_maj y + 4)) -> m' a = m a) ->
  (forall y, head l = Some y -> load32 m' (maj_prev (k_maj y)) = p') ->
  (forall b, b ∈ l -> forall y, head l = Some y -> b = y \/ k_end b <= k_maj y \/ k_end y <= k_maj b) ->
  NoDup (k_base <$> l) ->
  blocks_at m' p' l n.
Proof.
  intros Hok Hb Ha Hn Hd Hnd. destruct l as [|y l]; [done|]. cbn [head] in *.
  destruct Hb as [Hy Hb]. apply Forall_cons in Hok as [Hoky Hok].
  assert (k_maj y + 24 <= k_end y) as Hky by (destruct Hoky as (_ & _ & _ & Hl%layout_bounds); done). split.
  - eapply block_at_relink; [done|exact Hy| |by apply Hn|].
    + intros a Hin. apply (Ha y); [by left|lia|]. intros ? [= <-]. lia.
    + rewrite (load32_agree m m'); [apply Hy|]. fields. intros a Hin. apply (Ha y); [by left|lia|]. intros ? [= <-]. lia.
  - eapply blocks_at_agree; [done| |done]. intros b Hin a Hab. apply (Ha b); [by right|done|].
    intros ? [= <-]. destruct (Hd b) with y as [->|[Hd'|Hd']]; [by right|done| |lia|lia].
    exfalso. cbn in Hnd. apply NoDup_cons in Hnd as [Hnd _]. apply Hnd. by apply list_elem_of_fmap_2.
Qed.

(** ** The invariant *)

Definition total_pages (l : list block) : Z := foldr (fun b n => k_pages b + n) 0 l.

Lemma total_pages_app l1 l2 : total_pages (l1 ++ l2) = total_pages l1 + total_pages l2.
Proof. induction l1 as [|b l1 IH]; cbn; [done|]. unfold total_pages in *. cbn in *. lia. Qed.

Lemma total_pages_cons b l : total_pages (b :: l) = k_pages b + total_pages l.
Proof. done. Qed.

Lemma total_pages_length l : Forall block_ok l -> 16 * Z.of_nat (length l) <= total_pages l.
Proof.
  induction l as [|b l IH]; [done|]. intros [(_ & Hb & _) Hl%IH]%Forall_cons. rewrite total_pages_cons. cbn [length]. lia.
Qed.

