(* ===== verification/LiballocInv.v ===== *)
(** * The kernel heap: its invariant, kept by kmalloc and kfree *)
From stdpp Require Import functions.
From S2P Require Import Prelude Interfaces Liballoc LiballocLayout.

Section proofs.
Context {P : Type} `{PageAllocLaws P}.
Implicit Types (s : lstate P) (pre post : list block) (b : block) (o : obj).

Definition run_held (p : P) b : Prop := forall q, in_run (k_base b) (k_pages b) q = true -> page_held p q = true.

Definition apart b b' : Prop := k_end b <= k_maj b' \/ k_end b' <= k_maj b.

Record heap_inv (locked : bool) s (l : list block) : Prop := HeapInv {
  hi_os : page_ok (l_os s);
  hi_lock : l_locked s = locked;
  hi_root : l_memRoot s = first_maj l 0;
  hi_at : blocks_at (l_mem s) 0 l 0;
  hi_ok : Forall block_ok l;
  hi_held : forall b, b ∈ l -> run_held (l_os s) b;
  hi_apart : forall b b', b ∈ l -> b' ∈ l -> b = b' \/ apart b b';
  hi_nodup : NoDup (k_base <$> l);
  hi_bet : l_bestBet s = 0 \/ exists b, b ∈ l /\ k_maj b = l_bestBet s;
  hi_allocated : l_allocated s = total_pages l * 4096;
}.

(** The memory of the users' objects. *)
Definition user_byte (l : list block) (a : Z) : Prop := exists b o, b ∈ l /\ o ∈ k_objs b /\ o_ptr o <= a < o_end o.

Definition users_keep (l : list block) s s' : Prop := forall a, user_byte l a -> l_mem s' a = l_mem s a.

(** *** Access *)

Lemma run_held_at s b a n :
  run_held (l_os s) b -> k_maj b <= a -> a + n <= k_end b -> 1 <= n -> held s a n = true.
Proof.
  intros Hr Ha Hn H1. unfold held. apply Is_true_true, forallb_True, Forall_forall. intros q Hq.
  apply elem_of_seqZ in Hq. apply Is_true_true, Hr. unfold in_run, k_maj, k_end, k_maj, l_pageSize in *.
  assert (k_base b <= a / 4096) by (apply Z.div_le_lower_bound; lia).
  assert ((a + n - 1) / 4096 < k_base b + k_pages b) by (apply Z.div_lt_upper_bound; lia).
  rewrite (proj2 (Z.leb_le _ _)), (proj2 (Z.ltb_lt _ _)) by lia. done.
Qed.

Lemma wp_get s b a (Q : Z -> lstate P -> Prop) E :
  run_held (l_os s) b -> k_maj b <= a -> a + 4 <= k_end b -> Q (load32 (l_mem s) a) s -> wp (get a) Q E s.
Proof. intros. unfold get. wp_steps. rewrite (run_held_at s b) by (done || lia). wp_cond. by wp_steps. Qed.

Lemma wp_put s b a v (Q : unit -> lstate P -> Prop) E :
  run_held (l_os s) b -> k_maj b <= a -> a + 4 <= k_end b ->
  Q tt (set_l_mem (store32 (l_mem s) a v) s) -> wp (put a v) Q E s.
Proof. intros. unfold put. wp_steps. rewrite (run_held_at s b) by (done || lia). wp_cond. by wp_steps. Qed.

Lemma wp_put8 s b a v (Q : unit -> lstate P -> Prop) E :
  run_held (l_os s) b -> k_maj b <= a -> a + 1 <= k_end b ->
  Q tt (set_l_mem (<[a := v mod 256]> (l_mem s)) s) -> wp (put8 a v) Q E s.
Proof. intros. unfold put8. wp_steps. rewrite (run_held_at s b) by (done || lia). wp_cond. by wp_steps. Qed.

Lemma wp_get8 s b a (Q : Z -> lstate P -> Prop) E :
  run_held (l_os s) b -> k_maj b <= a -> a + 1 <= k_end b -> Q (l_mem s a) s -> wp (get8 a) Q E s.
Proof. intros. unfold get8. wp_steps. rewrite (run_held_at s b) by (done || lia). wp_cond. by wp_steps. Qed.

(** *** The alignment *)

Lemma land_15 z : Z.land z (ALIGNMENT - 1) = z mod 16.
Proof. change (ALIGNMENT - 1) with (Z.ones 4). by rewrite land_ones_mod. Qed.

Lemma wp_ALIGN s b min (Q : Z -> lstate P -> Prop) E :
  run_held (l_os s) b -> k_maj b <= min -> min + 56 <= k_end b -> 0 <= min -> k_end b <= 2 ^ 32 ->
  Q (user_ptr min) (set_l_mem (<[user_ptr min - 16 := user_ptr min - (min + 24)]> (l_mem s)) s) ->
  wp (ALIGN (min + MINOR_SIZE)) Q E s.
Proof.
  intros Hr Hlo Hhi H1 H2 HQ. unfold ALIGN, MINOR_SIZE, ALIGN_INFO. rewrite (u32_small (min + 24 + 16)) by (unfold is_u32; lia).
  rewrite land_15. pose proof (Z.div_mod (min + 24 + 16) 16 ltac:(lia)) as Hdm.
  pose proof (Z.mod_pos_bound (min + 24 + 16) 16 ltac:(lia)) as Hmb.
  assert (user_ptr min = if (min + 24 + 16) mod 16 =? 0 then min + 24 + 16 else min + 24 + 16 + (16 - (min + 24 + 16) mod 16)) as Hup.
  { unfold user_ptr. destruct (Z.eqb_spec ((min + 24 + 16) mod 16) 0) as [Hz|Hz].
    - assert ((min + 55) / 16 = (min + 24 + 16) / 16) as ->; [symmetry; apply Z.div_unique with 15; lia|lia].
    - assert ((min + 55) / 16 = (min + 24 + 16) / 16 + 1) as ->; [|lia].
      symmetry. apply Z.div_unique with ((min + 24 + 16) mod 16 - 1); lia. }
  pose proof (user_ptr_range min) as Hur. destruct (Z.eqb_spec ((min + 24 + 16) mod 16) 0) as [Hz|Hz]; cbn [negb]; unfold ALIGNMENT.
  - wp_steps. rewrite <- Hup. apply (wp_put8 s b); [done|lia|lia|]. wp_steps.
    rewrite Hup in HQ |- *. rewrite Hz. by replace (min + 24 + 16 - (min + 24)) with 16 in HQ by lia.
  - rewrite (u32_small (min + 24 + 16 + _)) by (unfold is_u32; lia). wp_steps. rewrite <- Hup.
    apply (wp_put8 s b); [done|lia|lia|]. wp_steps.
    replace (user_ptr min - (min + 24)) with (16 - (min + 24 + 16) mod 16 + 16) in HQ by lia.
    by rewrite (Z.mod_small _ 256) by lia.
Qed.

Lemma wp_UNALIGN s b o (Q : Z -> lstate P -> Prop) E :
  run_held (l_os s) b -> k_maj b <= o_min o -> o_min o + 56 <= k_end b -> 0 <= o_min o -> k_end b <= 2 ^ 32 ->
  l_mem s (o_ptr o - 16) = o_ptr o - (o_min o + 24) ->
  Q (o_min o + 24) s -> wp (UNALIGN (o_ptr o)) Q E s.
Proof.
  intros Hr Hlo Hhi H1 H2 Hb HQ. unfold UNALIGN, ALIGN_INFO, ALIGNMENT. pose proof (o_ptr_range o). wp_steps.
  apply (wp_get8 s b); [done|lia|lia|]. wp_steps. rewrite Hb, (proj2 (Z.ltb_lt _ 128)) by lia.
  rewrite (proj2 (Z.ltb_lt _ (16 + 16))) by lia. rewrite u32_small by (unfold is_u32; lia).
  by replace (o_ptr o - (o_ptr o - (o_min o + 24))) with (o_min o + 24) by lia.
Qed.

(** ** Taking an object *)

Definition start_of b (l1 : list obj) : Z := match last l1 with Some x => o_end x | None => k_maj b + 24 end.

(** [o] fits between [l1] and [l2]. *)
Definition fits b (l1 : list obj) o (l2 : list obj) : Prop :=
  start_of b l1 <= o_min o /\ 0 <= o_req o /\ o_req o + 32 <= o_size o /\ o_end o <= first_min l2 (k_end b).

Lemma fits_ok b l1 o l2 :
  block_ok b -> k_objs b = l1 ++ l2 -> fits b l1 o l2 -> block_ok (with_objs b (l1 ++ o :: l2)).
Proof.
  intros (A & B & C & Hl) He (F1 & F2 & F3 & F4). rewrite He in Hl. apply layout_app in Hl as (mid & Hl1 & Hl2 & Hmid).
  split; [done|]. split; [done|]. split; [done|]. cbn [k_objs with_objs]. apply layout_app. exists mid.
  split; [done|]. split; [|done]. change (k_end (with_objs b (l1 ++ o :: l2))) with (k_end b). unfold start_of in F1.
  cbn [layout]. split; [by destruct (last l1); subst mid|]. split; [done|]. split; [done|].
  destruct l2 as [|y l2]; cbn in *; [done|]. by destruct Hl2 as (_ & R).
Qed.

(** The objects of a block do not meet what an insertion writes. *)
Lemma insert_writes_user b l1 o l2 o' a :
  block_ok b -> k_objs b = l1 ++ l2 -> fits b l1 o l2 -> o' ∈ k_objs b -> o_ptr o' <= a < o_end o' ->
  ~ insert_writes (k_maj b) l1 o l2 a.
Proof.
  intros Hok He Hf Ho' Ha. pose proof (fits_ok b l1 o l2 Hok He Hf) as (_ & _ & _ & Hl'). cbn [k_objs with_objs] in Hl'.
  destruct Hok as (_ & _ & _ & Hl). pose proof (layout_in _ _ _ _ Hl Ho') as Hb. pose proof (o_ptr_range o') as Hp'.
  pose proof (o_ptr_range o) as Hp. destruct Hf as (F1 & F2 & F3 & F4).
  assert (o_end o' <= o_min o \/ o_end o <= o_min o') as Hd.
  { rewrite He in Hl, Ho'. apply layout_app in Hl' as (mid & L1 & (Lm & _ & _ & L2) & _).
    apply elem_of_app in Ho' as [Ho'|Ho'].
    - left. pose proof (layout_in _ _ _ _ L1 Ho'). lia.
    - right. by pose proof (layout_in _ _ _ _ L2 Ho') as [? _]. }
  assert (forall z, z ∈ k_objs b -> o' = z \/ o_end o' <= o_min z \/ o_end z <= o_min o') as Hz.
  { intros z Hz. by apply (layout_disjoint _ _ _ _ _ Hl). }
  unfold o_end in *. intros [W|[W|[W|[(x & Hx & W)|(y & Hy & W)]]]]; [lia|lia|lia| |].
  - apply last_Some_elem_of in Hx. assert (x ∈ k_objs b) as Hin by (rewrite He; apply elem_of_app; by left).
    pose proof (layout_in _ _ _ _ Hl Hin). unfold o_end in *. destruct (Hz x Hin) as [->|Hzx]; lia.
  - apply head_Some_elem_of in Hy. assert (y ∈ k_objs b) as Hin by (rewrite He; apply elem_of_app; by right).
    pose proof (layout_in _ _ _ _ Hl Hin). unfold o_end in *. destruct (Hz y Hin) as [->|Hzy]; lia.
Qed.

(** Writes of an insertion stay in the block. *)
Lemma insert_writes_in b l1 o l2 a :
  block_ok b -> k_objs b = l1 ++ l2 -> fits b l1 o l2 -> insert_writes (k_maj b) l1 o l2 a -> k_maj b <= a < k_end b.
Proof.
  intros Hok He Hf. pose proof (fits_ok b l1 o l2 Hok He Hf) as (_ & _ & _ & Hl'). cbn [k_objs with_objs] in Hl'.
  change (k_maj (with_objs b (l1 ++ o :: l2))) with (k_maj b) in Hl'.
  change (k_end (with_objs b (l1 ++ o :: l2))) with (k_end b) in Hl'.
  pose proof (layout_bounds _ _ _ Hl') as Hb. pose proof (o_ptr_range o) as Hp.
  assert (forall z, z ∈ l1 ++ o :: l2 -> k_maj b + 24 <= o_min z /\ o_min z + 56 <= k_end b) as Hz.
  { intros z Hz. pose proof (layout_in _ _ _ _ Hl' Hz). unfold o_end in *. lia. }
  assert (o ∈ l1 ++ o :: l2) as Ho by (apply elem_of_app; right; by left). pose proof (Hz o Ho).
  intros [W|[W|[W|[(x & Hx & W)|(y & Hy & W)]]]]; [lia|lia|lia| |].
  - apply last_Some_elem_of in Hx. destruct (Hz x); [apply elem_of_app; by left|lia].
  - apply head_Some_elem_of in Hy. destruct (Hz y); [apply elem_of_app; right; by right|lia].
Qed.

(** One block of the heap is changed in place. *)
Lemma mid_apart lk s pre b post x :
  heap_inv lk s (pre ++ b :: post) -> x ∈ pre \/ x ∈ post -> apart x b.
Proof.
  intros [_ _ _ _ _ _ I7 I8 _ _] Hx'. assert (x ∈ pre ++ b :: post) as Hxin.
  { apply elem_of_app. destruct Hx' as [|]; [by left|right; by right]. }
  destruct (I7 x b Hxin) as [->|]; [apply elem_of_app; right; by left| |done]. exfalso. rewrite fmap_app, fmap_cons in I8.
  apply NoDup_app in I8 as (_ & N1 & [N2 _]%NoDup_cons). destruct Hx' as [Hx'|Hx'].
  - apply (N1 (k_base b)); [by apply list_elem_of_fmap_2|by left].
  - by apply N2, list_elem_of_fmap_2.
Qed.

Lemma heap_replace lk lk' s s' pre b post (os : list obj) :
  heap_inv lk s (pre ++ b :: post) -> block_ok (with_objs b os) ->
  l_os s' = l_os s -> l_locked s' = lk' -> l_memRoot s' = l_memRoot s -> l_bestBet s' = l_bestBet s ->
  l_allocated s' = l_allocated s ->
  (forall a, ~ k_maj b <= a < k_end b -> l_mem s' a = l_mem s a) ->
  block_at (l_mem s') (last_maj pre 0) (first_maj post 0) (with_objs b os) ->
  heap_inv lk' s' (pre ++ with_objs b os :: post).
Proof.
  intros Hinv Hok' Hos Hlk Hrt Hbb Hal Hw Hb. pose proof (fun x => mid_apart lk s pre b post x Hinv) as Hap.
  destruct Hinv as [I1 I2 I3 I4 I5 I6 I7 I8 I9 I10].
  assert (b ∈ pre ++ b :: post) as Hbin by (apply elem_of_app; right; by left). set (b' := with_objs b os) in *.
  assert (forall x, x ∈ pre ++ b' :: post -> x ∈ pre ++ b :: post \/ x = b') as Hin.
  { intros x. rewrite !elem_of_app, !elem_of_cons. tauto. }
  split.
  - by rewrite Hos.
  - done.
  - rewrite Hrt, I3. by destruct pre.
  - apply (blocks_at_update (l_mem s) _ pre b b' post); [done|done| |done|done].
    intros x Hx' a Ha. apply Hw. destruct (Hap x Hx'); lia.
  - apply Forall_app in I5 as [F1 [_ F2]%Forall_cons]. apply Forall_app. by split; [|apply Forall_cons].
  - rewrite Hos. intros x [Hx'| ->]%Hin; [by apply I6|]. apply (I6 b Hbin).
  - intros x y Hx' Hy'. rewrite elem_of_app, elem_of_cons in Hx', Hy'.
    destruct Hx' as [Hx'|[->|Hx']], Hy' as [Hy'|[->|Hy']];
      try (by left); try (right; apply Hap; tauto);
      try (right; destruct (Hap y ltac:(tauto)); [by right|by left]);
      apply I7; apply elem_of_app; rewrite ?elem_of_cons; tauto.
  - rewrite fmap_app, fmap_cons in I8 |- *. done.
  - rewrite Hbb. destruct I9 as [|(x & Hx' & Hxe)]; [by left|right].
    rewrite elem_of_app, elem_of_cons in Hx'. destruct Hx' as [Hx'|[->|Hx']].
    + exists x. split; [apply elem_of_app; by left|done].
    + exists b'. split; [apply elem_of_app; right; by left|done].
    + exists x. split; [apply elem_of_app; right; by right|done].
  - rewrite Hal, I10, !total_pages_app, !total_pages_cons. done.
Qed.

Lemma heap_insert s s' pre b post l1 o l2 :
  heap_inv true s (pre ++ b :: post) -> k_objs b = l1 ++ l2 -> fits b l1 o l2 ->
  l_os s' = l_os s -> l_locked s' = false -> l_memRoot s' = l_memRoot s -> l_bestBet s' = l_bestBet s ->
  l_allocated s' = l_allocated s ->
  (forall a, ~ insert_writes (k_maj b) l1 o l2 a -> l_mem s' a = l_mem s a) ->
  minor_at (l_mem s') (k_maj b) (last_min l1 0) (first_min l2 0) o ->
  load32 (l_mem s') (maj_usage (k_maj b)) = usage (l1 ++ o :: l2) ->
  load32 (l_mem s') (maj_first (k_maj b)) = first_min (l1 ++ o :: l2) 0 ->
  (forall x, last l1 = Some x -> load32 (l_mem s') (min_next (o_min x)) = o_min o) ->
  (forall y, head l2 = Some y -> load32 (l_mem s') (min_prev (o_min y)) = o_min o) ->
  heap_inv false s' (pre ++ with_objs b (l1 ++ o :: l2) :: post) /\ users_keep (pre ++ b :: post) s s'.
Proof.
  intros Hinv He Hf Hos Hlk Hrt Hbb Hal Hw Hm Hu Hfi Hx Hy. pose proof Hinv as [_ _ _ I4 I5 _ I7 _ _ _].
  assert (b ∈ pre ++ b :: post) as Hbin by (apply elem_of_app; right; by left).
  assert (block_ok b) as Hok by (rewrite Forall_forall in I5; by apply I5).
  pose proof (fits_ok b l1 o l2 Hok He Hf) as Hok'. split.
  - apply (heap_replace true false s); try done.
    + intros a Ha. apply Hw. intros Hiw. by apply (insert_writes_in b) in Hiw.
    + apply (block_at_insert (l_mem s)); try done; [by apply blocks_at_mid|]. intros a _. apply Hw.
  - intros a (x & o' & Hx' & Ho' & Ha). apply Hw. intros Hiw.
    destruct (I7 x b Hx' Hbin) as [->|Hapx]; [by apply (insert_writes_user b l1 o l2 o' a) in Hiw|].
    apply (insert_writes_in b) in Hiw; [|done|done|done].
    rewrite Forall_forall in I5. destruct (I5 x Hx') as (_ & _ & _ & Hlx).
    pose proof (layout_in _ _ _ _ Hlx Ho'). pose proof (o_ptr_range o'). destruct Hapx; lia.
Qed.

Definition took (l : list block) (req p : Z) (l' : list block) : Prop :=
  exists pre b post l1 o l2, l = pre ++ b :: post /\ k_objs b = l1 ++ l2 /\ fits b l1 o l2 /\
    o_req o = req /\ o_ptr o = p /\ l' = pre ++ with_objs b (l1 ++ o :: l2) :: post.

(** What [kmalloc] answers on the heap [l]. *)
Definition served (l : list block) (req : Z) s (p : Z) s' : Prop :=
  exists l', took l req p l' /\ heap_inv false s' l' /\ users_keep l s s'.

(** The memory behind [taken]. *)
Definition taken_mem (m : Z -> Z) (maj min size : Z) : Z -> Z :=
  <[user_ptr min - 16 := user_ptr min - (min + 24)]>
    (store32 m (maj_usage maj) (u32 (load32 m (maj_usage maj) + u32 (size + 24)))).

Lemma wp_taken s b min size (Q : option Z -> lstate P -> Prop) E :
  run_held (l_os s) b -> k_maj b + 24 <= min -> min + 56 <= k_end b -> 0 <= min -> k_end b <= 2 ^ 32 ->
  (forall s', l_os s' = l_os s -> l_mem s' = taken_mem (l_mem s) (k_maj b) min size -> l_memRoot s' = l_memRoot s ->
    l_bestBet s' = l_bestBet s -> l_allocated s' = l_allocated s -> l_locked s' = false -> Q (Some (user_ptr min)) s') ->
  wp (taken (k_maj b) min size) Q E s.
Proof.
  intros Hr Hlo Hhi H1 H2 HQ. unfold taken. wp_steps. apply (wp_get s b); [done|fields; lia|fields; lia|]. wp_steps.
  apply (wp_put s b); [done|fields; lia|fields; lia|]. wp_steps. apply (wp_ALIGN _ b); [done|lia|lia|lia|lia|].
  wp_steps. unfold liballoc_unlock. wp_steps. by apply HQ.
Qed.

(** Discharges the field conditions of [heap_insert]. *)
Ltac field := fields; unfold taken_mem in *; fields; mem_steps; try done.

Section serve.
Variables (s : lstate P) (pre post : list block) (b : block) (req : Z).
Hypothesis Hinv : heap_inv true s (pre ++ b :: post).
Hypothesis Hreq : 0 <= req < 2 ^ 31.
Abbreviation size := (req + 32).
Abbreviation maj := (k_maj b).

Lemma mid_facts : block_at (l_mem s) (last_maj pre 0) (first_maj post 0) b /\ run_held (l_os s) b /\
  block_ok b /\ 4096 <= maj /\ maj + 65536 <= k_end b /\ k_end b <= 2 ^ 32 /\ k_end b = maj + k_pages b * 4096.
Proof.
  destruct Hinv as [_ _ _ I4 I5 I6 _ _ _ _]. assert (b ∈ pre ++ b :: post) as Hin by (apply elem_of_app; right; by left).
  rewrite Forall_forall in I5. pose proof (I5 b Hin) as Hok. pose proof Hok as (A & B & C & _).
  split; [by apply blocks_at_mid|]. split; [by apply I6|]. split; [done|]. unfold k_end, k_maj. lia.
Qed.

(** The end of every case: an object was put between [l1] and [l2]. *)
Lemma serve_taken s1 l1 o l2 (Q : option Z -> lstate P -> Prop) E :
  k_objs b = l1 ++ l2 -> fits b l1 o l2 -> o_size o = size -> o_req o = req ->
  l_os s1 = l_os s -> l_memRoot s1 = l_memRoot s -> l_bestBet s1 = l_bestBet s -> l_allocated s1 = l_allocated s ->
  load32 (l_mem s1) (maj_usage maj) = load32 (l_mem s) (maj_usage maj) ->
  load32 (l_mem s1) (maj_first maj) = first_min (l1 ++ o :: l2) 0 ->
  (forall a, ~ insert_writes maj l1 o l2 a -> l_mem s1 a = l_mem s a) ->
  (load32 (l_mem s1) (min_prev (o_min o)) = last_min l1 0 /\ load32 (l_mem s1) (min_next (o_min o)) = first_min l2 0 /\
   load32 (l_mem s1) (min_block (o_min o)) = maj /\ load32 (l_mem s1) (min_magic (o_min o)) = LIBALLOC_MAGIC /\
   load32 (l_mem s1) (min_size (o_min o)) = size /\ load32 (l_mem s1) (min_req_size (o_min o)) = req) ->
  (forall x, last l1 = Some x -> load32 (l_mem s1) (min_next (o_min x)) = o_min o) ->
  (forall y, head l2 = Some y -> load32 (l_mem s1) (min_prev (o_min y)) = o_min o) ->
  (forall p s', served (pre ++ b :: post) req s p s' -> Q (Some p) s') ->
  wp (taken maj (o_min o) size) Q E s1.
Proof.
  intros He Hf Hsz Hrq Hos Hrt Hbb Hal Hu Hfi Hw Hm Hx Hy HQ. destruct mid_facts as (Hat & Hr & Hok & M1 & M2 & M3 & M4).
  pose proof (fits_ok b l1 o l2 Hok He Hf) as (_ & _ & _ & Hl'). cbn [k_objs with_objs] in Hl'.
  change (k_maj (with_objs b (l1 ++ o :: l2))) with maj in Hl'. change (k_end (with_objs b (l1 ++ o :: l2))) with (k_end b) in Hl'.
  assert (forall z, z ∈ l1 ++ o :: l2 -> maj + 24 <= o_min z /\ o_min z + 56 <= k_end b /\ (z = o \/ o_end z <= o_min o \/ o_end o <= o_min z)
    /\ 56 + o_min z <= o_end z) as Hz.
  { intros z Hz. pose proof (layout_in _ _ _ _ Hl' Hz). unfold o_end in *. split; [lia|]. split; [lia|]. split; [|lia].
    eapply layout_disjoint; [exact Hl'|done|apply elem_of_app; right; by left]. }
  assert (o ∈ l1 ++ o :: l2) as Ho by (apply elem_of_app; right; by left). destruct (Hz o Ho) as (Z1 & Z2 & _ & Z4).
  pose proof (usage_pos _ _ _ Hl') as Hup. rewrite usage_app, usage_cons in Hup.
  pose proof Hok as (_ & _ & _ & Hl). pose proof (usage_pos _ _ _ Hl) as Hup0.
  destruct Hat as (_ & _ & _ & _ & Hus & _). rewrite He, usage_app in Hus, Hup0.
  pose proof (o_ptr_range o) as Hpo. unfold o_ptr in Hpo.
  apply (wp_taken s1 b); [by rewrite Hos|lia|lia|lia|lia|].
  intros s' T1 T2 T3 T4 T5 T6. unfold taken_mem in T2. rewrite Hu, Hus in T2.
  rewrite (u32_small (size + 24)), u32_small in T2 by (unfold is_u32; unfold o_end in *; lia).
  replace (usage l1 + usage l2 - 24 + (size + 24)) with (usage (l1 ++ o :: l2)) in T2 by (rewrite usage_app, usage_cons; lia).
  apply (HQ (user_ptr (o_min o))). exists (pre ++ with_objs b (l1 ++ o :: l2) :: post).
  split; [by exists pre, b, post, l1, o, l2|]. unfold o_end in *.
  apply (heap_insert s s'); try done; try congruence; rewrite ?T2.
  - intros a Hn. rewrite <- Hw by done. unfold insert_writes, o_ptr in Hn. fields.
    rewrite fn_lookup_insert_ne by (intros Hc; apply Hn; lia). apply store32_ne. unfold maj_usage.
    destruct (Z.lt_ge_cases a (maj + 16)); [by left|]. right. destruct (Z.lt_ge_cases a (maj + 20)); [|lia]. destruct Hn. left. lia.
  - unfold minor_at, o_ptr. fields. rewrite Hsz, Hrq, fn_lookup_insert. mem_steps. destruct Hm as (A1 & A2 & A3 & A4 & A5 & A6). auto 10.
  - fields. rewrite load32_insert_ne by lia. apply load32_store32. unfold is_u32. rewrite usage_app, usage_cons. lia.
  - fields. mem_steps. done.
  - intros x Hlx. pose proof (Hx x Hlx). apply last_Some_elem_of in Hlx.
    destruct (Hz x) as (? & ? & [->|?] & ?); [apply elem_of_app; by left|..]; fields; mem_steps; done.
  - intros y Hly. pose proof (Hy y Hly). apply head_Some_elem_of in Hly.
    destruct (Hz y) as (? & ? & [->|?] & ?); [apply elem_of_app; right; by right|..]; fields; mem_steps; done.
Qed.
(** A byte that the insertion does not write is what it was. *)
Ltac unwritten :=
  let a := fresh "a" in let Hn := fresh "Hn" in
  intros a Hn; unfold insert_writes in Hn; cbn [o_min head] in Hn;
  repeat match goal with Hlast : last _ = Some _ |- _ => rewrite Hlast in Hn; clear Hlast end;
  unfold o_ptr in Hn; cbn [o_min] in Hn; fields;
  repeat first [ rewrite fn_lookup_insert_ne by (intros ?; apply Hn; lia)
               | rewrite store32_ne by
                   (match goal with |- a < ?x \/ _ =>
                      destruct (Z.lt_ge_cases a x); [by left|right];
                      destruct (Z.lt_ge_cases a (x + 4)); [exfalso; apply Hn|by first [done|lia]] end;
                    first [left; lia | right; left; lia | right; right; right; left; eexists; split; [done|lia]
                          | right; right; right; right; eexists; split; [done|lia]]) ];
  try done.

(** Steps over a field of the block. *)
Ltac field_get := wp_steps; apply (wp_get _ b); [done|fields; lia|fields; lia|].
Ltac field_put := wp_steps; apply (wp_put _ b); [done|fields; lia|fields; lia|].

Lemma wp_case2 (Q : option Z -> lstate P -> Prop) E :
  (k_objs b = [] -> req + 80 <= k_pages b * 4096 /\ forall p s', served (pre ++ b :: post) req s p s' -> Q (Some p) s') ->
  (k_objs b <> [] -> Q None s) ->
  wp (case2 maj size req) Q E s.
Proof.
  intros HS HN. destruct mid_facts as (Hat & Hr & Hok & M1 & M2 & M3 & M4). unfold case2. field_get.
  destruct Hat as (B1 & B2 & B3 & B4 & B5 & B6 & B7). rewrite B6. pose proof Hok as (_ & _ & _ & Hl).
  destruct (k_objs b) as [|o0 l0] eqn:Ho; cbn [first_min].
  2: { pose proof (layout_in _ _ _ o0 Hl ltac:(by left)) as Hlo. rewrite (proj2 (Z.eqb_neq _ 0)) by lia. wp_steps. by apply HN. }
  change (0 =? 0) with true. cbv iota. destruct (HS eq_refl) as [Hfit HQ].
  field_put. field_get. cbn [l_mem set_l_mem]. rewrite load32_store32 by (unfold is_u32, MAJOR_SIZE; lia). unfold MAJOR_SIZE.
  do 6 field_put.
  apply (serve_taken _ [] (Obj (maj + 24) size req) []); try done; cbn [l_mem set_l_mem o_min].
  - unfold fits, start_of, o_end. cbn [last o_min o_req o_size first_min]. lia.
  - fields. by mem_steps.
  - fields. by mem_steps.
  - unwritten.
  - cbn [last_min first_min]. fields. split_and!; by mem_steps.
Qed.

(** *** Space in front of the first object *)
Lemma wp_case3 (Q : option Z -> lstate P -> Prop) E :
  k_objs b <> [] -> (forall p s', served (pre ++ b :: post) req s p s' -> Q (Some p) s') -> Q None s ->
  wp (case3 maj size req) Q E s.
Proof.
  intros Hne HS HN. destruct mid_facts as (Hat & Hr & Hok & M1 & M2 & M3 & M4). unfold case3. field_get.
  destruct Hat as (B1 & B2 & B3 & B4 & B5 & B6 & B7). rewrite B6. pose proof Hok as (_ & _ & _ & Hl).
  destruct (k_objs b) as [|o0 l0] eqn:Ho; [done|]. cbn [first_min].
  destruct (layout_in _ _ _ o0 Hl ltac:(by left)) as (L1 & L2 & L3 & L4). unfold o_end, MAJOR_SIZE, MINOR_SIZE in *.
  rewrite !u32_small by (unfold is_u32; rewrite ?u32_small; unfold is_u32; lia). wp_cond.
  destruct (Z.leb_spec (size + 24) (o_min o0 - maj - 24)) as [Hfit|Hfit]; [|by wp_steps].
  field_put. field_get. cbn [l_mem set_l_mem]. rewrite load32_store32 by (unfold is_u32; lia). do 7 field_put.
  apply (serve_taken _ [] (Obj (maj + 24) size req) (o0 :: l0)); try done; cbn [l_mem set_l_mem o_min].
  - unfold fits, start_of, o_end. cbn [last o_min o_req o_size first_min]. lia.
  - fields. by mem_steps.
  - cbn [app first_min o_min]. fields. by mem_steps.
  - unwritten.
  - cbn [last_min first_min]. fields. split_and!; by mem_steps.
  - intros y [= <-]. fields. by mem_steps.
Qed.

(** *** Space behind an object

    [l1 ++ [x]] were passed; the next object or the end of the block follows. *)
Lemma objs_split l1 x l2 :
  k_objs b = l1 ++ x :: l2 ->
  load32 (l_mem s) (min_next (o_min x)) = first_min l2 0 /\ load32 (l_mem s) (min_size (o_min x)) = o_size x /\
  maj + 24 <= o_min x /\ o_end x <= k_end b /\ 32 <= o_size x /\ o_end x <= first_min l2 (k_end b) /\
  (forall y, head l2 = Some y -> o_min y + 56 <= k_end b).
Proof.
  intros He. destruct mid_facts as ((_ & _ & _ & _ & _ & _ & Hobj) & _ & (_ & _ & _ & Hl) & _). rewrite He in Hobj, Hl.
  apply objs_at_app in Hobj as [_ [(_ & N & _ & _ & S & _) _]]. split; [done|]. split; [done|].
  destruct (layout_in _ _ _ x Hl) as (A & B & C & D); [apply elem_of_app; right; by left|].
  apply layout_app in Hl as (mid & _ & (_ & _ & _ & Hl2) & _).
  split; [lia|]. split; [lia|]. split; [lia|]. split.
  - destruct l2 as [|y l2]; cbn in Hl2 |- *; [done|]. by destruct Hl2.
  - intros y Hy. destruct l2 as [|y' l2]; [done|]. injection Hy as ->.
    destruct (layout_in _ _ _ y Hl2 ltac:(by left)) as (_ & E1 & E2 & E3). unfold o_end in *. lia.
Qed.

Lemma wp_case4_round l1 x l2 (Q : Z + option Z -> lstate P -> Prop) E :
  k_objs b = l1 ++ x :: l2 ->
  (forall p s', served (pre ++ b :: post) req s p s' -> Q (inr (Some p)) s') ->
  Q (inl (first_min l2 0)) s ->
  wp (case4_round maj size req (o_min x)) Q E s.
Proof.
  intros He HS HN. destruct mid_facts as (Hat & Hr & Hok & M1 & M2 & M3 & M4).
  destruct (objs_split l1 x l2 He) as (X1 & X2 & X3 & X4 & X5 & X6 & X7). unfold o_end in X4, X6.
  destruct Hat as (B1 & B2 & B3 & B4 & B5 & B6 & B7).
  assert (last (l1 ++ [x]) = Some x) as Hlast by apply last_snoc.
  assert (k_objs b = (l1 ++ [x]) ++ l2) as He' by (by rewrite <- app_assoc).
  assert (forall v, first_min ((l1 ++ [x]) ++ v) 0 = first_min (k_objs b) 0) as Hfirst.
  { intros v. rewrite He. by destruct l1. }
  assert (last_min (l1 ++ [x]) 0 = o_min x) as Hlm by (unfold last_min; by rewrite last_snoc).
  unfold case4_round. rewrite (proj2 (Z.eqb_neq (o_min x) 0)) by lia. field_get. rewrite X1. field_get. rewrite X2.
  unfold MINOR_SIZE.
  destruct l2 as [|y l2]; cbn [first_min] in *.
  - change (0 =? 0) with true. cbv iota. field_get. rewrite B4.
    rewrite !u32_small by (unfold is_u32; rewrite ?u32_small; unfold is_u32; lia). wp_cond.
    destruct (Z.leb_spec (size + 24) (maj + k_pages b * 4096 - o_min x - 24 - o_size x)) as [Hfit|Hfit]; [|by wp_steps].
    rewrite (u32_small (o_min x + 24 + o_size x)) by (unfold is_u32; lia).
    field_put. field_get. cbn [l_mem set_l_mem]. rewrite load32_store32 by (unfold is_u32; lia). do 6 field_put. wp_steps.
    apply (serve_taken _ (l1 ++ [x]) (Obj (o_min x + 24 + o_size x) size req) []); try done; cbn [l_mem set_l_mem o_min].
    + unfold fits, start_of, o_end. rewrite Hlast. cbn [o_min o_req o_size first_min]. lia.
    + fields. by mem_steps.
    + rewrite Hfirst, <- B6. fields. by mem_steps.
    + unwritten.
    + rewrite Hlm. cbn [first_min]. fields. split_and!; by mem_steps.
    + intros z [= <-]%(eq_trans (eq_sym Hlast)). fields. by mem_steps.
  - specialize (X7 y eq_refl). rewrite (proj2 (Z.eqb_neq (o_min y) 0)) by lia.
    rewrite !u32_small by (unfold is_u32; rewrite ?u32_small; unfold is_u32; lia). wp_cond.
    destruct (Z.leb_spec (size + 24) (o_min y - o_min x - 24 - o_size x)) as [Hfit|Hfit]; [|by wp_steps].
    cbv zeta. do 8 field_put. wp_steps.
    apply (serve_taken _ (l1 ++ [x]) (Obj (o_min x + 24 + o_size x) size req) (y :: l2)); try done; cbn [l_mem set_l_mem o_min].
    + unfold fits, start_of, o_end. rewrite Hlast. cbn [o_min o_req o_size first_min]. lia.
    + fields. by mem_steps.
    + rewrite Hfirst, <- B6. fields. by mem_steps.
    + unwritten.
    + rewrite Hlm. cbn [first_min]. fields. split_and!; by mem_steps.
    + intros z [= <-]%(eq_trans (eq_sym Hlast)). fields. by mem_steps.
    + intros z [= <-]. fields. by mem_steps.
Qed.

Lemma wp_case4 (Q : option Z -> lstate P -> Prop) E :
  k_objs b <> [] -> (forall p s', served (pre ++ b :: post) req s p s' -> Q (Some p) s') -> Q None s ->
  wp (case4 maj size req) Q E s.
Proof.
  intros Hne HS HN. destruct mid_facts as (Hat & Hr & Hok & M1 & M2 & M3 & M4). unfold case4. field_get.
  destruct Hat as (B1 & B2 & B3 & B4 & B5 & B6 & B7). rewrite B4. field_get. rewrite B6. wp_steps.
  assert (56 * Z.of_nat (length (k_objs b)) <= k_pages b * 4096) as Hlen.
  { destruct Hok as (_ & _ & _ & Hl). rewrite M4 in Hl. clear -Hl M1. assert (maj + 24 + 56 * Z.of_nat (length (k_objs b)) <= maj + k_pages b * 4096); [|lia].
    revert Hl. generalize (maj + 24) as lo. generalize (maj + k_pages b * 4096) as hi. intros hi lo.
    revert lo. induction (k_objs b) as [|o l IH]; intros lo; cbn [layout length]; [lia|].
    intros (A & B & C & D%IH). unfold o_end in *. lia. }
  assert (length (k_objs b) <= Z.to_nat (k_pages b * 4096 / MINOR_SIZE))%nat as Hfuel.
  { unfold MINOR_SIZE. assert (Z.of_nat (length (k_objs b)) <= k_pages b * 4096 / 24); [|lia]. apply Z.div_le_lower_bound; lia. }
  assert (forall n l1 l2, k_objs b = l1 ++ l2 -> (length l2 < n)%nat ->
    wp (loop n (case4_round maj size req) (first_min l2 0)) Q E s) as Hloop.
  { induction n as [|n IH]; intros l1 l2 He Hn; [lia|]. apply wp_loop_step. destruct l2 as [|x l2]; cbn [first_min].
    - unfold case4_round. change (0 =? 0) with true. cbv iota. by wp_steps.
    - apply (wp_case4_round l1 x l2); [done|by apply HS|]. apply (IH (l1 ++ [x])); [by rewrite <- app_assoc|cbn in Hn; lia]. }
  apply (Hloop _ [] (k_objs b)); [done|lia].
Qed.
End serve.

(** ** A new block *)

Lemma runs_apart p x b : block_ok x -> block_ok b -> run_held p x ->
  (forall q, in_run (k_base b) (k_pages b) q = true -> page_held p q = false) -> apart x b.
Proof.
  intros (_ & X1 & _) (_ & B1 & _) Hx Hb. unfold apart, k_end, k_maj.
  destruct (Z.le_gt_cases (k_base x + k_pages x) (k_base b)); [left; lia|].
  destruct (Z.le_gt_cases (k_base b + k_pages b) (k_base x)); [right; lia|]. exfalso.
  set (q := Z.max (k_base x) (k_base b)).
  assert (page_held p q = true) as Ht by (apply Hx; unfold in_run; apply andb_true_iff; split; [apply Z.leb_le|apply Z.ltb_lt]; lia).
  assert (page_held p q = false); [|congruence]. apply Hb. unfold in_run; apply andb_true_iff; split; [apply Z.leb_le|apply Z.ltb_lt]; lia.
Qed.

(** What [allocate_new_page] adds to the heap. *)
Definition new_block (l : list block) (size : Z) s b s' : Prop :=
  k_objs b = [] /\ size + 48 <= k_pages b * 4096 /\ block_ok b /\ page_ok (l_os s') /\ run_held (l_os s') b /\
  (forall x, x ∈ l -> run_held (l_os s') x /\ apart x b) /\ block_at (l_mem s') 0 0 b /\
  (forall a, ~ k_maj b <= a < k_end b -> l_mem s' a = l_mem s a) /\
  l_memRoot s' = l_memRoot s /\ l_bestBet s' = l_bestBet s /\ l_locked s' = l_locked s /\
  l_allocated s' = l_allocated s + k_pages b * 4096.

(** The number of pages asked for. *)
Definition pages_for (size : Z) : Z :=
  Z.max 16 (if (size + 48) mod 4096 =? 0 then (size + 48) / 4096 else (size + 48) / 4096 + 1).

Lemma pages_for_bounds size : 0 <= size < 2 ^ 31 + 2 ^ 30 -> 16 <= pages_for size < 2 ^ 20 /\ size + 48 <= pages_for size * 4096.
Proof.
  intros Hs. unfold pages_for. pose proof (Z.div_mod (size + 48) 4096 ltac:(lia)). pose proof (Z.mod_pos_bound (size + 48) 4096 ltac:(lia)).
  destruct (Z.eqb_spec ((size + 48) mod 4096) 0); lia.
Qed.

Ltac new_put b := wp_steps; apply (wp_put _ b); [done|fields; lia|fields; lia|].

Lemma wp_allocate_new_page (l : list block) s size :
  page_ok (l_os s) -> Forall block_ok l -> (forall x, x ∈ l -> run_held (l_os s) x) -> 0 <= size < 2 ^ 31 + 2 ^ 30 ->
  wp (allocate_new_page size) (fun maj s' => exists b, maj = k_maj b /\ new_block l size s b s') only_nomem s.
Proof.
  intros Hos Hl Hheld Hs. unfold allocate_new_page, MAJOR_SIZE, MINOR_SIZE, l_pageSize, l_pageCount.
  destruct (pages_for_bounds size Hs) as [Hb1 Hb2].
  rewrite (u32_small (size + 24)), (u32_small (size + 24 + 24)) by (unfold is_u32; lia).
  replace (size + 24 + 24) with (size + 48) by lia.
  assert ((if (if (size + 48) mod 4096 =? 0 then (size + 48) / 4096 else (size + 48) / 4096 + 1) <? 16 then 16
           else (if (size + 48) mod 4096 =? 0 then (size + 48) / 4096 else (size + 48) / 4096 + 1)) = pages_for size) as ->.
  { unfold pages_for. destruct (Z.ltb_spec (if (size + 48) mod 4096 =? 0 then (size + 48) / 4096 else (size + 48) / 4096 + 1) 16); lia. }
  set (n := pages_for size) in *. unfold os_alloc. wp_steps. apply wp_zoom. cbn [lget os_lens].
  eapply wp_mono; [apply (page_alloc_spec (l_os s) n Hos); lia| |done].
  intros v p' (base & -> & G1 & G2 & G3 & G4 & G5). cbn [lset os_lens]. wp_steps.
  unfold BLOCK_SIZE, l_pageSize. set (b := Block base n []).
  assert (block_ok b) as Hok.
  { unfold b, block_ok, k_end, k_maj. cbn [k_base k_pages k_objs layout]. lia. }
  change (base * 4096) with (k_maj b).
  assert (k_end b = k_maj b + n * 4096 /\ 4096 <= k_maj b /\ k_end b <= 2 ^ 32) as (K1 & K2 & K3).
  { unfold b, k_end, k_maj. cbn [k_base k_pages]. lia. }
  wp_cond. rewrite (proj2 (Z.eqb_neq (k_maj b) 0)) by lia. cbn [negb].
  set (s1 := set_l_mem _ _). assert (run_held (l_os s1) b) as Hr.
  { intros q Hq. cbn [l_os set_l_mem s1]. rewrite G5. change (in_run base n q = true) in Hq. by rewrite Hq. }
  assert (forall a, ~ k_maj b <= a < k_end b -> l_mem s1 a = l_mem s a) as Hm1.
  { intros a Ha. cbn [l_mem set_l_mem s1]. destruct (Z.leb_spec (k_maj b) a), (Z.ltb_spec a (k_maj b + n * 4096)); cbn [andb]; try done. lia. }
  assert (l_os s1 = p') as Hp1 by done. assert (l_allocated s1 = l_allocated s /\ l_memRoot s1 = l_memRoot s /\ l_bestBet s1 = l_bestBet s /\ l_locked s1 = l_locked s)
    as (E1 & E2 & E3 & E4) by done.
  clearbody s1. rewrite (u32_small (n * 4096)) by (unfold is_u32; lia).
  do 6 new_put b. wp_steps. apply (wp_get _ b); [done|fields; lia|fields; lia|]. wp_steps.
  cbn [l_mem set_l_mem]. exists b. split; [done|].
  assert (load32 (store32 (store32 (store32 (store32 (store32 (store32 (l_mem s1) (maj_prev (k_maj b)) 0) (maj_next (k_maj b)) 0)
    (maj_pages (k_maj b)) n) (maj_size (k_maj b)) (n * 4096)) (maj_usage (k_maj b)) 24) (maj_first (k_maj b)) 0) (maj_size (k_maj b)) = n * 4096) as Hsz.
  { fields. by mem_steps. }
  rewrite Hsz. unfold new_block. cbn [l_os l_mem l_memRoot l_bestBet l_locked l_allocated set_l_mem set_allocated].
  rewrite E1, E2, E3, E4, Hp1 in *. split_and!; try done.
  - intros x Hx. split.
    + intros q Hq. rewrite G5, (Hheld x Hx q Hq). by rewrite orb_true_r.
    + rewrite Forall_forall in Hl. eapply (runs_apart (l_os s)); [by apply Hl|done|by apply Hheld|]. exact G4.
  - unfold block_at. cbn [k_pages k_objs b]. change (usage []) with 24. cbn [first_min objs_at]. fields.
    split_and!; by mem_steps.
  - intros a Ha. fields. mem_steps. by apply Hm1.
Qed.

(** The new block is linked behind the last one. *)
Lemma link_inv s s1 s2 (l : list block) x b size :
  heap_inv true s (l ++ [x]) -> new_block (l ++ [x]) size s b s1 ->
  s2 = set_l_mem (store32 (store32 (l_mem s1) (maj_next (k_maj x)) (k_maj b)) (maj_prev (k_maj b)) (k_maj x)) s1 ->
  heap_inv true s2 (l ++ [x] ++ [b]) /\ users_keep (l ++ [x]) s s2.
Proof.
  intros [I1 I2 I3 I4 I5 I6 I7 I8 I9 I10] (N1 & N2 & N3 & N4 & N5 & N6 & N7 & N8 & N9 & N10 & N11 & N12) ->.
  assert (x ∈ l ++ [x]) as Hx by (apply elem_of_app; right; by left).
  pose proof I5 as Hall. rewrite Forall_forall in Hall. pose proof (Hall x Hx) as Hxok.
  assert (forall y, y ∈ l ++ [x] -> 4096 <= k_maj y /\ k_maj y + 24 <= k_end y /\ k_end y <= 2 ^ 32) as Hbd.
  { intros y Hy. destruct (Hall y Hy) as (Y1 & Y2 & Y3 & Y4%layout_bounds). unfold k_end, k_maj in *. lia. }
  assert (4096 <= k_maj b /\ k_maj b + 24 <= k_end b /\ k_end b <= 2 ^ 32) as Hbb.
  { destruct N3 as (Y1 & Y2 & Y3 & Y4%layout_bounds). unfold k_end, k_maj in *. lia. }
  destruct (Hbd x Hx) as (X1 & X2 & X3). destruct (N6 x Hx) as [Hxh Hxb].
  assert (forall y, y ∈ l ++ [x] -> k_base y <> k_base b) as Hne.
  { intros y Hy He. destruct (N6 y Hy) as [_ Hap]. destruct (Hbd y Hy). unfold apart, k_maj in *. rewrite He in *.
    unfold k_end, k_maj in *. rewrite He in *. lia. }
  split.
  - split; cbn [l_os l_mem l_memRoot l_bestBet l_locked l_allocated set_l_mem].
    + done.
    + by rewrite N11.
    + rewrite N9, I3. by destruct l.
    + rewrite app_assoc. apply blocks_at_app. split.
      * apply (blocks_at_next (l_mem s) _ 0 (l ++ [x]) 0); [done|done| | | |done].
        -- intros y a Hy Ha Hn. specialize (Hn x (last_snoc _ _)). destruct (N6 y Hy) as [_ Hap]. unfold apart in Hap.
           fields. rewrite !store32_ne by lia. apply N8. lia.
        -- intros z Hz. rewrite last_snoc in Hz. injection Hz as <-. cbn [first_maj]. unfold apart in Hxb. fields. by mem_steps.
        -- intros y Hy z Hz. rewrite last_snoc in Hz. injection Hz as <-. by apply I7.
      * cbn [blocks_at first_maj]. split; [|done]. unfold last_maj. rewrite last_snoc. cbn [default fmap option_fmap option_map].
        unfold apart in Hxb. destruct N7 as (B1 & B2 & B3). apply (block_at_relink (l_mem s1) _ 0 _ 0); [done|by split| | |].
        -- intros a Ha. fields. by rewrite !store32_ne by lia.
        -- fields. by mem_steps.
        -- fields. by mem_steps.
    + rewrite app_assoc. apply Forall_app. split; [done|]. by apply Forall_singleton.
    + intros y. rewrite app_assoc, elem_of_app, list_elem_of_singleton. intros [Hy| ->]; [by apply N6|done].
    + intros y z. rewrite !app_assoc, !(elem_of_app _ [b]), !list_elem_of_singleton. intros [Hy| ->] [Hz| ->].
      * by apply I7.
      * right. by apply N6.
      * right. destruct (N6 z Hz) as [_ [?|?]]; [by right|by left].
      * by left.
    + rewrite app_assoc, fmap_app. apply NoDup_app. split; [done|]. split; [|apply NoDup_singleton].
      intros k (y & -> & Hy)%list_elem_of_fmap. cbn. rewrite list_elem_of_singleton. by apply Hne.
    + rewrite N10. destruct I9 as [|(y & Hy & Hye)]; [by left|right]. exists y. split; [|done].
      rewrite app_assoc. apply elem_of_app. by left.
    + rewrite N12, I10, app_assoc, (total_pages_app _ [b]), total_pages_cons. change (total_pages []) with 0. lia.
  - intros a (y & o & Hy & Ho & Ha). cbn [l_mem set_l_mem]. destruct (Hall y Hy) as (_ & _ & _ & Hly).
    pose proof (layout_in _ _ _ _ Hly Ho). pose proof (o_ptr_range o). destruct (N6 y Hy) as [_ Hap]. unfold apart in Hap, Hxb.
    destruct (I7 y x Hy Hx) as [->|Hyx]; unfold apart in *; fields; rewrite !store32_ne by lia; apply N8; lia.
Qed.

(** ** The search *)

Definition ready b (req : Z) : Prop := k_objs b = [] /\ req + 80 <= k_pages b * 4096.

(** The answer of [kmalloc]: new blocks may have come first. *)
Definition kmalloc_done (l : list block) (req : Z) s (p : Z) s' : Prop :=
  exists new l', Forall (fun b => k_objs b = []) new /\ took (l ++ new) req p l' /\ heap_inv false s' l' /\ users_keep l s s'.

Lemma kmalloc_done_more l new req s s1 p s' :
  Forall (fun b => k_objs b = []) new -> users_keep l s s1 -> kmalloc_done (l ++ new) req s1 p s' -> kmalloc_done l req s p s'.
Proof.
  intros Hn Hu (new' & l' & Hn' & Ht & Hi & Hu'). exists (new ++ new'), l'. rewrite app_assoc.
  split; [by apply Forall_app|]. split; [done|]. split; [done|]. intros a Ha. rewrite <- Hu by done. apply Hu'.
  destruct Ha as (b & o & Hb & Ho). exists b, o. split; [apply elem_of_app; by left|done].
Qed.

Lemma served_done l req s p s' : served l req s p s' -> kmalloc_done l req s p s'.
Proof. intros (l' & A & B & C). exists [], l'. rewrite app_nil_r. by split. Qed.

Lemma heap_inv_bet lk s l v : heap_inv lk s l -> (exists b, b ∈ l /\ k_maj b = v) -> heap_inv lk (set_bestBet v s) l.
Proof. intros [] Hv. split; try done. by right. Qed.

(** Where the search goes on. *)
Definition goes_on pre b post (sb req : Z) s : Z * Z * Z -> lstate P -> Prop := fun '(maj', sb', _) s' =>
  ~ ready b req /\ users_keep (pre ++ b :: post) s s' /\
  exists pre' b' post', heap_inv true s' (pre' ++ b' :: post') /\ maj' = k_maj b' /\
  ((pre' ++ b' :: post' = pre ++ b :: post /\ sb' = sb /\ post = b' :: post') \/
   (pre' ++ b' :: post' = pre ++ b :: post /\ post = [] /\ sb = 1 /\ sb' = 0 /\ pre' = []) \/
   (pre' = pre ++ [b] /\ post = [] /\ post' = [] /\ ready b' req /\ sb' = sb)).

(** A new block is made, linked and searched next. *)
Lemma wp_link {A} pre b req (F : M (lstate P) A) (K : Z -> M (lstate P) A) Q s :
  heap_inv true s (pre ++ [b]) -> 0 <= req < 2 ^ 31 ->
  (forall b' s2, heap_inv true s2 ((pre ++ [b]) ++ [b']) -> ready b' req -> users_keep (pre ++ [b]) s s2 ->
     wp (K (k_maj b')) Q only_nomem s2) ->
  wp (let! new := allocate_new_page (req + 32) in
      put (maj_next (k_maj b)) new >>>
      let! next := get (maj_next (k_maj b)) in
      if next =? 0 then F else put (maj_prev next) (k_maj b) >>> K next) Q only_nomem s.
Proof.
  intros Hinv Hreq HQ. pose proof Hinv as [I1 _ _ _ I5 I6 _ _ _ _].
  wp_apply (wp_allocate_new_page (pre ++ [b]) s (req + 32)); [done|done|done|lia| |done].
  intros maj s1 (b' & -> & Hnew). pose proof (link_inv s s1 _ pre b b' (req + 32) Hinv Hnew eq_refl) as [Hi Hu].
  rewrite (app_assoc pre [b] [b']) in Hi.
  destruct Hnew as (N1 & N2 & N3 & N4 & N5 & N6 & _). destruct (N6 b) as [Hb Hap]; [apply elem_of_app; right; by left|].
  assert (block_ok b) as Hbok by (rewrite Forall_forall in I5; apply I5, elem_of_app; right; by left).
  destruct N3 as (Y1 & Y2 & Y3 & Y4%layout_bounds), Hbok as (Z1 & Z2 & Z3 & Z4%layout_bounds). unfold apart in Hap.
  assert (4096 <= k_maj b /\ 4096 <= k_maj b' < 2 ^ 32) as Hbd by (unfold k_maj in *; unfold k_end, k_maj in *; lia).
  wp_steps; apply (wp_put _ b); [done|fields; lia|fields; lia|]. wp_steps; apply (wp_get _ b); [done|fields; lia|fields; lia|].
  cbn [l_mem set_l_mem]. rewrite load32_store32 by (unfold is_u32; lia). rewrite (proj2 (Z.eqb_neq (k_maj b') 0)) by lia.
  wp_steps; apply (wp_put _ b'); [done|fields; lia|fields; lia|]. apply HQ; [exact Hi|by split; [|lia]|done].
Qed.

Lemma wp_round s pre b post req sb best :
  heap_inv true s (pre ++ b :: post) -> 0 <= req < 2 ^ 31 ->
  wp (kmalloc_round (req + 32) req (k_maj b, sb, best)) (fun r s' =>
    match r with inl next => goes_on pre b post sb req s next s' | inr p => kmalloc_done (pre ++ b :: post) req s p s' end)
    only_nomem s.
Proof.
  intros Hinv Hreq. destruct (mid_facts s pre post b Hinv) as (Hat & Hr & Hok & M1 & M2 & M3 & M4).
  destruct Hat as (B1 & B2 & B3 & B4 & B5 & B6 & B7). pose proof Hok as (_ & _ & _ & Hl). pose proof (usage_pos _ _ _ Hl) as Hup.
  unfold kmalloc_round. rewrite (proj2 (Z.eqb_neq (k_maj b) 0)) by lia.
  wp_steps; apply (wp_get _ b); [done|fields; lia|fields; lia|]. rewrite B4.
  wp_steps; apply (wp_get _ b); [done|fields; lia|fields; lia|]. rewrite B5. rewrite u32_small by (unfold is_u32; lia).
  set (diff := k_pages b * 4096 - usage (k_objs b)) in *.
  assert (forall (k : Z -> M (lstate P) (Z * Z * Z + Z)) Q, (forall best' s1, heap_inv true s1 (pre ++ b :: post) -> l_mem s1 = l_mem s ->
    l_memRoot s1 = l_memRoot s -> l_os s1 = l_os s -> wp (k best') Q only_nomem s1) ->
    wp (let! best' := (if best <? diff then modify (set_bestBet (k_maj b)) >>> ret diff else ret best) in k best') Q only_nomem s) as Hbest.
  { intros k Q HQ. destruct (best <? diff); wp_steps; (apply HQ; [|done|done|done]); [|done]. apply heap_inv_bet; [done|].
    exists b. split; [apply elem_of_app; right; by left|done]. }
  apply Hbest. clear Hbest. intros best' s1 Hinv1 Hmem1 Hroot1 Hos1.
  assert (users_keep (pre ++ b :: post) s s1) as Hu1 by (intros a _; by rewrite Hmem1).
  assert (forall s2, users_keep (pre ++ b :: post) s1 s2 -> users_keep (pre ++ b :: post) s s2) as Hu
    by (intros s2 H2 a Ha; rewrite <- Hmem1; by apply H2).
  assert (forall p s', kmalloc_done (pre ++ b :: post) req s1 p s' -> kmalloc_done (pre ++ b :: post) req s p s') as Hdone.
  { intros p s' Hd. apply (kmalloc_done_more _ [] req s s1); [done|done|by rewrite app_nil_r]. }
  rewrite <- Hos1 in Hr. rewrite <- Hmem1 in B2. clear Hinv B1 B3 B4 B5 B6 B7.
  unfold case1. rewrite (u32_small (req + 32 + MINOR_SIZE)) by (unfold is_u32, MINOR_SIZE; lia). unfold MINOR_SIZE.
  wp_steps. destruct (Z.ltb_spec diff (req + 32 + 24)) as [Hsmall|Hbig].
  - (* not enough space *)
    assert (~ ready b req) as Hnr.
    { intros [Hob Hs]. unfold diff in Hsmall. rewrite Hob in Hsmall. change (usage []) with 24 in Hsmall. lia. }
    wp_steps; apply (wp_get _ b); [done|fields; lia|fields; lia|]. rewrite B2.
    destruct post as [|b2 post]; cbn [first_maj].
    + change (negb (0 =? 0)) with false. cbv iota. destruct (Z.eqb_spec sb 1) as [->|Hsb].
      * wp_steps. split; [done|]. split; [by apply Hu1|]. pose proof (hi_root _ _ _ Hinv1) as Hrt.
        destruct (pre ++ [b]) as [|b0 l0] eqn:Hpb; [by destruct pre|]. exists [], b0, l0. cbn [app].
        split; [done|]. split; [done|]. right; left. done.
      * apply (wp_link pre b req); [done|done|]. intros b' s2 Hi Hrd Hu2. wp_steps.
        destruct (mid_facts s2 (pre ++ [b]) [] b' Hi) as (_ & Hr' & _ & M1' & M2' & _).
        assert (load32 (l_mem s2) (maj_next (k_maj b)) = k_maj b') as Hnx.
        { pose proof (hi_at _ _ _ Hi) as Hat. rewrite <- app_assoc in Hat. apply blocks_at_mid in Hat as (_ & Hat & _). done. }
        destruct (mid_facts s2 pre [b'] b) as (_ & Hr2 & _); [by rewrite <- app_assoc in Hi|].
        apply (wp_get _ b); [done|fields; lia|fields; lia|]. rewrite Hnx. wp_steps.
        apply (wp_case2 s2 (pre ++ [b]) [] b' req); [done|done| |by intros []; destruct Hrd].
        intros _. split; [apply Hrd|]. intros p s3 Hs3%served_done. wp_steps. apply Hdone.
        apply (kmalloc_done_more _ [b'] req s1 s2); [|done|done]. apply Forall_singleton. by destruct Hrd.
    + destruct (mid_facts s1 (pre ++ [b]) post b2) as (_ & _ & _ & N1 & _); [by rewrite <- app_assoc|].
      rewrite (proj2 (Z.eqb_neq (k_maj b2) 0)) by lia. cbn [negb]. wp_steps. split; [done|]. split; [by apply Hu1|].
      exists (pre ++ [b]), b2, post. rewrite <- app_assoc. split; [done|]. split; [done|]. left. done.
  - (* enough space in total *)
    wp_steps. apply (wp_case2 s1 pre post b req Hinv1 Hreq).
    { intros Hob. split; [unfold diff in Hbig; rewrite Hob in Hbig; change (usage []) with 24 in Hbig; lia|].
      intros p s2 Hs2%served_done. wp_steps. by apply Hdone. }
    intros Hne. wp_steps. apply (wp_case3 s1 pre post b req Hinv1 Hreq _ _ Hne).
    { intros p s2 Hs2%served_done. wp_steps. by apply Hdone. }
    wp_steps. apply (wp_case4 s1 pre post b req Hinv1 Hreq _ _ Hne).
    { intros p s2 Hs2%served_done. wp_steps. by apply Hdone. }
    wp_steps. unfold case5. assert (~ ready b req) as Hnr by (by intros [? _]).
    wp_steps; apply (wp_get _ b); [done|fields; lia|fields; lia|]. rewrite B2.
    destruct post as [|b2 post]; cbn [first_maj].
    + change (0 =? 0) with true. cbv iota. destruct (Z.eqb_spec sb 1) as [->|Hsb].
      * wp_steps. split; [done|]. split; [by apply Hu1|]. pose proof (hi_root _ _ _ Hinv1) as Hrt.
        destruct (pre ++ [b]) as [|b0 l0] eqn:Hpb; [by destruct pre|]. exists [], b0, l0. cbn [app].
        split; [done|]. split; [done|]. right; left. done.
      * apply (wp_link pre b req); [done|done|]. intros b' s2 Hi Hrd Hu2. wp_steps. split; [done|].
        split; [by apply Hu|]. exists (pre ++ [b]), b', []. split; [done|]. split; [done|]. right; right. done.
    + destruct (mid_facts s1 (pre ++ [b]) post b2) as (_ & _ & _ & N1 & _); [by rewrite <- app_assoc|].
      rewrite (proj2 (Z.eqb_neq (k_maj b2) 0)) by lia. wp_steps. split; [done|]. split; [by apply Hu1|].
      exists (pre ++ [b]), b2, post. rewrite <- app_assoc. split; [done|]. split; [done|]. left. done.
Qed.

(** How many rounds are left. *)
Definition rounds_left pre b post (sb req : Z) : nat :=
  if decide (ready b req) then 0 else (1 + length post + (if decide (sb = 1%Z) then length (pre ++ b :: post) + 1 else 0))%nat.

Lemma goes_on_decreases pre b post sb req sb' pre' b' post' :
  ~ ready b req ->
  ((pre' ++ b' :: post' = pre ++ b :: post /\ sb' = sb /\ post = b' :: post') \/
   (pre' ++ b' :: post' = pre ++ b :: post /\ post = [] /\ sb = 1 /\ sb' = 0 /\ pre' = []) \/
   (pre' = pre ++ [b] /\ post = [] /\ post' = [] /\ ready b' req /\ sb' = sb)) ->
  (rounds_left pre' b' post' sb' req < rounds_left pre b post sb req)%nat.
Proof.
  intros Hn Hc. unfold rounds_left. rewrite (decide_False (P := ready b req)) by done.
  destruct (decide (ready b' req)) as [|Hn']; [lia|].
  destruct Hc as [(He & -> & ->)|[(He & -> & -> & -> & ->)|(_ & _ & _ & Hr & _)]]; [| |done].
  - rewrite He. cbn [length]. lia.
  - rewrite decide_False by done. rewrite decide_True by done. apply (f_equal length) in He. cbn [app length] in *. lia.
Qed.

Lemma wp_kmalloc_search fuel : forall s pre b post req sb best,
  heap_inv true s (pre ++ b :: post) -> 0 <= req < 2 ^ 31 -> (rounds_left pre b post sb req < fuel)%nat ->
  wp (loop fuel (kmalloc_round (req + 32) req) (k_maj b, sb, best)) (kmalloc_done (pre ++ b :: post) req s) only_nomem s.
Proof.
  induction fuel as [|fuel IH]; intros s pre b post req sb best Hinv Hreq Hf; [lia|]. apply wp_loop_step.
  eapply wp_mono; [by apply wp_round| |done]. intros [[[maj' sb'] best']|p] s'; [|done].
  intros (Hn & Hu & pre' & b' & post' & Hinv' & -> & Hc).
  pose proof (goes_on_decreases pre b post sb req sb' pre' b' post' Hn Hc) as Hlt.
  eapply wp_mono; [apply IH; [done|done|lia]| |done]. intros p s2 Hd.
  destruct Hc as [(He & _)|[(He & _)|(-> & -> & -> & [Hr _] & _)]].
  - rewrite He in Hd. apply (kmalloc_done_more _ [] req s s'); [done|done|by rewrite app_nil_r].
  - rewrite He in Hd. apply (kmalloc_done_more _ [] req s s'); [done|done|by rewrite app_nil_r].
  - apply (kmalloc_done_more _ [b'] req s s'); [by apply Forall_singleton|done|done].
Qed.

Lemma heap_inv_lock lk lk' s l : heap_inv lk s l -> heap_inv lk' (set_locked lk' s) l.
Proof. by intros []. Qed.

Lemma wp_kmalloc s l req :
  heap_inv false s l -> l <> [] -> 0 <= req < 2 ^ 31 -> wp (kmalloc req) (kmalloc_done l req s) only_nomem s.
Proof.
  intros Hinv Hne Hreq. unfold kmalloc, ALIGNMENT, ALIGN_INFO. rewrite (u32_small (req + (16 + 16))) by (unfold is_u32; lia).
  replace (req + (16 + 16)) with (req + 32) by lia. wp_cond. rewrite (proj2 (Z.eqb_neq (req + 32) 0)) by lia. cbn [negb].
  wp_steps. unfold liballoc_lock. wp_steps. rewrite (hi_lock _ _ _ Hinv). wp_steps.
  set (s1 := set_locked true s). assert (heap_inv true s1 l) as Hinv1 by (by eapply heap_inv_lock).
  pose proof Hinv1 as [I1 I2 I3 I4 I5 I6 I7 I8 I9 I10].
  assert (forall b, b ∈ l -> 4096 <= k_maj b) as Hpos.
  { intros b Hb. rewrite Forall_forall in I5. destruct (I5 b Hb) as (A & _). unfold k_maj. lia. }
  destruct l as [|b0 l]; [done|]. cbn [first_maj] in I3.
  assert (4096 <= k_maj b0) as Hb0 by (apply Hpos; by left).
  wp_cond. rewrite I3, (proj2 (Z.eqb_neq (k_maj b0) 0)) by lia. cbn [negb]. wp_steps.
  assert (forall pre b post sb best, pre ++ b :: post = b0 :: l -> (sb = 1 \/ pre = []) ->
    wp (loop (search_fuel s1) (kmalloc_round (req + 32) req) (k_maj b, sb, best)) (kmalloc_done (b0 :: l) req s) only_nomem s1) as Hgo.
  { intros pre b post sb best He Hsb. rewrite <- He in Hinv1 |- *. eapply wp_mono; [apply wp_kmalloc_search; [done|done|]| |done].
    - unfold search_fuel. rewrite I10. pose proof (total_pages_length _ I5) as Hlen. unfold l_pageCount, l_pageSize.
      replace (total_pages (b0 :: l) * 4096) with (total_pages (b0 :: l) * 4096) by done.
      assert (Z.of_nat (length (b0 :: l)) <= total_pages (b0 :: l) * 4096 / (16 * 4096)) as Hq by (apply Z.div_le_lower_bound; lia).
      rewrite <- He in Hq. unfold rounds_left. rewrite length_app in *. cbn [length] in *. rewrite He in Hq. repeat destruct decide; lia.
    - intros p s' Hd. apply (kmalloc_done_more _ [] req s s1); [done|by intros a|by rewrite app_nil_r]. }
  destruct (Z.eqb_spec (l_bestBet s1) 0) as [Hz|Hz]; cbn [negb].
  - wp_steps. apply (Hgo [] b0 l); auto.
  - destruct I9 as [|(b & Hb & Hbe)]; [done|]. apply list_elem_of_split in Hb as (pre & post & Hsp).
    rewrite Hsp in Hinv1. destruct (mid_facts s1 pre post b Hinv1) as (_ & Hr & _ & M1 & M2 & _). rewrite <- Hbe.
    wp_steps; apply (wp_get _ b); [done|fields; lia|fields; lia|]. wp_steps; apply (wp_get _ b); [done|fields; lia|fields; lia|].
    destruct (_ <? _); wp_steps; [apply (Hgo pre b post); auto|apply (Hgo [] b0 l); auto].
Qed.

(** ** Giving an object back *)

Lemma remove_writes_user b l1 o l2 o' a :
  block_ok b -> k_objs b = l1 ++ o :: l2 -> o' ∈ l1 ++ l2 -> o_ptr o' <= a < o_end o' -> ~ remove_writes (k_maj b) l1 o l2 a.
Proof.
  intros (_ & _ & _ & Hl) He Ho' Ha. rewrite He in Hl. pose proof (o_ptr_range o') as Hp'.
  assert (forall z, z ∈ l1 ++ o :: l2 -> k_maj b + 24 <= o_min z /\ o_min z + 56 <= o_end z /\ (o' = z \/ o_end o' <= o_min z \/ o_end z <= o_min o')) as Hz.
  { intros z Hz. pose proof (layout_in _ _ _ _ Hl Hz). split; [lia|]. split; [unfold o_end; lia|].
    apply (layout_disjoint _ _ _ _ _ Hl); [|done]. rewrite elem_of_app, elem_of_cons in *. tauto. }
  assert (o_end o' <= o_min o \/ o_end o <= o_min o') as Hd.
  { apply layout_app in Hl as (mid & L1 & (Lm & _ & _ & L2) & _). apply elem_of_app in Ho' as [Ho'|Ho'].
    - left. pose proof (layout_in _ _ _ _ L1 Ho'). lia.
    - right. by pose proof (layout_in _ _ _ _ L2 Ho') as [? _]. }
  assert (k_maj b + 24 <= o_min o') as Hlo by (apply Hz; rewrite elem_of_app, elem_of_cons in *; tauto).
  intros [W|[W|[(x & Hx & W)|(y & Hy & W)]]]; [lia|lia| |].
  - apply last_Some_elem_of in Hx. destruct (Hz x) as (? & ? & [->|?]); [apply elem_of_app; by left|lia|lia].
  - apply head_Some_elem_of in Hy. destruct (Hz y) as (? & ? & [->|?]); [apply elem_of_app; right; by right|lia|lia].
Qed.

Lemma remove_writes_in b l1 o l2 a :
  block_ok b -> k_objs b = l1 ++ o :: l2 -> remove_writes (k_maj b) l1 o l2 a -> k_maj b <= a < k_end b.
Proof.
  intros (_ & H2 & _ & Hl) He. rewrite He in Hl. pose proof (layout_bounds _ _ _ Hl).
  assert (forall z, z ∈ l1 ++ o :: l2 -> k_maj b + 24 <= o_min z /\ o_min z + 56 <= o_end z <= k_end b) as Hz.
  { intros z Hz. pose proof (layout_in _ _ _ _ Hl Hz). unfold o_end in *. lia. }
  assert (o ∈ l1 ++ o :: l2) as Ho by (apply elem_of_app; right; by left). pose proof (Hz o Ho).
  intros [W|[W|[(x & Hx & W)|(y & Hy & W)]]]; [lia|lia| |].
  - apply last_Some_elem_of in Hx. destruct (Hz x); [apply elem_of_app; by left|lia].
  - apply head_Some_elem_of in Hy. destruct (Hz y); [apply elem_of_app; right; by right|lia].
Qed.

Lemma heap_remove s s' pre b post l1 o l2 :
  heap_inv true s (pre ++ b :: post) -> k_objs b = l1 ++ o :: l2 ->
  l_os s' = l_os s -> l_locked s' = true -> l_memRoot s' = l_memRoot s -> l_bestBet s' = l_bestBet s ->
  l_allocated s' = l_allocated s ->
  (forall a, ~ remove_writes (k_maj b) l1 o l2 a -> l_mem s' a = l_mem s a) ->
  load32 (l_mem s') (maj_usage (k_maj b)) = usage (l1 ++ l2) ->
  load32 (l_mem s') (maj_first (k_maj b)) = first_min (l1 ++ l2) 0 ->
  (forall x, last l1 = Some x -> load32 (l_mem s') (min_next (o_min x)) = first_min l2 0) ->
  (forall y, head l2 = Some y -> load32 (l_mem s') (min_prev (o_min y)) = last_min l1 0) ->
  heap_inv true s' (pre ++ with_objs b (l1 ++ l2) :: post) /\
  users_keep (pre ++ with_objs b (l1 ++ l2) :: post) s s'.
Proof.
  intros Hinv He Hos Hlk Hrt Hbb Hal Hw Hu Hfi Hx Hy. pose proof Hinv as [_ _ _ I4 I5 _ I7 _ _ _].
  assert (b ∈ pre ++ b :: post) as Hbin by (apply elem_of_app; right; by left).
  assert (block_ok b) as Hok by (rewrite Forall_forall in I5; by apply I5).
  destruct (block_at_remove (l_mem s) (l_mem s') (last_maj pre 0) (first_maj post 0) b l1 o l2) as [Hok' Hb'];
    [done|done|by apply blocks_at_mid|intros a _; apply Hw|done|done|done|done|]. split.
  - apply (heap_replace true true s); try done.
    intros a Ha. apply Hw. intros Hiw. by apply (remove_writes_in b) in Hiw.
  - intros a (x & o' & Hx' & Ho' & Ha). apply Hw. intros Hiw. rewrite elem_of_app, elem_of_cons in Hx'.
    assert (x = with_objs b (l1 ++ l2) \/ x ∈ pre \/ x ∈ post) as [->|Hx2] by tauto.
    { by apply (remove_writes_user b l1 o l2 o' a) in Hiw. }
    apply (remove_writes_in b) in Hiw; [|done|done]. pose proof (mid_apart true s pre b post x Hinv Hx2) as Hapx.
    assert (x ∈ pre ++ b :: post) as Hxin by (rewrite elem_of_app, elem_of_cons; tauto).
    rewrite Forall_forall in I5. destruct (I5 x Hxin) as (_ & _ & _ & Hlx).
    pose proof (layout_in _ _ _ _ Hlx Ho'). pose proof (o_ptr_range o'). destruct Hapx; lia.
Qed.

(** A block goes back to the system. *)
Lemma heap_drop lk s s' pre b post :
  heap_inv lk s (pre ++ b :: post) -> k_objs b = [] ->
  page_ok (l_os s') -> (forall q, page_held (l_os s') q = negb (in_run (k_base b) (k_pages b) q) && page_held (l_os s) q) ->
  l_locked s' = lk -> l_memRoot s' = (if l_memRoot s =? k_maj b then first_maj post 0 else l_memRoot s) ->
  l_bestBet s' = (if l_bestBet s =? k_maj b then 0 else l_bestBet s) ->
  l_allocated s' = l_allocated s - k_pages b * 4096 ->
  (forall a, (forall x, last pre = Some x -> ~ k_maj x + 4 <= a < k_maj x + 8) ->
    (forall y, head post = Some y -> ~ k_maj y <= a < k_maj y + 4) -> l_mem s' a = l_mem s a) ->
  (forall x, last pre = Some x -> load32 (l_mem s') (maj_next (k_maj x)) = first_maj post 0) ->
  (forall y, head post = Some y -> load32 (l_mem s') (maj_prev (k_maj y)) = last_maj pre 0) ->
  heap_inv lk s' (pre ++ post) /\ users_keep (pre ++ post) s s'.
Proof.
  intros Hinv Ho Hos Hheld Hlk Hrt Hbb Hal Hw Hx Hy. pose proof (fun x => mid_apart lk s pre b post x Hinv) as Hap.
  destruct Hinv as [I1 I2 I3 I4 I5 I6 I7 I8 I9 I10].
  assert (forall x, x ∈ pre ++ post -> x ∈ pre ++ b :: post) as Hsub.
  { intros x. rewrite !elem_of_app, elem_of_cons. tauto. }
  assert (forall x, x ∈ pre ++ post -> x ∈ pre \/ x ∈ post) as Hor by (intros x; by rewrite elem_of_app).
  pose proof I5 as Hall. rewrite Forall_forall in Hall. pose proof I8 as Hnd. rewrite fmap_app, fmap_cons in Hnd.
  apply NoDup_app in Hnd as (D1 & D2 & [D3 D4]%NoDup_cons).
  assert (forall x, x ∈ pre ++ post -> 4096 <= k_maj x /\ k_maj x + 24 <= k_end x) as Hbd.
  { intros x Hxin%Hsub. destruct (Hall x Hxin) as (A & _ & _ & Hl%layout_bounds). unfold k_maj in *. lia. }
  assert (forall x y, x ∈ pre -> y ∈ post -> apart x y) as Hpp.
  { intros x y Hxp Hyp. destruct (I7 x y) as [->|]; [by apply Hsub, elem_of_app; left|by apply Hsub, elem_of_app; right| |done].
    exfalso. apply (D2 (k_base y)); [by apply list_elem_of_fmap_2|]. right. by apply list_elem_of_fmap_2. }
  apply blocks_at_app in I4 as [A1 [_ A2]]. cbn [first_maj] in A1.
  pose proof I5 as F. apply Forall_app in F as [F1 [F0 F2]%Forall_cons].
  split.
  - split; [done|done|..].
    + rewrite Hrt, I3. destruct pre as [|b0 pre]; cbn [app first_maj].
      * by rewrite Z.eqb_refl.
      * destruct (Z.eqb_spec (k_maj b0) (k_maj b)) as [He|]; [|done]. exfalso. apply (D2 (k_base b)); [|by left].
        apply list_elem_of_fmap. exists b0. split; [|by left]. unfold k_maj in He. lia.
    + apply blocks_at_app. split.
      * apply (blocks_at_next (l_mem s) _ 0 pre (k_maj b)); [done|done| |done| |done].
        -- intros x a Hxp Ha Hn. apply Hw; [done|]. intros y Hyh. apply head_Some_elem_of in Hyh.
           destruct (Hpp x y Hxp Hyh); destruct (Hbd y) as [_ ?]; [apply elem_of_app; by right|lia|apply elem_of_app; by right|lia].
        -- intros x Hxp z Hz%last_Some_elem_of. apply I7; by apply Hsub, elem_of_app; left.
      * apply (blocks_at_prev (l_mem s) _ (k_maj b) _ post 0); [done|done| |done| |done].
        -- intros y a Hyp Ha Hn. apply Hw; [|done]. intros x Hxl. apply last_Some_elem_of in Hxl.
           destruct (Hpp x y Hxl Hyp); destruct (Hbd x) as [_ ?]; [apply elem_of_app; by left|lia|apply elem_of_app; by left|lia].
        -- intros x Hxp z Hz%head_Some_elem_of. apply I7; by apply Hsub, elem_of_app; right.
    + by apply Forall_app.
    + intros x Hxin q Hq. rewrite Hheld, (I6 x (Hsub x Hxin) q Hq). destruct (in_run (k_base b) (k_pages b) q) eqn:Hb; [|done].
      exfalso. specialize (Hap x (Hor x Hxin)). unfold in_run in *. apply andb_true_iff in Hq, Hb. unfold apart, k_end, k_maj in Hap. lia.
    + intros x y Hxin%Hsub Hyin%Hsub. by apply I7.
    + rewrite fmap_app. apply NoDup_app. split; [done|]. split; [|done]. intros k Hk Hk'. apply (D2 k Hk). by right.
    + rewrite Hbb. destruct (Z.eqb_spec (l_bestBet s) (k_maj b)); [by left|]. destruct I9 as [|(x & Hxin & Hxe)]; [by left|right].
      exists x. split; [|done]. rewrite elem_of_app, elem_of_cons in Hxin. rewrite elem_of_app.
      destruct Hxin as [|[->|]]; [by left|congruence|by right].
    + rewrite Hal, I10, !total_pages_app, total_pages_cons. lia.
  - intros a (x & o' & Hxin & Ho' & Ha). destruct (Hall x (Hsub x Hxin)) as (_ & _ & _ & Hlx).
    pose proof (layout_in _ _ _ _ Hlx Ho'). pose proof (o_ptr_range o'). apply Hw.
    + intros z Hz%last_Some_elem_of. destruct (I7 x z) as [->|Hxz]; [by apply Hsub|by apply Hsub, elem_of_app; left|lia|].
      destruct (Hbd z) as [_ ?]; [apply elem_of_app; by left|]. destruct Hxz; lia.
    + intros z Hz%head_Some_elem_of. destruct (I7 x z) as [->|Hxz]; [by apply Hsub|by apply Hsub, elem_of_app; right|lia|].
      destruct (Hbd z) as [_ ?]; [apply elem_of_app; by right|]. destruct Hxz; lia.
Qed.

(** The heap without [o]; a block it leaves empty goes with it. *)
Definition without pre b post (l1 l2 : list obj) : list block :=
  match l1 ++ l2 with [] => pre ++ post | os => pre ++ with_objs b os :: post end.

Definition gave_back (l : list block) (p : Z) (l' : list block) : Prop :=
  exists pre b post l1 o l2, l = pre ++ b :: post /\ k_objs b = l1 ++ o :: l2 /\ o_ptr o = p /\ l' = without pre b post l1 l2.

Lemma first_min_pos b l : layout (k_maj b + 24) l (k_end b) -> 0 < k_maj b -> first_min l 0 = 0 -> l = [].
Proof. destruct l as [|o l]; [done|]. cbn. intros (A & _) Hm Hz. lia. Qed.

(** Reads of the memory that an object was unlinked in. *)
Ltac unlink_put b S2 := wp_steps; apply (wp_put _ b); [cbn [l_os set_l_mem]; by rewrite S2|fields; lia|fields; lia|]; wp_steps.
Ltac unlink_done Hdone S1 m1 :=
  apply Hdone; try done; cbn [l_mem set_l_mem]; rewrite ?S1; unfold m1; fields;
  [ let a := fresh "a" in let Hn := fresh "Hn" in intros a Hn; unfold remove_writes, o_end in Hn;
    repeat first
      [ rewrite store32_ne by
          (match goal with |- a < ?x \/ _ =>
             destruct (Z.lt_ge_cases a x); [by left|right];
             destruct (Z.lt_ge_cases a (x + 4)); [exfalso; apply Hn|by first [done|lia]] end;
           first [left; lia | right; left; lia | right; right; left; eexists; split; [eassumption|lia]
                 | right; right; right; eexists; split; [eassumption|lia]])
      | rewrite fill_ne by
          (match goal with |- a < ?x \/ ?x + ?n <= _ =>
             destruct (Z.lt_ge_cases a x); [by left|right];
             destruct (Z.lt_ge_cases a (x + n)); [exfalso; apply Hn; right; left; lia|by first [done|lia]] end) ]
  | .. ]; try by mem_steps.

Lemma unlink_first (l1 l2 l2' : list obj) x d : last l1 = Some x -> first_min (l1 ++ l2) d = first_min (l1 ++ l2') d.
Proof. by destruct l1. Qed.

Section free.
Variables (s : lstate P) (pre post : list block) (b : block) (l1 l2 : list obj) (o : obj).
Hypothesis Hinv : heap_inv true s (pre ++ b :: post).
Hypothesis Hobjs : k_objs b = l1 ++ o :: l2.
Abbreviation maj := (k_maj b).

Lemma free_facts : minor_at (l_mem s) maj (last_min l1 0) (first_min l2 0) o /\ run_held (l_os s) b /\
  maj + 24 <= o_min o /\ o_min o + 24 + o_size o <= k_end b /\ 32 <= o_size o /\ 4096 <= maj /\ k_end b <= 2 ^ 32 /\
  (forall x, last l1 = Some x -> maj + 24 <= o_min x /\ o_min x + 56 <= o_min o /\ last_min l1 0 = o_min x) /\
  (forall y, head l2 = Some y -> o_min o + 24 + o_size o <= o_min y /\ o_min y + 56 <= k_end b /\ first_min l2 0 = o_min y).
Proof.
  destruct (mid_facts s pre post b Hinv) as ((_ & _ & _ & _ & _ & _ & Ho) & Hr & (_ & _ & _ & Hl) & M1 & M2 & M3 & M4).
  rewrite Hobjs in Ho, Hl. apply objs_at_app in Ho as [_ [Hm _]]. apply layout_app in Hl as (mid & L1 & (A & B & C & L2) & _).
  pose proof (layout_bounds _ _ _ L1). pose proof (layout_bounds _ _ _ L2). unfold o_end in *.
  split; [done|]. split; [done|]. do 5 (split; [lia|]). split.
  - intros x Hx. unfold last_min. rewrite Hx. apply last_Some_elem_of in Hx. destruct (layout_in _ _ _ x L1 Hx) as (X1 & X2 & X3 & X4).
    unfold o_end in *. cbn. lia.
  - intros y Hy. destruct l2 as [|y' l2']; [done|]. injection Hy as ->. cbn. destruct (layout_in _ _ _ y L2 ltac:(by left)) as (X1 & X2 & X3 & X4).
    unfold o_end in *. lia.
Qed.

(** [kfree] up to the question whether the block is empty. *)
Definition unlinked (s' : lstate P) : Prop :=
  heap_inv true s' (pre ++ with_objs b (l1 ++ l2) :: post) /\ users_keep (pre ++ with_objs b (l1 ++ l2) :: post) s s'.

Lemma wp_unlink (K : M (lstate P) unit) Q E :
  (forall s', unlinked s' -> wp K Q E s') ->
  wp (modify (fun s => set_inuse (l_inuse s - o_size o) s) >>>
      fill_bytes (o_min o + 24) 0 (o_size o) >>>
      let! usage := get (maj_usage maj) in
      put (maj_usage maj) (u32 (usage - (o_size o + MINOR_SIZE))) >>>
      put (min_magic (o_min o)) LIBALLOC_DEAD >>>
      let! next := get (min_next (o_min o)) in
      let! prev := get (min_prev (o_min o)) in
      (if negb (next =? 0) then put (min_prev next) prev else ret tt) >>>
      (if negb (prev =? 0) then put (min_next prev) next else ret tt) >>>
      (if prev =? 0 then put (maj_first maj) next else ret tt) >>> K) Q E s.
Proof.
  intros HK. destruct free_facts as (Hm & Hr & F1 & F2 & F3 & F4 & F5 & Hx & Hy).
  destruct (mid_facts s pre post b Hinv) as ((_ & _ & _ & _ & Bu & Bf & _) & _ & (_ & _ & _ & Hl) & _).
  pose proof (usage_pos _ _ _ Hl) as Hup. rewrite Hobjs, usage_app, usage_cons in Bu, Hup. rewrite Hobjs in Bf.
  destruct Hm as (A1 & A2 & A3 & A4 & A5 & A6 & A7).
  assert (24 <= usage l1 /\ 24 <= usage l2) as Hul.
  { rewrite Hobjs in Hl. apply layout_app in Hl as (mid & L1 & (_ & _ & _ & L2) & _). split; [apply (usage_pos _ _ _ L1)|apply (usage_pos _ _ _ L2)]. }
  unfold fill_bytes. wp_steps. wp_cond. rewrite (proj2 (Z.eqb_neq (o_min o + 24) 0)) by lia. cbn [negb].
  wp_cond. rewrite (proj2 (Z.eqb_neq (o_size o) 0)) by lia. cbn [negb]. wp_steps.
  rewrite (run_held_at _ b) by (done || lia). wp_cond. wp_steps.
  apply (wp_get _ b); [done|fields; lia|fields; lia|]. wp_steps; apply (wp_put _ b); [done|fields; lia|fields; lia|].
  wp_steps; apply (wp_put _ b); [done|fields; lia|fields; lia|]. wp_steps; apply (wp_get _ b); [done|fields; lia|fields; lia|].
  wp_steps; apply (wp_get _ b); [done|fields; lia|fields; lia|]. cbn [l_mem set_l_mem set_inuse].
  set (U := u32 _). assert (U = usage (l1 ++ l2)) as HU.
  { unfold U. fields. rewrite load32_fill_ne by lia. rewrite Bu, usage_app. unfold MINOR_SIZE. rewrite u32_small by (unfold is_u32; lia). lia. }
  assert (0 <= U < 2 ^ 32) as HUb by (rewrite HU, usage_app; lia).
  clearbody U. set (m1 := store32 _ (min_magic _) _). set (s1 := set_l_mem m1 _).
  assert (load32 m1 (min_next (o_min o)) = first_min l2 0) as -> by (unfold m1; fields; by mem_steps).
  assert (load32 m1 (min_prev (o_min o)) = last_min l1 0) as -> by (unfold m1; fields; by mem_steps).
  assert (l_mem s1 = m1 /\ l_os s1 = l_os s /\ l_locked s1 = l_locked s /\ l_memRoot s1 = l_memRoot s /\ l_bestBet s1 = l_bestBet s /\
    l_allocated s1 = l_allocated s) as (S1 & S2 & S3 & S4 & S5 & S6) by done. clearbody s1.
  pose proof (hi_lock _ _ _ Hinv) as Hlk. rewrite Hlk in S3.
  assert ((l1 = [] /\ last_min l1 0 = 0) \/ exists x, last l1 = Some x /\ last_min l1 0 = o_min x /\ maj + 24 <= o_min x /\ o_min x + 56 <= o_min o) as Hprev.
  { destruct (last l1) as [x|] eqn:Hlx; [right|left; by apply last_None in Hlx as ->]. exists x. by destruct (Hx x eq_refl) as (? & ? & ?). }
  assert ((l2 = [] /\ first_min l2 0 = 0) \/ exists y, head l2 = Some y /\ first_min l2 0 = o_min y /\ o_min o + 24 + o_size o <= o_min y /\ o_min y + 56 <= k_end b) as Hnext.
  { destruct (head l2) as [y|] eqn:Hly; [right|left; by destruct l2]. exists y. by destruct (Hy y eq_refl) as (? & ? & ?). }
  assert (forall s', l_os s' = l_os s1 -> l_locked s' = l_locked s1 -> l_memRoot s' = l_memRoot s1 -> l_bestBet s' = l_bestBet s1 ->
    l_allocated s' = l_allocated s1 -> (forall a, ~ remove_writes maj l1 o l2 a -> l_mem s' a = l_mem s a) ->
    load32 (l_mem s') (maj_usage maj) = U -> load32 (l_mem s') (maj_first maj) = first_min (l1 ++ l2) 0 ->
    (forall x, last l1 = Some x -> load32 (l_mem s') (min_next (o_min x)) = first_min l2 0) ->
    (forall y, head l2 = Some y -> load32 (l_mem s') (min_prev (o_min y)) = last_min l1 0) -> wp K Q E s') as Hdone.
  { intros s' T2 T3 T4 T5 T6 T7 T8 T9 T10 T11. apply HK. apply (heap_remove s s' pre b post l1 o l2); try done; congruence. }
  clear HK Hx Hy A1 A2 A3 A4 A5 A6 A7.
  destruct Hnext as [[Hl2 ->]|(y & Hly & Hlym & Y1 & Y2)]; [rewrite Hl2 in Hdone|rewrite Hlym];
    (destruct Hprev as [[Hl1 ->]|(x & Hlx & Hlxm & X1 & X2)]; [rewrite Hl1 in Hdone|rewrite Hlxm]).
  - unlink_put b S2. unlink_done Hdone S1 m1.
  - rewrite (proj2 (Z.eqb_neq (o_min x) 0)) by lia. cbn [negb]. unlink_put b S2. unlink_done Hdone S1 m1.
    + mem_steps. rewrite Bf. by apply (unlink_first _ _ _ x).
    + intros z [= <-]%(eq_trans (eq_sym Hlx)). by mem_steps.
  - rewrite (proj2 (Z.eqb_neq (o_min y) 0)) by lia. cbn [negb]. unlink_put b S2. unlink_put b S2. unlink_done Hdone S1 m1.
    intros z [= <-]%(eq_trans (eq_sym Hly)). by mem_steps.
  - rewrite (proj2 (Z.eqb_neq (o_min y) 0)), (proj2 (Z.eqb_neq (o_min x) 0)) by lia. cbn [negb]. unlink_put b S2. unlink_put b S2.
    unlink_done Hdone S1 m1.
    + mem_steps. rewrite Bf. by apply (unlink_first _ _ _ x).
    + intros z [= <-]%(eq_trans (eq_sym Hlx)). by mem_steps.
    + intros z [= <-]%(eq_trans (eq_sym Hly)). by mem_steps.
Qed.
End free.

Lemma users_keep_trans (l : list block) s s1 s2 : users_keep l s s1 -> users_keep l s1 s2 -> users_keep l s s2.
Proof. intros A B a Ha. rewrite B by done. by apply A. Qed.

Lemma users_keep_mem (l : list block) s s' : l_mem s' = l_mem s -> users_keep l s s'.
Proof. intros Hm a _. by rewrite Hm. Qed.

Ltac to_get := repeat lazymatch goal with |- wp (bind (get _) _) _ _ _ => fail | _ => wp_step end.

(** The clean-up of the blocks. *)
Lemma wp_free_block s pre b post (Q : unit -> lstate P -> Prop) E :
  heap_inv true s (pre ++ b :: post) -> k_objs b = [] ->
  (forall s', heap_inv true s' (pre ++ post) -> users_keep (pre ++ post) s s' -> Q tt s') ->
  wp (let! next := get (maj_next (k_maj b)) in
      let! prev := get (maj_prev (k_maj b)) in
      let! root := gets l_memRoot in
      (if root =? k_maj b then modify (set_memRoot next) else ret tt) >>>
      let! bet := gets l_bestBet in
      (if bet =? k_maj b then modify (set_bestBet 0) else ret tt) >>>
      (if negb (prev =? 0) then put (maj_next prev) next else ret tt) >>>
      (if negb (next =? 0) then put (maj_prev next) prev else ret tt) >>>
      let! total := get (maj_size (k_maj b)) in
      let! pages := get (maj_pages (k_maj b)) in
      modify (fun s => set_allocated (l_allocated s - total) s) >>>
      zoom os_lens (page_free (k_maj b) pages)) Q E s.
Proof.
  intros Hinv Ho HQ. destruct (mid_facts s pre post b Hinv) as ((B1 & B2 & B3 & B4 & _) & Hr & Hok & M1 & M2 & M3 & M4).
  pose proof (fun x => mid_apart true s pre b post x Hinv) as Hap.
  assert (forall x, x ∈ pre \/ x ∈ post -> run_held (l_os s) x /\ 4096 <= k_maj x /\ k_maj x + 24 <= k_end x /\ k_end x <= 2 ^ 32 /\ apart x b) as Hx.
  { intros x Hx. pose proof (hi_ok _ _ _ Hinv) as Hall. rewrite Forall_forall in Hall.
    assert (x ∈ pre ++ b :: post) as Hin by (rewrite elem_of_app, elem_of_cons; tauto).
    split; [by apply (hi_held _ _ _ Hinv)|]. destruct (Hall x Hin) as (A & B & C & D%layout_bounds).
    specialize (Hap x Hx). unfold k_end, k_maj in *. split; [lia|]. split; [lia|]. split; [lia|done]. }
  assert ((last pre = None /\ pre = [] /\ last_maj pre 0 = 0) \/ exists x, last pre = Some x /\ x ∈ pre /\ last_maj pre 0 = k_maj x) as Hprev.
  { unfold last_maj. destruct (last pre) as [x|] eqn:Hlx; [right|left; split; [done|split; [by apply last_None|done]]].
    exists x. split; [done|]. split; [by apply last_Some_elem_of|done]. }
  assert ((head post = None /\ post = [] /\ first_maj post 0 = 0) \/ exists y, head post = Some y /\ y ∈ post /\ first_maj post 0 = k_maj y) as Hnext.
  { destruct post as [|y post']; [by left|right]. exists y. split; [done|]. split; [by left|done]. }
  assert (forall x y, x ∈ pre -> y ∈ post -> apart x y) as Hpp.
  { intros x y Hxp Hyp. pose proof (hi_nodup _ _ _ Hinv) as Hnd. rewrite fmap_app, fmap_cons in Hnd. apply NoDup_app in Hnd as (_ & Hnd & _).
    destruct (hi_apart _ _ _ Hinv x y) as [->|]; [rewrite elem_of_app; by left|rewrite elem_of_app, elem_of_cons; tauto| |done].
    exfalso. apply (Hnd (k_base y)); [by apply list_elem_of_fmap_2|]. right. by apply list_elem_of_fmap_2. }
  wp_steps; apply (wp_get _ b); [done|fields; lia|fields; lia|]. rewrite B2.
  wp_steps; apply (wp_get _ b); [done|fields; lia|fields; lia|]. rewrite B1. wp_steps.
  set (s1 := if l_memRoot s =? k_maj b then set_memRoot (first_maj post 0) s else s).
  apply (wp_mono _ (fun _ s' => s' = s1) _ never); [|intros [] ? ->|by intros e []].
  { unfold s1. by destruct (_ =? _); wp_steps. }
  wp_steps. set (s2 := if l_bestBet s1 =? k_maj b then set_bestBet 0 s1 else s1).
  apply (wp_mono _ (fun _ s' => s' = s2) _ never); [|intros [] ? ->|by intros e []].
  { unfold s2. by destruct (l_bestBet s1 =? k_maj b); wp_steps. }
  assert (l_os s2 = l_os s /\ l_mem s2 = l_mem s /\ l_locked s2 = true /\ l_allocated s2 = l_allocated s /\
    l_memRoot s2 = (if l_memRoot s =? k_maj b then first_maj post 0 else l_memRoot s) /\
    l_bestBet s2 = (if l_bestBet s =? k_maj b then 0 else l_bestBet s)) as (S1 & S2 & S3 & S4 & S5 & S6).
  { pose proof (hi_lock _ _ _ Hinv). unfold s2, s1. by repeat destruct (_ =? _). }
  clearbody s2. clear s1.
  assert (forall (m' : Z -> Z) s3, l_mem s3 = m' -> l_os s3 = l_os s2 -> l_locked s3 = true -> l_memRoot s3 = l_memRoot s2 -> l_bestBet s3 = l_bestBet s2 ->
    l_allocated s3 = l_allocated s2 ->
    load32 m' (maj_size (k_maj b)) = k_pages b * 4096 -> load32 m' (maj_pages (k_maj b)) = k_pages b ->
    (forall a, (forall x, last pre = Some x -> ~ k_maj x + 4 <= a < k_maj x + 8) ->
      (forall y, head post = Some y -> ~ k_maj y <= a < k_maj y + 4) -> m' a = l_mem s a) ->
    (forall x, last pre = Some x -> load32 m' (maj_next (k_maj x)) = first_maj post 0) ->
    (forall y, head post = Some y -> load32 m' (maj_prev (k_maj y)) = last_maj pre 0) ->
    wp (let! total := get (maj_size (k_maj b)) in
      let! pages := get (maj_pages (k_maj b)) in
      modify (fun s => set_allocated (l_allocated s - total) s) >>>
      zoom os_lens (page_free (k_maj b) pages)) Q E s3) as Hend.
  { intros m' s3 T1 T2 T3 T4 T5 T6 T7 T8 T9 T10 T11.
    assert (run_held (l_os s3) b) as Hr3 by (by rewrite T2, S1).
    wp_steps; apply (wp_get _ b); [done|fields; lia|fields; lia|]. rewrite T1, T7.
    wp_steps; apply (wp_get _ b); [done|fields; lia|fields; lia|]. rewrite T1, T8. wp_steps. apply wp_zoom. cbn [lget os_lens l_os set_allocated].
    destruct Hok as (K1 & K2 & _). eapply wp_mono; [apply (page_free_spec (l_os s3) (k_base b) (k_pages b)); [|done|lia|done]| |by intros e []].
    { rewrite T2, S1. by apply (hi_os _ _ _ Hinv). }
    intros [] p' [Hp' Hheld]. cbn [lset os_lens].
    destruct (heap_drop true s (LState p' (l_mem s3) (l_memRoot s3) (l_bestBet s3) (l_allocated s3 - k_pages b * 4096) (l_inuse s3) (l_locked s3)) pre b post)
      as [Hi Hu]; cbn [l_os l_mem l_locked l_memRoot l_bestBet l_allocated]; try done; try congruence; [..|by apply HQ].
    all: by rewrite T1. }
  wp_steps. destruct Hprev as [(Hl1 & _ & Hlz)|(x & Hlx & Hxin & Hlxm)].
  - rewrite Hlz. change (negb (0 =? 0)) with false. cbv iota. wp_steps. destruct Hnext as [(Hl2 & _ & ->)|(y & Hly & Hyin & Hlym)].
    + change (negb (0 =? 0)) with false. cbv iota. to_get.
      apply (Hend (l_mem s2)); try done; rewrite ?S2; try done; congruence.
    + destruct (Hx y) as (Hry & Y1 & Y2 & Y3 & Y4); [by right|]. rewrite Hlym, (proj2 (Z.eqb_neq (k_maj y) 0)) by lia. cbn [negb].
      wp_steps; apply (wp_put _ y); [by rewrite S1|fields; lia|fields; lia|]. unfold apart in Y4. rewrite <- Hlym. to_get.
      eapply Hend; try reflexivity; try done; cbn [l_mem set_l_mem]; rewrite S2; fields.
      * by mem_steps.
      * by mem_steps.
      * intros a _ Hn. specialize (Hn y Hly). apply store32_ne. lia.
      * congruence.
      * intros z [= <-]%(eq_trans (eq_sym Hly)). rewrite Hlz, Hlym. by mem_steps.
  - destruct (Hx x) as (Hrx & X1 & X2 & X3 & X4); [by left|]. rewrite Hlxm, (proj2 (Z.eqb_neq (k_maj x) 0)) by lia. cbn [negb].
    unfold apart in X4. assert (is_u32 (first_maj post 0)) as Hu.
    { unfold is_u32. destruct Hnext as [(_ & _ & ->)|(y & Hly & Hyin & ->)]; [lia|]. destruct (Hx y) as (_ & ? & ? & ? & _); [by right|lia]. }
    wp_steps; apply (wp_put _ x); [by rewrite S1|fields; lia|fields; lia|]. wp_steps.
    destruct Hnext as [(Hl2 & _ & Hz)|(y & Hly & Hyin & Hlym)].
    + rewrite Hz. change (negb (0 =? 0)) with false. cbv iota. rewrite <- Hz. to_get.
      eapply Hend; try reflexivity; try done; cbn [l_mem set_l_mem]; rewrite S2; fields.
      * by mem_steps.
      * by mem_steps.
      * intros a Hn _. specialize (Hn x Hlx). apply store32_ne. lia.
      * intros z [= <-]%(eq_trans (eq_sym Hlx)). by mem_steps.
      * congruence.
    + destruct (Hx y) as (Hry & Y1 & Y2 & Y3 & Y4); [by right|]. rewrite Hlym in *. rewrite (proj2 (Z.eqb_neq (k_maj y) 0)) by lia. cbn [negb].
      pose proof (Hpp x y Hxin Hyin) as Hxy. unfold apart in Y4, Hxy.
      wp_steps; apply (wp_put _ y); [cbn [l_os set_l_mem]; by rewrite S1|fields; lia|fields; lia|]. to_get.
      eapply Hend; try reflexivity; try done; cbn [l_mem set_l_mem]; rewrite S2; fields.
      * by mem_steps.
      * by mem_steps.
      * intros a Hn1 Hn2. specialize (Hn1 x Hlx). specialize (Hn2 y Hly). rewrite !store32_ne by lia. done.
      * intros z [= <-]%(eq_trans (eq_sym Hlx)). by mem_steps.
      * intros z [= <-]%(eq_trans (eq_sym Hly)). by mem_steps.
Qed.

Lemma wp_kfree s pre b post l1 o l2 :
  heap_inv false s (pre ++ b :: post) -> k_objs b = l1 ++ o :: l2 ->
  wp (kfree (o_ptr o)) (fun _ s' => heap_inv false s' (without pre b post l1 l2) /\ users_keep (without pre b post l1 l2) s s') never s.
Proof.
  intros Hinv Ho. set (s1 := set_locked true s). assert (heap_inv true s1 (pre ++ b :: post)) as Hinv1 by (by eapply heap_inv_lock).
  destruct (free_facts s1 pre post b l1 l2 o Hinv1 Ho) as ((A1 & A2 & A3 & A4 & A5 & A6 & A7) & Hr & F1 & F2 & F3 & F4 & F5 & _ & _).
  pose proof (o_ptr_range o) as Hp. unfold kfree. wp_cond. rewrite (proj2 (Z.eqb_neq (o_ptr o) 0)) by lia. cbn [negb]. wp_steps.
  apply (wp_UNALIGN s b o); [exact Hr|lia|lia|lia|lia|exact A7|]. unfold liballoc_lock. wp_steps. rewrite (hi_lock _ _ _ Hinv). wp_steps.
  fold s1. assert (u32 (o_min o + 24 - MINOR_SIZE) = o_min o) as -> by (unfold MINOR_SIZE; rewrite u32_small by (unfold is_u32; lia); lia).
  unfold liballoc_verify_magic. wp_steps; apply (wp_get _ b); [done|fields; lia|fields; lia|]. rewrite A4. rewrite Z.eqb_refl. cbn [negb].
  wp_steps. cbn [negb]. wp_steps; apply (wp_get _ b); [done|fields; lia|fields; lia|]. rewrite A3.
  wp_steps; apply (wp_get _ b); [done|fields; lia|fields; lia|]. rewrite A5.
  apply (wp_unlink s1 pre post b l1 l2 o Hinv1 Ho). intros s2 [Hinv2 Hu2].
  assert (users_keep (pre ++ with_objs b (l1 ++ l2) :: post) s s2) as Hu by (intros a Ha; by apply Hu2).
  clear Hu2 Hinv1 A1 A2 A3 A4 A5 A6 A7 Hr. set (b' := with_objs b (l1 ++ l2)) in *.
  destruct (mid_facts s2 pre post b' Hinv2) as ((B1 & B2 & B3 & B4 & B5 & B6 & B7) & Hr' & (_ & _ & _ & Hl') & M1 & M2 & M3 & M4).
  change (k_maj b) with (k_maj b') in *. change (k_objs b') with (l1 ++ l2) in *.
  wp_steps; apply (wp_get _ b'); [done|fields; lia|fields; lia|]. rewrite B6. unfold liballoc_unlock, without.
  destruct (l1 ++ l2) as [|o0 os] eqn:Hos; cbn [first_min].
  - change (0 =? 0) with true. cbv iota. to_get. apply (wp_free_block s2 pre b' post); [done|done|].
    intros s3 Hi3 Hu3. wp_steps. split; [by eapply heap_inv_lock|]. apply (users_keep_trans _ s s2); [|exact Hu3].
    intros a (x & o' & Hx & Hrest). apply Hu. exists x, o'. split; [|done]. rewrite elem_of_app, elem_of_cons. apply elem_of_app in Hx. tauto.
  - assert (o_min o0 <> 0) as Hnz by (cbn in Hl'; lia). rewrite (proj2 (Z.eqb_neq (o_min o0) 0)) by done. wp_steps.
    assert (forall v, (v = l_bestBet s2 \/ v = k_maj b') -> forall s3, s3 = set_locked false (set_bestBet v s2) ->
      heap_inv false s3 (pre ++ b' :: post) /\ users_keep (pre ++ b' :: post) s s3) as Hend.
    { intros v Hv s3 ->. split; [|by apply Hu]. eapply heap_inv_lock. destruct Hv as [->| ->].
      - by destruct Hinv2, s2.
      - apply heap_inv_bet; [done|]. exists b'. split; [apply elem_of_app; right; by left|done]. }
    assert (set_bestBet (l_bestBet s2) s2 = s2) as Hsame by (by destruct s2).
    pose proof (Hend (l_bestBet s2) (or_introl eq_refl) _ eq_refl) as Hkeep. rewrite Hsame in Hkeep.
    destruct (Z.eqb_spec (l_bestBet s2) 0) as [Hz|Hz]; cbn [negb]; wp_steps; [done|].
    destruct (hi_bet _ _ _ Hinv2) as [|(y & Hy & Hye)]; [done|]. pose proof (hi_ok _ _ _ Hinv2) as Hall. rewrite Forall_forall in Hall.
    destruct (Hall y Hy) as (_ & Y2 & _ & Y4%layout_bounds). pose proof (hi_held _ _ _ Hinv2 y Hy) as Hry. rewrite <- Hye.
    wp_steps; apply (wp_get _ y); [done|fields; lia|fields; lia|]. wp_steps; apply (wp_get _ y); [done|fields; lia|fields; lia|].
    wp_steps; apply (wp_get _ b'); [done|fields; lia|fields; lia|]. wp_steps; apply (wp_get _ b'); [done|fields; lia|fields; lia|].
    destruct (_ <? _); wp_steps; [|done]. by apply (Hend (k_maj b')); [right|].
Qed.
End proofs.
