(* ===== verification/LiballocSpec.v ===== *)
(** * The kernel heap as a map from addresses to contents

    The operations refine an abstract heap, and the heap serves the other
    components through the interface of Interfaces. *)
From stdpp Require Import functions.
From S2P Require Import Prelude Interfaces Liballoc LiballocLayout LiballocInv.

Section proofs.
Context {P : Type} `{PageAllocLaws P}.
Implicit Types (s : lstate P) (pre post : list block) (b : block) (o : obj).

(** ** The heap as a map from addresses to contents *)

Definition has (l : list block) o : Prop := exists b, b ∈ l /\ o ∈ k_objs b.

Definition contents (m : Z -> Z) (p n : Z) : list Z := m <$> seqZ p n.

Definition heap_view (m : Z -> Z) (l : list block) (h : gmap Z (list Z)) : Prop :=
  forall p bs, h !! p = Some bs <-> exists o, has l o /\ o_ptr o = p /\ bs = contents m p (o_req o).

(** The state [s] represents the heap [h]. *)
Definition heap_rep s (h : gmap Z (list Z)) : Prop :=
  exists l, l <> [] /\ heap_inv false s l /\ heap_view (l_mem s) l h.

Lemma contents_ext m m' p n : (forall a, p <= a < p + n -> m' a = m a) -> contents m' p n = contents m p n.
Proof. intros Ha. unfold contents. apply list_fmap_ext. intros i a Hi. apply lookup_seqZ in Hi. apply Ha. lia. Qed.

Lemma length_contents m p n : 0 <= n -> zlen (contents m p n) = n.
Proof. intros Hn. unfold contents, zlen. rewrite length_fmap, length_seqZ. lia. Qed.

Lemma has_bounds lk s (l : list block) o : heap_inv lk s l -> has l o ->
  4096 <= o_min o /\ 0 <= o_req o /\ o_req o + 32 <= o_size o /\ o_end o <= 2 ^ 32.
Proof.
  intros Hi (b & Hb & Ho). pose proof (hi_ok _ _ _ Hi) as Hall. rewrite Forall_forall in Hall.
  destruct (Hall b Hb) as (A & B & C & D). destruct (layout_in _ _ _ _ D Ho) as (E & G & I & J).
  unfold k_end, k_maj in *. lia.
Qed.

Lemma has_disjoint lk s (l : list block) o o' :
  heap_inv lk s l -> has l o -> has l o' -> o = o' \/ o_end o <= o_min o' \/ o_end o' <= o_min o.
Proof.
  intros Hi (b & Hb & Ho) (b' & Hb' & Ho'). pose proof (hi_ok _ _ _ Hi) as Hall. rewrite Forall_forall in Hall.
  destruct (Hall b Hb) as (_ & _ & _ & D), (Hall b' Hb') as (_ & _ & _ & D').
  destruct (hi_apart _ _ _ Hi b b' Hb Hb') as [->|Hap]; [by apply (layout_disjoint _ _ _ _ _ D)|].
  destruct (layout_in _ _ _ _ D Ho) as (E & _ & _ & J), (layout_in _ _ _ _ D' Ho') as (E' & _ & _ & J').
  right. destruct Hap; [left|right]; lia.
Qed.

Lemma has_ptr lk s (l : list block) o o' : heap_inv lk s l -> has l o -> has l o' -> o_ptr o = o_ptr o' -> o = o'.
Proof.
  intros Hi Ho Ho' Hp. pose proof (has_bounds lk s l o Hi Ho). pose proof (has_bounds lk s l o' Hi Ho').
  pose proof (o_ptr_range o). pose proof (o_ptr_range o'). unfold o_end in *.
  destruct (has_disjoint lk s l o o' Hi Ho Ho') as [|[?|?]]; [done|unfold o_end in *; lia|unfold o_end in *; lia].
Qed.

Lemma has_new (l new : list block) o : Forall (fun b => k_objs b = []) new -> has (l ++ new) o <-> has l o.
Proof.
  intros Hn. rewrite Forall_forall in Hn. split.
  - intros (b & [Hb|Hb]%elem_of_app & Ho); [by exists b|]. rewrite (Hn b Hb) in Ho. by apply not_elem_of_nil in Ho.
  - intros (b & Hb & Ho). exists b. split; [apply elem_of_app; by left|done].
Qed.

Lemma has_replace pre b post (os : list obj) o :
  has (pre ++ with_objs b os :: post) o <-> has (pre ++ post) o \/ o ∈ os.
Proof.
  split.
  - intros (x & Hx & Ho). rewrite elem_of_app, elem_of_cons in Hx. destruct Hx as [Hx|[->|Hx]]; [left|by right|left];
      exists x; (split; [rewrite elem_of_app; tauto|done]).
  - intros [(x & Hx & Ho)|Ho].
    + exists x. split; [|done]. rewrite elem_of_app, elem_of_cons. apply elem_of_app in Hx. tauto.
    + exists (with_objs b os). split; [|done]. rewrite elem_of_app, elem_of_cons. tauto.
Qed.

Lemma has_mid pre b post o : has (pre ++ b :: post) o <-> has (pre ++ post) o \/ o ∈ k_objs b.
Proof. destruct b as [ba pg os]. exact (has_replace pre (Block ba pg os) post os o). Qed.

Lemma has_without pre b post (l1 l2 : list obj) o : has (without pre b post l1 l2) o <-> has (pre ++ post) o \/ o ∈ l1 ++ l2.
Proof.
  unfold without. destruct (l1 ++ l2) as [|x os] eqn:He; [|apply has_replace].
  split; [by left|]. intros [|Ho]; [done|]. by apply not_elem_of_nil in Ho.
Qed.

Lemma took_has (l : list block) req p l' :
  took l req p l' -> exists o, o_ptr o = p /\ o_req o = req /\ forall x, has l' x <-> x = o \/ has l x.
Proof.
  intros (pre & b & post & l1 & o & l2 & -> & Ho & _ & Hr & Hp & ->). exists o. split; [done|]. split; [done|].
  intros x. rewrite has_replace, has_mid, Ho, !elem_of_app, elem_of_cons. tauto.
Qed.

(** The new object is none of the old ones. *)
Lemma took_fresh lk s (l : list block) req p l' :
  heap_inv lk s l' -> took l req p l' -> forall x, has l x -> o_ptr x <> p.
Proof.
  intros Hi (pre & b & post & l1 & o & l2 & -> & Ho & Hf & Hr & Hp & ->) x Hx Hpx.
  assert (has (pre ++ with_objs b (l1 ++ o :: l2) :: post) o) as Hho by (rewrite has_replace, elem_of_app, elem_of_cons; tauto).
  assert (has (pre ++ with_objs b (l1 ++ o :: l2) :: post) x) as Hhx.
  { rewrite has_mid, Ho in Hx. rewrite has_replace. rewrite !elem_of_app, elem_of_cons in *. tauto. }
  assert (x = o) as -> by (eapply has_ptr; [exact Hi|done|done|congruence]).
  rewrite has_mid in Hx. destruct Hx as [(y & Hy & Hoy)|Hx].
  - pose proof (mid_apart lk s pre (with_objs b (l1 ++ o :: l2)) post y Hi) as Hap. apply elem_of_app in Hy. specialize (Hap Hy).
    pose proof (hi_ok _ _ _ Hi) as Hall. rewrite Forall_forall in Hall.
    assert (o ∈ k_objs (with_objs b (l1 ++ o :: l2))) as Hob by (cbn; rewrite elem_of_app, elem_of_cons; tauto).
    destruct (Hall y) as (_ & _ & _ & D); [rewrite elem_of_app, elem_of_cons; tauto|].
    destruct (Hall (with_objs b (l1 ++ o :: l2))) as (_ & _ & _ & D'); [rewrite elem_of_app, elem_of_cons; tauto|].
    destruct (layout_in _ _ _ _ D Hoy) as (E & _ & _ & J), (layout_in _ _ _ _ D' Hob) as (E' & ? & ? & J'). unfold o_end in *. destruct Hap; lia.
  - pose proof (hi_ok _ _ _ Hi) as Hall. rewrite Forall_forall in Hall.
    destruct (Hall (with_objs b (l1 ++ o :: l2))) as (_ & _ & _ & D); [rewrite elem_of_app, elem_of_cons; tauto|]. cbn [k_objs with_objs] in D.
    apply layout_app in D as (mid & L1 & (Lm & ? & ? & L2) & _). rewrite Ho in Hx. apply elem_of_app in Hx as [Hx|Hx].
    + destruct (layout_in _ _ _ _ L1 Hx) as (_ & _ & _ & J). unfold o_end in *. lia.
    + destruct (layout_in _ _ _ _ L2 Hx) as (J & _). unfold o_end in *. lia.
Qed.

(** [p] is aligned and its [n] bytes meet no object. *)
Definition fresh_range (h : gmap Z (list Z)) (p n : Z) : Prop :=
  p mod 16 = 0 /\ 0 < p /\ p + n <= 2 ^ 32 /\ h !! p = None /\
  forall q bs, h !! q = Some bs -> p + n <= q \/ q + zlen bs <= p.

Lemma user_ptr_aligned min : user_ptr min mod 16 = 0.
Proof. unfold user_ptr. by rewrite Z.mod_mul. Qed.

Lemma view_malloc s (l : list block) h req p s' :
  heap_inv false s l -> heap_view (l_mem s) l h -> kmalloc_done l req s p s' ->
  0 <= req /\ fresh_range h p req /\ heap_rep s' (<[p := contents (l_mem s') p req]> h).
Proof.
  intros Hi Hv (new & l' & Hnew & Ht & Hi' & Hu). pose proof (took_fresh false s' _ _ _ _ Hi' Ht) as Hfresh.
  assert (l' <> []) as Hl'.
  { destruct Ht as (pre & b & post & l1 & o & l2 & _ & _ & _ & _ & _ & ->). by destruct pre. }
  destruct (took_has _ _ _ _ Ht) as (o & Hp & Hr & Hiff).
  assert (has l' o) as Ho by (apply Hiff; by left).
  assert (forall x, has l x -> has l' x) as Hsub by (intros x Hx; apply Hiff; right; by apply has_new).
  pose proof (has_bounds _ _ _ _ Hi' Ho) as (O1 & O2 & O3 & O4). pose proof (o_ptr_range o) as Hpr. unfold o_end in *.
  assert (h !! p = None) as Hnone.
  { destruct (h !! p) as [bs|] eqn:Hh; [|done]. apply Hv in Hh as (x & Hx & Hxp & _).
    exfalso. apply (Hfresh x); [by apply has_new|done]. }
  split; [lia|]. split.
  - split; [rewrite <- Hp; apply user_ptr_aligned|]. split; [lia|]. split; [lia|]. split; [done|].
    intros q bs Hq%Hv. destruct Hq as (x & Hx & <- & ->). pose proof (has_bounds _ _ _ _ Hi' (Hsub x Hx)) as (X1 & X2 & X3 & X4).
    rewrite length_contents by lia. pose proof (o_ptr_range x) as Hxr. unfold o_end in *.
    destruct (has_disjoint _ _ _ x o Hi' (Hsub x Hx) Ho) as [->|Hd]; [by destruct (Hfresh o); [apply has_new|]|].
    unfold o_end in Hd. lia.
  - exists l'. split; [done|]. split; [done|]. intros q bs. rewrite lookup_insert_Some. split.
    + intros [[<- <-]|[Hne Hq%Hv]].
      * exists o. by rewrite Hr.
      * destruct Hq as (x & Hx & <- & ->). exists x. split; [by apply Hsub|]. split; [done|]. apply contents_ext. intros a Ha.
        symmetry. apply Hu. destruct Hx as (b & Hb & Hx). exists b, x. split; [done|]. split; [done|].
        pose proof (has_bounds _ _ _ _ Hi (ex_intro _ b (conj Hb Hx))). pose proof (o_ptr_range x). unfold o_end. lia.
    + intros (x & [-> | Hx]%Hiff & <- & ->).
      * left. by rewrite <- Hr, <- Hp.
      * right. rewrite has_new in Hx by done. split; [intros Heq; apply (Hfresh x); [by apply has_new|done]|]. apply Hv. exists x.
        split; [done|]. split; [done|]. apply contents_ext. intros a Ha. apply Hu. destruct Hx as (b & Hb & Hx). exists b, x.
        split; [done|]. split; [done|]. pose proof (has_bounds _ _ _ _ Hi (ex_intro _ b (conj Hb Hx))). pose proof (o_ptr_range x). unfold o_end. lia.
Qed.

Lemma without_has lk s pre b post (l1 l2 : list obj) o :
  heap_inv lk s (pre ++ b :: post) -> k_objs b = l1 ++ o :: l2 ->
  ~ has (without pre b post l1 l2) o /\ forall x, has (pre ++ b :: post) x <-> x = o \/ has (without pre b post l1 l2) x.
Proof.
  intros Hi Ho. split.
  - rewrite has_without. pose proof (hi_ok _ _ _ Hi) as Hall. rewrite Forall_forall in Hall.
    assert (b ∈ pre ++ b :: post) as Hb by (rewrite elem_of_app, elem_of_cons; tauto).
    assert (o ∈ k_objs b) as Hob by (rewrite Ho, elem_of_app, elem_of_cons; tauto).
    destruct (Hall b Hb) as (_ & _ & _ & D). destruct (layout_in _ _ _ _ D Hob) as (E & ? & ? & J). intros [(y & Hy & Hoy)|Hx].
    + pose proof (mid_apart lk s pre b post y Hi) as Hap. apply elem_of_app in Hy. specialize (Hap Hy).
      destruct (Hall y) as (_ & _ & _ & D'); [rewrite elem_of_app, elem_of_cons; tauto|].
      destruct (layout_in _ _ _ _ D' Hoy) as (E' & _ & _ & J'). unfold o_end in *. destruct Hap; lia.
    + rewrite Ho in D. apply layout_app in D as (mid & L1 & (Lm & _ & _ & L2) & _). apply elem_of_app in Hx as [Hx|Hx].
      * destruct (layout_in _ _ _ _ L1 Hx) as (_ & _ & _ & J'). unfold o_end in *. lia.
      * destruct (layout_in _ _ _ _ L2 Hx) as (J' & _). unfold o_end in *. lia.
  - intros x. rewrite has_mid, has_without, Ho, !elem_of_app, elem_of_cons. tauto.
Qed.

Lemma user_byte_has (l : list block) o a : has l o -> o_ptr o <= a < o_end o -> user_byte l a.
Proof. intros (b & Hb & Ho) Ha. by exists b, o. Qed.

(** The request lies in the object. *)
Lemma request_byte lk s (l : list block) o a : heap_inv lk s l -> has l o -> o_ptr o <= a < o_ptr o + o_req o -> user_byte l a.
Proof.
  intros Hi Ho Ha. apply (user_byte_has l o); [done|]. pose proof (has_bounds _ _ _ _ Hi Ho). pose proof (o_ptr_range o). unfold o_end. lia.
Qed.

Lemma view_free s s' pre b post l1 o l2 h :
  heap_inv false s (pre ++ b :: post) -> k_objs b = l1 ++ o :: l2 -> heap_view (l_mem s) (pre ++ b :: post) h ->
  heap_inv false s' (without pre b post l1 l2) -> users_keep (without pre b post l1 l2) s s' ->
  heap_view (l_mem s') (without pre b post l1 l2) (delete (o_ptr o) h).
Proof.
  intros Hi Ho Hv Hi' Hu q bs. destruct (without_has false s pre b post l1 l2 o Hi Ho) as [Hno Hiff].
  assert (has (pre ++ b :: post) o) as Hho by (apply Hiff; by left).
  rewrite lookup_delete_Some. split.
  - intros [Hne Hq%Hv]. destruct Hq as (x & [-> | Hx]%Hiff & <- & ->); [done|]. exists x. split; [done|]. split; [done|].
    apply contents_ext. intros a Ha. symmetry. apply Hu. by apply (request_byte false s' _ x).
  - intros (x & Hx & <- & ->). assert (has (pre ++ b :: post) x) as Hx' by (apply Hiff; by right). split.
    + intros Hp. assert (o = x) as Heq by exact (has_ptr false s (pre ++ b :: post) o x Hi Hho Hx' Hp). subst x. done.
    + apply Hv. exists x. split; [done|]. split; [done|]. apply contents_ext. intros a Ha. apply Hu. by apply (request_byte false s' _ x).
Qed.

Lemma view_object m (l : list block) h p bs : heap_view m l h -> h !! p = Some bs ->
  exists pre b post l1 o l2, l = pre ++ b :: post /\ k_objs b = l1 ++ o :: l2 /\ o_ptr o = p /\ bs = contents m p (o_req o).
Proof.
  intros Hv (o & (b & Hb & Ho) & Hp & Hbs)%Hv. apply list_elem_of_split in Hb as (pre & post & ->).
  apply list_elem_of_split in Ho as (l1 & l2 & Ho). by exists pre, b, post, l1, o, l2.
Qed.

(** ** The specifications of the operations *)

Lemma kmalloc_rep s h req :
  heap_rep s h -> 0 <= req < 2 ^ 31 ->
  wp (kmalloc req) (fun p s' => exists bs, fresh_range h p req /\ zlen bs = req /\ heap_rep s' (<[p := bs]> h)) only_nomem s.
Proof.
  intros (l & Hne & Hi & Hv) Hreq. eapply wp_mono; [by apply wp_kmalloc| |done]. intros p s' Hd.
  destruct (view_malloc s l h req p s' Hi Hv Hd) as (_ & Hf & Hr). exists (contents (l_mem s') p req).
  split; [done|]. split; [apply length_contents; lia|done].
Qed.

Lemma kfree_rep s h p bs q :
  heap_rep s h -> h !! p = Some bs -> p <> q -> is_Some (h !! q) -> wp (kfree p) (fun _ s' => heap_rep s' (delete p h)) never s.
Proof.
  intros (l & Hne & Hi & Hv) Hp Hpq [bq Hq]. destruct (view_object _ _ _ _ _ Hv Hp) as (pre & b & post & l1 & o & l2 & -> & Ho & <- & _).
  eapply wp_mono; [by apply (wp_kfree s pre b post l1 o l2)| |done]. intros [] s' [Hi' Hu].
  pose proof (view_free s s' pre b post l1 o l2 h Hi Ho Hv Hi' Hu) as Hv'. exists (without pre b post l1 l2). split; [|done].
  intros He. assert (delete (o_ptr o) h !! q = Some bq) as Hq' by (by rewrite lookup_delete_ne).
  apply Hv' in Hq' as (x & (y & Hy & _) & _). rewrite He in Hy. by apply not_elem_of_nil in Hy.
Qed.

(** Two objects do not overlap. *)
Lemma rep_disjoint s h p q bs bs' :
  heap_rep s h -> h !! p = Some bs -> h !! q = Some bs' -> p <> q -> p + zlen bs <= q \/ q + zlen bs' <= p.
Proof.
  intros (l & _ & Hi & Hv) (o & Ho & <- & ->)%Hv (o' & Ho' & <- & ->)%Hv Hne.
  pose proof (has_bounds _ _ _ _ Hi Ho). pose proof (has_bounds _ _ _ _ Hi Ho'). pose proof (o_ptr_range o). pose proof (o_ptr_range o').
  rewrite !length_contents by lia. unfold o_end in *. destruct (has_disjoint _ _ _ o o' Hi Ho Ho') as [->|Hd]; [done|]. unfold o_end in Hd. lia.
Qed.

(** The headers decide what a memory represents. *)
Definition same_headers (m m' : Z -> Z) (l : list block) : Prop :=
  forall b, b ∈ l -> agree m m' (k_maj b) (k_maj b + 24) /\
    forall x, x ∈ k_objs b -> agree m m' (o_min x) (o_min x + 24) /\ m' (o_ptr x - 16) = m (o_ptr x - 16).

Lemma objs_at_headers m m' maj (os : list obj) p n :
  (forall x, x ∈ os -> agree m m' (o_min x) (o_min x + 24) /\ m' (o_ptr x - 16) = m (o_ptr x - 16)) ->
  objs_at m maj p os n -> objs_at m' maj p os n.
Proof.
  revert p. induction os as [|o os IH]; intros p Hh; cbn; [done|]. intros [(A & B & C & D & E & G & I) Hr].
  destruct (Hh o ltac:(by left)) as [Ha Hb]. split; [|apply IH; [|done]; intros x Hx; apply Hh; by right].
  unfold minor_at. fields. rewrite Hb. split_and!; try (rewrite (load32_agree m m') by (intros z Hz; apply Ha; lia); done). done.
Qed.

Lemma blocks_at_headers m m' (l : list block) p n : same_headers m m' l -> blocks_at m p l n -> blocks_at m' p l n.
Proof.
  revert p. induction l as [|b l IH]; intros p Hh; cbn; [done|]. intros [(A & B & C & D & E & G & I) Hr].
  destruct (Hh b ltac:(by left)) as [Ha Hb]. split; [|apply IH; [|done]; intros x Hx; apply Hh; by right].
  unfold block_at. fields. split_and!; try (rewrite (load32_agree m m') by (intros z Hz; apply Ha; lia); done).
  by apply (objs_at_headers m).
Qed.

(** Objects do not meet headers. *)
Lemma request_headers s (l : list block) o m' :
  heap_inv false s l -> has l o -> (forall a, ~ o_ptr o <= a < o_ptr o + o_req o -> m' a = l_mem s a) -> same_headers (l_mem s) m' l.
Proof.
  intros Hi Ho Hm b Hb. pose proof (hi_ok _ _ _ Hi) as Hall. rewrite Forall_forall in Hall. destruct (Hall b Hb) as (_ & _ & _ & D).
  pose proof (has_bounds _ _ _ _ Hi Ho) as (O1 & O2 & O3 & O4). pose proof (o_ptr_range o) as Hpr. pose proof (layout_bounds _ _ _ D). split.
  - intros a Ha. apply Hm. destruct Ho as (b' & Hb' & Ho). destruct (Hall b' Hb') as (_ & _ & _ & D').
    destruct (layout_in _ _ _ _ D' Ho) as (E & _ & _ & J). unfold o_end in *.
    destruct (hi_apart _ _ _ Hi b b' Hb Hb') as [->|[Hap|Hap]]; lia.
  - intros x Hx. assert (has l x) as Hhx by (by exists b). pose proof (has_bounds _ _ _ _ Hi Hhx) as (X1 & X2 & X3 & X4).
    pose proof (o_ptr_range x) as Hxr. unfold o_end in *.
    destruct (has_disjoint _ _ _ x o Hi Hhx Ho) as [->|Hd]; (split; [intros a Ha|]); apply Hm; unfold o_end in *; lia.
Qed.

(** The memory of an object changes. *)
Lemma heap_rep_write s h p bs (m' : Z -> Z) :
  heap_rep s h -> h !! p = Some bs -> (forall a, ~ p <= a < p + zlen bs -> m' a = l_mem s a) ->
  heap_rep (set_l_mem m' s) (<[p := contents m' p (zlen bs)]> h).
Proof.
  intros (l & Hne & Hi & Hv) Hp Hm. pose proof Hp as (o & Ho & <- & Hbs)%Hv.
  pose proof (has_bounds _ _ _ _ Hi Ho) as (O1 & O2 & O3 & O4). pose proof (o_ptr_range o) as Hpr.
  assert (zlen bs = o_req o) as Hlen by (rewrite Hbs; by apply length_contents). rewrite Hlen in *.
  exists l. split; [done|]. split.
  - destruct Hi as [I1 I2 I3 I4 I5 I6 I7 I8 I9 I10]. split; try done. cbn [l_mem set_l_mem].
    eapply blocks_at_headers; [|exact I4]. by apply (request_headers s l o).
  - intros q bq. cbn [l_mem set_l_mem]. rewrite lookup_insert_Some. split.
    + intros [[<- <-]|[Hneq (x & Hx & <- & ->)%Hv]]; [by exists o|]. exists x. split; [done|]. split; [done|].
      apply contents_ext. intros a Ha. symmetry. apply Hm. pose proof (has_bounds _ _ _ _ Hi Hx). pose proof (o_ptr_range x).
      destruct (has_disjoint _ _ _ x o Hi Hx Ho) as [->|Hd]; [done|]. unfold o_end in *. lia.
    + intros (x & Hx & <- & ->). destruct (has_disjoint _ _ _ x o Hi Hx Ho) as [->|Hd]; [by left|right].
      pose proof (has_bounds _ _ _ _ Hi Hx). pose proof (o_ptr_range x). unfold o_end in *.
      split; [lia|]. apply Hv. exists x. split; [done|]. split; [done|]. apply contents_ext. intros a Ha. apply Hm. lia.
Qed.

Lemma rep_held s h p bs n : heap_rep s h -> h !! p = Some bs -> 1 <= n <= zlen bs -> held s p n = true /\ 0 < p.
Proof.
  intros (l & Hne & Hi & Hv) (o & (b & Hb & Ho) & <- & ->)%Hv Hn. pose proof (hi_ok _ _ _ Hi) as Hall. rewrite Forall_forall in Hall.
  destruct (Hall b Hb) as (K1 & _ & _ & D). destruct (layout_in _ _ _ _ D Ho) as (E & G & I & J). rewrite length_contents in Hn by lia.
  pose proof (o_ptr_range o). unfold o_end in *. split; [|unfold k_maj in *; lia].
  apply (run_held_at s b); [by apply (hi_held _ _ _ Hi)|lia|lia|lia].
Qed.

(** *** A request made smaller in place *)

Definition resized o n : obj := Obj (o_min o) (o_size o) n.

Lemma objs_at_resized m maj (l1 l2 : list obj) o n :
  layout (maj + 24) (l1 ++ o :: l2) (maj + 2 ^ 32) -> is_u32 n -> objs_at m maj 0 (l1 ++ o :: l2) 0 ->
  objs_at (store32 m (min_req_size (o_min o)) n) maj 0 (l1 ++ resized o n :: l2) 0.
Proof.
  intros Hl Hn Ho. apply layout_app in Hl as (mid & L1 & (A & B & C & L2) & _).
  apply objs_at_app in Ho as (O1 & (M1 & M2 & M3 & M4 & M5 & M6 & M7) & O2). pose proof (o_ptr_range o) as Hp. unfold o_end in *.
  apply objs_at_app. cbn [first_min objs_at]. split; [|split].
  - eapply objs_at_agree; [exact L1| |exact O1]. intros a Ha. apply store32_ne. fields. lia.
  - unfold minor_at. change (o_ptr (resized o n)) with (o_ptr o). cbn [o_min o_size o_req resized]. fields. mem_steps. done.
  - eapply objs_at_agree; [exact L2| |exact O2]. intros a Ha. apply store32_ne. fields. lia.
Qed.

Lemma heap_inv_resized s pre b post (l1 l2 : list obj) o n :
  heap_inv false s (pre ++ b :: post) -> k_objs b = l1 ++ o :: l2 -> 0 <= n <= o_req o ->
  heap_inv false (set_l_mem (store32 (l_mem s) (min_req_size (o_min o)) n) s) (pre ++ with_objs b (l1 ++ resized o n :: l2) :: post).
Proof.
  intros Hi Ho Hn. destruct (mid_facts (set_locked true s) pre post b (heap_inv_lock _ true _ _ Hi)) as ((B1 & B2 & B3 & B4 & B5 & B6 & B7) & _ & (K1 & K2 & K3 & D) & M1 & M2 & M3 & M4).
  rewrite Ho in D, B5, B6, B7. pose proof D as Dall. apply layout_app in D as (mid & L1 & (A & B & C & L2) & Hmid).
  pose proof (layout_bounds _ _ _ L1). pose proof (layout_bounds _ _ _ L2) as Hb2. unfold o_end in *.
  apply (heap_replace false false s); try done.
  - split; [done|]. split; [done|]. split; [done|]. cbn [k_objs with_objs]. apply layout_app. exists mid. split; [done|]. split; [|done].
    cbn [layout o_min o_size o_req resized]. unfold o_end. cbn [o_min o_size resized]. by split_and!; try lia.
  - by apply (hi_lock _ _ _ Hi).
  - cbn [l_mem set_l_mem]. intros a Ha. apply store32_ne. fields. lia.
  - cbn [l_mem set_l_mem]. unfold block_at. change (k_maj (with_objs b _)) with (k_maj b). cbn [k_pages with_objs k_objs].
    assert (usage (l1 ++ resized o n :: l2) = usage (l1 ++ o :: l2)) as -> by (by rewrite !usage_app, !usage_cons).
    assert (first_min (l1 ++ resized o n :: l2) 0 = first_min (l1 ++ o :: l2) 0) as -> by (by destruct l1).
    split_and!; [fields; by mem_steps..|]. apply objs_at_resized; [|unfold is_u32; lia|done].
    apply layout_app in Dall as (mid' & D1 & (? & ? & ? & D2) & ->). apply layout_app. eexists. split; [exact D1|]. split; [|done].
    cbn [layout]. split_and!; try done. clear -D2 M3 M1. revert D2. generalize (o_end o). induction l2 as [|y l2 IH]; intros lo; cbn [layout]; [lia|].
    intros (Y1 & Y2 & Y3 & Y4). split_and!; try done. by apply IH.
Qed.

Lemma take_contents m p n k : 0 <= k <= n -> take (Z.to_nat k) (contents m p n) = contents m p k.
Proof.
  intros Hk. unfold contents. rewrite <- fmap_take. f_equal. replace n with (k + (n - k)) by lia.
  rewrite seqZ_app by lia. rewrite take_app_le by (rewrite length_seqZ; lia). rewrite firstn_all2; [done|]. rewrite length_seqZ. lia.
Qed.

Lemma heap_rep_resized s pre b post (l1 l2 : list obj) o n h :
  heap_inv false s (pre ++ b :: post) -> k_objs b = l1 ++ o :: l2 -> 0 <= n <= o_req o -> heap_view (l_mem s) (pre ++ b :: post) h ->
  heap_rep (set_l_mem (store32 (l_mem s) (min_req_size (o_min o)) n) s) (<[o_ptr o := contents (l_mem s) (o_ptr o) n]> h).
Proof.
  intros Hi Ho Hn Hv. pose proof (heap_inv_resized s pre b post l1 l2 o n Hi Ho Hn) as Hi'.
  destruct (without_has false s pre b post l1 l2 o Hi Ho) as [Hno Hiff].
  assert (forall x, has (pre ++ with_objs b (l1 ++ resized o n :: l2) :: post) x <-> x = resized o n \/ has (without pre b post l1 l2) x) as Hiff'.
  { intros x. rewrite has_replace, has_without, !elem_of_app, elem_of_cons. tauto. }
  set (l' := pre ++ with_objs b (l1 ++ resized o n :: l2) :: post) in *.
  assert (has (pre ++ b :: post) o) as Hho by (apply Hiff; by left).
  assert (forall x k, has (pre ++ b :: post) x -> 0 <= k <= o_req x ->
    contents (store32 (l_mem s) (min_req_size (o_min o)) n) (o_ptr x) k = contents (l_mem s) (o_ptr x) k) as Hkeep.
  { intros x k Hx Hk. apply contents_ext. intros a Ha. apply store32_ne. fields. pose proof (o_ptr_range x). pose proof (o_ptr_range o).
    pose proof (has_bounds _ _ _ _ Hi Hx). pose proof (has_bounds _ _ _ _ Hi Hho). unfold o_end in *.
    destruct (has_disjoint _ _ _ x o Hi Hx Hho) as [->|Hd]; [lia|]. unfold o_end in Hd. lia. }
  exists l'. split; [unfold l'; by destruct pre|]. split; [done|]. intros q bq. cbn [l_mem set_l_mem]. rewrite lookup_insert_Some. split.
  - intros [[<- <-]|[Hneq (x & Hx & <- & ->)%Hv]].
    + exists (resized o n). split; [apply Hiff'; by left|]. split; [done|]. symmetry. apply (Hkeep o); [done|done].
    + pose proof (has_bounds _ _ _ _ Hi Hx). exists x. split; [|split; [done|]].
      * apply Hiff'. right. apply Hiff in Hx as [->|Hx]; [done|done].
      * symmetry. apply Hkeep; [done|lia].
  - intros (x & [-> | Hx]%Hiff' & <- & ->).
    + left. split; [done|]. symmetry. by apply (Hkeep o).
    + assert (has (pre ++ b :: post) x) as Hx' by (apply Hiff; by right). right. split.
      * intros Hp. assert (o = x) as Heq by exact (has_ptr false s (pre ++ b :: post) o x Hi Hho Hx' Hp). subst x. done.
      * apply Hv. exists x. split; [done|]. split; [done|]. apply Hkeep; [done|]. pose proof (has_bounds _ _ _ _ Hi Hx'). lia.
Qed.

(** *** The client's accesses, [kcalloc] and [krealloc] *)

Lemma held_byte s a n x : held s a n = true -> a <= x < a + n -> held s x 1 = true.
Proof.
  intros Hh Hx. unfold held in *. replace (x + 1 - 1) with x by lia. replace (x / l_pageSize - x / l_pageSize + 1) with 1 by lia.
  apply Is_true_true, forallb_True, Forall_forall. intros q Hq. apply elem_of_seqZ in Hq.
  apply Is_true_true in Hh. apply forallb_True in Hh. rewrite Forall_forall in Hh. apply Hh, elem_of_seqZ.
  assert (a / l_pageSize <= x / l_pageSize) by (apply Z.div_le_mono; unfold l_pageSize; lia).
  assert (x / l_pageSize <= (a + n - 1) / l_pageSize) by (apply Z.div_le_mono; unfold l_pageSize; lia). lia.
Qed.

Lemma lookup_contents m p n i : 0 <= i < n -> contents m p n !! Z.to_nat i = Some (m (p + i)).
Proof.
  intros Hi. unfold contents. rewrite list_lookup_fmap, lookup_seqZ_lt by lia. cbn. do 2 f_equal. lia.
Qed.

Lemma rep_contents s h p bs : heap_rep s h -> h !! p = Some bs -> bs = contents (l_mem s) p (zlen bs).
Proof.
  intros (l & _ & Hi & Hv) (o & Ho & <- & ->)%Hv. pose proof (has_bounds _ _ _ _ Hi Ho). by rewrite length_contents by lia.
Qed.

Lemma get8_rep s h p bs i :
  heap_rep s h -> h !! p = Some bs -> 0 <= i < zlen bs ->
  wp (get8 (p + i)) (fun v s' => bs !! Z.to_nat i = Some v /\ s' = s) never s.
Proof.
  intros Hrep Hp Hi. unfold get8. destruct (rep_held s h p bs (zlen bs) Hrep Hp ltac:(lia)) as [Hh _]. wp_steps.
  rewrite (held_byte s p (zlen bs)) by (done || lia). wp_cond. wp_steps. split; [|done].
  rewrite (rep_contents _ _ _ _ Hrep Hp). by apply lookup_contents.
Qed.

Lemma contents_insert m p n i v : 0 <= i < n -> contents (<[p + i := v]> m) p n = <[Z.to_nat i := v]> (contents m p n).
Proof.
  intros Hi. apply list_eq. intros j. destruct (decide (j < Z.to_nat n)%nat) as [Hj|Hj].
  - replace j with (Z.to_nat (Z.of_nat j)) by lia. rewrite lookup_contents by lia. destruct (decide (j = Z.to_nat i)) as [->|Hne].
    + rewrite Z2Nat.id, list_lookup_insert_eq by (unfold contents; rewrite ?length_fmap, ?length_seqZ; lia).
      by rewrite fn_lookup_insert by lia.
    + rewrite list_lookup_insert_ne by lia. rewrite lookup_contents by lia. rewrite fn_lookup_insert_ne by lia. done.
  - rewrite !lookup_ge_None_2; [done|rewrite length_insert|]; unfold contents; rewrite length_fmap, length_seqZ; lia.
Qed.

Lemma put8_rep s h p bs i v :
  heap_rep s h -> h !! p = Some bs -> 0 <= i < zlen bs ->
  wp (put8 (p + i) v) (fun _ s' => heap_rep s' (<[p := <[Z.to_nat i := v mod 256]> bs]> h)) never s.
Proof.
  intros Hrep Hp Hi. unfold put8. destruct (rep_held s h p bs (zlen bs) Hrep Hp ltac:(lia)) as [Hh _]. wp_steps.
  rewrite (held_byte s p (zlen bs)) by (done || lia). wp_cond. wp_steps.
  rewrite (rep_contents _ _ _ _ Hrep Hp) at 1. rewrite <- contents_insert by lia. apply heap_rep_write; [done|done|].
  intros a Ha. apply fn_lookup_insert_ne. lia.
Qed.

Lemma contents_fill m p n c : contents (fill m p n c) p n = replicate (Z.to_nat n) c.
Proof.
  apply list_eq. intros j. destruct (decide (j < Z.to_nat n)%nat) as [Hj|Hj].
  - replace j with (Z.to_nat (Z.of_nat j)) at 1 by lia. rewrite lookup_contents by lia. rewrite lookup_replicate_2 by lia. f_equal.
    unfold fill. rewrite (proj2 (Z.leb_le p _)), (proj2 (Z.ltb_lt _ (p + n))) by lia. done.
  - rewrite !lookup_ge_None_2; [done|rewrite length_replicate; lia|unfold contents; rewrite length_fmap, length_seqZ; lia].
Qed.

Lemma kcalloc_rep s h nobj size :
  heap_rep s h -> 0 <= nobj * size < 2 ^ 31 ->
  wp (kcalloc nobj size) (fun p s' => fresh_range h p (nobj * size) /\
    heap_rep s' (<[p := replicate (Z.to_nat (nobj * size)) 0]> h)) only_nomem s.
Proof.
  intros Hrep Hn. unfold kcalloc. rewrite u32_small by (unfold is_u32; lia). set (n := nobj * size) in *.
  wp_apply kmalloc_rep; [done|done| |done]. intros p s' (bs & Hf & Hlen & Hrep'). wp_cond. pose proof Hf as (_ & Hp & _).
  rewrite (proj2 (Z.eqb_neq p 0)) by lia. cbn [negb]. wp_steps. destruct (Z.eqb_spec n 0) as [Hz|Hz]; cbn [negb].
  - wp_steps. split; [done|]. rewrite Hz in *. destruct bs; [done|]. unfold zlen in Hlen. cbn [length] in Hlen. lia.
  - unfold fill_bytes. wp_cond. rewrite (proj2 (Z.eqb_neq p 0)) by lia. cbn [negb]. wp_cond.
    rewrite (proj2 (Z.eqb_neq n 0)) by lia. cbn [negb]. wp_steps.
    destruct (rep_held s' _ p bs n Hrep' (lookup_insert_eq h p bs) ltac:(lia)) as [-> _]. wp_cond. wp_steps. split; [done|].
    pose proof (heap_rep_write s' _ p bs (fill (l_mem s') p n 0) Hrep' (lookup_insert_eq h p bs)) as Hw.
    rewrite Hlen, contents_fill, insert_insert_eq in Hw. apply Hw. intros a Ha. apply fill_ne. lia.
Qed.

Lemma contents_copy m dst src n k : 0 <= n <= k ->
  contents (copy m dst src n) dst k = contents m src n ++ contents m (dst + n) (k - n).
Proof.
  intros Hn. unfold contents. replace k with (n + (k - n)) at 1 by lia. rewrite seqZ_app, fmap_app by lia. f_equal.
  - apply list_eq. intros j. rewrite !list_lookup_fmap. destruct (decide (j < Z.to_nat n)%nat) as [Hj|Hj].
    + rewrite !lookup_seqZ_lt by lia. cbn. unfold copy. rewrite (proj2 (Z.leb_le _ _)), (proj2 (Z.ltb_lt _ _)) by lia.
      cbn. do 2 f_equal. lia.
    + rewrite !lookup_seqZ_ge by lia. done.
  - apply contents_ext. intros a Ha. unfold copy. destruct (Z.leb_spec dst a), (Z.ltb_spec a (dst + n)); cbn; try done. lia.
Qed.

(** [krealloc] up to the object's header. *)
Lemma krealloc_header s pre b post (l1 l2 : list obj) o size (Q : Z -> lstate P -> Prop) E :
  heap_inv false s (pre ++ b :: post) -> k_objs b = l1 ++ o :: l2 -> size <> 0 ->
  (size <= o_req o -> Q (o_ptr o) (set_l_mem (store32 (l_mem s) (min_req_size (o_min o)) size) s)) ->
  (o_req o < size -> wp (let! ptr := kmalloc size in
      kassert (negb (ptr =? 0)) >>> copy_bytes ptr (o_ptr o) (o_req o) >>> kfree (o_ptr o) >>> ret ptr) Q E s) ->
  wp (krealloc (o_ptr o) size) Q E s.
Proof.
  intros Hi Ho Hs Hsmall Hgrow. set (s1 := set_locked true s). assert (heap_inv true s1 (pre ++ b :: post)) as Hi1 by (by eapply heap_inv_lock).
  destruct (free_facts s1 pre post b l1 l2 o Hi1 Ho) as ((A1 & A2 & A3 & A4 & A5 & A6 & A7) & Hr & F1 & F2 & F3 & F4 & F5 & _ & _).
  pose proof (o_ptr_range o) as Hp. unfold krealloc. rewrite (proj2 (Z.eqb_neq size 0)) by done. rewrite (proj2 (Z.eqb_neq (o_ptr o) 0)) by lia.
  wp_steps. apply (wp_UNALIGN s b o); [exact Hr|lia|lia|lia|lia|exact A7|]. unfold liballoc_lock, liballoc_unlock. wp_steps. rewrite (hi_lock _ _ _ Hi). wp_steps.
  fold s1. assert (u32 (o_min o + 24 - MINOR_SIZE) = o_min o) as -> by (unfold MINOR_SIZE; rewrite u32_small by (unfold is_u32; lia); lia).
  unfold liballoc_verify_magic. wp_steps; apply (wp_get _ b); [done|fields; lia|fields; lia|]. rewrite A4. rewrite Z.eqb_refl. cbn [negb].
  wp_steps. cbn [negb]. wp_steps; apply (wp_get _ b); [done|fields; lia|fields; lia|]. rewrite A6.
  assert (set_locked false s1 = s) as Hun by (pose proof (hi_lock _ _ _ Hi); unfold s1; destruct s; cbn in *; by subst).
  destruct (Z.leb_spec size (o_req o)) as [Hle|Hgt].
  - wp_steps. apply (wp_put _ b); [done|fields; lia|fields; lia|]. wp_steps. specialize (Hsmall Hle).
    pose proof (hi_lock _ _ _ Hi) as Hlk. destruct s. cbn in Hlk. subst. exact Hsmall.
  - rewrite <- Hun in Hgrow. refine (proj2 (wp_bind _ _ _ _ _) _). refine (proj2 (wp_modify _ _ _ _) _). by apply Hgrow.
Qed.

Lemma krealloc_shrink_rep s h p bs size :
  heap_rep s h -> h !! p = Some bs -> 0 < size <= zlen bs ->
  wp (krealloc p size) (fun r s' => r = p /\ heap_rep s' (<[p := take (Z.to_nat size) bs]> h)) never s.
Proof.
  intros (l & Hne & Hi & Hv) Hp Hs. destruct (view_object _ _ _ _ _ Hv Hp) as (pre & b & post & l1 & o & l2 & -> & Ho & <- & ->).
  assert (has (pre ++ b :: post) o) as Hho by (exists b; split; [|rewrite Ho]; rewrite elem_of_app, elem_of_cons; tauto).
  pose proof (has_bounds _ _ _ _ Hi Hho). rewrite length_contents in Hs by lia.
  apply (krealloc_header s pre b post l1 l2 o); [done|done|lia| |lia]. intros _. split; [done|].
  rewrite take_contents by lia. apply (heap_rep_resized s pre b post l1 l2); [done|done|lia|done].
Qed.

(** Two objects written apart. *)
Lemma krealloc_grow_rep s h p bs size :
  heap_rep s h -> h !! p = Some bs -> 0 < zlen bs < size -> size < 2 ^ 31 ->
  wp (krealloc p size) (fun q s' => exists junk, fresh_range h q size /\ zlen junk = size - zlen bs /\
    heap_rep s' (delete p (<[q := bs ++ junk]> h))) only_nomem s.
Proof.
  intros Hrep Hp Hs Hmax. pose proof Hrep as (l & Hne & Hi & Hv).
  destruct (view_object _ _ _ _ _ Hv Hp) as (pre & b & post & l1 & o & l2 & -> & Ho & Hpo & Hbs).
  assert (has (pre ++ b :: post) o) as Hho by (exists b; split; [|rewrite Ho]; rewrite elem_of_app, elem_of_cons; tauto).
  pose proof (has_bounds _ _ _ _ Hi Hho) as Hb. assert (zlen bs = o_req o) as Hlen by (rewrite Hbs, length_contents; lia).
  rewrite <- Hpo at 1. apply (krealloc_header s pre b post l1 l2 o); [done|done|lia|lia|]. intros _. rewrite Hpo. rewrite <- Hlen.
  wp_apply kmalloc_rep; [done|lia| |done]. intros q s1 (bs1 & Hf & Hlen1 & Hrep1). pose proof Hf as (_ & Hq & _ & Hnone & Hdis).
  wp_cond. rewrite (proj2 (Z.eqb_neq q 0)) by lia. cbn [negb]. assert (p <> q) as Hpq by (intros ->; congruence).
  assert (<[q:=bs1]> h !! p = Some bs) as Hp1 by (by rewrite lookup_insert_ne by done).
  destruct (rep_held s1 _ q bs1 (zlen bs) Hrep1 (lookup_insert_eq h q bs1) ltac:(lia)) as [Hh1 _].
  destruct (rep_held s1 _ p bs (zlen bs) Hrep1 Hp1 ltac:(lia)) as [Hh2 Hp0].
  unfold copy_bytes. wp_cond. rewrite (proj2 (Z.eqb_neq q 0)) by lia. cbn [negb]. wp_cond. rewrite (proj2 (Z.eqb_neq p 0)) by lia. cbn [negb].
  wp_cond. rewrite (proj2 (Z.eqb_neq (zlen bs) 0)) by lia. cbn [negb]. wp_steps. rewrite Hh1, Hh2. wp_cond. wp_steps.
  set (m' := copy (l_mem s1) q p (zlen bs)).
  assert (contents m' q size = bs ++ contents (l_mem s1) (q + zlen bs) (size - zlen bs)) as Hcon.
  { unfold m'. rewrite contents_copy by lia. f_equal. symmetry. by apply (rep_contents s1 (<[q:=bs1]> h)). }
  assert (heap_rep (set_l_mem m' s1) (<[q := bs ++ contents (l_mem s1) (q + zlen bs) (size - zlen bs)]> h)) as Hrep2.
  { pose proof (heap_rep_write s1 _ q bs1 m' Hrep1 (lookup_insert_eq h q bs1)) as Hw. rewrite Hlen1, Hcon, insert_insert_eq in Hw. apply Hw.
    intros a Ha. unfold m', copy. destruct (Z.leb_spec q a), (Z.ltb_spec a (q + zlen bs)); cbn; try done. lia. }
  eapply wp_mono; [apply (kfree_rep _ (<[q := bs ++ contents (l_mem s1) (q + zlen bs) (size - zlen bs)]> h) p bs q); [exact Hrep2|by rewrite lookup_insert_ne by done|done|by rewrite lookup_insert_eq]| |by intros e []].
  intros [] s2 Hrep3. wp_steps. exists (contents (l_mem s1) (q + zlen bs) (size - zlen bs)). split; [done|].
  split; [apply length_contents; lia|done].
Qed.

(** A heap without objects, from nothing. *)
Lemma liballoc_init_rep s :
  page_ok (l_os s) -> l_memRoot s = 0 -> l_bestBet s = 0 -> l_allocated s = 0 -> l_locked s = false ->
  wp liballoc_init (fun _ s' => heap_rep s' ∅) only_nomem s.
Proof.
  intros Hos Hr Hb Ha Hl. unfold liballoc_init. wp_cond. rewrite Hr. change (0 =? 0) with true. cbv iota. wp_steps.
  eapply wp_mono; [apply (wp_allocate_new_page []); [done|done|by intros x ?%elem_of_nil|unfold ALIGNMENT, ALIGN_INFO; lia]| |done].
  intros maj s1 (b & -> & (N1 & N2 & N3 & N4 & N5 & _ & N7 & N8 & N9 & N10 & N11 & N12)). wp_cond.
  assert (4096 <= k_maj b) as Hk by (destruct N3 as (A & _); unfold k_maj; lia). rewrite (proj2 (Z.eqb_neq (k_maj b) 0)) by lia. cbn [negb].
  exists [b]. split; [done|]. split.
  - split; cbn [l_os l_locked l_memRoot l_bestBet l_allocated l_mem set_memRoot first_maj blocks_at].
    + done.
    + by rewrite N11.
    + done.
    + by split.
    + by apply Forall_singleton.
    + by intros x ->%list_elem_of_singleton.
    + intros x y ->%list_elem_of_singleton ->%list_elem_of_singleton. by left.
    + apply NoDup_singleton.
    + left. by rewrite N10.
    + rewrite N12, Ha. cbn. lia.
  - intros p bs. rewrite lookup_empty. split; [done|]. intros (o & (x & ->%list_elem_of_singleton & Ho) & _). rewrite N1 in Ho.
    by apply not_elem_of_nil in Ho.
Qed.

(** ** The promise to the clients

    A heap is a map from the addresses of the objects to their bytes; a client
    is what it does next as a function of the answers so far.  Its objects are
    smaller than 2^31 bytes and the last object is not freed: both are limits
    of the code. *)
Inductive call : Type :=
  | Malloc (n : Z)
  | Calloc (nobj size : Z)
  | Realloc (p size : Z)
  | Free (p : Z)
  | Load (p i : Z)
  | Store (p i v : Z).

Abbreviation heap := (gmap Z (list Z)).

(** What each call may answer, and the heap after it. *)
Inductive heap_step (h : heap) : call -> Z -> heap -> Prop :=
  | step_malloc n p bs : fresh_range h p n -> zlen bs = n -> heap_step h (Malloc n) p (<[p := bs]> h)
  | step_calloc nobj size p : fresh_range h p (nobj * size) ->
      heap_step h (Calloc nobj size) p (<[p := replicate (Z.to_nat (nobj * size)) 0]> h)
  | step_realloc_null size p bs : size <> 0 -> fresh_range h p size -> zlen bs = size -> heap_step h (Realloc 0 size) p (<[p := bs]> h)
  | step_realloc_free p : heap_step h (Realloc p 0) 0 (delete p h)
  | step_realloc_shrink p bs size : h !! p = Some bs -> 0 < size <= zlen bs ->
      heap_step h (Realloc p size) p (<[p := take (Z.to_nat size) bs]> h)
  | step_realloc_grow p q bs junk size : h !! p = Some bs -> zlen bs < size -> fresh_range h q size -> zlen junk = size - zlen bs ->
      heap_step h (Realloc p size) q (delete p (<[q := bs ++ junk]> h))
  | step_free p : heap_step h (Free p) 0 (delete p h)
  | step_load p i bs v : h !! p = Some bs -> bs !! Z.to_nat i = Some v -> heap_step h (Load p i) v h
  | step_store p i v bs : h !! p = Some bs -> heap_step h (Store p i v) 0 (<[p := <[Z.to_nat i := v mod 256]> bs]> h).

Definition not_last (h : heap) (p : Z) : Prop := is_Some (h !! p) /\ exists q, p <> q /\ is_Some (h !! q).

Definition enabled (h : heap) (c : call) : Prop :=
  match c with
  | Malloc n => 0 <= n < 2 ^ 31
  | Calloc nobj size => 0 <= nobj * size < 2 ^ 31
  | Realloc p size =>
      if size =? 0 then not_last h p
      else 0 < size < 2 ^ 31 /\ (p = 0 \/ exists bs, h !! p = Some bs /\ (size <= zlen bs \/ 0 < zlen bs))
  | Free p => not_last h p
  | Load p i | Store p i _ => exists bs, h !! p = Some bs /\ 0 <= i < zlen bs
  end.

(** The call in the kernel. *)
Definition exec (c : call) : M (lstate P) Z :=
  match c with
  | Malloc n => kmalloc n
  | Calloc nobj size => kcalloc nobj size
  | Realloc p size => krealloc p size
  | Free p => kfree p >>> ret 0
  | Load p i => get8 (p + i)
  | Store p i v => put8 (p + i) v >>> ret 0
  end.

Inductive client : Type :=
  | Done
  | Do (c : call) (k : Z -> client).

Fixpoint drive (c : client) : M (lstate P) (list Z) :=
  match c with
  | Done => ret []
  | Do c k => let! r := exec c in let! rs := drive (k r) in ret (r :: rs)
  end.

Fixpoint legal (c : client) (h : heap) : Prop :=
  match c with
  | Done => True
  | Do c k => enabled h c /\ forall r h', heap_step h c r h' -> legal (k r) h'
  end.

Fixpoint spec_run (c : client) (h : heap) (rs : list Z) (h' : heap) : Prop :=
  match c, rs with
  | Done, [] => h' = h
  | Do c k, r :: rs => exists h1, heap_step h c r h1 /\ spec_run (k r) h1 rs h'
  | _, _ => False
  end.

Lemma exec_refines s h c :
  heap_rep s h -> enabled h c -> wp (exec c) (fun r s' => exists h', heap_step h c r h' /\ heap_rep s' h') only_nomem s.
Proof.
  intros Hrep He. destruct c as [n|nobj size|p size|p|p i|p i v]; cbn [exec enabled] in *.
  - wp_apply kmalloc_rep; [done|done| |done]. intros p s' (bs & Hf & Hl & Hr). eexists. split; [by apply step_malloc|done].
  - wp_apply kcalloc_rep; [done|done| |done]. intros p s' (Hf & Hr). eexists. split; [by apply step_calloc|done].
  - destruct (Z.eqb_spec size 0) as [->|Hz].
    + destruct He as ([bs Hp] & q & Hpq & Hq). unfold krealloc. cbn [Z.eqb]. wp_apply (kfree_rep s h p bs q); [done|done|done|done| |by intros e []].
      intros [] s' Hr. wp_steps. eexists. split; [by apply step_realloc_free|done].
    + destruct He as (Hs & [->|(bs & Hp & Hc)]).
      * unfold krealloc. rewrite (proj2 (Z.eqb_neq size 0)) by done. cbn [Z.eqb]. wp_apply kmalloc_rep; [done|lia| |done].
        intros p s' (bs & Hf & Hl & Hr). eexists. split; [by apply step_realloc_null|done].
      * destruct (Z.le_gt_cases size (zlen bs)).
        -- eapply wp_mono; [apply (krealloc_shrink_rep s h p bs); [done|done|lia]| |by intros e []].
           intros r s' [-> Hr]. eexists. split; [apply step_realloc_shrink; [done|lia]|done].
        -- eapply wp_mono; [apply (krealloc_grow_rep s h p bs); [done|done|lia|lia]| |done].
           intros r s' (junk & Hf & Hl & Hr). eexists. split; [apply (step_realloc_grow h p r bs junk); [done|lia|done|done]|done].
  - destruct He as ([bs Hp] & q & Hpq & Hq). wp_apply (kfree_rep s h p bs q); [done|done|done|done| |by intros e []].
    intros [] s' Hr. wp_steps. eexists. split; [by apply step_free|done].
  - destruct He as (bs & Hp & Hi). eapply wp_mono; [by apply (get8_rep s h p bs i)| |by intros e []].
    intros v s' [Hv ->]. eexists. split; [by apply (step_load h p i bs)|done].
  - destruct He as (bs & Hp & Hi). wp_steps. eapply wp_mono; [by apply (put8_rep s h p bs i v)| |by intros e []].
    intros [] s' Hr. wp_steps. eexists. split; [by apply (step_store h p i v bs)|done].
Qed.

Lemma drive_refines c : forall s h, heap_rep s h -> legal c h ->
  wp (drive c) (fun rs s' => exists h', spec_run c h rs h' /\ heap_rep s' h') only_nomem s.
Proof.
  induction c as [|c k IH]; intros s h Hrep Hl; cbn [drive legal] in *.
  - wp_steps. by exists h.
  - destruct Hl as [He Hk]. wp_apply exec_refines; [done|done| |done]. intros r s1 (h1 & Hst & Hrep1).
    wp_apply (IH r); [done|by apply Hk| |done]. intros rs s2 (h2 & Hsp & Hrep2). wp_steps. exists h2. split; [by exists h1|done].
Qed.

(** The heap before [liballoc_init]. *)
Definition not_set_up s : Prop :=
  page_ok (l_os s) /\ l_memRoot s = 0 /\ l_bestBet s = 0 /\ l_allocated s = 0 /\ l_locked s = false.

(** C5. The kernel heap refines a map from addresses to bytes: whatever legal
    client runs after [liballoc_init], each call either returns, with an
    answer and an effect the abstract heap allows (new objects are aligned to
    16 bytes and apart from all others, [kcalloc]'s are zero, [krealloc] keeps
    the bytes, [kfree] removes one object, and nothing but a store changes an
    object), or stops in the assertion that memory was left. *)
Theorem liballoc_refines s c :
  not_set_up s -> legal c ∅ ->
  wp (liballoc_init >>> drive c) (fun rs s' => exists h', spec_run c ∅ rs h' /\ heap_rep s' h') only_nomem s.
Proof.
  intros (H1 & H2 & H3 & H4 & H5) Hl. wp_apply liballoc_init_rep; try done. intros [] s' Hrep. by apply drive_refines.
Qed.
End proofs.

(** ** The heap behind the interface of the other components

    [kh_live] is the ghost set of the objects the clients hold.  One object
    more is there that nobody frees (the kernel's first allocations stay), and
    the sizes the clients ask for stay below 2^31. *)
Section interface.
Context {P : Type} `{PageAllocLaws P}.

Record kheap : Type := KHeapState { kh_state : lstate P; kh_live : gset Z }.

Definition kheap_lens : lens kheap (lstate P) :=
  Lens kh_state (fun s k => KHeapState s (kh_live k)).

Definition kheap_ok (k : kheap) : Prop :=
  exists h keep, heap_rep (kh_state k) h /\ keep ∉ kh_live k /\ dom h = {[ keep ]} ∪ kh_live k.

Definition kheap_calloc (n : Z) : M kheap Z :=
  (if n <? 2 ^ 31 then ret tt else fail NoMemory) >>>
  let! p := zoom kheap_lens (kcalloc 1 n) in
  modify (fun k => KHeapState (kh_state k) ({[ p ]} ∪ kh_live k)) >>>
  ret p.

Definition kheap_free (p : Z) : M kheap unit :=
  zoom kheap_lens (kfree p) >>> modify (fun k => KHeapState (kh_state k) (kh_live k ∖ {[ p ]})).

(** [krealloc] of a block that has to grow asks [kmalloc] for a new one. *)
Definition kheap_room (k : kheap) (n : Z) : bool :=
  match kmalloc n (kh_state k) with Ok (p, _) => negb (p =? 0) | Err _ => false end.

#[export] Instance liballoc_heap : KHeap kheap := {
  Interfaces.kcalloc := kheap_calloc;
  Interfaces.kfree := kheap_free;
  heap_room := kheap_room;
  heap_live := kh_live;
  heap_ok := kheap_ok;
}.

Lemma rep_range s h p bs : heap_rep s h -> h !! p = Some bs -> 0 < p < 2 ^ 32.
Proof.
  intros (l & _ & Hi & Hv) (o & Ho & <- & _)%Hv. pose proof (has_bounds _ _ _ _ Hi Ho). pose proof (o_ptr_range o). unfold o_end in *. lia.
Qed.

#[export] Instance liballoc_heap_laws : KHeapLaws kheap.
Proof.
  split.
  - intros k p (h & keep & Hrep & _ & Hd) Hp. cbn in Hp. assert (p ∈ dom h) as [bs Hb]%elem_of_dom by set_solver. by apply (rep_range _ _ _ _ Hrep Hb).
  - intros k n (h & keep & Hrep & Hk & Hd) Hn. cbn [Interfaces.kcalloc liballoc_heap]. unfold kheap_calloc. wp_cond.
    destruct (Z.ltb_spec n (2 ^ 31)); [wp_steps|by wp_steps]. apply wp_zoom. cbn [lget kheap_lens].
    eapply wp_mono; [apply kcalloc_rep; [done|lia]| |done]. intros p s' (Hf & Hrep'). wp_steps. cbn [kh_state kh_live lset kheap_lens heap_ok heap_live liballoc_heap].
    assert (p ∉ dom h) as Hnp by (apply not_elem_of_dom; by destruct Hf as (_ & _ & _ & ? & _)).
    pose proof (rep_range _ _ _ _ Hrep' (lookup_insert_eq _ _ _)) as Hr. split; [|split; [done|split; [set_solver|done]]].
    exists (<[p := replicate (Z.to_nat (1 * n)) 0]> h), keep. cbn [kh_state kh_live]. split; [done|]. split; [set_solver|]. rewrite dom_insert_L, Hd. set_solver.
  - intros k p (h & keep & Hrep & Hk & Hd) Hp. cbn in Hp. cbn [Interfaces.kfree liballoc_heap]. unfold kheap_free. wp_steps. apply wp_zoom. cbn [lget kheap_lens].
    assert (p ∈ dom h) as [bs Hb]%elem_of_dom by set_solver. assert (keep ∈ dom h) as Hkh%elem_of_dom by set_solver.
    eapply wp_mono; [apply (kfree_rep _ h p bs keep); [done|done|set_solver|done]| |done]. intros [] s' Hrep'. wp_steps.
    cbn [kh_state kh_live lset kheap_lens heap_ok heap_live liballoc_heap]. split; [|done].
    exists (delete p h), keep. cbn [kh_state kh_live]. split; [done|]. split; [set_solver|]. rewrite dom_delete_L, Hd. set_solver.
Qed.
End interface.

(** ** Pages from a counter

    The smallest page provider: new pages come from where the last ones
    ended, with anything in them. *)
Record pages : Type := Pages { pg_next : Z; pg_held : Z -> bool }.

Definition pages_alloc (n : Z) : M pages Z := fun p =>
  if pg_next p + n <=? 2 ^ 20 - 1 then
    Ok (pg_next p * BLOCK_SIZE, Pages (pg_next p + n) (fun q => in_run (pg_next p) n q || pg_held p q))
  else Err NoMemory.

Definition pages_free (v n : Z) : M pages unit := fun p =>
  Ok (tt, Pages (pg_next p) (fun q => negb (in_run (v / BLOCK_SIZE) n q) && pg_held p q)).

#[export] Instance pages_provider : PageAlloc pages := {
  page_alloc := pages_alloc;
  page_free := pages_free;
  page_held := pg_held;
  page_junk p a := 170;
  page_ok p := 0 < pg_next p /\ forall q, pg_next p <= q -> pg_held p q = false;
}.

#[export] Instance pages_provider_laws : PageAllocLaws pages.
Proof.
  split.
  - intros p n [Hn Hh] Hr. apply wp_intro. cbn. unfold pages_alloc. destruct (Z.leb_spec (pg_next p + n) (2 ^ 20 - 1)); [|done].
    exists (pg_next p). split; [done|]. split; [done|]. split; [done|]. split.
    + split; cbn; [lia|]. intros q Hq. rewrite Hh by lia. unfold in_run. destruct (Z.ltb_spec q (pg_next p + n)); [lia|]. by destruct (_ <=? _).
    + split; [|done]. intros q Hq. apply Hh. unfold in_run in Hq. destruct (Z.leb_spec (pg_next p) q); [done|done].
  - intros p b n [Hn Hh] Hb H1 Hr. apply wp_intro. cbn. unfold BLOCK_SIZE. rewrite Z.div_mul by done. split; [|done].
    split; cbn; [done|]. intros q Hq. rewrite Hh by lia. by destruct (in_run b n q).
Qed.

Definition cold : lstate pages := LState (Pages 256 (fun _ => false)) (fun _ => 85) 0 0 0 0 false.

(** A client: it fills in an object, makes it bigger and looks again. *)
Definition grower : client :=
  Do (Malloc 100) (fun p => Do (Store p 3 263) (fun _ => Do (Calloc 3 4) (fun z => Do (Realloc p 200) (fun q =>
  Do (Load q 3) (fun _ => Do (Load z 11) (fun _ => Do (Free q) (fun _ => Done))))))).

(** It runs: the byte 263 mod 256 moved along with the object. *)
Example grower_runs :
  match (liballoc_init >>> drive grower) cold with
  | Ok (rs, s) => rs = [1048640; 0; 1048800; 1048864; 7; 0; 0] /\ l_inuse s = 44
  | Err _ => False
  end.
Proof. vm_compute. done. Qed.

Lemma grower_legal : legal grower ∅.
Proof.
  cbn [legal grower enabled]. split; [done|]. intros p h1 Hs. inversion Hs as [n p' bs (_ & Hp & _) Hl| | | | | | | |]; subst. clear Hs.
  split; [exists bs; rewrite lookup_insert_eq; split; [done|lia]|]. intros r h2 Hs.
  inversion Hs as [| | | | | | | |p' i v bs' Hb]; subst. clear Hs. rewrite lookup_insert_eq in Hb. injection Hb as <-.
  rewrite insert_insert_eq. set (bs1 := <[Z.to_nat 3 := 263 mod 256]> bs).
  assert (zlen bs1 = 100) as Hl1 by (unfold zlen, bs1 in *; by rewrite length_insert). clearbody bs1. split; [done|]. intros z h3 Hs.
  inversion Hs as [|n1 n2 z' (_ & _ & _ & Hz & _)| | | | | | |]; subst. clear Hs. change (Z.to_nat (3 * 4)) with 12%nat.
  assert (z <> p) as Hzp by (intros ->; by rewrite lookup_insert_eq in Hz). clear Hz.
  assert (<[z := replicate 12 0]> (<[p := bs1]> (∅ : gmap Z (list Z))) !! p = Some bs1) as Hp3 by (by rewrite lookup_insert_ne, lookup_insert_eq by done).
  split; [split; [done|]; right; exists bs1; split; [done|lia]|]. intros q h4 Hs.
  inversion Hs as [| |n q' bq _ _ _| |p' bq n Hb Hn|p' q' bq junk n Hb _ (_ & _ & _ & Hq & _) Hj| | |]; subst; [lia| |].
  { rewrite Hp3 in Hb. injection Hb as <-. lia. }
  clear Hs. rewrite Hp3 in Hb. injection Hb as <-. clear Hp3.
  assert (p <> q /\ z <> q) as [Hpq Hzq].
  { split; intros ->; rewrite ?lookup_insert_eq in Hq; [|done]. by rewrite lookup_insert_ne, lookup_insert_eq in Hq. }
  assert (zlen (bs1 ++ junk) = 200) as Hlj by (unfold zlen in *; rewrite length_app; lia). clear Hq Hj.
  set (h4 := delete p _). assert (h4 !! q = Some (bs1 ++ junk) /\ h4 !! z = Some (replicate 12 0)) as [Hq4 Hz4].
  { unfold h4. rewrite !lookup_delete_ne, lookup_insert_eq, lookup_insert_ne, lookup_insert_eq by done. done. }
  clearbody h4. split; [exists (bs1 ++ junk); split; [done|lia]|]. intros r5 h5 Hs. inversion Hs; subst. clear Hs.
  split; [by exists (replicate 12 0)|]. intros r6 h6 Hs. inversion Hs; subst. clear Hs. by split; [split; [|exists z]|].
Qed.

Lemma liballoc_refines_witness :
  not_set_up cold /\ wp (liballoc_init >>> drive grower) (fun rs s' => exists h', spec_run grower ∅ rs h' /\ heap_rep s' h') only_nomem cold.
Proof. split; [done|]. apply (liballoc_refines cold grower); [done|exact grower_legal]. Defined.

(** Freeing the last object of the last block leaves [l_memRoot] NULL: the
    next [kmalloc] stops in its assertion. *)
Example kfree_last_then_kmalloc :
  (liballoc_init >>> let! p := kmalloc 100 in kfree p >>> kmalloc 1) cold = Err AssertFail.
Proof. vm_compute. done. Qed.

(** The size computation wraps around: a request for all but 40 bytes of the
    address space is answered with an object in a 64 KiB block. *)
Example kmalloc_wraps :
  match (liballoc_init >>> kmalloc (2 ^ 32 - 40)) cold with Ok (p, s) => p = 1048640 /\ l_allocated s = 65536 | Err _ => False end.
Proof. vm_compute. done. Qed.

(** An object of no bytes cannot be made bigger. *)
Example krealloc_of_nothing :
  (liballoc_init >>> let! p := kmalloc 0 in krealloc p 8) cold = Err AssertFail.
Proof. vm_compute. done. Qed.
