(* ===== verification/DList.v ===== *)
(** * Doubly linked lists (kernel/list.c)

    [list_t] and [node_t] as objects in a store, with the pointer updates of
    list.c in their order, over any kernel heap.  [dll] relates a list object
    to the sequence of its nodes and values; the theorems show that each
    operation is the corresponding operation on that sequence and leaves every
    other list alone. *)
From S2P Require Import Prelude Interfaces.

Definition NULL : Z := 0.

(** [node_t] and [list_t]. *)
Record node_t : Type := Node {
  next : Z;
  prev : Z;
  value : Z;
  owner : Z;
}.

Record list_t : Type := ListT {
  head : Z;
  tail : Z;
  length : Z;
}.

Record lstate (H : Type) : Type := LState {
  ls_heap : H;
  ls_nodes : gmap Z node_t;
  ls_lists : gmap Z list_t;
}.
Arguments LState {H} _ _ _.
Arguments ls_heap {H} _.
Arguments ls_nodes {H} _.
Arguments ls_lists {H} _.

Definition set_next (p : Z) (n : node_t) : node_t := Node p (prev n) (value n) (owner n).
Definition set_prev (p : Z) (n : node_t) : node_t := Node (next n) p (value n) (owner n).
Definition set_value (p : Z) (n : node_t) : node_t := Node (next n) (prev n) p (owner n).
Definition set_owner (p : Z) (n : node_t) : node_t := Node (next n) (prev n) (value n) p.
Definition set_head (p : Z) (l : list_t) : list_t := ListT p (tail l) (length l).
Definition set_tail (p : Z) (l : list_t) : list_t := ListT (head l) p (length l).
Definition set_length (n : Z) (l : list_t) : list_t := ListT (head l) (tail l) n.

Section ops.
Context {H : Type} `{KHeap H}.
Abbreviation L := (lstate H).

Definition heap_lens : lens L H :=
  Lens ls_heap (fun h s => LState h (ls_nodes s) (ls_lists s)).

Definition node (p : Z) : M L node_t :=
  let! m := gets ls_nodes in some (m !! p).

Definition upd_node (p : Z) (f : node_t -> node_t) : M L unit :=
  let! n := node p in
  modify (fun s => LState (ls_heap s) (<[p := f n]> (ls_nodes s)) (ls_lists s)).

Definition listp (p : Z) : M L list_t :=
  let! m := gets ls_lists in some (m !! p).

Definition upd_list (p : Z) (f : list_t -> list_t) : M L unit :=
  let! l := listp p in
  modify (fun s => LState (ls_heap s) (ls_nodes s) (<[p := f l]> (ls_lists s))).

(** [kcalloc(1, sizeof(node_t))] and [kfree] of a node. *)
Definition new_node : M L Z :=
  let! p := zoom heap_lens (kcalloc 16) in
  modify (fun s => LState (ls_heap s) (<[p := Node 0 0 0 0]> (ls_nodes s)) (ls_lists s)) >>>
  ret p.

Definition free_node (p : Z) : M L unit :=
  zoom heap_lens (kfree p) >>>
  modify (fun s => LState (ls_heap s) (delete p (ls_nodes s)) (ls_lists s)).

Definition list_init : M L Z :=
  let! v := zoom heap_lens (kcalloc 12) in
  kassert (negb (v =? NULL)) >>>
  modify (fun s => LState (ls_heap s) (ls_nodes s) (<[v := ListT 0 0 0]> (ls_lists s))) >>>
  ret v.

(** Long enough for any chain of distinct nodes. *)
Definition chain_fuel (s : L) : nat := S (size (ls_nodes s)).

Definition list_free (list : Z) : M L unit :=
  let! l := listp list in
  let! fuel := gets chain_fuel in
  loop fuel (fun v =>
    if v =? NULL then ret (inr tt)
    else
      let! n := node v in
      let v2 := next n in
      kassert (value n =? NULL) >>>
      free_node v >>>
      ret (inl v2)) (head l).

Definition list_append (list nd : Z) : M L unit :=
  kassert (negb (list =? NULL)) >>>
  kassert (negb (nd =? NULL)) >>>
  let! n := node nd in
  kassert (owner n =? NULL) >>>
  upd_node nd (set_owner list) >>>
  let! l := listp list in
  (if length l =? 0 then
     upd_list list (set_head nd) >>>
     upd_list list (set_tail nd) >>>
     upd_node nd (set_prev NULL) >>>
     upd_node nd (set_next NULL)
   else
     upd_node (tail l) (set_next nd) >>>
     upd_node nd (set_prev (tail l)) >>>
     upd_list list (set_tail nd)) >>>
  upd_list list (fun l => set_length (u32 (length l + 1)) l).

Definition list_insert (list v : Z) : M L Z :=
  kassert (negb (list =? NULL)) >>>
  kassert (negb (v =? NULL)) >>>
  let! nd := new_node in
  kassert (negb (nd =? NULL)) >>>
  upd_node nd (set_value v) >>>
  list_append list nd >>>
  ret nd.

Definition list_delete (list v : Z) : M L unit :=
  let! n := node v in
  kassert (owner n =? list) >>>
  let! l := listp list in
  (if v =? head l then upd_list list (set_head (next n)) else ret tt) >>>
  (if v =? tail l then upd_list list (set_tail (prev n)) else ret tt) >>>
  (if negb (prev n =? NULL) then upd_node (prev n) (set_next (next n)) else ret tt) >>>
  (let! n := node v in
   if negb (next n =? NULL) then upd_node (next n) (set_prev (prev n)) else ret tt) >>>
  upd_node v (set_prev NULL) >>>
  upd_node v (set_next NULL) >>>
  upd_node v (set_owner NULL) >>>
  upd_list list (fun l => set_length (u32 (length l - 1)) l).

Definition list_remove (list v : Z) : M L unit :=
  let! l := listp list in
  let! fuel := gets chain_fuel in
  loop fuel (fun i =>
    if i =? NULL then ret (inr tt)
    else
      let! n := node i in
      if value n =? v then
        list_delete list i >>>
        free_node i >>>
        ret (inr tt)
      else ret (inl (next n))) (head l).

Definition list_dequeue (list : Z) : M L Z :=
  kassert (negb (list =? NULL)) >>>
  let! l := listp list in
  let out := head l in
  kassert (negb (out =? NULL)) >>>
  list_delete list out >>>
  let! n := node out in
  let v := value n in
  free_node out >>>
  ret v.
End ops.

(** ** Representation *)

(** The nodes of a list with their values, first to last. *)
Definition first (ns : list (Z * Z)) (nx : Z) : Z :=
  match ns with [] => nx | (a, _) :: _ => a end.

Fixpoint last (pv : Z) (ns : list (Z * Z)) : Z :=
  match ns with [] => pv | (a, _) :: ns' => last a ns' end.

(** [seg m l pv ns nx]: the nodes [ns], owned by list [l], are linked in this
    order; the first one's [prev] is [pv] and the last one's [next] is [nx]. *)
Fixpoint seg (m : gmap Z node_t) (l pv : Z) (ns : list (Z * Z)) (nx : Z) : Prop :=
  match ns with
  | [] => True
  | (a, v) :: ns' =>
      a <> 0 /\ m !! a = Some (Node (first ns' nx) pv v l) /\ seg m l a ns' nx
  end.

Record dll {H} (s : lstate H) (l : Z) (ns : list (Z * Z)) : Prop := Dll {
  dll_nonnull : l <> 0;
  dll_header : ls_lists s !! l =
    Some (ListT (first ns 0) (last 0 ns) (Z.of_nat (base.length ns)));
  dll_seg : seg (ls_nodes s) l 0 ns 0;
  dll_nodup : NoDup (map fst ns);
}.

Lemma first_app xs ys nx : first (xs ++ ys) nx = first xs (first ys nx).
Proof. by destruct xs as [|[a v] xs]. Qed.

Lemma last_app pv xs ys : last pv (xs ++ ys) = last (last pv xs) ys.
Proof. revert pv. induction xs as [|[a v] xs IH]; intros pv; cbn; [done|apply IH]. Qed.

Lemma last_in pv ns : ns <> [] -> last pv ns ∈ map fst ns.
Proof.
  revert pv. induction ns as [|[a v] ns IH]; intros pv Hne; [done|]. cbn.
  destruct ns as [|x ns]; [by left|]. right. by apply IH.
Qed.

Lemma seg_app m l pv xs ys nx :
  seg m l pv (xs ++ ys) nx <->
  seg m l pv xs (first ys nx) /\ seg m l (last pv xs) ys nx.
Proof.
  revert pv. induction xs as [|[a v] xs IH]; intros pv; cbn; [tauto|].
  rewrite IH, first_app. tauto.
Qed.

(** Changes to nodes outside a segment do not matter to it. *)
Lemma seg_frame m m' l pv ns nx :
  (forall a, a ∈ map fst ns -> m' !! a = m !! a) ->
  seg m l pv ns nx -> seg m' l pv ns nx.
Proof.
  revert pv. induction ns as [|[a v] ns IH]; intros pv Hm; cbn; [done|].
  intros (Ha & Hn & Hs). split; [done|]. split.
  - rewrite Hm; [done|by left].
  - apply IH; [|done]. intros b Hb. apply Hm. by right.
Qed.

Lemma seg_lookup m l pv ns nx a :
  seg m l pv ns nx -> a ∈ map fst ns ->
  a <> 0 /\ exists n, m !! a = Some n /\ owner n = l.
Proof.
  revert pv. induction ns as [|[b v] ns IH]; intros pv; cbn; [by intros _ ?%elem_of_nil|].
  intros (Hb & Hn & Hs) [->|Hin]%elem_of_cons; [|by eapply IH].
  split; [done|]. by eexists.
Qed.

(** The last node's [next] and the first node's [prev] can be redirected. *)
Lemma seg_relink_last m l pv xs b w nx nx' :
  NoDup (map fst (xs ++ [(b, w)])) ->
  seg m l pv (xs ++ [(b, w)]) nx ->
  seg (<[b := Node nx' (last pv xs) w l]> m) l pv (xs ++ [(b, w)]) nx'.
Proof.
  intros Hnd Hs. apply seg_app in Hs as [Hx Hb]. apply seg_app. cbn in *.
  rewrite map_app in Hnd. apply NoDup_app in Hnd as (_ & Hdis & _). split.
  - eapply seg_frame; [|done]. intros a Ha. rewrite lookup_insert_ne; [done|].
    intros <-. apply (Hdis b Ha). by left.
  - split; [by destruct Hb|]. split; [|done]. by rewrite lookup_insert_eq.
Qed.

Lemma seg_relink_first m l pv c u ys nx pv' :
  NoDup (map fst ((c, u) :: ys)) ->
  seg m l pv ((c, u) :: ys) nx ->
  seg (<[c := Node (first ys nx) pv' u l]> m) l pv' ((c, u) :: ys) nx.
Proof.
  cbn. intros [Hc Hnd]%NoDup_cons (Hc0 & _ & Hs). split; [done|].
  rewrite lookup_insert_eq. split; [done|]. eapply seg_frame; [|done].
  intros a Ha. rewrite lookup_insert_ne; [done|]. by intros <-.
Qed.

(** ** Stepping through the operations *)

Section steps.
Context {H : Type} `{KHeap H}.
Implicit Types (s : lstate H).

Lemma wp_node p Q E s n :
  ls_nodes s !! p = Some n -> Q n s -> wp (node p) Q E s.
Proof. intros Hn HQ. unfold node. wp_cond. by rewrite Hn. Qed.

Lemma wp_listp p Q E s l :
  ls_lists s !! p = Some l -> Q l s -> wp (listp p) Q E s.
Proof. intros Hn HQ. unfold listp. wp_cond. by rewrite Hn. Qed.

Lemma wp_upd_node p f (Q : unit -> lstate H -> Prop) E s n :
  ls_nodes s !! p = Some n ->
  Q tt (LState (ls_heap s) (<[p := f n]> (ls_nodes s)) (ls_lists s)) ->
  wp (upd_node p f) Q E s.
Proof. intros Hn HQ. unfold upd_node. wp_steps. eapply wp_node; [done|]. by wp_steps. Qed.

Lemma wp_upd_list p f (Q : unit -> lstate H -> Prop) E s l :
  ls_lists s !! p = Some l ->
  Q tt (LState (ls_heap s) (ls_nodes s) (<[p := f l]> (ls_lists s))) ->
  wp (upd_list p f) Q E s.
Proof. intros Hn HQ. unfold upd_list. wp_steps. eapply wp_listp; [done|]. by wp_steps. Qed.
End steps.

(** Follows the pointers whose targets are known. *)
Ltac ll_lookup := cbn; solve [eassumption | by simplify_map_eq].
Ltac ll_step :=
  wp_steps;
  lazymatch goal with
  | |- wp (node _) _ _ _ => eapply wp_node; [ll_lookup|]
  | |- wp (listp _) _ _ _ => eapply wp_listp; [ll_lookup|]
  | |- wp (upd_node _ _) _ _ _ => eapply wp_upd_node; [ll_lookup|]
  | |- wp (upd_list _ _) _ _ _ => eapply wp_upd_list; [ll_lookup|]
  end; cbn [ls_nodes ls_lists ls_heap next prev value owner head tail length
            set_next set_prev set_value set_owner set_head set_tail set_length].
Ltac ll_assert :=
  wp_cond;
  match goal with
  | |- if ?b then _ else _ =>
      replace b with true by (symmetry; unfold NULL;
        first [apply negb_true_iff, Z.eqb_neq; (congruence || lia)
              |apply Z.eqb_eq; (congruence || lia)])
  end.

(** What an operation on list [l] leaves alone: every other list. *)
Definition others {H} (l : Z) (s s' : lstate H) : Prop :=
  forall l2 ns2, l2 <> l -> dll s l2 ns2 -> dll s' l2 ns2.

Lemma others_intro {H} l (s s' : lstate H) :
  (forall l2, l2 <> l -> ls_lists s' !! l2 = ls_lists s !! l2) ->
  (forall a n, ls_nodes s !! a = Some n -> owner n <> l -> owner n <> 0 ->
     ls_nodes s' !! a = Some n) ->
  others l s s'.
Proof.
  intros Hl Hn l2 ns2 Hne [H0 Hh Hs Hd]. split; [done|by rewrite Hl| |done].
  eapply seg_frame; [|done]. intros a Ha.
  destruct (seg_lookup _ _ _ _ _ _ Hs Ha) as (_ & n & Hna & Ho).
  rewrite Hna. apply Hn; [done|congruence|congruence].
Qed.

Lemma others_trans {H} l (s1 s2 s3 : lstate H) :
  others l s1 s2 -> others l s2 s3 -> others l s1 s3.
Proof. intros H1 H2 l2 ns2 Hne Hd. eauto. Qed.

Lemma dll_not_owned {H} (s : lstate H) l ns a n :
  dll s l ns -> ls_nodes s !! a = Some n -> owner n <> l -> a ∉ map fst ns.
Proof.
  intros [_ _ Hs _] Hn Ho Hin.
  destruct (seg_lookup _ _ _ _ _ _ Hs Hin) as (_ & n' & Hn' & Ho'). congruence.
Qed.

(** The parts of the store that list operations do not touch. *)
Definition same_objects {H} (s s' : lstate H) : Prop :=
  ls_heap s' = ls_heap s /\ dom (ls_nodes s') = dom (ls_nodes s) /\
  dom (ls_lists s') = dom (ls_lists s).

Ltac same_solve :=
  split_and!; cbn; [done| |];
  rewrite ?dom_insert_lookup_L;
  solve [done | rewrite ?lookup_insert; repeat case_decide; eauto].

Lemma fst_app_one (xs : list (Z * Z)) b w :
  map fst (xs ++ [(b, w)]) = map fst xs ++ [b].
Proof. by rewrite map_app. Qed.

Lemma nodup_snoc (ns : list (Z * Z)) a v :
  NoDup (map fst ns) -> a ∉ map fst ns -> NoDup (map fst (ns ++ [(a, v)])).
Proof.
  intros Hnd Ha. rewrite fst_app_one. apply NoDup_app. split_and!; [done| |].
  - intros x Hx Hx'. apply list_elem_of_singleton in Hx' as ->. done.
  - apply NoDup_singleton.
Qed.

Section append.
Context {H : Type} `{KHeap H}.
Implicit Types (s : lstate H).

Lemma wp_list_append s l ns nd pv v :
  dll s l ns -> nd <> 0 ->
  ls_nodes s !! nd = Some (Node 0 pv v 0) ->
  Z.of_nat (base.length ns) + 1 < 2 ^ 32 ->
  wp (list_append l nd) (fun _ s' =>
    dll s' l (ns ++ [(nd, v)]) /\ others l s s' /\ same_objects s s') never s.
Proof.
  intros Hd Hnd Hn Hlen. pose proof Hd as [Hl0 Hh Hs Hnodup].
  assert (nd ∉ map fst ns) as Hnew.
  { eapply dll_not_owned; [exact Hd|exact Hn|]. cbn. congruence. }
  unfold list_append. ll_assert. ll_assert. ll_step. ll_assert. ll_step. ll_step.
  wp_cond. destruct (Z.eqb_spec (Z.of_nat (base.length ns)) 0) as [E|E].
  - destruct ns as [|? ns]; [|done]. repeat ll_step.
    rewrite u32_small by (unfold is_u32; cbn; lia). cbn in *. split; [|split].
    + split; [done| | |]; cbn.
      * by rewrite lookup_insert_eq.
      * split; [done|]. split; [|done]. by rewrite lookup_insert_eq.
      * by apply NoDup_singleton.
    + apply others_intro; cbn.
      * intros l2 Hl2. by simplify_map_eq.
      * intros a n Ha Ho1 Ho2. assert (a <> nd) by (intros ->; simplify_eq). by simplify_map_eq.
    + same_solve.
  - destruct ns as [|[b w] xs _] using rev_ind; [done|].
    rewrite last_app in *. cbn [last] in *.
    assert (nd <> b) as Hnb.
    { intros ->. apply Hnew. rewrite fst_app_one. set_solver. }
    pose proof Hs as [Hxs Hb]%seg_app. destruct Hb as (Hb0 & Hbn & _).
    repeat ll_step. rewrite u32_small by (unfold is_u32; lia).
    split; [|split].
    + split; [done| | |]; cbn.
      * rewrite lookup_insert_eq, !last_app, !first_app. cbn.
        rewrite !length_app in *. unfold set_length, set_tail. cbn. do 2 f_equal. lia.
      * apply seg_app. cbn. rewrite last_app. cbn. rewrite lookup_insert_eq. split; [|done].
        eapply seg_frame; [|by apply (seg_relink_last (ls_nodes s) l 0 xs b w 0 nd)].
        intros a Ha. assert (a <> nd) by (intros ->; done).
        destruct (decide (a = b)) as [->|]; by simplify_map_eq.
      * by apply nodup_snoc.
    + apply others_intro; cbn.
      * intros l2 Hl2. by simplify_map_eq.
      * intros a n Ha Ho1 Ho2. assert (a <> nd) by (intros ->; simplify_eq).
        assert (a <> b) by (intros ->; simplify_eq). by simplify_map_eq.
    + same_solve.
Qed.
End append.

(** ** Unlinking a node *)

(** [if (p) p->... = ...]. *)
Definition adj (p : Z) (f : node_t -> node_t) (m : gmap Z node_t) : gmap Z node_t :=
  if p =? 0 then m else alter f p m.

Lemma adj_ne p f m k : k <> p -> adj p f m !! k = m !! k.
Proof.
  intros Hk. unfold adj. destruct (p =? 0); [done|]. by rewrite lookup_alter_ne.
Qed.

Lemma adj_ne0 p f m k : (p <> 0 -> k <> p) -> adj p f m !! k = m !! k.
Proof.
  intros Hk. unfold adj. destruct (Z.eqb_spec p 0); [done|].
  rewrite lookup_alter_ne; [done|]. intros ->. by apply Hk.
Qed.

Lemma adj_eq p f m : p <> 0 -> adj p f m !! p = f <$> m !! p.
Proof. intros Hp. unfold adj. rewrite (proj2 (Z.eqb_neq p 0)) by done. by rewrite lookup_alter_eq. Qed.

Lemma dom_adj p f m : dom (adj p f m) = dom m.
Proof. unfold adj. destruct (p =? 0); [done|]. by rewrite dom_alter_L. Qed.

Lemma seg_unlink_left m l xs nx nx' :
  NoDup (map fst xs) -> seg m l 0 xs nx ->
  seg (adj (last 0 xs) (set_next nx') m) l 0 xs nx'.
Proof.
  intros Hnd Hs. destruct xs as [|[b w] xs _] using rev_ind; [done|].
  pose proof Hs as [_ (Hb0 & Hb & _)]%seg_app. cbn in Hb.
  rewrite last_app. cbn. unfold adj. rewrite (proj2 (Z.eqb_neq b 0)) by done.
  replace (alter (set_next nx') b m) with (<[b := Node nx' (last 0 xs) w l]> m).
  - by eapply seg_relink_last.
  - apply map_eq. intros k. destruct (decide (k = b)) as [->|].
    + by rewrite lookup_insert_eq, lookup_alter_eq, Hb.
    + by rewrite lookup_insert_ne, lookup_alter_ne.
Qed.

Lemma seg_unlink_right m l pv pv' ys nx :
  NoDup (map fst ys) -> seg m l pv ys nx ->
  seg (if decide (ys = []) then m else adj (first ys nx) (set_prev pv') m) l pv' ys nx.
Proof.
  intros Hnd Hs. destruct ys as [|[c u] ys]; [done|].
  rewrite decide_False by done. pose proof Hs as (Hc0 & Hc & _). cbn.
  unfold adj. rewrite (proj2 (Z.eqb_neq c 0)) by done.
  replace (alter (set_prev pv') c m) with (<[c := Node (first ys nx) pv' u l]> m).
  - by apply (seg_relink_first m l pv).
  - apply map_eq. intros k. destruct (decide (k = c)) as [->|].
    + by rewrite lookup_insert_eq, lookup_alter_eq, Hc.
    + by rewrite lookup_insert_ne, lookup_alter_ne.
Qed.

Lemma first_in ys nx : ys <> [] -> first ys nx ∈ map fst ys.
Proof. destruct ys as [|[a v] ys]; [done|]. by left. Qed.

(** The store after both neighbours of [a] have been redirected past it. *)
Lemma seg_delete m l xs a v ys n :
  NoDup (map fst (xs ++ (a, v) :: ys)) ->
  seg m l 0 (xs ++ (a, v) :: ys) 0 ->
  seg (<[a := n]> (adj (first ys 0) (set_prev (last 0 xs))
        (adj (last 0 xs) (set_next (first ys 0)) m))) l 0 (xs ++ ys) 0.
Proof.
  rewrite map_app. cbn. intros (Hx & Hdis & [Hay Hy]%NoDup_cons)%NoDup_app Hs.
  apply seg_app in Hs as [Hsx (Ha0 & Hna & Hsy)]. apply seg_app.
  assert (a ∉ map fst xs) as Hax.
  { intros Hin. apply (Hdis a Hin). by left. }
  split.
  - eapply seg_frame; [|by eapply seg_unlink_left]. intros k Hk.
    rewrite lookup_insert_ne by (intros <-; done). apply adj_ne.
    destruct ys as [|[c u] ys]; cbn; [|intros ->; apply (Hdis c Hk); right; by left].
    intros ->. by destruct (seg_lookup _ _ _ _ _ _ Hsx Hk).
  - destruct (decide (ys = [])) as [->|Hys]; [done|].
    pose proof (seg_unlink_right m l a (last 0 xs) ys 0 Hy Hsy) as Hsy'.
    rewrite decide_False in Hsy' by done.
    eapply seg_frame; [|exact Hsy']. intros k Hk.
    rewrite lookup_insert_ne by (intros <-; done).
    assert (k <> last 0 xs) as Hkl.
    { intros ->. destruct (decide (xs = [])) as [->|Hxs].
      - by destruct (seg_lookup _ _ _ _ _ _ Hsy Hk).
      - apply (Hdis (last 0 xs)); [by apply last_in|by right]. }
    destruct (decide (k = first ys 0)) as [->|Hkf]; [|by rewrite !adj_ne].
    destruct (seg_lookup _ _ _ _ _ _ Hsy (first_in ys 0 Hys)) as [Hf0 _].
    by rewrite !adj_eq, adj_ne by done.
Qed.

Section delete.
Context {H : Type} `{KHeap H}.
Implicit Types (s : lstate H).

Lemma wp_when_list (b : bool) p f (Q : unit -> lstate H -> Prop) E s l :
  ls_lists s !! p = Some l ->
  Q tt (LState (ls_heap s) (ls_nodes s) (<[p := if b then f l else l]> (ls_lists s))) ->
  wp (if b then upd_list p f else ret tt) Q E s.
Proof.
  intros Hl HQ. wp_cond. destruct b; [by eapply wp_upd_list|]. wp_steps.
  rewrite insert_id in HQ by done. by destruct s.
Qed.

Lemma wp_when_node p f (Q : unit -> lstate H -> Prop) E s :
  (p <> 0 -> is_Some (ls_nodes s !! p)) ->
  Q tt (LState (ls_heap s) (adj p f (ls_nodes s)) (ls_lists s)) ->
  wp (if negb (p =? NULL) then upd_node p f else ret tt) Q E s.
Proof.
  unfold adj, NULL. intros Hp HQ. wp_cond. destruct (Z.eqb_spec p 0) as [->|Hp0]; cbn.
  - wp_steps. by destruct s.
  - destruct (Hp Hp0) as [n Hn]. eapply wp_upd_node; [done|].
    replace (<[p := f n]> (ls_nodes s)) with (alter f p (ls_nodes s)); [done|].
    apply map_eq. intros k. destruct (decide (k = p)) as [->|].
    + by rewrite lookup_insert_eq, lookup_alter_eq, Hn.
    + by rewrite lookup_insert_ne, lookup_alter_ne.
Qed.

Lemma head_is_first xs (a v : Z) ys :
  NoDup (map fst (xs ++ (a, v) :: ys)) ->
  (a =? first (xs ++ (a, v) :: ys) 0) = bool_decide (xs = []).
Proof.
  destruct xs as [|[b w] xs]; cbn; [by rewrite Z.eqb_refl|].
  intros [Hb _]%NoDup_cons. apply Z.eqb_neq. intros ->. apply Hb.
  rewrite map_app. set_solver.
Qed.

Lemma tail_is_last xs (a v : Z) ys :
  NoDup (map fst (xs ++ (a, v) :: ys)) ->
  (a =? last 0 (xs ++ (a, v) :: ys)) = bool_decide (ys = []).
Proof.
  rewrite last_app, map_app. cbn. intros (_ & _ & [Ha _]%NoDup_cons)%NoDup_app.
  destruct (decide (ys = [])) as [->|Hys]; [by rewrite Z.eqb_refl|].
  rewrite bool_decide_eq_false_2 by done. apply Z.eqb_neq. intros Heq.
  apply Ha. rewrite Heq. by apply last_in.
Qed.

(** Deleting a node changes the header to that of the shorter list. *)
Lemma deleted_header xs (a v : Z) ys :
  NoDup (map fst (xs ++ (a, v) :: ys)) ->
  Z.of_nat (base.length (xs ++ (a, v) :: ys)) < 2 ^ 32 ->
  let l0 := ListT (first (xs ++ (a, v) :: ys) 0) (last 0 (xs ++ (a, v) :: ys))
              (Z.of_nat (base.length (xs ++ (a, v) :: ys))) in
  let l1 := if a =? head l0 then set_head (first ys 0) l0 else l0 in
  let l2 := if a =? tail l0 then set_tail (last 0 xs) l1 else l1 in
  set_length (u32 (length l2 - 1)) l2 =
  ListT (first (xs ++ ys) 0) (last 0 (xs ++ ys)) (Z.of_nat (base.length (xs ++ ys))).
Proof.
  intros Hnd Hlen l0 l1 l2. subst l0 l1 l2. cbn [head tail].
  rewrite head_is_first, tail_is_last by done.
  rewrite !length_app, !first_app, !last_app in *. cbn in *.
  assert (forall z, u32 (z - 1) = z - 1 \/ z < 1 \/ 2 ^ 32 <= z) as Hu.
  { intros z. destruct (Z.lt_ge_cases z 1); [lia|]. destruct (Z.lt_ge_cases z (2 ^ 32)); [|lia].
    left. apply u32_small. unfold is_u32. lia. }
  destruct xs as [|[b w] xs], ys as [|[c u] ys];
    repeat (rewrite bool_decide_eq_true_2 by done || rewrite bool_decide_eq_false_2 by done);
    unfold set_length, set_head, set_tail; cbn in *; f_equal;
    match goal with |- u32 (?z - 1) = _ => destruct (Hu z) as [->|[|]]; lia end.
Qed.

Lemma wp_list_delete s l xs a v ys :
  dll s l (xs ++ (a, v) :: ys) ->
  Z.of_nat (base.length (xs ++ (a, v) :: ys)) < 2 ^ 32 ->
  wp (list_delete l a) (fun _ s' =>
    dll s' l (xs ++ ys) /\ ls_nodes s' !! a = Some (Node 0 0 v 0) /\
    others l s s' /\ same_objects s s') never s.
Proof.
  intros Hd Hlen. pose proof Hd as [Hl0 Hh Hs Hnd].
  pose proof Hs as [Hsx (Ha0 & Hna & Hsy)]%seg_app.
  assert (forall p, p = last 0 xs \/ p = first ys 0 -> p <> 0 ->
    (exists n, ls_nodes s !! p = Some n /\ owner n = l) /\ p <> a) as Hnb.
  { rewrite map_app in Hnd. cbn in Hnd.
    apply NoDup_app in Hnd as (_ & Hdis & [Hay _]%NoDup_cons).
    intros p [->| ->] Hp.
    - destruct (decide (xs = [])) as [->|Hxs]; [done|].
      pose proof (last_in 0 xs Hxs) as Hin.
      destruct (seg_lookup _ _ _ _ _ _ Hsx Hin) as (_ & n & Hn & Ho).
      split; [by exists n|]. intros Heq. rewrite Heq in Hin.
      apply (Hdis a Hin). by left.
    - destruct (decide (ys = [])) as [->|Hys]; [done|].
      pose proof (first_in ys 0 Hys) as Hin.
      destruct (seg_lookup _ _ _ _ _ _ Hsy Hin) as (_ & n & Hn & Ho).
      split; [by exists n|]. by intros <-. }
  unfold list_delete. ll_step. ll_assert. ll_step. wp_steps.
  eapply wp_when_list; [done|]. wp_steps. eapply wp_when_list; [ll_lookup|].
  wp_steps. apply wp_when_node; cbn.
  { intros Hp. destruct (Hnb (last 0 xs) (or_introl eq_refl) Hp) as [(n & Hn & _) _]. eauto. }
  wp_steps. eapply wp_node; cbn.
  { destruct (decide (last 0 xs = 0)) as [E|E].
    - rewrite adj_ne; [done|]. by rewrite E.
    - rewrite adj_ne; [done|]. intros Heq. by apply (Hnb (last 0 xs) (or_introl eq_refl) E). }
  apply wp_when_node; cbn.
  { intros Hp. destruct (Hnb (first ys 0) (or_intror eq_refl) Hp) as [(n & Hn & _) _].
    rewrite <- elem_of_dom, dom_adj, elem_of_dom. eauto. }
  set (m2 := adj (first ys 0) _ _).
  assert (m2 !! a = Some (Node (first ys 0) (last 0 xs) v l)) as Hm2.
  { subst m2. destruct (decide (first ys 0 = 0)) as [E|E].
    - rewrite adj_ne by (by rewrite E).
      destruct (decide (last 0 xs = 0)) as [E'|E']; rewrite adj_ne; try done;
        [by rewrite E'|]. intros Heq. by apply (Hnb (last 0 xs) (or_introl eq_refl) E').
    - rewrite adj_ne by (intros Heq; by apply (Hnb (first ys 0) (or_intror eq_refl) E)).
      destruct (decide (last 0 xs = 0)) as [E'|E']; rewrite adj_ne; try done;
        [by rewrite E'|]. intros Heq. by apply (Hnb (last 0 xs) (or_introl eq_refl) E'). }
  repeat ll_step. rewrite !insert_insert_eq.
  assert (NoDup (map fst (xs ++ ys))) as Hnd'.
  { rewrite map_app in *. cbn in Hnd. apply NoDup_app in Hnd as (? & Hdis & [_ ?]%NoDup_cons).
    apply NoDup_app. split_and!; [done| |done]. intros k Hk Hk'. apply (Hdis k Hk). by right. }
  split_and!.
  - split; [done| | |done]; cbn.
    + rewrite lookup_insert_eq. f_equal. by apply deleted_header.
    + subst m2. by eapply seg_delete.
  - cbn. by rewrite lookup_insert_eq.
  - apply others_intro; cbn.
    + intros l2 Hl2. by rewrite !lookup_insert_ne.
    + intros k n Hk Ho1 Ho2. rewrite lookup_insert_ne by (intros ->; simplify_eq).
      assert (forall p, p = last 0 xs \/ p = first ys 0 -> p <> 0 -> k <> p) as Hkp.
      { intros p Hp Hp0 ->. destruct (Hnb p Hp Hp0) as [(n' & Hn' & ?) _]. simplify_eq. }
      subst m2. rewrite !adj_ne0; auto.
  - split_and!; cbn; [done| |].
    + rewrite dom_insert_lookup_L by eauto. subst m2. by rewrite !dom_adj.
    + rewrite !dom_insert_lookup_L; rewrite ?lookup_insert; repeat case_decide; eauto.
Qed.
End delete.

(** ** Operations that allocate and free nodes *)

(** Nodes and lists are live objects of the heap, and no address is both. *)
Record ls_ok {H} `{KHeap H} (s : lstate H) : Prop := LsOk {
  ls_heap_ok : heap_ok (ls_heap s);
  ls_nodes_live : dom (ls_nodes s) ⊆ heap_live (ls_heap s);
  ls_lists_live : dom (ls_lists s) ⊆ heap_live (ls_heap s);
  ls_disjoint : dom (ls_nodes s) ## dom (ls_lists s);
}.

(** [list_remove] on the sequence: the first node with the value goes. *)
Fixpoint remove_value (v : Z) (ns : list (Z * Z)) : list (Z * Z) :=
  match ns with
  | [] => []
  | (a, w) :: ns' => if w =? v then ns' else (a, w) :: remove_value v ns'
  end.

Lemma remove_value_app v xs ys :
  (v ∉ map snd xs) -> remove_value v (xs ++ ys) = xs ++ remove_value v ys.
Proof.
  induction xs as [|[a w] xs IH]; cbn; [done|]. intros [Hw Hxs]%not_elem_of_cons.
  rewrite (proj2 (Z.eqb_neq w v)) by done. by rewrite IH.
Qed.

Lemma remove_value_notin v xs : (v ∉ map snd xs) -> remove_value v xs = xs.
Proof.
  intros Hv. rewrite <- (app_nil_r xs) at 1. rewrite remove_value_app by done. apply app_nil_r.
Qed.

Section alloc.
Context {H : Type} `{KHeapLaws H}.
Implicit Types (s : lstate H).

Lemma same_objects_ok s s' : same_objects s s' -> ls_ok s -> ls_ok s'.
Proof. intros (Hh & Hn & Hl) []. split; by rewrite ?Hh, ?Hn, ?Hl. Qed.

Lemma dll_length_bound s l ns :
  dll s l ns -> (base.length ns <= size (ls_nodes s))%nat.
Proof.
  intros [_ _ Hs Hnd]. rewrite <- (length_map fst ns).
  rewrite <- (size_list_to_set (C := gset Z)) by done.
  rewrite <- size_dom. apply subseteq_size. intros a Ha.
  apply elem_of_list_to_set in Ha.
  destruct (seg_lookup _ _ _ _ _ _ Hs Ha) as (_ & n & Hn & _).
  by apply elem_of_dom_2 in Hn.
Qed.

Lemma dll_node s l xs a v ys :
  dll s l (xs ++ (a, v) :: ys) ->
  a <> 0 /\ ls_nodes s !! a = Some (Node (first ys 0) (last 0 xs) v l).
Proof. intros [_ _ Hs _]. apply seg_app in Hs as [_ (Ha & Hn & _)]. done. Qed.

Lemma dll_count s l ns : ls_ok s -> dll s l ns -> Z.of_nat (base.length ns) < 2 ^ 32.
Proof.
  intros [Hh Hn _ _] [_ _ Hs Hnd]. rewrite <- (length_map fst ns).
  apply (heap_live_count (ls_heap s)); [done|done|]. intros a Ha.
  destruct (seg_lookup _ _ _ _ _ _ Hs Ha) as (_ & n & Hna & _).
  apply Hn. by apply elem_of_dom_2 in Hna.
Qed.

Lemma wp_new_node s :
  ls_ok s ->
  wp new_node (fun p s' =>
    ls_ok s' /\ p <> 0 /\ ls_nodes s !! p = None /\
    ls_nodes s' !! p = Some (Node 0 0 0 0) /\
    (forall l, others l s s') /\ (forall l ns, dll s l ns -> dll s' l ns) /\
    heap_live (ls_heap s) ⊆ heap_live (ls_heap s'))
    only_nomem s.
Proof.
  intros [Hh Hn Hl Hdis]. unfold new_node. wp_steps. apply wp_zoom.
  wp_apply kcalloc_spec; [done|lia| |done]. intros p h (Hh' & Hp & Hfresh & Hlive).
  cbn [lset heap_lens ls_heap ls_nodes ls_lists]. wp_steps.
  cbn [lset lget heap_lens ls_heap ls_nodes ls_lists] in *.
  assert (ls_nodes s !! p = None) as Hnone.
  { apply not_elem_of_dom. set_solver. }
  assert (forall l, others l s (LState h (<[p:=Node 0 0 0 0]> (ls_nodes s)) (ls_lists s))) as Ho.
  { intros l. apply others_intro; cbn; [done|]. intros a n Ha _ _.
    by rewrite lookup_insert_ne by (intros ->; congruence). }
  split_and!; [|lia|done|by rewrite lookup_insert_eq|done| |].
  - split; cbn; [done| | |]; rewrite ?dom_insert_L; set_solver.
  - intros l ns Hd. apply (Ho (l + 1)); [lia|done].
  - cbn. set_solver.
Qed.

(** [list_init] makes an empty list and leaves the others. *)
Lemma wp_list_init s :
  ls_ok s ->
  wp list_init (fun l s' =>
    ls_ok s' /\ dll s' l [] /\ ls_lists s !! l = None /\
    (forall l2 ns, dll s l2 ns -> dll s' l2 ns) /\
    heap_live (ls_heap s) ⊆ heap_live (ls_heap s')) only_nomem s.
Proof.
  intros [Hh Hn Hl Hdis]. unfold list_init. wp_steps. apply wp_zoom.
  wp_apply kcalloc_spec; [done|lia| |done]. intros p h (Hh' & Hp & Hfresh & Hlive).
  ll_assert. wp_steps. cbn [lset lget heap_lens ls_heap ls_nodes ls_lists] in *.
  assert (ls_lists s !! p = None) as Hnone by (apply not_elem_of_dom; set_solver).
  split_and!; [|split|done| |cbn; set_solver]; cbn.
  - split; cbn; [done| | |]; rewrite ?dom_insert_L; set_solver.
  - lia.
  - by rewrite lookup_insert_eq.
  - done.
  - by apply NoDup_nil_2.
  - intros l2 ns [Hl0 Hhd Hs Hnd]. split; cbn; [done| |done|done].
    rewrite lookup_insert_ne; [done|]. intros <-. congruence.
Qed.

(** Freeing a node that is on no list. *)
Lemma wp_free_node s a v :
  ls_ok s -> ls_nodes s !! a = Some (Node 0 0 v 0) ->
  wp (free_node a) (fun _ s' => ls_ok s' /\ (forall l ns, dll s l ns -> dll s' l ns) /\
    ls_nodes s' = delete a (ls_nodes s) /\ ls_lists s' = ls_lists s) never s.
Proof.
  intros [Hh Hn Hl Hdis] Ha. pose proof (elem_of_dom_2 _ _ _ Ha) as Hda.
  unfold free_node. wp_steps. apply wp_zoom.
  wp_apply kfree_spec; [done|set_solver| |done]. intros [] h [Hh' Hlive]. wp_steps.
  split_and!; [|intros l ns Hd|done|done].
  - split; cbn; [done| | |]; rewrite ?dom_delete_L; set_solver.
  - eapply (others_intro (l + 1)); [| |  |exact Hd]; cbn; [done| |lia].
    intros k n Hk _ Ho2. rewrite lookup_delete_ne; [done|]. intros ->. by simplify_eq.
Qed.

Lemma wp_list_insert s l ns v :
  ls_ok s -> dll s l ns -> v <> 0 ->
  wp (list_insert l v) (fun p s' =>
    ls_ok s' /\ dll s' l (ns ++ [(p, v)]) /\ others l s s' /\ ls_nodes s !! p = None /\
    heap_live (ls_heap s) ⊆ heap_live (ls_heap s'))
    only_nomem s.
Proof.
  intros Hok Hd Hv. unfold list_insert. pose proof (dll_nonnull _ _ _ Hd).
  ll_assert. ll_assert. wp_apply wp_new_node; [done| |done].
  intros p s1 (Hok1 & Hp & Hnone & Hp1 & Hoth & Hdll & Hlive1). ll_assert. ll_step. wp_steps.
  assert (Z.of_nat (base.length ns) + 1 < 2 ^ 32) as Hlen.
  { destruct Hok1 as [Hh1 Hn1 _ _]. pose proof (Hdll _ _ Hd) as [_ _ Hs Hnd].
    pose proof (heap_live_count (ls_heap s1) (p :: map fst ns) Hh1) as Hc.
    cbn [base.length] in Hc. rewrite length_map in Hc.
    enough (Z.of_nat (S (base.length ns)) < 2 ^ 32) by lia. apply Hc.
    - constructor; [|done]. intros Hin.
      destruct (seg_lookup _ _ _ _ _ _ (dll_seg _ _ _ Hd) Hin) as (_ & n & Hna & _). congruence.
    - intros a [->|Ha]%elem_of_cons; [by apply Hn1; apply elem_of_dom_2 in Hp1|].
      destruct (seg_lookup _ _ _ _ _ _ Hs Ha) as (_ & n & Hna & _).
      apply Hn1. by apply elem_of_dom_2 in Hna. }
  set (s2 := LState _ _ _).
  assert (others l s1 s2 /\ dll s2 l ns) as [Hoth2 Hd2].
  { assert (forall l', others l' s1 s2) as Ho2.
    { intros l'. apply others_intro; cbn; [done|]. intros a n Ha _ Ho.
      rewrite lookup_insert_ne; [done|]. intros ->. by simplify_eq. }
    split; [done|]. apply (Ho2 (l + 1)); [lia|by apply Hdll]. }
  eapply wp_mono; [apply (wp_list_append s2 l ns p 0 v)| |by intros e []]; [done|done| |done|].
  { cbn. by rewrite lookup_insert_eq. }
  cbv beta. intros _ s3 (Hd3 & Ho3 & Hsame). wp_steps. split_and!; [|done| |done|by rewrite (proj1 Hsame)].
  - eapply same_objects_ok; [exact Hsame|]. destruct Hok1. subst s2. split; cbn; [done| | |];
      rewrite ?dom_insert_lookup_L by eauto; done.
  - eapply others_trans; [apply Hoth|]. eapply others_trans; [exact Hoth2|exact Ho3].
Qed.

Lemma wp_list_delete_free {B} s l xs a v ys (k : M (lstate H) B) Q E :
  ls_ok s -> dll s l (xs ++ (a, v) :: ys) ->
  (forall s', ls_ok s' -> dll s' l (xs ++ ys) -> others l s s' -> wp k Q E s') ->
  wp (list_delete l a >>> free_node a >>> k) Q E s.
Proof.
  intros Hok Hd Hk. pose proof (dll_count _ _ _ Hok Hd) as Hlen.
  wp_apply (wp_list_delete s l xs a v ys); [done|done| |by intros e []].
  intros [] s1 (Hd1 & Ha1 & Ho1 & Hsame). pose proof (same_objects_ok _ _ Hsame Hok) as Hok1.
  wp_apply (wp_free_node s1 a v); [done|done| |by intros e []].
  intros [] s2 (Hok2 & Hd2 & _). apply Hk; [done|by apply Hd2|].
  intros l2 ns2 Hne H2. by apply Hd2, Ho1.
Qed.

Lemma wp_list_remove s l ns v :
  ls_ok s -> dll s l ns ->
  wp (list_remove l v) (fun _ s' =>
    ls_ok s' /\ dll s' l (remove_value v ns) /\ others l s s') never s.
Proof.
  intros Hok Hd. unfold list_remove. pose proof Hd as [_ Hh _ _]. ll_step. wp_steps.
  match goal with |- wp (loop _ ?b _) _ _ _ => set (body := b) end.
  enough (forall ys xs fuel, ns = xs ++ ys -> (v ∉ map snd xs) -> (base.length ys < fuel)%nat ->
    wp (loop fuel body (first ys 0)) (fun _ s' =>
      ls_ok s' /\ dll s' l (remove_value v ns) /\ others l s s') never s) as Hgen.
  { cbn. apply (Hgen ns []); [done|apply not_elem_of_nil|].
    pose proof (dll_length_bound _ _ _ Hd). unfold chain_fuel. lia. }
  clear - Hok Hd H H0 H1.
  induction ys as [|[a w] ys IH]; intros xs [|fuel] Hns Hxs Hf; cbn in Hf; try lia;
    apply wp_loop_step; unfold body.
  - cbn. wp_steps. rewrite app_nil_r in Hns. subst ns. rewrite remove_value_notin by done.
    split_and!; [done|done|by intros l2 ns2].
  - rewrite Hns in Hd. destruct (dll_node _ _ _ _ _ _ Hd) as [Ha Hn]. cbn [first]. wp_cond.
    unfold NULL. rewrite (proj2 (Z.eqb_neq a 0)) by done. ll_step. wp_cond.
    destruct (Z.eqb_spec w v) as [->|Hw].
    + eapply wp_list_delete_free; [done|done|].
      intros s' Hok' Hd' Ho. wp_steps. rewrite Hns, remove_value_app by done. cbn.
      by rewrite Z.eqb_refl.
    + wp_steps. apply (IH (xs ++ [(a, w)])); [by rewrite <- app_assoc| |lia].
      rewrite map_app. cbn. set_solver.
Qed.

(** [list_dequeue] takes the first value, and panics on an empty list. *)
Lemma wp_list_dequeue s l a v ns :
  ls_ok s -> dll s l ((a, v) :: ns) ->
  wp (list_dequeue l) (fun r s' => r = v /\ ls_ok s' /\ dll s' l ns /\ others l s s') never s.
Proof.
  intros Hok Hd. pose proof Hd as [Hl0 Hh _ _]. unfold list_dequeue.
  pose proof (dll_count _ _ _ Hok Hd) as Hlen.
  destruct (dll_node s l [] a v ns Hd) as [Ha _].
  ll_assert. ll_step. cbn [first]. ll_assert.
  wp_apply (wp_list_delete s l [] a v ns); [done|done| |by intros e []].
  intros [] s1 (Hd1 & Ha1 & Ho1 & Hsame). pose proof (same_objects_ok _ _ Hsame Hok) as Hok1.
  ll_step. wp_apply (wp_free_node s1 a v); [done|done| |by intros e []].
  intros [] s2 (Hok2 & Hd2 & _). wp_steps. split_and!; [done|done|by apply Hd2|].
  intros l2 ns2 Hne H2. by apply Hd2, Ho1.
Qed.

Lemma list_dequeue_empty s l :
  dll s l [] -> list_dequeue l s = Err AssertFail.
Proof.
  intros [Hl0 Hh _ _]. unfold list_dequeue, bind, kassert, listp, gets, some, bind.
  unfold NULL. rewrite (proj2 (Z.eqb_neq l 0)) by done. cbn. by rewrite Hh.
Qed.

(** [list_free] gives back the nodes of a list whose values are all NULL and
    panics on any other; the list object itself stays. *)
Lemma wp_list_free s l ns :
  ls_ok s -> dll s l ns -> Forall (fun p => p.2 = 0) ns ->
  wp (list_free l) (fun _ s' =>
    ls_ok s' /\ others l s s' /\ ls_lists s' = ls_lists s /\
    dom (ls_nodes s') = dom (ls_nodes s) ∖ list_to_set (map fst ns)) never s.
Proof.
  intros Hok Hd HF. unfold list_free. pose proof (dll_length_bound _ _ _ Hd) as Hlen.
  pose proof Hd as [Hl0 Hh Hs Hnd]. ll_step. wp_steps.
  assert (base.length ns < chain_fuel s)%nat as Hf by (unfold chain_fuel; lia).
  revert Hf. generalize (chain_fuel s) as fuel. clear Hd Hh Hlen. revert s Hok Hs.
  cbn [head]. match goal with |- context [loop _ ?b _] => set (body := b) end.
  generalize 0 at 1 as pv.
  induction ns as [|[a v] ns IH]; intros pv s Hok Hs [|fuel] Hf; cbn in Hf; try lia;
    apply wp_loop_step; cbn [first]; unfold body at 1.
  - cbn. wp_steps. split_and!; [done|by intros l2 ns2|done|set_solver].
  - destruct Hs as (Ha & Hn & Hs). apply Forall_cons in HF as [Hv HF]. cbn in Hv. subst v.
    apply NoDup_cons in Hnd as [Hna Hnd]. wp_cond.
    unfold NULL at 1. rewrite (proj2 (Z.eqb_neq a 0)) by done. ll_step. wp_cond. cbn [value].
    destruct Hok as [Hh Hln Hll Hdis]. pose proof (elem_of_dom_2 _ _ _ Hn) as Hda.
    change (0 =? NULL) with true. unfold free_node at 1. wp_steps. apply wp_zoom.
    wp_apply kfree_spec; [done|set_solver| |done]. intros [] h [Hh' Hlive]. wp_steps.
    cbn [lset lget heap_lens ls_heap ls_nodes ls_lists].
    eapply wp_mono; [apply (IH HF Hnd a)| |done]; [..|lia|]; cbn [ls_heap ls_nodes ls_lists].
    + split; cbn; [done| | |]; rewrite ?dom_delete_L; set_solver.
    + eapply seg_frame; [|done]. intros k Hk. rewrite lookup_delete_ne; [done|]. by intros ->.
    + intros [] s' (Hok' & Ho & Hsl & Hdom). cbn in *. split_and!; [done| |done|].
      * eapply others_trans; [|exact Ho]. apply others_intro; cbn; [done|].
        intros k n Hk Ho1 _. rewrite lookup_delete_ne; [done|]. intros ->. by simplify_eq.
      * rewrite Hdom, dom_delete_L. set_solver.
Qed.

Lemma list_free_panics s l a v ns :
  dll s l ((a, v) :: ns) -> v <> 0 -> list_free l s = Err AssertFail.
Proof.
  intros Hd Hv. pose proof Hd as [Hl0 Hh _ _]. destruct (dll_node s l [] a v ns Hd) as [Ha Hn].
  unfold list_free, bind, listp, gets, some, bind. rewrite Hh. unfold chain_fuel.
  Transparent loop. cbn. Opaque loop. unfold NULL. rewrite (proj2 (Z.eqb_neq a 0)) by done.
  unfold bind, node, gets, some, bind. cbn in Hn. rewrite Hn. cbn.
  by rewrite (proj2 (Z.eqb_neq v 0)).
Qed.
End alloc.

(** ** Refinement: lists are sequences of values *)

Inductive list_op : Type :=
  | OpInsert (l v : Z)
  | OpRemove (l v : Z)
  | OpDequeue (l : Z).

(** The contract: a finite map from list objects to their values in order;
    [None] is a panic. *)
Definition spec_op (o : list_op) (A : gmap Z (list Z)) : option (list Z * gmap Z (list Z)) :=
  match o with
  | OpInsert l v =>
      vs ← A !! l; if v =? 0 then None else Some ([], <[l := vs ++ [v]]> A)
  | OpRemove l v =>
      vs ← A !! l;
      Some ([], <[l := match list_find (eq v) vs with
                       | Some (i, _) => take i vs ++ drop (S i) vs
                       | None => vs end]> A)
  | OpDequeue l =>
      vs ← A !! l;
      match vs with [] => None | v :: vs' => Some ([v], <[l := vs']> A) end
  end.

Fixpoint spec_ops (os : list list_op) (A : gmap Z (list Z)) : option (list Z * gmap Z (list Z)) :=
  match os with
  | [] => Some ([], A)
  | o :: os' =>
      '(r, A1) ← spec_op o A; '(r', A2) ← spec_ops os' A1; Some (r ++ r', A2)
  end.

Lemma remove_value_snd v ns :
  map snd (remove_value v ns) =
  match list_find (eq v) (map snd ns) with
  | Some (i, _) => take i (map snd ns) ++ drop (S i) (map snd ns)
  | None => map snd ns end.
Proof.
  induction ns as [|[a w] ns IH]; [done|]. cbn. destruct (decide (v = w)) as [->|Hw].
  - by rewrite Z.eqb_refl.
  - rewrite (proj2 (Z.eqb_neq w v)) by congruence. cbn. rewrite IH. cbn.
    by destruct (list_find (eq v) (map snd ns)) as [[i x]|]; cbn.
Qed.

Section refine.
Context {H : Type} `{KHeapLaws H}.
Implicit Types (s : lstate H) (A : gmap Z (list Z)).

Definition run_op (o : list_op) : M (lstate H) (list Z) :=
  match o with
  | OpInsert l v => list_insert l v >>> ret []
  | OpRemove l v => list_remove l v >>> ret []
  | OpDequeue l => let! v := list_dequeue l in ret [v]
  end.

Fixpoint run_ops (os : list list_op) : M (lstate H) (list Z) :=
  match os with
  | [] => ret []
  | o :: os' =>
      let! r := run_op o in let! r' := run_ops os' in ret (r ++ r')
  end.

(** The store holds a well-formed chain for every list of [A]. *)
Definition represents s A : Prop :=
  ls_ok s /\ forall l vs, A !! l = Some vs -> exists ns, map snd ns = vs /\ dll s l ns.

Definition op_list (o : list_op) : Z :=
  match o with OpInsert l _ | OpRemove l _ | OpDequeue l => l end.

Lemma represents_update s s' A l ns :
  represents s A -> ls_ok s' -> dll s' l ns -> others l s s' ->
  represents s' (<[l := map snd ns]> A).
Proof.
  intros [_ HA] Hok Hd Ho. split; [done|]. intros l2 vs Hl.
  destruct (decide (l2 = l)) as [->|Hne].
  - rewrite lookup_insert_eq in Hl. simplify_eq. eauto.
  - rewrite lookup_insert_ne in Hl by done. destruct (HA _ _ Hl) as (ns2 & <- & H2).
    exists ns2. split; [done|]. by apply Ho.
Qed.

Lemma run_op_refines o s A :
  represents s A -> is_Some (A !! op_list o) ->
  wp (run_op o) (fun r s' => exists A', spec_op o A = Some (r, A') /\ represents s' A' /\
      dom A' = dom A)
    (fun e => e = NoMemory \/ e = AssertFail /\ spec_op o A = None) s.
Proof.
  intros HR [vs Hvs]. pose proof HR as [Hok HA].
  destruct (HA _ _ Hvs) as (ns & <- & Hd).
  assert (forall l vs', A !! l = Some (map snd ns) -> dom (<[l := vs']> A) = dom A) as Hup.
  { intros l vs' Hl. by rewrite dom_insert_lookup_L. }
  destruct o as [l v|l v|l]; cbn in *; rewrite Hvs; cbn.
  - destruct (Z.eqb_spec v 0) as [->|Hv].
    + unfold list_insert. wp_steps. pose proof (dll_nonnull _ _ _ Hd).
      ll_assert. wp_cond. by right.
    + wp_apply wp_list_insert; [done|done|done| |by left].
      intros p s' (Hok' & Hd' & Ho & _). wp_steps. eexists. split; [done|].
      pose proof (represents_update _ _ _ _ _ HR Hok' Hd' Ho) as HR'.
      rewrite map_app in HR'. split; [exact HR'|by apply Hup].
  - wp_apply wp_list_remove; [done|done| |by intros e []].
    intros [] s' (Hok' & Hd' & Ho). wp_steps. eexists. split; [done|].
    rewrite <- remove_value_snd. split; [by eapply represents_update|by apply Hup].
  - destruct ns as [|[a v] ns].
    + apply wp_intro. unfold bind. rewrite (list_dequeue_empty _ _ Hd). by right.
    + wp_apply (wp_list_dequeue s l a v ns); [done|done| |by intros e []].
      intros r s' (-> & Hok' & Hd' & Ho). wp_steps. eexists. split; [done|].
      split; [by eapply represents_update|by apply Hup].
Qed.

Lemma run_ops_refines os : forall s A,
  represents s A -> Forall (fun o => op_list o ∈ dom A) os ->
  wp (run_ops os) (fun r s' => exists A', spec_ops os A = Some (r, A') /\ represents s' A')
    (fun e => e = NoMemory \/ e = AssertFail /\ spec_ops os A = None) s.
Proof.
  induction os as [|o os IH]; intros s A HR HF; cbn; wp_steps; [eauto|].
  apply Forall_cons in HF as [Ho HF]. apply elem_of_dom in Ho.
  eapply wp_mono; [by apply (run_op_refines o s A)| |].
  2:{ intros e [?|[? Hn]]; [by left|right]. split; [done|]. cbn. by rewrite Hn. }
  cbv beta. intros r s1 (A1 & HA1 & HR1 & Hdom). wp_steps.
  eapply wp_mono; [apply (IH s1 A1); [done|by rewrite Hdom]| |].
  2:{ intros e [?|[? Hn]]; [by left|right]. split; [done|]. cbn. rewrite HA1. cbn. by rewrite Hn. }
  cbv beta. intros r' s2 (A2 & HA2 & HR2). wp_steps. exists A2. cbn. rewrite HA1. cbn. by rewrite HA2.
Qed.
End refine.

(** ** Properties *)

(** C18. Any sequence of inserts, removes and dequeues on any number of lists,
    run over any lawful heap, gives the results and the contents that the same
    sequence gives on plain sequences of values, whatever the interleaving of
    the lists; it panics only where the specification has no result or when the
    heap is exhausted, and never by following a bad pointer or looping. *)
Theorem list_operations_refine {H : Type} `{KHeapLaws H} (os : list list_op)
    (s : lstate H) (A : gmap Z (list Z)) :
  represents s A ->
  Forall (fun o => op_list o ∈ dom A) os ->
  wp (run_ops os)
    (fun r s' => exists A', spec_ops os A = Some (r, A') /\ represents s' A')
    (fun e => e = NoMemory \/ e = AssertFail /\ spec_ops os A = None) s.
Proof. intros HR HF. by eapply run_ops_refines. Qed.

(** Unlinking a node in the middle, at either end or alone leaves a
    well-formed chain of the other nodes in order, clears the node's own
    links, allocates and frees nothing and leaves every other list as it was;
    it does not panic. *)
Theorem list_delete_unlinks {H : Type} `{KHeap H} (s : lstate H) (l : Z)
    (xs : list (Z * Z)) (a v : Z) (ys : list (Z * Z)) :
  dll s l (xs ++ (a, v) :: ys) ->
  Z.of_nat (base.length (xs ++ (a, v) :: ys)) < 2 ^ 32 ->
  wp (list_delete l a) (fun _ s' =>
    dll s' l (xs ++ ys) /\ ls_nodes s' !! a = Some (Node 0 0 v 0) /\
    (forall l2 ns2, l2 <> l -> dll s l2 ns2 -> dll s' l2 ns2) /\
    same_objects s s') never s.
Proof. intros Hd Hlen. by apply wp_list_delete. Qed.

(** A store with two empty lists, at 8 and 20. *)
Definition two_lists : lstate bump :=
  LState (Bump 32 {[ 8; 20 ]}) ∅ {[ 8 := ListT 0 0 0; 20 := ListT 0 0 0 ]}.
Definition two_specs : gmap Z (list Z) := {[ 8 := []; 20 := [] ]}.
Definition sample_ops : list list_op :=
  [OpInsert 8 5; OpInsert 20 7; OpInsert 8 6; OpInsert 8 9; OpRemove 8 6;
   OpDequeue 8; OpDequeue 20; OpDequeue 8].

Lemma two_lists_represent : represents two_lists two_specs.
Proof.
  split.
  - split; [split; [done|]|..]; cbn; set_solver.
  - intros l vs Hl. exists []. unfold two_specs in Hl.
    apply lookup_insert_Some in Hl as [[<- <-]|[_ [<- <-]%lookup_singleton_Some]];
      (split; [done|]); split; done || apply NoDup_nil_2.
Qed.

Example sample_run :
  fst <$> match run_ops sample_ops two_lists with Ok r => Some r | Err _ => None end
  = Some [5; 7; 9].
Proof. vm_compute. reflexivity. Qed.

Lemma list_operations_refine_witness :
  wp (run_ops sample_ops)
    (fun r s' => exists A', spec_ops sample_ops two_specs = Some (r, A') /\ represents s' A')
    (fun e => e = NoMemory \/ e = AssertFail /\ spec_ops sample_ops two_specs = None) two_lists.
Proof.
  apply (list_operations_refine sample_ops two_lists two_specs).
  - exact two_lists_represent.
  - apply (bool_decide_eq_true_1 _). vm_compute. reflexivity.
Defined.

(** Three linked nodes on the list at 8. *)
Definition three_nodes : lstate bump :=
  LState (Bump 128 {[ 8; 32; 48; 64 ]})
    {[ 32 := Node 48 0 5 8; 48 := Node 64 32 6 8; 64 := Node 0 48 7 8 ]}
    {[ 8 := ListT 32 64 3 ]}.

Lemma three_nodes_dll : dll three_nodes 8 [(32, 5); (48, 6); (64, 7)].
Proof.
  split; [done|reflexivity| |].
  - repeat split; try done; lia.
  - repeat constructor; set_solver.
Qed.

Lemma list_delete_unlinks_witness :
  dll three_nodes 8 ([(32, 5)] ++ (48, 6) :: [(64, 7)]) /\
  wp (list_delete 8 48) (fun _ s' =>
    dll s' 8 ([(32, 5)] ++ [(64, 7)]) /\ ls_nodes s' !! 48 = Some (Node 0 0 6 0) /\
    (forall l2 ns2, l2 <> 8 -> dll three_nodes l2 ns2 -> dll s' l2 ns2) /\
    same_objects three_nodes s') never three_nodes.
Proof.
  split; [exact three_nodes_dll|].
  apply (list_delete_unlinks three_nodes 8 [(32, 5)] 48 6 [(64, 7)] three_nodes_dll).
  reflexivity.
Defined.
