(* ===== verification/Bitmap.v ===== *)
(** * Bitmaps (kernel/bitmap.c)

    [bitmap_t] objects and their byte arrays over a kernel heap, and the
    refinement of a bitmap to the finite set of its bits. *)
From S2P Require Import Prelude Interfaces.

(** [bitmap_t]: the address of the byte array and the number of bits. *)
Record bitmap_t : Type := BitmapT {
  map : Z;
  size : Z;
}.

Record bstate (H : Type) : Type := BState {
  bs_heap : H;
  bs_bitmaps : gmap Z bitmap_t;
  bs_bytes : gmap Z (list Z);
}.
Arguments BState {H} _ _ _.
Arguments bs_heap {H} _.
Arguments bs_bitmaps {H} _.
Arguments bs_bytes {H} _.

Section ops.
Context {H : Type} `{KHeap H}.

Definition bs_lens : lens (bstate H) H :=
  Lens bs_heap (fun h s => BState h (bs_bitmaps s) (bs_bytes s)).

Definition bitmap_at (p : Z) : M (bstate H) bitmap_t :=
  let! m := gets bs_bitmaps in some (m !! p).

(** [bitmap->map[i]] and the store to it. *)
Definition byte_at (q i : Z) : M (bstate H) Z :=
  let! m := gets bs_bytes in
  let! bytes := some (m !! q) in
  some (zlookup bytes i).

Definition set_byte_at (q i v : Z) : M (bstate H) unit :=
  let! m := gets bs_bytes in
  let! bytes := some (m !! q) in
  let! old := some (zlookup bytes i) in
  modify (fun s => BState (bs_heap s) (bs_bitmaps s) (<[q := zinsert i (u8 v) bytes]> (bs_bytes s))).

Definition bitmap_new (sz : Z) : M (bstate H) Z :=
  let! bitmap := zoom bs_lens (kcalloc 8) in
  if bitmap =? 0 then ret 0
  else
    kassert (sz mod 8 =? 0) >>>
    let! q := zoom bs_lens (kcalloc (sz / 8)) in
    modify (fun s => BState (bs_heap s) (<[bitmap := BitmapT q sz]> (bs_bitmaps s)) (bs_bytes s)) >>>
    if negb (q =? 0) then
      modify (fun s => BState (bs_heap s) (bs_bitmaps s)
                         (<[q := replicate (Z.to_nat (sz / 8)) 0]> (bs_bytes s))) >>>
      ret bitmap
    else
      zoom bs_lens (kfree bitmap) >>>
      modify (fun s => BState (bs_heap s) (delete bitmap (bs_bitmaps s)) (bs_bytes s)) >>>
      ret 0.

Definition bitmap_free (p : Z) : M (bstate H) unit :=
  kassert (negb (p =? 0)) >>>
  let! b := bitmap_at p in
  zoom bs_lens (kfree (map b)) >>>
  zoom bs_lens (kfree p) >>>
  modify (fun s => BState (bs_heap s) (delete p (bs_bitmaps s)) (delete (map b) (bs_bytes s))).

Definition bitmap_set (p bit : Z) : M (bstate H) unit :=
  kassert (negb (p =? 0)) >>>
  let! b := bitmap_at p in
  kassert (bit <? size b) >>>
  let! v := byte_at (map b) (bit / 8) in
  set_byte_at (map b) (bit / 8) (bit_set v (bit mod 8)).

Definition bitmap_unset (p bit : Z) : M (bstate H) unit :=
  kassert (negb (p =? 0)) >>>
  let! b := bitmap_at p in
  kassert (bit <? size b) >>>
  let! v := byte_at (map b) (bit / 8) in
  set_byte_at (map b) (bit / 8) (bit_clear v (bit mod 8)).

Definition bitmap_test (p bit : Z) : M (bstate H) bool :=
  kassert (negb (p =? 0)) >>>
  let! b := bitmap_at p in
  kassert (bit <? size b) >>>
  let! v := byte_at (map b) (bit / 8) in
  ret (bit_test v (bit mod 8)).
End ops.

(** ** Representation *)

(** The bits of the array at [q], as the code numbers them. *)
Definition bit_of (bytes : list Z) (k : Z) : bool :=
  match zlookup bytes (k / 8) with Some v => Z.testbit v (k mod 8) | None => false end.

(** The bitmap object [p] holds [n] bits, and exactly those of [X] are set. *)
Record bitmap_rep {H} (s : bstate H) (p n : Z) (X : gset Z) : Prop := BitmapRep {
  br_nonnull : p <> 0;
  br_mult : n mod 8 = 0;
  br_obj : exists q bytes,
    bs_bitmaps s !! p = Some (BitmapT q n) /\ bs_bytes s !! q = Some bytes /\
    zlen bytes = n / 8 /\ Forall is_u8 bytes /\
    (forall k, 0 <= k < n -> bit_of bytes k = bool_decide (k ∈ X)) /\
    (forall k, k ∈ X -> 0 <= k < n);
}.

Lemma byte_index n k : n mod 8 = 0 -> 0 <= k < n -> 0 <= k / 8 < n / 8.
Proof.
  intros Hn Hk. pose proof (Z.div_mod n 8 ltac:(lia)). split; [apply Z.div_pos; lia|].
  apply Z.div_lt_upper_bound; lia.
Qed.

Lemma bit_of_insert bytes i w k :
  0 <= i < zlen bytes -> 0 <= k ->
  bit_of (zinsert i w bytes) k = if k / 8 =? i then Z.testbit w (k mod 8) else bit_of bytes k.
Proof.
  intros Hi Hk. unfold bit_of. destruct (Z.eqb_spec (k / 8) i) as [->|Hne].
  - by rewrite zlookup_insert.
  - by rewrite zlookup_insert_ne.
Qed.

Lemma same_byte_bit j k : k / 8 = j / 8 -> (j mod 8 =? k mod 8) = (j =? k).
Proof.
  intros Hjk. pose proof (Z.div_mod j 8 ltac:(lia)). pose proof (Z.div_mod k 8 ltac:(lia)).
  destruct (Z.eqb_spec (j mod 8) (k mod 8)), (Z.eqb_spec j k); subst; try done; lia.
Qed.

Section specs.
Context {H : Type} `{KHeapLaws H}.
Implicit Types (s : bstate H).

Definition bit_put (b : bool) (k : Z) (X : gset Z) : gset Z :=
  if b then {[ k ]} ∪ X else X ∖ {[ k ]}.

Lemma wp_byte_at s q i bytes v (Q : Z -> bstate H -> Prop) E :
  bs_bytes s !! q = Some bytes -> zlookup bytes i = Some v -> Q v s ->
  wp (byte_at q i) Q E s.
Proof. intros Hq Hi HQ. unfold byte_at. wp_cond. rewrite Hq. wp_cond. by rewrite Hi. Qed.

(** Both updates: bit [k] becomes [b], the others and other bitmaps stay. *)
Lemma wp_bit_update (b : bool) s p n X k :
  bitmap_rep s p n X -> 0 <= k < n ->
  wp (if b then bitmap_set p k else bitmap_unset p k) (fun _ s' =>
    bitmap_rep s' p n (bit_put b k X) /\ bs_heap s' = bs_heap s /\
    bs_bitmaps s' = bs_bitmaps s /\ dom (bs_bytes s') = dom (bs_bytes s)) never s.
Proof.
  intros [Hp0 Hn (q & bytes & Hp & Hq & Hlen & HF & Hbits & HX)] Hk.
  pose proof (byte_index n k Hn Hk) as Hi.
  pose proof (Z.mod_pos_bound k 8 ltac:(lia)) as Hm.
  destruct (proj2 (zlookup_lt_is_Some bytes (k / 8)) ltac:(lia)) as [v Hv].
  pose proof (zlookup_Forall _ _ _ _ HF Hv) as Hv8. cbn in Hv8.
  set (w := if b then bit_set v (k mod 8) else bit_clear v (k mod 8)).
  assert (is_u8 w) as Hw.
  { subst w. unfold is_u8 in *. destruct b; [by apply bit_set_bounded|by apply bit_clear_bounded]. }
  assert (bitmap_rep (BState (bs_heap s) (bs_bitmaps s) (<[q := zinsert (k / 8) w bytes]> (bs_bytes s)))
            p n (bit_put b k X)) as Hrep.
  { split; [done|done|]. exists q, (zinsert (k / 8) w bytes). cbn. split_and!; [done|by rewrite lookup_insert_eq| | | |].
    - by rewrite zlen_insert.
    - by apply zinsert_Forall.
    - intros j Hj. rewrite bit_of_insert by lia. destruct (Z.eqb_spec (j / 8) (k / 8)) as [Heq|Hne].
      + pose proof (Z.mod_pos_bound j 8 ltac:(lia)).
        specialize (Hbits j Hj). unfold bit_of in Hbits. rewrite Heq, Hv in Hbits.
        subst w. unfold bit_put. destruct b.
        * rewrite bit_set_spec, Hbits, same_byte_bit by (lia || done).
          destruct (Z.eqb_spec k j) as [->|]; cbn; case_bool_decide; try case_bool_decide; set_solver.
        * rewrite bit_clear_spec, Hbits, same_byte_bit by (lia || done).
          destruct (Z.eqb_spec k j) as [->|]; cbn; case_bool_decide; try case_bool_decide; set_solver.
      + rewrite Hbits by done. assert (j <> k) by (intros ->; done).
        unfold bit_put. destruct b; case_bool_decide; case_bool_decide; set_solver.
    - intros j. unfold bit_put. destruct b; set_solver. }
  assert (u8 w = w) as Hu by (by apply Z.mod_small).
  destruct b; unfold bitmap_set, bitmap_unset; wp_cond; rewrite (proj2 (Z.eqb_neq p 0)) by done;
    cbn; wp_steps; unfold bitmap_at; wp_cond; rewrite Hp; wp_cond; cbn;
    rewrite (proj2 (Z.ltb_lt k n)) by lia; wp_steps;
    (eapply wp_byte_at; [done|done|]); unfold set_byte_at; wp_cond; rewrite Hq; wp_cond; rewrite Hv;
    wp_steps; subst w; rewrite Hu;
    (split_and!; [done..|]); cbn; by rewrite dom_insert_lookup_L.
Qed.

Lemma wp_bitmap_test s p n X k :
  bitmap_rep s p n X -> 0 <= k < n ->
  wp (bitmap_test p k) (fun r s' => r = bool_decide (k ∈ X) /\ s' = s) never s.
Proof.
  intros [Hp0 Hn (q & bytes & Hp & Hq & Hlen & HF & Hbits & HX)] Hk.
  pose proof (byte_index n k Hn Hk) as Hi.
  pose proof (Z.mod_pos_bound k 8 ltac:(lia)) as Hm.
  destruct (proj2 (zlookup_lt_is_Some bytes (k / 8)) ltac:(lia)) as [v Hv].
  unfold bitmap_test. wp_cond. rewrite (proj2 (Z.eqb_neq p 0)) by done. cbn. wp_steps.
  unfold bitmap_at; wp_cond; rewrite Hp; wp_cond; cbn.
  rewrite (proj2 (Z.ltb_lt k n)) by lia. wp_steps. eapply wp_byte_at; [done|done|]. wp_steps.
  split; [|done]. rewrite <- Hbits by done. unfold bit_of. rewrite Hv. apply bit_test_spec. lia.
Qed.

(** The guards: a bit outside the bitmap stops the kernel. *)
Lemma bitmap_out_of_range s p n X k :
  bitmap_rep s p n X -> n <= k ->
  bitmap_set p k s = Err AssertFail /\ bitmap_unset p k s = Err AssertFail /\
  bitmap_test p k s = Err AssertFail.
Proof.
  intros [Hp0 Hn (q & bytes & Hp & _)] Hk.
  assert (forall A (f : bitmap_t -> M (bstate H) A),
    (kassert (negb (p =? 0)) >>> let! b := bitmap_at p in kassert (k <? size b) >>> f b) s
    = Err AssertFail) as Hgen.
  { intros A f. unfold bind, bitmap_at, gets, some, bind, kassert.
    rewrite (proj2 (Z.eqb_neq p 0)) by done. cbn. rewrite Hp. cbn.
    by rewrite (proj2 (Z.ltb_ge k n)). }
  split_and!; apply Hgen.
Qed.

Lemma wp_bitmap_new s n :
  heap_ok (bs_heap s) -> 0 < n -> n mod 8 = 0 ->
  dom (bs_bitmaps s) ∪ dom (bs_bytes s) ⊆ heap_live (bs_heap s) ->
  wp (bitmap_new n) (fun p s' =>
    bitmap_rep s' p n ∅ /\ heap_ok (bs_heap s') /\
    dom (bs_bitmaps s') ∪ dom (bs_bytes s') ⊆ heap_live (bs_heap s') /\
    heap_live (bs_heap s) ⊆ heap_live (bs_heap s') /\
    (forall p2 n2 X2, bitmap_rep s p2 n2 X2 -> p2 <> p /\ bitmap_rep s' p2 n2 X2))
    only_nomem s.
Proof.
  intros Hok Hn Hm Hdom. pose proof (Z.div_mod n 8 ltac:(lia)).
  unfold bitmap_new. wp_steps. apply wp_zoom. wp_apply kcalloc_spec; [done|lia| |done].
  intros p h1 (Hok1 & Hp & Hfp & Hl1). wp_cond. rewrite (proj2 (Z.eqb_neq p 0)) by lia.
  wp_cond. rewrite (proj2 (Z.eqb_eq (n mod 8) 0)) by done. wp_steps. apply wp_zoom.
  cbn [lset lget bs_lens bs_heap]. wp_apply kcalloc_spec; [done|lia| |done].
  intros q h2 (Hok2 & Hq & Hfq & Hl2). wp_cond. rewrite (proj2 (Z.eqb_neq q 0)) by lia. cbn [negb].
  wp_steps. cbn. split_and!; [split| | | |]; cbn.
  - lia.
  - done.
  - exists q, (replicate (Z.to_nat (n / 8)) 0). split_and!.
    + by rewrite lookup_insert_eq.
    + by rewrite lookup_insert_eq.
    + unfold zlen. rewrite length_replicate. lia.
    + apply Forall_replicate. unfold is_u8. lia.
    + intros k Hk. rewrite bool_decide_eq_false_2 by set_solver. unfold bit_of.
      destruct (zlookup _ _) as [v|] eqn:E; [|done].
      eapply zlookup_Forall in E; [|by apply (Forall_replicate (eq 0))]. subst. apply Z.bits_0.
    + set_solver.
  - done.
  - rewrite !dom_insert_L. set_solver.
  - set_solver.
  - intros p2 n2 X2 [H0' Hm2 (q2 & bytes2 & Hp2 & Hq2 & Hr)].
    pose proof (elem_of_dom_2 _ _ _ Hp2). pose proof (elem_of_dom_2 _ _ _ Hq2).
    assert (p2 <> p) by set_solver. split; [done|]. split; [done|done|].
    exists q2, bytes2. cbn. rewrite !lookup_insert_ne; [done| |]; set_solver.
Qed.
End specs.

(** ** A bitmap is a finite set *)

Inductive bitmap_op : Type := BSet (k : Z) | BUnset (k : Z) | BTest (k : Z).

Definition bop_bit (o : bitmap_op) : Z := match o with BSet k | BUnset k | BTest k => k end.

Section run.
Context {H : Type} `{KHeap H}.

Definition run_bop (p : Z) (o : bitmap_op) : M (bstate H) (list bool) :=
  match o with
  | BSet k => bitmap_set p k >>> ret []
  | BUnset k => bitmap_unset p k >>> ret []
  | BTest k => let! b := bitmap_test p k in ret [b]
  end.

Fixpoint run_bops (p : Z) (os : list bitmap_op) : M (bstate H) (list bool) :=
  match os with
  | [] => ret []
  | o :: os' => let! r := run_bop p o in let! r' := run_bops p os' in ret (r ++ r')
  end.
End run.

(** The answers of the tests on a set, and the final set. *)
Fixpoint set_bops (os : list bitmap_op) (X : gset Z) : list bool * gset Z :=
  match os with
  | [] => ([], X)
  | BSet k :: os' => set_bops os' ({[ k ]} ∪ X)
  | BUnset k :: os' => set_bops os' (X ∖ {[ k ]})
  | BTest k :: os' => let r := set_bops os' X in (bool_decide (k ∈ X) :: r.1, r.2)
  end.

(** A fresh bitmap is the empty set, and from there every sequence of sets,
    unsets and tests of bits inside it answers as the same sequence on a
    finite set; no step panics, and other bitmaps' headers and the heap stay
    as they were. *)
Definition bitmap_session {H} `{KHeap H} (n : Z) (os : list bitmap_op) : M (bstate H) (Z * list bool) :=
  let! p := bitmap_new n in let! r := run_bops p os in ret (p, r).

Lemma run_bops_rep {H} `{KHeapLaws H} os : forall (s : bstate H) p n X,
  bitmap_rep s p n X -> Forall (fun o => 0 <= bop_bit o < n) os ->
  wp (run_bops p os) (fun r s' =>
    r = (set_bops os X).1 /\ bitmap_rep s' p n (set_bops os X).2 /\
    bs_bitmaps s' = bs_bitmaps s) never s.
Proof.
  induction os as [|o os IH]; intros s p n X Hr HF; cbn [run_bops]; wp_steps; [done|].
  apply Forall_cons in HF as [Ho HF].
  destruct o as [k|k|k]; cbn in Ho |- *; wp_steps.
  - eapply wp_mono; [apply (wp_bit_update true); eassumption| |done].
    intros [] s1 (Hr1 & _ & Hb & _). wp_steps. wp_apply IH; [done|done| |done].
    intros r s2 (-> & Hr2 & Hb2). wp_steps. cbn. by rewrite Hb2.
  - eapply wp_mono; [apply (wp_bit_update false); eassumption| |done].
    intros [] s1 (Hr1 & _ & Hb & _). wp_steps. wp_apply IH; [done|done| |done].
    intros r s2 (-> & Hr2 & Hb2). wp_steps. cbn. by rewrite Hb2.
  - eapply wp_mono; [by apply (wp_bitmap_test s p n X)| |done].
    intros b s1 (-> & ->). wp_steps. wp_apply IH; [done|done| |done].
    intros r s2 (-> & Hr2 & Hb2). wp_steps. cbn. done.
Qed.

(** ** Properties *)

(** C35. A bitmap made by [bitmap_new] behaves as a finite set of bit numbers
    under every sequence of sets, unsets and tests of bits inside it: it
    starts empty, each test answers membership, no step touches another bit
    or another bitmap's header, and only exhausting the heap can panic. *)
Theorem bitmap_is_a_set {H : Type} `{KHeapLaws H} (s : bstate H) (n : Z)
    (os : list bitmap_op) :
  heap_ok (bs_heap s) ->
  dom (bs_bitmaps s) ∪ dom (bs_bytes s) ⊆ heap_live (bs_heap s) ->
  0 < n -> n mod 8 = 0 ->
  Forall (fun o => 0 <= bop_bit o < n) os ->
  wp (bitmap_session n os) (fun r s' =>
    r.2 = (set_bops os ∅).1 /\ bitmap_rep s' r.1 n (set_bops os ∅).2)
    only_nomem s.
Proof.
  intros Hok Hdom Hn Hm HF. unfold bitmap_session.
  wp_apply wp_bitmap_new; [done|done|done|done| |done].
  intros p s1 (Hr & _). wp_apply run_bops_rep; [done|done| |by intros e []].
  intros r s2 (-> & Hr2 & _). by wp_steps.
Qed.

Definition bitmap_sample : list bitmap_op :=
  [BSet 3; BSet 9; BTest 3; BTest 4; BUnset 3; BTest 3; BTest 9].

Example bitmap_sample_run :
  match bitmap_session 16 bitmap_sample (BState (Bump 8 ∅) ∅ ∅) with
  | Ok (r, _) => Some r.2 | Err _ => None end = Some [true; false; false; true].
Proof. vm_compute. reflexivity. Qed.

Lemma bitmap_is_a_set_witness :
  wp (bitmap_session 16 bitmap_sample) (fun r s' =>
    r.2 = (set_bops bitmap_sample ∅).1 /\ bitmap_rep s' r.1 16 (set_bops bitmap_sample ∅).2)
    only_nomem (BState (Bump 8 ∅) ∅ ∅).
Proof.
  apply (bitmap_is_a_set (BState (Bump 8 ∅) ∅ ∅) 16 bitmap_sample).
  - split; cbn; [lia|]. intros p Hp. by apply not_elem_of_empty in Hp.
  - set_solver.
  - reflexivity.
  - reflexivity.
  - repeat constructor; cbn; lia.
Defined.
