(* ===== verification/ProcTree.v ===== *)
(** * Process numbers and the process tree (kernel/tree.c, kernel/process.c)

    tree.c on tree nodes whose children are lists of list.c, the pid bitmap,
    and the parts of process.c that number processes, hang them into the tree
    and look for them: [process_init], the first lines of
    [process_spawn_init], [get_pid] and [ptree_new_node] as [process_clone]
    calls them, [process_waitpid_find].  [family] relates the store to the
    list of the parents of processes 2, 3, 4, ..., and the theorem shows that
    every sequence of clones and searches is that sequence on the list. *)
From stdpp Require Import relations.
From S2P Require Import Prelude Interfaces DList.
From S2P Require Bitmap.
Import Bitmap (bstate, BState, bs_heap, bs_bitmaps, bs_bytes, bitmap_t, bitmap_rep,
  bitmap_new, bitmap_set, bitmap_test).

Definition PROCESS_MAX_PID : Z := 32768.

Record tree_node_t : Type := TreeNode {
  tn_value : Z;
  tn_children : Z;
  tn_parent : Z;
}.

(** [tree_t]: the root. *)
Record tree_t : Type := Tree { tree_root : Z }.

(** [process_t], without the task it contains and the queue of waiters. *)
Record process_t : Type := Process {
  name : Z;
  pid : Z;
  fd_table : Z;
  ptree_node : Z;
}.

Definition set_pid (n : Z) (p : process_t) : process_t := Process (name p) n (fd_table p) (ptree_node p).
Definition set_ptree_node (t : Z) (p : process_t) : process_t := Process (name p) (pid p) (fd_table p) t.
Definition set_tn_value (v : Z) (t : tree_node_t) : tree_node_t :=
  TreeNode v (tn_children t) (tn_parent t).
Definition set_tn_children (c : Z) (t : tree_node_t) : tree_node_t :=
  TreeNode (tn_value t) c (tn_parent t).

(** The objects and the globals [pid_bitmap], [last_pid] and [ptree]; the heap
    is that of the lists. *)
Record pstate (H : Type) : Type := PState {
  p_lists : lstate H;
  p_bitmaps : gmap Z bitmap_t;
  p_bytes : gmap Z (list Z);
  p_tnodes : gmap Z tree_node_t;
  p_trees : gmap Z tree_t;
  p_procs : gmap Z process_t;
  pid_bitmap : Z;
  last_pid : Z;
  ptree : Z;
}.
Arguments PState {H} _ _ _ _ _ _ _ _ _.
Arguments p_lists {H} _.
Arguments p_bitmaps {H} _.
Arguments p_bytes {H} _.
Arguments p_tnodes {H} _.
Arguments p_trees {H} _.
Arguments p_procs {H} _.
Arguments pid_bitmap {H} _.
Arguments last_pid {H} _.
Arguments ptree {H} _.

Section setters.
Context {H : Type}.
Implicit Types (s : pstate H).

Definition set_lists (L : lstate H) s : pstate H :=
  PState L (p_bitmaps s) (p_bytes s) (p_tnodes s) (p_trees s) (p_procs s) (pid_bitmap s) (last_pid s) (ptree s).
Definition set_bits (b : bstate H) s : pstate H :=
  PState (LState (bs_heap b) (ls_nodes (p_lists s)) (ls_lists (p_lists s))) (bs_bitmaps b) (bs_bytes b)
    (p_tnodes s) (p_trees s) (p_procs s) (pid_bitmap s) (last_pid s) (ptree s).
Definition set_tnodes (m : gmap Z tree_node_t) s : pstate H :=
  PState (p_lists s) (p_bitmaps s) (p_bytes s) m (p_trees s) (p_procs s) (pid_bitmap s) (last_pid s) (ptree s).
Definition set_trees (m : gmap Z tree_t) s : pstate H :=
  PState (p_lists s) (p_bitmaps s) (p_bytes s) (p_tnodes s) m (p_procs s) (pid_bitmap s) (last_pid s) (ptree s).
Definition set_procs (m : gmap Z process_t) s : pstate H :=
  PState (p_lists s) (p_bitmaps s) (p_bytes s) (p_tnodes s) (p_trees s) m (pid_bitmap s) (last_pid s) (ptree s).
Definition set_pid_bitmap (b : Z) s : pstate H :=
  PState (p_lists s) (p_bitmaps s) (p_bytes s) (p_tnodes s) (p_trees s) (p_procs s) b (last_pid s) (ptree s).
Definition set_last_pid (n : Z) s : pstate H :=
  PState (p_lists s) (p_bitmaps s) (p_bytes s) (p_tnodes s) (p_trees s) (p_procs s) (pid_bitmap s) n (ptree s).
Definition set_ptree (t : Z) s : pstate H :=
  PState (p_lists s) (p_bitmaps s) (p_bytes s) (p_tnodes s) (p_trees s) (p_procs s) (pid_bitmap s) (last_pid s) t.
End setters.

Section ops.
Context {H : Type} `{KHeap H}.
Abbreviation P := (pstate H).

Definition lists_lens : lens P (lstate H) := Lens p_lists set_lists.
Definition bits_lens : lens P (bstate H) :=
  Lens (fun s => BState (ls_heap (p_lists s)) (p_bitmaps s) (p_bytes s)) set_bits.

(** [kcalloc] for an object of the process code. *)
Definition alloc (n : Z) : M P Z := zoom lists_lens (zoom heap_lens (kcalloc n)).

Definition tnode (p : Z) : M P tree_node_t := let! m := gets p_tnodes in some (m !! p).
Definition upd_tnode (p : Z) (f : tree_node_t -> tree_node_t) : M P unit :=
  let! t := tnode p in modify (fun s => set_tnodes (<[p := f t]> (p_tnodes s)) s).
Definition tree (p : Z) : M P tree_t := let! m := gets p_trees in some (m !! p).
Definition proc (p : Z) : M P process_t := let! m := gets p_procs in some (m !! p).
Definition upd_proc (p : Z) (f : process_t -> process_t) : M P unit :=
  let! x := proc p in modify (fun s => set_procs (<[p := f x]> (p_procs s)) s).

(** ** tree.c *)

Definition tree_new : M P Z :=
  let! v := alloc 4 in
  (if v =? 0 then ret tt else modify (fun s => set_trees (<[v := Tree 0]> (p_trees s)) s)) >>>
  ret v.

Definition tree_node_new : M P Z :=
  let! v := alloc 12 in
  if v =? 0 then ret 0
  else
    modify (fun s => set_tnodes (<[v := TreeNode 0 0 0]> (p_tnodes s)) s) >>>
    let! c := zoom lists_lens list_init in
    upd_tnode v (set_tn_children c) >>>
    ret v.

Definition tree_node_insert_child (parent node : Z) : M P unit :=
  let! t := tnode parent in
  zoom lists_lens (list_insert (tn_children t) node) >>>
  ret tt.

(** The recursion goes down the tree, [depth] bounds it. *)
Fixpoint tree_node_find (depth : nat) (parent value : Z) : M P Z :=
  match depth with
  | O => fail NoFuel
  | S depth' =>
      let! t := tnode parent in
      if tn_value t =? value then ret parent
      else
        let! l := zoom lists_lens (listp (tn_children t)) in
        let! fuel := gets (fun s => chain_fuel (p_lists s)) in
        loop fuel (fun nd =>
          if nd =? 0 then ret (inr 0)
          else
            let! n := zoom lists_lens (node nd) in
            let! found := tree_node_find depth' (DList.value n) value in
            if negb (found =? 0) then ret (inr found) else ret (inl (next n))) (head l)
  end.

(** Deep enough for any tree of distinct nodes. *)
Definition tree_find (t value : Z) : M P Z :=
  let! x := tree t in
  let! depth := gets (fun s => S (size (p_tnodes s))) in
  tree_node_find depth (tree_root x) value.

Definition tree_node_delete_child (parent node : Z) : M P unit :=
  let! t := tnode parent in
  zoom lists_lens (list_remove (tn_children t) node).

(** ** process.c *)

Definition get_pid : M P Z :=
  let! last := gets last_pid in
  (if PROCESS_MAX_PID <? last then kassert false else ret tt) >>>
  modify (set_last_pid (u32 (last + 1))) >>>
  let! n := gets last_pid in
  let! bm := gets pid_bitmap in
  let! b := zoom bits_lens (bitmap_test bm n) in
  kassert (negb b) >>>
  zoom bits_lens (bitmap_set bm n) >>>
  ret n.

Definition ptree_get_init_node : M P Z :=
  let! p := gets ptree in let! t := tree p in ret (tree_root t).

Definition ptree_new_node (parent process : Z) : M P Z :=
  let! v := tree_node_new in
  kassert (negb (v =? 0)) >>>
  upd_tnode v (set_tn_value process) >>>
  let! t := tnode parent in
  let! p := proc (tn_value t) in
  tree_node_insert_child (ptree_node p) v >>>
  ret v.

Definition process_init : M P unit :=
  let! b := zoom bits_lens (bitmap_new PROCESS_MAX_PID) in
  modify (set_pid_bitmap b) >>>
  kassert (negb (b =? 0)) >>>
  zoom bits_lens (bitmap_set b 0) >>>
  zoom bits_lens (bitmap_set b 1) >>>
  let! t := tree_new in
  modify (set_ptree t) >>>
  let! r := tree_node_new in
  (let! x := tree t in modify (fun s => set_trees (<[t := Tree r]> (p_trees s)) s)) >>>
  upd_tnode r (set_tn_value 0).

Definition process_waitpid_find (parent_node p : Z) : M P Z :=
  let! t := tnode parent_node in
  let! l := zoom lists_lens (listp (tn_children t)) in
  let! fuel := gets (fun s => chain_fuel (p_lists s)) in
  loop fuel (fun nd =>
    if nd =? 0 then ret (inr 0)
    else
      let! n := zoom lists_lens (node nd) in
      let! tn := tnode (value n) in
      let! candidate := proc (tn_value tn) in
      if pid candidate =? p then ret (inr (tn_value tn)) else ret (inl (next n))) (head l).

(** [kcalloc(1, sizeof(process_t))], which is 72 bytes. *)
Definition process_alloc : M P Z :=
  let! p := alloc 72 in
  (if p =? 0 then ret tt
   else modify (fun s => set_procs (<[p := Process 0 0 0 0]> (p_procs s)) s)) >>>
  ret p.

(** How [process_spawn_init] numbers init and puts it at the root. *)
Definition spawn_init_node : M P Z :=
  let! process := process_alloc in
  kassert (negb (process =? 0)) >>>
  upd_proc process (set_pid 1) >>>
  let! t := ptree_get_init_node in
  upd_proc process (set_ptree_node t) >>>
  let! x := proc process in
  upd_tnode (ptree_node x) (set_tn_value process) >>>
  ret process.

(** How [process_clone] numbers the child and hangs it below its parent. *)
Definition clone_node (oldproc child : Z) : M P unit :=
  let! n := get_pid in
  upd_proc child (set_pid n) >>>
  let! o := proc oldproc in
  let! t := ptree_new_node (ptree_node o) child in
  upd_proc child (set_ptree_node t).
End ops.

(** ** The objects are live objects of the heap *)

Record ps_ok {H : Type} `{KHeap H} (s : pstate H) : Prop := PsOk {
  ps_lists : ls_ok (p_lists s);
  ps_live : dom (p_bitmaps s) ∪ dom (p_bytes s) ∪ dom (p_tnodes s) ∪ dom (p_trees s) ∪ dom (p_procs s)
    ⊆ heap_live (ls_heap (p_lists s));
}.

(** Only the heap and the lists changed: everything stays live and every list
    stays what it was. *)
Definition lists_grow {H : Type} `{KHeap H} (L L' : lstate H) : Prop :=
  ls_ok L' /\ heap_live (ls_heap L) ⊆ heap_live (ls_heap L') /\
  (forall l ns, dll L l ns -> dll L' l ns).

Lemma dll_heap {H : Type} (L : lstate H) (h : H) l ns :
  dll L l ns -> dll (LState (H := H) h (ls_nodes L) (ls_lists L)) l ns.
Proof. by intros []. Qed.

Section specs.
Context {H : Type} `{KHeapLaws H}.
Implicit Types (s : pstate H).

Lemma lists_grow_trans (L1 L2 L3 : lstate H) :
  lists_grow L1 L2 -> lists_grow L2 L3 -> lists_grow L1 L3.
Proof. intros (_ & Hl1 & Hd1) (Hok & Hl2 & Hd2). split; [done|]. split; [set_solver|eauto]. Qed.

Lemma ps_ok_lists s L : ps_ok s -> lists_grow (p_lists s) L -> ps_ok (set_lists L s).
Proof. intros [Hl Hd] (Hok & Hlive & _). split; [done|]. cbn. set_solver. Qed.

Lemma wp_tnode p t (Q : tree_node_t -> pstate H -> Prop) E s :
  p_tnodes s !! p = Some t -> Q t s -> wp (tnode p) Q E s.
Proof. intros Ht HQ. unfold tnode. wp_cond. by rewrite Ht. Qed.

Lemma wp_upd_tnode p t f (Q : unit -> pstate H -> Prop) E s :
  p_tnodes s !! p = Some t -> Q tt (set_tnodes (<[p := f t]> (p_tnodes s)) s) ->
  wp (upd_tnode p f) Q E s.
Proof. intros Ht HQ. unfold upd_tnode. wp_steps. eapply wp_tnode; [done|]. by wp_steps. Qed.

Lemma wp_tree p t (Q : tree_t -> pstate H -> Prop) E s :
  p_trees s !! p = Some t -> Q t s -> wp (tree p) Q E s.
Proof. intros Ht HQ. unfold tree. wp_cond. by rewrite Ht. Qed.

Lemma wp_proc p x (Q : process_t -> pstate H -> Prop) E s :
  p_procs s !! p = Some x -> Q x s -> wp (proc p) Q E s.
Proof. intros Hx HQ. unfold proc. wp_cond. by rewrite Hx. Qed.

Lemma wp_upd_proc p x f (Q : unit -> pstate H -> Prop) E s :
  p_procs s !! p = Some x -> Q tt (set_procs (<[p := f x]> (p_procs s)) s) ->
  wp (upd_proc p f) Q E s.
Proof. intros Hx HQ. unfold upd_proc. wp_steps. eapply wp_proc; [done|]. by wp_steps. Qed.

(** A new object is at an address that held nothing. *)
Lemma wp_alloc n s :
  ps_ok s -> 0 < n ->
  wp (alloc n) (fun p s' => exists L, s' = set_lists L s /\ lists_grow (p_lists s) L /\
    ls_lists L = ls_lists (p_lists s) /\ 0 < p /\ p ∈ heap_live (ls_heap L) /\ p_tnodes s !! p = None /\ p_trees s !! p = None /\
    p_procs s !! p = None) only_nomem s.
Proof.
  intros [[Hh Hn Hl Hdis] Hd] Hpos. unfold alloc. apply wp_zoom, wp_zoom.
  wp_apply kcalloc_spec; [done|lia| |done]. intros p h (Hh' & Hp & Hfresh & Hlive).
  eexists. split; [done|]. cbn [lset lget heap_lens lists_lens ls_heap ls_nodes ls_lists].
  split_and!; [split_and!|done| | | | |].
  - split; cbn; [done| | |done]; set_solver.
  - cbn. set_solver.
  - intros l ns. apply dll_heap.
  - lia.
  - set_solver.
  - apply not_elem_of_dom. set_solver.
  - apply not_elem_of_dom. set_solver.
  - apply not_elem_of_dom. set_solver.
Qed.

(** Running list code on the lists of the state. *)
Lemma wp_lists {A} (m : M (lstate H) A) (Q : A -> pstate H -> Prop) E s :
  wp m (fun a L => Q a (set_lists L s)) E (p_lists s) -> wp (zoom lists_lens m) Q E s.
Proof. intros Hm. by apply wp_zoom. Qed.

(** A new node has no value, no children and no parent. *)
Lemma wp_tree_node_new s :
  ps_ok s ->
  wp tree_node_new (fun t s' => exists L c,
    s' = set_tnodes (<[t := TreeNode 0 c 0]> (p_tnodes s)) (set_lists L s) /\ ps_ok s' /\
    lists_grow (p_lists s) L /\ 0 < t /\ p_tnodes s !! t = None /\
    dll L c [] /\ ls_lists (p_lists s) !! c = None) only_nomem s.
Proof.
  intros Hok. unfold tree_node_new. wp_apply wp_alloc; [done|lia| |done].
  intros t s1 (L1 & -> & Hg1 & Hsame & Ht & Hlive & Hfresh & _). wp_cond.
  rewrite (proj2 (Z.eqb_neq t 0)) by lia. wp_steps. apply wp_lists. cbn [set_tnodes set_lists p_lists].
  pose proof Hg1 as (Hls1 & Hsub1 & Hd1).
  wp_apply wp_list_init; [done| |done]. intros c L2 (Hls2 & Hc & Hnone & Hd2 & Hsub2).
  wp_steps. eapply wp_upd_tnode; [cbn; by rewrite lookup_insert_eq|]. wp_steps.
  assert (lists_grow (p_lists s) L2) as Hg2 by (split; [done|]; split; [set_solver|eauto]).
  exists L2, c. split_and!; [| |done|done|done|done|].
  - unfold set_tnodes, set_lists. cbn. by rewrite insert_insert_eq.
  - destruct Hok as [_ Hlive0]. split; [done|]. cbn in *. rewrite !dom_insert_L. set_solver.
  - by rewrite <- Hsame.
Qed.

(** *** Process numbers *)

Definition bits_of s : bstate H := lget bits_lens s.

(** The numbers up to [n] are taken and [n] was the last. *)
Definition pids s (n : Z) : Prop :=
  bitmap_rep (bits_of s) (pid_bitmap s) PROCESS_MAX_PID (list_to_set (seqZ 0 (n + 1))) /\
  last_pid s = n /\ 1 <= n.

(** Everything but the bits of the bitmap and the last number. *)
Definition same_tree s s' : Prop :=
  p_lists s' = p_lists s /\ p_tnodes s' = p_tnodes s /\ p_trees s' = p_trees s /\
  p_procs s' = p_procs s /\ ptree s' = ptree s.

Lemma bit_put_next n :
  0 <= n -> Bitmap.bit_put true (n + 1) (list_to_set (seqZ 0 (n + 1))) =
            (list_to_set (seqZ 0 (n + 1 + 1)) : gset Z).
Proof.
  intros Hn. apply set_eq. intros k. cbn.
  rewrite elem_of_union, elem_of_singleton, !elem_of_list_to_set, !elem_of_seqZ. lia.
Qed.

(** Setting a bit of the pid bitmap. *)
Lemma wp_pid_set s bm n k X :
  ps_ok s -> bitmap_rep (bits_of s) bm n X -> 0 <= k < n ->
  wp (zoom bits_lens (bitmap_set bm k)) (fun _ s' =>
    ps_ok s' /\ bitmap_rep (bits_of s') bm n (Bitmap.bit_put true k X) /\
    same_tree s s' /\ pid_bitmap s' = pid_bitmap s /\ last_pid s' = last_pid s) never s.
Proof.
  intros [Hls Hd] Hrep Hk. apply wp_zoom.
  wp_apply (Bitmap.wp_bit_update true _ _ n X); [done|done| |by intros e []].
  intros [] b (Hrep' & Hh & Hbm & Hdom). cbn in Hh, Hbm, Hdom.
  assert (LState (bs_heap b) (ls_nodes (p_lists s)) (ls_lists (p_lists s)) = p_lists s) as Hl.
  { rewrite Hh. by destruct (p_lists s). }
  split; [|split].
  - split; cbn; [by rewrite Hl|]. by rewrite Hbm, Hdom, Hh.
  - destruct b. exact Hrep'.
  - unfold same_tree. cbn. by rewrite Hl.
Qed.

Lemma wp_get_pid s n :
  ps_ok s -> pids s n -> n < PROCESS_MAX_PID ->
  wp get_pid (fun r s' => r = n + 1 /\ n + 1 < PROCESS_MAX_PID /\ ps_ok s' /\ pids s' (n + 1) /\
      same_tree s s')
    (fun e => e = AssertFail /\ n + 1 = PROCESS_MAX_PID) s.
Proof.
  intros Hok (Hrep & Hlast & Hn) Hmax. unfold get_pid, PROCESS_MAX_PID in *. wp_cond. rewrite Hlast.
  rewrite (proj2 (Z.ltb_ge _ _)) by lia. wp_steps. cbn [set_last_pid last_pid pid_bitmap].
  rewrite u32_small by (unfold is_u32; lia).
  assert (ps_ok (set_last_pid (n + 1) s)) as Hok1 by (destruct Hok; by split).
  destruct (decide (n + 1 < 32768)) as [Hlt|Hge].
  - apply wp_zoom.
    wp_apply (Bitmap.wp_bitmap_test _ _ 32768 (list_to_set (seqZ 0 (n + 1)))); [exact Hrep|lia| |by intros e []].
    intros r b (-> & ->). wp_cond.
    rewrite bool_decide_eq_false_2 by (rewrite elem_of_list_to_set, elem_of_seqZ; lia). cbn [negb].
    set (s1 := lset _ _ _).
    assert (s1 = set_last_pid (n + 1) s) as ->.
    { subst s1. unfold lset, bits_lens, set_bits, set_last_pid. cbn. by destruct (p_lists s). }
    wp_apply (wp_pid_set (set_last_pid (n + 1) s) (pid_bitmap s) 32768 (n + 1) (list_to_set (seqZ 0 (n + 1))));
      [done|exact Hrep|lia| |by intros e []].
    intros [] s2 (Hok2 & Hrep2 & Hsame & Hb & Hl). rewrite bit_put_next in Hrep2 by lia. wp_steps.
    split_and!; [done|done|done| |done]. cbn in Hb, Hl. split; [by rewrite Hb|]. by split; [|lia].
  - apply wp_zoom, wp_intro.
    destruct (Bitmap.bitmap_out_of_range (bits_of s) (pid_bitmap s) 32768 _ (n + 1) Hrep ltac:(lia))
      as (_ & _ & Ht).
    unfold bits_of in Ht. cbn in Ht |- *. rewrite Ht. split; [done|lia].
Qed.
End specs.

(** ** The tree as a list of parents *)

(** The children of [q] among processes [k], [k+1], ... with parents [par]. *)
Fixpoint children_from (k : Z) (par : list Z) (q : Z) : list Z :=
  match par with
  | [] => []
  | p :: par' => (if p =? q then [k] else []) ++ children_from (k + 1) par' q
  end.

(** Process 1 is init; [par] are the parents of processes 2, 3, ... *)
Definition children (par : list Z) (q : Z) : list Z := children_from 2 par q.

(** [c] is [i] or below it. *)
Definition below (par : list Z) (i c : Z) : Prop := rtc (fun x y => y ∈ children par x) i c.

(** The process, the tree node and the list of children of one process; the
    entry for process [i]. *)
Record member : Type := Member { m_proc : Z; m_node : Z; m_list : Z }.
Definition mem (ms : list member) (i : Z) : option member := zlookup ms (i - 1).
Definition node_of (ms : list member) (i : Z) : Z := from_option m_node 0 (mem ms i).

Lemma elem_children_from k par q c :
  c ∈ children_from k par q <-> zlookup par (c - k) = Some q.
Proof.
  revert k. induction par as [|p par IH]; intros k; cbn.
  - rewrite elem_of_nil. unfold zlookup. by case_match.
  - rewrite elem_of_app, IH. destruct (Z.eq_dec c k) as [->|Hne].
    + replace (k - k) with 0 by lia. replace (k - (k + 1)) with (-1) by lia. cbn.
      destruct (Z.eqb_spec p q) as [->|Hpq]; [set_solver|].
      split; [by intros [?%elem_of_nil|?]|]. by intros [= ?].
    + assert (c ∉ (if p =? q then [k] else [])) by (case_match; set_solver).
      unfold zlookup. destruct (Z.ltb_spec (c - (k + 1)) 0), (Z.ltb_spec (c - k) 0); try lia.
      * naive_solver.
      * replace (Z.to_nat (c - k)) with (S (Z.to_nat (c - (k + 1)))) by lia. cbn. naive_solver.
Qed.

Lemma elem_children par q c : c ∈ children par q <-> zlookup par (c - 2) = Some q.
Proof. apply elem_children_from. Qed.

Lemma children_snoc par p q :
  children (par ++ [p]) q = children par q ++ (if p =? q then [zlen par + 2] else []).
Proof.
  unfold children. replace (zlen par + 2) with (2 + zlen par) by lia. generalize 2 as k.
  induction par as [|x par IH]; intros k; cbn.
  - unfold zlen. cbn. rewrite Z.add_0_r. by rewrite app_nil_r.
  - rewrite IH, <- app_assoc, zlen_cons. by replace (k + 1 + zlen par) with (k + (1 + zlen par)) by lia.
Qed.

Lemma zlookup_snoc_if {A} (l : list A) (x : A) i :
  zlookup (l ++ [x]) i = if i =? zlen l then Some x else zlookup l i.
Proof.
  destruct (Z.eqb_spec i (zlen l)) as [->|Hne]; [apply zlookup_app_mid|].
  unfold zlookup, zlen in *. destruct (Z.ltb_spec i 0); [done|].
  destruct (lt_dec (Z.to_nat i) (base.length l)); [by apply lookup_app_l|].
  rewrite !lookup_ge_None_2; [done|lia|]. rewrite length_app. cbn. lia.
Qed.

(** ** The store holds the tree *)

Section kin.
Context {H : Type}.
Implicit Types (s : pstate H).

(** Every process has its number, its node and the nodes of its children in
    the order of their numbers; a parent is older than its child. *)
Record kin s (ms : list member) (par : list Z) : Prop := Kin {
  kin_len : zlen ms = zlen par + 1;
  kin_proc i m : mem ms i = Some m ->
    exists nm fdt, p_procs s !! m_proc m = Some (Process nm i fdt (m_node m));
  kin_nonnull i m : mem ms i = Some m -> m_proc m <> 0;
  kin_node i m : mem ms i = Some m -> m_node m <> 0 /\
    p_tnodes s !! m_node m = Some (TreeNode (m_proc m) (m_list m) 0);
  kin_kids i m : mem ms i = Some m ->
    exists ns, dll (p_lists s) (m_list m) ns /\ List.map snd ns = List.map (node_of ms) (children par i);
  kin_distinct i j m m' : mem ms i = Some m -> mem ms j = Some m' -> m_list m = m_list m' -> i = j;
  kin_par k q : zlookup par k = Some q -> 1 <= q <= k + 1;
  kin_root m : mem ms 1 = Some m -> p_trees s !! ptree s = Some (Tree (m_node m));
}.

Lemma mem_range ms i m : mem ms i = Some m -> 1 <= i <= zlen ms.
Proof. unfold mem. intros Hm%zlookup_Some_range. lia. Qed.

Lemma mem_is_Some ms i : 1 <= i <= zlen ms -> is_Some (mem ms i).
Proof. intros Hi. unfold mem. apply zlookup_lt_is_Some. lia. Qed.

Lemma mem_snoc ms m i : mem (ms ++ [m]) i = if i =? zlen ms + 1 then Some m else mem ms i.
Proof.
  unfold mem. rewrite zlookup_snoc_if.
  destruct (Z.eqb_spec (i - 1) (zlen ms)), (Z.eqb_spec i (zlen ms + 1)); done || lia.
Qed.

(** A process is the process of one number. *)
Lemma kin_proc_inj s ms par i j m m' :
  kin s ms par -> mem ms i = Some m -> mem ms j = Some m' -> m_proc m = m_proc m' -> i = j.
Proof.
  intros HK Hi Hj Heq. destruct (kin_proc _ _ _ HK i m Hi) as (? & ? & Hm).
  destruct (kin_proc _ _ _ HK j m' Hj) as (? & ? & Hm'). rewrite Heq in Hm. by simplify_eq.
Qed.

Lemma kin_child s ms par i c :
  kin s ms par -> c ∈ children par i -> 1 <= i < c /\ is_Some (mem ms c).
Proof.
  intros HK Hc%elem_children. pose proof (kin_par _ _ _ HK _ _ Hc).
  pose proof (kin_len _ _ _ HK). apply zlookup_Some_range in Hc.
  split; [lia|]. apply mem_is_Some. lia.
Qed.

(** A new process below [q]: its own objects are new, and of the old lists
    only that of [q]'s children changes, by the new node at its end. *)
Lemma kin_extend s s' ms par q mq m nm fdt :
  kin s ms par -> mem ms q = Some mq ->
  (forall i mi, mem ms i = Some mi -> p_procs s' !! m_proc mi = p_procs s !! m_proc mi) ->
  (forall i mi, mem ms i = Some mi -> p_tnodes s' !! m_node mi = p_tnodes s !! m_node mi) ->
  p_trees s' = p_trees s -> ptree s' = ptree s ->
  p_procs s' !! m_proc m = Some (Process nm (zlen ms + 1) fdt (m_node m)) ->
  m_proc m <> 0 -> m_node m <> 0 -> p_tnodes s' !! m_node m = Some (TreeNode (m_proc m) (m_list m) 0) ->
  dll (p_lists s') (m_list m) [] -> ls_lists (p_lists s) !! m_list m = None ->
  (forall l ns, l <> m_list mq -> dll (p_lists s) l ns -> dll (p_lists s') l ns) ->
  (exists ns a, dll (p_lists s') (m_list mq) (ns ++ [(a, m_node m)]) /\
     List.map snd ns = List.map (node_of ms) (children par q)) ->
  kin s' (ms ++ [m]) (par ++ [q]).
Proof.
  intros HK Hq Hprocs Htn Htr Hpt Hp Hp0 Hn0 Hn Hl Hfresh Hother Hmq.
  pose proof (kin_len _ _ _ HK) as Hlen. pose proof (mem_range _ _ _ Hq) as Hqr.
  assert (forall i mi, mem ms i = Some mi -> i <> zlen ms + 1 /\ m_list mi <> m_list m) as Hold.
  { intros i mi Hi. split; [apply mem_range in Hi; lia|]. intros Heq.
    destruct (kin_kids _ _ _ HK i mi Hi) as (ns & Hd & _).
    pose proof (dll_header _ _ _ Hd). congruence. }
  assert (forall i, i ≠ zlen ms + 1 -> node_of (ms ++ [m]) i = node_of ms i) as Hnode.
  { intros i Hi. unfold node_of. rewrite mem_snoc. by rewrite (proj2 (Z.eqb_neq _ _)). }
  assert (forall i, List.map (node_of (ms ++ [m])) (children par i) =
                    List.map (node_of ms) (children par i)) as Hmap.
  { intros i. apply map_ext_in. intros c Hc%list_elem_of_In.
    destruct (kin_child _ _ _ _ _ HK Hc) as [_ [mc Hmc]]. apply Hnode. by apply (Hold _ mc). }
  split.
  - rewrite !zlen_app, Hlen. done.
  - intros i mi. rewrite mem_snoc. destruct (Z.eqb_spec i (zlen ms + 1)) as [->|Hi].
    + intros [= <-]. eauto.
    + intros Hmi. destruct (kin_proc _ _ _ HK i mi Hmi) as (? & ? & Hx).
      rewrite (Hprocs i) by done. eauto.
  - intros i mi. rewrite mem_snoc. destruct (Z.eqb_spec i (zlen ms + 1)) as [->|Hi].
    + by intros [= <-].
    + apply (kin_nonnull _ _ _ HK).
  - intros i mi. rewrite mem_snoc. destruct (Z.eqb_spec i (zlen ms + 1)) as [->|Hi].
    + by intros [= <-].
    + intros Hmi. rewrite (Htn i) by done. by apply (kin_node _ _ _ HK i).
  - intros i mi. rewrite mem_snoc, children_snoc, map_app, Hmap.
    destruct (Z.eqb_spec i (zlen ms + 1)) as [->|Hi].
    + intros [= <-]. rewrite (proj2 (Z.eqb_neq q (zlen ms + 1))) by lia. exists []. split; [done|].
      destruct (children par (zlen ms + 1)) as [|c cs] eqn:Hc; [done|].
      assert (c ∈ children par (zlen ms + 1)) as Hin by (rewrite Hc; left).
      apply elem_children in Hin. pose proof (kin_par _ _ _ HK _ _ Hin).
      apply zlookup_Some_range in Hin. lia.
    + intros Hmi. destruct (kin_kids _ _ _ HK i mi Hmi) as (ns & Hd & Hns).
      destruct (Z.eqb_spec q i) as [<-|Hqi].
      * assert (mi = mq) as -> by congruence. destruct Hmq as (ns' & a & Ha & Hns'). exists (ns' ++ [(a, m_node m)]).
        split; [done|]. rewrite map_app, Hns'. cbn. unfold node_of at 3. rewrite mem_snoc.
        by replace (zlen par + 2 =? zlen ms + 1) with true by (symmetry; apply Z.eqb_eq; lia).
      * exists ns. rewrite app_nil_r. split; [|done]. apply Hother; [|done].
        intros Heq. apply Hqi. by apply (kin_distinct _ _ _ HK q i mq mi).
  - intros i j mi mj. rewrite !mem_snoc.
    destruct (Z.eqb_spec i (zlen ms + 1)) as [->|Hi], (Z.eqb_spec j (zlen ms + 1)) as [->|Hj].
    + done.
    + intros [= <-] Hmj Heq. by destruct (proj2 (Hold _ _ Hmj)).
    + intros Hmi [= <-] Heq. by destruct (proj2 (Hold _ _ Hmi)).
    + apply (kin_distinct _ _ _ HK).
  - intros k p. rewrite zlookup_snoc_if. destruct (Z.eqb_spec k (zlen par)) as [->|Hk].
    + intros [= <-]. lia.
    + apply (kin_par _ _ _ HK).
  - intros mi. rewrite mem_snoc. rewrite (proj2 (Z.eqb_neq 1 _)) by lia.
    rewrite Htr, Hpt. apply (kin_root _ _ _ HK).
Qed.
End kin.

(** ** The operations on a tree *)

Section operations.
Context {H : Type} `{KHeapLaws H}.
Implicit Types (s : pstate H).

(** [ms] are the processes 1, 2, ... and [par] the parents of 2, 3, ... *)
Record family s (ms : list member) (par : list Z) : Prop := Family {
  fam_ok : ps_ok s;
  fam_kin : kin s ms par;
  fam_pids : pids s (zlen ms);
  fam_max : zlen ms < PROCESS_MAX_PID;
}.

Lemma wp_process_alloc s :
  ps_ok s ->
  wp process_alloc (fun p s' => exists L,
    s' = set_procs (<[p := Process 0 0 0 0]> (p_procs s)) (set_lists L s) /\
    ps_ok s' /\ lists_grow (p_lists s) L /\ ls_lists L = ls_lists (p_lists s) /\
    0 < p /\ p_procs s !! p = None) only_nomem s.
Proof.
  intros Hok. unfold process_alloc. wp_apply wp_alloc; [done|lia| |done].
  intros p s1 (L & -> & Hg & Hsame & Hp & Hlive & _ & _ & Hfresh).
  wp_cond. rewrite (proj2 (Z.eqb_neq p 0)) by lia. wp_steps.
  exists L. split_and!; [done| |done|done|done|done].
  pose proof (ps_ok_lists _ _ Hok Hg) as [Hls Hdom]. split; [done|]. cbn in *.
  rewrite dom_insert_L. set_solver.
Qed.

(** Walking a list whose values are [g k] for [k] in [cs], without changing
    anything: each step answers or goes to the next node. *)
Lemma wp_list_walk {B} (body : Z -> M (pstate H) (Z + B)) (g : Z -> Z) (R : list Z -> B -> Prop) s l b0 :
  R [] b0 -> wp (body 0) (fun r s' => s' = s /\ r = inr b0) never s ->
  forall cs ns,
  (forall a n k cs', a <> 0 -> ls_nodes (p_lists s) !! a = Some n -> DList.value n = g k -> k ∈ cs ->
     wp (body a) (fun r s' => s' = s /\
       match r with
       | inl a' => a' = next n /\ forall b, R cs' b -> R (k :: cs') b
       | inr b => R (k :: cs') b
       end) never s) ->
  forall fuel pv, List.map snd ns = List.map g cs ->
  seg (ls_nodes (p_lists s)) l pv ns 0 -> (base.length ns < fuel)%nat ->
  wp (loop fuel body (DList.first ns 0)) (fun b s' => s' = s /\ R cs b) never s.
Proof.
  intros HR0 H0b cs ns. revert cs.
  induction ns as [|[a v] ns IH]; intros [|k cs] Hstep [|fuel] pv Hns Hseg Hf; cbn in Hf; try done; try lia;
    apply wp_loop_step; cbn [DList.first].
  - eapply wp_mono; [exact H0b| |done]. by intros r s' [-> ->].
  - destruct Hseg as (Ha & Hna & Hseg). injection Hns as Hv Hns.
    eapply wp_mono; [apply (Hstep a _ k cs Ha Hna Hv); by left| |done].
    cbv beta. intros [a'|b] s' [-> Hr]; [|done]. destruct Hr as [-> Hr].
    eapply wp_mono; [apply (IH cs) with (pv := a)| |done]; [|done|done|lia|].
    + intros a' n k' cs' ? ? ? ?. apply Hstep; [done..|by right].
    + intros b s' [-> Hb]. split; [done|]. by apply Hr.
Qed.

(** The list of the children of process [i], as [process_waitpid_find] and
    [tree_node_find] go through it. *)
Lemma wp_over_children {B} (body : Z -> M (pstate H) (Z + B)) (R : list Z -> B -> Prop) s ms par i m b0
    (Q : B -> pstate H -> Prop) :
  family s ms par -> mem ms i = Some m ->
  R [] b0 -> wp (body 0) (fun r s' => s' = s /\ r = inr b0) never s ->
  (forall a n k mk cs', a <> 0 -> ls_nodes (p_lists s) !! a = Some n ->
     mem ms k = Some mk -> DList.value n = m_node mk -> k ∈ children par i ->
     wp (body a) (fun r s' => s' = s /\
       match r with
       | inl a' => a' = next n /\ forall b, R cs' b -> R (k :: cs') b
       | inr b => R (k :: cs') b
       end) never s) ->
  (forall b, R (children par i) b -> Q b s) ->
  wp (let! l := zoom lists_lens (listp (m_list m)) in
      let! fuel := gets (fun s => chain_fuel (p_lists s)) in
      loop fuel body (head l)) Q never s.
Proof.
  intros [Hok HK _ _] Hi HR0 H0b Hstep HQ.
  destruct (kin_kids _ _ _ HK i m Hi) as (ns & Hd & Hns).
  wp_steps. apply wp_lists. eapply wp_listp; [apply (dll_header _ _ _ Hd)|]. cbn [head].
  assert (set_lists (p_lists s) s = s) as -> by (by destruct s). wp_steps.
  pose proof (dll_length_bound _ _ _ Hd) as Hf.
  eapply wp_mono; [eapply (wp_list_walk body (node_of ms) R s (m_list m) b0 HR0 H0b (children par i) ns)| |done].
  - intros a n k cs' Ha Hn Hv Hk. destruct (kin_child _ _ _ _ _ HK Hk) as [_ [mk Hmk]].
    apply (Hstep a n k mk); [done..| |done]. unfold node_of in Hv. by rewrite Hmk in Hv.
  - exact Hns.
  - apply (dll_seg _ _ _ Hd).
  - unfold chain_fuel. lia.
  - intros b s' [-> Hb]. by apply HQ.
Qed.

Lemma wp_list_node a n (Q : node_t -> pstate H -> Prop) E s :
  ls_nodes (p_lists s) !! a = Some n -> Q n s -> wp (zoom lists_lens (node a)) Q E s.
Proof.
  intros Hn HQ. apply wp_lists. eapply wp_node; [done|]. by destruct s.
Qed.

(** [process_waitpid_find] answers with the child of that number. *)
Lemma wp_process_waitpid_find s ms par i m c :
  family s ms par -> mem ms i = Some m ->
  wp (process_waitpid_find (m_node m) c) (fun r s' => s' = s /\
    if decide (c ∈ children par i) then exists mc, mem ms c = Some mc /\ r = m_proc mc
    else r = 0) never s.
Proof.
  intros HF Hi. pose proof (fam_kin _ _ _ HF) as HK.
  destruct (kin_node _ _ _ HK i m Hi) as [_ Hn].
  unfold process_waitpid_find. wp_steps. eapply wp_tnode; [done|]. cbn [tn_children].
  eapply (wp_over_children _ (fun cs r =>
    if decide (c ∈ cs) then exists mc, mem ms c = Some mc /\ r = m_proc mc else r = 0));
    [done|done| | | |].
  - by rewrite decide_False by set_solver.
  - cbn. by wp_steps.
  - intros a n k mk cs' Ha Hna Hk Hv Hin. wp_cond. rewrite (proj2 (Z.eqb_neq a 0)) by done. wp_steps.
    eapply wp_list_node; [done|]. wp_steps. rewrite Hv.
    eapply wp_tnode; [apply (kin_node _ _ _ HK k mk Hk)|]. wp_steps. cbn [tn_value].
    destruct (kin_proc _ _ _ HK k mk Hk) as (nm & fdt & Hpk). eapply wp_proc; [done|]. wp_cond. cbn [pid].
    destruct (Z.eqb_spec k c) as [->|Hkc]; wp_steps; (split; [done|]).
    + rewrite decide_True by left. eauto.
    + split; [done|]. intros b Hb. destruct (decide (c ∈ cs')), (decide (c ∈ k :: cs')); set_solver.
  - intros b Hb. done.
Qed.

(** The search of the trees at [tops] for the process at [v] answers [r]. *)
Definition found (ms : list member) (par tops : list Z) (v r : Z) : Prop :=
  (exists i j m, i ∈ tops /\ below par i j /\ mem ms j = Some m /\ m_proc m = v /\ r = m_node m) \/
  (r = 0 /\ forall i j m, i ∈ tops -> below par i j -> mem ms j = Some m -> m_proc m <> v).

Lemma found_here ms par i m v : mem ms i = Some m -> m_proc m = v -> found ms par [i] v (m_node m).
Proof. intros Hi Hv. left. exists i, i, m. split_and!; [by left|apply rtc_refl|done..]. Qed.

Lemma found_children ms par i m v r :
  mem ms i = Some m -> m_proc m <> v -> found ms par (children par i) v r -> found ms par [i] v r.
Proof.
  intros Hi Hv [(k & j & mj & Hk & Hj & Hr)|[-> Hr]].
  - left. exists i, j, mj. split; [by left|]. split; [by apply rtc_l with k|done].
  - right. split; [done|]. intros i' j mj ->%list_elem_of_singleton Hj Hmj.
    apply rtc_inv in Hj as [<-|(k & Hk & Hj)]; [by simplify_eq|]. by apply (Hr k j).
Qed.

Lemma found_skip ms par k cs v r : found ms par [k] v 0 -> 
  (forall j m, mem ms j = Some m -> m_node m <> 0) ->
  found ms par cs v r -> found ms par (k :: cs) v r.
Proof.
  intros [(? & j & m & _ & _ & Hm & _ & Hz)|[_ Hk]] Hnz; [by destruct (Hnz j m Hm)|].
  intros [(i & j & m & Hi & Hr)|[-> Hr]].
  - left. exists i, j, m. split; [by right|done].
  - right. split; [done|]. intros i j m [->|Hi]%elem_of_cons; [apply Hk; by left|by apply Hr].
Qed.

Lemma found_head ms par k cs v r : r <> 0 -> found ms par [k] v r -> found ms par (k :: cs) v r.
Proof.
  intros Hr [(i & j & m & Hi & Hx)|[-> _]]; [|done].
  left. exists i, j, m. split; [|done]. apply list_elem_of_singleton in Hi as ->. by left.
Qed.

(** [tree_node_find] searches exactly the subtree, whose depth is at most the
    number of younger processes. *)
Lemma wp_tree_node_find s ms par v :
  family s ms par ->
  forall depth i m, mem ms i = Some m -> zlen ms - i < Z.of_nat depth ->
  wp (tree_node_find depth (m_node m) v) (fun r s' => s' = s /\ found ms par [i] v r) never s.
Proof.
  intros HF. pose proof (fam_kin _ _ _ HF) as HK.
  induction depth as [|depth IH]; intros i m Hi Hdepth; [apply mem_range in Hi; lia|].
  cbn [tree_node_find]. destruct (kin_node _ _ _ HK i m Hi) as [_ Hn].
  wp_steps. eapply wp_tnode; [done|]. wp_cond. cbn [tn_value tn_children].
  destruct (Z.eqb_spec (m_proc m) v) as [Hv|Hv]; [wp_steps; split; [done|by apply found_here]|].
  eapply (wp_over_children _ (fun cs r => found ms par cs v r)); [done|done| | | |].
  - right. split; [done|]. by intros ? ? ? ?%elem_of_nil.
  - cbn. by wp_steps.
  - intros a n k mk cs' Ha Hna Hk Hnv Hin. wp_cond. rewrite (proj2 (Z.eqb_neq a 0)) by done. wp_steps.
    eapply wp_list_node; [done|]. wp_steps. rewrite Hnv.
    destruct (kin_child _ _ _ _ _ HK Hin) as [Hik _].
    eapply wp_mono; [apply (IH k mk Hk); lia| |done]. cbv beta. intros r s' [-> Hr]. wp_cond.
    destruct (Z.eqb_spec r 0) as [->|Hr0]; cbn; wp_steps; (split; [done|]).
    + split; [done|]. intros b Hb. apply found_skip; [done| |done]. intros j mj Hj.
      by apply (kin_node _ _ _ HK j mj).
    + by apply found_head.
  - intros b Hb. split; [done|]. by apply (found_children _ _ _ m).
Qed.

(** Every process is below init. *)
Lemma below_init s ms par i : kin s ms par -> 1 <= i <= zlen ms -> below par 1 i.
Proof.
  intros HK Hi. assert (0 <= i) as Hpos by lia. revert Hi. pattern i.
  apply Z_lt_induction; [|done]. clear i Hpos. intros i IH Hi.
  destruct (decide (i = 1)) as [->|Hne]; [apply rtc_refl|].
  pose proof (kin_len _ _ _ HK).
  destruct (proj2 (zlookup_lt_is_Some par (i - 2)) ltac:(lia)) as [q Hq].
  pose proof (kin_par _ _ _ HK _ _ Hq). apply rtc_r with q; [apply IH; lia|].
  by apply elem_children.
Qed.

(** The nodes of the processes are different objects. *)
Lemma kin_node_inj s ms par i j m m' :
  kin s ms par -> mem ms i = Some m -> mem ms j = Some m' -> m_node m = m_node m' -> i = j.
Proof.
  intros HK Hi Hj Heq. apply (kin_proc_inj s ms par i j m m'); [done..|].
  destruct (kin_node _ _ _ HK i m Hi) as [_ Hm], (kin_node _ _ _ HK j m' Hj) as [_ Hm'].
  rewrite Heq in Hm. by simplify_eq.
Qed.

Lemma kin_size s ms par : kin s ms par -> (base.length ms <= size (p_tnodes s))%nat.
Proof.
  intros HK. rewrite <- (length_map m_node ms).
  assert (forall i m, ms !! i = Some m -> mem ms (Z.of_nat i + 1) = Some m) as Hmem.
  { intros i m Hm. unfold mem, zlookup. rewrite (proj2 (Z.ltb_ge _ _)) by lia.
    by replace (Z.to_nat (Z.of_nat i + 1 - 1)) with i by lia. }
  assert (NoDup (List.map m_node ms)) as Hnd.
  { apply NoDup_fmap_2_strong with (f := m_node) (l := ms); [|].
    - intros x y [i Hi%Hmem]%list_elem_of_lookup [j Hj%Hmem]%list_elem_of_lookup Heq.
      pose proof (kin_node_inj _ _ _ _ _ _ _ HK Hi Hj Heq). congruence.
    - apply NoDup_alt. intros i j x Hi%Hmem Hj%Hmem.
      pose proof (kin_node_inj _ _ _ _ _ _ _ HK Hi Hj eq_refl). lia. }
  rewrite <- (size_list_to_set (C := gset Z)) by done.
  rewrite <- size_dom. apply subseteq_size. intros a [i Hi]%elem_of_list_to_set%list_elem_of_lookup.
  apply list_lookup_fmap_Some in Hi as (m & -> & Hm%Hmem).
  by apply elem_of_dom_2 with (1 := proj2 (kin_node _ _ _ HK _ _ Hm)).
Qed.

(** [tree_find] finds the node of any process in the tree, and NULL for
    anything else. *)
Lemma wp_tree_find s ms par v :
  family s ms par ->
  wp (tree_find (ptree s) v) (fun r s' => s' = s /\
    ((exists j m, mem ms j = Some m /\ m_proc m = v /\ r = m_node m) \/
     (r = 0 /\ forall j m, mem ms j = Some m -> m_proc m <> v))) never s.
Proof.
  intros HF. pose proof (fam_kin _ _ _ HF) as HK. pose proof (kin_len _ _ _ HK).
  pose proof (zlen_nonneg par). destruct (mem_is_Some ms 1 ltac:(lia)) as [m1 Hm1].
  unfold tree_find. wp_steps. eapply wp_tree; [by apply (kin_root _ _ _ HK)|]. wp_steps.
  cbn [tree_root]. pose proof (kin_size _ _ _ HK).
  eapply wp_mono; [apply (wp_tree_node_find s ms par v HF _ 1 m1 Hm1)| |done].
  { unfold zlen. lia. }
  cbv beta. intros r s' [-> Hr]. split; [done|]. destruct Hr as [(i & j & m & _ & _ & Hr)|[-> Hr]].
  - left. eauto.
  - right. split; [done|]. intros j m Hj. apply (Hr 1 j m); [by left| |done].
    apply (below_init s ms); [done|by apply mem_range in Hj].
Qed.

(** How a clone can stop: the heap is exhausted, or the process numbers are. *)
Definition no_clone (n : Z) (e : panic) : Prop :=
  e = NoMemory \/ e = AssertFail /\ n + 1 = PROCESS_MAX_PID.

(** A list at the end of which [list_insert] puts a value. *)
Lemma wp_insert_child s l ns v (Q : unit -> pstate H -> Prop) E p t :
  ps_ok s -> p_tnodes s !! p = Some t -> tn_children t = l -> dll (p_lists s) l ns -> v <> 0 ->
  (forall L a, ps_ok (set_lists L s) -> dll L l (ns ++ [(a, v)]) ->
     (forall l2 ns2, l2 <> l -> dll (p_lists s) l2 ns2 -> dll L l2 ns2) -> Q tt (set_lists L s)) ->
  E NoMemory -> wp (tree_node_insert_child p v) Q E s.
Proof.
  intros [Hls Hlive] Ht Hl Hd Hv HQ HE. unfold tree_node_insert_child. wp_steps.
  eapply wp_tnode; [done|]. wp_steps. rewrite Hl. apply wp_lists.
  wp_apply wp_list_insert; [done|done|done| |by intros e ->].
  intros a L (HL & HdL & Ho & _ & Hgrow). wp_steps. apply (HQ L a); [|done|done].
  split; [done|]. cbn. set_solver.
Qed.

Lemma ps_ok_upd_proc s p x y :
  ps_ok s -> p_procs s !! p = Some x -> ps_ok (set_procs (<[p := y]> (p_procs s)) s).
Proof. intros [Hls Hl] Hx. split; [done|]. cbn. by rewrite dom_insert_lookup_L. Qed.

Lemma ps_ok_upd_tnode s p x y :
  ps_ok s -> p_tnodes s !! p = Some x -> ps_ok (set_tnodes (<[p := y]> (p_tnodes s)) s).
Proof. intros [Hls Hl] Hx. split; [done|]. cbn. by rewrite dom_insert_lookup_L. Qed.

Lemma pids_frame s s' n :
  p_bitmaps s' = p_bitmaps s -> p_bytes s' = p_bytes s -> pid_bitmap s' = pid_bitmap s ->
  last_pid s' = last_pid s -> pids s n -> pids s' n.
Proof.
  intros Hbm Hby Hb Hl ([] & Hlast & Hn). unfold pids, bits_of in *. cbn in *.
  rewrite Hb, Hl. split; [|done]. split; [done..|]. cbn. by rewrite Hbm, Hby.
Qed.

(** A new node for process [p] at the end of the children of the process whose
    node is [tq]. *)
Lemma wp_ptree_new_node s tq pq x lq ns p :
  ps_ok s -> p_tnodes s !! tq = Some (TreeNode pq lq 0) -> p_procs s !! pq = Some x ->
  ptree_node x = tq -> dll (p_lists s) lq ns ->
  wp (ptree_new_node tq p) (fun t s' => exists L c a,
    s' = set_tnodes (<[t := TreeNode p c 0]> (p_tnodes s)) (set_lists L s) /\ ps_ok s' /\
    t <> 0 /\ p_tnodes s !! t = None /\ dll L c [] /\ ls_lists (p_lists s) !! c = None /\
    dll L lq (ns ++ [(a, t)]) /\
    (forall l ns', l <> lq -> dll (p_lists s) l ns' -> dll L l ns')) only_nomem s.
Proof.
  intros Hok Htq Hpq Hx Hd. unfold ptree_new_node. wp_apply wp_tree_node_new; [done| |done].
  intros t s1 (L1 & c & Hs1 & Hok1 & (_ & _ & Hd1) & Ht & Hft & Hc & Hcn). wp_cond.
  rewrite (proj2 (Z.eqb_neq t 0)) by lia. cbn [negb]. wp_steps.
  assert (p_tnodes s1 !! t = Some (TreeNode 0 c 0)) as Ht1 by (rewrite Hs1; cbn; by rewrite lookup_insert_eq).
  eapply wp_upd_tnode; [exact Ht1|]. wp_steps. set (s2 := set_tnodes _ _).
  assert (s2 = set_tnodes (<[t := TreeNode p c 0]> (p_tnodes s)) (set_lists L1 s)) as Hs2.
  { subst s2. rewrite Hs1. unfold set_tnodes. cbn. by rewrite insert_insert_eq. }
  assert (p_tnodes s2 !! tq = Some (TreeNode pq lq 0)) as Htq2.
  { rewrite Hs2. cbn. rewrite lookup_insert_ne by congruence. done. }
  eapply wp_tnode; [exact Htq2|]. cbn [tn_value]. wp_steps.
  eapply wp_proc; [rewrite Hs2; exact Hpq|]. rewrite Hx. wp_steps.
  eapply wp_insert_child; [by eapply ps_ok_upd_tnode|exact Htq2|done| |lia| |done].
  { rewrite Hs2. by apply Hd1. }
  intros L a Hok3 Ha Ho. rewrite Hs2 in Ho, Hok3 |- *. wp_steps. cbn in Ho.
  assert (lq <> c) by (intros <-; pose proof (dll_header _ _ _ Hd); congruence).
  exists L, c, a. split_and!; [done|done|lia|done| |done|done|].
  - by apply Ho.
  - intros l ns' Hl Hl'. by apply Ho, Hd1.
Qed.

(** A clone is the next process, below its parent. *)
Lemma wp_clone_node s ms par q mq :
  family s ms par -> mem ms q = Some mq ->
  wp (let! child := process_alloc in clone_node (m_proc mq) child >>> ret child) (fun r s' =>
    exists m, r = m_proc m /\ family s' (ms ++ [m]) (par ++ [q])) (no_clone (zlen ms)) s.
Proof.
  intros [Hok HK Hpids Hmax] Hq. destruct (kin_proc _ _ _ HK q mq Hq) as (nmq & fdq & Hpq).
  destruct (kin_node _ _ _ HK q mq Hq) as [Hnq0 Hnq].
  destruct (kin_kids _ _ _ HK q mq Hq) as (ns & Hdq & Hns).
  wp_apply wp_process_alloc; [done| |by left].
  intros p s1 (L1 & Hs1 & Hok1 & (Hls1 & _ & Hd1) & Hsame1 & Hp & Hfp).
  assert (pids s1 (zlen ms)) as Hpids1 by (subst s1; by apply (pids_frame s)).
  unfold clone_node. wp_apply (wp_get_pid s1 (zlen ms)); [done|done|done| |by right].
  intros n s2 (-> & Hlt & Hok2 & Hpids2 & (Hl2 & Htn2 & Htr2 & Hpr2 & Hpt2)).
  rewrite Hs1 in Hl2, Htn2, Htr2, Hpr2, Hpt2. cbn in Hl2, Htn2, Htr2, Hpr2, Hpt2.
  assert (p_procs s2 !! p = Some (Process 0 0 0 0)) as Hp2 by (rewrite Hpr2; by rewrite lookup_insert_eq).
  wp_steps. eapply wp_upd_proc; [exact Hp2|]. wp_steps. set (s3 := set_procs _ _).
  assert (forall k, k <> p -> p_procs s3 !! k = p_procs s !! k) as Hpr3.
  { intros k Hk. cbn. rewrite Hpr2. by rewrite !lookup_insert_ne. }
  assert (p_procs s3 !! m_proc mq = Some (Process nmq q fdq (m_node mq))) as Hpq3 by (rewrite Hpr3; congruence).
  eapply wp_proc; [exact Hpq3|]. wp_steps. cbn [ptree_node].
  wp_apply (wp_ptree_new_node s3 (m_node mq) (m_proc mq) (Process nmq q fdq (m_node mq)) (m_list mq) ns p);
    [by eapply ps_ok_upd_proc|cbn; by rewrite Htn2|exact Hpq3|done| | |by left].
  { cbn. rewrite Hl2. by apply Hd1. }
  intros t s4 (L & c & a & -> & Hok4 & Ht & Hft & Hc & Hcn & Hdq4 & Ho). cbn in Hft, Hcn, Ho.
  rewrite Htn2 in Hft. rewrite Hl2 in Hcn, Ho. rewrite Hsame1 in Hcn.
  eapply wp_upd_proc; [cbn; by rewrite lookup_insert_eq|]. wp_steps.
  exists (Member p t c). split; [done|]. split.
  - apply (ps_ok_upd_proc _ _ (Process 0 (zlen ms + 1) 0 0)); [done|]. cbn. by rewrite lookup_insert_eq.
  - eapply (kin_extend s _ ms par q mq (Member p t c) 0 0 HK Hq); cbn; try done.
    + intros i mi Hi. destruct (kin_proc _ _ _ HK i mi Hi) as (? & ? & Hx).
      rewrite lookup_insert_ne by congruence. apply Hpr3. congruence.
    + intros i mi Hi. destruct (kin_node _ _ _ HK i mi Hi) as [_ Hx].
      rewrite lookup_insert_ne by congruence. by rewrite Htn2.
    + by rewrite lookup_insert_eq.
    + lia.
    + by rewrite lookup_insert_eq.
    + intros l nl Hl Hdl. by apply Ho, Hd1.
    + by exists ns, a.
  - rewrite zlen_app. by eapply pids_frame; [..|exact Hpids2].
  - rewrite zlen_app. exact Hlt.
Qed.

(** [process_init] makes the bitmap with the numbers 0 and 1 taken ... *)
Lemma wp_pid_bitmap_new s :
  ps_ok s ->
  wp (zoom bits_lens (bitmap_new PROCESS_MAX_PID)) (fun b s' =>
    ps_ok s' /\ b <> 0 /\ bitmap_rep (bits_of s') b PROCESS_MAX_PID ∅ /\
    last_pid s' = last_pid s) only_nomem s.
Proof.
  intros [[Hh Hn Hl Hdis] Hd]. apply wp_zoom.
  wp_apply Bitmap.wp_bitmap_new; [exact Hh|done|done| | |done]; [cbn; set_solver|].
  intros b bs (Hrep & Hh' & Hdom & Hlive & _). cbn in Hlive. split_and!.
  - split; [split|]; cbn; [done|set_solver..|done|set_solver].
  - apply (Bitmap.br_nonnull _ _ _ _ Hrep).
  - by destruct bs.
  - done.
Qed.

(** ... and a tree that is one node, whose value is still NULL. *)
Lemma wp_process_init s :
  ps_ok s -> last_pid s = 1 ->
  wp process_init (fun _ s' => exists r c,
    ps_ok s' /\ pids s' 1 /\ p_trees s' !! ptree s' = Some (Tree r) /\ r <> 0 /\
    p_tnodes s' !! r = Some (TreeNode 0 c 0) /\ dll (p_lists s') c []) only_nomem s.
Proof.
  intros Hok Hlast. unfold process_init. wp_apply wp_pid_bitmap_new; [done| |done].
  intros b s1 (Hok1 & Hb & Hrep1 & Hlast1). wp_cond. rewrite (proj2 (Z.eqb_neq b 0)) by done. cbn [negb].
  set (s2 := set_pid_bitmap b s1). assert (ps_ok s2) as Hok2 by (by destruct Hok1).
  wp_apply (wp_pid_set s2 b PROCESS_MAX_PID 0 ∅); [done|exact Hrep1|done| |by intros e []].
  intros [] s3 (Hok3 & Hrep3 & _ & Hb3 & Hlast3).
  wp_apply (wp_pid_set s3 b PROCESS_MAX_PID 1 ({[ 0 ]} ∪ ∅)); [done|exact Hrep3|done| |by intros e []].
  intros [] s4 (Hok4 & Hrep4 & _ & Hb4 & Hlast4).
  assert (pids s4 1) as Hp4.
  { assert (pid_bitmap s4 = b) as Hbm by (by rewrite Hb4, Hb3).
    split; [|cbn in *; split; [congruence|done]]. rewrite Hbm.
    enough (list_to_set (seqZ 0 (1 + 1)) = Bitmap.bit_put true 1 ({[ 0 ]} ∪ ∅)) as -> by done.
    apply set_eq. intros k. cbn. set_solver. }
  unfold tree_new. wp_apply wp_alloc; [done|lia| |done].
  intros t s5 (L5 & Hs5 & Hg5 & _ & Ht & Htlive & _). wp_cond.
  rewrite (proj2 (Z.eqb_neq t 0)) by lia. wp_steps. set (s6 := set_ptree _ _).
  assert (ps_ok s6) as Hok6.
  { pose proof (ps_ok_lists _ _ Hok4 Hg5) as [Hls Hlive]. subst s6 s5. split; [done|].
    cbn in *. rewrite dom_insert_L. set_solver. }
  wp_apply wp_tree_node_new; [done| |done].
  intros r s7 (L7 & c & Hs7 & Hok7 & _ & Hr & _ & Hc & _).
  assert (p_trees s7 !! t = Some (Tree 0)) as Ht7 by (rewrite Hs7; cbn; by rewrite lookup_insert_eq).
  assert (p_tnodes s7 !! r = Some (TreeNode 0 c 0)) as Hr7 by (rewrite Hs7; cbn; by rewrite lookup_insert_eq).
  wp_steps. eapply wp_tree; [exact Ht7|]. wp_steps. eapply wp_upd_tnode; [exact Hr7|].
  exists r, c. split_and!.
  - apply (ps_ok_upd_tnode _ _ (TreeNode 0 c 0)); [|done]. destruct Hok7 as [Hls Hlive].
    split; [done|]. cbn. by rewrite dom_insert_lookup_L.
  - eapply pids_frame; [..|exact Hp4]; cbn; rewrite Hs7; cbn; by rewrite Hs5.
  - cbn. rewrite Hs7. cbn. by rewrite lookup_insert_eq.
  - lia.
  - cbn. by rewrite lookup_insert_eq.
  - cbn. by rewrite Hs7.
Qed.

(** Init is process 1, at the root. *)
Lemma wp_process_start s :
  ps_ok s -> last_pid s = 1 ->
  wp (process_init >>> spawn_init_node) (fun r s' =>
    exists m, r = m_proc m /\ family s' [m] []) only_nomem s.
Proof.
  intros Hok Hlast. wp_apply wp_process_init; [done|done| |done].
  intros [] s1 (r & c & Hok1 & Hp1 & Ht1 & Hr & Hr1 & Hc1).
  unfold spawn_init_node. wp_apply wp_process_alloc; [done| |done].
  intros p s2 (L & Hs2 & Hok2 & (_ & _ & Hd) & _ & Hp & _). wp_cond.
  rewrite (proj2 (Z.eqb_neq p 0)) by lia. cbn [negb].
  assert (p_procs s2 !! p = Some (Process 0 0 0 0)) as Hp2 by (rewrite Hs2; cbn; by rewrite lookup_insert_eq).
  wp_steps. eapply wp_upd_proc; [exact Hp2|]. unfold ptree_get_init_node. wp_steps.
  eapply wp_tree; [cbn; rewrite Hs2; exact Ht1|]. wp_steps.
  eapply wp_upd_proc; [cbn; by rewrite lookup_insert_eq|]. wp_steps. cbn [tree_root].
  eapply wp_proc; [cbn; by rewrite lookup_insert_eq|]. wp_steps. cbn [ptree_node set_ptree_node].
  eapply wp_upd_tnode; [cbn; rewrite Hs2; exact Hr1|]. wp_steps.
  exists (Member p r c). split; [done|].
  assert (forall i m, mem [Member p r c] i = Some m -> i = 1 /\ m = Member p r c) as Hone.
  { intros i m Hi. pose proof (mem_range _ _ _ Hi). assert (i = 1) as -> by (unfold zlen in *; cbn in *; lia).
    by injection Hi. }
  split.
  - apply (ps_ok_upd_tnode _ _ (TreeNode 0 c 0)); [|cbn; by rewrite Hs2].
    destruct Hok2 as [Hls Hlive]. split; [done|]. cbn. rewrite !dom_insert_lookup_L; [done|eauto|].
    rewrite lookup_insert_eq. eauto.
  - split.
    + done.
    + intros i m [-> ->]%Hone. cbn. rewrite lookup_insert_eq. eauto.
    + intros i m [-> ->]%Hone. cbn. lia.
    + intros i m [-> ->]%Hone. cbn. by rewrite lookup_insert_eq.
    + intros i m [-> ->]%Hone. exists []. split; [|done]. cbn. rewrite Hs2. by apply Hd.
    + by intros i j m m' [-> _]%Hone [-> _]%Hone.
    + intros k q Hk%zlookup_Some_range. unfold zlen in Hk. cbn in Hk. lia.
    + intros m [_ ->]%Hone. cbn. by rewrite Hs2.
  - eapply pids_frame; [..|exact Hp1]; cbn; by rewrite Hs2.
  - done.
Qed.
End operations.

(** ** Every sequence of clones and searches *)

(** A clone by process [parent], the search of [waitpid] by [parent] for
    [child], and [tree_find] for a process; the answers are process numbers,
    0 for none. *)
Inductive proc_op : Type :=
  | Clone (parent : Z)
  | Waitpid (parent child : Z)
  | Find (process : Z).

(** On the list of parents; [None] when the numbers run out or a process does
    not exist. *)
Definition spec_proc_op (o : proc_op) (par : list Z) : option (list Z * list Z) :=
  let n := zlen par + 1 in
  match o with
  | Clone q =>
      if (1 <=? q) && (q <=? n) && (n + 1 <? PROCESS_MAX_PID) then Some ([n + 1], par ++ [q]) else None
  | Waitpid q c =>
      if (1 <=? q) && (q <=? n) then
        Some ([if decide (zlookup par (c - 2) = Some q) then c else 0], par)
      else None
  | Find q => if (1 <=? q) && (q <=? n) then Some ([q], par) else None
  end.

Fixpoint spec_proc_ops (os : list proc_op) (par : list Z) : option (list Z * list Z) :=
  match os with
  | [] => Some ([], par)
  | o :: os' =>
      '(r, par1) ← spec_proc_op o par; '(r', par2) ← spec_proc_ops os' par1; Some (r ++ r', par2)
  end.

Section run.
Context {H : Type} `{KHeapLaws H}.
Implicit Types (s : pstate H).

(** [ps] are the processes so far, by number. *)
Definition run_proc_op (o : proc_op) (ps : list Z) : M (pstate H) (list Z * list Z) :=
  match o with
  | Clone q =>
      let! old := some (zlookup ps (q - 1)) in
      let! child := (let! child := process_alloc in clone_node old child >>> ret child) in
      let! x := proc child in
      ret ([pid x], ps ++ [child])
  | Waitpid q c =>
      let! p := some (zlookup ps (q - 1)) in
      let! x := proc p in
      let! r := process_waitpid_find (ptree_node x) c in
      if r =? 0 then ret ([0], ps) else let! y := proc r in ret ([pid y], ps)
  | Find q =>
      let! p := some (zlookup ps (q - 1)) in
      let! t := gets ptree in
      let! r := tree_find t p in
      let! n := tnode r in
      let! y := proc (tn_value n) in
      ret ([pid y], ps)
  end.

Fixpoint run_proc_ops (os : list proc_op) (ps : list Z) : M (pstate H) (list Z) :=
  match os with
  | [] => ret []
  | o :: os' =>
      let! '(r, ps1) := run_proc_op o ps in
      let! r' := run_proc_ops os' ps1 in
      ret (r ++ r')
  end.

Definition proc_session (os : list proc_op) : M (pstate H) (list Z) :=
  let! init := (process_init >>> spawn_init_node) in run_proc_ops os [init].

Lemma procs_lookup ms q :
  zlookup (List.map m_proc ms) (q - 1) = m_proc <$> mem ms q.
Proof. unfold mem, zlookup. case_match; [done|]. by rewrite list_lookup_fmap. Qed.

Lemma mem_none ms q : mem ms q = None -> (1 <=? q) && (q <=? zlen ms) = false.
Proof.
  intros Hn. apply not_true_is_false. intros [? ?]%andb_true_iff.
  destruct (mem_is_Some ms q) as [m Hm]; [lia|congruence].
Qed.

Lemma mem_some ms q m : mem ms q = Some m -> (1 <=? q) && (q <=? zlen ms) = true.
Proof. intros Hm%mem_range. apply andb_true_iff. lia. Qed.

Lemma run_proc_op_refines o s ms par :
  family s ms par ->
  wp (run_proc_op o (List.map m_proc ms)) (fun r s' => exists ms' par',
      spec_proc_op o par = Some (r.1, par') /\ family s' ms' par' /\ r.2 = List.map m_proc ms')
    (fun e => e = NoMemory \/ spec_proc_op o par = None) s.
Proof.
  intros HF. pose proof (fam_kin _ _ _ HF) as HK. pose proof (kin_len _ _ _ HK) as Hlen.
  destruct o as [q|q c|q]; unfold run_proc_op; wp_cond; rewrite procs_lookup;
    (destruct (mem ms q) as [mq|] eqn:Hq; [|right; unfold spec_proc_op; by rewrite <- Hlen, (mem_none _ _ Hq)]);
    cbn [fmap option_fmap option_map]; destruct (kin_proc _ _ _ HK q mq Hq) as (nm & fdt & Hpq).
  - wp_step. eapply wp_mono; [by apply (wp_clone_node s ms par q mq)| |].
    + intros r s' (m & -> & HF'). wp_steps.
      assert (mem (ms ++ [m]) (zlen ms + 1) = Some m) as Hm by (by rewrite mem_snoc, Z.eqb_refl).
      destruct (kin_proc _ _ _ (fam_kin _ _ _ HF') _ _ Hm) as (? & ? & Hx).
      eapply wp_proc; [exact Hx|]. wp_steps. exists (ms ++ [m]), (par ++ [q]).
      rewrite map_app. split_and!; [|done|done]. cbn [spec_proc_op pid fst].
      rewrite <- Hlen, (mem_some _ _ _ Hq). pose proof (fam_max _ _ _ HF') as Hmax. rewrite zlen_app in Hmax.
      cbn in Hmax |- *. by rewrite (proj2 (Z.ltb_lt _ _)) by done.
    + intros e [->|[-> Hmax]]; [by left|right]. cbn [spec_proc_op].
      rewrite <- Hlen, (proj2 (Z.ltb_ge _ _)) by lia. by rewrite andb_false_r.
  - wp_steps. eapply wp_proc; [exact Hpq|]. cbn [ptree_node].
    wp_apply (wp_process_waitpid_find s ms par q mq c); [done|done| |by intros e []].
    intros r s' [-> Hr]. wp_cond.
    assert (forall x, x = (if decide (c ∈ children par q) then c else 0) ->
      spec_proc_op (Waitpid q c) par = Some ([x], par)) as Hspec.
    { intros x ->. cbn [spec_proc_op]. rewrite <- Hlen, (mem_some _ _ _ Hq). do 3 f_equal.
      pose proof (elem_children par q c) as Hc.
      destruct (decide (c ∈ _)), (decide (_ = Some q)); tauto. }
    destruct (decide (c ∈ children par q)) as [Hc|Hc].
    + destruct Hr as (mc & Hmc & ->). rewrite (proj2 (Z.eqb_neq _ 0)) by (by eapply kin_nonnull).
      destruct (kin_proc _ _ _ HK c mc Hmc) as (? & ? & Hpc).
      wp_steps. eapply wp_proc; [exact Hpc|]. wp_steps. exists ms, par. eauto.
    + rewrite Hr. wp_steps. exists ms, par. eauto.
  - wp_steps. wp_apply (wp_tree_find s ms par); [done| |by intros e []].
    intros r s' [-> Hr]. destruct Hr as [(j & m & Hj & Hm & ->)|[-> Hr]]; [|by destruct (Hr q mq)].
    pose proof (kin_proc_inj _ _ _ _ _ _ _ HK Hj Hq Hm) as ->. assert (m = mq) as -> by congruence.
    wp_steps. eapply wp_tnode; [by apply (kin_node _ _ _ HK q)|]. cbn [tn_value]. wp_steps.
    eapply wp_proc; [exact Hpq|]. wp_steps. exists ms, par. split_and!; [|done|done].
    cbn [spec_proc_op]. by rewrite <- Hlen, (mem_some _ _ _ Hq).
Qed.

Lemma run_proc_ops_refine os : forall s ms par,
  family s ms par ->
  wp (run_proc_ops os (List.map m_proc ms)) (fun r s' => exists ms' par',
      spec_proc_ops os par = Some (r, par') /\ family s' ms' par')
    (fun e => e = NoMemory \/ spec_proc_ops os par = None) s.
Proof.
  induction os as [|o os IH]; intros s ms par HF; cbn [run_proc_ops spec_proc_ops]; wp_steps; [eauto|].
  eapply wp_mono; [by apply (run_proc_op_refines o s ms par)| |].
  2:{ intros e [?|Hn]; [by left|right]. by rewrite Hn. }
  cbv beta. intros [r ps] s1 (ms1 & par1 & Ho & HF1 & Hps). cbn in Ho, Hps. rewrite Ho, Hps. wp_steps.
  eapply wp_mono; [by apply (IH s1 ms1 par1)| |].
  2:{ intros e [?|Hn]; [by left|right]. cbn. by rewrite Hn. }
  cbv beta. intros r' s2 (ms2 & par2 & Hos & HF2). wp_steps. cbn. rewrite Hos. cbn. eauto.
Qed.
End run.

(** ** Properties *)

(** C15. From start-up, any sequence of clones, waitpid searches and tree
    searches gives the answers of the same sequence on the list of parents:
    process numbers are handed out as 2, 3, 4, ... with init as 1, a new
    process is the last child of its parent, a search finds exactly the child
    with that number and [tree_find] the node of any process.  The kernel
    stops only where the heap is exhausted, all numbers below 32768 are used
    up or an operation names a process that does not exist; no search loops
    or follows a bad pointer. *)
Theorem process_tree_refines {H : Type} `{KHeapLaws H} (os : list proc_op) (s : pstate H) :
  ps_ok s -> last_pid s = 1 ->
  wp (proc_session os)
    (fun r s' => exists ms par, spec_proc_ops os [] = Some (r, par) /\ family s' ms par)
    (fun e => e = NoMemory \/ spec_proc_ops os [] = None) s.
Proof.
  intros Hok Hlast. unfold proc_session. refine (proj2 (wp_bind _ _ _ _ _) _).
  eapply wp_mono; [by apply wp_process_start| |by intros e ->; left].
  intros init s1 (m & -> & HF). by apply (run_proc_ops_refine os s1 [m] []).
Qed.

Definition proc_start : pstate bump := PState (LState (Bump 8 ∅) ∅ ∅) ∅ ∅ ∅ ∅ ∅ 0 1 0.
Definition proc_sample : list proc_op :=
  [Clone 1; Clone 2; Clone 1; Waitpid 1 4; Waitpid 1 3; Waitpid 2 3; Find 3; Find 1].

Example proc_sample_run :
  match proc_session proc_sample proc_start with Ok (r, _) => Some r | Err _ => None end
  = Some [2; 3; 4; 4; 0; 3; 3; 1].
Proof. vm_compute. reflexivity. Qed.

Lemma process_tree_refines_witness :
  wp (proc_session proc_sample)
    (fun r s' => exists ms par, spec_proc_ops proc_sample [] = Some (r, par) /\ family s' ms par)
    (fun e => e = NoMemory \/ spec_proc_ops proc_sample [] = None) proc_start.
Proof.
  apply (process_tree_refines proc_sample proc_start).
  - split; cbn; [split; cbn; [split; cbn; [lia|]|..]|]; set_solver.
  - reflexivity.
Defined.
