(* ===== verification/Itoa.v ===== *)
(** * Number printing and parsing (kernel/misc/itoa.c, kernel/misc/oct2bin.c)

    [utoa] and [itoa] write digits into a character buffer and reverse them in
    place; [oct2bin] reads the octal numbers of tar headers.  The theorems are
    the round trips against a reference reader of numerals. *)
From S2P Require Import Prelude.
From stdpp Require Import strings.
Local Open Scope Z_scope.

(** ** A character buffer *)

Definition chars (s : string) : list Z :=
  List.map (fun c => Z.of_nat (Ascii.nat_of_ascii c)) (String.list_ascii_of_string s).

(** The string literal of [utoa], indexed from its middle. *)
Definition utoa_digits : list Z :=
  chars "zyxwvutsrqponmlkjihgfedcba9876543210123456789abcdefghijklmnopqrstuvwxyz"%string.

Definition digit_char (d : Z) : M (list Z) Z := some (zlookup utoa_digits (35 + d)).

(** A 32-bit number has at most 32 digits. *)
Definition utoa_fuel : nat := 33.

(** The [do ... while] loop; answers the number of digits. *)
Definition utoa_emit (str base : Z) (value : Z) : M (list Z) Z :=
  loop utoa_fuel (fun '(i, value) =>
    let! c := digit_char (value mod base) in
    buf_set (str + i) c >>>
    let i' := i + 1 in
    let value' := value / base in
    if negb (value' =? 0) then ret (inl (i', value')) else ret (inr i')) (0, value).

Definition utoa_pad (str i width : Z) : M (list Z) Z :=
  for_up (Z.to_nat (width - i)) i (fun k => buf_set (str + k) 48) >>>
  ret (Z.max i width).

Definition utoa_swap (str : Z) (i : Z) : M (list Z) unit :=
  loop (S (Z.to_nat i)) (fun '(j, i) =>
    if j <? i then
      let! c := buf_get (str + j) in
      let! d := buf_get (str + i) in
      buf_set (str + j) d >>>
      buf_set (str + i) c >>>
      ret (inl (j + 1, i - 1))
    else ret (inr tt)) (0, i - 1).

(** Answers [str], or NULL ([None]) for a base it does not know. *)
Definition utoa (value str base width : Z) : M (list Z) (option Z) :=
  if (base <? 2) || (36 <? base) then
    buf_set str 0 >>> ret None
  else
    let! n := utoa_emit str base value in
    let! i := utoa_pad str n width in
    buf_set (str + i) 0 >>>
    utoa_swap str i >>>
    ret (Some str).

(** [-num] of the least [int] wraps around, as the cpu does it; in C it is a
    signed overflow. *)
Definition itoa (num str base width : Z) : M (list Z) (option Z) :=
  if (base =? 10) && (num <? 0) then
    buf_set str 45 >>> utoa (u32 (- num)) (str + 1) base width
  else utoa (u32 num) str base width.

(** [oct2bin(str, size)] on the bytes at [str]. *)
Definition oct2bin_loop (str : list Z) (size : Z) : M unit Z :=
  loop (S (Z.to_nat size)) (fun '(i, r) =>
    if i <? size then
      let! c := some (zlookup str i) in
      if negb (c =? 0) then
        let r := u32 (Z.shiftl r 3) in
        let r := if (48 <=? c) && (c <=? 55) then u32 (r + (c - 48)) else r in
        ret (inl (i + 1, r))
      else ret (inr r)
    else ret (inr r)) (0, 0).

Definition oct2bin (str : list Z) (size : Z) : res Z :=
  match oct2bin_loop str size tt with Ok (r, _) => Ok r | Err e => Err e end.

(** ** Reference numerals *)

(** The digits of [v], least significant first; [n] bounds their number. *)
Fixpoint digits_le (n : nat) (base v : Z) : list Z :=
  match n with
  | O => []
  | S n' => (v mod base) :: if v / base =? 0 then [] else digits_le n' base (v / base)
  end.

Definition char_of_digit (d : Z) : Z := if d <? 10 then 48 + d else 97 + (d - 10).
Definition digit_of_char (c : Z) : option Z :=
  if (48 <=? c) && (c <=? 57) then Some (c - 48)
  else if (97 <=? c) && (c <=? 122) then Some (c - 97 + 10)
  else None.

(** The number a numeral denotes, most significant digit first. *)
Fixpoint parse (base r : Z) (s : list Z) : option Z :=
  match s with
  | [] => Some r
  | c :: s' =>
      d ← digit_of_char c; if d <? base then parse base (r * base + d) s' else None
  end.

(** What [utoa] writes before the terminating NUL. *)
Definition numeral (value base width : Z) : list Z :=
  let ds := digits_le 32 base value in
  replicate (Z.to_nat (width - zlen ds)) 48 ++ rev (List.map char_of_digit ds).

Lemma digit_char_spec d (Q : Z -> list Z -> Prop) E b :
  0 <= d < 36 -> Q (char_of_digit d) b -> wp (digit_char d) Q E b.
Proof.
  intros Hd HQ. unfold digit_char. wp_cond.
  assert (zlookup utoa_digits (35 + d) = Some (char_of_digit d)) as ->; [|done].
  assert (forall k : nat, (k < 36)%nat ->
    zlookup utoa_digits (35 + Z.of_nat k) = Some (char_of_digit (Z.of_nat k))) as Hall.
  { intros k Hk. do 36 (destruct k as [|k]; [vm_compute; reflexivity|]). lia. }
  specialize (Hall (Z.to_nat d)). rewrite Z2Nat.id in Hall by lia. apply Hall. lia.
Qed.

Lemma digit_of_char_of_digit d : 0 <= d < 36 -> digit_of_char (char_of_digit d) = Some d.
Proof.
  intros Hd. unfold digit_of_char, char_of_digit.
  destruct (Z.ltb_spec d 10).
  - rewrite (proj2 (Z.leb_le 48 (48 + d))), (proj2 (Z.leb_le (48 + d) 57)) by lia. cbn. f_equal. lia.
  - rewrite (proj2 (Z.leb_gt (97 + (d - 10)) 57)) by lia. rewrite andb_false_r.
    rewrite (proj2 (Z.leb_le 97 (97 + (d - 10)))), (proj2 (Z.leb_le (97 + (d - 10)) 122)) by lia.
    cbn. f_equal. lia.
Qed.

(** ** The three loops of [utoa] *)

Lemma digits_le_bound base v n : 2 <= base -> 0 <= v -> Forall (fun d => 0 <= d < base) (digits_le n base v).
Proof.
  intros Hb. revert v. induction n as [|n IH]; intros v Hv; cbn; [done|].
  constructor; [by apply Z.mod_pos_bound; lia|].
  destruct (v / base =? 0); [done|]. apply IH. apply Z.div_pos; lia.
Qed.

Lemma wp_utoa_emit_loop str base : 2 <= base <= 36 ->
  forall n fuel v i pre rest,
  0 <= v < base ^ Z.of_nat n -> (0 < n)%nat -> (n <= fuel)%nat ->
  (n <= length rest)%nat -> str + i = zlen pre ->
  wp (loop fuel (fun '(i, value) =>
    let! c := digit_char (value mod base) in
    buf_set (str + i) c >>>
    let i' := i + 1 in
    let value' := value / base in
    if negb (value' =? 0) then ret (inl (i', value')) else ret (inr i')) (i, v))
    (fun r b => r = i + zlen (digits_le n base v) /\
       b = pre ++ List.map char_of_digit (digits_le n base v) ++
             drop (length (digits_le n base v)) rest) never (pre ++ rest).
Proof.
  intros Hb n. induction n as [|n IH]; intros [|fuel] v i pre rest Hv Hn Hf Hr Hi; try lia.
  apply wp_loop_step. cbn [digits_le].
  pose proof (Z.mod_pos_bound v base ltac:(lia)).
  wp_steps. apply digit_char_spec; [lia|]. destruct rest as [|x rest]; cbn in Hr; [lia|].
  wp_steps. apply wp_buf_set; [done|]. wp_cond.
  assert (0 <= v / base < base ^ Z.of_nat n) as Hd.
  { rewrite Nat2Z.inj_succ, Z.pow_succ_r in Hv by lia. split; [apply Z.div_pos; lia|].
    apply Z.div_lt_upper_bound; lia. }
  destruct (Z.eqb_spec (v / base) 0) as [E|E]; cbn [negb]; wp_steps.
  - rewrite zlen_cons. cbn. done.
  - destruct n as [|n]; [cbn in Hd; lia|].
    rewrite app_cons_assoc. eapply wp_mono; [apply (IH fuel (v / base) (i + 1))| |done].
    + done.
    + lia.
    + lia.
    + lia.
    + autorewrite with arrays. lia.
    + intros r b [-> ->]. rewrite zlen_cons, <- app_assoc. split; [lia|done].
Qed.

Lemma wp_utoa_pad str i width pre rest :
  str + i = zlen pre -> 0 <= i -> (Z.to_nat (width - i) <= length rest)%nat ->
  wp (utoa_pad str i width) (fun r b =>
    r = Z.max i width /\
    b = pre ++ replicate (Z.to_nat (width - i)) 48 ++ drop (Z.to_nat (width - i)) rest)
    never (pre ++ rest).
Proof.
  intros Hi H0 Hr. unfold utoa_pad. wp_steps.
  eapply wp_mono; [apply (wp_for_up (fun k b => b = pre ++ replicate (Z.to_nat (k - i)) 48 ++
    drop (Z.to_nat (k - i)) rest))| |done].
  - by replace (Z.to_nat (i - i)) with 0%nat by lia.
  - intros j b Hj ->. destruct (drop_cons_lookup (Z.to_nat (j - i)) rest ltac:(lia)) as [x ->].
    rewrite (app_assoc pre _ (x :: _)). apply wp_buf_set.
    + autorewrite with arrays. unfold zlen at 2. rewrite length_replicate. lia.
    + replace (Z.to_nat (j + 1 - i)) with (S (Z.to_nat (j - i))) by lia.
      rewrite replicate_S_end, <- !app_assoc. done.
  - intros [] b ->. wp_steps. split; [done|].
    by replace (Z.to_nat (i + Z.of_nat (Z.to_nat (width - i)) - i)) with (Z.to_nat (width - i)) by lia.
Qed.

Lemma wp_utoa_swap_loop str : forall n mid fuel j i pre post,
  (length mid <= n)%nat -> (n < fuel)%nat ->
  str + j = zlen pre -> i = j + zlen mid - 1 ->
  wp (loop fuel (fun '(j, i) =>
    if j <? i then
      let! c := buf_get (str + j) in
      let! d := buf_get (str + i) in
      buf_set (str + j) d >>>
      buf_set (str + i) c >>>
      ret (inl (j + 1, i - 1))
    else ret (inr tt)) (j, i))
    (fun _ b => b = pre ++ rev mid ++ post) never (pre ++ mid ++ post).
Proof.
  induction n as [|n IH]; intros mid [|fuel] j i pre post Hn Hf Hj ->; try lia;
    apply wp_loop_step; wp_cond.
  - destruct mid; [|cbn in Hn; lia]. rewrite zlen_nil. rewrite (proj2 (Z.ltb_ge _ _)) by lia.
    by wp_steps.
  - destruct mid as [|x mid]; [|destruct mid as [|y mid _] using rev_ind].
    + rewrite zlen_nil, (proj2 (Z.ltb_ge _ _)) by lia. by wp_steps.
    + rewrite zlen_cons, zlen_nil, (proj2 (Z.ltb_ge _ _)) by lia. by wp_steps.
    + autorewrite with arrays. pose proof (zlen_nonneg mid).
      rewrite (proj2 (Z.ltb_lt _ _)) by lia. wp_steps. cbn [app].
      apply wp_buf_get; [done|]. wp_steps.
      replace (pre ++ x :: (mid ++ [y]) ++ post) with ((pre ++ x :: mid) ++ y :: post)
        by (by rewrite <- !app_assoc).
      apply wp_buf_get; [autorewrite with arrays; lia|]. wp_steps.
      rewrite <- app_assoc. cbn [app]. apply wp_buf_set; [done|]. wp_steps.
      replace (pre ++ y :: mid ++ y :: post) with ((pre ++ y :: mid) ++ y :: post)
        by (by rewrite <- !app_assoc).
      apply wp_buf_set; [autorewrite with arrays; lia|]. wp_steps.
      replace ((pre ++ y :: mid) ++ x :: post) with ((pre ++ [y]) ++ mid ++ x :: post)
        by (by rewrite <- !app_assoc).
      eapply wp_mono; [apply IH| |done].
      * rewrite length_cons, length_app in Hn. cbn in Hn. lia.
      * lia.
      * autorewrite with arrays. lia.
      * lia.
      * cbv beta. intros _ b ->. cbn [rev]. rewrite rev_app_distr. cbn. by rewrite <- !app_assoc.
Qed.

(** ** [utoa] and [itoa] *)

Lemma digits_le_length base v n : (length (digits_le n base v) <= n)%nat.
Proof.
  revert v. induction n as [|n IH]; intros v; cbn; [lia|].
  destruct (v / base =? 0); cbn; [lia|]. specialize (IH (v / base)). lia.
Qed.

Lemma digits_le_32 base v : 2 <= base -> is_u32 v -> 0 <= v < base ^ Z.of_nat 32.
Proof.
  intros Hb [H0 H1]. split; [done|]. eapply Z.lt_le_trans; [exact H1|].
  apply (Z.pow_le_mono_l 2 base 32). lia.
Qed.

Lemma zlen_numeral v base width :
  zlen (numeral v base width) = Z.max width (zlen (digits_le 32 base v)).
Proof.
  unfold numeral, zlen. rewrite length_app, length_replicate, length_rev, length_map. lia.
Qed.

Lemma wp_utoa v base width pre buf :
  2 <= base <= 36 -> is_u32 v -> 32 < zlen buf -> width < zlen buf ->
  wp (utoa v (zlen pre) base width) (fun r b => r = Some (zlen pre) /\
    exists rest, b = pre ++ numeral v base width ++ 0 :: rest /\ length b = length (pre ++ buf))
    never (pre ++ buf).
Proof.
  intros Hb Hv Hbuf Hw. unfold utoa. wp_cond.
  rewrite (proj2 (Z.ltb_ge base 2)), (proj2 (Z.ltb_ge 36 base)) by lia. cbn [orb]. wp_steps.
  set (ds := digits_le 32 base v). pose proof (digits_le_length base v 32) as Hds.
  fold ds in Hds.
  eapply wp_mono; [apply (wp_utoa_emit_loop (zlen pre) base Hb 32 utoa_fuel v 0 pre buf)| |done].
  { by apply digits_le_32; [lia|]. } { lia. } { unfold utoa_fuel. lia. }
  { unfold zlen in Hbuf. lia. } { lia. }
  fold ds. intros n b [-> ->]. rewrite app_assoc.
  set (tail := drop (length ds) buf). assert (zlen buf = zlen ds + zlen tail) as Hlen.
  { subst tail. unfold zlen in *. rewrite length_drop. lia. }
  assert (zlen (pre ++ List.map char_of_digit ds) = zlen pre + zlen ds) as Hpre.
  { rewrite zlen_app. f_equal. unfold zlen. by rewrite length_map. }
  wp_steps. eapply wp_mono; [apply wp_utoa_pad| |done]; [lia|apply zlen_nonneg| |].
  { unfold zlen in *. lia. }
  cbv beta. rewrite Z.add_0_l. intros i b [-> ->]. wp_steps.
  set (padding := replicate (Z.to_nat (width - zlen ds)) 48).
  assert (zlen padding = Z.max 0 (width - zlen ds)) as Hpad.
  { subst padding. unfold zlen at 1. rewrite length_replicate. lia. }
  destruct (drop_cons_lookup (Z.to_nat (width - zlen ds)) tail) as [x Hx].
  { unfold zlen in *. lia. }
  rewrite Hx, app_assoc. set (post := drop (S _) tail) in *.
  apply wp_buf_set; [rewrite zlen_app; lia|]. wp_steps. unfold utoa_swap.
  rewrite <- !app_assoc. rewrite (app_assoc (List.map char_of_digit ds) padding).
  eapply wp_mono; [eapply (wp_utoa_swap_loop (zlen pre)
    (length (List.map char_of_digit ds ++ padding)))| |done]; [lia| |lia| |].
  { rewrite length_app, length_map. unfold zlen in *. lia. }
  { unfold zlen in *. rewrite length_app, length_map. lia. }
  cbv beta. intros _ b ->. wp_steps. split; [done|]. exists post.
  assert (rev (List.map char_of_digit ds ++ padding) = numeral v base width) as ->.
  { rewrite rev_app_distr. unfold numeral. fold ds. f_equal. subst padding.
    rewrite rev_alt. apply reverse_replicate. }
  split; [done|]. rewrite !length_app, length_cons.
  pose proof (zlen_numeral v base width) as Hnum. fold ds in Hnum.
  subst post tail. rewrite !length_drop. unfold zlen in *. lia.
Qed.

Lemma wp_itoa v base width pre buf :
  2 <= base <= 36 -> - 2 ^ 31 <= v < 2 ^ 31 -> 33 < zlen buf -> width + 1 < zlen buf ->
  wp (itoa v (zlen pre) base width) (fun r b =>
    let sign := if (base =? 10) && (v <? 0) then [45] else [] in
    let value := if (base =? 10) && (v <? 0) then - v else u32 v in
    r = Some (zlen (pre ++ sign)) /\
    exists rest, b = pre ++ sign ++ numeral value base width ++ 0 :: rest /\
      length b = length (pre ++ buf))
    never (pre ++ buf).
Proof.
  intros Hb Hv Hbuf Hw. unfold itoa. wp_cond.
  destruct ((base =? 10) && (v <? 0)) eqn:E.
  - apply andb_true_iff in E as [_ Hv0%Z.ltb_lt].
    destruct buf as [|x buf]; [done|]. rewrite zlen_cons in *. wp_steps.
    apply wp_buf_set; [done|]. rewrite (app_cons_assoc pre 45 buf).
    replace (zlen pre + 1) with (zlen (pre ++ [45])) by (by rewrite zlen_app).
    rewrite u32_small by (unfold is_u32; lia).
    eapply wp_mono; [apply (wp_utoa (- v) base width (pre ++ [45]) buf); [done|unfold is_u32; lia|lia|lia]| |done].
    intros r b [-> (rest & -> & Hl)]. split; [done|]. exists rest.
    split; [by rewrite <- app_assoc|]. rewrite Hl, !length_app. cbn. lia.
  - eapply wp_mono; [apply wp_utoa; [done|apply u32_range|lia|lia]| |done].
    intros r b [-> (rest & -> & Hl)]. rewrite app_nil_r. eauto.
Qed.

(** ** Reading numerals back *)

Fixpoint value_le (base : Z) (ds : list Z) : Z :=
  match ds with [] => 0 | d :: ds' => d + base * value_le base ds' end.

Lemma digits_le_value base n v :
  2 <= base -> 0 <= v < base ^ Z.of_nat n -> value_le base (digits_le n base v) = v.
Proof.
  intros Hb. revert v. induction n as [|n IH]; intros v Hv; [cbn in *; lia|]. cbn [digits_le value_le].
  pose proof (Z.div_mod v base ltac:(lia)).
  destruct (Z.eqb_spec (v / base) 0) as [E|E]; cbn [value_le]; [lia|].
  rewrite IH; [lia|]. rewrite Nat2Z.inj_succ, Z.pow_succ_r in Hv by lia.
  split; [apply Z.div_pos; lia|]. apply Z.div_lt_upper_bound; lia.
Qed.

Lemma parse_app base r s1 s2 :
  parse base r (s1 ++ s2) = parse base r s1 ≫= fun r' => parse base r' s2.
Proof.
  revert r. induction s1 as [|c s1 IH]; intros r; cbn; [done|].
  destruct (digit_of_char c) as [d|]; cbn; [|done]. destruct (d <? base); cbn; [apply IH|done].
Qed.

Lemma parse_digit base r d : 0 <= d < base -> base <= 36 ->
  parse base r [char_of_digit d] = Some (r * base + d).
Proof.
  intros Hd Hb. cbn. rewrite digit_of_char_of_digit by lia. cbn.
  by rewrite (proj2 (Z.ltb_lt d base)) by lia.
Qed.

Lemma parse_rev_digits base ds :
  2 <= base <= 36 -> Forall (fun d => 0 <= d < base) ds ->
  parse base 0 (rev (List.map char_of_digit ds)) = Some (value_le base ds).
Proof.
  intros Hb HF. induction ds as [|d ds IH]; [done|]. apply Forall_cons in HF as [Hd HF].
  cbn [List.map rev]. rewrite parse_app, IH by done. cbn [mbind option_bind].
  rewrite parse_digit by lia. cbn. f_equal. lia.
Qed.

Lemma parse_numeral v base width :
  2 <= base <= 36 -> is_u32 v -> parse base 0 (numeral v base width) = Some v.
Proof.
  intros Hb Hv. unfold numeral. rewrite parse_app.
  assert (forall n, parse base 0 (replicate n 48) = Some 0) as ->.
  { induction n as [|n IH]; [done|].
    change (parse base 0 (replicate (S n) 48)) with
      (if 0 <? base then parse base (0 * base + 0) (replicate n 48) else None).
    rewrite (proj2 (Z.ltb_lt 0 base)) by lia. exact IH. }
  cbn [mbind option_bind]. rewrite parse_rev_digits; [|done|apply digits_le_bound; [lia|apply Hv]].
  f_equal. apply digits_le_value; [lia|]. by apply digits_le_32; [lia|].
Qed.

Lemma numeral_nonzero v base width : 2 <= base <= 36 -> 0 <= v ->
  Forall (fun c => 48 <= c) (numeral v base width).
Proof.
  intros Hb Hv. unfold numeral. apply Forall_app_2; [apply Forall_replicate; lia|].
  apply Forall_rev, Forall_map. eapply Forall_impl; [apply digits_le_bound; lia|].
  intros d Hd. cbn in *. unfold char_of_digit. destruct (d <? 10); lia.
Qed.

(** ** [oct2bin] *)

(** The characters a field of [n] bytes holds before its NUL, if any. *)
Fixpoint field_text (n : nat) (s : list Z) : list Z :=
  match n, s with
  | S n', c :: s' => if c =? 0 then [] else c :: field_text n' s'
  | _, _ => []
  end.

Definition oct_step (r c : Z) : Z :=
  let r := u32 (Z.shiftl r 3) in
  if (48 <=? c) && (c <=? 55) then u32 (r + (c - 48)) else r.

Lemma oct2bin_field str size :
  0 <= size <= zlen str ->
  oct2bin str size = Ok (fold_left oct_step (field_text (Z.to_nat size) str) 0).
Proof.
  intros Hs. unfold oct2bin, oct2bin_loop.
  match goal with |- context [loop _ ?b _] => set (body := b) end.
  enough (forall n fuel pre rest r, str = pre ++ rest -> n = (Z.to_nat size - length pre)%nat ->
    (length pre <= Z.to_nat size)%nat -> (n < fuel)%nat ->
    wp (loop fuel body (zlen pre, r))
      (fun v _ => v = fold_left oct_step (field_text n rest) r) never tt) as Hgen.
  { specialize (Hgen (Z.to_nat size) (S (Z.to_nat size)) [] str 0 eq_refl
      ltac:(cbn; lia) ltac:(cbn; lia) ltac:(lia)).
    apply wp_elim in Hgen. change (zlen []) with 0 in Hgen.
    destruct (loop _ body (0, 0) tt) as [[v []]|e]; [by subst v|done]. }
  induction n as [|n IH]; intros [|fuel] pre rest r Hstr Hn Hp Hf; try lia;
    apply wp_loop_step; unfold body; wp_cond.
  - rewrite (proj2 (Z.ltb_ge _ _)) by (unfold zlen; lia). wp_steps. by destruct rest.
  - rewrite (proj2 (Z.ltb_lt _ _)) by (unfold zlen; lia). destruct rest as [|c rest].
    { subst str. rewrite app_nil_r in Hs. unfold zlen in Hs. lia. }
    subst str. wp_cond. rewrite zlookup_app_mid. cbn [field_text]. wp_cond.
    destruct (Z.eqb_spec c 0) as [->|Hc]; cbn [negb]; wp_steps; [done|].
    replace (zlen pre + 1) with (zlen (pre ++ [c])) by (by rewrite zlen_app).
    eapply wp_mono; [apply IH| |done].
    + by rewrite <- app_assoc.
    + rewrite length_app. cbn. lia.
    + rewrite length_app. cbn. lia.
    + lia.
    + intros v [] ->. done.
Qed.

Lemma field_text_stop s rest n :
  Forall (fun c => c <> 0) s -> (length s <= n)%nat ->
  field_text n (s ++ 0 :: rest) = s.
Proof.
  revert n. induction s as [|c s IH]; intros n HF Hn.
  - by destruct n.
  - apply Forall_cons in HF as [Hc HF]. destruct n as [|n]; cbn in Hn; [lia|]. cbn.
    rewrite (proj2 (Z.eqb_neq c 0)) by done. rewrite IH; [done|done|lia].
Qed.

(** Octal numerals are read back modulo 2^32. *)
Lemma oct_fold s r v : parse 8 r s = Some v -> 0 <= r ->
  fold_left oct_step s (u32 r) = u32 v.
Proof.
  revert r. induction s as [|c s IH]; intros r Hp Hr; cbn in Hp |- *; [by simplify_eq|].
  unfold digit_of_char in Hp.
  destruct ((48 <=? c) && (c <=? 57)) eqn:E1.
  - cbn in Hp. destruct (Z.ltb_spec (c - 48) 8) as [H8|]; [|done].
    apply andb_true_iff in E1 as [H1%Z.leb_le H2%Z.leb_le].
    assert (oct_step (u32 r) c = u32 (r * 8 + (c - 48))) as ->.
    { unfold oct_step. rewrite (proj2 (Z.leb_le 48 c)), (proj2 (Z.leb_le c 55)) by lia. cbn.
      rewrite Z.shiftl_mul_pow2 by lia. unfold u32. change (2 ^ 3) with 8.
      rewrite Z.mul_mod_idemp_l by lia. by rewrite Z.add_mod_idemp_l by lia. }
    by apply IH; [|lia].
  - destruct ((97 <=? c) && (c <=? 122)) eqn:E2; [|done]. cbn in Hp.
    apply andb_true_iff in E2 as [H1%Z.leb_le H2%Z.leb_le].
    by rewrite (proj2 (Z.ltb_ge _ _)) in Hp by lia.
Qed.

(** ** Properties *)

(** C36. [itoa] round trip: for every base from 2 to 36 and every width that
    fits the buffer, the text written at [str] is NUL-terminated, has at least
    [width] digits, and reads back as the number; negative numbers are signed
    in base 10 and printed as their 32-bit pattern in the other bases.  The
    in-place reversal and both loops terminate and stay inside the buffer. *)
Theorem itoa_roundtrip (v base width : Z) (pre buf : list Z) :
  2 <= base <= 36 -> - 2 ^ 31 <= v < 2 ^ 31 -> 33 < zlen buf -> width + 1 < zlen buf ->
  wp (itoa v (zlen pre) base width) (fun r b =>
    exists ds rest,
      let neg := (base =? 10) && (v <? 0) in
      b = pre ++ (if neg then 45 :: ds else ds) ++ 0 :: rest /\
      width <= zlen ds /\ Forall (fun c => 48 <= c) ds /\
      parse base 0 ds = Some (if neg then - v else u32 v)) never (pre ++ buf).
Proof.
  intros Hb Hv Hbuf Hw. eapply wp_mono; [by apply (wp_itoa v base width pre buf)| |done].
  cbv zeta. set (value := if (base =? 10) && (v <? 0) then - v else u32 v). intros r b [_ (rest & -> & _)].
  assert (is_u32 value) as Hval.
  { subst value. pose proof (u32_range v). unfold is_u32 in *. destruct (base =? 10); cbn; [|done].
    destruct (Z.ltb_spec v 0); [lia|done]. }
  exists (numeral value base width), rest. split_and!.
  - by destruct ((base =? 10) && (v <? 0)).
  - rewrite zlen_numeral. lia.
  - apply numeral_nonzero; [done|apply Hval].
  - by apply parse_numeral.
Qed.

(** Reading an octal field of a tar header gives the number it denotes:
    for every 32-bit number and field width, [oct2bin] of the text [utoa]
    writes in base 8 is the number, whatever follows the NUL and however much
    longer the field is. *)
Theorem oct2bin_utoa_roundtrip (v width size : Z) (buf rest b : list Z) :
  is_u32 v -> 32 < zlen buf -> width < zlen buf ->
  utoa v 0 8 width buf = Ok (Some 0, b) ->
  zlen (numeral v 8 width) <= size <= zlen (b ++ rest) ->
  oct2bin (b ++ rest) size = Ok v.
Proof.
  intros Hv Hbuf Hw Hrun Hs.
  pose proof (wp_utoa v 8 width [] buf ltac:(lia) Hv Hbuf Hw) as Hwp.
  apply wp_elim in Hwp. cbn [app zlen] in Hwp. change (zlen []) with 0 in Hwp.
  rewrite Hrun in Hwp. destruct Hwp as [_ (post & -> & _)].
  pose proof (zlen_nonneg (numeral v 8 width)).
  rewrite oct2bin_field by lia. rewrite <- app_assoc. cbn [app].
  rewrite field_text_stop.
  - pose proof (oct_fold _ 0 v (parse_numeral v 8 width ltac:(lia) Hv) ltac:(lia)) as Hf.
    change (u32 0) with 0 in Hf. by rewrite Hf, u32_small.
  - eapply Forall_impl; [apply numeral_nonzero; [done|apply Hv]|]. cbn. lia.
  - unfold zlen in *. lia.
Qed.

Definition blank (n : nat) : list Z := replicate n 35.

Example itoa_minus_42 :
  itoa (-42) 2 10 4 (blank 40) =
  Ok (Some 3, [35; 35; 45; 48; 48; 52; 50; 0] ++ blank 32).
Proof. vm_compute. reflexivity. Qed.

(** The smallest number prints its own digits: [-INT_MIN] wraps to 2^31. *)
Example itoa_int_min :
  fst <$> match itoa (- 2 ^ 31) 0 10 0 (blank 40) with Ok (r, b) => Some (field_text 40 b, r) | _ => None end
  = Some (chars "-2147483648"%string).
Proof. vm_compute. reflexivity. Qed.

(** A character that is not an octal digit still shifts the number. *)
Example oct2bin_shifts : oct2bin [49; 32; 50; 0] 4 = Ok 66.
Proof. vm_compute. reflexivity. Qed.

Lemma itoa_roundtrip_witness :
  wp (itoa (-42) (zlen (blank 2)) 10 4) (fun r b =>
    exists ds rest,
      let neg := (10 =? 10) && (-42 <? 0) in
      b = blank 2 ++ (if neg then 45 :: ds else ds) ++ 0 :: rest /\
      4 <= zlen ds /\ Forall (fun c => 48 <= c) ds /\
      parse 10 0 ds = Some (if neg then 42 else u32 (-42))) never (blank 2 ++ blank 38).
Proof.
  apply (itoa_roundtrip (-42) 10 4 (blank 2) (blank 38)); [lia|lia|reflexivity|reflexivity].
Defined.

Lemma oct2bin_utoa_roundtrip_witness :
  exists b, utoa 420 0 8 7 (blank 40) = Ok (Some 0, b) /\ oct2bin (b ++ []) 12 = Ok 420.
Proof.
  eexists. split; [vm_compute; reflexivity|].
  apply (oct2bin_utoa_roundtrip 420 7 12 (blank 40) []).
  - unfold is_u32. lia.
  - reflexivity.
  - reflexivity.
  - vm_compute. reflexivity.
  - split; vm_compute; discriminate.
Defined.
