(* ===== verification/Strings.v ===== *)
(** * String and memory functions (kernel/string.c)

    Memory is a store of byte objects; a pointer is an object and an offset
    into it, and an access outside the object is a fault.  [char] is signed on
    i686, as [memcmp] shows. *)
From S2P Require Import Prelude Interfaces.

Record ptr : Type := Ptr { base : Z; off : Z }.

Definition null_ptr : ptr := Ptr 0 0.
Definition is_null (p : ptr) : bool := base p =? 0.
Definition ptr_add (p : ptr) (i : Z) : ptr := Ptr (base p) (off p + i).

Record mem (H : Type) : Type := Mem {
  m_heap : H;
  m_objs : gmap Z (list Z);
}.
Arguments Mem {H} _ _.
Arguments m_heap {H} _.
Arguments m_objs {H} _.

(** The [char] a byte stands for. *)
Definition schar (b : Z) : Z := if b <? 128 then b else b - 256.

Section ops.
Context {H : Type} `{KHeap H}.

Definition m_lens : lens (mem H) H := Lens m_heap (fun h s => Mem h (m_objs s)).

(** [*p] and [*p = c]. *)
Definition load (p : ptr) : M (mem H) Z :=
  let! m := gets m_objs in
  let! o := some (m !! base p) in
  some (zlookup o (off p)).

Definition store (p : ptr) (c : Z) : M (mem H) unit :=
  let! m := gets m_objs in
  let! o := some (m !! base p) in
  let! old := some (zlookup o (off p)) in
  modify (fun s => Mem (m_heap s) (<[base p := zinsert (off p) (u8 c) o]> (m_objs s))).

(** A scan never runs past the end of its object. *)
Definition obj_fuel (p : ptr) (s : mem H) : nat :=
  match m_objs s !! base p with Some o => S (length o) | None => 1%nat end.

Definition strlen (str : ptr) : M (mem H) Z :=
  kassert (negb (is_null str)) >>>
  let! fuel := gets (obj_fuel str) in
  loop fuel (fun len =>
    let! c := load (ptr_add str len) in
    if negb (c =? 0) then ret (inl (u32 (len + 1))) else ret (inr len)) 0.

(** The copying loop answers where it stopped; the second loop pads. *)
Definition strncpy_copy (dest src : ptr) (n : Z) : M (mem H) Z :=
  loop (S (Z.to_nat n)) (fun i =>
    if i <? n then
      let! c := load (ptr_add src i) in
      if negb (c =? 0) then store (ptr_add dest i) c >>> ret (inl (i + 1))
      else ret (inr i)
    else ret (inr i)) 0.

Definition strncpy (dest src : ptr) (n : Z) : M (mem H) ptr :=
  kassert (negb (is_null dest)) >>>
  kassert (negb (is_null src)) >>>
  let! i := strncpy_copy dest src n in
  for_up (Z.to_nat (n - i)) i (fun i => store (ptr_add dest i) 0) >>>
  ret dest.

Definition memcmp (v1 v2 : ptr) (len : Z) : M (mem H) Z :=
  kassert (negb (is_null v1)) >>>
  kassert (negb (is_null v2)) >>>
  let! r := for_ret (Z.to_nat len) 0 (fun i =>
    let! c1 := load (ptr_add v1 i) in
    let! c2 := load (ptr_add v2 i) in
    if negb (schar c1 =? schar c2) then ret (Some (schar c1 - schar c2)) else ret None) in
  ret (default 0 r).

Definition memset (dest : ptr) (c len : Z) : M (mem H) ptr :=
  kassert (negb (is_null dest)) >>>
  kassert (negb (len =? 0)) >>>
  for_up (Z.to_nat len) 0 (fun i => store (ptr_add dest i) c) >>>
  ret dest.

(** [kmalloc(n)]: [n] bytes of unspecified contents [junk]. *)
Definition kmalloc_bytes (junk : Z -> list Z) (n : Z) : M (mem H) ptr :=
  let! p := zoom m_lens (kcalloc n) in
  modify (fun s => Mem (m_heap s) (<[p := junk n]> (m_objs s))) >>>
  ret (Ptr p 0).

Definition strndup (junk : Z -> list Z) (s : ptr) (n : Z) : M (mem H) ptr :=
  let! s_len := strlen s in
  let len := if n <? s_len then n else s_len in
  let! s2 := kmalloc_bytes junk (len + 1) in
  if is_null s2 then ret null_ptr
  else
    strncpy s2 s len >>>
    store (ptr_add s2 len) 0 >>>
    ret s2.
End ops.

(** ** Contents of memory *)

(** The bytes [bs] are at [p], as part of [p]'s object. *)
Definition bytes_at {H} (s : mem H) (p : ptr) (bs : list Z) : Prop :=
  exists pre post, m_objs s !! base p = Some (pre ++ bs ++ post) /\ off p = zlen pre.

(** A C string: no NUL inside, one at the end, its length an [int]'s worth. *)
Definition cstr {H} (s : mem H) (p : ptr) (str : list Z) : Prop :=
  bytes_at s p (str ++ [0]) /\ Forall (fun c => 0 < c < 256) str /\ zlen str < 2 ^ 32 - 1.

(** The result of [memcmp] on two byte sequences. *)
Fixpoint bytes_cmp (l1 l2 : list Z) : Z :=
  match l1, l2 with
  | c1 :: l1', c2 :: l2' =>
      if schar c1 =? schar c2 then bytes_cmp l1' l2' else schar c1 - schar c2
  | _, _ => 0
  end.

Lemma schar_inj b c : is_u8 b -> is_u8 c -> schar b = schar c -> b = c.
Proof.
  unfold is_u8, schar. intros Hb Hc. destruct (Z.ltb_spec b 128), (Z.ltb_spec c 128); lia.
Qed.

Lemma bytes_cmp_0 l1 l2 :
  length l1 = length l2 -> Forall is_u8 l1 -> Forall is_u8 l2 ->
  (bytes_cmp l1 l2 = 0 <-> l1 = l2).
Proof.
  revert l2. induction l1 as [|c1 l1 IH]; intros [|c2 l2] Hl H1 H2; cbn in Hl |- *; try done.
  apply Forall_cons in H1 as [Hc1 H1]. apply Forall_cons in H2 as [Hc2 H2].
  destruct (Z.eqb_spec (schar c1) (schar c2)) as [E|E].
  - apply schar_inj in E as ->; [|done|done]. rewrite IH by (done || lia).
    split; [by intros ->|by intros [= ->]].
  - split; [lia|by intros [= -> ->]].
Qed.

Section specs.
Context {H : Type} `{KHeap H}.
Implicit Types (s : mem H).

Lemma wp_load s p pre c post (Q : Z -> mem H -> Prop) E i :
  m_objs s !! base p = Some (pre ++ c :: post) -> off p + i = zlen pre -> Q c s ->
  wp (load (ptr_add p i)) Q E s.
Proof.
  intros Hp Hoff HQ. unfold load. wp_cond. cbn. rewrite Hp. wp_cond.
  by rewrite Hoff, zlookup_app_mid.
Qed.

Lemma wp_store s p pre c0 post (Q : unit -> mem H -> Prop) E i c :
  m_objs s !! base p = Some (pre ++ c0 :: post) -> off p + i = zlen pre ->
  Q tt (Mem (m_heap s) (<[base p := pre ++ u8 c :: post]> (m_objs s))) ->
  wp (store (ptr_add p i) c) Q E s.
Proof.
  intros Hp Hoff HQ. unfold store. wp_cond. cbn. rewrite Hp. wp_cond.
  rewrite Hoff, zlookup_app_mid. wp_steps. by rewrite zinsert_app_mid.
Qed.

(** Reads through a pointer, by the position in the bytes it points to. *)
Lemma wp_load_bytes s p xs c ys (Q : Z -> mem H -> Prop) E i :
  bytes_at s p (xs ++ c :: ys) -> i = zlen xs -> Q c s -> wp (load (ptr_add p i)) Q E s.
Proof.
  intros (pre & post & Hp & Hoff) -> HQ. eapply (wp_load s p (pre ++ xs) c (ys ++ post)).
  - rewrite Hp, <- !app_assoc. done.
  - rewrite zlen_app. lia.
  - done.
Qed.

Lemma wp_store_bytes s p xs c0 ys (Q : unit -> mem H -> Prop) E i c :
  bytes_at s p (xs ++ c0 :: ys) -> i = zlen xs ->
  (forall s', bytes_at s' p (xs ++ u8 c :: ys) -> m_heap s' = m_heap s ->
     (forall b, b <> base p -> m_objs s' !! b = m_objs s !! b) ->
     dom (m_objs s') = dom (m_objs s) -> Q tt s') ->
  wp (store (ptr_add p i) c) Q E s.
Proof.
  intros (pre & post & Hp & Hoff) -> HQ.
  eapply (wp_store s p (pre ++ xs) c0 (ys ++ post)).
  - rewrite Hp, <- !app_assoc. done.
  - rewrite zlen_app. lia.
  - apply HQ; cbn; [|done| |].
    + exists pre, post. cbn. rewrite lookup_insert_eq, <- !app_assoc. done.
    + intros b Hb. by rewrite lookup_insert_ne.
    + by rewrite dom_insert_lookup_L.
Qed.

Lemma wp_strlen s p str :
  base p <> 0 -> cstr s p str -> wp (strlen p) (fun r s' => r = zlen str /\ s' = s) never s.
Proof.
  intros Hp (Hb & HF & Hlen). unfold strlen. wp_cond. unfold is_null.
  rewrite (proj2 (Z.eqb_neq _ _)) by done. cbn [negb]. wp_steps.
  match goal with |- wp (loop _ ?b _) _ _ _ => set (body := b) end.
  assert (length str < obj_fuel p s)%nat as Hf.
  { destruct Hb as (pre & post & Ho & _). unfold obj_fuel. rewrite Ho, !length_app. cbn. lia. }
  enough (forall ys xs fuel, str = xs ++ ys -> (length ys < fuel)%nat ->
    wp (loop fuel body (zlen xs)) (fun r s' => r = zlen str /\ s' = s) never s) as Hgen.
  { apply (Hgen str [] _ eq_refl Hf). }
  induction ys as [|c ys IH]; intros xs [|fuel] Hs Hfu; try (cbn in Hfu; lia);
    apply wp_loop_step; unfold body; wp_steps.
  - eapply (wp_load_bytes s p xs 0 []); [|done|]; [by rewrite Hs, app_nil_r in Hb|].
    cbn [negb Z.eqb]. wp_steps. by rewrite Hs, app_nil_r.
  - rewrite Hs, <- app_assoc in Hb. eapply wp_load_bytes; [exact Hb|done|]. wp_cond.
    rewrite Hs in HF, Hlen. apply Forall_app in HF as [_ [Hc _]%Forall_cons].
    rewrite (proj2 (Z.eqb_neq c 0)) by lia. cbn [negb]. wp_steps.
    rewrite zlen_app, zlen_cons in Hlen. pose proof (zlen_nonneg ys). pose proof (zlen_nonneg xs).
    rewrite u32_small by (unfold is_u32; lia).
    replace (zlen xs + 1) with (zlen (xs ++ [c])) by (by rewrite zlen_app).
    apply IH; [by rewrite <- app_assoc|cbn in Hfu; lia].
Qed.

(** [memcmp] of two equally long byte sequences. *)
Lemma wp_memcmp s p1 p2 l1 l2 :
  base p1 <> 0 -> base p2 <> 0 -> bytes_at s p1 l1 -> bytes_at s p2 l2 ->
  length l1 = length l2 ->
  wp (memcmp p1 p2 (zlen l1)) (fun r s' => r = bytes_cmp l1 l2 /\ s' = s) never s.
Proof.
  intros Hp1 Hp2 H1 H2 Hlen. unfold memcmp. wp_cond. unfold is_null.
  rewrite (proj2 (Z.eqb_neq _ _)) by done. cbn [negb]. wp_cond.
  rewrite (proj2 (Z.eqb_neq _ _)) by done. cbn [negb]. wp_steps.
  match goal with |- wp (for_ret _ _ ?b) _ _ _ => set (body := b) end.
  unfold zlen. rewrite Nat2Z.id.
  enough (forall ys1 ys2 xs1 xs2, l1 = xs1 ++ ys1 -> l2 = xs2 ++ ys2 ->
    length xs1 = length xs2 -> length ys1 = length ys2 ->
    wp (for_ret (length ys1) (zlen xs1) body)
      (fun r s' => default 0 r = bytes_cmp ys1 ys2 /\ s' = s) never s) as Hgen.
  { eapply wp_mono; [apply (Hgen l1 l2 [] []); done| |done].
    intros r s' [Hr ->]. by wp_steps. }
  induction ys1 as [|c1 ys1 IH]; intros [|c2 ys2] xs1 xs2 Hl1 Hl2 Hx Hy; try done;
    cbn [length].
  apply wp_for_ret_step. unfold body at 1. wp_steps. rewrite Hl1 in H1. rewrite Hl2 in H2.
  eapply wp_load_bytes; [exact H1|done|]. wp_steps.
  eapply wp_load_bytes; [exact H2|unfold zlen; by rewrite Hx|]. wp_cond. cbn [bytes_cmp].
  destruct (Z.eqb_spec (schar c1) (schar c2)); cbn [negb]; wp_steps; [|done].
  replace (zlen xs1 + 1) with (zlen (xs1 ++ [c1])) by (by rewrite zlen_app).
  apply (IH ys2 (xs1 ++ [c1]) (xs2 ++ [c2])).
  - by rewrite <- app_assoc.
  - by rewrite <- app_assoc.
  - rewrite !length_app. cbn. lia.
  - by injection Hy.
Qed.

(** Other objects and the heap are as before. *)
Definition only_object (b : Z) s s' : Prop :=
  m_heap s' = m_heap s /\ dom (m_objs s') = dom (m_objs s) /\
  forall b', b' <> b -> m_objs s' !! b' = m_objs s !! b'.

Lemma bytes_at_other s s' b p bs :
  only_object b s s' -> base p <> b -> bytes_at s p bs -> bytes_at s' p bs.
Proof. intros (_ & _ & Ho) Hb (pre & post & Hp & Hoff). exists pre, post. by rewrite Ho. Qed.

Lemma only_object_trans b s1 s2 s3 :
  only_object b s1 s2 -> only_object b s2 s3 -> only_object b s1 s3.
Proof.
  intros (H1 & D1 & O1) (H2 & D2 & O2). split_and!; [congruence|congruence|].
  intros b' Hb. rewrite O2, O1; done.
Qed.

(** A loop storing [c] into [bs2], behind [bs1]. *)
Lemma wp_fill s p bs1 bs2 post c i :
  bytes_at s p (bs1 ++ bs2 ++ post) -> i = zlen bs1 ->
  wp (for_up (length bs2) i (fun i => store (ptr_add p i) c)) (fun _ s' =>
    bytes_at s' p (bs1 ++ replicate (length bs2) (u8 c) ++ post) /\
    only_object (base p) s s') never s.
Proof.
  revert s bs1 i. induction bs2 as [|x bs2 IH]; intros s bs1 i Hb Hi; cbn [length replicate].
  - by cbn.
  - apply wp_for_up_step. eapply wp_store_bytes; [exact Hb|done|].
    intros s' Hb' Hh Ho Hd. rewrite app_cons_assoc in Hb'.
    eapply wp_mono; [apply (IH s' (bs1 ++ [u8 c])); [exact Hb'|]| |done].
    { rewrite zlen_app, Hi. done. }
    intros [] s2 [Hb2 Ho2]. rewrite <- app_assoc in Hb2. split; [exact Hb2|].
    eapply only_object_trans; [|exact Ho2]. done.
Qed.

Lemma wp_memset s p bs post c :
  base p <> 0 -> bytes_at s p (bs ++ post) -> bs <> [] ->
  wp (memset p c (zlen bs)) (fun r s' => r = p /\
    bytes_at s' p (replicate (length bs) (u8 c) ++ post) /\ only_object (base p) s s') never s.
Proof.
  intros Hp Hb Hne. unfold memset, is_null. wp_cond. rewrite (proj2 (Z.eqb_neq _ _)) by done.
  cbn [negb]. wp_cond.
  rewrite (proj2 (Z.eqb_neq (zlen bs) 0)) by (destruct bs; [done|rewrite zlen_cons; pose proof (zlen_nonneg bs); lia]).
  cbn [negb]. wp_steps. unfold zlen. rewrite Nat2Z.id.
  eapply wp_mono; [apply (wp_fill s p [] bs post c 0); done| |done].
  intros [] s' [Hb' Ho]. by wp_steps.
Qed.

(** What [strncpy] leaves in a destination of [n] bytes. *)
Definition padded (n : nat) (str : list Z) : list Z :=
  take n str ++ replicate (n - length str) 0.

Lemma wp_strncpy s dest src str old post :
  base dest <> 0 -> base src <> 0 -> base src <> base dest ->
  cstr s src str -> bytes_at s dest (old ++ post) ->
  wp (strncpy dest src (zlen old)) (fun r s' => r = dest /\
    bytes_at s' dest (padded (length old) str ++ post) /\ only_object (base dest) s s') never s.
Proof.
  intros Hd Hs Hne (Hsrc & HF & _) Hold. unfold strncpy, is_null. wp_cond.
  rewrite (proj2 (Z.eqb_neq (base dest) 0)) by done. cbn [negb]. wp_cond.
  rewrite (proj2 (Z.eqb_neq (base src) 0)) by done. cbn [negb]. wp_steps.
  unfold strncpy_copy. match goal with |- wp (loop _ ?b _) _ _ _ => set (body := b) end.
  enough (forall ys old2 xs fuel s1, str = xs ++ ys -> length old = (length xs + length old2)%nat ->
    bytes_at s1 src (str ++ [0]) -> bytes_at s1 dest (xs ++ old2 ++ post) -> only_object (base dest) s s1 ->
    (length old2 < fuel)%nat ->
    wp (loop fuel body (zlen xs)) (fun i s' => exists old3, 
       i = zlen (take (length old) str) /\ length old = (length (take (length old) str) + length old3)%nat /\
       bytes_at s' dest (take (length old) str ++ old3 ++ post) /\ only_object (base dest) s s') never s1) as Hgen.
  { eapply wp_mono; [apply (Hgen str old [] (S (Z.to_nat (zlen old))) s); try done;
      unfold zlen; lia| |done].
    intros i s1 (old3 & -> & Hlen & Hb & Ho). wp_steps.
    replace (Z.to_nat _) with (length old3) by (unfold zlen; lia).
    eapply wp_mono; [apply (wp_fill s1 dest); [exact Hb|done]| |done].
    intros [] s2 [Hb2 Ho2]. wp_steps. split; [done|]. split; [|by eapply only_object_trans].
    unfold padded. rewrite <- app_assoc. rewrite length_take in Hlen.
    change (u8 0) with 0 in Hb2.
    destruct (decide (length str <= length old)%nat).
    - by replace (length old - length str)%nat with (length old3) by lia.
    - replace (length old - length str)%nat with 0%nat by lia.
      destruct old3; [done|cbn in Hlen; lia]. }
  induction ys as [|c ys IH]; intros old2 xs [|fuel] s1 Hstr Hlen Hb1 Hb2 Ho Hf; try lia;
    apply wp_loop_step; unfold body; wp_cond.
  - rewrite app_nil_r in Hstr. subst xs.
    assert (take (length old) str = str) as Ht by (apply take_ge; lia).
    destruct (Z.ltb_spec (zlen str) (zlen old)).
    + wp_steps. eapply (wp_load_bytes s1 src str 0 []); [done|done|]. cbn [negb Z.eqb]. wp_steps.
      exists old2. by rewrite Ht.
    + wp_steps. exists old2. by rewrite Ht.
  - destruct old2 as [|x old2].
    + rewrite (proj2 (Z.ltb_ge _ _)) by (unfold zlen; cbn in Hlen; lia). wp_steps. exists [].
      assert (take (length old) str = xs) as ->.
      { rewrite Hstr, take_app_le, take_ge by (cbn in Hlen; lia). done. }
      cbn in Hlen. split_and!; try done.
    + rewrite (proj2 (Z.ltb_lt _ _)) by (unfold zlen; cbn in Hlen; lia). wp_steps.
      pose proof Hb1 as Hb1'. rewrite Hstr, <- app_assoc in Hb1'.
      eapply wp_load_bytes; [exact Hb1'|done|]. wp_cond.
      rewrite Hstr in HF. apply Forall_app in HF as [_ [Hc _]%Forall_cons].
      rewrite (proj2 (Z.eqb_neq c 0)) by lia. cbn [negb]. wp_steps.
      eapply wp_store_bytes; [exact Hb2|done|]. intros s2 Hb3 Hh Hoth Hdom.
      assert (u8 c = c) as Hu by (by apply Z.mod_small; lia). rewrite Hu in Hb3. wp_steps.
      replace (zlen xs + 1) with (zlen (xs ++ [c])) by (by rewrite zlen_app).
      apply (IH old2 (xs ++ [c])).
      * by rewrite <- app_assoc.
      * rewrite length_app. cbn in Hlen |- *. lia.
      * eapply (bytes_at_other s1 s2); [|exact Hne|exact Hb1]. done.
      * by rewrite <- app_assoc.
      * eapply only_object_trans; [exact Ho|done].
      * cbn in Hf. lia.
Qed.
End specs.

(** ** Properties *)

(** [strndup] answers a fresh, NUL-terminated copy of the first [n]
    characters of a string, whatever [kmalloc] left in the new object, and
    changes no other object; it terminates, and only an exhausted heap can
    panic. *)
Theorem strndup_copies {H : Type} `{KHeapLaws H} (junk : Z -> list Z) (s : mem H)
    (p : ptr) (str : list Z) (n : Z) :
  (forall k, 0 <= k -> zlen (junk k) = k) ->
  heap_ok (m_heap s) -> dom (m_objs s) ⊆ heap_live (m_heap s) ->
  base p <> 0 -> cstr s p str -> 0 <= n ->
  wp (strndup junk p n) (fun q s' =>
    base q <> 0 /\ m_objs s !! base q = None /\
    cstr s' q (take (Z.to_nat n) str) /\
    (forall b o, m_objs s !! b = Some o -> m_objs s' !! b = Some o)) only_nomem s.
Proof.
  intros Hj Hok Hdom Hp Hs Hn. unfold strndup.
  wp_apply wp_strlen; [done|done| |by intros e []]. intros r s0 [-> ->]. wp_steps.
  set (len := if n <? zlen str then n else zlen str).
  assert (len = zlen (take (Z.to_nat n) str) /\ 0 <= len) as [Hlen Hlen0].
  { subst len. unfold zlen. rewrite length_take. destruct (Z.ltb_spec n (Z.of_nat (length str))); lia. }
  unfold kmalloc_bytes. wp_steps. apply wp_zoom.
  wp_apply kcalloc_spec; [done|lia| |done]. intros q h (Hok' & Hq & Hfresh & Hlive).
  cbn [lset lget m_lens m_heap m_objs] in *. wp_steps. cbn [m_heap m_objs]. wp_cond. unfold is_null. cbn [base].
  rewrite (proj2 (Z.eqb_neq q 0)) by lia. wp_steps.
  assert (m_objs s !! q = None) as Hnone by (apply not_elem_of_dom; set_solver).
  assert (base p <> q) as Hpq.
  { destruct Hs as [(pre & post & Ho & _) _]. intros <-. congruence. }
  set (s1 := Mem h _).
  specialize (Hj (len + 1) ltac:(lia)). clearbody len.
  destruct (drop_cons_lookup (Z.to_nat len) (junk (len + 1))) as [x Hx]; [unfold zlen in Hj; lia|].
  rewrite (drop_ge _ (S _)) in Hx by (unfold zlen in Hj; lia).
  assert (bytes_at s1 (Ptr q 0) (take (Z.to_nat len) (junk (len + 1)) ++ [x])) as Hb1.
  { exists [], []. cbn. split; [|done]. rewrite lookup_insert_eq, <- Hx, take_drop, app_nil_r. done. }
  assert (cstr s1 p str) as Hs1.
  { destruct Hs as [(pre & post & Ho & Hoff) Hrest]. split; [|exact Hrest].
    exists pre, post. split; [|exact Hoff]. cbn. by rewrite lookup_insert_ne. }
  set (old := take (Z.to_nat len) (junk (len + 1))) in *.
  assert (len = zlen old) as Hold.
  { subst old. unfold zlen in *. rewrite length_take. lia. }
  rewrite Hold at 1.
  eapply wp_mono; [apply (wp_strncpy s1 (Ptr q 0) p str old [x]); try done; cbn; lia| |by intros e []].
  intros r s2 (_ & Hb2 & Hho & Hdo & Hoth). cbn [base] in Hoth.
  assert (padded (length old) str = take (Z.to_nat n) str) as Hpad.
  { unfold padded, zlen in *. rewrite length_take in Hlen.
    replace (length old - length str)%nat with 0%nat by lia. rewrite app_nil_r.
    destruct (decide (length str <= length old)%nat); [rewrite !take_ge by lia; done|].
    f_equal. lia. }
  rewrite Hpad in Hb2. wp_steps.
  eapply wp_store_bytes; [exact Hb2|done|]. intros s3 Hb3 Hh3 Ho3 Hd3. wp_steps. cbn [base] in *.
  destruct Hs as (_ & HF & Hl). split_and!; [lia|done| |].
  - split; [exact Hb3|]. split; [by apply Forall_take|]. unfold zlen in *. rewrite length_take. lia.
  - intros b o Hb. assert (b <> q) by (intros ->; congruence).
    rewrite Ho3, Hoth by done. cbn. by rewrite lookup_insert_ne.
Qed.

(** [memcmp] of two byte ranges answers 0 exactly when they hold the same
    bytes, and otherwise the difference of the first differing pair, read as
    signed characters; it never reads outside the ranges. *)
Theorem memcmp_compares {H : Type} `{KHeap H} (s : mem H) (p1 p2 : ptr) (l1 l2 : list Z) :
  base p1 <> 0 -> base p2 <> 0 -> bytes_at s p1 l1 -> bytes_at s p2 l2 ->
  length l1 = length l2 -> Forall is_u8 l1 -> Forall is_u8 l2 ->
  wp (memcmp p1 p2 (zlen l1)) (fun r s' => s' = s /\ (r = 0 <-> l1 = l2) /\
    forall xs c1 c2 ys1 ys2, l1 = xs ++ c1 :: ys1 -> l2 = xs ++ c2 :: ys2 -> c1 <> c2 ->
      r = schar c1 - schar c2) never s.
Proof.
  intros Hp1 Hp2 H1 H2 Hlen HF1 HF2.
  eapply wp_mono; [by apply (wp_memcmp s p1 p2 l1 l2)| |done].
  intros r s' [-> ->]. split; [done|]. split; [by apply bytes_cmp_0|].
  intros xs c1 c2 ys1 ys2 -> -> Hc. clear -Hc HF1 HF2.
  apply Forall_app in HF1 as [_ [Hc1 _]%Forall_cons]. apply Forall_app in HF2 as [_ [Hc2 _]%Forall_cons].
  induction xs as [|x xs IH]; cbn; [|by rewrite Z.eqb_refl].
  rewrite (proj2 (Z.eqb_neq _ _)); [done|]. intros E%schar_inj; done.
Qed.

(** "abc" at 8 in a store of one object. *)
Definition abc_mem : mem bump := Mem (Bump 64 {[ 8 ]}) {[ 8 := [97; 98; 99; 0; 255] ]}.
Definition junk_ff (k : Z) : list Z := replicate (Z.to_nat k) 255.

Example strndup_run :
  match strndup junk_ff (Ptr 8 0) 2 abc_mem with
  | Ok (q, s) => Some (q, m_objs s !! base q) | Err _ => None end
  = Some (Ptr 64 0, Some [97; 98; 0]).
Proof. vm_compute. reflexivity. Qed.

(** High characters compare as negative. *)
Example memcmp_signed :
  match memcmp (Ptr 8 0) (Ptr 8 4) 1 abc_mem with Ok (r, _) => Some r | Err _ => None end = Some 98.
Proof. vm_compute. reflexivity. Qed.

Lemma abc_cstr : cstr abc_mem (Ptr 8 0) [97; 98; 99].
Proof.
  split; [by exists [], [255]|]. split; [repeat constructor; lia|reflexivity].
Qed.

Lemma strndup_copies_witness :
  wp (strndup junk_ff (Ptr 8 0) 2) (fun q s' =>
    base q <> 0 /\ m_objs abc_mem !! base q = None /\
    cstr s' q (take (Z.to_nat 2) [97; 98; 99]) /\
    (forall b o, m_objs abc_mem !! b = Some o -> m_objs s' !! b = Some o)) only_nomem abc_mem.
Proof.
  apply (strndup_copies junk_ff abc_mem (Ptr 8 0) [97; 98; 99] 2).
  - intros k Hk. unfold zlen, junk_ff. rewrite length_replicate. lia.
  - split; cbn; [lia|]. intros p ->%elem_of_singleton. lia.
  - cbn. set_solver.
  - done.
  - exact abc_cstr.
  - lia.
Defined.

Lemma memcmp_compares_witness :
  wp (memcmp (Ptr 8 0) (Ptr 8 1) (zlen [97; 98])) (fun r s' => s' = abc_mem /\
    (r = 0 <-> [97; 98] = [98; 99]) /\
    forall xs c1 c2 ys1 ys2, [97; 98] = xs ++ c1 :: ys1 -> [98; 99] = xs ++ c2 :: ys2 -> c1 <> c2 ->
      r = schar c1 - schar c2) never abc_mem.
Proof.
  apply (memcmp_compares abc_mem (Ptr 8 0) (Ptr 8 1) [97; 98] [98; 99]); try done.
  - by exists [], [99; 0; 255].
  - by exists [97], [0; 255].
  - repeat constructor; lia.
  - repeat constructor; lia.
Defined.
