(* ===== verification/Net.v ===== *)
(** * The network stack (kernel/net/net.c, udp.c, tcp.c, checksum.c)

    Ethernet, ARP, IPv4, ICMP, UDP and TCP on the bytes of memory: packets,
    the interface ([netif_t]) and the message constant are objects of
    Strings' memory, fields are read and written at the offsets of the packed
    structures, and packets are allocated from and given back to the kernel
    heap.  Of the network card (e1000.c) there is what the stack sees: a frame
    is handed to [send_packet], whose assertions are kept, and a received
    frame comes as a packet of the heap.  Debug output is left out; the loop
    that prints the data of a UDP packet is kept, because it reads. *)
From S2P Require Import Prelude Interfaces Strings.

(** ** Byte order *)

Definition htons (x : Z) : Z := Z.lor (Z.shiftl (Z.land x 0xFF) 8) (Z.shiftr (Z.land x 0xFF00) 8).
Definition ntohs (x : Z) : Z := htons x.

(** ** Constants *)

Definition ETHERNET_TYPE_ARP : Z := 0x0806.
Definition ETHERNET_TYPE_IPV4 : Z := 0x0800.
Definition ETHERNET_TYPE_IPV6 : Z := 0x86dd.
Definition ARP_HWTYPE_ETHERNET : Z := 0x01.
Definition ARP_OPCODE_REQUEST : Z := 0x0001.
Definition ARP_OPCODE_REPLY : Z := 0x0002.
Definition IPV4_TYPE_ICMP : Z := 0x01.
Definition IPV4_TYPE_TCP : Z := 0x06.
Definition IPV4_TYPE_UDP : Z := 0x11.
Definition ICMP_TYPE_ECHO_REPLY : Z := 0.
Definition ICMP_TYPE_ECHO_REQUEST : Z := 8.

(** The sizes of the headers. *)
Definition ETHERNET_SIZE : Z := 14.
Definition ARP_SIZE : Z := 28.
Definition IPV4_SIZE : Z := 20.
Definition ICMP_SIZE : Z := 4.
Definition ICMP_ECHO_SIZE : Z := 4.
Definition UDP_SIZE : Z := 8.
Definition TCP_SIZE : Z := 20.
Definition TCP_CHECK_SIZE : Z := 12.
Definition NETIF_SIZE : Z := 40.
Definition PACKET_SIZE : Z := 8.

(** The fields of [netif_t]. *)
Definition netif_send (netif : Z) : ptr := Ptr netif 0.
Definition netif_receive (netif : Z) : ptr := Ptr netif 4.
Definition netif_extra (netif : Z) : ptr := Ptr netif 8.
Definition netif_ip (netif : Z) : ptr := Ptr netif 12.
Definition netif_mac (netif : Z) : ptr := Ptr netif 16.
Definition netif_gateway (netif : Z) : ptr := Ptr netif 22.
Definition netif_gateway_mac (netif : Z) : ptr := Ptr netif 26.
Definition netif_gateway_mac_configured (netif : Z) : ptr := Ptr netif 32.
Definition netif_arp_cache (netif : Z) : ptr := Ptr netif 36.

(** [n_sent] are the frames the cards were given, with the card's [extra];
    [n_tasks] the interfaces a [ktask_net] was spawned for. *)
Record nstate (H : Type) : Type := NState {
  n_mem : mem H;
  n_netifs : list Z;
  n_sent : list (Z * list Z);
  n_tasks : list Z;
}.
Arguments NState {H} _ _ _ _.
Arguments n_mem {H} _.
Arguments n_netifs {H} _.
Arguments n_sent {H} _.
Arguments n_tasks {H} _.

Section ops.
Context {H : Type} `{KHeap H}.
Abbreviation N := (nstate H).

Definition mem_lens : lens N (mem H) :=
  Lens n_mem (fun m s => NState m (n_netifs s) (n_sent s) (n_tasks s)).

(** ** Memory *)

Definition load16 (p : ptr) : M (mem H) Z :=
  let! lo := load p in let! hi := load (ptr_add p 1) in ret (lo + hi * 2 ^ 8).

Definition store16 (p : ptr) (v : Z) : M (mem H) unit :=
  store p v >>> store (ptr_add p 1) (v / 2 ^ 8).

Definition load32 (p : ptr) : M (mem H) Z :=
  let! lo := load16 p in let! hi := load16 (ptr_add p 2) in ret (lo + hi * 2 ^ 16).

Definition store32 (p : ptr) (v : Z) : M (mem H) unit :=
  store16 p v >>> store16 (ptr_add p 2) (v / 2 ^ 16).

Definition memcpy (dest src : ptr) (len : Z) : M (mem H) unit :=
  kassert (negb (is_null dest)) >>>
  kassert (negb (is_null src)) >>>
  kassert (negb (len =? 0)) >>>
  for_up (Z.to_nat len) 0 (fun i => let! c := load (ptr_add src i) in store (ptr_add dest i) c).

(** [kcalloc(1, n)] and [kfree]. *)
Definition calloc_bytes (n : Z) : M (mem H) ptr :=
  let! p := zoom m_lens (kcalloc n) in
  modify (fun s => Mem (m_heap s) (<[p := replicate (Z.to_nat n) 0]> (m_objs s))) >>>
  ret (Ptr p 0).

Definition free_bytes (p : ptr) : M (mem H) unit :=
  zoom m_lens (kfree (base p)) >>>
  modify (fun s => Mem (m_heap s) (delete (base p) (m_objs s))).

(** A local array or structure and its end: it has a home while its function
    runs. *)
Definition local_bytes (l : list Z) : M (mem H) ptr :=
  let! p := calloc_bytes (zlen l) in
  modify (fun s => Mem (m_heap s) (<[base p := l]> (m_objs s))) >>>
  ret p.

(** ** Checksums (checksum.c) *)

Definition net_calc_checksum (data : ptr) (size : Z) : M (mem H) Z :=
  let! v := for_fold (Z.to_nat (size / 2)) 0 0 (fun i v =>
    let! w := load16 (ptr_add data (2 * i)) in ret (u32 (v + ntohs w))) in
  let v := u32 (Z.land (Z.shiftr v 16) 0xFFFF + Z.land v 0xFFFF) in
  let v := u32 (v + Z.land (Z.shiftr v 16) 0xFFFF) in
  ret (u16 (Z.lnot v)).

Definition net_calc_checksum2 (data1 : ptr) (size1 : Z) (data2 : ptr) (size2 checksum : Z) : M (mem H) Z :=
  kassert (size1 mod 2 =? 0) >>>
  let! v := for_fold (Z.to_nat (size1 / 2)) 0 0 (fun i v =>
    let! w := load16 (ptr_add data1 (2 * i)) in ret (u32 (v + ntohs w))) in
  let v := if 0xFFFF <? v then u32 (Z.shiftr (Z.land v 0xFFFF0000) 16 + Z.land v 0xFFFF) else v in
  let! v := for_fold (Z.to_nat (size2 / 2)) 0 v (fun i v =>
    let! w := load16 (ptr_add data2 (2 * i)) in ret (u32 (v + ntohs w))) in
  let v := u32 (v - checksum) in
  let! v := (if negb (size2 mod 2 =? 0) then
      let! t := load (ptr_add data2 (size2 / 2 * 2)) in
      ret (u32 (v + ntohs t))
    else ret v) in
  let v := u32 (Z.land (Z.shiftr v 16) 0xFFFF + Z.land v 0xFFFF) in
  let v := u32 (v + Z.land (Z.shiftr v 16) 0xFFFF) in
  ret (u16 (Z.lnot v)).

Definition ipv4_calculate_checksum (packet : ptr) : M (mem H) Z :=
  let! old_checksum := load16 (ptr_add packet 10) in
  store16 (ptr_add packet 10) 0 >>>
  let! checksum := net_calc_checksum packet IPV4_SIZE in
  store16 (ptr_add packet 10) old_checksum >>>
  ret checksum.

Definition ipv4_is_checksum_valid (packet : ptr) : M (mem H) bool :=
  let! calc_checksum := ipv4_calculate_checksum packet in
  let! checksum := load16 (ptr_add packet 10) in
  ret (calc_checksum =? ntohs checksum).

(** ** Sending *)

(** [e1000_send_packet]: the frame goes to the card. *)
Definition send_packet (extra : Z) (data : ptr) (length : Z) : M N unit :=
  kassert (negb (extra =? 0)) >>>
  kassert (negb (is_null data)) >>>
  kassert (negb (length =? 0)) >>>
  kassert (length <=? 4096) >>>
  let! frame := zoom mem_lens (for_fold (Z.to_nat length) 0 [] (fun i l =>
    let! c := load (ptr_add data i) in ret (l ++ [c]))) in
  modify (fun s => NState (n_mem s) (n_netifs s) (n_sent s ++ [(extra, frame)]) (n_tasks s)).

Definition net_send_ethernet (netif : Z) (srcmac dstmac : ptr) (type : Z) (data : ptr) (data_size : Z) : M N bool :=
  let size := u32 (ETHERNET_SIZE + data_size) in
  let size := if size <? 60 then 60 else size in
  let! packet := zoom mem_lens (calloc_bytes size) in
  if is_null packet then ret false
  else
    zoom mem_lens (memcpy packet dstmac 6) >>>
    zoom mem_lens (memcpy (ptr_add packet 6) srcmac 6) >>>
    zoom mem_lens (store16 (ptr_add packet 12) (htons type)) >>>
    zoom mem_lens (memcpy (ptr_add packet ETHERNET_SIZE) data data_size) >>>
    let! extra := zoom mem_lens (load32 (netif_extra netif)) in
    send_packet extra packet size >>>
    zoom mem_lens (free_bytes packet) >>>
    ret true.

Definition net_send_arp (netif : Z) (srcmac dstmac : ptr) (opcode : Z) (srchw srcpr dsthw dstpr : ptr) : M N bool :=
  let! packet := zoom mem_lens (calloc_bytes ARP_SIZE) in
  if is_null packet then ret false
  else
    zoom mem_lens (store16 packet (htons ARP_HWTYPE_ETHERNET)) >>>
    zoom mem_lens (store16 (ptr_add packet 2) (htons ETHERNET_TYPE_IPV4)) >>>
    zoom mem_lens (store (ptr_add packet 4) 6) >>>
    zoom mem_lens (store (ptr_add packet 5) 4) >>>
    zoom mem_lens (store16 (ptr_add packet 6) (htons opcode)) >>>
    zoom mem_lens (memcpy (ptr_add packet 8) srchw 6) >>>
    zoom mem_lens (memcpy (ptr_add packet 14) srcpr 4) >>>
    zoom mem_lens (memcpy (ptr_add packet 18) dsthw 6) >>>
    zoom mem_lens (memcpy (ptr_add packet 24) dstpr 4) >>>
    let! success := net_send_ethernet netif srcmac dstmac ETHERNET_TYPE_ARP packet ARP_SIZE in
    zoom mem_lens (free_bytes packet) >>>
    ret success.

Definition net_send_arp_request (netif : Z) (ip : ptr) : M N bool :=
  let! broadcast := zoom mem_lens (local_bytes (replicate 6 255)) in
  let! dest_hw := zoom mem_lens (local_bytes (replicate 6 0)) in
  let! v := net_send_arp netif (netif_mac netif) broadcast ARP_OPCODE_REQUEST (netif_mac netif) (netif_ip netif) dest_hw ip in
  zoom mem_lens (free_bytes dest_hw) >>>
  zoom mem_lens (free_bytes broadcast) >>>
  ret v.

Definition net_send_ipv4 (netif : Z) (dstmac : ptr) (identification protocol : Z) (srcip dstip data : ptr) (data_size : Z) : M N bool :=
  let size := u32 (IPV4_SIZE + data_size) in
  let! packet := zoom mem_lens (calloc_bytes size) in
  if is_null packet then ret false
  else
    zoom mem_lens (store packet 0x45) >>>
    zoom mem_lens (store (ptr_add packet 1) 0) >>>
    zoom mem_lens (store16 (ptr_add packet 2) (htons size)) >>>
    zoom mem_lens (store16 (ptr_add packet 4) (htons identification)) >>>
    zoom mem_lens (store16 (ptr_add packet 6) 0) >>>
    zoom mem_lens (store (ptr_add packet 8) 64) >>>
    zoom mem_lens (store (ptr_add packet 9) protocol) >>>
    zoom mem_lens (memcpy (ptr_add packet 12) srcip 4) >>>
    zoom mem_lens (memcpy (ptr_add packet 16) dstip 4) >>>
    zoom mem_lens (memcpy (ptr_add packet IPV4_SIZE) data data_size) >>>
    let! checksum := zoom mem_lens (ipv4_calculate_checksum packet) in
    zoom mem_lens (store16 (ptr_add packet 10) (htons checksum)) >>>
    let! success :=
      (if negb (is_null dstmac) then net_send_ethernet netif (netif_mac netif) dstmac ETHERNET_TYPE_IPV4 packet size
       else
         let! configured := zoom mem_lens (load (netif_gateway_mac_configured netif)) in
         if configured =? 0 then ret false
         else net_send_ethernet netif (netif_mac netif) (netif_gateway_mac netif) ETHERNET_TYPE_IPV4 packet size) in
    zoom mem_lens (free_bytes packet) >>>
    ret success.

(** [length] is an [uint16_t]. *)
Definition net_send_udp (netif : Z) (dstip : ptr) (srcport dstport length : Z) (data : ptr) : M N bool :=
  let size := u32 (UDP_SIZE + length) in
  let! packet := zoom mem_lens (calloc_bytes size) in
  if is_null packet then ret false
  else
    zoom mem_lens (store16 packet (htons srcport)) >>>
    zoom mem_lens (store16 (ptr_add packet 2) (htons dstport)) >>>
    zoom mem_lens (store16 (ptr_add packet 4) (htons size)) >>>
    zoom mem_lens (store16 (ptr_add packet 6) 0) >>>
    zoom mem_lens (memcpy (ptr_add packet UDP_SIZE) data length) >>>
    let! success := net_send_ipv4 netif null_ptr 0 IPV4_TYPE_UDP (netif_ip netif) dstip packet size in
    zoom mem_lens (free_bytes packet) >>>
    ret success.

(** ** Receiving *)

(** *** ICMP *)

Definition net_handle_icmp_echo (netif : Z) (ethernet_packet ipv4_packet icmp_packet : ptr) (icmp_packet_data_size : Z) : M N unit :=
  if icmp_packet_data_size <? ICMP_ECHO_SIZE then ret tt
  else
    let packet := ptr_add icmp_packet ICMP_SIZE in
    let data_length := icmp_packet_data_size - ICMP_ECHO_SIZE in
    let size := ICMP_SIZE + ICMP_ECHO_SIZE + data_length in
    let! icmp_reply := zoom mem_lens (calloc_bytes size) in
    if is_null icmp_reply then ret tt
    else
      zoom mem_lens (store icmp_reply ICMP_TYPE_ECHO_REPLY) >>>
      zoom mem_lens (store (ptr_add icmp_reply 1) 0) >>>
      zoom mem_lens (store16 (ptr_add icmp_reply 2) 0) >>>
      let echo_reply := ptr_add icmp_reply ICMP_SIZE in
      let! identifier := zoom mem_lens (load16 packet) in
      zoom mem_lens (store16 echo_reply identifier) >>>
      let! sequence := zoom mem_lens (load16 (ptr_add packet 2)) in
      zoom mem_lens (store16 (ptr_add echo_reply 2) sequence) >>>
      (if negb (data_length =? 0) then
         zoom mem_lens (memcpy (ptr_add echo_reply ICMP_ECHO_SIZE) (ptr_add packet ICMP_ECHO_SIZE) data_length)
       else ret tt) >>>
      let! checksum := zoom mem_lens (net_calc_checksum icmp_reply size) in
      zoom mem_lens (store16 (ptr_add icmp_reply 2) (htons checksum)) >>>
      let! identification := zoom mem_lens (load16 (ptr_add ipv4_packet 4)) in
      let! success := net_send_ipv4 netif (ptr_add ethernet_packet 6) identification IPV4_TYPE_ICMP
        (netif_ip netif) (ptr_add ipv4_packet 12) icmp_reply size in
      zoom mem_lens (free_bytes icmp_reply).

(** Every type but the echo request is only printed. *)
Definition net_handle_icmp (netif : Z) (ethernet_packet ipv4_packet : ptr) (ipv4_data_length : Z) : M N unit :=
  if ipv4_data_length <? ICMP_SIZE then ret tt
  else
    let icmp_packet_data_size := ipv4_data_length - ICMP_SIZE in
    let icmp_packet := ptr_add ipv4_packet IPV4_SIZE in
    let! checksum := zoom mem_lens (load16 (ptr_add icmp_packet 2)) in
    let old_checksum := ntohs checksum in
    zoom mem_lens (store16 (ptr_add icmp_packet 2) 0) >>>
    let! calc := zoom mem_lens (net_calc_checksum icmp_packet ipv4_data_length) in
    if negb (old_checksum =? calc) then ret tt
    else
      zoom mem_lens (store16 (ptr_add icmp_packet 2) (htons old_checksum)) >>>
      let! type := zoom mem_lens (load icmp_packet) in
      if type =? ICMP_TYPE_ECHO_REQUEST then
        net_handle_icmp_echo netif ethernet_packet ipv4_packet icmp_packet icmp_packet_data_size
      else ret tt.

(** *** TCP: a segment is checked and dropped *)

Definition tcp_calc_checksum (packet : ptr) (length : Z) (srcip dstip : ptr) : M (mem H) Z :=
  kassert (negb (is_null packet)) >>>
  kassert (negb (is_null srcip)) >>>
  kassert (negb (is_null dstip)) >>>
  let! s0 := load srcip in let! s1 := load (ptr_add srcip 1) in
  let! s2 := load (ptr_add srcip 2) in let! s3 := load (ptr_add srcip 3) in
  let! d0 := load dstip in let! d1 := load (ptr_add dstip 1) in
  let! d2 := load (ptr_add dstip 2) in let! d3 := load (ptr_add dstip 3) in
  let l := htons length in
  let! tcp_check_header := local_bytes [s0; s1; s2; s3; d0; d1; d2; d3; 0; IPV4_TYPE_TCP; u8 l; u8 (l / 2 ^ 8)] in
  let! checksum := load16 (ptr_add packet 16) in
  let! v := net_calc_checksum2 tcp_check_header TCP_CHECK_SIZE packet length (ntohs checksum) in
  free_bytes tcp_check_header >>>
  ret v.

Definition net_handle_tcp (ipv4_packet : ptr) (ipv4_data_length : Z) : M N unit :=
  if ipv4_data_length <? TCP_SIZE then ret tt
  else
    let tcp_header := ptr_add ipv4_packet IPV4_SIZE in
    let! flags := zoom mem_lens (load16 (ptr_add tcp_header 12)) in
    let flags := ntohs flags in
    let data_offset := Z.land (Z.shiftr flags 12) 0xF * 4 in
    let data_length := u32 (ipv4_data_length - data_offset) in
    if data_offset <? TCP_SIZE then ret tt
    else if 60 <? data_offset then ret tt
    else
      let size := u32 (data_offset + data_length) in
      if ipv4_data_length <? size then ret tt
      else if negb (Z.land flags 0xE00 =? 0) then ret tt
      else
        let! checksum_received := zoom mem_lens (load16 (ptr_add tcp_header 16)) in
        let! checksum_calculated := zoom mem_lens (tcp_calc_checksum tcp_header size (ptr_add ipv4_packet 12) (ptr_add ipv4_packet 16)) in
        if negb (ntohs checksum_received =? checksum_calculated) then ret tt
        else ret tt.

(** *** UDP: the echo *)

Definition net_handle_udp (netif : Z) (ipv4_packet : ptr) (ipv4_data_length : Z) : M N unit :=
  if ipv4_data_length <? UDP_SIZE then ret tt
  else
    let udp_packet := ptr_add ipv4_packet IPV4_SIZE in
    let! length := zoom mem_lens (load16 (ptr_add udp_packet 4)) in
    let length := ntohs length in
    for_up (Z.to_nat (u32 (length - UDP_SIZE))) 0 (fun i =>
      zoom mem_lens (load (ptr_add udp_packet (UDP_SIZE + i))) >>> ret tt) >>>
    let! dstport := zoom mem_lens (load16 (ptr_add udp_packet 2)) in
    let! srcport := zoom mem_lens (load16 udp_packet) in
    let! sent := net_send_udp netif (ptr_add ipv4_packet 12) (ntohs dstport) (ntohs srcport) length (ptr_add udp_packet UDP_SIZE) in
    ret tt.

(** *** IPv4 *)

Definition net_handle_ipv4 (netif : Z) (ethernet_packet : ptr) (length : Z) : M N unit :=
  if length <? ETHERNET_SIZE + IPV4_SIZE then ret tt
  else
    let ipv4_packet := ptr_add ethernet_packet ETHERNET_SIZE in
    let! version_ihl := zoom mem_lens (load ipv4_packet) in
    if negb (Z.land version_ihl 0x0F =? 5) then ret tt
    else if negb (Z.shiftr (Z.land version_ihl 0xF0) 4 =? 4) then ret tt
    else
      let! ipv4_packet_length := zoom mem_lens (load16 (ptr_add ipv4_packet 2)) in
      let ipv4_packet_length := ntohs ipv4_packet_length in
      if ipv4_packet_length <? IPV4_SIZE then ret tt
      else if length <? ipv4_packet_length + ETHERNET_SIZE + 4 then ret tt
      else
        let! flags_fragment_offset := zoom mem_lens (load16 (ptr_add ipv4_packet 6)) in
        let flags := Z.shiftr (Z.land (ntohs flags_fragment_offset) 0xE000) 13 in
        if negb (Z.land flags 0x1 =? 0) then ret tt
        else if negb (Z.land flags 0x4 =? 0) then ret tt
        else
          let! valid := zoom mem_lens (ipv4_is_checksum_valid ipv4_packet) in
          if negb valid then ret tt
          else
            let! cmp := zoom mem_lens (memcmp (ptr_add ipv4_packet 16) (netif_ip netif) 4) in
            if cmp =? 0 then
              let data_length := ipv4_packet_length - 20 in
              let! protocol := zoom mem_lens (load (ptr_add ipv4_packet 9)) in
              if protocol =? IPV4_TYPE_ICMP then net_handle_icmp netif ethernet_packet ipv4_packet data_length
              else if protocol =? IPV4_TYPE_TCP then net_handle_tcp ipv4_packet data_length
              else if protocol =? IPV4_TYPE_UDP then net_handle_udp netif ipv4_packet data_length
              else ret tt
            else ret tt.

(** *** ARP *)

(** [msg] is the constant that the gateway is greeted with. *)
Definition net_handle_arp (msg : ptr) (netif : Z) (ethernet_packet : ptr) (length : Z) : M N unit :=
  if length <? ETHERNET_SIZE + IPV4_SIZE then ret tt
  else
    let arp_packet := ptr_add ethernet_packet ETHERNET_SIZE in
    let! hwtype := zoom mem_lens (load16 arp_packet) in
    if negb (ntohs hwtype =? 1) then ret tt
    else
      let! ptype := zoom mem_lens (load16 (ptr_add arp_packet 2)) in
      if negb (ntohs ptype =? ETHERNET_TYPE_IPV4) then ret tt
      else
        let! hlen := zoom mem_lens (load (ptr_add arp_packet 4)) in
        if negb (hlen =? 6) then ret tt
        else
          let! plen := zoom mem_lens (load (ptr_add arp_packet 5)) in
          if negb (plen =? 4) then ret tt
          else
            let! opcode := zoom mem_lens (load16 (ptr_add arp_packet 6)) in
            if ntohs opcode =? ARP_OPCODE_REQUEST then
              let! cmp := zoom mem_lens (memcmp (netif_ip netif) (ptr_add arp_packet 24) 4) in
              if cmp =? 0 then
                let! sent := net_send_arp netif (netif_mac netif) (ptr_add ethernet_packet 6) ARP_OPCODE_REPLY
                  (netif_mac netif) (netif_ip netif) (ptr_add arp_packet 8) (ptr_add arp_packet 14) in
                ret tt
              else ret tt
            else if ntohs opcode =? ARP_OPCODE_REPLY then
              let! cmp := zoom mem_lens (memcmp (ptr_add arp_packet 14) (netif_gateway netif) 4) in
              if cmp =? 0 then
                zoom mem_lens (memcpy (netif_gateway_mac netif) (ptr_add arp_packet 8) 6) >>>
                zoom mem_lens (store (netif_gateway_mac_configured netif) 1) >>>
                let! n := zoom mem_lens (strlen msg) in
                let! success := net_send_udp netif (netif_gateway netif) 1234 4321 (u16 (n + 1)) msg in
                ret tt
              else ret tt
            else ret tt.

(** *** The task of an interface *)

(** One round of [ktask_net]: the packet is what [receive_packet] answered. *)
Definition ktask_net_round (msg : ptr) (netif recv_packet : Z) : M N unit :=
  kassert (negb (recv_packet =? 0)) >>>
  let! length := zoom mem_lens (load32 (Ptr recv_packet 0)) in
  let! data := zoom mem_lens (load32 (Ptr recv_packet 4)) in
  let packet := Ptr data 0 in
  zoom mem_lens (free_bytes (Ptr recv_packet 0)) >>>
  if length <? ETHERNET_SIZE then zoom mem_lens (free_bytes packet)
  else
    let! type := zoom mem_lens (load16 (ptr_add packet 12)) in
    (if ntohs type =? ETHERNET_TYPE_ARP then net_handle_arp msg netif packet length
     else if ntohs type =? ETHERNET_TYPE_IPV4 then net_handle_ipv4 netif packet length
     else ret tt) >>>
    zoom mem_lens (free_bytes packet).

(** [e1000_irq] makes a packet of a frame that came in. *)
Definition e1000_packet (frame : list Z) : M N Z :=
  let length := u16 (zlen frame) in
  kassert (length <=? 4096) >>>
  kassert (negb (length =? 0)) >>>
  let! packet := zoom mem_lens (calloc_bytes PACKET_SIZE) in
  kassert (negb (is_null packet)) >>>
  zoom mem_lens (store32 packet length) >>>
  let! data := zoom mem_lens (local_bytes frame) in
  zoom mem_lens (store32 (ptr_add packet 4) (base data)) >>>
  ret (base packet).

(** [ktask_net] on the frames that come in one after the other. *)
Fixpoint ktask_net (msg : ptr) (netif : Z) (frames : list (list Z)) : M N unit :=
  match frames with
  | [] => ret tt
  | f :: fs => let! p := e1000_packet f in ktask_net_round msg netif p >>> ktask_net msg netif fs
  end.

(** *** Interfaces *)

(** [list_insert(netif_list, netif)] and [ktask_spawn] add to lists of their
    own: their allocations (a list node, a task and its stack) and the
    assertions on them are in files DList and Process, not here. *)
Definition net_register_netif (send receive : Z) (mac : ptr) (extra : Z) : M N unit :=
  kassert (negb (send =? 0)) >>>
  kassert (negb (receive =? 0)) >>>
  kassert (negb (extra =? 0)) >>>
  let! netif := zoom mem_lens (calloc_bytes NETIF_SIZE) in
  kassert (negb (is_null netif)) >>>
  let netif := base netif in
  zoom mem_lens (store32 (netif_send netif) send) >>>
  zoom mem_lens (store32 (netif_receive netif) receive) >>>
  zoom mem_lens (store32 (netif_extra netif) extra) >>>
  zoom mem_lens (memcpy (netif_mac netif) mac 6) >>>
  zoom mem_lens (store (netif_ip netif) 10) >>>
  zoom mem_lens (store (ptr_add (netif_ip netif) 1) 0) >>>
  zoom mem_lens (store (ptr_add (netif_ip netif) 2) 0) >>>
  zoom mem_lens (store (ptr_add (netif_ip netif) 3) 2) >>>
  zoom mem_lens (store (netif_gateway netif) 10) >>>
  zoom mem_lens (store (ptr_add (netif_gateway netif) 1) 20) >>>
  zoom mem_lens (store (ptr_add (netif_gateway netif) 2) 0) >>>
  zoom mem_lens (store (ptr_add (netif_gateway netif) 3) 1) >>>
  for_up 6 0 (fun i => zoom mem_lens (store (ptr_add (netif_gateway_mac netif) i) 0)) >>>
  zoom mem_lens (store (netif_gateway_mac_configured netif) 0) >>>
  let! arp_cache := zoom mem_lens (calloc_bytes 12) in
  zoom mem_lens (store32 (netif_arp_cache netif) (base arp_cache)) >>>
  modify (fun s => NState (n_mem s) (n_netifs s ++ [netif]) (n_sent s) (n_tasks s ++ [netif])).
End ops.
