(* ===== verification/NetMem.v ===== *)
(** * Bytes of packets: reading and writing memory objects

    The rules with which the proofs about the network stack follow the bytes
    of a packet while it is built field by field. *)
From S2P Require Import Prelude Interfaces Strings Net.

(** ** Byte lists *)

Definition byte (l : list Z) (i : Z) : Z := default 0 (zlookup l i).
Definition slice (l : list Z) (i n : Z) : list Z := take (Z.to_nat n) (drop (Z.to_nat i) l).

(** Numbers in network byte order. *)
Definition be (v : Z) : list Z := [v / 2 ^ 8 mod 2 ^ 8; v mod 2 ^ 8].
Definition be16 (l : list Z) (i : Z) : Z := byte l i * 2 ^ 8 + byte l (i + 1).

Lemma byte_app_l l k i : 0 <= i < zlen l -> byte (l ++ k) i = byte l i.
Proof.
  intros Hi. unfold byte, zlookup, zlen in *. destruct (Z.ltb_spec i 0); [lia|]. by rewrite lookup_app_l by lia.
Qed.

Lemma byte_app_r l k i : zlen l <= i -> byte (l ++ k) i = byte k (i - zlen l).
Proof.
  intros Hi. unfold byte, zlookup, zlen in *. rewrite (proj2 (Z.ltb_ge i 0)), (proj2 (Z.ltb_ge (i - _) 0)) by lia.
  rewrite lookup_app_r by lia. by replace (Z.to_nat (i - Z.of_nat (length l))) with (Z.to_nat i - length l)%nat by lia.
Qed.

Lemma zlen_slice l i n : 0 <= i -> 0 <= n -> i + n <= zlen l -> zlen (slice l i n) = n.
Proof. intros H0 H1 H2. unfold slice, zlen in *. rewrite length_take, length_drop. lia. Qed.

Lemma slice_split l i n : 0 <= i -> 0 <= n -> i + n <= zlen l ->
  l = take (Z.to_nat i) l ++ slice l i n ++ drop (Z.to_nat (i + n)) l.
Proof.
  intros H0 H1 H2. unfold slice. rewrite <- (take_drop (Z.to_nat i) l) at 1. f_equal.
  rewrite <- (take_drop (Z.to_nat n) (drop (Z.to_nat i) l)) at 1. f_equal. rewrite drop_drop. f_equal. lia.
Qed.

Lemma zlen_replicate {A} n (x : A) : zlen (replicate n x) = Z.of_nat n.
Proof. unfold zlen. by rewrite length_replicate. Qed.

Lemma zlen_take (l : list Z) i : 0 <= i <= zlen l -> zlen (take (Z.to_nat i) l) = i.
Proof. intros Hi. unfold zlen in *. rewrite length_take. lia. Qed.

Lemma slice_app pre l post : slice (pre ++ l ++ post) (zlen pre) (zlen l) = l.
Proof. unfold slice, zlen. rewrite !Nat2Z.id, drop_app_length, take_app_length. done. Qed.

Lemma byte_Forall l i : Forall is_u8 l -> is_u8 (byte l i).
Proof.
  intros Hl. unfold byte. destruct (zlookup l i) eqn:E; [|done]. by apply (zlookup_Forall _ l i).
Qed.

Lemma slice_Forall l i n : Forall is_u8 l -> Forall is_u8 (slice l i n).
Proof. intros Hl. unfold slice. by apply Forall_take, Forall_drop. Qed.

Lemma slice_cons l i n : 0 <= i < zlen l -> 0 < n -> slice l i n = byte l i :: slice l (i + 1) (n - 1).
Proof.
  intros Hi Hn. unfold slice, byte, zlookup, zlen in *. rewrite (proj2 (Z.ltb_ge i 0)) by lia.
  destruct (drop_cons_lookup (Z.to_nat i) l ltac:(lia)) as [x Hx].
  assert (l !! Z.to_nat i = Some x) as -> by (rewrite <- (Nat.add_0_r (Z.to_nat i)), <- lookup_drop, Hx; done).
  rewrite Hx. replace (Z.to_nat n) with (S (Z.to_nat (n - 1))) by lia. cbn [take default]. do 2 f_equal. f_equal. lia.
Qed.

Lemma slice_nil l i : slice l i 0 = [].
Proof. done. Qed.

(** ** Byte order *)

Lemma htons_be v : htons v = v mod 2 ^ 8 * 2 ^ 8 + v / 2 ^ 8 mod 2 ^ 8.
Proof.
  unfold htons. rewrite Z.shiftr_land. change (Z.shiftr 0xFF00 8) with (Z.ones 8). change 0xFF with (Z.ones 8).
  rewrite Z.shiftr_div_pow2, !Z.land_ones by lia. pose proof (Z.mod_pos_bound (v / 2 ^ 8) (2 ^ 8)).
  rewrite Z.lor_comm, lor_shiftl_add by lia. lia.
Qed.

Lemma htons_swap lo hi : is_u8 lo -> is_u8 hi -> htons (lo + hi * 2 ^ 8) = lo * 2 ^ 8 + hi.
Proof.
  unfold is_u8. intros Hlo Hhi. rewrite htons_be, Z.mod_add, Z.div_add, (Z.div_small lo), (Z.mod_small lo) by lia.
  by rewrite Z.mod_small by lia.
Qed.

(** What [store16] leaves of a swapped number. *)
Lemma be_htons v : [u8 (htons v); u8 (htons v / 2 ^ 8)] = be v.
Proof.
  unfold be, u8. rewrite htons_be. pose proof (Z.mod_pos_bound v (2 ^ 8)). pose proof (Z.mod_pos_bound (v / 2 ^ 8) (2 ^ 8)).
  rewrite (Z.add_comm (v mod _ * _)), Z.mod_add, Z.mod_mod, Z.div_add by lia.
  rewrite (Z.div_small (v / 2 ^ 8 mod 2 ^ 8)) by lia. by rewrite Z.add_0_l, Z.mod_mod by lia.
Qed.

Lemma be_u8 v : Forall is_u8 (be v).
Proof. unfold be, is_u8. repeat constructor; apply Z.mod_pos_bound; lia. Qed.

Lemma be16_be pre v post : is_u16 v -> be16 (pre ++ be v ++ post) (zlen pre) = v.
Proof.
  intros Hv. unfold be16. rewrite (byte_app_r pre _ (zlen pre)), (byte_app_r pre _ (zlen pre + 1)) by lia. rewrite Z.sub_diag. replace (zlen pre + 1 - zlen pre) with 1 by lia.
  change (byte (be v ++ post) 0) with (v / 256 mod 256). change (byte (be v ++ post) 1) with (v mod 256).
  unfold is_u16 in Hv. pose proof (Z.div_mod v 256 ltac:(lia)).
  rewrite (Z.mod_small (v / 256)); [lia|]. split; [apply Z.div_pos; lia|apply Z.div_lt_upper_bound; lia].
Qed.

Lemma be16_range l i : Forall is_u8 l -> is_u16 (be16 l i).
Proof.
  intros Hl. pose proof (byte_Forall l i Hl). pose proof (byte_Forall l (i + 1) Hl). unfold is_u8, is_u16, be16 in *. lia.
Qed.

(** ** Objects *)

Section rules.
Context {H : Type} `{KHeapLaws H}.
Implicit Types (s : nstate H) (m : mem H).

Definition with_mem m s : nstate H := NState m (n_netifs s) (n_sent s) (n_tasks s).

Definition objects s : gmap Z (list Z) := m_objs (n_mem s).
Definition heap_of s : H := m_heap (n_mem s).

Lemma wp_zmem {A} (c : M (mem H) A) (Q : A -> nstate H -> Prop) E s :
  wp c (fun a m => Q a (with_mem m s)) E (n_mem s) -> wp (zoom mem_lens c) Q E s.
Proof. intros Hw. by apply wp_zoom. Qed.

(** [s] with the object [b] replaced. *)
Definition put_obj (b : Z) (o : list Z) m : mem H := Mem (m_heap m) (<[b := o]> (m_objs m)).

Lemma put_obj_twice b o o' m : put_obj b o' (put_obj b o m) = put_obj b o' m.
Proof. unfold put_obj. cbn. by rewrite insert_insert_eq. Qed.

(** *** Reading *)

Lemma wp_load_at m p o (Q : Z -> mem H -> Prop) E :
  m_objs m !! base p = Some o -> 0 <= off p < zlen o -> Q (byte o (off p)) m -> wp (load p) Q E m.
Proof.
  intros Ho Hr HQ. unfold load. wp_cond. rewrite Ho. wp_cond. unfold byte in HQ.
  destruct (proj2 (zlookup_lt_is_Some o (off p)) Hr) as [c Hc]. by rewrite Hc in *.
Qed.

Lemma wp_load16_at m p o (Q : Z -> mem H -> Prop) E :
  m_objs m !! base p = Some o -> 0 <= off p -> off p + 2 <= zlen o ->
  Q (byte o (off p) + byte o (off p + 1) * 2 ^ 8) m -> wp (load16 p) Q E m.
Proof.
  intros Ho Hlo Hhi HQ. unfold load16. wp_steps. apply (wp_load_at m p o); [done|lia|]. wp_steps.
  apply (wp_load_at m _ o); [done|cbn; lia|]. by wp_steps.
Qed.

Lemma wp_load32_at m p o (Q : Z -> mem H -> Prop) E :
  m_objs m !! base p = Some o -> 0 <= off p -> off p + 4 <= zlen o ->
  Q (byte o (off p) + byte o (off p + 1) * 2 ^ 8 + (byte o (off p + 2) + byte o (off p + 3) * 2 ^ 8) * 2 ^ 16) m ->
  wp (load32 p) Q E m.
Proof.
  intros Ho Hlo Hhi HQ. unfold load32. wp_steps. apply (wp_load16_at m p o); [done|lia|lia|]. wp_steps.
  apply (wp_load16_at m _ o); [done|cbn; lia|cbn; lia|]. wp_steps. cbn [off ptr_add].
  by replace (off p + 2 + 1) with (off p + 3) by lia.
Qed.

(** *** Writing: [bs] takes the place of [old]. *)

Lemma wp_store_at m p pre old post c (Q : unit -> mem H -> Prop) E :
  off p = zlen pre -> Q tt (put_obj (base p) (pre ++ u8 c :: post) m) ->
  wp (store p c) Q E (put_obj (base p) (pre ++ old :: post) m).
Proof.
  intros Hp HQ. unfold store. wp_cond. cbn. rewrite lookup_insert_eq. wp_cond. rewrite Hp, zlookup_app_mid. wp_steps.
  rewrite zinsert_app_mid. cbn [m_objs m_heap put_obj]. rewrite insert_insert_eq. exact HQ.
Qed.

Lemma wp_store16_at m p pre o1 o2 post v (Q : unit -> mem H -> Prop) E :
  off p = zlen pre -> Q tt (put_obj (base p) (pre ++ [u8 v; u8 (v / 2 ^ 8)] ++ post) m) ->
  wp (store16 p v) Q E (put_obj (base p) (pre ++ o1 :: o2 :: post) m).
Proof.
  intros Hp HQ. unfold store16. wp_steps. apply wp_store_at; [done|]. rewrite (app_cons_assoc pre). 
  change (base p) with (base (ptr_add p 1)). apply wp_store_at; [cbn; rewrite zlen_app, Hp; done|].
  by rewrite <- app_assoc.
Qed.

Lemma wp_memcpy_at m p q pre old post bs (Q : unit -> mem H -> Prop) E :
  base p <> 0 -> base q <> 0 -> base p <> base q -> bs <> [] -> off p = zlen pre -> zlen old = zlen bs -> bytes_at m q bs ->
  Q tt (put_obj (base p) (pre ++ bs ++ post) m) -> Forall is_u8 bs ->
  wp (memcpy p q (zlen bs)) Q E (put_obj (base p) (pre ++ old ++ post) m).
Proof.
  intros Hp Hq Hpq Hne Hoff Hlen (qpre & qpost & Hqo & Hqoff) HQ Hu8. unfold memcpy, is_null.
  wp_cond. rewrite (proj2 (Z.eqb_neq (base p) 0)) by done. cbn [negb]. wp_cond. rewrite (proj2 (Z.eqb_neq (base q) 0)) by done. cbn [negb].
  wp_cond. rewrite (proj2 (Z.eqb_neq (zlen bs) 0)) by (destruct bs; [done|rewrite zlen_cons; pose proof (zlen_nonneg bs); lia]). cbn [negb]. wp_steps.
  unfold zlen. rewrite Nat2Z.id.
  match goal with |- wp (for_up _ _ ?b) _ _ _ => set (body := b) end.
  enough (forall ys xs old2, bs = xs ++ ys -> length old2 = length ys ->
    wp (for_up (length ys) (zlen xs) body) Q E (put_obj (base p) (pre ++ xs ++ old2 ++ post) m)) as Hgen.
  { apply (Hgen bs [] old); [done|unfold zlen in Hlen; lia]. }
  induction ys as [|y ys IH]; intros xs old2 Hbs Hl; cbn [length].
  - destruct old2; [|done]. rewrite app_nil_r in Hbs. subst xs. exact HQ.
  - destruct old2 as [|x old2]; [done|]. apply wp_for_up_step. unfold body at 1. wp_steps.
    apply (wp_load_at _ _ (qpre ++ bs ++ qpost)); [cbn; by rewrite lookup_insert_ne|cbn; rewrite Hqoff, Hbs, !zlen_app, zlen_cons; pose proof (zlen_nonneg xs); pose proof (zlen_nonneg ys); pose proof (zlen_nonneg qpre); pose proof (zlen_nonneg qpost); lia|].
    assert (byte (qpre ++ bs ++ qpost) (off (ptr_add q (zlen xs))) = y) as ->.
    { pose proof (zlen_nonneg xs). cbn. rewrite Hqoff, Hbs, byte_app_r, <- app_assoc, byte_app_r by lia. replace (zlen qpre + zlen xs - zlen qpre - zlen xs) with 0 by lia. done. }
    replace (pre ++ xs ++ (x :: old2) ++ post) with ((pre ++ xs) ++ x :: (old2 ++ post)) by (by rewrite <- !app_assoc).
    change (base p) with (base (ptr_add p (zlen xs))). apply wp_store_at; [cbn; rewrite zlen_app, Hoff; done|].
    assert (u8 y = y) as ->. { rewrite Hbs in Hu8. apply Forall_app in Hu8 as [_ [Hy _]%Forall_cons]. by apply Z.mod_small. }
    replace (zlen xs + 1) with (zlen (xs ++ [y])) by (by rewrite zlen_app).
    replace ((pre ++ xs) ++ y :: old2 ++ post) with (pre ++ (xs ++ [y]) ++ old2 ++ post) by (by rewrite <- !app_assoc).
    cbn [base ptr_add]. apply IH; [by rewrite <- app_assoc|by injection Hl].
Qed.

(** The same on an object that is found in memory. *)
Lemma put_obj_same b o m : m_objs m !! b = Some o -> put_obj b o m = m.
Proof. intros Ho. unfold put_obj. rewrite insert_id by done. by destruct m. Qed.

Lemma wp_store_in m p pre old post c (Q : unit -> mem H -> Prop) E :
  m_objs m !! base p = Some (pre ++ old :: post) -> off p = zlen pre ->
  Q tt (put_obj (base p) (pre ++ u8 c :: post) m) -> wp (store p c) Q E m.
Proof. intros Ho Hp HQ. rewrite <- (put_obj_same _ _ _ Ho). by apply wp_store_at. Qed.

Lemma wp_store16_in m p pre o1 o2 post v (Q : unit -> mem H -> Prop) E :
  m_objs m !! base p = Some (pre ++ o1 :: o2 :: post) -> off p = zlen pre ->
  Q tt (put_obj (base p) (pre ++ [u8 v; u8 (v / 2 ^ 8)] ++ post) m) -> wp (store16 p v) Q E m.
Proof. intros Ho Hp HQ. rewrite <- (put_obj_same _ _ _ Ho). by apply wp_store16_at. Qed.

Lemma wp_memcpy_in m p q pre old post bs (Q : unit -> mem H -> Prop) E :
  m_objs m !! base p = Some (pre ++ old ++ post) ->
  base p <> 0 -> base q <> 0 -> base p <> base q -> bs <> [] -> off p = zlen pre -> zlen old = zlen bs -> bytes_at m q bs ->
  Forall is_u8 bs -> Q tt (put_obj (base p) (pre ++ bs ++ post) m) -> wp (memcpy p q (zlen bs)) Q E m.
Proof. intros Ho. intros. rewrite <- (put_obj_same _ _ _ Ho). by apply wp_memcpy_at. Qed.

(** ** Allocated objects *)

Record mem_ok m : Prop := MemOk {
  mo_heap : heap_ok (m_heap m);
  mo_live : forall b o, m_objs m !! b = Some o -> b ∈ heap_live (m_heap m);
  mo_u8 : forall b o, m_objs m !! b = Some o -> Forall is_u8 o;
}.

(** Memory is as it was: no object more, less or changed. *)
Definition same_mem m m' : Prop :=
  m_objs m' = m_objs m /\ heap_live (m_heap m') = heap_live (m_heap m) /\ heap_ok (m_heap m').

(** [m] with one object more. *)
Definition holding m (b : Z) (o : list Z) m' : Prop :=
  m_objs m' = <[b := o]> (m_objs m) /\ heap_live (m_heap m') = {[ b ]} ∪ heap_live (m_heap m) /\ heap_ok (m_heap m') /\
  m_objs m !! b = None /\ b ∉ heap_live (m_heap m) /\ 0 < b < 2 ^ 32.

Lemma mem_ok_same m m' : mem_ok m -> same_mem m m' -> mem_ok m'.
Proof. intros [A B C] (D & E & G). split; [done|..]; intros b o; rewrite D; [rewrite E|]; [apply B|apply C]. Qed.

Lemma same_mem_refl m : mem_ok m -> same_mem m m.
Proof. intros [A _ _]. done. Qed.

Lemma same_mem_trans m m1 m2 : same_mem m m1 -> same_mem m1 m2 -> same_mem m m2.
Proof. intros (A & B & C) (D & E & G). split; [congruence|]. split; [congruence|done]. Qed.

Lemma mem_ok_holding m b o m' : mem_ok m -> Forall is_u8 o -> holding m b o m' -> mem_ok m'.
Proof.
  intros [A B C] Ho (D & E & G & _). split; [done|..]; intros b' o'; rewrite D, lookup_insert_Some.
  - intros [[<- _]|[_ Hb]]; rewrite E; [set_solver|]. apply B in Hb. set_solver.
  - intros [[_ <-]|[_ Hb]]; [done|by apply (C b')].
Qed.

Lemma holding_put m b o o' m' : holding m b o m' -> holding m b o' (put_obj b o' m').
Proof. intros (A & B). split; [|done]. cbn. by rewrite A, insert_insert_eq. Qed.

Lemma holding_same m b o m1 m2 : holding m b o m1 -> same_mem m1 m2 -> holding m b o m2.
Proof. intros (A & B & C & D) (E & G & I). split; [congruence|]. split; [congruence|done]. Qed.

Lemma mem_base m b o : mem_ok m -> m_objs m !! b = Some o -> 0 < b < 2 ^ 32.
Proof. intros [A B _] Hb. by apply (heap_live_range (m_heap m)), (B _ _ Hb). Qed.

Lemma wp_calloc m n :
  mem_ok m -> 0 < n ->
  wp (calloc_bytes n) (fun p m' => exists b, p = Ptr b 0 /\ holding m b (replicate (Z.to_nat n) 0) m') only_nomem m.
Proof.
  intros [A B C] Hn. unfold calloc_bytes. wp_steps. apply wp_zoom. cbn [lget m_lens].
  eapply wp_mono; [apply kcalloc_spec; [done|lia]| |done]. intros b h (Hh & Hb & Hnew & Hl). cbn [lset m_lens]. wp_steps.
  exists b. split; [done|]. split; [done|]. split; [done|]. split; [done|]. split; [|done].
  destruct (m_objs m !! b) as [o|] eqn:Ho; [|done]. by apply B in Ho.
Qed.

Lemma wp_free m b o m' :
  holding m b o m' -> wp (free_bytes (Ptr b 0)) (fun _ m2 => same_mem m m2) never m'.
Proof.
  intros (A & B & C & D & E & G). unfold free_bytes. wp_steps. apply wp_zoom. cbn [lget m_lens base].
  eapply wp_mono; [apply kfree_spec; [done|rewrite B; set_solver]| |done]. intros [] h (Hh & Hl). cbn [lset m_lens]. wp_steps.
  split; [|split; [|done]]; cbn.
  - rewrite A. by rewrite delete_insert_eq, delete_id.
  - rewrite Hl, B. set_solver.
Qed.

(** ** Packets under construction

    [s1] is [s] and the object [b]. *)
Definition building s (b : Z) (o : list Z) s1 : Prop :=
  holding (n_mem s) b o (n_mem s1) /\ n_netifs s1 = n_netifs s /\ n_sent s1 = n_sent s /\ n_tasks s1 = n_tasks s.

Lemma bytes_at_holding m b o m' p bs : holding m b o m' -> bytes_at m p bs -> base p <> b /\ bytes_at m' p bs.
Proof.
  intros (A & _ & _ & D & _) (pre & post & Hp & Hoff). assert (base p <> b) as Hne by (intros <-; congruence).
  split; [done|]. exists pre, post. by rewrite A, lookup_insert_ne by done.
Qed.

Section emit.
Context (s s1 : nstate H) (b : Z) (pre : list Z) (E : panic -> Prop).

Lemma emit_store k c p (Q : unit -> nstate H -> Prop) :
  building s b (pre ++ replicate (1 + k) 0) s1 -> base p = b -> off p = zlen pre ->
  (forall s2, building s b ((pre ++ [u8 c]) ++ replicate k 0) s2 -> Q tt s2) -> wp (zoom mem_lens (store p c)) Q E s1.
Proof.
  intros (Hh & R) Hb Ho HQ. apply wp_zmem. pose proof Hh as (A & _). apply (wp_store_in _ _ pre 0 (replicate k 0)); [|done|].
  - rewrite A, Hb. by rewrite lookup_insert_eq.
  - apply HQ. split; [|done]. rewrite Hb, <- app_assoc. by eapply holding_put.
Qed.

Lemma emit_store16 k v p (Q : unit -> nstate H -> Prop) :
  building s b (pre ++ replicate (2 + k) 0) s1 -> base p = b -> off p = zlen pre ->
  (forall s2, building s b ((pre ++ [u8 v; u8 (v / 2 ^ 8)]) ++ replicate k 0) s2 -> Q tt s2) -> wp (zoom mem_lens (store16 p v)) Q E s1.
Proof.
  intros (Hh & R) Hb Ho HQ. apply wp_zmem. pose proof Hh as (A & _). apply (wp_store16_in _ _ pre 0 0 (replicate k 0)); [|done|].
  - rewrite A, Hb. by rewrite lookup_insert_eq.
  - apply HQ. split; [|done]. rewrite Hb, <- app_assoc. by eapply holding_put.
Qed.

Lemma emit_memcpy k bs p q n (Q : unit -> nstate H -> Prop) :
  building s b (pre ++ replicate (length bs + k) 0) s1 -> mem_ok (n_mem s) -> base p = b -> off p = zlen pre -> bytes_at (n_mem s) q bs ->
  n = zlen bs -> bs <> [] ->
  (forall s2, building s b ((pre ++ bs) ++ replicate k 0) s2 -> Q tt s2) -> wp (zoom mem_lens (memcpy p q n)) Q E s1.
Proof.
  intros (Hh & R) Hok Hb Ho Hq -> Hne HQ. apply wp_zmem. pose proof Hh as (A & _ & _ & _ & _ & G).
  destruct (bytes_at_holding _ _ _ _ q bs Hh Hq) as [Hqb Hq']. pose proof Hq as (qpre & qpost & Hqo & _).
  apply (wp_memcpy_in _ _ _ pre (replicate (length bs) 0) (replicate k 0)); try done.
  - rewrite A, Hb, lookup_insert_eq. by rewrite replicate_add.
  - lia.
  - pose proof (mem_base _ _ _ Hok Hqo). lia.
  - rewrite Hb. congruence.
  - unfold zlen. by rewrite length_replicate.
  - pose proof (mo_u8 _ Hok _ _ Hqo) as Hu. apply Forall_app in Hu as [_ [Hu _]%Forall_app]. done.
  - apply HQ. split; [|done]. rewrite Hb, <- app_assoc. by eapply holding_put.
Qed.
End emit.
End rules.
