(* ===== verification/NetSum.v ===== *)
(** * The internet checksum

    The words of a packet, their ones' complement sum and what
    [net_calc_checksum] computes of them. *)
From S2P Require Import Prelude Interfaces Strings Net NetMem.

(** The 16-bit words of a packet; an odd byte at the end is not one. *)
Fixpoint words (l : list Z) : list Z :=
  match l with a :: b :: l' => (a * 2 ^ 8 + b) :: words l' | _ => [] end.

Definition sum (l : list Z) : Z := foldr Z.add 0 l.

(** The ones' complement sum of numbers whose sum is [v]: 0 only for 0. *)
Definition ones_sum (v : Z) : Z := if v =? 0 then 0 else (v - 1) mod 65535 + 1.

Definition inet_checksum (l : list Z) : Z := 65535 - ones_sum (sum (words l)).

Lemma ones_sum_range v : 0 <= v -> 0 <= ones_sum v <= 65535.
Proof. intros Hv. unfold ones_sum. destruct (Z.eqb_spec v 0); [lia|]. pose proof (Z.mod_pos_bound (v - 1) 65535). lia. Qed.

Lemma fold16 v : 0 <= v < 2 ^ 32 ->
  u16 (Z.lnot (u32 (u32 (Z.land (Z.shiftr v 16) 0xFFFF + Z.land v 0xFFFF) +
    Z.land (Z.shiftr (u32 (Z.land (Z.shiftr v 16) 0xFFFF + Z.land v 0xFFFF)) 16) 0xFFFF))) = 65535 - ones_sum v.
Proof.
  intros Hv. change 0xFFFF with (Z.ones 16). rewrite !Z.land_ones, !Z.shiftr_div_pow2 by lia. change (2 ^ 16) with 65536.
  pose proof (Z.div_mod v 65536 ltac:(lia)) as Hd. pose proof (Z.mod_pos_bound v 65536 ltac:(lia)) as Hm.
  assert (0 <= v / 65536 < 65536) as Hq by (split; [apply Z.div_pos; lia|apply Z.div_lt_upper_bound; lia]).
  set (hi := v / 65536) in *. set (lo := v mod 65536) in *. rewrite (Z.mod_small hi) by lia.
  rewrite (u32_small (hi + lo)) by (unfold is_u32; lia).
  assert (u32 (hi + lo + (hi + lo) / 65536 mod 65536) mod 65536 = ones_sum v) as He.
  { unfold ones_sum. destruct (Z.lt_ge_cases (hi + lo) 65536) as [Hlt|Hge].
    - rewrite (Z.div_small (hi + lo)), (Z.mod_small 0), Z.add_0_r, u32_small, (Z.mod_small (hi + lo)) by (unfold is_u32; lia).
      destruct (Z.eqb_spec v 0); [lia|]. rewrite <- (Z.mod_unique (v - 1) 65535 hi (hi + lo - 1)); lia.
    - assert ((hi + lo) / 65536 = 1) as -> by (symmetry; apply (Z.div_unique _ _ _ (hi + lo - 65536)); lia).
      rewrite (Z.mod_small 1), u32_small by (unfold is_u32; lia). rewrite (proj2 (Z.eqb_neq v 0)) by lia.
      rewrite <- (Z.mod_unique (hi + lo + 1) 65536 1 (hi + lo - 65535)) by lia.
      rewrite <- (Z.mod_unique (v - 1) 65535 (hi + 1) (hi + lo - 65536)); lia. }
  unfold u16. change (2 ^ 16) with 65536. rewrite <- He. set (w := u32 _). unfold Z.lnot.
  pose proof (Z.div_mod w 65536 ltac:(lia)). pose proof (Z.mod_pos_bound w 65536 ltac:(lia)).
  change (Z.ones 16) with 65535. symmetry. apply (Z.mod_unique _ _ (- (w / 65536) - 1)); lia.
Qed.

(** The checksum makes the sum a multiple of 65535: this is what the other
    side tests. *)
Lemma checksum_cancels l : Forall is_u8 l -> (sum (words l) + inet_checksum l) mod 65535 = 0.
Proof.
  intros _. unfold inet_checksum, ones_sum. set (v := sum _). destruct (Z.eqb_spec v 0) as [->|Hv]; [done|].
  pose proof (Z.div_mod (v - 1) 65535 ltac:(lia)). replace (v + _) with ((v - 1) / 65535 * 65535 + 65535) by lia.
  by rewrite Z.add_comm, Z.mod_add.
Qed.

Lemma length_words l : length (words l) = (length l / 2)%nat.
Proof.
  enough (forall n l, (length l < n)%nat -> length (words l) = (length l / 2)%nat) as Hgen by (apply (Hgen (S (length l))); lia).
  clear l. induction n as [|n IH]; intros [|a [|b l]] Hl; try done; [cbn in Hl; lia|]. cbn [words length].
  rewrite IH by (cbn in Hl; lia). replace (S (S (length l))) with (length l + 1 * 2)%nat by lia. rewrite Nat.div_add by done. lia.
Qed.

Lemma words_lookup l i : (2 * i + 2 <= length l)%nat -> words l !! i = Some (be16 l (2 * Z.of_nat i)).
Proof.
  revert l. induction i as [|i IH]; intros [|a [|b l]] Hl; cbn [length] in Hl; try lia; cbn [words lookup list_lookup]; [done|].
  rewrite IH by lia. f_equal. unfold be16. assert (forall j, 0 <= j -> byte (a :: b :: l) (j + 2) = byte l j) as Hb.
  { intros j Hj. change (a :: b :: l) with ([a; b] ++ l). rewrite byte_app_r by (unfold zlen; cbn; lia). f_equal. unfold zlen. cbn. lia. }
  rewrite <- (Hb (2 * Z.of_nat i)), <- (Hb (2 * Z.of_nat i + 1)) by lia. do 2 f_equal; [f_equal; lia|lia].
Qed.

Lemma sum_snoc l x : sum (l ++ [x]) = sum l + x.
Proof. unfold sum. induction l as [|y l IH]; cbn; [lia|]. rewrite IH. lia. Qed.

Lemma sum_app l k : sum (l ++ k) = sum l + sum k.
Proof. unfold sum. induction l as [|y l IH]; cbn; [lia|]. rewrite IH. lia. Qed.

Lemma words_u16 l : Forall is_u8 l -> Forall is_u16 (words l).
Proof.
  intros Hl. apply Forall_lookup. intros i w Hi. pose proof (lookup_lt_Some _ _ _ Hi) as Hlt. rewrite length_words in Hlt.
  pose proof (Nat.div_mod (length l) 2 ltac:(lia)). rewrite words_lookup in Hi by lia. injection Hi as <-. by apply be16_range.
Qed.

Lemma sum_words_bound l : Forall is_u8 l -> 0 <= sum (words l) <= 65535 * Z.of_nat (length (words l)).
Proof.
  intros Hl. pose proof (words_u16 l Hl) as Hw.
  unfold sum. induction Hw as [|w ws Hw _ IH]; cbn; [lia|]. unfold is_u16 in Hw. lia.
Qed.

(** A word of the packet is part of its sum. *)
Lemma word_in_sum l i : Forall is_u8 l -> 0 <= i -> 2 * i + 2 <= zlen l -> 0 <= be16 l (2 * i) <= sum (words l).
Proof.
  intros Hl Hi Hs. pose proof (words_u16 l Hl) as Hu. unfold zlen in Hs. pose proof (words_lookup l (Z.to_nat i) ltac:(lia)) as Hw.
  rewrite Z2Nat.id in Hw by done. revert Hw. generalize (Z.to_nat i). generalize (be16 l (2 * i)). clear -Hu.
  induction Hu as [|w ws Hw Hu IH]; intros x k; [by rewrite lookup_nil|]. assert (0 <= sum ws) as Hpos.
  { clear -Hu. unfold sum. induction Hu as [|y ys Hy _ IHy]; cbn; [lia|]. unfold is_u16 in Hy. lia. }
  unfold is_u16 in Hw. destruct k as [|k]; cbn; [intros [= ->]; unfold sum in *; lia|]. intros Hk. specialize (IH x k Hk). unfold sum in *. lia.
Qed.

Section rules.
Context {H : Type} `{KHeapLaws H}.
Implicit Types (m : mem H).

(** The summing loop. *)
Lemma wp_sum_words m p bs v0 n (Q : Z -> mem H -> Prop) E :
  bytes_at m p bs -> Forall is_u8 bs -> n = Z.to_nat (zlen bs / 2) -> 0 <= v0 -> v0 + 65535 * Z.of_nat n < 2 ^ 32 ->
  Q (v0 + sum (words bs)) m ->
  wp (for_fold n 0 v0 (fun i v => let! w := load16 (ptr_add p (2 * i)) in ret (u32 (v + ntohs w)))) Q E m.
Proof.
  intros Hb Hu -> Hv0 Hmax HQ.
  assert (Z.to_nat (zlen bs / 2) = length (words bs)) as Hn.
  { rewrite length_words. unfold zlen. change 2 with (Z.of_nat 2). by rewrite <- Nat2Z.inj_div, Nat2Z.id. }
  rewrite Hn in *. eapply wp_mono.
  - apply (wp_for_fold (fun j v m' => m' = m /\ v = v0 + sum (take (Z.to_nat j) (words bs)) /\ v <= v0 + 65535 * j)).
    + split; [done|]. change (sum (take (Z.to_nat 0) (words bs))) with 0. lia.
    + intros j v m' Hj (-> & -> & Hv). destruct Hb as (pre & post & Hp & Hoff). wp_steps.
      assert (2 * Z.to_nat j + 2 <= length bs)%nat as Hr.
      { rewrite length_words in Hj. pose proof (Nat.div_mod (length bs) 2 ltac:(lia)). lia. }
      pose proof (zlen_nonneg pre). pose proof (zlen_nonneg post).
      apply (wp_load16_at m _ (pre ++ bs ++ post)); [done|cbn; lia|cbn; rewrite !zlen_app; unfold zlen in *; lia|]. wp_steps.
      assert (ntohs (byte (pre ++ bs ++ post) (off (ptr_add p (2 * j))) + byte (pre ++ bs ++ post) (off (ptr_add p (2 * j)) + 1) * 2 ^ 8) = be16 bs (2 * j)) as ->.
      { cbn [off ptr_add]. rewrite Hoff, !(byte_app_r pre) by lia.
        replace (zlen pre + 2 * j - zlen pre) with (2 * j) by lia. replace (zlen pre + 2 * j + 1 - zlen pre) with (2 * j + 1) by lia.
        rewrite !byte_app_l by (unfold zlen; lia). apply htons_swap; by apply byte_Forall. }
      pose proof (words_lookup bs (Z.to_nat j) Hr) as Hw. rewrite Z2Nat.id in Hw by lia.
      replace (Z.to_nat (j + 1)) with (S (Z.to_nat j)) by lia. rewrite (take_S_r _ _ _ Hw), sum_snoc.
      pose proof (be16_range bs (2 * j) Hu) as Hw16. unfold is_u16 in Hw16.
      assert (0 <= sum (take (Z.to_nat j) (words bs))) as Hpos.
      { clear -Hu. pose proof (words_u16 bs Hu) as Hw.
        apply (Forall_take _ (Z.to_nat j)) in Hw. unfold sum.
        induction Hw as [|w ws Hw _ IH]; cbn; [lia|]. unfold is_u16 in Hw. lia. }
      rewrite u32_small by (unfold is_u32; lia). split; [done|]. lia.
  - cbn beta. intros v m' (-> & -> & _). rewrite firstn_all2 in * by lia. done.
  - done.
Qed.

Lemma wp_net_calc_checksum m p bs n (Q : Z -> mem H -> Prop) E :
  bytes_at m p bs -> Forall is_u8 bs -> n = zlen bs -> n <= 2 ^ 16 -> Q (inet_checksum bs) m ->
  wp (net_calc_checksum p n) Q E m.
Proof.
  intros Hb Hu -> Hn HQ. unfold net_calc_checksum. wp_steps. pose proof (zlen_nonneg bs).
  assert (0 <= zlen bs / 2 <= 2 ^ 15) as Hh by (split; [apply Z.div_pos; lia|apply Z.div_le_upper_bound; lia]).
  apply (wp_sum_words m p bs); [done|done|done|lia|lia|]. wp_steps. rewrite Z.add_0_l.
  rewrite fold16; [done|]. pose proof (sum_words_bound bs Hu) as Hs. rewrite length_words in Hs.
  assert (Z.of_nat (length bs / 2) = zlen bs / 2) as Hd by (unfold zlen; by rewrite Nat2Z.inj_div). lia.
Qed.

(** The sum of two packets without the checksum [c], an odd byte at the end
    of the second as the high half of a word. *)
Definition inet_checksum2 (l1 l2 : list Z) (c : Z) : Z :=
  65535 - ones_sum (sum (words l1) + (sum (words l2) - c) + (if zlen l2 mod 2 =? 0 then 0 else byte l2 (zlen l2 - 1) * 2 ^ 8)).

(** Folding early does not change the sum. *)
Lemma ones_sum_mod v w : 0 <= v -> 0 <= w -> v mod 65535 = w mod 65535 -> (v = 0 <-> w = 0) -> ones_sum v = ones_sum w.
Proof.
  intros Hv Hw Hm Hz. unfold ones_sum. destruct (Z.eqb_spec v 0), (Z.eqb_spec w 0); try tauto. f_equal.
  rewrite <- (Z.add_opp_r v), <- (Z.add_opp_r w), Zplus_mod, Hm, <- Zplus_mod. done.
Qed.

Lemma fold_early v x : 0 <= v < 2 ^ 32 -> 0 <= x ->
  let v1 := if 0xFFFF <? v then u32 (Z.shiftr (Z.land v 0xFFFF0000) 16 + Z.land v 0xFFFF) else v in
  0 <= v1 <= 131070 /\ ones_sum (v1 + x) = ones_sum (v + x).
Proof.
  intros Hv Hx. cbn zeta. destruct (Z.ltb_spec 0xFFFF v) as [Hlt|Hge]; [|split; [lia|done]].
  rewrite Z.shiftr_land. change (Z.shiftr 0xFFFF0000 16) with (Z.ones 16). change 0xFFFF with (Z.ones 16).
  rewrite Z.shiftr_div_pow2, !Z.land_ones by lia. change (2 ^ 16) with 65536.
  pose proof (Z.div_mod v 65536 ltac:(lia)) as Hd. pose proof (Z.mod_pos_bound v 65536 ltac:(lia)).
  assert (0 <= v / 65536 < 65536) as Hq by (split; [apply Z.div_pos; lia|apply Z.div_lt_upper_bound; lia]).
  rewrite (Z.mod_small (v / 65536)) by lia. rewrite u32_small by (unfold is_u32; lia). split; [lia|].
  apply ones_sum_mod; [lia|lia| |lia].
  replace (v + x) with (v / 65536 + v mod 65536 + x + v / 65536 * 65535) by lia. by rewrite Z.mod_add.
Qed.

Lemma half_bounds (l : list Z) : zlen l <= 2 ^ 16 -> 0 <= zlen l / 2 <= 2 ^ 15 /\ Z.of_nat (length l / 2) = zlen l / 2.
Proof.
  intros Hl. pose proof (zlen_nonneg l). split; [split; [apply Z.div_pos; lia|apply Z.div_le_upper_bound; lia]|].
  unfold zlen. by rewrite Nat2Z.inj_div.
Qed.

Lemma wp_net_calc_checksum2 m p1 p2 l1 l2 n1 n2 c (Q : Z -> mem H -> Prop) E :
  bytes_at m p1 l1 -> bytes_at m p2 l2 -> Forall is_u8 l1 -> Forall is_u8 l2 -> n1 = zlen l1 -> n2 = zlen l2 ->
  n1 mod 2 = 0 -> n1 <= 2 ^ 16 -> n2 <= 2 ^ 15 -> 0 <= c <= sum (words l2) -> Q (inet_checksum2 l1 l2 c) m ->
  wp (net_calc_checksum2 p1 n1 p2 n2 c) Q E m.
Proof.
  intros Hb1 Hb2 Hu1 Hu2 -> -> He Hn1 Hn2 Hc HQ. unfold net_calc_checksum2. wp_cond. rewrite He. cbn [Z.eqb]. wp_steps.
  destruct (half_bounds l1 ltac:(lia)) as [B1 E1], (half_bounds l2 ltac:(lia)) as [B2 E2].
  pose proof (sum_words_bound l1 Hu1) as S1. pose proof (sum_words_bound l2 Hu2) as S2. rewrite length_words in S1, S2.
  apply (wp_sum_words m p1 l1); [done|done|done|lia|lia|]. rewrite Z.add_0_l.
  set (odd := if zlen l2 mod 2 =? 0 then 0 else byte l2 (zlen l2 - 1) * 2 ^ 8).
  assert (0 <= odd <= 65280) as Hodd.
  { unfold odd. destruct (_ =? _); [lia|]. pose proof (byte_Forall l2 (zlen l2 - 1) Hu2) as Hb. unfold is_u8 in Hb. lia. }
  destruct (fold_early (sum (words l1)) (sum (words l2) - c + odd)) as [V1 V2]; [lia|lia|].
  set (v1 := if 0xFFFF <? sum (words l1) then _ else _) in *. wp_steps.
  apply (wp_sum_words m p2 l2); [done|done|done|lia|lia|]. rewrite (u32_small (v1 + sum (words l2) - c)) by (unfold is_u32; lia).
  assert (forall v, v = v1 + (sum (words l2) - c + odd) -> 0 <= v < 2 ^ 32 /\ 65535 - ones_sum v = inet_checksum2 l1 l2 c) as Hfin.
  { intros v ->. split; [lia|]. rewrite V2. unfold inet_checksum2. fold odd. by rewrite Z.add_assoc. }
  wp_steps. unfold odd in *. destruct (Z.eqb_spec (zlen l2 mod 2) 0) as [Hz|Hz]; cbn [negb].
  - wp_steps. destruct (Hfin (v1 + sum (words l2) - c)) as [F1 F2]; [lia|]. rewrite fold16 by done. by rewrite F2.
  - pose proof (Z.div_mod (zlen l2) 2 ltac:(lia)) as Hdm. pose proof (Z.mod_pos_bound (zlen l2) 2 ltac:(lia)).
    replace (zlen l2 / 2 * 2) with (zlen l2 - 1) by lia. destruct Hb2 as (pre & post & Ho & Hoff).
    pose proof (zlen_nonneg pre). pose proof (zlen_nonneg post).
    wp_steps. apply (wp_load_at m (ptr_add p2 (zlen l2 - 1)) _ _ _ Ho); [cbn [off ptr_add]; rewrite !zlen_app; lia|]. cbn [off ptr_add].
    rewrite Hoff, byte_app_r, byte_app_l by lia. replace (zlen pre + (zlen l2 - 1) - zlen pre) with (zlen l2 - 1) by lia.
    pose proof (byte_Forall l2 (zlen l2 - 1) Hu2) as Hb. set (t := byte l2 (zlen l2 - 1)) in *. unfold is_u8 in Hb.
    assert (ntohs t = t * 2 ^ 8) as ->.
    { unfold ntohs. rewrite htons_be, (Z.mod_small t), (Z.div_small t) by (change (2 ^ 8) with 256; lia). change (0 mod 2 ^ 8) with 0. lia. }
    wp_steps. rewrite (u32_small (v1 + sum (words l2) - c + t * 2 ^ 8)) by (unfold is_u32; lia).
    destruct (Hfin (v1 + sum (words l2) - c + t * 2 ^ 8)) as [F1 F2]; [lia|].
    rewrite fold16 by done. by rewrite F2.
Qed.
End rules.

(** ** The reference: adding words with an end-around carry (RFC 1071) *)

Definition ones_add (a b : Z) : Z := let s := a + b in if 65535 <? s then s - 65535 else s.

Definition pad_even (l : list Z) : list Z := if zlen l mod 2 =? 0 then l else l ++ [0].

Definition rfc1071 (l : list Z) : Z := 65535 - foldl ones_add 0 (words (pad_even l)).

Lemma ones_sum_small v : 0 <= v <= 65535 -> ones_sum v = v.
Proof. intros Hv. unfold ones_sum. destruct (Z.eqb_spec v 0); [lia|]. rewrite Z.mod_small; lia. Qed.

Lemma ones_add_sum a b : is_u16 a -> is_u16 b -> ones_add a b = ones_sum (a + b).
Proof.
  unfold is_u16. intros Ha Hb. unfold ones_add. destruct (Z.ltb_spec 65535 (a + b)); [|by rewrite ones_sum_small by lia].
  unfold ones_sum. rewrite (proj2 (Z.eqb_neq (a + b) 0)) by lia. rewrite <- (Z.mod_unique (a + b - 1) 65535 1 (a + b - 65536)); lia.
Qed.

Lemma ones_sum_idem v w : 0 <= v -> 0 <= w -> ones_sum (ones_sum v + w) = ones_sum (v + w).
Proof.
  intros Hv Hw. pose proof (ones_sum_range v Hv). apply ones_sum_mod; [lia|lia| |].
  - unfold ones_sum. destruct (Z.eqb_spec v 0) as [->|Hn]; [done|].
    replace ((v - 1) mod 65535 + 1 + w) with ((v - 1) mod 65535 + (1 + w)) by lia. rewrite Zplus_mod_idemp_l. f_equal. lia.
  - unfold ones_sum. destruct (Z.eqb_spec v 0); [lia|]. pose proof (Z.mod_pos_bound (v - 1) 65535). lia.
Qed.

Lemma foldl_ones_add ws a : is_u16 a -> Forall is_u16 ws -> foldl ones_add a ws = ones_sum (a + sum ws).
Proof.
  intros Ha Hw. revert a Ha. induction Hw as [|w ws Hw Hws IH]; intros a Ha; cbn [foldl sum foldr].
  - rewrite Z.add_0_r, ones_sum_small; [done|]. unfold is_u16 in Ha. lia.
  - assert (0 <= sum ws) as Hs by (clear -Hws; unfold sum; induction Hws as [|y ys Hy _ IHy]; cbn; [lia|]; unfold is_u16 in Hy; lia).
    unfold is_u16 in *. rewrite ones_add_sum by done. pose proof (ones_sum_range (a + w) ltac:(lia)).
    rewrite IH by (unfold is_u16; lia). fold (sum ws). rewrite ones_sum_idem by lia. f_equal. lia.
Qed.

Lemma words_app l k : zlen l mod 2 = 0 -> words (l ++ k) = words l ++ words k.
Proof.
  enough (forall n l, (length l <= n)%nat -> zlen l mod 2 = 0 -> words (l ++ k) = words l ++ words k) as Hgen by (by apply (Hgen (length l))).
  clear l. induction n as [|n IH]; intros [|a [|b l]] Hn Hl; try done; [cbn in Hn; lia|]. cbn [app words]. rewrite IH; [done|cbn in Hn; lia|].
  rewrite !zlen_cons in Hl. replace (1 + (1 + zlen l)) with (zlen l + 1 * 2) in Hl by lia. by rewrite Z.mod_add in Hl.
Qed.

(** What [net_calc_checksum2] is the checksum of: the words of both parts, with
    the field that holds the checksum cleared and an odd end padded. *)
Definition wipe (l : list Z) (i : Z) : list Z := take (Z.to_nat i) l ++ [0; 0] ++ drop (Z.to_nat (i + 2)) l.

Lemma sum_words_wipe l i : 0 <= i -> 2 * i + 2 <= zlen l -> sum (words (wipe l (2 * i))) = sum (words l) - be16 l (2 * i).
Proof.
  intros Hi Hs. assert (zlen (take (Z.to_nat (2 * i)) l) mod 2 = 0) as He by (rewrite zlen_take by lia; rewrite Z.mul_comm; apply Z.mod_mul; lia).
  assert (l = take (Z.to_nat (2 * i)) l ++ [byte l (2 * i); byte l (2 * i + 1)] ++ drop (Z.to_nat (2 * i + 2)) l) as Hl.
  { rewrite (slice_split l (2 * i) 2) at 1 by lia. do 2 f_equal. rewrite !slice_cons by lia. by rewrite slice_nil. }
  rewrite Hl at 2. unfold wipe. rewrite !words_app, !sum_app by done. cbn [words app sum foldr]. unfold be16. lia.
Qed.

Lemma zlen_wipe l i : 0 <= i -> i + 2 <= zlen l -> zlen (wipe l i) = zlen l.
Proof.
  intros Hi Hs. unfold wipe. rewrite !zlen_app. change (zlen [0; 0]) with 2. unfold zlen in *. rewrite length_take, length_drop. lia.
Qed.

Lemma wipe_u8 l i : Forall is_u8 l -> Forall is_u8 (wipe l i).
Proof. intros Hl. unfold wipe. rewrite !Forall_app. split_and!; [by apply Forall_take|by repeat constructor|by apply Forall_drop]. Qed.

Lemma byte_wipe l i j : 0 <= i -> i + 2 <= j < zlen l -> byte (wipe l i) j = byte l j.
Proof.
  intros Hi Hj. pose proof (slice_split l i 2 Hi ltac:(lia) ltac:(lia)) as Hl. assert (zlen (slice l i 2) = 2) as H2 by (apply zlen_slice; lia).
  rewrite Hl at 2. unfold wipe. rewrite !byte_app_r by (rewrite ?zlen_take, ?H2 by lia; change (zlen [0; 0]) with 2; lia).
  by rewrite zlen_take, H2 by lia.
Qed.

Lemma pad_even_u8 l : Forall is_u8 l -> Forall is_u8 (pad_even l).
Proof. intros Hl. unfold pad_even. destruct (_ =? _); [done|]. apply Forall_app. split; [done|by repeat constructor]. Qed.

Lemma pad_even_even l : zlen (pad_even l) mod 2 = 0.
Proof.
  unfold pad_even. destruct (Z.eqb_spec (zlen l mod 2) 0) as [|Hz]; [done|]. rewrite zlen_app. change (zlen [0]) with 1.
  pose proof (Z.div_mod (zlen l) 2 ltac:(lia)). pose proof (Z.mod_pos_bound (zlen l) 2 ltac:(lia)). symmetry. apply (Z.mod_unique _ _ (zlen l / 2 + 1)); lia.
Qed.

Lemma pad_even_app l k : zlen l mod 2 = 0 -> pad_even (l ++ k) = l ++ pad_even k.
Proof.
  intros He. unfold pad_even. rewrite zlen_app, Zplus_mod, He, Z.add_0_l, Z.mod_mod by done. destruct (_ =? _); [done|]. by rewrite app_assoc.
Qed.

(** An odd byte at the end is left out. *)
Definition even_part (l : list Z) : list Z := if zlen l mod 2 =? 0 then l else removelast l.

Lemma odd_split (l : list Z) : zlen l mod 2 <> 0 -> exists k b, l = k ++ [b] /\ zlen k mod 2 = 0.
Proof.
  intros Hz. destruct l as [|b k _] using rev_ind; [done|]. exists k, b. split; [done|]. rewrite zlen_app in Hz. change (zlen [b]) with 1 in Hz.
  pose proof (Z.div_mod (zlen k + 1) 2 ltac:(lia)). pose proof (Z.mod_pos_bound (zlen k + 1) 2 ltac:(lia)).
  symmetry. apply (Z.mod_unique _ _ ((zlen k + 1) / 2)); lia.
Qed.

Lemma sum_words_pad l : sum (words (pad_even l)) = sum (words l) + (if zlen l mod 2 =? 0 then 0 else byte l (zlen l - 1) * 2 ^ 8).
Proof.
  unfold pad_even. destruct (Z.eqb_spec (zlen l mod 2) 0) as [Hz|Hz]; [lia|]. destruct (odd_split l Hz) as (k & b & -> & Hk).
  rewrite <- app_assoc, (words_app k ([b] ++ [0])), (words_app k [b]), !sum_app, zlen_app by done. change (zlen [b]) with 1.
  replace (zlen k + 1 - 1) with (zlen k) by lia. rewrite byte_app_r, Z.sub_diag by lia. change (byte [b] 0) with b.
  change (sum (words ([b] ++ [0]))) with (b * 2 ^ 8 + 0 + 0). change (sum (words [b])) with 0. lia.
Qed.

Lemma words_even_part l : words (pad_even (even_part l)) = words l.
Proof.
  unfold even_part. destruct (Z.eqb_spec (zlen l mod 2) 0) as [Hz|Hz]; [unfold pad_even; by rewrite Hz|].
  destruct (odd_split l Hz) as (k & b & -> & Hk). rewrite removelast_last. unfold pad_even. rewrite Hk. cbn [Z.eqb].
  rewrite words_app by done. cbn. by rewrite app_nil_r.
Qed.

Lemma inet_checksum_rfc1071 l : Forall is_u8 l -> inet_checksum l = rfc1071 (even_part l).
Proof. intros Hl. unfold inet_checksum, rfc1071. rewrite words_even_part, foldl_ones_add; [done|done|by apply words_u16]. Qed.

Lemma inet_checksum2_rfc1071 l1 l2 i :
  Forall is_u8 l1 -> Forall is_u8 l2 -> zlen l1 mod 2 = 0 -> 0 <= i -> 2 * i + 2 <= zlen l2 ->
  inet_checksum2 l1 l2 (be16 l2 (2 * i)) = rfc1071 (l1 ++ wipe l2 (2 * i)).
Proof.
  intros H1 H2 He Hi Hs. unfold rfc1071. rewrite foldl_ones_add; [|done|by apply words_u16, pad_even_u8, Forall_app; split; [|apply wipe_u8]].
  unfold inet_checksum2. rewrite pad_even_app, words_app, sum_app, Z.add_0_l, sum_words_pad, sum_words_wipe, zlen_wipe by (done || lia).
  do 2 f_equal. destruct (Z.eqb_spec (zlen l2 mod 2) 0) as [|Hz]; [lia|]. rewrite byte_wipe; [lia|lia|].
  pose proof (Z.div_mod (zlen l2) 2 ltac:(lia)). pose proof (Z.mod_pos_bound (zlen l2) 2 ltac:(lia)). lia.
Qed.
