(* ===== verification/NetSend.v ===== *)
(** * What the network stack sends

    The frames as byte lists, and the sending functions: each hands exactly
    its frame to the card and leaves the memory as it was. *)
From S2P Require Import Prelude Interfaces Strings Net NetMem NetSum.

(** ** Frames *)

Definition pad (n : Z) (l : list Z) : list Z := l ++ replicate (Z.to_nat (n - zlen l)) 0.

Definition ethernet (dst src : list Z) (type : Z) (data : list Z) : list Z := pad 60 (dst ++ src ++ be type ++ data).

Definition arp (opcode : Z) (srchw srcpr dsthw dstpr : list Z) : list Z :=
  be 1 ++ be 0x800 ++ [6; 4] ++ be opcode ++ srchw ++ srcpr ++ dsthw ++ dstpr.

Definition ipv4_header (size ident proto : Z) (src dst : list Z) (checksum : Z) : list Z :=
  [0x45; 0] ++ be size ++ be ident ++ [0; 0; 64; proto] ++ be checksum ++ src ++ dst.

Definition ipv4 (ident proto : Z) (src dst data : list Z) : list Z :=
  let header := ipv4_header (20 + zlen data) ident proto src dst in
  header (inet_checksum (header 0)) ++ data.

(** The checksum is not used. *)
Definition udp (srcport dstport : Z) (data : list Z) : list Z :=
  be srcport ++ be dstport ++ be (8 + zlen data) ++ [0; 0] ++ data.

(** ** Interfaces *)

Record iface : Type := Iface {
  i_calls : list Z;
  i_extra : Z;
  i_ip : list Z;
  i_mac : list Z;
  i_gateway : list Z;
  i_gateway_mac : list Z;
  i_configured : bool;
  i_rest : list Z;
}.

Definition iface_ok (me : iface) : Prop :=
  zlen (i_calls me) = 8 /\ 0 < i_extra me < 2 ^ 32 /\ zlen (i_ip me) = 4 /\ zlen (i_mac me) = 6 /\
  zlen (i_gateway me) = 4 /\ zlen (i_gateway_mac me) = 6 /\ zlen (i_rest me) = 7.

(** A 32-bit number in memory. *)
Definition le32 (v : Z) : list Z := [v mod 2 ^ 8; v / 2 ^ 8 mod 2 ^ 8; v / 2 ^ 16 mod 2 ^ 8; v / 2 ^ 24 mod 2 ^ 8].

Definition iface_bytes (me : iface) : list Z :=
  i_calls me ++ le32 (i_extra me) ++ i_ip me ++ i_mac me ++ i_gateway me ++ i_gateway_mac me ++ [Z.b2z (i_configured me)] ++ i_rest me.

(** Offsets are lengths. *)
Ltac zl := cbn [off ptr_add]; rewrite ?zlen_app, ?zlen_cons; change (zlen (@nil Z)) with 0; lia.

(** The tests of an address that was handed out. *)
Ltac not_null := cbv beta;
  match goal with |- context [is_null (Ptr ?b ?o)] =>
    replace (is_null (Ptr b o)) with false by (symmetry; apply Z.eqb_neq; cbn; lia) end; cbv iota.

Section send.
Context {H : Type} `{KHeapLaws H}.
Implicit Types (s : nstate H).

Definition iface_at s (netif : Z) (me : iface) : Prop :=
  m_objs (n_mem s) !! netif = Some (iface_bytes me) /\ iface_ok me.

(** The interface is found in any memory with its object. *)
Lemma iface_mem s s' netif me : m_objs (n_mem s') !! netif = m_objs (n_mem s) !! netif -> iface_at s netif me -> iface_at s' netif me.
Proof. intros He [A B]. split; [by rewrite He|done]. Qed.

Lemma iface_fields s netif me : iface_at s netif me ->
  bytes_at (n_mem s) (netif_ip netif) (i_ip me) /\ bytes_at (n_mem s) (netif_mac netif) (i_mac me) /\
  bytes_at (n_mem s) (netif_gateway netif) (i_gateway me) /\ bytes_at (n_mem s) (netif_gateway_mac netif) (i_gateway_mac me).
Proof.
  intros [A (B1 & B2 & B3 & B4 & B5 & B6 & B7)]. unfold iface_bytes in A. split_and!.
  - exists (i_calls me ++ le32 (i_extra me)). eexists. rewrite <- !app_assoc. split; [exact A|]. rewrite zlen_app, B1. done.
  - exists (i_calls me ++ le32 (i_extra me) ++ i_ip me). eexists. rewrite <- !app_assoc. split; [exact A|]. rewrite !zlen_app, B1, B3. done.
  - exists (i_calls me ++ le32 (i_extra me) ++ i_ip me ++ i_mac me). eexists. rewrite <- !app_assoc. split; [exact A|]. rewrite !zlen_app, B1, B3, B4. done.
  - exists (i_calls me ++ le32 (i_extra me) ++ i_ip me ++ i_mac me ++ i_gateway me). eexists. rewrite <- !app_assoc. split; [exact A|].
    rewrite !zlen_app, B1, B3, B4, B5. done.
Qed.

Lemma wp_load32_le m p pre v post (Q : Z -> mem H -> Prop) E :
  m_objs m !! base p = Some (pre ++ le32 v ++ post) -> off p = zlen pre -> is_u32 v -> Q v m -> wp (load32 p) Q E m.
Proof.
  intros Ho Hp Hv HQ. pose proof (zlen_nonneg pre). pose proof (zlen_nonneg post).
  apply (wp_load32_at m p (pre ++ le32 v ++ post)); [done|lia|rewrite !zlen_app; change (zlen (le32 v)) with 4; lia|].
  assert (forall k, 0 <= k < 4 -> byte (pre ++ le32 v ++ post) (off p + k) = byte (le32 v) k) as Hb.
  { intros k Hk. rewrite byte_app_r by lia. rewrite byte_app_l by (change (zlen (le32 v)) with 4; lia). f_equal. lia. }
  pose proof (Hb 0 ltac:(lia)) as Hb0. rewrite Z.add_0_r in Hb0. rewrite Hb0, !Hb by lia.
  change (byte (le32 v) 0) with (v mod 2 ^ 8). change (byte (le32 v) 1) with (v / 2 ^ 8 mod 2 ^ 8).
  change (byte (le32 v) 2) with (v / 2 ^ 16 mod 2 ^ 8). change (byte (le32 v) 3) with (v / 2 ^ 24 mod 2 ^ 8).
  replace (_ + _) with v; [done|]. unfold is_u32 in Hv.
  assert (v / 2 ^ 16 = v / 2 ^ 8 / 2 ^ 8) as -> by (rewrite Z.div_div by lia; done).
  assert (v / 2 ^ 24 = v / 2 ^ 8 / 2 ^ 8 / 2 ^ 8) as -> by (rewrite !Z.div_div by lia; done).
  pose proof (Z.div_mod v (2 ^ 8) ltac:(lia)). pose proof (Z.div_mod (v / 2 ^ 8) (2 ^ 8) ltac:(lia)).
  pose proof (Z.div_mod (v / 2 ^ 8 / 2 ^ 8) (2 ^ 8) ltac:(lia)).
  rewrite (Z.mod_small (v / 2 ^ 8 / 2 ^ 8 / 2 ^ 8)); [lia|]. rewrite !Z.div_div by lia.
  split; [apply Z.div_pos; lia|apply Z.div_lt_upper_bound; lia].
Qed.

Lemma wp_load_configured s netif me (Q : Z -> mem H -> Prop) E :
  iface_at s netif me -> Q (Z.b2z (i_configured me)) (n_mem s) -> wp (load (netif_gateway_mac_configured netif)) Q E (n_mem s).
Proof.
  intros [I1 (B1 & B2 & B3 & B4 & B5 & B6 & B7)] HQ. unfold iface_bytes in I1.
  apply (wp_load_at _ (netif_gateway_mac_configured netif) _ _ _ I1).
  - rewrite !zlen_app, B1, B3, B4, B5, B6, B7. change (zlen (le32 (i_extra me))) with 4. change (zlen [Z.b2z (i_configured me)]) with 1. cbn [off netif_gateway_mac_configured]. lia.
  - cbn [off netif_gateway_mac_configured]. rewrite (byte_app_r (i_calls me)) by lia. rewrite (byte_app_r (le32 _)) by (change (zlen (le32 (i_extra me))) with 4; lia).
    change (zlen (le32 (i_extra me))) with 4. rewrite (byte_app_r (i_ip me)) by lia. rewrite (byte_app_r (i_mac me)) by lia.
    rewrite (byte_app_r (i_gateway me)) by lia. rewrite (byte_app_r (i_gateway_mac me)) by lia. rewrite B1, B3, B4, B5, B6. exact HQ.
Qed.

(** [s'] is [s] after the frames [fs] went to the card. *)
Definition sends s (fs : list (Z * list Z)) s' : Prop :=
  same_mem (n_mem s) (n_mem s') /\ n_netifs s' = n_netifs s /\ n_tasks s' = n_tasks s /\ n_sent s' = n_sent s ++ fs.

Lemma wp_send_packet s extra p bs (Q : unit -> nstate H -> Prop) E :
  0 < extra -> base p <> 0 -> bytes_at (n_mem s) p bs -> 1 <= zlen bs <= 4096 ->
  Q tt (NState (n_mem s) (n_netifs s) (n_sent s ++ [(extra, bs)]) (n_tasks s)) ->
  wp (send_packet extra p (zlen bs)) Q E s.
Proof.
  intros He Hp (pre & post & Ho & Hoff) Hn HQ. unfold send_packet, is_null. wp_cond.
  rewrite (proj2 (Z.eqb_neq extra 0)) by lia. cbn [negb]. wp_cond. rewrite (proj2 (Z.eqb_neq (base p) 0)) by done. cbn [negb]. wp_cond.
  rewrite (proj2 (Z.eqb_neq (zlen bs) 0)) by lia. cbn [negb]. wp_cond. rewrite (proj2 (Z.leb_le (zlen bs) 4096)) by lia. wp_steps.
  apply wp_zmem. unfold zlen. rewrite Nat2Z.id. eapply wp_mono.
  - apply (wp_for_fold (fun i l m => m = n_mem s /\ l = take (Z.to_nat i) bs)); [done|].
    intros j l m Hj (-> & ->). wp_steps. destruct (proj2 (lookup_lt_is_Some bs (Z.to_nat j)) ltac:(lia)) as [c Hc].
    pose proof (zlen_nonneg pre). pose proof (zlen_nonneg post).
    apply (wp_load_at _ _ (pre ++ bs ++ post)); [done|cbn; rewrite !zlen_app; unfold zlen in *; lia|]. wp_steps. split; [done|].
    replace (Z.to_nat (j + 1)) with (S (Z.to_nat j)) by lia. rewrite (take_S_r _ _ _ Hc). do 2 f_equal. cbn [off ptr_add].
    rewrite Hoff, byte_app_r by lia. rewrite byte_app_l by (unfold zlen; lia). unfold byte, zlookup.
    replace (zlen pre + j - zlen pre) with j by lia. rewrite (proj2 (Z.ltb_ge j 0)) by lia. by rewrite Hc.
  - intros l m (-> & ->). wp_steps. rewrite Z.add_0_l, Nat2Z.id, firstn_all. by destruct s.
  - done.
Qed.

(** A finished packet. *)
Lemma building_bytes s b o s1 : building s b o s1 -> bytes_at (n_mem s1) (Ptr b 0) o.
Proof. intros ((A & _) & _). exists [], []. rewrite app_nil_r. split; [rewrite A; by rewrite lookup_insert_eq|done]. Qed.

Lemma building_mem s b o s1 : mem_ok (n_mem s) -> Forall is_u8 o -> building s b o s1 -> mem_ok (n_mem s1).
Proof. intros Hok Ho (A & _). by eapply mem_ok_holding. Qed.

Lemma bytes_at_building s b o s1 p bs : building s b o s1 -> bytes_at (n_mem s) p bs -> base p <> b /\ bytes_at (n_mem s1) p bs.
Proof. intros (A & _). by eapply bytes_at_holding. Qed.

Lemma iface_building s b o s1 netif me : building s b o s1 -> iface_at s netif me -> iface_at s1 netif me.
Proof.
  intros ((A & _ & _ & D & _) & _) [I1 I2]. apply (iface_mem s); [|done]. rewrite A, lookup_insert_ne; [done|]. intros ->. congruence.
Qed.

Lemma wp_alloc_packet s n (Q : ptr -> nstate H -> Prop) :
  mem_ok (n_mem s) -> 0 < n ->
  (forall b s1, 0 < b -> building s b ([] ++ replicate (Z.to_nat n) 0) s1 -> Q (Ptr b 0) s1) ->
  wp (zoom mem_lens (calloc_bytes n)) Q only_nomem s.
Proof.
  intros Hok Hn HQ. apply wp_zmem. eapply wp_mono; [by apply wp_calloc| |done].
  intros p m (b & -> & Hh). pose proof Hh as (_ & _ & _ & _ & _ & G). apply HQ; [lia|]. done.
Qed.

(** The packet is given back after its frames were sent. *)
Lemma wp_free_packet s b o s1 fs s2 (Q : unit -> nstate H -> Prop) E :
  building s b o s1 -> sends s1 fs s2 -> (forall s3, sends s fs s3 -> Q tt s3) -> wp (zoom mem_lens (free_bytes (Ptr b 0))) Q E s2.
Proof.
  intros (A & B & C & D) (S1 & S2 & S3 & S4) HQ. apply wp_zmem.
  eapply wp_mono; [apply (wp_free (n_mem s) b o); by eapply holding_same| |by intros e []].
  intros [] m Hm. apply HQ. split; [done|]. cbn. split; [congruence|]. split; [congruence|congruence].
Qed.

Lemma sends_refl s : mem_ok (n_mem s) -> sends s [] s.
Proof. intros Hok. split; [by apply same_mem_refl|]. by rewrite app_nil_r. Qed.

Lemma wp_net_send_ethernet s netif me srcmac dstmac type data (src dst bs : list Z) n :
  mem_ok (n_mem s) -> iface_at s netif me -> bytes_at (n_mem s) srcmac src -> bytes_at (n_mem s) dstmac dst -> bytes_at (n_mem s) data bs ->
  zlen src = 6 -> zlen dst = 6 -> n = zlen bs -> 1 <= zlen bs <= 4096 - 14 ->
  wp (net_send_ethernet netif srcmac dstmac type data n) (fun (r : bool) s' => r = true /\ sends s [(i_extra me, ethernet dst src type bs)] s') only_nomem s.
Proof.
  intros Hok Hme Hsrc Hdst Hdata Ls Ld -> Hn. unfold net_send_ethernet, ETHERNET_SIZE. rewrite (u32_small (14 + zlen bs)) by (unfold is_u32; lia).
  set (size := if 14 + zlen bs <? 60 then 60 else 14 + zlen bs). assert (size = Z.max 60 (14 + zlen bs)) as Hsz by (unfold size; destruct (Z.ltb_spec (14 + zlen bs) 60); lia).
  clearbody size. wp_steps. apply wp_alloc_packet; [done|lia|]. intros b s0 Hb0 Hb. not_null.
  replace (Z.to_nat size) with (length dst + (length src + (2 + (length bs + Z.to_nat (size - (14 + zlen bs))))))%nat in Hb by (unfold zlen in *; lia).
  wp_steps. eapply (emit_memcpy s s0 b []); [exact Hb|done|done|done|exact Hdst|done|by destruct dst|]. clear Hb. intros s1 Hb.
  wp_steps. eapply emit_memcpy; [exact Hb|done|done|cbn; lia|exact Hsrc|done|by destruct src|]. clear Hb. intros s2 Hb.
  wp_steps. eapply emit_store16; [exact Hb|done|cbn; rewrite zlen_app; lia|]. clear Hb. intros s3 Hb.
  wp_steps. eapply emit_memcpy; [exact Hb|done|done|zl|exact Hdata|done|intros ->; change (zlen (@nil Z)) with 0 in Hn; lia|].
  clear Hb. intros s4 Hb. rewrite be_htons in Hb. set (frame := ethernet dst src type bs).
  assert (((([] ++ dst) ++ src) ++ be type) ++ bs = dst ++ src ++ be type ++ bs) as Hfl by (by rewrite <- !app_assoc).
  rewrite Hfl in Hb. replace (Z.to_nat (size - (14 + zlen bs))) with (Z.to_nat (60 - zlen (dst ++ src ++ be type ++ bs))) in Hb
    by (rewrite !zlen_app; change (zlen (be type)) with 2; lia).
  change (building s b frame s4) in Hb. assert (zlen frame = size) as Hfsz.
  { unfold frame, ethernet, pad. rewrite zlen_app, zlen_replicate, !zlen_app. change (zlen (be type)) with 2. lia. }
  pose proof (iface_building _ _ _ _ _ _ Hb Hme) as [I1 I2]. wp_steps. apply wp_zmem.
  pose proof I2 as (B1 & B2 & _). apply (wp_load32_le _ _ (i_calls me) (i_extra me) (i_ip me ++ i_mac me ++ i_gateway me ++ i_gateway_mac me ++ [Z.b2z (i_configured me)] ++ i_rest me));
    [exact I1|done|unfold is_u32; lia|]. wp_steps. rewrite <- Hfsz.
  apply wp_send_packet; [lia|cbn; lia|by eapply building_bytes|lia|]. wp_steps.
  eapply (wp_free_packet s b frame s4 [(i_extra me, frame)]); [exact Hb| |].
  - destruct Hb as (Hh & R1 & R2 & R3). split; [|done]. destruct Hh as (_ & _ & Hk & _). done.
  - intros s5 Hs5. by wp_steps.
Qed.

Lemma wp_net_send_arp s netif me srcmac dstmac opcode srchw srcpr dsthw dstpr src dst shw spr dhw dpr :
  mem_ok (n_mem s) -> iface_at s netif me -> bytes_at (n_mem s) srcmac src -> bytes_at (n_mem s) dstmac dst ->
  bytes_at (n_mem s) srchw shw -> bytes_at (n_mem s) srcpr spr -> bytes_at (n_mem s) dsthw dhw -> bytes_at (n_mem s) dstpr dpr ->
  zlen src = 6 -> zlen dst = 6 -> zlen shw = 6 -> zlen spr = 4 -> zlen dhw = 6 -> zlen dpr = 4 ->
  wp (net_send_arp netif srcmac dstmac opcode srchw srcpr dsthw dstpr)
    (fun r s' => r = true /\ sends s [(i_extra me, ethernet dst src 0x806 (arp opcode shw spr dhw dpr))] s') only_nomem s.
Proof.
  intros Hok Hme Hsrc Hdst Hshw Hspr Hdhw Hdpr Ls Ld L1 L2 L3 L4. unfold net_send_arp, ARP_SIZE. wp_steps.
  apply wp_alloc_packet; [done|lia|]. intros b s0 Hb0 Hb. not_null. change (Z.to_nat 28) with (2 + (2 + (1 + (1 + (2 + 20)))))%nat in Hb.
  replace 20%nat with (length shw + (length spr + (length dhw + (length dpr + 0))))%nat in Hb by (unfold zlen in *; lia).
  wp_steps. eapply (emit_store16 s s0 b []); [exact Hb|done|done|]. clear Hb. intros s1 Hb. rewrite be_htons in Hb.
  wp_steps. eapply emit_store16; [exact Hb|done|done|]. clear Hb. intros s2 Hb. rewrite be_htons in Hb.
  wp_steps. eapply emit_store; [exact Hb|done|done|]. clear Hb. intros s3 Hb.
  wp_steps. eapply emit_store; [exact Hb|done|done|]. clear Hb. intros s4 Hb.
  wp_steps. eapply emit_store16; [exact Hb|done|done|]. clear Hb. intros s5 Hb. rewrite be_htons in Hb.
  wp_steps. eapply emit_memcpy; [exact Hb|done|done|done|exact Hshw|lia|by destruct shw|]. clear Hb. intros s6 Hb.
  wp_steps. eapply emit_memcpy; [exact Hb|done|done|cbn [off ptr_add]; rewrite zlen_app, L1; done|exact Hspr|lia|by destruct spr|]. clear Hb. intros s7 Hb.
  wp_steps. eapply emit_memcpy; [exact Hb|done|done|cbn [off ptr_add]; rewrite !zlen_app, L1, L2; done|exact Hdhw|lia|by destruct dhw|]. clear Hb. intros s8 Hb.
  wp_steps. eapply emit_memcpy; [exact Hb|done|done|cbn [off ptr_add]; rewrite !zlen_app, L1, L2, L3; done|exact Hdpr|lia|by destruct dpr|]. clear Hb. intros s9 Hb.
  rewrite app_nil_r in Hb. rewrite <- !app_assoc in Hb. change (building s b (arp opcode shw spr dhw dpr) s9) in Hb.
  assert (zlen (arp opcode shw spr dhw dpr) = 28) as Hl by (unfold arp; rewrite !zlen_app, L1, L2, L3, L4; done).
  assert (Forall is_u8 (arp opcode shw spr dhw dpr)) as Hu.
  { assert (forall p l, bytes_at (n_mem s) p l -> Forall is_u8 l) as Hf.
    { intros p l (pre & post & Hp & _). apply (mo_u8 _ Hok) in Hp. by apply Forall_app in Hp as [_ [Hp _]%Forall_app]. }
    unfold arp. rewrite !Forall_app. split_and!; try apply be_u8; try by eapply Hf. by repeat constructor. }
  wp_apply wp_net_send_ethernet; [by eapply building_mem|by eapply iface_building|by eapply bytes_at_building|by eapply bytes_at_building|by eapply building_bytes|done|done|done|lia| |done].
  intros r s10 [-> Hs]. wp_steps. eapply wp_free_packet; [exact Hb|exact Hs|]. intros s11 Hs11. by wp_steps.
Qed.

(** A 16-bit field read and written back as it is. *)
Lemma word_back lo hi : is_u8 lo -> is_u8 hi -> [u8 (lo + hi * 2 ^ 8); u8 ((lo + hi * 2 ^ 8) / 2 ^ 8)] = [lo; hi].
Proof.
  unfold is_u8, u8. intros Hl Hh. rewrite Z.mod_add, Z.div_add, (Z.div_small lo), Z.add_0_l by lia. by rewrite !Z.mod_small by lia.
Qed.

Lemma wp_ipv4_calculate_checksum m p pre hd c0 c1 tl post (Q : Z -> mem H -> Prop) E :
  mem_ok m -> m_objs m !! base p = Some (pre ++ hd ++ [c0; c1] ++ tl ++ post) -> off p = zlen pre -> zlen hd = 10 -> zlen tl = 8 ->
  Q (inet_checksum (hd ++ [0; 0] ++ tl)) m -> wp (ipv4_calculate_checksum p) Q E m.
Proof.
  intros Hok Ho Hp Lh Lt HQ. pose proof (mo_u8 _ Hok _ _ Ho) as Hu. rewrite !Forall_app in Hu. destruct Hu as (_ & U1 & [U2 [U3 _]%Forall_cons]%Forall_cons & U4 & _).
  assert (pre ++ hd ++ [c0; c1] ++ tl ++ post = (pre ++ hd) ++ c0 :: c1 :: tl ++ post) as Hre by (by rewrite <- app_assoc).
  pose proof (zlen_nonneg pre). pose proof (zlen_nonneg post).
  unfold ipv4_calculate_checksum. wp_steps. apply (wp_load16_at m (ptr_add p 10) _ _ _ Ho); [zl|zl|].
  cbn [off ptr_add]. assert (forall k, 0 <= k < 2 -> byte (pre ++ hd ++ [c0; c1] ++ tl ++ post) (off p + 10 + k) = byte [c0; c1] k) as Hb.
  { intros k Hk. rewrite !byte_app_r by lia. rewrite byte_app_l by (change (zlen [c0; c1]) with 2; lia). f_equal. lia. }
  pose proof (Hb 0 ltac:(lia)) as Hb0. rewrite Z.add_0_r in Hb0. rewrite Hb0, Hb by lia. change (byte [c0; c1] 0) with c0. change (byte [c0; c1] 1) with c1.
  wp_steps. apply (wp_store16_in m _ (pre ++ hd) c0 c1 (tl ++ post)); [rewrite <- Hre; exact Ho|zl|].
  change (u8 0) with 0. change (u8 (0 / 2 ^ 8)) with 0. wp_steps.
  apply (wp_net_calc_checksum _ _ (hd ++ [0; 0] ++ tl)).
  { exists pre, post. cbn [m_objs put_obj base ptr_add]. rewrite lookup_insert_eq. rewrite <- !app_assoc. done. }
  { rewrite !Forall_app. split_and!; [done|by repeat constructor|done]. }
  { rewrite !zlen_app, Lh, Lt. done. }
  { done. }
  wp_steps. cbn [base ptr_add].
  apply (wp_store16_at m (ptr_add p 10) (pre ++ hd) 0 0 (tl ++ post)); [cbn; rewrite zlen_app; lia|]. wp_steps.
  rewrite word_back, <- app_assoc by done. by rewrite put_obj_same.
Qed.

Lemma bytes_u8 s p l : mem_ok (n_mem s) -> bytes_at (n_mem s) p l -> Forall is_u8 l.
Proof. intros Hok (pre & post & Hp & _). apply (mo_u8 _ Hok) in Hp. by apply Forall_app in Hp as [_ [Hp _]%Forall_app]. Qed.

(** What the frame is sent to: the gateway's address when there is none. *)
Definition next_hop (me : iface) (dstmac : ptr) (dst : list Z) : option (list Z) :=
  if is_null dstmac then if i_configured me then Some (i_gateway_mac me) else None else Some dst.

Definition ipv4_frames (me : iface) (hop : option (list Z)) (packet : list Z) : list (Z * list Z) :=
  match hop with Some dst => [(i_extra me, ethernet dst (i_mac me) 0x800 packet)] | None => [] end.

Lemma wp_net_send_ipv4 s netif me dstmac ident proto srcip dstip data dmac (src dst bs : list Z) n :
  mem_ok (n_mem s) -> iface_at s netif me -> (base dstmac = 0 \/ bytes_at (n_mem s) dstmac dmac /\ zlen dmac = 6) ->
  bytes_at (n_mem s) srcip src -> bytes_at (n_mem s) dstip dst -> bytes_at (n_mem s) data bs -> zlen src = 4 -> zlen dst = 4 -> is_u8 proto ->
  n = zlen bs -> 1 <= zlen bs <= 4096 - 34 ->
  wp (net_send_ipv4 netif dstmac ident proto srcip dstip data n)
    (fun _ s' => sends s (ipv4_frames me (next_hop me dstmac dmac) (ipv4 ident proto src dst bs)) s') only_nomem s.
Proof.
  intros Hok Hme Hmac Hsrc Hdst Hdata Ls Ld Hpr -> Hn. unfold net_send_ipv4, IPV4_SIZE. rewrite (u32_small (20 + zlen bs)) by (unfold is_u32; lia).
  wp_steps. apply wp_alloc_packet; [done|lia|]. intros b s0 Hb0 Hb. not_null.
  replace (Z.to_nat (20 + zlen bs)) with (1 + (1 + (2 + (2 + (2 + (1 + (1 + (2 + (length src + (length dst + (length bs + 0)))))))))))%nat in Hb by (unfold zlen in *; lia).
  wp_steps. eapply (emit_store s s0 b []); [exact Hb|done|done|]. clear Hb. intros s1 Hb.
  wp_steps. eapply emit_store; [exact Hb|done|done|]. clear Hb. intros s2 Hb.
  wp_steps. eapply emit_store16; [exact Hb|done|done|]. clear Hb. intros s3 Hb. rewrite be_htons in Hb.
  wp_steps. eapply emit_store16; [exact Hb|done|done|]. clear Hb. intros s4 Hb. rewrite be_htons in Hb.
  wp_steps. eapply emit_store16; [exact Hb|done|done|]. clear Hb. intros s5 Hb. change [u8 0; u8 (0 / 2 ^ 8)] with [0; 0] in Hb.
  wp_steps. eapply emit_store; [exact Hb|done|done|]. clear Hb. intros s6 Hb.
  wp_steps. eapply emit_store; [exact Hb|done|done|]. clear Hb. intros s7 Hb.
  assert (u8 proto = proto) as Hu8 by (by apply Z.mod_small). rewrite Hu8 in Hb.
  change (replicate (2 + (length src + (length dst + (length bs + 0)))) 0) with ([0; 0] ++ replicate (length src + (length dst + (length bs + 0))) 0) in Hb.
  rewrite (app_assoc _ [0; 0]) in Hb.
  wp_steps. eapply emit_memcpy; [exact Hb|done|done|done|exact Hsrc|lia|by destruct src|]. clear Hb. intros s8 Hb.
  wp_steps. eapply emit_memcpy; [exact Hb|done|done|cbn [off ptr_add]; rewrite zlen_app, Ls; done|exact Hdst|lia|by destruct dst|]. clear Hb. intros s9 Hb.
  wp_steps. eapply emit_memcpy; [exact Hb|done|done|cbn [off ptr_add]; rewrite !zlen_app, Ls, Ld; done|exact Hdata|lia|intros ->; change (zlen (@nil Z)) with 0 in Hn; lia|].
  clear Hb. intros s10 Hb. rewrite app_nil_r in Hb.
  pose proof (bytes_u8 _ _ _ Hok Hsrc) as Usrc. pose proof (bytes_u8 _ _ _ Hok Hdst) as Udst. pose proof (bytes_u8 _ _ _ Hok Hdata) as Ubs.
  set (hd := [0x45; 0] ++ be (20 + zlen bs) ++ be ident ++ [0; 0; 64; proto]).
  rewrite <- !app_assoc in Hb. change (building s b (hd ++ [0; 0] ++ src ++ dst ++ bs) s10) in Hb.
  assert (zlen hd = 10) as Lhd by done. assert (zlen (src ++ dst) = 8) as Ltl by (rewrite zlen_app; lia).
  assert (Forall is_u8 hd) as Uhd.
  { unfold hd. rewrite !Forall_app. split_and!; [by repeat constructor|apply be_u8|apply be_u8|]. by repeat (apply Forall_cons; split; [done|]). }
  assert (mem_ok (n_mem s10)) as Hok10.
  { eapply building_mem; [exact Hok| |exact Hb]. rewrite !Forall_app. split_and!; try done. by repeat constructor. }
  assert (m_objs (n_mem s10) !! b = Some ([] ++ hd ++ [0; 0] ++ (src ++ dst) ++ bs)) as Hobj.
  { destruct Hb as ((A & _) & _). rewrite A, lookup_insert_eq, <- app_assoc. done. }
  wp_steps. apply wp_zmem. apply (wp_ipv4_calculate_checksum _ (Ptr b 0) [] hd 0 0 (src ++ dst) bs); [done|exact Hobj|done|done|done|].
  set (sum := inet_checksum _). wp_steps. apply wp_zmem.
  apply (wp_store16_in _ _ hd 0 0 ((src ++ dst) ++ bs)); [exact Hobj|by rewrite Lhd|]. rewrite be_htons.
  change (put_obj _ _ (n_mem (with_mem (n_mem s10) s10))) with (put_obj b (hd ++ be sum ++ (src ++ dst) ++ bs) (n_mem s10)).
  rewrite <- (app_assoc src). set (packet := hd ++ be sum ++ src ++ dst ++ bs).
  assert (packet = ipv4 ident proto src dst bs) as Hpk.
  { unfold packet, ipv4, ipv4_header, sum, hd. rewrite <- !app_assoc. done. }
  set (s11 := with_mem (put_obj b packet (n_mem s10)) _).
  assert (building s b packet s11) as Hb11.
  { destruct Hb as (A & R). split; [by eapply holding_put|done]. }
  assert (Forall is_u8 packet) as Up by (unfold packet; rewrite !Forall_app; split_and!; try done; apply be_u8).
  assert (zlen packet = 20 + zlen bs) as Lp by (unfold packet; rewrite !zlen_app, Lhd, Ls, Ld; change (zlen (be sum)) with 2; lia).
  assert (forall q dmac', bytes_at (n_mem s) q dmac' -> zlen dmac' = 6 ->
    wp (net_send_ethernet netif (netif_mac netif) q ETHERNET_TYPE_IPV4 (Ptr b 0) (20 + zlen bs))
      (fun r s' => sends s11 [(i_extra me, ethernet dmac' (i_mac me) 0x800 packet)] s') only_nomem s11) as Hgo.
  { intros q dmac' Hq Lq. destruct (iface_fields _ _ _ Hme) as (_ & F2 & _). pose proof Hme as [_ (_ & _ & _ & L2 & _)].
    eapply wp_mono; [eapply (wp_net_send_ethernet s11 netif me); [exact (building_mem s b packet s11 Hok Up Hb11)|exact (iface_building _ _ _ _ _ _ Hb11 Hme)|exact (proj2 (bytes_at_building _ _ _ _ _ _ Hb11 F2))|exact (proj2 (bytes_at_building _ _ _ _ _ _ Hb11 Hq))|exact (building_bytes _ _ _ _ Hb11)|done|done|by rewrite Lp|lia]| |done].
    intros r s' [_ Hs]. done. }
  wp_steps. apply (wp_mono _ (fun _ s' => sends s11 (ipv4_frames me (next_hop me dstmac dmac) packet) s') _ only_nomem); [| |done].
  - unfold next_hop. destruct (is_null dstmac) eqn:Hnull; cbn [negb].
    + destruct (iface_fields _ _ _ Hme) as (_ & _ & _ & F4). pose proof Hme as [_ (_ & _ & _ & _ & _ & B6 & _)].
      wp_steps. apply wp_zmem. apply (wp_load_configured s11 netif me); [exact (iface_building _ _ _ _ _ _ Hb11 Hme)|].
      destruct (i_configured me); cbn [Z.b2z Z.eqb].
      * apply Hgo; [exact F4|exact B6].
      * wp_steps. apply sends_refl. exact (building_mem s b packet s11 Hok Up Hb11).
    + destruct Hmac as [Hz|[Hq Lq]]; [unfold is_null in Hnull; by rewrite Hz in Hnull|]. by apply Hgo.
  - intros r s12 Hs. wp_steps. eapply wp_free_packet; [exact Hb11|exact Hs|]. intros s13 Hs13. wp_steps. by rewrite <- Hpk.
Qed.

Lemma wp_net_send_udp s netif me dstip srcport dstport data (dst bs : list Z) n :
  mem_ok (n_mem s) -> iface_at s netif me -> bytes_at (n_mem s) dstip dst -> bytes_at (n_mem s) data bs -> zlen dst = 4 ->
  n = zlen bs -> 1 <= zlen bs <= 4096 - 42 ->
  wp (net_send_udp netif dstip srcport dstport n data)
    (fun _ s' => sends s (ipv4_frames me (next_hop me null_ptr []) (ipv4 0 17 (i_ip me) dst (udp srcport dstport bs))) s') only_nomem s.
Proof.
  intros Hok Hme Hdst Hdata Ld -> Hn. unfold net_send_udp, UDP_SIZE. rewrite (u32_small (8 + zlen bs)) by (unfold is_u32; lia).
  wp_steps. apply wp_alloc_packet; [done|lia|]. intros b s0 Hb0 Hb. not_null.
  replace (Z.to_nat (8 + zlen bs)) with (2 + (2 + (2 + (2 + (length bs + 0)))))%nat in Hb by (unfold zlen in *; lia).
  wp_steps. eapply (emit_store16 s s0 b []); [exact Hb|done|done|]. clear Hb. intros s1 Hb. rewrite be_htons in Hb.
  wp_steps. eapply emit_store16; [exact Hb|done|done|]. clear Hb. intros s2 Hb. rewrite be_htons in Hb.
  wp_steps. eapply emit_store16; [exact Hb|done|done|]. clear Hb. intros s3 Hb. rewrite be_htons in Hb.
  wp_steps. eapply emit_store16; [exact Hb|done|done|]. clear Hb. intros s4 Hb. change [u8 0; u8 (0 / 2 ^ 8)] with [0; 0] in Hb.
  wp_steps. eapply emit_memcpy; [exact Hb|done|done|done|exact Hdata|lia|intros ->; change (zlen (@nil Z)) with 0 in Hn; lia|].
  clear Hb. intros s5 Hb. rewrite app_nil_r in Hb. rewrite <- !app_assoc in Hb. change (building s b (udp srcport dstport bs) s5) in Hb.
  assert (Forall is_u8 (udp srcport dstport bs)) as Hu.
  { unfold udp. rewrite !Forall_app. split_and!; try apply be_u8; [by repeat constructor|by apply (bytes_u8 s data)]. }
  assert (zlen (udp srcport dstport bs) = 8 + zlen bs) as Hl by (unfold udp, be; zl).
  destruct (iface_fields _ _ _ Hme) as (F1 & _). pose proof Hme as [_ (_ & _ & L1 & _)].
  wp_apply (wp_net_send_ipv4 s5 netif me null_ptr 0 17 (netif_ip netif) dstip (Ptr b 0) []);
    [exact (building_mem _ _ _ _ Hok Hu Hb)|exact (iface_building _ _ _ _ _ _ Hb Hme)|by left|exact (proj2 (bytes_at_building _ _ _ _ _ _ Hb F1))
    |exact (proj2 (bytes_at_building _ _ _ _ _ _ Hb Hdst))|exact (building_bytes _ _ _ _ Hb)|done|done|done|by rewrite Hl|lia| |done].
  intros r s6 Hs. wp_steps. eapply wp_free_packet; [exact Hb|exact Hs|]. intros s7 Hs7. by wp_steps.
Qed.
End send.
