(* ===== verification/NetSpec.v ===== *)
(** * What the network stack answers

    The frame that each frame is answered with, as functions on byte lists,
    and the proofs that the handlers compute it without an access outside the
    received frame, without a failed assertion and without keeping memory. *)
From S2P Require Import Prelude Interfaces Strings Net NetMem NetSum NetSend.

(** ** The specification *)

Definition le16 (l : list Z) (i : Z) : Z := byte l i + byte l (i + 1) * 2 ^ 8.

Definition icmp_echo (type : Z) (id seq payload : list Z) : list Z :=
  let with_sum c := [type; 0] ++ c ++ id ++ seq ++ payload in
  with_sum (be (inet_checksum (with_sum [0; 0]))).

(** To an IPv4 packet of [len] bytes in the frame [f]. *)
Definition icmp_answer (me : iface) (f : list Z) (len : Z) : list (Z * list Z) :=
  if len - 20 <? 4 then []
  else if negb (be16 f 36 =? inet_checksum (slice (wipe f 36) 34 (len - 20))) then []
  else if negb (byte f 34 =? 8) then []
  else if len - 24 <? 4 then []
  else
    let reply := icmp_echo 0 (slice f 38 2) (slice f 40 2) (slice f 42 (len - 28)) in
    ipv4_frames me (Some (slice f 6 6)) (ipv4 (le16 f 18) 1 (i_ip me) (slice f 26 4) reply).

Definition udp_answer (me : iface) (f : list Z) (len : Z) : list (Z * list Z) :=
  if len - 20 <? 8 then []
  else
    ipv4_frames me (next_hop me null_ptr [])
      (ipv4 0 17 (i_ip me) (slice f 26 4) (udp (be16 f 36) (be16 f 34) (slice f 42 (be16 f 38)))).

(** Whether the IPv4 packet in [f] is handled: its header is valid and it is for [me]. *)
Definition ipv4_accepted (me : iface) (f : list Z) : bool :=
  (Z.land (byte f 14) 0x0F =? 5) && (Z.shiftr (Z.land (byte f 14) 0xF0) 4 =? 4) &&
  (20 <=? be16 f 16) && (be16 f 16 + 18 <=? zlen f) &&
  (Z.land (Z.shiftr (Z.land (be16 f 20) 0xE000) 13) 0x1 =? 0) && (Z.land (Z.shiftr (Z.land (be16 f 20) 0xE000) 13) 0x4 =? 0) &&
  (inet_checksum (slice (wipe f 24) 14 20) =? be16 f 24) && bool_decide (slice f 30 4 = i_ip me).

Definition ipv4_answer (me : iface) (f : list Z) : list (Z * list Z) :=
  if ipv4_accepted me f then
    if byte f 23 =? 1 then icmp_answer me f (be16 f 16)
    else if byte f 23 =? 6 then []
    else if byte f 23 =? 17 then udp_answer me f (be16 f 16)
    else []
  else [].

Definition learn (mac : list Z) (me : iface) : iface :=
  Iface (i_calls me) (i_extra me) (i_ip me) (i_mac me) (i_gateway me) mac true (i_rest me).

(** [text] is the greeting. *)
Definition arp_answer (text : list Z) (me : iface) (f : list Z) : iface * list (Z * list Z) :=
  if (be16 f 14 =? 1) && (be16 f 16 =? 0x800) && (byte f 18 =? 6) && (byte f 19 =? 4) then
    if be16 f 20 =? 1 then
      if bool_decide (slice f 38 4 = i_ip me) then
        (me, [(i_extra me, ethernet (slice f 6 6) (i_mac me) 0x806 (arp 2 (i_mac me) (i_ip me) (slice f 22 6) (slice f 28 4)))])
      else (me, [])
    else if be16 f 20 =? 2 then
      if bool_decide (slice f 28 4 = i_gateway me) then
        let me' := learn (slice f 22 6) me in
        (me', ipv4_frames me' (Some (slice f 22 6)) (ipv4 0 17 (i_ip me) (i_gateway me) (udp 1234 4321 (text ++ [0]))))
      else (me, [])
    else (me, [])
  else (me, []).

Definition answer (text : list Z) (me : iface) (f : list Z) : iface * list (Z * list Z) :=
  if be16 f 12 =? 0x806 then arp_answer text me f
  else if be16 f 12 =? 0x800 then (me, ipv4_answer me f)
  else (me, []).

(** ** The handlers *)

Section handlers.
Context {H : Type} `{KHeapLaws H}.
Implicit Types (s : nstate H) (me : iface) (f : list Z).

(** [s'] is [s] after the frame in the object [d] was handled: frames were
    sent, the interface may know more, the object may have been written to. *)
Definition handled s (d netif : Z) me (fs : list (Z * list Z)) s' : Prop :=
  exists f', m_objs (n_mem s') = <[d := f']> (<[netif := iface_bytes me]> (m_objs (n_mem s))) /\
    heap_live (m_heap (n_mem s')) = heap_live (m_heap (n_mem s)) /\ heap_ok (m_heap (n_mem s')) /\
    iface_ok me /\ Forall is_u8 (iface_bytes me) /\ Forall is_u8 f' /\
    n_netifs s' = n_netifs s /\ n_tasks s' = n_tasks s /\ n_sent s' = n_sent s ++ fs.

(** The setting of the handlers. *)
Record arrived s (d netif : Z) me f : Prop := Arrived {
  ar_ok : mem_ok (n_mem s);
  ar_iface : iface_at s netif me;
  ar_frame : m_objs (n_mem s) !! d = Some f;
  ar_ne : d <> netif;
  ar_size : zlen f <= 4096;
}.

Lemma sends_handled s d netif me f fs s' : arrived s d netif me f -> sends s fs s' -> handled s d netif me fs s'.
Proof.
  intros [A [B1 B2] C D E] ((S1 & S2 & S3) & S4 & S5 & S6). exists f. rewrite S1. split.
  - rewrite (insert_id _ netif) by done. by rewrite insert_id.
  - split; [done|]. split; [done|]. split; [done|]. split; [by apply (mo_u8 _ A _ _ B1)|]. split; [by apply (mo_u8 _ A _ _ C)|]. done.
Qed.

Lemma handled_nothing s d netif me f : arrived s d netif me f -> handled s d netif me [] s.
Proof. intros Ha. apply (sends_handled _ _ _ _ _ _ _ Ha). apply sends_refl, Ha. Qed.

Lemma frame_slice s d netif me f i n : arrived s d netif me f -> 0 <= i -> 0 <= n -> i + n <= zlen f -> bytes_at (n_mem s) (Ptr d i) (slice f i n).
Proof.
  intros Ha Hi Hn Hs. eexists _, _. rewrite <- (slice_split f i n) by done. split; [apply Ha|]. cbn. symmetry. apply zlen_take. lia.
Qed.

Lemma frame_byte s d netif me f p (Q : Z -> nstate H -> Prop) E :
  arrived s d netif me f -> base p = d -> 0 <= off p < zlen f -> Q (byte f (off p)) s -> wp (zoom mem_lens (load p)) Q E s.
Proof.
  intros Ha Hp Hr HQ. apply wp_zmem. apply (wp_load_at _ _ f); [rewrite Hp; apply Ha|done|]. by destruct s.
Qed.

Lemma frame_word s d netif me f p (Q : Z -> nstate H -> Prop) E :
  arrived s d netif me f -> base p = d -> 0 <= off p -> off p + 2 <= zlen f -> Q (le16 f (off p)) s -> wp (zoom mem_lens (load16 p)) Q E s.
Proof.
  intros Ha Hp Hr Hr2 HQ. apply wp_zmem. apply (wp_load16_at _ _ f); [rewrite Hp; apply Ha|done|done|]. by destruct s.
Qed.

Lemma ntohs_le16 f i : Forall is_u8 f -> ntohs (le16 f i) = be16 f i.
Proof. intros Hf. unfold ntohs, le16. rewrite htons_swap by (by apply byte_Forall). done. Qed.

Lemma split_word f i : 0 <= i -> i + 2 <= zlen f ->
  f = take (Z.to_nat i) f ++ byte f i :: byte f (i + 1) :: drop (Z.to_nat (i + 2)) f.
Proof.
  intros Hi Hs. rewrite (slice_split f i 2) at 1 by lia. f_equal. rewrite !slice_cons by lia. rewrite slice_nil. done.
Qed.

Lemma slice_word f i : 0 <= i -> i + 2 <= zlen f -> slice f i 2 = [byte f i; byte f (i + 1)].
Proof. intros Hi Hs. rewrite !slice_cons by lia. by rewrite slice_nil. Qed.

Lemma be_be16 f i : Forall is_u8 f -> be (be16 f i) = [byte f i; byte f (i + 1)].
Proof.
  intros Hf. pose proof (byte_Forall f i Hf) as Ha. pose proof (byte_Forall f (i + 1) Hf) as Hb. unfold is_u8 in *. unfold be, be16.
  rewrite (Z.add_comm (byte f i * _)), Z.div_add, (Z.div_small (byte f (i + 1))), Z.mod_add, !Z.mod_small by lia. done.
Qed.

(** The fields of the frame are also there while an answer is built. *)
Lemma arrived_building s d netif me f b o s1 :
  arrived s d netif me f -> Forall is_u8 o -> building s b o s1 -> arrived s1 d netif me f.
Proof.
  intros [A B C D E] Ho Hb. split; [by eapply building_mem|by eapply iface_building| |done|done].
  destruct Hb as ((G & _ & _ & K & _) & _). rewrite G, lookup_insert_ne; [done|]. intros ->. congruence.
Qed.

(** A 16-bit field of an answer copied from the frame. *)
Lemma copied_word f i : Forall is_u8 f -> 0 <= i -> i + 2 <= zlen f -> [u8 (le16 f i); u8 (le16 f i / 2 ^ 8)] = slice f i 2.
Proof.
  intros Hf Hi Hs. rewrite slice_word by done. unfold le16. apply word_back; by apply byte_Forall.
Qed.

Lemma building_u8 s b o s1 k : mem_ok (n_mem s) -> building s b (o ++ replicate k 0) s1 -> Forall is_u8 o -> Forall is_u8 (o ++ replicate k 0).
Proof. intros _ _ Ho. apply Forall_app. split; [done|]. by apply Forall_replicate. Qed.

Lemma wp_net_handle_icmp_echo s d netif me f len :
  arrived s d netif me f -> 28 <= len -> len + 18 <= zlen f ->
  wp (net_handle_icmp_echo netif (Ptr d 0) (Ptr d 14) (Ptr d 34) (len - 24)) (fun _ s' =>
    handled s d netif me (ipv4_frames me (Some (slice f 6 6)) (ipv4 (le16 f 18) 1 (i_ip me) (slice f 26 4)
      (icmp_echo 0 (slice f 38 2) (slice f 40 2) (slice f 42 (len - 28))))) s') only_nomem s.
Proof.
  intros Ha Hl1 Hl2. pose proof Ha as [Hok Hme Hf Hne Hsz]. pose proof (mo_u8 _ Hok _ _ Hf) as Uf.
  unfold net_handle_icmp_echo, ICMP_ECHO_SIZE, ICMP_SIZE, ICMP_TYPE_ECHO_REPLY. rewrite (proj2 (Z.ltb_ge (len - 24) 4)) by lia.
  cbn [ptr_add base off]. set (payload := slice f 42 (len - 28)). assert (zlen payload = len - 28) as Lp by (apply zlen_slice; lia).
  replace (4 + 4 + (len - 24 - 4)) with (8 + zlen payload) by lia. replace (len - 24 - 4) with (zlen payload) by lia.
  wp_steps. apply wp_alloc_packet; [done|lia|]. intros b s0 Hb0 Hb. not_null. cbn [ptr_add base off].
  replace (Z.to_nat (8 + zlen payload)) with (1 + (1 + (2 + (2 + (2 + (length payload + 0))))))%nat in Hb by (unfold zlen in *; lia).
  wp_steps. eapply (emit_store s s0 b []); [exact Hb|done|done|]. clear Hb. intros s1 Hb.
  wp_steps. eapply emit_store; [exact Hb|done|done|]. clear Hb. intros s2 Hb.
  wp_steps. eapply emit_store16; [exact Hb|done|done|]. clear Hb. intros s3 Hb.
  change ((([] ++ [u8 0]) ++ [u8 0]) ++ [u8 0; u8 (0 / 2 ^ 8)]) with [0; 0; 0; 0] in Hb.
  pose proof (arrived_building _ _ _ _ _ _ _ _ Ha (building_u8 _ _ _ _ _ Hok Hb ltac:(by repeat constructor)) Hb) as Ha3.
  wp_steps. apply (frame_word s3 d netif me f); [exact Ha3|done|cbn [off ptr_add]; lia|cbn [off ptr_add]; lia|]. cbn [off ptr_add]. change (34 + 4) with 38.
  wp_steps. eapply emit_store16; [exact Hb|done|done|]. clear Hb. intros s4 Hb. rewrite copied_word in Hb by (done || lia).
  pose proof (slice_word f 38) as W1. pose proof (slice_word f 40) as W2.
  assert (Forall is_u8 ([0; 0; 0; 0] ++ slice f 38 2)) as U4 by (apply Forall_app; split; [by repeat constructor|by apply slice_Forall]).
  pose proof (arrived_building _ _ _ _ _ _ _ _ Ha (building_u8 _ _ _ _ _ Hok Hb U4) Hb) as Ha4.
  wp_steps. apply (frame_word s4 d netif me f); [exact Ha4|done|cbn [off ptr_add]; lia|cbn [off ptr_add]; lia|]. cbn [off ptr_add]. change (34 + 4 + 2) with 40.
  wp_steps. eapply emit_store16; [exact Hb|done|cbn [off ptr_add]; rewrite zlen_app, (zlen_slice f 38 2) by lia; done|].
  clear Hb. intros s5 Hb. rewrite copied_word in Hb by (done || lia). wp_steps.
  apply (wp_mono _ (fun _ s6 => building s b ((([0; 0; 0; 0] ++ slice f 38 2) ++ slice f 40 2) ++ payload) s6) _ only_nomem); [| |done].
  { destruct (Z.eqb_spec (zlen payload) 0) as [Hz|Hz]; cbn [negb].
    - wp_steps. assert (payload = []) as He by (destruct payload; [done|rewrite zlen_cons in Hz; pose proof (zlen_nonneg payload); lia]).
      rewrite He in Hb |- *. exact Hb.
    - eapply emit_memcpy; [exact Hb|done|done|cbn [off ptr_add]; rewrite !zlen_app, !zlen_slice by lia; done
        |apply (frame_slice _ _ _ _ _ 42 (len - 28) Ha); lia|done|intros He; by rewrite He in Hz|].
      intros s6 Hb6. by rewrite app_nil_r in Hb6. }
  clear Hb. intros u s6 Hb. rewrite <- !app_assoc in Hb.
  set (rest := slice f 38 2 ++ slice f 40 2 ++ payload) in *. change (building s b ([0; 0] ++ [0; 0] ++ rest) s6) in Hb.
  assert (Forall is_u8 rest) as Ur by (unfold rest; rewrite !Forall_app; split_and!; by apply slice_Forall).
  assert (zlen rest = 4 + zlen payload) as Lr by (unfold rest; rewrite !zlen_app, !zlen_slice by lia; lia).
  assert (Forall is_u8 ([0; 0] ++ [0; 0] ++ rest)) as U6 by (rewrite !Forall_app; split_and!; [by repeat constructor|by repeat constructor|done]).
  wp_steps. apply wp_zmem. apply (wp_net_calc_checksum _ _ ([0; 0] ++ [0; 0] ++ rest));
    [by eapply building_bytes|done|rewrite !zlen_app; change (zlen [0; 0]) with 2; lia|lia|].
  set (sum := inet_checksum _). wp_steps. apply wp_zmem.
  apply (wp_store16_in _ _ [0; 0] 0 0 rest); [pose proof Hb as ((A & _) & _); change (m_objs (n_mem s6) !! b = Some ([0; 0] ++ 0 :: 0 :: rest)); rewrite A; apply lookup_insert_eq|done|]. rewrite be_htons.
  set (reply := [0; 0] ++ be sum ++ rest). cbn [base ptr_add]. set (s7 := with_mem (put_obj b reply _) _).
  assert (building s b reply s7) as Hb7 by (destruct Hb as (A & R); split; [by eapply holding_put|done]).
  assert (Forall is_u8 reply) as U7 by (unfold reply; rewrite !Forall_app; split_and!; [by repeat constructor|apply be_u8|done]).
  assert (reply = icmp_echo 0 (slice f 38 2) (slice f 40 2) payload) as Hrep by done.
  assert (zlen reply = 8 + zlen payload) as Lrep by (unfold reply; rewrite !zlen_app, Lr; change (zlen [0; 0]) with 2; change (zlen (be sum)) with 2; lia).
  pose proof (arrived_building _ _ _ _ _ _ _ _ Ha U7 Hb7) as Ha7. rewrite <- Hrep.
  wp_steps. apply (frame_word s7 d netif me f); [exact Ha7|done|cbn [off ptr_add]; lia|cbn [off ptr_add]; lia|]. cbn [off ptr_add]. change (14 + 4) with 18.
  destruct (iface_fields _ _ _ Hme) as (F1 & _). pose proof Hme as [_ (_ & _ & L1 & _)].
  wp_apply (wp_net_send_ipv4 s7 netif me (Ptr d 6) (le16 f 18) 1 (netif_ip netif) (Ptr d 26) (Ptr b 0) (slice f 6 6));
    [by apply Ha7|by apply Ha7|right; split; [apply (frame_slice _ _ _ _ _ 6 6 Ha7); lia|apply zlen_slice; lia]
    |exact (proj2 (bytes_at_building _ _ _ _ _ _ Hb7 F1))|apply (frame_slice _ _ _ _ _ 26 4 Ha7); lia|exact (building_bytes _ _ _ _ Hb7)
    |done|apply zlen_slice; lia|done|by rewrite Lrep|lia| |done].
  intros r s8 Hs. assert (next_hop me (Ptr d 6) (slice f 6 6) = Some (slice f 6 6)) as Hhop.
  { unfold next_hop. replace (is_null (Ptr d 6)) with false; [done|]. symmetry. apply Z.eqb_neq. cbn. pose proof (mem_base _ _ _ Hok Hf). lia. }
  rewrite Hhop in Hs. wp_steps. eapply wp_free_packet; [exact Hb7|exact Hs|]. intros s9 Hs9. by apply (sends_handled s d netif me f).
Qed.

(** What the handler of a part of the frame leaves, seen from the whole. *)
Lemma handled_wiped s d netif me f f' fs s1 s' :
  arrived s d netif me f -> n_mem s1 = put_obj d f' (n_mem s) -> n_netifs s1 = n_netifs s -> n_tasks s1 = n_tasks s -> n_sent s1 = n_sent s ->
  arrived s1 d netif me f' -> sends s1 fs s' -> handled s d netif me fs s'.
Proof.
  intros Ha Hm R1 R2 R3 Ha1 ((S1 & S2 & S3) & S4 & S5 & S6). pose proof Ha as [A [B1 B2] C D E]. exists f'. rewrite S1, Hm. split.
  - by rewrite (insert_id _ netif).
  - rewrite S2, Hm. split; [done|]. split; [done|]. split; [done|]. split; [by apply (mo_u8 _ A _ _ B1)|].
    split; [apply (mo_u8 _ (ar_ok _ _ _ _ _ Ha1) d), Ha1|]. split; [congruence|]. split; congruence.
Qed.

Lemma arrived_put s d netif me f f' :
  arrived s d netif me f -> Forall is_u8 f' -> zlen f' = zlen f -> arrived (with_mem (put_obj d f' (n_mem s)) s) d netif me f'.
Proof.
  intros [A [B1 B2] C D E] Hu Hl. split.
  - destruct A as [A1 A2 A3]. split; [done|..]; intros b o; cbn; rewrite lookup_insert_Some.
    + intros [[<- _]|[_ Hb]]; [by apply (A2 _ _ C)|by apply (A2 _ _ Hb)].
    + intros [[_ <-]|[_ Hb]]; [done|by apply (A3 _ _ Hb)].
  - split; [|done]. cbn. by rewrite lookup_insert_ne.
  - cbn. by rewrite lookup_insert_eq.
  - done.
  - lia.
Qed.

Lemma wp_net_handle_icmp s d netif me f len :
  arrived s d netif me f -> 20 <= len -> len + 18 <= zlen f ->
  wp (net_handle_icmp netif (Ptr d 0) (Ptr d 14) (len - 20)) (fun _ s' => handled s d netif me (icmp_answer me f len) s') only_nomem s.
Proof.
  intros Ha Hl1 Hl2. pose proof Ha as [Hok Hme Hf Hne Hsz]. pose proof (mo_u8 _ Hok _ _ Hf) as Uf. pose proof (mem_base _ _ _ Hok Hf) as Hd.
  unfold net_handle_icmp, icmp_answer, ICMP_SIZE, IPV4_SIZE. destruct (Z.ltb_spec (len - 20) 4) as [|Hlen]; [wp_steps; by apply (handled_nothing _ _ _ _ f)|].
  wp_steps. apply (frame_word s d netif me f); [exact Ha|done|cbn [off ptr_add]; lia|cbn [off ptr_add]; lia|].
  cbn [off ptr_add base]. change (14 + 20) with 34. change (34 + 2) with 36. rewrite ntohs_le16 by done.
  wp_steps. apply wp_zmem. apply (wp_store16_in _ _ (take (Z.to_nat 36) f) (byte f 36) (byte f 37) (drop (Z.to_nat 38) f));
    [cbn [base ptr_add]; change 37 with (36 + 1); change 38 with (36 + 2); rewrite <- (split_word f 36) by lia; exact Hf|cbn [off ptr_add]; by rewrite zlen_take by lia|].
  change ([u8 0; u8 (0 / 2 ^ 8)]) with [0; 0]. change (take (Z.to_nat 36) f ++ [0; 0] ++ drop (Z.to_nat 38) f) with (wipe f 36). cbn [base].
  set (s1 := with_mem _ s). pose proof (arrived_put s d netif me f (wipe f 36) Ha (wipe_u8 _ _ Uf) (zlen_wipe f 36 ltac:(lia) ltac:(lia))) as Ha1.
  change (with_mem (put_obj d (wipe f 36) (n_mem s)) s) with s1 in Ha1. pose proof (zlen_wipe f 36 ltac:(lia) ltac:(lia)) as Lw.
  wp_steps. apply wp_zmem. apply (wp_net_calc_checksum _ _ (slice (wipe f 36) 34 (len - 20)));
    [apply (frame_slice _ _ _ _ _ 34 (len - 20) Ha1); lia|by apply slice_Forall, wipe_u8|by rewrite zlen_slice by lia|lia|].
  set (sum := inet_checksum _). destruct (Z.eqb_spec (be16 f 36) sum) as [He|He]; cbn [negb].
  2: { wp_steps. apply (handled_wiped s d netif me f (wipe f 36) [] s1); try done. apply sends_refl, Ha1. }
  wp_steps. apply wp_zmem. change (n_mem (with_mem (n_mem s1) s1)) with (n_mem s1).
  apply (wp_store16_at (n_mem s) (Ptr d 36) (take (Z.to_nat 36) f) 0 0 (drop (Z.to_nat 38) f)); [cbn [off ptr_add]; by rewrite zlen_take by lia|].
  rewrite be_htons, be_be16 by done. change (36 + 1) with 37. cbn [base].
  change (take (Z.to_nat 36) f ++ [byte f 36; byte f 37] ++ drop (Z.to_nat 38) f) with (take (Z.to_nat 36) f ++ byte f 36 :: byte f (36 + 1) :: drop (Z.to_nat (36 + 2)) f).
  rewrite <- (split_word f 36) by lia. rewrite put_obj_same by done.
  assert (with_mem (n_mem s) (with_mem (n_mem s1) s1) = s) as -> by (by destruct s).
  wp_steps. apply (frame_byte s d netif me f); [exact Ha|done|cbn [off ptr_add]; lia|]. cbn [off ptr_add base]. change (14 + 20) with 34. unfold ICMP_TYPE_ECHO_REQUEST.
  destruct (Z.eqb_spec (byte f 34) 8) as [H8|H8]; cbn [negb]; [|wp_steps; by apply (handled_nothing _ _ _ _ f)].
  replace (len - 20 - 4) with (len - 24) by lia. destruct (Z.ltb_spec (len - 24) 4) as [Hs|Hs].
  - unfold net_handle_icmp_echo, ICMP_ECHO_SIZE. rewrite (proj2 (Z.ltb_lt (len - 24) 4)) by done. wp_steps. by apply (handled_nothing _ _ _ _ f).
  - apply wp_net_handle_icmp_echo; [done|lia|lia].
Qed.

Lemma wp_local_bytes m l :
  mem_ok m -> 0 < zlen l -> wp (local_bytes l) (fun p m' => exists b, p = Ptr b 0 /\ holding m b l m') only_nomem m.
Proof.
  intros Hok Hl. unfold local_bytes. wp_apply wp_calloc; [done|done| |done]. intros p m1 (b & -> & Hh). wp_steps.
  exists b. split; [done|]. apply (holding_put _ _ _ l) in Hh. exact Hh.
Qed.

Lemma wp_tcp_calc_checksum m d f n :
  mem_ok m -> m_objs m !! d = Some f -> 20 <= n -> n + 34 <= zlen f <= 4096 ->
  wp (tcp_calc_checksum (Ptr d 34) n (Ptr d 26) (Ptr d 30)) (fun _ m' => same_mem m m') only_nomem m.
Proof.
  intros Hok Hf Hn Hs. pose proof (mem_base _ _ _ Hok Hf) as Hd. pose proof (mo_u8 _ Hok _ _ Hf) as Uf.
  assert (forall i (Q : Z -> mem H -> Prop) E, 0 <= i < zlen f -> Q (byte f i) m -> wp (load (Ptr d i)) Q E m) as Hload.
  { intros i Q E Hi HQ. by apply (wp_load_at _ _ f). }
  unfold tcp_calc_checksum. do 3 (wp_cond; replace (is_null _) with false by (symmetry; apply Z.eqb_neq; cbn; lia); cbn [negb]).
  do 8 (wp_steps; apply Hload; [cbn [off ptr_add]; lia|]).
  set (l1 := [_; _; _; _; _; _; _; _; _; _; _; _]). wp_apply (wp_local_bytes m l1); [done|done| |done].
  intros p m1 (b & -> & Hh). pose proof Hh as (A & _). assert (m_objs m1 !! d = Some f) as Hf1.
  { destruct Hh as (_ & _ & _ & D & _). rewrite A, lookup_insert_ne by congruence. done. }
  wp_steps. apply (wp_load16_at m1 _ f); [exact Hf1|cbn [off ptr_add]; lia|cbn [off ptr_add]; lia|]. cbn [off ptr_add].
  change (byte f (34 + 16) + byte f (34 + 16 + 1) * 2 ^ 8) with (le16 f 50). rewrite ntohs_le16 by done. wp_steps.
  assert (Forall is_u8 l1) as U1.
  { unfold l1. repeat (apply Forall_cons; split; [first [by apply byte_Forall|apply u8_range|done]|]). done. }
  apply (wp_net_calc_checksum2 m1 _ _ l1 (slice f 34 n)).
  - exists [], []. rewrite A, app_nil_r. split; [by rewrite lookup_insert_eq|done].
  - eexists _, _. rewrite <- (slice_split f 34 n) by lia. split; [exact Hf1|]. cbn. rewrite zlen_take; lia.
  - done.
  - by apply slice_Forall.
  - done.
  - by rewrite zlen_slice by lia.
  - done.
  - done.
  - lia.
  - assert (be16 f 50 = be16 (slice f 34 n) (2 * 8)) as ->.
    { unfold be16. rewrite (slice_split f 34 n) at 1 2 by lia. rewrite !(byte_app_r (take _ _)) by (rewrite zlen_take; lia).
      rewrite zlen_take by lia. rewrite !byte_app_l by (rewrite zlen_slice; lia). done. }
    apply word_in_sum; [by apply slice_Forall|lia|rewrite zlen_slice; lia].
  - wp_apply (wp_free m b l1); [done| |by intros e []]. intros [] m2 Hm. by wp_steps.
Qed.

Lemma wp_net_handle_tcp s d netif me f len :
  arrived s d netif me f -> 20 <= len -> len + 18 <= zlen f ->
  wp (net_handle_tcp (Ptr d 14) (len - 20)) (fun _ s' => handled s d netif me [] s') only_nomem s.
Proof.
  intros Ha Hl1 Hl2. pose proof Ha as [Hok Hme Hf Hne Hsz]. pose proof (handled_nothing _ _ _ _ _ Ha) as Hnone.
  unfold net_handle_tcp, TCP_SIZE, IPV4_SIZE. destruct (Z.ltb_spec (len - 20) 20) as [|Hlen]; [by wp_steps|].
  wp_steps. apply (frame_word s d netif me f); [exact Ha|done|cbn [off ptr_add]; lia|cbn [off ptr_add]; lia|].
  set (flags := ntohs _). set (data_offset := Z.land (Z.shiftr flags 12) 15 * 4).
  destruct (Z.ltb_spec data_offset 20) as [|Ho1]; [by wp_steps|]. destruct (Z.ltb_spec 60 data_offset) as [|Ho2]; [by wp_steps|].
  assert (u32 (data_offset + u32 (len - 20 - data_offset)) = len - 20) as ->.
  { unfold u32. rewrite Z.add_mod_idemp_r by lia. replace (data_offset + (len - 20 - data_offset)) with (len - 20) by lia. apply Z.mod_small. lia. }
  rewrite Z.ltb_irrefl. destruct (negb (Z.land flags 3584 =? 0)); [by wp_steps|].
  wp_steps. apply (frame_word s d netif me f); [exact Ha|done|cbn [off ptr_add]; lia|cbn [off ptr_add]; lia|]. cbn [ptr_add base off].
  change (14 + 20) with 34. change (14 + 12) with 26. change (14 + 16) with 30. wp_steps. apply wp_zmem.
  eapply wp_mono; [apply (wp_tcp_calc_checksum _ d f); [done|done|lia|lia]| |done]. intros v m Hm.
  apply (wp_mono _ (fun _ s' => s' = with_mem m s) _ never); [by destruct (negb _); wp_steps| |by intros e []].
  intros [] s' ->. apply (sends_handled s d netif me f); [done|]. split; [done|]. by rewrite app_nil_r.
Qed.

(** A UDP packet whose length field does not point behind the frame, not even
    with the 8 bytes of its header counted twice. *)
Definition udp_fits f : Prop := 8 <= be16 f 38 /\ be16 f 38 + 42 <= zlen f.

Lemma wp_net_handle_udp s d netif me f len :
  arrived s d netif me f -> 20 <= len -> len + 18 <= zlen f -> udp_fits f ->
  wp (net_handle_udp netif (Ptr d 14) (len - 20)) (fun _ s' => handled s d netif me (udp_answer me f len) s') only_nomem s.
Proof.
  intros Ha Hl1 Hl2 [Hu1 Hu2]. pose proof Ha as [Hok Hme Hf Hne Hsz]. pose proof (mo_u8 _ Hok _ _ Hf) as Uf.
  unfold net_handle_udp, udp_answer, UDP_SIZE, IPV4_SIZE. destruct (Z.ltb_spec (len - 20) 8) as [|Hlen]; [wp_steps; by apply (handled_nothing _ _ _ _ f)|].
  wp_steps. apply (frame_word s d netif me f); [exact Ha|done|cbn [off ptr_add]; lia|cbn [off ptr_add]; lia|]. cbn [off ptr_add].
  change (14 + 20 + 4) with 38. rewrite ntohs_le16 by done. pose proof (be16_range f 38 Uf) as H16. unfold is_u16 in H16.
  rewrite u32_small by (unfold is_u32; lia). wp_steps.
  apply (wp_mono _ (fun _ s' => s' = s) _ never); [| |by intros e []].
  { apply (wp_for_up (fun _ s' => s' = s)); [done|]. intros j s' Hj ->. wp_steps.
    apply (frame_byte s d netif me f); [exact Ha|done|cbn [off ptr_add]; lia|]. by wp_steps. }
  intros [] s' ->. cbn [base off ptr_add]. wp_steps.
  apply (frame_word s d netif me f); [exact Ha|done|cbn [off ptr_add]; lia|cbn [off ptr_add]; lia|]. cbn [off ptr_add].
  wp_steps. apply (frame_word s d netif me f); [exact Ha|done|cbn [off ptr_add]; lia|cbn [off ptr_add]; lia|]. cbn [off ptr_add].
  change (14 + 20 + 2) with 36. change (14 + 20) with 34. change (14 + 12) with 26. change (34 + 8) with 42. rewrite !ntohs_le16 by done.
  wp_apply (wp_net_send_udp s netif me (Ptr d 26) (be16 f 36) (be16 f 34) (Ptr d 42) (slice f 26 4) (slice f 42 (be16 f 38)));
    [done|done|apply (frame_slice _ _ _ _ _ 26 4 Ha); lia|apply (frame_slice _ _ _ _ _ 42 (be16 f 38) Ha); lia|apply zlen_slice; lia
    |by rewrite zlen_slice by lia|rewrite zlen_slice; lia| |done].
  intros r s1 Hs. wp_steps. by apply (sends_handled s d netif me f).
Qed.

Lemma memcmp_same (m : mem H) p q l1 l2 (Q : Z -> mem H -> Prop) E n :
  mem_ok m -> bytes_at m p l1 -> bytes_at m q l2 -> n = zlen l1 -> zlen l2 = n ->
  (forall r, (r =? 0) = bool_decide (l1 = l2) -> Q r m) -> wp (memcmp p q n) Q E m.
Proof.
  intros Hok Hp Hq -> Hl HQ. assert (forall p' l, bytes_at m p' l -> base p' <> 0 /\ Forall is_u8 l) as Hb.
  { intros p' l (pre & post & Ho & _). split; [pose proof (mem_base _ _ _ Hok Ho); lia|].
    apply (mo_u8 _ Hok) in Ho. by apply Forall_app in Ho as [_ [Ho _]%Forall_app]. }
  destruct (Hb _ _ Hp) as [P1 P2], (Hb _ _ Hq) as [Q1 Q2]. assert (length l1 = length l2) as Hlen by (unfold zlen in Hl; lia).
  eapply wp_mono; [by apply (wp_memcmp m p q l1 l2)| |by intros e []]. intros r m' [-> ->]. apply HQ.
  pose proof (bytes_cmp_0 l1 l2 Hlen P2 Q2) as Hz. destruct (Z.eqb_spec (bytes_cmp l1 l2) 0) as [E0|E0].
  - symmetry. apply bool_decide_eq_true. tauto.
  - symmetry. apply bool_decide_eq_false. tauto.
Qed.

Lemma wipe_app (pre : list Z) a b post i : zlen pre = i -> wipe (pre ++ [a; b] ++ post) i = pre ++ [0; 0] ++ post.
Proof.
  intros Hi. unfold wipe, zlen in *. rewrite take_app_length' by lia. do 2 f_equal. rewrite app_assoc, drop_app_length'; [done|]. rewrite length_app. cbn. lia.
Qed.

Lemma wp_ipv4_is_checksum_valid s d netif me f (Q : bool -> nstate H -> Prop) E :
  arrived s d netif me f -> 34 <= zlen f -> Q (inet_checksum (slice (wipe f 24) 14 20) =? be16 f 24) s ->
  wp (zoom mem_lens (ipv4_is_checksum_valid (Ptr d 14))) Q E s.
Proof.
  intros Ha Hs HQ. pose proof Ha as [Hok Hme Hf Hne Hsz]. pose proof (mo_u8 _ Hok _ _ Hf) as Uf. apply wp_zmem.
  assert (f = take (Z.to_nat 14) f ++ slice f 14 10 ++ [byte f 24; byte f 25] ++ slice f 26 8 ++ drop (Z.to_nat 34) f) as Hsp.
  { rewrite (slice_split f 14 10) at 1 by lia. do 2 f_equal. change (14 + 10) with 24.
    assert (drop (Z.to_nat 24) f = slice f 24 2 ++ slice f 26 8 ++ drop (Z.to_nat 34) f) as ->; [|by rewrite slice_word by lia].
    unfold slice. rewrite <- (take_drop (Z.to_nat 2) (drop (Z.to_nat 24) f)) at 1. f_equal. rewrite drop_drop.
    rewrite <- (take_drop (Z.to_nat 8) (drop _ f)) at 1. f_equal. by rewrite drop_drop. }
  assert (slice (wipe f 24) 14 20 = slice f 14 10 ++ [0; 0] ++ slice f 26 8) as Hw.
  { rewrite Hsp at 1. rewrite (app_assoc (take _ f)). pose proof (zlen_take f 14 ltac:(lia)) as L1. pose proof (zlen_slice f 14 10 ltac:(lia) ltac:(lia) ltac:(lia)) as L2.
    rewrite wipe_app by (rewrite zlen_app; lia). set (mid := slice f 14 10 ++ [0; 0] ++ slice f 26 8).
    replace ((take (Z.to_nat 14) f ++ slice f 14 10) ++ [0; 0] ++ slice f 26 8 ++ drop (Z.to_nat 34) f)
      with (take (Z.to_nat 14) f ++ mid ++ drop (Z.to_nat 34) f) by (unfold mid; by rewrite <- !app_assoc).
    assert (zlen mid = 20) as L3 by (unfold mid; rewrite !zlen_app, !zlen_slice by lia; done).
    pose proof (slice_app (take (Z.to_nat 14) f) mid (drop (Z.to_nat 34) f)) as Hsl. by rewrite L1, L3 in Hsl. }
  unfold ipv4_is_checksum_valid. wp_steps.
  apply (wp_ipv4_calculate_checksum _ (Ptr d 14) (take (Z.to_nat 14) f) (slice f 14 10) (byte f 24) (byte f 25) (slice f 26 8) (drop (Z.to_nat 34) f));
    [done|by rewrite <- Hsp|cbn [off]; by rewrite zlen_take by lia|apply zlen_slice; lia|apply zlen_slice; lia|].
  rewrite <- Hw. wp_steps. apply (wp_load16_at _ (ptr_add (Ptr d 14) 10) f); [done|cbn [off ptr_add]; lia|cbn [off ptr_add]; lia|].
  cbn [off ptr_add]. change (byte f (14 + 10) + byte f (14 + 10 + 1) * 2 ^ 8) with (le16 f 24). rewrite ntohs_le16 by done. wp_steps.
  assert (with_mem (n_mem s) s = s) as -> by (by destruct s). exact HQ.
Qed.

(** UDP packets for [me] fit. *)
Definition udp_safe me f : Prop :=
  be16 f 12 = 0x800 -> ipv4_accepted me f = true -> byte f 23 = 17 -> 28 <= be16 f 16 -> udp_fits f.

Lemma wp_net_handle_ipv4 s d netif me f :
  arrived s d netif me f -> 64 <= zlen f -> be16 f 12 = 0x800 -> udp_safe me f ->
  wp (net_handle_ipv4 netif (Ptr d 0) (zlen f)) (fun _ s' => handled s d netif me (ipv4_answer me f) s') only_nomem s.
Proof.
  intros Ha Hs Hty Hudp. pose proof Ha as [Hok Hme Hf Hne Hsz]. pose proof (mo_u8 _ Hok _ _ Hf) as Uf. pose proof (handled_nothing _ _ _ _ _ Ha) as Hnone.
  specialize (Hudp Hty). unfold net_handle_ipv4, ETHERNET_SIZE, IPV4_SIZE. rewrite (proj2 (Z.ltb_ge (zlen f) (14 + 20))) by lia.
  cbv zeta. change (ptr_add (Ptr d 0) 14) with (Ptr d 14).
  wp_steps. apply (frame_byte s d netif me f); [exact Ha|done|cbn [off ptr_add]; lia|]. cbn [off].
  unfold ipv4_answer, ipv4_accepted in *.
  destruct (Z.land (byte f 14) 0x0F =? 5); cbn [negb andb] in *; [|by wp_steps].
  destruct (Z.shiftr (Z.land (byte f 14) 0xF0) 4 =? 4); cbn [negb andb] in *; [|by wp_steps].
  wp_steps. apply (frame_word s d netif me f); [exact Ha|done|cbn [off ptr_add]; lia|cbn [off ptr_add]; lia|]. cbn [off ptr_add].
  change (14 + 2) with 16. rewrite ntohs_le16 by done.
  destruct (Z.ltb_spec (be16 f 16) 20) as [Hl|Hl]; [rewrite (proj2 (Z.leb_gt 20 (be16 f 16))) by lia; cbn [andb]; by wp_steps|].
  rewrite (proj2 (Z.leb_le 20 (be16 f 16))) in * by lia. cbn [andb] in *.
  destruct (Z.ltb_spec (zlen f) (be16 f 16 + 14 + 4)) as [Hl2|Hl2]; [rewrite (proj2 (Z.leb_gt (be16 f 16 + 18) (zlen f))) by lia; cbn [andb]; by wp_steps|].
  rewrite (proj2 (Z.leb_le (be16 f 16 + 18) (zlen f))) in * by lia. cbn [andb] in *.
  wp_steps. apply (frame_word s d netif me f); [exact Ha|done|cbn [off ptr_add]; lia|cbn [off ptr_add]; lia|]. cbn [off ptr_add].
  change (14 + 6) with 20. rewrite ntohs_le16 by done.
  destruct (Z.land (Z.shiftr (Z.land (be16 f 20) 0xE000) 13) 0x1 =? 0); cbn [negb andb] in *; [|by wp_steps].
  destruct (Z.land (Z.shiftr (Z.land (be16 f 20) 0xE000) 13) 0x4 =? 0); cbn [negb andb] in *; [|by wp_steps].
  wp_steps. apply (wp_ipv4_is_checksum_valid s d netif me f); [exact Ha|lia|].
  destruct (inet_checksum (slice (wipe f 24) 14 20) =? be16 f 24); cbn [negb andb] in *; [|by wp_steps].
  wp_steps. apply wp_zmem. destruct (iface_fields _ _ _ Hme) as (F1 & _). pose proof Hme as [_ (_ & _ & L1 & _)].
  apply (memcmp_same (n_mem s) _ _ (slice f 30 4) (i_ip me)); [done|apply (frame_slice _ _ _ _ _ 30 4 Ha); lia|exact F1|by rewrite zlen_slice by lia|done|].
  intros r Hr. rewrite Hr. assert (with_mem (n_mem s) s = s) as -> by (by destruct s).
  destruct (bool_decide (slice f 30 4 = i_ip me)); cbn [andb] in *; [|by wp_steps]. specialize (Hudp eq_refl).
  wp_steps. apply (frame_byte s d netif me f); [exact Ha|done|cbn [off ptr_add]; lia|]. cbn [off ptr_add]. change (14 + 9) with 23.
  unfold IPV4_TYPE_ICMP, IPV4_TYPE_TCP, IPV4_TYPE_UDP.
  destruct (Z.eqb_spec (byte f 23) 1); [apply wp_net_handle_icmp; [done|lia|lia]|].
  destruct (Z.eqb_spec (byte f 23) 6); [apply (wp_net_handle_tcp s d netif me f); [done|lia|lia]|].
  destruct (Z.eqb_spec (byte f 23) 17) as [H17|]; [|by wp_steps].
  destruct (Z.lt_ge_cases (be16 f 16) 28) as [Hsh|Hsh].
  - unfold net_handle_udp, udp_answer, UDP_SIZE. rewrite (proj2 (Z.ltb_lt (be16 f 16 - 20) 8)) by lia. by wp_steps.
  - apply wp_net_handle_udp; [done|lia|lia|by apply Hudp].
Qed.

(** *** ARP *)

(** The greeting, in memory of its own. *)
Definition greeting s (msg : ptr) (text : list Z) (netif : Z) : Prop :=
  cstr (n_mem s) msg text /\ base msg <> netif /\ zlen text < 4000.

Lemma wp_learn s d netif me f (Q : unit -> nstate H -> Prop) E (K : M (nstate H) unit) :
  arrived s d netif me f -> 64 <= zlen f ->
  (let me' := learn (slice f 22 6) me in let s' := with_mem (put_obj netif (iface_bytes me') (n_mem s)) s in
   arrived s' d netif me' f -> wp K Q E s') ->
  wp (zoom mem_lens (memcpy (netif_gateway_mac netif) (Ptr d 22) 6) >>>
      zoom mem_lens (store (netif_gateway_mac_configured netif) 1) >>> K) Q E s.
Proof.
  intros Ha Hs HK. pose proof Ha as [Hok [I1 I2] Hf Hne Hsz]. pose proof (mo_u8 _ Hok _ _ Hf) as Uf. pose proof I2 as (B1 & B2 & B3 & B4 & B5 & B6 & B7).
  pose proof (mem_base _ _ _ Hok Hf). pose proof (mem_base _ _ _ Hok I1).
  set (mac := slice f 22 6) in *. assert (zlen mac = 6) as Lm by (apply zlen_slice; lia).
  set (pre := i_calls me ++ le32 (i_extra me) ++ i_ip me ++ i_mac me ++ i_gateway me).
  assert (zlen pre = 26) as Lpre by (unfold pre; rewrite !zlen_app, B1, B3, B4, B5; done).
  assert (forall m c, i_calls me ++ le32 (i_extra me) ++ i_ip me ++ i_mac me ++ i_gateway me ++ m ++ [c] ++ i_rest me = pre ++ m ++ [c] ++ i_rest me) as Hre
    by (intros m c; unfold pre; by rewrite <- !app_assoc).
  wp_steps. apply wp_zmem. rewrite <- Lm.
  apply (wp_memcpy_in _ _ (Ptr d 22) pre (i_gateway_mac me) ([Z.b2z (i_configured me)] ++ i_rest me) mac).
  - rewrite <- Hre. exact I1.
  - cbn. lia.
  - cbn. lia.
  - cbn. congruence.
  - by destruct mac.
  - by rewrite Lpre.
  - lia.
  - apply (frame_slice _ _ _ _ _ 22 6 Ha); lia.
  - by apply slice_Forall.
  - wp_steps. apply wp_zmem. cbn [base netif_gateway_mac].
    replace (pre ++ mac ++ [Z.b2z (i_configured me)] ++ i_rest me) with ((pre ++ mac) ++ Z.b2z (i_configured me) :: i_rest me) by (by rewrite <- app_assoc).
    set (s1 := with_mem _ s). change (n_mem s1) with (put_obj netif ((pre ++ mac) ++ Z.b2z (i_configured me) :: i_rest me) (n_mem s)).
    apply (wp_store_at (n_mem s) (netif_gateway_mac_configured netif)); [cbn [off netif_gateway_mac_configured]; rewrite zlen_app; lia|].
    change (u8 1) with 1. cbn [base netif_gateway_mac_configured].
    assert ((pre ++ mac) ++ 1 :: i_rest me = iface_bytes (learn mac me)) as Hnew.
    { unfold iface_bytes, learn. cbn [i_calls i_extra i_ip i_mac i_gateway i_gateway_mac i_configured i_rest Z.b2z]. rewrite Hre, <- app_assoc. done. }
    rewrite Hnew. apply HK. split; [|split; [cbn; by rewrite lookup_insert_eq|]|cbn; by rewrite lookup_insert_ne|done|done].
    + split; [by apply Hok|..]; intros b o; cbn; rewrite lookup_insert_Some.
      * intros [[<- _]|[_ Hb]]; [by apply (mo_live _ Hok _ _ I1)|by apply (mo_live _ Hok _ _ Hb)].
      * intros [[_ <-]|[_ Hb]]; [|by apply (mo_u8 _ Hok _ _ Hb)]. change (Forall is_u8 (iface_bytes (learn mac me))). rewrite <- Hnew. pose proof (mo_u8 _ Hok _ _ I1) as Hu.
        unfold iface_bytes in Hu. rewrite Hre, !Forall_app in Hu. destruct Hu as (U1 & _ & _ & U4).
        rewrite Forall_app, Forall_cons, Forall_app. split; [split; [done|by apply slice_Forall]|]. done.
    + done.
Qed.

Lemma wp_net_handle_arp s d netif me f msg text :
  arrived s d netif me f -> 64 <= zlen f -> greeting s msg text netif ->
  wp (net_handle_arp msg netif (Ptr d 0) (zlen f))
    (fun _ s' => handled s d netif (arp_answer text me f).1 (arp_answer text me f).2 s') only_nomem s.
Proof.
  intros Ha Hs (Hmsg & Hm2 & Hm3). pose proof Ha as [Hok Hme Hf Hne Hsz]. pose proof (mo_u8 _ Hok _ _ Hf) as Uf.
  pose proof (handled_nothing _ _ _ _ _ Ha) as Hnone. destruct (iface_fields _ _ _ Hme) as (F1 & F2 & F3 & _).
  pose proof Hme as [_ (_ & _ & L1 & L2 & L3 & _)].
  unfold net_handle_arp, ETHERNET_SIZE, IPV4_SIZE, arp_answer. rewrite (proj2 (Z.ltb_ge (zlen f) (14 + 20))) by lia.
  cbv zeta. change (ptr_add (Ptr d 0) 14) with (Ptr d 14).
  wp_steps. apply (frame_word s d netif me f); [exact Ha|done|cbn [off]; lia|cbn [off]; lia|]. cbn [off]. rewrite ntohs_le16 by done.
  destruct (be16 f 14 =? 1); cbn [negb andb]; [|by wp_steps].
  wp_steps. apply (frame_word s d netif me f); [exact Ha|done|cbn [off ptr_add]; lia|cbn [off ptr_add]; lia|]. cbn [off ptr_add]. change (14 + 2) with 16.
  rewrite ntohs_le16 by done. unfold ETHERNET_TYPE_IPV4. destruct (be16 f 16 =? 0x800); cbn [negb andb]; [|by wp_steps].
  wp_steps. apply (frame_byte s d netif me f); [exact Ha|done|cbn [off ptr_add]; lia|]. cbn [off ptr_add]. change (14 + 4) with 18.
  destruct (byte f 18 =? 6); cbn [negb andb]; [|by wp_steps].
  wp_steps. apply (frame_byte s d netif me f); [exact Ha|done|cbn [off ptr_add]; lia|]. cbn [off ptr_add]. change (14 + 5) with 19.
  destruct (byte f 19 =? 4); cbn [negb andb]; [|by wp_steps].
  wp_steps. apply (frame_word s d netif me f); [exact Ha|done|cbn [off ptr_add]; lia|cbn [off ptr_add]; lia|]. cbn [off ptr_add]. change (14 + 6) with 20.
  rewrite ntohs_le16 by done. unfold ARP_OPCODE_REQUEST, ARP_OPCODE_REPLY.
  change (ptr_add (Ptr d 14) 24) with (Ptr d 38). change (ptr_add (Ptr d 14) 14) with (Ptr d 28). change (ptr_add (Ptr d 14) 8) with (Ptr d 22).
  change (ptr_add (Ptr d 0) 6) with (Ptr d 6). assert (with_mem (n_mem s) s = s) as Hsame by (by destruct s).
  destruct (Z.eqb_spec (be16 f 20) 1) as [Hop|Hop]; [|destruct (Z.eqb_spec (be16 f 20) 2) as [Hop2|Hop2]; [|by wp_steps]].
  - wp_steps. apply wp_zmem. apply (memcmp_same (n_mem s) _ _ (i_ip me) (slice f 38 4)); [done|exact F1|apply (frame_slice _ _ _ _ _ 38 4 Ha); lia|done|by rewrite zlen_slice by lia|].
    intros r Hr. rewrite Hr, Hsame. rewrite (bool_decide_ext _ (slice f 38 4 = i_ip me)) by (split; congruence).
    destruct (bool_decide (slice f 38 4 = i_ip me)); [|by wp_steps].
    wp_apply (wp_net_send_arp s netif me (netif_mac netif) (Ptr d 6) 2 (netif_mac netif) (netif_ip netif) (Ptr d 22) (Ptr d 28) (i_mac me) (slice f 6 6) (i_mac me) (i_ip me) (slice f 22 6) (slice f 28 4));
      [done|done|done|apply (frame_slice _ _ _ _ _ 6 6 Ha); lia|done|done|apply (frame_slice _ _ _ _ _ 22 6 Ha); lia|apply (frame_slice _ _ _ _ _ 28 4 Ha); lia
      |done|apply zlen_slice; lia|done|done|apply zlen_slice; lia|apply zlen_slice; lia| |done].
    intros r' s1 [_ Hs1]. wp_steps. by apply (sends_handled s d netif me f).
  - wp_steps. apply wp_zmem. apply (memcmp_same (n_mem s) _ _ (slice f 28 4) (i_gateway me)); [done|apply (frame_slice _ _ _ _ _ 28 4 Ha); lia|exact F3|by rewrite zlen_slice by lia|done|].
    intros r Hr. rewrite Hr, Hsame. destruct (bool_decide (slice f 28 4 = i_gateway me)); [|by wp_steps].
    apply (wp_learn s d netif me f); [done|lia|]. cbv zeta. set (me' := learn _ me). set (s1 := with_mem _ s). intros Ha1.
    assert (cstr (n_mem s1) msg text) as Hmsg1.
    { destruct Hmsg as ((pre & post & Ho & Hoff) & R). split; [|done]. exists pre, post. split; [|done]. cbn. by rewrite lookup_insert_ne by done. }
    wp_steps. apply wp_zmem. eapply wp_mono; [apply (wp_strlen (n_mem s1) msg text); [|exact Hmsg1]| |by intros e []].
    { destruct Hmsg as ((pre & post & Ho & _) & _). pose proof (mem_base _ _ _ Hok Ho). lia. }
    intros n m [-> ->]. assert (with_mem (n_mem s1) s1 = s1) as -> by done. pose proof (zlen_nonneg text).
    rewrite u16_small by (unfold is_u16; lia). pose proof Ha1 as [Hok1 Hme1 _ _ _]. destruct (iface_fields _ _ _ Hme1) as (_ & _ & G3 & _).
    wp_apply (wp_net_send_udp s1 netif me' (netif_gateway netif) 1234 4321 msg (i_gateway me) (text ++ [0]));
      [done|done|exact G3|by destruct Hmsg1|done|by rewrite zlen_app|rewrite zlen_app; change (zlen [0]) with 1; lia| |done].
    intros r' s2 Hs2. wp_steps. pose proof (sends_handled _ _ _ _ _ _ _ Ha1 Hs2) as (f' & K1 & K2 & K3). exists f'. split; [|split; [exact K2|exact K3]].
    rewrite K1. cbn [n_mem s1 with_mem put_obj m_objs]. by rewrite insert_insert_eq.
Qed.
End handlers.
