(* ===== verification/NetTask.v ===== *)
(** * The network task serves frames

    [ktask_net] from the packet that the card's interrupt makes to the answers
    it gets back, and what this means for pings. *)
From S2P Require Import Prelude Interfaces Strings Net NetMem NetSum NetSend NetSpec.

Section task.
Context {H : Type} `{KHeapLaws H}.
Implicit Types (s : nstate H) (me : iface) (f : list Z).

Lemma wp_free_object m b o :
  heap_ok (m_heap m) -> m_objs m !! b = Some o -> b ∈ heap_live (m_heap m) ->
  wp (free_bytes (Ptr b 0)) (fun _ m' => m_objs m' = delete b (m_objs m) /\
    heap_live (m_heap m') = heap_live (m_heap m) ∖ {[ b ]} /\ heap_ok (m_heap m')) never m.
Proof.
  intros Hok Ho Hb. unfold free_bytes. wp_steps. apply wp_zoom. cbn [lget m_lens base].
  eapply wp_mono; [by apply kfree_spec| |done]. intros [] h (Hh & Hl). cbn [lset m_lens]. by wp_steps.
Qed.

Lemma emit_store32 s s1 b pre k v p (Q : unit -> nstate H -> Prop) E :
  building s b (pre ++ replicate (4 + k) 0) s1 -> base p = b -> off p = zlen pre ->
  (forall s2, building s b ((pre ++ le32 v) ++ replicate k 0) s2 -> Q tt s2) -> wp (zoom mem_lens (store32 p v)) Q E s1.
Proof.
  intros (Hh & R) Hb Ho HQ. pose proof Hh as (A & _). apply wp_zmem. unfold store32. wp_steps.
  apply (wp_store16_in _ _ pre 0 0 ([0; 0] ++ replicate k 0)); [rewrite A, Hb; by rewrite lookup_insert_eq|done|]. cbn [base ptr_add].
  rewrite (app_assoc pre).
  apply (wp_store16_at (n_mem s1) (ptr_add p 2) (pre ++ [u8 v; u8 (v / 2 ^ 8)]) 0 0 (replicate k 0)); [cbn [off ptr_add]; rewrite zlen_app; by rewrite Ho|].
  apply HQ. split; [|done]. rewrite <- !app_assoc. cbn [base ptr_add]. rewrite Hb.
  assert ([u8 v; u8 (v / 2 ^ 8)] ++ [u8 (v / 2 ^ 16); u8 (v / 2 ^ 16 / 2 ^ 8)] ++ replicate k 0 = le32 v ++ replicate k 0) as ->
    by (rewrite Z.div_div by lia; done).
  by eapply holding_put.
Qed.

(** A frame comes in: the packet and the frame are two new objects. *)
Lemma wp_e1000_packet s f :
  mem_ok (n_mem s) -> 1 <= zlen f <= 4096 ->
  wp (e1000_packet f) (fun p s' => exists d, p <> d /\ 0 < p /\ is_u32 d /\
    m_objs (n_mem s') = <[p := le32 (zlen f) ++ le32 d]> (<[d := f]> (m_objs (n_mem s))) /\
    heap_live (m_heap (n_mem s')) = {[ p ]} ∪ ({[ d ]} ∪ heap_live (m_heap (n_mem s))) /\ heap_ok (m_heap (n_mem s')) /\
    m_objs (n_mem s) !! p = None /\ p ∉ heap_live (m_heap (n_mem s)) /\ m_objs (n_mem s) !! d = None /\ d ∉ heap_live (m_heap (n_mem s)) /\
    n_netifs s' = n_netifs s /\ n_tasks s' = n_tasks s /\ n_sent s' = n_sent s) only_nomem s.
Proof.
  intros Hok Hf. unfold e1000_packet. rewrite u16_small by (unfold is_u16; lia). wp_cond. rewrite (proj2 (Z.leb_le (zlen f) 4096)) by lia.
  wp_cond. rewrite (proj2 (Z.eqb_neq (zlen f) 0)) by lia. cbn [negb]. wp_steps. unfold PACKET_SIZE. apply wp_alloc_packet; [done|lia|].
  intros p s1 Hp Hb. wp_cond. not_null. cbn [negb]. wp_steps.
  eapply (emit_store32 s s1 p [] 4); [exact Hb|done|done|]. clear Hb. intros s2 Hb. rewrite app_nil_l in Hb.
  assert (Forall is_u8 (le32 (zlen f) ++ replicate 4 0)) as Hu.
  { apply Forall_app. split; [unfold le32, is_u8; repeat constructor; apply Z.mod_pos_bound; lia|by apply Forall_replicate]. }
  pose proof (building_mem _ _ _ _ Hok Hu Hb) as Hok2. wp_steps. apply wp_zmem.
  eapply wp_mono; [apply (wp_local_bytes _ f Hok2); lia| |done]. intros q m (d & -> & Hd).
  destruct Hb as ((B1 & B2 & B3 & B4 & B5 & B6) & R1 & R2 & R3). destruct Hd as (D1 & D2 & D3 & D4 & D5 & D6).
  assert (p <> d) as Hpd by (intros ->; rewrite B1, lookup_insert_eq in D4; done).
  assert (m_objs m !! p = Some (le32 (zlen f) ++ 0 :: 0 :: [0; 0])) as Hpo by (rewrite D1, lookup_insert_ne, B1, lookup_insert_eq by congruence; done).
  wp_steps. apply wp_zmem. unfold store32. wp_steps. cbn [base ptr_add off].
  apply (wp_store16_in _ _ (le32 (zlen f)) 0 0 [0; 0]); [exact Hpo|done|]. cbn [base ptr_add off]. rewrite app_assoc.
  apply (wp_store16_at _ (Ptr p 6) (le32 (zlen f) ++ [u8 d; u8 (d / 2 ^ 8)]) 0 0 []); [done|]. wp_steps. cbn [base].
  exists d. split; [done|]. split; [done|]. split; [unfold is_u32; lia|]. cbn [n_mem with_mem m_objs m_heap put_obj n_netifs n_tasks n_sent].
  rewrite app_nil_r, <- app_assoc. rewrite Z.div_div by lia. change (2 ^ 16 * 2 ^ 8) with (2 ^ 24).
  change ([u8 d; u8 (d / 2 ^ 8)] ++ [u8 (d / 2 ^ 16); u8 (d / 2 ^ 24)]) with (le32 d).
  split; [|split; [|split; [done|]]].
  - rewrite D1, B1. rewrite (insert_insert_ne _ d p) by congruence. by rewrite insert_insert_eq.
  - rewrite D2, B2. set_solver.
  - split; [done|]. split; [done|]. split; [|split; [|done]].
    + by rewrite B1, lookup_insert_ne in D4.
    + rewrite B2 in D5. set_solver.
Qed.

(** [s'] is [s] after frames were handled: only the interface's memory
    changed, and nothing was kept. *)
Definition served s (netif : Z) me (fs : list (Z * list Z)) s' : Prop :=
  m_objs (n_mem s') = <[netif := iface_bytes me]> (m_objs (n_mem s)) /\
  heap_live (m_heap (n_mem s')) = heap_live (m_heap (n_mem s)) /\ n_netifs s' = n_netifs s /\ n_tasks s' = n_tasks s /\
  n_sent s' = n_sent s ++ fs.

(** A network interface at work. *)
Record net_ready s (msg : ptr) (text : list Z) (netif : Z) me : Prop := NetReady {
  nr_ok : mem_ok (n_mem s);
  nr_iface : iface_at s netif me;
  nr_msg : greeting s msg text netif;
}.

(** Frames the stack is proved for: of Ethernet's sizes with the card's checksum at the end. *)
Definition frame_ok me f : Prop := 64 <= zlen f <= 4096 /\ Forall is_u8 f /\ udp_safe me f.

Lemma served_ready s msg text netif me me' fs s' :
  net_ready s msg text netif me -> iface_ok me' -> Forall is_u8 (iface_bytes me') -> heap_ok (m_heap (n_mem s')) ->
  served s netif me' fs s' -> net_ready s' msg text netif me'.
Proof.
  intros [Hok [I1 I2] (M1 & M2 & M3)] Hi Hu Hh (S1 & S2 & _). split.
  - split; [done|..]; intros b o; rewrite S1, lookup_insert_Some.
    + rewrite S2. intros [[<- _]|[_ Hb]]; [by apply (mo_live _ Hok _ _ I1)|by apply (mo_live _ Hok _ _ Hb)].
    + intros [[_ <-]|[_ Hb]]; [done|by apply (mo_u8 _ Hok _ _ Hb)].
  - split; [|done]. rewrite S1. by rewrite lookup_insert_eq.
  - split; [|done]. destruct M1 as ((pre & post & Ho & Hoff) & R). split; [|done]. exists pre, post. rewrite S1, lookup_insert_ne by done. done.
Qed.

Lemma answer_dispatch s d netif me f msg text :
  arrived s d netif me f -> 64 <= zlen f -> udp_safe me f -> greeting s msg text netif ->
  wp (if be16 f 12 =? ETHERNET_TYPE_ARP then net_handle_arp msg netif (Ptr d 0) (zlen f)
      else if be16 f 12 =? ETHERNET_TYPE_IPV4 then net_handle_ipv4 netif (Ptr d 0) (zlen f) else ret tt)
    (fun _ s' => handled s d netif (answer text me f).1 (answer text me f).2 s') only_nomem s.
Proof.
  intros Ha Hs Hu Hg. unfold answer, ETHERNET_TYPE_ARP, ETHERNET_TYPE_IPV4.
  destruct (be16 f 12 =? 0x806); [by apply wp_net_handle_arp|].
  destruct (Z.eqb_spec (be16 f 12) 0x800); cbn [fst snd]; [by apply wp_net_handle_ipv4|]. wp_steps. by apply (handled_nothing _ _ _ _ f).
Qed.

Lemma wp_serve s msg text netif me f :
  net_ready s msg text netif me -> frame_ok me f ->
  wp (let! p := e1000_packet f in ktask_net_round msg netif p)
    (fun _ s' => served s netif (answer text me f).1 (answer text me f).2 s' /\ net_ready s' msg text netif (answer text me f).1) only_nomem s.
Proof.
  intros Hr (Hs & Uf & Hudp). pose proof Hr as [Hok [I1 I2] (G1 & G2 & G3)].
  wp_apply wp_e1000_packet; [done|lia| |done]. intros p s1 (d & Hpd & Hp & Hd & M1 & M2 & M3 & M4 & M5 & M6 & M7 & R1 & R2 & R3).
  unfold ktask_net_round. wp_cond. rewrite (proj2 (Z.eqb_neq p 0)) by lia. cbn [negb]. wp_steps. apply wp_zmem.
  assert (m_objs (n_mem s1) !! p = Some ([] ++ le32 (zlen f) ++ le32 d)) as Hpo by (rewrite M1; by rewrite lookup_insert_eq).
  apply (wp_load32_le _ (Ptr p 0) [] (zlen f) (le32 d)); [exact Hpo|done|unfold is_u32; lia|]. wp_steps. apply wp_zmem.
  apply (wp_load32_le _ (Ptr p 4) (le32 (zlen f)) d []); [cbn [base]; change (n_mem (with_mem (n_mem s1) s1)) with (n_mem s1); rewrite Hpo; by rewrite app_nil_r|done|done|].
  wp_steps. apply wp_zmem. eapply wp_mono; [apply (wp_free_object _ p _ M3 Hpo); cbn; rewrite M2; set_solver| |by intros e []].
  intros [] m (N1 & N2 & N3). cbn [n_mem with_mem] in N1, N2.
  set (s2 := with_mem m _). assert (building s d f s2) as Hb.
  { split; [|done]. cbn [n_mem s2 with_mem]. split; [|split; [|split; [done|split; [done|split; [done|]]]]].
    - rewrite N1, M1. rewrite delete_insert_id; [done|]. by rewrite lookup_insert_ne.
    - rewrite N2, M2. set_solver.
    - apply (heap_live_range (m_heap m)); [done|]. rewrite N2, M2. set_solver. }
  unfold ETHERNET_SIZE. rewrite (proj2 (Z.ltb_ge (zlen f) 14)) by lia.
  assert (d <> netif) as Hdn by (intros ->; congruence).
  assert (arrived s2 d netif me f) as Ha.
  { split; [exact (building_mem _ _ _ _ Hok Uf Hb)|exact (iface_building _ _ _ _ _ _ Hb (conj I1 I2))| |done|lia].
    destruct Hb as ((B1 & _) & _). rewrite B1. by rewrite lookup_insert_eq. }
  assert (greeting s2 msg text netif) as Hg.
  { split; [|done]. destruct G1 as (Hat & R). split; [|done]. exact (proj2 (bytes_at_building _ _ _ _ _ _ Hb Hat)). }
  wp_steps. apply (frame_word s2 d netif me f); [exact Ha|done|cbn [off ptr_add]; lia|cbn [off ptr_add]; lia|]. cbn [off ptr_add]. change (0 + 12) with 12.
  rewrite ntohs_le16 by done. wp_steps. eapply wp_mono; [by apply (answer_dispatch s2 d netif me f msg text); [|lia|..]| |done].
  intros [] s3 (f' & K1 & K2 & K3 & K4 & K5 & K6 & K7 & K8 & K9). destruct Hb as ((B1 & B2 & _) & _).
  apply wp_zmem. eapply wp_mono; [apply (wp_free_object _ d f' K3)| |by intros e []].
  { rewrite K1. by rewrite lookup_insert_eq. }
  { rewrite K2, B2. set_solver. }
  intros [] m4 (L1' & L2' & L3'). set (me' := (answer text me f).1) in *.
  assert (served s netif me' (answer text me f).2 (with_mem m4 s3)) as Hsv.
  { split; [|split; [|split; [|split]]]; cbn [n_mem with_mem n_netifs n_tasks n_sent].
    - rewrite L1', K1, B1. rewrite delete_insert_eq, delete_insert_ne by done. rewrite delete_insert_eq. by rewrite delete_id.
    - rewrite L2', K2, B2. set_solver.
    - by rewrite K7.
    - by rewrite K8.
    - rewrite K9. cbn [s2 with_mem n_sent]. by rewrite R3. }
  split; [exact Hsv|]. by eapply served_ready.
Qed.

(** ** Any number of frames *)

Lemma answer_ip text me f : i_ip (answer text me f).1 = i_ip me.
Proof. unfold answer, arp_answer. repeat (case_match; try done). Qed.

Lemma frame_ok_ip me me' f : i_ip me' = i_ip me -> frame_ok me f -> frame_ok me' f.
Proof. intros Hip (A & B & C). split; [done|]. split; [done|]. revert C. unfold udp_safe, ipv4_accepted. by rewrite Hip. Qed.
End task.

(** The interface after the frames [fs] and what they are answered with. *)
Fixpoint answers (text : list Z) (me : iface) (fs : list (list Z)) : iface * list (Z * list Z) :=
  match fs with
  | [] => (me, [])
  | f :: fs' =>
      let a := answer text me f in
      let r := answers text a.1 fs' in
      (r.1, a.2 ++ r.2)
  end.

Section serve.
Context {H : Type} `{KHeapLaws H}.
Implicit Types (s : nstate H) (me : iface) (f : list Z).

Lemma served_trans s s1 s2 netif me me' fs gs :
  served s netif me fs s1 -> served s1 netif me' gs s2 -> served s netif me' (fs ++ gs) s2.
Proof.
  intros (A1 & A2 & A3 & A4 & A5) (B1 & B2 & B3 & B4 & B5). split; [|split; [congruence|split; [congruence|split; [congruence|]]]].
  - by rewrite B1, A1, insert_insert_eq.
  - by rewrite B5, A5, app_assoc.
Qed.

Lemma wp_ktask_net s msg text netif me (fs : list (list Z)) :
  net_ready s msg text netif me -> Forall (frame_ok me) fs ->
  wp (ktask_net msg netif fs)
    (fun _ s' => served s netif (answers text me fs).1 (answers text me fs).2 s' /\ net_ready s' msg text netif (answers text me fs).1) only_nomem s.
Proof.
  intros Hr Hf. revert s me Hr Hf. induction fs as [|f fs IH]; intros s me Hr Hf; cbn [ktask_net answers fst snd].
  - wp_steps. split; [|done]. pose proof Hr as [_ [I1 _] _]. split; [by rewrite insert_id|]. by rewrite app_nil_r.
  - apply Forall_cons in Hf as [Hf Hfs].
    assert (wp (let! p := e1000_packet f in ktask_net_round msg netif p) (fun _ s1 => wp (ktask_net msg netif fs)
      (fun _ s' => served s netif (answers text (answer text me f).1 fs).1 ((answer text me f).2 ++ (answers text (answer text me f).1 fs).2) s' /\
        net_ready s' msg text netif (answers text (answer text me f).1 fs).1) only_nomem s1) only_nomem s) as Hw.
    { eapply wp_mono; [by eapply wp_serve| |done]. intros _ s1 [Hs1 Hr1].
      eapply wp_mono; [apply (IH s1 (answer text me f).1 Hr1)| |done].
      - eapply Forall_impl; [exact Hfs|]. intros g. by apply frame_ok_ip, answer_ip.
      - intros _ s2 [Hs2 Hr2]. split; [by eapply served_trans|done]. }
    revert Hw. rewrite !wp_bind. intros Hw. eapply wp_mono; [exact Hw| |done]. intros p s1. by rewrite wp_bind.
Qed.
End serve.

(** ** Pings *)

(** The frame of an echo request for [me]; [fcs] is what the card leaves of
    Ethernet's own checksum. *)
Definition ping (me : iface) (mac ip : list Z) (ident : Z) (id seq payload fcs : list Z) : list Z :=
  ethernet (i_mac me) mac 0x800 (ipv4 ident 1 ip (i_ip me) (icmp_echo 8 id seq payload)) ++ fcs.

Definition pong (me : iface) (mac ip : list Z) (ident : Z) (id seq payload : list Z) : list Z :=
  ethernet mac (i_mac me) 0x800 (ipv4 (htons ident) 1 (i_ip me) ip (icmp_echo 0 id seq payload)).

(** The same request and reply, with the checksums of RFC 1071. *)
Definition rfc_ipv4 (ident proto : Z) (src dst data : list Z) : list Z :=
  let header := ipv4_header (20 + zlen data) ident proto src dst in
  header (rfc1071 (header 0)) ++ data.

Definition rfc_echo (type : Z) (id seq payload : list Z) : list Z :=
  let with_sum c := [type; 0] ++ c ++ id ++ seq ++ payload in
  with_sum (be (rfc1071 (with_sum [0; 0]))).

Definition echo_request (me : iface) (mac ip : list Z) (ident : Z) (id seq payload fcs : list Z) : list Z :=
  ethernet (i_mac me) mac 0x800 (rfc_ipv4 ident 1 ip (i_ip me) (rfc_echo 8 id seq payload)) ++ fcs.

Definition echo_reply (me : iface) (mac ip : list Z) (ident : Z) (id seq payload : list Z) : list Z :=
  ethernet mac (i_mac me) 0x800 (rfc_ipv4 (htons ident) 1 (i_ip me) ip (rfc_echo 0 id seq payload)).

Lemma inet_checksum_even l : Forall is_u8 l -> zlen l mod 2 = 0 -> inet_checksum l = rfc1071 l.
Proof. intros Hl He. rewrite inet_checksum_rfc1071 by done. unfold even_part. by rewrite He. Qed.

Lemma inet_checksum_u16 l : Forall is_u8 l -> is_u16 (inet_checksum l).
Proof.
  intros Hl. pose proof (sum_words_bound l Hl). pose proof (ones_sum_range (sum (words l)) ltac:(lia)). unfold inet_checksum, is_u16. lia.
Qed.

(** Lists of a known length, element by element. *)
Lemma list_of_2 (l : list Z) : zlen l = 2 -> exists a b, l = [a; b].
Proof. destruct l as [|a [|b [|c l]]]; intros Hl; try done; [by eexists _, _|]. rewrite !zlen_cons in Hl. pose proof (zlen_nonneg l). lia. Qed.

Lemma list_of_4 (l : list Z) : zlen l = 4 -> exists a b c d, l = [a; b; c; d].
Proof.
  destruct l as [|a [|b l]]; intros Hl; try done. rewrite !zlen_cons in Hl.
  destruct (list_of_2 l ltac:(lia)) as (c & d & ->). by eexists _, _, _, _.
Qed.

Lemma list_of_6 (l : list Z) : zlen l = 6 -> exists a b c d x y, l = [a; b; c; d; x; y].
Proof.
  destruct l as [|a [|b l]]; intros Hl; try done. rewrite !zlen_cons in Hl.
  destruct (list_of_4 l ltac:(lia)) as (c & d & x & y & ->). by eexists _, _, _, _, _, _.
Qed.

Lemma be16_of v : is_u16 v -> v / 2 ^ 8 mod 2 ^ 8 * 2 ^ 8 + v mod 2 ^ 8 = v.
Proof.
  unfold is_u16. intros Hv. rewrite (Z.mod_small (v / 2 ^ 8)) by (split; [apply Z.div_pos; lia|apply Z.div_lt_upper_bound; lia]).
  pose proof (Z.div_mod v (2 ^ 8)). lia.
Qed.

(** What a ping must be for its frame to be one of Ethernet. *)
Record ping_ok (mac ip : list Z) (ident : Z) (id seq payload fcs : list Z) : Prop := PingOk {
  po_mac : zlen mac = 6;
  po_ip : zlen ip = 4;
  po_ident : is_u16 ident;
  po_id : zlen id = 2;
  po_seq : zlen seq = 2;
  po_fcs : zlen fcs = 4;
  po_size : zlen payload <= 4000;
  po_u8 : Forall is_u8 (mac ++ ip ++ id ++ seq ++ payload ++ fcs);
}.

Lemma icmp_echo_u8 type id seq payload :
  is_u8 type -> Forall is_u8 id -> Forall is_u8 seq -> Forall is_u8 payload ->
  Forall is_u8 ([type; 0] ++ [0; 0] ++ id ++ seq ++ payload).
Proof. intros Ht H1 H2 H3. rewrite !Forall_app, Forall_cons. split; [split; [done|by repeat constructor]|]. split; [by repeat constructor|]. done. Qed.

Lemma ipv4_header_u8 size ident proto src dst :
  is_u8 proto -> Forall is_u8 src -> Forall is_u8 dst -> Forall is_u8 (ipv4_header size ident proto src dst 0).
Proof.
  intros Hp H1 H2. unfold ipv4_header. rewrite !Forall_app. pose proof (be_u8 size). pose proof (be_u8 ident). pose proof (be_u8 0).
  split; [by repeat constructor|]. split; [done|]. split; [done|]. split; [|done]. repeat apply Forall_cons_2; [done..|by constructor].
Qed.

Lemma ipv4_rfc ident proto src dst data : is_u8 proto -> zlen src = 4 -> zlen dst = 4 -> Forall is_u8 src -> Forall is_u8 dst ->
  ipv4 ident proto src dst data = rfc_ipv4 ident proto src dst data.
Proof.
  intros Hp Hs Hd Us Ud. unfold ipv4, rfc_ipv4. cbv zeta. rewrite inet_checksum_even; [done|by apply ipv4_header_u8|].
  unfold ipv4_header. rewrite !zlen_app, Hs, Hd. done.
Qed.

Lemma echo_rfc type id seq payload : is_u8 type -> Forall is_u8 id -> Forall is_u8 seq -> Forall is_u8 payload ->
  zlen id = 2 -> zlen seq = 2 -> zlen payload mod 2 = 0 -> icmp_echo type id seq payload = rfc_echo type id seq payload.
Proof.
  intros Ht U1 U2 U3 L1 L2 He. unfold icmp_echo, rfc_echo. cbv zeta. rewrite inet_checksum_even; [done|by apply icmp_echo_u8|].
  rewrite !zlen_app, L1, L2. change (zlen [type; 0]) with 2. change (zlen [0; 0]) with 2.
  replace (2 + (2 + (2 + (2 + zlen payload)))) with (zlen payload + 4 * 2) by lia. by rewrite Z.mod_add.
Qed.

Lemma ping_rfc me mac ip ident id seq payload fcs : zlen (i_ip me) = 4 -> Forall is_u8 (i_ip me) -> ping_ok mac ip ident id seq payload fcs ->
  zlen payload mod 2 = 0 ->
  ping me mac ip ident id seq payload fcs = echo_request me mac ip ident id seq payload fcs /\
  pong me mac ip ident id seq payload = echo_reply me mac ip ident id seq payload.
Proof.
  intros Hl Hu [P1 P2 P3 P4 P5 P6 P7 P8] He. rewrite !Forall_app in P8. destruct P8 as (U1 & U2 & U3 & U4 & U5 & U6).
  unfold ping, pong, echo_request, echo_reply. split; by rewrite echo_rfc, ipv4_rfc.
Qed.

Lemma ping_answer text me mac ip ident id seq payload fcs :
  zlen (i_ip me) = 4 -> zlen (i_mac me) = 6 -> Forall is_u8 (i_ip me) -> ping_ok mac ip ident id seq payload fcs ->
  answer text me (ping me mac ip ident id seq payload fcs) = (me, [(i_extra me, pong me mac ip ident id seq payload)]).
Proof.
  intros M1 M2 V1 [P1 P2 P3 P4 P5 P6 P7 P8]. rewrite !Forall_app in P8. destruct P8 as (U1 & U2 & U3 & U4 & U5 & U6).
  unfold ping, ethernet, pad, ipv4, icmp_echo.
  pose proof (inet_checksum_u16 _ (icmp_echo_u8 8 id seq payload ltac:(done) U3 U4 U5)) as Hc1.
  set (c1 := inet_checksum ([8; 0] ++ [0; 0] ++ _)) in *. set (size := 20 + _).
  pose proof (inet_checksum_u16 _ (ipv4_header_u8 size ident 1 ip (i_ip me) ltac:(done) U2 V1)) as Hc2.
  set (c2 := inet_checksum (ipv4_header _ _ _ _ _ _)) in *. unfold ipv4_header in *.
  pose proof (zlen_nonneg payload) as Hpl.
  assert (size = 28 + zlen payload) as Hsize by (unfold size; rewrite !zlen_app, P4, P5; unfold be, zlen; cbn [length]; lia). clearbody size.
  rewrite <- !app_assoc. set (rest := replicate _ 0 ++ fcs). pose proof (zlen_nonneg rest) as Hrest.
  assert (4 <= zlen rest) as Hr4.
  { unfold rest. rewrite zlen_app, P6. generalize (replicate (Z.to_nat (60 - zlen (i_mac me ++ mac ++ be 0x800 ++ [69; 0] ++ be size ++ be ident ++ [0; 0; 64; 1] ++ be c2 ++ ip ++ i_ip me ++ [8; 0] ++ be c1 ++ id ++ seq ++ payload))) 0). intros l. pose proof (zlen_nonneg l). lia. }
  clearbody rest.
  destruct (list_of_6 _ P1) as (m0 & m1 & m2 & m3 & m4 & m5 & ->), (list_of_4 _ P2) as (p0 & p1 & p2 & p3 & ->),
    (list_of_2 _ P4) as (d0 & d1 & ->), (list_of_2 _ P5) as (q0 & q1 & ->), (list_of_4 _ M1) as (i0 & i1 & i2 & i3 & Hi), (list_of_6 _ M2) as (n0 & n1 & n2 & n3 & n4 & n5 & Hn).
  match goal with |- answer _ _ ?l = _ => set (f := l) end.
  assert (forall i v, be16 f i = v / 2 ^ 8 mod 2 ^ 8 * 2 ^ 8 + v mod 2 ^ 8 -> is_u16 v -> be16 f i = v) as Hword by (intros i v -> Hv; by apply be16_of).
  assert (be16 f 12 = 0x800) as E12 by (unfold f; rewrite Hn; done).
  assert (be16 f 16 = size) as E16 by (apply Hword; [unfold f; rewrite Hn; done|unfold is_u16; lia]).
  assert (zlen f = 14 + size + zlen rest) as Ef by (unfold f; rewrite !zlen_app, M1, M2; unfold be, zlen in *; cbn [length]; lia).
  assert (be16 f 24 = c2) as E24 by (apply Hword; [unfold f; rewrite Hn; done|done]).
  assert (be16 f 36 = c1) as E36 by (apply Hword; [unfold f; rewrite Hn, Hi; done|done]).
  assert (slice f 30 4 = i_ip me) as E30 by (unfold f; rewrite Hn, Hi; done).
  assert (slice f 26 4 = [p0; p1; p2; p3]) as E26 by (unfold f; rewrite Hn; done).
  assert (slice f 6 6 = [m0; m1; m2; m3; m4; m5]) as E6 by (unfold f; rewrite Hn; done).
  assert (slice f 38 2 = [d0; d1] /\ slice f 40 2 = [q0; q1]) as [E38 E40] by (unfold f; rewrite Hn, Hi; done).
  assert (byte f 14 = 0x45 /\ be16 f 20 = 0 /\ byte f 23 = 1 /\ byte f 34 = 8) as (E14 & E20 & E23 & E34) by (unfold f; rewrite Hn, Hi; done).
  assert (slice (wipe f 24) 14 20 = [0x45; 0] ++ be size ++ be ident ++ [0; 0; 64; 1] ++ be 0 ++ [p0; p1; p2; p3] ++ i_ip me) as Ew1
    by (unfold f; rewrite Hn, Hi; done).
  assert (le16 f 18 = htons ident) as E18.
  { rewrite htons_be. unfold f, le16. rewrite Hn. by rewrite Z.add_comm. }
  assert (slice f 42 (size - 28) = payload) as E42.
  { assert (f = take 42 f ++ payload ++ rest) as -> by (unfold f; rewrite Hn, Hi; done).
    pose proof (zlen_take f 42 ltac:(lia)) as Ht. change (Z.to_nat 42) with 42%nat in Ht. rewrite <- Ht at 1.
    replace (size - 28) with (zlen payload) by lia. apply slice_app. }
  assert (slice (wipe f 36) 34 (size - 20) = [8; 0] ++ [0; 0] ++ [d0; d1] ++ [q0; q1] ++ payload) as Ew2.
  { assert (wipe f 36 = (take 34 f ++ [8; 0] ++ [0; 0] ++ [d0; d1] ++ [q0; q1] ++ payload) ++ rest) as -> by (unfold f; rewrite Hn, Hi; done).
    rewrite <- app_assoc. pose proof (zlen_take f 34 ltac:(lia)) as Ht. change (Z.to_nat 34) with 34%nat in Ht. rewrite <- Ht.
    replace (size - 20) with (zlen ([8; 0] ++ [0; 0] ++ [d0; d1] ++ [q0; q1] ++ payload)); [apply slice_app|]. rewrite !zlen_app. unfold zlen at 1 2 3 4. cbn [length]. lia. }
  clearbody f. unfold answer. rewrite E12. cbn [Z.eqb Pos.eqb]. f_equal.
  unfold ipv4_answer, ipv4_accepted. rewrite E14, E16, E20, E24, E30, Ew1, E23. fold c2. rewrite (Z.eqb_refl c2).
  rewrite bool_decide_eq_true_2 by done. rewrite (proj2 (Z.leb_le 20 size)), (proj2 (Z.leb_le (size + 18) (zlen f))) by lia.
  change (_ && true) with true. cbv iota. change (1 =? 1) with true. cbv iota.
  unfold icmp_answer. rewrite E36, Ew2, E34. fold c1. rewrite (Z.eqb_refl c1). cbn [negb].
  rewrite (proj2 (Z.ltb_ge (size - 20) 4)), (proj2 (Z.ltb_ge (size - 24) 4)) by lia. change (8 =? 8) with true. cbn [negb].
  by rewrite E6, E18, E26, E38, E40, E42.
Qed.

Lemma zlen_ping me mac ip ident id seq payload fcs :
  iface_ok me -> ping_ok mac ip ident id seq payload fcs -> 64 <= zlen (ping me mac ip ident id seq payload fcs) <= 4096.
Proof.
  intros (_ & _ & M1 & M2 & _) [P1 P2 P3 P4 P5 P6 P7 P8]. unfold ping, ethernet, pad, ipv4, ipv4_header, icmp_echo.
  cbv beta zeta. rewrite !zlen_app, zlen_replicate. rewrite ?P1, P2, P4, P5, P6, M1, M2. unfold be. rewrite !zlen_cons. change (zlen (@nil Z)) with 0.
  pose proof (zlen_nonneg payload). lia.
Qed.

Lemma ping_frame_ok me mac ip ident id seq payload fcs :
  iface_ok me -> Forall is_u8 (iface_bytes me) -> ping_ok mac ip ident id seq payload fcs -> frame_ok me (ping me mac ip ident id seq payload fcs).
Proof.
  intros Hme Ume Hp. split; [by apply zlen_ping|]. split.
  - destruct Hp as [_ _ _ _ _ _ _ P8]. unfold iface_bytes in Ume. rewrite !Forall_app in P8, Ume. destruct P8 as (U1 & U2 & U3 & U4 & U5 & U6), Ume as (_ & _ & V1 & V2 & _).
    assert (forall k, Forall is_u8 (replicate k 0)) as Hz by (intros k; by apply Forall_replicate).
    unfold ping, ethernet, pad, ipv4, ipv4_header, icmp_echo. rewrite !Forall_app. split_and!; try (done || apply be_u8 || apply Hz); repeat apply Forall_cons_2; done || by constructor.
  - intros _ _ H17. exfalso. revert H17. destruct Hme as (_ & _ & M1 & M2 & _), Hp as [P1 P2 _ _ _ _ _ _].
    destruct (list_of_6 _ P1) as (m0 & m1 & m2 & m3 & m4 & m5 & ->), (list_of_6 _ M2) as (n0 & n1 & n2 & n3 & n4 & n5 & Hn).
    unfold ping. rewrite Hn. by cbv -[replicate].
Qed.

(** ** Registration *)

(** The interface that [net_register_netif] makes, its ARP cache at [cache]. *)
Definition new_iface (send receive : Z) (mac : list Z) (extra cache : Z) : iface :=
  Iface (le32 send ++ le32 receive) extra [10; 0; 0; 2] mac [10; 20; 0; 1] [0; 0; 0; 0; 0; 0] false ([0; 0; 0] ++ le32 cache).

Lemma le32_u8 v : Forall is_u8 (le32 v).
Proof. unfold le32, is_u8. repeat constructor; apply Z.mod_pos_bound; lia. Qed.

Lemma new_iface_u8 send receive mac extra cache : Forall is_u8 mac -> Forall is_u8 (iface_bytes (new_iface send receive mac extra cache)).
Proof.
  intros Hm. unfold iface_bytes, new_iface. cbn [i_calls i_extra i_ip i_mac i_gateway i_gateway_mac i_configured i_rest].
  rewrite !Forall_app. pose proof (le32_u8 send). pose proof (le32_u8 receive). pose proof (le32_u8 extra). pose proof (le32_u8 cache).
  split_and!; done || by repeat constructor.
Qed.

Section register.
Context {H : Type} `{KHeapLaws H}.
Implicit Types (s : nstate H).

(** A byte of an object in use is overwritten. *)
Lemma poke s s1 b pre old post c p (Q : unit -> nstate H -> Prop) E :
  building s b (pre ++ old :: post) s1 -> base p = b -> off p = zlen pre ->
  (forall s2, building s b (pre ++ u8 c :: post) s2 -> Q tt s2) -> wp (zoom mem_lens (store p c)) Q E s1.
Proof.
  intros (Hh & R) Hb Ho HQ. apply wp_zmem. pose proof Hh as (A & _). apply (wp_store_in _ _ pre old post); [|done|].
  - rewrite A, Hb. by rewrite lookup_insert_eq.
  - apply HQ. split; [|done]. rewrite Hb. by eapply holding_put.
Qed.

Lemma wp_new_netif s s1 b send receive mac macp extra (K : M (nstate H) unit) (Q : unit -> nstate H -> Prop) E :
  mem_ok (n_mem s) -> bytes_at (n_mem s) macp mac -> zlen mac = 6 -> building s b ([] ++ replicate 40 0) s1 ->
  (forall s2, building s b ((le32 send ++ le32 receive ++ le32 extra ++ [10; 0; 0; 2] ++ mac ++ [10; 20; 0; 1]) ++ replicate 14 0) s2 -> wp K Q E s2) ->
  wp (zoom mem_lens (store32 (netif_send b) send) >>>
      zoom mem_lens (store32 (netif_receive b) receive) >>>
      zoom mem_lens (store32 (netif_extra b) extra) >>>
      zoom mem_lens (memcpy (netif_mac b) macp 6) >>>
      zoom mem_lens (store (netif_ip b) 10) >>>
      zoom mem_lens (store (ptr_add (netif_ip b) 1) 0) >>>
      zoom mem_lens (store (ptr_add (netif_ip b) 2) 0) >>>
      zoom mem_lens (store (ptr_add (netif_ip b) 3) 2) >>>
      zoom mem_lens (store (netif_gateway b) 10) >>>
      zoom mem_lens (store (ptr_add (netif_gateway b) 1) 20) >>>
      zoom mem_lens (store (ptr_add (netif_gateway b) 2) 0) >>>
      zoom mem_lens (store (ptr_add (netif_gateway b) 3) 1) >>> K) Q E s1.
Proof.
  intros Hok Hmac Hl Hb HK. assert (length mac = 6%nat) as Hl' by (unfold zlen in Hl; lia).
  wp_steps. eapply (emit_store32 s s1 b [] 36); [exact Hb|done|done|]. clear Hb. intros s2 Hb.
  wp_steps. eapply (emit_store32 s s2 b _ 32); [exact Hb|done|done|]. clear Hb. intros s3 Hb.
  wp_steps. eapply (emit_store32 s s3 b _ 28); [exact Hb|done|done|]. clear Hb. intros s4 Hb.
  set (pre := (([] ++ le32 send) ++ le32 receive) ++ le32 extra) in *. assert (zlen pre = 12) as Lp by done.
  change (replicate 28 0) with ([0; 0; 0; 0] ++ replicate 24 0) in Hb. rewrite app_assoc in Hb.
  wp_steps. eapply (emit_memcpy s s4 b _ _ 18 mac); [rewrite Hl'; exact Hb|done|done|rewrite zlen_app, Lp; done|exact Hmac|done|by destruct mac|].
  clear Hb. intros s5 Hb. rewrite <- !app_assoc in Hb. cbn [app] in Hb.
  wp_steps. eapply (poke s s5 b pre); [exact Hb|done|by rewrite Lp|]. clear Hb. intros s6 Hb.
  wp_steps. eapply (poke s s6 b (pre ++ [10])); [rewrite <- app_assoc; exact Hb|done|by rewrite zlen_app, Lp|]. clear Hb. intros s7 Hb.
  wp_steps. eapply (poke s s7 b (pre ++ [10; 0])); [rewrite <- !app_assoc in *; exact Hb|done|by rewrite zlen_app, Lp|]. clear Hb. intros s8 Hb.
  wp_steps. eapply (poke s s8 b (pre ++ [10; 0; 0])); [rewrite <- !app_assoc in *; exact Hb|done|by rewrite zlen_app, Lp|]. clear Hb. intros s9 Hb.
  assert (building s b (((pre ++ [10; 0; 0; 2]) ++ mac) ++ replicate (1 + 17) 0) s9) as Hb' by (rewrite <- !app_assoc in *; exact Hb). clear Hb.
  wp_steps. eapply emit_store; [exact Hb'|done|rewrite !zlen_app, Lp, Hl; done|]. clear Hb'. intros s10 Hb.
  wp_steps. eapply (emit_store _ _ _ _ _ 16); [exact Hb|done|rewrite !zlen_app, Lp, Hl; done|]. clear Hb. intros s11 Hb.
  wp_steps. eapply (emit_store _ _ _ _ _ 15); [exact Hb|done|rewrite !zlen_app, Lp, Hl; done|]. clear Hb. intros s12 Hb.
  wp_steps. eapply (emit_store _ _ _ _ _ 14); [exact Hb|done|rewrite !zlen_app, Lp, Hl; done|]. clear Hb. intros s13 Hb.
  wp_steps. apply HK. unfold pre in Hb. rewrite <- !app_assoc in *. exact Hb.
Qed.

Lemma wp_net_register_netif s send receive macp mac extra :
  mem_ok (n_mem s) -> bytes_at (n_mem s) macp mac -> zlen mac = 6 ->
  is_u32 send -> is_u32 receive -> is_u32 extra -> send <> 0 -> receive <> 0 -> extra <> 0 ->
  wp (net_register_netif send receive macp extra) (fun _ s' => exists netif cache, netif <> cache /\
    m_objs (n_mem s) !! netif = None /\ m_objs (n_mem s) !! cache = None /\
    m_objs (n_mem s') = <[netif := iface_bytes (new_iface send receive mac extra cache)]> (<[cache := replicate 12 0]> (m_objs (n_mem s))) /\
    heap_live (m_heap (n_mem s')) = {[ netif; cache ]} ∪ heap_live (m_heap (n_mem s)) /\
    mem_ok (n_mem s') /\ n_netifs s' = n_netifs s ++ [netif] /\ n_tasks s' = n_tasks s ++ [netif] /\ n_sent s' = n_sent s) only_nomem s.
Proof.
  intros Hok Hmac Hl U1 U2 U3 N1 N2 N3. assert (Forall is_u8 mac) as Um by (by eapply bytes_u8).
  unfold net_register_netif, NETIF_SIZE. wp_cond. rewrite (proj2 (Z.eqb_neq send 0)) by done. cbn [negb].
  wp_cond. rewrite (proj2 (Z.eqb_neq receive 0)) by done. cbn [negb]. wp_cond. rewrite (proj2 (Z.eqb_neq extra 0)) by done. cbn [negb].
  wp_steps. apply wp_alloc_packet; [done|lia|]. intros b s1 Hp Hb. change (Z.to_nat 40) with 40%nat in Hb.
  wp_cond. not_null. cbn [negb]. cbv zeta. cbn [base]. apply (wp_new_netif s s1 b send receive mac macp extra); [done|done|done|done|].
  clear Hb. intros s2 Hb. set (pre := le32 send ++ _) in Hb. assert (zlen pre = 26) as Lp by (unfold pre; rewrite !zlen_app, Hl; done).
  cbn [for_up].
  do 6 (wp_steps; eapply emit_store; [exact Hb|done|rewrite ?zlen_app, Lp; done|]; clear Hb; intros s3 Hb; clear s2; rename s3 into s2).
  wp_steps. eapply emit_store; [exact Hb|done|rewrite ?zlen_app, Lp; done|]. clear Hb. intros s3 Hb.
  assert (Forall is_u8 pre) as Up by (unfold pre; rewrite !Forall_app; split_and!; first [apply le32_u8|done|by repeat constructor]).
  rewrite <- !app_assoc in Hb. assert (Forall is_u8 (pre ++ replicate 7 0 ++ replicate 7 0)) as U by (rewrite !Forall_app; split_and!; [done|by repeat constructor..]).
  pose proof (building_mem _ _ _ _ Hok U Hb) as Hok3. wp_steps. apply wp_alloc_packet; [done|lia|]. intros a s4 Ha Hc.
  destruct Hb as ((B1 & B2 & B3 & B4 & B5 & B6) & R1 & R2 & R3), Hc as ((C1 & C2 & C3 & C4 & C5 & C6) & T1 & T2 & T3).
  assert (b <> a) as Hba by (intros ->; rewrite B1, lookup_insert_eq in C4; done).
  wp_steps. apply wp_zmem. unfold store32. wp_steps. cbn [base].
  apply (wp_store16_in _ (netif_arp_cache b) (pre ++ replicate 7 0 ++ [0; 0; 0]) 0 0 [0; 0]);
    [cbn [base netif_arp_cache]; rewrite C1, lookup_insert_ne, B1, lookup_insert_eq by done; by rewrite <- !app_assoc|cbn [off netif_arp_cache]; rewrite !zlen_app, Lp; done|].
  cbn [base netif_arp_cache]. rewrite (app_assoc _ [u8 a; u8 (a / 2 ^ 8)]).
  apply (wp_store16_at (n_mem s4) (ptr_add (netif_arp_cache b) 2) ((pre ++ replicate 7 0 ++ [0; 0; 0]) ++ [u8 a; u8 (a / 2 ^ 8)]) 0 0 []);
    [cbn [off ptr_add netif_arp_cache]; rewrite !zlen_app, Lp; done|].
  wp_steps. cbn [base ptr_add netif_arp_cache]. exists b, a. split; [done|]. split; [done|].
  rewrite B1, lookup_insert_ne in C4 by done. split; [done|]. cbn [n_mem n_netifs n_tasks n_sent put_obj m_objs m_heap with_mem].
  match goal with |- <[b := ?x]> _ = _ /\ _ => set (o := x) end.
  assert (o = iface_bytes (new_iface send receive mac extra a)) as Ho.
  { unfold o, iface_bytes, new_iface, pre. cbn [i_calls i_extra i_ip i_mac i_gateway i_gateway_mac i_configured i_rest]. rewrite Z.div_div by lia. by rewrite <- !app_assoc. }
  rewrite Ho. pose proof (new_iface_u8 send receive mac extra a Um) as Un.
  assert (forall A, <[b := iface_bytes (new_iface send receive mac extra a)]> (<[a := [] ++ replicate (Z.to_nat 12) 0]> (<[b := A]> (m_objs (n_mem s))))
    = <[b := iface_bytes (new_iface send receive mac extra a)]> (<[a := replicate 12 0]> (m_objs (n_mem s)))) as Hobj.
  { intros A. rewrite (insert_insert_ne _ a b) by done. by rewrite insert_insert_eq. }
  rewrite C1, B1, Hobj. split; [done|]. split; [rewrite C2, B2; set_solver|]. split; [|by rewrite T1, T2, T3, R1, R2, R3].
  split; [done|..]; intros k x; cbn [m_objs m_heap put_obj]; rewrite C1, B1, Hobj; rewrite !lookup_insert_Some.
  - rewrite C2, B2. intros [[<- _]|[_ [[<- _]|[_ Hk]]]]; [set_solver..|]. apply (mo_live _ Hok) in Hk. set_solver.
  - intros [[_ <-]|[_ [[_ <-]|[_ Hk]]]]; [done|by repeat constructor|by apply (mo_u8 _ Hok _ _ Hk)].
Qed.
End register.

(** ** Properties *)

Lemma answers_iface text me fs :
  let me' := (answers text me fs).1 in i_extra me' = i_extra me /\ i_ip me' = i_ip me /\ i_mac me' = i_mac me.
Proof.
  revert me. induction fs as [|f fs IH]; intros me; [done|]. cbn [answers fst]. destruct (IH (answer text me f).1) as (-> & -> & ->).
  unfold answer, arp_answer. repeat (case_match; try done).
Qed.

Lemma answers_app text me fs gs :
  answers text me (fs ++ gs) = let a := answers text me fs in let b := answers text a.1 gs in (b.1, a.2 ++ b.2).
Proof. revert me. induction fs as [|f fs IH]; intros me; cbn [app answers fst snd]; [by destruct (answers text me gs)|]. rewrite IH. cbn. by rewrite app_assoc. Qed.

Section properties.
Context {H : Type} `{KHeapLaws H}.
Implicit Types (s : nstate H) (me : iface) (f : list Z).



(** C26. The two checksum functions compute the ones' complement sum of
    RFC 1071: the first of a packet without an odd byte at its end (which it
    leaves out), the second of two parts of a packet with the field that holds
    the checksum cleared; it stops when the first part is odd. *)
Theorem net_checksum_is_rfc1071 (m : mem H) p1 p2 l1 l2 i :
  bytes_at m p1 l1 -> bytes_at m p2 l2 -> Forall is_u8 l1 -> Forall is_u8 l2 ->
  zlen l1 <= 2 ^ 16 -> zlen l2 <= 2 ^ 15 -> 0 <= i -> 2 * i + 2 <= zlen l2 ->
  wp (net_calc_checksum p1 (zlen l1)) (fun v m' => m' = m /\ v = rfc1071 (even_part l1)) never m /\
  wp (net_calc_checksum2 p1 (zlen l1) p2 (zlen l2) (be16 l2 (2 * i)))
    (fun v m' => m' = m /\ zlen l1 mod 2 = 0 /\ v = rfc1071 (l1 ++ wipe l2 (2 * i))) (fun e => e = AssertFail /\ zlen l1 mod 2 <> 0) m.
Proof.
  intros Hb1 Hb2 Hu1 Hu2 Hl1 Hl2 Hi Hs. split.
  - apply (wp_net_calc_checksum m p1 l1); [done..|]. split; [done|]. by apply inet_checksum_rfc1071.
  - destruct (Z.eqb_spec (zlen l1 mod 2) 0) as [He|He].
    + apply (wp_net_calc_checksum2 m p1 p2 l1 l2); try done; [by apply word_in_sum|]. split; [done|]. split; [done|]. by apply inet_checksum2_rfc1071.
    + unfold net_calc_checksum2. wp_cond. rewrite (proj2 (Z.eqb_neq _ _) He). done.
Qed.
End properties.

(** ** Concrete instances *)

Definition sample_mac : list Z := [2; 0; 0; 0; 0; 7].
Definition sample_state : nstate bump :=
  NState (Mem (Bump 5000 {[ 100; 200 ]}) (<[100 := sample_mac]> (<[200 := [72; 105; 0]]> ∅))) [] [] [].
Definition sample_iface : iface := new_iface 4096 8192 sample_mac 77 0.

(** An ARP request for the interface, and a ping. *)
Definition sample_arp : list Z :=
  ethernet (replicate 6 255) [2; 0; 0; 0; 0; 9] 0x806 (arp 1 [2; 0; 0; 0; 0; 9] [10; 0; 0; 3] (replicate 6 0) [10; 0; 0; 2]) ++ [1; 2; 3; 4].
Definition sample_ping : list Z :=
  ping sample_iface [2; 0; 0; 0; 0; 9] [10; 0; 0; 3] 0x1234 [0; 5] [0; 1] [1; 2; 3; 4] [9; 9; 9; 9].

Lemma sample_mem_ok : mem_ok (n_mem sample_state).
Proof.
  split.
  - split; [cbn; lia|]. intros p. cbn. set_solver by lia.
  - intros b o. cbn. rewrite !lookup_insert_Some, lookup_empty. set_solver.
  - intros b o. cbn. rewrite !lookup_insert_Some, lookup_empty. intros [[_ <-]|[_ [[_ <-]|[_ ?]]]]; [by repeat constructor..|done].
Qed.

Lemma sample_arp_ok : frame_ok sample_iface sample_arp.
Proof. split; [vm_compute; split; congruence|]. split; [by repeat constructor|]. by intros Ht. Qed.

Lemma sample_ping_ok : ping_ok [2; 0; 0; 0; 0; 9] [10; 0; 0; 3] 0x1234 [0; 5] [0; 1] [1; 2; 3; 4] [9; 9; 9; 9].
Proof. split; try done. by repeat constructor. Qed.

Lemma sample_serves :
  match (net_register_netif 4096 8192 (Ptr 100 0) 77 >>> let! tasks := gets n_tasks in
    ktask_net (Ptr 200 0) (default 0 (last tasks)) [sample_arp; sample_ping]) sample_state with
  | Ok (_, s') => n_sent s' = [(77, ethernet [2; 0; 0; 0; 0; 9] sample_mac 0x806 (arp 2 sample_mac [10; 0; 0; 2] [2; 0; 0; 0; 0; 9] [10; 0; 0; 3]));
      (77, pong sample_iface [2; 0; 0; 0; 0; 9] [10; 0; 0; 3] 0x1234 [0; 5] [0; 1] [1; 2; 3; 4])]
  | Err _ => False
  end.
Proof. vm_compute. reflexivity. Qed.


Definition ready_state : nstate bump :=
  NState (Mem (Bump 5000 {[ 100; 200 ]}) (<[100 := iface_bytes sample_iface]> (<[200 := [72; 105; 0]]> ∅))) [100] [] [100].

Lemma ready_state_ready : net_ready ready_state (Ptr 200 0) [72; 105] 100 sample_iface.
Proof.
  split.
  - split.
    + split; [cbn; lia|]. intros p. cbn. set_solver by lia.
    + intros b o. cbn. rewrite !lookup_insert_Some, lookup_empty. set_solver.
    + intros b o. cbn -[iface_bytes]. rewrite !lookup_insert_Some, lookup_empty. intros [[_ <-]|[_ [[_ <-]|[_ ?]]]]; [by repeat constructor..|done].
  - split; [done|]. unfold iface_ok. vm_compute. split_and!; congruence.
  - split; [|done]. split; [by exists [], []|]. split; [repeat constructor; lia|done].
Qed.

Definition sample_request : list Z :=
  echo_request sample_iface [2; 0; 0; 0; 0; 9] [10; 0; 0; 3] 0x1234 [0; 5] [0; 1] [1; 2; 3; 4] [9; 9; 9; 9].


Lemma net_checksum_is_rfc1071_witness :
  let m := n_mem sample_state in
  wp (net_calc_checksum (Ptr 100 0) 6) (fun v m' => m' = m /\ v = rfc1071 sample_mac) never m /\
  wp (net_calc_checksum2 (Ptr 100 0) 6 (Ptr 200 0) 3 (be16 [72; 105; 0] (2 * 0)))
    (fun v m' => m' = m /\ 6 mod 2 = 0 /\ v = rfc1071 (sample_mac ++ [0; 0; 0])) (fun e => e = AssertFail /\ 6 mod 2 <> 0) m.
Proof.
  apply (net_checksum_is_rfc1071 (n_mem sample_state) (Ptr 100 0) (Ptr 200 0) sample_mac [72; 105; 0] 0); try done; try (by exists [], []); by repeat constructor.
Defined.

(** Frames left out: a UDP packet with 18 bytes of data is read behind its end,
    and a correct ping with one byte of data gets no answer. *)
Definition sample_udp : list Z :=
  ethernet sample_mac [2; 0; 0; 0; 0; 9] 0x800 (ipv4 7 17 [10; 0; 0; 3] [10; 0; 0; 2] (udp 7 7 (replicate 18 1))) ++ [1; 2; 3; 4].

Example long_udp_reads_behind : ktask_net (Ptr 200 0) 100 [sample_udp] ready_state = Err Fault.
Proof. vm_compute. reflexivity. Qed.

Example odd_ping_dropped :
  match ktask_net (Ptr 200 0) 100 [echo_request sample_iface [2; 0; 0; 0; 0; 9] [10; 0; 0; 3] 0x1234 [0; 5] [0; 1] [1] [9; 9; 9; 9]] ready_state with
  | Ok (_, s') => n_sent s' = []
  | Err _ => False
  end.
Proof. vm_compute. reflexivity. Qed.
