(* ===== verification/Task.v ===== *)
(** * The scheduler, semaphores and mutexes (kernel/task.c, arch/i686/atomic.c)

    Tasks linked into intrusive queues, the scheduler's lock count and the
    postponed schedule, and the blocking primitives on top.  A context switch
    changes [k_current]; what the resumed task still has to do when it was
    suspended in the middle of a call is its saved [resume_point].  Hardware
    interrupts that arrive while the cpu idles are a list of events. *)
From stdpp Require Import functions.
From S2P Require Import Prelude Interfaces DList.

Definition TASK_STATE_READY : Z := 0.
Definition TASK_STATE_BLOCKED : Z := 1.
Definition TASK_STATE_RUNNING : Z := 2.
Definition TASK_STATE_TERMINATED : Z := 3.
Definition TASK_STATE_WAITING : Z := 4.
Definition TASK_STATE_BLOCKED_LOCK : Z := 5.

(** [task_t], without the cpu context and the fields other components own. *)
Record task_t : Type := Task {
  next_task : Z;
  state : Z;
  wait_target : Z;
  kstack : Z;
  obj : Z;
}.

Record task_queue_t : Type := TaskQueue {
  first : Z;
  last : Z;
}.

Record semaphore_t : Type := Semaphore {
  count : Z;
  blocked_tasks : task_queue_t;
  sem_lock : Z;
}.

Record mutex_t : Type := Mutex {
  lock : Z;
  locked_task : Z;
  mutex_blocked : task_queue_t;
}.

(** The queues the code passes around by address, and the chain
    [scheduler_wakeup] detaches from the wait queue and walks. *)
Inductive qref : Type :=
  | QReady | QWait | QTerminated | QDetached
  | QSem (sem : Z) | QMutex (mutex : Z) | QProc (process : Z).

#[export] Instance qref_eq_dec : EqDecision qref.
Proof. solve_decision. Defined.

(** Where a task goes on when it gets the cpu: at the end of [mutex_lock], out
    of the interrupt that preempted it, or for the first time at its entry,
    with interrupts on (a process, which starts with an [iret]) or off (a
    kernel task).  Without one it returns from [scheduler_unlock] and is done. *)
Inductive resume_point : Type :=
  | ResumeMutexLock (mutex : Z)
  | ResumeIret
  | ResumeStart (ints : bool).

(** Interrupts: the timer, or a device whose handler releases a semaphore. *)
Inductive irq_event : Type :=
  | IrqTimer
  | IrqRelease (sem : Z).

(** The addresses of the global [blocked_list] and, in console.c, of
    [print_mutex] and [console_write_lock]. *)
Definition BLOCKED_LIST : Z := 4.
Definition PRINT_MUTEX : Z := 8.
Definition CONSOLE_WRITE_LOCK : Z := 20.

Record kstate (H : Type) : Type := KState {
  k_tasks : gmap Z task_t;
  k_current : Z;
  k_ready : task_queue_t;
  k_wait : task_queue_t;
  k_terminated : task_queue_t;
  k_lists : lstate H;
  k_scheduler_ready : bool;
  k_lock_count : Z;
  k_postponed : bool;
  k_enable_ints : bool;
  k_ints : bool;
  k_ticks : Z;
  k_tss : Z;
  k_sems : gmap Z semaphore_t;
  k_mutexes : gmap Z mutex_t;
  k_procs : gmap Z task_queue_t;
  k_saved : gmap Z resume_point;
  k_irqs : list irq_event;
}.
Arguments KState {H} _ _ _ _ _ _ _ _ _ _ _ _ _ _ _ _ _ _.
Arguments k_tasks {H} _.
Arguments k_current {H} _.
Arguments k_ready {H} _.
Arguments k_wait {H} _.
Arguments k_terminated {H} _.
Arguments k_lists {H} _.
Arguments k_scheduler_ready {H} _.
Arguments k_lock_count {H} _.
Arguments k_postponed {H} _.
Arguments k_enable_ints {H} _.
Arguments k_ints {H} _.
Arguments k_ticks {H} _.
Arguments k_tss {H} _.
Arguments k_sems {H} _.
Arguments k_mutexes {H} _.
Arguments k_procs {H} _.
Arguments k_saved {H} _.
Arguments k_irqs {H} _.

Section setters.
Context {H : Type}.

Definition set_k_tasks (v : gmap Z task_t) (s : kstate H) : kstate H :=
  KState v (k_current s) (k_ready s) (k_wait s) (k_terminated s) (k_lists s) (k_scheduler_ready s) (k_lock_count s) (k_postponed s) (k_enable_ints s) (k_ints s) (k_ticks s) (k_tss s) (k_sems s) (k_mutexes s) (k_procs s) (k_saved s) (k_irqs s).
Definition set_k_current (v : Z) (s : kstate H) : kstate H :=
  KState (k_tasks s) v (k_ready s) (k_wait s) (k_terminated s) (k_lists s) (k_scheduler_ready s) (k_lock_count s) (k_postponed s) (k_enable_ints s) (k_ints s) (k_ticks s) (k_tss s) (k_sems s) (k_mutexes s) (k_procs s) (k_saved s) (k_irqs s).
Definition set_k_ready (v : task_queue_t) (s : kstate H) : kstate H :=
  KState (k_tasks s) (k_current s) v (k_wait s) (k_terminated s) (k_lists s) (k_scheduler_ready s) (k_lock_count s) (k_postponed s) (k_enable_ints s) (k_ints s) (k_ticks s) (k_tss s) (k_sems s) (k_mutexes s) (k_procs s) (k_saved s) (k_irqs s).
Definition set_k_wait (v : task_queue_t) (s : kstate H) : kstate H :=
  KState (k_tasks s) (k_current s) (k_ready s) v (k_terminated s) (k_lists s) (k_scheduler_ready s) (k_lock_count s) (k_postponed s) (k_enable_ints s) (k_ints s) (k_ticks s) (k_tss s) (k_sems s) (k_mutexes s) (k_procs s) (k_saved s) (k_irqs s).
Definition set_k_terminated (v : task_queue_t) (s : kstate H) : kstate H :=
  KState (k_tasks s) (k_current s) (k_ready s) (k_wait s) v (k_lists s) (k_scheduler_ready s) (k_lock_count s) (k_postponed s) (k_enable_ints s) (k_ints s) (k_ticks s) (k_tss s) (k_sems s) (k_mutexes s) (k_procs s) (k_saved s) (k_irqs s).
Definition set_k_lists (v : lstate H) (s : kstate H) : kstate H :=
  KState (k_tasks s) (k_current s) (k_ready s) (k_wait s) (k_terminated s) v (k_scheduler_ready s) (k_lock_count s) (k_postponed s) (k_enable_ints s) (k_ints s) (k_ticks s) (k_tss s) (k_sems s) (k_mutexes s) (k_procs s) (k_saved s) (k_irqs s).
Definition set_k_scheduler_ready (v : bool) (s : kstate H) : kstate H :=
  KState (k_tasks s) (k_current s) (k_ready s) (k_wait s) (k_terminated s) (k_lists s) v (k_lock_count s) (k_postponed s) (k_enable_ints s) (k_ints s) (k_ticks s) (k_tss s) (k_sems s) (k_mutexes s) (k_procs s) (k_saved s) (k_irqs s).
Definition set_k_lock_count (v : Z) (s : kstate H) : kstate H :=
  KState (k_tasks s) (k_current s) (k_ready s) (k_wait s) (k_terminated s) (k_lists s) (k_scheduler_ready s) v (k_postponed s) (k_enable_ints s) (k_ints s) (k_ticks s) (k_tss s) (k_sems s) (k_mutexes s) (k_procs s) (k_saved s) (k_irqs s).
Definition set_k_postponed (v : bool) (s : kstate H) : kstate H :=
  KState (k_tasks s) (k_current s) (k_ready s) (k_wait s) (k_terminated s) (k_lists s) (k_scheduler_ready s) (k_lock_count s) v (k_enable_ints s) (k_ints s) (k_ticks s) (k_tss s) (k_sems s) (k_mutexes s) (k_procs s) (k_saved s) (k_irqs s).
Definition set_k_enable_ints (v : bool) (s : kstate H) : kstate H :=
  KState (k_tasks s) (k_current s) (k_ready s) (k_wait s) (k_terminated s) (k_lists s) (k_scheduler_ready s) (k_lock_count s) (k_postponed s) v (k_ints s) (k_ticks s) (k_tss s) (k_sems s) (k_mutexes s) (k_procs s) (k_saved s) (k_irqs s).
Definition set_k_ints (v : bool) (s : kstate H) : kstate H :=
  KState (k_tasks s) (k_current s) (k_ready s) (k_wait s) (k_terminated s) (k_lists s) (k_scheduler_ready s) (k_lock_count s) (k_postponed s) (k_enable_ints s) v (k_ticks s) (k_tss s) (k_sems s) (k_mutexes s) (k_procs s) (k_saved s) (k_irqs s).
Definition set_k_ticks (v : Z) (s : kstate H) : kstate H :=
  KState (k_tasks s) (k_current s) (k_ready s) (k_wait s) (k_terminated s) (k_lists s) (k_scheduler_ready s) (k_lock_count s) (k_postponed s) (k_enable_ints s) (k_ints s) v (k_tss s) (k_sems s) (k_mutexes s) (k_procs s) (k_saved s) (k_irqs s).
Definition set_k_tss (v : Z) (s : kstate H) : kstate H :=
  KState (k_tasks s) (k_current s) (k_ready s) (k_wait s) (k_terminated s) (k_lists s) (k_scheduler_ready s) (k_lock_count s) (k_postponed s) (k_enable_ints s) (k_ints s) (k_ticks s) v (k_sems s) (k_mutexes s) (k_procs s) (k_saved s) (k_irqs s).
Definition set_k_sems (v : gmap Z semaphore_t) (s : kstate H) : kstate H :=
  KState (k_tasks s) (k_current s) (k_ready s) (k_wait s) (k_terminated s) (k_lists s) (k_scheduler_ready s) (k_lock_count s) (k_postponed s) (k_enable_ints s) (k_ints s) (k_ticks s) (k_tss s) v (k_mutexes s) (k_procs s) (k_saved s) (k_irqs s).
Definition set_k_mutexes (v : gmap Z mutex_t) (s : kstate H) : kstate H :=
  KState (k_tasks s) (k_current s) (k_ready s) (k_wait s) (k_terminated s) (k_lists s) (k_scheduler_ready s) (k_lock_count s) (k_postponed s) (k_enable_ints s) (k_ints s) (k_ticks s) (k_tss s) (k_sems s) v (k_procs s) (k_saved s) (k_irqs s).
Definition set_k_procs (v : gmap Z task_queue_t) (s : kstate H) : kstate H :=
  KState (k_tasks s) (k_current s) (k_ready s) (k_wait s) (k_terminated s) (k_lists s) (k_scheduler_ready s) (k_lock_count s) (k_postponed s) (k_enable_ints s) (k_ints s) (k_ticks s) (k_tss s) (k_sems s) (k_mutexes s) v (k_saved s) (k_irqs s).
Definition set_k_saved (v : gmap Z resume_point) (s : kstate H) : kstate H :=
  KState (k_tasks s) (k_current s) (k_ready s) (k_wait s) (k_terminated s) (k_lists s) (k_scheduler_ready s) (k_lock_count s) (k_postponed s) (k_enable_ints s) (k_ints s) (k_ticks s) (k_tss s) (k_sems s) (k_mutexes s) (k_procs s) v (k_irqs s).
Definition set_k_irqs (v : list irq_event) (s : kstate H) : kstate H :=
  KState (k_tasks s) (k_current s) (k_ready s) (k_wait s) (k_terminated s) (k_lists s) (k_scheduler_ready s) (k_lock_count s) (k_postponed s) (k_enable_ints s) (k_ints s) (k_ticks s) (k_tss s) (k_sems s) (k_mutexes s) (k_procs s) (k_saved s) v.
End setters.

Definition t_set_next (n : Z) (t : task_t) : task_t := Task n (state t) (wait_target t) (kstack t) (obj t).
Definition t_set_state (n : Z) (t : task_t) : task_t := Task (next_task t) n (wait_target t) (kstack t) (obj t).
Definition t_set_wait (n : Z) (t : task_t) : task_t := Task (next_task t) (state t) n (kstack t) (obj t).
Definition s_set_count (n : Z) (s : semaphore_t) : semaphore_t := Semaphore n (blocked_tasks s) (sem_lock s).
Definition s_set_lock (n : Z) (s : semaphore_t) : semaphore_t := Semaphore (count s) (blocked_tasks s) n.
Definition s_set_queue (q : task_queue_t) (s : semaphore_t) : semaphore_t := Semaphore (count s) q (sem_lock s).
Definition m_set_lock (n : Z) (m : mutex_t) : mutex_t := Mutex n (locked_task m) (mutex_blocked m).
Definition m_set_task (n : Z) (m : mutex_t) : mutex_t := Mutex (lock m) n (mutex_blocked m).
Definition m_set_queue (q : task_queue_t) (m : mutex_t) : mutex_t := Mutex (lock m) (locked_task m) q.

Section ops.
Context {H : Type} `{KHeap H}.
Abbreviation K := (kstate H).

Definition lists_lens : lens K (lstate H) := Lens k_lists set_k_lists.

(** A failed [assert_panic] stops the cpu like a failed [assert]. *)
Definition assert_panic (b : bool) : M K unit := kassert b.

Definition assert_interrupts_disabled : M K unit :=
  let! i := gets k_ints in assert_panic (negb i).

Definition interrupts_disable : M K unit := modify (set_k_ints false).
Definition interrupts_enable : M K unit := modify (set_k_ints true).

Definition task (p : Z) : M K task_t := let! m := gets k_tasks in some (m !! p).
Definition upd_task (p : Z) (f : task_t -> task_t) : M K unit :=
  let! t := task p in modify (fun s => set_k_tasks (<[p := f t]> (k_tasks s)) s).
Definition sem (p : Z) : M K semaphore_t := let! m := gets k_sems in some (m !! p).
Definition upd_sem (p : Z) (f : semaphore_t -> semaphore_t) : M K unit :=
  let! x := sem p in modify (fun s => set_k_sems (<[p := f x]> (k_sems s)) s).
Definition mutex (p : Z) : M K mutex_t := let! m := gets k_mutexes in some (m !! p).
Definition upd_mutex (p : Z) (f : mutex_t -> mutex_t) : M K unit :=
  let! x := mutex p in modify (fun s => set_k_mutexes (<[p := f x]> (k_mutexes s)) s).

(** [*queue]. *)
Definition queue_of (r : qref) (s : K) : option task_queue_t :=
  match r with
  | QReady => Some (k_ready s)
  | QWait => Some (k_wait s)
  | QTerminated => Some (k_terminated s)
  | QDetached => None
  | QSem a => blocked_tasks <$> k_sems s !! a
  | QMutex a => mutex_blocked <$> k_mutexes s !! a
  | QProc a => k_procs s !! a
  end.

Definition put_queue (r : qref) (q : task_queue_t) (s : K) : K :=
  match r with
  | QReady => set_k_ready q s
  | QWait => set_k_wait q s
  | QTerminated => set_k_terminated q s
  | QDetached => s
  | QSem a => set_k_sems (alter (s_set_queue q) a (k_sems s)) s
  | QMutex a => set_k_mutexes (alter (m_set_queue q) a (k_mutexes s)) s
  | QProc a => set_k_procs (alter (fun _ => q) a (k_procs s)) s
  end.

Definition queue (r : qref) : M K task_queue_t := let! q := gets (queue_of r) in some q.

(** *** Queues *)

Definition task_queue (r : qref) (t : Z) : M K unit :=
  assert_interrupts_disabled >>>
  kassert (negb (t =? 0)) >>>
  let! tk := task t in
  kassert (next_task tk =? 0) >>>
  let! q := queue r in
  if first q =? 0 then
    kassert (last q =? 0) >>>
    modify (put_queue r (TaskQueue t t))
  else
    kassert (negb (last q =? 0)) >>>
    upd_task (last q) (t_set_next t) >>>
    modify (put_queue r (TaskQueue (first q) t)).

Definition task_dequeue (r : qref) : M K Z :=
  assert_interrupts_disabled >>>
  let! q := queue r in
  let t := first q in
  if t =? 0 then ret 0
  else
    let! tk := task t in
    modify (put_queue r (TaskQueue (next_task tk) (last q))) >>>
    (if next_task tk =? 0 then
       kassert (next_task tk =? 0) >>>
       kassert (last q =? t) >>>
       modify (put_queue r (TaskQueue (next_task tk) 0))
     else ret tt) >>>
    upd_task t (t_set_next 0) >>>
    ret t.

(** *** The scheduler lock

    [sch] is [__schedule]; the interrupt handlers that run while the cpu
    idles inside [__schedule] get it as a parameter. *)

Definition scheduler_lock : M K unit :=
  let! eflags_if := gets k_ints in
  interrupts_disable >>>
  let! n := gets k_lock_count in
  (if n =? 0 then
     let! p := gets k_postponed in
     assert_panic (negb p) >>>
     if eflags_if : bool then modify (set_k_enable_ints true) else ret tt
   else ret tt) >>>
  modify (fun s => set_k_lock_count (u32 (k_lock_count s + 1)) s).

Definition schedule : M K unit :=
  assert_interrupts_disabled >>>
  let! n := gets k_lock_count in
  kassert (negb (n =? 0)) >>>
  let! r := gets k_scheduler_ready in
  kassert r >>>
  modify (set_k_postponed true).

(** The end of [mutex_lock]. *)
Definition mutex_locked (m : Z) : M K unit :=
  let! x := mutex m in
  kassert (locked_task x =? 0) >>>
  let! cur := gets k_current in
  upd_mutex m (m_set_task cur).

(** The scheduled task goes on where it was suspended. *)
Definition resume : M K unit :=
  let! cur := gets k_current in
  let! saved := gets k_saved in
  match saved !! cur with
  | None => ret tt
  | Some r =>
      modify (fun s => set_k_saved (delete cur (k_saved s)) s) >>>
      match r with
      | ResumeMutexLock m => mutex_locked m
      | ResumeIret => interrupts_enable
      | ResumeStart ints => if ints : bool then interrupts_enable else ret tt
      end
  end.

(** Whether the current task runs for the first time: it starts at its entry
    and not where [__schedule] returns. *)
Definition starts : M K bool :=
  let! cur := gets k_current in
  let! saved := gets k_saved in
  ret (match saved !! cur with Some (ResumeStart _) => true | _ => false end).

(** What is left to do after [__schedule], which may have switched tasks. *)
Definition unlock_tail (switched : bool) : M K unit :=
  let! fresh := (if switched then starts else ret false) in
  (if fresh : bool then ret tt
   else
     let! e := gets k_enable_ints in
     if e : bool then modify (set_k_enable_ints false) >>> interrupts_enable else ret tt) >>>
  if switched then resume else ret tt.

Section with_schedule.
Variable sch : M K unit.

Definition scheduler_unlock : M K unit :=
  assert_interrupts_disabled >>>
  let! n := gets k_lock_count in
  assert_panic (negb (n =? 0)) >>>
  modify (set_k_lock_count (n - 1)) >>>
  if n - 1 =? 0 then
    let! ready := gets k_scheduler_ready in
    let! p := gets k_postponed in
    (if (ready : bool) && p then modify (set_k_postponed false) >>> sch else ret tt) >>>
    unlock_tail (ready && p)
  else ret tt.

Definition yield : M K unit := scheduler_lock >>> schedule >>> scheduler_unlock.

(** *** Blocking *)

Definition __task_block (r : qref) (t reason : Z) : M K unit :=
  let! n := gets k_lock_count in
  assert_panic (negb (n =? 0)) >>>
  assert_interrupts_disabled >>>
  assert_panic (negb (t =? 0)) >>>
  upd_task t (t_set_state reason) >>>
  task_queue r t >>>
  zoom lists_lens (list_insert BLOCKED_LIST t) >>>
  ret tt.

Definition __task_unblock (t : Z) : M K unit :=
  let! n := gets k_lock_count in
  assert_panic (negb (n =? 0)) >>>
  assert_interrupts_disabled >>>
  assert_panic (negb (t =? 0)) >>>
  upd_task t (t_set_state TASK_STATE_READY) >>>
  task_queue QReady t >>>
  zoom lists_lens (list_remove BLOCKED_LIST t).

Definition task_block (r : qref) (reason : Z) : M K unit :=
  scheduler_lock >>>
  let! n := gets k_lock_count in
  assert_panic (n =? 1) >>>
  let! cur := gets k_current in
  __task_block r cur reason >>>
  schedule >>>
  scheduler_unlock.

Definition task_unblock_next (r : qref) : M K unit :=
  scheduler_lock >>>
  let! t := task_dequeue r in
  (if negb (t =? 0) then __task_unblock t >>> schedule else ret tt) >>>
  scheduler_unlock.

(** *** Spin locks, semaphores and mutexes *)

Definition sem_swap (a v : Z) : M K Z :=
  let! x := sem a in upd_sem a (s_set_lock v) >>> ret (sem_lock x).

Definition mutex_swap (a v : Z) : M K Z :=
  let! x := mutex a in upd_mutex a (m_set_lock v) >>> ret (lock x).

(** [spin_lock(semaphore->lock)]; a held lock is a deadlock on one cpu. *)
Definition spin_lock (a : Z) : M K unit :=
  scheduler_lock >>>
  let! prev := sem_swap a 1 in
  if negb (prev =? 0) then fail AssertFail else ret tt.

Definition spin_unlock (a : Z) : M K unit :=
  let! u := sem_swap a 0 in
  if negb (u =? 1) then fail AssertFail else scheduler_unlock.

Definition semaphore_acquire (a : Z) : M K unit :=
  spin_lock a >>>
  let! x := sem a in
  (if 0 <? count x then upd_sem a (s_set_count (count x - 1))
   else
     scheduler_lock >>>
     let! cur := gets k_current in
     __task_block (QSem a) cur TASK_STATE_BLOCKED_LOCK >>>
     schedule >>>
     scheduler_unlock) >>>
  let! n := gets k_lock_count in
  kassert (n =? 1) >>>
  spin_unlock a.

Definition semaphore_release (a : Z) : M K unit :=
  spin_lock a >>>
  let! x := sem a in
  (if negb (first (blocked_tasks x) =? 0) then
     scheduler_lock >>>
     task_unblock_next (QSem a) >>>
     scheduler_unlock
   else upd_sem a (s_set_count (u32 (count x + 1)))) >>>
  spin_unlock a.

(** Whether the caller has the mutex at once.  If not, another task runs, and
    the end of the call is done when the caller goes on; inside the scheduler
    lock nothing switches, and the caller goes on although it is queued. *)
Definition mutex_lock_now (a : Z) : M K bool :=
  let! prev := mutex_swap a 1 in
  if negb (prev =? 0) then
    scheduler_lock >>>
    let! cur := gets k_current in
    __task_block (QMutex a) cur TASK_STATE_BLOCKED_LOCK >>>
    let! n := gets k_lock_count in
    if n =? 1 then
      modify (fun s => set_k_saved (<[cur := ResumeMutexLock a]> (k_saved s)) s) >>>
      schedule >>>
      scheduler_unlock >>>
      ret false
    else
      schedule >>>
      scheduler_unlock >>>
      mutex_locked a >>>
      ret true
  else mutex_locked a >>> ret true.

Definition mutex_lock (a : Z) : M K unit := mutex_lock_now a >>> ret tt.

Definition mutex_unlock (a : Z) : M K unit :=
  let! prev := mutex_swap a 1 in
  kassert (prev =? 1) >>>
  let! x := mutex a in
  let! cur := gets k_current in
  kassert (locked_task x =? cur) >>>
  upd_mutex a (m_set_task 0) >>>
  if negb (first (mutex_blocked x) =? 0) then task_unblock_next (QMutex a)
  else mutex_swap a 0 >>> ret tt.

(** *** Printing

    What [printf] does to the scheduler: it holds [print_mutex], and every
    character that it prints takes and gives back [console_write_lock].  One
    character stands for all of them: the ones after it find the state that
    the first one leaves. *)
Definition putc : M K unit := spin_lock CONSOLE_WRITE_LOCK >>> spin_unlock CONSOLE_WRITE_LOCK.

(** Whether the caller still has the cpu. *)
Definition printf : M K bool :=
  let! cur := gets k_current in
  let! now := mutex_lock_now PRINT_MUTEX in
  if now : bool then
    putc >>>
    mutex_unlock PRINT_MUTEX >>>
    let! c := gets k_current in
    ret (c =? cur)
  else ret false.

(** A task that loses the cpu while it prints does the rest when it goes on. *)
Definition printf_then (rest : M K unit) : M K unit :=
  let! here := printf in
  if here : bool then rest else ret tt.

(** *** Sleeping *)

Definition task_sleep_until (target : Z) : M K unit :=
  printf_then (
    let! ticks := gets k_ticks in
    if target <=? ticks then ret tt
    else
      scheduler_lock >>>
      let! n := gets k_lock_count in
      assert_panic (n =? 1) >>>
      let! cur := gets k_current in
      assert_panic (negb (cur =? 0)) >>>
      let! tk := task cur in
      assert_panic (state tk =? TASK_STATE_RUNNING) >>>
      upd_task cur (t_set_state TASK_STATE_WAITING) >>>
      upd_task cur (t_set_wait target) >>>
      task_queue QWait cur >>>
      schedule >>>
      scheduler_unlock).

Definition task_sleep_miliseconds (time : Z) : M K unit :=
  scheduler_lock >>>
  let! n := gets k_lock_count in
  kassert (n =? 1) >>>
  let! cur := gets k_current in
  kassert (negb (cur =? 0)) >>>
  let! ticks := gets k_ticks in
  upd_task cur (t_set_wait ((ticks + time) mod 2 ^ 64)) >>>
  __task_block QWait cur TASK_STATE_WAITING >>>
  schedule >>>
  scheduler_unlock.

(** The loop over the detached wait queue. *)
Definition wakeup_loop (t0 : Z) : M K unit :=
  let! fuel := gets (fun s => S (size (k_tasks s))) in
  loop fuel (fun t =>
    if t =? 0 then ret (inr tt)
    else
      let! tk := task t in
      let next := next_task tk in
      upd_task t (t_set_next 0) >>>
      let! ticks := gets k_ticks in
      (if wait_target tk <=? ticks then
         printf >>> upd_task t (t_set_wait 0) >>> __task_unblock t
       else task_queue QWait t) >>>
      ret (inl next)) t0.

Definition scheduler_wakeup : M K unit :=
  let! r := gets k_scheduler_ready in
  if negb r then ret tt
  else
    scheduler_lock >>>
    let! q := gets k_wait in
    modify (set_k_wait (TaskQueue 0 0)) >>>
    wakeup_loop (first q) >>>
    schedule >>>
    scheduler_unlock.

(** The handlers of the interrupts, after the common entry code. *)
Definition irq_handler (e : irq_event) : M K unit :=
  match e with
  | IrqTimer => modify (fun s => set_k_ticks ((k_ticks s + 1) mod 2 ^ 64) s) >>> scheduler_wakeup
  | IrqRelease a => semaphore_release a
  end.
End with_schedule.

(** *** Switching tasks *)

Definition __restore_task (t : Z) : M K unit :=
  assert_interrupts_disabled >>>
  let! n := gets k_lock_count in
  assert_panic (n =? 0) >>>
  let! tk := task t in
  modify (set_k_tss (kstack tk)).

Definition switch_task (new_task : Z) : M K unit :=
  assert_interrupts_disabled >>>
  let! cur := gets k_current in
  assert_panic (negb (cur =? 0)) >>>
  assert_panic (negb (new_task =? 0)) >>>
  let! n := gets k_lock_count in
  assert_panic (n =? 0) >>>
  let! tk := task new_task in
  assert_panic (state tk =? TASK_STATE_RUNNING) >>>
  modify (set_k_current new_task) >>>
  __restore_task new_task.

(** [interrupts_enable(); hlt; interrupts_disable()]: the next interrupt runs
    with interrupts off and cannot schedule, since nothing is current. *)
Definition idle_round : M K unit :=
  interrupts_enable >>>
  let! es := gets k_irqs in
  match es with
  | [] => fail Halted
  | e :: es' =>
      modify (set_k_irqs es') >>>
      interrupts_disable >>>
      irq_handler (fail AssertFail) e >>>
      interrupts_enable >>>
      interrupts_disable
  end.

(** The [do ... while (ready_queue.first == NULL)] loop. *)
Definition idle : M K unit :=
  let! fuel := gets (fun s => S (base.length (k_irqs s))) in
  loop fuel (fun _ =>
    idle_round >>>
    let! q := gets k_ready in
    if first q =? 0 then ret (inl tt) else ret (inr tt)) tt.

(** The second case of [__schedule]: nobody to run. *)
Definition schedule_idle : M K Z :=
  let! t := gets k_current in
  modify (set_k_current 0) >>>
  modify (fun s => set_k_lock_count (u32 (k_lock_count s + 1)) s) >>>
  idle >>>
  modify (set_k_postponed false) >>>
  modify (set_k_current t) >>>
  modify (fun s => set_k_lock_count (u32 (k_lock_count s - 1)) s) >>>
  let! n := gets k_lock_count in
  assert_panic (n =? 0) >>>
  let! next := task_dequeue QReady in
  assert_panic (negb (next =? 0)) >>>
  (if t =? next then
     let! tk := task t in
     kassert (state tk =? TASK_STATE_READY) >>>
     upd_task t (t_set_state TASK_STATE_RUNNING)
   else ret tt) >>>
  ret next.

(** The context switch at the end of [__schedule].  A task that ends prints
    here: if [print_mutex] is taken or waited for, the code schedules inside
    [__schedule] and loses [next]; the model stops there. *)
Definition schedule_switch (next : Z) : M K unit :=
  let! tn := task next in
  kassert (state tn =? TASK_STATE_READY) >>>
  let! cur := gets k_current in
  let! tc := task cur in
  if state tc =? TASK_STATE_TERMINATED then
    printf (fail Fault) >>>
    upd_task next (t_set_state TASK_STATE_RUNNING) >>>
    modify (set_k_current next) >>>
    __restore_task next
  else
    (if state tc =? TASK_STATE_RUNNING then
       upd_task cur (t_set_state TASK_STATE_READY) >>>
       task_queue QReady cur
     else ret tt) >>>
    upd_task next (t_set_state TASK_STATE_RUNNING) >>>
    switch_task next.

Definition __schedule : M K unit :=
  assert_interrupts_disabled >>>
  let! n := gets k_lock_count in
  assert_panic (n =? 0) >>>
  let! cur := gets k_current in
  kassert (negb (cur =? 0)) >>>
  let! next := task_dequeue QReady in
  let! next :=
    (if next =? 0 then
       let! tc := task cur in
       if state tc =? TASK_STATE_RUNNING then ret cur else schedule_idle
     else ret next) in
  let! cur := gets k_current in
  (if negb (cur =? next) then schedule_switch next else ret tt) >>>
  let! cur := gets k_current in
  let! tc := task cur in
  kassert (state tc =? TASK_STATE_RUNNING).

(** An interrupt of a running task. *)
Definition interrupt (e : irq_event) : M K unit :=
  let! cur := gets k_current in
  modify (fun s => set_k_saved (<[cur := ResumeIret]> (k_saved s)) s) >>>
  interrupts_disable >>>
  irq_handler __schedule e >>>
  resume.

Definition task_add (t : Z) : M K unit :=
  printf_then __schedule (
    kassert (negb (t =? 0)) >>>
    let! tk := task t in
    kassert (negb (obj tk =? 0)) >>>
    upd_task t (t_set_state TASK_STATE_READY) >>>
    scheduler_lock >>>
    task_queue QReady t >>>
    scheduler_unlock __schedule).

(** The caller holds the scheduler lock. *)
Definition task_exit : M K unit :=
  printf __schedule >>>
  let! n := gets k_lock_count in
  kassert (n =? 1) >>>
  let! cur := gets k_current in
  let! tk := task cur in
  kassert (state tk =? TASK_STATE_RUNNING) >>>
  upd_task cur (t_set_state TASK_STATE_TERMINATED) >>>
  modify (fun s => set_k_lock_count (u32 (k_lock_count s - 1)) s) >>>
  let! n := gets k_lock_count in
  assert_panic (n =? 0) >>>
  modify (set_k_postponed false) >>>
  __schedule >>>
  unlock_tail true.

(** One round of the loop of [process_waitpid] for child [p], which begins with
    its task: whether it has ended; if not, wait for it.  (What it prints are
    calls of [printf] of their own.) *)
Definition waitpid_round (p : Z) : M K bool :=
  let! t := task p in
  if state t =? TASK_STATE_TERMINATED then ret true
  else task_block __schedule (QProc p) TASK_STATE_BLOCKED >>> ret false.

(** The end of [process_exit] for process [p], from its last [printf] outside
    the scheduler lock. *)
Definition process_exit_wake (p : Z) : M K unit :=
  printf_then __schedule (
    scheduler_lock >>>
    printf __schedule >>>
    task_unblock_next __schedule (QProc p) >>>
    task_exit).

Definition tasking_enable : M K unit :=
  printf __schedule >>>
  interrupts_disable >>>
  let! r := gets k_scheduler_ready in
  kassert (negb r) >>>
  modify (set_k_scheduler_ready true) >>>
  let! cur := gets k_current in
  kassert (cur =? 0) >>>
  let! t := task_dequeue QReady in
  modify (set_k_current t) >>>
  kassert (negb (t =? 0)) >>>
  let! tk := task t in
  kassert (state tk =? TASK_STATE_READY) >>>
  upd_task t (t_set_state TASK_STATE_RUNNING) >>>
  let! n := gets k_lock_count in
  kassert (n =? 0) >>>
  __restore_task t >>>
  resume.
End ops.

(** ** Queues as sequences *)

Definition hd0 (ts : list Z) : Z := match ts with [] => 0 | t :: _ => t end.
Fixpoint last0 (ts : list Z) : Z :=
  match ts with [] => 0 | [t] => t | _ :: ts' => last0 ts' end.

(** The tasks [ts] are linked in this order and the last one ends the chain. *)
Fixpoint chain (m : gmap Z task_t) (ts : list Z) : Prop :=
  match ts with
  | [] => True
  | t :: ts' => t <> 0 /\ next_task <$> m !! t = Some (hd0 ts') /\ chain m ts'
  end.

Definition queue_rep (m : gmap Z task_t) (q : task_queue_t) (ts : list Z) : Prop :=
  q = TaskQueue (hd0 ts) (last0 ts) /\ chain m ts.

(** Every queue holds the sequence [Q] gives it, no task is on two queues or
    twice on one, and a task on no queue has no successor. *)
Record queues {H} (s : kstate H) (Q : qref -> list Z) : Prop := Queues {
  q_rep : forall r, match queue_of r s with
                    | Some q => queue_rep (k_tasks s) q (Q r)
                    | None => chain (k_tasks s) (Q r) /\ (r <> QDetached -> Q r = []) end;
  q_nodup : forall r, NoDup (Q r);
  q_disj : forall r r' t, t ∈ Q r -> t ∈ Q r' -> r = r';
  q_loose : forall t tk, k_tasks s !! t = Some tk -> (forall r, t ∉ Q r) -> next_task tk = 0;
}.

(** What queue operations leave alone: everything but the links. *)
Definition no_queue : task_queue_t := TaskQueue 0 0.
Definition erase {H} (s : kstate H) : kstate H :=
  KState (t_set_next 0 <$> k_tasks s) (k_current s) no_queue no_queue no_queue (k_lists s)
    (k_scheduler_ready s) (k_lock_count s) (k_postponed s) (k_enable_ints s) (k_ints s)
    (k_ticks s) (k_tss s) (s_set_queue no_queue <$> k_sems s)
    (m_set_queue no_queue <$> k_mutexes s) ((fun _ => no_queue) <$> k_procs s) (k_saved s) (k_irqs s).

Lemma last0_snoc ts t : last0 (ts ++ [t]) = t.
Proof.
  induction ts as [|x ts IH]; [done|]. cbn. rewrite IH. by destruct ts.
Qed.

Lemma hd0_snoc ts t : hd0 (ts ++ [t]) = hd0 (ts ++ [t]).
Proof. done. Qed.

Lemma chain_frame m m' ts :
  (forall t, t ∈ ts -> next_task <$> m' !! t = next_task <$> m !! t) -> chain m ts -> chain m' ts.
Proof.
  induction ts as [|t ts IH]; cbn; [done|]. intros Hm (Ht & Hn & Hc). split; [done|]. split.
  - rewrite Hm; [done|by left].
  - apply IH; [|done]. intros t' Ht'. apply Hm. by right.
Qed.

Lemma chain_in m ts t : chain m ts -> t ∈ ts -> t <> 0 /\ is_Some (m !! t).
Proof.
  induction ts as [|x ts IH]; cbn; [by intros _ ?%elem_of_nil|].
  intros (Hx & Hn & Hc) [->|Hin]%elem_of_cons; [|by apply IH].
  split; [done|]. by destruct (m !! x).
Qed.

(** Linking a new task behind the last one. *)
Lemma chain_snoc m ts b t tkb :
  NoDup (ts ++ [b]) -> chain m (ts ++ [b]) -> m !! b = Some tkb -> t <> 0 -> (t ∉ ts ++ [b]) ->
  next_task <$> m !! t = Some 0 ->
  chain (<[b := t_set_next t tkb]> m) ((ts ++ [b]) ++ [t]).
Proof.
  intros Hnd Hc Hb Ht Hnew Hnt. assert (t <> b) as Htb by set_solver.
  induction ts as [|x ts IH]; cbn in *.
  - destruct Hc as (Hb0 & _ & _). rewrite lookup_insert_eq, lookup_insert_ne by done. done.
  - apply NoDup_cons in Hnd as [Hx Hnd]. destruct Hc as (Hx0 & Hxn & Hc).
    split; [done|]. split; [|apply IH; set_solver].
    rewrite lookup_insert_ne by set_solver. rewrite Hxn. by destruct ts.
Qed.

Section queue_specs.
Context {H : Type}.
Implicit Types (s : kstate H) (Q : qref -> list Z).

Lemma erase_tasks m s :
  t_set_next 0 <$> m = t_set_next 0 <$> k_tasks s -> erase (set_k_tasks m s) = erase s.
Proof. intros Hm. unfold erase. cbn. by rewrite Hm. Qed.

Lemma erase_sems m s :
  s_set_queue no_queue <$> m = s_set_queue no_queue <$> k_sems s -> erase (set_k_sems m s) = erase s.
Proof. intros Hm. unfold erase. cbn. by rewrite Hm. Qed.

Lemma erase_mutexes m s :
  m_set_queue no_queue <$> m = m_set_queue no_queue <$> k_mutexes s ->
  erase (set_k_mutexes m s) = erase s.
Proof. intros Hm. unfold erase. cbn. by rewrite Hm. Qed.

Lemma erase_procs m s :
  (fun _ => no_queue) <$> m = (fun _ => no_queue) <$> k_procs s -> erase (set_k_procs m s) = erase s.
Proof. intros Hm. unfold erase. cbn. by rewrite Hm. Qed.

Lemma fmap_alter_erased {A B} (f : A -> A) (g : A -> B) k (m : gmap Z A) :
  (forall x, g (f x) = g x) -> g <$> alter f k m = g <$> m.
Proof.
  intros Hfg. apply map_eq. intros j. rewrite !lookup_fmap.
  destruct (decide (j = k)) as [->|]; [rewrite lookup_alter_eq|by rewrite lookup_alter_ne].
  destruct (m !! k); cbn; [by rewrite Hfg|done].
Qed.

Lemma erase_put_queue r q s : erase (put_queue r q s) = erase s.
Proof.
  destruct r as [| | | |a|a|a]; cbn [put_queue]; [reflexivity|reflexivity|reflexivity|reflexivity|..].
  - by apply erase_sems, fmap_alter_erased.
  - by apply erase_mutexes, fmap_alter_erased.
  - by apply erase_procs, (fmap_alter_erased (fun _ => q) (fun _ => no_queue)).
Qed.

Lemma erase_set_next s t tk n :
  k_tasks s !! t = Some tk ->
  erase (set_k_tasks (<[t := t_set_next n tk]> (k_tasks s)) s) = erase s.
Proof.
  intros Ht. apply erase_tasks. rewrite fmap_insert.
  apply map_eq. intros k. destruct (decide (k = t)) as [->|].
  - by rewrite lookup_insert_eq, lookup_fmap, Ht.
  - by rewrite lookup_insert_ne.
Qed.

Lemma queue_of_put r q s r' :
  is_Some (queue_of r s) ->
  queue_of r' (put_queue r q s) = if decide (r' = r) then Some q else queue_of r' s.
Proof.
  intros Hr. destruct (decide (r' = r)) as [->|Hne].
  - destruct r as [| | | |a|a|a]; cbn [queue_of put_queue] in *; try reflexivity;
      [by destruct Hr|..];
      cbn [k_sems k_mutexes k_procs set_k_sems set_k_mutexes set_k_procs];
      rewrite lookup_alter_eq; (apply fmap_is_Some in Hr as [x Hx] || destruct Hr as [x Hx]); by rewrite Hx.
  - destruct r as [| | | |a|a|a], r' as [| | | |b|b|b]; cbn [queue_of put_queue];
      try reflexivity; try congruence; cbn [k_sems k_mutexes k_procs set_k_sems set_k_mutexes set_k_procs]; rewrite lookup_alter_ne by congruence; reflexivity.
Qed.

Lemma tasks_put_queue r q s : k_tasks (put_queue r q s) = k_tasks s.
Proof. by destruct r. Qed.

Lemma queue_of_set_tasks r m s : queue_of r (set_k_tasks m s) = queue_of r s.
Proof. by destruct r. Qed.

Lemma queues_upd s s' Q r ts q m :
  queues s Q -> k_tasks s' = m ->
  (forall r', queue_of r' s' = if decide (r' = r) then Some q else queue_of r' s) ->
  queue_rep m q ts -> NoDup ts ->
  (forall r' t, r' <> r -> t ∈ Q r' -> (t ∉ ts) /\ next_task <$> m !! t = next_task <$> k_tasks s !! t) ->
  (forall t tk, m !! t = Some tk -> (t ∉ ts) -> (forall r', r' <> r -> t ∉ Q r') -> next_task tk = 0) ->
  queues s' (<[r := ts]> Q).
Proof.
  intros [Hrep Hnd Hdisj Hloose] Hm Hq Hr Hts Hoth Hlo. split.
  - intros r'. rewrite Hq, Hm. destruct (decide (r' = r)) as [->|Hne].
    + by rewrite fn_lookup_insert.
    + rewrite fn_lookup_insert_ne by done. specialize (Hrep r').
      assert (chain (k_tasks s) (Q r') -> chain m (Q r')) as Hfr.
      { intros Hc. eapply chain_frame; [|done]. intros t Ht. by apply (Hoth r'). }
      destruct (queue_of r' s) as [q'|]; [|split; [apply Hfr, Hrep|apply Hrep]].
      destruct Hrep as [-> Hc]. split; [done|by apply Hfr].
  - intros r'. destruct (decide (r' = r)) as [->|Hne].
    + by rewrite fn_lookup_insert.
    + by rewrite fn_lookup_insert_ne.
  - intros r1 r2 t. destruct (decide (r1 = r)) as [->|H1], (decide (r2 = r)) as [->|H2];
      rewrite ?fn_lookup_insert, ?fn_lookup_insert_ne by done; intros Ha Hb; [done| | |].
    + by destruct (Hoth r2 t H2 Hb).
    + by destruct (Hoth r1 t H1 Ha).
    + by eapply Hdisj.
  - intros t tk Ht Hno. apply (Hlo t tk); [by rewrite <- Hm| |].
    + specialize (Hno r). by rewrite fn_lookup_insert in Hno.
    + intros r' Hr'. specialize (Hno r'). by rewrite fn_lookup_insert_ne in Hno.
Qed.
End queue_specs.

Section queue_ops.
Context {H : Type} `{KHeap H}.
Implicit Types (s : kstate H) (Q : qref -> list Z).

Lemma queues_rep s Q r q : queues s Q -> queue_of r s = Some q -> queue_rep (k_tasks s) q (Q r).
Proof. intros HQ Hq. pose proof (q_rep _ _ HQ r) as Hr. by rewrite Hq in Hr. Qed.

Lemma wp_assert_ints s (Q' : unit -> kstate H -> Prop) E :
  k_ints s = false -> Q' tt s -> wp assert_interrupts_disabled Q' E s.
Proof. intros Hi HQ. unfold assert_interrupts_disabled, assert_panic. wp_cond. by rewrite Hi. Qed.

Lemma wp_task s t tk (Q' : task_t -> kstate H -> Prop) E :
  k_tasks s !! t = Some tk -> Q' tk s -> wp (task t) Q' E s.
Proof. intros Ht HQ. unfold task. wp_cond. by rewrite Ht. Qed.

Lemma wp_upd_task s t f tk (Q' : unit -> kstate H -> Prop) E :
  k_tasks s !! t = Some tk -> Q' tt (set_k_tasks (<[t := f tk]> (k_tasks s)) s) ->
  wp (upd_task t f) Q' E s.
Proof. intros Ht HQ. unfold upd_task. wp_steps. eapply wp_task; [done|]. by wp_steps. Qed.

Lemma wp_kassert_true {S} (b : bool) (Q' : unit -> S -> Prop) E (s : S) :
  b = true -> Q' tt s -> wp (kassert b) Q' E s.
Proof. intros -> HQ. apply wp_kassert. exact HQ. Qed.

Lemma wp_task_queue s Q r t :
  queues s Q -> k_ints s = false -> is_Some (queue_of r s) ->
  t <> 0 -> is_Some (k_tasks s !! t) -> (forall r', t ∉ Q r') ->
  wp (task_queue r t) (fun _ s' =>
    queues s' (<[r := Q r ++ [t]]> Q) /\ erase s' = erase s) never s.
Proof.
  intros HQ Hi [q Hq] Ht [tk Htk] Hno. pose proof (queues_rep _ _ _ _ HQ Hq) as [-> Hc].
  assert (next_task tk = 0) as Hn by (by eapply q_loose).
  assert (NoDup (Q r ++ [t])) as Hnd.
  { apply NoDup_app. split_and!; [by eapply q_nodup| |apply NoDup_singleton].
    intros x Hx ->%list_elem_of_singleton. by apply (Hno r). }
  unfold task_queue. wp_steps. apply wp_assert_ints; [done|]. wp_steps.
  apply wp_kassert_true; [by apply negb_true_iff, Z.eqb_neq|]. wp_steps.
  eapply wp_task; [done|]. wp_steps. apply wp_kassert_true; [by apply Z.eqb_eq|].
  unfold queue. wp_cond. rewrite Hq. wp_cond. cbn [first last].
  destruct (Q r) as [|b xs _] eqn:EQ using rev_ind.
  - cbn. wp_steps. split; [|apply erase_put_queue].
    eapply queues_upd; [exact HQ|apply tasks_put_queue|intros r'; apply queue_of_put; eauto|..].
    + split; [done|]. cbn. rewrite Htk. cbn. by rewrite Hn.
    + done.
    + intros r' t' Hr' Ht'. split; [|done]. intros ->%list_elem_of_singleton. by apply (Hno r').
    + intros t' tk' Ht' Hnew Hoth. eapply q_loose; [exact HQ|exact Ht'|].
      intros r'. destruct (decide (r' = r)) as [->|]; [rewrite EQ; apply not_elem_of_nil|by apply Hoth].
  - rewrite last0_snoc. destruct (chain_in _ _ b Hc ltac:(set_solver)) as [Hb0 [tkb Hb]].
    destruct (chain_in _ _ (hd0 (xs ++ [b])) Hc ltac:(destruct xs; left)) as [Hh0 _].
    rewrite (proj2 (Z.eqb_neq _ _)) by done. wp_steps.
    apply wp_kassert_true; [by apply negb_true_iff, Z.eqb_neq|]. wp_steps.
    eapply wp_upd_task; [done|]. wp_steps. split.
    + eapply queues_upd; [exact HQ|by rewrite tasks_put_queue|
        intros r'; rewrite queue_of_put by (rewrite queue_of_set_tasks; eauto);
        by rewrite queue_of_set_tasks|..].
      * split.
        { rewrite last0_snoc. by destruct xs. }
        pose proof Hnd as [Hnd' _]%NoDup_app.
        apply chain_snoc; try done; [rewrite <- EQ; apply Hno|rewrite Htk; cbn; by rewrite Hn].
      * done.
      * intros r' t' Hr' Ht'. assert (t' <> b) as Hb'.
        { intros ->. apply Hr'. eapply q_disj; [exact HQ|exact Ht'|rewrite EQ; set_solver]. }
        cbn [k_tasks set_k_tasks]. split; [|by rewrite lookup_insert_ne]. rewrite <- EQ. intros [Hin|Hin]%elem_of_app.
        { apply Hr'. by eapply q_disj. }
        apply list_elem_of_singleton in Hin as ->. by apply (Hno r').
      * cbn [k_tasks set_k_tasks]. intros t' tk' Ht' Hnew Hoth. rewrite lookup_insert_ne in Ht' by set_solver.
        eapply q_loose; [exact HQ|exact Ht'|]. intros r'.
        destruct (decide (r' = r)) as [->|]; [rewrite EQ; set_solver|by apply Hoth].
    + rewrite erase_put_queue. by apply erase_set_next.
Qed.

Lemma wp_task_dequeue s Q r :
  queues s Q -> k_ints s = false -> is_Some (queue_of r s) ->
  wp (task_dequeue r) (fun t s' =>
    t = hd0 (Q r) /\ queues s' (<[r := tl (Q r)]> Q) /\ erase s' = erase s) never s.
Proof.
  intros HQ Hi [q Hq]. pose proof (queues_rep _ _ _ _ HQ Hq) as [-> Hc].
  unfold task_dequeue. wp_steps. apply wp_assert_ints; [done|]. wp_steps.
  unfold queue. wp_cond. rewrite Hq. wp_cond. cbn [first last].
  pose proof (q_nodup _ _ HQ r) as Hnd. destruct (Q r) as [|t ts] eqn:EQ.
  - cbn. wp_steps. split; [done|]. split; [|done].
    eapply (queues_upd s s Q r [] (TaskQueue 0 0)); [exact HQ|done| |done|done| |].
    + intros r'. case_decide; [by subst|done].
    + intros r' t' _ _. split; [apply not_elem_of_nil|done].
    + intros t' tk' Ht' _ Hoth. eapply q_loose; [exact HQ|exact Ht'|].
      intros r'. destruct (decide (r' = r)) as [->|]; [rewrite EQ; apply not_elem_of_nil|by apply Hoth].
  - cbn [hd0 tl]. destruct Hc as (Ht0 & Hn & Hc). destruct (k_tasks s !! t) as [tk|] eqn:Htk; [|done].
    injection Hn as Hn. rewrite (proj2 (Z.eqb_neq t 0)) by done. wp_steps.
    eapply wp_task; [done|]. wp_steps. apply NoDup_cons in Hnd as [Htts Hnd].
    assert (forall s2, k_tasks s2 = k_tasks s ->
      (forall r', queue_of r' s2 = if decide (r' = r) then Some (TaskQueue (hd0 ts) (last0 ts)) else queue_of r' s) ->
      erase s2 = erase s ->
      wp (upd_task t (t_set_next 0)) (fun _ s1 => wp (ret t) (fun t0 s' =>
        t0 = t /\ queues s' (<[r := ts]> Q) /\ erase s' = erase s) never s1) never s2) as Hend.
    { intros s2 Hts2 Hq2 He2. eapply wp_upd_task; [by rewrite Hts2|]. wp_steps.
      split; [done|]. split; [|rewrite erase_set_next; [done|by rewrite Hts2]].
      eapply queues_upd; [exact HQ|done|intros r'; by rewrite queue_of_set_tasks| |done| |].
      - split; [done|]. cbn [k_tasks set_k_tasks]. rewrite Hts2. eapply chain_frame; [|exact Hc]. intros x Hx.
        rewrite lookup_insert_ne; [done|]. by intros ->.
      - cbn [k_tasks set_k_tasks]. intros r' t' Hr' Ht'. rewrite Hts2. assert (t' <> t) as Hne.
        { intros ->. apply Hr'. eapply q_disj; [exact HQ|exact Ht'|rewrite EQ; by left]. }
        split; [|by rewrite lookup_insert_ne]. intros Hin. apply Hr'.
        eapply q_disj; [exact HQ|exact Ht'|rewrite EQ; by right].
      - cbn [k_tasks set_k_tasks]. intros t' tk' Ht' Hnew Hoth. rewrite Hts2 in Ht'. destruct (decide (t' = t)) as [->|Hne].
        { rewrite lookup_insert_eq in Ht'. by injection Ht' as <-. }
        rewrite lookup_insert_ne in Ht' by done. eapply q_loose; [exact HQ|exact Ht'|].
        intros r'. destruct (decide (r' = r)) as [->|]; [rewrite EQ; set_solver|by apply Hoth]. }
    rewrite Hn. wp_cond. destruct ts as [|t' ts].
    + cbn [hd0 Z.eqb]. wp_steps. apply wp_kassert_true; [done|]. wp_steps.
      apply wp_kassert_true; [apply Z.eqb_refl|]. wp_steps. apply Hend.
      * by rewrite !tasks_put_queue.
      * intros r'. rewrite !queue_of_put; [by case_decide|eauto|].
        rewrite queue_of_put by eauto. rewrite decide_True by done. eauto.
      * by rewrite !erase_put_queue.
    + destruct Hc as (Ht'0 & _ & _). cbn [hd0]. rewrite (proj2 (Z.eqb_neq t' 0)) by done. wp_steps.
      apply Hend.
      * by rewrite tasks_put_queue.
      * intros r'. rewrite queue_of_put by eauto. by case_decide.
      * apply erase_put_queue.
Qed.
End queue_ops.

(** ** Effects of the blocking helpers on the erased state *)

Definition state_of {H} (s : kstate H) (t : Z) : option Z := state <$> k_tasks s !! t.

Definition e_task {H} (f : task_t -> task_t) (t : Z) (e : kstate H) : kstate H :=
  set_k_tasks (alter f t (k_tasks e)) e.

Definition lists_ok {H} `{KHeap H} (l : lstate H) : Prop :=
  ls_ok l /\ exists ns, dll l BLOCKED_LIST ns.

Section effects.
Context {H : Type} `{KHeapLaws H}.
Implicit Types (s : kstate H) (Q : qref -> list Z).

Lemma queues_same s s' Q :
  k_tasks s' = k_tasks s -> (forall r, queue_of r s' = queue_of r s) -> queues s Q -> queues s' Q.
Proof.
  intros Ht Hq [Hrep Hnd Hdisj Hloose]. split; [|done|done|by rewrite Ht].
  intros r. rewrite Hq, Ht. apply Hrep.
Qed.

Lemma queues_ext s Q Q' : (forall r, Q' r = Q r) -> queues s Q -> queues s Q'.
Proof.
  intros HQ [Hrep Hnd Hdisj Hloose]. split.
  - intros r. rewrite HQ. apply Hrep.
  - intros r. by rewrite HQ.
  - intros r r' t. rewrite !HQ. apply Hdisj.
  - intros t tk Ht Hno. apply (Hloose t tk Ht). intros r. by rewrite <- HQ.
Qed.

Lemma queues_upd_task s Q t tk f :
  queues s Q -> k_tasks s !! t = Some tk -> next_task (f tk) = next_task tk ->
  queues (set_k_tasks (<[t := f tk]> (k_tasks s)) s) Q.
Proof.
  intros [Hrep Hnd Hdisj Hloose] Ht Hf. split; [|done|done|].
  - intros r. rewrite queue_of_set_tasks. cbn [k_tasks set_k_tasks]. specialize (Hrep r).
    assert (chain (k_tasks s) (Q r) -> chain (<[t := f tk]> (k_tasks s)) (Q r)) as Hfr.
    { intros Hc. eapply chain_frame; [|done]. intros u _.
      destruct (decide (u = t)) as [->|]; [|by rewrite lookup_insert_ne].
      rewrite lookup_insert_eq, Ht. cbn. by rewrite Hf. }
    destruct (queue_of r s) as [q|]; [|split; [apply Hfr, Hrep|apply Hrep]].
    destruct Hrep as [-> Hc]. split; [done|by apply Hfr].
  - cbn [k_tasks set_k_tasks]. intros u uk Hu Hno.
    destruct (decide (u = t)) as [->|Hne].
    + rewrite lookup_insert_eq in Hu. injection Hu as <-. rewrite Hf. by eapply Hloose.
    + rewrite lookup_insert_ne in Hu by done. by eapply Hloose.
Qed.

Lemma erase_upd_task s t tk f :
  k_tasks s !! t = Some tk -> t_set_next 0 (f tk) = f (t_set_next 0 tk) ->
  erase (set_k_tasks (<[t := f tk]> (k_tasks s)) s) = e_task f t (erase s).
Proof.
  intros Ht Hf. unfold erase, e_task, set_k_tasks. cbn. f_equal. apply map_eq. intros u.
  rewrite lookup_fmap. destruct (decide (u = t)) as [->|].
  - rewrite lookup_insert_eq, lookup_alter_eq, lookup_fmap, Ht. cbn. by rewrite <- Hf.
  - by rewrite lookup_insert_ne, lookup_alter_ne, lookup_fmap.
Qed.

(** Facts about the state read off the erased state. *)
Lemma erase_task s s' t :
  erase s' = erase s -> t_set_next 0 <$> k_tasks s' !! t = t_set_next 0 <$> k_tasks s !! t.
Proof.
  intros He. rewrite <- !lookup_fmap.
  change (k_tasks (erase s') !! t = k_tasks (erase s) !! t). by rewrite He.
Qed.

Lemma erase_is_task s t : is_Some (k_tasks (erase s) !! t) <-> is_Some (k_tasks s !! t).
Proof. cbn. by rewrite lookup_fmap, fmap_is_Some. Qed.

Lemma erase_is_queue s r : is_Some (queue_of r (erase s)) <-> is_Some (queue_of r s).
Proof.
  destruct r as [| | | |a|a|a]; cbn; try (split; eauto; done); rewrite lookup_fmap, ?fmap_is_Some; done.
Qed.

Lemma state_of_erase s t : state_of (erase s) t = state_of s t.
Proof. unfold state_of. cbn. rewrite lookup_fmap. by destruct (k_tasks s !! t). Qed.

(** The common part of blocking and unblocking: set the state, queue. *)
Lemma wp_queue_in_state s Q r t st :
  queues s Q -> k_ints s = false -> is_Some (queue_of r s) ->
  t <> 0 -> is_Some (k_tasks s !! t) -> (forall r', t ∉ Q r') ->
  wp (upd_task t (t_set_state st) >>> task_queue r t) (fun _ s' =>
    queues s' (<[r := Q r ++ [t]]> Q) /\ erase s' = e_task (t_set_state st) t (erase s)) never s.
Proof.
  intros HQ Hi Hr Ht [tk Htk] Hno. wp_steps. eapply wp_upd_task; [done|].
  eapply wp_mono; [apply (wp_task_queue _ Q r t)| |done].
  - by apply queues_upd_task.
  - done.
  - by rewrite queue_of_set_tasks.
  - done.
  - cbn. rewrite lookup_insert_eq. eauto.
  - done.
  - cbv beta. intros [] s' [HQ' He']. split; [done|]. rewrite He'. by apply erase_upd_task.
Qed.

Lemma wp___task_block s Q r t reason :
  queues s Q -> lists_ok (k_lists s) -> k_ints s = false -> k_lock_count s <> 0 ->
  is_Some (queue_of r s) -> t <> 0 -> is_Some (k_tasks s !! t) -> (forall r', t ∉ Q r') ->
  wp (__task_block r t reason) (fun _ s' =>
    queues s' (<[r := Q r ++ [t]]> Q) /\
    exists L, lists_ok L /\
      erase s' = set_k_lists L (e_task (t_set_state reason) t (erase s))) only_nomem s.
Proof.
  intros HQ [Hls [ns Hns]] Hi Hn Hr Ht Htk Hno. unfold __task_block, assert_panic. wp_steps.
  apply wp_kassert_true; [by apply negb_true_iff, Z.eqb_neq|]. wp_steps.
  apply wp_assert_ints; [done|]. wp_steps.
  apply wp_kassert_true; [by apply negb_true_iff, Z.eqb_neq|].
  pose proof (wp_queue_in_state s Q r t reason HQ Hi Hr Ht Htk Hno) as Hw.
  apply wp_bind in Hw. wp_steps. eapply wp_mono; [exact Hw| |by intros e []].
  cbv beta. intros [] s1 Hw1. wp_steps. eapply wp_mono; [exact Hw1| |by intros e []].
  cbv beta. intros [] s2 [HQ2 He2]. wp_steps. apply wp_zoom. cbn [lget lists_lens].
  assert (k_lists s2 = k_lists s) as Hl2 by (change (k_lists (erase s2) = k_lists s); by rewrite He2).
  wp_apply wp_list_insert; [by rewrite Hl2|by rewrite Hl2|done| |done].
  intros p L (Hls' & Hd' & _). wp_steps. cbn [lset lists_lens]. split.
  - by eapply queues_same; [| |exact HQ2].
  - exists L. split; [split; eauto|]. by rewrite <- He2.
Qed.

Lemma wp___task_unblock s Q t :
  queues s Q -> lists_ok (k_lists s) -> k_ints s = false -> k_lock_count s <> 0 ->
  t <> 0 -> is_Some (k_tasks s !! t) -> (forall r', t ∉ Q r') ->
  wp (__task_unblock t) (fun _ s' =>
    queues s' (<[QReady := Q QReady ++ [t]]> Q) /\
    exists L, lists_ok L /\
      erase s' = set_k_lists L (e_task (t_set_state TASK_STATE_READY) t (erase s))) never s.
Proof.
  intros HQ [Hls [ns Hns]] Hi Hn Ht Htk Hno. unfold __task_unblock, assert_panic. wp_steps.
  apply wp_kassert_true; [by apply negb_true_iff, Z.eqb_neq|]. wp_steps.
  apply wp_assert_ints; [done|]. wp_steps.
  apply wp_kassert_true; [by apply negb_true_iff, Z.eqb_neq|].
  pose proof (wp_queue_in_state s Q QReady t TASK_STATE_READY HQ Hi ltac:(by eexists) Ht Htk Hno) as Hw.
  apply wp_bind in Hw. wp_steps. eapply wp_mono; [exact Hw| |done].
  cbv beta. intros [] s1 Hw1. wp_steps. eapply wp_mono; [exact Hw1| |done].
  cbv beta. intros [] s2 [HQ2 He2]. wp_steps. apply wp_zoom. cbn [lget lists_lens].
  assert (k_lists s2 = k_lists s) as Hl2 by (change (k_lists (erase s2) = k_lists s); by rewrite He2).
  wp_apply wp_list_remove; [by rewrite Hl2|by rewrite Hl2| |done].
  intros [] L (Hls' & Hd' & _). wp_steps. cbn [lset lists_lens]. split.
  - by eapply queues_same; [| |exact HQ2].
  - exists L. split; [split; eauto|]. by rewrite <- He2.
Qed.
End effects.

(** ** Printing *)

Section printing.
Context {H : Type} `{KHeapLaws H}.
Implicit Types (s e : kstate H) (Q : qref -> list Z).

Lemma wp_lock_nested s (Q' : unit -> kstate H -> Prop) E n :
  k_lock_count s = n -> 1 <= n < 100 ->
  Q' tt (set_k_lock_count (n + 1) (set_k_ints false s)) -> wp scheduler_lock Q' E s.
Proof.
  intros Hn Hb HQ. unfold scheduler_lock, interrupts_disable. wp_cond.
  change (k_lock_count (set_k_ints false s)) with (k_lock_count s).
  rewrite Hn, (proj2 (Z.eqb_neq n 0)) by lia. wp_steps.
  change (k_lock_count (set_k_ints false s)) with (k_lock_count s).
  rewrite Hn, u32_small by (unfold is_u32; lia). done.
Qed.

Lemma wp_lock_outer s (Q' : unit -> kstate H -> Prop) E :
  k_lock_count s = 0 -> k_postponed s = false ->
  Q' tt (set_k_lock_count 1
           (if k_ints s then set_k_enable_ints true (set_k_ints false s) else set_k_ints false s)) ->
  wp scheduler_lock Q' E s.
Proof.
  intros Hn Hp HQ. unfold scheduler_lock, interrupts_disable, assert_panic. wp_cond.
  change (k_lock_count (set_k_ints false s)) with (k_lock_count s).
  rewrite Hn, Z.eqb_refl. wp_steps. apply wp_kassert_true; [cbn; by rewrite Hp|].
  wp_cond. destruct (k_ints s); wp_steps; cbn [k_lock_count set_k_enable_ints set_k_ints]; by rewrite Hn.
Qed.

Lemma wp_unlock_nested sch s (Q' : unit -> kstate H -> Prop) E n :
  k_lock_count s = n -> 2 <= n -> k_ints s = false ->
  Q' tt (set_k_lock_count (n - 1) s) -> wp (scheduler_unlock sch) Q' E s.
Proof.
  intros Hn Hb Hi HQ. unfold scheduler_unlock, assert_panic. wp_steps. apply wp_assert_ints; [done|].
  wp_steps. rewrite Hn. apply wp_kassert_true; [apply negb_true_iff, Z.eqb_neq; lia|].
  wp_cond. rewrite (proj2 (Z.eqb_neq (n - 1) 0)) by lia. by wp_steps.
Qed.

Lemma wp_sem s a x (Q' : semaphore_t -> kstate H -> Prop) E :
  k_sems s !! a = Some x -> Q' x s -> wp (sem a) Q' E s.
Proof. intros Hx HQ. unfold sem. wp_cond. by rewrite Hx. Qed.

Lemma wp_upd_sem s a f x (Q' : unit -> kstate H -> Prop) E :
  k_sems s !! a = Some x -> Q' tt (set_k_sems (<[a := f x]> (k_sems s)) s) ->
  wp (upd_sem a f) Q' E s.
Proof. intros Hx HQ. unfold upd_sem. wp_steps. eapply wp_sem; [done|]. by wp_steps. Qed.

Lemma wp_mutex s m x (P : mutex_t -> kstate H -> Prop) E :
  k_mutexes s !! m = Some x -> P x s -> wp (mutex m) P E s.
Proof. intros Hx HP. unfold mutex. wp_cond. by rewrite Hx. Qed.

Lemma wp_upd_mutex s m f x (P : unit -> kstate H -> Prop) E :
  k_mutexes s !! m = Some x -> P tt (set_k_mutexes (<[m := f x]> (k_mutexes s)) s) ->
  wp (upd_mutex m f) P E s.
Proof. intros Hx HP. unfold upd_mutex. wp_steps. eapply wp_mutex; [done|]. by wp_steps. Qed.

(** Nobody holds [print_mutex] or waits for it, and nobody holds the console's
    lock. *)
Definition printable e Q : Prop :=
  (exists x, k_mutexes e !! PRINT_MUTEX = Some x /\ lock x = 0 /\ locked_task x = 0) /\
  (exists y, k_sems e !! CONSOLE_WRITE_LOCK = Some y /\ sem_lock y = 0) /\
  Q (QMutex PRINT_MUTEX) = [].

Lemma printable_objects s Q :
  queues s Q -> printable (erase s) Q ->
  k_mutexes s !! PRINT_MUTEX = Some (Mutex 0 0 no_queue) /\
  exists c q, k_sems s !! CONSOLE_WRITE_LOCK = Some (Semaphore c q 0).
Proof.
  intros HQ ((x & Hx & Hl & Ht) & (y & Hy & Hyl) & Hn). cbn in Hx, Hy. rewrite lookup_fmap in Hx. rewrite lookup_fmap in Hy.
  split.
  - destruct (k_mutexes s !! PRINT_MUTEX) as [[l t q]|] eqn:E; [|done]. injection Hx as <-. cbn in *. subst.
    pose proof (queues_rep _ _ (QMutex PRINT_MUTEX) q HQ) as Hq. cbn in Hq. rewrite E, Hn in Hq.
    by destruct (Hq eq_refl) as [-> _].
  - destruct (k_sems s !! CONSOLE_WRITE_LOCK) as [[c q l]|] eqn:E; [|done]. injection Hy as <-. cbn in *. subst. eauto.
Qed.

Lemma set_mutexes_id s : set_k_mutexes (k_mutexes s) s = s.
Proof. by destruct s. Qed.

(** The mutex is taken and given back around [putc], which leads to [s0]. *)
Lemma wp_printf_around sch s s0 Q (P : bool -> kstate H -> Prop) E :
  queues s Q -> printable (erase s) Q -> k_mutexes s0 = k_mutexes s -> k_current s0 = k_current s ->
  (forall m, wp (putc sch) (fun _ s' => s' = set_k_mutexes m s0) E (set_k_mutexes m s)) ->
  P true s0 -> wp (printf sch) P E s.
Proof.
  intros HQ Hpr Hm0 Hc0 Hput HP. destruct (printable_objects s Q HQ Hpr) as [Hx _].
  unfold printf, mutex_lock_now, mutex_swap, mutex_locked. wp_steps.
  eapply wp_mutex; [exact Hx|]. wp_steps. eapply wp_upd_mutex; [exact Hx|]. wp_steps.
  cbn [lock negb Z.eqb]. wp_steps. eapply wp_mutex; [cbn; apply lookup_insert_eq|]. wp_steps.
  apply wp_kassert_true; [done|]. wp_steps. eapply wp_upd_mutex; [cbn; apply lookup_insert_eq|]. wp_steps.
  cbn [k_mutexes set_k_mutexes k_current]. rewrite insert_insert_eq. set (m := <[PRINT_MUTEX := _]> _).
  wp_steps. eapply wp_mono; [apply (Hput m)| |done]. cbv beta. intros [] s1 ->.
  assert (m !! PRINT_MUTEX = Some (Mutex 1 (k_current s) no_queue)) as Hm by apply lookup_insert_eq.
  unfold mutex_unlock, mutex_swap. wp_steps. eapply wp_mutex; [exact Hm|]. wp_steps.
  eapply wp_upd_mutex; [exact Hm|]. wp_steps. apply wp_kassert_true; [done|]. wp_steps.
  eapply wp_mutex; [cbn; apply lookup_insert_eq|]. wp_steps. apply wp_kassert_true; [apply Z.eqb_eq; cbn; congruence|].
  wp_steps. eapply wp_upd_mutex; [cbn; apply lookup_insert_eq|]. wp_steps.
  cbn [mutex_blocked m_set_lock m_set_task first no_queue negb Z.eqb]. wp_steps.
  eapply wp_mutex; [cbn; apply lookup_insert_eq|]. wp_steps. eapply wp_upd_mutex; [cbn; apply lookup_insert_eq|]. wp_steps.
  cbn [k_mutexes set_k_mutexes k_current]. rewrite Hc0, Z.eqb_refl. rewrite !insert_insert_eq.
  unfold m. rewrite insert_insert_eq. cbn [m_set_lock m_set_task lock locked_task mutex_blocked].
  rewrite insert_id by exact Hx. rewrite <- Hm0. change (P true (set_k_mutexes (k_mutexes s0) s0)).
  by rewrite set_mutexes_id.
Qed.

Lemma set_sems_id s : set_k_sems (k_sems s) s = s.
Proof. by destruct s. Qed.

(** A character, under the scheduler lock and outside it. *)
Lemma wp_putc_nested sch s c q n (P : unit -> kstate H -> Prop) E :
  k_sems s !! CONSOLE_WRITE_LOCK = Some (Semaphore c q 0) ->
  k_lock_count s = n -> 1 <= n < 90 -> k_ints s = false -> P tt s -> wp (putc sch) P E s.
Proof.
  intros Hy Hn Hb Hi HP. unfold putc, spin_lock, spin_unlock, sem_swap. wp_steps.
  eapply wp_lock_nested; [exact Hn|lia|]. wp_steps. eapply wp_sem; [exact Hy|]. wp_steps.
  eapply wp_upd_sem; [exact Hy|]. wp_steps. cbn [sem_lock Z.eqb negb]. wp_steps.
  eapply wp_sem; [cbn; apply lookup_insert_eq|]. wp_steps. eapply wp_upd_sem; [cbn; apply lookup_insert_eq|]. wp_steps.
  cbn [sem_lock s_set_lock Z.eqb negb]. eapply (wp_unlock_nested _ _ _ _ (n + 1)); [done|lia|done|].
  cbn [k_sems set_k_sems s_set_lock]. rewrite insert_insert_eq. cbn [s_set_lock count blocked_tasks].
  cbn [set_k_lock_count set_k_ints k_sems]. rewrite insert_id by exact Hy. replace (n + 1 - 1) with n by lia.
  destruct s. cbn in *. by subst.
Qed.

(** What a lock and an unlock outside the lock leave of the interrupt flag. *)
Definition ints_settled s : kstate H := set_k_ints (k_ints s || k_enable_ints s) (set_k_enable_ints false s).

Lemma ints_settled_id s : k_ints s = false -> k_enable_ints s = false -> ints_settled s = s.
Proof. destruct s. cbn. by intros -> ->. Qed.

Lemma wp_putc_outer sch s c q (P : unit -> kstate H -> Prop) E :
  k_sems s !! CONSOLE_WRITE_LOCK = Some (Semaphore c q 0) ->
  k_lock_count s = 0 -> k_postponed s = false -> P tt (ints_settled s) -> wp (putc sch) P E s.
Proof.
  intros Hy Hn Hp HP. unfold putc, spin_lock, spin_unlock, sem_swap. wp_steps.
  apply wp_lock_outer; [exact Hn|exact Hp|]. set (s1 := set_k_lock_count 1 _).
  assert (k_sems s1 = k_sems s) as Hs1 by (unfold s1; by destruct (k_ints s)).
  wp_steps. eapply wp_sem; [rewrite Hs1; exact Hy|]. wp_steps.
  eapply wp_upd_sem; [rewrite Hs1; exact Hy|]. wp_steps. cbn [sem_lock Z.eqb negb]. wp_steps.
  eapply wp_sem; [cbn; apply lookup_insert_eq|]. wp_steps. eapply wp_upd_sem; [cbn; apply lookup_insert_eq|]. wp_steps.
  cbn [sem_lock s_set_lock Z.eqb Pos.eqb negb]. cbn [k_sems set_k_sems]. rewrite insert_insert_eq, Hs1. cbn [s_set_lock count blocked_tasks].
  rewrite insert_id by exact Hy. unfold scheduler_unlock, unlock_tail, assert_panic, interrupts_enable. wp_steps.
  apply wp_assert_ints; [unfold s1; by destruct (k_ints s)|]. wp_steps.
  apply wp_kassert_true; [unfold s1; by destruct (k_ints s)|]. wp_steps.
  destruct s as [tks cur rdy wai ter li sr n p e i tic tss sem mu pr sv irq]. unfold ints_settled in HP. cbn in *. subst.
  change (1 - 1 =? 0) with true. cbv iota. wp_steps. cbn [k_scheduler_ready k_postponed].
  destruct sr, i, e; repeat (cbn; progress wp_steps); exact HP.
Qed.

Lemma wp_printf_nested sch s Q n (P : bool -> kstate H -> Prop) E :
  queues s Q -> printable (erase s) Q -> k_lock_count s = n -> 1 <= n < 90 -> k_ints s = false ->
  P true s -> wp (printf sch) P E s.
Proof.
  intros HQ Hpr Hn Hb Hi HP. destruct (printable_objects s Q HQ Hpr) as [_ (c & q & Hy)].
  eapply (wp_printf_around sch s s Q); try done. intros m. by eapply (wp_putc_nested _ _ c q n).
Qed.

Lemma wp_printf_outer sch s Q (P : bool -> kstate H -> Prop) E :
  queues s Q -> printable (erase s) Q -> k_lock_count s = 0 -> k_postponed s = false ->
  P true (ints_settled s) -> wp (printf sch) P E s.
Proof.
  intros HQ Hpr Hn Hp HP. destruct (printable_objects s Q HQ Hpr) as [_ (c & q & Hy)].
  eapply (wp_printf_around sch s (ints_settled s) Q); try done. intros m. by eapply (wp_putc_outer _ _ c q).
Qed.
End printing.

(** ** Waking sleepers *)

Section wakeup.
Context {H : Type} `{KHeapLaws H}.
Implicit Types (s e : kstate H) (Q : qref -> list Z).

Definition expired e (t : Z) : bool :=
  match k_tasks e !! t with Some tk => wait_target tk <=? k_ticks e | None => false end.

(** The effect of the loop on the tasks of the detached chain. *)
Fixpoint e_wake (D : list Z) e : kstate H :=
  match D with
  | [] => e
  | t :: D' =>
      e_wake D' (if expired e t
                 then e_task (t_set_state TASK_STATE_READY) t (e_task (t_set_wait 0) t e) else e)
  end.

(** Who is where after the loop. *)
Definition woken e (Q : qref -> list Z) (r : qref) : list Z :=
  match r with
  | QDetached => []
  | QReady => Q QReady ++ List.filter (expired e) (Q QDetached)
  | QWait => Q QWait ++ List.filter (fun t => negb (expired e t)) (Q QDetached)
  | _ => Q r
  end.

Lemma expired_erase s t : expired (erase s) t = expired s t.
Proof. unfold expired. cbn. rewrite lookup_fmap. by destruct (k_tasks s !! t). Qed.

Lemma expired_e_task e f t u : u <> t -> expired (e_task f t e) u = expired e u.
Proof. intros Hu. unfold expired, e_task. cbn. by rewrite lookup_alter_ne. Qed.

Lemma e_wake_lists D e L : e_wake D (set_k_lists L e) = set_k_lists L (e_wake D e).
Proof.
  revert e. induction D as [|t D IH]; intros e; [done|]. cbn.
  change (expired (set_k_lists L e) t) with (expired e t).
  destruct (expired e t); [|apply IH]. rewrite <- IH. done.
Qed.

Lemma queues_detach s Q t D tk :
  queues s Q -> Q QDetached = t :: D -> k_tasks s !! t = Some tk ->
  queues (set_k_tasks (<[t := t_set_next 0 tk]> (k_tasks s)) s) (<[QDetached := D]> Q).
Proof.
  intros HQ HD Ht. pose proof HQ as [Hrep Hnd Hdisj Hloose].
  pose proof (Hnd QDetached) as Hndd. rewrite HD in Hndd. apply NoDup_cons in Hndd as [HtD HnD].
  assert (forall r u, r <> QDetached -> u ∈ Q r -> u <> t /\ (u ∉ D)) as Hother.
  { intros r u Hr Hu. split.
    - intros ->. apply Hr. eapply Hdisj; [exact Hu|rewrite HD; by left].
    - intros Hin. apply Hr. eapply Hdisj; [exact Hu|rewrite HD; by right]. }
  split.
  - intros r. rewrite queue_of_set_tasks. cbn [k_tasks set_k_tasks].
    destruct (decide (r = QDetached)) as [->|Hr].
    + rewrite fn_lookup_insert. cbn [queue_of]. split; [|done].
      specialize (Hrep QDetached). cbn in Hrep. rewrite HD in Hrep.
      destruct Hrep as [(_ & _ & Hc) _]. eapply chain_frame; [|exact Hc].
      intros u Hu. rewrite lookup_insert_ne; [done|]. by intros ->.
    + rewrite fn_lookup_insert_ne by done. specialize (Hrep r).
      assert (chain (k_tasks s) (Q r) -> chain (<[t := t_set_next 0 tk]> (k_tasks s)) (Q r)) as Hfr.
      { intros Hc. eapply chain_frame; [|done]. intros u Hu.
        rewrite lookup_insert_ne; [done|]. intros <-. by destruct (Hother r t Hr Hu). }
      destruct (queue_of r s) as [q|]; [|split; [apply Hfr, Hrep|apply Hrep]].
      destruct Hrep as [-> Hc]. split; [done|by apply Hfr].
  - intros r. destruct (decide (r = QDetached)) as [->|Hr];
      [by rewrite fn_lookup_insert|by rewrite fn_lookup_insert_ne].
  - intros r1 r2 u. destruct (decide (r1 = QDetached)) as [->|H1'], (decide (r2 = QDetached)) as [->|H2'];
      rewrite ?fn_lookup_insert, ?fn_lookup_insert_ne by done; intros Ha Hb; [done| | |].
    + by destruct (Hother r2 u H2' Hb).
    + by destruct (Hother r1 u H1' Ha).
    + by eapply Hdisj.
  - cbn [k_tasks set_k_tasks]. intros u uk Hu Hno. destruct (decide (u = t)) as [->|Hne].
    + rewrite lookup_insert_eq in Hu. by injection Hu as <-.
    + rewrite lookup_insert_ne in Hu by done. eapply Hloose; [exact Hu|].
      intros r. destruct (decide (r = QDetached)) as [->|Hr].
      * specialize (Hno QDetached). rewrite fn_lookup_insert in Hno. rewrite HD. set_solver.
      * specialize (Hno r). by rewrite fn_lookup_insert_ne in Hno.
Qed.

Lemma queues_detach_all s Q :
  queues s Q -> Q QDetached = [] ->
  queues (set_k_wait no_queue s) (<[QWait := []]> (<[QDetached := Q QWait]> Q)).
Proof.
  intros [Hrep Hnd Hdisj Hloose] HD.
  assert (forall r, r <> QWait -> r <> QDetached ->
    <[QWait := []]> (<[QDetached := Q QWait]> Q) r = Q r) as Hr.
  { intros r H1' H2'. by rewrite !fn_lookup_insert_ne. }
  assert (<[QWait := []]> (<[QDetached := Q QWait]> Q) QWait = []) as Hw by apply fn_lookup_insert.
  assert (<[QWait := []]> (<[QDetached := Q QWait]> Q) QDetached = Q QWait) as Hd.
  { rewrite fn_lookup_insert_ne by done. apply fn_lookup_insert. }
  set (Q' := <[QWait := []]> _) in *.
  assert (forall r t, t ∈ Q' r -> exists r', t ∈ Q r' /\ (r = QDetached /\ r' = QWait \/ r <> QDetached /\ r <> QWait /\ r' = r)) as Hin.
  { intros r t Ht. destruct (decide (r = QWait)) as [->|]; [rewrite Hw in Ht; by apply elem_of_nil in Ht|].
    destruct (decide (r = QDetached)) as [->|]; [rewrite Hd in Ht; eauto|].
    rewrite Hr in Ht by done. exists r. eauto. }
  split.
  - intros r. change (k_tasks (set_k_wait no_queue s)) with (k_tasks s).
    destruct (decide (r = QWait)) as [->|]; [by rewrite Hw|].
    destruct (decide (r = QDetached)) as [->|].
    { rewrite Hd. cbn. split; [|done]. apply (Hrep QWait). }
    rewrite Hr by done. specialize (Hrep r). by destruct r.
  - intros r. destruct (decide (r = QWait)) as [->|]; [rewrite Hw; apply NoDup_nil_2|].
    destruct (decide (r = QDetached)) as [->|]; [by rewrite Hd|]. by rewrite Hr.
  - intros r1 r2 t [r1' [Ht1 Hc1]]%Hin [r2' [Ht2 Hc2]]%Hin.
    pose proof (Hdisj _ _ _ Ht1 Ht2). destruct Hc1 as [[-> ->]|(?&?&->)], Hc2 as [[-> ->]|(?&?&->)]; congruence.
  - intros t tk Ht Hno. apply (Hloose t tk Ht). intros r Htr.
    destruct (decide (r = QWait)) as [->|]; [apply (Hno QDetached); by rewrite Hd|].
    destruct (decide (r = QDetached)) as [->|]; [rewrite HD in Htr; by apply elem_of_nil in Htr|].
    apply (Hno r). by rewrite Hr.
Qed.

Lemma filter_expired_ext (f g : Z -> bool) D :
  (forall u, u ∈ D -> f u = g u) -> List.filter f D = List.filter g D.
Proof.
  induction D as [|u D IH]; intros Hfg; [done|]. cbn. rewrite Hfg by (by left).
  rewrite IH; [done|]. intros v Hv. apply Hfg. by right.
Qed.

(** The queues after the rest of the loop, from what one round did. *)
Lemma woken_step s s3 Q Q3 t D :
  Q QDetached = t :: D -> Q3 QDetached = D ->
  (forall u, u ∈ D -> expired s3 u = expired s u) ->
  Q3 QReady = (if expired s t then Q QReady ++ [t] else Q QReady) ->
  Q3 QWait = (if expired s t then Q QWait else Q QWait ++ [t]) ->
  (forall a, Q3 (QSem a) = Q (QSem a)) -> (forall a, Q3 (QMutex a) = Q (QMutex a)) ->
  (forall a, Q3 (QProc a) = Q (QProc a)) -> Q3 QTerminated = Q QTerminated ->
  forall r, woken s Q r = woken s3 Q3 r.
Proof.
  intros HD HD3 Hexp Hr Hw Hs Hm Hp Ht r.
  destruct r; cbn; rewrite ?HD, ?HD3, ?Hr, ?Hw, ?Hs, ?Hm, ?Hp, ?Ht; try done; cbn.
  - rewrite (filter_expired_ext (expired s3) (expired s) D) by done.
    destruct (expired s t); [by rewrite <- app_assoc|done].
  - rewrite (filter_expired_ext (fun u => negb (expired s3 u)) (fun u => negb (expired s u)) D)
      by (intros u Hu; by rewrite Hexp).
    destruct (expired s t); [done|by rewrite <- app_assoc].
Qed.

Lemma wp_wakeup_rounds sch body :
  body = (fun t =>
    if t =? 0 then ret (inr tt)
    else
      let! tk := task t in
      let next := next_task tk in
      upd_task t (t_set_next 0) >>>
      let! ticks := gets k_ticks in
      (if wait_target tk <=? ticks then
         printf sch >>> upd_task t (t_set_wait 0) >>> __task_unblock t
       else task_queue QWait t) >>>
      ret (inl next)) ->
  forall D fuel s Q, Q QDetached = D -> queues s Q -> lists_ok (k_lists s) -> printable (erase s) Q ->
  k_ints s = false -> 1 <= k_lock_count s < 90 -> (base.length D < fuel)%nat ->
  wp (loop fuel body (hd0 D)) (fun (_ : unit) s' =>
    queues s' (woken s Q) /\ exists L, lists_ok L /\
      erase s' = set_k_lists L (e_wake D (erase s))) never s.
Proof.
  intros -> D. induction D as [|t D IH]; intros [|fuel] s Q HD HQ Hls Hpr Hi Hn Hf; cbn in Hf; try lia;
    apply wp_loop_step.
  - cbn. wp_steps. split.
    + eapply queues_ext; [|exact HQ]. intros r.
      destruct r; cbn; rewrite ?HD; cbn; rewrite ?app_nil_r; done.
    + exists (k_lists s). done.
  - pose proof (q_rep _ _ HQ QDetached) as [Hc _]. rewrite HD in Hc.
    destruct Hc as (Ht0 & Hnt & _). destruct (k_tasks s !! t) as [tk|] eqn:Htk; [|done].
    injection Hnt as Hnt. cbn [hd0]. wp_cond. rewrite (proj2 (Z.eqb_neq t 0)) by done.
    wp_steps. eapply wp_task; [done|]. wp_steps. eapply wp_upd_task; [done|]. wp_steps.
    rewrite Hnt. set (s1 := set_k_tasks _ s).
    pose proof (queues_detach s Q t D tk HQ HD Htk) as HQ1. fold s1 in HQ1.
    assert (erase s1 = erase s) as He1 by (by apply erase_set_next).
    assert (k_tasks s1 !! t = Some (t_set_next 0 tk)) as Ht1 by (cbn; apply lookup_insert_eq).
    assert (forall r, t ∉ <[QDetached := D]> Q r) as Hno.
    { intros r. destruct (decide (r = QDetached)) as [->|Hr].
      - rewrite fn_lookup_insert. pose proof (q_nodup _ _ HQ QDetached) as Hnd.
        rewrite HD in Hnd. by apply NoDup_cons in Hnd as [? _].
      - rewrite fn_lookup_insert_ne by done. intros Hin. apply Hr.
        eapply q_disj; [exact HQ|exact Hin|rewrite HD; by left]. }
    assert (wait_target tk <=? k_ticks s1 = expired s t) as Hexp.
    { unfold expired. by rewrite Htk. }
    assert (printable (erase s1) (<[QDetached := D]> Q)) as Hpr1.
    { rewrite He1. destruct Hpr as (Hm & Hy & Hnil). split; [exact Hm|]. split; [exact Hy|]. by rewrite fn_lookup_insert_ne. }
    rewrite Hexp. wp_cond. destruct (expired s t) eqn:Eexp.
    + wp_steps. eapply (wp_printf_nested sch s1 _ _ _ _ HQ1 Hpr1); [reflexivity|exact Hn|exact Hi|].
      wp_steps. eapply wp_upd_task; [exact Ht1|]. set (s2 := set_k_tasks _ s1).
      assert (queues s2 (<[QDetached := D]> Q)) as HQ2 by (by apply queues_upd_task).
      assert (erase s2 = e_task (t_set_wait 0) t (erase s)) as He2.
      { rewrite <- He1. by apply (erase_upd_task s1 t _ (t_set_wait 0)). }
      eapply wp_mono; [apply (wp___task_unblock s2 _ t HQ2)| |done]; [done|done|cbn; lia|done| |done|].
      { cbn. rewrite lookup_insert_eq. eauto. }
      cbv beta. intros [] s3 [HQ3 (L3 & HL3 & He3)]. wp_steps.
      set (Q3 := <[QReady := _]> _) in HQ3.
      eapply wp_mono; [apply (IH fuel s3 Q3)| |done].
      * subst Q3. rewrite fn_lookup_insert_ne by done. apply fn_lookup_insert.
      * done.
      * change (lists_ok (k_lists (erase s3))). by rewrite He3.
      * rewrite He3, He2. destruct Hpr1 as (Hm & Hy & Hnil). rewrite He1 in Hm, Hy. split; [exact Hm|]. split; [exact Hy|].
        subst Q3. by rewrite fn_lookup_insert_ne.
      * change (k_ints (erase s3) = false). by rewrite He3, He2.
      * change (1 <= k_lock_count (erase s3) < 90). by rewrite He3, He2.
      * lia.
      * cbv beta. intros [] s4 [HQ4 (L4 & HL4 & He4)]. split.
        -- eapply queues_ext; [|exact HQ4].
           apply (woken_step s s3 Q Q3 t D); try done; rewrite ?Eexp; try done.
           intros u Hu. rewrite <- (expired_erase s3), He3, He2. 
           assert (u <> t). { intros ->. apply (Hno QDetached). by rewrite fn_lookup_insert. }
           rewrite <- (expired_erase s). 
           change (expired (e_task (t_set_state TASK_STATE_READY) t (e_task (t_set_wait 0) t (erase s))) u
             = expired (erase s) u). by rewrite !expired_e_task.
        -- exists L4. split; [done|]. rewrite He4, He3, e_wake_lists, He2. cbn [e_wake].
           by rewrite expired_erase, Eexp.
    + eapply wp_mono; [apply (wp_task_queue s1 _ QWait t HQ1)| |done]; [done|by eexists|done|by rewrite Ht1|done|].
      cbv beta. intros [] s3 [HQ3 He3]. wp_steps. set (Q3 := <[QWait := _]> _) in HQ3.
      assert (erase s3 = erase s) as He by congruence.
      eapply wp_mono; [apply (IH fuel s3 Q3)| |done].
      * subst Q3. rewrite fn_lookup_insert_ne by done. apply fn_lookup_insert.
      * done.
      * change (lists_ok (k_lists (erase s3))). by rewrite He.
      * rewrite He3. destruct Hpr1 as (Hm & Hy & Hnil). split; [exact Hm|]. split; [exact Hy|].
        subst Q3. by rewrite fn_lookup_insert_ne.
      * change (k_ints (erase s3) = false). by rewrite He.
      * change (1 <= k_lock_count (erase s3) < 90). by rewrite He.
      * lia.
      * cbv beta. intros [] s4 [HQ4 (L4 & HL4 & He4)]. split.
        -- eapply queues_ext; [|exact HQ4].
           apply (woken_step s s3 Q Q3 t D); try done; rewrite ?Eexp; try done.
           intros u Hu. by rewrite <- (expired_erase s3), He, expired_erase.
        -- exists L4. split; [done|]. rewrite He4, He. cbn [e_wake]. by rewrite expired_erase, Eexp.
Qed.

Lemma chain_length s Q r : queues s Q -> (base.length (Q r) <= size (k_tasks s))%nat.
Proof.
  intros HQ. rewrite <- (size_list_to_set (C := gset Z)) by (by eapply q_nodup).
  rewrite <- size_dom. apply subseteq_size. intros t Ht%elem_of_list_to_set.
  pose proof (q_rep _ _ HQ r) as Hr. destruct (queue_of r s) as [q|];
    destruct Hr as [? ?]; (edestruct chain_in as [_ Hsome]; [eassumption|exact Ht|]); by apply elem_of_dom.
Qed.

Lemma wp_wakeup_loop sch s Q :
  queues s Q -> lists_ok (k_lists s) -> printable (erase s) Q -> k_ints s = false -> 1 <= k_lock_count s < 90 ->
  wp (wakeup_loop sch (hd0 (Q QDetached))) (fun (_ : unit) s' =>
    queues s' (woken s Q) /\ exists L, lists_ok L /\
      erase s' = set_k_lists L (e_wake (Q QDetached) (erase s))) never s.
Proof.
  intros HQ Hls Hpr Hi Hn. unfold wakeup_loop. wp_steps.
  eapply wp_wakeup_rounds; try done. pose proof (chain_length s Q QDetached HQ). lia.
Qed.
End wakeup.

(** ** The scheduler's invariant *)

Section invariant.
Context {H : Type} `{KHeapLaws H}.
Implicit Types (s e : kstate H) (Q : qref -> list Z).

(** A task that was handed a mutex: woken, but not yet back in [mutex_lock]. *)
Definition handed e Q (m t : Z) : Prop :=
  k_saved e !! t = Some (ResumeMutexLock m) /\ (t ∉ Q (QMutex m)).

(** A mutex never has two holders: an owner or a task it was handed to holds
    the lock, and there is at most one of them. *)
Definition mutex_ok e Q (m : Z) (x : mutex_t) : Prop :=
  (locked_task x <> 0 -> lock x = 1) /\
  (forall t, handed e Q m t -> locked_task x = 0 /\ lock x = 1) /\
  (forall t u, handed e Q m t -> handed e Q m u -> t = u) /\
  (forall t, t ∈ Q (QMutex m) -> k_saved e !! t = Some (ResumeMutexLock m)).

Definition irqs_ok e : Prop := Forall (fun ev => match ev with
  | IrqTimer => True | IrqRelease a => is_Some (k_sems e !! a) end) (k_irqs e).

(** No task is in the middle of a [printf]. *)
Definition quiet e : Prop :=
  (exists x, k_mutexes e !! PRINT_MUTEX = Some x /\ lock x = 0 /\ locked_task x = 0) /\
  is_Some (k_sems e !! CONSOLE_WRITE_LOCK) /\
  forall t, k_saved e !! t <> Some (ResumeMutexLock PRINT_MUTEX).

(** [la] is the semaphore whose spin lock is held. *)
Record einv (la : option Z) e Q : Prop := EInv {
  ei_ready : forall t, t ∈ Q QReady -> state_of e t = Some TASK_STATE_READY;
  ei_run : forall t, state_of e t = Some TASK_STATE_RUNNING -> t = k_current e /\ forall r, t ∉ Q r;
  ei_zero : k_tasks e !! 0 = None;
  ei_lists : lists_ok (k_lists e);
  ei_detached : Q QDetached = [];
  ei_sem : forall a x, k_sems e !! a = Some x ->
    sem_lock x = (if decide (la = Some a) then 1 else 0) /\ is_u32 (count x) /\
    (Q (QSem a) <> [] -> count x = 0);
  ei_mutex : forall m x, k_mutexes e !! m = Some x -> mutex_ok e Q m x;
  ei_saved : forall t m, k_saved e !! t = Some (ResumeMutexLock m) -> is_Some (k_mutexes e !! m);
  ei_quiet : irqs_ok e /\ quiet e;
}.

Lemma einv_printable e Q : einv None e Q -> printable e Q.
Proof.
  intros []. destruct ei_quiet0 as [_ ((x & Hx & Hl & Ht) & [y Hy] & Hsv)]. split; [eauto|]. split.
  - exists y. split; [done|]. by destruct (ei_sem0 _ y Hy) as [-> _].
  - destruct (Q (QMutex PRINT_MUTEX)) as [|t ts] eqn:E; [done|]. exfalso.
    destruct (ei_mutex0 _ x Hx) as (_ & _ & _ & Hq). apply (Hsv t), Hq. rewrite E. by left.
Qed.

Definition inv (la : option Z) s Q : Prop := queues s Q /\ einv la (erase s) Q.

Lemma einv_frame la e e' Q :
  k_tasks e' = k_tasks e -> k_current e' = k_current e -> k_lists e' = k_lists e ->
  k_sems e' = k_sems e -> k_mutexes e' = k_mutexes e -> k_saved e' = k_saved e ->
  k_irqs e' = k_irqs e -> einv la e Q -> einv la e' Q.
Proof.
  intros Ht Hc Hl Hs Hm Hsv Hi []. unfold mutex_ok, handed, state_of, irqs_ok, quiet in *.
  split; unfold mutex_ok, handed, state_of, irqs_ok, quiet; rewrite ?Ht, ?Hc, ?Hl, ?Hs, ?Hm, ?Hsv, ?Hi; done.
Qed.

Lemma inv_frame la s s' Q :
  k_tasks s' = k_tasks s -> k_current s' = k_current s -> k_lists s' = k_lists s ->
  k_sems s' = k_sems s -> k_mutexes s' = k_mutexes s -> k_saved s' = k_saved s ->
  k_irqs s' = k_irqs s -> k_ready s' = k_ready s -> k_wait s' = k_wait s ->
  k_terminated s' = k_terminated s -> k_procs s' = k_procs s -> inv la s Q -> inv la s' Q.
Proof.
  intros Ht Hc Hl Hs Hm Hsv Hi Hr Hw Htt Hpr [HQ He]. split.
  - eapply queues_same; [exact Ht| |exact HQ]. intros r.
    destruct r; cbn; rewrite ?Hr, ?Hw, ?Htt, ?Hs, ?Hm, ?Hpr; done.
  - eapply einv_frame; [..|exact He]; cbn; by rewrite ?Ht, ?Hs, ?Hm.
Qed.

(** *** Taking a task off a queue and making it ready *)

Lemma state_of_e_task e st t u :
  state_of (e_task (t_set_state st) t e) u =
  if decide (u = t) then (fun _ => st) <$> k_tasks e !! t else state_of e u.
Proof.
  unfold state_of, e_task. cbn. case_decide as Hu; [subst|by rewrite lookup_alter_ne].
  rewrite lookup_alter_eq. by destruct (k_tasks e !! t).
Qed.

Lemma einv_unblock la e Q L r t ts :
  einv la e Q -> lists_ok L -> Q r = t :: ts -> r <> QReady -> r <> QDetached ->
  (forall r1 r2 u, u ∈ Q r1 -> u ∈ Q r2 -> r1 = r2) -> NoDup (Q r) ->
  is_Some (k_tasks e !! t) ->
  (forall m x, r = QMutex m -> k_mutexes e !! m = Some x ->
     locked_task x = 0 /\ lock x = 1 /\ forall u, ~ handed e Q m u) ->
  einv la (set_k_lists L (e_task (t_set_state TASK_STATE_READY) t e))
    (<[QReady := Q QReady ++ [t]]> (<[r := ts]> Q)).
Proof.
  intros [Hrdy Hrun Hz Hls Hd Hsem Hmut Hsv Hirq] HL Hr Hr1 Hr2 Hdisj Hnd [tk Ht] Hmx.
  set (Q' := <[QReady := _]> _).
  assert (Q' QReady = Q QReady ++ [t]) as HQr by apply fn_lookup_insert.
  assert (Q' r = ts) as HQ1 by (subst Q'; rewrite fn_lookup_insert_ne by done; apply fn_lookup_insert).
  assert (forall r', r' <> QReady -> r' <> r -> Q' r' = Q r') as HQo.
  { intros r' ? ?. subst Q'. by rewrite !fn_lookup_insert_ne. }
  assert (forall r' u, r' <> QReady -> u ∈ Q' r' -> u ∈ Q r') as HQsub.
  { intros r' u Hne Hu. destruct (decide (r' = r)) as [->|]; [rewrite HQ1 in Hu; rewrite Hr; by right|].
    by rewrite HQo in Hu. }
  rewrite Hr in Hnd. apply NoDup_cons in Hnd as [Htts Hnd].
  assert (forall m u, handed e Q' m u -> handed e Q m u \/ r = QMutex m /\ u = t) as Hh.
  { intros m u [Hsu Hu]. destruct (decide (r = QMutex m)) as [->|Hne].
    - rewrite HQ1 in Hu. destruct (decide (u = t)) as [->|]; [by right|].
      left. split; [done|]. rewrite Hr. set_solver.
    - left. split; [done|]. by rewrite HQo in Hu. }
  assert (forall m u, handed e Q m u -> handed e Q' m u) as Hh'.
  { intros m u [Hsu Hu]. split; [done|]. intros Hin. apply Hu. by apply HQsub in Hin. }
  split.
  - intros u. rewrite HQr. change (state_of (set_k_lists L ?x) u) with (state_of x u).
    rewrite state_of_e_task. intros [Hu|Hu]%elem_of_app; case_decide as Hut;
      [subst u; by rewrite Ht|by apply Hrdy|subst u; by rewrite Ht|].
    by apply list_elem_of_singleton in Hu.
  - intros u. change (state_of (set_k_lists L ?x) u) with (state_of x u).
    rewrite state_of_e_task. case_decide as Hut; [subst u; by rewrite Ht|].
    intros [Hc Hu]%Hrun. split; [done|]. intros r' Hin. destruct (decide (r' = QReady)) as [->|Hne].
    + rewrite HQr in Hin. apply elem_of_app in Hin as [Hin|Hin%list_elem_of_singleton]; [|done].
      by apply (Hu QReady).
    + apply (Hu r'). by apply HQsub.
  - cbn. rewrite lookup_alter_ne; [done|]. intros ->. congruence.
  - done.
  - by rewrite HQo.
  - intros a x Hx. destruct (Hsem a x Hx) as (Hlk & Hcu & Hct). split; [done|]. split; [done|]. intros Hne. apply Hct.
    intros Hnil. apply Hne. destruct (decide (r = QSem a)) as [->|].
    + by rewrite Hr in Hnil.
    + by rewrite HQo.
  - intros m x Hx. destruct (Hmut m x Hx) as (Ho & Hhd & Huq & Hsvd).
    change (mutex_ok e Q' m x). destruct (decide (r = QMutex m)) as [->|Hne].
    + destruct (Hmx m x eq_refl Hx) as (Hl0 & Hl1 & Hnone). split_and!.
      * done.
      * done.
      * intros u v [?|[_ ->]]%Hh [?|[_ ->]]%Hh; solve [exfalso; eapply Hnone; eassumption | done].
      * intros u Hu. apply Hsvd. by apply HQsub in Hu.
    + split_and!; [done| | |].
      * intros u [Hu|[? _]]%Hh; [eauto|congruence].
      * intros u v [Hu|[? _]]%Hh [Hv|[? _]]%Hh; [eauto|congruence..].
      * intros u Hu. apply Hsvd. by apply HQsub in Hu.
  - done.
  - done.
Qed.

(** *** Waking the sleepers *)

Lemma e_wake_tasks_only D e : e_wake D e = set_k_tasks (k_tasks (e_wake D e)) e.
Proof.
  revert e. induction D as [|t D IH]; intros e; [by destruct e|]. cbn.
  destruct (expired e t); [|apply IH]. by rewrite IH at 1.
Qed.

Lemma state_of_e_wake D e u :
  NoDup D ->
  state_of (e_wake D e) u =
  if bool_decide (u ∈ D) && expired e u then Some TASK_STATE_READY else state_of e u.
Proof.
  revert e. induction D as [|t D IH]; intros e Hnd; [done|].
  apply NoDup_cons in Hnd as [HtD Hnd]. cbn [e_wake]. rewrite IH by done.
  destruct (decide (u = t)) as [->|Hut].
  - rewrite (bool_decide_eq_false_2 (t ∈ D)) by done. rewrite bool_decide_eq_true_2 by (by left).
    cbn. destruct (expired e t) eqn:E; [|done]. rewrite state_of_e_task, decide_True by done.
    unfold expired in E. unfold e_task. cbn. rewrite lookup_alter_eq. by destruct (k_tasks e !! t).
  - assert (bool_decide (u ∈ t :: D) = bool_decide (u ∈ D)) as ->.
    { apply bool_decide_ext. set_solver. }
    destruct (expired e t); [|done]. rewrite !expired_e_task by done.
    rewrite state_of_e_task, decide_False by done.
    unfold state_of at 1, e_task. cbn. by rewrite lookup_alter_ne.
Qed.

Lemma e_wake_none D e u : k_tasks e !! u = None -> k_tasks (e_wake D e) !! u = None.
Proof.
  revert e. induction D as [|t D IH]; intros e Hu; [done|]. cbn. apply IH.
  destruct (expired e t); [|done]. cbn. destruct (decide (u = t)) as [->|].
  - by rewrite !lookup_alter_eq, Hu.
  - by rewrite !lookup_alter_ne.
Qed.

Definition detach (Q : qref -> list Z) : qref -> list Z :=
  <[QWait := []]> (<[QDetached := Q QWait]> Q).

Lemma einv_wake la e Q L :
  einv la e Q -> lists_ok L -> NoDup (Q QWait) ->
  einv la (set_k_lists L (e_wake (Q QWait) e)) (woken e (detach Q)).
Proof.
  intros [Hrdy Hrun Hz Hls Hd Hsem Hmut Hsv Hirq] HL Hnd.
  set (Q' := woken e (detach Q)). unfold detach in Q'.
  assert (Q' QReady = Q QReady ++ List.filter (expired e) (Q QWait)) as HQr by done.
  assert (Q' QWait = List.filter (fun t => negb (expired e t)) (Q QWait)) as HQw by done.
  assert (forall r t, t ∈ Q' r -> t ∈ Q r \/ r = QReady /\ t ∈ Q QWait /\ expired e t = true) as Hin.
  { intros r t. destruct r; try (by left).
    - rewrite HQr. intros [Ht|Ht]%elem_of_app; [by left|].
      apply list_elem_of_In, filter_In in Ht as [Ht%list_elem_of_In He]. by right.
    - rewrite HQw. intros Ht. apply list_elem_of_In, filter_In in Ht as [Ht%list_elem_of_In He]. by left.
    - intros Ht. by apply elem_of_nil in Ht. }
  rewrite e_wake_tasks_only. set (m := k_tasks (e_wake (Q QWait) e)).
  assert (forall u, state_of (set_k_lists L (set_k_tasks m e)) u =
    if bool_decide (u ∈ Q QWait) && expired e u then Some TASK_STATE_READY else state_of e u) as Hst.
  { intros u. by apply state_of_e_wake. }
  split.
  - intros t. rewrite Hst. intros [Ht|(_ & Ht & He)]%Hin.
    + rewrite (Hrdy t Ht). by destruct (bool_decide _ && _).
    + by rewrite (bool_decide_eq_true_2 _ Ht), He.
  - intros t. rewrite Hst. destruct (bool_decide (t ∈ Q QWait) && expired e t); [done|].
    intros [Hc Ht]%Hrun. split; [done|]. intros r [Hr|(_ & Hr & _)]%Hin; by eapply Ht.
  - by apply e_wake_none.
  - done.
  - done.
  - done.
  - done.
  - done.
  - done.
Qed.
End invariant.

(** ** Locking and scheduling inside the lock *)

Section nested.
Context {H : Type} `{KHeapLaws H}.
Implicit Types (s : kstate H) (Q : qref -> list Z).

(** What code that runs under the scheduler lock leaves alone: who is
    current, the lock, what is saved; running tasks go on running. *)
Record keeps s s' : Prop := Keeps {
  kp_current : k_current s' = k_current s;
  kp_lock : k_lock_count s' = k_lock_count s;
  kp_ready : k_scheduler_ready s' = k_scheduler_ready s;
  kp_enable : k_enable_ints s' = k_enable_ints s;
  kp_ints : k_ints s' = k_ints s;
  kp_saved : k_saved s' = k_saved s;
  kp_irqs : k_irqs s' = k_irqs s;
  kp_state : forall t, state_of s t = Some TASK_STATE_RUNNING -> state_of s' t = Some TASK_STATE_RUNNING;
  kp_tasks : forall t, is_Some (k_tasks s !! t) -> is_Some (k_tasks s' !! t);
  kp_ended : forall t, state_of s' t = Some TASK_STATE_TERMINATED -> state_of s t = Some TASK_STATE_TERMINATED;
}.

Lemma keeps_refl s : keeps s s.
Proof. by split. Qed.

Lemma keeps_trans s1 s2 s3 : keeps s1 s2 -> keeps s2 s3 -> keeps s1 s3.
Proof. intros [] []. split; try congruence; auto. Qed.

Lemma wp_schedule s (Q' : unit -> kstate H -> Prop) E :
  k_ints s = false -> k_lock_count s <> 0 -> k_scheduler_ready s = true ->
  Q' tt (set_k_postponed true s) -> wp schedule Q' E s.
Proof.
  intros Hi Hn Hr HQ. unfold schedule. wp_steps. apply wp_assert_ints; [done|]. wp_steps.
  apply wp_kassert_true; [by apply negb_true_iff, Z.eqb_neq|]. wp_steps.
  by apply wp_kassert_true.
Qed.

Lemma inv_task la s Q r t :
  inv la s Q -> t ∈ Q r -> t <> 0 /\ is_Some (k_tasks s !! t).
Proof.
  intros [HQ _] Ht. pose proof (q_rep _ _ HQ r) as Hr.
  destruct (queue_of r s); destruct Hr; by eapply chain_in.
Qed.

Lemma keeps_erase s s' : keeps (erase s) (erase s') -> keeps s s'.
Proof.
  intros [E1 E2 E3 E4 E5 E6 E7 E8 E9 E10].
  split; [exact E1|exact E2|exact E3|exact E4|exact E5|exact E6|exact E7|..].
  - intros t. rewrite <- (state_of_erase s), <- (state_of_erase s'). apply E8.
  - intros t. rewrite <- (erase_is_task s), <- (erase_is_task s'). apply E9.
  - intros t. rewrite <- (state_of_erase s), <- (state_of_erase s'). apply E10.
Qed.

Lemma keeps_e_task e L t :
  state_of e t <> Some TASK_STATE_RUNNING ->
  keeps e (set_k_lists L (e_task (t_set_state TASK_STATE_READY) t e)).
Proof.
  intros Hne. split; try reflexivity.
  - intros u Hu. change (state_of (e_task (t_set_state TASK_STATE_READY) t e) u = Some TASK_STATE_RUNNING).
    rewrite state_of_e_task, decide_False; [done|]. by intros ->.
  - intros u Hu. cbn. destruct (decide (u = t)) as [->|].
    + rewrite lookup_alter_eq. by apply fmap_is_Some.
    + by rewrite lookup_alter_ne.
  - intros u. change (state_of (e_task (t_set_state TASK_STATE_READY) t e) u = Some TASK_STATE_TERMINATED -> state_of e u = Some TASK_STATE_TERMINATED).
    rewrite state_of_e_task. case_decide; [|done]. by destruct (k_tasks e !! t).
Qed.

Lemma queues_lock s n i Q : queues s Q -> queues (set_k_lock_count n (set_k_ints i s)) Q.
Proof. intros HQ. eapply queues_same; [| |exact HQ]; [done|]. intros r. by destruct r. Qed.

(** The middle of [task_unblock_next]: the first waiter becomes ready. *)
Definition unblocked Q (r : qref) (Q' : qref -> list Z) : Prop :=
  forall r', Q' r' = match Q r with [] => Q r'
    | t :: ts => (<[QReady := Q QReady ++ [t]]> (<[r := ts]> Q)) r' end.

Lemma wp_unblock_middle {B} la s Q r (k : M (kstate H) B) (P : B -> kstate H -> Prop) E :
  inv la s Q -> k_lock_count s <> 0 -> k_ints s = false ->
  k_scheduler_ready s = true -> is_Some (queue_of r s) -> r <> QReady ->
  (forall m x t ts, r = QMutex m -> k_mutexes (erase s) !! m = Some x -> Q r = t :: ts ->
     locked_task x = 0 /\ lock x = 1 /\ forall u, ~ handed (erase s) Q m u) ->
  (forall s' Q', inv la s' Q' -> keeps s s' -> unblocked Q r Q' ->
     k_sems (erase s') = k_sems (erase s) -> wp k P E s') ->
  wp (let! t := task_dequeue r in
      (if negb (t =? 0) then __task_unblock t >>> schedule else ret tt) >>> k) P E s.
Proof.
  intros Hinv Hn Hi Hr Hq Hne Hmx Hk. pose proof Hinv as [HQ He].
  assert (r <> QDetached) as Hnd by (intros ->; by destruct Hq). wp_steps.
  eapply wp_mono; [apply (wp_task_dequeue s Q r HQ Hi Hq)| |done].
  cbv beta. intros t s2 (-> & HQ2 & He2). wp_step. wp_cond.
  destruct (Q r) as [|t ts] eqn:EQ; cbn [hd0 tl] in *.
  - cbn [Z.eqb negb]. wp_step. apply (Hk s2 Q).
    + split.
      * eapply queues_ext; [|exact HQ2]. intros r'.
        destruct (decide (r' = r)) as [->|]; [by rewrite fn_lookup_insert|by rewrite fn_lookup_insert_ne].
      * by rewrite He2.
    + apply keeps_erase. rewrite He2. apply keeps_refl.
    + intros r'. by rewrite EQ.
    + by rewrite He2.
  - destruct (inv_task la s Q r t Hinv ltac:(rewrite EQ; by left)) as [Ht0 Htk].
    rewrite (proj2 (Z.eqb_neq t 0)) by done. cbn [negb].
    pose proof (q_nodup _ _ HQ r) as Hndr. rewrite EQ in Hndr. apply NoDup_cons in Hndr as [Htts Hndts].
    assert (forall r', t ∉ <[r := ts]> Q r') as Hno.
    { intros r'. destruct (decide (r' = r)) as [->|Hr']; [by rewrite fn_lookup_insert|].
      rewrite fn_lookup_insert_ne by done. intros Hin. apply Hr'.
      eapply q_disj; [exact HQ|exact Hin|rewrite EQ; by left]. }
    assert (is_Some (k_tasks s2 !! t)) as Htk2.
    { rewrite <- erase_is_task, He2. by rewrite erase_is_task. }
    wp_step. eapply wp_mono; [apply (wp___task_unblock s2 _ t HQ2)| |done].
    { change (lists_ok (k_lists (erase s2))). rewrite He2. apply (ei_lists _ _ _ He). }
    { change (k_ints (erase s2) = false). by rewrite He2. }
    { change (k_lock_count (erase s2) <> 0). by rewrite He2. }
    { done. } { done. } { done. }
    cbv beta. intros [] s3 [HQ3 (L & HL & He3)]. rewrite He2 in He3.
    apply wp_schedule.
    { change (k_ints (erase s3) = false). by rewrite He3. }
    { change (k_lock_count (erase s3) <> 0). by rewrite He3. }
    { change (k_scheduler_ready (erase s3) = true). by rewrite He3. }
    set (s4 := set_k_postponed true s3).
    assert (erase s4 = set_k_postponed true (erase s3)) as He4 by done.
    rewrite fn_lookup_insert_ne in HQ3 by done.
    apply (Hk s4 (<[QReady := Q QReady ++ [t]]> (<[r := ts]> Q))).
    + split; [by eapply queues_same; [| |exact HQ3]; [|intros r'; by destruct r']|].
      rewrite He4, He3. eapply einv_frame;
        [..|apply (einv_unblock la (erase s) Q L r t ts He HL EQ)]; try done.
      * intros r1 r2 u. by eapply q_disj.
      * by eapply q_nodup.
      * by rewrite erase_is_task.
      * intros m x -> Hx. by apply (Hmx m x t ts).
    + apply keeps_erase. rewrite He4, He3.
      eapply (keeps_trans _ (set_k_lists L (e_task (t_set_state TASK_STATE_READY) t (erase s))));
        [|by split].
      apply keeps_e_task. intros [_ Hrun]%(ei_run _ _ _ He). apply (Hrun r). rewrite EQ. by left.
    + intros r'. by rewrite EQ.
    + rewrite He4, He3. done.
Qed.

Lemma keeps_relock s s2 n m :
  k_lock_count s = n -> k_ints s = false ->
  keeps (set_k_lock_count m (set_k_ints false s)) s2 -> keeps s (set_k_lock_count n s2).
Proof.
  intros Hn Hi [E1 E2 E3 E4 E5 E6 E7 E8 E9 E10].
  split; [exact E1|by cbn|exact E3|exact E4|cbn; rewrite Hi; exact E5|exact E6|exact E7|exact E8|exact E9|exact E10].
Qed.

(** Waking the first waiter of a queue, inside the lock. *)
Lemma wp_task_unblock_next_nested sch la s Q r n :
  inv la s Q -> k_lock_count s = n -> 1 <= n < 90 -> k_ints s = false ->
  k_scheduler_ready s = true -> is_Some (queue_of r s) -> r <> QReady ->
  (forall m x t ts, r = QMutex m -> k_mutexes (erase s) !! m = Some x -> Q r = t :: ts ->
     locked_task x = 0 /\ lock x = 1 /\ forall u, ~ handed (erase s) Q m u) ->
  wp (task_unblock_next sch r) (fun _ s' => exists Q', inv la s' Q' /\ keeps s s' /\
     unblocked Q r Q' /\ k_sems (erase s') = k_sems (erase s)) never s.
Proof.
  intros Hinv Hn Hb Hi Hr Hq Hne Hmx. unfold task_unblock_next. wp_step.
  eapply wp_lock_nested; [exact Hn|lia|]. set (s1 := set_k_lock_count (n + 1) (set_k_ints false s)).
  eapply (wp_unblock_middle la s1 Q r); [|cbn; lia|done|exact Hr|by destruct r|done|exact Hmx|].
  { eapply inv_frame; [..|exact Hinv]; reflexivity. }
  intros s2 Q2 Hinv2 Hk2 HQ2 Hs2.
  eapply (wp_unlock_nested _ s2 _ _ (n + 1)); [rewrite (kp_lock _ _ Hk2); reflexivity|lia|
    rewrite (kp_ints _ _ Hk2); reflexivity|].
  replace (n + 1 - 1) with n by lia. exists Q2. split_and!; [|by eapply keeps_relock|done|done].
  eapply inv_frame; [..|exact Hinv2]; reflexivity.
Qed.

Lemma wp_gets_k {A} (f : kstate H -> A) (Q' : A -> kstate H -> Prop) E s :
  Q' (f s) s -> wp (gets f) Q' E s.
Proof. done. Qed.

(** The middle of [scheduler_wakeup]. *)
Lemma wp_wakeup_middle {B} sch s Q (k : M (kstate H) B) (Q' : B -> kstate H -> Prop) E :
  inv None s Q -> k_ints s = false -> 1 <= k_lock_count s < 90 -> k_scheduler_ready s = true ->
  (forall s', inv None s' (woken (erase s) (detach Q)) -> keeps s s' -> k_postponed s' = true ->
     k_sems (erase s') = k_sems (erase s) -> wp k Q' E s') ->
  wp (let! q := gets k_wait in
      modify (set_k_wait (TaskQueue 0 0)) >>>
      wakeup_loop sch (first q) >>>
      schedule >>> k) Q' E s.
Proof.
  intros Hinv Hi Hn Hr Hk. pose proof Hinv as [HQ He]. wp_steps.
  set (s1 := set_k_wait _ s).
  pose proof (queues_detach_all s Q HQ (ei_detached _ _ _ He)) as HQ1. fold (detach Q) in HQ1.
  pose proof (queues_rep _ _ QWait _ HQ eq_refl) as [Hw _]. rewrite Hw. cbn [first].
  assert (hd0 (Q QWait) = hd0 (detach Q QDetached)) as ->.
  { unfold detach. rewrite fn_lookup_insert_ne by done. by rewrite fn_lookup_insert. }
  eapply wp_mono; [apply (wp_wakeup_loop sch s1 (detach Q) HQ1)| |done]; [| |done|done|].
  { apply (ei_lists _ _ _ He). }
  { exact (einv_printable (erase s) Q He). }
  cbv beta. intros [] s2 [HQ2 (L & HL & He2)]. wp_steps.
  assert (detach Q QDetached = Q QWait) as HD.
  { unfold detach. rewrite fn_lookup_insert_ne by done. by rewrite fn_lookup_insert. }
  rewrite HD in He2. change (erase s1) with (erase s) in He2.
  pose proof (e_wake_tasks_only (Q QWait) (erase s)) as Hto.
  apply wp_schedule.
  { change (k_ints (erase s2) = false). by rewrite He2, Hto. }
  { change (k_lock_count (erase s2) <> 0). rewrite He2, Hto. cbn. lia. }
  { change (k_scheduler_ready (erase s2) = true). by rewrite He2, Hto. }
  set (s3 := set_k_postponed true s2).
  assert (erase s3 = set_k_postponed true (erase s2)) as He3 by reflexivity.
  apply Hk.
  - split.
    + apply (queues_same s2); [reflexivity|intros r; by destruct r|].
      eapply queues_ext; [|exact HQ2]. intros r. destruct r; try reflexivity; cbn;
        f_equal; apply filter_expired_ext; intros u _; rewrite expired_erase; reflexivity.
    + rewrite He3, He2. eapply einv_frame;
        [..|apply (einv_wake None (erase s) Q L He HL); by eapply q_nodup]; reflexivity.
  - apply keeps_erase. rewrite He3, He2, Hto. split; try reflexivity.
    + intros t Ht. rewrite <- Hto.
      change (state_of (set_k_postponed true (set_k_lists L (e_wake (Q QWait) (erase s)))) t)
        with (state_of (e_wake (Q QWait) (erase s)) t).
      rewrite state_of_e_wake by (by eapply q_nodup). rewrite bool_decide_eq_false_2; [done|].
      intros Hin. apply (ei_run _ _ _ He) in Ht as [_ Ht]. by apply (Ht QWait).
    + intros t Ht. cbn [k_tasks set_k_tasks set_k_lists set_k_postponed].
      destruct (k_tasks (e_wake (Q QWait) (erase s)) !! t) eqn:Ew; [eauto|].
      exfalso. assert (state_of (e_wake (Q QWait) (erase s)) t = None) as Hs.
      { unfold state_of. by rewrite Ew. }
      rewrite state_of_e_wake in Hs by (by eapply q_nodup). destruct (_ && _); [done|].
      unfold state_of in Hs. destruct Ht as [tk Ht]. by rewrite Ht in Hs.
    + intros t. rewrite <- Hto.
      change (state_of (e_wake (Q QWait) (erase s)) t = Some TASK_STATE_TERMINATED -> state_of (erase s) t = Some TASK_STATE_TERMINATED).
      rewrite state_of_e_wake by (by eapply q_nodup). by destruct (_ && _).
  - reflexivity.
  - rewrite He3, He2, Hto. reflexivity.
Qed.

(** *** Semaphores under the lock *)

Lemma queues_set_sem s Q a x y :
  queues s Q -> k_sems s !! a = Some x -> blocked_tasks y = blocked_tasks x ->
  queues (set_k_sems (<[a := y]> (k_sems s)) s) Q.
Proof.
  intros HQ Hx Hy. apply (queues_same s); [reflexivity| |exact HQ].
  intros r. destruct r as [| | | |b|b|b]; try reflexivity. cbn.
  destruct (decide (b = a)) as [->|]; [|by rewrite lookup_insert_ne].
  rewrite lookup_insert_eq, Hx. cbn. by rewrite Hy.
Qed.

Lemma inv_set_sem la la' s Q a x y :
  inv la s Q -> k_sems s !! a = Some x -> blocked_tasks y = blocked_tasks x ->
  sem_lock y = (if decide (la' = Some a) then 1 else 0) ->
  is_u32 (count y) -> (Q (QSem a) <> [] -> count y = 0) ->
  (forall b, b <> a -> la' = Some b <-> la = Some b) ->
  inv la' (set_k_sems (<[a := y]> (k_sems s)) s) Q.
Proof.
  intros [HQ He] Hx Hy Hlk Hcu Hct Hla. split; [by eapply queues_set_sem|].
  destruct He as [Hrdy Hrun Hz Hls Hd Hsem Hmut Hsv Hirq].
  destruct Hirq as [Hirq (Hpm & Hpc & Hps)].
  split; [exact Hrdy|exact Hrun|exact Hz|exact Hls|exact Hd| |exact Hmut|exact Hsv|split; [|split; [exact Hpm|split; [|exact Hps]]]].
  - intros b z. cbn. rewrite lookup_fmap. destruct (decide (b = a)) as [->|Hb].
    + rewrite lookup_insert_eq. cbn. intros [= <-]. done.
    + rewrite lookup_insert_ne by done. intros Hz'.
      destruct (Hsem b z) as (Hl & Hcb & Hc); [cbn; by rewrite lookup_fmap|]. split; [|done].
      rewrite Hl. pose proof (Hla b Hb). by destruct (decide (la' = Some b)), (decide (la = Some b)); tauto.
  - eapply Forall_impl; [exact Hirq|]. intros [|b]; [done|]. cbn. rewrite !lookup_fmap, !fmap_is_Some.
    intros Hb. destruct (decide (b = a)) as [->|]; [rewrite lookup_insert_eq; eauto|].
    by rewrite lookup_insert_ne.
  - cbn in Hpc |- *. rewrite lookup_fmap, fmap_is_Some in Hpc |- *.
    destruct (decide (CONSOLE_WRITE_LOCK = a)) as [<-|]; [rewrite lookup_insert_eq; eauto|]. by rewrite lookup_insert_ne.
Qed.

Lemma keeps_set_sem s m : keeps s (set_k_sems m s).
Proof. split; try reflexivity; by intros. Qed.

Lemma inv_sem la s Q a x :
  inv la s Q -> k_sems s !! a = Some x ->
  sem_lock x = (if decide (la = Some a) then 1 else 0) /\ is_u32 (count x) /\
  (Q (QSem a) <> [] -> count x = 0) /\
  blocked_tasks x = TaskQueue (hd0 (Q (QSem a))) (last0 (Q (QSem a))).
Proof.
  intros [HQ He] Hx. destruct (ei_sem _ _ _ He a (s_set_queue no_queue x)) as (Hl & Hcu & Hc).
  { cbn. by rewrite lookup_fmap, Hx. }
  split; [exact Hl|]. split; [exact Hcu|]. split; [exact Hc|].
  assert (queue_of (QSem a) s = Some (blocked_tasks x)) as Hq by (cbn; by rewrite Hx).
  by destruct (queues_rep _ _ _ _ HQ Hq).
Qed.

Lemma erase_sem_is_Some s s' a :
  k_sems (erase s') = k_sems (erase s) -> is_Some (k_sems s !! a) -> is_Some (k_sems s' !! a).
Proof.
  intros Hs Ha. apply (f_equal (fun m => m !! a)) in Hs. cbn in Hs. rewrite !lookup_fmap in Hs.
  destruct (k_sems s' !! a), (k_sems s !! a); eauto; by destruct Ha.
Qed.

(** Taking and giving back the semaphore's spin lock. *)
Lemma wp_sem_swap_lock s Q a (v la0 la1 : option Z) w (Q' : Z -> kstate H -> Prop) E :
  inv la0 s Q -> is_Some (k_sems s !! a) ->
  (la0 = None /\ la1 = Some a /\ w = 1 \/ la0 = Some a /\ la1 = None /\ w = 0) ->
  (forall s' x, s' = set_k_sems (<[a := s_set_lock w x]> (k_sems s)) s -> inv la1 s' Q ->
     keeps s s' -> k_sems s !! a = Some x -> Q' (1 - w) s') ->
  wp (sem_swap a w) Q' E s.
Proof.
  intros Hinv [x Hx] Hla Hk. destruct (inv_sem la0 s Q a x Hinv Hx) as (Hl & Hcu & Hc & _).
  unfold sem_swap. wp_steps. eapply wp_sem; [done|]. wp_steps. eapply wp_upd_sem; [done|]. wp_steps.
  replace (sem_lock x) with (1 - w).
  - eapply Hk; [reflexivity| |apply keeps_set_sem|exact Hx]. eapply inv_set_sem; try done.
    + destruct Hla as [(-> & -> & ->)|(-> & -> & ->)]; cbn [sem_lock s_set_lock];
        [by rewrite decide_True|by rewrite decide_False].
    + intros b Hb. destruct Hla as [(-> & -> & _)|(-> & -> & _)]; split; congruence.
  - rewrite Hl. destruct Hla as [(-> & -> & ->)|(-> & -> & ->)];
      [by rewrite decide_False|by rewrite decide_True].
Qed.

(** The middle of [semaphore_release]. *)
Lemma wp_release_middle sch s Q a n :
  inv (Some a) s Q -> k_lock_count s = n -> 1 <= n < 80 -> k_ints s = false ->
  k_scheduler_ready s = true -> is_Some (k_sems s !! a) ->
  wp (let! x := sem a in
      if negb (first (blocked_tasks x) =? 0) then
        scheduler_lock >>> task_unblock_next sch (QSem a) >>> scheduler_unlock sch
      else upd_sem a (s_set_count (u32 (count x + 1))))
    (fun _ s' => exists Q', inv (Some a) s' Q' /\ keeps s s' /\ is_Some (k_sems s' !! a) /\
       unblocked Q (QSem a) Q' /\ (Q (QSem a) = [] -> forall x, k_sems s !! a = Some x ->
          k_sems s' !! a = Some (s_set_count (u32 (count x + 1)) x))) never s.
Proof.
  intros Hinv Hn Hb Hi Hr [x Hx]. destruct (inv_sem _ s Q a x Hinv Hx) as (Hl & Hcu & Hc & Hq).
  wp_steps. eapply wp_sem; [done|]. wp_cond. rewrite Hq. cbn [first].
  pose proof (inv_task (Some a) s Q (QSem a)) as Hhd.
  destruct (Q (QSem a)) as [|t ts] eqn:EQ; cbn [hd0].
  - cbn [Z.eqb negb]. eapply wp_upd_sem; [done|]. exists Q. split_and!.
    + eapply inv_set_sem; try done. apply u32_range.
    + apply keeps_set_sem.
    + cbn. rewrite lookup_insert_eq. eauto.
    + intros r. by rewrite EQ.
    + intros _ y Hy. cbn. rewrite lookup_insert_eq. congruence.
  - destruct (Hhd t Hinv ltac:(by left)) as [Ht0 _].
    rewrite (proj2 (Z.eqb_neq t 0)) by done. cbn [negb]. wp_steps.
    eapply wp_lock_nested; [exact Hn|lia|]. set (s1 := set_k_lock_count (n + 1) _).
    assert (inv (Some a) s1 Q) as Hinv1 by (eapply inv_frame; [..|exact Hinv]; reflexivity).
    wp_steps. eapply wp_mono; [apply (wp_task_unblock_next_nested sch (Some a) s1 Q (QSem a) (n + 1) Hinv1)| |done];
      [reflexivity|lia|reflexivity|exact Hr|cbn; by rewrite Hx|done|done|].
    cbv beta. intros [] s2 (Q2 & Hinv2 & Hk2 & HQ2 & Hs2).
    assert (k_lock_count s2 = n + 1) as Hn2 by (rewrite (kp_lock _ _ Hk2); reflexivity).
    assert (k_ints s2 = false) as Hi2 by (rewrite (kp_ints _ _ Hk2); reflexivity).
    wp_steps. eapply (wp_unlock_nested sch s2 _ _ (n + 1) Hn2); [lia|exact Hi2|].
    exists Q2. replace (n + 1 - 1) with n by lia. split_and!.
    + eapply inv_frame; [..|exact Hinv2]; reflexivity.
    + by eapply keeps_relock.
    + apply (erase_sem_is_Some s); [exact Hs2|eauto].
    + exact HQ2.
    + done.
Qed.

Lemma wp_spin_lock_nested s Q a n (Q' : unit -> kstate H -> Prop) E :
  inv None s Q -> k_lock_count s = n -> 1 <= n < 80 -> is_Some (k_sems s !! a) ->
  (forall s', inv (Some a) s' Q -> keeps (set_k_lock_count (n + 1) (set_k_ints false s)) s' ->
     (forall x, k_sems s !! a = Some x -> k_sems s' !! a = Some (s_set_lock 1 x)) -> Q' tt s') ->
  wp (spin_lock a) Q' E s.
Proof.
  intros Hinv Hn Hb Ha Hk. unfold spin_lock. wp_steps. eapply wp_lock_nested; [exact Hn|lia|].
  wp_steps. eapply (wp_sem_swap_lock _ Q a None None (Some a) 1).
  - eapply inv_frame; [..|exact Hinv]; reflexivity.
  - exact Ha.
  - by left.
  - intros s' x -> Hinv' Hkp Hx. change (negb (1 - 1 =? 0)) with false. cbv iota. wp_steps.
    apply Hk; [exact Hinv'|exact Hkp|]. intros y Hy. cbn. rewrite lookup_insert_eq.
    cbn in Hx. congruence.
Qed.

(** [semaphore_release] from inside the lock. *)
Lemma wp_semaphore_release_nested sch s Q a n :
  inv None s Q -> k_lock_count s = n -> 1 <= n < 70 -> k_ints s = false ->
  k_scheduler_ready s = true -> is_Some (k_sems s !! a) ->
  wp (semaphore_release sch a) (fun _ s' => exists Q', inv None s' Q' /\ keeps s s' /\
     unblocked Q (QSem a) Q' /\
     (Q (QSem a) = [] -> forall x, k_sems s !! a = Some x ->
        k_sems s' !! a = Some (s_set_count (u32 (count x + 1)) x))) never s.
Proof.
  intros Hinv Hn Hb Hi Hr Ha. unfold semaphore_release. wp_steps.
  eapply (wp_spin_lock_nested s Q a n _ _ Hinv Hn); [lia|exact Ha|]. intros s1 Hinv1 Hk1 Hsem1.
  assert (is_Some (k_sems s1 !! a)) as Ha1 by (destruct Ha as [x Hx]; eauto).
  assert (k_lock_count s1 = n + 1) as Hn1 by (rewrite (kp_lock _ _ Hk1); reflexivity).
  assert (k_ints s1 = false) as Hi1 by (rewrite (kp_ints _ _ Hk1); reflexivity).
  assert (k_scheduler_ready s1 = true) as Hr1 by (rewrite (kp_ready _ _ Hk1); exact Hr).
  pose proof (wp_release_middle sch s1 Q a (n + 1) Hinv1 Hn1 ltac:(lia) Hi1 Hr1 Ha1) as Hw.
  apply wp_bind in Hw. wp_steps. eapply wp_mono; [exact Hw| |done].
  cbv beta. intros x s2 Hw2. wp_steps. eapply wp_mono; [exact Hw2| |done].
  cbv beta. intros [] s3 (Q3 & Hinv3 & Hk3 & Ha3 & HQ3 & Hct3). unfold spin_unlock. wp_steps.
  eapply (wp_sem_swap_lock s3 Q3 a None (Some a) None 0); [exact Hinv3|exact Ha3|by right|].
  intros s4 y -> Hinv4 Hk4 Hy. change (negb (1 - 0 =? 1)) with false. cbv iota.
  set (s4 := set_k_sems _ s3) in *.
  assert (k_lock_count s4 = n + 1) as Hn4 by (rewrite (kp_lock _ _ Hk4), (kp_lock _ _ Hk3); exact Hn1).
  assert (k_ints s4 = false) as Hi4 by (rewrite (kp_ints _ _ Hk4), (kp_ints _ _ Hk3); exact Hi1).
  eapply (wp_unlock_nested sch s4 _ _ (n + 1) Hn4); [lia|exact Hi4|]. exists Q3.
  replace (n + 1 - 1) with n by lia. split_and!.
  - eapply inv_frame; [..|exact Hinv4]; reflexivity.
  - eapply keeps_relock; [exact Hn|exact Hi|].
    exact (keeps_trans _ _ _ Hk1 (keeps_trans _ _ _ Hk3 Hk4)).
  - exact HQ3.
  - intros Hnil z Hz. rewrite (Hct3 Hnil _ (Hsem1 z Hz)) in Hy. injection Hy as <-.
    cbn. rewrite lookup_insert_eq. f_equal. unfold s_set_lock, s_set_count. cbn. f_equal.
    destruct (inv_sem None s Q a z Hinv Hz) as (Hl & _). by rewrite decide_False in Hl.
Qed.
End nested.

(** ** Interrupts while idle, and [__schedule] *)

Section scheduling.
Context {H : Type} `{KHeapLaws H}.
Implicit Types (s e : kstate H) (Q : qref -> list Z).

Definition irq_valid s (ev : irq_event) : Prop :=
  match ev with IrqTimer => True | IrqRelease a => is_Some (k_sems s !! a) end.

Lemma wp_irq_nested sch s Q ev n :
  inv None s Q -> k_lock_count s = n -> 1 <= n < 60 -> k_ints s = false ->
  k_scheduler_ready s = true -> irq_valid s ev ->
  wp (irq_handler sch ev) (fun _ s' => exists Q', inv None s' Q' /\ keeps s s') never s.
Proof.
  intros Hinv Hn Hb Hi Hr Hv. destruct ev as [|a]; cbn [irq_handler].
  - wp_steps. set (s1 := set_k_ticks _ s).
    assert (inv None s1 Q) as Hinv1 by (eapply inv_frame; [..|exact Hinv]; reflexivity).
    assert (keeps s s1) as Hk01 by (split; try reflexivity; by intros).
    unfold scheduler_wakeup. wp_cond.
    change (k_scheduler_ready s1) with (k_scheduler_ready s). rewrite Hr. cbn [negb]. wp_steps.
    eapply (wp_lock_nested s1 _ _ n); [exact Hn|lia|]. set (s2 := set_k_lock_count (n + 1) _).
    cbv beta.
    eapply (wp_wakeup_middle sch s2 Q).
    + eapply inv_frame; [..|exact Hinv1]; reflexivity.
    + reflexivity.
    + cbn. lia.
    + exact Hr.
    + intros s3 Hinv3 Hk3 _ _.
      assert (k_lock_count s3 = n + 1) as Hn3 by (rewrite (kp_lock _ _ Hk3); reflexivity).
      assert (k_ints s3 = false) as Hi3 by (rewrite (kp_ints _ _ Hk3); reflexivity).
      eapply (wp_unlock_nested sch s3 _ _ (n + 1) Hn3); [lia|exact Hi3|].
      replace (n + 1 - 1) with n by lia. eexists. split.
      * eapply inv_frame; [..|exact Hinv3]; reflexivity.
      * eapply keeps_trans; [exact Hk01|]. eapply keeps_relock; [exact Hn|exact Hi|exact Hk3].
  - eapply wp_mono; [apply (wp_semaphore_release_nested sch s Q a n); try done; lia| |done].
    intros [] s' (Q' & Hinv' & Hk & _). eauto.
Qed.

(** A cpu with no interrupt to come halts for good. *)
Definition only_halted : panic -> Prop := fun p => p = Halted.

(** The same, whatever interrupts have been taken meanwhile. *)
Definition keeps_irqs s s' : Prop := keeps (set_k_irqs (k_irqs s') s) s'.

Lemma keeps_irqs_trans s s1 s2 : keeps_irqs s s1 -> keeps (set_k_irqs (k_irqs s2) s1) s2 -> keeps_irqs s s2.
Proof.
  intros H1' H2'. eapply keeps_trans; [|exact H2'].
  destruct H1' as [E1 E2 E3 E4 E5 E6 E7 E8 E9 E10].
  split; [exact E1|exact E2|exact E3|exact E4|exact E5|exact E6|reflexivity|exact E8|exact E9|exact E10].
Qed.

Lemma wp_idle_round s Q :
  inv None s Q -> k_lock_count s = 1 -> k_ints s = false -> k_scheduler_ready s = true ->
  wp idle_round (fun _ s' => exists Q', inv None s' Q' /\ keeps_irqs s s' /\
    (base.length (k_irqs s') < base.length (k_irqs s))%nat) only_halted s.
Proof.
  intros Hinv Hn Hi Hr. unfold idle_round, interrupts_enable, interrupts_disable. wp_steps.
  change (k_irqs (set_k_ints true s)) with (k_irqs s).
  pose proof (proj1 (ei_quiet _ _ _ (proj2 Hinv))) as Hirq. unfold irqs_ok in Hirq. change (k_irqs (erase s)) with (k_irqs s) in Hirq.
  destruct (k_irqs s) as [|ev evs] eqn:Eirq; [by wp_steps|].
  apply Forall_cons in Hirq as [Hev Hevs]. wp_steps.
  set (s1 := set_k_ints false _).
  assert (inv None s1 Q) as Hinv1.
  { destruct Hinv as [HQ He]. split; [apply (queues_same s); [reflexivity|intros r; by destruct r|exact HQ]|].
    destruct He as [? ? ? ? ? ? ? ? [_ ?]]. split; try assumption. by split. }
  eapply wp_mono; [apply (wp_irq_nested _ s1 Q ev 1 Hinv1)| |by intros e []];
    [exact Hn|lia|reflexivity|exact Hr| |].
  { destruct ev as [|a]; [done|]. by apply (erase_is_queue s (QSem a)) in Hev || 
      (cbn in Hev |- *; rewrite lookup_fmap, fmap_is_Some in Hev). }
  cbv beta. intros [] s2 (Q2 & Hinv2 & Hk2). wp_steps. exists Q2. split_and!.
  - eapply inv_frame; [..|exact Hinv2]; reflexivity.
  - destruct Hk2 as [E1 E2 E3 E4 E5 E6 E7 E8 E9 E10].
    split; [exact E1|exact E2|exact E3|exact E4|cbn; by rewrite Hi|exact E6|reflexivity|exact E8|exact E9|exact E10].
  - cbn. rewrite (kp_irqs _ _ Hk2). cbn. lia.
Qed.

Lemma wp_idle s Q :
  inv None s Q -> k_lock_count s = 1 -> k_ints s = false -> k_scheduler_ready s = true ->
  wp idle (fun _ s' => exists Q', inv None s' Q' /\ keeps_irqs s s' /\ Q' QReady <> []) only_halted s.
Proof.
  intros Hinv Hn Hi Hr. unfold idle. wp_steps.
  eapply (wp_loop (fun _ s' => exists Q', inv None s' Q' /\ keeps_irqs s s')
            (fun _ s' => base.length (k_irqs s'))).
  - intros [] s1 (Q1 & Hinv1 & Hk1).
    assert (k_lock_count s1 = 1) as Hn1 by (rewrite (kp_lock _ _ Hk1); exact Hn).
    assert (k_ints s1 = false) as Hi1 by (rewrite (kp_ints _ _ Hk1); exact Hi).
    assert (k_scheduler_ready s1 = true) as Hr1 by (rewrite (kp_ready _ _ Hk1); exact Hr).
    wp_apply (wp_idle_round s1 Q1 Hinv1 Hn1 Hi1 Hr1); [|done].
    intros [] s2 (Q2 & Hinv2 & Hk2 & Hlt). wp_cond.
    pose proof (keeps_irqs_trans s s1 s2 Hk1 Hk2) as Hk.
    pose proof (queues_rep _ _ QReady _ (proj1 Hinv2) eq_refl) as [Hq Hc]. rewrite Hq. cbn [first].
    destruct (Q2 QReady) as [|t ts] eqn:EQ; cbn [hd0].
    + cbn [Z.eqb]. wp_steps. eauto.
    + destruct Hc as [Ht _]. rewrite (proj2 (Z.eqb_neq t 0)) by done. wp_steps.
      exists Q2. rewrite EQ. done.
  - exists Q. split; [exact Hinv|]. unfold keeps_irqs. destruct s. apply keeps_refl.
  - lia.
Qed.

(** Entry conditions of [__schedule]. *)
Record schedulable s Q : Prop := Schedulable {
  sc_inv : inv None s Q;
  sc_lock : k_lock_count s = 0;
  sc_ints : k_ints s = false;
  sc_ready : k_scheduler_ready s = true;
  sc_postponed : k_postponed s = false;
  sc_current : k_current s <> 0;
  sc_task : is_Some (k_tasks s !! k_current s);
  sc_not_ready : k_current s ∉ Q QReady;
  sc_ended : state_of s (k_current s) = Some TASK_STATE_TERMINATED -> k_enable_ints s = false;
}.

(** What holds when the scheduler hands the cpu to a task. *)
Record running s Q : Prop := Running {
  ru_inv : inv None s Q;
  ru_lock : k_lock_count s = 0;
  ru_ready : k_scheduler_ready s = true;
  ru_postponed : k_postponed s = false;
  ru_current : k_current s <> 0;
  ru_state : state_of s (k_current s) = Some TASK_STATE_RUNNING;
}.

(** Fields that only the owner of the interrupt flag and the saved resume
    points change. *)
Definition same_saved s s' : Prop :=
  k_enable_ints s' = k_enable_ints s /\ k_ints s' = k_ints s /\ k_saved s' = k_saved s.

Lemma einv_smaller_ready la e Q Q' :
  einv la e Q -> (forall r, r <> QReady -> Q' r = Q r) -> (forall t, t ∈ Q' QReady -> t ∈ Q QReady) ->
  einv la e Q'.
Proof.
  intros [Hrdy Hrun Hz Hls Hd Hsem Hmut Hsv Hirq] HQ Hsub.
  split; [by auto| |exact Hz|exact Hls|by rewrite HQ| | |exact Hsv|exact Hirq].
  - intros t [Hc Ht]%Hrun. split; [done|]. intros r Hr. apply (Ht r).
    destruct (decide (r = QReady)) as [->|]; [by auto|by rewrite <- HQ].
  - intros a x Hx. rewrite HQ by done. by apply Hsem.
  - intros m x Hx. unfold mutex_ok, handed. rewrite HQ by done. by apply Hmut.
Qed.

(** Taking the next ready task. *)
Lemma wp_dequeue_ready la s Q :
  inv la s Q -> k_ints s = false ->
  wp (task_dequeue QReady) (fun t s' => t = hd0 (Q QReady) /\
    erase s' = erase s /\ exists Q', inv la s' Q' /\ (forall r, r <> QReady -> Q' r = Q r) /\
      Q' QReady = tl (Q QReady)) never s.
Proof.
  intros [HQ He] Hi. eapply wp_mono; [apply (wp_task_dequeue s Q QReady HQ Hi); by eexists| |done].
  intros t s' (-> & HQ' & He'). split; [done|]. split; [done|].
  exists (<[QReady := tl (Q QReady)]> Q). split; [split|split].
  - exact HQ'.
  - rewrite He'. eapply einv_smaller_ready; [exact He| |].
    + intros r Hr. by rewrite fn_lookup_insert_ne.
    + intros t. rewrite fn_lookup_insert. destruct (Q QReady); [done|]. by right.
  - intros r Hr. by rewrite fn_lookup_insert_ne.
  - by rewrite fn_lookup_insert.
Qed.

(** The next task starts to run. *)
Lemma einv_run la e Q t :
  einv la e Q -> (forall u, state_of e u <> Some TASK_STATE_RUNNING) -> (forall r, t ∉ Q r) ->
  t <> 0 -> einv la (set_k_current t (e_task (t_set_state TASK_STATE_RUNNING) t e)) Q.
Proof.
  intros [Hrdy Hrun Hz Hls Hd Hsem Hmut Hsv Hirq] Hnone Hno Ht.
  split; [| | |exact Hls|exact Hd|exact Hsem|exact Hmut|exact Hsv|exact Hirq].
  - intros u Hu. change (state_of (e_task (t_set_state TASK_STATE_RUNNING) t e) u = Some TASK_STATE_READY).
    rewrite state_of_e_task, decide_False; [by apply Hrdy|]. intros ->. by apply (Hno QReady).
  - intros u. change (state_of (e_task (t_set_state TASK_STATE_RUNNING) t e) u = Some TASK_STATE_RUNNING ->
      u = t /\ forall r, u ∉ Q r). rewrite state_of_e_task. case_decide as Hu; [by subst|].
    intros Hr. by destruct (Hnone u).
  - cbn. by rewrite lookup_alter_ne.
Qed.

Lemma inv_none_running s Q t :
  inv None s Q -> k_current s = t -> state_of s t <> Some TASK_STATE_RUNNING ->
  forall u, state_of (erase s) u <> Some TASK_STATE_RUNNING.
Proof.
  intros [_ He] Hc Hst u Hu. pose proof (ei_run _ _ _ He u Hu) as [Huc _].
  change (k_current (erase s)) with (k_current s) in Huc. rewrite state_of_erase in Hu. congruence.
Qed.

Lemma wp_schedule_idle s Q :
  inv None s Q -> k_lock_count s = 0 -> k_ints s = false -> k_scheduler_ready s = true ->
  k_current s <> 0 -> is_Some (k_tasks s !! k_current s) ->
  state_of s (k_current s) <> Some TASK_STATE_RUNNING ->
  wp schedule_idle (fun next s' => exists Q', inv None s' Q' /\
    k_lock_count s' = 0 /\ k_scheduler_ready s' = true /\ k_postponed s' = false /\
    k_current s' = k_current s /\ is_Some (k_tasks s' !! k_current s') /\ same_saved s s' /\
    next <> 0 /\ (forall r, next ∉ Q' r) /\ is_Some (k_tasks s' !! next) /\
    (state_of s' (k_current s) = Some TASK_STATE_TERMINATED -> state_of s (k_current s) = Some TASK_STATE_TERMINATED) /\
    if next =? k_current s' then state_of s' next = Some TASK_STATE_RUNNING
    else state_of s' next = Some TASK_STATE_READY /\
         state_of s' (k_current s') <> Some TASK_STATE_RUNNING) only_halted s.
Proof.
  intros Hinv Hn Hi Hr Hcur Hct Hst. unfold schedule_idle. wp_steps.
  set (s1 := set_k_lock_count _ (set_k_current 0 s)).
  assert (k_lock_count s1 = 1) as Hn1.
  { cbn. rewrite Hn. reflexivity. }
  assert (inv None s1 Q) as Hinv1.
  { destruct Hinv as [HQ He]. split; [apply (queues_same s); [reflexivity|intros r; by destruct r|exact HQ]|].
    destruct He as [Hrdy Hrun Hz Hls Hd Hsem Hmut Hsv Hirq].
    split; [exact Hrdy| |exact Hz|exact Hls|exact Hd|exact Hsem|exact Hmut|exact Hsv|exact Hirq].
    intros t Ht. exfalso. destruct (Hrun t Ht) as [Htc _]. apply Hst.
    rewrite <- (state_of_erase s). change (k_current s) with (k_current (erase s)).
    rewrite <- Htc. exact Ht. }
  eapply wp_mono; [apply (wp_idle s1 Q Hinv1 Hn1 Hi Hr)| |done].
  cbv beta. intros [] s2 (Q2 & Hinv2 & Hk2 & Hne). wp_steps.
  set (s3 := set_k_lock_count _ _).
  assert (k_lock_count s3 = 0) as Hn3.
  { cbn. rewrite (kp_lock _ _ Hk2). cbn. by rewrite Hn. }
  unfold assert_panic. apply wp_kassert_true; [by rewrite Hn3|]. wp_steps.
  assert (inv None s3 Q2) as Hinv3.
  { destruct Hinv2 as [HQ2 He2]. split; [apply (queues_same s2); [reflexivity|intros r; by destruct r|exact HQ2]|].
    destruct He2 as [Hrdy Hrun Hz Hls Hd Hsem Hmut Hsv Hirq].
    split; [exact Hrdy| |exact Hz|exact Hls|exact Hd|exact Hsem|exact Hmut|exact Hsv|exact Hirq].
    intros t Ht. exfalso. destruct (Hrun t Ht) as [Htc _].
    change (k_current (erase s2)) with (k_current s2) in Htc.
    rewrite (kp_current _ _ Hk2) in Htc. cbn in Htc. subst t. unfold state_of in Ht.
    change (k_tasks (erase s3)) with (k_tasks (erase s2)) in Ht. by rewrite Hz in Ht. }
  assert (k_ints s3 = false) as Hi3 by (cbn; rewrite (kp_ints _ _ Hk2); exact Hi).
  eapply wp_mono; [apply (wp_dequeue_ready None s3 Q2 Hinv3 Hi3)| |by intros e []].
  cbv beta. intros next s4 (-> & He4 & Q4 & Hinv4 & HQ4 & HQr).
  destruct (Q2 QReady) as [|t ts] eqn:EQ; [done|]. cbn [hd0 tl] in *.
  assert (t ∈ Q2 QReady) as Ht2 by (rewrite EQ; by left).
  destruct (inv_task None s3 Q2 QReady t Hinv3 Ht2) as [Ht0 Htk].
  assert (state_of s4 t = Some TASK_STATE_READY) as Hst4.
  { rewrite <- state_of_erase, He4. by apply (ei_ready _ _ _ (proj2 Hinv3)). }
  assert (forall r, t ∉ Q4 r) as Hno.
  { intros r. destruct (decide (r = QReady)) as [->|Hne'].
    - rewrite HQr. pose proof (q_nodup _ _ (proj1 Hinv3) QReady) as Hnd. rewrite EQ in Hnd.
      by apply NoDup_cons in Hnd as [? _].
    - rewrite HQ4 by done. intros Hin. apply Hne'. eapply q_disj; [apply Hinv3|exact Hin|exact Ht2]. }
  assert (forall f : kstate H -> Z, f (erase s4) = f (erase s3)) as Hf4 by (intros f; by rewrite He4).
  assert (k_current s4 = k_current s) as Hc4 by exact (Hf4 k_current).
  assert (k_lock_count s4 = 0) as Hn4.
  { change (k_lock_count (erase s4) = 0). rewrite He4. exact Hn3. }
  assert (same_saved s s4 /\ k_scheduler_ready s4 = true /\ k_postponed s4 = false) as (Hss & Hr4 & Hp4).
  { unfold same_saved.
    change (k_enable_ints s4) with (k_enable_ints (erase s4)).
    change (k_ints s4) with (k_ints (erase s4)).
    change (k_saved s4) with (k_saved (erase s4)).
    change (k_scheduler_ready s4) with (k_scheduler_ready (erase s4)).
    change (k_postponed s4) with (k_postponed (erase s4)). rewrite He4. cbn.
    split_and!; [apply (kp_enable _ _ Hk2)|apply (kp_ints _ _ Hk2)|apply (kp_saved _ _ Hk2)|
      rewrite (kp_ready _ _ Hk2); exact Hr|reflexivity]. }
  assert (is_Some (k_tasks s4 !! k_current s)) as Hct4.
  { rewrite <- erase_is_task, He4, erase_is_task. cbn. by apply (kp_tasks _ _ Hk2). }
  assert (state_of s4 (k_current s) = Some TASK_STATE_RUNNING -> False) as Hnr4.
  { intros Hrun. rewrite <- state_of_erase in Hrun.
    destruct (ei_run _ _ _ (proj2 Hinv4) _ Hrun) as [_ Hq].
    rewrite He4 in Hrun. change (state_of (erase s2) (k_current s) = Some TASK_STATE_RUNNING) in Hrun.
    destruct (ei_run _ _ _ (proj2 Hinv2) _ Hrun) as [Hc _].
    change (k_current (erase s2)) with (k_current s2) in Hc. by rewrite (kp_current _ _ Hk2) in Hc. }
  wp_steps. apply wp_kassert_true; [by apply negb_true_iff, Z.eqb_neq|].
  assert (is_Some (k_tasks s4 !! t)) as [tk Htk4].
  { by rewrite <- erase_is_task, He4, erase_is_task. }
  assert (state tk = TASK_STATE_READY) as Htks.
  { unfold state_of in Hst4. rewrite Htk4 in Hst4. by injection Hst4. }
  wp_cond. destruct (Z.eqb_spec (k_current s) t) as [Heq|Hneq].
  - wp_steps. eapply wp_task; [rewrite Heq; exact Htk4|]. wp_steps.
    apply wp_kassert_true; [by apply Z.eqb_eq|]. eapply wp_upd_task; [rewrite Heq; exact Htk4|]. wp_steps.
    rewrite Heq. set (s5 := set_k_tasks _ s4).
    assert (state_of s5 t = Some TASK_STATE_RUNNING) as Hst5.
    { unfold state_of. cbn. by rewrite lookup_insert_eq. }
    exists Q4. change (k_current s5) with (k_current s4). rewrite Hc4, Heq, Z.eqb_refl.
    split_and!; try done.
    + split.
      * apply queues_upd_task; [apply Hinv4|exact Htk4|reflexivity].
      * unfold s5. rewrite (erase_upd_task s4 t tk (t_set_state TASK_STATE_RUNNING) Htk4 eq_refl).
        eapply einv_frame; [..|apply (einv_run None (erase s4) Q4 t (proj2 Hinv4))]; try reflexivity; try done.
        -- exact (eq_trans Hc4 Heq).
        -- eapply inv_none_running; [exact Hinv4|exact Hc4|exact Hnr4].
    + unfold s5. cbn. by rewrite lookup_insert_eq.
    + unfold s5. cbn. by rewrite lookup_insert_eq.
    + by rewrite Hst5.
  - wp_steps. exists Q4. rewrite Hc4. rewrite (proj2 (Z.eqb_neq t (k_current s))) by done.
    split_and!; try done. rewrite <- state_of_erase, He4. intros Ht. apply (kp_ended _ _ Hk2). exact (eq_trans (eq_sym (state_of_erase s2 _)) Ht).
Qed.

Lemma wp_restore_task s t (Q' : unit -> kstate H -> Prop) E :
  k_ints s = false -> k_lock_count s = 0 -> is_Some (k_tasks s !! t) ->
  (forall v, Q' tt (set_k_tss v s)) -> wp (__restore_task t) Q' E s.
Proof.
  intros Hi Hn [tk Ht] HQ. unfold __restore_task, assert_panic. wp_steps.
  apply wp_assert_ints; [done|]. wp_steps. apply wp_kassert_true; [by rewrite Hn|].
  wp_steps. eapply wp_task; [exact Ht|]. wp_steps. apply HQ.
Qed.

(** The hand-over to [t], from a state in which nothing is running. *)
Lemma hand_over s s' Q t tk v :
  queues s Q -> einv None (erase s) Q -> (forall u, state_of (erase s) u <> Some TASK_STATE_RUNNING) ->
  (forall r, t ∉ Q r) -> t <> 0 -> k_tasks s !! t = Some tk ->
  k_lock_count s = 0 -> k_scheduler_ready s = true -> k_postponed s = false ->
  s' = set_k_tss v (set_k_current t (set_k_tasks (<[t := t_set_state TASK_STATE_RUNNING tk]> (k_tasks s)) s)) ->
  running s' Q /\ same_saved s s' /\ k_current s' = t.
Proof.
  intros HQ He Hnone Hno Ht Htk Hn Hr Hp ->. split; [|split; [done|done]]. split; try done.
  - split.
    + apply (queues_same (set_k_tasks (<[t := t_set_state TASK_STATE_RUNNING tk]> (k_tasks s)) s));
        [reflexivity|intros r; by destruct r|]. by apply queues_upd_task.
    + pose proof (erase_upd_task s t tk (t_set_state TASK_STATE_RUNNING) Htk eq_refl) as Hup.
      eapply einv_frame; [..|apply (einv_run None (erase s) Q t He Hnone Hno Ht)]; try reflexivity.
      exact (f_equal k_tasks Hup).
  - unfold state_of. cbn. by rewrite lookup_insert_eq.
Qed.

Lemma wp_switch_task s Q t tk cur (Q' : unit -> kstate H -> Prop) E :
  queues s Q -> einv None (erase s) Q -> (forall u, state_of (erase s) u <> Some TASK_STATE_RUNNING) ->
  (forall r, t ∉ Q r) -> t <> 0 -> k_tasks s !! t = Some tk ->
  k_lock_count s = 0 -> k_scheduler_ready s = true -> k_postponed s = false ->
  k_ints s = false -> k_current s = cur -> cur <> 0 ->
  (forall s', running s' Q -> same_saved s s' -> k_current s' = t -> Q' tt s') ->
  wp (upd_task t (t_set_state TASK_STATE_RUNNING) >>> switch_task t) Q' E s.
Proof.
  intros HQ He Hnone Hno Ht Htk Hn Hr Hp Hi Hc Hc0 Hk.
  unfold switch_task, assert_panic. wp_steps. eapply wp_upd_task; [exact Htk|]. wp_steps.
  apply wp_assert_ints; [exact Hi|]. wp_steps.
  apply wp_kassert_true; [apply negb_true_iff, Z.eqb_neq; cbn; congruence|]. wp_steps.
  apply wp_kassert_true; [by apply negb_true_iff, Z.eqb_neq|]. wp_steps.
  apply wp_kassert_true; [cbn; by rewrite Hn|]. wp_steps.
  eapply wp_task; [cbn; apply lookup_insert_eq|]. wp_steps. apply wp_kassert_true; [done|]. wp_steps.
  apply wp_restore_task; [exact Hi|exact Hn|cbn; rewrite lookup_insert_eq; eauto|].
  intros v. destruct (hand_over s _ Q t tk v HQ He Hnone Hno Ht Htk Hn Hr Hp eq_refl) as (Hru & Hss & Hcu).
  by apply Hk.
Qed.

(** The task that ended stays what it was. *)
Definition stays_ended s s' : Prop :=
  state_of s (k_current s) = Some TASK_STATE_TERMINATED ->
  state_of s' (k_current s) = Some TASK_STATE_TERMINATED.

Lemma wp_schedule_switch s Q next :
  inv None s Q -> k_lock_count s = 0 -> k_ints s = false -> k_scheduler_ready s = true ->
  k_postponed s = false -> k_current s <> 0 -> is_Some (k_tasks s !! k_current s) ->
  next <> 0 -> next <> k_current s -> (forall r, next ∉ Q r) -> state_of s next = Some TASK_STATE_READY ->
  (state_of s (k_current s) = Some TASK_STATE_TERMINATED -> k_enable_ints s = false) ->
  wp (schedule_switch next) (fun _ s' => exists Q', running s' Q' /\ same_saved s s' /\ k_current s' = next /\
    (forall r, r <> QReady -> Q' r = Q r) /\
    Q' QReady = Q QReady ++ (if decide (state_of s (k_current s) = Some TASK_STATE_RUNNING)
                             then [k_current s] else []) /\ stays_ended s s') never s.
Proof.
  intros Hinv Hn Hi Hr Hp Hc [tc Htc] Hnext Hne Hno Hst Hen.
  unfold state_of in Hst. destruct (k_tasks s !! next) as [tn|] eqn:Htn; [|done]. injection Hst as Hst.
  unfold schedule_switch. wp_steps. eapply wp_task; [exact Htn|]. wp_steps.
  apply wp_kassert_true; [by apply Z.eqb_eq|]. wp_steps. eapply wp_task; [exact Htc|]. wp_cond.
  assert (state_of s (k_current s) = Some (state tc)) as Hstc by (unfold state_of; by rewrite Htc).
  assert (state tc <> TASK_STATE_RUNNING -> forall u, state_of (erase s) u <> Some TASK_STATE_RUNNING) as Hnone.
  { intros Hx. eapply inv_none_running; [exact Hinv|reflexivity|]. rewrite Hstc. congruence. }
  destruct (Z.eqb_spec (state tc) TASK_STATE_TERMINATED) as [Hterm|Hterm].
  - wp_steps. eapply (wp_printf_outer _ s Q); [apply Hinv|apply einv_printable, Hinv|exact Hn|exact Hp|].
    rewrite ints_settled_id by (done || apply Hen; by rewrite Hstc, Hterm).
    wp_steps. eapply wp_upd_task; [exact Htn|]. wp_steps.
    apply wp_restore_task; [exact Hi|exact Hn|cbn; rewrite lookup_insert_eq; eauto|].
    intros v. destruct (hand_over s _ Q next tn v (proj1 Hinv) (proj2 Hinv)
      ltac:(apply Hnone; rewrite Hterm; done) Hno Hnext Htn Hn Hr Hp eq_refl) as (Hru & Hss & Hcu).
    exists Q. split_and!; try done.
    + rewrite decide_False, app_nil_r; [done|]. rewrite Hstc, Hterm. done.
    + intros Hst'. rewrite <- Hst'. unfold state_of. cbn. by rewrite lookup_insert_ne.
  - wp_steps. wp_cond. destruct (Z.eqb_spec (state tc) TASK_STATE_RUNNING) as [Hrun|Hrun].
    + pose proof Hinv as [HQ He].
      assert (state_of (erase s) (k_current s) = Some TASK_STATE_RUNNING) as Hse.
      { by rewrite state_of_erase, Hstc, Hrun. }
      destruct (ei_run _ _ _ He _ Hse) as [_ Hcno].
      pose proof (wp_queue_in_state s Q QReady (k_current s) TASK_STATE_READY HQ Hi
        ltac:(by eexists) Hc ltac:(by eexists) Hcno) as Hw.
      eapply wp_mono; [exact Hw| |done]. cbv beta. intros [] s1 [HQ1 He1].
      assert (forall u, state_of (erase s1) u <> Some TASK_STATE_RUNNING) as Hnone1.
      { intros u. rewrite He1, state_of_e_task. case_decide as Hu; [subst u; cbn; by rewrite lookup_fmap, Htc|].
        intros [Huc _]%(ei_run _ _ _ He). by apply Hu. }
      assert (is_Some (k_tasks s1 !! next)) as [tn1 Htn1].
      { rewrite <- erase_is_task, He1. unfold e_task. cbn. rewrite lookup_alter_ne by done.
        rewrite lookup_fmap, Htn. eauto. }
      eapply (wp_switch_task s1 _ next tn1 (k_current s)); [exact HQ1| |exact Hnone1| |done|exact Htn1|..].
      * rewrite He1. destruct He as [Hrdy Hrn Hz Hls Hd Hsem Hmut Hsv Hirq].
        set (Q1 := <[QReady := _]> Q).
        assert (forall r, r <> QReady -> Q1 r = Q r) as HQo by (intros r ?; by apply fn_lookup_insert_ne).
        split; [| | |exact Hls|exact Hd| | |exact Hsv|exact Hirq].
        -- intros u. subst Q1. rewrite fn_lookup_insert, state_of_e_task. case_decide as Hu.
           ++ subst. cbn. by rewrite lookup_fmap, Htc.
           ++ intros [Hin|Hin%list_elem_of_singleton]%elem_of_app; [by apply Hrdy|done].
        -- intros u Hu. rewrite <- He1 in Hu. by destruct (Hnone1 u).
        -- cbn. rewrite lookup_alter_ne by congruence. exact Hz.
        -- intros a x Hx. rewrite HQo by done. by apply Hsem.
        -- intros m x Hx. unfold mutex_ok, handed. rewrite HQo by done. by apply Hmut.
      * intros r. destruct (decide (r = QReady)) as [->|Hr']; [|by rewrite fn_lookup_insert_ne].
        rewrite fn_lookup_insert. intros [Hin|Hin%list_elem_of_singleton]%elem_of_app; [by apply (Hno QReady)|done].
      * change (k_lock_count (erase s1) = 0). by rewrite He1.
      * change (k_scheduler_ready (erase s1) = true). by rewrite He1.
      * change (k_postponed (erase s1) = false). by rewrite He1.
      * change (k_ints (erase s1) = false). by rewrite He1.
      * change (k_current (erase s1) = k_current s). by rewrite He1.
      * done.
      * intros s' Hru Hss Hcu. exists (<[QReady := Q QReady ++ [k_current s]]> Q). split_and!; [exact Hru| |exact Hcu| | |].
        -- destruct Hss as (H1' & H2' & H3'). unfold same_saved. rewrite H1', H2', H3'.
           change (k_enable_ints s1) with (k_enable_ints (erase s1)).
           change (k_ints s1) with (k_ints (erase s1)).
           change (k_saved s1) with (k_saved (erase s1)). by rewrite He1.
        -- intros r Hr'. by rewrite fn_lookup_insert_ne.
        -- rewrite fn_lookup_insert, decide_True; [done|]. by rewrite Hstc, Hrun.
        -- intros Hst'. congruence.
    + wp_step.
      eapply (wp_switch_task s Q next tn (k_current s)); try done; [apply Hinv|apply Hinv|by apply Hnone|].
      intros s' Hru Hss Hcu. exists Q. split_and!; try done; [|intros Hst'; congruence].
      rewrite decide_False, app_nil_r; [done|]. rewrite Hstc. congruence.
Qed.

(** Who runs after [__schedule], and how the ready queue changes. *)
Definition scheduled s Q s' (Q' : qref -> list Z) : Prop :=
  match Q QReady with
  | t :: ts =>
      k_current s' = t /\ (forall r, r <> QReady -> Q' r = Q r) /\
      Q' QReady = ts ++ (if decide (state_of s (k_current s) = Some TASK_STATE_RUNNING)
                         then [k_current s] else [])
  | [] =>
      state_of s (k_current s) = Some TASK_STATE_RUNNING ->
      k_current s' = k_current s /\ forall r, Q' r = Q r
  end.

Lemma wp___schedule s Q :
  schedulable s Q ->
  wp __schedule (fun _ s' => exists Q', running s' Q' /\ same_saved s s' /\ scheduled s Q s' Q' /\
      (Q QReady <> [] -> stays_ended s s'))
    only_halted s.
Proof.
  intros [Hinv Hn Hi Hr Hp Hc Hct Hnr Hended]. unfold __schedule, assert_panic. wp_steps.
  apply wp_assert_ints; [exact Hi|]. wp_steps. apply wp_kassert_true; [by rewrite Hn|]. wp_steps.
  apply wp_kassert_true; [by apply negb_true_iff, Z.eqb_neq|]. wp_steps.
  eapply wp_mono; [apply (wp_dequeue_ready None s Q Hinv Hi)| |by intros e []].
  cbv beta. intros next s1 (-> & He1 & Q1 & Hinv1 & HQ1 & HQr).
  assert (k_current s1 = k_current s) as Hc1 by (change (k_current (erase s1) = k_current s); by rewrite He1).
  assert (k_lock_count s1 = 0) as Hn1 by (change (k_lock_count (erase s1) = 0); by rewrite He1).
  assert (k_ints s1 = false) as Hi1 by (change (k_ints (erase s1) = false); by rewrite He1).
  assert (k_scheduler_ready s1 = true) as Hr1 by (change (k_scheduler_ready (erase s1) = true); by rewrite He1).
  assert (k_postponed s1 = false) as Hp1 by (change (k_postponed (erase s1) = false); by rewrite He1).
  assert (same_saved s s1) as Hss1.
  { unfold same_saved. change (k_enable_ints s1) with (k_enable_ints (erase s1)).
    change (k_ints s1) with (k_ints (erase s1)). change (k_saved s1) with (k_saved (erase s1)). by rewrite He1. }
  assert (forall t, is_Some (k_tasks s !! t) -> is_Some (k_tasks s1 !! t)) as Htk1.
  { intros t Ht. by rewrite <- erase_is_task, He1, erase_is_task. }
  assert (forall t, state_of s1 t = state_of s t) as Hst1.
  { intros t. by rewrite <- (state_of_erase s1), He1, state_of_erase. }
  assert (forall Q2 s2 (P : unit -> kstate H -> Prop), running s2 Q2 -> P tt s2 ->
    wp (task (k_current s2)) (fun tc s' => wp (kassert (state tc =? TASK_STATE_RUNNING)) P only_halted s')
      only_halted s2) as Hend.
  { intros Q2 s2 P [_ _ _ _ _ Hst] HP. unfold state_of in Hst. destruct (k_tasks s2 !! k_current s2) as [tc|] eqn:Htc; [|done].
    injection Hst as Hst. wp_steps. eapply wp_task; [exact Htc|]. apply wp_kassert_true; [by apply Z.eqb_eq|done]. }
  destruct (Q QReady) as [|t ts] eqn:EQ; cbn [hd0 tl] in *.
  - wp_steps. cbn [Z.eqb]. wp_steps. destruct (Htk1 _ Hct) as [tc Htc].
    eapply wp_task; [exact Htc|]. wp_cond.
    assert (state_of s (k_current s) = Some (state tc)) as Hstc.
    { rewrite <- Hst1. unfold state_of. by rewrite Htc. }
    destruct (Z.eqb_spec (state tc) TASK_STATE_RUNNING) as [Hrun|Hrun].
    + wp_steps. rewrite Hc1, Z.eqb_refl. cbn [negb]. wp_steps.
      assert (running s1 Q1) as Hru.
      { split; try assumption; [by rewrite Hc1|]. rewrite Hc1, Hst1, Hstc, Hrun. done. }
      apply (Hend Q1 s1 _ Hru). exists Q1. split; [done|]. split; [done|]. unfold scheduled. rewrite EQ. split; [|done]. intros _. split; [done|].
      intros r. destruct (decide (r = QReady)) as [->|]; [by rewrite HQr, EQ|by apply HQ1].
    + eapply wp_mono; [apply (wp_schedule_idle s1 Q1 Hinv1 Hn1 Hi1 Hr1)| |done]; [by rewrite Hc1|rewrite Hc1; eauto|rewrite Hc1, Hst1, Hstc; congruence|].
      cbv beta. intros next s2 (Q2 & Hinv2 & Hn2 & Hr2 & Hp2 & Hc2 & Hct2 & Hss2 & Hnx & Hno & Hnt & Htm & Hcase).
      assert (same_saved s s2) as Hss.
      { destruct Hss1 as (A1 & A2 & A3), Hss2 as (B1 & B2 & B3). unfold same_saved. by rewrite B1, B2, B3, A1, A2, A3. }
      wp_steps. wp_cond. rewrite (Z.eqb_sym (k_current s2) next). rewrite Hc2, Hc1 in *.
      assert (forall s3 Q3, running s3 Q3 -> same_saved s2 s3 -> exists Q', running s3 Q' /\
        same_saved s s3 /\ scheduled s Q s3 Q' /\ (@nil Z <> [] -> stays_ended s s3)) as Hfin.
      { intros s3 Q3 Hru Hss3. exists Q3. split; [done|]. split; [|split; [unfold scheduled; rewrite EQ, Hstc; congruence|done]].
        destruct Hss as (A1 & A2 & A3), Hss3 as (B1 & B2 & B3). unfold same_saved. by rewrite B1, B2, B3, A1, A2, A3. }
      destruct (Z.eqb_spec next (k_current s)) as [->|Hne]; cbn [negb].
      * assert (running s2 Q2) as Hru by (split; try done; rewrite Hc2; try rewrite Hc1; done).
        wp_steps. apply (Hend Q2 s2 _ Hru). by apply (Hfin s2 Q2).
      * destruct Hcase as [Hready Hnrun].
        eapply wp_mono; [apply (wp_schedule_switch s2 Q2 next Hinv2 Hn2)| |by intros e []]; try done.
        -- destruct Hss as (_ & A2 & _). by rewrite A2.
        -- rewrite Hc2. try rewrite Hc1. done.
        -- rewrite Hc2. try rewrite Hc1. done.
        -- rewrite Hc2. try rewrite Hc1. done.
        -- rewrite Hc2. destruct Hss as (A1 & _ & _). rewrite A1. intros Ht. apply Hended. rewrite <- Hst1. by apply Htm.
        -- cbv beta. intros [] s3 (Q3 & Hru & Hss3 & _). wp_steps.
           apply (Hend Q3 s3 _ Hru). by apply (Hfin s3 Q3).
  - assert (t ∈ Q QReady) as Htin by (rewrite EQ; by left).
    destruct (inv_task None s Q QReady t Hinv Htin) as [Ht0 Htt].
    rewrite (proj2 (Z.eqb_neq t 0)) by done. wp_steps. rewrite Hc1.
    assert (k_current s <> t) as Hne by (intros <-; by apply Hnr; left).
    rewrite (proj2 (Z.eqb_neq _ _)) by done. cbn [negb].
    assert (forall r, t ∉ Q1 r) as Hno.
    { intros r. destruct (decide (r = QReady)) as [->|Hne'].
      - rewrite HQr. pose proof (q_nodup _ _ (proj1 Hinv) QReady) as Hnd. rewrite EQ in Hnd.
        by apply NoDup_cons in Hnd as [? _].
      - rewrite HQ1 by done. intros Hin. apply Hne'. eapply q_disj; [apply Hinv|exact Hin|exact Htin]. }
    eapply wp_mono; [apply (wp_schedule_switch s1 Q1 t Hinv1 Hn1 Hi1 Hr1 Hp1)| |by intros e []].
    + by rewrite Hc1.
    + rewrite Hc1. by apply Htk1.
    + done.
    + rewrite Hc1. by intros ->.
    + done.
    + rewrite Hst1, <- state_of_erase. by apply (ei_ready _ _ _ (proj2 Hinv)).
    + rewrite Hc1, Hst1. destruct Hss1 as (A1 & _ & _). by rewrite A1.
    + cbv beta. intros [] s2 (Q2 & Hru & Hss2 & Hcu & HQ2 & HQ2r & Hend2). wp_steps.
      apply (Hend Q2 s2 _ Hru). exists Q2. split; [done|]. split.
      * destruct Hss1 as (A1 & A2 & A3), Hss2 as (B1 & B2 & B3). unfold same_saved. by rewrite B1, B2, B3, A1, A2, A3.
      * split; [unfold scheduled; rewrite EQ; split; [done|]; split|].
        -- intros r Hr'. by rewrite HQ2, HQ1.
        -- by rewrite HQ2r, HQr, Hc1, Hst1.
        -- intros _. unfold stays_ended in *. by rewrite Hc1, Hst1 in Hend2.
Qed.
End scheduling.

(** ** Calls of running tasks *)

Section calls.
Context {H : Type} `{KHeapLaws H}.
Implicit Types (s e : kstate H) (Q : qref -> list Z).

Lemma running_not_queued s Q : running s Q -> forall r, k_current s ∉ Q r.
Proof.
  intros [[_ He] _ _ _ _ Hst]. rewrite <- state_of_erase in Hst. apply (ei_run _ _ _ He _ Hst).
Qed.

Lemma einv_unsave e Q (sv : gmap Z resume_point) :
  einv None e Q ->
  (forall t m, sv !! t = Some (ResumeMutexLock m) -> k_saved e !! t = Some (ResumeMutexLock m)) ->
  (forall m t, t ∈ Q (QMutex m) -> sv !! t = Some (ResumeMutexLock m)) ->
  einv None (set_k_saved sv e) Q.
Proof.
  intros [Hrdy Hrun Hz Hls Hd Hsem Hmut Hsv Hirq] Hsub Hq.
  destruct Hirq as [Hirq (Hpm & Hpc & Hps)].
  split; [exact Hrdy|exact Hrun|exact Hz|exact Hls|exact Hd|exact Hsem| | |split; [exact Hirq|split; [exact Hpm|split; [exact Hpc|]]]; intros t Ht; by apply (Hps t), Hsub].
  - intros m x Hx. destruct (Hmut m x Hx) as (Ho & Hh & Hu & _).
    assert (forall t, handed (set_k_saved sv e) Q m t -> handed e Q m t) as Hhs.
    { intros t [Ht Hn]. split; [by apply Hsub|done]. }
    split_and!; [exact Ho|intros t Ht; by apply (Hh t), Hhs| |intros t Ht; by apply Hq].
    intros t u Ht Hu'. apply Hu; by apply Hhs.
  - intros t m Ht. apply (Hsv t m). by apply Hsub.
Qed.

Lemma mutex_waiter_saved la s Q m t :
  inv la s Q -> t ∈ Q (QMutex m) -> k_saved s !! t = Some (ResumeMutexLock m).
Proof.
  intros [HQ He] Ht. destruct (k_mutexes (erase s) !! m) as [x|] eqn:Hx.
  - destruct (ei_mutex _ _ _ He m x Hx) as (_ & _ & _ & Hs). by apply Hs.
  - exfalso. pose proof (q_rep _ _ HQ (QMutex m)) as Hrep. cbn in Hx, Hrep.
    rewrite lookup_fmap in Hx. destruct (k_mutexes s !! m); [done|]. cbn in Hrep.
    destruct Hrep as [_ Hnil]. rewrite Hnil in Ht by done. by apply elem_of_nil in Ht.
Qed.

(** Forgetting or setting a resume point that is no mutex hand-over. *)
Lemma inv_set_saved s Q (sv : gmap Z resume_point) t :
  inv None s Q -> (forall r, t ∉ Q r) -> (forall u, u <> t -> sv !! u = k_saved s !! u) ->
  (forall m, sv !! t <> Some (ResumeMutexLock m)) -> inv None (set_k_saved sv s) Q.
Proof.
  intros Hinv Hno Hsv Ht. pose proof Hinv as [HQ He]. split.
  - apply (queues_same s); [reflexivity|intros r; by destruct r|exact HQ].
  - apply (einv_unsave (erase s) Q sv He).
    + intros u m Hu. rewrite <- Hsv; [done|]. intros ->. by apply (Ht m).
    + intros m u Hu. rewrite Hsv by (intros ->; by apply (Hno (QMutex m))).
      by eapply mutex_waiter_saved.
Qed.

(** The resumed task finishes what it was suspended in. *)
Lemma wp_resume s Q :
  running s Q ->
  wp resume (fun _ s' => running s' Q /\
    k_current s' = k_current s /\ k_saved s' !! k_current s' = None /\ k_tasks s' = k_tasks s) never s.
Proof.
  intros Hru. pose proof (running_not_queued s Q Hru) as Hno.
  destruct Hru as [[HQ Hinv] Hn Hr Hp Hc Hst]. unfold resume, interrupts_enable. wp_steps.
  assert (forall sv i, sv = delete (k_current s) (k_saved s) -> running (set_k_ints i (set_k_saved sv s)) Q) as Hdel.
  { intros sv i ->. split; try done. eapply inv_frame; [..|apply (inv_set_saved s Q (delete (k_current s) (k_saved s)) (k_current s) (conj HQ Hinv) Hno)];
      try reflexivity.
    - intros u Hu. by rewrite lookup_delete_ne.
    - intros m. by rewrite lookup_delete_eq. }
  destruct (k_saved s !! k_current s) as [[m| |ints]|] eqn:Esv.
  - wp_steps. set (s1 := set_k_saved _ s).
    assert (handed (erase s) Q m (k_current s)) as Hh by (split; [exact Esv|apply Hno]).
    destruct (ei_saved _ _ _ Hinv _ _ Esv) as [x0 Hx0].
    cbn in Hx0. rewrite lookup_fmap in Hx0. destruct (k_mutexes s !! m) as [x|] eqn:Hx; [|done].
    destruct (ei_mutex _ _ _ Hinv m (m_set_queue no_queue x)) as (Ho & Hhd & Hu & Hsvd).
    { cbn. by rewrite lookup_fmap, Hx. }
    destruct (Hhd _ Hh) as [Hl0 Hl1]. cbn in Hl0, Hl1.
    unfold mutex_locked, upd_mutex, mutex. wp_cond. change (k_mutexes s1) with (k_mutexes s).
    rewrite Hx. wp_steps. apply wp_kassert_true; [by apply Z.eqb_eq|]. wp_cond.
    change (k_mutexes s1) with (k_mutexes s). rewrite Hx. wp_steps.
    assert (m <> PRINT_MUTEX) as Hpm.
    { intros ->. destruct (proj2 (ei_quiet _ _ _ Hinv)) as (_ & _ & Hps). by apply (Hps (k_current s)). }
    change (k_current s1) with (k_current s). split; [split|split; [|split]]; try done.
    + split.
      * apply (queues_same s); [reflexivity| |exact HQ]. intros r. destruct r as [| | | |b|b|b]; try reflexivity.
        cbn. destruct (decide (b = m)) as [->|]; [by rewrite lookup_insert_eq, Hx|by rewrite lookup_insert_ne].
      * assert (einv None (set_k_saved (k_saved s1) (erase s)) Q) as Hinv1.
        { refine (proj2 (inv_set_saved s Q (k_saved s1) (k_current s) (conj HQ Hinv) Hno _ _)).
          - intros u Hne. cbn. apply lookup_delete_ne. congruence.
          - intros m'. cbn. by rewrite lookup_delete_eq. }
        destruct Hinv1 as [Hrdy Hrun Hz Hls Hd Hsem Hmut Hsv [Hirq (Hpx & Hpc & Hps)]].
        split; [exact Hrdy|exact Hrun|exact Hz|exact Hls|exact Hd|exact Hsem| | |split; [exact Hirq|split; [|split; [exact Hpc|exact Hps]]]].
        3: { destruct Hpx as (y & Hy & Hl). exists y. split; [|exact Hl]. cbn in Hy |- *. rewrite lookup_fmap in Hy |- *.
          by rewrite lookup_insert_ne. }
        -- intros m' x'. cbn. rewrite lookup_fmap. destruct (decide (m' = m)) as [->|Hm].
           ++ rewrite lookup_insert_eq. cbn. intros [= <-].
              destruct (Hmut m (m_set_queue no_queue x)) as (_ & _ & _ & Hsv').
              { cbn. by rewrite lookup_fmap, Hx. }
              assert (forall t, ~ handed (set_k_saved (k_saved s1) (erase s)) Q m t) as Hnone.
              { intros t [Ht1 Ht2]. cbn in Ht1. apply lookup_delete_Some in Ht1 as [Hne Ht1].
                apply Hne. apply Hu; [exact Hh|by split]. }
              split_and!; [done|intros t Ht; by destruct (Hnone t)|intros t u Ht; by destruct (Hnone t)|exact Hsv'].
           ++ rewrite lookup_insert_ne by done. intros Hx'. apply (Hmut m' x'). cbn. by rewrite lookup_fmap.
        -- intros t m' Ht. destruct (Hsv t m' Ht) as [y Hy]. cbn in Hy |- *. rewrite lookup_fmap in Hy |- *.
           destruct (decide (m' = m)) as [->|]; [rewrite lookup_insert_eq; cbn; eauto|].
           rewrite lookup_insert_ne by done. destruct (k_mutexes s !! m'); [cbn; eauto|done].
    + cbn. apply lookup_delete_eq.
  - wp_steps. split; [by apply Hdel|]. split; [done|]. split; [cbn; apply lookup_delete_eq|done].
  - destruct ints; wp_steps.
    + split; [by apply Hdel|]. split; [done|]. split; [cbn; apply lookup_delete_eq|done].
    + split; [by apply (Hdel _ (k_ints s))|]. split; [done|]. split; [cbn; apply lookup_delete_eq|done].
  - wp_steps. split; [by split|done].
Qed.

(** The last [scheduler_unlock] of a call. *)
Record locked s Q : Prop := Locked {
  lk_inv : inv None s Q;
  lk_lock : k_lock_count s = 1;
  lk_ints : k_ints s = false;
  lk_ready : k_scheduler_ready s = true;
  lk_current : k_current s <> 0;
  lk_task : is_Some (k_tasks s !! k_current s);
  lk_not_ready : k_current s ∉ Q QReady;
  lk_running : k_postponed s = false -> state_of s (k_current s) = Some TASK_STATE_RUNNING;
  lk_live : state_of s (k_current s) <> Some TASK_STATE_TERMINATED;
}.

Definition after_unlock s Q s' : Prop :=
  exists Q', running s' Q' /\
    if k_postponed s then scheduled s Q s' Q' /\ k_saved s' !! k_current s' = None
    else k_current s' = k_current s /\ k_saved s' = k_saved s /\ forall r, Q' r = Q r.

Lemma running_frame s s' Q :
  running s Q -> erase s' = set_k_enable_ints (k_enable_ints s') (set_k_ints (k_ints s') (erase s)) ->
  queues s' Q -> running s' Q.
Proof.
  intros [[HQ He] Hn Hr Hp Hc Hst] Hs HQ'.
  assert (k_current s' = k_current s) as Hcur by (change (k_current (erase s') = k_current s); by rewrite Hs).
  split.
  - split; [exact HQ'|]. rewrite Hs. eapply einv_frame; [..|exact He]; reflexivity.
  - change (k_lock_count (erase s') = 0). by rewrite Hs.
  - change (k_scheduler_ready (erase s') = true). by rewrite Hs.
  - change (k_postponed (erase s') = false). by rewrite Hs.
  - by rewrite Hcur.
  - rewrite Hcur, <- state_of_erase, Hs.
    change (state_of (erase s) (k_current s) = Some TASK_STATE_RUNNING). by rewrite state_of_erase.
Qed.

(** Switching interrupts back on and going on where the task was. *)
Lemma wp_unlock_tail (rr : bool) s1 Q1 (P : unit -> kstate H -> Prop) E :
  running s1 Q1 ->
  (forall s2, running s2 Q1 -> k_current s2 = k_current s1 ->
     k_saved s2 = k_saved s1 -> k_tasks s2 = k_tasks s1 -> wp (if rr then resume else ret tt) P E s2) ->
  wp (unlock_tail rr) P E s1.
Proof.
  intros Hru Hk. unfold unlock_tail, interrupts_enable. wp_step.
  assert (wp (if rr then starts else ret false) (fun _ s' => s' = s1) E s1) as Hst.
  { destruct rr; [|done]. unfold starts. by wp_steps. }
  eapply wp_mono; [exact Hst| |done]. cbv beta. intros fresh s' ->. wp_step. destruct fresh; [wp_steps; by apply Hk|].
  wp_step. wp_step. wp_cond. destruct (k_enable_ints s1) eqn:Ee.
  - wp_step. wp_step. wp_step. apply Hk; try done. eapply running_frame; [exact Hru|reflexivity|].
    apply (queues_same s1); [reflexivity|intros r; by destruct r|apply Hru].
  - wp_step. by apply Hk.
Qed.

Lemma wp_unlock_outer s Q :
  locked s Q -> wp (scheduler_unlock __schedule) (fun _ s' => after_unlock s Q s') only_halted s.
Proof.
  intros [Hinv Hn Hi Hr Hc Hct Hnr Hrun Hlive]. unfold scheduler_unlock, assert_panic.
  wp_steps. apply wp_assert_ints; [exact Hi|]. wp_steps. rewrite Hn.
  apply wp_kassert_true; [done|]. wp_steps. change (1 - 1 =? 0) with true. cbv iota. wp_steps.
  change (k_scheduler_ready (set_k_lock_count (1 - 1) s)) with (k_scheduler_ready s).
  change (k_postponed (set_k_lock_count (1 - 1) s)) with (k_postponed s). rewrite Hr. cbn [andb].
  destruct (k_postponed s) eqn:Ep.
  - set (s1 := set_k_postponed false (set_k_lock_count (1 - 1) s)).
    assert (schedulable s1 Q) as Hsc.
    { split; try done. eapply inv_frame; [..|exact Hinv]; reflexivity. }
    cbv iota. wp_steps.
    eapply wp_mono; [apply (wp___schedule s1 Q Hsc)| |done].
    cbv beta. intros [] s2 (Q2 & Hru2 & Hss & Hscd & _). apply (wp_unlock_tail true s2 Q2 _ _ Hru2).
    intros s3 Hru3 Hc3 _ _. eapply wp_mono; [apply (wp_resume s3 Q2 Hru3)| |done].
    intros [] s4 (Hru4 & Hc4 & Hsv4 & _). unfold after_unlock. rewrite Ep. exists Q2.
    split; [exact Hru4|]. split; [|exact Hsv4].
    unfold scheduled in *. change (state_of s1 (k_current s1)) with (state_of s (k_current s)) in Hscd.
    change (k_current s1) with (k_current s) in Hscd. rewrite Hc4, Hc3. exact Hscd.
  - cbv iota. wp_step. apply (wp_unlock_tail false _ Q).
    + split; try done; [eapply inv_frame; [..|exact Hinv]; reflexivity|by apply Hrun].
    + intros s3 Hru3 Hc3 Hsv3 _. wp_steps. unfold after_unlock. rewrite Ep. exists Q.
      by rewrite Hc3, Hsv3.
Qed.

Lemma e_task_is_Some f t e u : is_Some (k_tasks (e_task f t e) !! u) <-> is_Some (k_tasks e !! u).
Proof.
  unfold e_task. cbn. destruct (decide (u = t)) as [->|]; [|by rewrite lookup_alter_ne].
  by rewrite lookup_alter_eq, fmap_is_Some.
Qed.

(** *** The current task blocks *)

Lemma einv_block la e Q L r t reason sv :
  einv la e Q -> lists_ok L -> (forall r', t ∉ Q r') ->
  reason <> TASK_STATE_RUNNING -> r <> QReady -> r <> QDetached -> t <> 0 ->
  (forall a x, r = QSem a -> k_sems e !! a = Some x -> count x = 0) ->
  k_saved e !! t = None ->
  sv = match r with QMutex m => <[t := ResumeMutexLock m]> (k_saved e) | _ => k_saved e end ->
  (forall m, r = QMutex m -> is_Some (k_mutexes e !! m) /\ m <> PRINT_MUTEX) ->
  einv la (set_k_saved sv (set_k_lists L (e_task (t_set_state reason) t e))) (<[r := Q r ++ [t]]> Q).
Proof.
  intros [Hrdy Hrun Hz Hls Hd Hsem Hmut Hsv Hirq] HL Hno Hre Hr1 Hr2 Ht Hct Hst Hsvd Hmx.
  set (Q' := <[r := _]> Q).
  assert (Q' r = Q r ++ [t]) as HQr by apply fn_lookup_insert.
  assert (forall r', r' <> r -> Q' r' = Q r') as HQo by (intros r' ?; by apply fn_lookup_insert_ne).
  assert (forall r' u, u <> t -> u ∈ Q' r' <-> u ∈ Q r') as HQin.
  { intros r' u Hu. destruct (decide (r' = r)) as [->|]; [rewrite HQr; set_solver|by rewrite HQo]. }
  assert (forall u, u <> t -> sv !! u = k_saved e !! u) as Hsvo.
  { intros u Hu. subst sv. destruct r; try done. by rewrite lookup_insert_ne. }
  set (e' := set_k_saved sv _).
  assert (forall m u, handed e' Q' m u -> u <> t /\ handed e Q m u) as Hh.
  { intros m u [Hu1 Hu2]. cbn in Hu1. destruct (decide (u = t)) as [->|Hu].
    - exfalso. rewrite Hsvd in Hu1. destruct r as [| | | |a|m'|a]; try congruence.
      rewrite lookup_insert_eq in Hu1. injection Hu1 as <-. apply Hu2. rewrite HQr. set_solver.
    - split; [done|]. rewrite Hsvo in Hu1 by done. split; [done|]. by rewrite <- HQin. }
  split.
  - intros u Hu. change (state_of (e_task (t_set_state reason) t e) u = Some TASK_STATE_READY).
    rewrite HQo in Hu by done. rewrite state_of_e_task, decide_False; [by apply Hrdy|].
    intros ->. by apply (Hno QReady).
  - intros u Hu. change (state_of (e_task (t_set_state reason) t e) u = Some TASK_STATE_RUNNING) in Hu.
    rewrite state_of_e_task in Hu. case_decide as Hut.
    + exfalso. destruct (k_tasks e !! t); [|done]. by injection Hu.
    + destruct (Hrun u Hu) as [Hc Hnu]. split; [exact Hc|]. intros r'. rewrite HQin by done. apply Hnu.
  - cbn. by rewrite lookup_alter_ne.
  - exact HL.
  - by rewrite HQo.
  - intros a x Hx. destruct (Hsem a x Hx) as (Hl & Hcu & Hc). split; [exact Hl|]. split; [exact Hcu|].
    destruct (decide (r = QSem a)) as [->|Hne]; [intros _; by eapply Hct|by rewrite HQo].
  - intros m x Hx. destruct (Hmut m x Hx) as (Ho & Hhd & Hu & Hsvm). split_and!.
    + exact Ho.
    + intros u [_ Hu']%Hh. by eapply Hhd.
    + intros u v [_ Hu']%Hh [_ Hv]%Hh. by apply Hu.
    + intros u Hin. cbn. destruct (decide (u = t)) as [->|Hne].
      * assert (r = QMutex m) as ->.
        { destruct (decide (QMutex m = r)) as [<-|Hne]; [done|]. rewrite HQo in Hin by done.
          by destruct (Hno (QMutex m)). }
        subst sv. apply lookup_insert_eq.
      * rewrite Hsvo by done. apply Hsvm. by rewrite <- HQin.
  - intros u m Hu. cbn in Hu. destruct (decide (u = t)) as [->|Hne].
    + rewrite Hsvd in Hu. destruct r as [| | | |a|m'|a]; try congruence.
      rewrite lookup_insert_eq in Hu. injection Hu as <-. by apply Hmx.
    + rewrite Hsvo in Hu by done. by eapply Hsv.
  - destruct Hirq as [Hirq (Hpm & Hpc & Hps)]. split; [exact Hirq|]. split; [exact Hpm|]. split; [exact Hpc|].
    intros u Hu. cbn in Hu. destruct (decide (u = t)) as [->|Hne].
    + rewrite Hsvd in Hu. destruct r as [| | | |a|m'|a]; try congruence.
      rewrite lookup_insert_eq in Hu. injection Hu as ->. by destruct (Hmx _ eq_refl).
    + rewrite Hsvo in Hu by done. by apply (Hps u).
Qed.

Lemma einv_set_wait la e Q t v : einv la e Q -> einv la (e_task (t_set_wait v) t e) Q.
Proof.
  intros [Hrdy Hrun Hz Hls Hd Hsem Hmut Hsv Hirq].
  assert (forall u, state_of (e_task (t_set_wait v) t e) u = state_of e u) as Hst.
  { intros u. unfold state_of, e_task. cbn. destruct (decide (u = t)) as [->|]; [|by rewrite lookup_alter_ne].
    rewrite lookup_alter_eq. by destruct (k_tasks e !! t). }
  split; [|..|exact Hls|exact Hd|exact Hsem|exact Hmut|exact Hsv|exact Hirq].
  - intros u Hu. rewrite Hst. by apply Hrdy.
  - intros u. rewrite Hst. apply Hrun.
  - cbn. destruct (decide (0 = t)) as [<-|]; [by rewrite lookup_alter_eq, Hz|by rewrite lookup_alter_ne].
Qed.

(** A task that runs outside the scheduler lock. *)
Record stable s Q : Prop := Stable {
  st_running : running s Q;
  st_saved : k_saved s !! k_current s = None;
}.

Lemma after_unlock_stable s Q s' :
  after_unlock s Q s' -> (k_postponed s = false -> k_saved s !! k_current s = None) ->
  exists Q', stable s' Q'.
Proof.
  intros (Q' & Hru & Hcase) Hsv. exists Q'. split; [done|].
  destruct (k_postponed s); [apply Hcase|]. destruct Hcase as (-> & -> & _). by apply Hsv.
Qed.

(** The state just after the outermost [scheduler_lock]. *)
Record entered s s1 : Prop := Entered {
  en_lock : k_lock_count s1 = 1;
  en_ints : k_ints s1 = false;
  en_erase : exists b, erase s1 = set_k_lock_count 1 (set_k_enable_ints b (set_k_ints false (erase s)));
  en_sems : k_sems s1 = k_sems s;
  en_tasks : k_tasks s1 = k_tasks s;
  en_enable : k_enable_ints s1 = k_ints s || k_enable_ints s;
}.

Lemma wp_enter s Q (P : unit -> kstate H -> Prop) E :
  running s Q ->
  (forall s1, inv None s1 Q -> entered s s1 -> P tt s1) -> wp scheduler_lock P E s.
Proof.
  intros [Hinv Hn Hr Hp Hc Hst] Hk. apply wp_lock_outer; [exact Hn|exact Hp|]. apply Hk.
  - destruct (k_ints s); eapply inv_frame; [..|exact Hinv| | | | | | | | | | | |exact Hinv]; reflexivity.
  - destruct (k_ints s) eqn:Ei; split; try reflexivity; [by exists true|by rewrite Ei|
      by exists (k_enable_ints s)|by rewrite Ei].
Qed.

Lemma entered_facts s s1 : entered s s1 ->
  k_current s1 = k_current s /\ k_scheduler_ready s1 = k_scheduler_ready s /\
  k_postponed s1 = k_postponed s /\ k_saved s1 = k_saved s /\ k_lists s1 = k_lists s /\
  (forall t, state_of s1 t = state_of s t).
Proof.
  intros [_ _ [b He] _ Ht _].
  change (k_current s1) with (k_current (erase s1)).
  change (k_scheduler_ready s1) with (k_scheduler_ready (erase s1)).
  change (k_postponed s1) with (k_postponed (erase s1)).
  change (k_saved s1) with (k_saved (erase s1)). change (k_lists s1) with (k_lists (erase s1)).
  rewrite He. unfold state_of. rewrite Ht. done.
Qed.

(** [schedule(); scheduler_unlock();] at the end of a call. *)
Lemma wp_schedule_unlock s Q :
  inv None s Q -> k_lock_count s = 1 -> k_ints s = false -> k_scheduler_ready s = true ->
  k_current s <> 0 -> is_Some (k_tasks s !! k_current s) -> k_current s ∉ Q QReady ->
  state_of s (k_current s) <> Some TASK_STATE_TERMINATED ->
  wp (schedule >>> scheduler_unlock __schedule) (fun _ s' => exists Q', stable s' Q') only_halted s.
Proof.
  intros Hinv Hn Hi Hr Hc Ht Hnr Hlive. wp_steps. apply wp_schedule; [exact Hi|by rewrite Hn|exact Hr|].
  set (s1 := set_k_postponed true s).
  eapply wp_mono; [apply (wp_unlock_outer s1 Q)| |done].
  - split; try done. eapply inv_frame; [..|exact Hinv]; reflexivity.
  - intros [] s' Ha. by apply (after_unlock_stable s1 Q).
Qed.

Definition call_panics : panic -> Prop := fun p => p = NoMemory \/ p = Halted.

Definition to_stable (m : M (kstate H) unit) s : Prop :=
  wp m (fun _ s' => exists Q', stable s' Q') call_panics s.

Lemma running_task s Q : running s Q -> is_Some (k_tasks s !! k_current s).
Proof. intros [_ _ _ _ _ Hst]. unfold state_of in Hst. destruct (_ !! _); [eauto|done]. Qed.

Lemma yield_stable s Q : stable s Q -> to_stable (yield __schedule) s.
Proof.
  intros [Hru Hsv]. unfold to_stable, yield. wp_steps. apply (wp_enter s Q _ _ Hru). intros s1 Hinv1 Hen.
  destruct (entered_facts s s1 Hen) as (Hc & Hr & Hp & Hs & _ & Hst).
  eapply wp_mono; [apply (wp_schedule_unlock s1 Q Hinv1 (en_lock _ _ Hen) (en_ints _ _ Hen))| |]; [..|done|by right].
  - rewrite Hr. apply Hru.
  - rewrite Hc. apply Hru.
  - rewrite Hc, (en_tasks _ _ Hen). by eapply running_task.
  - rewrite Hc. by eapply running_not_queued.
  - rewrite Hst, Hc, (ru_state _ _ Hru). done.
Qed.

(** What a task does behind a [printf]. *)
Lemma wp_printf_then sch s Q rest (P : unit -> kstate H -> Prop) E :
  running s Q -> (running (ints_settled s) Q -> wp rest P E (ints_settled s)) -> wp (printf_then sch rest) P E s.
Proof.
  intros Hru Hk. pose proof Hru as [[HQ He] Hn _ Hp _ _]. unfold printf_then. wp_step.
  apply (wp_printf_outer sch s Q _ _ HQ (einv_printable _ _ He) Hn Hp). apply Hk.
  eapply running_frame; [exact Hru|reflexivity|]. by apply (queues_same s); [|intros []|].
Qed.

Lemma printf_then_stable sch s Q rest :
  stable s Q -> (stable (ints_settled s) Q -> to_stable rest (ints_settled s)) -> to_stable (printf_then sch rest) s.
Proof. intros [Hru Hsv] Hk. apply (wp_printf_then sch s Q); [exact Hru|]. intros Hru'. apply Hk. by split. Qed.

(** Blocking on a queue from inside the lock, at any depth. *)
Lemma wp_block_current la s Q r reason n (P : unit -> kstate H -> Prop) :
  inv la s Q -> k_lock_count s = n -> n <> 0 -> k_ints s = false ->
  is_Some (queue_of r s) -> k_current s <> 0 -> state_of s (k_current s) = Some TASK_STATE_RUNNING ->
  reason <> TASK_STATE_RUNNING -> reason <> TASK_STATE_TERMINATED -> r <> QReady -> r <> QMutex PRINT_MUTEX ->
  (forall a x, r = QSem a -> k_sems (erase s) !! a = Some x -> count x = 0) ->
  k_saved s !! k_current s = None ->
  (forall s' Q' L, 
     queues s' Q' -> Q' = <[r := Q r ++ [k_current s]]> Q ->
     erase s' = set_k_lists L (e_task (t_set_state reason) (k_current s) (erase s)) ->
     einv la (set_k_saved (match r with QMutex m => <[k_current s := ResumeMutexLock m]> (k_saved s) | _ => k_saved s end)
        (erase s')) Q' -> state_of s' (k_current s) <> Some TASK_STATE_TERMINATED -> P tt s') ->
  wp (__task_block r (k_current s) reason) P call_panics s.
Proof.
  intros [HQ He] Hn Hn0 Hi Hq Hc Hst Hre Hre' Hr Hrp Hsem Hsv Hk.
  rewrite <- state_of_erase in Hst. destruct (ei_run _ _ _ He _ Hst) as [_ Hno].
  assert (is_Some (k_tasks s !! k_current s)) as Ht.
  { rewrite state_of_erase in Hst. unfold state_of in Hst. destruct (_ !! _); [eauto|done]. }
  eapply wp_mono; [apply (wp___task_block s Q r (k_current s) reason HQ)| |intros p ->; by left];
    [apply (ei_lists _ _ _ He)|exact Hi|by rewrite Hn|exact Hq|exact Hc|exact Ht|exact Hno|].
  cbv beta. intros [] s' [HQ' (L & HL & He')]. apply (Hk s' _ L HQ' eq_refl He').
  2: { rewrite <- state_of_erase, He'. change (state_of (e_task (t_set_state reason) (k_current s) (erase s)) (k_current s) <> Some TASK_STATE_TERMINATED).
    rewrite state_of_e_task, decide_True by done. destruct (k_tasks (erase s) !! _); [|done]. cbn. congruence. }
  rewrite He'. apply (einv_block la (erase s) Q L r (k_current s) reason); try done.
  - intros ->. by destruct Hq.
  - intros m ->. split; [|congruence]. apply (erase_is_queue s (QMutex m)) in Hq. cbn in Hq |- *.
    by apply fmap_is_Some in Hq.
Qed.

Lemma block_not_ready r Q t u Q' :
  Q' = <[r := Q r ++ [u]]> Q -> r <> QReady -> (t ∉ Q QReady) -> t ∉ Q' QReady.
Proof. intros -> Hr Hno. by rewrite fn_lookup_insert_ne. Qed.

Lemma task_sleep_miliseconds_stable s Q time :
  stable s Q -> to_stable (task_sleep_miliseconds __schedule time) s.
Proof.
  intros [Hru Hsv]. unfold to_stable, task_sleep_miliseconds. wp_steps. apply (wp_enter s Q _ _ Hru).
  intros s1 Hinv1 Hen. destruct (entered_facts s s1 Hen) as (Hc & Hr & Hp & Hs & _ & Hst).
  pose proof (running_not_queued s Q Hru) as Hno. pose proof (running_task s Q Hru) as [tk Htk].
  destruct Hru as [_ _ Hr0 _ Hc0 Hst0].
  wp_steps. apply wp_kassert_true; [by rewrite (en_lock _ _ Hen)|]. wp_steps.
  apply wp_kassert_true; [apply negb_true_iff, Z.eqb_neq; congruence|]. wp_steps.
  eapply wp_upd_task; [rewrite Hc, (en_tasks _ _ Hen); exact Htk|]. wp_steps.
  set (s2 := set_k_tasks _ s1).
  assert (k_tasks s1 !! k_current s1 = Some tk) as Htk1 by (by rewrite Hc, (en_tasks _ _ Hen)).
  assert (inv None s2 Q) as Hinv2.
  { split; [by apply queues_upd_task; [apply Hinv1| |]|].
    unfold s2. rewrite (erase_upd_task s1 (k_current s1) tk (t_set_wait _) Htk1 eq_refl).
    apply einv_set_wait, Hinv1. }
  change (k_current s1) with (k_current s2) at 1.
  assert (state_of s2 (k_current s2) = Some TASK_STATE_RUNNING) as Hst2.
  { unfold state_of. change (k_current s2) with (k_current s1). unfold s2. cbn.
    rewrite lookup_insert_eq. cbn. rewrite <- Hst0, <- Hst, <- Hc. unfold state_of. by rewrite Htk1. }
  eapply (wp_block_current None s2 Q QWait TASK_STATE_WAITING 1);
    [exact Hinv2|exact (en_lock _ _ Hen)|done|exact (en_ints _ _ Hen)|by eexists| |exact Hst2|done|done|done|done|done| |].
  - change (k_current s1 <> 0). congruence.
  - change (k_saved s1 !! k_current s1 = None). by rewrite Hs, Hc.
  - intros s3 Q3 L HQ3 HQe He3 Hinv3 Hlive.
    assert (forall A (f : kstate H -> A), f (erase s3) = f (set_k_lists L (e_task (t_set_state TASK_STATE_WAITING) (k_current s2) (erase s2)))) as Hf.
    { intros A f. by rewrite He3. }
    assert (k_current s3 = k_current s) as Hc3 by (rewrite <- Hc; exact (Hf _ k_current)).
    eapply wp_mono; [apply (wp_schedule_unlock s3 Q3)| |]; [..|done|by right].
    + split; [exact HQ3|]. eapply einv_frame; [..|exact Hinv3]; try reflexivity.
      rewrite He3. reflexivity.
    + rewrite <- (en_lock _ _ Hen). exact (Hf _ k_lock_count).
    + rewrite <- (en_ints _ _ Hen). exact (Hf _ k_ints).
    + rewrite <- Hr0, <- Hr. exact (Hf _ k_scheduler_ready).
    + by rewrite Hc3.
    + rewrite <- erase_is_task, Hf. apply e_task_is_Some, erase_is_task. rewrite Hc3, <- Hc.
      cbn. rewrite lookup_insert_eq. eauto.
    + rewrite Hc3. eapply block_not_ready; [exact HQe|done|exact (Hno QReady)].
    + rewrite Hc3, <- Hc. exact Hlive.
Qed.

Lemma task_sleep_until_stable s Q target :
  stable s Q -> to_stable (task_sleep_until __schedule target) s.
Proof.
  intros Hstab0. unfold task_sleep_until, assert_panic. apply (printf_then_stable _ s Q _ Hstab0). clear Hstab0.
  generalize (ints_settled s). clear s. intros s Hstab. pose proof Hstab as [Hru Hsv]. unfold to_stable. wp_cond.
  destruct (target <=? k_ticks s); [wp_steps; eauto|]. wp_steps. apply (wp_enter s Q _ _ Hru).
  intros s1 Hinv1 Hen. destruct (entered_facts s s1 Hen) as (Hc & Hr & Hp & Hs & _ & Hst).
  pose proof (running_not_queued s Q Hru) as Hno. pose proof (running_task s Q Hru) as [tk Htk].
  destruct Hru as [_ _ Hr0 _ Hc0 Hst0].
  assert (k_tasks s1 !! k_current s1 = Some tk) as Htk1 by (by rewrite Hc, (en_tasks _ _ Hen)).
  assert (state tk = TASK_STATE_RUNNING) as Htks.
  { unfold state_of in Hst0. rewrite Htk in Hst0. by injection Hst0. }
  wp_steps. apply wp_kassert_true; [by rewrite (en_lock _ _ Hen)|]. wp_steps.
  apply wp_kassert_true; [apply negb_true_iff, Z.eqb_neq; congruence|]. wp_steps.
  eapply wp_task; [exact Htk1|]. wp_steps. apply wp_kassert_true; [by apply Z.eqb_eq|]. wp_steps.
  eapply wp_upd_task; [exact Htk1|]. wp_steps. set (s2 := set_k_tasks _ s1).
  set (tk2 := t_set_state TASK_STATE_WAITING tk).
  assert (k_tasks s2 !! k_current s1 = Some tk2) as Htk2 by (cbn; apply lookup_insert_eq).
  eapply wp_upd_task; [exact Htk2|]. set (s3 := set_k_tasks _ s2). set (tk3 := t_set_wait target tk2).
  assert (queues s2 Q) as HQ2 by (by apply queues_upd_task; [apply Hinv1| |]).
  assert (queues s3 Q) as HQ3 by (by apply queues_upd_task).
  assert (erase s3 = e_task (t_set_wait target) (k_current s1)
            (e_task (t_set_state TASK_STATE_WAITING) (k_current s1) (erase s1))) as He3.
  { unfold s3. rewrite (erase_upd_task s2 _ tk2 (t_set_wait target) Htk2 eq_refl). f_equal.
    exact (erase_upd_task s1 _ tk (t_set_state TASK_STATE_WAITING) Htk1 eq_refl). }
  rewrite <- Hc in Hno, Hc0, Hsv. wp_steps.
  eapply wp_mono; [apply (wp_task_queue s3 Q QWait (k_current s1) HQ3)| |by intros e []].
  { exact (en_ints _ _ Hen). } { by eexists. } { exact Hc0. }
  { unfold s3. cbn. rewrite lookup_insert_eq. eauto. } { exact Hno. }
  cbv beta. intros [] s4 [HQ4 He4]. rewrite He3 in He4.
  assert (forall A (f : kstate H -> A), f (erase s4) = f (e_task (t_set_wait target) (k_current s1)
            (e_task (t_set_state TASK_STATE_WAITING) (k_current s1) (erase s1)))) as Hf.
  { intros A f. by rewrite He4. }
  assert (k_current s4 = k_current s1) as Hc4 by exact (Hf _ k_current).
  eapply wp_mono; [apply (wp_schedule_unlock s4 (<[QWait := Q QWait ++ [k_current s1]]> Q))| |]; [..|done|by right].
  + split; [exact HQ4|]. rewrite He4. apply einv_set_wait.
    eapply einv_frame; [..|apply (einv_block None (erase s1) Q (k_lists s1) QWait (k_current s1) TASK_STATE_WAITING
      (k_saved s1) (proj2 Hinv1))]; try reflexivity; try done.
    * apply (ei_lists _ _ _ (proj2 Hinv1)).
    * change (k_saved s1 !! k_current s1 = None). by rewrite Hs.
  + rewrite <- (en_lock _ _ Hen). exact (Hf _ k_lock_count).
  + rewrite <- (en_ints _ _ Hen). exact (Hf _ k_ints).
  + rewrite <- Hr0, <- Hr. exact (Hf _ k_scheduler_ready).
  + by rewrite Hc4.
  + rewrite <- erase_is_task, Hf. apply e_task_is_Some, e_task_is_Some, erase_is_task. rewrite Hc4. eauto.
  + rewrite Hc4. by rewrite fn_lookup_insert_ne.
  + rewrite <- state_of_erase, He4, Hc4.
    assert (forall e v t u, state_of (e_task (t_set_wait v) t e) u = state_of e u) as Hsw.
    { intros e v t u. unfold state_of, e_task. cbn. destruct (decide (u = t)) as [->|]; [|by rewrite lookup_alter_ne].
      rewrite lookup_alter_eq. by destruct (k_tasks e !! t). }
    rewrite Hsw, state_of_e_task, decide_True by done. destruct (k_tasks (erase s1) !! _); done.
Qed.

(** [spin_lock] as the first thing a call does. *)
Lemma wp_spin_lock_outer s Q a (P : unit -> kstate H -> Prop) E :
  running s Q -> is_Some (k_sems s !! a) ->
  (forall s1 s2, entered s s1 -> inv (Some a) s2 Q -> keeps s1 s2 -> k_postponed s2 = k_postponed s ->
     is_Some (k_sems s2 !! a) -> (forall t, state_of s2 t = state_of s t) -> P tt s2) ->
  wp (spin_lock a) P E s.
Proof.
  intros Hru Ha Hk. unfold spin_lock. wp_steps. apply (wp_enter s Q _ _ Hru). intros s1 Hinv1 Hen.
  destruct (entered_facts s s1 Hen) as (Hc & Hr & Hp & Hs & _ & Hst). wp_steps.
  eapply (wp_sem_swap_lock s1 Q a None None (Some a) 1); [exact Hinv1|by rewrite (en_sems _ _ Hen)|by left|].
  intros s2 x -> Hinv2 Hk2 _. change (negb (1 - 1 =? 0)) with false. cbv iota. wp_steps.
  apply (Hk s1); try done.
  cbn. rewrite lookup_insert_eq. eauto.
Qed.

(** [spin_unlock] as the last thing a call does. *)
Lemma wp_spin_unlock_outer s Q a :
  inv (Some a) s Q -> k_lock_count s = 1 -> k_ints s = false -> k_scheduler_ready s = true ->
  k_current s <> 0 -> is_Some (k_tasks s !! k_current s) -> k_current s ∉ Q QReady ->
  (k_postponed s = false -> state_of s (k_current s) = Some TASK_STATE_RUNNING) ->
  state_of s (k_current s) <> Some TASK_STATE_TERMINATED ->
  is_Some (k_sems s !! a) ->
  wp (spin_unlock __schedule a) (fun _ s' => after_unlock s Q s') only_halted s.
Proof.
  intros Hinv Hn Hi Hr Hc Ht Hnr Hst Hlive Ha. unfold spin_unlock. wp_steps.
  eapply (wp_sem_swap_lock s Q a None (Some a) None 0); [exact Hinv|exact Ha|by right|].
  intros s2 x -> Hinv2 Hk2 _. change (negb (1 - 0 =? 1)) with false. cbv iota.
  set (s2 := set_k_sems _ s) in *. eapply wp_mono; [apply (wp_unlock_outer s2 Q)| |done]; [by split|].
  intros [] s' Ha'. exact Ha'.
Qed.

Lemma semaphore_release_stable s Q a :
  running s Q -> is_Some (k_sems s !! a) ->
  wp (semaphore_release __schedule a) (fun _ s' => exists Q', running s' Q' /\
     (k_saved s' !! k_current s' = None \/ k_current s' = k_current s /\ k_saved s' = k_saved s))
    only_halted s.
Proof.
  intros Hru Ha. unfold semaphore_release. wp_steps. eapply (wp_spin_lock_outer s Q a _ _ Hru Ha).
  intros s1 s2 Hen Hinv2 Hk2 Hp2 Ha2 Hst2. destruct (entered_facts s s1 Hen) as (Hc & Hr & Hp & Hs & _ & Hst).
  pose proof (running_not_queued s Q Hru) as Hno. pose proof (running_task s Q Hru) as Htk.
  destruct Hru as [_ _ Hr0 Hp0 Hc0 Hst0].
  assert (k_lock_count s2 = 1) as Hn2 by (rewrite (kp_lock _ _ Hk2); apply Hen).
  assert (k_ints s2 = false) as Hi2 by (rewrite (kp_ints _ _ Hk2); apply Hen).
  assert (k_scheduler_ready s2 = true) as Hr2 by (rewrite (kp_ready _ _ Hk2), Hr; exact Hr0).
  pose proof (wp_release_middle __schedule s2 Q a 1 Hinv2 Hn2 ltac:(lia) Hi2 Hr2 Ha2) as Hw.
  apply wp_bind in Hw. wp_steps. eapply wp_mono; [exact Hw| |by intros e []].
  cbv beta. intros x s3 Hw3. wp_steps. eapply wp_mono; [exact Hw3| |by intros e []].
  cbv beta. intros [] s4 (Q4 & Hinv4 & Hk4 & Ha4 & HQ4 & _).
  pose proof (keeps_trans _ _ _ Hk2 Hk4) as Hk.
  assert (k_current s4 = k_current s) as Hc4 by (rewrite (kp_current _ _ Hk); exact Hc).
  assert (state_of s4 (k_current s) = Some TASK_STATE_RUNNING) as Hst4.
  { apply (kp_state _ _ Hk). by rewrite Hst. }
  eapply wp_mono; [apply (wp_spin_unlock_outer s4 Q4 a Hinv4)| |done].
  - rewrite (kp_lock _ _ Hk). apply Hen.
  - rewrite (kp_ints _ _ Hk). apply Hen.
  - rewrite (kp_ready _ _ Hk), Hr. exact Hr0.
  - by rewrite Hc4.
  - rewrite Hc4. apply (kp_tasks _ _ Hk). by rewrite (en_tasks _ _ Hen).
  - rewrite Hc4. intros Hin. rewrite <- state_of_erase in Hst4.
    destruct (ei_run _ _ _ (proj2 Hinv4) _ Hst4) as [_ Hq]. by apply (Hq QReady).
  - by rewrite Hc4.
  - by rewrite Hc4, Hst4.
  - exact Ha4.
  - intros [] s5 (Q5 & Hru5 & Hcase). exists Q5. split; [exact Hru5|].
    destruct (k_postponed s4); [left; apply Hcase|right]. destruct Hcase as (Hc5 & Hs5 & _).
    by rewrite Hc5, Hs5, (kp_saved _ _ Hk), Hs.
Qed.

Lemma semaphore_acquire_stable s Q a :
  stable s Q -> is_Some (k_sems s !! a) -> to_stable (semaphore_acquire __schedule a) s.
Proof.
  intros [Hru Hsv] Ha. unfold to_stable, semaphore_acquire. wp_steps.
  eapply (wp_spin_lock_outer s Q a _ _ Hru Ha).
  intros s1 s2 Hen Hinv2 Hk2 Hp2 Ha2 Hst2. destruct (entered_facts s s1 Hen) as (Hc & Hr & Hp & Hs & _ & Hst).
  pose proof (running_not_queued s Q Hru) as Hno. pose proof (running_task s Q Hru) as Htk.
  destruct Hru as [_ _ Hr0 Hp0 Hc0 Hst0].
  assert (k_current s2 = k_current s) as Hc2 by (rewrite (kp_current _ _ Hk2); exact Hc).
  assert (k_lock_count s2 = 1) as Hn2 by (rewrite (kp_lock _ _ Hk2); apply Hen).
  assert (k_ints s2 = false) as Hi2 by (rewrite (kp_ints _ _ Hk2); apply Hen).
  assert (k_scheduler_ready s2 = true) as Hr2 by (rewrite (kp_ready _ _ Hk2), Hr; exact Hr0).
  assert (k_saved s2 !! k_current s2 = None) as Hsv2 by (by rewrite Hc2, (kp_saved _ _ Hk2), Hs).
  assert (is_Some (k_tasks s2 !! k_current s)) as Htk2.
  { apply (kp_tasks _ _ Hk2). by rewrite (en_tasks _ _ Hen). }
  destruct Ha2 as [x Hx]. destruct (inv_sem _ s2 Q a x Hinv2 Hx) as (Hl & Hcu & Hct & _).
  assert (forall s3 Q3, inv (Some a) s3 Q3 -> k_lock_count s3 = 1 -> k_ints s3 = false ->
    k_scheduler_ready s3 = true -> k_current s3 = k_current s -> is_Some (k_tasks s3 !! k_current s) ->
    (k_current s ∉ Q3 QReady) -> is_Some (k_sems s3 !! a) ->
    (k_postponed s3 = false -> state_of s3 (k_current s) = Some TASK_STATE_RUNNING /\ k_saved s3 !! k_current s = None) ->
    state_of s3 (k_current s) <> Some TASK_STATE_TERMINATED ->
    wp (let! n := gets k_lock_count in kassert (n =? 1) >>> spin_unlock __schedule a)
      (fun _ s' => exists Q', stable s' Q') call_panics s3) as Hend.
  { intros s3 Q3 Hinv3 Hn3 Hi3 Hr3 Hc3 Ht3 Hq3 Ha3 Hp3 Hl3. wp_steps.
    apply wp_kassert_true; [by rewrite Hn3|].
    eapply wp_mono; [apply (wp_spin_unlock_outer s3 Q3 a Hinv3 Hn3 Hi3 Hr3)| |by right]; rewrite ?Hc3; try done.
    - intros Hpp. by apply Hp3.
    - intros [] s' Hau. apply (after_unlock_stable s3 Q3 s' Hau). rewrite Hc3. intros Hpp. by apply Hp3. }
  wp_steps. eapply wp_sem; [exact Hx|]. wp_step. wp_cond. destruct (Z.ltb_spec 0 (count x)) as [Hpos|Hzero].
  - eapply wp_upd_sem; [exact Hx|]. apply (Hend _ Q); try done.
    + eapply inv_set_sem; try done; [|by intros ?%Hct; lia]. unfold is_u32 in *. cbn. lia.
    + cbn. rewrite lookup_insert_eq. eauto.
    + intros _. change (state_of s2 (k_current s) = Some TASK_STATE_RUNNING /\ k_saved s2 !! k_current s = None).
      rewrite Hst2. by rewrite <- Hc2 at 2.
    + change (state_of s2 (k_current s) <> Some TASK_STATE_TERMINATED). by rewrite Hst2, Hst0.
  - wp_step. eapply wp_lock_nested; [exact Hn2|lia|]. set (s3 := set_k_lock_count (1 + 1) _).
    assert (inv (Some a) s3 Q) as Hinv3 by (eapply inv_frame; [..|exact Hinv2]; reflexivity).
    wp_step. wp_step. wp_step. 
    eapply (wp_block_current (Some a) s3 Q (QSem a) TASK_STATE_BLOCKED_LOCK 2 _ Hinv3);
      [reflexivity|done|reflexivity|cbn; rewrite Hx; by eexists| | |done|done|done|done| |exact Hsv2|].
    + change (k_current s2 <> 0). by rewrite Hc2.
    + change (state_of s2 (k_current s2) = Some TASK_STATE_RUNNING). by rewrite Hst2, Hc2.
    + intros b y [= <-]. cbn. rewrite lookup_fmap, Hx. cbn. intros [= <-]. cbn. unfold is_u32 in Hcu. lia.
    + intros s4 Q4 L HQ4 HQe He4 Hinv4 Hlive.
      assert (forall A (f : kstate H -> A), f (erase s4) = f (set_k_lists L
        (e_task (t_set_state TASK_STATE_BLOCKED_LOCK) (k_current s3) (erase s3)))) as Hf.
      { intros A f. by rewrite He4. }
      wp_step. apply wp_schedule; [exact (Hf _ k_ints)| |exact (eq_trans (Hf _ k_scheduler_ready) Hr2)|].
      { change (k_lock_count (erase s4) <> 0). by rewrite He4. }
      set (s5 := set_k_postponed true s4).
      eapply (wp_unlock_nested _ s5 _ _ 2); [exact (Hf _ k_lock_count)|lia|exact (Hf _ k_ints)|].
      assert (k_current s4 = k_current s) as Hc4 by (rewrite <- Hc2; exact (Hf _ k_current)).
      apply (Hend _ Q4); try done.
      * eapply (inv_frame (Some a) s4); try reflexivity. split; [exact HQ4|].
        eapply einv_frame; [..|exact Hinv4]; try reflexivity. rewrite He4. reflexivity.
      * exact (Hf _ k_ints).
      * exact (eq_trans (Hf _ k_scheduler_ready) Hr2).
      * change (is_Some (k_tasks s4 !! k_current s)). rewrite <- erase_is_task, Hf.
        apply e_task_is_Some, erase_is_task. exact Htk2.
      * eapply block_not_ready; [exact HQe|done|exact (Hno QReady)].
      * apply (erase_sem_is_Some s3); [exact (Hf _ k_sems)|]. cbn. by rewrite Hx.
      * change (state_of s4 (k_current s) <> Some TASK_STATE_TERMINATED). rewrite <- Hc2. exact Hlive.
Qed.

(** *** Mutexes *)

Lemma erase_mutex s m x :
  k_mutexes s !! m = Some x -> k_mutexes (erase s) !! m = Some (m_set_queue no_queue x).
Proof. intros Hx. cbn. by rewrite lookup_fmap, Hx. Qed.

Lemma inv_set_mutex la s Q m x y :
  inv la s Q -> k_mutexes s !! m = Some x -> m <> PRINT_MUTEX -> mutex_blocked y = mutex_blocked x ->
  mutex_ok (erase s) Q m (m_set_queue no_queue y) ->
  inv la (set_k_mutexes (<[m := y]> (k_mutexes s)) s) Q.
Proof.
  intros [HQ He] Hx Hpm Hy Hok. split.
  - apply (queues_same s); [reflexivity| |exact HQ]. intros r. destruct r as [| | | |b|b|b]; try reflexivity.
    cbn. destruct (decide (b = m)) as [->|]; [rewrite lookup_insert_eq, Hx; cbn; by rewrite Hy|].
    by rewrite lookup_insert_ne.
  - destruct He as [Hrdy Hrun Hz Hls Hd Hsem Hmut Hsv [Hirq (Hpx & Hpc & Hps)]].
    split; [exact Hrdy|exact Hrun|exact Hz|exact Hls|exact Hd|exact Hsem| | |split; [exact Hirq|split; [|split; [exact Hpc|exact Hps]]]].
    3: { destruct Hpx as (z & Hz' & Hl). exists z. split; [|exact Hl]. cbn in Hz' |- *. rewrite lookup_fmap in Hz' |- *.
      by rewrite lookup_insert_ne. }
    + intros m' x'. cbn. rewrite lookup_fmap. destruct (decide (m' = m)) as [->|Hm].
      * rewrite lookup_insert_eq. cbn. intros [= <-]. exact Hok.
      * rewrite lookup_insert_ne by done. intros Hx'. apply (Hmut m' x'). cbn. by rewrite lookup_fmap.
    + intros t m' Ht. destruct (Hsv t m' Ht) as [z Hz']. cbn in Hz' |- *. rewrite lookup_fmap in Hz' |- *.
      destruct (decide (m' = m)) as [->|]; [rewrite lookup_insert_eq; cbn; eauto|].
      rewrite lookup_insert_ne by done. destruct (k_mutexes s !! m'); [cbn; eauto|done].
Qed.

Lemma running_set_mutex s Q m x y :
  running s Q -> k_mutexes s !! m = Some x -> m <> PRINT_MUTEX -> mutex_blocked y = mutex_blocked x ->
  mutex_ok (erase s) Q m (m_set_queue no_queue y) ->
  running (set_k_mutexes (<[m := y]> (k_mutexes s)) s) Q.
Proof.
  intros [Hinv Hn Hr Hp Hc Hst] Hx Hpm Hy Hok. split; try done. by eapply inv_set_mutex.
Qed.

Lemma mutex_lock_stable s Q m :
  stable s Q -> is_Some (k_mutexes s !! m) -> m <> PRINT_MUTEX -> to_stable (mutex_lock __schedule m) s.
Proof.
  intros [Hru Hsv] [x Hx] Hpm. unfold to_stable, mutex_lock, mutex_lock_now, mutex_swap. wp_steps.
  eapply wp_mutex; [exact Hx|]. wp_steps. eapply wp_upd_mutex; [exact Hx|]. wp_steps.
  destruct (ei_mutex _ _ _ (proj2 (ru_inv _ _ Hru)) m _ (erase_mutex s m x Hx)) as (Ho & Hh & Hu & Hq).
  cbn in Ho, Hh. set (s1 := set_k_mutexes _ s).
  assert (running s1 Q) as Hru1.
  { eapply running_set_mutex; [exact Hru|exact Hx|exact Hpm|done|]. split_and!; cbn; try done.
    intros t Ht. split; [by apply (Hh t)|done]. }
  assert (k_mutexes s1 !! m = Some (m_set_lock 1 x)) as Hx1 by (cbn; apply lookup_insert_eq).
  wp_cond. destruct (Z.eqb_spec (lock x) 0) as [Hl|Hl]; cbn [negb].
  - unfold mutex_locked. wp_steps. eapply wp_mutex; [exact Hx1|]. wp_steps.
    assert (locked_task x = 0) as Hl0.
    { destruct (decide (locked_task x = 0)); [done|]. rewrite Ho in Hl by done. done. }
    apply wp_kassert_true; [by apply Z.eqb_eq|]. wp_steps. eapply wp_upd_mutex; [exact Hx1|]. wp_steps.
    exists Q. split; [|exact Hsv].
    eapply running_set_mutex; [exact Hru1|exact Hx1|exact Hpm|done|].
    assert (forall t, ~ handed (erase s1) Q m t) as Hnone.
    { intros t Ht. destruct (Hh t Ht) as [_ Hl1]. congruence. }
    split_and!; [done|intros t Ht; by destruct (Hnone t)|intros t u Ht; by destruct (Hnone t)|exact Hq].
  - wp_step. apply (wp_enter s1 Q _ _ Hru1). intros s2 Hinv2 Hen.
    destruct (entered_facts s1 s2 Hen) as (Hc & Hr & Hp & Hs & _ & Hst).
    pose proof (running_not_queued s1 Q Hru1) as Hno. pose proof (running_task s1 Q Hru1) as Htk.
    destruct Hru1 as [_ _ Hr1 Hp1 Hc1 Hst1]. destruct (en_erase _ _ Hen) as [b Heb].
    assert (is_Some (queue_of (QMutex m) s2)) as Hqm.
    { apply erase_is_queue. rewrite Heb. cbn. rewrite lookup_fmap, lookup_insert_eq. cbn. eauto. }
    wp_step. wp_step. wp_step.
    eapply (wp_block_current None s2 Q (QMutex m) TASK_STATE_BLOCKED_LOCK 1 _ Hinv2);
      [apply Hen|done|apply Hen|exact Hqm|by rewrite Hc|by rewrite Hst, Hc|done|done|done|congruence|done|by rewrite Hs, Hc|].
    intros s3 Q3 L HQ3 HQe He3 Hinv3 Hlive.
    assert (forall A (f : kstate H -> A), f (erase s3) = f (set_k_lists L
      (e_task (t_set_state TASK_STATE_BLOCKED_LOCK) (k_current s2) (erase s2)))) as Hf.
    { intros A f. by rewrite He3. }
    assert (k_current s3 = k_current s1) as Hc3 by (rewrite <- Hc; exact (Hf _ k_current)).
    assert (k_saved s3 = k_saved s2) as Hs3 by exact (Hf _ k_saved).
    assert (k_lock_count s3 = 1) as Hn3 by exact (eq_trans (Hf _ k_lock_count) (en_lock _ _ Hen)).
    wp_steps. rewrite Hn3. cbn [Z.eqb Pos.eqb]. wp_step. wp_step. set (s4 := set_k_saved _ s3).
    assert (wp (schedule >>> scheduler_unlock __schedule) (fun _ s' => exists Q', stable s' Q') only_halted s4) as Hw;
      [apply (wp_schedule_unlock s4 Q3)|].
    9: { apply wp_bind in Hw. wp_step. eapply wp_mono; [exact Hw| |by right]. cbv beta. intros [] s5 Hw5. wp_step.
      eapply wp_mono; [exact Hw5| |by right]. cbv beta. intros [] s6 Hst6. by wp_steps. }
    + split; [apply (queues_same s3); [reflexivity|intros r; by destruct r|exact HQ3]|].
      change (erase s4) with (set_k_saved (<[k_current s2 := ResumeMutexLock m]> (k_saved s3)) (erase s3)).
      rewrite Hs3. exact Hinv3.
    + rewrite <- (en_lock _ _ Hen). exact (Hf _ k_lock_count).
    + rewrite <- (en_ints _ _ Hen). exact (Hf _ k_ints).
    + rewrite <- Hr1, <- Hr. exact (Hf _ k_scheduler_ready).
    + change (k_current s3 <> 0). by rewrite Hc3.
    + change (is_Some (k_tasks s3 !! k_current s3)). rewrite <- erase_is_task, Hf.
      apply e_task_is_Some, erase_is_task. by rewrite Hc3, (en_tasks _ _ Hen).
    + change (k_current s3 ∉ Q3 QReady). rewrite Hc3.
      eapply block_not_ready; [exact HQe|done|exact (Hno QReady)].
    + change (state_of s3 (k_current s3) <> Some TASK_STATE_TERMINATED). rewrite Hc3, <- Hc. exact Hlive.
Qed.

Lemma mutex_unlock_stable s Q m x :
  stable s Q -> k_mutexes s !! m = Some x -> m <> PRINT_MUTEX -> locked_task x = k_current s ->
  to_stable (mutex_unlock __schedule m) s.
Proof.
  intros [Hru Hsv] Hx Hpm Hown. unfold to_stable, mutex_unlock, mutex_swap. wp_steps.
  eapply wp_mutex; [exact Hx|]. wp_steps. eapply wp_upd_mutex; [exact Hx|]. wp_steps.
  destruct (ei_mutex _ _ _ (proj2 (ru_inv _ _ Hru)) m _ (erase_mutex s m x Hx)) as (Ho & Hh & Hu & Hq).
  cbn in Ho, Hh. pose proof (ru_current _ _ Hru) as Hc0.
  assert (lock x = 1) as Hl by (apply Ho; congruence). rewrite Hl.
  assert (forall t, ~ handed (erase s) Q m t) as Hnone.
  { intros t Ht. destruct (Hh t Ht) as [Hl0 _]. congruence. }
  wp_steps. apply wp_kassert_true; [done|]. wp_steps. set (s1 := set_k_mutexes _ s).
  assert (running s1 Q) as Hru1.
  { eapply running_set_mutex; [exact Hru|exact Hx|exact Hpm|done|].
    split_and!; cbn; try done; intros t Ht; by destruct (Hnone t). }
  assert (k_mutexes s1 !! m = Some (m_set_lock 1 x)) as Hx1 by (cbn; apply lookup_insert_eq).
  eapply wp_mutex; [exact Hx1|]. wp_steps. apply wp_kassert_true; [by apply Z.eqb_eq|]. wp_steps.
  eapply wp_upd_mutex; [exact Hx1|]. set (s2 := set_k_mutexes _ s1).
  assert (running s2 Q) as Hru2.
  { eapply running_set_mutex; [exact Hru1|exact Hx1|exact Hpm|done|].
    split_and!; cbn; try done; intros t Ht; by destruct (Hnone t). }
  assert (k_mutexes s2 !! m = Some (m_set_task 0 (m_set_lock 1 x))) as Hx2 by (cbn; apply lookup_insert_eq).
  assert (mutex_blocked x = TaskQueue (hd0 (Q (QMutex m))) (last0 (Q (QMutex m)))) as Hqx.
  { assert (queue_of (QMutex m) s = Some (mutex_blocked x)) as Hqo by (cbn; by rewrite Hx).
    by destruct (queues_rep _ _ _ _ (proj1 (ru_inv _ _ Hru)) Hqo). }
  wp_cond. cbn [mutex_blocked m_set_lock]. rewrite Hqx. cbn [first].
  destruct (Q (QMutex m)) as [|t ts] eqn:EQ; cbn [hd0].
  - cbn [Z.eqb negb]. wp_steps. eapply wp_mutex; [exact Hx2|]. wp_steps.
    eapply wp_upd_mutex; [exact Hx2|]. wp_steps. exists Q. split; [|exact Hsv].
    eapply running_set_mutex; [exact Hru2|exact Hx2|exact Hpm|done|].
    split; [done|]. split; [intros t Ht; by destruct (Hnone t)|].
    split; [intros t u Ht; by destruct (Hnone t)|].
    intros t Ht. rewrite EQ in Ht. by apply elem_of_nil in Ht.
  - pose proof (inv_task None s Q (QMutex m) t (ru_inv _ _ Hru) ltac:(rewrite EQ; by left)) as [Ht0 _].
    rewrite (proj2 (Z.eqb_neq t 0)) by done. cbn [negb]. unfold task_unblock_next. wp_step.
    apply (wp_enter s2 Q _ _ Hru2). intros s3 Hinv3 Hen.
    destruct (entered_facts s2 s3 Hen) as (Hc & Hr & Hp & Hs & _ & Hst).
    destruct (en_erase _ _ Hen) as [b Heb].
    assert (k_mutexes (erase s3) = k_mutexes (erase s2)) as Hm3 by (by rewrite Heb).
    assert (k_saved (erase s3) = k_saved (erase s2)) as Hsv3 by (by rewrite Heb).
    pose proof (running_task s2 Q Hru2) as Htk. destruct Hru2 as [_ _ Hr2 Hp2 Hc2 Hst2].
    eapply (wp_unblock_middle None s3 Q (QMutex m)); [exact Hinv3|by rewrite (en_lock _ _ Hen)|apply Hen|
      by rewrite Hr| |done| |].
    { apply erase_is_queue. cbn [queue_of]. rewrite Hm3. rewrite (erase_mutex s2 m _ Hx2). by eexists. }
    { intros m' y u us [= <-]. rewrite Hm3, (erase_mutex s2 m _ Hx2). intros [= <-] _.
      split_and!; [done|done|]. intros v [Hv1 Hv2]. apply (Hnone v). split; [|exact Hv2].
      rewrite Hsv3 in Hv1. exact Hv1. }
    intros s4 Q4 Hinv4 Hk4 _ _.
    assert (k_current s4 = k_current s) as Hc4 by (rewrite (kp_current _ _ Hk4); exact Hc).
    assert (state_of s4 (k_current s) = Some TASK_STATE_RUNNING) as Hst4.
    { apply (kp_state _ _ Hk4). rewrite Hst. exact Hst2. }
    eapply wp_mono; [apply (wp_unlock_outer s4 Q4)| |by right].
    + split; [exact Hinv4|..]; rewrite ?Hc4.
      * rewrite (kp_lock _ _ Hk4). apply Hen.
      * rewrite (kp_ints _ _ Hk4). apply Hen.
      * rewrite (kp_ready _ _ Hk4), Hr. exact Hr2.
      * done.
      * apply (kp_tasks _ _ Hk4). rewrite (en_tasks _ _ Hen). exact Htk.
      * intros Hin. rewrite <- state_of_erase in Hst4.
        destruct (ei_run _ _ _ (proj2 Hinv4) _ Hst4) as [_ Hqq]. by apply (Hqq QReady).
      * by intros _.
      * by rewrite Hst4.
    + intros [] s5 Ha. apply (after_unlock_stable s4 Q4 s5 Ha). intros _.
      rewrite Hc4, (kp_saved _ _ Hk4), Hs. exact Hsv.
Qed.

(** *** Adding, interrupting and ending tasks *)

Lemma einv_set_state la e Q t st :
  einv la e Q -> (t ∉ Q QReady) -> st <> TASK_STATE_RUNNING ->
  einv la (e_task (t_set_state st) t e) Q.
Proof.
  intros [Hrdy Hrun Hz Hls Hd Hsem Hmut Hsv Hirq] Hno Hst.
  split; [|..|exact Hls|exact Hd|exact Hsem|exact Hmut|exact Hsv|exact Hirq].
  - intros u Hu. rewrite state_of_e_task, decide_False; [by apply Hrdy|]. by intros ->.
  - intros u. rewrite state_of_e_task. case_decide as Hu; [|apply Hrun].
    intros Heq. destruct (k_tasks e !! t); [|done]. by injection Heq.
  - cbn. destruct (decide (0 = t)) as [<-|]; [by rewrite lookup_alter_eq, Hz|by rewrite lookup_alter_ne].
Qed.

Lemma einv_add_ready la e Q t :
  einv la e Q -> state_of e t = Some TASK_STATE_READY ->
  einv la e (<[QReady := Q QReady ++ [t]]> Q).
Proof.
  intros [Hrdy Hrun Hz Hls Hd Hsem Hmut Hsv Hirq] Hst.
  assert (forall r, r <> QReady -> (<[QReady := Q QReady ++ [t]]> Q) r = Q r) as HQ.
  { intros r ?. by apply fn_lookup_insert_ne. }
  split; [| |exact Hz|exact Hls|by rewrite HQ| | |exact Hsv|exact Hirq].
  - intros u. rewrite fn_lookup_insert. intros [Hu|Hu%list_elem_of_singleton]%elem_of_app; [by apply Hrdy|by subst].
  - intros u Hu. destruct (Hrun u Hu) as [Hc Hno]. split; [done|]. intros r.
    destruct (decide (r = QReady)) as [->|Hr]; [|rewrite HQ by done; apply Hno].
    rewrite fn_lookup_insert. intros [Hin|Hin%list_elem_of_singleton]%elem_of_app; [by apply (Hno QReady)|].
    rewrite Hin, Hst in Hu. done.
  - intros a x Hx. rewrite HQ by done. by apply Hsem.
  - intros m x Hx. unfold mutex_ok, handed. rewrite HQ by done. by apply Hmut.
Qed.

Lemma task_add_stable s Q t tk :
  stable s Q -> k_tasks s !! t = Some tk -> obj tk <> 0 -> t <> 0 -> t <> k_current s ->
  (forall r, t ∉ Q r) -> to_stable (task_add t) s.
Proof.
  intros Hs0 Htk Hobj Ht Htc Hno. apply (printf_then_stable _ s Q _ Hs0). clear Hs0. intros [Hru Hsv].
  change (k_tasks (ints_settled s) !! t = Some tk) in Htk. change (t <> k_current (ints_settled s)) in Htc.
  revert Htk Htc Hru Hsv. generalize (ints_settled s). clear s. intros s Htk Htc Hru Hsv. unfold to_stable. wp_steps.
  apply wp_kassert_true; [by apply negb_true_iff, Z.eqb_neq|]. wp_steps.
  eapply wp_task; [exact Htk|]. wp_steps. apply wp_kassert_true; [by apply negb_true_iff, Z.eqb_neq|].
  wp_steps. eapply wp_upd_task; [exact Htk|]. wp_steps. set (s1 := set_k_tasks _ s).
  assert (running s1 Q) as Hru1.
  { destruct Hru as [[HQ Hinv] Hn Hr Hp Hc Hst]. split; try done.
    - split; [by apply queues_upd_task|]. unfold s1.
      rewrite (erase_upd_task s t tk (t_set_state TASK_STATE_READY) Htk eq_refl).
      by apply einv_set_state.
    - unfold state_of. cbn. by rewrite lookup_insert_ne. }
  apply (wp_enter s1 Q _ _ Hru1). intros s2 Hinv2 Hen.
  destruct (entered_facts s1 s2 Hen) as (Hc & Hr & Hp & Hs & _ & Hst).
  pose proof (running_not_queued s1 Q Hru1) as Hnoc. pose proof (running_task s1 Q Hru1) as Htkc.
  destruct Hru1 as [_ _ Hr1 Hp1 Hc1 Hst1]. wp_steps.
  eapply wp_mono; [apply (wp_task_queue s2 Q QReady t (proj1 Hinv2))| |by intros p []];
    [apply Hen|by eexists|done| |done|].
  { rewrite (en_tasks _ _ Hen). cbn. rewrite lookup_insert_eq. eauto. }
  cbv beta. intros [] s3 [HQ3 He3].
  assert (forall A (f : kstate H -> A), f (erase s3) = f (erase s2)) as Hf by (intros A f; by rewrite He3).
  assert (k_current s3 = k_current s) as Hc3.
  { change (k_current s) with (k_current s1). rewrite <- Hc. exact (Hf _ k_current). }
  assert (state_of s3 (k_current s) = Some TASK_STATE_RUNNING) as Hst3.
  { rewrite <- state_of_erase, He3, state_of_erase, Hst. exact Hst1. }
  assert (inv None s3 (<[QReady := Q QReady ++ [t]]> Q)) as Hinv3.
  { split; [exact HQ3|]. rewrite He3. apply einv_add_ready; [apply Hinv2|].
    rewrite state_of_erase, Hst. unfold state_of. cbn. by rewrite lookup_insert_eq. }
  eapply wp_mono; [apply (wp_unlock_outer s3 (<[QReady := Q QReady ++ [t]]> Q))| |by right].
  - split; [exact Hinv3|..]; rewrite ?Hc3; try done.
    + rewrite <- (en_lock _ _ Hen). exact (Hf _ k_lock_count).
    + rewrite <- (en_ints _ _ Hen). exact (Hf _ k_ints).
    + rewrite <- Hr1, <- Hr. exact (Hf _ k_scheduler_ready).
    + rewrite <- erase_is_task, He3, erase_is_task, (en_tasks _ _ Hen). exact Htkc.
    + rewrite fn_lookup_insert. intros [Hin|Hin%list_elem_of_singleton]%elem_of_app; [|done].
      by apply (Hnoc QReady).
    + by rewrite Hst3.
  - intros [] s4 Ha. refine (after_unlock_stable s3 _ s4 Ha _). intros _. rewrite Hc3.
    assert (k_saved s3 = k_saved s) as -> by (change (k_saved s) with (k_saved s1); rewrite <- Hs; exact (Hf _ k_saved)).
    exact Hsv.
Qed.

Lemma interrupt_stable s Q ev :
  stable s Q -> irq_valid s ev -> to_stable (interrupt ev) s.
Proof.
  intros [Hru Hsv] Hev. unfold to_stable, interrupt, interrupts_disable. wp_steps.
  set (s1 := set_k_ints false _).
  pose proof (running_not_queued s Q Hru) as Hno.
  assert (running s1 Q) as Hru1.
  { destruct Hru as [Hinv Hn Hr Hp Hc Hst]. split; try done.
    eapply inv_frame; [..|apply (inv_set_saved s Q (<[k_current s := ResumeIret]> (k_saved s)) (k_current s) Hinv Hno)];
      try reflexivity.
    - intros u Hu. by rewrite lookup_insert_ne.
    - intros m. by rewrite lookup_insert_eq. }
  assert (forall s2, (exists Q', running s2 Q') -> wp resume (fun _ s' => exists Q', stable s' Q') call_panics s2) as Hres.
  { intros s2 (Q2 & Hru2). eapply wp_mono; [apply (wp_resume s2 Q2 Hru2)| |by intros p []].
    intros [] s3 (Hru3 & Hc3 & Hs3 & _). exists Q2. by split. }
  destruct ev as [|a]; cbn [irq_handler].
  - wp_steps. set (s2 := set_k_ticks _ s1). unfold scheduler_wakeup. wp_cond.
    change (k_scheduler_ready s2) with (k_scheduler_ready s). rewrite (ru_ready _ _ Hru). cbn [negb].
    assert (running s2 Q) as Hru2.
    { destruct Hru1. split; try done. eapply inv_frame; [..|exact ru_inv0]; reflexivity. }
    wp_step. apply (wp_enter s2 Q _ _ Hru2). intros s3 Hinv3 Hen.
    destruct (entered_facts s2 s3 Hen) as (Hc & Hr & Hp & Hs & _ & Hst).
    pose proof (running_task s2 Q Hru2) as Htk. destruct Hru2 as [_ _ Hr2 Hp2 Hc2 Hst2].
    eapply (wp_wakeup_middle __schedule s3 Q); [exact Hinv3|apply Hen|rewrite (en_lock _ _ Hen); lia|by rewrite Hr|].
    intros s4 Hinv4 Hk4 Hp4 _. set (Q4 := woken _ _) in *.
    assert (k_current s4 = k_current s2) as Hc4 by (rewrite (kp_current _ _ Hk4); exact Hc).
    assert (state_of s4 (k_current s2) = Some TASK_STATE_RUNNING) as Hst4.
    { apply (kp_state _ _ Hk4). by rewrite Hst. }
    eapply wp_mono; [apply (wp_unlock_outer s4 Q4)| |by right].
    + split; [exact Hinv4|..]; rewrite ?Hc4; try done.
      * rewrite (kp_lock _ _ Hk4). apply Hen.
      * rewrite (kp_ints _ _ Hk4). apply Hen.
      * by rewrite (kp_ready _ _ Hk4), Hr.
      * apply (kp_tasks _ _ Hk4). by rewrite (en_tasks _ _ Hen).
      * intros Hin. rewrite <- state_of_erase in Hst4.
        destruct (ei_run _ _ _ (proj2 Hinv4) _ Hst4) as [_ Hq]. by apply (Hq QReady).
      * by rewrite Hst4.
    + intros [] s5 (Q5 & Hru5 & _). apply Hres. eauto.
  - wp_steps. eapply wp_mono; [apply (semaphore_release_stable s1 Q a Hru1 Hev)| |by right].
    intros [] s2 (Q2 & Hru2 & _). apply Hres. eauto.
Qed.

(** [task_exit] in the scheduler's lock: the caller ends, and the task that
    has been ready longest runs. *)
Lemma wp_task_exit s Q :
  inv None s Q -> k_lock_count s = 1 -> k_ints s = false -> k_scheduler_ready s = true ->
  k_current s <> 0 -> state_of s (k_current s) = Some TASK_STATE_RUNNING -> k_enable_ints s = false ->
  wp task_exit (fun _ s' => exists Q', stable s' Q' /\
    match Q QReady with
    | t :: ts => k_current s' = t /\ Q' QReady = ts /\ (forall r, r <> QReady -> Q' r = Q r) /\
        state_of s' (k_current s) = Some TASK_STATE_TERMINATED
    | [] => True
    end) only_halted s.
Proof.
  intros Hinv Hn Hi Hr Hc Hst Hen. unfold task_exit, assert_panic.
  destruct (ei_run _ _ _ (proj2 Hinv) (k_current s) ltac:(by rewrite state_of_erase)) as [_ Hno].
  unfold state_of in Hst. destruct (k_tasks s !! k_current s) as [tk|] eqn:Htk; [|done]. injection Hst as Hst.
  wp_steps. eapply (wp_printf_nested __schedule s Q 1); [apply Hinv|apply einv_printable, Hinv|exact Hn|lia|exact Hi|].
  wp_steps. apply wp_kassert_true; [by rewrite Hn|]. wp_steps.
  eapply wp_task; [exact Htk|]. wp_steps. apply wp_kassert_true; [by apply Z.eqb_eq|].
  wp_steps. eapply wp_upd_task; [exact Htk|]. wp_steps.
  set (s2 := set_k_lock_count _ _).
  assert (k_lock_count s2 = 0) as Hn2 by (cbn; by rewrite Hn).
  apply wp_kassert_true; [by rewrite Hn2|]. wp_steps. set (s3 := set_k_postponed false s2).
  assert (state_of s3 (k_current s3) = Some TASK_STATE_TERMINATED) as Hst3.
  { unfold state_of. cbn. by rewrite lookup_insert_eq. }
  assert (schedulable s3 Q) as Hsc.
  { split; try done.
    - eapply (inv_frame None (set_k_tasks (<[k_current s := t_set_state TASK_STATE_TERMINATED tk]> (k_tasks s)) s));
        try reflexivity.
      split; [by apply queues_upd_task; [apply Hinv| |]|].
      rewrite (erase_upd_task s _ tk (t_set_state TASK_STATE_TERMINATED) Htk eq_refl).
      by apply einv_set_state; [apply Hinv|apply Hno|].
    - cbn. rewrite lookup_insert_eq. eauto. }
  eapply wp_mono; [apply (wp___schedule s3 Q Hsc)| |done].
  cbv beta. intros [] s4 (Q4 & Hru4 & _ & Hscd & Hend).
  apply (wp_unlock_tail true s4 Q4 _ _ Hru4). intros s5 Hru5 Hc5 _ Ht5.
  eapply wp_mono; [apply (wp_resume s5 Q4 Hru5)| |by intros p []].
  intros [] s6 (Hru6 & Hc6 & Hs6 & Ht6). exists Q4. split; [by split|].
  unfold scheduled in Hscd. destruct (Q QReady) as [|t ts]; [done|].
  destruct Hscd as (Hcu & HQ4 & HQr). rewrite decide_False, app_nil_r in HQr by (rewrite Hst3; done).
  split_and!; [by rewrite Hc6, Hc5|done|done|].
  unfold state_of. rewrite Ht6, Ht5. apply (Hend ltac:(done) Hst3).
Qed.

(** [__ktask_exit]: lock the scheduler and exit. *)
Lemma task_exit_stable s Q :
  stable s Q -> k_ints s = false -> k_enable_ints s = false -> to_stable (scheduler_lock >>> task_exit) s.
Proof.
  intros [Hru Hsv] Hi He. unfold to_stable. wp_step. apply (wp_enter s Q _ _ Hru). intros s1 Hinv1 Hen.
  destruct (entered_facts s s1 Hen) as (Hc & Hr & Hp & Hs & _ & Hst).
  destruct Hru as [_ _ Hr0 Hp0 Hc0 Hst0].
  eapply wp_mono; [apply (wp_task_exit s1 Q Hinv1 (en_lock _ _ Hen) (en_ints _ _ Hen))| |by right].
  - by rewrite Hr.
  - by rewrite Hc.
  - by rewrite Hst, Hc.
  - by rewrite (en_enable _ _ Hen), Hi, He.
  - intros [] s2 (Q2 & Hst2 & _). by exists Q2.
Qed.

(** *** Waiting for a process and ending one *)

(** [task_block] of a process that waits: it goes to the end of the queue, and
    the scheduler runs another task. *)
Lemma wp_task_block s Q r reason :
  stable s Q -> is_Some (queue_of r s) -> r <> QReady -> (forall a, r <> QSem a) -> (forall m, r <> QMutex m) ->
  reason <> TASK_STATE_RUNNING -> reason <> TASK_STATE_TERMINATED ->
  wp (task_block __schedule r reason) (fun _ s' => exists Q', stable s' Q' /\
    match Q QReady with
    | t :: ts => k_current s' = t /\ Q' r = Q r ++ [k_current s] /\ Q' QReady = ts
    | [] => True
    end) call_panics s.
Proof.
  intros [Hru Hsv] Hq Hr Hsem Hmut Hre Hre'. unfold task_block, assert_panic. wp_steps.
  apply (wp_enter s Q _ _ Hru). intros s1 Hinv1 Hen.
  destruct (entered_facts s s1 Hen) as (Hc & Hr1 & Hp & Hs & _ & Hst).
  pose proof (running_not_queued s Q Hru) as Hno. destruct (en_erase _ _ Hen) as [b Heb].
  destruct Hru as [_ _ Hr0 _ Hc0 Hst0].
  wp_steps. apply wp_kassert_true; [by rewrite (en_lock _ _ Hen)|]. wp_steps.
  eapply (wp_block_current None s1 Q r reason 1);
    [exact Hinv1|exact (en_lock _ _ Hen)|done|exact (en_ints _ _ Hen)| | | |done|done|done|done| | |].
  - apply erase_is_queue. rewrite Heb. apply erase_is_queue in Hq. by destruct r.
  - congruence.
  - by rewrite Hst, Hc.
  - intros a x ->. by destruct (Hsem a).
  - by rewrite Hs, Hc.
  - intros s2 Q2 L HQ2 HQe He2 Hinv2 Hlive.
    assert (forall A (f : kstate H -> A), f (erase s2) = f (set_k_lists L (e_task (t_set_state reason) (k_current s1) (erase s1)))) as Hf.
    { intros A f. by rewrite He2. }
    assert (k_current s2 = k_current s) as Hc2 by (rewrite <- Hc; exact (Hf _ k_current)).
    assert (state_of s2 (k_current s) <> Some TASK_STATE_RUNNING) as Hst2.
    { rewrite <- state_of_erase, He2. change (state_of (e_task (t_set_state reason) (k_current s1) (erase s1)) (k_current s) <> Some TASK_STATE_RUNNING).
      rewrite state_of_e_task, decide_True by done. destruct (k_tasks (erase s1) !! _); [|done]. cbn. congruence. }
    assert (inv None s2 Q2) as Hi2.
    { split; [exact HQ2|]. eapply einv_frame; [..|exact Hinv2]; try reflexivity.
      destruct r; try (rewrite He2; reflexivity). by destruct (Hmut mutex0). }
    wp_steps. apply wp_schedule; [exact (eq_trans (Hf _ k_ints) (en_ints _ _ Hen))| | |].
    { change (k_lock_count (erase s2) <> 0). rewrite He2. change (k_lock_count s1 <> 0). by rewrite (en_lock _ _ Hen). }
    { change (k_scheduler_ready (erase s2) = true). rewrite He2. change (k_scheduler_ready s1 = true). by rewrite Hr1. }
    set (s3 := set_k_postponed true s2).
    eapply wp_mono; [apply (wp_unlock_outer s3 Q2)| |by right].
    + split; [eapply inv_frame; [..|exact Hi2]; reflexivity|..|done|].
      * exact (eq_trans (Hf _ k_lock_count) (en_lock _ _ Hen)).
      * exact (eq_trans (Hf _ k_ints) (en_ints _ _ Hen)).
      * change (k_scheduler_ready (erase s2) = true). rewrite He2. change (k_scheduler_ready s1 = true). by rewrite Hr1.
      * change (k_current s2 <> 0). by rewrite Hc2.
      * change (is_Some (k_tasks s2 !! k_current s2)). rewrite <- erase_is_task, Hf. apply e_task_is_Some, erase_is_task.
        rewrite Hc2, (en_tasks _ _ Hen). unfold state_of in Hst0. destruct (k_tasks s !! _); [eauto|done].
      * change (k_current s2 ∉ Q2 QReady). rewrite Hc2. eapply block_not_ready; [exact HQe|done|exact (Hno QReady)].
      * change (state_of s2 (k_current s2) <> Some TASK_STATE_TERMINATED). rewrite Hc2, <- Hc. exact Hlive.
    + intros [] s4 (Q4 & Hru4 & Hscd & Hsv4). exists Q4. split; [by split|].
      unfold scheduled in Hscd. change (state_of s3 (k_current s3)) with (state_of s2 (k_current s2)) in Hscd.
      rewrite Hc2 in Hscd. rewrite HQe, fn_lookup_insert_ne in Hscd by done.
      destruct (Q QReady) as [|t ts]; [done|]. destruct Hscd as (Hcu & HQ4 & HQr).
      rewrite decide_False, app_nil_r in HQr by done. split_and!; [done| |done].
      rewrite HQ4 by done. rewrite fn_lookup_insert. by rewrite Hc.
Qed.

(** A parent that waits: for a child that has ended it goes on, otherwise it
    goes to the end of the child's queue. *)
Lemma wp_waitpid_round s Q p t :
  stable s Q -> is_Some (k_procs s !! p) -> k_tasks s !! p = Some t ->
  wp (waitpid_round p) (fun r s' => exists Q', stable s' Q' /\
    if decide (state t = TASK_STATE_TERMINATED) then r = true /\ s' = s
    else r = false /\
      match Q QReady with
      | u :: us => k_current s' = u /\ Q' (QProc p) = Q (QProc p) ++ [k_current s] /\ Q' QReady = us
      | [] => True
      end) call_panics s.
Proof.
  intros Hs Hp Ht. unfold waitpid_round. wp_steps. eapply wp_task; [exact Ht|]. wp_cond.
  destruct (Z.eqb_spec (state t) TASK_STATE_TERMINATED) as [He|He].
  - wp_steps. exists Q. by rewrite decide_True.
  - wp_step. eapply wp_mono; [by apply (wp_task_block s Q (QProc p))| |done].
    intros [] s' (Q' & Hs' & Hq). wp_steps. exists Q'. rewrite decide_False by done. done.
Qed.

(** Ending the running process: the parent that has waited longest becomes
    ready, behind the tasks that are. *)
Lemma wp_process_exit_wake s Q :
  stable s Q -> is_Some (k_procs s !! k_current s) -> k_ints s = false -> k_enable_ints s = false ->
  wp (process_exit_wake (k_current s)) (fun _ s' => exists Q', stable s' Q' /\
    match Q QReady ++ take 1 (Q (QProc (k_current s))) with
    | t :: ts => k_current s' = t /\ Q' QReady = ts /\
        Q' (QProc (k_current s)) = drop 1 (Q (QProc (k_current s))) /\
        state_of s' (k_current s) = Some TASK_STATE_TERMINATED
    | [] => True
    end) call_panics s.
Proof.
  intros [Hru Hsv] Hp Hi He. unfold process_exit_wake. apply (wp_printf_then _ s Q _ _ _ Hru).
  rewrite ints_settled_id by done. intros _. wp_steps. apply (wp_enter s Q _ _ Hru). intros s1 Hinv1 Hen.
  destruct (entered_facts s s1 Hen) as (Hc & Hr & Hpp & Hs & _ & Hst). destruct (en_erase _ _ Hen) as [b Heb].
  destruct Hru as [_ _ Hr0 Hp0 Hc0 Hst0]. set (c := k_current s) in *.
  wp_steps. eapply (wp_printf_nested __schedule s1 Q 1);
    [apply Hinv1|apply einv_printable, Hinv1|apply Hen|lia|apply Hen|].
  wp_steps. eapply wp_mono; [apply (wp_task_unblock_next_nested __schedule None s1 Q (QProc c) 1 Hinv1 (en_lock _ _ Hen))| |by intros e []].
  - lia.
  - exact (en_ints _ _ Hen).
  - by rewrite Hr.
  - apply erase_is_queue. rewrite Heb. apply (erase_is_queue s (QProc c)) in Hp. exact Hp.
  - done.
  - done.
  - cbv beta. intros [] s2 (Q2 & Hinv2 & Hk & HQ2 & _).
    assert (k_current s2 = c) as Hc2 by (rewrite (kp_current _ _ Hk); exact Hc).
    assert (state_of s2 (k_current s2) = Some TASK_STATE_RUNNING) as Hst2.
    { rewrite Hc2. apply (kp_state _ _ Hk). by rewrite Hst. }
    eapply wp_mono; [apply (wp_task_exit s2 Q2 Hinv2)| |by right].
    + rewrite (kp_lock _ _ Hk). apply Hen.
    + rewrite (kp_ints _ _ Hk). apply Hen.
    + by rewrite (kp_ready _ _ Hk), Hr.
    + by rewrite Hc2.
    + done.
    + by rewrite (kp_enable _ _ Hk), (en_enable _ _ Hen), Hi, He.
    + intros [] s3 (Q3 & Hst3 & Hq). exists Q3. split; [done|]. rewrite Hc2 in Hq. unfold unblocked in HQ2.
      assert (Q2 QReady = Q QReady ++ take 1 (Q (QProc c)) /\ Q2 (QProc c) = drop 1 (Q (QProc c))) as [HQr HQp].
      { rewrite !HQ2. destruct (Q (QProc c)) as [|t ts] eqn:EQ; [by rewrite app_nil_r|]. cbn [take drop].
        rewrite fn_lookup_insert, fn_lookup_insert_ne by done. by rewrite fn_lookup_insert, take_0, drop_0. }
      rewrite HQr in Hq. destruct (Q QReady ++ _) as [|u us]; [done|].
      destruct Hq as (Hcu & Hqr & Hqo & Hte). split_and!; try done. by rewrite Hqo, HQp by done.
Qed.
End calls.

(** ** Runs of the kernel *)

(** What a running task can ask for, and the interrupts that can arrive. *)
Inductive kcall : Type :=
  | CallYield
  | CallAcquire (sem : Z) | CallRelease (sem : Z)
  | CallMutexLock (mutex : Z) | CallMutexUnlock (mutex : Z)
  | CallSleepUntil (target : Z) | CallSleep (time : Z)
  | CallAdd (task : Z) | CallExit
  | CallWait (process : Z) | CallProcessExit
  | CallPrint
  | CallInterrupt (ev : irq_event).

Section runs.
Context {H : Type} `{KHeapLaws H}.
Implicit Types (s : kstate H) (Q : qref -> list Z).

Definition run_call (c : kcall) : M (kstate H) unit :=
  match c with
  | CallYield => yield __schedule
  | CallAcquire a => semaphore_acquire __schedule a
  | CallRelease a => semaphore_release __schedule a
  | CallMutexLock m => mutex_lock __schedule m
  | CallMutexUnlock m => mutex_unlock __schedule m
  | CallSleepUntil t => task_sleep_until __schedule t
  | CallSleep t => task_sleep_miliseconds __schedule t
  | CallAdd t => task_add t
  | CallExit => scheduler_lock >>> task_exit
  | CallWait p => waitpid_round p >>> ret tt
  | CallProcessExit => let! p := gets k_current in process_exit_wake p
  | CallPrint => printf __schedule >>> ret tt
  | CallInterrupt ev => interrupt ev
  end.

(** The objects named exist, a mutex is unlocked by its owner, a task is added
    once, [print_mutex] is only used by [printf], and a task ends with
    interrupts off and nobody asking for them. *)
Definition call_ok s (c : kcall) : Prop :=
  match c with
  | CallAcquire a | CallRelease a => is_Some (k_sems s !! a)
  | CallMutexLock m => is_Some (k_mutexes s !! m) /\ m <> PRINT_MUTEX
  | CallMutexUnlock m => m <> PRINT_MUTEX /\ exists x, k_mutexes s !! m = Some x /\ locked_task x = k_current s
  | CallAdd t => exists tk, k_tasks s !! t = Some tk /\ obj tk <> 0 /\ t <> k_current s /\
      forall Q r, queues s Q -> t ∉ Q r
  | CallWait p => is_Some (k_procs s !! p) /\ is_Some (k_tasks s !! p)
  | CallExit => k_ints s = false /\ k_enable_ints s = false
  | CallProcessExit => is_Some (k_procs s !! k_current s) /\ k_ints s = false /\ k_enable_ints s = false
  | CallInterrupt ev => irq_valid s ev
  | _ => True
  end.

Definition kernel_ok s : Prop := exists Q, stable s Q.

Inductive kernel_step s s' : Prop :=
  | kernel_step_call c : call_ok s c -> run_call c s = Ok (tt, s') -> kernel_step s s'.

Lemma run_call_stable s c :
  kernel_ok s -> call_ok s c -> wp (run_call c) (fun _ s' => kernel_ok s') call_panics s.
Proof.
  intros [Q Hst] Hc. destruct c as [|a|a|m|m|t|t|t| |p| | |ev]; cbn [run_call].
  - by eapply yield_stable.
  - by eapply semaphore_acquire_stable.
  - destruct Hst as [Hru Hsv].
    eapply wp_mono; [by apply (semaphore_release_stable s Q a)| |by right].
    intros [] s' (Q' & Hru' & Hcase). exists Q'. split; [done|].
    destruct Hcase as [?|[-> ->]]; done.
  - destruct Hc. by eapply mutex_lock_stable.
  - destruct Hc as (Hm & x & Hx & Ho). by eapply mutex_unlock_stable.
  - by eapply task_sleep_until_stable.
  - by eapply task_sleep_miliseconds_stable.
  - destruct Hc as (tk & Htk & Hobj & Hne & Hno). destruct Hst as [Hru Hsv].
    eapply (task_add_stable s Q t tk); try done.
    + intros ->. pose proof (ei_zero _ _ _ (proj2 (ru_inv _ _ Hru))) as Hz.
      cbn in Hz. rewrite lookup_fmap, Htk in Hz. done.
    + intros r. apply Hno, Hru.
  - destruct Hc. by eapply task_exit_stable.
  - destruct Hc as [Hp [t Ht]]. wp_steps. eapply wp_mono; [by apply (wp_waitpid_round s Q p t)| |done].
    intros r s' (Q' & Hs' & _). wp_steps. by exists Q'.
  - destruct Hc as (Hp & Hi & He). wp_steps. eapply wp_mono; [by apply (wp_process_exit_wake s Q)| |done].
    intros [] s' (Q' & Hs' & _). by exists Q'.
  - pose proof Hst as [[[HQ He] Hn _ Hp _ _] _]. wp_steps.
    apply (wp_printf_outer __schedule s Q _ _ HQ (einv_printable _ _ He) Hn Hp). wp_steps. exists Q.
    destruct Hst as [Hru Hsv]. split; [|done]. eapply running_frame; [exact Hru|reflexivity|].
    by apply (queues_same s); [|intros []|].
  - by eapply interrupt_stable.
Qed.
End runs.

(** ** Properties *)

(** C2. Over every run of scheduler calls, prints and interrupts in which no
    interrupt comes in the middle of a [printf] and a task ends with interrupts
    off (as in a system call) and no request for them left behind, from any
    state that satisfies the scheduler's invariant: the queues stay well-formed
    chains that share no task, exactly the current task is in state RUNNING
    and on no queue, every task on the ready queue is READY, a semaphore with
    waiters has count 0, and a mutex has at most one owner or heir; and no
    call can fail an assertion, follow a bad pointer or loop: it ends unless
    the heap is exhausted or the cpu idles with no interrupt left to wake it.
    ([printf_in_wakeup_fails] and [exit_with_interrupts_fails] show that the
    two conditions are needed.) *)
Theorem scheduler_invariant {H : Type} `{KHeapLaws H} (s s' : kstate H) :
  kernel_ok s -> rtc kernel_step s s' ->
  kernel_ok s' /\
  forall c e, call_ok s' c -> run_call c s' = Err e -> e = NoMemory \/ e = Halted.
Proof.
  intros Hok Hrun.
  assert (kernel_ok s') as Hok'.
  { eapply rtc_preserves; [|exact Hrun|exact Hok]. intros a b [c Hc Hab] Ha.
    exact (wp_run _ _ _ _ _ _ (run_call_stable a c Ha Hc) Hab). }
  split; [exact Hok'|]. intros c e Hc He.
  pose proof (wp_elim _ _ _ _ (run_call_stable s' c Hok' Hc)) as Hw. by rewrite He in Hw.
Qed.

(** C33. Scheduling is round robin: when another task is ready, [yield] runs
    the one that has been ready longest, and puts the caller at the end of
    the ready queue; when no task is ready the caller goes on. *)
Theorem yield_round_robin {H : Type} `{KHeapLaws H} (s : kstate H) (Q : qref -> list Z) :
  stable s Q ->
  wp (yield __schedule) (fun _ s' => exists Q', stable s' Q' /\
    match Q QReady with
    | t :: ts => k_current s' = t /\ Q' QReady = ts ++ [k_current s]
    | [] => k_current s' = k_current s /\ Q' QReady = []
    end) only_halted s.
Proof.
  intros [Hru Hsv]. unfold yield. wp_step. apply (wp_enter s Q _ _ Hru). intros s1 Hinv1 Hen.
  destruct (entered_facts s s1 Hen) as (Hc & Hr & Hp & Hs & _ & Hst).
  pose proof (running_not_queued s Q Hru) as Hno. pose proof (running_task s Q Hru) as Htk.
  destruct Hru as [_ _ Hr0 Hp0 Hc0 Hst0]. wp_step.
  apply wp_schedule; [apply Hen|by rewrite (en_lock _ _ Hen)|by rewrite Hr|].
  set (s2 := set_k_postponed true s1).
  eapply wp_mono; [apply (wp_unlock_outer s2 Q)| |done].
  - split; try done; try apply Hen.
    + eapply inv_frame; [..|exact Hinv1]; reflexivity.
    + change (k_scheduler_ready s1 = true). by rewrite Hr.
    + change (k_current s1 <> 0). by rewrite Hc.
    + change (is_Some (k_tasks s1 !! k_current s1)). by rewrite Hc, (en_tasks _ _ Hen).
    + change (k_current s1 ∉ Q QReady). rewrite Hc. apply Hno.
    + change (state_of s1 (k_current s1) <> Some TASK_STATE_TERMINATED). by rewrite Hst, Hc, Hst0.
  - intros [] s3 (Q3 & Hru3 & Hscd & Hsv3). exists Q3. split; [by split|].
    unfold scheduled in Hscd. change (state_of s2 (k_current s2)) with (state_of s1 (k_current s1)) in Hscd.
    change (k_current s2) with (k_current s1) in Hscd. rewrite Hst, Hc, Hst0 in Hscd.
    destruct (Q QReady) as [|t ts] eqn:EQ.
    + destruct (Hscd eq_refl) as [Hc3 HQ3]. rewrite HQ3. done.
    + destruct Hscd as (Hc3 & _ & HQ3). rewrite decide_True in HQ3 by done. done.
Qed.

(** [semaphore_release] wakes the task that has waited longest, and only
    that one, leaving the count at 0 for it; with nobody waiting it adds one
    to the count.  No wake-up is lost and none is given twice. *)
Theorem semaphore_release_fifo {H : Type} `{KHeapLaws H} (sch : M (kstate H) unit)
    (s : kstate H) (Q : qref -> list Z) (a : Z) (x : semaphore_t) :
  inv None s Q -> k_lock_count s = 1 -> k_ints s = false -> k_scheduler_ready s = true ->
  k_sems s !! a = Some x ->
  wp (semaphore_release sch a) (fun _ s' => exists Q', inv None s' Q' /\
    match Q (QSem a) with
    | t :: ts => Q' (QSem a) = ts /\ Q' QReady = Q QReady ++ [t] /\
        state_of s' t = Some TASK_STATE_READY /\ count x = 0
    | [] => Q' QReady = Q QReady /\ k_sems s' !! a = Some (s_set_count (u32 (count x + 1)) x)
    end) never s.
Proof.
  intros Hinv Hn Hi Hr Hx.
  eapply wp_mono; [apply (wp_semaphore_release_nested sch s Q a 1); try done; lia || eauto| |done].
  intros [] s' (Q' & Hinv' & Hk & HQ' & Hct). exists Q'. split; [exact Hinv'|].
  unfold unblocked in HQ'. destruct (inv_sem None s Q a x Hinv Hx) as (_ & _ & Hzero & _).
  destruct (Q (QSem a)) as [|t ts] eqn:EQ.
  - split; [apply HQ'|by apply Hct].
  - assert (Q' QReady = Q QReady ++ [t]) as HQr by (rewrite HQ'; apply fn_lookup_insert).
    split_and!.
    + rewrite HQ', fn_lookup_insert_ne by done. apply fn_lookup_insert.
    + exact HQr.
    + rewrite <- state_of_erase. apply (ei_ready _ _ _ (proj2 Hinv')). rewrite HQr. set_solver.
    + by apply Hzero.
Qed.

(** C37. The timer, when it comes while nobody is in the middle of a [printf]
    (it prints itself), wakes exactly the sleepers whose time has come, in the
    order in which they went to sleep, and keeps the others asleep in their
    order: nobody is lost from the wait queue or woken early. *)
Theorem wakeup_expired_in_order {H : Type} `{KHeapLaws H} (sch : M (kstate H) unit) (s : kstate H) (Q : qref -> list Z) :
  queues s Q -> lists_ok (k_lists s) -> printable (erase s) Q -> k_ints s = false -> 1 <= k_lock_count s < 90 ->
  wp (wakeup_loop sch (hd0 (Q QDetached))) (fun _ s' => exists Q', queues s' Q' /\
    Q' QReady = Q QReady ++ List.filter (expired s) (Q QDetached) /\
    Q' QWait = Q QWait ++ List.filter (fun t => negb (expired s t)) (Q QDetached) /\
    Q' QDetached = [] /\
    (forall t, t ∈ Q QDetached -> expired s t = true -> state_of s' t = Some TASK_STATE_READY) /\
    (forall t, t ∈ Q QDetached -> expired s t = false -> state_of s' t = state_of s t)) never s.
Proof.
  intros HQ Hls Hpr Hi Hn. eapply wp_mono; [by apply (wp_wakeup_loop sch s Q)| |done].
  intros [] s' [HQ' (L & HL & He)]. exists (woken s Q).
  assert (forall t, state_of s' t = state_of (e_wake (Q QDetached) (erase s)) t) as Hst.
  { intros t. by rewrite <- state_of_erase, He. }
  split_and!; try done; intros t Ht Hexp; rewrite Hst, state_of_e_wake by (by eapply q_nodup);
    rewrite bool_decide_eq_true_2, expired_erase, Hexp by done; [done|apply state_of_erase].
Qed.

(** C16. The end of a process, with interrupts off as in a system call and
    nobody in the middle of a [printf], wakes a parent that waits for it: the process is
    TERMINATED from then on, the parent that has waited longest is taken from
    its queue and runs after the tasks that were ready before it, and when it
    asks again [waitpid] finds the process ended at once; the others keep
    waiting in their order. *)
Theorem exit_wakes_waiter {H : Type} `{KHeapLaws H} (s : kstate H) (Q : qref -> list Z) (t : Z) (ts : list Z) :
  stable s Q -> Q (QProc (k_current s)) = t :: ts -> k_ints s = false -> k_enable_ints s = false ->
  wp (process_exit_wake (k_current s)) (fun _ s' => exists Q', stable s' Q' /\
    k_current s' :: Q' QReady = Q QReady ++ [t] /\ Q' (QProc (k_current s)) = ts /\
    wp (waitpid_round (k_current s)) (fun r s'' => r = true /\ s'' = s') never s') call_panics s.
Proof.
  intros Hs Ht Hi He. assert (is_Some (k_procs s !! k_current s)) as Hp.
  { pose proof (q_rep _ _ (proj1 (ru_inv _ _ (st_running _ _ Hs))) (QProc (k_current s))) as Hq. cbn in Hq.
    destruct (k_procs s !! k_current s); [eauto|]. destruct Hq as [_ Hq]. rewrite Hq in Ht; done. }
  eapply wp_mono; [by apply (wp_process_exit_wake s Q)| |done].
  intros [] s' (Q' & Hs' & Hq). exists Q'. split; [done|]. rewrite Ht in Hq.
  change (take 1 (t :: ts)) with [t] in Hq. change (drop 1 (t :: ts)) with ts in Hq.
  destruct (Q QReady ++ [t]) as [|u us] eqn:E; [by apply app_nil in E as [_ ?]|]. destruct Hq as (Hc & Hr & Hw & Hst). split; [congruence|]. split; [done|].
  unfold state_of in Hst. destruct (k_tasks s' !! k_current s) as [tk|] eqn:Htk; [|done]. injection Hst as Hst.
  unfold waitpid_round. wp_steps. eapply wp_task; [exact Htk|]. wp_cond. rewrite Hst. by wp_steps.
Qed.

(** ** Concrete runs *)

(** 100 runs, 200 and 300 are ready, 400 waits on the semaphore at 500, and
    the mutex at 600 and the locks of the console are free; nobody waits for process 200.  The list of blocked tasks has one node. *)
Definition sample : kstate bump :=
  KState
    {[ 100 := Task 0 TASK_STATE_RUNNING 0 1000 1;
       200 := Task 300 TASK_STATE_READY 0 2000 1;
       300 := Task 0 TASK_STATE_READY 0 3000 1;
       400 := Task 0 TASK_STATE_BLOCKED_LOCK 0 4000 1 ]}
    100 (TaskQueue 200 300) (TaskQueue 0 0) (TaskQueue 0 0)
    (LState (Bump 48 {[ 4; 32 ]}) {[ 32 := Node 0 0 400 4 ]} {[ 4 := ListT 32 32 1 ]})
    true 0 false false true 7 1000
    {[ 500 := Semaphore 0 (TaskQueue 400 400) 0; CONSOLE_WRITE_LOCK := Semaphore 0 (TaskQueue 0 0) 0 ]}
    {[ 600 := Mutex 0 0 (TaskQueue 0 0); PRINT_MUTEX := Mutex 0 0 (TaskQueue 0 0) ]}
    {[ 200 := TaskQueue 0 0 ]} ∅ [].

Definition sample_queues (r : qref) : list Z :=
  match r with
  | QReady => [200; 300]
  | QSem a => if a =? 500 then [400] else []
  | _ => []
  end.

(** The same state with the scheduler lock held and interrupts off. *)
Definition sample_locked : kstate bump := set_k_lock_count 1 (set_k_ints false sample).

Lemma sample_queues_in r t :
  t ∈ sample_queues r -> t <> 100 /\ r = if t =? 400 then QSem 500 else QReady.
Proof.
  destruct r; cbn [sample_queues]; try (intros ?%elem_of_nil; done).
  - intros [->|[->|?%elem_of_nil]%elem_of_cons]%elem_of_cons; done.
  - destruct (Z.eqb_spec sem0 500) as [->|]; [|by intros ?%elem_of_nil].
    by intros ->%list_elem_of_singleton.
Qed.

Lemma sample_queues_ok : queues sample sample_queues.
Proof.
  split.
  - intros []; cbn [queue_of sample_queues]; try (repeat split; done || lia).
    + change (k_sems sample) with ({[ 500 := Semaphore 0 (TaskQueue 400 400) 0; CONSOLE_WRITE_LOCK := Semaphore 0 (TaskQueue 0 0) 0 ]} : gmap Z semaphore_t).
      destruct (Z.eqb_spec sem0 500) as [->|Hne]; [repeat split; done || lia|].
      rewrite lookup_insert_ne by done.
      destruct (decide (sem0 = CONSOLE_WRITE_LOCK)) as [->|]; [by rewrite lookup_singleton_eq|by rewrite lookup_singleton_ne].
    + change (k_mutexes sample) with ({[ 600 := Mutex 0 0 (TaskQueue 0 0); PRINT_MUTEX := Mutex 0 0 (TaskQueue 0 0) ]} : gmap Z mutex_t).
      destruct (Z.eqb_spec mutex0 600) as [->|Hne]; [repeat split; done || lia|]. rewrite lookup_insert_ne by done.
      destruct (decide (mutex0 = PRINT_MUTEX)) as [->|]; [by rewrite lookup_singleton_eq|by rewrite lookup_singleton_ne].
    + change (k_procs sample) with ({[ 200 := TaskQueue 0 0 ]} : gmap Z task_queue_t).
      destruct (Z.eqb_spec process 200) as [->|Hne]; [repeat split; done || lia|].
      rewrite lookup_singleton_ne by done. done.
  - intros []; cbn [sample_queues]; try destruct (Z.eqb _ _);
      apply (bool_decide_eq_true_1 _); vm_compute; reflexivity.
  - intros r r' t Ht Ht'. apply sample_queues_in in Ht as [_ ->], Ht' as [_ ->]. done.
  - intros t tk Ht Hno.
    destruct (decide (t = 200)) as [->|Hne].
    + exfalso. apply (Hno QReady). left.
    + unfold sample in Ht. cbn [k_tasks] in Ht.
      apply lookup_insert_Some in Ht as [[_ <-]|[_ Ht]]; [reflexivity|].
      rewrite lookup_insert_ne in Ht by congruence.
      apply lookup_insert_Some in Ht as [[_ <-]|[_ Ht]]; [reflexivity|].
      apply lookup_singleton_Some in Ht as [_ <-]. reflexivity.
Qed.

Lemma sample_einv : einv None (erase sample) sample_queues.
Proof.
  split.
  - intros t [->|[->|?%elem_of_nil]%elem_of_cons]%elem_of_cons; [reflexivity..|done].
  - intros t Ht. assert (t = 100) as ->; [|split; [reflexivity|]].
    + rewrite state_of_erase in Ht. unfold state_of, sample in Ht. cbn [k_tasks] in Ht.
      apply fmap_Some in Ht as (tk & Ht & Hst).
      do 3 (apply lookup_insert_Some in Ht as [[<- <-]|[_ Ht]];
        [first [reflexivity|by vm_compute in Hst]|]).
      apply lookup_singleton_Some in Ht as [<- <-]. by vm_compute in Hst.
    + by intros r [? _]%sample_queues_in.
  - reflexivity.
  - split; [|exists [(32, 400)]].
    + split; [split; [done|]|..]; cbn; set_solver by lia.
    + split; [done|reflexivity|..]; cbn; repeat split; try done; try lia; repeat constructor; set_solver.
  - reflexivity.
  - intros a x. change (k_sems (erase sample)) with
      ({[ 500 := Semaphore 0 no_queue 0; CONSOLE_WRITE_LOCK := Semaphore 0 no_queue 0 ]} : gmap Z semaphore_t).
    intros [[<- <-]|[_ [<- <-]%lookup_singleton_Some]]%lookup_insert_Some; done.
  - intros m x. change (k_mutexes (erase sample)) with ({[ 600 := Mutex 0 0 no_queue; PRINT_MUTEX := Mutex 0 0 no_queue ]} : gmap Z mutex_t).
    intros Hx. assert (x = Mutex 0 0 no_queue) as ->.
    { by apply lookup_insert_Some in Hx as [[_ <-]|[_ [_ <-]%lookup_singleton_Some]]. }
    split; [done|]. split; [by intros t [? _]|].
    split; [by intros t u [? _]|]. by intros t ?%elem_of_nil.
  - done.
  - split; [constructor|]. split; [by exists (Mutex 0 0 no_queue)|]. split; [|done]. by exists (Semaphore 0 no_queue 0).
Qed.

Lemma sample_stable : stable sample sample_queues.
Proof.
  split; [split|]; try reflexivity; [|done].
  split; [exact sample_queues_ok|exact sample_einv].
Qed.

Lemma sample_locked_inv : inv None sample_locked sample_queues.
Proof. eapply inv_frame; [..|exact (ru_inv _ _ (st_running _ _ sample_stable))]; reflexivity. Qed.

(** The state after [m], when it does not stop. *)
Definition after {A} (m : M (kstate bump) A) (s : kstate bump) : kstate bump :=
  match m s with Ok (_, s') => s' | Err _ => s end.

Lemma scheduler_invariant_witness :
  kernel_ok sample /\ rtc kernel_step sample (after (yield __schedule) sample) /\
  (kernel_ok (after (yield __schedule) sample) /\
   forall c e, call_ok (after (yield __schedule) sample) c ->
     run_call c (after (yield __schedule) sample) = Err e -> e = NoMemory \/ e = Halted).
Proof.
  assert (kernel_ok sample) as Hok by (exists sample_queues; exact sample_stable).
  assert (rtc kernel_step sample (after (yield __schedule) sample)) as Hrun.
  { apply rtc_once, (kernel_step_call _ _ CallYield I). vm_compute. reflexivity. }
  split; [exact Hok|]. split; [exact Hrun|]. exact (scheduler_invariant _ _ Hok Hrun).
Defined.

Lemma yield_round_robin_witness :
  stable sample sample_queues /\
  wp (yield __schedule) (fun _ s' => exists Q', stable s' Q' /\
    k_current s' = 200 /\ Q' QReady = [300] ++ [100]) only_halted sample.
Proof. split; [exact sample_stable|]. exact (yield_round_robin sample sample_queues sample_stable). Defined.

Lemma semaphore_release_fifo_witness :
  inv None sample_locked sample_queues /\
  wp (semaphore_release __schedule 500) (fun _ s' => exists Q', inv None s' Q' /\
    Q' (QSem 500) = [] /\ Q' QReady = [200; 300] ++ [400] /\
    state_of s' 400 = Some TASK_STATE_READY /\ 0 = 0) never sample_locked.
Proof.
  split; [exact sample_locked_inv|].
  exact (semaphore_release_fifo __schedule sample_locked sample_queues 500
    (Semaphore 0 (TaskQueue 400 400) 0) sample_locked_inv eq_refl eq_refl eq_refl eq_refl).
Defined.

(** 100 waits for 200, which runs next, makes a system call and ends. *)
Definition waiting : kstate bump := after (waitpid_round 200) sample.
Definition waited : kstate bump := set_k_ints false waiting.

Lemma stable_ints {H : Type} `{KHeap H} (s : kstate H) Q i : stable s Q -> stable (set_k_ints i s) Q.
Proof.
  intros [Hru Hsv]. split; [|done]. eapply running_frame; [exact Hru|reflexivity|].
  apply (queues_same s); [done|by intros []|apply Hru].
Qed.

Example waited_run :
  (k_current waited, k_procs waited !! 200,
   k_ready (after (process_exit_wake 200) waited), k_current (after (process_exit_wake 200) waited))
  = (200, Some (TaskQueue 100 100), TaskQueue 100 100, 300).
Proof. vm_compute. reflexivity. Qed.

Lemma waited_stable : exists Q, stable waited Q /\ Q (QProc 200) = [100] /\ Q QReady = [300].
Proof.
  assert (exists r, waitpid_round 200 sample = Ok (r, waiting)) as [r Hr] by (exists false; vm_compute; reflexivity).
  destruct (wp_run _ _ _ _ _ _ (wp_waitpid_round sample sample_queues 200 (Task 300 TASK_STATE_READY 0 2000 1)
    sample_stable ltac:(by eexists) eq_refl) Hr) as (Q & Hs & Hq).
  rewrite decide_False in Hq by done. destruct Hq as (_ & _ & Hq & Hqr). exists Q.
  split; [by apply stable_ints|done].
Qed.

Lemma exit_wakes_waiter_witness :
  k_ints waited = false /\ k_enable_ints waited = false /\ exists Q, stable waited Q /\ Q (QProc 200) = [100] /\
  wp (process_exit_wake 200) (fun _ s' => exists Q', stable s' Q' /\
    k_current s' :: Q' QReady = [300] ++ [100] /\ Q' (QProc 200) = [] /\
    wp (waitpid_round 200) (fun r s'' => r = true /\ s'' = s') never s') call_panics waited.
Proof.
  destruct waited_stable as (Q & Hs & Hp & Hr). split; [reflexivity|]. split; [reflexivity|].
  exists Q. split; [exact Hs|]. split; [exact Hp|].
  rewrite <- Hr. exact (exit_wakes_waiter waited Q 100 [] Hs Hp eq_refl eq_refl).
Defined.

(** 200 and 300 were detached from the wait queue; at tick 7 only 200's time
    has come. *)
Definition sleepers : kstate bump :=
  set_k_ready (TaskQueue 0 0) (set_k_tasks
    {[ 100 := Task 0 TASK_STATE_RUNNING 0 1000 1;
       200 := Task 300 TASK_STATE_WAITING 5 2000 1;
       300 := Task 0 TASK_STATE_WAITING 9 3000 1;
       400 := Task 0 TASK_STATE_BLOCKED_LOCK 0 4000 1 ]} sample_locked).

Definition sleepers_queues (r : qref) : list Z :=
  match r with
  | QDetached => [200; 300]
  | QSem a => if a =? 500 then [400] else []
  | _ => []
  end.

Lemma sleepers_queues_in r t :
  t ∈ sleepers_queues r -> r = if t =? 400 then QSem 500 else QDetached.
Proof.
  destruct r; cbn [sleepers_queues]; try (intros ?%elem_of_nil; done).
  - intros [->|[->|?%elem_of_nil]%elem_of_cons]%elem_of_cons; done.
  - destruct (Z.eqb_spec sem0 500) as [->|]; [|by intros ?%elem_of_nil].
    by intros ->%list_elem_of_singleton.
Qed.

Lemma sleepers_queues_ok : queues sleepers sleepers_queues.
Proof.
  split.
  - intros r. pose proof (q_rep _ _ sample_queues_ok r) as Hr.
    destruct r; try (repeat split; done || lia); cbn [queue_of sleepers_queues] in *.
    change (k_sems sleepers) with (k_sems sample). destruct (Z.eqb_spec sem0 500) as [->|Hne];
      [repeat split; done || lia|]. cbn [sample_queues] in Hr.
    by rewrite (proj2 (Z.eqb_neq _ _) Hne) in Hr.
  - intros []; cbn [sleepers_queues]; try destruct (Z.eqb _ _);
      apply (bool_decide_eq_true_1 _); vm_compute; reflexivity.
  - intros r r' t Ht Ht'. apply sleepers_queues_in in Ht as ->, Ht' as ->. done.
  - intros t tk Ht Hno. destruct (decide (t = 200)) as [->|Hne].
    + exfalso. apply (Hno QDetached). left.
    + unfold sleepers in Ht. cbn [k_tasks set_k_ready set_k_tasks] in Ht.
      apply lookup_insert_Some in Ht as [[_ <-]|[_ Ht]]; [reflexivity|].
      rewrite lookup_insert_ne in Ht by congruence.
      apply lookup_insert_Some in Ht as [[_ <-]|[_ Ht]]; [reflexivity|].
      apply lookup_singleton_Some in Ht as [_ <-]. reflexivity.
Qed.

Lemma wakeup_expired_in_order_witness :
  queues sleepers sleepers_queues /\ printable (erase sleepers) sleepers_queues /\
  wp (wakeup_loop __schedule 200) (fun _ s' => exists Q', queues s' Q' /\
    Q' QReady = [] ++ [200] /\ Q' QWait = [] ++ [300] /\ Q' QDetached = [] /\
    (forall t, t ∈ [200; 300] -> expired sleepers t = true ->
       state_of s' t = Some TASK_STATE_READY) /\
    (forall t, t ∈ [200; 300] -> expired sleepers t = false ->
       state_of s' t = state_of sleepers t)) never sleepers.
Proof.
  assert (printable (erase sleepers) sleepers_queues) as Hpr.
  { split; [by exists (Mutex 0 0 no_queue)|]. split; [by exists (Semaphore 0 no_queue 0)|reflexivity]. }
  assert (1 <= k_lock_count sleepers < 90) as Hn by (cbn; lia).
  split; [exact sleepers_queues_ok|]. split; [exact Hpr|].
  exact (wakeup_expired_in_order __schedule sleepers sleepers_queues sleepers_queues_ok
    (ei_lists _ _ _ sample_einv) Hpr eq_refl Hn).
Defined.

(** *** What printing under the scheduler lock breaks *)

(** The timer comes while 100 is in the middle of a [printf] and 200's time is
    up: the [printf] of [scheduler_wakeup] fails [mutex_lock]'s assertion. *)
Definition printing_sleeper : kstate bump :=
  set_k_ready (TaskQueue 0 0) (set_k_wait (TaskQueue 200 200) (set_k_tasks
    {[ 100 := Task 0 TASK_STATE_RUNNING 0 1000 1;
       200 := Task 0 TASK_STATE_WAITING 5 2000 1;
       400 := Task 0 TASK_STATE_BLOCKED_LOCK 0 4000 1 ]} sample)).

Example printf_in_wakeup_fails :
  match (let! _ := mutex_lock_now __schedule PRINT_MUTEX in interrupt IrqTimer) printing_sleeper with
  | Ok _ => None | Err e => Some e end = Some AssertFail.
Proof. vm_compute. reflexivity. Qed.

(** A task that ends with interrupts on: the [printf] of [__schedule] switches
    them on again, and [__restore_task] stops the cpu. *)
Example exit_with_interrupts_fails :
  match (scheduler_lock >>> task_exit) sample with Ok _ => None | Err e => Some e end = Some AssertFail.
Proof. vm_compute. reflexivity. Qed.

(** *** An interleaving the locking does not cover *)

(** [mutex_lock] takes the lock word and reads the result with interrupts
    enabled.  100 owns the mutex at 600; 200 finds it taken, and is preempted
    before it takes the scheduler lock; 100 releases the mutex, sees nobody
    waiting and clears the word; 200 then queues itself on a free mutex and
    sleeps, and no owner is left to wake it. *)
Definition contended : kstate bump :=
  set_k_current 200 (set_k_ready (TaskQueue 100 100) (set_k_tasks
    {[ 100 := Task 0 TASK_STATE_READY 0 1000 1;
       200 := Task 0 TASK_STATE_RUNNING 0 2000 1;
       400 := Task 0 TASK_STATE_BLOCKED_LOCK 0 4000 1 ]}
    (set_k_mutexes {[ 600 := Mutex 1 100 (TaskQueue 0 0) ]} sample))).

(** What is left of [mutex_lock] once the word was found taken. *)
Definition mutex_lock_block (a : Z) : M (kstate bump) unit :=
  scheduler_lock >>>
  let! cur := gets k_current in
  __task_block (QMutex a) cur TASK_STATE_BLOCKED_LOCK >>>
  let! n := gets k_lock_count in
  (if n =? 1 then
     modify (fun s => set_k_saved (<[cur := ResumeMutexLock a]> (k_saved s)) s) >>>
     schedule >>>
     scheduler_unlock __schedule >>>
     ret false
   else
     schedule >>>
     scheduler_unlock __schedule >>>
     mutex_locked a >>>
     ret true) >>>
  ret tt.

Lemma mutex_lock_split a s prev s1 :
  mutex_swap a 1 s = Ok (prev, s1) -> prev <> 0 -> mutex_lock __schedule a s = mutex_lock_block a s1.
Proof.
  intros Hs Hp. unfold mutex_lock, mutex_lock_now, mutex_lock_block, bind, gets, modify, ret.
  rewrite Hs, (proj2 (Z.eqb_neq prev 0) Hp). cbn [negb]. repeat case_match; by simplify_eq.
Qed.

Definition lost_wakeup : M (kstate bump) unit :=
  let! prev := mutex_swap 600 1 in
  kassert (negb (prev =? 0)) >>>
  interrupt IrqTimer >>>
  mutex_unlock __schedule 600 >>>
  yield __schedule >>>
  mutex_lock_block 600.

Example mutex_lock_loses_a_wakeup :
  match lost_wakeup contended with
  | Ok (_, s') => (k_mutexes s' !! 600, state_of s' 200, k_current s')
  | Err _ => (None, None, 0)
  end = (Some (Mutex 0 0 (TaskQueue 200 200)), Some TASK_STATE_BLOCKED_LOCK, 100).
Proof. vm_compute. reflexivity. Qed.
