(* ===== verification/Interrupts.v ===== *)
(** * Descriptor tables and interrupt dispatch (kernel/idt.c, gdt.c, isr.c,
    irq.c, pic.c, pit.c)

    The interrupt and segment descriptor tables as arrays of packed entries,
    the tables of handlers, the bytes written to i/o ports as a trace, and the
    dispatch of exceptions and IRQs.  Function pointers are addresses; what a
    handler does is the argument [call].  [D] is the state of the rest of the
    machine, which only handlers touch. *)
From S2P Require Import Prelude.

(** [struct idt_entry], [gdt_entry_t], [gdt_pointer_t] and the fields of
    [tss_t] that are written. *)
Record idt_entry : Type := IdtEntry {
  offset_low : Z;
  selector : Z;
  zero : Z;
  type_attr : Z;
  offset_high : Z;
}.

Record gdt_entry_t : Type := GdtEntry {
  limit_low : Z;
  base_low : Z;
  base_middle : Z;
  access : Z;
  granularity : Z;
  base_high : Z;
}.

Record gdt_pointer_t : Type := GdtPointer {
  limit : Z;
  base : Z;
}.

Record tss_t : Type := Tss {
  esp0 : Z;
  ss0 : Z;
  tss_cs : Z;
  tss_data : Z;
  iopb_offset : Z;
}.

(** [irq_entry_t]. *)
Record irq_entry_t : Type := IrqEntry {
  handler : Z;
  extra : Z;
}.

(** The fields of [registers_t] the dispatch looks at. *)
Record registers_t : Type := Regs {
  isr_num : Z;
  err_code : Z;
}.

Record istate (D : Type) : Type := IState {
  i_idt : list idt_entry;
  i_idt_p : gdt_pointer_t;
  i_gdt : list gdt_entry_t;
  i_gdt_p : gdt_pointer_t;
  i_tss : tss_t;
  i_isr : list Z;
  i_irq : list (list irq_entry_t);
  i_out : list (Z * Z);
  i_dev : D;
}.
Arguments IState {D} _ _ _ _ _ _ _ _ _.
Arguments i_idt {D} _.
Arguments i_idt_p {D} _.
Arguments i_gdt {D} _.
Arguments i_gdt_p {D} _.
Arguments i_tss {D} _.
Arguments i_isr {D} _.
Arguments i_irq {D} _.
Arguments i_out {D} _.
Arguments i_dev {D} _.

Definition IRQ_IGNORED : Z := 0.
Definition IRQ_HANDLED : Z := 1.
Definition PIC1_COMMAND : Z := 0x20.
Definition PIC1_DATA : Z := 0x21.
Definition PIC2_COMMAND : Z := 0xA0.
Definition PIC2_DATA : Z := 0xA1.
Definition PIC_EOI : Z := 0x20.
Definition isr_from_irq (i : Z) : Z := u32 (i + 32).

Definition zero_gate : idt_entry := IdtEntry 0 0 0 0 0.
Definition zero_segment : gdt_entry_t := GdtEntry 0 0 0 0 0 0.

Section ops.
Context {D : Type}.
Abbreviation I := (istate D).
Implicit Types (s : I).

Definition set_idt (v : list idt_entry) (s : I) : I :=
  IState v (i_idt_p s) (i_gdt s) (i_gdt_p s) (i_tss s) (i_isr s) (i_irq s) (i_out s) (i_dev s).
Definition set_idt_p (v : gdt_pointer_t) (s : I) : I :=
  IState (i_idt s) v (i_gdt s) (i_gdt_p s) (i_tss s) (i_isr s) (i_irq s) (i_out s) (i_dev s).
Definition set_gdt (v : list gdt_entry_t) (s : I) : I :=
  IState (i_idt s) (i_idt_p s) v (i_gdt_p s) (i_tss s) (i_isr s) (i_irq s) (i_out s) (i_dev s).
Definition set_gdt_p (v : gdt_pointer_t) (s : I) : I :=
  IState (i_idt s) (i_idt_p s) (i_gdt s) v (i_tss s) (i_isr s) (i_irq s) (i_out s) (i_dev s).
Definition set_tss (v : tss_t) (s : I) : I :=
  IState (i_idt s) (i_idt_p s) (i_gdt s) (i_gdt_p s) v (i_isr s) (i_irq s) (i_out s) (i_dev s).
Definition set_isr (v : list Z) (s : I) : I :=
  IState (i_idt s) (i_idt_p s) (i_gdt s) (i_gdt_p s) (i_tss s) v (i_irq s) (i_out s) (i_dev s).
Definition set_irq (v : list (list irq_entry_t)) (s : I) : I :=
  IState (i_idt s) (i_idt_p s) (i_gdt s) (i_gdt_p s) (i_tss s) (i_isr s) v (i_out s) (i_dev s).
Definition set_out (v : list (Z * Z)) (s : I) : I :=
  IState (i_idt s) (i_idt_p s) (i_gdt s) (i_gdt_p s) (i_tss s) (i_isr s) (i_irq s) v (i_dev s).

(** *** Ports *)

Definition outb (port data : Z) : M I unit :=
  modify (fun s => set_out (i_out s ++ [(port, u8 data)]) s).
Definition iowait : M I unit := outb 0x80 0.

Definition pic_init : M I unit :=
  outb PIC1_COMMAND 0x11 >>> iowait >>> outb PIC2_COMMAND 0x11 >>> iowait >>>
  outb PIC1_DATA 0x20 >>> iowait >>> outb PIC2_DATA 0x28 >>> iowait >>>
  outb PIC1_DATA 0x04 >>> iowait >>> outb PIC2_DATA 0x02 >>> iowait >>>
  outb PIC1_DATA 0x01 >>> iowait >>> outb PIC2_DATA 0x01 >>> iowait.

Definition pic_send_eoi (irq : Z) : M I unit :=
  (if 8 <=? irq then outb PIC2_COMMAND PIC_EOI else ret tt) >>>
  outb PIC1_COMMAND PIC_EOI.

Definition PIT_CLOCKRATE : Z := 1193182.

Definition timer_phase (frequency : Z) : M I unit :=
  if frequency =? 0 then fail Fault
  else
    let divisor := PIT_CLOCKRATE / frequency in
    outb 0x43 0x36 >>>
    outb 0x40 (Z.land divisor 0xFF) >>>
    outb 0x40 (Z.shiftr divisor 8).

(** *** Descriptor tables *)

Definition idt_set_gate (i isr sel flags : Z) : M I unit :=
  let! t := gets i_idt in
  let! _ := some (zlookup t (u8 i)) in
  modify (set_idt (zinsert (u8 i)
    (IdtEntry (Z.land isr 0xFFFF) sel 0 flags (Z.land (Z.shiftr isr 16) 0xFFFF)) t)).

(** [lidt]: the table the cpu uses is the one [idt_p] describes. *)
Definition idt_install (idt_addr : Z) : M I unit :=
  modify (set_idt_p (GdtPointer (256 * 8 - 1) idt_addr)) >>>
  modify (set_idt (replicate 256 zero_gate)).

Definition gdt_set_gate (i base limit access gran : Z) : M I unit :=
  let! t := gets i_gdt in
  let! _ := some (zlookup t (u8 i)) in
  modify (set_gdt (zinsert (u8 i)
    (GdtEntry (Z.land limit 0xFFFF) (Z.land base 0xFFFF) (Z.land (Z.shiftr base 16) 0xFF)
       access (Z.lor (Z.land (Z.shiftr limit 16) 0x0F) (Z.land gran 0xF0))
       (Z.land (Z.shiftr base 24) 0xFF)) t)).

Definition gdt_init (gdt_addr tss_addr : Z) : M I unit :=
  modify (set_tss (Tss 0 0x10 0x0b 0x13 100)) >>>
  gdt_set_gate 0 0 0x00000000 0x01 0x00 >>>
  gdt_set_gate 1 0 0xFFFFFFFF 0x9b 0xC0 >>>
  gdt_set_gate 2 0 0xFFFFFFFF 0x93 0xC0 >>>
  gdt_set_gate 3 0 0xFFFFFFFF 0xF9 0xC0 >>>
  gdt_set_gate 4 0 0xFFFFFFFF 0xF3 0xC0 >>>
  gdt_set_gate 5 tss_addr 100 0x89 0x40 >>>
  modify (set_gdt_p (GdtPointer (6 * 8 - 1) gdt_addr)).

Definition tss_set_kstack (stack : Z) : M I unit :=
  modify (fun s => set_tss (Tss stack (ss0 (i_tss s)) (tss_cs (i_tss s)) (tss_data (i_tss s))
    (iopb_offset (i_tss s))) s).

(** *** Exceptions *)

Definition isr_set_handler (i h : Z) : M I unit :=
  let! t := gets i_isr in
  let! old := some (zlookup t (u8 i)) in
  kassert (old =? 0) >>>
  modify (set_isr (zinsert (u8 i) h t)).

(** [stub i] is the address of the entry stub [_isr<i>]. *)
Definition isr_init (stub : Z -> Z) : M I unit :=
  for_up 32 0 (fun i => idt_set_gate i (stub i) 0x08 0x8E) >>>
  for_up 16 32 (fun i => idt_set_gate i (stub i) 0x08 0x8E) >>>
  idt_set_gate 0x80 (stub 0x80) 0x08 0xEE.

Section dispatch.
(** Calls of handlers by address. *)
Variable call_isr : Z -> registers_t -> M I unit.
Variable call : Z -> Z -> Z -> M I Z.

Definition handle_isr (regs : registers_t) : M I unit :=
  let! t := gets i_isr in
  let! h := some (zlookup t (isr_num regs)) in
  if negb (h =? 0) then call_isr h regs
  else if isr_num regs <? 32 then fail Halted
  else fail AssertFail.

(** *** IRQs *)

(** Takes slot [i] of a line if it is free. *)
Definition irq_slot (irq h extra i : Z) : M I (option unit) :=
  let! t := gets i_irq in
  let! row := some (zlookup t irq) in
  let! e := some (zlookup row i) in
  if handler e =? 0 then
    modify (set_irq (zinsert irq (zinsert i (IrqEntry h extra) row) t)) >>>
    ret (Some tt)
  else ret None.

Definition irq_set_handler (irq h extra : Z) : M I unit :=
  kassert (negb (h =? 0)) >>>
  let! r := for_ret 8 0 (irq_slot irq h extra) in
  match r with Some _ => ret tt | None => fail AssertFail end.

Definition irq_ack (irq : Z) : M I unit := pic_send_eoi irq.

(** One round of the loop over the handlers of a line; it answers [true]
    when a handler took the interrupt. *)
Definition irq_round (irq i : Z) : M I (Z + bool) :=
  if 8 <=? i then ret (inr false)
  else
    let! t := gets i_irq in
    let! row := some (zlookup t irq) in
    let! e := some (zlookup row i) in
    if negb (handler e =? 0) then
      let! status := call (handler e) irq (extra e) in
      if negb (status =? IRQ_IGNORED) then ret (inr true) else ret (inl (i + 1))
    else ret (inr false).

Definition irq_loop (irq : Z) : M I bool := loop 9 (irq_round irq) 0.

Definition irq_handler (regs : registers_t) : M I unit :=
  kassert ((isr_from_irq 0 <=? isr_num regs) && (isr_num regs <=? isr_from_irq 16)) >>>
  let irq := err_code regs in
  let! handled := irq_loop irq in
  if handled : bool then ret tt
  else if irq =? 7 then ret tt
  else if irq =? 15 then ret tt
  else fail Halted.

(** [irq_handler_addr] is the address of [irq_handler]. *)
Definition irq_init (irq_handler_addr : Z) : M I unit :=
  for_up 16 0 (fun i => isr_set_handler (isr_from_irq i) irq_handler_addr).
End dispatch.

Definition pit_init (irq0_handler frequency : Z) : M I unit :=
  irq_set_handler 0 irq0_handler 0 >>>
  timer_phase frequency.
End ops.

(** ** The gates [isr_init] installs *)

(** The handler address the cpu reads out of a gate. *)
Definition gate_offset (e : idt_entry) : Z :=
  Z.lor (offset_low e) (Z.shiftl (offset_high e) 16).

Lemma split_16 z :
  is_u32 z -> Z.lor (Z.land z 0xFFFF) (Z.shiftl (Z.land (Z.shiftr z 16) 0xFFFF) 16) = z.
Proof.
  intros Hz. change 0xFFFF with (Z.ones 16).
  rewrite !land_ones_mod, Z.shiftr_div_pow2, lor_shiftl_add by (try apply Z.mod_pos_bound; lia).
  assert (0 <= z `div` 2 ^ 16 < 2 ^ 16).
  { split; [apply Z.div_pos; unfold is_u32 in Hz; lia|].
    apply Z.div_lt_upper_bound; [lia|]. unfold is_u32 in Hz. lia. }
  rewrite (Z.mod_small (z `div` _)) by done. pose proof (Z.div_mod z (2 ^ 16)). lia.
Qed.

Section gates.
Context {D : Type}.
Implicit Types (s : istate D) (stub : Z -> Z).

(** The gate [isr_init] puts at vector [i], if it reaches it. *)
Definition stub_gate stub (i : Z) : idt_entry :=
  IdtEntry (Z.land (stub i) 0xFFFF) 0x08 0 (if i =? 0x80 then 0xEE else 0x8E)
    (Z.land (Z.shiftr (stub i) 16) 0xFFFF).

(** Vectors below [n] have their gates, the others are untouched. *)
Definition gates_upto stub (t : list idt_entry) (p : gdt_pointer_t) (n : Z) s : Prop :=
  zlen (i_idt s) = 256 /\ i_idt_p s = p /\
  forall i, 0 <= i < 256 ->
    zlookup (i_idt s) i = if i <? n then Some (stub_gate stub i) else zlookup t i.

Lemma wp_idt_set_gate i isr sel flags s (Q : unit -> istate D -> Prop) E :
  0 <= i < 256 -> zlen (i_idt s) = 256 ->
  Q tt (set_idt (zinsert i (IdtEntry (Z.land isr 0xFFFF) sel 0 flags
    (Z.land (Z.shiftr isr 16) 0xFFFF)) (i_idt s)) s) ->
  wp (idt_set_gate i isr sel flags) Q E s.
Proof.
  intros Hi Hl HQ. unfold idt_set_gate. rewrite (Z.mod_small i (2 ^ 8) Hi : u8 i = i).
  wp_cond. destruct (proj2 (zlookup_lt_is_Some (i_idt s) i)) as [x Hx]; [lia|].
  rewrite Hx. wp_steps. done.
Qed.

Lemma wp_set_gates stub t p n k s :
  0 <= n -> n + Z.of_nat k <= 0x80 -> gates_upto stub t p n s ->
  wp (for_up k n (fun i => idt_set_gate i (stub i) 0x08 0x8E))
    (fun _ s' => gates_upto stub t p (n + Z.of_nat k) s') never s.
Proof.
  intros Hn Hk Hs. apply (wp_for_up (gates_upto stub t p)); [done|].
  intros j s' Hj (Hl & Hp & Hg). apply wp_idt_set_gate; [lia|done|].
  split; [cbn; by rewrite zlen_insert|]. split; [done|]. cbn [i_idt set_idt].
  intros i Hi. destruct (Z.eq_dec i j) as [->|Hne].
  - rewrite zlookup_insert by lia. rewrite (proj2 (Z.ltb_lt j (j + 1))) by lia.
    unfold stub_gate. by rewrite (proj2 (Z.eqb_neq j 0x80)) by lia.
  - rewrite zlookup_insert_ne by done. rewrite Hg by done.
    destruct (Z.ltb_spec i j), (Z.ltb_spec i (j + 1)); done || lia.
Qed.
End gates.

(** ** Dispatch of IRQs *)

Section irqs.
Context {D : Type}.
Implicit Types (s : istate D) (hs : list irq_entry_t).

Definition no_handler : irq_entry_t := IrqEntry 0 0.

(** The handlers [hs] of one line, in the order they were registered. *)
Definition row_of hs : list irq_entry_t := hs ++ replicate (8 - length hs) no_handler.

Definition registered s (irq : Z) hs : Prop :=
  zlookup (i_irq s) irq = Some (row_of hs) /\ (length hs <= 8)%nat /\
  Forall (fun h => handler h <> 0) hs.

Fixpoint register (irq : Z) hs : M (istate D) unit :=
  match hs with
  | [] => ret tt
  | h :: hs' => irq_set_handler irq (handler h) (extra h) >>> register irq hs'
  end.

Section calls.
Variable call : Z -> Z -> Z -> M (istate D) Z.

(** What dispatching an IRQ means: ask the handlers in order until one takes
    it. *)
Fixpoint dispatch (irq : Z) hs : M (istate D) bool :=
  match hs with
  | [] => ret false
  | h :: hs' =>
      let! status := call (handler h) irq (extra h) in
      if status =? IRQ_IGNORED then dispatch irq hs' else ret true
  end.

Definition service (irq : Z) hs : M (istate D) unit :=
  let! handled := dispatch irq hs in
  if handled || (irq =? 7) || (irq =? 15) then ret tt else fail Halted.
End calls.

Lemma row_lookup hs i :
  0 <= i < 8 -> (length hs <= 8)%nat ->
  zlookup (row_of hs) i = Some (default no_handler (hs !! Z.to_nat i)).
Proof.
  intros Hi Hl. unfold zlookup, row_of. rewrite (proj2 (Z.ltb_ge i 0)) by lia.
  destruct (hs !! Z.to_nat i) as [h|] eqn:E; cbn.
  - by apply lookup_app_l_Some.
  - apply lookup_ge_None in E. rewrite lookup_app_r by done. apply lookup_replicate. split; [done|lia].
Qed.

Lemma row_insert hs h :
  (length hs < 8)%nat -> zinsert (zlen hs) h (row_of hs) = row_of (hs ++ [h]).
Proof.
  intros Hl. unfold row_of. rewrite length_app. cbn [length].
  replace (8 - length hs)%nat with (S (8 - (length hs + 1)))%nat by lia.
  cbn [replicate]. rewrite zinsert_app_mid. by rewrite <- app_assoc.
Qed.

Lemma irq_loop_dispatch (call : Z -> Z -> Z -> M (istate D) Z) irq hs :
  (forall h x s st s', call h irq x s = Ok (st, s') -> i_irq s' = i_irq s) ->
  forall s, registered s irq hs -> irq_loop call irq s = dispatch call irq hs s.
Proof.
  intros Hcall. unfold irq_loop.
  enough (forall n i s, (n = 9 - i)%nat -> (i <= length hs)%nat -> registered s irq hs ->
    loop n (irq_round call irq) (Z.of_nat i) s = dispatch call irq (drop i hs) s) as Hgen.
  { intros s Hs. apply (Hgen 9%nat 0%nat); [done|lia|done]. }
  intros n. induction n as [|n IH]; intros i s Hn Hi (Hrow & Hl & Hnz); [lia|].
  rewrite loop_S. unfold irq_round at 1. destruct (Z.leb_spec 8 (Z.of_nat i)) as [H8|H8].
  { by rewrite drop_ge by lia. }
  unfold bind at 1, gets. rewrite !run_bind. cbn [gets]. rewrite Hrow. cbn [some ret].
  rewrite run_bind, row_lookup, Nat2Z.id by lia. cbn [some ret].
  destruct (hs !! i) as [h|] eqn:Eh; cbn [default id].
  - rewrite (drop_S _ _ _ Eh). cbn [dispatch].
    assert (handler h <> 0) as Hh by exact (Forall_lookup_1 _ _ _ _ Hnz Eh).
    rewrite (proj2 (Z.eqb_neq _ 0) Hh). cbn [negb]. rewrite !run_bind.
    destruct (call (handler h) irq (extra h) s) as [[st s']|e] eqn:Ec; [|done].
    destruct (Z.eqb_spec st IRQ_IGNORED) as [->|Hst]; [|done]. cbn [negb ret].
    replace (Z.of_nat i + 1) with (Z.of_nat (S i)) by lia.
    apply IH; [lia| |].
    + apply lookup_lt_Some in Eh. lia.
    + split; [|done]. by rewrite (Hcall _ _ _ _ _ Ec).
  - rewrite drop_ge by (by apply lookup_ge_None_1). done.
Qed.

(** The first free slot of the row is the one behind the handlers. *)
Lemma irq_set_handler_row irq h x s hs :
  h <> 0 -> registered s irq hs -> (length hs < 8)%nat ->
  irq_set_handler irq h x s =
  Ok (tt, set_irq (zinsert irq (row_of (hs ++ [IrqEntry h x])) (i_irq s)) s).
Proof.
  intros Hh (Hrow & Hl & Hnz) Hlt. unfold irq_set_handler.
  rewrite run_bind. rewrite (proj2 (Z.eqb_neq h 0) Hh). cbn [negb kassert ret].
  enough (forall n i, (n = 8 - i)%nat -> (i <= length hs)%nat ->
    for_ret n (Z.of_nat i) (irq_slot irq h x) s =
    Ok (Some tt, set_irq (zinsert irq (row_of (hs ++ [IrqEntry h x])) (i_irq s)) s)) as Hgen.
  { rewrite run_bind. change 0 with (Z.of_nat 0). rewrite (Hgen 8%nat 0%nat) by lia. done. }
  intros n. induction n as [|n IH]; intros i Hn Hi; [lia|].
  rewrite for_ret_S, run_bind. unfold irq_slot at 1. rewrite !run_bind. cbn [gets].
  rewrite Hrow, run_bind. cbn [some ret].
  rewrite row_lookup, Nat2Z.id, run_bind by lia. cbn [some ret].
  destruct (hs !! i) as [e|] eqn:Ee; cbn [default id].
  - assert (handler e <> 0) as He by exact (Forall_lookup_1 _ _ _ _ Hnz Ee).
    rewrite (proj2 (Z.eqb_neq _ 0) He). cbn [ret].
    replace (Z.of_nat i + 1) with (Z.of_nat (S i)) by lia.
    apply IH; [lia|]. apply lookup_lt_Some in Ee. lia.
  - apply lookup_ge_None_1 in Ee. change (handler no_handler =? 0) with true. cbn iota.
    rewrite run_bind. cbn [modify ret]. replace (Z.of_nat i) with (zlen hs) by (unfold zlen; lia).
    by rewrite row_insert.
Qed.

(** A ninth handler finds no free slot. *)
Lemma irq_set_handler_full irq h x s hs :
  h <> 0 -> registered s irq hs -> length hs = 8%nat ->
  irq_set_handler irq h x s = Err AssertFail.
Proof.
  intros Hh (Hrow & Hl & Hnz) Heq. unfold irq_set_handler.
  rewrite run_bind. rewrite (proj2 (Z.eqb_neq h 0) Hh). cbn [negb kassert ret].
  enough (forall n i, (n = 8 - i)%nat -> (i <= 8)%nat ->
    for_ret n (Z.of_nat i) (irq_slot irq h x) s = Ok (None, s)) as Hgen.
  { rewrite run_bind. change 0 with (Z.of_nat 0). rewrite (Hgen 8%nat 0%nat) by lia. done. }
  intros n. induction n as [|n IH]; intros i Hn Hi; [done|].
  rewrite for_ret_S, run_bind. unfold irq_slot at 1. rewrite !run_bind. cbn [gets].
  rewrite Hrow, run_bind. cbn [some ret].
  rewrite row_lookup, Nat2Z.id, run_bind by lia. cbn [some ret].
  destruct (hs !! i) as [e|] eqn:Ee; [|apply lookup_ge_None_1 in Ee; lia]. cbn [default id].
  assert (handler e <> 0) as He by exact (Forall_lookup_1 _ _ _ _ Hnz Ee).
  rewrite (proj2 (Z.eqb_neq _ 0) He). cbn [ret].
  replace (Z.of_nat i + 1) with (Z.of_nat (S i)) by lia. apply IH; lia.
Qed.

Lemma registered_snoc s irq hs h x :
  h <> 0 -> registered s irq hs -> (length hs < 8)%nat ->
  registered (set_irq (zinsert irq (row_of (hs ++ [IrqEntry h x])) (i_irq s)) s) irq
    (hs ++ [IrqEntry h x]).
Proof.
  intros Hh (Hrow & Hl & Hnz) Hlt. split; [|split].
  - cbn. apply zlookup_insert. by apply (zlookup_Some_range _ _ (row_of hs)).
  - rewrite length_app. cbn. lia.
  - apply Forall_app. split; [done|]. by constructor.
Qed.

Lemma zinsert_twice {A} (i : Z) (x y : A) l : zinsert i x (zinsert i y l) = zinsert i x l.
Proof. unfold zinsert. destruct (i <? 0); [done|]. apply list_insert_insert_eq. Qed.

(** Registering [hs] after [pre]. *)
Lemma register_row irq hs : forall pre s,
  registered s irq pre -> Forall (fun h => handler h <> 0) hs ->
  register irq hs s =
  if decide (length pre + length hs <= 8)%nat
  then Ok (tt, match hs with [] => s
    | _ => set_irq (zinsert irq (row_of (pre ++ hs)) (i_irq s)) s end)
  else Err AssertFail.
Proof.
  induction hs as [|h hs IH]; intros pre s Hs HF; cbn [register].
  { rewrite decide_True by (destruct Hs as (_ & ? & _); cbn; lia). done. }
  apply Forall_cons in HF as [Hh HF]. rewrite run_bind. cbn [length].
  destruct (decide (length pre = 8)%nat) as [H8|H8].
  { rewrite (irq_set_handler_full _ _ _ _ pre) by done. by rewrite decide_False by lia. }
  assert (length pre < 8)%nat as Hlt by (destruct Hs as (_ & ? & _); lia).
  rewrite (irq_set_handler_row _ _ _ _ pre) by done.
  rewrite (IH (pre ++ [IrqEntry (handler h) (extra h)])) by (done || by apply registered_snoc).
  rewrite length_app. cbn [length]. destruct h as [a x]. cbn [handler extra] in *.
  destruct (decide (length pre + 1 + length hs <= 8)%nat) as [Hle|Hgt];
    [rewrite decide_True by lia|by rewrite decide_False by lia].
  f_equal. f_equal. destruct hs as [|h2 hs2]; [done|].
  unfold set_irq at 1. cbn. rewrite zinsert_twice, <- app_assoc. done.
Qed.
End irqs.

(** ** Properties *)

(** After [idt_install] and [isr_init] the cpu finds the right stub behind
    every vector: vectors 0 to 47 lead to their stubs through gates only the
    kernel can raise, vector 0x80 to the system call stub through a gate user
    code may raise, and every other vector is not present. *)
Theorem isr_init_gates {D : Type} (s : istate D) (addr : Z) (stub : Z -> Z) :
  (forall i, is_u32 (stub i)) ->
  wp (idt_install addr >>> isr_init stub) (fun _ s' =>
    base (i_idt_p s') = addr /\ limit (i_idt_p s') + 1 = 8 * zlen (i_idt s') /\
    forall i, 0 <= i < 256 -> exists e, zlookup (i_idt s') i = Some e /\
      if (i <? 48) || (i =? 0x80)
      then gate_offset e = stub i /\ selector e = 0x08 /\
           type_attr e = (if i =? 0x80 then 0xEE else 0x8E)
      else e = zero_gate) never s.
Proof.
  intros Hstub. unfold idt_install, isr_init. wp_steps.
  set (s1 := set_idt _ _). set (t := replicate 256 zero_gate : list idt_entry).
  set (p := GdtPointer (256 * 8 - 1) addr).
  eapply wp_mono; [apply (wp_set_gates stub t p 0 32 s1); try done|cbv beta|by intros e []].
  { split; [done|]. split; [done|]. intros i Hi. by rewrite (proj2 (Z.ltb_ge i 0)) by lia. }
  intros [] s2 H2. wp_steps.
  eapply wp_mono; [apply (wp_set_gates stub t p 32 16 s2); try done|cbv beta|by intros e []].
  intros [] s3 (Hl3 & Hp3 & H3). apply wp_idt_set_gate; [done|done|].
  cbn [i_idt i_idt_p set_idt]. rewrite Hp3, zlen_insert, Hl3. do 2 (split; [done|]).
  intros i Hi. exists (if (i <? 48) || (i =? 0x80) then stub_gate stub i else zero_gate).
  destruct (Z.eqb_spec i 0x80) as [->|Hne].
  - rewrite zlookup_insert by lia. split; [done|]. cbn. split; [by apply split_16|done].
  - rewrite zlookup_insert_ne, H3, orb_false_r by done. change (32 + Z.of_nat 16) with 48.
    destruct (Z.ltb_spec i 48).
    + split; [done|]. unfold stub_gate, gate_offset. cbn. rewrite (proj2 (Z.eqb_neq i 0x80)) by done.
      split; [by apply split_16|done].
    + split; [|done]. unfold t, zlookup. rewrite (proj2 (Z.ltb_ge i 0)) by lia.
      apply lookup_replicate. split; [done|lia].
Qed.

(** C28. IRQ handlers form a chain per line: registering a sequence of handlers
    on a free line succeeds exactly when there are at most eight, and an
    interrupt of the line then asks them in the order of registration, stops
    at the first one that does not ignore it, and halts the kernel when nobody
    took it, lines 7 and 15 (where the PIC reports spurious interrupts)
    excepted. *)
Theorem irq_dispatch_in_order {D : Type} (call : Z -> Z -> Z -> M (istate D) Z)
    (s : istate D) (irq : Z) (hs : list irq_entry_t) :
  0 <= irq < 16 ->
  (forall h x s st s', call h irq x s = Ok (st, s') -> i_irq s' = i_irq s) ->
  zlookup (i_irq s) irq = Some (row_of []) -> Forall (fun h => handler h <> 0) hs ->
  (register irq hs >>> irq_handler call (Regs (isr_from_irq irq) irq)) s =
  if decide (length hs <= 8)%nat
  then service call irq hs (if decide (hs = []) then s
    else set_irq (zinsert irq (row_of hs) (i_irq s)) s)
  else Err AssertFail.
Proof.
  intros Hirq Hcall Hrow HF. rewrite run_bind.
  assert (registered s irq []) as Hs by (split; [done|split; [cbn; lia|constructor]]).
  rewrite (register_row irq hs [] s Hs HF). cbn [length Nat.add app].
  destruct (decide _) as [Hle|]; [|done]. set (s1 := match hs with [] => s | _ => _ end).
  assert (registered s1 irq hs) as Hs1.
  { destruct hs as [|h hs']; [exact Hs|]. split; [|done].
    apply zlookup_insert. by apply (zlookup_Some_range _ _ (row_of [])). }
  replace (if decide (hs = []) then _ else _) with s1 by (by destruct hs).
  unfold irq_handler, service. cbn [isr_num err_code].
  assert (isr_from_irq irq = irq + 32) as -> by (apply u32_small; unfold is_u32; lia).
  rewrite run_bind.
  replace (_ && _) with true by (symmetry; apply andb_true_iff; change (isr_from_irq 0) with 32;
    change (isr_from_irq 16) with 48; lia).
  cbn [kassert ret]. rewrite !run_bind, (irq_loop_dispatch call irq hs Hcall s1 Hs1).
  destruct (dispatch call irq hs s1) as [[[] s2]|e]; [done| |done].
  cbn [orb]. by destruct (irq =? 7), (irq =? 15).
Qed.

(** Two devices on one line: the first ignores, the second takes it. *)
Definition shared_line : istate (list Z) :=
  IState [] (GdtPointer 0 0) [] (GdtPointer 0 0) (Tss 0 0 0 0 0) []
    (replicate 16 (row_of [])) [] [].
Definition two_devices : list irq_entry_t := [IrqEntry 100 1; IrqEntry 200 2].

(** A handler records its argument; the one at 100 ignores the interrupt. *)
Definition device (h irq x : Z) : M (istate (list Z)) Z :=
  modify (fun s => IState (i_idt s) (i_idt_p s) (i_gdt s) (i_gdt_p s) (i_tss s) (i_isr s) (i_irq s)
    (i_out s) (i_dev s ++ [x])) >>>
  ret (if h =? 100 then IRQ_IGNORED else IRQ_HANDLED).

Lemma irq_dispatch_in_order_witness :
  (register 11 two_devices >>> irq_handler device (Regs (isr_from_irq 11) 11)) shared_line =
  service device 11 two_devices
    (set_irq (zinsert 11 (row_of two_devices) (i_irq shared_line)) shared_line) /\
  match service device 11 two_devices shared_line with
  | Ok (_, s) => i_dev s = [1; 2] | Err _ => False end.
Proof.
  split; [|vm_compute; reflexivity].
  apply (irq_dispatch_in_order device shared_line 11 two_devices); [lia| |reflexivity|].
  - intros h x s st s' Hs. unfold device in Hs. cbn in Hs. by injection Hs as <- <-.
  - by repeat constructor.
Defined.

Lemma isr_init_gates_witness :
  wp (idt_install 0x1000 >>> isr_init (fun i => 0xC0100000 + 16 * (i mod 256)))
    (fun _ s' => base (i_idt_p s') = 0x1000 /\ limit (i_idt_p s') + 1 = 8 * zlen (i_idt s') /\
    forall i, 0 <= i < 256 -> exists e, zlookup (i_idt s') i = Some e /\
      if (i <? 48) || (i =? 0x80)
      then gate_offset e = 0xC0100000 + 16 * (i mod 256) /\ selector e = 0x08 /\
           type_attr e = (if i =? 0x80 then 0xEE else 0x8E)
      else e = zero_gate) never shared_line.
Proof.
  apply (isr_init_gates shared_line 0x1000 (fun i => 0xC0100000 + 16 * (i mod 256))).
  intros i. pose proof (Z.mod_pos_bound i 256). unfold is_u32. lia.
Defined.
