(* ===== verification/Input.v ===== *)
(** * Ring buffers, keyboard and serial input (kernel/ringbuffer.c, keyboard.c,
    serial.c)

    A ring buffer filled by an interrupt handler and drained by tasks that
    wait on its semaphore.  The semaphore is the one of kernel/task.c as its
    users see it (file Task): a release gives the longest waiter its turn or
    adds one to the count, so a reader's [semaphore_acquire] and the read that
    follows are separate steps between which anything may happen. *)
From S2P Require Import Prelude.

(** [ringbuffer_t]; [granted] counts the readers whose [semaphore_acquire]
    has returned and who have not read yet, [waiting] those asleep in it. *)
Record ringbuffer_t : Type := Ring {
  buffer : list Z;
  size : Z;
  write_head : Z;
  read_head : Z;
  count : Z;
  waiting : nat;
  granted : nat;
}.

Definition set_write_head (v : Z) (r : ringbuffer_t) : ringbuffer_t :=
  Ring (buffer r) (size r) v (read_head r) (count r) (waiting r) (granted r).
Definition set_read_head (v : Z) (r : ringbuffer_t) : ringbuffer_t :=
  Ring (buffer r) (size r) (write_head r) v (count r) (waiting r) (granted r).
Definition set_buffer (v : list Z) (r : ringbuffer_t) : ringbuffer_t :=
  Ring v (size r) (write_head r) (read_head r) (count r) (waiting r) (granted r).
Definition set_sem (c : Z) (w g : nat) (r : ringbuffer_t) : ringbuffer_t :=
  Ring (buffer r) (size r) (write_head r) (read_head r) c w g.

(** ** The code *)

Definition ringbuffer_unread (r : ringbuffer_t) : Z :=
  if write_head r <? read_head r
  then u32 (u32 (size r - read_head r) + write_head r)
  else u32 (write_head r - read_head r).

Definition ringbuffer_init (buf : list Z) (sz : Z) (r : ringbuffer_t) : ringbuffer_t :=
  Ring buf sz 0 0 0 (waiting r) (granted r).

Definition semaphore_acquire : M ringbuffer_t unit :=
  modify (fun r => if 0 <? count r then set_sem (count r - 1) (waiting r) (S (granted r)) r
                   else set_sem (count r) (S (waiting r)) (granted r) r).

Definition semaphore_release : M ringbuffer_t unit :=
  modify (fun r => match waiting r with
    | S w => set_sem (count r) w (S (granted r)) r
    | O => set_sem (u32 (count r + 1)) O (granted r) r
    end).

(** [x += 1; x %= size]; a zero size is a division fault. *)
Definition advance (x sz : Z) : M ringbuffer_t Z :=
  if sz =? 0 then fail Fault else ret (u32 (x + 1) mod sz).

(** [ringbuffer_read_byte] after [semaphore_acquire] returned, and
    [ringbuffer_write_byte], are one step each.  Interrupt handlers write with
    interrupts off; a task that reads, or writes, is taken to do so undisturbed
    too: nothing in the source keeps a second task out between the load of the
    byte and the advance of the head. *)
Definition ringbuffer_read_byte : M ringbuffer_t Z :=
  let! g := gets granted in
  match g with
  | O => fail Fault
  | S g' =>
      modify (fun r => set_sem (count r) (waiting r) g' r) >>>
      let! r := gets id in
      let! c := some (zlookup (buffer r) (read_head r)) in
      let! h := advance (read_head r) (size r) in
      modify (set_read_head h) >>>
      ret c
  end.

Definition ringbuffer_write_byte (c : Z) : M ringbuffer_t unit :=
  let! r := gets id in
  let! _ := some (zlookup (buffer r) (write_head r)) in
  modify (set_buffer (zinsert (write_head r) c (buffer r))) >>>
  let! h := advance (write_head r) (size r) in
  modify (set_write_head h) >>>
  semaphore_release.

(** *** Users of a ring buffer, interleaved *)

Inductive event : Type :=
  | Write (c : Z)
  | Acquire
  | Read.

Definition run_event (e : event) : M ringbuffer_t (list Z) :=
  match e with
  | Write c => ringbuffer_write_byte c >>> ret []
  | Acquire => semaphore_acquire >>> ret []
  | Read => let! c := ringbuffer_read_byte in ret [c]
  end.

Fixpoint run_events (es : list event) : M ringbuffer_t (list Z) :=
  match es with
  | [] => ret []
  | e :: es' => let! o := run_event e in let! o' := run_events es' in ret (o ++ o')
  end.

(** ** What it is for: a bounded queue *)

(** The bytes written and not yet read, and the waiting and granted readers. *)
Record fifo : Type := Fifo {
  contents : list Z;
  f_waiting : nat;
  f_granted : nat;
}.

(** There is no result when a byte is written to a full queue, or read by a
    reader who was not let in. *)
Definition spec_event (cap : Z) (e : event) (f : fifo) : option (list Z * fifo) :=
  match e with
  | Write c =>
      if zlen (contents f) <? cap then
        Some ([], match f_waiting f with
          | S w => Fifo (contents f ++ [c]) w (S (f_granted f))
          | O => Fifo (contents f ++ [c]) O (f_granted f) end)
      else None
  | Acquire =>
      Some ([], if Z.of_nat (f_granted f) <? zlen (contents f)
                then Fifo (contents f) (f_waiting f) (S (f_granted f))
                else Fifo (contents f) (S (f_waiting f)) (f_granted f))
  | Read =>
      match f_granted f, contents f with
      | S g, c :: cs => Some ([c], Fifo cs (f_waiting f) g)
      | _, _ => None
      end
  end.

Fixpoint spec_events (cap : Z) (es : list event) (f : fifo) : option (list Z * fifo) :=
  match es with
  | [] => Some ([], f)
  | e :: es' =>
      match spec_event cap e f with
      | Some (o, f') =>
          match spec_events cap es' f' with
          | Some (o', f'') => Some (o ++ o', f'')
          | None => None
          end
      | None => None
      end
  end.

(** The ring represents the queue: byte [i] of the queue is [i] places behind
    the read head, the heads are a queue's length apart, and the semaphore
    counts the bytes nobody was let in for. *)
Record represents (r : ringbuffer_t) (f : fifo) : Prop := Represents {
  rep_size : 0 < size r < 2 ^ 32;
  rep_buffer : zlen (buffer r) = size r;
  rep_head : 0 <= read_head r < size r;
  rep_write : write_head r = (read_head r + zlen (contents f)) mod size r;
  rep_full : zlen (contents f) <= size r;
  rep_bytes : forall i c, zlookup (contents f) i = Some c ->
    zlookup (buffer r) ((read_head r + i) mod size r) = Some c;
  rep_waiting : waiting r = f_waiting f;
  rep_granted : granted r = f_granted f;
  rep_count : count r + Z.of_nat (granted r) = zlen (contents f);
  rep_turn : 0 <= count r /\ (0 < count r -> waiting r = O);
}.

Lemma ringbuffer_init_represents buf sz r :
  0 < sz < 2 ^ 32 -> zlen buf = sz -> waiting r = O -> granted r = O ->
  represents (ringbuffer_init buf sz r) (Fifo [] 0 0).
Proof.
  intros Hsz Hb Hw Hg. split; cbn; rewrite ?Hw, ?Hg; try done; try lia.
  - rewrite zlen_nil. lia.
  - intros i c Hi%zlookup_Some_range. unfold zlen in Hi. cbn in Hi. lia.
Qed.

Lemma zlookup_snoc {A} (l : list A) x i y :
  zlookup (l ++ [x]) i = Some y -> zlookup l i = Some y \/ i = zlen l /\ x = y.
Proof.
  unfold zlookup, zlen. destruct (Z.ltb_spec i 0); [done|].
  rewrite lookup_app_Some. intros [?|[Hge Hx]]; [by left|right].
  apply list_lookup_singleton_Some in Hx as [Hi ->]. split; [lia|done].
Qed.

(** Different places of a window no longer than the ring are different
    places of the ring. *)
Lemma ring_injective h i j sz :
  0 < sz -> 0 <= i < sz -> 0 <= j < sz -> (h + i) mod sz = (h + j) mod sz -> i = j.
Proof.
  intros Hsz Hi Hj Heq.
  assert ((h + i - (h + j)) mod sz = 0) as Hz by (rewrite Zminus_mod, Heq, Z.sub_diag; apply Z.mod_0_l; lia).
  apply Z.mod_divide in Hz as [k Hk]; [|lia]. assert (k = 0) by nia. nia.
Qed.

Lemma advance_mod x sz : 0 <= x < sz -> sz < 2 ^ 32 -> u32 (x + 1) mod sz = (x + 1) mod sz.
Proof.
  intros Hx Hsz. destruct (Z.eq_dec (x + 1) (2 ^ 32)) as [He|Hne].
  - lia.
  - by rewrite u32_small by (unfold is_u32; lia).
Qed.

Lemma write_refines c r f o f' :
  represents r f -> spec_event (size r) (Write c) f = Some (o, f') ->
  wp (run_event (Write c)) (fun o' r' => o' = o /\ represents r' f' /\ size r' = size r) never r.
Proof.
  intros [Hsz Hb Hh Hw Hfull Hbytes Hwt Hg Hc [Hc0 Ht]] Hspec. cbn in Hspec.
  destruct (Z.ltb_spec (zlen (contents f)) (size r)) as [Hroom|]; [|done].
  assert (0 <= write_head r < size r) as Hwr by (rewrite Hw; apply Z.mod_pos_bound; lia).
  cbn [run_event]. unfold ringbuffer_write_byte, semaphore_release, advance, id.
  wp_cond. destruct (proj2 (zlookup_lt_is_Some (buffer r) (write_head r))) as [old Hold]; [lia|].
  rewrite Hold. wp_steps. rewrite (proj2 (Z.eqb_neq (size r) 0)) by lia. wp_steps.
  rewrite advance_mod by lia.
  assert ((write_head r + 1) mod size r = (read_head r + zlen (contents f ++ [c])) mod size r) as Hw'.
  { rewrite Hw, Zplus_mod_idemp_l, zlen_app, zlen_cons, zlen_nil. f_equal. lia. }
  assert (forall i x, zlookup (contents f ++ [c]) i = Some x ->
    zlookup (zinsert (write_head r) c (buffer r)) ((read_head r + i) mod size r) = Some x) as Hb'.
  { intros i x [Hi|[-> ->]]%zlookup_snoc.
    - pose proof (zlookup_Some_range _ _ _ Hi). rewrite zlookup_insert_ne; [by apply Hbytes|].
      rewrite Hw. intros Heq. apply ring_injective in Heq; lia.
    - rewrite <- Hw. apply zlookup_insert. lia. }
  cbn. rewrite Hwt, Hg in *. destruct (f_waiting f) as [|w] eqn:Ew; injection Hspec as <- <-; cbn.
  - split; [done|]. split; [|done].
    assert (is_u32 (count r + 1)) by (unfold is_u32; lia).
    split; cbn; rewrite ?zlen_insert; try done; rewrite ?zlen_app, ?zlen_cons, ?zlen_nil, ?u32_small;
      try done; lia.
  - assert (count r = 0) by (destruct (Z.eq_dec (count r) 0); [done|]; by specialize (Ht ltac:(lia))).
    split; [done|]. split; [|done].
    split; cbn; rewrite ?zlen_insert; try done; rewrite ?zlen_app, ?zlen_cons, ?zlen_nil; lia || done.
Qed.

Lemma acquire_refines r f o f' :
  represents r f -> spec_event (size r) Acquire f = Some (o, f') ->
  wp (run_event Acquire) (fun o' r' => o' = o /\ represents r' f' /\ size r' = size r) never r.
Proof.
  intros [Hsz Hb Hh Hw Hfull Hbytes Hwt Hg Hc [Hc0 Ht]] Hspec. cbn in Hspec.
  cbn [run_event]. unfold semaphore_acquire. wp_steps.
  assert ((0 <? count r) = (Z.of_nat (f_granted f) <? zlen (contents f))) as -> by (rewrite <- Hg; lia).
  destruct (Z.ltb_spec (Z.of_nat (f_granted f)) (zlen (contents f))); injection Hspec as <- <-;
    (split; [done|split; [|done]]); split; cbn; try done; try lia.
Qed.

Lemma read_refines r f o f' :
  represents r f -> spec_event (size r) Read f = Some (o, f') ->
  wp (run_event Read) (fun o' r' => o' = o /\ represents r' f' /\ size r' = size r) never r.
Proof.
  intros [Hsz Hb Hh Hw Hfull Hbytes Hwt Hg Hc [Hc0 Ht]] Hspec. cbn in Hspec.
  destruct (f_granted f) as [|g] eqn:Eg; [done|].
  destruct (contents f) as [|c cs] eqn:Ec; [done|]. injection Hspec as <- <-.
  cbn [run_event]. unfold ringbuffer_read_byte, advance, id. wp_steps. rewrite Hg. wp_cond.
  cbn [buffer set_sem read_head]. pose proof (Hbytes 0 c eq_refl) as H0.
  rewrite Z.add_0_r, Z.mod_small in H0 by lia. rewrite H0. wp_steps.
  cbn [size set_sem]. rewrite (proj2 (Z.eqb_neq (size r) 0)) by lia. wp_steps.
  rewrite zlen_cons in *. pose proof (zlen_nonneg cs). rewrite advance_mod by lia.
  split; [done|]. split; [|done]. pose proof (Z.mod_pos_bound (read_head r + 1) (size r)).
  split; cbn; try done; try lia.
  - rewrite Hw, Zplus_mod_idemp_l. f_equal. lia.
  - intros i x Hx. rewrite Zplus_mod_idemp_l. replace (read_head r + 1 + i) with (read_head r + (1 + i)) by lia.
    apply Hbytes. pose proof (zlookup_Some_range _ _ _ Hx). unfold zlookup in *.
    rewrite (proj2 (Z.ltb_ge (1 + i) 0)) by lia. rewrite (proj2 (Z.ltb_ge i 0)) in Hx by lia.
    by replace (Z.to_nat (1 + i)) with (S (Z.to_nat i)) by lia.
Qed.

Lemma run_event_refines e r f o f' :
  represents r f -> spec_event (size r) e f = Some (o, f') ->
  wp (run_event e) (fun o' r' => o' = o /\ represents r' f' /\ size r' = size r) never r.
Proof. destruct e; [apply write_refines|apply acquire_refines|apply read_refines]. Qed.

Lemma run_events_refine es : forall r f o f',
  represents r f -> spec_events (size r) es f = Some (o, f') ->
  wp (run_events es) (fun o' r' => o' = o /\ represents r' f' /\ size r' = size r) never r.
Proof.
  induction es as [|e es IH]; intros r f o f' Hr Hs; cbn in *.
  { injection Hs as <- <-. wp_steps. done. }
  destruct (spec_event (size r) e f) as [[o1 f1]|] eqn:E1; [|done].
  destruct (spec_events (size r) es f1) as [[o2 f2]|] eqn:E2; [|done]. injection Hs as <- <-.
  wp_apply (run_event_refines e r f o1 f1 Hr E1); [|done]. intros o1' r1 (-> & Hr1 & Hsz).
  rewrite <- Hsz in E2. wp_apply (IH r1 f1 o2 f2 Hr1 E2); [|done]. intros o2' r2 (-> & Hr2 & Hsz2).
  wp_steps. split; [done|]. split; [done|]. congruence.
Qed.

(** ** The drivers that fill ring buffers *)

(** A device with bytes waiting at its data port, what was written to its
    ports, the IRQs acknowledged, and the driver's ring buffer. *)
Record device : Type := Device {
  d_ring : ringbuffer_t;
  d_pending : list Z;
  d_busy : nat;
  d_out : list (Z * Z);
  d_acks : list Z;
}.

Definition set_d_ring (r : ringbuffer_t) (d : device) : device :=
  Device r (d_pending d) (d_busy d) (d_out d) (d_acks d).
Definition set_d_pending (l : list Z) (d : device) : device :=
  Device (d_ring d) l (d_busy d) (d_out d) (d_acks d).
Definition set_d_busy (n : nat) (d : device) : device :=
  Device (d_ring d) (d_pending d) n (d_out d) (d_acks d).
Definition set_d_out (l : list (Z * Z)) (d : device) : device :=
  Device (d_ring d) (d_pending d) (d_busy d) l (d_acks d).
Definition set_d_acks (l : list Z) (d : device) : device :=
  Device (d_ring d) (d_pending d) (d_busy d) (d_out d) l.

Definition ring_lens : lens device ringbuffer_t := Lens d_ring set_d_ring.

Definition IRQ_IGNORED : Z := 0.
Definition IRQ_HANDLED : Z := 1.

Definition irq_ack (irq : Z) : M device unit :=
  modify (fun d => set_d_acks (d_acks d ++ [irq]) d).
Definition outb (port data : Z) : M device unit :=
  modify (fun d => set_d_out (d_out d ++ [(port, u8 data)]) d).

(** Bit 0 of a status port: a byte is waiting. *)
Definition in_status : M device Z :=
  let! l := gets d_pending in ret (match l with [] => 0 | _ => 1 end).

(** The data port; reading it takes the byte. *)
Definition in_data : M device Z :=
  let! l := gets d_pending in
  match l with
  | [] => ret 0
  | c :: l' => modify (set_d_pending l') >>> ret c
  end.

(** *** The keyboard *)

Definition keyboard_map : list Z :=
  [0; 27; 49; 50; 51; 52; 53; 54; 55; 56; 57; 48; 45; 61; 8; 9;
   113; 119; 101; 114; 116; 121; 117; 105; 111; 112; 91; 93; 10; 0; 97; 115;
   100; 102; 103; 104; 106; 107; 108; 59; 39; 96; 0; 92; 122; 120; 99; 118;
   98; 110; 109; 44; 46; 47; 0; 42; 0; 32; 0; 0; 0; 0; 0; 0;
   0; 0; 0; 0; 0; 0; 0; 0; 0; 0; 45; 0; 0; 0; 43; 0;
   0; 0; 0; 0; 0; 0; 0; 0; 0; 0; 0; 0; 0; 0; 0; 0;
   0; 0; 0; 0; 0; 0; 0; 0; 0; 0; 0; 0; 0; 0; 0; 0;
   0; 0; 0; 0; 0; 0; 0; 0; 0; 0; 0; 0; 0; 0; 0; 0].

Definition irq1_handler (irq extra : Z) : M device Z :=
  kassert (negb (extra =? 0)) >>>
  let! status := in_status in
  if negb (Z.land status 0x01 =? 0) then
    let! keycode := in_data in
    if s32 (if keycode <? 128 then keycode else keycode - 256) <? 0 then
      irq_ack irq >>> ret IRQ_HANDLED
    else
      let! c := some (zlookup keyboard_map keycode) in
      zoom ring_lens (ringbuffer_write_byte c) >>>
      irq_ack irq >>>
      ret IRQ_HANDLED
  else ret IRQ_IGNORED.

(** *** The serial port *)

Definition PORT : Z := 0x3F8.

Definition irq4_handler (irq extra : Z) : M device Z :=
  kassert (negb (extra =? 0)) >>>
  let! status := in_status in
  if negb (Z.land status 1 =? 0) then
    let! c := in_data in
    zoom ring_lens (ringbuffer_write_byte c) >>>
    irq_ack irq >>>
    ret IRQ_HANDLED
  else ret IRQ_IGNORED.

(** The device registers [serial_init] programs. *)
Definition serial_init (buf : list Z) : M device unit :=
  modify (fun d => set_d_ring (ringbuffer_init buf 1024 (d_ring d)) d) >>>
  outb (PORT + 1) 0x00 >>> outb (PORT + 3) 0x80 >>> outb (PORT + 0) 0x03 >>>
  outb (PORT + 1) 0x00 >>> outb (PORT + 3) 0x03 >>> outb (PORT + 2) 0xC7 >>>
  outb (PORT + 4) 0x0B >>> outb (PORT + 1) 0x01.

Definition keyboard_init (buf : list Z) : M device unit :=
  modify (fun d => set_d_ring (ringbuffer_init buf 1024 (d_ring d)) d).

(** Polls until the transmitter is ready; [d_busy] is how many polls that
    takes, and other tasks run in between. *)
Definition wait_transmit : M device unit :=
  let! fuel := gets (fun d => S (d_busy d)) in
  loop fuel (fun _ =>
    let! b := gets d_busy in
    match b with
    | O => ret (inr tt)
    | S b' => modify (set_d_busy b') >>> ret (inl tt)
    end) tt.

(** [serial_putc]; the recursion for a newline is one level deep. *)
Definition serial_out (c : Z) : M device unit := wait_transmit >>> outb PORT c.
Definition serial_putc (c : Z) : M device unit :=
  (if c =? 10 then serial_out 13 else ret tt) >>> serial_out c.

(** ** What the interrupt handlers deliver *)

(** The characters of the keys pressed; releases have bit 7 set. *)
Definition pressed (codes : list Z) : list Z :=
  omap (fun k => zlookup keyboard_map k) (List.filter (fun k => k <? 128) codes).

(** [n] interrupts in a row, with readers waiting or not. *)
Fixpoint interrupts (h : M device Z) (n : nat) : M device unit :=
  match n with
  | O => ret tt
  | S n' => h >>> interrupts h n'
  end.

Lemma wp_irq1 d k ks f (Q : Z -> device -> Prop) E :
  d_pending d = k :: ks -> is_u8 k -> represents (d_ring d) f ->
  zlen (contents f) < size (d_ring d) ->
  (forall d', d_pending d' = ks -> size (d_ring d') = size (d_ring d) ->
     (exists f', represents (d_ring d') f' /\ contents f' = contents f ++ pressed [k]) ->
     Q IRQ_HANDLED d') ->
  wp (irq1_handler 1 1) Q E d.
Proof.
  intros Hp Hk Hr Hroom HQ. unfold irq1_handler, in_status, in_data, irq_ack.
  change (kassert (negb (1 =? 0))) with (ret tt : M device unit). wp_steps.
  rewrite Hp. change (Z.land 1 1 =? 0) with false. cbn [negb]. wp_steps. rewrite Hp. wp_steps.
  unfold is_u8 in Hk. unfold pressed in HQ. cbn [List.filter] in HQ.
  destruct (Z.ltb_spec k 128) as [Hlt|Hge].
  - assert (s32 k = k) as ->.
    { unfold s32. rewrite u32_small by (unfold is_u32; lia). destruct (Z.ltb_spec k (2 ^ 31)); lia. }
    rewrite (proj2 (Z.ltb_ge k 0)) by lia. wp_cond.
    destruct (proj2 (zlookup_lt_is_Some keyboard_map k)) as [c Hc]; [unfold zlen; cbn; lia|].
    cbn [omap list_omap] in HQ. rewrite Hc in *. wp_steps. apply wp_zoom.
    change (lget ring_lens _) with (d_ring d).
    set (f' := match f_waiting f with
      | S w => Fifo (contents f ++ [c]) w (S (f_granted f))
      | O => Fifo (contents f ++ [c]) O (f_granted f) end).
    assert (spec_event (size (d_ring d)) (Write c) f = Some ([], f')) as Hs.
    { cbn. by rewrite (proj2 (Z.ltb_lt _ _)) by done. }
    pose proof (write_refines c _ _ _ _ Hr Hs) as Hw. cbn [run_event] in Hw.
    apply wp_bind in Hw. eapply wp_mono; [exact Hw| |by intros e []]. cbv beta.
    intros [] r' Hw'. apply wp_ret in Hw' as (_ & Hr' & Hsz). wp_steps.
    apply HQ; [done|exact Hsz|]. exists f'. split; [exact Hr'|]. unfold f'. by destruct (f_waiting f).
  - assert (s32 (k - 256) <? 0 = true) as ->.
    { apply Z.ltb_lt. unfold s32.
      assert (u32 (k - 256) = k - 256 + 2 ^ 32) as ->.
      { unfold u32. rewrite <- (Z.mod_add _ 1) by done. apply Z.mod_small. lia. }
      destruct (Z.ltb_spec (k - 256 + 2 ^ 32) (2 ^ 31)); lia. }
    wp_steps. apply HQ; [done|done|]. exists f. split; [done|]. cbn. by rewrite app_nil_r.
Qed.

(** The size of the ring and the contents it represents after a sequence of
    keyboard interrupts that fits. *)
Lemma wp_irq1_sequence ks : forall d f,
  d_pending d = ks -> Forall is_u8 ks -> represents (d_ring d) f ->
  zlen (contents f) + zlen ks <= size (d_ring d) ->
  wp (interrupts (irq1_handler 1 1) (length ks)) (fun _ d' =>
    d_pending d' = [] /\ size (d_ring d') = size (d_ring d) /\
    exists f', represents (d_ring d') f' /\ contents f' = contents f ++ pressed ks) never d.
Proof.
  induction ks as [|k ks IH]; intros d f Hp Hks Hr Hroom; cbn [interrupts length].
  { wp_steps. split; [done|]. split; [done|]. exists f. by rewrite app_nil_r. }
  apply Forall_cons in Hks as [Hk Hks]. rewrite zlen_cons in Hroom. pose proof (zlen_nonneg ks).
  wp_step. eapply (wp_irq1 _ k ks f); [done|done|done|lia|].
  intros d1 Hp1 Hsz1 (f1 & Hr1 & Hf1).
  assert (zlen (contents f1) <= zlen (contents f) + 1) as Hlen.
  { rewrite Hf1, zlen_app. unfold pressed. cbn [List.filter].
    destruct (k <? 128); cbn; [destruct (zlookup keyboard_map k)|]; cbn; unfold zlen; cbn; lia. }
  eapply wp_mono; [apply (IH d1 f1 Hp1 Hks Hr1); lia| |done].
  intros [] d2 (Hp2 & Hsz2 & f2 & Hr2 & Hf2). split; [done|]. split; [congruence|].
  exists f2. split; [done|]. rewrite Hf2, Hf1, <- app_assoc. f_equal.
  unfold pressed. cbn [List.filter]. destruct (k <? 128); [|done]. cbn.
  by destruct (zlookup keyboard_map k).
Qed.

Lemma unread_represents r f :
  represents r f -> zlen (contents f) < size r -> ringbuffer_unread r = zlen (contents f).
Proof.
  intros Hr Hlt.
  destruct Hr as [Hs0 _ Hh Hw _ _ _ _ _ _]. unfold ringbuffer_unread. rewrite Hw.
  pose proof (zlen_nonneg (contents f)) as Hz.
  assert ((read_head r + zlen (contents f)) mod size r =
    if read_head r + zlen (contents f) <? size r then read_head r + zlen (contents f)
    else read_head r + zlen (contents f) - size r) as ->.
  { destruct (Z.ltb_spec (read_head r + zlen (contents f)) (size r)); [by apply Z.mod_small; lia|].
    rewrite <- (Z.mod_add _ (-1)) by lia. rewrite Z.mod_small; lia. }
  destruct (Z.ltb_spec (read_head r + zlen (contents f)) (size r)).
  - rewrite (proj2 (Z.ltb_ge _ _)) by lia. rewrite u32_small; unfold is_u32; lia.
  - rewrite (proj2 (Z.ltb_lt _ _)) by lia. rewrite !u32_small; unfold is_u32; try lia.
    rewrite u32_small; unfold is_u32; lia.
Qed.

(** ** Properties *)

(** C27. A ring buffer is a bounded first-in first-out queue: whatever the
    interleaving of writers in interrupts and of readers between their
    [semaphore_acquire] and their read, every byte written is read exactly
    once, in the order written, readers are let in only when there is a byte
    for each of them, and no access leaves the buffer, as long as no byte is
    written while the buffer is full. *)
Theorem ringbuffer_is_a_fifo (es : list event) (r : ringbuffer_t) (f : fifo) (o : list Z) (f' : fifo) :
  represents r f -> spec_events (size r) es f = Some (o, f') ->
  wp (run_events es) (fun o' r' => o' = o /\ represents r' f' /\
    (zlen (contents f') < size r' -> ringbuffer_unread r' = zlen (contents f'))) never r.
Proof.
  intros Hr Hs. eapply wp_mono; [by apply (run_events_refine es r f o f')| |done].
  intros o' r' (-> & Hr' & Hsz). split; [done|]. split; [done|]. by apply unread_represents.
Qed.

(** C38. Keyboard input arrives: after one interrupt per scan code the ring
    buffer holds, behind what it held, the characters of the keys that were
    pressed, in order, and nothing for keys released; the controller is
    drained, and no interrupt panics.  The ring must have room for all pending
    codes: a write into a full ring loses what it held
    ([ringbuffer_overflow]). *)
Theorem keyboard_delivers (d : device) (f : fifo) :
  Forall is_u8 (d_pending d) -> represents (d_ring d) f ->
  zlen (contents f) + zlen (d_pending d) <= size (d_ring d) ->
  wp (interrupts (irq1_handler 1 1) (length (d_pending d))) (fun _ d' =>
    d_pending d' = [] /\ exists f', represents (d_ring d') f' /\
      contents f' = contents f ++ pressed (d_pending d)) never d.
Proof.
  intros Hu Hr Hroom. eapply wp_mono; [by apply (wp_irq1_sequence (d_pending d) d f)| |done].
  intros [] d' (Hp & _ & Hf). done.
Qed.

(** A ring of four bytes: two readers, one of them too early. *)
Definition sample_ring : ringbuffer_t := ringbuffer_init [0; 0; 0; 0] 4 (Ring [] 0 0 0 0 0 0).
Definition sample_events : list event :=
  [Write 65; Write 66; Acquire; Read; Write 67; Acquire; Acquire; Acquire; Read; Write 68; Write 69;
   Read; Read; Write 70; Write 71].

Lemma sample_ring_represents : represents sample_ring (Fifo [] 0 0).
Proof. by apply ringbuffer_init_represents. Qed.

Lemma ringbuffer_is_a_fifo_witness :
  represents sample_ring (Fifo [] 0 0) /\
  wp (run_events sample_events) (fun o' r' => o' = [65; 66; 67; 68] /\
    represents r' (Fifo [69; 70; 71] 0 0) /\
    (zlen [69; 70; 71] < size r' -> ringbuffer_unread r' = zlen [69; 70; 71])) never sample_ring.
Proof.
  split; [exact sample_ring_represents|].
  apply (ringbuffer_is_a_fifo sample_events sample_ring (Fifo [] 0 0) [65; 66; 67; 68]
    (Fifo [69; 70; 71] 0 0) sample_ring_represents). reflexivity.
Defined.

(** Writing into a full ring loses what it held: [ringbuffer_unread] is 0
    although the semaphore still promises five bytes. *)
Example ringbuffer_overflow :
  match run_events [Write 1; Write 2; Write 3; Write 4; Write 5; Acquire; Read] sample_ring with
  | Ok (o, r) => (o, ringbuffer_unread r, count r) | Err _ => ([], 0, 0) end = ([5], 0, 4).
Proof. vm_compute. reflexivity. Qed.

(** "Hi" typed with shift ignored: press and release of two keys. *)
Definition typing : device := Device sample_ring [35; 163; 23; 151] 0 [] [].

Lemma keyboard_delivers_witness :
  wp (interrupts (irq1_handler 1 1) 4) (fun _ d' =>
    d_pending d' = [] /\ exists f', represents (d_ring d') f' /\ contents f' = [104; 105]) never typing.
Proof.
  apply (keyboard_delivers typing (Fifo [] 0 0)).
  - repeat constructor; unfold is_u8; lia.
  - exact sample_ring_represents.
  - reflexivity || (vm_compute; discriminate).
Defined.
