(* ===== verification/Tty.v ===== *)
(** * The text mode terminal (kernel/tty.c)

    Video memory as bytes at offsets from [vmem], the cursor, and the cursor
    position the VGA ports hold.  The theorem relates the byte memory to a
    grid of cells. *)
From stdpp Require Import functions.
From S2P Require Import Prelude.

Definition TTY_DEFAULT_ATTRIBUTE : Z := 0x07.

(** The static variables of tty.c; [vmem] is 0 while the terminal is off, and
    [mem] has [mem_size] bytes. *)
Record tty : Type := Tty {
  cursor_x : Z;
  cursor_y : Z;
  width : Z;
  height : Z;
  bpp : Z;
  pitch : Z;
  vmem : Z;
  mem : Z -> Z;
  mem_size : Z;
  ports : list (Z * Z);
}.

Definition set_cursor (x y : Z) (t : tty) : tty :=
  Tty x y (width t) (height t) (bpp t) (pitch t) (vmem t) (mem t) (mem_size t) (ports t).
Definition set_mem (m : Z -> Z) (t : tty) : tty :=
  Tty (cursor_x t) (cursor_y t) (width t) (height t) (bpp t) (pitch t) (vmem t) m (mem_size t) (ports t).
Definition set_ports (p : list (Z * Z)) (t : tty) : tty :=
  Tty (cursor_x t) (cursor_y t) (width t) (height t) (bpp t) (pitch t) (vmem t) (mem t) (mem_size t) p.
Definition set_geometry (w h b p v : Z) (t : tty) : tty :=
  Tty (cursor_x t) (cursor_y t) w h b p v (mem t) (mem_size t) (ports t).

(** Bytes of video memory; a null [vmem] or an offset outside is a fault. *)
Definition peek (off : Z) : M tty Z :=
  let! t := gets id in
  if negb (vmem t =? 0) && (0 <=? off) && (off <? mem_size t) then ret (mem t off) else fail Fault.

Definition poke (off v : Z) : M tty unit :=
  let! _ := peek off in
  modify (fun t => set_mem (<[off := v]> (mem t)) t).

(** [y * pitch + x * bpp]. *)
Definition where_at (x y : Z) : M tty Z :=
  let! t := gets id in ret (u32 (y * pitch t + x * bpp t)).

Definition outb (port data : Z) : M tty unit :=
  modify (fun t => set_ports (ports t ++ [(port, u8 data)]) t).

Definition tty_update_cursor : M tty unit :=
  let! t := gets id in
  let position := u16 (cursor_y t * width t + cursor_x t) in
  outb 0x3D4 0x0F >>>
  outb 0x3D5 (Z.land position 0xFF) >>>
  outb 0x3D4 0x0E >>>
  outb 0x3D5 (Z.land (Z.shiftr position 8) 0xFF).

Definition tty_clear_line (y : Z) : M tty unit :=
  let! w := gets width in
  for_up (Z.to_nat w) 0 (fun x =>
    let! o := where_at x y in
    poke o 32 >>>
    poke (o + 1) TTY_DEFAULT_ATTRIBUTE).

(** [*dst = *src] on 16-bit values. *)
Definition tty_copy_line (s d : Z) : M tty unit :=
  let! w := gets width in
  for_up (Z.to_nat w) 0 (fun x =>
    let! dst := where_at x d in
    let! src := where_at x s in
    let! lo := peek src in
    let! hi := peek (src + 1) in
    poke dst lo >>>
    poke (dst + 1) hi).

Definition tty_scroll : M tty unit :=
  let! h := gets height in
  for_up (Z.to_nat (h - 1)) 0 (fun y => tty_copy_line (y + 1) y) >>>
  tty_clear_line (u32 (h - 1)).

Definition tty_move_cursor (x y : Z) : M tty unit :=
  modify (set_cursor (u16 x) (u16 y)) >>>
  tty_update_cursor.

Definition tty_clear_screen : M tty unit :=
  let! h := gets height in
  for_up (Z.to_nat h) 0 tty_clear_line >>>
  tty_move_cursor 0 0.

Definition tty_init (vmem_ptr w h fb_bpp fb_pitch : Z) : M tty unit :=
  tty_clear_screen >>>
  if negb (fb_bpp =? 0x10) then ret tt
  else if negb (fb_bpp mod 8 =? 0) then ret tt
  else modify (set_geometry (u16 w) (u16 h) (fb_bpp / 8) fb_pitch vmem_ptr).

(** The end of [tty_putc]: wrapping and scrolling. *)
Definition tty_wrap : M tty unit :=
  let! t := gets id in
  (if width t <=? cursor_x t then modify (set_cursor 0 (u16 (cursor_y t + 1))) else ret tt) >>>
  let! t := gets id in
  (if height t <=? cursor_y t then
     tty_scroll >>>
     modify (set_cursor 0 (u16 (height t - 1)))
   else ret tt) >>>
  tty_update_cursor.

(** [tty_putc]; [cr] is the call of [tty_putc('\r')]. *)
Definition tty_putc_with (cr : M tty unit) (c : Z) : M tty unit :=
  let! v := gets vmem in
  if v =? 0 then ret tt
  else
    let! t := gets id in
    kassert (cursor_x t <? width t) >>>
    kassert (cursor_y t <? height t) >>>
    (if (c =? 8) && (0 <? cursor_x t) then
       modify (set_cursor (cursor_x t - 1) (cursor_y t))
     else if c =? 10 then
       cr >>>
       let! t := gets id in
       modify (set_cursor 0 (u16 (cursor_y t + 1)))
     else if c =? 13 then
       modify (set_cursor 0 (cursor_y t))
     else if c =? 9 then
       modify (set_cursor (u16 (cursor_x t + 4)) (cursor_y t))
     else
       let! o := where_at (cursor_x t) (cursor_y t) in
       poke o (u8 c) >>>
       poke (o + 1) TTY_DEFAULT_ATTRIBUTE >>>
       modify (set_cursor (u16 (cursor_x t + 1)) (cursor_y t))) >>>
    tty_wrap.

Definition tty_putc (c : Z) : M tty unit := tty_putc_with (tty_putc_with (ret tt) 13) c.

(** ** The screen *)

(** Character and attribute of every cell, and the cursor. *)
Record screen : Type := Screen {
  s_x : Z;
  s_y : Z;
  s_cell : Z -> Z -> Z * Z;
}.

Definition blank : Z * Z := (32, TTY_DEFAULT_ATTRIBUTE).

(** One line up; the last line is blank. *)
Definition scrolled (h : Z) (cells : Z -> Z -> Z * Z) : Z -> Z -> Z * Z :=
  fun x y => if y <? h - 1 then cells x (y + 1) else blank.

(** The cursor after it moved to [(x, y)]: past the right edge it goes to the
    next line, past the last line the screen scrolls. *)
Definition settle (w h x y : Z) (cells : Z -> Z -> Z * Z) : screen :=
  let '(x, y) := if w <=? x then (0, y + 1) else (x, y) in
  if h <=? y then Screen 0 (h - 1) (scrolled h cells) else Screen x y cells.

Definition write_cell (x y c : Z) (cells : Z -> Z -> Z * Z) : Z -> Z -> Z * Z :=
  fun x' y' => if (x' =? x) && (y' =? y) then (u8 c, TTY_DEFAULT_ATTRIBUTE) else cells x' y'.

Definition screen_putc (w h c : Z) (s : screen) : screen :=
  if (c =? 8) && (0 <? s_x s) then settle w h (s_x s - 1) (s_y s) (s_cell s)
  else if c =? 10 then settle w h 0 (s_y s + 1) (s_cell s)
  else if c =? 13 then settle w h 0 (s_y s) (s_cell s)
  else if c =? 9 then settle w h (s_x s + 4) (s_y s) (s_cell s)
  else settle w h (s_x s + 1) (s_y s) (write_cell (s_x s) (s_y s) c (s_cell s)).

(** The terminal shows the screen. *)
Definition cell (t : tty) (x y : Z) : Z * Z :=
  (mem t (y * pitch t + x * 2), mem t (y * pitch t + x * 2 + 1)).

Record tty_ok (t : tty) : Prop := TtyOk {
  ok_vmem : vmem t <> 0;
  ok_bpp : bpp t = 2;
  ok_width : 0 < width t /\ width t + 4 < 2 ^ 16;
  ok_height : 0 < height t < 2 ^ 16 - 1;
  ok_pitch : 2 * width t <= pitch t;
  ok_size : height t * pitch t <= mem_size t < 2 ^ 32;
}.

Definition shows (t : tty) (s : screen) : Prop :=
  cursor_x t = s_x s /\ cursor_y t = s_y s /\
  0 <= s_x s < width t /\ 0 <= s_y s < height t /\
  forall x y, 0 <= x < width t -> 0 <= y < height t -> cell t x y = s_cell s x y.

Definition visible (t : tty) (x y : Z) : Prop := 0 <= x < width t /\ 0 <= y < height t.

(** [t'] is [t] with other video memory, which shows [f]. *)
Definition repainted (t : tty) (f : Z -> Z -> Z * Z) (t' : tty) : Prop :=
  exists m, t' = set_mem m t /\ forall x y, visible t x y -> cell t' x y = f x y.

Lemma repainted_ok t f t' : repainted t f t' -> tty_ok t -> tty_ok t'.
Proof. intros (m & -> & _) []. by split. Qed.

Lemma repainted_trans t f t' g t'' : repainted t f t' -> repainted t' g t'' -> repainted t g t''.
Proof. intros (m & -> & _) (m' & -> & Hg). exists m'. split; [done|exact Hg]. Qed.

Lemma repainted_ext t f g t' :
  (forall x y, visible t x y -> f x y = g x y) -> repainted t f t' -> repainted t g t'.
Proof. intros Hfg (m & -> & Hf). exists m. split; [done|]. intros x y H. by rewrite <- Hfg, Hf. Qed.

Lemma repainted_refl t : repainted t (cell t) t.
Proof. exists (mem t). by destruct t. Qed.

(** The offset of a visible cell. *)
Lemma offset_range t x y :
  tty_ok t -> visible t x y ->
  0 <= y * pitch t + x * 2 /\ y * pitch t + x * 2 + 1 < mem_size t.
Proof. intros [_ _ [Hw _] Hh Hp Hs] [Hx Hy]. nia. Qed.

Lemma offset_apart t x y x' y' d d' :
  tty_ok t -> visible t x y -> visible t x' y' -> 0 <= d <= 1 -> 0 <= d' <= 1 ->
  (x' =? x) && (y' =? y) = false ->
  y * pitch t + x * 2 + d <> y' * pitch t + x' * 2 + d'.
Proof.
  intros [_ _ [Hw _] Hh Hp Hs] [Hx Hy] [Hx' Hy'] Hd Hd' Hne Heq.
  assert (y = y') as -> by nia. rewrite Z.eqb_refl, andb_true_r in Hne. apply Z.eqb_neq in Hne. lia.
Qed.

Lemma wp_where_at t x y (Q : Z -> tty -> Prop) E :
  tty_ok t -> visible t x y -> Q (y * pitch t + x * 2) t -> wp (where_at x y) Q E t.
Proof.
  intros Hok Hv HQ. unfold where_at, id. wp_steps. rewrite (ok_bpp t Hok).
  rewrite u32_small; [done|]. pose proof (offset_range t x y Hok Hv).
  destruct (ok_size t Hok). unfold is_u32. lia.
Qed.

Lemma wp_peek t o (Q : Z -> tty -> Prop) E :
  tty_ok t -> 0 <= o < mem_size t -> Q (mem t o) t -> wp (peek o) Q E t.
Proof.
  intros Hok Ho HQ. unfold peek, id. wp_steps.
  rewrite (proj2 (Z.eqb_neq _ _) (ok_vmem t Hok)), (proj2 (Z.leb_le 0 o)), (proj2 (Z.ltb_lt _ _)) by lia.
  cbn [negb andb]. by wp_steps.
Qed.

Lemma wp_poke t o v (Q : unit -> tty -> Prop) E :
  tty_ok t -> 0 <= o < mem_size t -> Q tt (set_mem (<[o := v]> (mem t)) t) -> wp (poke o v) Q E t.
Proof. intros Hok Ho HQ. unfold poke. wp_steps. apply wp_peek; [done|done|]. by wp_steps. Qed.

(** Writing both bytes of a cell. *)
Lemma wp_set_cell t x y a b (Q : unit -> tty -> Prop) E :
  tty_ok t -> visible t x y ->
  (forall t', repainted t (fun x' y' => if (x' =? x) && (y' =? y) then (a, b) else cell t x' y') t' ->
     Q tt t') ->
  wp (poke (y * pitch t + x * 2) a >>> poke (y * pitch t + x * 2 + 1) b) Q E t.
Proof.
  intros Hok Hv HQ. pose proof (offset_range t x y Hok Hv) as Ho. wp_step.
  apply wp_poke; [done|lia|]. apply wp_poke; [by destruct Hok|cbn; lia|]. apply HQ.
  eexists. split; [reflexivity|]. intros x' y' Hv'. unfold cell. cbn [mem pitch set_mem].
  destruct ((x' =? x) && (y' =? y)) eqn:E2.
  - apply andb_true_iff in E2 as [->%Z.eqb_eq ->%Z.eqb_eq].
    rewrite fn_lookup_insert_ne, !fn_lookup_insert by lia. done.
  - assert (forall d d', 0 <= d <= 1 -> 0 <= d' <= 1 ->
      y * pitch t + x * 2 + d <> y' * pitch t + x' * 2 + d') as Ha
      by (intros; by apply offset_apart).
    pose proof (Ha 0 0). pose proof (Ha 0 1). pose proof (Ha 1 0). pose proof (Ha 1 1).
    rewrite !fn_lookup_insert_ne by lia. done.
Qed.

Lemma tty_clear_line_repaints t y :
  tty_ok t -> 0 <= y < height t ->
  wp (tty_clear_line y)
    (fun _ => repainted t (fun x' y' => if y' =? y then blank else cell t x' y')) never t.
Proof.
  intros Hok Hy. pose proof (ok_width t Hok) as Hw. unfold tty_clear_line. wp_steps.
  eapply wp_mono; [apply (wp_for_up (fun x => repainted t (fun x' y' =>
    if (y' =? y) && (x' <? x) then blank else cell t x' y')))| |done].
  - eapply repainted_ext; [|apply repainted_refl]. intros x' y' [Hx' _]. cbv beta.
    rewrite (proj2 (Z.ltb_ge x' 0)) by lia. by rewrite andb_false_r.
  - intros x t1 Hx H1. pose proof (repainted_ok _ _ _ H1 Hok) as Hok1.
    assert (visible t1 x y) as Hv by (destruct H1 as (m & -> & _); split; cbn; lia).
    wp_step. apply wp_where_at; [done|done|]. apply wp_set_cell; [done|done|].
    intros t2 H2. eapply repainted_trans; [exact H1|]. eapply repainted_ext; [|exact H2].
    intros x' y' Hv'. cbv beta. destruct H1 as (m & -> & H1).
    destruct (Z.eqb_spec x' x) as [->|Hne]; [destruct (Z.eqb_spec y' y) as [->|]|]; cbn [andb].
    + by rewrite (proj2 (Z.ltb_lt x (x + 1))) by lia.
    + rewrite (H1 x y' Hv'). by rewrite (proj2 (Z.eqb_neq y' y)).
    + rewrite (H1 x' y' Hv'). destruct (y' =? y); [|done]. cbn [andb].
      destruct (Z.ltb_spec x' x), (Z.ltb_spec x' (x + 1)); done || lia.
  - intros [] t' H'. eapply repainted_ext; [|exact H']. intros x' y' [Hx' _]. cbv beta.
    rewrite (proj2 (Z.ltb_lt x' _)) by lia. by rewrite andb_true_r.
Qed.

Lemma tty_copy_line_repaints t src dst :
  tty_ok t -> 0 <= src < height t -> 0 <= dst < height t -> src <> dst ->
  wp (tty_copy_line src dst)
    (fun _ => repainted t (fun x' y' => cell t x' (if y' =? dst then src else y'))) never t.
Proof.
  intros Hok Hs Hd Hsd. pose proof (ok_width t Hok) as Hw. unfold tty_copy_line. wp_steps.
  eapply wp_mono; [apply (wp_for_up (fun x => repainted t (fun x' y' =>
    cell t x' (if (y' =? dst) && (x' <? x) then src else y'))))| |done].
  - eapply repainted_ext; [|apply repainted_refl]. intros x' y' [Hx' _]. cbv beta.
    rewrite (proj2 (Z.ltb_ge x' 0)) by lia. by rewrite andb_false_r.
  - intros x t1 Hx H1. pose proof (repainted_ok _ _ _ H1 Hok) as Hok1.
    assert (visible t1 x dst) as Hv by (destruct H1 as (m & -> & _); split; cbn; lia).
    assert (visible t1 x src) as Hvs by (destruct H1 as (m & -> & _); split; cbn; lia).
    pose proof (offset_range t1 x src Hok1 Hvs).
    wp_step. apply wp_where_at; [done|done|]. wp_step. apply wp_where_at; [done|done|].
    wp_step. apply wp_peek; [done|lia|]. wp_step. apply wp_peek; [done|lia|].
    apply wp_set_cell; [done|done|].
    intros t2 H2. eapply repainted_trans; [exact H1|]. eapply repainted_ext; [|exact H2].
    intros x' y' Hv'. cbv beta.
    change (mem t1 (src * pitch t1 + x * 2), mem t1 (src * pitch t1 + x * 2 + 1)) with (cell t1 x src).
    destruct H1 as (m & -> & H1).
    assert (visible t x src) as Hvs0 by (split; cbn; lia).
    destruct (Z.eqb_spec x' x) as [->|Hne]; [destruct (Z.eqb_spec y' dst) as [->|]|]; cbn [andb].
    + rewrite (proj2 (Z.ltb_lt x (x + 1))) by lia. rewrite (H1 x src Hvs0).
      by rewrite (proj2 (Z.eqb_neq src dst) Hsd).
    + rewrite (H1 x y' Hv'). by rewrite (proj2 (Z.eqb_neq y' dst)).
    + rewrite (H1 x' y' Hv'). destruct (y' =? dst); [|done]. cbn [andb].
      destruct (Z.ltb_spec x' x), (Z.ltb_spec x' (x + 1)); done || lia.
  - intros [] t' H'. eapply repainted_ext; [|exact H']. intros x' y' [Hx' _]. cbv beta.
    rewrite (proj2 (Z.ltb_lt x' _)) by lia. by rewrite andb_true_r.
Qed.

Lemma tty_scroll_repaints t :
  tty_ok t -> wp tty_scroll (fun _ => repainted t (scrolled (height t) (cell t))) never t.
Proof.
  intros Hok. pose proof (ok_height t Hok) as Hh. unfold tty_scroll. wp_steps.
  eapply wp_mono; [apply (wp_for_up (fun y => repainted t (fun x' y' =>
    cell t x' (if y' <? y then y' + 1 else y'))))| |done].
  - eapply repainted_ext; [|apply repainted_refl]. intros x' y' [_ Hy']. cbv beta.
    by rewrite (proj2 (Z.ltb_ge y' 0)) by lia.
  - intros y t1 Hy H1. pose proof (repainted_ok _ _ _ H1 Hok) as Hok1.
    assert (height t1 = height t) as Hh1 by (by destruct H1 as (m & -> & _)).
    eapply wp_mono; [apply (tty_copy_line_repaints t1 (y + 1) y Hok1); lia| |done].
    intros [] t2 H2. eapply repainted_trans; [exact H1|]. eapply repainted_ext; [|exact H2].
    intros x' y' Hv'. cbv beta.
    assert (forall z, visible t1 x' z -> cell t1 x' z = cell t x' (if z <? y then z + 1 else z)) as H1'
      by (destruct H1 as (m & -> & H1); exact (H1 x')).
    destruct Hv' as [Hx' Hy']. rewrite H1'.
    + f_equal. destruct (Z.eqb_spec y' y), (Z.ltb_spec (y + 1) y), (Z.ltb_spec y' y),
        (Z.ltb_spec y' (y + 1)); lia.
    + split; [done|]. destruct (Z.eqb_spec y' y); lia.
  - intros [] t1 H1. pose proof (repainted_ok _ _ _ H1 Hok) as Hok1.
    assert (height t1 = height t) as Hh1 by (by destruct H1 as (m & -> & _)).
    rewrite u32_small by (unfold is_u32; lia).
    eapply wp_mono; [apply (tty_clear_line_repaints t1 (height t - 1) Hok1); lia| |done].
    intros [] t2 H2. eapply repainted_trans; [exact H1|]. eapply repainted_ext; [|exact H2].
    intros x' y' Hv'. cbv beta. unfold scrolled.
    destruct (Z.eqb_spec y' (height t - 1)) as [->|Hne].
    + by rewrite (proj2 (Z.ltb_ge _ _)) by lia.
    + destruct Hv' as [Hx' Hy'].
      destruct H1 as (m & -> & H1). rewrite (H1 x' y') by (split; cbn in *; lia). cbn in Hy'.
      rewrite (proj2 (Z.ltb_lt y' (height t - 1))) by lia.
      by rewrite (proj2 (Z.ltb_lt y' _)) by lia.
Qed.

(** The cursor the VGA ports were last told. *)
Definition synced (t : tty) : Prop := exists p,
  let position := u16 (cursor_y t * width t + cursor_x t) in
  ports t = p ++ [(0x3D4, 0x0F); (0x3D5, position mod 256); (0x3D4, 0x0E); (0x3D5, position / 256)].

Lemma wp_update_cursor t (Q : unit -> tty -> Prop) E :
  (forall t', synced t' -> (exists p, t' = set_ports p t) -> Q tt t') -> wp tty_update_cursor Q E t.
Proof.
  intros HQ. unfold tty_update_cursor, outb, id. wp_steps. apply HQ; [|eauto].
  exists (ports t). cbn. rewrite <- !app_assoc. cbn.
  set (p := u16 _). assert (0 <= p < 65536) as Hp by apply u16_range.
  change 255 with (Z.ones 8). rewrite !land_ones_mod, Z.shiftr_div_pow2 by lia.
  change (2 ^ 8) with 256. unfold u8. change (2 ^ 8) with 256.
  rewrite !Z.mod_mod by lia. rewrite (Z.mod_small (p / 256)); [done|].
  split; [apply Z.div_pos; lia|]. apply Z.div_lt_upper_bound; lia.
Qed.

Definition same_shape (t t' : tty) : Prop :=
  tty_ok t' /\ width t' = width t /\ height t' = height t.

(** The screen after a call. *)
Definition now_shows (t : tty) (s : screen) (t' : tty) : Prop :=
  same_shape t t' /\ shows t' s /\ synced t'.

Lemma now_shows_intro t0 t x y cells f :
  tty_ok t -> width t = width t0 -> height t = height t0 ->
  0 <= x < width t -> 0 <= y < height t -> cursor_x t = x -> cursor_y t = y ->
  (forall x' y', visible t x' y' -> cell t x' y' = cells x' y') ->
  wp tty_update_cursor (fun _ => now_shows t0 (Screen x y cells)) f t.
Proof.
  intros Hok Hw Hh Hx Hy Hcx Hcy Hc. apply wp_update_cursor. intros t' Hs [p' ->].
  split; [by split; [destruct Hok|]|]. split; [|exact Hs].
  split; [done|]. split; [done|]. split; [done|]. split; [done|]. intros x' y' Hx' Hy'. by apply Hc.
Qed.

Lemma tty_wrap_settles t0 t x y cells :
  tty_ok t -> width t = width t0 -> height t = height t0 ->
  0 <= x < 2 ^ 16 -> 0 <= y <= height t -> (width t <= x -> y < height t) ->
  cursor_x t = x -> cursor_y t = y ->
  (forall x' y', visible t x' y' -> cell t x' y' = cells x' y') ->
  wp tty_wrap (fun _ => now_shows t0 (settle (width t0) (height t0) x y cells)) never t.
Proof.
  intros Hok Hw Hh Hx Hy Hxy Hcx Hcy Hc. pose proof (ok_height t Hok) as Hht.
  pose proof (ok_width t Hok) as Hwt. unfold tty_wrap, id, settle.
  rewrite <- Hw, <- Hh. destruct (if width t <=? x then (0, y + 1) else (x, y)) as [x1 y1] eqn:E1.
  wp_step. wp_step. wp_step.
  apply (wp_mono _ (fun _ t' => t' = set_cursor x1 y1 t /\ 0 <= x1 < width t /\ 0 <= y1 <= height t)
    _ never never).
  { rewrite Hcx, Hcy. destruct (Z.leb_spec (width t) x) as [Hge|Hlt]; injection E1 as <- <-; wp_steps.
    - specialize (Hxy Hge). rewrite u16_small by (unfold is_u16; lia). split; [done|lia].
    - split; [subst x y; by destruct t|lia]. }
  2:{ done. }
  intros [] t1 (-> & Hx1 & Hy1). wp_steps. cbn [height cursor_y set_cursor].
  assert (tty_ok (set_cursor x1 y1 t)) as Hok1 by (by destruct Hok).
  destruct (Z.leb_spec (height t) y1) as [Hge|Hlt]; wp_steps.
  - eapply wp_mono; [apply (tty_scroll_repaints _ Hok1)| |done]. intros [] t2 (m & -> & Hm). wp_steps.
    rewrite u16_small by (unfold is_u16; lia).
    apply now_shows_intro; try done; cbn; try lia; [by destruct Hok|].
    intros x' y' Hv'. etransitivity; [exact (Hm x' y' Hv')|]. cbn. unfold scrolled.
    destruct (Z.ltb_spec y' (height t - 1)); [|done]. destruct Hv' as [Hx' Hy'].
    apply (Hc x' (y' + 1)). split; [done|cbn in *; lia].
  - apply now_shows_intro; try done; cbn; lia.
Qed.

Lemma wp_set_cell_then t x y a b (k : M tty unit) (Q : unit -> tty -> Prop) E :
  tty_ok t -> visible t x y ->
  (forall t', repainted t (fun x' y' => if (x' =? x) && (y' =? y) then (a, b) else cell t x' y') t' ->
     wp k Q E t') ->
  wp (poke (y * pitch t + x * 2) a >>> poke (y * pitch t + x * 2 + 1) b >>> k) Q E t.
Proof.
  intros Hok Hv HQ. pose proof (wp_set_cell t x y a b (fun _ => wp k Q E) E Hok Hv HQ) as Hset.
  apply (proj1 (wp_bind (poke (y * pitch t + x * 2) a) _ _ _ _)) in Hset.
  wp_step. eapply wp_mono; [exact Hset| |done]. intros [] s Hs. by wp_step.
Qed.

Ltac settled Hok Hc :=
  apply tty_wrap_settles;
  first [done | cbn; lia | by destruct Hok | intros ? ? [? ?]; by apply Hc].

Lemma wp_putc_with t s cr c :
  tty_ok t -> shows t s ->
  (c = 10 -> wp cr (fun _ => now_shows t (Screen 0 (s_y s) (s_cell s))) never t) ->
  wp (tty_putc_with cr c) (fun _ => now_shows t (screen_putc (width t) (height t) c s)) never t.
Proof.
  intros Hok (Hcx & Hcy & Hx & Hy & Hc) Hcr.
  pose proof (ok_height t Hok) as Hht. pose proof (ok_width t Hok) as Hwt.
  unfold tty_putc_with, id, screen_putc. wp_steps.
  rewrite (proj2 (Z.eqb_neq _ _) (ok_vmem t Hok)). wp_steps. rewrite Hcx, Hcy.
  rewrite (proj2 (Z.ltb_lt (s_x s) (width t))), (proj2 (Z.ltb_lt (s_y s) (height t))) by lia.
  cbn [kassert]. wp_steps.
  destruct ((c =? 8) && (0 <? s_x s)) eqn:E8.
  { apply andb_true_iff in E8 as [_ E8%Z.ltb_lt]. wp_steps. settled Hok Hc. }
  destruct (Z.eqb_spec c 10) as [->|H10].
  { wp_step. eapply wp_mono; [by apply Hcr| |done].
    intros [] t1 ((Hok1 & Hw1 & Hh1) & (Hcx1 & Hcy1 & Hx1 & Hy1 & Hc1) & _). wp_steps. cbn in *.
    rewrite Hcy1, u16_small by (unfold is_u16; lia). settled Hok1 Hc1. }
  destruct (Z.eqb_spec c 13) as [->|H13].
  { wp_steps. settled Hok Hc. }
  destruct (Z.eqb_spec c 9) as [->|H9].
  { wp_steps. rewrite u16_small by (unfold is_u16; lia). settled Hok Hc. }
  wp_step. apply wp_where_at; [done|by split|]. apply wp_set_cell_then; [done|by split|].
  intros t1 (m & -> & Hm). wp_steps. rewrite u16_small by (unfold is_u16; lia).
  assert (forall x' y', visible t x' y' ->
    cell (set_mem m t) x' y' = write_cell (s_x s) (s_y s) c (s_cell s) x' y') as Hc'.
  { intros x' y' Hv. rewrite (Hm x' y' Hv). unfold write_cell.
    destruct ((x' =? s_x s) && (y' =? s_y s)); [done|]. destruct Hv. by apply Hc. }
  apply tty_wrap_settles; first [done | cbn; lia | by destruct Hok | idtac].
Qed.

Lemma tty_putc_shows t s c :
  tty_ok t -> shows t s ->
  wp (tty_putc c) (fun _ => now_shows t (screen_putc (width t) (height t) c s)) never t.
Proof.
  intros Hok Hs. apply wp_putc_with; [done|done|]. intros _.
  assert (screen_putc (width t) (height t) 13 s = Screen 0 (s_y s) (s_cell s)) as <-.
  { destruct Hs as (_ & _ & Hx & Hy & _). unfold screen_putc, settle. cbn [Z.eqb Pos.eqb andb].
    rewrite (proj2 (Z.leb_gt (width t) 0)), (proj2 (Z.leb_gt (height t) (s_y s))) by lia. done. }
  by apply wp_putc_with.
Qed.

Fixpoint tty_puts (cs : list Z) : M tty unit :=
  match cs with
  | [] => ret tt
  | c :: cs' => tty_putc c >>> tty_puts cs'
  end.

(** ** Properties *)

(** C29. Writing any text to the terminal shows what it should: the video
    memory and the cursor follow the abstract screen character by character
    (backspace, tab, newline and carriage return, wrapping at the right edge
    and scrolling at the bottom included), the hardware cursor is where the
    next character goes, and no write leaves the video memory. *)
Theorem tty_shows_text (cs : list Z) (t : tty) (s : screen) :
  tty_ok t -> shows t s -> cs <> [] ->
  wp (tty_puts cs) (fun _ t' => tty_ok t' /\ synced t' /\
    shows t' (fold_left (fun s c => screen_putc (width t) (height t) c s) cs s)) never t.
Proof.
  revert t s. induction cs as [|c cs IH]; intros t s Hok Hs Hne; [done|]. cbn [tty_puts fold_left].
  wp_step. eapply wp_mono; [by apply (tty_putc_shows t s c)| |done].
  intros [] t1 ((Hok1 & Hw1 & Hh1) & Hs1 & Hy1). destruct cs as [|c2 cs].
  { cbn. wp_steps. done. }
  rewrite <- Hw1, <- Hh1 in *. by apply IH.
Qed.

(** A screen of 4 by 2 cells in 20 bytes of memory. *)
Definition small_tty : tty := Tty 0 0 4 2 2 10 0xB8000 (fun _ => 0) 20 [].
Definition small_screen : screen := Screen 0 0 (fun _ _ => (0, 0)).

Lemma small_tty_shows : tty_ok small_tty /\ shows small_tty small_screen.
Proof. split; [split; cbn; lia|]. repeat split; cbn; lia. Qed.

Definition hello : list Z := [72; 101; 108; 108; 111; 33; 10; 79; 8; 75].

Lemma tty_shows_text_witness :
  wp (tty_puts hello) (fun _ t' => tty_ok t' /\ synced t' /\
    shows t' (fold_left (fun s c => screen_putc 4 2 c s) hello small_screen)) never small_tty.
Proof.
  apply (tty_shows_text hello small_tty small_screen (proj1 small_tty_shows) (proj2 small_tty_shows)).
  discriminate.
Defined.

(** "Hell", "o!", then a newline scrolls and "K" replaces "O". *)
Example hello_lines :
  match tty_puts hello small_tty with
  | Ok (_, t) => map (fun x => (fst (cell t x 0), fst (cell t x 1))) [0; 1; 2; 3]
  | Err _ => [] end = [(111, 75); (33, 32); (0, 32); (0, 32)].
Proof. vm_compute. reflexivity. Qed.
