(* ===== verification/Font.v ===== *)
(** * The 8 by 8 bitmap font (kernel/include/8x8_font.h)

    One list of eight rows per character; bit [j] of a row is the pixel in
    column [j]. *)
From S2P Require Import Prelude.

Definition font8x8_basic : list (list Z) := [
  [0; 0; 0; 0; 0; 0; 0; 0];
  [0; 0; 0; 0; 0; 0; 0; 0];
  [0; 0; 0; 0; 0; 0; 0; 0];
  [0; 0; 0; 0; 0; 0; 0; 0];
  [0; 0; 0; 0; 0; 0; 0; 0];
  [0; 0; 0; 0; 0; 0; 0; 0];
  [0; 0; 0; 0; 0; 0; 0; 0];
  [0; 0; 0; 0; 0; 0; 0; 0];
  [0; 0; 0; 0; 0; 0; 0; 0];
  [0; 0; 0; 0; 0; 0; 0; 0];
  [0; 0; 0; 0; 0; 0; 0; 0];
  [0; 0; 0; 0; 0; 0; 0; 0];
  [0; 0; 0; 0; 0; 0; 0; 0];
  [0; 0; 0; 0; 0; 0; 0; 0];
  [0; 0; 0; 0; 0; 0; 0; 0];
  [0; 0; 0; 0; 0; 0; 0; 0];
  [0; 0; 0; 0; 0; 0; 0; 0];
  [0; 0; 0; 0; 0; 0; 0; 0];
  [0; 0; 0; 0; 0; 0; 0; 0];
  [0; 0; 0; 0; 0; 0; 0; 0];
  [0; 0; 0; 0; 0; 0; 0; 0];
  [0; 0; 0; 0; 0; 0; 0; 0];
  [0; 0; 0; 0; 0; 0; 0; 0];
  [0; 0; 0; 0; 0; 0; 0; 0];
  [0; 0; 0; 0; 0; 0; 0; 0];
  [0; 0; 0; 0; 0; 0; 0; 0];
  [0; 0; 0; 0; 0; 0; 0; 0];
  [0; 0; 0; 0; 0; 0; 0; 0];
  [0; 0; 0; 0; 0; 0; 0; 0];
  [0; 0; 0; 0; 0; 0; 0; 0];
  [0; 0; 0; 0; 0; 0; 0; 0];
  [0; 0; 0; 0; 0; 0; 0; 0];
  [0; 0; 0; 0; 0; 0; 0; 0];
  [24; 60; 60; 24; 24; 0; 24; 0];
  [54; 54; 0; 0; 0; 0; 0; 0];
  [54; 54; 127; 54; 127; 54; 54; 0];
  [12; 62; 3; 30; 48; 31; 12; 0];
  [0; 99; 51; 24; 12; 102; 99; 0];
  [28; 54; 28; 110; 59; 51; 110; 0];
  [6; 6; 3; 0; 0; 0; 0; 0];
  [24; 12; 6; 6; 6; 12; 24; 0];
  [6; 12; 24; 24; 24; 12; 6; 0];
  [0; 102; 60; 255; 60; 102; 0; 0];
  [0; 12; 12; 63; 12; 12; 0; 0];
  [0; 0; 0; 0; 0; 12; 12; 6];
  [0; 0; 0; 63; 0; 0; 0; 0];
  [0; 0; 0; 0; 0; 12; 12; 0];
  [96; 48; 24; 12; 6; 3; 1; 0];
  [62; 99; 115; 123; 111; 103; 62; 0];
  [12; 14; 12; 12; 12; 12; 63; 0];
  [30; 51; 48; 28; 6; 51; 63; 0];
  [30; 51; 48; 28; 48; 51; 30; 0];
  [56; 60; 54; 51; 127; 48; 120; 0];
  [63; 3; 31; 48; 48; 51; 30; 0];
  [28; 6; 3; 31; 51; 51; 30; 0];
  [63; 51; 48; 24; 12; 12; 12; 0];
  [30; 51; 51; 30; 51; 51; 30; 0];
  [30; 51; 51; 62; 48; 24; 14; 0];
  [0; 12; 12; 0; 0; 12; 12; 0];
  [0; 12; 12; 0; 0; 12; 12; 6];
  [24; 12; 6; 3; 6; 12; 24; 0];
  [0; 0; 63; 0; 0; 63; 0; 0];
  [6; 12; 24; 48; 24; 12; 6; 0];
  [30; 51; 48; 24; 12; 0; 12; 0];
  [62; 99; 123; 123; 123; 3; 30; 0];
  [12; 30; 51; 51; 63; 51; 51; 0];
  [63; 102; 102; 62; 102; 102; 63; 0];
  [60; 102; 3; 3; 3; 102; 60; 0];
  [31; 54; 102; 102; 102; 54; 31; 0];
  [127; 70; 22; 30; 22; 70; 127; 0];
  [127; 70; 22; 30; 22; 6; 15; 0];
  [60; 102; 3; 3; 115; 102; 124; 0];
  [51; 51; 51; 63; 51; 51; 51; 0];
  [30; 12; 12; 12; 12; 12; 30; 0];
  [120; 48; 48; 48; 51; 51; 30; 0];
  [103; 102; 54; 30; 54; 102; 103; 0];
  [15; 6; 6; 6; 70; 102; 127; 0];
  [99; 119; 127; 127; 107; 99; 99; 0];
  [99; 103; 111; 123; 115; 99; 99; 0];
  [28; 54; 99; 99; 99; 54; 28; 0];
  [63; 102; 102; 62; 6; 6; 15; 0];
  [30; 51; 51; 51; 59; 30; 56; 0];
  [63; 102; 102; 62; 54; 102; 103; 0];
  [30; 51; 7; 14; 56; 51; 30; 0];
  [63; 45; 12; 12; 12; 12; 30; 0];
  [51; 51; 51; 51; 51; 51; 63; 0];
  [51; 51; 51; 51; 51; 30; 12; 0];
  [99; 99; 99; 107; 127; 119; 99; 0];
  [99; 99; 54; 28; 28; 54; 99; 0];
  [51; 51; 51; 30; 12; 12; 30; 0];
  [127; 99; 49; 24; 76; 102; 127; 0];
  [30; 6; 6; 6; 6; 6; 30; 0];
  [3; 6; 12; 24; 48; 96; 64; 0];
  [30; 24; 24; 24; 24; 24; 30; 0];
  [8; 28; 54; 99; 0; 0; 0; 0];
  [0; 0; 0; 0; 0; 0; 0; 255];
  [12; 12; 24; 0; 0; 0; 0; 0];
  [0; 0; 30; 48; 62; 51; 110; 0];
  [7; 6; 6; 62; 102; 102; 59; 0];
  [0; 0; 30; 51; 3; 51; 30; 0];
  [56; 48; 48; 62; 51; 51; 110; 0];
  [0; 0; 30; 51; 63; 3; 30; 0];
  [28; 54; 6; 15; 6; 6; 15; 0];
  [0; 0; 110; 51; 51; 62; 48; 31];
  [7; 6; 54; 110; 102; 102; 103; 0];
  [12; 0; 14; 12; 12; 12; 30; 0];
  [48; 0; 48; 48; 48; 51; 51; 30];
  [7; 6; 102; 54; 30; 54; 103; 0];
  [14; 12; 12; 12; 12; 12; 30; 0];
  [0; 0; 51; 127; 127; 107; 99; 0];
  [0; 0; 31; 51; 51; 51; 51; 0];
  [0; 0; 30; 51; 51; 51; 30; 0];
  [0; 0; 59; 102; 102; 62; 6; 15];
  [0; 0; 110; 51; 51; 62; 48; 120];
  [0; 0; 59; 110; 102; 6; 15; 0];
  [0; 0; 62; 3; 30; 48; 31; 0];
  [8; 12; 62; 12; 12; 44; 24; 0];
  [0; 0; 51; 51; 51; 51; 110; 0];
  [0; 0; 51; 51; 51; 30; 12; 0];
  [0; 0; 99; 107; 127; 127; 54; 0];
  [0; 0; 99; 54; 28; 54; 99; 0];
  [0; 0; 51; 51; 51; 62; 48; 31];
  [0; 0; 63; 25; 12; 38; 63; 0];
  [56; 12; 12; 7; 12; 12; 56; 0];
  [24; 24; 24; 0; 24; 24; 24; 0];
  [7; 12; 12; 56; 12; 12; 7; 0];
  [110; 59; 0; 0; 0; 0; 0; 0];
  [0; 0; 0; 0; 0; 0; 0; 0]].
