(* ===== verification/Framebuffer.v ===== *)
(** * The graphical terminal (kernel/framebuffer.c)

    The framebuffer and its two back buffers as byte memories, drawing of
    characters and scrolling.  The theorem compares the terminal with and
    without double buffering. *)
From stdpp Require Import functions.
From S2P Require Import Prelude Font.

Record buf : Type := Buf {
  b_len : Z;
  b_at : Z -> Z;
}.

(** The static variables of framebuffer.c; a null buffer is [None]. *)
Record fb : Type := Fb {
  vmem : option buf;
  backbuffer0 : option buf;
  backbuffer1 : option buf;
  pitch : Z;
  width : Z;
  height : Z;
  bpp : Z;
  cursor_x : Z;
  cursor_y : Z;
}.

Inductive bufref : Type := Front | Back0 | Back1.

Definition get_buf (r : bufref) (f : fb) : option buf :=
  match r with Front => vmem f | Back0 => backbuffer0 f | Back1 => backbuffer1 f end.

Definition set_buf (r : bufref) (b : option buf) (f : fb) : fb :=
  match r with
  | Front => Fb b (backbuffer0 f) (backbuffer1 f) (pitch f) (width f) (height f) (bpp f) (cursor_x f) (cursor_y f)
  | Back0 => Fb (vmem f) b (backbuffer1 f) (pitch f) (width f) (height f) (bpp f) (cursor_x f) (cursor_y f)
  | Back1 => Fb (vmem f) (backbuffer0 f) b (pitch f) (width f) (height f) (bpp f) (cursor_x f) (cursor_y f)
  end.

Definition set_cursor (x y : Z) (f : fb) : fb :=
  Fb (vmem f) (backbuffer0 f) (backbuffer1 f) (pitch f) (width f) (height f) (bpp f) x y.

(** [n] bytes at [off] lie in the buffer. *)
Definition in_buf (b : buf) (off n : Z) : bool := (0 <=? off) && (off + n <=? b_len b).

Definition poke (r : bufref) (off v : Z) : M fb unit :=
  let! f := gets id in
  let! b := some (get_buf r f) in
  if in_buf b off 1 then modify (set_buf r (Some (Buf (b_len b) (<[off := v]> (b_at b)))))
  else fail Fault.

(** [n] bytes of [src] at [s] moved to [d] in [m]. *)
Definition moved (m src : Z -> Z) (d s n : Z) : Z -> Z :=
  fun o => if (d <=? o) && (o <? d + n) then src (o - d + s) else m o.

(** [memcpy], which refuses null pointers and an empty range. *)
Definition memcpy (rd : bufref) (d : Z) (rs : bufref) (s n : Z) : M fb unit :=
  let! f := gets id in
  match get_buf rd f, get_buf rs f with
  | Some bd, Some bs =>
      kassert (negb (n =? 0)) >>>
      (if in_buf bd d n && in_buf bs s n
       then modify (set_buf rd (Some (Buf (b_len bd) (moved (b_at bd) (b_at bs) d s n))))
       else fail Fault)
  | _, _ => fail AssertFail
  end.

(** [memcmp(...) != 0], which refuses an empty range. *)
Definition differs (m m' : Z -> Z) (off n : Z) : bool :=
  existsb (fun i => negb (m (off + Z.of_nat i) =? m' (off + Z.of_nat i))) (seq 0 (Z.to_nat n)).

Definition memcmp (r r' : bufref) (off n : Z) : M fb bool :=
  let! f := gets id in
  let! b := some (get_buf r f) in
  let! b' := some (get_buf r' f) in
  kassert (negb (n =? 0)) >>>
  if in_buf b off n && in_buf b' off n then ret (differs (b_at b) (b_at b') off n) else fail Fault.

(** [a0] and [a1] are what the two calls of [kmalloc] answer. *)
Definition framebuffer_enable_double_buffer (a0 a1 : option buf) : M fb unit :=
  let! f := gets id in
  match vmem f with
  | None => ret tt
  | Some _ =>
      let n := u32 (u32 (height f + 1) * pitch f) in
      modify (set_buf Back0 a0) >>>
      modify (set_buf Back1 a1) >>>
      (match a1 with None => modify (set_buf Back0 None) | Some _ => ret tt end) >>>
      memcpy Back0 0 Front 0 n >>>
      memcpy Back1 0 Back0 0 n
  end.

Definition framebuffer_copy_to_front : M fb unit :=
  let! f := gets id in
  match backbuffer0 f, backbuffer1 f with
  | Some _, Some _ =>
      for_up (Z.to_nat (height f)) 0 (fun y =>
        let off := u32 (y * pitch f) in
        let! d := memcmp Back0 Back1 off (pitch f) in
        if d : bool then
          memcpy Front off Back0 off (pitch f) >>>
          memcpy Back1 off Back0 off (pitch f)
        else ret tt)
  | _, _ => ret tt
  end.

(** One pixel of the region. *)
Definition copy_pixel (x y dy dx : Z) : M fb unit :=
  let! f := gets id in
  let offset := u32 ((y + dy) * pitch f + (x + dx) * (bpp f / 8)) in
  let! d := memcmp Back0 Back1 offset (bpp f / 8) in
  if d : bool then
    memcpy Front offset Back0 offset (bpp f / 8) >>>
    memcpy Back1 offset Back0 offset (bpp f / 8)
  else ret tt.

Definition framebuffer_copy_region_if_needed (x y w h : Z) : M fb unit :=
  let! f := gets id in
  match backbuffer0 f, backbuffer1 f with
  | Some _, Some _ =>
      for_up (Z.to_nat h) 0 (fun dy => for_up (Z.to_nat w) 0 (fun dx => copy_pixel x y dy dx))
  | _, _ => ret tt
  end.

(** Where characters are drawn. *)
Definition target (f : fb) : bufref :=
  match backbuffer0 f with None => Front | Some _ => Back0 end.

Definition framebuffer_setpixel (x y v : Z) : M fb unit :=
  let! f := gets id in
  kassert (x <? width f) >>>
  kassert (y <? height f) >>>
  let o := u32 (y * pitch f + x * (bpp f / 8)) in
  poke (target f) o (Z.land (Z.shiftr v 0) 0xFF) >>>
  poke (target f) (o + 1) (Z.land (Z.shiftr v 1) 0xFF) >>>
  poke (target f) (o + 2) (Z.land (Z.shiftr v 2) 0xFF).

Definition framebuffer_clear (v : Z) : M fb unit :=
  let! f := gets id in
  for_up (Z.to_nat (height f)) 0 (fun y =>
    for_up (Z.to_nat (width f)) 0 (fun x => framebuffer_setpixel x y v)) >>>
  framebuffer_copy_to_front.

(** Is the pixel in row [i] and column [j] of the character set? *)
Definition glyph_bit (c i j : Z) : bool :=
  (c <? 128) &&
  match zlookup font8x8_basic c with
  | Some rows => match zlookup rows i with
      | Some row => negb (Z.land row (Z.shiftl 1 j) =? 0) | None => false end
  | None => false
  end.

(** [c] is the [unsigned char]. *)
Definition put_c_at (c x y : Z) : M fb unit :=
  for_up 8 0 (fun i => for_up 8 0 (fun j =>
    if glyph_bit c i j then framebuffer_setpixel (u32 (x + j)) (u32 (y + i)) 0xFFFFFF
    else framebuffer_setpixel (u32 (x + j)) (u32 (y + i)) 0xDE00EE)) >>>
  framebuffer_copy_region_if_needed x y 8 8.

Definition framebuffer_scroll : M fb unit :=
  let! f := gets id in
  for_up (Z.to_nat (u32 (height f - 8))) 0 (fun y =>
    memcpy (target f) (u32 (y * pitch f)) (target f) (u32 ((y + 8) * pitch f)) (pitch f)) >>>
  for_up (Z.to_nat (width f)) 0 (fun x => for_up 8 0 (fun y =>
    framebuffer_setpixel x (u32 (height f - y - 1)) 0xDE00EE)) >>>
  framebuffer_copy_to_front.

(** The end of [framebuffer_putc]: wrapping and scrolling. *)
Definition framebuffer_wrap : M fb unit :=
  let! f := gets id in
  (if width f / 8 <=? cursor_x f then modify (set_cursor 0 (u32 (cursor_y f + 1))) else ret tt) >>>
  let! f := gets id in
  if height f / 8 <=? cursor_y f then
    framebuffer_scroll >>> modify (set_cursor 0 (u32 (height f / 8 - 1)))
  else ret tt.

(** [cr] is the call of [framebuffer_putc('\r')]. *)
Definition framebuffer_putc_with (cr : M fb unit) (c : Z) : M fb unit :=
  let! f := gets id in
  match vmem f with
  | None => ret tt
  | Some _ =>
      (if (c =? 8) && (0 <? cursor_x f) then
         modify (set_cursor (u32 (cursor_x f - 1)) (cursor_y f))
       else if c =? 10 then
         cr >>>
         let! f := gets id in
         modify (set_cursor 0 (u32 (cursor_y f + 1)))
       else if c =? 13 then modify (set_cursor 0 (cursor_y f))
       else if c =? 9 then modify (set_cursor (u32 (cursor_x f + 4)) (cursor_y f))
       else
         put_c_at (u8 c) (u32 (cursor_x f * 8)) (u32 (cursor_y f * 8)) >>>
         let! f := gets id in
         modify (set_cursor (u32 (cursor_x f + 1)) (cursor_y f))) >>>
      framebuffer_wrap
  end.

Definition framebuffer_putc (c : Z) : M fb unit :=
  framebuffer_putc_with (framebuffer_putc_with (ret tt) 13) c.

Definition framebuffer_init (addr : option buf) (fb_pitch fb_width fb_height fb_bpp : Z) : M fb unit :=
  modify (fun f => Fb addr (backbuffer0 f) (backbuffer1 f) fb_pitch fb_width fb_height fb_bpp 0 0) >>>
  framebuffer_clear 0x00DE00EE.

(** ** Two runs side by side

    [both m n Q s d]: [m] from [s] and [n] from [d] both return, in states
    related by [Q]. *)
Definition both {A B} (m : M fb A) (n : M fb B) (Q : A -> B -> fb -> fb -> Prop) (s d : fb) : Prop :=
  exists a s' b d', m s = Ok (a, s') /\ n d = Ok (b, d') /\ Q a b s' d'.

Lemma both_bind {A B A' B'} (m : M fb A) (n : M fb B) (f : A -> M fb A') (g : B -> M fb B') Q s d :
  both m n (fun a b => both (f a) (g b) Q) s d -> both (bind m f) (bind n g) Q s d.
Proof.
  intros (a & s' & b & d' & Hm & Hn & a' & s'' & b' & d'' & Hf & Hg & HQ).
  exists a', s'', b', d''. by rewrite !run_bind, Hm, Hn.
Qed.

Lemma both_mono {A B} (m : M fb A) (n : M fb B) (Q Q' : A -> B -> fb -> fb -> Prop) s d :
  both m n Q s d -> (forall a b s' d', Q a b s' d' -> Q' a b s' d') -> both m n Q' s d.
Proof. intros (a & s' & b & d' & Hm & Hn & HQ) HQQ. exists a, s', b, d'. auto. Qed.

Tactic Notation "both_apply" uconstr(H) :=
  eapply both_mono; [eapply H|cbv beta; intros _ _].

Lemma both_for_up (I : Z -> fb -> fb -> Prop) (f g : Z -> M fb unit) n : forall i s d,
  I i s d ->
  (forall j s' d', i <= j < i + Z.of_nat n -> I j s' d' -> both (f j) (g j) (fun _ _ => I (j + 1)) s' d') ->
  both (for_up n i f) (for_up n i g) (fun _ _ => I (i + Z.of_nat n)) s d.
Proof.
  induction n as [|n IH]; intros i s d HI Hb.
  - exists tt, s, tt, d. replace (i + Z.of_nat 0) with i by lia. done.
  - destruct (Hb i s d ltac:(lia) HI) as (a & s1 & b & d1 & Hf & Hg & HI1).
    destruct (IH (i + 1) s1 d1 HI1) as (a2 & s2 & b2 & d2 & Hf2 & Hg2 & HI2).
    { intros j s' d' Hj. apply Hb. lia. }
    exists a2, s2, b2, d2. rewrite !for_up_S, !run_bind, Hf, Hg. split; [done|]. split; [done|].
    by replace (i + Z.of_nat (S n)) with (i + 1 + Z.of_nat n) by lia.
Qed.

(** A step of the second run alone. *)
Lemma both_right {B} (n : M fb B) (Q : unit -> B -> fb -> fb -> Prop) s d b d' :
  n d = Ok (b, d') -> Q tt b s d' -> both (ret tt) n Q s d.
Proof. intros Hn HQ. by exists tt, s, b, d'. Qed.

(** ** What double buffering keeps *)

(** Bytes per pixel, and the bytes of the picture. *)
Definition px (f : fb) : Z := bpp f / 8.
Definition extent (f : fb) : Z := height f * pitch f.

Record fb_ok (f : fb) : Prop := FbOk {
  ok_px : 3 <= px f;
  ok_width : 8 <= width f < 2 ^ 31;
  ok_height : 8 <= height f < 2 ^ 31;
  ok_pitch : width f * px f <= pitch f;
  ok_extent : (height f + 1) * pitch f < 2 ^ 32;
}.

Definition cursor_ok (f : fb) : Prop :=
  0 <= cursor_x f < width f / 8 /\ 0 <= cursor_y f < height f / 8.

Definition same_geometry (s d : fb) : Prop :=
  pitch s = pitch d /\ width s = width d /\ height s = height d /\ bpp s = bpp d /\
  cursor_x s = cursor_x d /\ cursor_y s = cursor_y d.

(** [s] draws on the screen and [d] on its first back buffer; what [d] shows
    may be out of date at the bytes in [D]. *)
Record mirrors (D : Z -> Prop) (s d : fb) : Prop := Mirrors {
  mi_geo : same_geometry s d;
  mi_bufs : exists f f' b0 b1,
    vmem s = Some f /\ backbuffer0 s = None /\
    vmem d = Some f' /\ backbuffer0 d = Some b0 /\ backbuffer1 d = Some b1 /\
    (height s + 1) * pitch s <= b_len f /\ (height s + 1) * pitch s <= b_len f' /\
    (height s + 1) * pitch s <= b_len b0 /\ (height s + 1) * pitch s <= b_len b1 /\
    forall o, 0 <= o < extent s ->
      b_at b0 o = b_at f o /\ b_at b1 o = b_at f' o /\ (~ D o -> b_at f' o = b_at b0 o);
}.

Lemma mirrors_weaken (D D' : Z -> Prop) s d :
  (forall o, 0 <= o < extent s -> D o -> D' o) -> mirrors D s d -> mirrors D' s d.
Proof.
  intros HD [Hg (f & f' & b0 & b1 & Hf & Hs0 & Hf' & Hb0 & Hb1 & L1 & L2 & L3 & L4 & Hm)].
  split; [done|]. exists f, f', b0, b1. repeat split; try done; try (by apply Hm).
  intros Hn. apply Hm; [done|]. auto.
Qed.

Definition shape (s s' : fb) : Prop :=
  pitch s' = pitch s /\ width s' = width s /\ height s' = height s /\ bpp s' = bpp s /\
  cursor_x s' = cursor_x s /\ cursor_y s' = cursor_y s.

Lemma in_buf_true b off n : 0 <= off -> off + n <= b_len b -> in_buf b off n = true.
Proof. intros. unfold in_buf. by rewrite (proj2 (Z.leb_le _ _)), (proj2 (Z.leb_le (off + n) _)) by lia. Qed.

Lemma run_poke r off v f b :
  get_buf r f = Some b -> 0 <= off -> off + 1 <= b_len b ->
  poke r off v f = Ok (tt, set_buf r (Some (Buf (b_len b) (<[off := v]> (b_at b)))) f).
Proof.
  intros Hb Hlo Hhi. unfold poke. rewrite !run_bind. cbn [gets id]. rewrite run_bind. unfold id.
  rewrite Hb. cbn [some ret]. by rewrite in_buf_true.
Qed.

(** Drawing one byte in both. *)
Lemma both_poke D s d o v :
  mirrors D s d -> 0 <= o < extent s -> 0 <= pitch s ->
  both (poke (target s) o v) (poke (target d) o v)
    (fun _ _ s' d' => shape s s' /\ mirrors (fun o' => D o' \/ o' = o) s' d') s d.
Proof.
  intros [Hg (f & f' & b0 & b1 & Hf & Hs0 & Hf' & Hb0 & Hb1 & L1 & L2 & L3 & L4 & Hm)] Ho Hp.
  unfold extent in Ho. assert (o + 1 <= (height s + 1) * pitch s) by lia.
  unfold target. rewrite Hs0, Hb0.
  eexists tt, _, tt, _. split; [eapply run_poke; [exact Hf|lia..]|].
  split; [eapply run_poke; [exact Hb0|lia..]|]. split; [by repeat split|].
  split; [exact Hg|]. eexists _, _, _, _. cbn. do 5 (split; [done|]). cbn.
  do 4 (split; [done|]). intros o' Ho'. destruct (Hm o' Ho') as (H0 & H1 & H2).
  destruct (decide (o' = o)) as [->|Hne].
  - rewrite !fn_lookup_insert. split; [done|]. split; [done|]. intros Hn. destruct Hn. by right.
  - rewrite !fn_lookup_insert_ne by done. split; [done|]. split; [done|]. intros Hn. apply H2. auto.
Qed.

Lemma both_gets {A B} (f : fb -> A) (g : fb -> B) (Q : A -> B -> fb -> fb -> Prop) s d :
  Q (f s) (g d) s d -> both (gets f) (gets g) Q s d.
Proof. intros HQ. by exists (f s), s, (g d), d. Qed.

Lemma both_ret {A B} (a : A) (b : B) (Q : A -> B -> fb -> fb -> Prop) s d :
  Q a b s d -> both (ret a) (ret b) Q s d.
Proof. intros HQ. by exists a, s, b, d. Qed.

Lemma both_modify f g (Q : unit -> unit -> fb -> fb -> Prop) s d :
  Q tt tt (f s) (g d) -> both (modify f) (modify g) Q s d.
Proof. intros HQ. by exists tt, (f s), tt, (g d). Qed.

(** The bytes of a pixel, and a state whose geometry is that of [s0]. *)
Definition pixel (s0 : fb) (x y o : Z) : Prop :=
  exists k, 0 <= k < px s0 /\ o = y * pitch s0 + x * px s0 + k.

Definition state (D : Z -> Prop) (s0 s d : fb) : Prop := shape s0 s /\ mirrors D s d.

Lemma state_geo D s0 s d : state D s0 s d ->
  pitch s = pitch s0 /\ width s = width s0 /\ height s = height s0 /\ bpp s = bpp s0 /\
  pitch d = pitch s0 /\ width d = width s0 /\ height d = height s0 /\ bpp d = bpp s0.
Proof.
  intros [(? & ? & ? & ? & _) [(? & ? & ? & ? & _) _]]. repeat split; congruence.
Qed.

Lemma shape_extent s0 s : shape s0 s -> extent s = extent s0.
Proof. intros (Hp & _ & Hh & _). unfold extent. by rewrite Hp, Hh. Qed.

Lemma state_weaken (D D' : Z -> Prop) s0 s d :
  (forall o, 0 <= o < extent s0 -> D o -> D' o) -> state D s0 s d -> state D' s0 s d.
Proof.
  intros HD [Hs Hm]. split; [done|]. eapply mirrors_weaken; [|exact Hm].
  intros o Ho. apply HD. by rewrite <- (shape_extent s0 s).
Qed.

Lemma pixel_range s0 x y :
  fb_ok s0 -> 0 <= x < width s0 -> 0 <= y < height s0 ->
  0 <= y * pitch s0 + x * px s0 /\ y * pitch s0 + x * px s0 + px s0 <= (y + 1) * pitch s0 /\
  (y + 1) * pitch s0 <= extent s0.
Proof. intros [Hp Hw Hh Hpi He] Hx Hy. unfold extent. nia. Qed.

Lemma extent_bound s0 : fb_ok s0 -> 24 <= pitch s0 /\ 0 <= extent s0 < 2 ^ 32 - pitch s0.
Proof. intros [Hp Hw Hh Hpi He]. unfold extent. nia. Qed.

Lemma target_state D s0 s d : state D s0 s d -> target s = Front /\ target d = Back0.
Proof.
  intros [_ [_ (f & f' & b0 & b1 & Hf & Hs0 & Hf' & Hb0 & _)]]. unfold target. by rewrite Hs0, Hb0.
Qed.

Lemma both_poke_state D s0 s d o v :
  fb_ok s0 -> state D s0 s d -> 0 <= o < extent s0 ->
  both (poke Front o v) (poke Back0 o v) (fun _ _ => state (fun o' => D o' \/ o' = o) s0) s d.
Proof.
  intros Hok Hst Ho. destruct (target_state D s0 s d Hst) as [<- Td]. rewrite <- Td.
  destruct Hst as [Hs Hm]. destruct (extent_bound s0 Hok) as [Hp _].
  both_apply (both_poke D s d o v Hm).
  - by rewrite (shape_extent s0 s).
  - destruct Hs as (-> & _). lia.
  - intros s' d' [Hs' Hm']. split; [|done].
    destruct Hs as (? & ? & ? & ? & ? & ?), Hs' as (? & ? & ? & ? & ? & ?). repeat split; congruence.
Qed.

Lemma both_setpixel D s0 s d x y v :
  fb_ok s0 -> state D s0 s d -> 0 <= x < width s0 -> 0 <= y < height s0 ->
  both (framebuffer_setpixel x y v) (framebuffer_setpixel x y v)
    (fun _ _ => state (fun o => D o \/ pixel s0 x y o) s0) s d.
Proof.
  intros Hok Hst Hx Hy. pose proof (pixel_range s0 x y Hok Hx Hy) as Hr.
  destruct (extent_bound s0 Hok) as [_ Hext]. pose proof (ok_px s0 Hok) as Hpx.
  destruct (state_geo D s0 s d Hst) as (Ep & Ew & Eh & Eb & Ep' & Ew' & Eh' & Eb').
  unfold framebuffer_setpixel. apply both_bind, both_gets. unfold id.
  rewrite Ep, Ew, Eh, Eb, Ep', Ew', Eh', Eb'. change (bpp s0 / 8) with (px s0).
  rewrite (proj2 (Z.ltb_lt x _)), (proj2 (Z.ltb_lt y _)) by lia. cbn [kassert].
  apply both_bind, both_ret. apply both_bind, both_ret.
  rewrite u32_small by (unfold is_u32; lia). set (o := y * pitch s0 + x * px s0).
  destruct (target_state D s0 s d Hst) as [Ts Td]. rewrite Ts, Td.
  apply both_bind. both_apply (both_poke_state D s0 s d o); [done|done|lia|].
  intros s1 d1 Hst1. apply both_bind. both_apply (both_poke_state _ s0 s1 d1 (o + 1)); [done|done|lia|].
  intros s2 d2 Hst2. both_apply (both_poke_state _ s0 s2 d2 (o + 2)); [done|done|lia|].
  intros s3 d3 Hst3. eapply state_weaken; [|exact Hst3].
  intros o' _ [[[H| ->]| ->]| ->]; [by left|right..]; [exists 0|exists 1|exists 2]; unfold o; lia.
Qed.

Lemma differs_false m m' off n o :
  differs m m' off n = false -> off <= o < off + n -> m o = m' o.
Proof.
  intros Hd Ho. unfold differs in Hd.
  apply not_true_iff_false in Hd. rewrite existsb_exists in Hd.
  destruct (Z.eq_dec (m o) (m' o)) as [|Hne]; [done|]. exfalso. apply Hd.
  exists (Z.to_nat (o - off)). rewrite in_seq. split; [lia|].
  replace (off + Z.of_nat (Z.to_nat (o - off))) with o by lia.
  by rewrite (proj2 (Z.eqb_neq _ _) Hne).
Qed.

Lemma run_memcpy rd d rs s n f bd bs :
  get_buf rd f = Some bd -> get_buf rs f = Some bs -> 0 < n ->
  0 <= d -> d + n <= b_len bd -> 0 <= s -> s + n <= b_len bs ->
  memcpy rd d rs s n f = Ok (tt, set_buf rd (Some (Buf (b_len bd) (moved (b_at bd) (b_at bs) d s n))) f).
Proof.
  intros Hd Hs Hn Hd1 Hd2 Hs1 Hs2. unfold memcpy. rewrite run_bind. cbn [gets]. unfold id.
  rewrite Hd, Hs, run_bind. rewrite (proj2 (Z.eqb_neq n 0)) by lia. cbn [negb kassert ret].
  rewrite !in_buf_true by lia. done.
Qed.

(** Bringing the bytes from [off] on up to date. *)
Definition sync (off n : Z) : M fb unit :=
  let! d := memcmp Back0 Back1 off n in
  if d : bool then
    memcpy Front off Back0 off n >>>
    memcpy Back1 off Back0 off n
  else ret tt.

Lemma sync_cleans D s0 s d off n :
  fb_ok s0 -> state D s0 s d -> 0 < n -> 0 <= off -> off + n <= extent s0 ->
  exists d', sync off n d = Ok (tt, d') /\
    state (fun o => D o /\ ~ (off <= o < off + n)) s0 s d'.
Proof.
  intros Hok Hst Hn Hoff Hend. pose proof (extent_bound s0 Hok) as [Hpi _].
  destruct Hst as [Hs [Hg (f & f' & b0 & b1 & Hf & Hs0 & Hf' & Hb0 & Hb1 & L1 & L2 & L3 & L4 & Hm)]].
  assert (off + n <= (height s + 1) * pitch s) as Hfit.
  { rewrite <- (shape_extent s0 s Hs) in Hend. unfold extent in Hend. destruct Hs as (Hp & _). lia. }
  unfold sync, memcmp. rewrite !run_bind. cbn [gets get_buf id]. unfold id.
  rewrite Hb0, run_bind. cbn [some ret]. rewrite Hb1, run_bind. cbn [some ret].
  rewrite run_bind, (proj2 (Z.eqb_neq n 0)) by lia. cbn [negb kassert ret].
  rewrite !in_buf_true by lia. cbn [andb ret].
  rewrite (shape_extent s0 s Hs) in Hm. destruct (differs (b_at b0) (b_at b1) off n) eqn:Ed.
  - rewrite run_bind. erewrite run_memcpy; [|exact Hf'|exact Hb0|lia..].
    erewrite run_memcpy; [|exact Hb1|exact Hb0|lia..].
    eexists. split; [reflexivity|]. split; [done|]. split; [exact Hg|].
    eexists _, _, _, _. cbn. do 5 (split; [done|]). cbn. do 4 (split; [done|]).
    rewrite (shape_extent s0 s Hs). intros o Ho. destruct (Hm o Ho) as (H0 & H1 & H2).
    split; [done|]. unfold moved. replace (o - off + off) with o by lia.
    destruct ((off <=? o) && (o <? off + n)) eqn:Er; [done|]. split; [done|]. intros HD. apply H2.
    intros HDo. apply HD. split; [done|]. lia.
  - exists d. split; [done|]. split; [done|]. split; [done|]. exists f, f', b0, b1.
    do 9 (split; [done|]). rewrite (shape_extent s0 s Hs). intros o Ho.
    destruct (Hm o Ho) as (H0 & H1 & H2). split; [done|]. split; [done|]. intros HD.
    destruct (decide (off <= o < off + n)) as [Hin|Hout].
    + rewrite <- H1. symmetry. by apply (differs_false _ _ off n).
    + apply H2. intros HDo. by apply HD.
Qed.

(** Loops of the second run alone. *)
Lemma run_for_up_right (I : Z -> fb -> Prop) (g : Z -> M fb unit) n : forall i d,
  I i d -> (forall j d', i <= j < i + Z.of_nat n -> I j d' -> exists d'', g j d' = Ok (tt, d'') /\ I (j + 1) d'') ->
  exists d', for_up n i g d = Ok (tt, d') /\ I (i + Z.of_nat n) d'.
Proof.
  induction n as [|n IH]; intros i d HI Hb.
  - exists d. replace (i + Z.of_nat 0) with i by lia. done.
  - destruct (Hb i d ltac:(lia) HI) as (d1 & Hg & HI1).
    destruct (IH (i + 1) d1 HI1) as (d2 & Hg2 & HI2).
    { intros j d' Hj. apply Hb. lia. }
    exists d2. rewrite for_up_S, run_bind, Hg. split; [done|].
    by replace (i + Z.of_nat (S n)) with (i + 1 + Z.of_nat n) by lia.
Qed.

Definition nowhere : Z -> Prop := fun _ => False.

Lemma both_copy_to_front D s0 s d :
  fb_ok s0 -> state D s0 s d ->
  both framebuffer_copy_to_front framebuffer_copy_to_front
    (fun _ _ => state nowhere s0) s d.
Proof.
  intros Hok Hst. destruct (extent_bound s0 Hok) as [Hpi Hext].
  destruct (state_geo D s0 s d Hst) as (Ep & Ew & Eh & Eb & Ep' & Ew' & Eh' & Eb').
  pose proof Hst as [_ [_ (f & f' & b0 & b1 & Hf & Hs0 & Hf' & Hb0 & Hb1 & _)]].
  unfold framebuffer_copy_to_front. apply both_bind, both_gets. unfold id. rewrite Hs0, Hb0, Hb1, Ep', Eh'.
  pose proof (ok_height s0 Hok) as Hh.
  destruct (run_for_up_right (fun y d' => state (fun o => D o /\ y * pitch s0 <= o) s0 s d')
    (fun y => sync (u32 (y * pitch s0)) (pitch s0)) (Z.to_nat (height s0)) 0 d) as (d' & Hrun & Hd').
  - eapply state_weaken; [|exact Hst]. intros o Ho HD. split; [done|lia].
  - intros y d1 Hy H1. unfold extent in Hext.
    assert ((y + 1) * pitch s0 <= height s0 * pitch s0) by nia.
    rewrite u32_small by (unfold is_u32; nia).
    destruct (sync_cleans _ s0 s d1 (y * pitch s0) (pitch s0) Hok H1) as (d2 & Hr2 & H2);
      [lia|nia|unfold extent; lia|].
    exists d2. split; [exact Hr2|]. eapply state_weaken; [|exact H2].
    intros o Ho [[HD Hlo] Hn]. split; [done|]. lia.
  - eapply both_right; [exact Hrun|]. eapply state_weaken; [|exact Hd'].
    intros o Ho [_ Hlo]. unfold extent in Ho. lia.
Qed.

(** The pixels of the character at [(x, y)] from row [dy] and column [dx] on. *)
Definition glyph_rest (s0 : fb) (x y dy dx o : Z) : Prop :=
  exists i j, 0 <= i < 8 /\ 0 <= j < 8 /\ (dy < i \/ dy = i /\ dx <= j) /\ pixel s0 (x + j) (y + i) o.

Lemma both_copy_region s0 s d x y :
  fb_ok s0 -> 0 <= x -> x + 8 <= width s0 -> 0 <= y -> y + 8 <= height s0 ->
  state (glyph_rest s0 x y 0 0) s0 s d ->
  both (framebuffer_copy_region_if_needed x y 8 8) (framebuffer_copy_region_if_needed x y 8 8)
    (fun _ _ => state nowhere s0) s d.
Proof.
  intros Hok Hx Hx8 Hy Hy8 Hst. destruct (extent_bound s0 Hok) as [Hpi Hext].
  pose proof Hst as [_ [_ (f & f' & b0 & b1 & Hf & Hs0 & Hf' & Hb0 & Hb1 & _)]].
  unfold framebuffer_copy_region_if_needed. apply both_bind, both_gets. unfold id. rewrite Hs0, Hb0, Hb1.
  destruct (run_for_up_right (fun dy d' => state (glyph_rest s0 x y dy 0) s0 s d')
    (fun dy => for_up (Z.to_nat 8) 0 (fun dx => copy_pixel x y dy dx)) (Z.to_nat 8) 0 d)
    as (d' & Hrun & Hd'); [exact Hst| |].
  - intros dy d1 Hdy H1.
    destruct (run_for_up_right (fun dx d' => state (glyph_rest s0 x y dy dx) s0 s d')
      (fun dx => copy_pixel x y dy dx) (Z.to_nat 8) 0 d1 H1) as (d2 & Hrun2 & H2).
    + intros dx d2 Hdx H2. destruct (state_geo _ s0 s d2 H2) as (_ & _ & _ & _ & Ep' & _ & _ & Eb').
      pose proof (pixel_range s0 (x + dx) (y + dy) Hok ltac:(lia) ltac:(lia)) as (Hr1 & Hr2 & Hr3).
      pose proof (ok_px s0 Hok).
      destruct (sync_cleans _ s0 s d2 ((y + dy) * pitch s0 + (x + dx) * px s0) (px s0) Hok H2)
        as (d3 & Hr & H3); [lia..|]. exists d3. split.
      * unfold copy_pixel. rewrite run_bind. cbn [gets]. unfold id. rewrite Ep', Eb'.
        change (bpp s0 / 8) with (px s0). rewrite u32_small by (unfold is_u32; lia). exact Hr.
      * eapply state_weaken; [|exact H3]. intros o _ [(i & j & Hi & Hj & Hlt & k & Hk & ->) Hn].
        exists i, j. split; [done|]. split; [done|]. split; [|by exists k].
        destruct Hlt as [|[-> Hle]]; [by left|right]. split; [done|].
        destruct (Z.eq_dec dx j) as [->|]; [|lia]. destruct Hn. lia.
    + exists d2. split; [exact Hrun2|]. eapply state_weaken; [|exact H2].
      intros o _ (i & j & Hi & Hj & Hlt & Hp). exists i, j. repeat split; try done; lia.
  - eapply both_right; [exact Hrun|]. eapply state_weaken; [|exact Hd'].
    intros o _ (i & j & Hi & Hj & Hlt & _). lia.
Qed.

Lemma both_put_c_at s0 s d c x y :
  fb_ok s0 -> 0 <= x -> x + 8 <= width s0 -> 0 <= y -> y + 8 <= height s0 -> state nowhere s0 s d ->
  both (put_c_at c x y) (put_c_at c x y) (fun _ _ => state nowhere s0) s d.
Proof.
  intros Hok Hx Hx8 Hy Hy8 Hst. unfold put_c_at. apply both_bind.
  pose proof (ok_width s0 Hok). pose proof (ok_height s0 Hok).
  eapply both_mono; [apply (both_for_up (fun _ => state (glyph_rest s0 x y 0 0) s0))|cbv beta; intros _ _].
  - eapply state_weaken; [|exact Hst]. by intros o _ [].
  - intros i s1 d1 Hi H1. apply (both_for_up (fun _ => state (glyph_rest s0 x y 0 0) s0)); [done|].
    intros j s2 d2 Hj H2.
    assert (forall v, both (framebuffer_setpixel (u32 (x + j)) (u32 (y + i)) v)
      (framebuffer_setpixel (u32 (x + j)) (u32 (y + i)) v)
      (fun _ _ => state (glyph_rest s0 x y 0 0) s0) s2 d2) as Hset; [|by destruct (glyph_bit c i j)].
    intros v. rewrite !u32_small by (unfold is_u32; lia).
    both_apply (both_setpixel _ s0 s2 d2 (x + j) (y + i) v Hok H2); [lia|lia|].
    intros s3 d3 H3. eapply state_weaken; [|exact H3]. intros o _ [Hr|Hp]; [done|].
    exists i, j. repeat split; try lia. done.
  - intros s1 d1 H1. by apply both_copy_region.
Qed.

(** Moving a line up: what the back buffer and the other terminal draw on
    stay equal; everything may be out of date. *)
Lemma both_move_line s0 s d y :
  fb_ok s0 -> state (fun _ => True) s0 s d -> 0 <= y < height s0 - 8 ->
  both (memcpy Front (y * pitch s0) Front ((y + 8) * pitch s0) (pitch s0))
       (memcpy Back0 (y * pitch s0) Back0 ((y + 8) * pitch s0) (pitch s0))
    (fun _ _ => state (fun _ => True) s0) s d.
Proof.
  intros Hok [Hs [Hg (f & f' & b0 & b1 & Hf & Hs0 & Hf' & Hb0 & Hb1 & L1 & L2 & L3 & L4 & Hm)]] Hy.
  destruct (extent_bound s0 Hok) as [Hpi Hext].
  assert ((y + 8 + 1) * pitch s0 <= extent s0) as Hle by (unfold extent; nia).
  assert (0 <= y * pitch s0) by nia.
  assert (extent s0 + pitch s0 = (height s + 1) * pitch s) as He.
  { rewrite <- (shape_extent s0 s Hs). unfold extent. destruct Hs as (Hp & _). lia. }
  eexists tt, _, tt, _. split; [eapply run_memcpy; [exact Hf|exact Hf|lia..]|].
  split; [eapply run_memcpy; [exact Hb0|exact Hb0|lia..]|]. split; [done|]. split; [done|].
  eexists _, _, _, _. cbn. do 5 (split; [done|]). cbn. do 4 (split; [done|]).
  intros o Ho. change (0 <= o < extent s) in Ho. destruct (Hm o Ho) as (M0 & M1 & _).
  rewrite (shape_extent s0 s Hs) in Ho, Hm.
  split; [|split; [done|intros HT; by destruct (HT I)]].
  unfold moved. destruct ((y * pitch s0 <=? o) && (o <? y * pitch s0 + pitch s0)) eqn:Er; [|done].
  apply Hm. lia.
Qed.

Lemma both_scroll s0 s d :
  fb_ok s0 -> state nowhere s0 s d ->
  both framebuffer_scroll framebuffer_scroll (fun _ _ => state nowhere s0) s d.
Proof.
  intros Hok Hst. destruct (extent_bound s0 Hok) as [Hpi Hext].
  pose proof (ok_width s0 Hok). pose proof (ok_height s0 Hok) as Hh.
  destruct (state_geo _ s0 s d Hst) as (Ep & Ew & Eh & Eb & Ep' & Ew' & Eh' & Eb').
  destruct (target_state _ _ _ _ Hst) as [Ts Td].
  unfold framebuffer_scroll. apply both_bind, both_gets. unfold id.
  rewrite Ep, Ew, Eh, Ep', Ew', Eh', Ts, Td. rewrite u32_small by (unfold is_u32; lia). apply both_bind.
  eapply both_mono; [apply (both_for_up (fun _ => state (fun _ => True) s0))|cbv beta; intros _ _].
  - by eapply state_weaken; [|exact Hst].
  - intros y s1 d1 Hy H1. rewrite !u32_small by (unfold is_u32, extent in *; nia).
    apply both_move_line; [done|done|lia].
  - intros s1 d1 H1. apply both_bind.
    eapply both_mono; [apply (both_for_up (fun _ => state (fun _ => True) s0))|cbv beta; intros _ _];
      [exact H1| |].
    + intros x s2 d2 Hx H2. apply (both_for_up (fun _ => state (fun _ => True) s0)); [done|].
      intros y s3 d3 Hy H3. rewrite u32_small by (unfold is_u32; lia).
      both_apply (both_setpixel _ s0 s3 d3 x (height s0 - y - 1) _ Hok H3); [lia|lia|].
      intros s4 d4 H4. by eapply state_weaken; [|exact H4].
    + intros s2 d2 H2. by eapply both_copy_to_front.
Qed.

(** ** Whole characters *)

Definition geo (s0 s : fb) : Prop :=
  pitch s = pitch s0 /\ width s = width s0 /\ height s = height s0 /\ bpp s = bpp s0.

Lemma geo_ok s0 s : geo s0 s -> fb_ok s0 -> fb_ok s.
Proof. intros (Hp & Hw & Hh & Hb) []. by split; unfold px in *; rewrite ?Hp, ?Hw, ?Hh, ?Hb. Qed.

Lemma mirrors_state D s d : mirrors D s d -> state D s s d.
Proof. intros Hm. by split. Qed.

Lemma mirrors_cursor D s d x y : mirrors D s d -> mirrors D (set_cursor x y s) (set_cursor x y d).
Proof. intros [(? & ? & ? & ? & _) Hb]. split; [done|exact Hb]. Qed.

(** The two terminals agree between characters. *)
Definition paired (s0 s d : fb) : Prop := geo s0 s /\ cursor_ok s /\ mirrors nowhere s d.

Lemma both_wrap s0 s d :
  fb_ok s0 -> geo s0 s -> mirrors nowhere s d ->
  0 <= cursor_x s -> 0 <= cursor_y s <= height s / 8 ->
  (width s / 8 <= cursor_x s -> cursor_y s < height s / 8) ->
  both framebuffer_wrap framebuffer_wrap (fun _ _ => paired s0) s d.
Proof.
  intros Hok0 Hgeo Hm Hx Hy Hxy. pose proof (geo_ok s0 s Hgeo Hok0) as Hok.
  pose proof (ok_width s Hok) as Hw. pose proof (ok_height s Hok) as Hh.
  assert (1 <= width s / 8) as Hw8 by (apply Z.div_le_lower_bound; lia).
  assert (1 <= height s / 8) as Hh8 by (apply Z.div_le_lower_bound; lia).
  assert (height s / 8 <= height s) as Hhh by (apply Z.div_le_upper_bound; lia).
  pose proof Hm as [(Ep & Ew & Eh & Eb & Ex & Ey) _].
  unfold framebuffer_wrap. apply both_bind, both_gets. unfold id. rewrite <- Ew, <- Ex, <- Ey.
  apply both_bind.
  apply (both_mono _ _ (fun _ _ s1 d1 => geo s0 s1 /\ mirrors nowhere s1 d1 /\
    0 <= cursor_x s1 < width s1 / 8 /\ 0 <= cursor_y s1 <= height s1 / 8)).
  { destruct (Z.leb_spec (width s / 8) (cursor_x s)) as [Hge|Hlt].
    - apply both_modify. split; [exact Hgeo|]. split; [by apply mirrors_cursor|]. cbn.
      specialize (Hxy Hge). rewrite u32_small by (unfold is_u32; lia). lia.
    - apply both_ret. split; [exact Hgeo|]. split; [exact Hm|]. lia. }
  clear - Hok0. intros _ _ s d (Hgeo & Hm & Hx & Hy). pose proof (geo_ok s0 s Hgeo Hok0) as Hok.
  pose proof (ok_height s Hok) as Hh.
  assert (1 <= height s / 8) as Hh8 by (apply Z.div_le_lower_bound; lia).
  assert (height s / 8 <= height s) as Hhh by (apply Z.div_le_upper_bound; lia).
  pose proof Hm as [(Ep & Ew & Eh & Eb & Ex & Ey) _].
  apply both_bind, both_gets. rewrite <- Eh, <- Ey.
  destruct (Z.leb_spec (height s / 8) (cursor_y s)) as [Hge|Hlt].
  - apply both_bind. both_apply (both_scroll s s d Hok (mirrors_state _ _ _ Hm)).
    intros s1 d1 [(Hp1 & Hw1 & Hh1 & Hb1 & Hcx & Hcy) Hm1]. apply both_modify.
    rewrite u32_small by (unfold is_u32; lia). destruct Hgeo as (? & ? & ? & ?).
    split; [split_and!; cbn; congruence|]. split; [|by apply mirrors_cursor]. split; cbn.
    + rewrite Hw1. lia.
    + rewrite Hh1. lia.
  - apply both_ret. split; [exact Hgeo|]. split; [|exact Hm]. split; [exact Hx|lia].
Qed.

Lemma both_putc_with s0 cr c s d :
  fb_ok s0 -> paired s0 s d ->
  (c = 10 -> both cr cr (fun _ _ s' d' => paired s0 s' d' /\ cursor_y s' = cursor_y s) s d) ->
  both (framebuffer_putc_with cr c) (framebuffer_putc_with cr c) (fun _ _ => paired s0) s d.
Proof.
  intros Hok0 (Hgeo & [Hx Hy] & Hm) Hcr. pose proof (geo_ok s0 s Hgeo Hok0) as Hok.
  pose proof (ok_width s Hok) as Hw. pose proof (ok_height s Hok) as Hh.
  assert (width s / 8 * 8 <= width s) as Hw8 by (pose proof (Z.mul_div_le (width s) 8); lia).
  assert (height s / 8 * 8 <= height s) as Hh8 by (pose proof (Z.mul_div_le (height s) 8); lia).
  pose proof Hm as [(Ep & Ew & Eh & Eb & Ex & Ey) (f & f' & b0 & b1 & Hf & _ & Hf' & _)].
  unfold framebuffer_putc_with. apply both_bind, both_gets. unfold id. rewrite Hf, Hf', <- Ex, <- Ey.
  apply both_bind.
  apply (both_mono _ _ (fun _ _ s1 d1 => geo s0 s1 /\ mirrors nowhere s1 d1 /\ 0 <= cursor_x s1 /\
    0 <= cursor_y s1 <= height s1 / 8 /\ (width s1 / 8 <= cursor_x s1 -> cursor_y s1 < height s1 / 8))).
  2:{ intros _ _ s1 d1 (? & ? & ? & ? & ?). by apply both_wrap. }
  assert (forall x, 0 <= x -> geo s0 (set_cursor x (cursor_y s) s) /\
    mirrors nowhere (set_cursor x (cursor_y s) s) (set_cursor x (cursor_y s) d) /\ 0 <= x /\
    0 <= cursor_y s <= height s / 8 /\ (width s / 8 <= x -> cursor_y s < height s / 8)) as Hset.
  { intros x Hx0. split; [exact Hgeo|]. split; [by apply mirrors_cursor|]. lia. }
  destruct ((c =? 8) && (0 <? cursor_x s)) eqn:E8.
  { apply andb_true_iff in E8 as [_ E8%Z.ltb_lt]. apply both_modify.
    rewrite u32_small by (unfold is_u32; lia). refine (Hset _ _). lia. }
  destruct (Z.eqb_spec c 10) as [->|H10].
  { apply both_bind. both_apply Hcr; [done|]. intros s1 d1 ((Hg1 & [Hx1 Hy1] & Hm1) & Hcy).
    apply both_bind, both_gets. apply both_modify. pose proof Hm1 as [(_ & _ & _ & _ & _ & Ey1) _].
    rewrite <- Ey1. pose proof (geo_ok s0 s1 Hg1 Hok0) as Hok1. pose proof (ok_height s1 Hok1).
    assert (height s1 / 8 <= height s1) by (apply Z.div_le_upper_bound; lia).
    pose proof (ok_width s1 Hok1). assert (1 <= width s1 / 8) by (apply Z.div_le_lower_bound; lia).
    rewrite u32_small by (unfold is_u32; lia).
    split; [exact Hg1|]. split; [by apply mirrors_cursor|]. cbn. lia. }
  destruct (Z.eqb_spec c 13) as [->|H13]; [exact (both_modify _ _ _ s d (Hset 0 ltac:(lia)))|].
  destruct (Z.eqb_spec c 9) as [->|H9].
  { apply both_modify. rewrite u32_small by (unfold is_u32; lia). refine (Hset _ _). lia. }
  apply both_bind. rewrite !u32_small by (unfold is_u32; lia).
  both_apply (both_put_c_at s s d (u8 c) (cursor_x s * 8) (cursor_y s * 8) Hok);
    [lia|lia|lia|lia|by apply mirrors_state|].
  intros s1 d1 [(Hp1 & Hw1 & Hh1 & Hb1 & Hcx & Hcy) Hm1]. apply both_bind, both_gets, both_modify.
  pose proof Hm1 as [(_ & _ & _ & _ & Ex1 & Ey1) _]. rewrite <- Ex1, <- Ey1, Hcx, Hcy.
  rewrite u32_small by (unfold is_u32; lia). destruct Hgeo as (? & ? & ? & ?).
  split; [split_and!; cbn; congruence|]. split; [by apply mirrors_cursor|]. cbn. rewrite Hw1, Hh1. lia.
Qed.

Lemma both_putc s0 c s d :
  fb_ok s0 -> paired s0 s d ->
  both (framebuffer_putc c) (framebuffer_putc c) (fun _ _ => paired s0) s d.
Proof.
  intros Hok0 Hp. apply both_putc_with; [done|done|]. intros _.
  destruct Hp as (Hgeo & [Hx Hy] & Hm). pose proof (geo_ok s0 s Hgeo Hok0) as Hok.
  pose proof (ok_width s Hok). pose proof (ok_height s Hok).
  assert (1 <= width s / 8) by (apply Z.div_le_lower_bound; lia).
  pose proof Hm as [(Ep & Ew & Eh & Eb & Ex & Ey) (f & f' & b0 & b1 & Hf & _ & Hf' & _)].
  unfold framebuffer_putc_with. apply both_bind, both_gets. unfold id. rewrite Hf, Hf', <- Ey.
  cbn [Z.eqb Pos.eqb andb]. apply both_bind, both_modify. unfold framebuffer_wrap.
  apply both_bind, both_gets. unfold id. cbn [width cursor_x cursor_y set_cursor]. rewrite <- Ew.
  rewrite (proj2 (Z.leb_gt (width s / 8) 0)) by lia. apply both_bind, both_ret.
  apply both_bind, both_gets. cbn [height cursor_y set_cursor]. rewrite <- Eh.
  rewrite (proj2 (Z.leb_gt (height s / 8) (cursor_y s))) by lia. apply both_ret.
  split; [|done]. split; [exact Hgeo|]. split; [split; cbn; lia|]. by apply mirrors_cursor.
Qed.

Fixpoint framebuffer_puts (cs : list Z) : M fb unit :=
  match cs with
  | [] => ret tt
  | c :: cs' => framebuffer_putc c >>> framebuffer_puts cs'
  end.

Lemma both_puts s0 cs : forall s d,
  fb_ok s0 -> paired s0 s d ->
  both (framebuffer_puts cs) (framebuffer_puts cs) (fun _ _ => paired s0) s d.
Proof.
  induction cs as [|c cs IH]; intros s d Hok Hp; cbn [framebuffer_puts]; [by apply both_ret|].
  apply both_bind. both_apply (both_putc s0 c s d Hok Hp). intros s1 d1 Hp1. by apply IH.
Qed.

(** ** Properties *)

(** C21. Double buffering is invisible: after it is switched on, any text
    leaves exactly the picture on the screen that it would have left without
    it, byte for byte, with the cursor in the same place on the screen;
    neither run faults, panics or loops. *)
Theorem double_buffering_transparent (cs : list Z) (s : fb) (f a0 a1 : buf) :
  fb_ok s -> cursor_ok s -> vmem s = Some f -> backbuffer0 s = None ->
  (height s + 1) * pitch s <= b_len f ->
  (height s + 1) * pitch s <= b_len a0 -> (height s + 1) * pitch s <= b_len a1 ->
  exists s' d' f1 f2,
    framebuffer_puts cs s = Ok (tt, s') /\
    (framebuffer_enable_double_buffer (Some a0) (Some a1) >>> framebuffer_puts cs) s = Ok (tt, d') /\
    vmem s' = Some f1 /\ vmem d' = Some f2 /\
    (forall o, 0 <= o < extent s -> b_at f1 o = b_at f2 o) /\
    cursor_ok s' /\ cursor_x d' = cursor_x s' /\ cursor_y d' = cursor_y s'.
Proof.
  intros Hok Hcur Hf Hs0 Lf La0 La1. destruct (extent_bound s Hok) as [Hpi Hext].
  pose proof (ok_height s Hok) as Hh.
  assert (extent s + pitch s = (height s + 1) * pitch s) as He by (unfold extent; lia).
  set (n := (height s + 1) * pitch s) in *.
  set (s1 := set_buf Back1 (Some a1) (set_buf Back0 (Some a0) s)).
  set (s2 := set_buf Back0 (Some (Buf (b_len a0) (moved (b_at a0) (b_at f) 0 0 n))) s1).
  set (d := set_buf Back1 (Some (Buf (b_len a1)
    (moved (b_at a1) (moved (b_at a0) (b_at f) 0 0 n) 0 0 n))) s2).
  assert (framebuffer_enable_double_buffer (Some a0) (Some a1) s = Ok (tt, d)) as Hen.
  { unfold framebuffer_enable_double_buffer. rewrite run_bind. cbn [gets]. unfold id. rewrite Hf.
    rewrite (u32_small (height s + 1)) by (unfold is_u32; lia). rewrite u32_small by (unfold is_u32; lia).
    fold n. rewrite run_bind. cbn [modify]. rewrite run_bind. cbn [modify].
    rewrite run_bind. cbn [ret]. fold s1. rewrite run_bind.
    rewrite (run_memcpy Back0 0 Front 0 n s1 a0 f) by (done || lia). fold s2.
    by rewrite (run_memcpy Back1 0 Back0 0 n s2 a1 (Buf (b_len a0) (moved (b_at a0) (b_at f) 0 0 n)))
      by (done || (cbn; lia)). }
  assert (paired s s d) as Hp.
  { split; [done|]. split; [done|]. split; [done|]. eexists f, f, _, _. cbn.
    do 5 (split; [done|]). cbn. do 4 (split; [done|]). intros o Ho.
    assert (moved (b_at a0) (b_at f) 0 0 n o = b_at f o) as M0.
    { unfold moved. rewrite (proj2 (Z.leb_le 0 o)), (proj2 (Z.ltb_lt o (0 + n))) by lia.
      cbn [andb]. f_equal. lia. }
    rewrite M0. split; [done|]. split; [|done]. unfold moved at 1.
    rewrite (proj2 (Z.leb_le 0 o)), (proj2 (Z.ltb_lt o (0 + n))) by lia. cbn [andb].
    replace (o - 0 + 0) with o by lia. exact M0. }
  destruct (both_puts s cs s d Hok Hp) as (u & s' & u' & d' & Hrs & Hrd & Hgeo & Hcur' & Hm).
  destruct u, u'. pose proof Hm as [(_ & _ & _ & _ & Ex & Ey) (f1 & f2 & b0 & b1 & H1 & _ & H2 & _ & _ & _ & _ & _ & _ & Hb)].
  exists s', d', f1, f2. split; [done|]. split; [by rewrite run_bind, Hen|].
  split; [done|]. split; [done|]. split; [|done]. intros o Ho.
  assert (extent s' = extent s) as He' by (destruct Hgeo as (Hp' & _ & Hh' & _); unfold extent; by rewrite Hp', Hh').
  rewrite <- He' in Ho. destruct (Hb o Ho) as (H0 & _ & Hc). rewrite <- H0. symmetry. apply Hc. intros [].
Qed.

(** A screen of two by two characters with 32 bits per pixel. *)
Definition small_fb : fb :=
  Fb (Some (Buf (17 * 64) (fun _ => 0))) None None 64 16 16 32 0 0.
Definition small_back : buf := Buf (17 * 64) (fun _ => 7).
Definition sample_text : list Z := [65; 66; 8; 10; 9; 67; 13; 68; 69; 70].

Lemma double_buffering_transparent_witness :
  exists s' d' f1 f2,
    framebuffer_puts sample_text small_fb = Ok (tt, s') /\
    (framebuffer_enable_double_buffer (Some small_back) (Some small_back) >>>
       framebuffer_puts sample_text) small_fb = Ok (tt, d') /\
    vmem s' = Some f1 /\ vmem d' = Some f2 /\
    (forall o, 0 <= o < 16 * 64 -> b_at f1 o = b_at f2 o) /\
    cursor_ok s' /\ cursor_x d' = cursor_x s' /\ cursor_y d' = cursor_y s'.
Proof.
  apply (double_buffering_transparent sample_text small_fb (Buf (17 * 64) (fun _ => 0)) small_back small_back);
    repeat split; try reflexivity; vm_compute; discriminate.
Defined.
