(* ===== verification/Console.v ===== *)
(** * The console (kernel/console.c)

    Line editing between the serial port and the readers of /dev/tty, and
    formatted output.  Characters that [putc] sends to the text terminal, the
    framebuffer and the serial port are a trace; the characters that arrive at
    the serial port are a list, and waiting for one that never comes halts. *)
From stdpp Require Import strings.
From S2P Require Import Prelude Itoa Input.

Record console : Type := Console {
  c_typed : list Z;
  c_text : ringbuffer_t;
  c_out : list Z;
  c_mutex : bool;
}.

Definition set_typed (l : list Z) (c : console) : console := Console l (c_text c) (c_out c) (c_mutex c).
Definition set_text (r : ringbuffer_t) (c : console) : console := Console (c_typed c) r (c_out c) (c_mutex c).
Definition set_out (l : list Z) (c : console) : console := Console (c_typed c) (c_text c) l (c_mutex c).
Definition set_mutex (b : bool) (c : console) : console := Console (c_typed c) (c_text c) (c_out c) b.

Definition text_lens : lens console ringbuffer_t := Lens c_text set_text.

(** The address of [tty_node]. *)
Definition TTY_NODE : Z := 8.

Definition serial_getc : M console Z :=
  let! l := gets c_typed in
  match l with
  | [] => fail Halted
  | c :: l' => modify (set_typed l') >>> ret c
  end.

Definition getc : M console Z :=
  let! c := serial_getc in
  if c =? 13 then ret 10 else ret c.

Definition putc (c : Z) : M console unit :=
  modify (fun s => set_out (c_out s ++ [c]) s).

Definition console_init (buf : list Z) : M console unit :=
  modify (fun s => set_text (ringbuffer_init buf 2048 (c_text s)) s).

(** ** Line editing *)

(** The first loop of [buffer_fill]: the state is [i] and [tmp_buffer]. *)
Definition fill_round (it : Z * list Z) : M console ((Z * list Z) + list Z) :=
  let '(i, tmp) := it in
  if i <? 1024 then
    let! c := getc in
    kassert (negb (c =? 0)) >>>
    if (c =? 8) || (c =? 127) then
      putc 8 >>>
      ret (inl (if 0 <? i then i - 1 else i, tmp))
    else
      let! _ := some (zlookup tmp i) in
      let tmp := zinsert i c tmp in
      putc c >>>
      if c =? 10 then ret (inr tmp) else ret (inl (i + 1, tmp))
  else ret (inr tmp).

(** The second loop. *)
Definition flush_round (tmp : list Z) (i : Z) : M console (option unit) :=
  let! c := some (zlookup tmp i) in
  zoom text_lens (ringbuffer_write_byte c) >>>
  ret (if c =? 10 then Some tt else None).

(** [tmp] is what the uninitialised [tmp_buffer] holds. *)
Definition buffer_fill (tmp : list Z) : M console unit :=
  let! fuel := gets (fun s => S (length (c_typed s))) in
  let! tmp := loop fuel fill_round (0, tmp) in
  for_ret 1024 0 (flush_round tmp) >>> ret tt.

(** The end of [buffer_getc], when there is a character. *)
Definition text_getc : M console Z :=
  let! r := gets c_text in
  kassert (0 <? ringbuffer_unread r) >>>
  zoom text_lens semaphore_acquire >>>
  zoom text_lens ringbuffer_read_byte.

Definition buffer_getc (tmp : list Z) : M console Z :=
  let! r := gets c_text in
  (if ringbuffer_unread r =? 0 then buffer_fill tmp else ret tt) >>>
  text_getc.

(** [tty_read] answers the bytes it stored at [buf]. *)
Definition tty_read (tmp : list Z) (node size : Z) : M console (list Z) :=
  kassert (node =? TTY_NODE) >>>
  for_fold (Z.to_nat size) 0 [] (fun _ acc => let! c := buffer_getc tmp in ret (acc ++ [c])).

Definition tty_write (node : Z) (buf : list Z) (size : Z) : M console Z :=
  kassert (node =? TTY_NODE) >>>
  for_up (Z.to_nat size) 0 (fun i => let! c := some (zlookup buf i) in putc c) >>>
  ret size.

(** ** Formatted output *)

(** The characters of a string up to its NUL. *)
Fixpoint put_string (s : list Z) : M console unit :=
  match s with
  | [] => fail Fault
  | c :: s' => if c =? 0 then ret tt else putc c >>> put_string s'
  end.

(** A null pointer is [None]. *)
Definition puts (s : option (list Z)) : M console unit :=
  match s with
  | None => put_string (chars "(null)"%string ++ [0])
  | Some s => put_string s
  end.

(** Variable arguments. *)
Inductive va : Type :=
  | VInt (v : Z)
  | VStr (s : option (list Z)).

Definition va_int (args : list va) : M console (Z * list va) :=
  match args with VInt v :: args' => ret (v, args') | _ => fail Fault end.
Definition va_str (args : list va) : M console (option (list Z) * list va) :=
  match args with VStr s :: args' => ret (s, args') | _ => fail Fault end.

(** The digits of the width; the string ends with its NUL. *)
Fixpoint scan_width (width : Z) (fmt : list Z) : Z * list Z :=
  match fmt with
  | c :: fmt' =>
      if (48 <=? c) && (c <=? 57) then scan_width (u32 (u32 (width * 10) + (c - 48))) fmt'
      else (width, fmt)
  | [] => (width, fmt)
  end.

(** [utoa] or [itoa] into [buf], then [puts(buf)]. *)
Definition put_number (m : M (list Z) (option Z)) (buf : list Z) : M console (list Z) :=
  match m buf with
  | Ok (_, buf') => puts (Some buf') >>> ret buf'
  | Err e => fail e
  end.

(** The conversion [c]; answers the arguments left and [buf]. *)
Definition convert (c width : Z) (args : list va) (buf : list Z) : M console (list va * list Z) :=
  if c =? 37 then putc 37 >>> ret (args, buf)
  else if c =? 99 then let! '(v, args) := va_int args in putc (u8 v) >>> ret (args, buf)
  else if c =? 115 then let! '(s, args) := va_str args in puts s >>> ret (args, buf)
  else if (c =? 105) || (c =? 100) then
    let! '(v, args) := va_int args in
    let! buf := put_number (itoa (s32 v) 0 10 (s32 width)) buf in ret (args, buf)
  else if c =? 117 then
    let! '(v, args) := va_int args in
    let! buf := put_number (utoa (u32 v) 0 10 (s32 width)) buf in ret (args, buf)
  else if c =? 112 then
    let! '(v, args) := va_int args in
    puts (Some [42; 48; 120; 0]) >>>
    let! buf := put_number (utoa (u32 v) 0 16 (s32 width)) buf in ret (args, buf)
  else if c =? 120 then
    let! '(v, args) := va_int args in
    let! buf := put_number (utoa (u32 v) 0 16 (s32 width)) buf in ret (args, buf)
  else modify (set_mutex false) >>> fail AssertFail.

Definition mutex_lock : M console unit :=
  let! m := gets c_mutex in
  if m : bool then fail Halted else modify (set_mutex true).

(** One round of the loop over the format; [0] ends it. *)
Definition format_round (st : list Z * list va * list Z) : M console ((list Z * list va * list Z) + unit) :=
  let '(fmt, args, buf) := st in
  match fmt with
  | [] => fail Fault
  | c :: fmt' =>
      if c =? 0 then ret (inr tt)
      else if c =? 37 then
        match fmt' with
        | [] => fail Fault
        | c' :: _ =>
            kassert (negb (c' =? 0)) >>>
            let '(width, fmt') := scan_width 0 fmt' in
            let fmt' := match fmt' with c :: f => if c =? 108 then f else fmt' | [] => fmt' end in
            match fmt' with
            | [] => fail Fault
            | c' :: fmt'' =>
                let! '(args, buf) := convert c' width args buf in
                ret (inl (fmt'', args, buf))
            end
        end
      else putc c >>> ret (inl (fmt', args, buf))
  end.

(** [buf] is what the uninitialised local buffer holds. *)
Definition vprintf (buf fmt : list Z) (args : list va) : M console unit :=
  mutex_lock >>>
  loop (S (length fmt)) format_round (fmt, args, buf) >>>
  modify (set_mutex false).

(** ** What a line is *)

Definition norm (c : Z) : Z := if c =? 13 then 10 else c.

(** Characters typed, edited until a line is complete: the line, what was
    typed after it, and the echo.  A line ends with a newline or after 1024
    characters. *)
Fixpoint edit (line typed : list Z) : option (list Z * list Z * list Z) :=
  match typed with
  | [] => None
  | c :: ts =>
      let c := norm c in
      if (c =? 8) || (c =? 127) then
        match edit (removelast line) ts with
        | Some (l, rest, echo) => Some (l, rest, 8 :: echo)
        | None => None
        end
      else if (c =? 10) || (zlen line =? 1023) then Some (line ++ [c], ts, [c])
      else
        match edit (line ++ [c]) ts with
        | Some (l, rest, echo) => Some (l, rest, c :: echo)
        | None => None
        end
  end.

Lemma zlen_removelast {A} (l : list A) : zlen (removelast l) = if 0 <? zlen l then zlen l - 1 else 0.
Proof.
  destruct l as [|x l' _] using rev_ind; [done|]. rewrite removelast_last, zlen_app.
  change (zlen [x]) with 1. pose proof (zlen_nonneg l'). rewrite (proj2 (Z.ltb_lt 0 _)) by lia. lia.
Qed.

(** [l] starts with [p]. *)
Definition starts (p l : list Z) : Prop := exists r, l = p ++ r.

Lemma starts_removelast p l : starts p l -> starts (removelast p) l.
Proof.
  intros [r ->]. destruct p as [|x p' _] using rev_ind; [by exists r|].
  rewrite removelast_last. exists (x :: r). by rewrite <- app_assoc.
Qed.

Lemma starts_insert p l c :
  starts p l -> zlen p < zlen l -> starts (p ++ [c]) (zinsert (zlen p) c l).
Proof.
  intros [[|x r] ->] Hl; [rewrite app_nil_r in Hl; lia|]. rewrite zinsert_app_mid.
  exists r. by rewrite <- app_assoc.
Qed.

Lemma fill_edits typed : forall line tmp s fuel l rest echo,
  c_typed s = typed -> Forall (fun c => c <> 0) typed -> edit line typed = Some (l, rest, echo) ->
  starts line tmp -> zlen tmp = 1024 -> zlen line < 1024 -> (length typed < fuel)%nat ->
  wp (loop fuel fill_round (zlen line, tmp)) (fun tmp' s' =>
    starts l tmp' /\ zlen tmp' = 1024 /\ s' = set_out (c_out s ++ echo) (set_typed rest s)) never s.
Proof.
  induction typed as [|c ts IH]; intros line tmp s fuel l rest echo Ht HF He Hst Hz Hlt Hfuel; [done|].
  apply Forall_cons in HF as [Hc0 HF]. destruct fuel as [|fuel]; [cbn in Hfuel; lia|]. cbn in Hfuel.
  apply wp_loop_step. unfold fill_round, getc, serial_getc.
  rewrite (proj2 (Z.ltb_lt _ 1024)) by lia. wp_steps. rewrite Ht. wp_steps.
  apply (wp_mono _ (fun c' s' => c' = norm c /\ s' = set_typed ts s) _ never never); [|clear Ht|done].
  { unfold norm. destruct (c =? 13); by wp_steps. }
  intros c' s1 [-> ->]. cbn [edit] in He.
  assert (norm c <> 0) as Hn0 by (unfold norm; destruct (c =? 13); [done|done]).
  wp_step. wp_cond. rewrite (proj2 (Z.eqb_neq _ 0) Hn0). cbn [negb].
  destruct ((norm c =? 8) || (norm c =? 127)) eqn:E8.
  - destruct (edit (removelast line) ts) as [[[l1 r1] e1]|] eqn:Er; [|done]. injection He as -> -> <-.
    unfold putc. wp_steps.
    replace (if 0 <? zlen line then zlen line - 1 else zlen line) with (zlen (removelast line)).
    2:{ rewrite zlen_removelast. pose proof (zlen_nonneg line). destruct (Z.ltb_spec 0 (zlen line)); lia. }
    eapply wp_mono; [eapply (IH (removelast line) tmp _ fuel l rest e1); try done| |done].
    + by apply starts_removelast.
    + rewrite zlen_removelast. destruct (0 <? zlen line); lia.
    + lia.
    + intros tmp' s' (Hs' & Hz' & ->). split; [done|]. split; [done|]. cbn. by rewrite <- app_assoc.
  - pose proof (zlen_nonneg line). wp_cond.
    destruct (proj2 (zlookup_lt_is_Some tmp (zlen line))) as [x Hx]; [lia|]. rewrite Hx. unfold putc. wp_steps.
    pose proof (starts_insert line tmp (norm c) Hst ltac:(lia)) as Hst'.
    destruct (norm c =? 10) eqn:E10; cbn [orb] in He.
    { injection He as <- <- <-. wp_steps. split; [done|]. split; [by rewrite zlen_insert|done]. }
    wp_steps. replace (zlen line + 1) with (zlen (line ++ [norm c])) by (by rewrite zlen_app).
    destruct (Z.eqb_spec (zlen line) 1023) as [H1|H1].
    + injection He as <- <- <-. destruct fuel as [|fuel]; [lia|]. apply wp_loop_step. unfold fill_round.
      rewrite (proj2 (Z.ltb_ge _ 1024)) by (rewrite zlen_app; change (zlen [norm c]) with 1; lia).
      wp_steps. split; [done|]. split; [by rewrite zlen_insert|done].
    + destruct (edit (line ++ [norm c]) ts) as [[[l1 r1] e1]|] eqn:Er; [|done]. injection He as -> -> <-.
      eapply wp_mono; [eapply (IH (line ++ [norm c]) (zinsert (zlen line) (norm c) tmp) _ fuel l rest e1);
        try done| |done].
      * by rewrite zlen_insert.
      * rewrite zlen_app. change (zlen [norm c]) with 1. lia.
      * lia.
      * intros tmp' s' (Hs' & Hz' & ->). split; [done|]. split; [done|]. cbn. by rewrite <- app_assoc.
Qed.

(** A line ends at its first newline, or is as long as the buffer. *)
Definition complete (l : list Z) : Prop :=
  exists p c, l = p ++ [c] /\ Forall (fun x => x <> 10) p /\ (c = 10 \/ zlen l = 1024).

Lemma Forall_removelast {A} (P : A -> Prop) l : Forall P l -> Forall P (removelast l).
Proof.
  destruct l as [|x l _] using rev_ind; [done|]. rewrite removelast_last. by intros [? _]%Forall_app.
Qed.

Lemma edit_complete typed : forall line l rest echo,
  edit line typed = Some (l, rest, echo) -> Forall (fun x => x <> 10) line -> zlen line < 1024 ->
  complete l /\ 0 < zlen l <= 1024.
Proof.
  induction typed as [|c ts IH]; intros line l rest echo He HF Hl; [done|]. cbn in He.
  destruct ((norm c =? 8) || (norm c =? 127)).
  { destruct (edit (removelast line) ts) as [[[l1 r1] e1]|] eqn:Er; [|done]. injection He as -> -> <-.
    apply (IH _ _ _ _ Er); [by apply Forall_removelast|]. rewrite zlen_removelast.
    destruct (0 <? zlen line); lia. }
  pose proof (zlen_nonneg line). assert (zlen (line ++ [norm c]) = zlen line + 1) as Hz by (by rewrite zlen_app).
  destruct ((norm c =? 10) || (zlen line =? 1023)) eqn:E.
  - injection He as <- <- <-. split; [|lia]. exists line, (norm c). split; [done|]. split; [done|].
    apply orb_true_iff in E as [E|E]; [left; lia|right; lia].
  - destruct (edit (line ++ [norm c]) ts) as [[[l1 r1] e1]|] eqn:Er; [|done]. injection He as -> -> <-.
    apply orb_false_iff in E as [E1 E2]. apply (IH _ _ _ _ Er); [|lia].
    apply Forall_app. split; [done|]. constructor; [lia|constructor].
Qed.

(** The ring holds [cs], nobody waits. *)
Definition holds (cs : list Z) (s : console) : Prop :=
  represents (c_text s) (Fifo cs 0 0) /\ size (c_text s) = 2048.

Definition with_text (s s' : console) : Prop := exists r, s' = set_text r s.

Lemma wp_write_text c cs s (Q : unit -> console -> Prop) E :
  holds cs s -> zlen cs < 2048 ->
  (forall s', with_text s s' -> holds (cs ++ [c]) s' -> Q tt s') ->
  wp (zoom text_lens (ringbuffer_write_byte c)) Q E s.
Proof.
  intros [Hr Hsz] Hlt HQ. apply wp_zoom. change (lget text_lens s) with (c_text s).
  assert (spec_event (size (c_text s)) (Write c) (Fifo cs 0 0) = Some ([], Fifo (cs ++ [c]) 0 0)) as Hs.
  { cbn. by rewrite (proj2 (Z.ltb_lt _ _)) by lia. }
  pose proof (write_refines c _ _ _ _ Hr Hs) as Hw. cbn [run_event] in Hw. apply wp_bind in Hw.
  eapply wp_mono; [exact Hw| |by intros e []]. intros [] r' Hr'. apply wp_ret in Hr' as (_ & Hr' & Hsz').
  apply HQ; [by exists r'|]. split; [exact Hr'|]. cbn. congruence.
Qed.

Lemma flush_writes tmp todo : forall n before cs s,
  starts (before ++ todo) tmp -> todo <> [] -> (length todo <= n)%nat ->
  Forall (fun x => x <> 10) (removelast todo) ->
  (last todo = Some 10 \/ n = length todo) ->
  holds cs s -> zlen cs + zlen todo <= 2048 ->
  wp (for_ret n (zlen before) (flush_round tmp)) (fun _ s' => with_text s s' /\ holds (cs ++ todo) s') never s.
Proof.
  induction todo as [|c todo IH]; intros n before cs s [r Hr] Hne Hn HF Hlast Hh Hroom; [done|].
  destruct n as [|n]; [cbn in Hn; lia|]. cbn [length] in *. rewrite zlen_cons in Hroom.
  pose proof (zlen_nonneg todo). apply wp_for_ret_step. unfold flush_round at 1.
  assert (zlookup tmp (zlen before) = Some c) as Hc.
  { rewrite Hr, <- app_assoc. cbn [app]. apply zlookup_app_mid. }
  wp_cond. rewrite Hc. wp_step.
  apply (wp_write_text c cs); [done|lia|]. intros s1 Hs1 Hh1. wp_steps.
  destruct (Z.eqb_spec c 10) as [->|Hc10].
  { destruct todo as [|x todo]; [done|]. cbn in HF. by apply Forall_cons in HF as [? _]. }
  destruct todo as [|x todo].
  { destruct Hlast as [Hl|Hl]; [by injection Hl as ->|]. injection Hl as ->. apply wp_intro. by rewrite for_ret_O. }
  replace (zlen before + 1) with (zlen (before ++ [c])) by (by rewrite zlen_app).
  eapply wp_mono; [eapply (IH n (before ++ [c]) (cs ++ [c]) s1); try done| |done].
  - exists r. by rewrite Hr, <- !app_assoc.
  - cbn in *. lia.
  - cbn [removelast] in HF. by apply Forall_cons in HF as [_ HF].
  - destruct Hlast as [Hl|Hl]; [by left|right]. lia.
  - rewrite zlen_app. change (zlen [c]) with 1. lia.
  - intros _ s' [[r2 ->] Hh']. destruct Hs1 as [r1 ->]. split; [by exists r2|].
    by rewrite <- app_assoc in Hh'.
Qed.

Lemma complete_parts l : complete l -> l <> [] /\
  Forall (fun x => x <> 10) (removelast l) /\ (last l = Some 10 \/ zlen l = 1024).
Proof.
  intros (p & c & -> & HF & Hc). split; [by destruct p|]. rewrite removelast_last, last_snoc.
  split; [done|]. destruct Hc as [->|Hc]; [by left|by right].
Qed.

Lemma buffer_fill_line tmp s l rest echo :
  Forall (fun c => c <> 0) (c_typed s) -> edit [] (c_typed s) = Some (l, rest, echo) -> zlen tmp = 1024 ->
  holds [] s ->
  wp (buffer_fill tmp) (fun _ s' => holds l s' /\ c_typed s' = rest /\ c_out s' = c_out s ++ echo) never s.
Proof.
  intros HF He Hz Hh. destruct (edit_complete _ _ _ _ _ He) as [Hc Hlen]; [constructor|done|].
  destruct (complete_parts l Hc) as (Hne & HF' & Hlast).
  unfold buffer_fill. wp_steps. change (0, tmp) with (zlen (@nil Z), tmp).
  eapply wp_mono; [eapply (fill_edits (c_typed s) [] tmp s); try done; [by exists tmp|lia]| |done].
  intros tmp' s1 (Hst & Hz' & ->). wp_steps. change 0 with (zlen (@nil Z)).
  eapply wp_mono; [apply (flush_writes tmp' l 1024 [] []); try done| |done].
  - unfold zlen in Hlen. lia.
  - destruct Hlast as [?|Hl]; [by left|right]. unfold zlen in Hl. lia.
  - change (0 + zlen l <= 2048). lia.
  - intros _ s' [[r ->] Hh']. wp_steps. done.
Qed.

Lemma wp_text_getc c cs s (Q : Z -> console -> Prop) E :
  holds (c :: cs) s -> zlen (c :: cs) < 2048 ->
  (forall s', with_text s s' -> holds cs s' -> Q c s') ->
  wp (let! r := gets c_text in
      kassert (0 <? ringbuffer_unread r) >>>
      zoom text_lens semaphore_acquire >>> zoom text_lens ringbuffer_read_byte) Q E s.
Proof.
  intros [Hr Hsz] Hlt HQ. unfold text_getc. wp_step. rewrite zlen_cons in Hlt. pose proof (zlen_nonneg cs).
  assert (ringbuffer_unread (c_text s) = zlen (c :: cs)) as Hu.
  { apply (unread_represents _ _ Hr). rewrite Hsz. cbn [contents]. rewrite zlen_cons. lia. }
  wp_step. wp_cond. rewrite Hu, zlen_cons. rewrite (proj2 (Z.ltb_lt 0 _)) by lia.
  wp_step. apply wp_zoom. change (lget text_lens s) with (c_text s).
  assert (spec_event (size (c_text s)) Acquire (Fifo (c :: cs) 0 0) = Some ([], Fifo (c :: cs) 0 1)) as H1.
  { cbn [spec_event contents f_granted]. rewrite zlen_cons. by rewrite (proj2 (Z.ltb_lt _ _)) by lia. }
  pose proof (acquire_refines _ _ _ _ Hr H1) as Hw. cbn [run_event] in Hw. apply wp_bind in Hw.
  eapply wp_mono; [exact Hw| |by intros e []]. intros [] r1 Hr1. apply wp_ret in Hr1 as (_ & Hr1 & Hsz1).
  apply wp_zoom. change (lget text_lens (lset text_lens r1 s)) with r1.
  assert (spec_event (size r1) Read (Fifo (c :: cs) 0 1) = Some ([c], Fifo cs 0 0)) as H2 by done.
  pose proof (read_refines _ _ _ _ Hr1 H2) as Hw2. cbn [run_event] in Hw2. apply wp_bind in Hw2.
  eapply wp_mono; [exact Hw2| |by intros e []]. intros x r2 Hr2. apply wp_ret in Hr2 as ([= ->] & Hr2 & Hsz2).
  apply HQ; [by exists r2|]. split; [exact Hr2|]. cbn. congruence.
Qed.

Lemma holds_unread cs s : holds cs s -> zlen cs < 2048 -> ringbuffer_unread (c_text s) = zlen cs.
Proof. intros [Hr Hsz] Hlt. by apply (unread_represents _ _ Hr); rewrite Hsz. Qed.

(** Reading what the ring already holds. *)
Lemma read_held tmp l : forall n i acc s,
  holds l s -> zlen l < 2048 -> (n <= length l)%nat ->
  wp (for_fold n i acc (fun _ acc => let! c := buffer_getc tmp in ret (acc ++ [c])))
    (fun r s' => r = acc ++ take n l /\ holds (drop n l) s' /\ with_text s s') never s.
Proof.
  induction l as [|c l IH]; intros [|n] i acc s Hh Hlt Hn; cbn in Hn; try lia.
  - apply wp_intro. cbn. rewrite app_nil_r. split; [done|]. split; [done|]. exists (c_text s). by destruct s.
  - apply wp_intro. cbn. rewrite app_nil_r. split; [done|]. split; [done|]. exists (c_text s). by destruct s.
  - apply wp_for_fold_step. unfold buffer_getc. wp_steps.
    pose proof (holds_unread _ _ Hh Hlt) as Hu. rewrite zlen_cons in Hu, Hlt. pose proof (zlen_nonneg l).
    rewrite Hu, (proj2 (Z.eqb_neq _ 0)) by lia. wp_steps.
    apply (wp_text_getc c l); [done|rewrite zlen_cons; lia|].
    intros s1 [r1 ->] Hh1. wp_steps. eapply wp_mono; [apply IH; [exact Hh1|lia|lia]| |done].
    intros r s2 (-> & Hh2 & [r2 ->]). split; [by rewrite <- app_assoc|]. split; [done|]. by exists r2.
Qed.

(** ** Formatted output *)

(** What one is asked to print. *)
Inductive directive : Type :=
  | DChar (c : Z)
  | DPercent
  | DString (s : list Z)
  | DNull
  | DSigned (v width : Z)
  | DUnsigned (v width : Z)
  | DHex (v width : Z)
  | DPointer (v width : Z).

(** The width in decimal, nothing for 0. *)
Definition width_text (w : Z) : list Z := if w =? 0 then [] else numeral w 10 0.

Definition fmt_of (d : directive) : list Z :=
  match d with
  | DChar c => [c]
  | DPercent => [37; 37]
  | DString _ | DNull => [37; 115]
  | DSigned _ w => 37 :: width_text w ++ [100]
  | DUnsigned _ w => 37 :: width_text w ++ [117]
  | DHex _ w => 37 :: width_text w ++ [108; 120]
  | DPointer _ w => 37 :: width_text w ++ [112]
  end.

Definition args_of (d : directive) : list va :=
  match d with
  | DChar _ | DPercent => []
  | DString s => [VStr (Some (s ++ [0]))]
  | DNull => [VStr None]
  | DSigned v _ | DUnsigned v _ | DHex v _ | DPointer v _ => [VInt v]
  end.

Definition text_of (d : directive) : list Z :=
  match d with
  | DChar c => [c]
  | DPercent => [37]
  | DString s => s
  | DNull => chars "(null)"%string
  | DSigned v w => (if v <? 0 then [45] else []) ++ numeral (Z.abs v) 10 w
  | DUnsigned v w => numeral v 10 w
  | DHex v w => numeral v 16 w
  | DPointer v w => [42; 48; 120] ++ numeral v 16 w
  end.

(** Widths fit the local buffer, numbers their type; a literal character is
    not a percent sign, and strings hold no NUL. *)
Definition directive_ok (d : directive) : Prop :=
  match d with
  | DChar c => c <> 0 /\ c <> 37
  | DPercent | DNull => True
  | DString s => Forall (fun c => c <> 0) s
  | DSigned v w => - 2 ^ 31 <= v < 2 ^ 31 /\ 0 <= w < 255
  | DUnsigned v w | DHex v w | DPointer v w => is_u32 v /\ 0 <= w < 255
  end.

Lemma scan_width_parse s : forall acc v rest,
  parse 10 acc s = Some v -> (forall c r, rest = c :: r -> c < 48 \/ 57 < c) ->
  scan_width (u32 acc) (s ++ rest) = (u32 v, rest).
Proof.
  induction s as [|c s IH]; intros acc v rest Hp Hrest; cbn in Hp |- *.
  { injection Hp as ->. destruct rest as [|c r]; [done|]. cbn. specialize (Hrest c r eq_refl).
    destruct (Z.leb_spec 48 c), (Z.leb_spec c 57); cbn; done || lia. }
  unfold digit_of_char in Hp. destruct ((48 <=? c) && (c <=? 57)) eqn:E; cbn in Hp.
  - destruct (Z.ltb_spec (c - 48) 10) as [Hlt|]; [|done].
    rewrite <- (IH (acc * 10 + (c - 48)) v rest Hp Hrest). f_equal. unfold u32.
    by rewrite Z.mul_mod_idemp_l, Z.add_mod_idemp_l by lia.
  - destruct ((97 <=? c) && (c <=? 122)) eqn:E2; cbn in Hp; [|done].
    apply andb_true_iff in E2 as [H1%Z.leb_le H2%Z.leb_le].
    by rewrite (proj2 (Z.ltb_ge _ _)) in Hp by lia.
Qed.

Lemma scan_width_text w rest :
  is_u32 w -> (forall c r, rest = c :: r -> c < 48 \/ 57 < c) ->
  scan_width 0 (width_text w ++ rest) = (w, rest).
Proof.
  intros Hw Hrest. unfold width_text. destruct (Z.eqb_spec w 0) as [->|Hne].
  - destruct rest as [|c r]; [done|]. cbn. specialize (Hrest c r eq_refl).
    destruct (Z.leb_spec 48 c), (Z.leb_spec c 57); cbn; done || lia.
  - change 0 with (u32 0) at 1. rewrite (scan_width_parse _ 0 w rest); [|by apply parse_numeral|done].
    by rewrite u32_small.
Qed.

Lemma run_put_string l r : forall s,
  Forall (fun c => c <> 0) l -> put_string (l ++ 0 :: r) s = Ok (tt, set_out (c_out s ++ l) s).
Proof.
  induction l as [|c l IH]; intros s HF; cbn.
  - rewrite app_nil_r. by destruct s.
  - apply Forall_cons in HF as [Hc HF]. rewrite (proj2 (Z.eqb_neq c 0) Hc), run_bind. cbn [putc modify].
    unfold putc, modify. rewrite IH by done. cbn. by rewrite <- app_assoc.
Qed.

Lemma run_puts_null s : puts None s = Ok (tt, set_out (c_out s ++ text_of DNull) s).
Proof. apply (run_put_string (text_of DNull) []). by repeat constructor. Qed.

Lemma run_put_number m buf text rest x s :
  m buf = Ok (x, text ++ 0 :: rest) -> Forall (fun c => c <> 0) text ->
  put_number m buf s = Ok (text ++ 0 :: rest, set_out (c_out s ++ text) s).
Proof.
  intros Hm HF. unfold put_number. rewrite Hm, run_bind. unfold puts. by rewrite run_put_string.
Qed.

Lemma numeral_no_nul v base width : 2 <= base <= 36 -> 0 <= v -> Forall (fun c => c <> 0) (numeral v base width).
Proof. intros Hb Hv. eapply Forall_impl; [by apply numeral_nonzero|]. cbn. lia. Qed.

Lemma s32_small z : 0 <= z < 2 ^ 31 -> s32 z = z.
Proof.
  intros Hz. unfold s32. rewrite u32_small by (unfold is_u32; lia). by rewrite (proj2 (Z.ltb_lt _ _)) by lia.
Qed.

Lemma s32_signed z : - 2 ^ 31 <= z < 2 ^ 31 -> s32 z = z.
Proof.
  intros Hz. destruct (Z.lt_ge_cases z 0); [|apply s32_small; lia]. unfold s32.
  assert (u32 z = z + 2 ^ 32) as ->.
  { unfold u32. rewrite <- (Z.mod_add z 1) by lia. apply Z.mod_small. lia. }
  rewrite (proj2 (Z.ltb_ge _ _)) by lia. lia.
Qed.

Lemma put_unsigned v base width buf s :
  2 <= base <= 36 -> is_u32 v -> 0 <= width < 255 -> zlen buf = 256 ->
  exists buf', put_number (utoa (u32 v) 0 base (s32 width)) buf s =
    Ok (buf', set_out (c_out s ++ numeral v base width) s) /\ zlen buf' = 256.
Proof.
  intros Hb Hv Hw Hbuf. rewrite u32_small, s32_small by (done || lia).
  pose proof (wp_utoa v base width [] buf Hb Hv ltac:(lia) ltac:(lia)) as Hu.
  apply wp_never_run in Hu as (r & b & Hrun & _ & rest & -> & Hl). cbn [app] in *.
  eexists. split; [eapply run_put_number; [exact Hrun|]|].
  - apply numeral_no_nul; [done|apply Hv].
  - unfold zlen in *. lia.
Qed.

Lemma put_signed v width buf s :
  - 2 ^ 31 <= v < 2 ^ 31 -> 0 <= width < 255 -> zlen buf = 256 ->
  exists buf', put_number (itoa (s32 v) 0 10 (s32 width)) buf s =
    Ok (buf', set_out (c_out s ++ (if v <? 0 then [45] else []) ++ numeral (Z.abs v) 10 width) s) /\
    zlen buf' = 256.
Proof.
  intros Hv Hw Hbuf. rewrite s32_signed, s32_small by lia.
  pose proof (wp_itoa v 10 width [] buf ltac:(lia) Hv ltac:(lia) ltac:(lia)) as Hu.
  apply wp_never_run in Hu as (r & b & Hrun & _ & rest & -> & Hl). cbn [app] in *.
  change (10 =? 10) with true in *. cbn [andb] in *.
  replace (if v <? 0 then - v else u32 v) with (Z.abs v) in *.
  2:{ destruct (Z.ltb_spec v 0); [lia|]. rewrite u32_small by (unfold is_u32; lia). lia. }
  eexists. rewrite app_assoc in Hrun, Hl. split; [eapply run_put_number; [exact Hrun|]|].
  - apply Forall_app. split; [by destruct (v <? 0); repeat constructor|]. apply numeral_no_nul; lia.
  - unfold zlen in *. lia.
Qed.

(** One directive, with something that is not a digit or an [l] behind the
    width. *)
Lemma format_number d v w c f a buf s m :
  fmt_of d = 37 :: width_text w ++ m ++ [c] -> (m = [108] \/ m = [] /\ c <> 108) -> args_of d = [VInt v] ->
  is_u32 w -> 57 < c ->
  format_round (fmt_of d ++ f, args_of d ++ a, buf) s =
  (let! '(args, buf) := convert c w (VInt v :: a) buf in ret (inl (f, args, buf))) s.
Proof.
  intros Hf Hm Ha Hw Hc. rewrite Hf, Ha. unfold format_round. cbn [app].
  change (37 =? 0) with false. change (37 =? 37) with true. cbv iota.
  assert (exists c' x, (width_text w ++ m ++ [c]) ++ f = c' :: x /\ c' <> 0) as (c' & x & Hx & Hc').
  { assert (Forall (fun c => c <> 0) (width_text w ++ m ++ [c])) as HF.
    { apply Forall_app. split.
      - unfold width_text. destruct (w =? 0); [constructor|]. apply numeral_no_nul; [lia|apply Hw].
      - apply Forall_app. split; [destruct Hm as [->|[-> _]]; by repeat constructor|].
        constructor; [lia|constructor]. }
    destruct (width_text w ++ m ++ [c]) as [|c' x] eqn:E; [by destruct (width_text w), m|].
    apply Forall_cons in HF as [? _]. by exists c', (x ++ f). }
  rewrite Hx, run_bind, (proj2 (Z.eqb_neq c' 0) Hc'). cbn [negb kassert ret]. rewrite <- Hx, <- app_assoc.
  rewrite scan_width_text; [|exact Hw|].
  - destruct Hm as [->|[-> Hne]]; cbn [app]; [done|].
    by rewrite (proj2 (Z.eqb_neq c 108) Hne).
  - intros c2 r Hr. destruct Hm as [->|[-> _]]; cbn in Hr; injection Hr as <- _; lia.
Qed.

Lemma format_directive d f a buf s :
  directive_ok d -> zlen buf = 256 ->
  exists buf', format_round (fmt_of d ++ f, args_of d ++ a, buf) s =
    Ok (inl (f, a, buf'), set_out (c_out s ++ text_of d) s) /\ zlen buf' = 256.
Proof.
  intros Hok Hbuf. destruct d as [c| |l| |v w|v w|v w|v w].
  - destruct Hok as [H0 H37]. exists buf. split; [|done]. cbn.
    by rewrite (proj2 (Z.eqb_neq c 0) H0), (proj2 (Z.eqb_neq c 37) H37).
  - by exists buf.
  - exists buf. split; [|done]. cbn -[put_string]. rewrite !run_bind. cbn -[put_string].
    rewrite run_bind. unfold puts. by rewrite run_put_string.
  - exists buf. split; [|done]. cbn -[puts text_of]. rewrite !run_bind. cbn -[puts text_of].
    by rewrite run_bind, run_puts_null.
  - destruct Hok as [Hv Hw]. rewrite (format_number _ v w 100 f a buf s []); try done; [|by right|unfold is_u32; lia].
    destruct (put_signed v w buf s Hv Hw Hbuf) as (buf' & Hrun & Hl). exists buf'. split; [|done].
    change (convert 100 w (VInt v :: a) buf) with
      (let! buf := put_number (itoa (s32 v) 0 10 (s32 w)) buf in ret (a, buf)).
    by rewrite !run_bind, Hrun.
  - destruct Hok as [Hv Hw]. rewrite (format_number _ v w 117 f a buf s []); try done; [|by right|unfold is_u32; lia].
    destruct (put_unsigned v 10 w buf s ltac:(lia) Hv Hw Hbuf) as (buf' & Hrun & Hl). exists buf'. split; [|done].
    change (convert 117 w (VInt v :: a) buf) with
      (let! buf := put_number (utoa (u32 v) 0 10 (s32 w)) buf in ret (a, buf)).
    by rewrite !run_bind, Hrun.
  - destruct Hok as [Hv Hw]. rewrite (format_number _ v w 120 f a buf s [108]); try done; [|by left|unfold is_u32; lia].
    destruct (put_unsigned v 16 w buf s ltac:(lia) Hv Hw Hbuf) as (buf' & Hrun & Hl). exists buf'. split; [|done].
    change (convert 120 w (VInt v :: a) buf) with
      (let! buf := put_number (utoa (u32 v) 0 16 (s32 w)) buf in ret (a, buf)).
    by rewrite !run_bind, Hrun.
  - destruct Hok as [Hv Hw]. rewrite (format_number _ v w 112 f a buf s []); try done; [|by right|unfold is_u32; lia].
    set (s1 := set_out (c_out s ++ [42; 48; 120]) s).
    destruct (put_unsigned v 16 w buf s1 ltac:(lia) Hv Hw Hbuf) as (buf' & Hrun & Hl). exists buf'. split; [|done].
    change (convert 112 w (VInt v :: a) buf) with
      (put_string ([42; 48; 120] ++ 0 :: []) >>>
       let! buf := put_number (utoa (u32 v) 0 16 (s32 w)) buf in ret (a, buf)).
    rewrite !run_bind, run_put_string by (repeat constructor; lia). fold s1. rewrite run_bind, Hrun.
    cbn [ret]. do 2 f_equal. unfold s1. cbn. by rewrite <- app_assoc.
Qed.

Lemma fmt_of_nonempty d : fmt_of d <> [].
Proof. by destruct d. Qed.

Lemma format_all ds : forall fuel buf s,
  Forall directive_ok ds -> zlen buf = 256 -> (length (concat (map fmt_of ds)) < fuel)%nat ->
  loop fuel format_round (concat (map fmt_of ds) ++ [0], concat (map args_of ds), buf) s =
  Ok (tt, set_out (c_out s ++ concat (map text_of ds)) s).
Proof.
  induction ds as [|d ds IH]; intros [|fuel] buf s HF Hbuf Hfuel; cbn [map concat] in *; try lia;
    rewrite loop_S, run_bind.
  - cbn. rewrite app_nil_r. by destruct s.
  - apply Forall_cons in HF as [Hd HF]. rewrite <- app_assoc.
    destruct (format_directive d (concat (map fmt_of ds) ++ [0]) (concat (map args_of ds)) buf s Hd Hbuf)
      as (buf' & Hrun & Hl).
    rewrite Hrun, IH; [|done|done|].
    + cbn. by rewrite <- app_assoc.
    + rewrite length_app in Hfuel. pose proof (fmt_of_nonempty d). destruct (fmt_of d); [done|cbn in *; lia].
Qed.

(** ** Properties *)

(** C20. A reader of the console gets edited lines: with nothing buffered,
    reading up to a line's length waits for a complete line, answers its
    first bytes as backspaces left them, keeps the rest for later reads,
    echoes every key, and leaves what was typed after the line; no buffer
    overflows and nothing panics as long as nobody types a NUL. *)
Theorem tty_read_line (tmp : list Z) (n : Z) (s : console) (line rest echo : list Z) :
  holds [] s -> zlen tmp = 1024 -> Forall (fun c => c <> 0) (c_typed s) ->
  edit [] (c_typed s) = Some (line, rest, echo) -> 0 < n <= zlen line ->
  wp (tty_read tmp TTY_NODE n) (fun bytes s' =>
    bytes = take (Z.to_nat n) line /\ holds (drop (Z.to_nat n) line) s' /\
    c_typed s' = rest /\ c_out s' = c_out s ++ echo) never s.
Proof.
  intros Hh Hz HF He Hn. destruct (edit_complete _ _ _ _ _ He) as [_ Hlen]; [constructor|done|].
  unfold tty_read. change (TTY_NODE =? TTY_NODE) with true. cbn [kassert]. wp_steps.
  destruct line as [|c line]; [change (zlen []) with 0 in Hn; lia|]. rewrite zlen_cons in *.
  replace (Z.to_nat n) with (S (Z.to_nat (n - 1))) by lia. apply wp_for_fold_step.
  unfold buffer_getc at 1. wp_steps. rewrite (holds_unread [] s Hh) by done.
  change (zlen [] =? 0) with true. cbv iota.
  eapply wp_mono; [by apply (buffer_fill_line tmp s (c :: line) rest echo)| |done].
  intros [] s1 (Hh1 & Ht1 & Ho1). apply (wp_text_getc c line); [done|rewrite zlen_cons; lia|].
  intros s2 [r2 ->] Hh2. wp_steps. pose proof (zlen_nonneg line).
  eapply wp_mono; [apply (read_held tmp line); [exact Hh2|lia|unfold zlen in *; lia]| |done].
  intros r s3 (-> & Hh3 & [r3 ->]). done.
Qed.

(** C39. [printf] prints what its format says: for any sequence of literal
    characters, strings and signed, unsigned, hexadecimal and pointer
    conversions with widths below 255, the text printed is the
    concatenation of their texts, every number zero-padded to its width; the
    format and its arguments are consumed exactly and the print mutex is
    released. *)
Theorem printf_prints (ds : list directive) (buf : list Z) (s : console) :
  Forall directive_ok ds -> zlen buf = 256 -> c_mutex s = false ->
  vprintf buf (concat (map fmt_of ds) ++ [0]) (concat (map args_of ds)) s =
  Ok (tt, set_out (c_out s ++ concat (map text_of ds)) s).
Proof.
  intros HF Hbuf Hm. unfold vprintf, mutex_lock. rewrite !run_bind. cbn [gets]. rewrite Hm. cbn [modify].
  rewrite run_bind. rewrite format_all; [|done|done|].
  - cbn. rewrite <- Hm. by destruct s.
  - rewrite length_app. cbn. lia.
Qed.

Definition sample_console : console :=
  Console [97; 120; 127; 98; 13; 99] (ringbuffer_init (replicate 2048 0) 2048 (Ring [] 0 0 0 0 0 0)) [] false.

Lemma sample_console_holds : holds [] sample_console.
Proof. split; [by apply ringbuffer_init_represents|done]. Qed.

Lemma tty_read_line_witness :
  edit [] (c_typed sample_console) = Some ([97; 98; 10], [99], [97; 120; 8; 98; 10]) /\
  wp (tty_read (replicate 1024 1) TTY_NODE 2) (fun bytes s' =>
    bytes = [97; 98] /\ holds [10] s' /\ c_typed s' = [99] /\ c_out s' = [97; 120; 8; 98; 10]) never sample_console.
Proof.
  split; [reflexivity|].
  apply (tty_read_line (replicate 1024 1) 2 sample_console [97; 98; 10] [99] [97; 120; 8; 98; 10]).
  - exact sample_console_holds.
  - reflexivity.
  - by repeat constructor.
  - reflexivity.
  - split; reflexivity || discriminate.
Defined.

(** pid 7: -42 (0x00ff) (null) *)
Definition sample_format : list directive :=
  map DChar (chars "pid "%string) ++
  [DUnsigned 7 0; DChar 58; DSigned (-42) 0; DChar 32; DHex 255 4; DPercent; DNull; DString [97; 98]].

Lemma printf_prints_witness :
  vprintf (replicate 256 0) (concat (map fmt_of sample_format) ++ [0]) (concat (map args_of sample_format))
    sample_console =
  Ok (tt, set_out (chars "pid 7:-42 00ff%(null)ab"%string) sample_console).
Proof.
  refine (printf_prints sample_format (replicate 256 0) sample_console _ _ _);
    [|reflexivity|reflexivity].
  repeat (apply Forall_cons; split; [cbn; unfold is_u32; first [lia | done | by repeat constructor]|]).
  constructor.
Defined.

(** A width the local buffer does not hold writes past its end. *)
Example printf_width_overflow :
  vprintf (replicate 256 0) [37; 51; 48; 48; 100; 0] [VInt 1] sample_console = Err Fault.
Proof. vm_compute. reflexivity. Qed.
