(* ===== verification/Pci.v ===== *)
(** * PCI configuration space and bus enumeration (kernel/pci.c)

    Configuration cycles through the address and data ports, and the walk over
    buses, slots, functions and bridges.  What the devices answer is the
    argument [dword]: the 32-bit register the host bridge selects by the
    address last written to port 0xCF8. *)
From S2P Require Import Prelude.

Definition PCI_CONFIG_ADDRESS : Z := 0xCF8.
Definition PCI_CONFIG_DATA : Z := 0xCFC.

Definition pci_device (bus slot func : Z) : Z :=
  Z.lor (Z.lor (Z.shiftl bus 16) (Z.shiftl slot 11)) (Z.shiftl func 8).
Definition pci_address (device offset : Z) : Z :=
  u32 (Z.lor (Z.lor 0x80000000 device) (Z.land offset 0xFC)).

(** The address latch, the writes to registers, and the calls of the
    callback: device, vendor and device id. *)
Record pci : Type := Pci {
  latch : Z;
  written : list (Z * Z);
  found : list (Z * Z * Z);
}.

Section config.
Variable dword : Z -> Z.

(** *** Ports *)

Definition outl (port v : Z) : M pci unit :=
  modify (fun s => if port =? PCI_CONFIG_ADDRESS then Pci v (written s) (found s)
                   else Pci (latch s) (written s ++ [(latch s, v)]) (found s)).
Definition inl_ (port : Z) : M pci Z := let! a := gets latch in ret (u32 (dword a)).
Definition inw (port : Z) : M pci Z :=
  let! a := gets latch in ret (u16 (Z.shiftr (dword a) (8 * (port - PCI_CONFIG_DATA)))).
Definition inb (port : Z) : M pci Z :=
  let! a := gets latch in ret (u8 (Z.shiftr (dword a) (8 * (port - PCI_CONFIG_DATA)))).

(** *** Configuration cycles *)

Definition pci_config_writel (device offset value : Z) : M pci unit :=
  kassert (Z.land offset 3 =? 0) >>>
  outl PCI_CONFIG_ADDRESS (pci_address device offset) >>>
  outl PCI_CONFIG_DATA value.

Definition pci_config_readl (device offset : Z) : M pci Z :=
  kassert (Z.land offset 3 =? 0) >>>
  outl PCI_CONFIG_ADDRESS (pci_address device offset) >>>
  inl_ PCI_CONFIG_DATA.

Definition pci_config_readw (device offset : Z) : M pci Z :=
  kassert (Z.land offset 1 =? 0) >>>
  outl PCI_CONFIG_ADDRESS (pci_address device offset) >>>
  inw (PCI_CONFIG_DATA + Z.land offset 2).

Definition pci_config_readb (device offset : Z) : M pci Z :=
  outl PCI_CONFIG_ADDRESS (pci_address device offset) >>>
  inb (PCI_CONFIG_DATA + Z.land offset 3).

Definition pci_config_read (device offset size : Z) : M pci Z :=
  if size =? 4 then pci_config_readl device offset
  else if size =? 2 then pci_config_readw device offset
  else if size =? 1 then pci_config_readb device offset
  else fail AssertFail.

(** *** The walk *)

Definition callback (device vendorid deviceid : Z) : M pci unit :=
  modify (fun s => Pci (latch s) (written s) (found s ++ [(device, vendorid, deviceid)])).

Section walk.
(** [pci_scan_bus], called for the bus behind a bridge. *)
Variable scan_bus : Z -> M pci unit.

Definition pci_scan_function (bus slot func : Z) : M pci unit :=
  let! device_class := pci_config_readb (pci_device bus slot func) 0x0B in
  let! device_subclass := pci_config_readb (pci_device bus slot func) 0x0A in
  (if (device_class =? 0x06) && (device_subclass =? 0x04) then
     let! secondary_bus := pci_config_readb (pci_device bus slot func) 0x19 in
     scan_bus secondary_bus
   else ret tt) >>>
  let device := pci_device bus slot func in
  let! vendorid := pci_config_readw device 0 in
  let! deviceid := pci_config_readw device 2 in
  callback device vendorid deviceid.

Definition pci_scan_slot (bus slot : Z) : M pci unit :=
  let! vendorid := pci_config_readw (pci_device bus slot 0) 0 in
  if vendorid =? 0xFFFF then ret tt
  else
    let! header_type := pci_config_readb (pci_device bus slot 0) 0xE in
    if negb (Z.land header_type 0x80 =? 0) then
      for_up 8 0 (fun func =>
        let! v := pci_config_readw (pci_device bus slot func) 0 in
        if negb (v =? 0xFFFF) then pci_scan_function bus slot func else ret tt)
    else pci_scan_function bus slot 0.
End walk.

(** [fuel] bounds the depth of nested bridges. *)
Fixpoint pci_scan_bus (fuel : nat) (bus : Z) : M pci unit :=
  match fuel with
  | O => fail NoFuel
  | S n => for_up 32 0 (fun slot => pci_scan_slot (pci_scan_bus n) bus slot)
  end.

(** Bus numbers are bytes that grow behind bridges, so 256 levels suffice. *)
Definition scan_fuel : nat := 256.

Definition pci_scan : M pci unit :=
  let! header_type := pci_config_readb (pci_device 0 0 0) 0xE in
  if Z.land header_type 0x80 =? 0 then pci_scan_bus scan_fuel 0
  else
    for_ret 8 0 (fun function =>
      let! vendorid := pci_config_readw (pci_device 0 0 function) 0 in
      if vendorid =? 0xFFFF then ret (Some tt)
      else pci_scan_bus scan_fuel function >>> ret None) >>>
    ret tt.

(** ** What there is to find *)

Definition regb (device offset : Z) : Z :=
  u8 (Z.shiftr (dword (pci_address device offset)) (8 * Z.land offset 3)).
Definition regw (device offset : Z) : Z :=
  u16 (Z.shiftr (dword (pci_address device offset)) (8 * Z.land offset 2)).

Definition multi (b s : Z) : bool := negb (Z.land (regb (pci_device b s 0) 0xE) 0x80 =? 0).
Definition present (b s f : Z) : Prop :=
  0 <= s < 32 /\ regw (pci_device b s 0) 0 <> 0xFFFF /\
  (f = 0 /\ multi b s = false \/
   0 <= f < 8 /\ multi b s = true /\ regw (pci_device b s f) 0 <> 0xFFFF).
Definition bridge (b s f : Z) : bool :=
  (regb (pci_device b s f) 0x0B =? 0x06) && (regb (pci_device b s f) 0x0A =? 0x04).
Definition secondary (b s f : Z) : Z := regb (pci_device b s f) 0x19.

(** The buses below bus [b], itself included. *)
Inductive below (b : Z) : Z -> Prop :=
  | below_refl : below b b
  | below_bridge b1 s f : below b b1 -> present b1 s f -> bridge b1 s f = true -> below b (secondary b1 s f).

Definition entry (b s f : Z) : Z * Z * Z :=
  (pci_device b s f, regw (pci_device b s f) 0, regw (pci_device b s f) 2).

(** The buses the host bridge stands for. *)
Definition root_bus (b : Z) : Prop :=
  if multi 0 0 then 0 <= b < 8 /\ forall f, 0 <= f <= b -> regw (pci_device 0 0 f) 0 <> 0xFFFF
  else b = 0.
End config.

(** [s'] has the entries of [s] and those in [P]. *)
Definition adds (s s' : pci) (P : Z * Z * Z -> Prop) : Prop :=
  forall e, e ∈ found s' <-> e ∈ found s \/ P e.

Lemma adds_trans s1 s2 s3 P Q : adds s1 s2 P -> adds s2 s3 Q -> adds s1 s3 (fun e => P e \/ Q e).
Proof. intros H1 H2 e. rewrite (H2 e), (H1 e). tauto. Qed.

Lemma adds_ext s s' (P Q : Z * Z * Z -> Prop) : (forall e, P e <-> Q e) -> adds s s' P -> adds s s' Q.
Proof. intros HPQ H e. rewrite (H e), (HPQ e). tauto. Qed.

Lemma adds_found s a w (P : Z * Z * Z -> Prop) s' : adds (Pci a w (found s)) s' P -> adds s s' P.
Proof. done. Qed.

(** A loop whose rounds each add their part. *)
Lemma wp_for_adds (P : Z -> Z * Z * Z -> Prop) (body : Z -> M pci unit) n : forall i s,
  (forall j s', i <= j < i + Z.of_nat n -> wp (body j) (fun _ s'' => adds s' s'' (P j)) never s') ->
  wp (for_up n i body) (fun _ s' => adds s s' (fun e => exists j, i <= j < i + Z.of_nat n /\ P j e)) never s.
Proof.
  intros i s Hb.
  eapply wp_mono; [apply (wp_for_up (fun k s' => adds s s' (fun e => exists j, i <= j < k /\ P j e)))| |done].
  - intros e. split; [by left|]. intros [?|(j & ? & _)]; [done|lia].
  - intros k s' Hk Hs'. eapply wp_mono; [by apply Hb| |done]. intros u s'' Hs''.
    eapply adds_ext; [|exact (adds_trans _ _ _ _ _ Hs' Hs'')]. intros e. cbv beta. split.
    + intros [(j & Hj & He)|He]; [exists j|exists k]; split; done || lia.
    + intros (j & Hj & He). destruct (Z.eq_dec j k) as [->|]; [by right|left]. exists j. split; [lia|done].
  - done.
Qed.

Section scan.
Variable dword : Z -> Z.

Lemma wp_readb device offset s (Q : Z -> pci -> Prop) E :
  (forall a, Q (regb dword device offset) (Pci a (written s) (found s))) ->
  wp (pci_config_readb dword device offset) Q E s.
Proof.
  intros HQ. unfold pci_config_readb, outl, inb. wp_steps. cbn [latch Z.eqb PCI_CONFIG_ADDRESS Pos.eqb].
  replace (PCI_CONFIG_DATA + Z.land offset 3 - PCI_CONFIG_DATA) with (Z.land offset 3) by lia. apply HQ.
Qed.

Lemma wp_readw device offset s (Q : Z -> pci -> Prop) E :
  Z.land offset 1 = 0 ->
  (forall a, Q (regw dword device offset) (Pci a (written s) (found s))) ->
  wp (pci_config_readw dword device offset) Q E s.
Proof.
  intros Ho HQ. unfold pci_config_readw, outl, inw. wp_cond. rewrite Ho.
  cbn [latch Z.eqb PCI_CONFIG_ADDRESS Pos.eqb]. wp_steps. cbn [latch].
  replace (PCI_CONFIG_DATA + Z.land offset 2 - PCI_CONFIG_DATA) with (Z.land offset 2) by lia. apply HQ.
Qed.

(** What scanning the buses from [b] on reports. *)
Definition under (b : Z) (e : Z * Z * Z) : Prop :=
  exists b' sl f, below dword b b' /\ present dword b' sl f /\ e = entry dword b' sl f.

(** What scanning one function reports. *)
Definition reported (b sl f : Z) (e : Z * Z * Z) : Prop :=
  e = entry dword b sl f \/ bridge dword b sl f = true /\ under (secondary dword b sl f) e.

Lemma below_cases b b' : below dword b b' ->
  b' = b \/ exists sl f, present dword b sl f /\ bridge dword b sl f = true /\
    below dword (secondary dword b sl f) b'.
Proof.
  intros Hb. induction Hb as [|b1 sl f Hb IH Hp Hbr]; [by left|]. right.
  destruct IH as [->|(sl' & f' & Hp' & Hbr' & Hb')].
  - exists sl, f. split; [done|]. split; [done|]. constructor.
  - exists sl', f'. split; [done|]. split; [done|]. by econstructor.
Qed.

Lemma below_step b sl f b' :
  present dword b sl f -> bridge dword b sl f = true -> below dword (secondary dword b sl f) b' ->
  below dword b b'.
Proof.
  intros Hp Hbr Hb. induction Hb as [|b1 sl' f' Hb IH Hp' Hbr']; [|by econstructor].
  eapply below_bridge; [constructor|done|done].
Qed.

Lemma under_reported b e : under b e <-> exists sl f, present dword b sl f /\ reported b sl f e.
Proof.
  split.
  - intros (b' & sl & f & Hb & Hp & ->). destruct (below_cases b b' Hb) as [->|(sl' & f' & Hp' & Hbr & Hb')].
    + exists sl, f. split; [done|by left].
    + exists sl', f'. split; [done|]. right. split; [done|]. by exists b', sl, f.
  - intros (sl & f & Hp & [->|[Hbr (b' & sl' & f' & Hb & Hp' & ->)]]).
    + exists b, sl, f. split; [constructor|done].
    + exists b', sl', f'. split; [by eapply below_step|done].
Qed.

Section levels.
Variable scan_bus : Z -> M pci unit.

Lemma scan_function_reports b sl f s :
  (bridge dword b sl f = true -> forall s, wp (scan_bus (secondary dword b sl f))
    (fun _ s' => adds s s' (under (secondary dword b sl f))) never s) ->
  wp (pci_scan_function dword scan_bus b sl f) (fun _ s' => adds s s' (reported b sl f)) never s.
Proof.
  intros Hrec. unfold pci_scan_function, callback. wp_step. apply wp_readb. intros a1. wp_step.
  apply wp_readb. intros a2. wp_step. fold (bridge dword b sl f).
  apply (wp_mono _ (fun _ s' => adds s s' (fun e => bridge dword b sl f = true /\
    under (secondary dword b sl f) e)) _ never never); [|cbv beta|done].
  - unfold bridge in *. destruct ((regb dword _ 0x0B =? 0x06) && _).
    + wp_step. apply wp_readb. intros a3. eapply wp_mono; [by apply Hrec| |done].
      intros u s' Hs' e. rewrite (Hs' e). cbn. tauto.
    + wp_steps. intros e. cbn. split; [by left|]. intros [?|[? _]]; done.
  - intros u s1 Hs1. wp_step. apply wp_readw; [done|]. intros a4. wp_step. apply wp_readw; [done|].
    intros a5. wp_steps. intros e. cbn. rewrite elem_of_app, list_elem_of_singleton, (Hs1 e).
    unfold reported, entry. tauto.
Qed.

Lemma scan_slot_reports b sl s :
  0 <= sl < 32 ->
  (forall f, present dword b sl f -> bridge dword b sl f = true -> forall s, wp (scan_bus (secondary dword b sl f))
    (fun _ s' => adds s s' (under (secondary dword b sl f))) never s) ->
  wp (pci_scan_slot dword scan_bus b sl)
    (fun _ s' => adds s s' (fun e => exists f, present dword b sl f /\ reported b sl f e)) never s.
Proof.
  intros Hsl Hrec. unfold pci_scan_slot. wp_step. apply wp_readw; [done|]. intros a.
  destruct (Z.eqb_spec (regw dword (pci_device b sl 0) 0) 0xFFFF) as [Hn|Hp].
  { wp_steps. intros e. split; [by left|]. intros [?|(f & (_ & Hne & _) & _)]; done. }
  wp_step. apply wp_readb. intros a2. fold (multi dword b sl). destruct (multi dword b sl) eqn:Em.
  - set (s1 := Pci a2 _ _).
    apply (wp_mono _ (fun _ s' => adds s1 s' (fun e => exists f, 0 <= f < 0 + Z.of_nat 8 /\
      (regw dword (pci_device b sl f) 0 <> 0xFFFF /\ reported b sl f e))) _ never never); [|cbv beta|done].
    + apply (wp_for_adds (fun f e => regw dword (pci_device b sl f) 0 <> 0xFFFF /\ reported b sl f e)).
      intros f s' Hf. wp_step. apply wp_readw; [done|]. intros a3.
      destruct (Z.eqb_spec (regw dword (pci_device b sl f) 0) 0xFFFF) as [Hfn|Hfp]; cbn [negb].
      * wp_steps. intros e. split; [by left|]. intros [?|[? _]]; done.
      * eapply wp_mono; [apply scan_function_reports| |done].
        -- intros Hbr. apply Hrec; [|done]. split; [done|]. split; [done|]. right. split; [lia|done].
        -- intros u s'' Hs'' e. rewrite (Hs'' e). cbn. tauto.
    + intros u s' Hs'. apply (adds_found s a2 (written s)).
      eapply adds_ext; [|exact Hs']. intros e. cbv beta. split.
      * intros (f & Hf & Hfp & He). exists f. split; [|done].
        split; [done|]. split; [done|]. right. split; [lia|done].
      * intros (f & (_ & _ & [[_ Hm]|(Hf & _ & Hfp)]) & He); [congruence|]. exists f. split; [lia|done].
  - assert (present dword b sl 0) as Hp0 by (split; [done|split; [done|by left]]).
    eapply wp_mono; [apply scan_function_reports; intros Hbr; by apply Hrec| |done].
    intros u s' Hs' e. rewrite (Hs' e). cbn. split; (intros [?|He]; [by left|right]).
    + by exists 0.
    + destruct He as (f & (_ & _ & [[-> _]|(_ & Hm & _)]) & He); [done|congruence].
Qed.
End levels.

Hypothesis buses_grow : forall b sl f,
  0 <= b < 256 -> present dword b sl f -> bridge dword b sl f = true -> b < secondary dword b sl f.

Lemma scan_bus_reports n : forall b s,
  0 <= b < 256 -> 256 <= b + Z.of_nat n ->
  wp (pci_scan_bus dword n b) (fun _ s' => adds s s' (under b)) never s.
Proof.
  induction n as [|n IH]; intros b s Hb Hn; [lia|]. cbn [pci_scan_bus].
  eapply wp_mono; [apply (wp_for_adds (fun sl e => exists f, present dword b sl f /\ reported b sl f e))| |done].
  - intros sl s' Hsl. apply scan_slot_reports; [lia|]. intros f Hp Hbr s0.
    pose proof (buses_grow b sl f Hb Hp Hbr). pose proof (u8_range (Z.shiftr (dword (pci_address
      (pci_device b sl f) 0x19)) (8 * Z.land 0x19 3))) as Hu. fold (regb dword (pci_device b sl f) 0x19) in Hu.
    fold (secondary dword b sl f) in Hu. unfold is_u8 in Hu. apply IH; lia.
  - intros u s' Hs'. eapply adds_ext; [|exact Hs']. intros e. cbv beta. rewrite under_reported. split.
    + intros (sl & _ & f & Hp & He). by exists sl, f.
    + intros (sl & f & Hp & He). exists sl. split; [destruct Hp; lia|]. by exists f.
Qed.
End scan.

(** ** Properties *)

(** C25. The PCI scan terminates and finds everything: when the bus numbers
    behind bridges grow, as firmware assigns them, the scan calls back for
    exactly the functions that are present on the buses reachable from the
    host bridge, each with its vendor and device id, however bridges nest and
    whichever devices have several functions. *)
Theorem pci_scan_finds (dword : Z -> Z) (s : pci) :
  (forall b sl f, 0 <= b < 256 -> present dword b sl f -> bridge dword b sl f = true ->
     b < secondary dword b sl f) ->
  wp (pci_scan dword) (fun _ s' => forall e, e ∈ found s' <-> e ∈ found s \/
    exists r b sl f, root_bus dword r /\ below dword r b /\ present dword b sl f /\ e = entry dword b sl f)
    never s.
Proof.
  intros Hgrow. unfold pci_scan. wp_step. apply wp_readb. intros a.
  set (s1 := Pci a (written s) (found s)).
  apply (wp_mono _ (fun _ s' => adds s1 s' (fun e => exists r, root_bus dword r /\ under dword r e))
    _ never never); [|cbv beta|done].
  2:{ intros u s' Hs' e. rewrite (Hs' e). unfold under. cbn [found s1].
      split; (intros [?|He]; [by left|right]).
      - destruct He as (r & Hr & b & sl & f & He). by exists r, b, sl, f.
      - destruct He as (r & b & sl & f & Hr & He). exists r. split; [done|]. by exists b, sl, f. }
  unfold root_bus. fold (multi dword 0 0).
  change (regb dword (pci_device 0 0 0) 14) with (regb dword (pci_device 0 0 0) 0xE).
  unfold multi. destruct (Z.land (regb dword (pci_device 0 0 0) 0xE) 0x80 =? 0); cbn [negb].
  - eapply wp_mono; [apply (scan_bus_reports dword Hgrow); unfold scan_fuel; lia|cbv beta|done].
    intros u s' Hs'. apply (adds_ext s1 s' (under dword 0)); [|exact Hs']. intros e.
    split; [by exists 0|]. by intros (r & -> & ?).
  - set (ok := fun k => forall f, 0 <= f < k -> regw dword (pci_device 0 0 f) 0 <> 0xFFFF).
    set (upto := fun k s' => adds s1 s' (fun e => exists r, 0 <= r < k /\ under dword r e)).
    wp_step. eapply wp_mono; [apply (wp_for_ret (fun k s' => ok k /\ upto k s')
      (fun _ s' => exists k, 0 <= k < 8 /\ ok k /\ upto k s' /\ regw dword (pci_device 0 0 k) 0 = 0xFFFF))
      |cbv beta|done].
    + split; [intros f Hf; lia|]. intros e. split; [by left|]. intros [?|(r & ? & _)]; [done|lia].
    + intros k s' Hk [Hok Hs']. wp_step. apply wp_readw; [done|]. intros a1.
      destruct (Z.eqb_spec (regw dword (pci_device 0 0 k) 0) 0xFFFF) as [Hn|Hp].
      * wp_steps. exists k. split; [lia|]. done.
      * wp_step. eapply wp_mono; [apply (scan_bus_reports dword Hgrow); unfold scan_fuel; lia|cbv beta|done].
        intros u s2 Hs2. wp_steps. split.
        -- intros f Hf. destruct (Z.eq_dec f k) as [->|]; [done|]. apply Hok. lia.
        -- unfold upto. eapply adds_ext; [|exact (adds_trans _ _ _ _ _ Hs' Hs2)]. intros e. cbv beta. split.
           ++ intros [(r & Hr & He)|He]; [exists r|exists k]; split; done || lia.
           ++ intros (r & Hr & He). destruct (Z.eq_dec r k) as [->|]; [by right|left]. exists r. split; [lia|done].
    + intros r s' Hs'. wp_steps. destruct r as [u|].
      * destruct Hs' as (k & Hk & Hok & Hu & Hn). eapply adds_ext; [|exact Hu]. intros e. cbv beta. split.
        -- intros (r & Hr & He). exists r. split; [|done]. split; [lia|]. intros f Hf. apply Hok. lia.
        -- intros (r & [Hr Hall] & He). exists r. split; [|done].
           destruct (Z.lt_ge_cases r k); [lia|]. exfalso. by apply (Hall k); [lia|].
      * destruct Hs' as [Hok Hu]. eapply adds_ext; [|exact Hu]. intros e. cbv beta. split.
        -- intros (r & Hr & He). exists r. split; [|done]. split; [lia|]. intros f Hf. apply Hok. lia.
        -- intros (r & [Hr _] & He). exists r. split; [lia|done].
Qed.

(** A machine with a host bridge at 0:0.0, a bridge to bus 1 at 0:1.0 and one
    network card behind it; registers by bus, slot, function and offset. *)
Definition machine (a : Z) : Z :=
  let sel := Z.land a 0xFFFFFC in
  if sel =? 0x000000 then 0x12378086
  else if sel =? 0x000008 then 0x06000002
  else if sel =? 0x00000C then 0
  else if sel =? 0x000800 then 0x244E8086
  else if sel =? 0x000808 then 0x06040001
  else if sel =? 0x00080C then 0x00010000
  else if sel =? 0x000818 then 0x00010100
  else if sel =? 0x010000 then 0x100E8086
  else if sel =? 0x010008 then 0x02000003
  else if sel =? 0x01000C then 0
  else 0xFFFFFFFF.

Example machine_scan :
  match pci_scan machine (Pci 0 [] []) with Ok (_, s) => found s | Err _ => [] end =
  [(0x000000, 0x8086, 0x1237); (0x010000, 0x8086, 0x100E); (0x000800, 0x8086, 0x244E)].
Proof. vm_compute. reflexivity. Qed.

(** Every function of the machine that is a bridge leads to a higher bus. *)
Definition grows_at (dword : Z -> Z) (b sl f : Z) : bool :=
  negb (bridge dword b sl f) || (b <? secondary dword b sl f).

Lemma machine_grows :
  forallb (fun b => forallb (fun sl => forallb (grows_at machine b sl) (seqZ 0 8)) (seqZ 0 32)) (seqZ 0 256) = true.
Proof. vm_compute. reflexivity. Qed.

Lemma pci_scan_finds_witness :
  wp (pci_scan machine) (fun _ s' => forall e, e ∈ found s' <-> e ∈ found (Pci 0 [] []) \/
    exists r b sl f, root_bus machine r /\ below machine r b /\ present machine b sl f /\
      e = entry machine b sl f) never (Pci 0 [] []).
Proof.
  apply (pci_scan_finds machine). intros b sl f Hb (Hsl & _ & Hf) Hbr.
  assert (0 <= f < 8) as Hf8 by (destruct Hf as [[-> _]|(? & _)]; lia).
  pose proof machine_grows as Hg. rewrite forallb_forall in Hg.
  specialize (Hg b). rewrite forallb_forall in Hg.
  specialize (Hg ltac:(apply list_elem_of_In, elem_of_seqZ; lia) sl). rewrite forallb_forall in Hg.
  specialize (Hg ltac:(apply list_elem_of_In, elem_of_seqZ; lia) f
    ltac:(apply list_elem_of_In, elem_of_seqZ; lia)).
  unfold grows_at in Hg. rewrite Hbr in Hg. by apply Z.ltb_lt.
Defined.
