(* ===== verification/Vmm.v ===== *)
(** * Virtual memory (kernel/vmm.c, task.c's kernel stacks)

    Physical memory as words, page directories as objects of the kernel heap,
    and the processor's page walk.  The code reaches page tables through
    pointers that the kernel's own page tables translate, so every access to
    one goes through [translate] of the directory in cr3.  The TLB is not
    modelled: translations always walk the tables; nor are the accessed and
    dirty bits. *)
From stdpp Require Import functions.
From S2P Require Import Prelude Interfaces.

Definition PAGE_PRESENT : Z := 0x01.
Definition PAGE_READWRITE : Z := 0x02.
Definition PAGE_TABLE_PRESENT : Z := 0x01.
Definition PAGE_TABLE_READWRITE : Z := 0x02.
Definition PAGE_TABLE_USER : Z := 0x04.
Definition PAGE_TABLE_WRITE_THROUGH : Z := 0x08.
Definition PAGE_TABLE_CACHE_DISABLE : Z := 0x10.
Definition PAGE_VALUE_GUARD : Z := 0xFFFFF000.
Definition PAGE_VALUE_RESERVED : Z := 0xFFFF100.

(** [page_directory_t]; [tables] is indexed 0 to 1023. *)
Record page_directory_t : Type := PageDirectory {
  physical_tables : Z;
  tables : Z -> Z;
  physical_address : Z;
  refcount : Z;
}.

Record vstate (F H : Type) : Type := VState {
  v_frames : F;
  v_heap : H;
  v_mem : Z -> Z;
  v_dirs : gmap Z page_directory_t;
  v_kernel : Z;
  v_cr3 : Z;
  v_paging : bool;
}.
Arguments VState {F H} _ _ _ _ _ _ _.
Arguments v_frames {F H} _.
Arguments v_heap {F H} _.
Arguments v_mem {F H} _.
Arguments v_dirs {F H} _.
Arguments v_kernel {F H} _.
Arguments v_cr3 {F H} _.
Arguments v_paging {F H} _.

(** ** The page walk *)

(** Present, and writable for a write (CR0.WP is set). *)
Definition allows (write : bool) (e : Z) : bool :=
  Z.testbit e 0 && (negb write || Z.testbit e 1).

(** Entry [k] of the table in frame [f]. *)
Definition word_at (mem : Z -> Z) (f k : Z) : Z := mem (f * 1024 + k).

Definition walk (mem : Z -> Z) (cr3 : Z) (write : bool) (v : Z) : option Z :=
  let pde := word_at mem (cr3 / 4096) (v / 2 ^ 22) in
  if allows write pde then
    let pte := word_at mem (pde / 4096) (v / 4096 mod 1024) in
    if allows write pte then Some (pte / 4096 * 4096 + v mod 4096) else None
  else None.

Section ops.
Context {F H : Type} `{FrameAlloc F, KHeap H}.
Abbreviation V := (vstate F H).
Implicit Types (s : V).

Definition set_mem (m : Z -> Z) (s : V) : V :=
  VState (v_frames s) (v_heap s) m (v_dirs s) (v_kernel s) (v_cr3 s) (v_paging s).
Definition set_dirs (d : gmap Z page_directory_t) (s : V) : V :=
  VState (v_frames s) (v_heap s) (v_mem s) d (v_kernel s) (v_cr3 s) (v_paging s).
Definition frames_lens : lens V F :=
  Lens v_frames (fun f s => VState f (v_heap s) (v_mem s) (v_dirs s) (v_kernel s) (v_cr3 s) (v_paging s)).
Definition heap_lens : lens V H :=
  Lens v_heap (fun h s => VState (v_frames s) h (v_mem s) (v_dirs s) (v_kernel s) (v_cr3 s) (v_paging s)).

Definition translate (write : bool) (v : Z) (s : V) : option Z :=
  if v_paging s then walk (v_mem s) (v_cr3 s) write v else Some v.

(** A word of memory; an untranslated address is a page fault. *)
Definition read_word (v : Z) : M V Z :=
  let! p := gets (translate false v) in
  let! p := some p in
  gets (fun s => v_mem s (p / 4)).

Definition write_word (v x : Z) : M V unit :=
  let! p := gets (translate true v) in
  let! p := some p in
  modify (fun s => set_mem (<[p / 4 := x]> (v_mem s)) s).

(** [memset(p, 0, 4096)]. *)
Definition clear_page (p : Z) : M V unit :=
  for_up 1024 0 (fun k => write_word (u32 (p + 4 * k)) 0).

Definition directory (d : Z) : M V page_directory_t :=
  let! m := gets v_dirs in some (m !! d).

Definition upd_directory (d : Z) (f : page_directory_t -> page_directory_t) : M V unit :=
  let! x := directory d in
  modify (fun s => set_dirs (<[d := f x]> (v_dirs s)) s).

Definition set_table (i t : Z) (d : page_directory_t) : page_directory_t :=
  PageDirectory (physical_tables d) (<[i := t]> (tables d)) (physical_address d) (refcount d).
Definition set_refcount (n : Z) (d : page_directory_t) : page_directory_t :=
  PageDirectory (physical_tables d) (tables d) (physical_address d) n.
Definition set_physical (a : Z) (d : page_directory_t) : page_directory_t :=
  PageDirectory (physical_tables d) (tables d) a (refcount d).
Definition set_physical_tables (a : Z) (d : page_directory_t) : page_directory_t :=
  PageDirectory a (tables d) (physical_address d) (refcount d).

Definition kernel_directory : M V Z := gets v_kernel.

(** ** Tables and pages *)

Definition invalidate_page (virtaddr : Z) : M V unit :=
  kassert (Z.land virtaddr 0x3FF =? 0).

Definition get_table (virtaddr d : Z) : M V Z :=
  kassert (negb (d =? 0)) >>>
  let i := Z.shiftr virtaddr 22 in
  kassert (i <? 1024) >>>
  let! x := directory d in
  ret (tables x i).

(** [&table->pages[i]] for the page of [virtaddr]. *)
Definition page_slot (table virtaddr : Z) : Z :=
  u32 (table + 4 * Z.land (Z.shiftr virtaddr 12) 0x3FF).

Definition get_page (table virtaddr : Z) : M V Z :=
  kassert (negb (table =? 0)) >>>
  read_word (page_slot table virtaddr).

Definition set_page (table virtaddr page : Z) : M V unit :=
  kassert (negb (table =? 0)) >>>
  write_word (page_slot table virtaddr) page.

Definition map_page (table virtaddr physaddr flags : Z) : M V unit :=
  kassert (negb (table =? 0)) >>>
  kassert (Z.land virtaddr 0x3FF =? 0) >>>
  kassert (Z.land table 0x3FF =? 0) >>>
  write_word (page_slot table virtaddr) (Z.lor physaddr flags).

(** ** Address space *)

Section with_tables.
(** [get_table_alloc]. *)
Variable gta : Z -> Z -> M V Z.

(** How many free pages follow [v_addr], at most [n]. *)
Definition vspace_extend (d v_addr n : Z) : M V Z :=
  loop (S (Z.to_nat n)) (fun length =>
    if length <? n then
      let v_addr2 := u32 (v_addr + length * BLOCK_SIZE) in
      let! table := gta v_addr2 d in
      let! page := get_page table v_addr2 in
      if page =? 0 then ret (inl (length + 1)) else ret (inr length)
    else ret (inr length)) 1.

(** Marks the pages from [start] on as reserved. *)
Definition vspace_reserve (d start n : Z) : M V unit :=
  loop (S (Z.to_nat n)) (fun i =>
    if i <? u32 (start + n * BLOCK_SIZE) then
      let! table := get_table i d in
      map_page table i PAGE_VALUE_RESERVED 0 >>>
      ret (inl (u32 (i + BLOCK_SIZE)))
    else ret (inr tt)) start.

Definition vspace_round (d n i : Z) : M V (Z + Z) :=
  if i <? 2 ^ 20 then
    let v_addr := i * BLOCK_SIZE in
    let! table := gta v_addr d in
    let! page := get_page table v_addr in
    if negb (page =? 0) then ret (inl (i + 1))
    else
      let! length := vspace_extend d v_addr n in
      if length =? n then
        vspace_reserve d v_addr length >>> ret (inr v_addr)
      else ret (inl (u32 (i + length + 1)))
  else ret (inr (u32 (-1))).

Definition find_vspace_with (d n : Z) : M V Z :=
  kassert (negb (d =? 0)) >>>
  kassert (negb (n =? 0)) >>>
  loop (S (Z.to_nat (2 ^ 20))) (vspace_round d n) 1.
End with_tables.

(** A table for a user directory takes address space of the kernel directory,
    whose tables all exist: the recursion is one level deep. *)
Fixpoint get_table_alloc (depth : nat) (virtaddr d : Z) : M V Z :=
  kassert (negb (d =? 0)) >>>
  let! table := get_table virtaddr d in
  if negb (table =? 0) then ret table
  else
    let! k := kernel_directory in
    kassert (negb (d =? k)) >>>
    match depth with
    | O => fail NoFuel
    | S depth' =>
        let index := Z.land (Z.shiftr virtaddr 22) 0x3FF in
        let! phys := zoom frames_lens frame_alloc_safe in
        let! virt := find_vspace_with (get_table_alloc depth') k 1 in
        kassert (negb (virt =? 0)) >>>
        let! x := directory d in
        write_word (u32 (physical_tables x + 4 * index))
          (Z.lor phys (Z.lor PAGE_TABLE_PRESENT (Z.lor PAGE_TABLE_READWRITE PAGE_TABLE_USER))) >>>
        upd_directory d (set_table index virt) >>>
        let! kt := get_table virt k in
        map_page kt virt phys (Z.lor PAGE_PRESENT PAGE_READWRITE) >>>
        invalidate_page virtaddr >>>
        let! x := directory d in
        let table := tables x index in
        clear_page table >>>
        ret table
    end.

Definition table_alloc : Z -> Z -> M V Z := get_table_alloc 1.
Definition find_vspace (d n : Z) : M V Z := find_vspace_with table_alloc d n.

(** ** Directories *)

Definition page_directory_reference (d : Z) : M V Z :=
  kassert (negb (d =? 0)) >>>
  let! x := directory d in
  (if negb (refcount x =? -1) then upd_directory d (set_refcount (s32 (refcount x + 1))) else ret tt) >>>
  ret d.

(** [sizeof(page_directory_t)] is 4108. *)
Definition page_directory_new : M V Z :=
  let! d := zoom heap_lens (kcalloc 4108) in
  kassert (negb (d =? 0)) >>>
  modify (fun s => set_dirs (<[d := PageDirectory 0 (fun _ => 0) 0 0]> (v_dirs s)) s) >>>
  let! phys := zoom frames_lens frame_alloc_safe in
  upd_directory d (set_physical phys) >>>
  let! k := kernel_directory in
  let! virt := find_vspace k 1 in
  upd_directory d (set_physical_tables virt) >>>
  let! kt := table_alloc virt k in
  map_page kt virt phys (Z.lor PAGE_PRESENT PAGE_READWRITE) >>>
  clear_page virt >>>
  page_directory_reference d.

Definition free_frame (p : Z) : M V unit := zoom frames_lens (frame_free p).

Definition page_table_free (table phys_table : Z) : M V unit :=
  kassert (negb (table =? 0)) >>>
  kassert (negb (phys_table =? 0)) >>>
  kassert (negb (Z.land phys_table PAGE_TABLE_PRESENT =? 0)) >>>
  for_up 1024 0 (fun i =>
    let! page := read_word (u32 (table + 4 * i)) in kassert (page =? 0)) >>>
  let phys := Z.ldiff phys_table 0x3FF in
  let! k := kernel_directory in
  let! kt := get_table table k in
  map_page kt table 0 0 >>>
  invalidate_page table >>>
  free_frame phys.

Definition page_directory_free (d : Z) : M V unit :=
  let! x := directory d in
  kassert (refcount x =? 0) >>>
  for_up 1024 0 (fun i =>
    let! x := directory d in
    let! phys_table := read_word (u32 (physical_tables x + 4 * i)) in
    (if negb (Z.land phys_table PAGE_PRESENT =? 0) then
       kassert (negb (tables x i =? 0)) >>>
       page_table_free (tables x i) phys_table >>>
       write_word (u32 (physical_tables x + 4 * i)) 0 >>>
       upd_directory d (set_table i 0)
     else ret tt) >>>
    let! x := directory d in
    kassert (tables x i =? 0)) >>>
  let! x := directory d in
  free_frame (physical_address x) >>>
  let virtaddr := physical_tables x in
  let! k := kernel_directory in
  let! kt := get_table virtaddr k in
  map_page kt virtaddr 0 0 >>>
  invalidate_page virtaddr >>>
  zoom heap_lens (kfree d) >>>
  modify (fun s => set_dirs (delete d (v_dirs s)) s).

Definition page_directory_release (d : Z) : M V unit :=
  kassert (negb (d =? 0)) >>>
  let! x := directory d in
  if refcount x =? -1 then fail AssertFail
  else
    upd_directory d (set_refcount (s32 (refcount x - 1))) >>>
    let! x := directory d in
    if refcount x =? 0 then page_directory_free d else ret tt.

(** ** Direct mappings and start-up *)

(** [name] only selects a message. *)
Definition map_pages (start end_ flags : Z) : M V unit :=
  let start := if negb (Z.land start 0x3FF =? 0) then Z.ldiff start 0x3FF else start in
  let end_ := if negb (Z.land end_ 0x3FF =? 0) then u32 (Z.ldiff end_ 0x3FF + BLOCK_SIZE) else end_ in
  let! k := kernel_directory in
  loop (S (Z.to_nat (2 ^ 20))) (fun i =>
    if i <? end_ then
      let! kt := get_table i k in
      map_page kt i i flags >>>
      ret (inl (u32 (i + BLOCK_SIZE)))
    else ret (inr tt)) start.

Definition map_direct_kernel (v : Z) : M V unit :=
  kassert (Z.land v 0x3FF =? 0) >>>
  let! k := kernel_directory in
  let! table := get_table v k in
  let! o_page := get_page table v in
  (if negb (o_page =? 0) && negb (Z.ldiff o_page 0x3FF =? v) then fail AssertFail else ret tt) >>>
  let! table := get_table v k in
  map_page table v v (Z.lor PAGE_PRESENT PAGE_READWRITE) >>>
  invalidate_page v.

(** [kdir] is the address of [_kernel_dir]. *)
Definition vmm_init (kdir : Z) : M V unit :=
  let! pt := zoom frames_lens frame_alloc_safe in
  clear_page pt >>>
  modify (fun s => VState (v_frames s) (v_heap s) (v_mem s)
    (<[kdir := PageDirectory pt (fun _ => 0) pt (-1)]> (v_dirs s)) kdir (v_cr3 s) (v_paging s)) >>>
  for_up 1024 0 (fun i =>
    let! physical_t := zoom frames_lens frame_alloc_safe in
    clear_page physical_t >>>
    write_word (u32 (pt + 4 * i))
      (Z.lor physical_t (Z.lor PAGE_TABLE_PRESENT (Z.lor PAGE_TABLE_READWRITE
        (Z.lor PAGE_TABLE_WRITE_THROUGH PAGE_TABLE_CACHE_DISABLE)))) >>>
    upd_directory kdir (set_table i physical_t)) >>>
  for_up 1024 0 (fun i =>
    let! x := directory kdir in map_direct_kernel (tables x i)) >>>
  map_direct_kernel pt >>>
  let! table := get_table 0 kdir in
  map_page table 0 0 0.

Definition vmm_enable : M V unit :=
  let! k := kernel_directory in
  let! x := directory k in
  modify (fun s => VState (v_frames s) (v_heap s) (v_mem s) (v_dirs s) (v_kernel s) (physical_address x) true).

(** ** Kernel stacks of tasks *)

Definition KSTACK_SIZE : Z := 8.

(** Maps a fresh zeroed frame at page [i] of the stack. *)
Definition kstack_page (k kstack i : Z) : M V unit :=
  let vkaddr := u32 (kstack + i * BLOCK_SIZE) in
  let! phys := zoom frames_lens frame_alloc_safe in
  let! t := get_table vkaddr k in
  map_page t vkaddr phys (Z.lor PAGE_PRESENT PAGE_READWRITE) >>>
  invalidate_page vkaddr >>>
  clear_page vkaddr.

(** Answers [task->kstack], the top of the stack. *)
Definition task_kstack_alloc : M V Z :=
  let! k := kernel_directory in
  let! kstack := find_vspace k KSTACK_SIZE in
  kassert (negb (kstack =? 0)) >>>
  let! t := get_table kstack k in
  map_page t kstack PAGE_VALUE_GUARD 0 >>>
  invalidate_page kstack >>>
  let kstack := u32 (kstack + BLOCK_SIZE) in
  for_up (Z.to_nat (KSTACK_SIZE - 2)) 0 (kstack_page k kstack) >>>
  let kstack := u32 (kstack + (KSTACK_SIZE - 2) * BLOCK_SIZE) in
  let! t := get_table kstack k in
  map_page t kstack PAGE_VALUE_GUARD 0 >>>
  invalidate_page kstack >>>
  ret kstack.

(** Removes a guard page. *)
Definition kstack_unguard (k kstack : Z) : M V unit :=
  let! t := table_alloc kstack k in
  let! page := get_page t kstack in
  kassert (page =? PAGE_VALUE_GUARD) >>>
  let! t := table_alloc kstack k in
  map_page t kstack 0 0 >>>
  invalidate_page kstack.

Definition kstack_free_page (k kstack i : Z) : M V unit :=
  let vkaddr := u32 (kstack - i * BLOCK_SIZE) in
  let! t := table_alloc vkaddr k in
  let! kpage := get_page t vkaddr in
  kassert (negb (Z.land kpage PAGE_PRESENT =? 0)) >>>
  let! t := table_alloc vkaddr k in
  map_page t vkaddr 0 0 >>>
  invalidate_page vkaddr >>>
  free_frame (Z.ldiff kpage 0xFFF).

Definition task_kstack_free (kstack : Z) : M V unit :=
  kassert (negb (kstack =? 0)) >>>
  let! k := kernel_directory in
  kstack_unguard k kstack >>>
  let kstack := u32 (kstack - BLOCK_SIZE) in
  for_up (Z.to_nat (KSTACK_SIZE - 2)) 0 (kstack_free_page k kstack) >>>
  let kstack := u32 (kstack - (KSTACK_SIZE - 2) * BLOCK_SIZE) in
  kstack_unguard k kstack.
End ops.

(** ** The tables the kernel keeps *)

(** The pages that hold paging structures: directories and tables, the
    kernel's and the users'. *)
Inductive role : Type :=
  | KDir
  | KTab (i : Z)
  | UDir (d : Z)
  | UTab (d i : Z).

#[export] Instance role_eq_dec : EqDecision role.
Proof. solve_decision. Defined.

Section invariant.
Context {F H : Type} `{FrameAllocLaws F, KHeapLaws H}.
Implicit Types (s : vstate F H) (r : role).

Definition no_directory : page_directory_t := PageDirectory 0 (fun _ => 0) 0 0.
Definition dir s (d : Z) : page_directory_t := default no_directory (v_dirs s !! d).
Definition kdir s : page_directory_t := dir s (v_kernel s).

(** Entry [k] of frame [f]. *)
Definition word s (f k : Z) : Z := word_at (v_mem s) f k.

(** The frame a structure lives in. *)
Definition frame s r : Z :=
  match r with
  | KDir => physical_address (kdir s) / 4096
  | KTab i => word s (physical_address (kdir s) / 4096) i / 4096
  | UDir d => physical_address (dir s d) / 4096
  | UTab d i => word s (physical_address (dir s d) / 4096) i / 4096
  end.

(** The pointer the kernel uses for it. *)
Definition pointer s r : Z :=
  match r with
  | KDir => physical_tables (kdir s)
  | KTab i => tables (kdir s) i
  | UDir d => physical_tables (dir s d)
  | UTab d i => tables (dir s d) i
  end.

Definition exists_role s r : Prop :=
  match r with
  | KDir => True
  | KTab i => 0 <= i < 1024
  | UDir d => d <> v_kernel s /\ is_Some (v_dirs s !! d)
  | UTab d i => d <> v_kernel s /\ is_Some (v_dirs s !! d) /\ 0 <= i < 1024 /\ tables (dir s d) i <> 0
  end.

(** The kernel's entry for page [p]. *)
Definition kentry s (p : Z) : Z := word s (frame s (KTab (p / 1024))) (p mod 1024).

(** Present and writable. *)
Definition usable (e : Z) : Prop := e mod 4 = 3.

(** The kernel reaches structure [r] through its pointer. *)
Definition mapped s r : Prop :=
  exists p, pointer s r = p * 4096 /\ 0 < p < 2 ^ 20 /\
    kentry s p / 4096 = frame s r /\ usable (kentry s p).

(** Every structure lives in a frame of its own that is taken from the
    allocator and is mapped where the kernel's pointer says; a directory has
    an entry exactly where the kernel has a pointer to a table.  [x] is a
    table or directory under construction. *)
Record vm_ok (x : option role) s : Prop := VmOk {
  vo_paging : v_paging s = true /\ v_cr3 s = physical_address (kdir s) /\ physical_address (kdir s) mod 4096 = 0;
  vo_kernel : v_kernel s <> 0 /\ is_Some (v_dirs s !! v_kernel s) /\ v_dirs s !! 0 = None;
  vo_frames : frame_ok (v_frames s);
  vo_taken : forall r, exists_role s r ->
    0 < frame s r < frame_count (v_frames s) /\ frame_used (v_frames s) (frame s r) = true;
  vo_mapped : forall r, exists_role s r -> x <> Some r -> mapped s r;
  vo_inj : forall r r', exists_role s r -> exists_role s r' -> frame s r = frame s r' -> r = r';
  vo_kdir : forall i, 0 <= i < 1024 -> usable (word s (frame s KDir) i);
  vo_udir : forall d i, exists_role s (UDir d) -> 0 <= i < 1024 -> x <> Some (UTab d i) -> x <> Some (UDir d) ->
    (tables (dir s d) i = 0 -> word s (frame s (UDir d)) i = 0) /\
    (tables (dir s d) i <> 0 -> usable (word s (frame s (UDir d)) i));
  vo_phys : forall d, exists_role s (UDir d) -> physical_address (dir s d) mod 4096 = 0;
}.

Lemma allows_usable b e : usable e -> allows b e = true.
Proof.
  unfold usable, allows. intros He.
  assert (Z.testbit e 0 = true) as ->.
  { rewrite Z.bit0_odd. rewrite (Z.div_mod e 4), He by lia. replace (4 * (e / 4) + 3) with (1 + 2 * (2 * (e / 4) + 1)) by lia.
    by rewrite Z.odd_add_mul_2. }
  assert (Z.testbit e 1 = true) as ->.
  { rewrite Z.testbit_odd, Z.shiftr_div_pow2 by lia. change (2 ^ 1) with 2.
    assert (e / 2 = 1 + 2 * (e / 4)) as -> by (symmetry; apply Z.div_unique with 1; [lia|]; pose proof (Z.div_mod e 4); lia).
    by rewrite Z.odd_add_mul_2. }
  by destruct b.
Qed.

(** ** The page walk finds the structures *)

(** Frame [f] is handed out; it holds no paging structure. *)
Definition taken s (f : Z) : Prop := 0 <= f < frame_count (v_frames s) /\ frame_used (v_frames s) f = true.
Definition foreign s (f : Z) : Prop := forall r, exists_role s r -> frame s r <> f.

Lemma translate_role x s r k b :
  vm_ok x s -> exists_role s r -> mapped s r -> 0 <= k < 1024 ->
  translate b (u32 (pointer s r + 4 * k)) s = Some (frame s r * 4096 + 4 * k).
Proof.
  intros Hok Hr (p & Hp & Hpr & Hfr & Hu) Hk.
  destruct (vo_paging x s Hok) as (Hpg & Hcr & Hal).
  assert (u32 (pointer s r + 4 * k) = p * 4096 + 4 * k) as -> by (rewrite Hp, u32_small; unfold is_u32; lia).
  unfold translate. rewrite Hpg. unfold walk.
  assert ((p * 4096 + 4 * k) / 4096 = p) as Hpg1 by (symmetry; apply Z.div_unique with (4 * k); lia).
  assert ((p * 4096 + 4 * k) / 2 ^ 22 = p / 1024) as ->.
  { change (2 ^ 22) with (4096 * 1024). rewrite <- Z.div_div, Hpg1 by lia. done. }
  assert ((p * 4096 + 4 * k) mod 4096 = 4 * k) as ->.
  { rewrite Z.add_comm, Z.mod_add by lia. apply Z.mod_small. lia. }
  rewrite Hpg1, Hcr. change (physical_address (kdir s) / 4096) with (frame s KDir).
  assert (0 <= p / 1024 < 1024) as Hi by (split; [apply Z.div_pos; lia|apply Z.div_lt_upper_bound; lia]).
  fold (word s (frame s KDir) (p / 1024)). rewrite (allows_usable b) by (by apply (vo_kdir x)).
  change (word s (frame s KDir) (p / 1024) / 4096) with (frame s (KTab (p / 1024))).
  fold (word s (frame s (KTab (p / 1024))) (p mod 1024)). fold (kentry s p).
  by rewrite (allows_usable b _ Hu), Hfr.
Qed.

Lemma word_index f k : 0 <= k < 1024 -> (f * 4096 + 4 * k) / 4 = f * 1024 + k.
Proof. intros Hk. symmetry. apply Z.div_unique with 0; lia. Qed.

Lemma wp_read_role x s r k (Q : Z -> vstate F H -> Prop) E :
  vm_ok x s -> exists_role s r -> mapped s r -> 0 <= k < 1024 ->
  Q (word s (frame s r) k) s -> wp (read_word (u32 (pointer s r + 4 * k))) Q E s.
Proof.
  intros Hok Hr Hm Hk HQ. unfold read_word. wp_steps. rewrite (translate_role x s r k false Hok Hr Hm Hk).
  wp_cond. wp_steps. by rewrite word_index.
Qed.

(** [s] with entry [k] of frame [f] set. *)
Definition set_word (f k v : Z) s : vstate F H := set_mem (<[f * 1024 + k := v]> (v_mem s)) s.

Lemma wp_write_role x s r k v (Q : unit -> vstate F H -> Prop) E :
  vm_ok x s -> exists_role s r -> mapped s r -> 0 <= k < 1024 ->
  Q tt (set_word (frame s r) k v s) -> wp (write_word (u32 (pointer s r + 4 * k)) v) Q E s.
Proof.
  intros Hok Hr Hm Hk HQ. unfold write_word. wp_steps. rewrite (translate_role x s r k true Hok Hr Hm Hk).
  wp_cond. wp_steps. by rewrite word_index.
Qed.

Lemma word_set f k v s f' k' :
  0 <= k < 1024 -> 0 <= k' < 1024 ->
  word (set_word f k v s) f' k' = if (f' =? f) && (k' =? k) then v else word s f' k'.
Proof.
  intros Hk Hk'. unfold word, word_at, set_word. cbn [v_mem set_mem].
  destruct (Z.eqb_spec f' f) as [->|Hf]; [destruct (Z.eqb_spec k' k) as [->|Hkk]|]; cbn [andb].
  - apply fn_lookup_insert.
  - apply fn_lookup_insert_ne. lia.
  - apply fn_lookup_insert_ne. lia.
Qed.

(** ** Which writes keep the structures *)

(** A table of the kernel or of a user: nothing but translations reads it. *)
Definition is_table r : Prop := match r with KTab _ | UTab _ _ => True | _ => False end.

(** Writing an entry of a table moves no structure. *)
Lemma frame_set_table x s r0 r k v :
  vm_ok x s -> exists_role s r0 -> is_table r0 -> exists_role s r -> 0 <= k < 1024 ->
  frame (set_word (frame s r0) k v s) r = frame s r.
Proof.
  intros Hok Hr0 Ht Hr Hk.
  assert (forall r1 j, exists_role s r1 -> ~ is_table r1 -> 0 <= j < 1024 ->
    word (set_word (frame s r0) k v s) (frame s r1) j = word s (frame s r1) j) as Hw.
  { intros r1 j Hr1 Hn Hj. rewrite word_set by done.
    destruct (Z.eqb_spec (frame s r1) (frame s r0)) as [He|]; [|done].
    by rewrite <- (vo_inj x s Hok r1 r0 Hr1 Hr0 He) in Ht. }
  destruct r as [|i|d|d i]; try done; cbn [frame] in *.
  - exact (f_equal (fun w => w / 4096) (Hw KDir i I (fun f => f) Hr)).
  - destruct Hr as (Hd1 & Hd2 & Hd3 & Hd4).
    exact (f_equal (fun w => w / 4096) (Hw (UDir d) i (conj Hd1 Hd2) (fun f => f) Hd3)).
Qed.

Lemma word_set_other x s r0 r k v j :
  vm_ok x s -> exists_role s r0 -> exists_role s r -> r <> r0 -> 0 <= k < 1024 -> 0 <= j < 1024 ->
  word (set_word (frame s r0) k v s) (frame s r) j = word s (frame s r) j.
Proof.
  intros Hok Hr0 Hr Hne Hk Hj. rewrite word_set by done.
  destruct (Z.eqb_spec (frame s r) (frame s r0)) as [He|]; [|done].
  by destruct Hne; apply (vo_inj x s Hok).
Qed.

Lemma page_split p : 0 <= p < 2 ^ 20 -> 0 <= p / 1024 < 1024 /\ 0 <= p mod 1024 < 1024.
Proof.
  intros Hp. split; [split; [apply Z.div_pos; lia|apply Z.div_lt_upper_bound; lia]|].
  apply Z.mod_pos_bound. lia.
Qed.

(** The kernel's entry of page [p] becomes [v]. *)
Definition set_kentry (p v : Z) s : vstate F H :=
  set_word (frame s (KTab (p / 1024))) (p mod 1024) v s.

Lemma kentry_set x s p v q :
  vm_ok x s -> 0 <= p < 2 ^ 20 -> 0 <= q < 2 ^ 20 ->
  kentry (set_kentry p v s) q = if q =? p then v else kentry s q.
Proof.
  intros Hok Hp Hq. destruct (page_split p Hp) as [Hp1 Hp2], (page_split q Hq) as [Hq1 Hq2].
  unfold kentry, set_kentry. rewrite (frame_set_table x) by done. rewrite word_set by done.
  destruct (Z.eqb_spec q p) as [->|Hne]; [by rewrite !Z.eqb_refl|].
  destruct (Z.eqb_spec (frame s (KTab (q / 1024))) (frame s (KTab (p / 1024)))) as [He|]; [|done].
  apply (vo_inj x s Hok) in He; [|done..]. injection He as He.
  destruct (Z.eqb_spec (q mod 1024) (p mod 1024)); [|done].
  destruct Hne. rewrite (Z.div_mod q 1024), (Z.div_mod p 1024) by lia. lia.
Qed.

Lemma pointer_set f k v s r : pointer (set_word f k v s) r = pointer s r.
Proof. by destruct r. Qed.

Lemma exists_role_set f k v s r : exists_role (set_word f k v s) r <-> exists_role s r.
Proof. by destruct r. Qed.

(** Writing a table entry through which no structure is reached keeps the
    invariant. *)
Lemma vm_ok_set_table x x' s r0 k v :
  vm_ok x s -> exists_role s r0 -> is_table r0 -> 0 <= k < 1024 ->
  (forall r, exists_role s r -> x' <> Some r -> mapped (set_word (frame s r0) k v s) r) ->
  (forall d i, exists_role s (UDir d) -> x' <> Some (UTab d i) -> x = Some (UTab d i) ->
     tables (dir s d) i <> 0 /\ usable (word s (frame s (UDir d)) i)) ->
  (forall d, x = Some (UDir d) -> x' = x) ->
  vm_ok x' (set_word (frame s r0) k v s).
Proof.
  intros Hok Hr0 Ht Hk Hm Hx Hxd.
  assert (forall r, exists_role s r -> frame (set_word (frame s r0) k v s) r = frame s r) as Hf
    by (intros; by apply (frame_set_table x)).
  assert (forall r j, exists_role s r -> ~ is_table r -> 0 <= j < 1024 ->
    word (set_word (frame s r0) k v s) (frame (set_word (frame s r0) k v s) r) j = word s (frame s r) j) as Hw.
  { intros r j Hr Hn Hj. rewrite Hf by done. apply (word_set_other x); try done. by intros ->. }
  split.
  - apply Hok.
  - apply Hok.
  - apply Hok.
  - intros r Hr%exists_role_set. rewrite Hf by done. by apply (vo_taken x s Hok).
  - intros r Hr%exists_role_set. by apply Hm.
  - intros r r' Hr%exists_role_set Hr'%exists_role_set. rewrite !Hf by done. by apply (vo_inj x s Hok).
  - intros i Hi. rewrite Hw by (first [done|tauto]). by apply (vo_kdir x s Hok).
  - intros d i Hd%exists_role_set Hi Hne Hnd. change (dir (set_word (frame s r0) k v s) d) with (dir s d).
    rewrite Hw by (first [done|tauto]). destruct (decide (x = Some (UTab d i))) as [Hxe|Hxn].
    + destruct (Hx d i Hd Hne Hxe). tauto.
    + apply (vo_udir x s Hok); try done. intros Hxe. by rewrite (Hxd d Hxe) in Hnd.
  - intros d Hd%exists_role_set. by apply (vo_phys x s Hok).
Qed.

Lemma mapped_set x s p v r :
  vm_ok x s -> 0 <= p < 2 ^ 20 -> exists_role s r -> pointer s r <> p * 4096 ->
  mapped s r -> mapped (set_kentry p v s) r.
Proof.
  intros Hok Hp Hr Hne (q & Hq & Hqr & Hqf & Hqu). exists q.
  unfold set_kentry at 1. rewrite pointer_set. split; [done|]. split; [done|].
  rewrite (kentry_set x) by (first [done|lia]). rewrite (proj2 (Z.eqb_neq q p)) by (intros ->; done).
  unfold set_kentry. rewrite (frame_set_table x) by (first [done|apply page_split; lia]). done.
Qed.

Lemma vm_ok_set_kentry x s p v :
  vm_ok x s -> 0 <= p < 2 ^ 20 ->
  (forall r, exists_role s r -> x <> Some r -> pointer s r <> p * 4096) ->
  vm_ok x (set_kentry p v s).
Proof.
  intros Hok Hp Hne. apply (vm_ok_set_table x); try done; try (apply page_split; lia).
  intros r Hr Hx. apply (mapped_set x); auto. by apply (vo_mapped x s Hok).
Qed.

(** An entry that is not present is no structure's. *)
Lemma pointer_absent x s p r :
  vm_ok x s -> ~ usable (kentry s p) -> exists_role s r -> x <> Some r -> pointer s r <> p * 4096.
Proof.
  intros Hok Hu Hr Hx He. destruct (vo_mapped x s Hok r Hr Hx) as (q & Hq & _ & _ & Hqu).
  assert (q = p) as -> by lia. done.
Qed.

Lemma mapped_user_table x s r0 k v r :
  vm_ok x s -> exists_role s r0 -> (exists d i, r0 = UTab d i) -> 0 <= k < 1024 ->
  exists_role s r -> mapped s r -> mapped (set_word (frame s r0) k v s) r.
Proof.
  intros Hok Hr0 (d & i & ->) Hk Hr (q & Hq & Hqr & Hqf & Hqu). exists q.
  rewrite pointer_set. split; [done|]. split; [done|].
  destruct (page_split q) as [Hq1 Hq2]; [lia|].
  unfold kentry. rewrite !(frame_set_table x) by done. by rewrite (word_set_other x).
Qed.

Lemma vm_ok_set_user x s d i k v :
  vm_ok x s -> exists_role s (UTab d i) -> 0 <= k < 1024 ->
  vm_ok x (set_word (frame s (UTab d i)) k v s).
Proof.
  intros Hok Hr0 Hk. apply (vm_ok_set_table x); try done.
  intros r Hr Hx. apply (mapped_user_table x); eauto. by apply (vo_mapped x s Hok).
Qed.
(** ** The accessors *)

Lemma table_index va : Z.land (Z.shiftr va 12) 0x3FF = va / 4096 mod 1024.
Proof.
  rewrite Z.shiftr_div_pow2 by lia. change 0x3FF with (Z.ones 10). by rewrite land_ones_mod.
Qed.

Lemma page_aligned p : Z.land (p * 4096) 0x3FF = 0.
Proof.
  change 0x3FF with (Z.ones 10). rewrite land_ones_mod by lia.
  change (2 ^ 10) with 1024. replace (p * 4096) with (p * 4 * 1024) by lia. apply Z.mod_mul. lia.
Qed.

Lemma page_parts p : p * 4096 / 4096 = p /\ p * 4096 / 2 ^ 22 = p / 1024.
Proof.
  rewrite Z.div_mul by lia. change (2 ^ 22) with (4096 * 1024). rewrite <- Z.div_div by lia.
  by rewrite Z.div_mul.
Qed.

Lemma page_u32 p : 0 <= p < 2 ^ 20 -> is_u32 (p * 4096).
Proof. unfold is_u32. lia. Qed.

Lemma wp_get_table s d va (Q : Z -> vstate F H -> Prop) E :
  d <> 0 -> is_Some (v_dirs s !! d) -> is_u32 va ->
  Q (tables (dir s d) (va / 2 ^ 22)) s -> wp (get_table va d) Q E s.
Proof.
  intros Hd [x Hx] Hva HQ. unfold get_table. wp_cond. rewrite (proj2 (Z.eqb_neq d 0)) by done. cbn [negb].
  rewrite Z.shiftr_div_pow2 by lia. wp_cond.
  rewrite (proj2 (Z.ltb_lt _ _)) by (apply Z.div_lt_upper_bound; unfold is_u32 in Hva; lia).
  unfold directory. wp_cond. rewrite Hx. wp_steps. unfold dir in HQ. by rewrite Hx in HQ.
Qed.

Lemma wp_get_page x s r va (Q : Z -> vstate F H -> Prop) E :
  vm_ok x s -> exists_role s r -> mapped s r ->
  Q (word s (frame s r) (va / 4096 mod 1024)) s -> wp (get_page (pointer s r) va) Q E s.
Proof.
  intros Hok Hr Hm HQ. pose proof Hm as (p & Hp & Hpr & _).
  unfold get_page, page_slot. wp_cond. rewrite (proj2 (Z.eqb_neq _ 0)) by lia. cbn [negb].
  rewrite table_index. apply (wp_read_role x); try done. apply Z.mod_pos_bound. lia.
Qed.

Lemma wp_map_page x s r va pa fl (Q : unit -> vstate F H -> Prop) E :
  vm_ok x s -> exists_role s r -> mapped s r -> Z.land va 0x3FF = 0 ->
  Q tt (set_word (frame s r) (va / 4096 mod 1024) (Z.lor pa fl) s) ->
  wp (map_page (pointer s r) va pa fl) Q E s.
Proof.
  intros Hok Hr Hm Hva HQ. pose proof Hm as (p & Hp & Hpr & _).
  unfold map_page, page_slot. wp_cond. rewrite (proj2 (Z.eqb_neq _ 0)) by lia. cbn [negb].
  wp_cond. rewrite Hva. change (0 =? 0) with true. cbv iota. wp_cond.
  rewrite Hp, page_aligned. change (0 =? 0) with true. cbv iota. rewrite <- Hp.
  rewrite table_index. apply (wp_write_role x); try done. apply Z.mod_pos_bound. lia.
Qed.

(** The kernel's own tables: all of them exist. *)
Lemma ktab_ready x s va :
  vm_ok x s -> (forall i, x <> Some (KTab i)) -> is_u32 va ->
  exists_role s (KTab (va / 2 ^ 22)) /\ mapped s (KTab (va / 2 ^ 22)).
Proof.
  intros Hok Hx Hva. assert (exists_role s (KTab (va / 2 ^ 22))) as Hr.
  { cbn. unfold is_u32 in Hva. split; [apply Z.div_pos; lia|apply Z.div_lt_upper_bound; lia]. }
  split; [done|]. by apply (vo_mapped x s Hok).
Qed.

Lemma wp_ktable x s va (Q : Z -> vstate F H -> Prop) E :
  vm_ok x s -> is_u32 va -> Q (pointer s (KTab (va / 2 ^ 22))) s -> wp (get_table va (v_kernel s)) Q E s.
Proof.
  intros Hok Hva HQ. pose proof (vo_kernel x s Hok) as (? & ? & _). by apply wp_get_table.
Qed.

Lemma wp_kpage x s p (Q : Z -> vstate F H -> Prop) E :
  vm_ok x s -> (forall i, x <> Some (KTab i)) -> 0 <= p < 2 ^ 20 -> Q (kentry s p) s ->
  wp (get_page (pointer s (KTab (p * 4096 / 2 ^ 22))) (p * 4096)) Q E s.
Proof.
  intros Hok Hx Hp HQ. destruct (ktab_ready x s _ Hok Hx (page_u32 p Hp)) as [Hr Hm].
  apply (wp_get_page x); try done. destruct (page_parts p) as [-> ->]. done.
Qed.

Lemma wp_kmap x s p pa fl (Q : unit -> vstate F H -> Prop) E :
  vm_ok x s -> (forall i, x <> Some (KTab i)) -> 0 <= p < 2 ^ 20 ->
  Q tt (set_kentry p (Z.lor pa fl) s) ->
  wp (map_page (pointer s (KTab (p * 4096 / 2 ^ 22))) (p * 4096) pa fl) Q E s.
Proof.
  intros Hok Hx Hp HQ. destruct (ktab_ready x s _ Hok Hx (page_u32 p Hp)) as [Hr Hm].
  apply (wp_map_page x); try done; [apply page_aligned|]. destruct (page_parts p) as [-> ->]. done.
Qed.

(** For the kernel directory [get_table_alloc] is [get_table]. *)
Lemma wp_ktable_alloc x depth s va (Q : Z -> vstate F H -> Prop) E :
  vm_ok x s -> (forall i, x <> Some (KTab i)) -> is_u32 va -> Q (pointer s (KTab (va / 2 ^ 22))) s ->
  wp (get_table_alloc depth va (v_kernel s)) Q E s.
Proof.
  intros Hok Hx Hva HQ. pose proof (vo_kernel x s Hok) as (Hk & _ & _).
  destruct (ktab_ready x s _ Hok Hx Hva) as [_ (q & Hq & Hqr & _)].
  destruct depth; cbn [get_table_alloc]; wp_cond; rewrite (proj2 (Z.eqb_neq _ 0)) by done; cbn [negb];
    wp_steps; apply (wp_ktable x); try done; cbv beta; wp_cond;
    rewrite (proj2 (Z.eqb_neq _ 0)) by lia; cbn [negb]; by wp_steps.
Qed.

(** ** Finding address space *)

(** [n] pages from [p] on, around the end of the address space. *)
Definition free_run s (p n : Z) : Prop :=
  forall j, 0 <= j < n -> kentry s ((p + j) mod 2 ^ 20) = 0.

Lemma page_wrap p : u32 (p * BLOCK_SIZE) = p mod 2 ^ 20 * 4096.
Proof. unfold u32, BLOCK_SIZE. rewrite <- Z.mul_mod_distr_r by lia. done. Qed.

Section find.
Context (x : option role) (gta : Z -> Z -> M (vstate F H) Z) (s : vstate F H).
Hypothesis Hok : vm_ok x s.
Hypothesis Hx : forall i, x <> Some (KTab i).
Hypothesis gta_kernel : forall va (Q : Z -> vstate F H -> Prop) E, is_u32 va ->
  Q (pointer s (KTab (va / 2 ^ 22))) s -> wp (gta va (v_kernel s)) Q E s.

Lemma wp_vspace_extend p n (Q : Z -> vstate F H -> Prop) E :
  0 < p < 2 ^ 20 -> 1 <= n -> kentry s p = 0 ->
  (forall l, 1 <= l <= n -> free_run s p l ->
     (l = n \/ kentry s ((p + l) mod 2 ^ 20) <> 0) -> Q l s) ->
  wp (vspace_extend gta (v_kernel s) (p * BLOCK_SIZE) n) Q E s.
Proof.
  intros Hp Hn Hz0 HQ. unfold vspace_extend.
  eapply (wp_loop (fun l s' => s' = s /\ 1 <= l <= n /\ free_run s p l) (fun l _ => Z.to_nat (n - l))).
  2: { split; [done|]. split; [lia|]. intros j Hj. replace (p + j) with p by lia.
       by rewrite Z.mod_small by lia. }
  2: lia.
  intros l s' (-> & Hl & Hrun). wp_cond. destruct (Z.ltb_spec l n).
  - replace (p * BLOCK_SIZE + l * BLOCK_SIZE) with ((p + l) * BLOCK_SIZE) by lia. rewrite page_wrap.
    assert (0 <= (p + l) mod 2 ^ 20 < 2 ^ 20) as Hpl by (apply Z.mod_pos_bound; lia).
    wp_steps. apply gta_kernel; [by apply page_u32|]. wp_steps. apply (wp_kpage x); try done. wp_cond.
    destruct (Z.eqb_spec (kentry s ((p + l) mod 2 ^ 20)) 0) as [Hz|Hz]; wp_steps.
    + split; [|lia]. split; [done|]. split; [lia|]. intros j Hj.
      destruct (Z.eq_dec j l) as [->|]; [done|]. apply Hrun. lia.
    + apply HQ; auto.
  - wp_steps. apply HQ; auto. left. lia.
Qed.
End find.

(** What [find_vspace] leaves in the kernel's tables. *)
Definition reserved (x : option role) s (p n : Z) s' : Prop :=
  vm_ok x s' /\ v_frames s' = v_frames s /\ v_heap s' = v_heap s /\ v_dirs s' = v_dirs s /\
  v_kernel s' = v_kernel s /\
  (forall r, exists_role s r -> frame s' r = frame s r) /\
  (forall f k, 0 <= k < 1024 -> (forall i, 0 <= i < 1024 -> f <> frame s (KTab i)) ->
    word s' f k = word s f k) /\
  forall q, 0 <= q < 2 ^ 20 ->
    kentry s' q = if (p <=? q) && (q <? p + n) then PAGE_VALUE_RESERVED else kentry s q.

Lemma exists_role_dirs s s' r :
  v_dirs s' = v_dirs s -> v_kernel s' = v_kernel s -> exists_role s' r <-> exists_role s r.
Proof. intros Hd Hk. destruct r; cbn; unfold dir; by rewrite ?Hd, ?Hk. Qed.

Lemma reserved_nil x s p : vm_ok x s -> reserved x s p 0 s.
Proof.
  intros Hok. split; [done|]. do 6 (split; [done|]). intros q Hq.
  destruct (Z.leb_spec p q), (Z.ltb_spec q (p + 0)); cbn; try done. lia.
Qed.

Lemma reserved_step x s p l s' :
  reserved x s p l s' -> 0 < p -> 0 <= l -> p + l < 2 ^ 20 -> ~ usable (kentry s (p + l)) ->
  reserved x s p (l + 1) (set_kentry (p + l) PAGE_VALUE_RESERVED s').
Proof.
  intros (Hok & Hf & Hh & Hd & Hk & Hfr & Hw & He) Hp Hl Hpl Hz.
  destruct (page_split (p + l)) as [Hi1 Hi2]; [lia|].
  assert (kentry s' (p + l) = kentry s (p + l)) as Hz'.
  { rewrite He by lia. destruct (Z.leb_spec p (p + l)), (Z.ltb_spec (p + l) (p + l)); cbn; try done; lia. }
  split; [|split; [|split; [|split; [|split; [|split; [|split]]]]]]; try done.
  - apply vm_ok_set_kentry; [done|lia|]. intros r Hr Hx'. eapply pointer_absent; [done| |done..].
    by rewrite Hz'.
  - intros r Hr. unfold set_kentry. rewrite (frame_set_table x); try done; [auto|].
    by apply (exists_role_dirs s).
  - intros f k Hkr Hn. rewrite <- Hw by done. unfold set_kentry. rewrite word_set by done.
    rewrite Hfr by done. by rewrite (proj2 (Z.eqb_neq _ _)) by (by apply Hn).
  - intros q Hq. rewrite (kentry_set x) by (first [done|lia]). rewrite He by done.
    destruct (Z.eqb_spec q (p + l)); destruct (Z.leb_spec p q);
      destruct (Z.ltb_spec q (p + l)); destruct (Z.ltb_spec q (p + (l + 1))); cbn; try done; lia.
Qed.

Lemma free_run_absent s p n l :
  free_run s p n -> 0 < p -> 0 <= l < n -> p + l < 2 ^ 20 -> ~ usable (kentry s (p + l)).
Proof.
  intros Hr Hp Hl Hpl. specialize (Hr l Hl). rewrite Z.mod_small in Hr by lia. by rewrite Hr.
Qed.

Lemma wp_vspace_reserve x s p n E :
  vm_ok x s -> (forall i, x <> Some (KTab i)) -> 0 < p < 2 ^ 20 -> 1 <= n < 2 ^ 20 -> free_run s p n ->
  wp (vspace_reserve (v_kernel s) (p * BLOCK_SIZE) n)
    (fun _ s' => reserved x s p (if p + n <? 2 ^ 20 then n else 0) s') E s.
Proof.
  intros Hok Hx Hp Hn Hrun. unfold vspace_reserve.
  replace (p * BLOCK_SIZE + n * BLOCK_SIZE) with ((p + n) * BLOCK_SIZE) by lia. rewrite page_wrap.
  destruct (Z.ltb_spec (p + n) (2 ^ 20)) as [Hlt|Hge].
  - rewrite Z.mod_small by lia.
    eapply (wp_loop (fun i s' => exists l, i = (p + l) * BLOCK_SIZE /\ 0 <= l <= n /\ reserved x s p l s')
      (fun i _ => Z.to_nat (p + n - i / 4096))).
    + intros i s' (l & -> & Hl & Hres). pose proof Hres as (Hok' & _ & _ & _ & Hk & _). wp_cond.
      unfold BLOCK_SIZE in *. destruct (Z.ltb_spec ((p + l) * 4096) ((p + n) * 4096)).
      * wp_steps. rewrite <- Hk. apply (wp_ktable x); [done|apply page_u32; lia|]. wp_steps.
        apply (wp_kmap x); [done|done|lia|]. wp_steps.
        replace ((p + l) * 4096 + 4096) with ((p + (l + 1)) * BLOCK_SIZE) by (unfold BLOCK_SIZE; lia).
        assert (p + (l + 1) < 2 ^ 20) as Hs by lia. rewrite page_wrap, Z.mod_small by lia.
        split; [exists (l + 1); split; [done|]; split; [lia|]|].
        -- change (Z.lor PAGE_VALUE_RESERVED 0) with PAGE_VALUE_RESERVED.
           apply reserved_step; try done; try lia. apply (free_run_absent s p n); try done; lia.
        -- rewrite !Z.div_mul by lia. lia.
      * wp_steps. by replace n with l by lia.
    + exists 0. split; [by rewrite Z.add_0_r|]. split; [lia|by apply reserved_nil].
    + unfold BLOCK_SIZE. rewrite Z.div_mul by lia. lia.
  - assert ((p + n) mod 2 ^ 20 = p + n - 2 ^ 20) as ->
      by (symmetry; apply Z.mod_unique with 1; lia).
    apply wp_loop_step. wp_cond. unfold BLOCK_SIZE.
    rewrite (proj2 (Z.ltb_ge _ _)) by lia. wp_steps. by apply reserved_nil.
Qed.

(** [find_vspace] takes the lowest run of [n] free pages and reserves it;
    when there is none it answers -1. *)
Definition vspace_found (x : option role) s (n v : Z) s' : Prop :=
  (v = 2 ^ 32 - 1 /\ s' = s /\ forall p, 0 < p < 2 ^ 20 -> ~ free_run s p n) \/
  (exists p, v = p * BLOCK_SIZE /\ 0 < p < 2 ^ 20 /\ free_run s p n /\
     (forall q, 0 < q < p -> ~ free_run s q n) /\
     reserved x s p (if p + n <? 2 ^ 20 then n else 0) s').

(** What stops an operation that takes frames and one page of the kernel: no
    memory, or no free page among the kernel's addresses. *)
Definition vspace_full s : Prop := forall p, 0 < p < 2 ^ 20 -> ~ free_run s p 1.
Definition no_space s : panic -> Prop := fun e => e = NoMemory \/ (e = AssertFail /\ vspace_full s).


Lemma no_free_run s i l n q :
  0 < q -> i <= q <= i + l -> l < n -> i + n <= 2 ^ 32 ->
  kentry s ((i + l) mod 2 ^ 20) <> 0 -> ~ free_run s q n.
Proof.
  intros Hq Hi Hl Hn Hz Hr. apply Hz. specialize (Hr (i + l - q)).
  replace (q + (i + l - q)) with (i + l) in Hr by lia. apply Hr. lia.
Qed.

Lemma wp_find_vspace_with x gta s n E :
  vm_ok x s -> (forall i, x <> Some (KTab i)) -> 1 <= n < 2 ^ 20 ->
  (forall va (Q : Z -> vstate F H -> Prop) E, is_u32 va ->
     Q (pointer s (KTab (va / 2 ^ 22))) s -> wp (gta va (v_kernel s)) Q E s) ->
  wp (find_vspace_with gta (v_kernel s) n) (vspace_found x s n) E s.
Proof.
  intros Hok Hx Hn Hg. unfold find_vspace_with. pose proof (vo_kernel x s Hok) as (Hk & _ & _).
  wp_cond. rewrite (proj2 (Z.eqb_neq _ 0)) by done. cbn [negb]. wp_cond.
  rewrite (proj2 (Z.eqb_neq n 0)) by lia. cbn [negb]. wp_steps.
  eapply (wp_loop (fun i s' => s' = s /\ 1 <= i < 2 ^ 22 /\ forall q, 0 < q < i -> ~ free_run s q n)
    (fun i _ => Z.to_nat (2 ^ 20 - i))).
  2: { split; [done|]. split; [lia|]. intros q Hq. lia. }
  2: { rewrite Z2Nat.inj_sub by lia. apply Nat.lt_succ_r, Nat.le_sub_l. }
  intros i s' (-> & Hi & Hno). unfold vspace_round. wp_cond. destruct (Z.ltb_spec i (2 ^ 20)) as [Hlt|Hge].
  - wp_steps. apply Hg; [apply page_u32; lia|]. wp_steps. apply (wp_kpage x); [done|done|lia|]. wp_cond.
    destruct (Z.eqb_spec (kentry s i) 0) as [Hz|Hz]; cbn [negb].
    + wp_steps. apply (wp_vspace_extend x); try done; [lia|lia|]. intros l Hl Hrun Hend. wp_cond.
      destruct (Z.eqb_spec l n) as [->|Hln].
      * wp_apply (wp_vspace_reserve x s i n never); [done|done|lia|lia|done| |by intros e []].
        intros _ s' Hres. wp_steps. right. exists i. split; [done|]. split; [lia|]. auto.
      * wp_steps. destruct Hend as [|Hend]; [done|]. rewrite u32_small by (unfold is_u32; lia).
        split; [|lia]. split; [done|]. split; [lia|]. intros q Hq.
        destruct (Z.lt_ge_cases q i); [apply Hno; lia|].
        apply (no_free_run s i l); try done; lia.
    + wp_steps. split; [|lia]. split; [done|]. split; [lia|]. intros q Hq.
      destruct (Z.eq_dec q i) as [->|]; [|apply Hno; lia].
      intros Hr. specialize (Hr 0 ltac:(lia)). rewrite Z.add_0_r, Z.mod_small in Hr by lia. done.
  - wp_steps. left. split; [done|]. split; [done|]. intros p Hp. apply Hno. lia.
Qed.

Lemma wp_find_vspace x s n E :
  vm_ok x s -> (forall i, x <> Some (KTab i)) -> 1 <= n < 2 ^ 20 -> wp (find_vspace (v_kernel s) n) (vspace_found x s n) E s.
Proof.
  intros Hok Hx Hn. apply wp_find_vspace_with; [done..|]. intros va Q E' Hva HQ. by apply (wp_ktable_alloc x).
Qed.

(** ** What a directory translates *)

(** The entry of page [q] in user directory [d]: 0 without a table. *)
Definition user_entry s (d q : Z) : Z :=
  if tables (dir s d) (q / 1024) =? 0 then 0 else word s (frame s (UTab d (q / 1024))) (q mod 1024).

(** The translation of an address by an entry. *)
Definition entry_walk (b : bool) (e o : Z) : option Z :=
  if allows b e then Some (e / 4096 * 4096 + o) else None.

Lemma allows_0 b : allows b 0 = false.
Proof. by destruct b. Qed.

Lemma page_offset q o :
  0 <= q < 2 ^ 20 -> 0 <= o < 4096 ->
  (q * 4096 + o) / 2 ^ 22 = q / 1024 /\ (q * 4096 + o) / 4096 mod 1024 = q mod 1024 /\
  (q * 4096 + o) mod 4096 = o.
Proof.
  intros Hq Ho. assert ((q * 4096 + o) / 4096 = q) as Hd by (symmetry; apply Z.div_unique with o; lia).
  rewrite Hd. split; [|split; [done|]].
  - change (2 ^ 22) with (4096 * 1024). by rewrite <- Z.div_div, Hd.
  - rewrite Z.add_comm, Z.mod_add by lia. by apply Z.mod_small.
Qed.

Lemma walk_user s d b q o :
  vm_ok None s -> exists_role s (UDir d) -> 0 <= q < 2 ^ 20 -> 0 <= o < 4096 ->
  walk (v_mem s) (physical_address (dir s d)) b (q * 4096 + o) = entry_walk b (user_entry s d q) o.
Proof.
  intros Hok Hd Hq Ho. destruct (page_offset q o Hq Ho) as (E1 & E2 & E3), (page_split q Hq) as [Hi _].
  unfold walk, entry_walk, user_entry. rewrite E1, E2, E3.
  destruct (vo_udir None s Hok d (q / 1024) Hd Hi) as [Hz Hnz]; [done|done|].
  change (physical_address (dir s d) / 4096) with (frame s (UDir d)).
  fold (word s (frame s (UDir d)) (q / 1024)).
  destruct (Z.eqb_spec (tables (dir s d) (q / 1024)) 0) as [Ht|Ht].
  - rewrite Hz by done. by rewrite !allows_0.
  - by rewrite (allows_usable b _ (Hnz Ht)).
Qed.

Lemma walk_kernel s b q o :
  vm_ok None s -> 0 <= q < 2 ^ 20 -> 0 <= o < 4096 ->
  walk (v_mem s) (physical_address (kdir s)) b (q * 4096 + o) = entry_walk b (kentry s q) o.
Proof.
  intros Hok Hq Ho. destruct (page_offset q o Hq Ho) as (E1 & E2 & E3), (page_split q Hq) as [Hi _].
  unfold walk, entry_walk. rewrite E1, E2, E3.
  change (physical_address (kdir s) / 4096) with (frame s KDir).
  fold (word s (frame s KDir) (q / 1024)).
  by rewrite (allows_usable b _ (vo_kdir None s Hok _ Hi)).
Qed.

(** [s'] translates like [s], except the kernel's page [p] and the user
    table [x]. *)
Definition keeps (p : Z) (x : option role) s s' : Prop :=
  v_kernel s' = v_kernel s /\
  (forall d, is_Some (v_dirs s' !! d) <-> is_Some (v_dirs s !! d)) /\
  (forall d, physical_address (dir s' d) = physical_address (dir s d)) /\
  (forall d q, exists_role s (UDir d) -> 0 <= q < 2 ^ 20 -> x <> Some (UTab d (q / 1024)) ->
     user_entry s' d q = user_entry s d q) /\
  (forall q, 0 <= q < 2 ^ 20 -> q <> p -> kentry s' q = kentry s q).

Lemma vm_keeps_refl p x s : keeps p x s s.
Proof. done. Qed.

Lemma vm_keeps_trans p x s1 s2 s3 : keeps p x s1 s2 -> keeps p x s2 s3 -> keeps p x s1 s3.
Proof.
  intros (A1 & A2 & A3 & A4 & A5) (B1 & B2 & B3 & B4 & B5). split; [congruence|].
  split; [intros d; by rewrite B2|]. split; [intros d; by rewrite B3|].
  split; [|intros q Hq Hne; by rewrite B5, A5].
  intros d q Hd Hq Hx. rewrite B4; [by apply A4| |done..]. cbn in *. by rewrite A1, A2.
Qed.

Lemma keeps_weaken p x s s' : keeps p None s s' -> keeps p x s s'.
Proof. intros (A1 & A2 & A3 & A4 & A5). repeat split; try done; try apply A2. intros. by apply A4. Qed.

Lemma keeps_table p x s s' :
  vm_ok x s -> v_dirs s' = v_dirs s -> v_kernel s' = v_kernel s ->
  (forall r, exists_role s r -> frame s' r = frame s r) ->
  (forall d i k, exists_role s (UTab d i) -> x <> Some (UTab d i) -> 0 <= k < 1024 ->
     word s' (frame s (UTab d i)) k = word s (frame s (UTab d i)) k) ->
  (forall q, 0 <= q < 2 ^ 20 -> q <> p -> kentry s' q = kentry s q) ->
  keeps p x s s'.
Proof.
  intros Hok Hd Hk Hf Hw He. split; [done|]. split; [intros d; by rewrite Hd|].
  split; [intros d; unfold dir; by rewrite Hd|]. split; [|done].
  intros d q Hr Hq Hx. unfold user_entry. assert (dir s' d = dir s d) as -> by (unfold dir; by rewrite Hd).
  destruct (Z.eqb_spec (tables (dir s d) (q / 1024)) 0) as [|Hnz]; [done|].
  destruct (page_split q Hq) as [Hq1 Hq2]. destruct Hr as [Hr1 Hr2].
  assert (exists_role s (UTab d (q / 1024))) by done. rewrite Hf by done. by apply Hw.
Qed.

Lemma keeps_set_kentry x p v s :
  vm_ok x s -> 0 <= p < 2 ^ 20 -> keeps p x s (set_kentry p v s).
Proof.
  intros Hok Hp. apply keeps_table; try done.
  - intros r Hr. apply (frame_set_table x); try done; by apply page_split.
  - intros d i k Hr Hx Hk. apply (word_set_other x); try done; by apply page_split.
  - intros q Hq Hne. rewrite (kentry_set x) by done. by rewrite (proj2 (Z.eqb_neq q p)).
Qed.

Lemma keeps_reserved s p s' : 0 < p -> reserved None s p 1 s' \/ reserved None s p 0 s' -> vm_ok None s -> keeps p None s s'.
Proof.
  intros Hp Hres Hok. assert (exists l, 0 <= l <= 1 /\ reserved None s p l s') as (l & Hl & R).
  { destruct Hres; [exists 1|exists 0]; (split; [lia|done]). }
  destruct R as (_ & _ & _ & Hd & Hk & Hf & Hw & He). apply keeps_table; try done.
  - intros d i k Hr _ Hkk. apply Hw; [done|]. intros j Hj Heq. by apply (vo_inj None s Hok) in Heq.
  - intros q Hq Hne. rewrite He by done.
    destruct (Z.leb_spec p q), (Z.ltb_spec q (p + l)); cbn; try done; lia.
Qed.

(** ** Allocating a table *)

Lemma exists_udir s d : exists_role s (UDir d) -> d <> v_kernel s /\ exists x, v_dirs s !! d = Some x.
Proof. done. Qed.

Lemma vm_ok_frames s b f' :
  vm_ok None s -> frame_marked (v_frames s) true b f' -> vm_ok None (lset frames_lens f' s).
Proof.
  intros Hok (Hf1 & Hf2 & Hf3). split; try apply Hok; [done|].
  intros r Hr. destruct (vo_taken None s Hok r Hr) as [Hb Hu].
  change (frame (lset frames_lens f' s) r) with (frame s r). cbn [v_frames lset frames_lens].
  rewrite Hf2. split; [done|]. rewrite Hf3 by lia. by destruct (b =? frame s r).
Qed.

(** Directory [d] gets the table at [v] with entry [e] at index [i]. *)
Definition add_table (d i v e : Z) s : vstate F H :=
  set_dirs (<[d := set_table i v (dir s d)]> (v_dirs s)) (set_word (frame s (UDir d)) i e s).

Section add_table.
Context (s : vstate F H) (d i v b e : Z).
Hypothesis Hok : vm_ok None s.
Hypothesis Hd : exists_role s (UDir d).
Hypothesis Hi : 0 <= i < 1024.
Hypothesis Hnone : tables (dir s d) i = 0.
Hypothesis Hv : v <> 0.
Hypothesis He : e / 4096 = b /\ usable e.
Hypothesis Hb : 0 < b < frame_count (v_frames s) /\ frame_used (v_frames s) b = true.
Hypothesis Hfresh : forall r, exists_role s r -> frame s r <> b.

Lemma dir_add d' : dir (add_table d i v e s) d' = if d' =? d then set_table i v (dir s d) else dir s d'.
Proof.
  unfold dir, add_table. cbn [v_dirs set_dirs]. destruct (Z.eqb_spec d' d) as [->|Hne].
  - by rewrite lookup_insert_eq.
  - by rewrite lookup_insert_ne.
Qed.

Lemma kdir_add : kdir (add_table d i v e s) = kdir s.
Proof.
  unfold kdir. change (v_kernel (add_table d i v e s)) with (v_kernel s). rewrite dir_add.
  destruct Hd as [Hne _]. by rewrite (proj2 (Z.eqb_neq _ _)).
Qed.

Lemma dirs_add d' : is_Some (v_dirs (add_table d i v e s) !! d') <-> is_Some (v_dirs s !! d').
Proof.
  unfold add_table. cbn [v_dirs set_dirs]. destruct (decide (d' = d)) as [->|Hne].
  - rewrite lookup_insert_eq. destruct Hd as [_ ?]. split; [done|]. eauto.
  - by rewrite lookup_insert_ne.
Qed.

Lemma physical_add d' : physical_address (dir (add_table d i v e s) d') = physical_address (dir s d').
Proof. rewrite dir_add. by destruct (Z.eqb_spec d' d) as [->|]. Qed.

Lemma tables_add d' j :
  tables (dir (add_table d i v e s) d') j = if (d' =? d) && (j =? i) then v else tables (dir s d') j.
Proof.
  rewrite dir_add. destruct (Z.eqb_spec d' d) as [->|]; cbn [andb]; [|done].
  unfold set_table. cbn [tables]. destruct (Z.eqb_spec j i) as [->|].
  - apply fn_lookup_insert.
  - by apply fn_lookup_insert_ne.
Qed.

Lemma exists_add r :
  exists_role (add_table d i v e s) r <-> exists_role s r \/ r = UTab d i.
Proof.
  clear He Hb Hfresh.
  destruct r as [|j|d'|d' j]; cbn [exists_role]; change (v_kernel (add_table d i v e s)) with (v_kernel s);
    rewrite ?dirs_add, ?tables_add; try naive_solver.
  destruct (Z.eqb_spec d' d) as [->|]; cbn [andb]; [|naive_solver].
  destruct (Z.eqb_spec j i) as [->|]; [|naive_solver]. destruct Hd. naive_solver.
Qed.

Lemma word_add r j :
  exists_role s r -> 0 <= j < 1024 ->
  word (add_table d i v e s) (frame s r) j =
    if bool_decide (r = UDir d) && (j =? i) then e else word s (frame s r) j.
Proof.
  intros Hr Hj. change (word (add_table d i v e s)) with (word (set_word (frame s (UDir d)) i e s)).
  rewrite word_set by done. destruct (Z.eqb_spec (frame s r) (frame s (UDir d))) as [Heq|Hne].
  - apply (vo_inj None s Hok) in Heq as ->; [|done..]. by rewrite bool_decide_eq_true_2.
  - rewrite bool_decide_eq_false_2; [done|]. by intros ->.
Qed.

Lemma frame_add r :
  exists_role s r \/ r = UTab d i ->
  frame (add_table d i v e s) r = if bool_decide (r = UTab d i) then b else frame s r.
Proof.
  intros Hr. destruct r as [|j|d'|d' j]; cbn [frame]; rewrite ?kdir_add, ?physical_add; try done.
  - destruct Hr as [Hr|]; [|done].
    change (physical_address (kdir s) / 4096) with (frame s KDir). by rewrite word_add.
  - change (physical_address (dir s d') / 4096) with (frame s (UDir d')).
    assert (exists_role s (UDir d') /\ 0 <= j < 1024) as [Hd' Hj].
    { destruct Hr as [(Ha1 & Ha2 & Ha3 & _)|Hr]; [done|]. by injection Hr as -> ->. }
    rewrite word_add by done. destruct (decide (UTab d' j = UTab d i)) as [Heq|Hne].
    + rewrite (bool_decide_eq_true_2 (UTab d' j = UTab d i)) by done. injection Heq as -> ->.
      rewrite bool_decide_eq_true_2, Z.eqb_refl by done. apply He.
    + rewrite (bool_decide_eq_false_2 (UTab d' j = UTab d i)) by done.
      destruct (bool_decide_reflect (UDir d' = UDir d)) as [Heq|]; cbn [andb]; [|done].
      destruct (Z.eqb_spec j i) as [->|]; [|done]. injection Heq as ->. done.
Qed.

Lemma kentry_add q : 0 <= q < 2 ^ 20 -> kentry (add_table d i v e s) q = kentry s q.
Proof.
  intros Hq. destruct (page_split q Hq). unfold kentry. rewrite frame_add by (by left).
  rewrite bool_decide_eq_false_2 by done. by rewrite word_add.
Qed.

Lemma pointer_add r :
  exists_role s r -> pointer (add_table d i v e s) r = pointer s r.
Proof.
  intros Hr. destruct r as [|j|d'|d' j]; cbn [pointer]; rewrite ?kdir_add; try done.
  - rewrite dir_add. by destruct (Z.eqb_spec d' d) as [->|].
  - rewrite tables_add. destruct (Z.eqb_spec d' d) as [->|]; cbn [andb]; [|done].
    destruct (Z.eqb_spec j i) as [->|]; [|done]. destruct Hr as (_ & _ & _ & Hr). done.
Qed.

Lemma mapped_add r : exists_role s r -> mapped s r -> mapped (add_table d i v e s) r.
Proof.
  intros Hr (q & Hq & Hqr & Hqf & Hqu). exists q. rewrite pointer_add by done.
  split; [done|]. split; [done|]. rewrite kentry_add by lia. rewrite frame_add by (by left).
  rewrite bool_decide_eq_false_2; [done|]. intros ->. by destruct Hr as (_ & _ & _ & ?).
Qed.

Lemma vm_ok_add_table : vm_ok (Some (UTab d i)) (add_table d i v e s).
Proof.
  split.
  - rewrite kdir_add. apply Hok.
  - change (v_kernel (add_table d i v e s)) with (v_kernel s). rewrite dirs_add.
    destruct (vo_kernel None s Hok) as (? & ? & Hz). split; [done|]. split; [done|].
    apply eq_None_not_Some. rewrite dirs_add. by apply eq_None_not_Some.
  - apply Hok.
  - intros r Hr%exists_add. rewrite frame_add by done. case_bool_decide; [done|].
    destruct Hr; [|done]. by apply (vo_taken None s Hok).
  - intros r Hr%exists_add Hx. destruct Hr as [Hr| ->]; [|done]. apply mapped_add; [done|].
    by apply (vo_mapped None s Hok).
  - intros r r' Hr%exists_add Hr'%exists_add. rewrite !frame_add by done.
    do 2 case_bool_decide; [congruence| | |].
    + destruct Hr'; [|done]. intros Heq. by destruct (Hfresh r').
    + destruct Hr; [|done]. intros Heq. by destruct (Hfresh r).
    + destruct Hr, Hr'; try done. by apply (vo_inj None s Hok).
  - intros j Hj. rewrite frame_add by (by left). rewrite bool_decide_eq_false_2 by done.
    rewrite word_add by done. rewrite bool_decide_eq_false_2 by done. by apply (vo_kdir None s Hok).
  - intros d' j Hr%exists_add Hj Hx _. destruct Hr as [Hr|]; [|done].
    rewrite frame_add by (by left). rewrite bool_decide_eq_false_2 by done.
    rewrite word_add, tables_add by done.
    destruct (Z.eqb_spec d' d) as [->|Hne]; cbn [andb].
    + destruct (Z.eqb_spec j i) as [->|]; [done|]. rewrite andb_false_r. by apply (vo_udir None s Hok).
    + rewrite bool_decide_eq_false_2 by congruence. by apply (vo_udir None s Hok).
  - intros d' Hr%exists_add. rewrite physical_add. destruct Hr; [|done]. by apply (vo_phys None s Hok).
Qed.

Lemma keeps_add p : keeps p (Some (UTab d i)) s (add_table d i v e s).
Proof.
  split; [done|]. split; [apply dirs_add|]. split; [apply physical_add|].
  split; [|intros q Hq _; by apply kentry_add].
  intros d' q Hr Hq Hx. destruct (page_split q Hq) as [Hq1 Hq2]. unfold user_entry. rewrite tables_add.
  replace ((d' =? d) && (q / 1024 =? i)) with false.
  2: { symmetry. destruct (Z.eqb_spec d' d) as [->|]; [|done]. destruct (Z.eqb_spec (q / 1024) i) as [<-|]; done. }
  destruct (Z.eqb_spec (tables (dir s d') (q / 1024)) 0) as [|Hnz]; [done|].
  destruct Hr as [Hr1 Hr2]. assert (exists_role s (UTab d' (q / 1024))) as Hr by done.
  rewrite frame_add by (by left). rewrite bool_decide_eq_false_2 by congruence. rewrite word_add by done.
  by rewrite bool_decide_eq_false_2.
Qed.
End add_table.

(** ** What grows

    [s'] holds the structures of [s] where they were and new ones in frames
    that [s] had not handed out; other memory that was handed out is what it
    was. *)
Record grown s s' : Prop := Grown {
  gr_kernel : v_kernel s' = v_kernel s;
  gr_count : frame_count (v_frames s') = frame_count (v_frames s);
  gr_taken : forall f, taken s f -> taken s' f;
  gr_role : forall r, exists_role s r -> exists_role s' r /\ frame s' r = frame s r;
  gr_new : forall r, exists_role s' r -> exists_role s r \/ ~ taken s (frame s' r);
  gr_word : forall f k, taken s f -> foreign s f -> 0 <= k < 1024 -> word s' f k = word s f k;
}.

Lemma grown_refl s : grown s s.
Proof. split; auto. Qed.

(** Memory of [s] that is no structure's is none in [s'] either. *)
Lemma grown_foreign s s' f : grown s s' -> taken s f -> foreign s f -> taken s' f /\ foreign s' f.
Proof.
  intros G Ht Hf. split; [by apply G|]. intros r Hr Hfr. destruct (gr_new s s' G r Hr) as [Hr'|Hn].
  - apply (Hf r Hr'). rewrite <- Hfr. symmetry. by apply G.
  - by rewrite Hfr in Hn.
Qed.

Lemma grown_trans s1 s2 s3 : grown s1 s2 -> grown s2 s3 -> grown s1 s3.
Proof.
  intros G1 G2. pose proof G1 as [A1 A2 A3 A4 A5 A6]. pose proof G2 as [B1 B2 B3 B4 B5 B6]. split.
  - congruence.
  - congruence.
  - auto.
  - intros r Hr. destruct (A4 r Hr) as [C1 C2]. destruct (B4 r C1) as [D1 D2]. split; [done|congruence].
  - intros r Hr. destruct (B5 r Hr) as [C|C]; [|right; auto]. destruct (A5 r C) as [D|D]; [by left|right].
    by rewrite (proj2 (B4 r C)).
  - intros f k Ht Hf Hk. destruct (grown_foreign s1 s2 f G1 Ht Hf). rewrite B6 by done. by apply A6.
Qed.

(** The structures stay the same. *)
Lemma grown_same s s' :
  v_kernel s' = v_kernel s -> v_dirs s' = v_dirs s -> v_frames s' = v_frames s ->
  (forall r, exists_role s r -> frame s' r = frame s r) ->
  (forall f k, foreign s f -> 0 <= k < 1024 -> word s' f k = word s f k) -> grown s s'.
Proof.
  intros Hk Hd Hf Hr Hw. split; unfold taken; rewrite ?Hf; try done.
  - intros r Hr'. split; [by apply (exists_role_dirs s)|by apply Hr].
  - intros r Hr'. left. by apply (exists_role_dirs s s').
  - auto.
Qed.

Lemma grown_set_word x s r0 k v :
  vm_ok x s -> exists_role s r0 -> is_table r0 -> 0 <= k < 1024 -> grown s (set_word (frame s r0) k v s).
Proof.
  intros Hok Hr0 Ht Hk. apply grown_same; try done.
  - intros r Hr. by apply (frame_set_table x).
  - intros f j Hf Hj. rewrite word_set by done. by rewrite (proj2 (Z.eqb_neq _ _)) by (intros ->; by apply (Hf r0)).
Qed.

Lemma grown_set_kentry x s p v : vm_ok x s -> 0 <= p < 2 ^ 20 -> grown s (set_kentry p v s).
Proof. intros Hok Hp. destruct (page_split p Hp). by apply (grown_set_word x). Qed.

Lemma grown_reserved x s p n s' : reserved x s p n s' -> grown s s'.
Proof.
  intros (_ & Hf & _ & Hd & Hk & Hfr & Hw & _). apply grown_same; try done.
  intros f k Hff Hkk. apply Hw; [done|]. intros i Hi ->. by apply (Hff (KTab i)).
Qed.

Lemma grown_frames s b f' : frame_marked (v_frames s) true b f' -> grown s (lset frames_lens f' s).
Proof.
  intros (_ & Hc & Hu). split; try done; unfold taken; cbn [v_frames lset frames_lens].
  - intros f [Hf1 Hf2]. rewrite Hc. split; [done|]. rewrite Hu by lia. by destruct (b =? f).
  - intros r Hr. by left.
Qed.

(** A new table in a frame that was free at the start. *)
Lemma grown_add_table s0 s d i v b e :
  vm_ok None s -> exists_role s (UDir d) -> 0 <= i < 1024 -> tables (dir s d) i = 0 -> v <> 0 ->
  e / 4096 = b /\ usable e -> 0 < b < frame_count (v_frames s) /\ frame_used (v_frames s) b = true ->
  (forall r, exists_role s r -> frame s r <> b) ->
  grown s0 s -> ~ taken s0 b -> grown s0 (add_table d i v e s).
Proof.
  intros Hok Hd Hi Hz Hv He Hb Hfr G Hn. pose proof G as [A1 A2 A3 A4 A5 A6].
  assert (forall r, exists_role s r \/ r = UTab d i ->
    frame (add_table d i v e s) r = if bool_decide (r = UTab d i) then b else frame s r) as Hframe by (intros; by apply frame_add).
  split; try done.
  - intros r Hr. destruct (A4 r Hr) as [R1 R2]. split; [by apply exists_add; [..|left]|].
    rewrite Hframe by (by left). rewrite bool_decide_eq_false_2; [done|]. intros ->. by destruct R1 as (_ & _ & _ & ?).
  - intros r Hr. apply exists_add in Hr; [|done..]. rewrite Hframe by done. destruct (bool_decide_reflect (r = UTab d i)) as [->|Hne].
    + by right.
    + destruct Hr as [Hr|]; [|done]. by apply A5.
  - intros f k Ht Hf Hk. destruct (grown_foreign s0 s f G Ht Hf) as [_ Hf'].
    change (word (add_table d i v e s)) with (word (set_word (frame s (UDir d)) i e s)). rewrite word_set by done.
    rewrite (proj2 (Z.eqb_neq f _)) by (intros ->; by apply (Hf' (UDir d))). by apply A6.
Qed.

(** The first [n] entries of user table [r0] are cleared. *)
Definition cleared (r0 : role) (n : Z) s s' : Prop :=
  vm_ok None s' /\ v_frames s' = v_frames s /\ v_dirs s' = v_dirs s /\ v_kernel s' = v_kernel s /\
  (forall r, exists_role s r -> frame s' r = frame s r) /\
  (forall r k, exists_role s r -> 0 <= k < 1024 ->
     word s' (frame s r) k = if bool_decide (r = r0) && (k <? n) then 0 else word s (frame s r) k) /\
  grown s s' /\ v_heap s' = v_heap s.

Lemma wp_clear_table s d i E :
  vm_ok None s -> exists_role s (UTab d i) ->
  wp (clear_page (pointer s (UTab d i))) (fun _ s' => cleared (UTab d i) 1024 s s') E s.
Proof.
  intros Hok Hr0. unfold clear_page. set (r0 := UTab d i) in *.
  eapply wp_mono; [apply (wp_for_up (fun k s' => 0 <= k /\ cleared r0 k s s'))| |done].
  - split; [lia|]. do 4 (split; [done|]). split; [done|]. split; [|split; [apply grown_refl|done]]. intros r k Hr Hk.
    rewrite (proj2 (Z.ltb_ge k 0)), andb_false_r by lia. done.
  - intros k s' Hk [_ Hc]. pose proof Hc as (Hok' & Hfs & Hd & Hkk & Hf & Hw & Hg & Hh).
    assert (exists_role s' r0) as Hr' by (by apply (exists_role_dirs s)).
    assert (pointer s r0 = pointer s' r0) as -> by (cbn; unfold dir; by rewrite Hd).
    apply (wp_write_role None); try done; [by apply (vo_mapped None s' Hok')|].
    split; [lia|]. split; [by apply vm_ok_set_user; [done|done|lia]|]. do 3 (split; [done|]).
    split; [intros r Hr; rewrite (frame_set_table None) by (first [done|lia|by apply (exists_role_dirs s)]); auto|].
    split; [|split; [eapply grown_trans; [exact Hg|apply (grown_set_word None); [done|done|done|lia]]|done]].
    intros r j Hr Hj. rewrite word_set by lia. rewrite Hf by done. rewrite Hw by done.
    destruct (Z.eqb_spec (frame s r) (frame s r0)) as [Heq|Hne]; cbn [andb].
    + apply (vo_inj None s Hok) in Heq as ->; [|done..]. rewrite bool_decide_eq_true_2 by done. cbn [andb].
      destruct (Z.eqb_spec j k), (Z.ltb_spec j k), (Z.ltb_spec j (k + 1)); try done; lia.
    + rewrite bool_decide_eq_false_2; [done|]. by intros ->.
  - by intros u s' [_ Hc].
Qed.

Lemma keeps_cleared p d i s s' :
  vm_ok None s -> cleared (UTab d i) 1024 s s' -> keeps p (Some (UTab d i)) s s'.
Proof.
  intros Hok (_ & _ & Hd & Hk & Hf & Hw & _).
  assert (forall r j, exists_role s r -> r <> UTab d i -> 0 <= j < 1024 ->
    word s' (frame s r) j = word s (frame s r) j) as Hw'.
  { intros r j Hr Hne Hj. rewrite Hw by done. by rewrite bool_decide_eq_false_2. }
  split; [done|]. split; [intros d'; by rewrite Hd|]. split; [intros d'; unfold dir; by rewrite Hd|]. split.
  - intros d' q Hr Hq Hx. destruct (page_split q Hq). unfold user_entry.
    assert (dir s' d' = dir s d') as -> by (unfold dir; by rewrite Hd).
    destruct (Z.eqb_spec (tables (dir s d') (q / 1024)) 0) as [|Hnz]; [done|].
    destruct Hr as [Hr1 Hr2]. assert (exists_role s (UTab d' (q / 1024))) by done.
    rewrite Hf by done. by rewrite Hw' by (first [done|congruence]).
  - intros q Hq _. destruct (page_split q Hq). unfold kentry. by rewrite Hf, Hw'.
Qed.

Lemma lor_page b lo : 0 <= lo < 4096 -> Z.lor (b * 4096) lo = b * 4096 + lo.
Proof.
  intros Hlo. rewrite Z.lor_comm. replace (b * 4096) with (Z.shiftl b 12) by (by rewrite Z.shiftl_mul_pow2).
  rewrite (lor_shiftl_add lo b 12) by lia. rewrite Z.shiftl_mul_pow2 by lia. lia.
Qed.

Lemma present_entry b lo : 0 <= lo < 4096 -> lo mod 4 = 3 ->
  Z.lor (b * 4096) lo / 4096 = b /\ usable (Z.lor (b * 4096) lo).
Proof.
  intros Hlo Hm. rewrite lor_page by done. split.
  - symmetry. apply Z.div_unique with lo; lia.
  - unfold usable. replace (b * 4096 + lo) with (lo + b * 1024 * 4) by lia. by rewrite Z.mod_add.
Qed.

(** [d] has a table for [va]: the one it had, or a new empty one. *)
Definition has_table s (d va t : Z) s' : Prop :=
  vm_ok None s' /\ exists_role s' (UTab d (va / 2 ^ 22)) /\ t = pointer s' (UTab d (va / 2 ^ 22)) /\
  (exists p, (0 <= p < 2 ^ 20 -> kentry s p = 0) /\ keeps p None s s') /\
  grown s s' /\ v_heap s' = v_heap s /\ forall d', d' <> d -> v_dirs s' !! d' = v_dirs s !! d'.

Lemma wp_upd_directory s d f (Q : unit -> vstate F H -> Prop) E :
  is_Some (v_dirs s !! d) -> Q tt (set_dirs (<[d := f (dir s d)]> (v_dirs s)) s) ->
  wp (upd_directory d f) Q E s.
Proof.
  intros [x Hx] HQ. unfold upd_directory, directory. wp_cond. rewrite Hx. wp_steps. unfold dir in HQ. by rewrite Hx in HQ.
Qed.

Lemma wp_directory s d (Q : page_directory_t -> vstate F H -> Prop) E :
  is_Some (v_dirs s !! d) -> Q (dir s d) s -> wp (directory d) Q E s.
Proof. intros [x Hx] HQ. unfold directory. wp_cond. rewrite Hx. unfold dir in HQ. by rewrite Hx in HQ. Qed.

(** The part of [get_table_alloc] after [find_vspace] answered page [p]. *)
Lemma vm_ok_map_new s d i p b e :
  vm_ok (Some (UTab d i)) s -> exists_role s (UTab d i) -> 0 < p < 2 ^ 20 -> ~ usable (kentry s p) ->
  pointer s (UTab d i) = p * 4096 -> frame s (UTab d i) = b -> e / 4096 = b -> usable e ->
  usable (word s (frame s (UDir d)) i) ->
  vm_ok None (set_kentry p e s).
Proof.
  intros Hok Hr Hp Hu Hpt Hb He1 He2 Hud. destruct (page_split p) as [Hp1 Hp2]; [lia|].
  apply (vm_ok_set_table (Some (UTab d i))); try done.
  - intros r Hr' _. destruct (decide (r = UTab d i)) as [->|Hne].
    + exists p. rewrite pointer_set. split; [done|]. split; [done|].
      fold (set_kentry p e s). rewrite (kentry_set (Some (UTab d i))) by (first [done|lia]).
      rewrite Z.eqb_refl. unfold set_kentry. rewrite (frame_set_table (Some (UTab d i))) by done.
      by rewrite He1.
    + apply (mapped_set (Some (UTab d i))); [done|lia|done| |apply (vo_mapped _ s Hok); congruence].
      apply (pointer_absent (Some (UTab d i))); try done. congruence.
  - intros d' i' _ _ Heq. injection Heq as <- <-. split; [|done]. by destruct Hr as (_ & _ & _ & ?).
Qed.

(** The frame just allocated is no structure's. *)
Lemma fresh_frame s s' b f' r :
  vm_ok None s -> frame_marked (v_frames s) true b f' -> frame_used (v_frames s) b = false ->
  exists_role s r -> frame s' r = frame s r -> frame s' r <> b.
Proof.
  intros Hok Hmk Hb Hr -> Heq. destruct (vo_taken None s Hok r Hr) as [_ Hu]. congruence.
Qed.

(** [get_table_alloc] once the frame [b] and the page [p] are found. *)
Lemma wp_install_table s0 s d va p b E :
  vm_ok None s -> exists_role s (UDir d) -> is_u32 va -> Z.land va 0x3FF = 0 ->
  tables (dir s d) (va / 2 ^ 22) = 0 ->
  0 < p < 2 ^ 20 -> ~ usable (kentry s p) -> kentry s0 p = 0 ->
  0 < b < frame_count (v_frames s) /\ frame_used (v_frames s) b = true ->
  (forall r, exists_role s r -> frame s r <> b) ->
  keeps p None s0 s ->
  grown s0 s -> ~ taken s0 b -> v_heap s = v_heap s0 -> (forall d', d' <> d -> v_dirs s !! d' = v_dirs s0 !! d') ->
  let e := Z.lor (b * 4096) 7 in
  let s4 := add_table d (va / 2 ^ 22) (p * 4096) e s in
  wp (let! kt := get_table (p * 4096) (v_kernel s) in
      map_page kt (p * 4096) (b * 4096) 3 >>> invalidate_page va >>>
      let! x := directory d in
      clear_page (tables x (va / 2 ^ 22)) >>> ret (tables x (va / 2 ^ 22)))
    (fun t s' => has_table s0 d va t s') E s4.
Proof.
  intros Hok Hd Hva Hal Hz Hp Hu Hu0 Hb Hfr Hkeep Hg Hnt Hh Hds e s4. set (i := va / 2 ^ 22) in *.
  assert (0 <= i < 1024) as Hi.
  { unfold is_u32 in Hva. subst i. split; [apply Z.div_pos; lia|apply Z.div_lt_upper_bound; lia]. }
  assert (e / 4096 = b /\ usable e) as He by (apply present_entry; [lia|done]).
  assert (p * 4096 <> 0) as Hp0 by lia.
  pose proof (vm_ok_add_table s d i _ b e Hok Hd Hi Hz Hp0 He Hb Hfr) as Hok4. fold s4 in Hok4.
  assert (exists_role s4 (UTab d i)) as Hr4.
  { apply exists_add; try done. by right. }
  change (v_kernel s) with (v_kernel s4). wp_steps.
  apply (wp_ktable (Some (UTab d i))); [done|apply page_u32; lia|]. wp_steps.
  apply (wp_kmap (Some (UTab d i))); [done|done|lia|]. cbv beta. set (s5 := set_kentry p _ s4).
  assert (kentry s4 p = kentry s p) as Hk4 by (apply kentry_add with (b := b); first [done|lia]).
  assert (pointer s4 (UTab d i) = p * 4096) as Hp4.
  { cbn [pointer]. subst s4. rewrite tables_add by done. by rewrite !Z.eqb_refl. }
  assert (frame s4 (UTab d i) = b) as Hf4.
  { unfold s4. rewrite (frame_add s d i _ b e) by (first [done|by right]). by rewrite bool_decide_eq_true_2. }
  assert (usable (word s4 (frame s4 (UDir d)) i)) as Hw4.
  { unfold s4. rewrite (frame_add s d i _ b e) by (first [done|by left]). rewrite bool_decide_eq_false_2 by done.
    rewrite word_add by done. rewrite bool_decide_eq_true_2, Z.eqb_refl by done. apply He. }
  assert (vm_ok None s5) as Hok5.
  { destruct (present_entry b 3) as [E1 E2]; [lia|done|].
    apply (vm_ok_map_new s4 d i p b); try done. by rewrite Hk4. }
  unfold invalidate_page. rewrite Hal. change (kassert (0 =? 0)) with (ret tt : M (vstate F H) unit). wp_steps.
  assert (exists_role s5 (UTab d i)) as Hr5 by (by apply exists_role_set).
  apply wp_directory; [by destruct Hr5 as (_ & ? & _)|]. wp_steps.
  wp_apply (wp_clear_table s5 d i E); [done|done| |done]. intros u s6 Hc. wp_steps.
  pose proof Hc as (Hok6 & _ & Hd6 & Hkk6 & Hf6 & Hw6 & Hg6 & Hh6).
  assert (exists_role s6 (UTab d i)) as Hr6 by (by apply (exists_role_dirs s5)).
  split; [done|]. split; [done|]. split; [cbn [pointer]; unfold dir; by rewrite Hd6|].
  split; [|split; [|split]].
  2: { eapply grown_trans; [by apply (grown_add_table s0 s d i (p * 4096) b e)|]. fold s4.
       eapply grown_trans; [apply (grown_set_kentry (Some (UTab d i)) s4 p); [done|lia]|exact Hg6]. }
  2: by rewrite Hh6.
  2: { intros d' Hne. rewrite Hd6, <- Hds by done. by apply lookup_insert_ne. }
  exists p. split; [done|].
  assert (keeps p (Some (UTab d i)) s0 s6) as (K1 & K2 & K3 & K4 & K5).
  { eapply vm_keeps_trans; [by apply keeps_weaken|]. eapply vm_keeps_trans; [by apply (keeps_add s d i (p * 4096) b e)|].
    eapply vm_keeps_trans; [apply keeps_set_kentry; [done|lia]|]. by apply keeps_cleared. }
  split; [done|]. split; [done|]. split; [done|]. split; [|done].
  intros d' q Hd' Hq _. destruct (decide (Some (UTab d i) = Some (UTab d' (q / 1024)))) as [Heq|]; [|by apply K4].
  injection Heq as <- Heq. destruct (page_split q Hq) as [_ Hq2].
  destruct Hkeep as (J1 & J2 & J3 & J4 & J5). rewrite <- J4 by done. unfold user_entry at 2. rewrite <- Heq, Hz.
  change (0 =? 0) with true. cbv iota. unfold user_entry.
  destruct Hr6 as (_ & _ & _ & Hnz). rewrite <- Heq, (proj2 (Z.eqb_neq _ 0)) by done.
  rewrite Hf6, Hw6 by done. rewrite bool_decide_eq_true_2 by done.
  rewrite (proj2 (Z.ltb_lt _ _)) by lia. done.
Qed.

Lemma wp_get_table_alloc depth s d va (E : panic -> Prop) :
  vm_ok None s -> exists_role s (UDir d) -> is_u32 va -> Z.land va 0x3FF = 0 -> (forall e, no_space s e -> E e) ->
  wp (get_table_alloc (S depth) va d) (fun t s' => has_table s d va t s') E s.
Proof.
  intros Hok Hd Hva Hal HE. destruct (exists_udir s d Hd) as (Hdk & x & Hx).
  assert (d <> 0) as Hd0. { intros ->. destruct (vo_kernel None s Hok) as (_ & _ & Hz). by rewrite Hz in Hx. }
  assert (0 <= va / 2 ^ 22 < 1024) as Hi.
  { unfold is_u32 in Hva. split; [apply Z.div_pos; lia|apply Z.div_lt_upper_bound; lia]. }
  cbn [get_table_alloc]. wp_cond. rewrite (proj2 (Z.eqb_neq _ 0)) by done. cbn [negb].
  wp_steps. apply wp_get_table; [done|eauto|done|]. wp_cond.
  destruct (Z.eqb_spec (tables (dir s d) (va / 2 ^ 22)) 0) as [Hz|Hnz]; cbn [negb].
  2: { wp_steps. split; [done|]. split; [by destruct Hd|]. split; [done|]. split; [|split; [apply grown_refl|done]]. exists (-1). split; [lia|apply vm_keeps_refl]. }
  unfold kernel_directory. wp_cond. rewrite (proj2 (Z.eqb_neq _ _)) by done. cbn [negb].
  wp_steps. apply wp_zoom. wp_apply frame_alloc_safe_spec; [apply Hok| |intros e ->; apply HE; by left].
  intros phys f' (b & -> & Hb & Hbu & Hmk). cbv beta.
  pose proof (vm_ok_frames s b f' Hok Hmk) as Hok1. set (s1 := lset frames_lens f' s) in *.
  wp_steps. eapply wp_mono; [apply (wp_find_vspace_with None _ s1 1 never)| |by intros e []].
  { done. } { done. } { lia. } { intros. by apply (wp_ktable_alloc None). }
  intros v s2 Hfound. cbv beta.
  assert (Z.land (Z.shiftr va 22) 0x3FF = va / 2 ^ 22) as Hidx.
  { change 0x3FF with (Z.ones 10). rewrite land_ones_mod, Z.shiftr_div_pow2 by lia. by apply Z.mod_small. }
  rewrite Hidx.
  assert (vm_ok None s2 /\ v_dirs s2 = v_dirs s /\ v_kernel s2 = v_kernel s /\ v <> 0) as (Hok2 & Hd2 & Hk2 & Hv0).
  { destruct Hfound as [(-> & -> & _)|(p & -> & Hp & _ & _ & R)]; [done|].
    destruct R as (? & _ & _ & ? & ? & _). unfold BLOCK_SIZE. do 3 (split; [done|]). lia. }
  assert (exists_role s2 (UDir d)) as Hdr2 by (by apply (exists_role_dirs s)).
  assert (dir s2 d = dir s d) as Hdir2 by (unfold dir; by rewrite Hd2).
  wp_cond. rewrite (proj2 (Z.eqb_neq v 0)) by done. cbn [negb]. wp_steps.
  apply wp_directory; [by destruct Hdr2|]. wp_steps.
  apply (wp_write_role None s2 (UDir d)); [done|done|by apply (vo_mapped None s2 Hok2)|done|]. wp_steps.
  apply wp_upd_directory; [by destruct Hdr2|]. cbv beta.
  change (Z.lor PAGE_TABLE_PRESENT (Z.lor PAGE_TABLE_READWRITE PAGE_TABLE_USER)) with 7.
  change (set_dirs _ _) with (add_table d (va / 2 ^ 22) v (Z.lor (b * 4096) 7) s2).
  change (v_kernel s1) with (v_kernel s). rewrite <- Hk2.
  destruct Hfound as [(-> & -> & Hfull)|(p & -> & Hp & Hrun & _ & R)].
  - assert (E AssertFail) as HEA by (apply HE; by right).
    wp_steps. destruct (vo_kernel None _ Hok2) as (Hkn & Hks & _). apply wp_get_table; [done| |done|].
    { by apply dirs_add. }
    unfold map_page. wp_cond. destruct (negb _); [|done]. by wp_cond.
  - assert (kentry s1 p = 0) as Hu1.
    { specialize (Hrun 0 ltac:(lia)). by rewrite Z.add_0_r, Z.mod_small in Hrun by lia. }
    apply (wp_install_table s s2 d va p b); try done.
    + by rewrite Hdir2.
    + destruct R as (_ & _ & _ & _ & _ & _ & _ & He). rewrite He by lia. rewrite Hu1. by destruct (_ && _).
    + destruct R as (_ & Hfs & _). rewrite Hfs. destruct Hmk as (_ & Hc & Hu). cbn [v_frames s1 lset frames_lens].
      rewrite Hc. split; [done|]. rewrite Hu by lia. by rewrite Z.eqb_refl.
    + intros r Hr. apply (exists_role_dirs s s2) in Hr; [|done..]. apply (fresh_frame s s2 b f' r); try done.
      destruct R as (_ & _ & _ & _ & _ & Hf & _). by rewrite Hf.
    + apply (keeps_reserved s1); [lia| |done]. destruct (p + 1 <? 2 ^ 20); auto.
    + eapply grown_trans; [by apply (grown_frames s b f')|by apply (grown_reserved None s1 p _ s2 R)].
    + intros [_ Hbt]. change (frame_used (v_frames s) b = false) in Hbu. congruence.
    + by destruct R as (_ & _ & -> & _).
    + intros d' _. by rewrite Hd2.
Qed.

Lemma user_entry_set s d p v d' q :
  vm_ok None s -> exists_role s (UTab d (p / 1024)) -> 0 <= p < 2 ^ 20 ->
  exists_role s (UDir d') -> 0 <= q < 2 ^ 20 ->
  user_entry (set_word (frame s (UTab d (p / 1024))) (p mod 1024) v s) d' q =
    if (d' =? d) && (q =? p) then v else user_entry s d' q.
Proof.
  intros Hok Hr Hp Hd' Hq. destruct (page_split p Hp), (page_split q Hq). unfold user_entry.
  change (dir (set_word _ _ v s) d') with (dir s d').
  destruct (Z.eqb_spec (tables (dir s d') (q / 1024)) 0) as [Hz|Hnz].
  - destruct (Z.eqb_spec d' d) as [->|]; [|done]. destruct (Z.eqb_spec q p) as [->|]; [|done].
    by destruct Hr as (_ & _ & _ & ?).
  - destruct Hd' as [Hd1 Hd2]. assert (exists_role s (UTab d' (q / 1024))) as Hr' by done.
    rewrite (frame_set_table None) by done. rewrite word_set by done.
    destruct (Z.eqb_spec (frame s (UTab d' (q / 1024))) (frame s (UTab d (p / 1024)))) as [Heq|Hne]; cbn [andb].
    + apply (vo_inj None s Hok) in Heq; [|done..]. injection Heq as -> Hqp. rewrite Z.eqb_refl. cbn [andb].
      destruct (Z.eqb_spec (q mod 1024) (p mod 1024)) as [Hm|Hm], (Z.eqb_spec q p) as [->|Hn]; try done.
      destruct Hn. rewrite (Z.div_mod q 1024), (Z.div_mod p 1024) by lia. lia.
    + destruct (Z.eqb_spec d' d) as [->|]; cbn [andb]; [|done].
      by destruct (Z.eqb_spec q p) as [->|].
Qed.

Lemma kentry_user_set s d i k v q :
  vm_ok None s -> exists_role s (UTab d i) -> 0 <= k < 1024 -> 0 <= q < 2 ^ 20 ->
  kentry (set_word (frame s (UTab d i)) k v s) q = kentry s q.
Proof.
  intros Hok Hr Hk Hq. destruct (page_split q Hq). unfold kentry.
  rewrite (frame_set_table None) by done. by rewrite (word_set_other None).
Qed.

(** ** Start-up *)

(** What start-up has built while paging is off: the kernel's directory and [n]
    tables with the entries [P]. *)
Definition early (n : Z) r : Prop := match r with KDir => True | KTab i => 0 <= i < n | _ => False end.

Record boot (n : Z) (P : Z -> Z) s : Prop := Boot {
  bt_n : 0 <= n <= 1024;
  bt_paging : v_paging s = false;
  bt_dirs : v_kernel s <> 0 /\ v_dirs s = {[ v_kernel s := kdir s ]};
  bt_frames : frame_ok (v_frames s);
  bt_address : physical_address (kdir s) = frame s KDir * 4096;
  bt_pointer : forall r, early n r -> pointer s r = frame s r * 4096;
  bt_taken : forall r, early n r ->
    0 < frame s r < frame_count (v_frames s) /\ frame_used (v_frames s) (frame s r) = true;
  bt_inj : forall r r', early n r -> early n r' -> frame s r = frame s r' -> r = r';
  bt_kdir : forall i, 0 <= i < n -> usable (word s (frame s KDir) i);
  bt_entry : forall i k, 0 <= i < n -> 0 <= k < 1024 ->
    word s (frame s (KTab i)) k = P (i * 1024 + k);
}.

Lemma early_frame n P s r : boot n P s -> early n r -> 0 < frame s r < 2 ^ 20.
Proof.
  intros Hb Hr. destruct (bt_taken n P s Hb r Hr) as [Hf _].
  pose proof (frame_count_bound _ (bt_frames n P s Hb)). lia.
Qed.

Lemma frame_u32 f k : 0 <= f < 2 ^ 20 -> 0 <= k < 1024 -> u32 (f * 4096 + 4 * k) = f * 4096 + 4 * k.
Proof. intros. apply u32_small. unfold is_u32. lia. Qed.

Lemma wp_write_phys s f k v (Q : unit -> vstate F H -> Prop) E :
  v_paging s = false -> 0 <= f < 2 ^ 20 -> 0 <= k < 1024 ->
  Q tt (set_word f k v s) -> wp (write_word (u32 (f * 4096 + 4 * k)) v) Q E s.
Proof.
  intros Hp Hf Hk HQ. rewrite frame_u32 by done. unfold write_word, translate. wp_steps. rewrite Hp.
  wp_cond. wp_steps. by rewrite word_index.
Qed.

Lemma wp_read_phys s f k (Q : Z -> vstate F H -> Prop) E :
  v_paging s = false -> 0 <= f < 2 ^ 20 -> 0 <= k < 1024 ->
  Q (word s f k) s -> wp (read_word (u32 (f * 4096 + 4 * k))) Q E s.
Proof.
  intros Hp Hf Hk HQ. rewrite frame_u32 by done. unfold read_word, translate. wp_steps. rewrite Hp.
  wp_cond. wp_steps. by rewrite word_index.
Qed.

(** [s'] is [s] with frame [f] cleared up to entry [n]. *)
Definition phys_cleared (f n : Z) s s' : Prop :=
  (exists m, s' = set_mem m s) /\
  forall g k, 0 <= k < 1024 -> word s' g k = if (g =? f) && (k <? n) then 0 else word s g k.

Lemma wp_clear_phys s f E :
  v_paging s = false -> 0 <= f < 2 ^ 20 ->
  wp (clear_page (f * 4096)) (fun _ s' => phys_cleared f 1024 s s') E s.
Proof.
  intros Hp Hf. unfold clear_page.
  eapply wp_mono; [apply (wp_for_up (fun k s' => 0 <= k /\ phys_cleared f k s s'))| |done].
  - split; [lia|]. split; [exists (v_mem s); by destruct s|]. intros g k Hk.
    rewrite (proj2 (Z.ltb_ge k 0)) by lia. by rewrite andb_false_r.
  - intros k s' Hk [_ [[m ->] Hw]]. apply wp_write_phys; [done|done|lia|].
    split; [lia|]. split; [by eexists|]. intros g j Hj. rewrite word_set, Hw by lia.
    destruct (Z.eqb_spec g f); cbn [andb]; [|done].
    destruct (Z.eqb_spec j k), (Z.ltb_spec j k), (Z.ltb_spec j (k + 1)); try done; lia.
  - by intros u s' [_ Hc].
Qed.

(** [s'] has the frames [f'] and agrees with [s] on the structures. *)
Lemma boot_agree n P s s' :
  boot n P s -> v_paging s' = false -> v_kernel s' = v_kernel s -> v_dirs s' = v_dirs s ->
  frame_ok (v_frames s') -> frame_count (v_frames s') = frame_count (v_frames s) ->
  (forall f, 0 <= f -> frame_used (v_frames s) f = true -> frame_used (v_frames s') f = true) ->
  (forall r k, early n r -> 0 <= k < 1024 -> word s' (frame s r) k = word s (frame s r) k) ->
  boot n P s' /\ kdir s' = kdir s /\ forall r, early n r -> frame s' r = frame s r.
Proof.
  intros Hb Hp Hk Hd Hfo Hfc Hfu Hw. pose proof (bt_n n P s Hb) as Hn.
  assert (kdir s' = kdir s) as Hkd by (unfold kdir, dir; by rewrite Hk, Hd).
  assert (forall r, early n r -> frame s' r = frame s r) as Hf.
  { intros [|i| |] Hr; try done; cbn [frame]; rewrite Hkd; [done|].
    change (physical_address (kdir s) / 4096) with (frame s KDir). rewrite Hw; [done..|]. cbn in Hr. lia. }
  assert (forall r, early n r -> pointer s' r = pointer s r) as Hpt.
  { intros [|i| |] Hr; try done; cbn [pointer]; by rewrite Hkd. }
  split; [|done]. split; try done.
  - rewrite Hk, Hd, Hkd. apply Hb.
  - rewrite Hkd, Hf by done. apply Hb.
  - intros r Hr. rewrite Hpt, Hf by done. by apply (bt_pointer n P s Hb).
  - intros r Hr. destruct (bt_taken n P s Hb r Hr). rewrite Hf, Hfc by done. split; [done|].
    apply Hfu; [lia|done].
  - intros r r' Hr Hr'. rewrite !Hf by done. by apply (bt_inj n P s Hb).
  - intros i Hi. rewrite Hf, Hw by (first [done|lia]). by apply (bt_kdir n P s Hb).
  - intros i k Hi Hkk. rewrite Hf, Hw by (first [done|lia]). by apply (bt_entry n P s Hb).
Qed.

(** A frame is taken and cleared, and nothing else changes. *)
Lemma boot_alloc n P s f f' s' :
  boot n P s -> frame_used (v_frames s) f = false -> frame_marked (v_frames s) true f f' ->
  phys_cleared f 1024 (lset frames_lens f' s) s' ->
  boot n P s' /\ kdir s' = kdir s /\ v_kernel s' = v_kernel s /\ v_frames s' = f' /\
  (forall r, early n r -> frame s' r <> f) /\ (forall k, 0 <= k < 1024 -> word s' f k = 0) /\
  forall r, early n r -> frame s' r = frame s r.
Proof.
  intros Hb Hu (Hm1 & Hm2 & Hm3) [[m ->] Hw]. set (s' := set_mem m (lset frames_lens f' s)) in *.
  assert (forall r, early n r -> frame s r <> f) as Hne.
  { intros r Hr Heq. destruct (bt_taken n P s Hb r Hr) as [_ Hr2]. congruence. }
  destruct (boot_agree n P s s') as (Hb' & Hkd & Hf); try done.
  - apply Hb.
  - intros g Hg Hgu. cbn [v_frames s' set_mem lset frames_lens]. rewrite Hm3 by done. by destruct (f =? g).
  - intros r k Hr Hk. rewrite Hw by done. by rewrite (proj2 (Z.eqb_neq _ f)) by auto.
  - split; [done|]. split; [done|]. split; [done|]. split; [done|]. split.
    + intros r Hr. rewrite Hf by done. auto.
    + split; [|done]. intros k Hk. rewrite Hw by done. by rewrite Z.eqb_refl, (proj2 (Z.ltb_lt k 1024)) by lia.
Qed.

Lemma early_S n r : 0 <= n -> early (n + 1) r <-> early n r \/ r = KTab n.
Proof.
  intros Hn. destruct r as [|i|d|d i]; cbn; try naive_solver. split.
  - intros Hi. destruct (Z.eq_dec i n) as [->|]; [by right|left; lia].
  - intros [Hi|Hi]; [lia|]. injection Hi as ->. lia.
Qed.

(** Table [n] in frame [f] is entered into the directory. *)
Definition enter_table (n f : Z) s : vstate F H :=
  set_dirs (<[v_kernel s := set_table n (f * 4096) (kdir s)]> (v_dirs s))
    (set_word (frame s KDir) n (Z.lor (f * 4096) 27) s).

Lemma frame_enter n s f r : boot n (fun _ => 0) s -> 0 <= n < 1024 -> 0 < f < frame_count (v_frames s) -> early (n + 1) r ->
  frame (enter_table n f s) r = if bool_decide (r = KTab n) then f else frame s r.
Proof.
  intros Hb Hn1 Hf Hr. set (s' := enter_table n f s).
  assert (kdir s' = set_table n (f * 4096) (kdir s)) as Hk.
  { unfold kdir, dir. change (v_kernel s') with (v_kernel s). cbn [s' enter_table v_dirs set_dirs].
    by rewrite lookup_insert_eq. }
  destruct (present_entry f 27) as [E1 E2]; [lia|done|].
  destruct r as [|i|d|d i]; try done; cbn [frame] in *; rewrite Hk; cbn [physical_address set_table]; [done|].
  change (physical_address (kdir s) / 4096) with (frame s KDir). cbn in Hr.
  assert (word s' (frame s KDir) i = if (frame s KDir =? frame s KDir) && (i =? n) then Z.lor (f * 4096) 27 else word s (frame s KDir) i) as -> by (apply word_set; lia).
  rewrite Z.eqb_refl. cbn [andb]. destruct (Z.eqb_spec i n) as [->|Hin].
  - by rewrite bool_decide_eq_true_2.
  - rewrite bool_decide_eq_false_2; [done|congruence].
Qed.

Lemma boot_table n s f :
  boot n (fun _ => 0) s -> n < 1024 -> 0 < f < frame_count (v_frames s) ->
  frame_used (v_frames s) f = true ->
  (forall r, early n r -> frame s r <> f) -> (forall k, 0 <= k < 1024 -> word s f k = 0) ->
  boot (n + 1) (fun _ => 0) (enter_table n f s).
Proof.
  intros Hb Hn1 Hf Hu Hne Hz. pose proof (bt_n _ _ s Hb) as Hn. set (s' := enter_table n f s).
  assert (kdir s' = set_table n (f * 4096) (kdir s)) as Hk.
  { unfold kdir, dir. change (v_kernel s') with (v_kernel s). cbn [s' enter_table v_dirs set_dirs].
    by rewrite lookup_insert_eq. }
  destruct (present_entry f 27) as [E1 E2]; [lia|done|].
  assert (frame s' KDir = frame s KDir) as Hfk by (cbn [frame]; by rewrite Hk).
  assert (forall g j, 0 <= j < 1024 ->
    word s' g j = if (g =? frame s KDir) && (j =? n) then Z.lor (f * 4096) 27 else word s g j) as Hw
    by (intros; apply word_set; lia).
  assert (forall r, early (n + 1) r -> frame s' r = if bool_decide (r = KTab n) then f else frame s r) as Hfr by (intros; apply frame_enter; done || lia).
  split.
  - lia.
  - apply Hb.
  - destruct (bt_dirs _ _ s Hb) as [Hk0 Hd]. split; [done|]. rewrite Hk. cbn [s' enter_table v_dirs set_dirs].
    change (v_kernel s') with (v_kernel s). rewrite Hd. apply insert_singleton_eq.
  - apply Hb.
  - rewrite Hfk, Hk. apply Hb.
  - intros r Hr. rewrite Hfr by done. apply early_S in Hr; [|lia]. case_bool_decide as Hrn.
    + subst r. cbn [pointer]. rewrite Hk. cbn [tables set_table]. apply fn_lookup_insert.
    + destruct Hr as [Hr|]; [|done]. rewrite <- (bt_pointer _ _ s Hb r Hr).
      destruct r as [|i|d|d i]; try done; cbn [pointer]; rewrite Hk; cbn [physical_tables tables set_table]; [done|].
      apply fn_lookup_insert_ne. congruence.
  - intros r Hr. rewrite Hfr by done. apply early_S in Hr; [|lia]. case_bool_decide as Hrn; [done|].
    destruct Hr as [Hr|]; [|done]. by apply (bt_taken _ _ s Hb).
  - intros r r' Hr Hr'. rewrite !Hfr by done. apply early_S in Hr, Hr'; [|lia..].
    destruct Hr as [Hr| ->], Hr' as [Hr'| ->]; rewrite ?(bool_decide_eq_true_2 (KTab n = KTab n)) by done.
    + rewrite !bool_decide_eq_false_2 by (intros ->; cbn in *; lia). by apply (bt_inj _ _ s Hb).
    + rewrite bool_decide_eq_false_2 by (intros ->; cbn in *; lia). intros Heq. by destruct (Hne r).
    + rewrite bool_decide_eq_false_2 by (intros ->; cbn in *; lia). intros Heq. by destruct (Hne r').
    + done.
  - intros i Hi. rewrite Hfk, Hw by lia. rewrite Z.eqb_refl. cbn [andb].
    destruct (Z.eqb_spec i n) as [->|]; [done|]. apply (bt_kdir _ _ s Hb). lia.
  - intros i k Hi Hkk. rewrite Hfr by done. rewrite Hw by lia.
    assert (early n (KTab i) \/ i = n) as [He| ->] by (cbn; lia).
    + rewrite bool_decide_eq_false_2 by (intros [= ->]; cbn in He; lia).
      destruct (Z.eqb_spec (frame s (KTab i)) (frame s KDir)) as [Heq|].
      * by apply (bt_inj _ _ s Hb) in Heq.
      * cbn [andb]. apply (bt_entry _ _ s Hb); [done|lia].
    + rewrite bool_decide_eq_true_2 by done. destruct (Z.eqb_spec f (frame s KDir)) as [Heq|].
      * by destruct (Hne KDir).
      * cbn [andb]. by apply Hz.
Qed.

Lemma boot_map P s q v :
  boot 1024 P s -> 0 <= q < 2 ^ 20 ->
  let s' := set_word (frame s (KTab (q / 1024))) (q mod 1024) v s in
  boot 1024 (<[q := v]> P) s' /\ forall r, early 1024 r -> frame s' r = frame s r.
Proof.
  intros Hb Hq s'. destruct (page_split q Hq) as [Hq1 Hq2].
  assert (forall g j, 0 <= j < 1024 -> word s' g j =
    if (g =? frame s (KTab (q / 1024))) && (j =? q mod 1024) then v
    else word s g j) as Hw by (intros; by apply word_set).
  assert (forall j, 0 <= j < 1024 -> word s' (frame s KDir) j = word s (frame s KDir) j) as Hwk.
  { intros j Hj. rewrite Hw by done. destruct (Z.eqb_spec (frame s KDir) (frame s (KTab (q / 1024)))) as [Heq|]; [|done].
    by apply (bt_inj _ _ s Hb) in Heq. }
  assert (forall r, early 1024 r -> frame s' r = frame s r) as Hf.
  { intros [|i| |] Hr; try done. cbn [frame]. change (physical_address (kdir s') / 4096) with (frame s KDir).
    by rewrite Hwk. }
  split; [|done]. split; try apply Hb.
  - intros r Hr. rewrite Hf by done. by apply (bt_pointer _ _ s Hb).
  - intros r Hr. rewrite Hf by done. by apply (bt_taken _ _ s Hb).
  - intros r r' Hr Hr'. rewrite !Hf by done. by apply (bt_inj _ _ s Hb).
  - intros i Hi. change (frame s' KDir) with (frame s KDir). rewrite Hwk by done. by apply (bt_kdir _ _ s Hb).
  - intros i k Hi Hk. rewrite Hf by done. rewrite Hw by done.
    destruct (Z.eq_dec (i * 1024 + k) q) as [Heq|Hne].
    + assert (q / 1024 = i) as -> by (symmetry; apply Z.div_unique with k; lia).
      assert (q mod 1024 = k) as -> by (symmetry; apply Z.mod_unique with i; lia).
      rewrite !Z.eqb_refl, Heq, fn_lookup_insert. done.
    + rewrite fn_lookup_insert_ne by done.
      destruct (Z.eqb_spec (frame s (KTab i)) (frame s (KTab (q / 1024)))) as [Heq|]; cbn [andb].
      * apply (bt_inj _ _ s Hb) in Heq; [|done..]. injection Heq as ->.
        destruct (Z.eqb_spec k (q mod 1024)) as [->|]; [|by apply (bt_entry _ _ s Hb)].
        destruct Hne. rewrite (Z.div_mod q 1024) at 3 by lia. lia.
      * by apply (bt_entry _ _ s Hb).
Qed.

Lemma wp_early_table P s q (Q : Z -> vstate F H -> Prop) E :
  boot 1024 P s -> 0 <= q < 2 ^ 20 ->
  Q (frame s (KTab (q / 1024)) * 4096) s -> wp (get_table (q * 4096) (v_kernel s)) Q E s.
Proof.
  intros Hb Hq HQ. destruct (bt_dirs _ _ s Hb) as [Hk Hd]. apply wp_get_table; [done| |by apply page_u32|].
  - rewrite Hd, lookup_singleton_eq. eauto.
  - destruct (page_parts q) as [_ ->]. change (tables _ _) with (pointer s (KTab (q / 1024))).
    destruct (page_split q Hq). by rewrite (bt_pointer _ _ s Hb).
Qed.

(** What a mapping at start-up leaves alone. *)
Definition same_structures s s' : Prop :=
  v_kernel s' = v_kernel s /\ kdir s' = kdir s /\ v_frames s' = v_frames s /\ v_heap s' = v_heap s /\
  forall r, early 1024 r -> frame s' r = frame s r.

Lemma same_structures_trans s1 s2 s3 : same_structures s1 s2 -> same_structures s2 s3 -> same_structures s1 s3.
Proof. intros (A1 & A2 & A3 & A4 & A5) (B1 & B2 & B3 & B4 & B5). repeat split; try congruence. intros r Hr. by rewrite B5, A5. Qed.

Lemma wp_early_map P s q pa fl E :
  boot 1024 P s -> 0 <= q < 2 ^ 20 ->
  wp (map_page (frame s (KTab (q / 1024)) * 4096) (q * 4096) pa fl)
    (fun _ s' => boot 1024 (<[q := Z.lor pa fl]> P) s' /\ same_structures s s') E s.
Proof.
  intros Hb Hq. destruct (page_split q Hq) as [Hq1 Hq2].
  assert (early 1024 (KTab (q / 1024))) as Hr by done. pose proof (early_frame _ _ s _ Hb Hr).
  unfold map_page, page_slot. wp_cond. rewrite (proj2 (Z.eqb_neq _ 0)) by lia. cbn [negb]. wp_cond.
  rewrite page_aligned. change (0 =? 0) with true. cbv iota. wp_cond. rewrite page_aligned.
  change (0 =? 0) with true. cbv iota. rewrite table_index. destruct (page_parts q) as [-> _].
  apply wp_write_phys; [apply Hb|lia|done|]. destruct (boot_map P s q (Z.lor pa fl) Hb Hq). done.
Qed.

(** The low bits of an entry. *)
Lemma ldiff_low z lo : 0 <= lo < 1024 -> Z.ldiff (Z.lor (z * 4096) lo) 0x3FF = z * 4096.
Proof.
  intros Hlo. change 0x3FF with (Z.ones 10). rewrite lor_page by lia. rewrite Z.ldiff_ones_r by lia.
  rewrite Z.shiftr_div_pow2, Z.shiftl_mul_pow2 by lia. change (2 ^ 10) with 1024.
  assert ((z * 4096 + lo) / 1024 = z * 4) as -> by (symmetry; apply Z.div_unique with lo; lia). lia.
Qed.

(** Nothing is mapped there, or the page at its own address. *)
Definition direct_entry (q e : Z) : Prop := e = 0 \/ exists lo, 0 <= lo < 1024 /\ e = Z.lor (q * 4096) lo.

Lemma wp_map_direct_kernel P s q E :
  boot 1024 P s -> 0 <= q < 2 ^ 20 -> direct_entry q (P q) ->
  wp (map_direct_kernel (q * 4096))
    (fun _ s' => boot 1024 (<[q := Z.lor (q * 4096) 3]> P) s' /\ same_structures s s') E s.
Proof.
  intros Hb Hq Hdir. destruct (page_split q Hq) as [Hq1 Hq2].
  assert (early 1024 (KTab (q / 1024))) as Hr by done. pose proof (early_frame _ _ s _ Hb Hr).
  unfold map_direct_kernel, kernel_directory. wp_cond. rewrite page_aligned. change (0 =? 0) with true. cbv iota.
  wp_steps. apply (wp_early_table P); [done..|]. wp_steps.
  unfold get_page, page_slot. wp_cond. rewrite (proj2 (Z.eqb_neq _ 0)) by lia. cbn [negb].
  rewrite table_index. destruct (page_parts q) as [-> _].
  apply wp_read_phys; [apply Hb|lia|done|]. wp_steps.
  rewrite (bt_entry _ _ s Hb) by done. replace (q / 1024 * 1024 + q mod 1024) with q
    by (pose proof (Z.div_mod q 1024); lia).
  assert (forall (R : M (vstate F H) unit) e, e = P q ->
    (if negb (e =? 0) && negb (Z.ldiff e 0x3FF =? q * 4096) then R else ret tt) = ret tt) as Hskip.
  { intros R e ->. destruct Hdir as [->|(lo & Hlo & ->)]; [done|]. rewrite ldiff_low, Z.eqb_refl by lia. by rewrite andb_false_r. }
  rewrite Hskip by done. wp_steps. apply (wp_early_table P); [done..|]. wp_steps.
  wp_apply (wp_early_map P s q (q * 4096) 3 E); [done|done| |done].
  intros u s' Hs'. unfold invalidate_page. rewrite page_aligned. change (0 =? 0) with true. by cbn [kassert].
Qed.

(** Page [q] is mapped at its own address, and only pages of structures are. *)
Definition maps_itself (P : Z -> Z) (q : Z) : Prop := P q = Z.lor (q * 4096) 3.
Definition boot_direct (P : Z -> Z) s : Prop :=
  forall q, P q <> 0 -> maps_itself P q /\ exists r, early 1024 r /\ frame s r = q.

Lemma boot_direct_entry P s q : boot_direct P s -> direct_entry q (P q).
Proof. intros Hd. destruct (Z.eq_dec (P q) 0) as [|Hne]; [by left|]. right. exists 3. split; [lia|]. by apply Hd. Qed.

(** The pages mapped so far are structures', and the first [j] tables' are. *)
Definition boot_mapped (kd j pt : Z) s : Prop :=
  v_kernel s = kd /\ frame s KDir = pt /\
  exists P, boot 1024 P s /\ boot_direct P s /\ (forall i, 0 <= i < j -> maps_itself P (frame s (KTab i))).

Lemma wp_boot_direct kd j pt s r E :
  boot_mapped kd j pt s -> early 1024 r -> j <= 1024 ->
  wp (map_direct_kernel (frame s r * 4096))
    (fun _ s' => boot_mapped kd j pt s' /\ same_structures s s' /\ exists P, boot 1024 P s' /\ maps_itself P (frame s' r) /\
       boot_direct P s' /\ (forall i, 0 <= i < j -> maps_itself P (frame s' (KTab i)))) E s.
Proof.
  intros (Hk & Hpt & P & Hb & HP1 & HP2) Hr Hj. pose proof (early_frame _ _ s r Hb Hr).
  wp_apply (wp_map_direct_kernel P s (frame s r) E); [done|lia|by apply (boot_direct_entry P s)| |done].
  intros u s' (Hb' & Hst). pose proof Hst as (Hk' & Hkd & _ & _ & Hf). set (P' := <[frame s r := Z.lor (frame s r * 4096) 3]> P) in *.
  assert (forall q, maps_itself P q -> maps_itself P' q) as Hkeep.
  { intros q Hq. unfold maps_itself, P'. destruct (decide (frame s r = q)) as [<-|Hne]; [apply fn_lookup_insert|by rewrite fn_lookup_insert_ne]. }
  assert (maps_itself P' (frame s r)) as Hself by apply fn_lookup_insert.
  assert (boot_direct P' s') as HP1'.
  { intros q Hq. unfold P' in Hq. destruct (decide (frame s r = q)) as [<-|Hne].
    - split; [done|]. exists r. by rewrite Hf.
    - rewrite fn_lookup_insert_ne in Hq by done. destruct (HP1 q Hq) as (Hm & r' & Hr' & <-).
      split; [by apply Hkeep|]. exists r'. by rewrite Hf. }
  assert (forall i, 0 <= i < j -> maps_itself P' (frame s' (KTab i))) as HP2'.
  { intros i Hi. rewrite Hf by (cbn; lia). by apply Hkeep, HP2. }
  split; [|split; [done|]].
  - split; [congruence|]. split; [by rewrite Hf|]. exists P'. done.
  - exists P'. split; [done|]. by rewrite Hf.
Qed.

(** The structures are in frames that were free in [s0], and the other frames
    and the heap are those of [s0]. *)
Record boot_frames s0 n s : Prop := BootFrames {
  bf_count : frame_count (v_frames s) = frame_count (v_frames s0);
  bf_used : forall c, 0 <= c -> frame_used (v_frames s) c = true <-> frame_used (v_frames s0) c = true \/ exists r, early n r /\ frame s r = c;
  bf_fresh : forall r, early n r -> frame_used (v_frames s0) (frame s r) = false;
  bf_heap : v_heap s = v_heap s0;
}.

Lemma boot_frames_same s0 n s s' : boot_frames s0 n s -> v_frames s' = v_frames s -> v_heap s' = v_heap s -> (forall r, early n r -> frame s' r = frame s r) ->
  boot_frames s0 n s'.
Proof.
  intros [B1 B2 B3 B4] Hf Hh Hr. split; rewrite ?Hf, ?Hh; try done.
  - intros c Hc. rewrite B2 by done. split; (intros [Hu|(r & He & Hrc)]; [by left|right; exists r; rewrite ?Hr in * by done; done]).
  - intros r He. rewrite Hr by done. by apply B3.
Qed.

Lemma boot_frames_step s0 i s s1 f f' : boot_frames s0 i s -> boot i (fun _ => 0) s1 -> 0 <= i < 1024 -> 0 < f < frame_count (v_frames s) ->
  frame_used (v_frames s) f = false -> frame_marked (v_frames s) true f f' -> v_frames s1 = f' -> v_heap s1 = v_heap s ->
  (forall r, early i r -> frame s1 r = frame s r) -> boot_frames s0 (i + 1) (enter_table i f s1).
Proof.
  intros [B1 B2 B3 B4] Hb1 Hi Hf Hfu (_ & Hc2 & Hc3) Hf1 Hh1 Hr1. assert (0 < f < frame_count (v_frames s1)) as Hf' by (by rewrite Hf1, Hc2).
  split.
  - change (v_frames (enter_table i f s1)) with (v_frames s1). by rewrite Hf1, Hc2.
  - intros c Hc. change (v_frames (enter_table i f s1)) with (v_frames s1). rewrite Hf1, Hc3 by done.
    destruct (Z.eqb_spec f c) as [->|Hne].
    + split; [|done]. intros _. right. exists (KTab i). split; [apply early_S; [lia|by right]|].
      rewrite frame_enter by first [done|apply early_S; [lia|by right]]. by rewrite bool_decide_eq_true_2.
    + rewrite B2 by done. split; (intros [Hu|(r & He & Hrc)]; [by left|right]).
      * exists r. split; [apply early_S; [lia|by left]|]. rewrite frame_enter by first [done|apply early_S; [lia|by left]].
        rewrite bool_decide_eq_false_2 by (intros ->; cbn in He; lia). by rewrite Hr1.
      * rewrite frame_enter in Hrc by done. apply early_S in He; [|lia]. case_bool_decide as Hd; [done|]. destruct He as [He|]; [|done].
        exists r. split; [done|]. by rewrite <- Hr1.
  - intros r He. rewrite frame_enter by done. apply early_S in He; [|lia]. case_bool_decide as Hd.
    + destruct (frame_used (v_frames s0) f) eqn:Hu; [|done]. assert (frame_used (v_frames s) f = true) by (apply B2; [lia|by left]). congruence.
    + destruct He as [He|]; [|done]. rewrite Hr1 by done. by apply B3.
  - change (v_heap (enter_table i f s1)) with (v_heap s1). by rewrite Hh1.
Qed.

(** One round of the loop that allocates the tables. *)
Lemma wp_boot_round s0 kd pt i s :
  boot i (fun _ => 0) s -> boot_frames s0 i s -> v_kernel s = kd -> frame s KDir = pt -> 0 <= i < 1024 ->
  wp (let! physical_t := zoom frames_lens frame_alloc_safe in
      clear_page physical_t >>>
      write_word (u32 (pt * 4096 + 4 * i))
        (Z.lor physical_t (Z.lor PAGE_TABLE_PRESENT (Z.lor PAGE_TABLE_READWRITE
          (Z.lor PAGE_TABLE_WRITE_THROUGH PAGE_TABLE_CACHE_DISABLE)))) >>>
      upd_directory kd (set_table i physical_t))
    (fun _ s' => boot (i + 1) (fun _ => 0) s' /\ boot_frames s0 (i + 1) s' /\ v_kernel s' = kd /\ frame s' KDir = pt) only_nomem s.
Proof.
  intros Hb Hbf Hk Hpt Hi. wp_steps. apply wp_zoom. wp_apply frame_alloc_safe_spec; [apply Hb| |done].
  intros phys f' (f & -> & Hf & Hfu & Hmk). cbv beta.
  pose proof (frame_count_bound _ (bt_frames _ _ s Hb)). cbn [lget frames_lens] in *.
  wp_apply (wp_clear_phys (lset frames_lens f' s) f only_nomem); [apply Hb|lia| |done].
  intros u s1 Hc. destruct (boot_alloc _ _ s f f' s1 Hb Hfu Hmk Hc) as (Hb1 & Hkd1 & Hk1 & Hf1 & Hne & Hz & Hfr1).
  assert (frame s1 KDir = pt) as Hpt1 by (cbn [frame]; by rewrite Hkd1).
  pose proof (early_frame _ _ s1 KDir Hb1 I).
  wp_steps. apply wp_write_phys; [apply Hb1|lia|done|]. wp_steps.
  change (Z.lor PAGE_TABLE_PRESENT _) with 27. rewrite <- Hpt1.
  assert (v_kernel s1 = kd) as Hkk by congruence. rewrite <- Hkk.
  destruct (bt_dirs _ _ s1 Hb1) as [_ Hd1]. apply wp_upd_directory.
  { cbn [set_word v_dirs set_mem]. rewrite Hd1, lookup_singleton_eq. eauto. }
  change (set_dirs _ _) with (enter_table i f s1). pose proof Hmk as (_ & Hc2 & Hc3).
  split; [|split; [|split; [done|]]].
  - apply boot_table; try done; try lia; rewrite Hf1; [by rewrite Hc2|].
    rewrite Hc3 by lia. by rewrite Z.eqb_refl.
  - apply (boot_frames_step s0 i s s1 f f'); try done. destruct Hc as [[m ->] _]. done.
  - cbn [frame]. unfold kdir, dir. cbn [enter_table v_dirs set_dirs v_kernel set_word set_mem].
    by rewrite lookup_insert_eq.
Qed.

(** Nothing but the kernel's structures is mapped, each at its own address. *)
Definition boots s : Prop :=
  vm_ok None s /\ forall q, 0 <= q < 2 ^ 20 ->
    kentry s q <> 0 <-> exists r, exists_role s r /\ pointer s r = q * 4096.

(** [load_page_directory] and [enable_paging]. *)
Definition enabled s : vstate F H :=
  VState (v_frames s) (v_heap s) (v_mem s) (v_dirs s) (v_kernel s) (physical_address (kdir s)) true.

Lemma wp_vmm_enable P s (Q : unit -> vstate F H -> Prop) E : boot 1024 P s -> Q tt (enabled s) -> wp vmm_enable Q E s.
Proof.
  intros Hb HQ. destruct (bt_dirs _ _ s Hb) as [_ Hd]. unfold vmm_enable, kernel_directory. wp_steps.
  apply wp_directory; [rewrite Hd, lookup_singleton_eq; eauto|]. wp_steps.
  exact HQ.
Qed.

(** Once every structure is mapped where the kernel's pointer says, paging can
    be enabled. *)
Lemma boot_ready P s : boot 1024 P s -> (forall r, early 1024 r -> usable (P (frame s r)) /\ P (frame s r) / 4096 = frame s r) ->
  vm_ok None (enabled s) /\ (forall q, 0 <= q < 2 ^ 20 -> kentry (enabled s) q = P q) /\ forall r, exists_role (enabled s) r -> early 1024 r.
Proof.
  intros Hb HP. set (s' := enabled s).
  assert (forall r, exists_role s' r -> early 1024 r) as He.
  { intros r Hr. destruct (bt_dirs _ _ s Hb) as [_ Hd]. destruct r as [|i|d|d i]; try done.
    - destruct Hr as [Hne Hs]. cbn [s' enabled v_dirs v_kernel] in *. rewrite Hd, lookup_singleton_ne in Hs by done.
      by destruct Hs.
    - destruct Hr as (Hne & Hs & _). cbn [s' enabled v_dirs v_kernel] in *. rewrite Hd, lookup_singleton_ne in Hs by done.
      by destruct Hs. }
  assert (forall q, 0 <= q < 2 ^ 20 -> kentry s' q = P q) as Hent.
  { intros q Hq. destruct (page_split q Hq). unfold kentry. change (word s' (frame s' (KTab (q / 1024))) (q mod 1024))
      with (word s (frame s (KTab (q / 1024))) (q mod 1024)). rewrite (bt_entry _ _ s Hb) by done.
    by replace (q / 1024 * 1024 + q mod 1024) with q by (pose proof (Z.div_mod q 1024); lia). }
  split; [|done]. split.
  - split; [done|]. split; [done|]. change (kdir s') with (kdir s). rewrite (bt_address _ _ s Hb).
    apply Z.mod_mul. lia.
  - destruct (bt_dirs _ _ s Hb) as [Hk Hd]. split; [done|]. cbn [s' enabled v_dirs v_kernel]. rewrite Hd.
    rewrite lookup_singleton_eq, lookup_singleton_ne by done. eauto.
  - apply Hb.
  - intros r Hr%He. by apply (bt_taken _ _ s Hb).
  - intros r Hr%He _. pose proof (early_frame _ _ s r Hb Hr) as Hfr. exists (frame s r).
    split; [by apply (bt_pointer _ _ s Hb)|]. split; [done|]. rewrite Hent by lia. by destruct (HP r Hr).
  - intros r r' Hr%He Hr'%He. by apply (bt_inj _ _ s Hb).
  - intros i Hi. by apply (bt_kdir _ _ s Hb).
  - intros d i Hd%He. done.
  - intros d Hd%He. done.
Qed.

Lemma boot_enabled P s : boot 1024 P s -> (forall r, early 1024 r -> maps_itself P (frame s r)) -> boot_direct P s -> boots (enabled s).
Proof.
  intros Hb HP HP'. destruct (boot_ready P s Hb) as (Hok & Hent & He).
  { intros r Hr. rewrite (HP r Hr). apply and_comm, present_entry; [lia|done]. }
  split; [done|]. intros q Hq. rewrite Hent by done. split.
  - intros Hnz. destruct (HP' q Hnz) as (_ & r & Hr & <-). exists r. split; [by destruct r|]. by apply (bt_pointer _ _ s Hb).
  - intros (r & Hr%He & Hp). change (pointer (enabled s) r) with (pointer s r) in Hp.
    rewrite (bt_pointer _ _ s Hb) in Hp by done. assert (frame s r = q) as <- by lia. rewrite HP by done.
    rewrite lor_page by lia. pose proof (early_frame _ _ s r Hb Hr). lia.
Qed.

Lemma wp_vmm_init s kd :
  v_paging s = false -> v_dirs s = empty -> kd <> 0 -> frame_ok (v_frames s) ->
  wp (vmm_init kd) (fun _ s' => v_kernel s' = kd /\ exists P, boot 1024 P s' /\
    (forall r, early 1024 r -> maps_itself P (frame s' r)) /\ boot_direct P s' /\ boot_frames s 1024 s') only_nomem s.
Proof.
  intros Hp Hd Hkd Hfo. unfold vmm_init. wp_steps. apply wp_zoom. wp_apply frame_alloc_safe_spec; [done| |done].
  intros phys f' (pt & -> & Hf & Hfu & Hmk1 & Hmk2 & Hmk3). cbv beta.
  pose proof (frame_count_bound _ Hfo). cbn [lget frames_lens] in *.
  wp_apply (wp_clear_phys (lset frames_lens f' s) pt only_nomem); [done|lia| |done].
  intros u s1 [[m ->] Hw]. wp_steps. cbn [v_frames v_heap v_mem v_dirs v_cr3 v_paging set_mem lset frames_lens].
  rewrite Hd, Hp. set (s2 := VState _ _ _ _ _ _ _). unfold BLOCK_SIZE in *.
  assert (kdir s2 = PageDirectory (pt * 4096) (fun _ => 0) (pt * 4096) (-1)) as Hk2.
  { unfold kdir, dir, s2. cbn [v_dirs v_kernel]. by rewrite lookup_insert_eq. }
  assert (frame s2 KDir = pt) as Hpt.
  { cbn [frame]. rewrite Hk2. cbn. apply Z.div_mul. lia. }
  assert (forall r, early 0 r -> r = KDir) as Hr0.
  { intros [|i| |] Hr; try done. cbn in Hr. lia. }
  assert (boot_frames s 0 s2) as Hbf2.
  { split; [done| | |done].
    - intros c Hc. cbn [s2 v_frames]. rewrite Hmk3 by done. destruct (Z.eqb_spec pt c) as [->|Hne].
      + split; [|done]. intros _. right. by exists KDir.
      + split; [by left|]. intros [Hu|(r & ->%Hr0 & Hrc)]; [done|]. congruence.
    - intros r ->%Hr0. by rewrite Hpt. }
  assert (boot 0 (fun _ => 0) s2) as Hb2.
  { split; try (intros; lia); try done.
    - split; [done|]. rewrite Hk2. done.
    - by rewrite Hk2, Hpt.
    - intros r ->%Hr0. cbn [pointer]. by rewrite Hk2, Hpt.
    - intros r ->%Hr0. rewrite Hpt. cbn [s2 v_frames]. rewrite Hmk2. split; [done|].
      rewrite Hmk3 by lia. by rewrite Z.eqb_refl.
    - intros r r' ->%Hr0 ->%Hr0. done. }
  eapply wp_mono; [apply (wp_for_up (fun i s' => 0 <= i /\ boot i (fun _ => 0) s' /\ boot_frames s i s' /\ v_kernel s' = kd /\ frame s' KDir = pt))| |done].
  { done. }
  { intros i s' Hi (_ & Hb & Hbf & Hk & Hptt). eapply wp_mono; [apply (wp_boot_round s); try done; lia| |done].
    intros u' s'' (Hb' & Hbf' & Hk' & Hpt'). split; [lia|done]. }
  intros u' s3 (_ & Hb3 & Hbf3 & Hk3 & Hpt3). change (0 + Z.of_nat 1024) with 1024 in Hb3, Hbf3. wp_steps.
  eapply wp_mono; [apply (wp_for_up (fun j s' => 0 <= j /\ boot_frames s 1024 s' /\ boot_mapped kd j pt s'))| |done].
  { split; [done|]. split; [done|]. split; [done|]. split; [done|]. exists (fun _ => 0). split; [done|]. split; [done|]. intros i Hi. lia. }
  { intros j s' Hj (_ & Hbf & Hm). pose proof Hm as (Hk & Hptt & P & Hb & _).
    destruct (bt_dirs _ _ s' Hb) as [_ Hds]. wp_steps. apply wp_directory.
    { rewrite Hds, Hk, lookup_singleton_eq. eauto. }
    assert (early 1024 (KTab j)) as Hr by (cbn; lia). rewrite <- Hk.
    change (tables (dir s' (v_kernel s')) j) with (pointer s' (KTab j)). rewrite (bt_pointer _ _ s' Hb) by done.
    rewrite Hk. eapply wp_mono; [apply (wp_boot_direct kd j pt s' (KTab j)); [done|done|lia]| |done].
    intros u'' s'' ((Hk'' & Hpt'' & _) & (_ & _ & Hfr & Hhp & Hrs) & P'' & Hb'' & HPr & HP1 & HP2). split; [lia|].
    split; [by apply (boot_frames_same s 1024 s')|]. split; [done|]. split; [done|].
    exists P''. split; [done|]. split; [done|]. intros i Hi. destruct (Z.eq_dec i j) as [->|]; [done|]. apply HP2. lia. }
  intros u'' s4 (_ & Hbf4 & Hm4). change (0 + Z.of_nat 1024) with 1024 in Hm4. pose proof Hm4 as (_ & Hpt4 & _).
  wp_steps. rewrite <- Hpt4. wp_apply (wp_boot_direct kd 1024 pt s4 KDir only_nomem); [done|done|lia| |done].
  intros u3 s5 ((Hk5 & Hpt5 & _) & (_ & _ & Hfr5 & Hhp5 & Hrs5) & P5 & Hb5 & HPk & HP1 & HP2). wp_steps. rewrite <- Hk5.
  assert (forall r, early 1024 r -> maps_itself P5 (frame s5 r)) as HPall by (intros [|i| |] Hr; by auto).
  change 0 with (0 * 4096) at 1. apply (wp_early_table P5); [done|lia|].
  wp_apply (wp_early_map P5 s5 0 0 0 only_nomem); [done|lia| |done].
  intros u4 s6 (Hb6 & Hk6 & _ & Hfr6 & Hhp6 & Hf6). split; [done|]. exists (<[0 := 0]> P5). split; [done|]. split; [|split].
  - intros r Hr. rewrite Hf6 by done. pose proof (early_frame _ _ s5 r Hb5 Hr).
    unfold maps_itself. rewrite fn_lookup_insert_ne by lia. by apply HPall.
  - intros q Hq. destruct (Z.eq_dec 0 q) as [<-|Hne]; [by rewrite fn_lookup_insert in Hq|].
    unfold maps_itself. rewrite fn_lookup_insert_ne in Hq |- * by done. destruct (HP1 q Hq) as (Hm & r & Hr & <-).
    split; [done|]. exists r. by rewrite Hf6.
  - apply (boot_frames_same s 1024 s5); [by apply (boot_frames_same s 1024 s4)|done..].
Qed.

(** [get_table_alloc] and [map_page], as [mmap] and the loader call them. *)
Definition map_user (d va pa flags : Z) : M (vstate F H) unit :=
  let! t := table_alloc va d in map_page t va pa flags.

(** C3. Mapping a page of a user directory: [get_table_alloc] followed by
    [map_page] changes what the processor's page walk of that directory
    answers for the addresses of that page, to the new entry, and for no
    other page of it and no other user directory, whether or not a table had
    to be allocated on the way; what the kernel's own directory translates
    stays, and the paging structures stay well-formed: each in a frame of its
    own, mapped where the kernel's pointer says.  The only way not to return
    is an assert that fails because no frame is free, or no page of the kernel's
    address space for a new table. *)
Theorem map_page_translates s d p pa flags :
  vm_ok None s -> exists_role s (UDir d) -> 0 <= p < 2 ^ 20 ->
  wp (map_user d (p * 4096) pa flags)
    (fun _ s' => vm_ok None s' /\
      (forall d' b q o, exists_role s (UDir d') -> 0 <= q < 2 ^ 20 -> 0 <= o < 4096 ->
         walk (v_mem s') (physical_address (dir s' d')) b (q * 4096 + o) =
         if (d' =? d) && (q =? p) then entry_walk b (Z.lor pa flags) o
         else walk (v_mem s) (physical_address (dir s d')) b (q * 4096 + o)) /\
      (forall b q o a, 0 <= q < 2 ^ 20 -> 0 <= o < 4096 ->
         walk (v_mem s) (physical_address (kdir s)) b (q * 4096 + o) = Some a ->
         walk (v_mem s') (physical_address (kdir s')) b (q * 4096 + o) = Some a))
    (no_space s) s.
Proof.
  intros Hok Hd Hp. unfold map_user, table_alloc.
  wp_apply (wp_get_table_alloc 0 s d (p * 4096)); [done|done|by apply page_u32|apply page_aligned|intros e He; exact He| |done].
  intros t s1 (Hok1 & Hr1 & -> & (p0 & Hz & K1 & K2 & K3 & K4 & K5) & _).
  destruct (page_parts p) as [E1 E2]. rewrite E2 in *. destruct (page_split p Hp) as [_ Hpm].
  apply (wp_map_page None); [done|done|by apply (vo_mapped None s1 Hok1)|apply page_aligned|].
  rewrite E1. set (s2 := set_word _ _ _ s1).
  assert (vm_ok None s2) as Hok2 by (by apply vm_ok_set_user).
  split; [done|]. split.
  - intros d' b q o Hd' Hq Ho. assert (exists_role s1 (UDir d')) as Hd1 by (cbn in *; by rewrite K1, K2).
    rewrite !walk_user by (first [done|by apply exists_role_set]). unfold s2.
    rewrite user_entry_set by done. rewrite K4 by done. by destruct (_ && _).
  - intros b q o a Hq Ho. rewrite !walk_kernel by done. unfold s2. rewrite kentry_user_set by done.
    destruct (Z.eq_dec q p0) as [->|Hne]; [|by rewrite K5].
    rewrite Hz by done. unfold entry_walk. by rewrite allows_0.
Qed.

(** C30. [find_vspace] on the kernel's directory: it answers the lowest run of
    [n] free pages and marks exactly these pages as reserved, or answers -1
    and changes nothing when no such run exists.  A run that ends at the end
    of the address space (the bound of the loop that marks it wraps to 0) is
    answered without being marked.  It always returns. *)
Theorem find_vspace_first_fit s n :
  vm_ok None s -> 1 <= n < 2 ^ 20 ->
  wp (find_vspace (v_kernel s) n) (vspace_found None s n) never s.
Proof.
  intros Hok Hn. by apply wp_find_vspace.
Qed.

(** Starting paging: [vmm_init] builds the kernel's directory and its 1024
    tables in fresh cleared frames and maps each of them at its own address;
    after [vmm_enable] the structures are well-formed, so the kernel goes on
    reaching all of them, and exactly their pages are mapped (page 0, in
    particular, is not).  Only running out of memory stops it. *)
Theorem vmm_starts s kd :
  v_paging s = false -> v_dirs s = empty -> kd <> 0 -> frame_ok (v_frames s) ->
  wp (vmm_init kd >>> vmm_enable) (fun _ s' => v_kernel s' = kd /\ v_paging s' = true /\ boots s')
    only_nomem s.
Proof.
  intros Hp Hd Hkd Hfo. wp_apply (wp_vmm_init s kd); [done..| |done].
  intros u s1 (Hk & P & Hb & HP1 & HP2 & _). apply (wp_vmm_enable P); [done|].
  split; [done|]. split; [done|]. by apply (boot_enabled P s1).
Qed.
End invariant.

(** ** A concrete kernel

    Directory in frame 1, tables in frames 2 to 1025, a user directory (the
    heap object at 100) in frame 1026, all mapped at their own addresses. *)
Definition sample_mem (a : Z) : Z :=
  let f := a / 1024 in
  let k := a mod 1024 in
  if f =? 1 then Z.lor ((2 + k) * 4096) 3
  else if (f =? 2) && (1 <=? k) then Z.lor (k * 4096) 3
  else if (f =? 3) && (k <=? 2) then Z.lor ((1024 + k) * 4096) 3
  else 0.

Definition sample : vstate bits bump :=
  VState (Bits (fun f => f <? 1027) 2048) (Bump 200 {[ 100 ]}) sample_mem
    (<[50 := PageDirectory 4096 (fun i => (2 + i) * 4096) 4096 (-1)]>
      {[ 100 := PageDirectory (1026 * 4096) (fun _ => 0) (1026 * 4096) 1 ]})
    50 4096 true.

Lemma sample_word f k : 0 <= k < 1024 -> word sample f k =
  if f =? 1 then Z.lor ((2 + k) * 4096) 3
  else if (f =? 2) && (1 <=? k) then Z.lor (k * 4096) 3
  else if (f =? 3) && (k <=? 2) then Z.lor ((1024 + k) * 4096) 3
  else 0.
Proof.
  intros Hk. unfold word, word_at. cbn [v_mem sample]. unfold sample_mem.
  replace ((f * 1024 + k) / 1024) with f by (apply Z.div_unique with k; lia).
  by replace ((f * 1024 + k) mod 1024) with k by (apply Z.mod_unique with f; lia).
Qed.

Lemma sample_role r : exists_role sample r -> r = KDir \/ (exists i, r = KTab i /\ 0 <= i < 1024) \/ r = UDir 100.
Proof.
  destruct r as [|i|d|d i]; [by left|by right; left; exists i| |]; cbn [exists_role v_kernel v_dirs sample].
  - intros [Hne Hs]. rewrite lookup_insert_ne in Hs by done. destruct (decide (d = 100)) as [->|Hd].
    + by right; right.
    + rewrite lookup_singleton_ne in Hs by done. by destruct Hs.
  - intros (Hne & Hs & Hi & Ht). destruct Ht. unfold dir. cbn [v_dirs sample].
    rewrite lookup_insert_ne in Hs |- * by done. destruct (decide (d = 100)) as [->|Hd].
    + by rewrite lookup_singleton_eq.
    + by rewrite lookup_singleton_ne.
Qed.

Definition sample_frame (r : role) : Z :=
  match r with KDir => 1 | KTab i => 2 + i | UDir _ => 1026 | UTab _ _ => 0 end.

Lemma sample_frames r : exists_role sample r -> frame sample r = sample_frame r /\ pointer sample r = sample_frame r * 4096.
Proof.
  intros [->|[(i & -> & Hi)| ->]]%sample_role; [done| |done]. split; [|done].
  cbn [frame]. change (physical_address (kdir sample) / 4096) with 1. rewrite sample_word by done.
  by apply present_entry.
Qed.

Lemma sample_kentry p : 0 < p < 1027 -> kentry sample p = Z.lor (p * 4096) 3.
Proof.
  intros Hp. destruct (page_split p) as [Hp1 Hp2]; [lia|]. unfold kentry.
  destruct (sample_frames (KTab (p / 1024))) as [-> _]; [done|]. cbn [sample_frame]. rewrite sample_word by done.
  rewrite (proj2 (Z.eqb_neq _ 1)) by lia.
  destruct (Z.lt_ge_cases p 1024).
  - rewrite (Z.div_small p), (Z.mod_small p) by lia. change (2 + 0 =? 2) with true. cbn [andb].
    by rewrite (proj2 (Z.leb_le 1 p)) by lia.
  - assert (p / 1024 = 1) as -> by (symmetry; apply Z.div_unique with (p - 1024); lia).
    assert (p mod 1024 = p - 1024) as -> by (symmetry; apply Z.mod_unique with 1; lia).
    change (2 + 1 =? 2) with false. change (2 + 1 =? 3) with true. cbn [andb].
    rewrite (proj2 (Z.leb_le (p - 1024) 2)) by lia. f_equal. f_equal. lia.
Qed.

Lemma sample_ok : vm_ok None sample.
Proof.
  split.
  - done.
  - split; [done|]. split; [by eexists|done].
  - done.
  - intros r Hr. destruct (sample_frames r Hr) as [-> _]. cbn.
    apply sample_role in Hr as [->|[(i & -> & Hi)| ->]]; cbn [sample_frame]; (split; [lia|]); apply Z.ltb_lt; lia.
  - intros r Hr _. destruct (sample_frames r Hr) as [Hf Hp]. exists (sample_frame r). split; [done|].
    assert (0 < sample_frame r < 1027) as Hb
      by (apply sample_role in Hr as [->|[(i & -> & Hi)| ->]]; cbn [sample_frame]; lia).
    split; [lia|]. rewrite sample_kentry, Hf by done. by apply present_entry.
  - intros r r' Hr Hr'. destruct (sample_frames r Hr) as [-> _], (sample_frames r' Hr') as [-> _].
    apply sample_role in Hr as [->|[(i & -> & Hi)| ->]], Hr' as [->|[(i' & -> & Hi')| ->]];
      cbn [sample_frame]; intros Heq; try done; try (f_equal; lia); lia.
  - intros i Hi. rewrite sample_word by done. by apply present_entry.
  - intros d i Hr Hi _. pose proof Hr as [|[(?&?&?)|[= ->]]]%sample_role; try done.
    split; [|done]. intros _. by rewrite sample_word.
  - intros d [|[(?&?&?)|[= ->]]]%sample_role; done.
Qed.

Lemma sample_udir : exists_role sample (UDir 100).
Proof. split; [done|]. by eexists. Qed.

Lemma map_page_translates_witness :
  wp (map_user 100 (5 * 4096) (1500 * 4096) 7)
    (fun _ s' => vm_ok None s' /\
      walk (v_mem s') (physical_address (dir s' 100)) true (5 * 4096 + 12) = Some (1500 * 4096 + 12)) (no_space sample) sample.
Proof.
  eapply wp_mono; [apply (map_page_translates sample 100 5 (1500 * 4096) 7)| |done].
  - exact sample_ok.
  - exact sample_udir.
  - lia.
  - intros u s' (Hok & Hw & _). split; [exact Hok|].
    rewrite (Hw 100 true 5 12 sample_udir ltac:(lia) ltac:(lia)). reflexivity.
Defined.

Lemma find_vspace_first_fit_witness :
  wp (find_vspace 50 3) (vspace_found None sample 3) never sample.
Proof. apply (find_vspace_first_fit sample 3); [exact sample_ok|lia]. Defined.

Lemma vmm_starts_witness :
  wp (vmm_init 50 >>> vmm_enable) (fun _ s' => v_kernel s' = 50 /\ v_paging s' = true /\ boots s') only_nomem
    (VState (Bits (fun f => f <? 256) 4096) (Bump 200 empty) (fun _ => 7) empty 0 0 false : vstate bits bump).
Proof. apply vmm_starts; [reflexivity|reflexivity|lia|cbn; lia]. Defined.
