(* ===== verification/VmmDir.v ===== *)
(** * A new page directory (kernel/vmm.c)

    [page_directory_new] while it runs: the directory is known to the kernel
    before its frame is mapped and cleared, so it is the structure under
    construction of [vm_ok]. *)
From stdpp Require Import functions.
From S2P Require Import Prelude Interfaces Vmm.

Section proofs.
Context {F H : Type} `{FrameAllocLaws F, KHeapLaws H}.
Implicit Types (s : vstate F H) (r : role).

(** The directories are objects that the heap does not hand out again. *)
Definition dirs_live s : Prop := heap_ok (v_heap s) /\ forall d, is_Some (v_dirs s !! d) -> d ∈ heap_live (v_heap s).

(** ** A directory comes in *)

Section new_dir.
Context (s : vstate F H) (d b pt rc : Z).
Hypothesis Hok : vm_ok None s.
Hypothesis Hfresh : v_dirs s !! d = None.
Hypothesis Hd : d <> 0.
Hypothesis Hb : taken s b /\ b <> 0.
Hypothesis Hforeign : foreign s b.

Definition new_dir : vstate F H := set_dirs (<[d := PageDirectory pt (fun _ => 0) (b * 4096) rc]> (v_dirs s)) s.

Lemma new_dir_kernel : d <> v_kernel s.
Proof. intros ->. destruct (vo_kernel None s Hok) as (_ & [x Hx] & _). congruence. Qed.

Lemma new_dir_dir x : dir new_dir x = if x =? d then PageDirectory pt (fun _ => 0) (b * 4096) rc else dir s x.
Proof.
  unfold dir, new_dir. cbn [v_dirs set_dirs]. destruct (Z.eqb_spec x d) as [->|Hne]; [by rewrite lookup_insert_eq|by rewrite lookup_insert_ne].
Qed.

Lemma new_dir_kdir : kdir new_dir = kdir s.
Proof.
  unfold kdir. change (v_kernel new_dir) with (v_kernel s). rewrite new_dir_dir. pose proof new_dir_kernel.
  by rewrite (proj2 (Z.eqb_neq _ _)).
Qed.

Lemma new_dir_dirs x : is_Some (v_dirs new_dir !! x) <-> is_Some (v_dirs s !! x) \/ x = d.
Proof.
  unfold new_dir. cbn [v_dirs set_dirs]. destruct (decide (x = d)) as [->|Hne].
  - rewrite lookup_insert_eq. split; eauto.
  - rewrite lookup_insert_ne by done. naive_solver.
Qed.

Lemma new_dir_role r : exists_role new_dir r <-> exists_role s r \/ r = UDir d.
Proof.
  pose proof new_dir_kernel as Hk. destruct r as [|i|x|x i]; cbn [exists_role]; change (v_kernel new_dir) with (v_kernel s); rewrite ?new_dir_dirs, ?new_dir_dir.
  - tauto.
  - naive_solver.
  - split; [naive_solver|]. intros [?|He]; [tauto|]. injection He as ->. auto.
  - destruct (Z.eqb_spec x d) as [->|]; cbn [tables]; [|naive_solver]. split; [naive_solver|].
    intros [(_ & [y Hy] & _)|]; [congruence|done].
Qed.

Lemma new_dir_frame r : exists_role s r \/ r = UDir d -> frame new_dir r = if bool_decide (r = UDir d) then b else frame s r.
Proof.
  intros Hr. destruct r as [|i|x|x i]; cbn [frame]; rewrite ?new_dir_kdir, ?new_dir_dir; try done.
  - destruct (Z.eqb_spec x d) as [->|Hne]; [rewrite bool_decide_eq_true_2 by done; cbn [physical_address]; apply Z.div_mul; lia|].
    rewrite bool_decide_eq_false_2 by congruence. done.
  - rewrite bool_decide_eq_false_2 by done. destruct (Z.eqb_spec x d) as [->|Hne]; [|done].
    destruct Hr as [(_ & [y Hy] & _)|]; [congruence|done].
Qed.

Lemma new_dir_kentry p : 0 <= p < 2 ^ 20 -> kentry new_dir p = kentry s p.
Proof. intros Hp. destruct (page_split p Hp). unfold kentry. rewrite new_dir_frame by (by left). done. Qed.

Lemma new_dir_pointer r : exists_role s r -> pointer new_dir r = pointer s r.
Proof.
  intros Hr. destruct r as [|i|x|x i]; cbn [pointer]; rewrite ?new_dir_kdir, ?new_dir_dir; try done;
    (destruct (Z.eqb_spec x d) as [->|]; [|done]).
  - destruct Hr as [_ [y Hy]]. congruence.
  - destruct Hr as (_ & [y Hy] & _). congruence.
Qed.

Lemma vm_ok_new_dir : vm_ok (Some (UDir d)) new_dir.
Proof.
  assert (forall r, exists_role s r -> r <> UDir d) as Hne by (intros r Hr ->; destruct Hr as [_ [y Hy]]; congruence).
  split.
  - rewrite new_dir_kdir. apply Hok.
  - change (v_kernel new_dir) with (v_kernel s). destruct (vo_kernel None s Hok) as (K1 & K2 & K3). split; [done|]. split; [apply new_dir_dirs; by left|].
    apply eq_None_not_Some. rewrite new_dir_dirs. intros [Hs|?]; [|done]. rewrite K3 in Hs. by destruct Hs.
  - apply Hok.
  - intros r Hr%new_dir_role. rewrite new_dir_frame by done. change (v_frames new_dir) with (v_frames s). case_bool_decide.
    + destruct Hb as [[? ?] ?]. split; [lia|done].
    + destruct Hr as [Hr|]; [|done]. by apply (vo_taken None s Hok).
  - intros r Hr%new_dir_role Hx. destruct Hr as [Hr|]; [|congruence].
    destruct (vo_mapped None s Hok r Hr) as (p & P1 & P2 & P3 & P4); [done|]. exists p.
    rewrite new_dir_pointer, new_dir_kentry, new_dir_frame by (auto; lia). rewrite bool_decide_eq_false_2 by auto. done.
  - intros r r' Hr%new_dir_role Hr'%new_dir_role. rewrite !new_dir_frame by done. do 2 case_bool_decide; [congruence| | |].
    + destruct Hr'; [|done]. intros Heq. by destruct (Hforeign r').
    + destruct Hr; [|done]. intros Heq. by destruct (Hforeign r).
    + destruct Hr, Hr'; try done. by apply (vo_inj None s Hok).
  - intros i Hi. rewrite new_dir_frame by (by left). by apply (vo_kdir None s Hok).
  - intros x i Hr%new_dir_role Hi _ Hx. destruct Hr as [Hr|]; [|congruence]. rewrite new_dir_frame by (by left).
    rewrite bool_decide_eq_false_2 by auto. rewrite new_dir_dir. rewrite (proj2 (Z.eqb_neq x d)) by congruence. by apply (vo_udir None s Hok).
  - intros x Hr%new_dir_role. rewrite new_dir_dir. destruct (Z.eqb_spec x d); [apply Z.mod_mul; lia|].
    destruct Hr as [Hr|Hr]; [by apply (vo_phys None s Hok)|congruence].
Qed.

Lemma grown_new_dir s0 : grown s0 s -> ~ taken s0 b -> grown s0 new_dir.
Proof.
  intros [A1 A2 A3 A4 A5 A6] Hn. split; try done.
  - intros r Hr. destruct (A4 r Hr) as [R1 R2]. split; [apply new_dir_role; by left|]. rewrite new_dir_frame by (by left).
    rewrite bool_decide_eq_false_2; [done|]. intros ->. destruct R1 as [_ [y Hy]]. congruence.
  - intros r Hr%new_dir_role. rewrite new_dir_frame by done. case_bool_decide; [by right|]. destruct Hr as [Hr|]; [|done]. by apply A5.
Qed.

Lemma new_dir_users x q : exists_role s (UDir x) -> user_entry new_dir x q = user_entry s x q.
Proof.
  intros [Hx1 Hx2]. assert (x <> d) as Hxd by (intros ->; destruct Hx2; congruence). unfold user_entry. rewrite new_dir_dir.
  rewrite (proj2 (Z.eqb_neq x d)) by done. cbn [frame]. rewrite new_dir_dir. by rewrite (proj2 (Z.eqb_neq x d)).
Qed.
End new_dir.

(** ** Its pointer and count change *)

Section redirect.
Context (x : option role) (s : vstate F H) (d : Z) (y : page_directory_t).
Hypothesis Hok : vm_ok x s.
Hypothesis Hd : exists_role s (UDir d).
Hypothesis Ht : tables y = tables (dir s d).
Hypothesis Ha : physical_address y = physical_address (dir s d).
Hypothesis Hp : x = Some (UDir d) \/ physical_tables y = physical_tables (dir s d).

Definition redirect : vstate F H := set_dirs (<[d := y]> (v_dirs s)) s.

Lemma redirect_dir z : dir redirect z = if z =? d then y else dir s z.
Proof.
  unfold dir, redirect. cbn [v_dirs set_dirs]. destruct (Z.eqb_spec z d) as [->|Hne]; [by rewrite lookup_insert_eq|by rewrite lookup_insert_ne].
Qed.

Lemma redirect_tables z : tables (dir redirect z) = tables (dir s z) /\ physical_address (dir redirect z) = physical_address (dir s z).
Proof. rewrite redirect_dir. by destruct (Z.eqb_spec z d) as [->|]. Qed.

Lemma redirect_kdir : kdir redirect = kdir s.
Proof. unfold kdir. change (v_kernel redirect) with (v_kernel s). rewrite redirect_dir. destruct Hd. by rewrite (proj2 (Z.eqb_neq _ _)). Qed.

Lemma redirect_dirs z : is_Some (v_dirs redirect !! z) <-> is_Some (v_dirs s !! z).
Proof.
  unfold redirect. cbn [v_dirs set_dirs]. destruct (decide (z = d)) as [->|]; [|by rewrite lookup_insert_ne].
  rewrite lookup_insert_eq. destruct Hd as [_ ?]. split; eauto.
Qed.

Lemma redirect_role r : exists_role redirect r <-> exists_role s r.
Proof.
  destruct r as [|i|z|z i]; cbn [exists_role]; change (v_kernel redirect) with (v_kernel s); rewrite ?redirect_dirs; try done.
  by rewrite (proj1 (redirect_tables z)).
Qed.

Lemma redirect_frame r : frame redirect r = frame s r.
Proof. destruct r as [|i|z|z i]; cbn [frame]; rewrite ?redirect_kdir, ?(proj2 (redirect_tables z)); done. Qed.

Lemma redirect_kentry p : kentry redirect p = kentry s p.
Proof. unfold kentry. by rewrite redirect_frame. Qed.

Lemma redirect_pointer r : x = Some (UDir d) -> r <> UDir d -> pointer redirect r = pointer s r.
Proof.
  intros _ Hne. destruct r as [|i|z|z i]; cbn [pointer]; rewrite ?redirect_kdir; try done.
  - rewrite redirect_dir. destruct (Z.eqb_spec z d) as [->|]; congruence.
  - by rewrite (proj1 (redirect_tables z)).
Qed.

Lemma redirect_pointer_same r : physical_tables y = physical_tables (dir s d) -> pointer redirect r = pointer s r.
Proof.
  intros Hy. destruct r as [|i|z|z i]; cbn [pointer]; rewrite ?redirect_kdir; try done.
  - rewrite redirect_dir. by destruct (Z.eqb_spec z d) as [->|].
  - by rewrite (proj1 (redirect_tables z)).
Qed.

Lemma vm_ok_redirect : vm_ok x redirect.
Proof.
  assert (forall r, exists_role s r -> x <> Some r -> pointer redirect r = pointer s r) as Hpt.
  { intros r Hr Hx. destruct Hp as [He|He]; [apply redirect_pointer; [done|congruence]|by apply redirect_pointer_same]. }
  split.
  - rewrite redirect_kdir. apply Hok.
  - change (v_kernel redirect) with (v_kernel s). destruct (vo_kernel x s Hok) as (K1 & K2 & K3). split; [done|].
    split; [by apply redirect_dirs|]. apply eq_None_not_Some. rewrite redirect_dirs. by apply eq_None_not_Some.
  - apply Hok.
  - intros r Hr%redirect_role. rewrite redirect_frame. by apply (vo_taken x s Hok).
  - intros r Hr%redirect_role Hx. destruct (vo_mapped x s Hok r Hr Hx) as (p & P1 & P2 & P3 & P4). exists p.
    rewrite Hpt, redirect_kentry, redirect_frame by done. done.
  - intros r r' Hr%redirect_role Hr'%redirect_role. rewrite !redirect_frame. by apply (vo_inj x s Hok).
  - intros i Hi. rewrite redirect_frame. by apply (vo_kdir x s Hok).
  - intros z i Hr%redirect_role Hi. rewrite redirect_frame, (proj1 (redirect_tables z)). by apply (vo_udir x s Hok).
  - intros z Hr%redirect_role. rewrite (proj2 (redirect_tables z)). by apply (vo_phys x s Hok).
Qed.

Lemma redirect_users z q : user_entry redirect z q = user_entry s z q.
Proof. unfold user_entry. rewrite (proj1 (redirect_tables z)). by rewrite redirect_frame. Qed.

Lemma grown_redirect s0 : grown s0 s -> grown s0 redirect.
Proof.
  intros [A1 A2 A3 A4 A5 A6]. split; try done.
  - intros r Hr. rewrite redirect_role, redirect_frame. by apply A4.
  - intros r Hr%redirect_role. rewrite redirect_frame. by apply A5.
Qed.
End redirect.

(** ** Its frame is cleared *)

(** [s'] is [s] with the first [n] words of the frame of [d] cleared. *)
Definition clearing (d n : Z) s s' : Prop :=
  v_dirs s' = v_dirs s /\ v_kernel s' = v_kernel s /\ v_frames s' = v_frames s /\ v_heap s' = v_heap s /\ v_cr3 s' = v_cr3 s /\ v_paging s' = v_paging s /\
  forall f k, 0 <= k < 1024 -> word s' f k = if (f =? frame s (UDir d)) && (k <? n) then 0 else word s f k.

Section clearing.
Context (s s' : vstate F H) (d n : Z).
Hypothesis Hok : vm_ok (Some (UDir d)) s.
Hypothesis Hd : exists_role s (UDir d).
Hypothesis Hnone : forall i, tables (dir s d) i = 0.
Hypothesis Hc : clearing d n s s'.

Lemma clearing_word r k : exists_role s r -> r <> UDir d -> 0 <= k < 1024 -> word s' (frame s r) k = word s (frame s r) k.
Proof.
  intros Hr Hne Hk. destruct Hc as (_ & _ & _ & _ & _ & _ & Hw). rewrite Hw by done.
  rewrite (proj2 (Z.eqb_neq _ _)); [done|]. intros Heq. by apply (vo_inj _ s Hok) in Heq.
Qed.

Lemma clearing_role r : exists_role s' r <-> exists_role s r.
Proof. destruct Hc as (? & ? & _). by apply exists_role_dirs. Qed.

Lemma clearing_dir z : dir s' z = dir s z.
Proof. destruct Hc as (Hds & _). unfold dir. by rewrite Hds. Qed.

Lemma clearing_kdir : kdir s' = kdir s.
Proof. destruct Hc as (_ & Hk & _). unfold kdir. by rewrite clearing_dir, Hk. Qed.

Lemma clearing_frame r : exists_role s r -> frame s' r = frame s r.
Proof.
  intros Hr. destruct r as [|i|z|z i]; cbn [frame]; rewrite ?clearing_kdir, ?clearing_dir; try done.
  - f_equal. by apply (clearing_word KDir).
  - f_equal. destruct Hr as (R1 & R2 & R3 & R4). apply (clearing_word (UDir z)); [done| |done]. intros Heq. injection Heq as ->. by rewrite Hnone in R4.
Qed.

Lemma clearing_pointer r : pointer s' r = pointer s r.
Proof. destruct r; cbn [pointer]; by rewrite ?clearing_kdir, ?clearing_dir. Qed.

Lemma clearing_kentry p : 0 <= p < 2 ^ 20 -> kentry s' p = kentry s p.
Proof. intros Hp. destruct (page_split p Hp). unfold kentry. rewrite clearing_frame by done. by apply (clearing_word (KTab (p / 1024))). Qed.

Lemma clearing_mapped r : exists_role s r -> mapped s r -> mapped s' r.
Proof.
  intros Hr (p & P1 & P2 & P3 & P4). exists p. rewrite clearing_pointer, clearing_frame, clearing_kentry by (done || lia). done.
Qed.

Lemma vm_ok_clearing x : x = Some (UDir d) \/ (x = None /\ n = 1024 /\ mapped s (UDir d)) -> vm_ok x s'.
Proof.
  intros Hx. pose proof Hc as (C1 & C2 & C3 & C4 & C5 & C6 & Hw). split.
  - rewrite C6, C5, clearing_kdir. apply Hok.
  - rewrite C2, C1. apply Hok.
  - rewrite C3. apply Hok.
  - intros r Hr%clearing_role. rewrite clearing_frame, C3 by done. by apply (vo_taken _ s Hok).
  - intros r Hr%clearing_role Hxr. apply clearing_mapped; [done|]. destruct (decide (r = UDir d)) as [->|Hne].
    + by destruct Hx as [->|(_ & _ & Hm)].
    + apply (vo_mapped _ s Hok); [done|congruence].
  - intros r r' Hr%clearing_role Hr'%clearing_role. rewrite !clearing_frame by done. by apply (vo_inj _ s Hok).
  - intros i Hi. rewrite clearing_frame by done. rewrite (clearing_word KDir) by done. by apply (vo_kdir _ s Hok).
  - intros z i Hr%clearing_role Hi Hxt Hxd. rewrite clearing_frame, clearing_dir by done. destruct (decide (z = d)) as [->|Hne].
    + rewrite Hnone. split; [|done]. intros _. destruct Hx as [->|(_ & Hn & _)]; [done|].
      rewrite Hw, Z.eqb_refl, Hn by done. by rewrite (proj2 (Z.ltb_lt i 1024)) by lia.
    + rewrite clearing_word by (done || congruence). apply (vo_udir _ s Hok); congruence || done.
  - intros z Hr%clearing_role. rewrite clearing_dir. by apply (vo_phys _ s Hok).
Qed.

Lemma clearing_users z q : exists_role s (UDir z) -> 0 <= q < 2 ^ 20 -> user_entry s' z q = user_entry s z q.
Proof.
  intros [Z1 Z2] Hq. destruct (page_split q Hq). unfold user_entry. rewrite clearing_dir.
  destruct (Z.eqb_spec (tables (dir s z) (q / 1024)) 0) as [|Hnz]; [done|]. assert (exists_role s (UTab z (q / 1024))) as Hr by done.
  rewrite clearing_frame by done. by apply (clearing_word (UTab z (q / 1024))).
Qed.

Lemma grown_clearing s0 : grown s0 s -> ~ taken s0 (frame s (UDir d)) -> grown s0 s'.
Proof.
  intros [A1 A2 A3 A4 A5 A6] Hn. pose proof Hc as (C1 & C2 & C3 & _ & _ & _ & Hw). split; unfold taken in *; rewrite ?C2, ?C3; try done.
  - intros r Hr. destruct (A4 r Hr). rewrite clearing_role, clearing_frame by done. done.
  - intros r Hr%clearing_role. rewrite clearing_frame by done. by apply A5.
  - intros f k Hf Hff Hk. rewrite Hw by done. rewrite (proj2 (Z.eqb_neq f _)) by (by intros ->). by apply A6.
Qed.
End clearing.

Lemma wp_clear_dir s d E : vm_ok (Some (UDir d)) s -> exists_role s (UDir d) -> (forall i, tables (dir s d) i = 0) -> mapped s (UDir d) ->
  wp (clear_page (pointer s (UDir d))) (fun _ s' => clearing d 1024 s s') E s.
Proof.
  intros Hok Hd Hnone Hm. unfold clear_page. eapply wp_mono; [apply (wp_for_up (fun k s' => 0 <= k /\ clearing d k s s'))| |done].
  - split; [lia|]. do 6 (split; [done|]). intros f k Hk. by rewrite (proj2 (Z.ltb_ge k 0)), andb_false_r by lia.
  - intros k s1 Hk [_ Hc]. change (0 + Z.of_nat 1024) with 1024 in Hk. pose proof Hc as (C1 & C2 & C3 & C4 & C5 & C6 & Hw).
    assert (vm_ok (Some (UDir d)) s1) as Hok1 by (apply (vm_ok_clearing s s1 d k); auto).
    rewrite <- (clearing_pointer s s1 d k Hc). apply (wp_write_role (Some (UDir d))); [done|by apply (clearing_role s s1 d k)|by apply (clearing_mapped s s1 d k)|lia|].
    rewrite (clearing_frame s s1 d k) by done. split; [lia|]. do 6 (split; [done|]). intros f j Hj. rewrite word_set by lia. rewrite Hw by done.
    destruct (Z.eqb_spec f (frame s (UDir d))), (Z.eqb_spec j k), (Z.ltb_spec j k), (Z.ltb_spec j (k + 1)); cbn [andb]; try done; lia.
  - by intros u s1 [_ Hc].
Qed.

(** ** The whole of [page_directory_new] *)

(** [s'] is [s] with the empty directory [d]. *)
Record new_directory s (d : Z) s' : Prop := NewDirectory {
  nd_ok : vm_ok None s';
  nd_fresh : v_dirs s !! d = None;
  nd_role : exists_role s' (UDir d);
  nd_empty : forall q, user_entry s' d q = 0;
  nd_grown : grown s s';
  nd_live : dirs_live s';
  nd_users : forall x q, exists_role s (UDir x) -> 0 <= q < 2 ^ 20 -> user_entry s' x q = user_entry s x q;
  nd_kernel : exists p, (0 <= p < 2 ^ 20 -> kentry s p = 0) /\ forall q, 0 <= q < 2 ^ 20 -> q <> p -> kentry s' q = kentry s q;
  nd_keys : forall x, is_Some (v_dirs s' !! x) <-> is_Some (v_dirs s !! x) \/ x = d;
  nd_heap : heap_live (v_heap s') = {[ d ]} ∪ heap_live (v_heap s);
}.

Lemma grown_heap s0 s h : grown s0 s -> grown s0 (lset heap_lens h s).
Proof. intros G. split; apply G. Qed.

Lemma vm_ok_heap x s h : vm_ok x s -> vm_ok x (lset heap_lens h s).
Proof. intros Hok. split; apply Hok. Qed.

Lemma reserved_users x s p n s' z q : vm_ok x s -> reserved x s p n s' -> exists_role s (UDir z) -> 0 <= q < 2 ^ 20 -> user_entry s' z q = user_entry s z q.
Proof.
  intros Hok (_ & _ & _ & Hd & Hk & Hfr & Hw & _) [Z1 Z2] Hq. destruct (page_split q Hq). unfold user_entry.
  assert (dir s' z = dir s z) as -> by (unfold dir; by rewrite Hd). destruct (Z.eqb_spec (tables (dir s z) (q / 1024)) 0) as [|Hnz]; [done|].
  assert (exists_role s (UTab z (q / 1024))) as Hr by done. rewrite Hfr by done. apply Hw; [done|].
  intros i Hi Heq. by apply (vo_inj x s Hok) in Heq.
Qed.

(** The part after [find_vspace] answered page [p]. *)
Lemma wp_enter_directory s0 s d b p E :
  vm_ok (Some (UDir d)) s -> exists_role s (UDir d) -> dir s d = PageDirectory 0 (fun _ => 0) (b * 4096) 0 -> frame s (UDir d) = b ->
  0 < p < 2 ^ 20 -> ~ usable (kentry s p) -> 0 < b -> grown s0 s -> ~ taken s0 b ->
  wp (upd_directory d (set_physical_tables (p * 4096)) >>>
      let! kt := table_alloc (p * 4096) (v_kernel s) in
      map_page kt (p * 4096) (b * 4096) (Z.lor PAGE_PRESENT PAGE_READWRITE) >>>
      clear_page (p * 4096) >>>
      page_directory_reference d)
    (fun v s' => v = d /\ vm_ok None s' /\ exists_role s' (UDir d) /\ (forall q, user_entry s' d q = 0) /\ grown s0 s' /\
      v_heap s' = v_heap s /\ (forall z, is_Some (v_dirs s' !! z) <-> is_Some (v_dirs s !! z)) /\
      (forall z q, exists_role s (UDir z) -> 0 <= q < 2 ^ 20 -> user_entry s' z q = user_entry s z q) /\
      forall q, 0 <= q < 2 ^ 20 -> q <> p -> kentry s' q = kentry s q) E s.
Proof.
  intros Hok Hd Hdir Hfr Hp Hu Hb G Hnt. set (x := Some (UDir d)) in *. pose proof Hd as [Hdk Hds].
  assert (forall i : Z, x <> Some (KTab i)) as Hx by done.
  wp_steps. apply wp_upd_directory; [done|]. rewrite Hdir. cbn [set_physical_tables tables physical_address refcount].
  set (y := PageDirectory (p * 4096) (fun _ => 0) (b * 4096) 0). change (set_dirs _ s) with (redirect s d y). set (s1 := redirect s d y).
  assert (vm_ok x s1) as Hok1 by (apply vm_ok_redirect; rewrite ?Hdir; auto).
  assert (forall r, exists_role s1 r <-> exists_role s r) as Hrole1 by (intros r; apply redirect_role; by rewrite ?Hdir).
  assert (forall r, frame s1 r = frame s r) as Hfr1 by (intros r; apply redirect_frame; by rewrite ?Hdir).
  assert (forall q, kentry s1 q = kentry s q) as Hk1 by (intros q; apply redirect_kentry; by rewrite ?Hdir).
  assert (dir s1 d = y) as Hdir1 by (unfold s1; rewrite redirect_dir; by rewrite Z.eqb_refl).
  assert (exists_role s1 (UDir d)) as Hd1 by (by apply Hrole1).
  wp_steps. change (v_kernel s) with (v_kernel s1). apply (wp_ktable_alloc x); [done|done|apply page_u32; lia|]. wp_steps.
  apply (wp_kmap x); [done|done|lia|]. change (Z.lor PAGE_PRESENT PAGE_READWRITE) with 3.
  set (e := Z.lor (b * 4096) 3). set (s2 := set_kentry p e s1). destruct (present_entry b 3) as [E1 E2]; [lia|done|].
  assert (vm_ok x s2) as Hok2.
  { apply vm_ok_set_kentry; [done|lia|]. intros r Hr Hxr. apply (pointer_absent x); try done. by rewrite Hk1. }
  assert (forall q, 0 <= q < 2 ^ 20 -> kentry s2 q = if q =? p then e else kentry s q) as Hk2.
  { intros q Hq. unfold s2. rewrite (kentry_set x) by (done || lia). by rewrite Hk1. }
  assert (frame s2 (UDir d) = b) as Hfb by (by rewrite <- Hfr, <- Hfr1).
  assert (mapped s2 (UDir d)) as Hm2.
  { exists p. split; [cbn [pointer]; change (dir s2 d) with (dir s1 d); by rewrite Hdir1|]. split; [lia|]. rewrite Hk2, Z.eqb_refl by lia. by rewrite Hfb. }
  assert (pointer s2 (UDir d) = p * 4096) as Hp2 by (cbn [pointer]; change (dir s2 d) with (dir s1 d); by rewrite Hdir1).
  assert (forall i, tables (dir s2 d) i = 0) as Hnone by (intros i; change (dir s2 d) with (dir s1 d); by rewrite Hdir1).
  assert (exists_role s2 (UDir d)) as Hd2 by done.
  rewrite <- Hp2 at 1. wp_steps. wp_apply (wp_clear_dir s2 d E); [done..| |done]. intros u s3 Hc. pose proof Hc as (C1 & C2 & C3 & C4 & _).
  assert (vm_ok None s3) as Hok3 by (apply (vm_ok_clearing s2 s3 d 1024); auto).
  assert (exists_role s3 (UDir d)) as Hd3 by (by apply (clearing_role s2 s3 d 1024)).
  assert (dir s3 d = y) as Hdir3 by (rewrite (clearing_dir s2 s3 d 1024) by done; done).
  unfold page_directory_reference. wp_steps. rewrite (proj2 (Z.eqb_neq d 0)).
  2: { intros ->. destruct (vo_kernel None s3 Hok3) as (_ & _ & Hz). destruct Hd3 as [_ Hs]. rewrite Hz in Hs. by destruct Hs. }
  cbn [negb kassert]. wp_steps. apply wp_directory; [by destruct Hd3|]. wp_steps. rewrite Hdir3. change (negb (refcount y =? -1)) with true. cbv iota.
  wp_steps. apply wp_upd_directory; [by destruct Hd3|]. cbv beta. rewrite Hdir3.
  set (y' := set_refcount _ y). change (set_dirs _ s3) with (redirect s3 d y'). wp_steps. split; [done|].
  assert (tables y' = tables (dir s3 d)) as T1 by (by rewrite Hdir3). assert (physical_address y' = physical_address (dir s3 d)) as T2 by (by rewrite Hdir3).
  assert (physical_tables y' = physical_tables (dir s3 d)) as T3 by (by rewrite Hdir3). set (s4 := redirect s3 d y').
  split; [apply vm_ok_redirect; auto|]. split; [by apply redirect_role|]. split; [|split; [|split; [|split; [|split]]]].
  - intros q. unfold s4. rewrite redirect_users by done. unfold user_entry. by rewrite Hdir3.
  - apply grown_redirect; [done..|]. apply (grown_clearing s2 s3 d 1024); [done..| |by rewrite Hfb].
    eapply grown_trans; [apply (grown_redirect s d y); rewrite ?Hdir; auto|]. apply (grown_set_kentry x); [done|lia].
  - change (v_heap s4) with (v_heap s3). by rewrite C4.
  - intros z. unfold s4. rewrite redirect_dirs by done. rewrite C1. change (v_dirs s2) with (v_dirs s1). apply redirect_dirs; by rewrite ?Hdir.
  - intros z q Hz Hq. unfold s4. rewrite redirect_users by done. assert (exists_role s1 (UDir z)) as Hz1 by (by apply Hrole1). assert (exists_role s2 (UDir z)) as Hz2 by exact Hz1.
    rewrite (clearing_users s2 s3 d 1024) by done. transitivity (user_entry s1 z q); [|apply redirect_users; by rewrite ?Hdir].
    apply (keeps_set_kentry x p e s1); [done|lia|done|done|done].
  - intros q Hq Hne. unfold s4. rewrite redirect_kentry by done. rewrite (clearing_kentry s2 s3 d 1024) by done. rewrite Hk2 by done.
    by rewrite (proj2 (Z.eqb_neq q p)).
Qed.

Lemma wp_page_directory_new s (E : panic -> Prop) : vm_ok None s -> dirs_live s -> (forall e, no_space s e -> E e) ->
  wp page_directory_new (fun d s' => new_directory s d s') E s.
Proof.
  intros Hok [Hh Hl] HE. unfold page_directory_new. wp_steps. apply wp_zoom.
  wp_apply (kcalloc_spec (v_heap s) 4108); [done|lia| |intros e ->; apply HE; by left]. intros d h (Hh' & Hdr & Hnl & Hlive). cbv beta.
  assert (v_dirs s !! d = None) as Hfresh by (apply eq_None_not_Some; intros Hs; by apply Hnl, Hl).
  rewrite (proj2 (Z.eqb_neq d 0)) by lia. cbn [negb kassert]. wp_steps. apply wp_zoom.
  set (s1 := lset heap_lens h s). wp_apply frame_alloc_safe_spec; [apply Hok| |intros e ->; apply HE; by left].
  intros phys f' (b & -> & Hb & Hbu & Hmk). cbv beta. change (lget frames_lens _) with (v_frames s) in Hb, Hmk, Hbu.
  set (s2 := lset frames_lens f' s1).
  assert (vm_ok None s2) as Hok2 by (apply (vm_ok_frames s1 b f'); [by apply vm_ok_heap|exact Hmk]).
  assert (grown s s2) as G2.
  { apply (grown_trans s s1 s2); [apply grown_heap, grown_refl|]. exact (grown_frames s1 b f' Hmk). }
  assert (~ taken s b) as Hnt by (intros [_ Hbt]; congruence).
  assert (taken s2 b /\ b <> 0) as Htb.
  { destruct Hmk as (_ & Hc & Hu). split; [|lia]. unfold taken. change (v_frames s2) with f'. rewrite Hc, Hu, Z.eqb_refl by lia. split; [lia|done]. }
  assert (foreign s2 b) as Hfb.
  { intros r Hr. apply (fresh_frame s s2 b f'); try done. }
  wp_steps. apply wp_upd_directory; [cbn; rewrite lookup_insert_eq; eauto|]. cbv beta. change BLOCK_SIZE with 4096.
  match goal with |- context [set_dirs (<[d := ?y]> ?m) ?t] => replace (set_dirs (<[d := y]> m) t) with (new_dir s2 d b 0 0) end.
  2: { unfold new_dir, set_dirs, dir. cbn. rewrite lookup_insert_eq, insert_insert_eq. done. }
  pose proof (vm_ok_new_dir s2 d b 0 0 Hok2 Hfresh ltac:(lia) Htb Hfb) as Hok3. set (s3 := new_dir s2 d b 0 0) in *.
  assert (grown s s3) as G3 by (apply (grown_new_dir s2 d b 0 0); first [done|lia]).
  assert (exists_role s3 (UDir d)) as Hd3 by (apply new_dir_role; auto; lia).
  assert (dir s3 d = PageDirectory 0 (fun _ => 0) (b * 4096) 0) as Hdir3 by (unfold s3; rewrite new_dir_dir; by rewrite Z.eqb_refl).
  unfold kernel_directory. wp_steps. change (v_kernel s2) with (v_kernel s3).
  wp_apply (wp_find_vspace (Some (UDir d)) s3 1 E); [done|done|lia| |done].
  intros v s4 [(-> & -> & Hfull)|(p & -> & Hp & Hrun & _ & R)].
  - assert (E AssertFail) as HEA.
    { apply HE. right. split; [done|]. intros q Hq Hr. apply (Hfull q Hq). intros j Hj. replace (q + j) with q by lia. rewrite Z.mod_small by lia.
      specialize (Hr 0 ltac:(lia)). rewrite Z.add_0_r, Z.mod_small in Hr by lia. unfold s3. by rewrite new_dir_kentry by (first [done|lia]). }
    wp_steps. apply wp_upd_directory; [apply Hd3|]. rewrite Hdir3. wp_steps. set (y := set_physical_tables _ _). change (set_dirs _ s3) with (redirect s3 d y).
    assert (vm_ok (Some (UDir d)) (redirect s3 d y)) as Hok5 by (apply vm_ok_redirect; rewrite ?Hdir3; auto).
    change (v_kernel s3) with (v_kernel (redirect s3 d y)). apply (wp_ktable_alloc (Some (UDir d))); [done|done|unfold is_u32; lia|]. wp_steps.
    unfold map_page. wp_cond. destruct (negb _); [|done]. by wp_cond.
  - pose proof R as (Hok4 & Hf4 & Hh4 & Hd4 & Hk4 & Hfr4 & _ & He4). unfold BLOCK_SIZE.
    assert (kentry s3 p = 0) as Hz by (specialize (Hrun 0 ltac:(lia)); by rewrite Z.add_0_r, Z.mod_small in Hrun by lia).
    assert (kentry s p = 0) as Hz0 by (unfold s3 in Hz; by rewrite new_dir_kentry in Hz by (first [done|lia])).
    assert (exists_role s4 (UDir d)) as Hrole4 by (by apply (exists_role_dirs s3)).
    assert (dir s4 d = PageDirectory 0 (fun _ => 0) (b * 4096) 0) as Hdir4 by (unfold dir; by rewrite Hd4).
    rewrite <- Hk4. eapply wp_mono; [apply (wp_enter_directory s s4 d b p E); try done; try lia| |done].
    + rewrite Hfr4 by done. cbn [frame]. rewrite Hdir3. cbn [physical_address]. apply Z.div_mul. lia.
    + rewrite He4, Hz by lia. by destruct (_ && _).
    + eapply grown_trans; [exact G3|by eapply grown_reserved].
    + intros v s5 (-> & Hok5 & Hrole5 & Hempty & G5 & Hh5 & Hds5 & Hu5 & Hk5).
      assert (v_heap s5 = h) as Hheap by (by rewrite Hh5, Hh4).
      assert (forall z, is_Some (v_dirs s5 !! z) <-> is_Some (v_dirs s !! z) \/ z = d) as Hkeys.
      { intros z. rewrite Hds5, Hd4. by apply (new_dir_dirs s2 d b 0 0); first [done|lia]. }
      split; try done.
      * split; rewrite Hheap; [done|]. intros z [Hz2| ->]%Hkeys; rewrite Hlive; [|set_solver]. apply elem_of_union_r. by apply Hl.
      * intros z q Hzr Hq. rewrite Hu5; [|destruct Hzr; split; [by rewrite Hk4|rewrite Hd4; apply new_dir_dirs; first [done|lia|by left]]|done].
        rewrite (reserved_users (Some (UDir d)) s3 p _ s4 z q) by (try done; apply new_dir_role; first [done|lia|by left]).
        unfold s3. by rewrite new_dir_users by (first [done|lia]).
      * exists p. split; [done|]. intros q Hq Hne. rewrite Hk5, He4 by done.
        replace ((p <=? q) && (q <? p + _)) with false.
        -- unfold s3. by rewrite new_dir_kentry by (first [done|lia]).
        -- symmetry. destruct (p + 1 <? 2 ^ 20); destruct (Z.leb_spec p q); cbn [andb]; try done; apply Z.ltb_ge; lia.
      * by rewrite Hheap.
Qed.
End proofs.
