(* ===== verification/Boot.v ===== *)
(** * The memory at start-up (kernel/kmain.c, include/multiboot.h)

    The part of [kmain] that turns what the boot loader tells into the state
    of the memory managers: where the kernel and its modules end, how much
    memory there is, which blocks are free, what is mapped when paging starts.
    [mem] is the memory as the boot loader left it, byte by byte; the code
    reads the loader's structures in it, and fills a part of it when it sets up
    the block map ([filled]).  That no paging structure is put where the code
    still reads or where the block map lies is part of what file BootSpec
    shows.  Output is left out. *)
From stdpp Require Import functions.
From S2P Require Import Prelude Interfaces Pmm Vmm.

Definition MULTIBOOT_INFO_MEMORY : Z := 0x1.
Definition MULTIBOOT_INFO_CMDLINE : Z := 0x4.
Definition MULTIBOOT_INFO_MODS : Z := 0x8.
Definition MULTIBOOT_INFO_MEM_MAP : Z := 0x40.
Definition MULTIBOOT_INFO_BOOT_LOADER_NAME : Z := 0x200.
Definition MULTIBOOT_INFO_FRAMEBUFFER_INFO : Z := 0x1000.
Definition MULTIBOOT_MEMORY_AVAILABLE : Z := 1.
Definition MULTIBOOT_FRAMEBUFFER_TYPE_INDEXED : Z := 0.
Definition MULTIBOOT_FRAMEBUFFER_TYPE_RGB : Z := 1.
Definition MULTIBOOT_FRAMEBUFFER_TYPE_EGA_TEXT : Z := 2.
Definition TTY_DEFAULT_VMEM_ADDR : Z := 0xb8000.
Definition TTY_DEFAULT_HEIGHT : Z := 25.
Definition TTY_DEFAULT_WIDTH : Z := 80.

(** [struct multiboot_info], the members that are used here. *)
Record multiboot_info : Type := MultibootInfo {
  mbi_flags : Z;
  mbi_mem_upper : Z;
  mbi_cmdline : Z;
  mbi_mods_count : Z;
  mbi_mods_addr : Z;
  mbi_mmap_length : Z;
  mbi_mmap_addr : Z;
  mbi_boot_loader_name : Z;
  mbi_framebuffer_addr : Z;
  mbi_framebuffer_pitch : Z;
  mbi_framebuffer_height : Z;
  mbi_framebuffer_type : Z;
}.

Definition has_info (mbi : multiboot_info) (flag : Z) : bool := negb (Z.land (mbi_flags mbi) flag =? 0).

(** What the linker places where. *)
Record symbols : Type := Symbols {
  sym_start : Z;
  sym_end : Z;
  sym_text : Z * Z;
  sym_data : Z * Z;
  sym_bss : Z * Z;
  sym_shared_data : Z * Z;
  sym_shared_text : Z * Z;
  sym_mod_info : Z * Z;
}.

Section ops.
Context {H : Type} `{KHeap H}.
Variable mem : Z -> Z.
Variable mbi_addr : Z.
Variable mbi : multiboot_info.
Variable sym : symbols.
Abbreviation V := (vstate pmm H).

Definition load32 (a : Z) : Z := mem a + mem (a + 1) * 2 ^ 8 + mem (a + 2) * 2 ^ 16 + mem (a + 3) * 2 ^ 24.
Definition load64 (a : Z) : Z := load32 a + load32 (a + 4) * 2 ^ 32.

(** [strlen] of the loader's strings, which are shorter than 2^20. *)
Definition strlen {St} (s : Z) : M St Z :=
  loop (Z.to_nat (2 ^ 20)) (fun n => ret (if mem (u32 (s + n)) =? 0 then inr n else inl (n + 1))) 0.

(** [multiboot_module_t]: the address of [mods[i]] and its members. *)
Definition mod_at (i : Z) : Z := u32 (mbi_mods_addr mbi + 16 * i).
Definition mod_start (i : Z) : Z := load32 (mod_at i).
Definition mod_end (i : Z) : Z := load32 (mod_at i + 4).
Definition mod_cmdline (i : Z) : Z := load32 (mod_at i + 8).

(** [multiboot_memory_map_t]. *)
Definition mmap_size (m : Z) : Z := load32 m.
Definition mmap_entry_addr (m : Z) : Z := load64 (m + 4).
Definition mmap_len (m : Z) : Z := load64 (m + 12).
Definition mmap_type (m : Z) : Z := load32 (m + 20).

(** The loop over the memory map, with a [break] as [inr]; an entry takes at
    least the four bytes of its size. *)
Definition for_mmap {St A} (f : Z -> A -> M St (A + A)) (a : A) : M St A :=
  loop (S (Z.to_nat (mbi_mmap_length mbi))) (fun '(m, a) =>
    if m <? u32 (mbi_mmap_addr mbi + mbi_mmap_length mbi) then
      let! r := f m a in
      ret (match r with inl a => inl (u32 (m + mmap_size m + 4), a) | inr a => inr a end)
    else ret (inr a)) (mbi_mmap_addr mbi, a).

(** [for (i = start; i < end; i += BLOCK_SIZE)]. *)
Definition for_blocks {St} (start end_ : Z) (f : Z -> M St unit) : M St unit :=
  loop (S (Z.to_nat (2 ^ 20))) (fun i =>
    if i <? end_ then f i >>> ret (inl (u32 (i + BLOCK_SIZE))) else ret (inr tt)) start.

(** ** The screen

    [fb_start] and [fb_size]; the initialisation of the terminals is theirs. *)
Definition screen {St} : M St (Z * Z) :=
  if has_info mbi MULTIBOOT_INFO_FRAMEBUFFER_INFO && negb (mbi_framebuffer_addr mbi =? 0) then
    let type := mbi_framebuffer_type mbi in
    if (type =? MULTIBOOT_FRAMEBUFFER_TYPE_EGA_TEXT) || (type =? MULTIBOOT_FRAMEBUFFER_TYPE_RGB) || (type =? MULTIBOOT_FRAMEBUFFER_TYPE_INDEXED)
    then ret (u32 (mbi_framebuffer_addr mbi), u32 ((mbi_framebuffer_height mbi + 1) * mbi_framebuffer_pitch mbi))
    else fail Halted
  else ret (TTY_DEFAULT_VMEM_ADDR, TTY_DEFAULT_HEIGHT * 2 * TTY_DEFAULT_WIDTH).

(** ** How much memory there is *)

(** [real_end] grown by module [i]. *)
Definition module_end {St} (i real_end : Z) : M St Z :=
  kassert (mod_start i <=? mod_end i) >>>
  let real_end := if real_end <? u32 (mod_at i + 16) then u32 (mod_at i + 16) else real_end in
  ret (if real_end <? mod_end i then mod_end i else real_end).

Definition kernel_end {St} : M St Z :=
  let! real_end :=
    if has_info mbi MULTIBOOT_INFO_MODS && (0 <? mbi_mods_count mbi)
    then for_fold (Z.to_nat (mbi_mods_count mbi)) 0 (sym_end sym) module_end
    else ret (sym_end sym) in
  ret (Z.land (u32 (real_end + 0xFFF)) 0xFFFFF000).

Definition memory_available {St} : M St Z :=
  let! mem_avail :=
    if has_info mbi MULTIBOOT_INFO_MEM_MAP then
      for_mmap (fun m mem_avail =>
        let mmap_end := u32 (mmap_entry_addr m + mmap_len m) in
        ret (inl (if (mmap_type m =? MULTIBOOT_MEMORY_AVAILABLE) && (mem_avail <? mmap_end) then mmap_end else mem_avail))) 0
    else if has_info mbi MULTIBOOT_INFO_MEMORY then ret (u32 (1024 * (1024 + mbi_mem_upper mbi)))
    else ret 0 in
  ret (if mem_avail =? 0 then 0xFFFFFFFF else mem_avail).

(** ** Which blocks are free *)

Definition set_block (i : Z) : M pmm unit := pmm_set_block (i / BLOCK_SIZE).

(** The [len] bytes from [addr] are available; [i] is 32 bits wide. *)
Definition free_entry (addr len : Z) : M pmm unit :=
  for_blocks 0 len (fun i => pmm_unset_block (u32 ((addr + i) / BLOCK_SIZE))).

Definition free_available : M pmm unit :=
  if has_info mbi MULTIBOOT_INFO_MEM_MAP then
    for_mmap (fun m _ =>
      if mmap_type m =? MULTIBOOT_MEMORY_AVAILABLE then
        (if negb (mmap_entry_addr m / 2 ^ 32 =? 0) then ret tt else free_entry (mmap_entry_addr m) (mmap_len m)) >>>
        ret (inl tt)
      else if mmap_type m =? 0 then ret (inr tt)
      else ret (inl tt)) tt
  else fail Halted.

Definition set_string (s : Z) : M pmm unit :=
  let! n := strlen s in for_blocks s (u32 (s + n)) set_block.

(** The loop over a module's command line starts at the string's address and
    ends at its length. *)
Definition set_module (i : Z) : M pmm unit :=
  set_block (mod_at i) >>>
  (if negb (mod_cmdline i =? 0) then
     let! n := strlen (mod_cmdline i) in
     for_blocks (mod_cmdline i) n (fun j => set_block (u32 (mod_cmdline i + j)))
   else ret tt) >>>
  kassert (mod_start i <=? mod_end i) >>>
  for_blocks (mod_start i) (mod_end i + 1) set_block.

(** [map_at] is the address of the block map, [real_end]. *)
Definition reserve (real_end map_at : Z) : M pmm unit :=
  kassert (Z.land (sym_start sym) 0xFFF =? 0) >>>
  for_blocks (sym_start sym) real_end set_block >>>
  let! n := gets block_map_size in
  for_blocks 0 (n / 32) (fun i => set_block (u32 (map_at + i))) >>>
  pmm_set_block 0 >>>
  set_block mbi_addr >>>
  (if has_info mbi MULTIBOOT_INFO_CMDLINE && negb (mbi_cmdline mbi =? 0) then set_string (mbi_cmdline mbi) else ret tt) >>>
  (if has_info mbi MULTIBOOT_INFO_MODS then for_up (Z.to_nat (mbi_mods_count mbi)) 0 set_module else ret tt) >>>
  (if has_info mbi MULTIBOOT_INFO_MEM_MAP
   then for_blocks (mbi_mmap_addr mbi) (u32 (mbi_mmap_addr mbi + mbi_mmap_length mbi)) set_block else ret tt) >>>
  (if has_info mbi MULTIBOOT_INFO_BOOT_LOADER_NAME then set_string (mbi_boot_loader_name mbi) else ret tt).

(** ** What is mapped when paging starts *)

Definition map_block (i : Z) : M V unit := map_direct_kernel (Z.ldiff i 0xFFF).

Definition map_string (s : Z) : M V unit :=
  let! n := strlen s in for_blocks s (u32 (s + n)) map_block.

Definition map_module (i : Z) : M V unit :=
  map_block (mod_at i) >>>
  (if negb (mod_cmdline i =? 0) then
     let! n := strlen (mod_cmdline i) in
     for_blocks (mod_cmdline i) n (fun j => map_block (u32 (mod_cmdline i + j)))
   else ret tt) >>>
  map_pages (mod_start i) (mod_end i) PAGE_PRESENT.

Definition map_loader : M V unit :=
  map_block mbi_addr >>>
  (if has_info mbi MULTIBOOT_INFO_CMDLINE && negb (mbi_cmdline mbi =? 0) then map_string (mbi_cmdline mbi) else ret tt) >>>
  (if has_info mbi MULTIBOOT_INFO_MODS then for_up (Z.to_nat (mbi_mods_count mbi)) 0 map_module else ret tt) >>>
  (if has_info mbi MULTIBOOT_INFO_MEM_MAP
   then for_blocks (mbi_mmap_addr mbi) (u32 (mbi_mmap_addr mbi + mbi_mmap_length mbi)) map_block else ret tt) >>>
  (if has_info mbi MULTIBOOT_INFO_BOOT_LOADER_NAME then map_string (mbi_boot_loader_name mbi) else ret tt).

Definition map_section (r : Z * Z) (flags : Z) : M V unit := map_pages r.1 r.2 flags.

(** The framebuffer is [fb_size] bytes at [fb_start]. *)
Definition map_kernel (map_at fb_start fb_size : Z) : M V unit :=
  let rw := Z.lor PAGE_PRESENT PAGE_READWRITE in
  map_section (sym_text sym) PAGE_PRESENT >>>
  map_section (sym_data sym) rw >>>
  map_section (sym_bss sym) rw >>>
  map_section (sym_shared_data sym) rw >>>
  map_section (sym_shared_text sym) PAGE_PRESENT >>>
  map_section (sym_mod_info sym) PAGE_PRESENT >>>
  let! n := gets (fun s => block_map_size (v_frames s)) in
  map_pages map_at (u32 (map_at + n / 32)) rw >>>
  if negb (fb_start =? 0) && negb (fb_size =? 0) then map_pages fb_start (u32 (fb_start + fb_size)) rw else ret tt.
End ops.

(** ** Start-up *)

Section start.
Context {H : Type} `{KHeap H}.
Variable mem : Z -> Z.
Variable mbi_addr : Z.
Variable mbi : multiboot_info.
Variable sym : symbols.
Abbreviation V := (vstate pmm H).

(** The memory after the [memset] of [pmm_init]: [n] bytes from the block map
    on, eight times its size, are 0xFF. *)
Definition filled (map_at n a : Z) : Z := if (map_at <=? a) && (a <? map_at + n) then 0xFF else mem a.

(** Start-up until blocks can be allocated; [map_mem] is what the memory at
    the end of the kernel holds, the answer the end of the kernel. *)
Definition setup_frames (map_mem : list Z) : M pmm Z :=
  let! real_end := kernel_end mem mbi sym in
  let! mem_avail := memory_available mem mbi in
  pmm_init map_mem mem_avail >>>
  let! n := gets block_map_size in
  free_available (filled real_end n) mbi >>>
  reserve (filled real_end n) mbi_addr mbi sym real_end real_end >>>
  ret real_end.

(** [kmain] up to paging. *)
Definition start_memory (map_mem : list Z) (kdir : Z) : M V unit :=
  let! '(fb_start, fb_size) := screen mbi in
  let! real_end := zoom frames_lens (setup_frames map_mem) in
  vmm_init kdir >>>
  let! n := gets (fun s => block_map_size (v_frames s)) in
  map_loader (filled real_end n) mbi_addr mbi >>>
  map_kernel sym real_end fb_start fb_size >>>
  vmm_enable.
End start.
