(* ===== verification/BootSpec.v ===== *)
(** * What start-up leaves in memory

    From what the boot loader tells to the blocks that are free and the pages
    that are mapped when paging starts. *)
From Stdlib Require Import Btauto.
From stdpp Require Import functions.
From S2P Require Import Prelude Interfaces Pmm Vmm Boot.

(** ** Runs of blocks *)

(** The blocks that [for_blocks start end_] visits. *)
Definition count_blocks (start end_ : Z) : Z := (end_ - start + 4095) / 4096.
Definition in_blocks (start end_ c : Z) : bool := (start / 4096 <=? c) && (c <? start / 4096 + count_blocks start end_).

Lemma count_blocks_spec start end_ k : 0 <= k -> (k < count_blocks start end_ <-> start + k * 4096 < end_).
Proof. intros Hk. unfold count_blocks. pose proof (Z.div_mod (end_ - start + 4095) 4096 ltac:(lia)). pose proof (Z.mod_pos_bound (end_ - start + 4095) 4096 ltac:(lia)). lia. Qed.

Lemma block_step start k : (start + k * 4096) / 4096 = start / 4096 + k.
Proof. by rewrite Z.div_add by lia. Qed.

Lemma in_blocks_range start end_ L c : in_blocks start end_ c = true -> end_ <= L -> L mod 4096 = 0 -> c < L / 4096.
Proof.
  unfold in_blocks. intros [H1%Z.leb_le H2%Z.ltb_lt]%andb_true_iff HL Hm. assert (c - start / 4096 < count_blocks start end_) as Hc by lia.
  apply count_blocks_spec in Hc; [|lia]. pose proof (Z.div_mod start 4096 ltac:(lia)). pose proof (Z.mod_pos_bound start 4096 ltac:(lia)).
  pose proof (Z.div_mod L 4096 ltac:(lia)). lia.
Qed.

Lemma in_blocks_one a c : in_blocks a (a + 1) c = (c =? a / 4096).
Proof. unfold in_blocks, count_blocks. replace (a + 1 - a + 4095) with 4096 by lia. change (4096 / 4096) with 1. lia. Qed.

Lemma wp_block_loop {St} start end_ (body : Z -> M St (Z + unit)) (I : Z -> St -> Prop) (Q : unit -> St -> Prop) E s :
  0 <= start < 2 ^ 32 -> end_ <= 2 ^ 32 - 4096 -> I 0 s ->
  (forall k s', 0 <= k -> start + k * 4096 < end_ -> I k s' ->
    wp (body (start + k * 4096)) (fun r s'' => r = inl (u32 (start + k * 4096 + BLOCK_SIZE)) /\ I (k + 1) s'') E s') ->
  (forall k s', 0 <= k -> end_ <= start + k * 4096 -> I k s' -> wp (body (start + k * 4096)) (fun r s'' => r = inr tt /\ I k s'') E s') ->
  (forall s', I (Z.max 0 (count_blocks start end_)) s' -> Q tt s') -> wp (loop (S (Z.to_nat (2 ^ 20))) body start) Q E s.
Proof.
  intros Hs He HI Hf Hstop HQ.
  apply (wp_loop (fun i s' => exists k, i = start + k * 4096 /\ 0 <= k <= Z.max 0 (count_blocks start end_) /\ I k s')
    (fun i _ => Z.to_nat (Z.max 0 (count_blocks start end_) - (i - start) / 4096))).
  - intros i s' (k & -> & Hk & HIk). destruct (Z.lt_ge_cases (start + k * 4096) end_) as [Hlt|Hge].
    + eapply wp_mono; [apply Hf; [lia|lia|exact HIk]| |done]. intros r s'' [-> HI'].
      assert (k < count_blocks start end_) by (apply count_blocks_spec; lia).
      assert (u32 (start + k * 4096 + BLOCK_SIZE) = start + (k + 1) * 4096) as ->.
      { rewrite u32_small. { unfold BLOCK_SIZE. lia. } unfold is_u32, BLOCK_SIZE. lia. }
      split; [exists (k + 1); split; [done|]; split; [lia|done]|].
      assert ((start + k * 4096 - start) / 4096 = k) as -> by (symmetry; apply Z.div_unique with 0; lia).
      assert ((start + (k + 1) * 4096 - start) / 4096 = k + 1) as -> by (symmetry; apply Z.div_unique with 0; lia). lia.
    + eapply wp_mono; [apply Hstop; [lia|lia|exact HIk]| |done]. intros r s'' [-> HI']. apply HQ.
      assert (~ k < count_blocks start end_) as Hn by (rewrite count_blocks_spec by lia; lia).
      replace (Z.max 0 (count_blocks start end_)) with k by lia. done.
  - exists 0. split; [lia|]. split; [lia|done].
  - assert ((start - start) / 4096 = 0) as -> by (rewrite Z.sub_diag; done).
    assert (count_blocks start end_ <= 2 ^ 20); [|lia]. unfold count_blocks.
    apply Z.div_le_upper_bound; lia.
Qed.

Lemma wp_for_blocks {St} start end_ (f : Z -> M St unit) (I : Z -> St -> Prop) (Q : unit -> St -> Prop) E s :
  0 <= start < 2 ^ 32 -> end_ <= 2 ^ 32 - 4096 -> I 0 s ->
  (forall k s', 0 <= k -> start + k * 4096 < end_ -> I k s' -> wp (f (start + k * 4096)) (fun _ s'' => I (k + 1) s'') E s') ->
  (forall s', I (Z.max 0 (count_blocks start end_)) s' -> Q tt s') -> wp (for_blocks start end_ f) Q E s.
Proof.
  intros Hs He HI Hf HQ. apply (wp_block_loop start end_ _ I); try done.
  - intros k s' Hk Hlt HIk. rewrite (proj2 (Z.ltb_lt _ _)) by done. wp_steps. eapply wp_mono; [by apply Hf| |done]. intros [] s'' HI'. by wp_steps.
  - intros k s' Hk Hge HIk. rewrite (proj2 (Z.ltb_ge _ _)) by done. by wp_steps.
Qed.

(** ** The block map as a set *)

Definition marked (N : Z) (f : Z -> bool) (s : pmm) : Prop :=
  pmm_wf s /\ block_map_size s = N /\ forall c, 0 <= c < N -> used s c = f c.

Definition mark (v : bool) (g : Z -> bool) (f : Z -> bool) (c : Z) : bool := if g c then v else f c.

Lemma mark_true g f c : mark true g f c = g c || f c.
Proof. unfold mark. by destruct (g c). Qed.

Lemma marked_ext N f f' s : (forall c, 0 <= c < N -> f c = f' c) -> marked N f s -> marked N f' s.
Proof. intros Hf (H1 & H2 & H3). split; [done|]. split; [done|]. intros c Hc. by rewrite H3, Hf. Qed.

Lemma wp_mark_one (v : bool) N f s b (Q : unit -> pmm -> Prop) E : marked N f s -> 0 <= b < N ->
  (forall s', marked N (mark v (fun c => c =? b) f) s' -> Q tt s') ->
  wp ((if v then pmm_set_block else pmm_unset_block) b) Q E s.
Proof.
  intros (Hwf & HN & Hu) Hb HQ.
  assert (wp ((if v then pmm_set_block else pmm_unset_block) b) (fun _ s' => b < block_map_size s /\ mark_range s v b 1 s') (asserts (b < block_map_size s)) s) as Hw.
  { destruct v; [apply wp_set_block|apply wp_unset_block]; try done; lia. }
  eapply wp_mono; [exact Hw| |].
  - intros [] s' [_ [W1 W2 _ W4]]. apply HQ. split; [done|]. split; [congruence|]. intros c Hc. rewrite W4 by lia. unfold mark. rewrite Hu by done.
    by replace ((b <=? c) && (c <? b + 1)) with (c =? b) by lia.
  - intros e [_ Hn]. lia.
Qed.

(** A loop that marks block [(off + i) / 4096] in every round. *)
Lemma wp_mark_blocks (v : bool) N f s start end_ off (op : Z -> M pmm unit) (Q : unit -> pmm -> Prop) E :
  marked N f s -> 0 <= start < 2 ^ 32 -> end_ <= 2 ^ 32 - 4096 -> 0 <= off -> off + end_ <= N * 4096 ->
  (forall i, start <= i < end_ -> op i = (if v then pmm_set_block else pmm_unset_block) ((off + i) / 4096)) ->
  (forall s', marked N (mark v (in_blocks (off + start) (off + end_)) f) s' -> Q tt s') ->
  wp (for_blocks start end_ op) Q E s.
Proof.
  intros Hm Hs He Hoff Hn Hop HQ.
  assert (count_blocks (off + start) (off + end_) = count_blocks start end_) as Hcb by (unfold count_blocks; f_equal; lia).
  apply (wp_for_blocks start end_ op (fun k => marked N (mark v (fun c => ((off + start) / 4096 <=? c) && (c <? (off + start) / 4096 + k)) f))); [done|done| | |].
  - eapply marked_ext; [|exact Hm]. intros c Hc. unfold mark. by replace (_ && _) with false by lia.
  - intros k s' Hk Hlt Hmk. rewrite Hop by lia. replace (off + (start + k * 4096)) with (off + start + k * 4096) by lia. rewrite block_step.
    apply (wp_mark_one v N _ s' _ _ _ Hmk).
    + split; [|]. { pose proof (Z.div_pos (off + start) 4096). lia. } pose proof (Z.div_mod (off + start) 4096 ltac:(lia)). pose proof (Z.mod_pos_bound (off + start) 4096 ltac:(lia)). lia.
    + intros s'' Hm'. eapply marked_ext; [|exact Hm']. intros c Hc. unfold mark.
      destruct (Z.eqb_spec c ((off + start) / 4096 + k)) as [->|Hne].
      * by replace (_ && _) with true by lia.
      * by replace (((off + start) / 4096 <=? c) && (c <? (off + start) / 4096 + (k + 1))) with (((off + start) / 4096 <=? c) && (c <? (off + start) / 4096 + k)) by lia.
  - intros s' Hm'. apply HQ. eapply marked_ext; [|exact Hm']. intros c Hc. unfold mark, in_blocks. rewrite Hcb.
    destruct (Z.le_ge_cases 0 (count_blocks start end_)); [by rewrite Z.max_r by done|]. rewrite Z.max_l by lia.
    by replace (((off + start) / 4096 <=? c) && (c <? (off + start) / 4096 + count_blocks start end_)) with (((off + start) / 4096 <=? c) && (c <? (off + start) / 4096 + 0)) by lia.
Qed.

(** ** What the loader tells *)

Record mmap_entry : Type := MmapEntry { me_addr : Z; me_len : Z; me_type : Z }.

(** How much memory the entries tell of. *)
Definition entry_end (avail : Z) (e : mmap_entry) : Z :=
  let end_ := u32 (me_addr e + me_len e) in
  if (me_type e =? MULTIBOOT_MEMORY_AVAILABLE) && (avail <? end_) then end_ else avail.
Definition memory_end (es : list mmap_entry) : Z := foldl entry_end 0 es.

(** Block [c] holds a byte of an available entry below 2^32, in front of the
    first entry of type 0. *)
Fixpoint available (es : list mmap_entry) (c : Z) : bool :=
  match es with
  | [] => false
  | e :: es =>
      if me_type e =? MULTIBOOT_MEMORY_AVAILABLE
      then ((me_addr e / 2 ^ 32 =? 0) && in_blocks (me_addr e) (me_addr e + me_len e) c) || available es c
      else if me_type e =? 0 then false else available es c
  end.

Section loader.
Variable mem : Z -> Z.
Variable mbi_addr : Z.
Variable mbi : multiboot_info.
Variable sym : symbols.

Definition is_entry (m : Z) (e : mmap_entry) : Prop :=
  mmap_entry_addr mem m = me_addr e /\ mmap_len mem m = me_len e /\ mmap_type mem m = me_type e.

(** The entries from [m] to the end of the map. *)
Fixpoint holds_mmap (m : Z) (es : list mmap_entry) : Prop :=
  let end_ := mbi_mmap_addr mbi + mbi_mmap_length mbi in
  match es with
  | [] => end_ <= m
  | e :: es => m + 24 <= end_ /\ is_entry m e /\ 0 <= mmap_size mem m /\ m + mmap_size mem m + 4 < 2 ^ 32 /\ holds_mmap (m + mmap_size mem m + 4) es
  end.

Definition string_at (s n : Z) : Prop :=
  0 <= n < 2 ^ 20 /\ (forall k, 0 <= k < n -> mem (u32 (s + k)) <> 0) /\ mem (u32 (s + n)) = 0.

Definition n_mods : Z := if has_info mbi MULTIBOOT_INFO_MODS then mbi_mods_count mbi else 0.

(** The end of the kernel, its modules and their descriptions. *)
Fixpoint end_of (n : nat) : Z :=
  match n with
  | O => sym_end sym
  | S i => Z.max (Z.max (end_of i) (mod_at mbi (Z.of_nat i) + 16)) (mod_end mem mbi (Z.of_nat i))
  end.
Definition real_end : Z := (end_of (Z.to_nat n_mods) + 4095) / 4096 * 4096.

(** What the loader hands over lies in the memory it tells of, which ends at a
    block; the kernel, its modules and the part of the block map that is set
    aside fit into it. *)
Record loader_ok (es : list mmap_entry) (cmd_len name_len : Z) : Prop := LoaderOk {
  lo_map : has_info mbi MULTIBOOT_INFO_MEM_MAP = true /\ holds_mmap (mbi_mmap_addr mbi) es /\ 0 <= mbi_mmap_addr mbi /\
    0 <= mbi_mmap_length mbi /\ mbi_mmap_addr mbi + mbi_mmap_length mbi <= memory_end es;
  lo_memory : 2 ^ 17 <= memory_end es <= 2 ^ 32 - 2 ^ 13 /\ memory_end es mod 4096 = 0;
  lo_entries : Forall (fun e => me_type e = MULTIBOOT_MEMORY_AVAILABLE -> me_addr e / 2 ^ 32 = 0 ->
    0 <= me_addr e /\ 0 <= me_len e /\ me_addr e + me_len e <= memory_end es) es;
  lo_kernel : 0 <= sym_start sym < 2 ^ 32 /\ sym_start sym mod 4096 = 0 /\ 0 < sym_end sym /\ real_end + memory_end es / 4096 / 32 <= memory_end es;
  lo_mbi : 0 <= mbi_addr < memory_end es;
  lo_mods : 0 <= mbi_mods_addr mbi /\ 0 <= n_mods /\ mbi_mods_addr mbi + 16 * n_mods <= memory_end es /\
    forall i, 0 <= i < n_mods -> 0 <= mod_start mem mbi i <= mod_end mem mbi i /\ mod_end mem mbi i < memory_end es /\
      (mod_cmdline mem mbi i = 0 \/ exists n, string_at (mod_cmdline mem mbi i) n /\ n <= mod_cmdline mem mbi i < 2 ^ 32);
  lo_cmdline : has_info mbi MULTIBOOT_INFO_CMDLINE && negb (mbi_cmdline mbi =? 0) = true ->
    0 <= mbi_cmdline mbi /\ string_at (mbi_cmdline mbi) cmd_len /\ mbi_cmdline mbi + cmd_len <= memory_end es;
  lo_name : has_info mbi MULTIBOOT_INFO_BOOT_LOADER_NAME = true ->
    0 <= mbi_boot_loader_name mbi /\ string_at (mbi_boot_loader_name mbi) name_len /\ mbi_boot_loader_name mbi + name_len <= memory_end es;
}.

(** The addresses of what the loader tells and [kmain] reads: the
    [multiboot_info], the memory map, the list of modules and the strings. *)
Definition told (cmd_len name_len a : Z) : Prop :=
  mbi_addr <= a < mbi_addr + 116 \/
  mbi_mmap_addr mbi <= a < mbi_mmap_addr mbi + mbi_mmap_length mbi \/
  mbi_mods_addr mbi <= a < mbi_mods_addr mbi + 16 * n_mods \/
  (exists i n k, 0 <= i < n_mods /\ mod_cmdline mem mbi i <> 0 /\ string_at (mod_cmdline mem mbi i) n /\ 0 <= k <= n /\ a = u32 (mod_cmdline mem mbi i + k)) \/
  (has_info mbi MULTIBOOT_INFO_CMDLINE && negb (mbi_cmdline mbi =? 0) = true /\ exists k, 0 <= k <= cmd_len /\ a = u32 (mbi_cmdline mbi + k)) \/
  (has_info mbi MULTIBOOT_INFO_BOOT_LOADER_NAME = true /\ exists k, 0 <= k <= name_len /\ a = u32 (mbi_boot_loader_name mbi + k)).

(** The blocks of a module: its entry of the list and its bytes. *)
Definition module_block (c i : Z) : bool :=
  (c =? mod_at mbi i / 4096) || in_blocks (mod_start mem mbi i) (mod_end mem mbi i + 1) c.

(** The blocks that [kmain] sets aside; of the block map only the first
    quarter. *)
Definition reserved (N cmd_len name_len c : Z) : bool :=
  in_blocks (sym_start sym) real_end c || in_blocks real_end (real_end + N / 32) c || (c =? 0) || (c =? mbi_addr / 4096) ||
  (has_info mbi MULTIBOOT_INFO_CMDLINE && negb (mbi_cmdline mbi =? 0) && in_blocks (mbi_cmdline mbi) (mbi_cmdline mbi + cmd_len) c) ||
  existsb (module_block c) (seqZ 0 n_mods) ||
  in_blocks (mbi_mmap_addr mbi) (mbi_mmap_addr mbi + mbi_mmap_length mbi) c ||
  (has_info mbi MULTIBOOT_INFO_BOOT_LOADER_NAME && in_blocks (mbi_boot_loader_name mbi) (mbi_boot_loader_name mbi + name_len) c).

(** Nothing of that is overwritten: the block map lies in the block that is set
    aside for it (so there are at most 2^15 blocks, 128 MB), what the loader
    tells does not lie where [pmm_init] fills the memory, and lies in blocks
    that are set aside. *)
Record undisturbed (N cmd_len name_len : Z) : Prop := Undisturbed {
  ud_map : N <= 2 ^ 15;
  ud_filled : forall a, told cmd_len name_len a -> ~ (real_end <= a < real_end + N);
  ud_aside : forall a, told cmd_len name_len a -> reserved N cmd_len name_len (a / 4096) = true;
}.

(** ** Walking the loader's structures *)

Lemma wp_for_mmap {St A} (f : Z -> A -> M St (A + A)) (I : list mmap_entry -> A -> St -> Prop) (Q : A -> St -> Prop) E es a s :
  holds_mmap (mbi_mmap_addr mbi) es -> 0 <= mbi_mmap_addr mbi -> 0 <= mbi_mmap_length mbi -> mbi_mmap_addr mbi + mbi_mmap_length mbi < 2 ^ 32 ->
  I es a s ->
  (forall m e es' a s, is_entry m e -> e ∈ es -> I (e :: es') a s ->
    wp (f m a) (fun r s' => match r with inl a' => I es' a' s' | inr a' => Q a' s' end) E s) ->
  (forall a s, I [] a s -> Q a s) -> wp (for_mmap mem mbi f a) Q E s.
Proof.
  intros Hes Ha0 Hl0 Hend HI Hf HQ. unfold for_mmap. rewrite u32_small by (unfold is_u32; lia).
  apply (wp_loop (fun x s => exists es', holds_mmap x.1 es' /\ mbi_mmap_addr mbi <= x.1 /\ (forall e, e ∈ es' -> e ∈ es) /\ I es' x.2 s)
    (fun x _ => Z.to_nat (mbi_mmap_addr mbi + mbi_mmap_length mbi - x.1))).
  - intros [m b] s' (es' & Hm & Hge & Hin & HIb). cbn [fst snd] in *. destruct es' as [|e es']; cbn [holds_mmap] in Hm.
    + rewrite (proj2 (Z.ltb_ge _ _)) by lia. wp_steps. by apply HQ.
    + destruct Hm as (Hlt & He & Hs1 & Hs2 & Hrest). rewrite (proj2 (Z.ltb_lt _ _)) by lia. wp_steps.
      eapply wp_mono; [apply (Hf m e es'); [done|set_solver|done]| |done]. intros [b'|b'] s'' HI'; wp_steps; [|done].
      cbn [fst snd]. rewrite u32_small by (unfold is_u32; lia). split; [|lia]. exists es'. split; [done|]. split; [lia|]. split; [set_solver|done].
  - exists es. split; [done|]. split; [done|]. by split.
  - cbn [fst]. lia.
Qed.

Lemma wp_loader_strlen {St} s n (Q : Z -> St -> Prop) E st : string_at s n -> Q n st -> wp (strlen mem s) Q E st.
Proof.
  intros (Hn & Hc & Hz) HQ. unfold strlen.
  apply (wp_loop (fun k s' => s' = st /\ 0 <= k <= n) (fun k _ => Z.to_nat (n - k))).
  - intros k s' [-> Hk]. destruct (decide (k = n)) as [->|Hne].
    + rewrite Hz. wp_steps. done.
    + rewrite (proj2 (Z.eqb_neq _ _)) by (apply Hc; lia). wp_steps. split; [split; [done|lia]|lia].
  - split; [done|lia].
  - lia.
Qed.

Lemma wp_module_end {St} i e (Q : Z -> St -> Prop) E s : mod_start mem mbi i <= mod_end mem mbi i -> u32 (mod_at mbi i + 16) = mod_at mbi i + 16 ->
  Q (Z.max (Z.max e (mod_at mbi i + 16)) (mod_end mem mbi i)) s -> wp (module_end mem mbi i e) Q E s.
Proof.
  intros Hm Hu HQ. unfold module_end. rewrite (proj2 (Z.leb_le _ _)) by done. cbn [kassert]. wp_steps. rewrite Hu.
  replace (if _ <? mod_end mem mbi i then _ else _) with (Z.max (Z.max e (mod_at mbi i + 16)) (mod_end mem mbi i)); [done|].
  destruct (Z.ltb_spec e (mod_at mbi i + 16)); match goal with |- context [?a <? mod_end mem mbi i] => destruct (Z.ltb_spec a (mod_end mem mbi i)) end; lia.
Qed.

Lemma land_page x : is_u32 x -> Z.land x 0xFFFFF000 = x / 4096 * 4096.
Proof.
  intros Hx. assert (Z.land x 0xFFFFF000 = Z.ldiff x (Z.ones 12)) as ->.
  { apply Z.bits_inj'. intros k Hk. rewrite Z.land_spec, Z.ldiff_spec, Z.testbit_ones_nonneg by lia.
    change 0xFFFFF000 with (Z.shiftl (Z.ones 20) 12). rewrite Z.shiftl_spec by lia.
    destruct (Z.ltb_spec k 12); cbn [negb].
    - rewrite (Z.testbit_neg_r (Z.ones 20)) by lia. by rewrite !andb_false_r.
    - rewrite Z.testbit_ones_nonneg by lia. destruct (Z.ltb_spec (k - 12) 20); [done|]. rewrite andb_false_r, andb_true_r. symmetry.
      apply (bits_bounded 32 x); [lia|exact Hx|lia]. }
  rewrite Z.ldiff_ones_r, Z.shiftr_div_pow2, Z.shiftl_mul_pow2 by lia. done.
Qed.

Lemma mod_at_small es cmd_len name_len i : loader_ok es cmd_len name_len -> 0 <= i < n_mods ->
  mod_at mbi i = mbi_mods_addr mbi + 16 * i /\ u32 (mod_at mbi i + 16) = mod_at mbi i + 16 /\ mod_at mbi i + 16 <= memory_end es.
Proof.
  intros Hok Hi. destruct (lo_mods _ _ _ Hok) as (H1 & H2 & H3 & _). destruct (lo_memory _ _ _ Hok) as [Hm _].
  unfold mod_at. rewrite u32_small by (unfold is_u32; lia). split; [done|]. split; [|lia]. apply u32_small. unfold is_u32. lia.
Qed.

Lemma end_of_range es cmd_len name_len n : loader_ok es cmd_len name_len -> Z.of_nat n <= n_mods -> sym_end sym <= memory_end es ->
  0 < end_of n <= memory_end es.
Proof.
  intros Hok. destruct (lo_kernel _ _ _ Hok) as (_ & _ & He & _). destruct (lo_mods _ _ _ Hok) as (_ & _ & _ & Hm).
  induction n as [|n IH]; intros Hn Hs; cbn [end_of]; [lia|].
  destruct (mod_at_small es cmd_len name_len (Z.of_nat n) Hok ltac:(lia)) as (_ & _ & H1). destruct (Hm (Z.of_nat n) ltac:(lia)) as (_ & H2 & _).
  specialize (IH ltac:(lia) Hs). lia.
Qed.

Lemma end_of_mono n : end_of n >= sym_end sym.
Proof. induction n as [|n IH]; cbn [end_of]; lia. Qed.

Lemma real_end_range es cmd_len name_len : loader_ok es cmd_len name_len -> 0 < end_of (Z.to_nat n_mods) <= real_end /\ real_end <= memory_end es.
Proof.
  intros Hok. destruct (lo_kernel _ _ _ Hok) as (_ & _ & He & Hr). pose proof (end_of_mono (Z.to_nat n_mods)). destruct (lo_memory _ _ _ Hok) as [Hm _].
  assert (0 <= memory_end es / 4096 / 32) by (apply Z.div_pos; [apply Z.div_pos|]; lia).
  unfold real_end in *. pose proof (Z.div_mod (end_of (Z.to_nat n_mods) + 4095) 4096 ltac:(lia)).
  pose proof (Z.mod_pos_bound (end_of (Z.to_nat n_mods) + 4095) 4096 ltac:(lia)). lia.
Qed.

Lemma wp_kernel_end {St} es cmd_len name_len (Q : Z -> St -> Prop) E s : loader_ok es cmd_len name_len -> Q real_end s -> wp (kernel_end mem mbi sym) Q E s.
Proof.
  intros Hok HQ. destruct (lo_mods _ _ _ Hok) as (_ & _ & _ & Hm). destruct (real_end_range _ _ _ Hok) as [H1 H2]. destruct (lo_memory _ _ _ Hok) as [H3 _].
  assert (wp (if has_info mbi MULTIBOOT_INFO_MODS && (0 <? mbi_mods_count mbi)
    then for_fold (Z.to_nat (mbi_mods_count mbi)) 0 (sym_end sym) (module_end mem mbi) else ret (sym_end sym))
    (fun r s' => r = end_of (Z.to_nat n_mods) /\ s' = s) E s) as Hw.
  { unfold n_mods in *. destruct (has_info mbi MULTIBOOT_INFO_MODS) eqn:Hh; cbn [andb]; [|by wp_steps].
    destruct (Z.ltb_spec 0 (mbi_mods_count mbi)); [|rewrite Z2Nat.nonpos by lia; by wp_steps].
    eapply wp_mono; [apply (wp_for_fold (fun i e s' => 0 <= i /\ e = end_of (Z.to_nat i) /\ s' = s))| |done].
    - done.
    - intros i e s' Hi (_ & -> & ->). rewrite Z2Nat.id in Hi by lia. destruct (mod_at_small es cmd_len name_len i Hok) as (_ & Hu & _).
      { unfold n_mods. rewrite Hh. lia. }
      apply wp_module_end; [apply Hm; lia|done|]. replace (Z.to_nat (i + 1)) with (S (Z.to_nat i)) by lia. cbn [end_of]. rewrite Z2Nat.id by lia. split; [lia|done].
    - intros e s' (_ & -> & ->). by replace (Z.to_nat (0 + Z.of_nat (Z.to_nat (mbi_mods_count mbi)))) with (Z.to_nat (mbi_mods_count mbi)) by lia. }
  unfold kernel_end. wp_apply Hw; [|done]. intros r s' [-> ->]. wp_steps. pose proof (Z.div_mod (end_of (Z.to_nat n_mods) + 4095) 4096 ltac:(lia)).
  pose proof (Z.mod_pos_bound (end_of (Z.to_nat n_mods) + 4095) 4096 ltac:(lia)). unfold real_end in *. change 0xFFF with 4095.
  assert (is_u32 (end_of (Z.to_nat n_mods) + 4095)) as Hu.
  { unfold is_u32. lia. }
  rewrite u32_small by done. by rewrite land_page.
Qed.

Lemma wp_memory_available {St} es cmd_len name_len (Q : Z -> St -> Prop) E s : loader_ok es cmd_len name_len -> Q (memory_end es) s -> wp (memory_available mem mbi) Q E s.
Proof.
  intros Hok HQ. destruct (lo_map _ _ _ Hok) as (Hf & Hh & H1 & H2 & H3). destruct (lo_memory _ _ _ Hok) as [H4 _]. unfold memory_available. rewrite Hf. wp_steps.
  apply (wp_for_mmap _ (fun es' a s' => foldl entry_end a es' = memory_end es /\ s' = s) _ E es); try done; [lia| |].
  - intros m e es' a s' (E1 & E2 & E3) _ [Hfold ->]. wp_steps. split; [|done]. rewrite <- Hfold. cbn [foldl]. unfold entry_end at 3. by rewrite E1, E2, E3.
  - intros a s' [Ha ->]. cbn [foldl] in Ha. subst a. wp_steps. rewrite (proj2 (Z.eqb_neq _ _)) by lia. done.
Qed.

(** ** Freeing what is available *)

Fixpoint free_after (f : Z -> bool) (es : list mmap_entry) : Z -> bool :=
  match es with
  | [] => f
  | e :: es =>
      if me_type e =? MULTIBOOT_MEMORY_AVAILABLE
      then free_after (if me_addr e / 2 ^ 32 =? 0 then mark false (in_blocks (me_addr e) (me_addr e + me_len e)) f else f) es
      else if me_type e =? 0 then f else free_after f es
  end.

Lemma free_after_spec f es c : free_after f es c = f c && negb (available es c).
Proof.
  revert f. induction es as [|e es IH]; intros f; cbn [free_after available]; [by rewrite andb_true_r|].
  destruct (me_type e =? MULTIBOOT_MEMORY_AVAILABLE); [|destruct (me_type e =? 0); [by rewrite andb_true_r|apply IH]].
  rewrite IH. destruct (me_addr e / 2 ^ 32 =? 0); cbn [andb orb]; [|done]. unfold mark.
  destruct (in_blocks _ _ c); cbn [orb negb andb]; [by rewrite andb_false_r|done].
Qed.

Lemma wp_free_available N es cmd_len name_len s (Q : unit -> pmm -> Prop) E : loader_ok es cmd_len name_len -> N * 4096 = memory_end es -> marked N (fun _ => true) s ->
  (forall s', marked N (fun c => negb (available es c)) s' -> Q tt s') -> wp (free_available mem mbi) Q E s.
Proof.
  intros Hok HN Hm HQ. destruct (lo_map _ _ _ Hok) as (Hf & Hh & H1 & H2 & H3). destruct (lo_memory _ _ _ Hok) as [H4 H5]. unfold free_available. rewrite Hf.
  pose proof (lo_entries _ _ _ Hok) as Hes. rewrite Forall_forall in Hes.
  assert (forall f s', (forall c, f c = free_after (fun _ => true) es c) -> marked N f s' -> Q tt s') as HQ'.
  { intros f s' Hfa Hm'. apply HQ. eapply marked_ext; [|exact Hm']. intros c _. rewrite Hfa. by rewrite free_after_spec. }
  apply (wp_for_mmap _ (fun es' _ s' => exists f, (forall c, free_after f es' c = free_after (fun _ => true) es c) /\ marked N f s') _ E es); try done; [lia| | |].
  - by eexists.
  - intros m e es' [] s' (E1 & E2 & E3) Hin (f & Hfa & Hmf). rewrite E3. cbn [free_after] in Hfa. destruct (Z.eqb_spec (me_type e) MULTIBOOT_MEMORY_AVAILABLE) as [Ht|Ht].
    + rewrite E1. destruct (Z.eqb_spec (me_addr e / 2 ^ 32) 0) as [Ha|Ha]; cbn [negb]; wp_steps; [|by exists f].
      destruct (Hes e Hin Ht Ha) as (A1 & A2 & A3). rewrite E2. unfold free_entry.
      apply (wp_mark_blocks false N f s' 0 (me_len e) (me_addr e)); [done|lia|lia|done|lia| |].
      * intros i Hi. rewrite u32_small; [done|]. unfold is_u32, BLOCK_SIZE. split; [apply Z.div_pos; lia|apply Z.div_lt_upper_bound; lia].
      * intros s'' Hm''. wp_steps. exists (mark false (in_blocks (me_addr e) (me_addr e + me_len e)) f). rewrite Z.add_0_r in Hm''. done.
    + destruct (Z.eqb_spec (me_type e) 0) as [H0|H0]; wp_steps; [by apply (HQ' f)|by exists f].
  - intros [] s' (f & Hfa & Hmf). by apply (HQ' f).
Qed.

(** ** Setting aside what is in use *)

Lemma wp_set_blocks N f s start end_ (Q : unit -> pmm -> Prop) E : marked N f s -> 0 <= start < 2 ^ 32 -> end_ <= 2 ^ 32 - 4096 -> end_ <= N * 4096 ->
  (forall s', marked N (mark true (in_blocks start end_) f) s' -> Q tt s') -> wp (for_blocks start end_ set_block) Q E s.
Proof. intros Hm Hs He Hn HQ. by apply (wp_mark_blocks true N f s start end_ 0). Qed.

Lemma wp_set_block_at N f s a (Q : unit -> pmm -> Prop) E : marked N f s -> 0 <= a < N * 4096 ->
  (forall s', marked N (mark true (fun c => c =? a / 4096) f) s' -> Q tt s') -> wp (set_block a) Q E s.
Proof.
  intros Hm Ha HQ. apply (wp_mark_one true N f s (a / 4096)); [done| |done].
  split; [apply Z.div_pos; lia|apply Z.div_lt_upper_bound; lia].
Qed.

Lemma wp_set_string N f s a n (Q : unit -> pmm -> Prop) E : marked N f s -> 0 <= a -> string_at a n -> a + n <= N * 4096 -> N * 4096 <= 2 ^ 32 - 2 ^ 13 ->
  (forall s', marked N (mark true (in_blocks a (a + n)) f) s' -> Q tt s') -> wp (set_string mem a) Q E s.
Proof.
  intros Hm Ha Hstr Hn HN HQ. pose proof Hstr as (Hn0 & _). unfold set_string. wp_steps. apply (wp_loader_strlen a n); [done|]. wp_steps.
  rewrite u32_small by (unfold is_u32; lia). apply (wp_set_blocks N f); try done; lia.
Qed.

Section set_aside.
Variables (es : list mmap_entry) (cmd_len name_len N : Z).
Hypothesis Hok : loader_ok es cmd_len name_len.
Hypothesis HN : N * 4096 = memory_end es.

Lemma memory_bound : 32 <= N /\ N * 4096 <= 2 ^ 32 - 2 ^ 13.
Proof.
  destruct (lo_memory _ _ _ Hok) as [H1 H2]. rewrite <- HN in *. lia.
Qed.

Lemma wp_set_module f s i (Q : unit -> pmm -> Prop) E : marked N f s -> 0 <= i < n_mods ->
  (forall s', marked N (mark true (fun c => module_block c i) f) s' -> Q tt s') -> wp (set_module mem mbi i) Q E s.
Proof.
  intros Hm Hi HQ. destruct memory_bound as [HN1 HN2]. destruct (lo_mods _ _ _ Hok) as (H1 & H2 & H3 & H4). destruct (H4 i Hi) as ([H5 H6] & H7 & H8).
  destruct (mod_at_small es cmd_len name_len i Hok Hi) as (H9 & H10 & H11). unfold set_module. wp_steps.
  apply (wp_set_block_at N f); [done|lia|]. intros s1 Hm1.
  assert (forall s' f', marked N f' s' -> (forall c, f' c = mark true (fun c => c =? mod_at mbi i / 4096) f c) ->
    wp (kassert (mod_start mem mbi i <=? mod_end mem mbi i)) (fun _ s'' => wp (for_blocks (mod_start mem mbi i) (mod_end mem mbi i + 1) set_block) Q E s'') E s') as Hrest.
  { intros s' f' Hm' Hf'. rewrite (proj2 (Z.leb_le _ _)) by done. cbn [kassert]. wp_steps. apply (wp_set_blocks N f'); [done|lia|lia|lia|].
    intros s'' Hm''. apply HQ. eapply marked_ext; [|exact Hm'']. intros c Hc. unfold mark at 1. rewrite Hf'. unfold mark, module_block.
    destruct (c =? mod_at mbi i / 4096); cbn [orb]; [by destruct (in_blocks _ _ c)|done]. }
  destruct H8 as [H8|(n & Hstr & Hn)].
  - rewrite H8. change (negb (0 =? 0)) with false. cbv iota. wp_steps. by eapply Hrest.
  - destruct (Z.eqb_spec (mod_cmdline mem mbi i) 0) as [Hz|Hnz]; cbn [negb]; wp_steps; [by eapply Hrest|].
    pose proof Hstr as ([Hn0 Hn1] & _). apply (wp_loader_strlen _ n); [done|]. wp_steps. eapply (wp_for_blocks _ _ _ (fun k s' => s' = s1)); [lia|lia|done| |].
    + intros k s' Hk Hlt ->. lia.
    + intros s' ->. apply wp_bind. by eapply Hrest.
Qed.

Lemma existsb_snoc {A} (p : A -> bool) l x : existsb p (l ++ [x]) = existsb p l || p x.
Proof. rewrite existsb_app. cbn. by rewrite orb_false_r. Qed.

Lemma wp_set_modules f s (Q : unit -> pmm -> Prop) E : marked N f s ->
  (forall s', marked N (mark true (fun c => existsb (module_block c) (seqZ 0 n_mods)) f) s' -> Q tt s') ->
  wp (if has_info mbi MULTIBOOT_INFO_MODS then for_up (Z.to_nat (mbi_mods_count mbi)) 0 (set_module mem mbi) else ret tt) Q E s.
Proof.
  intros Hm HQ. assert (wp (for_up (Z.to_nat n_mods) 0 (set_module mem mbi)) Q E s) as Hw.
  { eapply wp_mono; [apply (wp_for_up (fun i s' => 0 <= i /\ marked N (mark true (fun c => existsb (module_block c) (seqZ 0 i)) f) s'))| |done].
    - split; [done|]. eapply marked_ext; [|exact Hm]. done.
    - intros i s' Hi [_ Hm']. apply (wp_set_module (mark true (fun c => existsb (module_block c) (seqZ 0 i)) f)); [done| |].
      { destruct (lo_mods _ _ _ Hok) as (_ & H2 & _). lia. }
      intros s'' Hm''. split; [lia|]. eapply marked_ext; [|exact Hm'']. intros c Hc. unfold mark.
      rewrite seqZ_app by lia. change (seqZ (0 + i) 1) with [0 + i]. rewrite existsb_snoc, Z.add_0_l.
      destruct (existsb _ _), (module_block c i); done.
    - intros [] s' [_ Hm']. apply HQ. destruct (lo_mods _ _ _ Hok) as (_ & H2 & _). by rewrite Z.add_0_l, Z2Nat.id in Hm' by lia. }
  unfold n_mods in Hw. destruct (has_info mbi MULTIBOOT_INFO_MODS); [done|]. exact Hw.
Qed.

Lemma wp_reserve f s (Q : unit -> pmm -> Prop) E : marked N f s ->
  (forall s', marked N (fun c => reserved N cmd_len name_len c || f c) s' -> Q tt s') -> wp (reserve mem mbi_addr mbi sym real_end real_end) Q E s.
Proof.
  intros Hm HQ. destruct memory_bound as [HN1 HN2]. destruct (lo_kernel _ _ _ Hok) as (K1 & K2 & K3 & K4). destruct (real_end_range _ _ _ Hok) as [R1 R2].
  pose proof (lo_mbi _ _ _ Hok) as M1. destruct (lo_map _ _ _ Hok) as (Hf & _ & P1 & P2 & P3).
  rewrite <- HN in *. rewrite Z.div_mul in K4 by lia. assert (0 <= N / 32) by (apply Z.div_pos; lia).
  unfold reserve. change 0xFFF with (Z.ones 12). rewrite Z.land_ones by lia. change (2 ^ 12) with 4096. rewrite K2. change (0 =? 0) with true. cbn [kassert]. wp_steps.
  apply (wp_set_blocks N f); [done|lia|lia|lia|]. intros s1 Hm1. wp_steps.
  pose proof Hm1 as (_ & Hsz & _). rewrite Hsz.
  eapply (wp_mark_blocks true N _ s1 0 (N / 32) real_end); [exact Hm1|lia|lia|lia|lia| |].
  { intros i Hi. unfold set_block. by rewrite u32_small by (unfold is_u32; lia). }
  rewrite Z.add_0_r. intros s2 Hm2. wp_steps.
  apply (wp_mark_one true N _ s2 0 _ _ Hm2); [lia|]. intros s3 Hm3. wp_steps.
  apply (wp_set_block_at N _ s3 mbi_addr _ _ Hm3); [lia|]. intros s4 Hm4. wp_steps.
  assert (forall b a n g s' (R : unit -> pmm -> Prop), (b = true -> 0 <= a /\ string_at a n /\ a + n <= N * 4096) -> marked N g s' ->
    (forall s'', marked N (mark true (fun c => b && in_blocks a (a + n) c) g) s'' -> R tt s'') -> wp (if b : bool then set_string mem a else ret tt) R E s') as Hstring.
  { intros b a n g s' R Hb Hg HR. destruct b.
    - destruct (Hb eq_refl) as (B1 & B2 & B3). by apply (wp_set_string N g s' a n).
    - wp_steps. apply HR. eapply marked_ext; [|exact Hg]. done. }
  eapply Hstring; [rewrite HN; apply (lo_cmdline _ _ _ Hok)|exact Hm4|]. intros s5 Hm5. wp_steps.
  apply (wp_set_modules _ s5 _ _ Hm5). intros s6 Hm6. wp_steps. rewrite Hf. rewrite u32_small by (unfold is_u32; lia).
  eapply (wp_set_blocks N _ s6 _ _ _ _ Hm6); [lia|lia|lia|]. intros s7 Hm7. wp_steps.
  eapply Hstring; [rewrite HN; apply (lo_name _ _ _ Hok)|exact Hm7|]. intros s8 Hm8. apply HQ.
  eapply marked_ext; [|exact Hm8]. intros c Hc. rewrite !mark_true. unfold reserved. btauto.
Qed.
End set_aside.

(** ** Pages *)

(** The first page, their number and the flags. *)
Definition region : Type := Z * Z * Z.

Definition in_region (r : region) (q : Z) : bool := (r.1.1 <=? q) && (q <? r.1.1 + r.1.2).
Definition put_region (P : Z -> Z) (r : region) : Z -> Z := fun q => if in_region r q then Z.lor (q * 4096) r.2 else P q.

(** Where [map_pages] ends. *)
Definition map_end (e : Z) : Z := if e mod 1024 =? 0 then e else e / 1024 * 1024 + 4096.
Definition pages_region (r : Z * Z) (flags : Z) : region := (r.1 / 4096, count_blocks r.1 (map_end r.2), flags).
Definition blocks_region (start end_ : Z) : region := (start / 4096, count_blocks start end_, 3).

Definition module_regions (i : Z) : list region :=
  [blocks_region (mod_at mbi i) (mod_at mbi i + 1); pages_region (mod_start mem mbi i, mod_end mem mbi i) PAGE_PRESENT].

Definition loader_regions (cmd_len name_len : Z) : list region :=
  blocks_region mbi_addr (mbi_addr + 1) ::
  (if has_info mbi MULTIBOOT_INFO_CMDLINE && negb (mbi_cmdline mbi =? 0) then [blocks_region (mbi_cmdline mbi) (mbi_cmdline mbi + cmd_len)] else []) ++
  flat_map module_regions (seqZ 0 n_mods) ++
  [blocks_region (mbi_mmap_addr mbi) (mbi_mmap_addr mbi + mbi_mmap_length mbi)] ++
  (if has_info mbi MULTIBOOT_INFO_BOOT_LOADER_NAME then [blocks_region (mbi_boot_loader_name mbi) (mbi_boot_loader_name mbi + name_len)] else []).

Definition kernel_regions (N fb_start fb_size : Z) : list region :=
  [pages_region (sym_text sym) 1; pages_region (sym_data sym) 3; pages_region (sym_bss sym) 3; pages_region (sym_shared_data sym) 3;
   pages_region (sym_shared_text sym) 1; pages_region (sym_mod_info sym) 1; pages_region (real_end, real_end + N / 32) 3] ++
  (if negb (fb_start =? 0) && negb (fb_size =? 0) then [pages_region (fb_start, fb_start + fb_size) 3] else []).

(** The screen's memory. *)
Definition screen_place : option (Z * Z) :=
  if has_info mbi MULTIBOOT_INFO_FRAMEBUFFER_INFO && negb (mbi_framebuffer_addr mbi =? 0) then
    if bool_decide (mbi_framebuffer_type mbi ∈ [0; 1; 2])
    then Some (u32 (mbi_framebuffer_addr mbi), u32 ((mbi_framebuffer_height mbi + 1) * mbi_framebuffer_pitch mbi)) else None
  else Some (0xb8000, 4000).

Lemma wp_screen {St} p (Q : Z * Z -> St -> Prop) E s : screen_place = Some p -> Q p s -> wp (screen mbi) Q E s.
Proof.
  unfold screen_place, screen, MULTIBOOT_FRAMEBUFFER_TYPE_EGA_TEXT, MULTIBOOT_FRAMEBUFFER_TYPE_RGB, MULTIBOOT_FRAMEBUFFER_TYPE_INDEXED.
  destruct (_ && _).
  - case_bool_decide as Ht; [|done]. intros [= <-] HQ. assert ((mbi_framebuffer_type mbi =? 2) || (mbi_framebuffer_type mbi =? 1) || (mbi_framebuffer_type mbi =? 0) = true) as ->; [|by wp_steps].
    rewrite !elem_of_cons in Ht. destruct Ht as [-> |[-> |[-> |Ht]]]; [done|done|done|by apply elem_of_nil in Ht].
  - intros [= <-] HQ. by wp_steps.
Qed.

(** What the linker and the loader place where: page aligned, what is read
    only in front of the end of the kernel. *)
Definition writable_place (r : Z * Z) : Prop := 0 <= r.1 <= r.2 /\ r.1 mod 4096 = 0 /\ r.2 <= 2 ^ 32 - 2 ^ 13.
Definition fixed_place (r : Z * Z) : Prop := sym_start sym <= r.1 <= r.2 /\ r.1 mod 4096 = 0 /\ r.2 <= real_end.

Record linker_ok (fb_start fb_size : Z) : Prop := LinkerOk {
  lk_fixed : fixed_place (sym_text sym) /\ fixed_place (sym_shared_text sym) /\ fixed_place (sym_mod_info sym);
  lk_writable : writable_place (sym_data sym) /\ writable_place (sym_bss sym) /\ writable_place (sym_shared_data sym);
  lk_modules : forall i, 0 <= i < n_mods -> fixed_place (mod_start mem mbi i, mod_end mem mbi i);
  lk_screen : screen_place = Some (fb_start, fb_size) /\ writable_place (fb_start, fb_start + fb_size);
}.

Section mapping.
Context {H : Type} `{KHeapLaws H}.
Implicit Types (s : vstate pmm H).

Lemma boot_ext n P P' s : (forall q, 0 <= q < 2 ^ 20 -> P q = P' q) -> boot n P s -> boot n P' s.
Proof.
  intros HP Hb. split; try apply Hb. intros i k Hi Hk. pose proof (bt_n _ _ _ Hb). rewrite <- HP by lia. by apply (bt_entry _ _ _ Hb).
Qed.

(** Start-up maps [P] after the structures of [s0] stand. *)
Record mapping s0 (P : Z -> Z) s : Prop := Mapping {
  mp_boot : boot 1024 P s;
  mp_same : same_structures s0 s;
  mp_direct : forall q, direct_entry q (P q);
  mp_self : forall r, early 1024 r -> maps_itself P (frame s0 r);
}.

Lemma mapping_ext s0 P P' s : (forall q, P q = P' q) -> mapping s0 P s -> mapping s0 P' s.
Proof.
  intros HP [M1 M2 M3 M4]. split; [eapply boot_ext; [|exact M1]; intros q _; apply HP|done| |].
  - intros q. by rewrite <- HP.
  - intros r Hr. unfold maps_itself. rewrite <- HP. by apply M4.
Qed.

(** A region that keeps the structures' pages writable. *)
Definition harmless s0 (r : region) : Prop := r.2 = 3 \/ r.2 = 1 /\ forall x, early 1024 x -> in_region r (frame s0 x) = false.

Lemma put_one_more P p k fl q : 0 <= k -> put_region P (p, k + 1, fl) q = <[p + k := Z.lor ((p + k) * 4096) fl]> (put_region P (p, k, fl)) q.
Proof.
  intros Hk. unfold put_region, in_region. cbn [fst snd]. destruct (decide (p + k = q)) as [<-|Hne].
  - rewrite fn_lookup_insert. by replace ((p <=? p + k) && _) with true by lia.
  - rewrite fn_lookup_insert_ne by done. by replace ((p <=? q) && (q <? p + (k + 1))) with ((p <=? q) && (q <? p + k)) by lia.
Qed.

(** Pages are entered one by one, each at its own address. *)
Lemma mapping_step s0 P s p k fl s' : harmless s0 (p, k + 1, fl) -> 0 <= k -> mapping s0 (put_region P (p, k, fl)) s ->
  boot 1024 (<[p + k := Z.lor ((p + k) * 4096) fl]> (put_region P (p, k, fl))) s' -> same_structures s s' -> mapping s0 (put_region P (p, k + 1, fl)) s'.
Proof.
  intros Hh Hk [M1 M2 M3 M4] Hb Hs. split.
  - eapply boot_ext; [|exact Hb]. intros q _. by rewrite put_one_more.
  - by eapply same_structures_trans.
  - intros q. rewrite put_one_more by done. destruct (decide (p + k = q)) as [<-|Hne].
    + rewrite fn_lookup_insert. right. exists fl. split; [|done]. destruct Hh as [Hh|[Hh _]]; cbn in Hh; lia.
    + rewrite fn_lookup_insert_ne by done. apply M3.
  - intros r Hr. unfold maps_itself. rewrite put_one_more by done. destruct (decide (p + k = frame s0 r)) as [Heq|Hne].
    + rewrite Heq, fn_lookup_insert. destruct Hh as [Hh|[_ Hh]]; cbn in Hh; [by subst fl|]. specialize (Hh r Hr). unfold in_region in Hh. cbn [fst snd] in Hh.
      exfalso. apply andb_false_iff in Hh as [Hh%Z.leb_gt|Hh%Z.ltb_ge]; lia.
    + rewrite fn_lookup_insert_ne by done. by apply M4.
Qed.

Lemma wp_map_block s0 P s p k (Q : unit -> vstate pmm H -> Prop) E i : mapping s0 (put_region P (p, k, 3)) s -> 0 <= k -> 0 <= p -> i / 4096 = p + k -> 0 <= i < 2 ^ 32 ->
  (forall s', mapping s0 (put_region P (p, k + 1, 3)) s' -> Q tt s') -> wp (map_block i) Q E s.
Proof.
  intros M Hk Hp Hi Hi2 HQ. unfold map_block. change 0xFFF with (Z.ones 12). rewrite Z.ldiff_ones_r, Z.shiftr_div_pow2, Z.shiftl_mul_pow2 by lia. change (2 ^ 12) with 4096.
  rewrite Hi. assert (p + k < 2 ^ 20) by (rewrite <- Hi; apply Z.div_lt_upper_bound; lia).
  eapply wp_mono; [apply (wp_map_direct_kernel (put_region P (p, k, 3)) s (p + k)); [apply M|lia|apply M]| |done]. intros [] s' [Hb Hs]. apply HQ.
  apply (mapping_step s0 P s p k 3 s'); try done. by left.
Qed.

Lemma put_none P p fl q : put_region P (p, 0, fl) q = P q.
Proof. unfold put_region, in_region. cbn [fst snd]. by replace ((p <=? q) && (q <? p + 0)) with false by lia. Qed.

Lemma put_max P p n fl q : put_region P (p, Z.max 0 n, fl) q = put_region P (p, n, fl) q.
Proof.
  unfold put_region, in_region. cbn [fst snd]. destruct (Z.le_ge_cases 0 n); [by rewrite Z.max_r by done|]. rewrite Z.max_l by lia.
  by replace ((p <=? q) && (q <? p + n)) with ((p <=? q) && (q <? p + 0)) by lia.
Qed.

Lemma wp_map_blocks s0 P s start end_ (Q : unit -> vstate pmm H -> Prop) E : mapping s0 P s -> 0 <= start < 2 ^ 32 -> end_ <= 2 ^ 32 - 4096 ->
  (forall s', mapping s0 (put_region P (blocks_region start end_)) s' -> Q tt s') -> wp (for_blocks start end_ map_block) Q E s.
Proof.
  intros M Hs He HQ. assert (0 <= start / 4096) by (apply Z.div_pos; lia).
  apply (wp_for_blocks start end_ map_block (fun k s' => mapping s0 (put_region P (start / 4096, k, 3)) s')); try done.
  - eapply mapping_ext; [|exact M]. intros q. by rewrite put_none.
  - intros k s' Hk Hlt Mk. apply (wp_map_block s0 P s' (start / 4096) k); try done; [apply block_step|lia].
  - intros s' M'. apply HQ. eapply mapping_ext; [|exact M']. intros q. apply put_max.
Qed.

Lemma wp_map_one s0 P s a (Q : unit -> vstate pmm H -> Prop) E : mapping s0 P s -> 0 <= a < 2 ^ 32 ->
  (forall s', mapping s0 (put_region P (blocks_region a (a + 1))) s' -> Q tt s') -> wp (map_block a) Q E s.
Proof.
  intros M Ha HQ. assert (0 <= a / 4096) by (apply Z.div_pos; lia). apply (wp_map_block s0 P s (a / 4096) 0); try done; [|lia|].
  - eapply mapping_ext; [|exact M]. intros q. by rewrite put_none.
  - intros s' M'. apply HQ. unfold blocks_region, count_blocks. replace (a + 1 - a + 4095) with 4096 by lia. exact M'.
Qed.

Lemma wp_map_pages s0 P s r fl (Q : unit -> vstate pmm H -> Prop) E : mapping s0 P s -> 0 <= r.1 < 2 ^ 32 -> r.1 mod 4096 = 0 -> 0 <= r.2 <= 2 ^ 32 - 2 ^ 13 ->
  harmless s0 (pages_region r fl) -> (forall s', mapping s0 (put_region P (pages_region r fl)) s' -> Q tt s') -> wp (map_pages r.1 r.2 fl) Q E s.
Proof.
  intros M Hs Ha He Hh HQ. unfold map_pages. change 0x3FF with (Z.ones 10). rewrite !Z.land_ones, !Z.ldiff_ones_r, !Z.shiftr_div_pow2, !Z.shiftl_mul_pow2 by lia. change (2 ^ 10) with 1024.
  assert (r.1 mod 1024 = 0) as ->.
  { pose proof (Z.div_mod r.1 4096 ltac:(lia)) as Hd. rewrite Ha in Hd. replace r.1 with (0 + r.1 / 4096 * 4 * 1024) by lia. by rewrite Z.mod_add by lia. }
  change (negb (0 =? 0)) with false. cbv iota.
  pose proof (Z.div_mod r.2 1024 ltac:(lia)) as Hd2. pose proof (Z.mod_pos_bound r.2 1024 ltac:(lia)) as Hm2.
  assert ((if negb (r.2 mod 1024 =? 0) then u32 (r.2 / 1024 * 1024 + BLOCK_SIZE) else r.2) = map_end r.2) as ->.
  { unfold map_end. destruct (Z.eqb_spec (r.2 mod 1024) 0); [done|]. cbn [negb]. apply u32_small. unfold is_u32, BLOCK_SIZE. lia. }
  assert (map_end r.2 <= 2 ^ 32 - 2 ^ 12) as Hme by (unfold map_end; destruct (_ =? 0); lia).
  assert (0 <= r.1 / 4096) by (apply Z.div_pos; lia). unfold kernel_directory. wp_steps.
  apply (wp_block_loop r.1 (map_end r.2) _ (fun k s' => k <= Z.max 0 (count_blocks r.1 (map_end r.2)) /\ mapping s0 (put_region P (r.1 / 4096, k, fl)) s')); try done.
  - split; [lia|]. eapply mapping_ext; [|exact M]. intros q. by rewrite put_none.
  - intros k s' Hk Hlt [Hkm Mk]. rewrite (proj2 (Z.ltb_lt _ _)) by done. wp_steps.
    assert (k < count_blocks r.1 (map_end r.2)) by (by apply count_blocks_spec).
    replace (r.1 + k * 4096) with ((r.1 / 4096 + k) * 4096) in * by (pose proof (Z.div_mod r.1 4096 ltac:(lia)); lia).
    pose proof (mp_boot _ _ _ Mk) as Hb. assert (v_kernel s = v_kernel s') as ->.
    { rewrite (proj1 (mp_same _ _ _ M)). by rewrite (proj1 (mp_same _ _ _ Mk)). }
    eapply (wp_early_table _ s' _ _ _ Hb); [lia|]. wp_steps.
    eapply wp_mono; [eapply (wp_early_map _ s' (r.1 / 4096 + k) _ fl _ Hb); lia| |done]. intros [] s'' [Hb' Hs']. wp_steps. split; [done|]. split; [lia|].
    apply (mapping_step s0 P s' (r.1 / 4096) k fl s''); try done.
    destruct Hh as [Hh|[Hh1 Hh2]]; [by left|right]. split; [done|]. intros x Hx. specialize (Hh2 x Hx). unfold in_region, pages_region in *. cbn [fst snd] in *. lia.
  - intros k s' Hk Hge Hm. rewrite (proj2 (Z.ltb_ge _ _)) by done. by wp_steps.
  - intros s' [_ M']. apply HQ. eapply mapping_ext; [|exact M']. intros q. apply put_max.
Qed.
End mapping.

(** ** Everything that is mapped *)

Section start.
Context {H : Type} `{KHeapLaws H}.
Implicit Types (s : vstate pmm H).
Variables (es : list mmap_entry) (cmd_len name_len N fb_start fb_size : Z).
Hypothesis Hok : loader_ok es cmd_len name_len.
Hypothesis HN : N * 4096 = memory_end es.
Hypothesis Hlk : linker_ok fb_start fb_size.

(** The structures lie in blocks that were not set aside. *)
Definition apart s0 : Prop := forall r, early 1024 r -> reserved N cmd_len name_len (frame s0 r) = false.

Lemma real_end_page : real_end mod 4096 = 0 /\ 0 < real_end /\ real_end + N / 32 <= N * 4096 /\ 1 <= N / 32.
Proof.
  destruct (memory_bound _ _ _ _ Hok HN) as [HN1 HN2]. destruct (lo_kernel _ _ _ Hok) as (_ & _ & _ & K4). destruct (real_end_range _ _ _ Hok) as [R1 R2].
  rewrite <- HN, Z.div_mul in K4 by lia. rewrite HN. rewrite <- HN. split; [apply Z.mod_mul; lia|]. split; [lia|]. split; [lia|]. apply Z.div_le_lower_bound; lia.
Qed.

Lemma fixed_writable r : fixed_place r -> writable_place r.
Proof.
  intros (F1 & F2 & F3). destruct (memory_bound _ _ _ _ Hok HN) as [HN1 HN2]. destruct real_end_page as (R1 & R2 & R3 & R4).
  destruct (lo_kernel _ _ _ Hok) as (K1 & _). pose proof (Z.div_mod real_end 4096 ltac:(lia)). split; [lia|]. split; [done|]. lia.
Qed.

(** What is mapped read only lies in blocks that were set aside. *)
Lemma fixed_reserved r q : fixed_place r -> in_region (pages_region r 1) q = true -> reserved N cmd_len name_len q = true.
Proof.
  intros (F1 & F2 & F3) Hq. destruct (lo_kernel _ _ _ Hok) as (K1 & K2 & _). destruct real_end_page as (R1 & R2 & R3 & R4).
  unfold in_region, pages_region in Hq. cbn [fst snd] in Hq. apply andb_true_iff in Hq as [Q1%Z.leb_le Q2%Z.ltb_lt].
  assert (q - r.1 / 4096 < count_blocks r.1 (map_end r.2)) as Hc by lia. apply count_blocks_spec in Hc; [|lia].
  pose proof (Z.div_mod r.1 4096 ltac:(lia)). pose proof (Z.div_mod (sym_start sym) 4096 ltac:(lia)). pose proof (Z.div_mod real_end 4096 ltac:(lia)).
  assert (q * 4096 < map_end r.2) as Hq2 by lia.
  assert (map_end r.2 < real_end + 4096) as Hme.
  { unfold map_end. destruct (Z.eqb_spec (r.2 mod 1024) 0); [lia|]. pose proof (Z.div_mod r.2 1024 ltac:(lia)). pose proof (Z.mod_pos_bound r.2 1024 ltac:(lia)).
    assert (r.2 <> real_end); [|lia]. intros Heq. rewrite Heq in *. assert (real_end mod 1024 = 0); [|lia].
    replace real_end with (0 + real_end / 4096 * 4 * 1024) by lia. by rewrite Z.mod_add by lia. }
  assert (in_blocks (sym_start sym) real_end q || in_blocks real_end (real_end + N / 32) q = true) as Hin; [|unfold reserved; by rewrite Hin].
  apply orb_true_iff. destruct (Z.lt_ge_cases q (real_end / 4096)); [left|right]; unfold in_blocks; apply andb_true_iff; (split; [apply Z.leb_le; lia|apply Z.ltb_lt]).
  - assert (q - sym_start sym / 4096 < count_blocks (sym_start sym) real_end); [|lia]. apply count_blocks_spec; lia.
  - assert (q - real_end / 4096 < count_blocks real_end (real_end + N / 32)); [|lia]. apply count_blocks_spec; lia.
Qed.

Lemma fixed_harmless s0 r : apart s0 -> fixed_place r -> harmless s0 (pages_region r 1).
Proof.
  intros Ha Hr. right. split; [done|]. intros x Hx. destruct (in_region _ _) eqn:Hin; [|done]. apply (fixed_reserved _ _ Hr) in Hin. by rewrite Ha in Hin.
Qed.

Lemma wp_map_fixed s0 P s r (Q : unit -> vstate pmm H -> Prop) E : apart s0 -> mapping s0 P s -> fixed_place r ->
  (forall s', mapping s0 (put_region P (pages_region r 1)) s' -> Q tt s') -> wp (map_pages r.1 r.2 1) Q E s.
Proof.
  intros Ha M Hr HQ. destruct (fixed_writable r Hr) as (W1 & W2 & W3). apply (wp_map_pages s0 P); try done; [lia|lia|by apply fixed_harmless].
Qed.

Lemma wp_map_writable s0 P s r (Q : unit -> vstate pmm H -> Prop) E : mapping s0 P s -> writable_place r ->
  (forall s', mapping s0 (put_region P (pages_region r 3)) s' -> Q tt s') -> wp (map_pages r.1 r.2 3) Q E s.
Proof. intros M (W1 & W2 & W3) HQ. apply (wp_map_pages s0 P); try done; [lia|lia|by left]. Qed.

Lemma wp_map_string s0 P s a n (Q : unit -> vstate pmm H -> Prop) E : mapping s0 P s -> 0 <= a -> string_at a n -> a + n <= N * 4096 ->
  (forall s', mapping s0 (put_region P (blocks_region a (a + n))) s' -> Q tt s') -> wp (map_string mem a) Q E s.
Proof.
  intros M Ha Hstr Hn HQ. pose proof Hstr as (Hn0 & _). destruct (memory_bound _ _ _ _ Hok HN) as [HN1 HN2]. unfold map_string. wp_steps. apply (wp_loader_strlen a n); [done|]. wp_steps.
  rewrite u32_small by (unfold is_u32; lia). apply (wp_map_blocks s0 P); try done; lia.
Qed.

Lemma wp_map_module s0 P s i (Q : unit -> vstate pmm H -> Prop) E : apart s0 -> mapping s0 P s -> 0 <= i < n_mods ->
  (forall s', mapping s0 (foldl put_region P (module_regions i)) s' -> Q tt s') -> wp (map_module mem mbi i) Q E s.
Proof.
  intros Ha M Hi HQ. destruct (memory_bound _ _ _ _ Hok HN) as [HN1 HN2]. destruct (lo_mods _ _ _ Hok) as (M1 & M2 & M3 & M4). destruct (M4 i Hi) as ([M5 M6] & M7 & M8).
  destruct (mod_at_small es cmd_len name_len i Hok Hi) as (M9 & M10 & M11). unfold map_module. wp_steps.
  apply (wp_map_one s0 P); [done|lia|]. intros s1 Hm1.
  assert (wp (map_pages (mod_start mem mbi i) (mod_end mem mbi i) PAGE_PRESENT) Q E s1) as Hrest.
  { apply (wp_map_fixed s0 _ s1 (mod_start mem mbi i, mod_end mem mbi i) _ _ Ha Hm1); [by apply Hlk|exact HQ]. }
  destruct M8 as [Hz|(n & Hstr & Hn)].
  - rewrite Hz. change (negb (0 =? 0)) with false. cbv iota. by wp_steps.
  - destruct (Z.eqb_spec (mod_cmdline mem mbi i) 0) as [Hz|Hnz]; cbn [negb]; wp_steps; [done|].
    pose proof Hstr as ([Hn0 Hn1] & _). apply (wp_loader_strlen _ n); [done|]. wp_steps. eapply (wp_for_blocks _ _ _ (fun k s' => s' = s1)); [lia|lia|done| |].
    + intros k s' Hk Hlt ->. lia.
    + by intros s' ->.
Qed.

Lemma wp_map_modules s0 P s (Q : unit -> vstate pmm H -> Prop) E : apart s0 -> mapping s0 P s ->
  (forall s', mapping s0 (foldl put_region P (flat_map module_regions (seqZ 0 n_mods))) s' -> Q tt s') ->
  wp (if has_info mbi MULTIBOOT_INFO_MODS then for_up (Z.to_nat (mbi_mods_count mbi)) 0 (map_module mem mbi) else ret tt) Q E s.
Proof.
  intros Ha M HQ. destruct (lo_mods _ _ _ Hok) as (_ & M2 & _). assert (wp (for_up (Z.to_nat n_mods) 0 (map_module mem mbi)) Q E s) as Hw.
  { eapply wp_mono; [apply (wp_for_up (fun i s' => 0 <= i /\ mapping s0 (foldl put_region P (flat_map module_regions (seqZ 0 i))) s'))| |done].
    - done.
    - intros i s' Hi [_ Hm']. eapply (wp_map_module s0); [done|exact Hm'|lia|]. intros s'' Hm''. split; [lia|].
      rewrite seqZ_app by lia. change (seqZ (0 + i) 1) with [0 + i]. rewrite flat_map_app, foldl_app, Z.add_0_l. cbn [flat_map]. by rewrite app_nil_r.
    - intros [] s' [_ Hm']. apply HQ. by rewrite Z.add_0_l, Z2Nat.id in Hm' by lia. }
  unfold n_mods in Hw. destruct (has_info mbi MULTIBOOT_INFO_MODS); [done|]. exact Hw.
Qed.

Lemma wp_map_loader s0 P s (Q : unit -> vstate pmm H -> Prop) E : apart s0 -> mapping s0 P s ->
  (forall s', mapping s0 (foldl put_region P (loader_regions cmd_len name_len)) s' -> Q tt s') -> wp (map_loader mem mbi_addr mbi) Q E s.
Proof.
  intros Ha M HQ. destruct (memory_bound _ _ _ _ Hok HN) as [HN1 HN2]. pose proof (lo_mbi _ _ _ Hok) as M1. destruct (lo_map _ _ _ Hok) as (Hf & _ & P1 & P2 & P3).
  rewrite <- HN in *. unfold map_loader. wp_steps. apply (wp_map_one s0 P); [done|lia|]. intros s1 Hm1. wp_steps.
  assert (forall b a n P' s' (R : unit -> vstate pmm H -> Prop), (b = true -> 0 <= a /\ string_at a n /\ a + n <= N * 4096) -> mapping s0 P' s' ->
    (forall s'', mapping s0 (foldl put_region P' (if b then [blocks_region a (a + n)] else [])) s'' -> R tt s'') -> wp (if b : bool then map_string mem a else ret tt) R E s') as Hstring.
  { intros b a n P' s' R Hb Hg HR. destruct b.
    - destruct (Hb eq_refl) as (B1 & B2 & B3). by apply (wp_map_string s0 P' s' a n).
    - wp_steps. by apply HR. }
  eapply Hstring; [rewrite HN; apply (lo_cmdline _ _ _ Hok)|exact Hm1|]. intros s2 Hm2. wp_steps.
  apply (wp_map_modules s0 _ s2 _ _ Ha Hm2). intros s3 Hm3. wp_steps. rewrite Hf. rewrite u32_small by (unfold is_u32; lia).
  eapply (wp_map_blocks s0 _ s3 _ _ _ _ Hm3); [lia|lia|]. intros s4 Hm4. wp_steps.
  eapply Hstring; [rewrite HN; apply (lo_name _ _ _ Hok)|exact Hm4|]. intros s5 Hm5. apply HQ.
  unfold loader_regions. cbn [foldl]. rewrite !foldl_app. exact Hm5.
Qed.

Lemma wp_map_kernel s0 P s (Q : unit -> vstate pmm H -> Prop) E : apart s0 -> block_map_size (v_frames s0) = N -> mapping s0 P s ->
  (forall s', mapping s0 (foldl put_region P (kernel_regions N fb_start fb_size)) s' -> Q tt s') -> wp (map_kernel sym real_end fb_start fb_size) Q E s.
Proof.
  intros Ha Hsz M HQ. destruct (memory_bound _ _ _ _ Hok HN) as [HN1 HN2]. destruct real_end_page as (R1 & R2 & R3 & R4). destruct Hlk as [(L1 & L2 & L3) (L4 & L5 & L6) _ L7].
  unfold map_kernel, map_section, PAGE_PRESENT. change (Z.lor 1 PAGE_READWRITE) with 3. wp_steps.
  eapply (wp_map_fixed s0 _ _ _ _ _ Ha M); [done|]. intros s1 Hm1. wp_steps. eapply (wp_map_writable s0 _ _ _ _ _ Hm1); [done|]. intros s2 Hm2. wp_steps.
  eapply (wp_map_writable s0 _ _ _ _ _ Hm2); [done|]. intros s3 Hm3. wp_steps. eapply (wp_map_writable s0 _ _ _ _ _ Hm3); [done|]. intros s4 Hm4. wp_steps.
  eapply (wp_map_fixed s0 _ _ _ _ _ Ha Hm4); [done|]. intros s5 Hm5. wp_steps. eapply (wp_map_fixed s0 _ _ _ _ _ Ha Hm5); [done|]. intros s6 Hm6. wp_steps.
  destruct (mp_same _ _ _ Hm6) as (_ & _ & Hfr & _). rewrite Hfr, Hsz, u32_small by (unfold is_u32; lia).
  eapply (wp_map_writable s0 _ _ (real_end, real_end + N / 32) _ _ Hm6).
  { split; [cbn; lia|]. split; [done|]. cbn. lia. }
  intros s7 Hm7. wp_steps. destruct (_ && _) eqn:Hfb.
  - pose proof L7 as (_ & W1 & W2 & W3). cbn [fst snd] in *. rewrite u32_small by (unfold is_u32; lia).
    eapply (wp_map_writable s0 _ _ (fb_start, fb_start + fb_size) _ _ Hm7); [by apply L7|]. intros s8 Hm8. apply HQ. unfold kernel_regions. by rewrite Hfb.
  - wp_steps. apply HQ. unfold kernel_regions. by rewrite Hfb, app_nil_r.
Qed.

(** What [kmain] leaves when paging is on. *)
Record booted s (kd : Z) s' : Prop := Booted {
  bd_ok : vm_ok None s';
  bd_kernel : v_kernel s' = kd /\ v_paging s' = true /\ v_heap s' = v_heap s;
  bd_map : pmm_wf (v_frames s') /\ block_map_size (v_frames s') = N;
  bd_free : forall c, 0 <= c < N -> used (v_frames s') c = false <->
    available es c = true /\ reserved N cmd_len name_len c = false /\ forall r, exists_role s' r -> frame s' r <> c;
  bd_kept : forall a, told cmd_len name_len a \/ real_end <= a < real_end + N / 8 -> 0 <= a / 4096 < N ->
    used (v_frames s') (a / 4096) = true /\ forall r, exists_role s' r -> frame s' r <> a / 4096;
  bd_pages : exists P, (forall r, exists_role s' r -> maps_itself P (frame s' r)) /\ (forall q, P q <> 0 -> exists r, exists_role s' r /\ frame s' r = q) /\
    forall q, 0 <= q < 2 ^ 20 -> kentry s' q = foldl put_region P (loader_regions cmd_len name_len ++ kernel_regions N fb_start fb_size) q;
}.
End start.
End loader.

(** ** Reading behind the block map *)

Lemma existsb_same {A} (p q : A -> bool) l : (forall x, x ∈ l -> p x = q x) -> existsb p l = existsb q l.
Proof. induction l as [|x l IH]; intros Hl; [done|]. cbn. by rewrite Hl, IH by set_solver. Qed.

Lemma flat_map_same {A B} (f g : A -> list B) l : (forall x, x ∈ l -> f x = g x) -> flat_map f l = flat_map g l.
Proof. induction l as [|x l IH]; intros Hl; [done|]. cbn. by rewrite Hl, IH by set_solver. Qed.

Section told.
Variables mem mem' : Z -> Z.
Variable mbi_addr : Z.
Variable mbi : multiboot_info.
Variable sym : symbols.
Variables (es : list mmap_entry) (cmd_len name_len : Z).
Hypothesis Hok : loader_ok mem mbi_addr mbi sym es cmd_len name_len.
Hypothesis Hsame : forall a, told mem mbi_addr mbi cmd_len name_len a -> mem' a = mem a.

Lemma load32_same a : (forall x, a <= x < a + 4 -> mem' x = mem x) -> load32 mem' a = load32 mem a.
Proof. intros Hx. unfold load32. by rewrite !Hx by lia. Qed.

Lemma entry_same m e : mbi_mmap_addr mbi <= m -> m + 24 <= mbi_mmap_addr mbi + mbi_mmap_length mbi ->
  mmap_size mem' m = mmap_size mem m /\ (is_entry mem m e -> is_entry mem' m e).
Proof.
  intros Hlo Hhi. assert (forall k, 0 <= k <= 20 -> load32 mem' (m + k) = load32 mem (m + k)) as Hl.
  { intros k Hk. apply load32_same. intros x Hx. apply Hsame. right. left. lia. }
  unfold is_entry, mmap_size, mmap_entry_addr, mmap_len, mmap_type, load64. split.
  - specialize (Hl 0 ltac:(lia)). by rewrite Z.add_0_r in Hl.
  - rewrite <- !Z.add_assoc. change (4 + 4) with 8. change (12 + 4) with 16. by rewrite !Hl by lia.
Qed.

Lemma mmap_same l : forall m, mbi_mmap_addr mbi <= m -> holds_mmap mem mbi m l -> holds_mmap mem' mbi m l.
Proof.
  induction l as [|e l IH]; intros m Hm; cbn [holds_mmap]; [done|]. intros (H1 & H2 & H3 & H4 & H5).
  destruct (entry_same m e Hm H1) as [-> He]. split; [done|]. split; [by apply He|]. split; [done|]. split; [done|]. apply IH; [lia|done].
Qed.

Lemma string_same s n : (forall k, 0 <= k <= n -> mem' (u32 (s + k)) = mem (u32 (s + k))) -> string_at mem s n -> string_at mem' s n.
Proof.
  intros Hk (H1 & H2 & H3). split; [done|]. split; [intros k Hkn; rewrite Hk by lia; by apply H2|by rewrite Hk by lia].
Qed.

Lemma module_same i : 0 <= i < n_mods mbi ->
  mod_start mem' mbi i = mod_start mem mbi i /\ mod_end mem' mbi i = mod_end mem mbi i /\ mod_cmdline mem' mbi i = mod_cmdline mem mbi i.
Proof.
  intros Hi. destruct (mod_at_small mem mbi_addr mbi sym es cmd_len name_len i Hok Hi) as (Hat & _ & _). unfold mod_start, mod_end, mod_cmdline. rewrite Hat.
  assert (forall k, 0 <= k <= 12 -> load32 mem' (mbi_mods_addr mbi + 16 * i + k) = load32 mem (mbi_mods_addr mbi + 16 * i + k)) as Hl.
  { intros k Hk. apply load32_same. intros x Hx. apply Hsame. right. right. left. lia. }
  split; [|split; by apply Hl]. specialize (Hl 0 ltac:(lia)). by rewrite Z.add_0_r in Hl.
Qed.

Lemma real_end_same : real_end mem' mbi sym = real_end mem mbi sym.
Proof.
  unfold real_end. destruct (lo_mods _ _ _ _ _ _ _ Hok) as (_ & Hn & _).
  assert (forall n, Z.of_nat n <= n_mods mbi -> end_of mem' mbi sym n = end_of mem mbi sym n) as ->; [|done|lia].
  induction n as [|n IH]; intros Hle; [done|]. cbn [end_of]. rewrite IH by lia. by destruct (module_same (Z.of_nat n) ltac:(lia)) as (_ & -> & _).
Qed.

Lemma reserved_same N c : reserved mem' mbi_addr mbi sym N cmd_len name_len c = reserved mem mbi_addr mbi sym N cmd_len name_len c.
Proof.
  unfold reserved. rewrite real_end_same. do 3 f_equal. apply existsb_same. intros i Hi%elem_of_seqZ. unfold module_block.
  by destruct (module_same i ltac:(lia)) as (-> & -> & _).
Qed.

Lemma regions_same : loader_regions mem' mbi_addr mbi cmd_len name_len = loader_regions mem mbi_addr mbi cmd_len name_len.
Proof.
  unfold loader_regions. do 3 f_equal. apply flat_map_same. intros i Hi%elem_of_seqZ. unfold module_regions.
  by destruct (module_same i ltac:(lia)) as (-> & -> & _).
Qed.

Lemma loader_same : loader_ok mem' mbi_addr mbi sym es cmd_len name_len.
Proof.
  destruct Hok as [(A1 & A2 & A3 & A4) B C (D1 & D2 & D3 & D4) E1 (F1 & F2 & F3 & F4) G K]. split; try done.
  - split; [done|]. split; [by apply mmap_same|]. done.
  - rewrite real_end_same. done.
  - split; [done|]. split; [done|]. split; [done|]. intros i Hi. destruct (module_same i Hi) as (-> & -> & ->). destruct (F4 i Hi) as (H1 & H2 & H3).
    split; [done|]. split; [done|]. destruct H3 as [H3|(n & Hs & Hn)]; [by left|]. destruct (decide (mod_cmdline mem mbi i = 0)) as [|Hne]; [by left|]. right. exists n. split; [|done].
    apply string_same; [|done]. intros k Hk. apply Hsame. do 3 right. left. by exists i, n, k.
  - intros Hc. destruct (G Hc) as (H1 & H2 & H3). split; [done|]. split; [|done]. apply string_same; [|done]. intros k Hk. apply Hsame. do 4 right. left. split; [done|]. by exists k.
  - intros Hc. destruct (K Hc) as (H1 & H2 & H3). split; [done|]. split; [|done]. apply string_same; [|done]. intros k Hk. apply Hsame. do 5 right. split; [done|]. by exists k.
Qed.

Lemma linker_same fb_start fb_size : linker_ok mem mbi sym fb_start fb_size -> linker_ok mem' mbi sym fb_start fb_size.
Proof.
  intros [(A1 & A2 & A3) B C D]. assert (forall r, fixed_place mem mbi sym r -> fixed_place mem' mbi sym r) as Hf.
  { intros r. unfold fixed_place. by rewrite real_end_same. }
  split; [|done| |done].
  - split; [by apply Hf|]. split; by apply Hf.
  - intros i Hi. destruct (module_same i Hi) as (-> & -> & _). by apply Hf, C.
Qed.
End told.

(** ** From the loader to paging *)

Section boot.
Context {H : Type} `{KHeapLaws H}.
Implicit Types (s : vstate pmm H).
Variable mem : Z -> Z.
Variable mbi_addr : Z.
Variable mbi : multiboot_info.
Variable sym : symbols.
Variables (es : list mmap_entry) (cmd_len name_len N fb_start fb_size : Z).
Hypothesis Hok : loader_ok mem mbi_addr mbi sym es cmd_len name_len.
Hypothesis HN : N * 4096 = memory_end es.
Hypothesis Hlk : linker_ok mem mbi sym fb_start fb_size.
Hypothesis Hud : undisturbed mem mbi_addr mbi sym N cmd_len name_len.

Abbreviation real_end := (real_end mem mbi sym).
Abbreviation reserved := (reserved mem mbi_addr mbi sym N cmd_len name_len).
Abbreviation mem' := (filled mem real_end N).

Lemma filled_same a : told mem mbi_addr mbi cmd_len name_len a -> mem' a = mem a.
Proof.
  intros Ha. pose proof (ud_filled _ _ _ _ _ _ _ Hud a Ha). unfold filled. by replace ((real_end <=? a) && (a <? real_end + N)) with false by lia.
Qed.

(** The blocks that are free afterwards. *)
Lemma wp_setup_frames map_mem (s : pmm) (Q : Z -> pmm -> Prop) E : Forall is_u32 map_mem -> N <= 4 * zlen map_mem ->
  (forall s' : pmm, marked N (fun c => reserved c || negb (available es c)) s' -> Q real_end s') -> wp (setup_frames mem mbi_addr mbi sym map_mem) Q E s.
Proof.
  intros H8 Hlen HQ. destruct (memory_bound _ _ _ _ _ _ _ _ Hok HN) as [HN1 HN2]. unfold setup_frames. wp_steps.
  apply (wp_kernel_end mem mbi_addr mbi sym es cmd_len name_len); [done|]. wp_steps. apply (wp_memory_available mem mbi_addr mbi sym es cmd_len name_len); [done|]. wp_steps.
  rewrite <- HN. wp_apply (wp_pmm_init map_mem (N * 4096) s); [done|unfold BLOCK_SIZE; lia|unfold BLOCK_SIZE; rewrite Z.div_mul by lia; lia| |by intros e []].
  intros u s1 (W1 & W2 & W3). unfold BLOCK_SIZE in W2. rewrite Z.div_mul in W2 by lia. wp_steps. rewrite W2.
  pose proof (loader_same mem mem' mbi_addr mbi sym es cmd_len name_len Hok filled_same) as Hok'.
  pose proof (real_end_same mem mem' mbi_addr mbi sym es cmd_len name_len Hok filled_same) as Hre.
  apply (wp_free_available mem' mbi_addr mbi sym N es cmd_len name_len); [done|done| |].
  { split; [done|]. split; [done|]. intros c Hc. apply W3. lia. }
  intros s2 Hm2. wp_steps. pose proof (wp_reserve mem' mbi_addr mbi sym es cmd_len name_len N Hok' HN) as Hr. rewrite Hre in Hr. eapply Hr; [exact Hm2|].
  intros s3 Hm3. wp_steps. apply HQ. eapply marked_ext; [|exact Hm3]. intros c _. cbv beta. by rewrite (reserved_same mem mem' mbi_addr mbi sym es cmd_len name_len Hok filled_same).
Qed.

Lemma kept_reserved a : told mem mbi_addr mbi cmd_len name_len a \/ real_end <= a < real_end + N / 8 -> reserved (a / 4096) = true.
Proof.
  intros [Ha|Ha]; [by apply (ud_aside _ _ _ _ _ _ _ Hud)|].
  destruct (memory_bound _ _ _ _ _ _ _ _ Hok HN) as [HN1 HN2]. destruct (real_end_page mem mbi_addr mbi sym es cmd_len name_len N Hok HN) as (R1 & R2 & R3 & R4).
  pose proof (ud_map _ _ _ _ _ _ _ Hud) as Hmap. assert (N / 8 <= 4096) by (apply Z.div_le_upper_bound; lia).
  assert (a / 4096 = real_end / 4096) as ->.
  { symmetry. apply Z.div_unique with (a - real_end); [lia|]. pose proof (Z.div_mod real_end 4096 ltac:(lia)). lia. }
  assert (in_blocks real_end (real_end + N / 32) (real_end / 4096) = true) as Hin; [|unfold BootSpec.reserved; rewrite Hin; by rewrite orb_true_r].
  unfold in_blocks. apply andb_true_iff. split; [apply Z.leb_le; lia|apply Z.ltb_lt]. assert (0 < count_blocks real_end (real_end + N / 32)); [|lia].
  apply count_blocks_spec; lia.
Qed.

End boot.

(** ** A machine with 128 MB and one module

    The loader's structures lie at 0x9000, the kernel at 1 MB, its module
    behind it and the block map from 0x111000 on: its second block, 0x112, is
    free for whoever asks. *)

Definition sample_words : list (Z * Z) :=
  [(0x9000, 20); (0x9004, 0); (0x9008, 0); (0x900C, 0x9F000); (0x9010, 0); (0x9014, 1);
   (0x9018, 20); (0x901C, 0x100000); (0x9020, 0); (0x9024, 0x7F00000); (0x9028, 0); (0x902C, 1);
   (0x9100, 0x110000); (0x9104, 0x110600); (0x9108, 0)].

Definition word_in (ws : list (Z * Z)) (a : Z) : Z := match find (fun w => w.1 =? a) ws with Some w => w.2 | None => 0 end.
Definition sample_mem (a : Z) : Z := word_in sample_words (a / 4 * 4) / 2 ^ (8 * (a mod 4)) mod 256.

Definition sample_mbi : multiboot_info := MultibootInfo 0x1048 0 0 1 0x9100 48 0x9000 0 0xFD000000 4096 767 1.
Definition sample_symbols : symbols :=
  Symbols 0x100000 0x108000 (0x100000, 0x103000) (0x103000, 0x104000) (0x104000, 0x108000) (0x106000, 0x107000) (0x107000, 0x108000) (0x105000, 0x106000).
Definition sample_entries : list mmap_entry := [MmapEntry 0 0x9F000 1; MmapEntry 0x100000 0x7F00000 1].

Lemma sample_loader_ok : loader_ok sample_mem 0x9500 sample_mbi sample_symbols sample_entries 0 0.
Proof.
  split.
  - split; [done|]. split; [|vm_compute; repeat split; discriminate]. repeat (split; [vm_compute; first [done|reflexivity]|]). vm_compute. discriminate.
  - vm_compute. repeat split; discriminate.
  - repeat (apply Forall_cons_2; [intros _ _; vm_compute; repeat split; discriminate|]). apply Forall_nil_2.
  - vm_compute. repeat split; discriminate.
  - vm_compute. repeat split; discriminate.
  - split; [vm_compute; discriminate|]. split; [vm_compute; discriminate|]. split; [vm_compute; discriminate|]. intros i Hi. change (n_mods sample_mbi) with 1 in Hi. assert (i = 0) as -> by lia.
    split; [vm_compute; repeat split; discriminate|]. split; [vm_compute; reflexivity|]. left. reflexivity.
  - done.
  - done.
Qed.

Lemma sample_linker_ok : linker_ok sample_mem sample_mbi sample_symbols 0xFD000000 0x300000.
Proof.
  split.
  - vm_compute. repeat split; discriminate.
  - vm_compute. repeat split; discriminate.
  - intros i Hi. change (n_mods sample_mbi) with 1 in Hi. assert (i = 0) as -> by lia. vm_compute. repeat split; discriminate.
  - vm_compute. repeat split; discriminate.
Qed.

Lemma sample_undisturbed : undisturbed sample_mem 0x9500 sample_mbi sample_symbols 32768 0 0.
Proof.
  assert (forall a, told sample_mem 0x9500 sample_mbi 0 0 a -> 0x9000 <= a < 0xA000) as Ht.
  { intros a Ha. unfold told in Ha. change (n_mods sample_mbi) with 1 in Ha. change (mbi_mmap_addr sample_mbi) with 0x9000 in Ha.
    change (mbi_mmap_length sample_mbi) with 48 in Ha. change (mbi_mods_addr sample_mbi) with 0x9100 in Ha.
    destruct Ha as [Ha|[Ha|[Ha|[(i & n & k & Hi & Hne & _)|[[Hc _]|[Hc _]]]]]]; [lia|lia|lia| |by vm_compute in Hc|by vm_compute in Hc].
    assert (i = 0) as -> by lia. by destruct Hne. }
  assert (BootSpec.real_end sample_mem sample_mbi sample_symbols = 0x111000) as Hre by (vm_compute; reflexivity).
  split; [lia|intros a Ha%Ht; rewrite Hre; lia|]. intros a Ha%Ht. assert (a / 4096 = 9) as -> by (symmetry; apply Z.div_unique with (a - 0x9000); lia).
  vm_compute. reflexivity.
Qed.

