(* ===== verification/FsPath.v ===== *)
(** * Paths (the path functions of kernel/fs.c)

    C strings are the bytes from the pointer to the end of their object, so a
    read past the end is a fault; the lists of path elements are list_t values
    whose operations file DList verifies, here as lists of the elements' texts
    without their terminators.  The heap objects of the texts and of the list
    cells are not part of the state, so that running out of memory is not seen
    here; what [kmalloc] hands out is a buffer of unknown bytes. *)
From S2P Require Import Prelude.

(** '/' and '.'. *)
Definition SLASH : Z := 47.
Definition DOT : Z := 46.

(** ** C strings *)

Section cstrings.
Context {S : Type}.

(** [b[i]]. *)
Definition byte (b : list Z) (i : Z) : M S Z := some (zlookup b i).

Definition strlen (str : list Z) : M S Z :=
  loop (Datatypes.S (length str)) (fun len =>
    let! c := byte str len in
    if negb (c =? 0) then ret (inl (len + 1)) else ret (inr len)) 0.

(** [memcmp(s1, s2, len) == 0]. *)
Definition same_bytes (s1 s2 : list Z) (len : Z) : M S bool :=
  let! r := for_ret (Z.to_nat len) 0 (fun i =>
    let! c1 := byte s1 i in
    let! c2 := byte s2 i in
    ret (if c1 =? c2 then None else Some tt)) in
  ret (match r with None => true | Some _ => false end).

(** [strndup(s, n)] and the string copies: the text of at most [n] bytes. *)
Definition strndup (s : list Z) (n : Z) : M S (list Z) :=
  let! s_len := strlen s in
  ret (take (Z.to_nat (if n <? s_len then n else s_len)) s).

(** Runs code on a buffer of its own. *)
Definition on_buffer {A} (b : list Z) (m : M (list Z) A) : M S (list Z) := fun s =>
  match m b with
  | Ok (_, b') => Ok (b', s)
  | Err e => Err e
  end.
End cstrings.

(** ** The path functions *)

Section ops.
Context {S : Type}.

(** What [kmalloc] of so many bytes holds. *)
Variable junk : Z -> list Z.

Definition path_element_size (path : list Z) : M S Z :=
  loop (Datatypes.S (length path)) (fun i =>
    let! c := byte path i in
    if negb (c =? 0) && negb (c =? SLASH) then ret (inl (i + 1)) else ret (inr i)) 0.

(** One round of the loop over [path] with the indices [i] and [j]. *)
Definition token_round (path : list Z) (path_len : Z) (ij : Z * Z) :
    M (list Z) (Z * Z + Z) :=
  let '(i, j) := ij in
  if i <? path_len then
    let! c := byte path i in
    if c =? SLASH then
      if negb (j =? 0) then
        let! prev := buf_get (j - 1) in
        if negb (prev =? 0) then buf_set j 0 >>> ret (inl (i + 1, j + 1))
        else ret (inl (i + 1, j))
      else ret (inl (i + 1, j))
    else buf_set j c >>> ret (inl (i + 1, j + 1))
  else ret (inr j).

Definition token_fill (path_len j : Z) : M (list Z) unit :=
  for_up (Z.to_nat (path_len + 2 - j)) j (fun j => buf_set j 0).

(** The buffer it answers: the elements, each with a terminator. *)
Definition tokenize_path (path : list Z) : M S (list Z) :=
  let! path_len := strlen path in
  on_buffer (junk (path_len + 2))
    (let! j := loop (Datatypes.S (length path)) (token_round path path_len) (0, 0) in
     token_fill path_len j).

Definition tokenize_path_list (path : list Z) : M S (list (list Z)) :=
  let! path_len := strlen path in
  loop (Datatypes.S (length path)) (fun '(i, elements) =>
    if i <? path_len then
      let! j := path_element_size (drop (Z.to_nat i) path) in
      let! s := strndup (drop (Z.to_nat i) path) j in
      let! l := strlen (s ++ [0]) in
      ret (inl (i + j + 1, if l =? 0 then elements else elements ++ [s]))
    else ret (inr elements)) (0, []).

(** [canonicalize_path_push_path] from offset [s] of the tokens. *)
Definition push_round (path_t : list Z) (st : Z * list (list Z)) :
    M S (Z * list (list Z) + list (list Z)) :=
  let '(s, elements) := st in
  let p := drop (Z.to_nat s) path_t in
  let! c := byte p 0 in
  if negb (c =? 0) then
    let! l := strlen p in
    let j := l + 1 in
    let! dotdot := same_bytes p [DOT; DOT; 0] 3 in
    if dotdot then
      kassert (negb (bool_decide (elements = []))) >>>
      ret (inl (s + j, removelast elements))
    else
      let! dot := same_bytes p [DOT; 0] 2 in
      if dot then ret (inl (s + j, elements))
      else
        let! s_n := strndup p j in
        ret (inl (s + j, elements ++ [s_n]))
  else ret (inr elements).

Definition canonicalize_path_push_path (path : list Z) (elements : list (list Z)) :
    M S (list (list Z)) :=
  let! path_t := tokenize_path path in
  loop (Datatypes.S (length path_t)) (push_round path_t) (0, elements).

(** The loop that pushes the tokens of the parent. *)
Definition parent_round (p_t : list Z) (st : Z * list (list Z)) :
    M S (Z * list (list Z) + list (list Z)) :=
  let '(s, elements) := st in
  let p := drop (Z.to_nat s) p_t in
  let! c := byte p 0 in
  if negb (c =? 0) then
    let! l := strlen p in
    let! sn := strndup p (l + 1) in
    ret (inl (s + (l + 1), elements ++ [sn]))
  else ret (inr elements).

Definition canonicalize_path_list (parent relative_path : list Z) : M S (list (list Z)) :=
  let! path_l := strlen relative_path in
  let! c := (if 0 <? path_l then byte relative_path 0 else ret SLASH) in
  let! elements :=
    (if (0 <? path_l) && negb (c =? SLASH) then
       let! p_t := tokenize_path parent in
       loop (Datatypes.S (length p_t)) (parent_round p_t) (0, [])
     else ret []) in
  canonicalize_path_push_path relative_path elements.

(** Copies the first [n] elements. *)
Definition copy_elements (elements : list (list Z)) (n : nat) : M S (list (list Z)) :=
  loop (Datatypes.S (length elements)) (fun '(i, l) =>
    if (i <? n)%nat then
      let! value := some (elements !! i) in
      let! len := strlen (value ++ [0]) in
      let value_len := len + 1 in
      kassert (negb (value_len =? 1)) >>>
      ret (inl (Datatypes.S i, l ++ [take (Z.to_nat len) value]))
    else ret (inr l)) (0%nat, []).
End ops.

(** ** What the paths mean *)

(** The elements of a path. *)
Fixpoint elements_from (cur path : list Z) : list (list Z) :=
  match path with
  | [] => match cur with [] => [] | _ => [cur] end
  | c :: path' =>
      if c =? SLASH then
        match cur with [] => elements_from [] path' | _ => cur :: elements_from [] path' end
      else elements_from (cur ++ [c]) path'
  end.
Definition elements_of (path : list Z) : list (list Z) := elements_from [] path.

(** Following an element from a directory: [None] above the root. *)
Definition follow (dir : list (list Z)) (e : list Z) : option (list (list Z)) :=
  if bool_decide (e = [DOT; DOT]) then
    match dir with [] => None | _ => Some (removelast dir) end
  else if bool_decide (e = [DOT]) then Some dir
  else Some (dir ++ [e]).

Fixpoint follow_all (dir : list (list Z)) (es : list (list Z)) : option (list (list Z)) :=
  match es with
  | [] => Some dir
  | e :: es' => match follow dir e with Some d => follow_all d es' | None => None end
  end.

(** Where [relative_path] leads from [parent]. *)
Definition canonical (parent relative_path : list Z) : option (list (list Z)) :=
  follow_all
    (match relative_path with
     | [] => []
     | c :: _ => if c =? SLASH then [] else elements_of parent
     end) (elements_of relative_path).

(** A C string's text. *)
Definition text (s : list Z) : Prop := Forall (fun c => 0 < c < 256) s.

(** The elements as [tokenize_path] lays them out. *)
Definition laid_out (es : list (list Z)) : list Z := concat (map (fun e => e ++ [0]) es).

(** ** C strings, proved *)

Section cstring_lemmas.
Context {S : Type}.
Implicit Types (s : S) (E : panic -> Prop).

Lemma wp_byte pre c post i (Q : Z -> S -> Prop) E s :
  i = zlen pre -> Q c s -> wp (byte (pre ++ c :: post) i) Q E s.
Proof. intros -> HQ. unfold byte. wp_cond. by rewrite zlookup_app_mid. Qed.

(** A scan stops at the first byte that [go] rejects. *)
Lemma wp_scan (go : Z -> bool) t c post n i (Q : Z -> S -> Prop) E s pre :
  Forall (fun b => go b = true) t -> go c = false -> i = zlen pre -> (length t < n)%nat ->
  Q (zlen pre + zlen t) s ->
  wp (loop n (fun i => let! b := byte (pre ++ t ++ c :: post) i in
        if go b then ret (inl (i + 1)) else ret (inr i)) i) Q E s.
Proof.
  revert pre i n. induction t as [|b t IH]; intros pre i n HF Hc -> Hn HQ.
  - destruct n as [|n]; [cbn in Hn; lia|]. apply wp_loop_step. wp_steps. cbn [app].
    apply wp_byte; [done|]. rewrite Hc. wp_steps.
    by rewrite zlen_nil, Z.add_0_r in HQ.
  - destruct n as [|n]; [cbn in Hn; lia|]. apply Forall_cons in HF as [Hb HF].
    apply wp_loop_step. wp_steps. cbn [app]. apply wp_byte; [done|]. rewrite Hb. wp_steps.
    replace (pre ++ b :: t ++ c :: post) with ((pre ++ [b]) ++ t ++ c :: post) by (by rewrite <- app_assoc).
    apply IH; [done|done| |cbn in Hn; lia|].
    + by rewrite zlen_app.
    + rewrite zlen_app. rewrite zlen_cons in HQ. change (zlen [b]) with 1.
      by replace (zlen pre + 1 + zlen t) with (zlen pre + (1 + zlen t)) by lia.
Qed.

Lemma text_nonzero t : text t -> Forall (fun b => negb (b =? 0) = true) t.
Proof.
  intros Ht. eapply Forall_impl; [exact Ht|]. intros b Hb. cbv beta in Hb |- *.
  by rewrite (proj2 (Z.eqb_neq b 0)) by lia.
Qed.

Lemma wp_text_len t post (Q : Z -> S -> Prop) E s :
  text t -> Q (zlen t) s -> wp (strlen (t ++ 0 :: post)) Q E s.
Proof.
  intros Ht HQ. unfold strlen. change (t ++ 0 :: post) with ([] ++ t ++ 0 :: post) at 2.
  apply (wp_scan (fun b => negb (b =? 0))); [by apply text_nonzero|done|done| |done].
  rewrite length_app. cbn. lia.
Qed.

(** [same_bytes] with a whole C string is equality. *)
Lemma wp_same_bytes t post q post' (Q : bool -> S -> Prop) E s :
  text t -> text q -> Q (bool_decide (t = q)) s ->
  wp (same_bytes (t ++ 0 :: post) (q ++ 0 :: post') (zlen q + 1)) Q E s.
Proof.
  intros Ht Hq HQ. unfold same_bytes. wp_steps.
  assert (forall pre t q, text t -> text q ->
    wp (for_ret (Datatypes.S (length q)) (zlen pre) (fun i =>
      let! c1 := byte (pre ++ t ++ 0 :: post) i in
      let! c2 := byte (pre ++ q ++ 0 :: post') i in
      ret (if c1 =? c2 then None else Some tt)))
      (fun r s' => s' = s /\ (match r with None => true | Some _ => false end) = bool_decide (t = q)) E s) as Hgo.
  { clear. intros pre t q. revert pre t. induction q as [|b q IH]; intros pre t Ht Hq.
    - destruct t as [|a t]; cbn [app length].
      + apply wp_for_ret_step. wp_steps. apply wp_byte; [done|]. wp_steps. apply wp_byte; [done|]. wp_steps.
        by apply wp_intro.
      + apply Forall_cons in Ht as [Ha Ht]. apply wp_for_ret_step. wp_steps. apply wp_byte; [done|]. wp_steps.
        apply wp_byte; [done|]. wp_steps. rewrite (proj2 (Z.eqb_neq a 0)) by lia. done.
    - apply Forall_cons in Hq as [Hb Hq]. destruct t as [|a t]; cbn [app length].
      + apply wp_for_ret_step. wp_steps. apply wp_byte; [done|]. wp_steps. apply wp_byte; [done|]. wp_steps.
        rewrite (proj2 (Z.eqb_neq 0 b)) by lia. done.
      + apply Forall_cons in Ht as [Ha Ht]. apply wp_for_ret_step. wp_steps. apply wp_byte; [done|]. wp_steps.
        apply wp_byte; [done|]. wp_steps. destruct (Z.eqb_spec a b) as [->|Hab].
        * rewrite (app_cons_assoc pre b), (app_cons_assoc pre b (q ++ _)).
          replace (zlen pre + 1) with (zlen (pre ++ [b])) by (by rewrite zlen_app).
          eapply wp_mono; [by apply IH| |done]. intros r s' [-> ->]. split; [done|].
          apply bool_decide_ext. split; [by intros ->|]. by intros [= ->].
        * split; [done|]. symmetry. apply bool_decide_eq_false_2. congruence. }
  replace (Z.to_nat (zlen q + 1)) with (Datatypes.S (length q)) by (unfold zlen; lia).
  eapply wp_mono; [apply (Hgo [] t q Ht Hq)| |done]. intros r s' [-> Hr]. wp_steps. by rewrite Hr.
Qed.

(** [same_bytes] on the length of [q] is being a prefix. *)
Lemma wp_same_prefix t post q post' (Q : bool -> S -> Prop) E s :
  text t -> text q -> Q (bool_decide (q `prefix_of` t)) s ->
  wp (same_bytes (t ++ 0 :: post) (q ++ post') (zlen q)) Q E s /\
  wp (same_bytes (q ++ post') (t ++ 0 :: post) (zlen q)) Q E s.
Proof.
  intros Ht Hq HQ.
  assert (forall swap pre t q, text t -> text q ->
    wp (for_ret (length q) (zlen pre) (fun i =>
      let! c1 := byte (if swap : bool then pre ++ q ++ post' else pre ++ t ++ 0 :: post) i in
      let! c2 := byte (if swap then pre ++ t ++ 0 :: post else pre ++ q ++ post') i in
      ret (if c1 =? c2 then None else Some tt)))
      (fun r s' => s' = s /\ (match r with None => true | Some _ => false end) = bool_decide (q `prefix_of` t)) E s) as Hgo.
  { clear. intros swap pre t q. revert pre t. induction q as [|b q IH]; intros pre t Ht Hq.
    - apply wp_intro. rewrite bool_decide_eq_true_2; [done|]. apply prefix_nil.
    - apply Forall_cons in Hq as [Hb Hq]. cbn [length]. apply wp_for_ret_step. wp_steps.
      destruct t as [|a t]; cbn [app].
      + rewrite bool_decide_eq_false_2 by (by intros [k [=]]).
        destruct swap; (apply wp_byte; [done|]; wp_steps; apply wp_byte; [done|]; wp_steps).
        * by rewrite (proj2 (Z.eqb_neq b 0)) by lia.
        * by rewrite (proj2 (Z.eqb_neq 0 b)) by lia.
      + apply Forall_cons in Ht as [Ha Ht].
        assert (forall c1 c2 : Z, (c1 = a /\ c2 = b) \/ (c1 = b /\ c2 = a) ->
          wp (ret (if c1 =? c2 then None else Some tt)) (fun r s' =>
            match r with
            | Some b0 => s' = s /\ false = bool_decide (b :: q `prefix_of` a :: t)
            | None => wp (for_ret (length q) (zlen pre + 1) (fun i =>
                let! c1 := byte (if swap then pre ++ b :: q ++ post' else pre ++ a :: t ++ 0 :: post) i in
                let! c2 := byte (if swap then pre ++ a :: t ++ 0 :: post else pre ++ b :: q ++ post') i in
                ret (if c1 =? c2 then None else Some tt)))
                (fun r s' => s' = s /\ (match r with None => true | Some _ => false end) = bool_decide (b :: q `prefix_of` a :: t)) E s'
            end) E s) as Hcmp.
        { intros c1 c2 Hc. wp_steps. destruct (Z.eqb_spec c1 c2) as [Heq|Hne].
          - assert (a = b) as -> by lia. rewrite (app_cons_assoc pre b (q ++ _)), (app_cons_assoc pre b (t ++ _)).
            replace (zlen pre + 1) with (zlen (pre ++ [b])) by (by rewrite zlen_app).
            eapply wp_mono; [by apply IH| |done]. intros r s' [-> ->]. split; [done|].
            apply bool_decide_ext. split; [by apply prefix_cons|by apply prefix_cons_inv_2].
          - split; [done|]. symmetry. apply bool_decide_eq_false_2. intros Hp%prefix_cons_inv_1. lia. }
        destruct swap; (apply wp_byte; [done|]; wp_steps; apply wp_byte; [done|]); apply Hcmp; auto. }
  unfold same_bytes. replace (Z.to_nat (zlen q)) with (length q) by (unfold zlen; lia).
  split; wp_steps.
  - eapply wp_mono; [apply (Hgo false [] t q Ht Hq)| |done]. intros r s' [-> Hr]. wp_steps. by rewrite Hr.
  - eapply wp_mono; [apply (Hgo true [] t q Ht Hq)| |done]. intros r s' [-> Hr]. wp_steps. by rewrite Hr.
Qed.

Lemma take_zlen {A} (t post : list A) : take (Z.to_nat (zlen t)) (t ++ post) = t.
Proof. unfold zlen. rewrite Nat2Z.id. by rewrite take_app_length. Qed.

Lemma wp_strndup t post n (Q : list Z -> S -> Prop) E s :
  text t -> zlen t <= n -> Q t s -> wp (strndup (t ++ 0 :: post) n) Q E s.
Proof.
  intros Ht Hn HQ. unfold strndup. wp_steps. apply wp_text_len; [done|]. wp_steps.
  rewrite (proj2 (Z.ltb_ge n _)) by done. by rewrite take_zlen.
Qed.

Lemma wp_strndup_take t post n (Q : list Z -> S -> Prop) E s :
  text t -> 0 <= n -> Q (take (Z.to_nat n) t) s -> wp (strndup (t ++ 0 :: post) n) Q E s.
Proof.
  intros Ht Hn HQ. unfold strndup. wp_steps. apply wp_text_len; [done|]. wp_steps.
  destruct (Z.ltb_spec n (zlen t)) as [Hlt|Hge].
  - rewrite take_app_le; [done|]. unfold zlen in Hlt. lia.
  - rewrite take_zlen. rewrite take_ge in HQ; [done|]. unfold zlen in Hge. lia.
Qed.

(** Where a path element ends. *)
Definition in_element (c : Z) : bool := negb (c =? 0) && negb (c =? SLASH).

Lemma split_element t : text t ->
  exists e c post, t ++ [0] = e ++ c :: post /\ Forall (fun c => in_element c = true) e /\ in_element c = false /\
    e `prefix_of` t.
Proof.
  induction 1 as [|c t Hc Ht (e & d & post & Heq & He & Hd & Hpre)].
  - exists [], 0, []. repeat split; [constructor|apply prefix_nil].
  - destruct (decide (c = SLASH)) as [->|Hne].
    + exists [], SLASH, (t ++ [0]). repeat split; [constructor|apply prefix_nil].
    + exists (c :: e), d, post. split; [cbn; by rewrite Heq|]. split; [|by split; [|apply prefix_cons]].
      constructor; [|done]. unfold in_element. by rewrite (proj2 (Z.eqb_neq c 0)), (proj2 (Z.eqb_neq c SLASH)) by (done || lia).
Qed.

Lemma wp_path_element_size e c post (Q : Z -> S -> Prop) E s :
  Forall (fun c => in_element c = true) e -> in_element c = false -> Q (zlen e) s ->
  wp (path_element_size (e ++ c :: post)) Q E s.
Proof.
  intros He Hc HQ. unfold path_element_size. change (e ++ c :: post) with ([] ++ e ++ c :: post) at 2.
  apply (wp_scan in_element); [done|done|done| |done]. rewrite length_app. cbn. lia.
Qed.

Lemma wp_on_buffer {A} b (m : M (list Z) A) (Q : list Z -> S -> Prop) E s :
  wp m (fun _ b' => Q b' s) E b -> wp (on_buffer b m) Q E s.
Proof.
  intros Hm. apply wp_elim in Hm. apply wp_intro. unfold on_buffer. by destruct (m b) as [[a b']|e].
Qed.
End cstring_lemmas.

(** ** Tokens *)

Lemma elements_from_app cur a path :
  (forall c, c ∈ a -> c <> SLASH) -> elements_from cur (a ++ path) = elements_from (cur ++ a) path.
Proof.
  revert cur. induction a as [|c a IH]; intros cur Ha; [by rewrite app_nil_r|].
  cbn [app elements_from]. rewrite (proj2 (Z.eqb_neq c SLASH)) by (apply Ha; left).
  rewrite IH by (intros c' Hc'; apply Ha; by right). by rewrite <- app_assoc.
Qed.

(** Elements are texts, not empty, and have no slash. *)
Definition element (e : list Z) : Prop := e <> [] /\ text e /\ ~ SLASH ∈ e.

Lemma elements_from_element path : forall cur,
  text path -> text cur -> ~ SLASH ∈ cur -> Forall element (elements_from cur path).
Proof.
  induction path as [|c path IH]; intros cur Hp Hc Hs; cbn [elements_from].
  - destruct cur as [|c cur]; [constructor|]. apply Forall_singleton. done.
  - apply Forall_cons in Hp as [Hc0 Hp]. destruct (Z.eqb_spec c SLASH) as [->|Hne].
    + assert (Forall element (elements_from [] path)) by (apply IH; [done|constructor|by apply not_elem_of_nil]).
      destruct cur; [done|]. constructor; [done|done].
    + apply IH; [done|apply Forall_app; split; [done|by apply Forall_singleton]|].
      intros [?|Hx%list_elem_of_singleton]%elem_of_app; [done|congruence].
Qed.

Lemma elements_of_element path : text path -> Forall element (elements_of path).
Proof. intros Hp. apply elements_from_element; [done|constructor|apply not_elem_of_nil]. Qed.

Section token_lemmas.
Context {S : Type} (junk : Z -> list Z).
Hypothesis Hjunk : forall n, 0 <= n -> zlen (junk n) = n.
Implicit Types (s : S) (E : panic -> Prop).

Lemma laid_out_app es1 es2 : laid_out (es1 ++ es2) = laid_out es1 ++ laid_out es2.
Proof. unfold laid_out. by rewrite map_app, concat_app. Qed.

(** What the token loop has written: the finished elements and part of one. *)
Lemma wp_token_loop path post rest : forall done_ es cur old n E,
  text path -> path = done_ ++ rest -> text cur ->
  elements_of path = es ++ elements_from cur rest ->
  zlen (laid_out es ++ cur) <= zlen done_ -> zlen old = zlen path + 2 - zlen (laid_out es ++ cur) ->
  (length rest < n)%nat ->
  wp (loop n (token_round (path ++ 0 :: post) (zlen path)) (zlen done_, zlen (laid_out es ++ cur)))
    (fun j b => exists es cur old, j = zlen (laid_out es ++ cur) /\ b = laid_out es ++ cur ++ old /\
       text cur /\ elements_of path = es ++ match cur with [] => [] | _ => [cur] end /\
       zlen old = zlen path + 2 - j /\ 2 <= zlen old)
    E (laid_out es ++ cur ++ old).
Proof.
  induction rest as [|c rest IH]; intros done_ es cur old n E Hp Hpath Hcur Hes Hlen Hold Hn;
    (destruct n as [|n]; [cbn in Hn; lia|]); apply wp_loop_step; cbn [token_round].
  - wp_cond. rewrite app_nil_r in Hpath. subst done_. rewrite Z.ltb_irrefl. wp_steps.
    exists es, cur, old. split; [done|]. split; [done|]. split; [done|]. split; [done|]. split; [done|]. lia.
  - assert (zlen path = zlen done_ + 1 + zlen rest) as Hl
      by (rewrite Hpath, zlen_app, zlen_cons; lia).
    pose proof (zlen_nonneg rest). wp_cond. rewrite (proj2 (Z.ltb_lt _ _)) by lia. wp_steps.
    assert (path ++ 0 :: post = done_ ++ c :: (rest ++ 0 :: post)) as -> by (by rewrite Hpath, <- app_assoc).
    apply wp_byte; [done|]. wp_cond.
    replace (done_ ++ c :: rest ++ 0 :: post) with (path ++ 0 :: post) by (by rewrite Hpath, <- app_assoc).
    assert (path = (done_ ++ [c]) ++ rest) as Hpath' by (by rewrite <- app_assoc).
    assert (zlen done_ + 1 = zlen (done_ ++ [c])) as Hd1 by (by rewrite zlen_app).
    assert (0 < zlen old) as Hold0 by lia.
    destruct old as [|o old]; [done|]. rewrite zlen_cons in Hold.
    assert (text [c]) as Hc.
    { rewrite Hpath in Hp. apply Forall_app in Hp as [_ Hp]. apply Forall_cons in Hp as [Hc _]. by constructor. }
    destruct (Z.eqb_spec c SLASH) as [->|Hns].
    + cbn [elements_from] in Hes. rewrite Z.eqb_refl in Hes.
      destruct (decide (cur = [])) as [->|Hcne].
      * (* no element is open *)
        assert (wp (loop n (token_round (path ++ 0 :: post) (zlen path)) (zlen done_ + 1, zlen (laid_out es ++ [])))
          (fun j b => exists es cur old, j = zlen (laid_out es ++ cur) /\ b = laid_out es ++ cur ++ old /\
             text cur /\ elements_of path = es ++ match cur with [] => [] | _ => [cur] end /\
             zlen old = zlen path + 2 - j /\ 2 <= zlen old) E (laid_out es ++ [] ++ o :: old)) as Hnext.
        { rewrite Hd1. apply IH; try done; [lia|rewrite zlen_cons; lia|cbn in Hn; lia]. }
        wp_cond. destruct (Z.eqb_spec (zlen (laid_out es ++ [])) 0) as [Hz|Hz]; cbn [negb].
        -- wp_steps. exact Hnext.
        -- assert (exists l, laid_out es = l ++ [0]) as [l Hl0].
           { destruct es as [|e es _] using rev_ind; [done|]. rewrite laid_out_app. exists (laid_out es ++ e).
             unfold laid_out at 2. cbn. by rewrite app_nil_r, app_assoc. }
           assert (laid_out es ++ [] ++ o :: old = l ++ 0 :: o :: old) as Hb
             by (rewrite Hl0; cbn [app]; by rewrite <- app_assoc).
           rewrite Hb in Hnext |- *. wp_steps.
           apply wp_buf_get; [rewrite Hl0, app_nil_r, zlen_app; change (zlen [0]) with 1; lia|]. wp_steps.
           change (negb (0 =? 0)) with false. cbv iota. wp_steps. exact Hnext.
      * destruct (exists_last Hcne) as (cur' & last & ->).
        assert (last <> 0) as Hl0.
        { apply Forall_app in Hcur as [_ Hcur]. apply Forall_cons in Hcur as [Hl0 _]. lia. }
        wp_cond. rewrite (proj2 (Z.eqb_neq _ 0)) by (rewrite !zlen_app; change (zlen [last]) with 1;
          pose proof (zlen_nonneg (laid_out es)); pose proof (zlen_nonneg cur'); lia). cbn [negb]. wp_steps.
        replace (laid_out es ++ (cur' ++ [last]) ++ o :: old)
          with ((laid_out es ++ cur') ++ last :: (o :: old)) by (by rewrite <- !app_assoc).
        apply wp_buf_get; [rewrite !zlen_app; change (zlen [last]) with 1; lia|]. wp_cond.
        rewrite (proj2 (Z.eqb_neq last 0)) by done. cbn [negb]. wp_steps.
        replace ((laid_out es ++ cur') ++ last :: o :: old)
          with ((laid_out es ++ cur' ++ [last]) ++ o :: old) by (by rewrite <- !app_assoc).
        apply wp_buf_set; [done|]. wp_steps.
        assert (laid_out (es ++ [cur' ++ [last]]) = laid_out es ++ (cur' ++ [last]) ++ [0]) as Hlo.
        { rewrite laid_out_app. unfold laid_out at 2. cbn. by rewrite app_nil_r. }
        assert (forall o', (laid_out es ++ cur' ++ [last]) ++ 0 :: o' =
          laid_out (es ++ [cur' ++ [last]]) ++ [] ++ o') as Hb.
        { intros o'. rewrite Hlo. by rewrite <- !app_assoc. }
        assert (zlen (laid_out es ++ cur' ++ [last]) + 1 = zlen (laid_out (es ++ [cur' ++ [last]]) ++ [])) as Hz.
        { rewrite Hlo, app_nil_r, !zlen_app. change (zlen [0]) with 1. lia. }
        rewrite Hb, Hz, Hd1. apply IH; try done; [constructor|..].
        -- rewrite Hes. rewrite <- app_assoc. destruct (cur' ++ [last]) eqn:Heq; [by destruct cur'|done].
        -- rewrite <- Hz, <- Hd1. lia.
        -- rewrite <- Hz. lia.
        -- cbn in Hn. lia.
    + wp_steps. replace (laid_out es ++ cur ++ o :: old) with ((laid_out es ++ cur) ++ o :: old)
        by (by rewrite <- app_assoc).
      apply wp_buf_set; [done|]. wp_steps.
      replace ((laid_out es ++ cur) ++ c :: old) with (laid_out es ++ (cur ++ [c]) ++ old)
        by (by rewrite <- !app_assoc).
      assert (zlen (laid_out es ++ cur) + 1 = zlen (laid_out es ++ cur ++ [c])) as Hz.
      { rewrite !zlen_app. change (zlen [c]) with 1. lia. }
      rewrite Hz, Hd1. apply IH; try done.
      -- by apply Forall_app.
      -- rewrite Hes. cbn [elements_from]. by rewrite (proj2 (Z.eqb_neq c SLASH)).
      -- rewrite <- Hz, <- Hd1. lia.
      -- rewrite <- Hz. lia.
      -- cbn in Hn. lia.
Qed.

Lemma wp_token_fill b old n E :
  zlen old = n - zlen b -> n - zlen b >= 0 ->
  wp (for_up (Z.to_nat (n - zlen b)) (zlen b) (fun j => buf_set j 0))
    (fun _ b' => b' = b ++ replicate (length old) 0) E (b ++ old).
Proof.
  intros Hold Hn. replace (Z.to_nat (n - zlen b)) with (length old) by (unfold zlen in *; lia).
  clear Hold Hn. revert b. induction old as [|o old IH]; intros b.
  - apply wp_intro. done.
  - apply wp_for_up_step. apply wp_buf_set; [done|].
    replace (b ++ 0 :: old) with ((b ++ [0]) ++ old) by (by rewrite <- app_assoc).
    replace (zlen b + 1) with (zlen (b ++ [0])) by (by rewrite zlen_app).
    eapply wp_mono; [apply IH| |done]. intros u b' ->. by rewrite <- app_assoc.
Qed.

Lemma wp_tokenize_path path post (Q : list Z -> S -> Prop) E s :
  text path ->
  (forall k, Q (laid_out (elements_of path) ++ 0 :: replicate k 0) s) ->
  wp (tokenize_path junk (path ++ 0 :: post)) Q E s.
Proof.
  intros Hp HQ. unfold tokenize_path. wp_steps. apply wp_text_len; [done|]. wp_steps. apply wp_on_buffer.
  pose proof (zlen_nonneg path). wp_steps.
  eapply wp_mono; [apply (wp_token_loop path post path [] [] [] (junk (zlen path + 2)))| |done]; try done.
  - constructor.
  - change (zlen (laid_out [] ++ [])) with 0. rewrite Hjunk by lia. lia.
  - rewrite length_app. cbn. lia.
  - intros j b (es & cur & old & -> & -> & Hc & Hes & Hl & Hl2). cbv beta. rewrite app_assoc.
    unfold token_fill. eapply wp_mono; [apply (wp_token_fill _ old); lia| |done].
    intros u b' ->. destruct old as [|o1 [|o2 old]]; [by rewrite ?zlen_cons, zlen_nil in Hl2..|].
    rewrite <- app_assoc. cbn [length replicate]. destruct cur as [|c cur].
    + rewrite app_nil_r in Hes. rewrite <- Hes. apply (HQ (Datatypes.S (length old))).
    + specialize (HQ (length old)). rewrite Hes, laid_out_app in HQ.
      unfold laid_out at 2 in HQ. cbn [map concat] in HQ. rewrite app_nil_r in HQ.
      rewrite <- !app_assoc in HQ. exact HQ.
Qed.

(** ** Following the elements *)

Lemma drop_zlen {A} (pre post : list A) : drop (Z.to_nat (zlen pre)) (pre ++ post) = post.
Proof. unfold zlen. rewrite Nat2Z.id. by rewrite drop_app_length. Qed.

Lemma element_text e : element e -> text e.
Proof. by intros (_ & He & _). Qed.

Lemma element_head e post : element e -> exists c e', e = c :: e' /\ c <> 0 /\ e ++ 0 :: post = [] ++ c :: (e' ++ 0 :: post).
Proof.
  intros (Hne & Ht & _). destruct e as [|c e]; [done|]. apply Forall_cons in Ht as [Hc _].
  exists c, e. split; [done|]. split; [lia|done].
Qed.

Lemma laid_out_cons e es post : laid_out (e :: es) ++ post = e ++ 0 :: (laid_out es ++ post).
Proof. unfold laid_out. cbn. by rewrite <- !app_assoc. Qed.

Lemma wp_push_loop k : forall es pre dir n s,
  Forall element es -> (length es < n)%nat ->
  wp (loop n (push_round (pre ++ laid_out es ++ 0 :: replicate k 0)) (zlen pre, dir))
    (fun r s' => follow_all dir es = Some r /\ s' = s)
    (fun e => e = AssertFail /\ follow_all dir es = None) s.
Proof.
  induction es as [|e es IH]; intros pre dir n s Hes Hn; (destruct n as [|n]; [cbn in Hn; lia|]);
    apply wp_loop_step; cbn [push_round]; rewrite drop_zlen.
  - wp_steps. change (laid_out [] ++ 0 :: replicate k 0) with ([] ++ 0 :: replicate k 0).
    apply wp_byte; [done|]. wp_steps. change (negb (0 =? 0)) with false. cbv iota. by wp_steps.
  - apply Forall_cons in Hes as [He Hes]. pose proof (element_text e He) as Het.
    rewrite laid_out_cons. set (post := laid_out es ++ 0 :: replicate k 0).
    destruct (element_head e post He) as (c & e' & Hec & Hc0 & Hbyte). wp_steps. rewrite Hbyte at 1.
    apply wp_byte; [done|]. wp_steps. rewrite (proj2 (Z.eqb_neq c 0)) by done. cbn [negb]. wp_steps.
    apply wp_text_len; [done|]. wp_steps.
    assert (forall d, wp (loop n (push_round (pre ++ e ++ 0 :: post)) (zlen pre + (zlen e + 1), d))
      (fun r s' => follow_all d es = Some r /\ s' = s) (fun x => x = AssertFail /\ follow_all d es = None) s) as Hnext.
    { intros d. specialize (IH (pre ++ e ++ [0]) d n s Hes ltac:(cbn in Hn; lia)).
      rewrite <- !app_assoc in IH. cbn [app] in IH. rewrite !zlen_app in IH. exact IH. }
    change [DOT; DOT; 0] with ([DOT; DOT] ++ 0 :: []). change 3 with (zlen [DOT; DOT] + 1).
    apply wp_same_bytes; [done|by repeat constructor|]. cbn [follow_all]. unfold follow.
    wp_cond. destruct (bool_decide_reflect (e = [DOT; DOT])) as [Hdd|Hdd].
    + wp_cond. destruct dir as [|d dir]; [by rewrite bool_decide_eq_true_2|].
      rewrite bool_decide_eq_false_2 by done. cbn [negb]. wp_steps. apply Hnext.
    + wp_steps. change [DOT; 0] with ([DOT] ++ 0 :: []). change 2 with (zlen [DOT] + 1).
      apply wp_same_bytes; [done|by repeat constructor|].
      wp_cond. destruct (bool_decide_reflect (e = [DOT])) as [Hd|Hd]; wp_steps; [apply Hnext|].
      apply wp_strndup; [done|lia|]. wp_steps. apply Hnext.
Qed.

Lemma wp_push_path path post dir s :
  text path ->
  wp (canonicalize_path_push_path junk (path ++ 0 :: post) dir)
    (fun r s' => follow_all dir (elements_of path) = Some r /\ s' = s)
    (fun e => e = AssertFail /\ follow_all dir (elements_of path) = None) s.
Proof.
  intros Hp. unfold canonicalize_path_push_path. wp_steps. apply wp_tokenize_path; [done|]. intros k.
  apply (wp_push_loop k _ []); [by apply elements_of_element|].
  rewrite length_app. unfold laid_out. clear. induction (elements_of path) as [|e es IH]; cbn in *; [lia|].
  rewrite !length_app. cbn. lia.
Qed.

Lemma wp_parent_loop k : forall es pre dir n s E,
  Forall element es -> (length es < n)%nat ->
  wp (loop n (parent_round (pre ++ laid_out es ++ 0 :: replicate k 0)) (zlen pre, dir))
    (fun r s' => r = dir ++ es /\ s' = s) E s.
Proof.
  induction es as [|e es IH]; intros pre dir n s E Hes Hn; (destruct n as [|n]; [cbn in Hn; lia|]);
    apply wp_loop_step; cbn [parent_round]; rewrite drop_zlen.
  - wp_steps. change (laid_out [] ++ 0 :: replicate k 0) with ([] ++ 0 :: replicate k 0).
    apply wp_byte; [done|]. wp_steps. change (negb (0 =? 0)) with false. cbv iota. wp_steps. by rewrite app_nil_r.
  - apply Forall_cons in Hes as [He Hes]. pose proof (element_text e He) as Het.
    rewrite laid_out_cons. set (post := laid_out es ++ 0 :: replicate k 0).
    destruct (element_head e post He) as (c & e' & Hec & Hc0 & Hbyte). wp_steps. rewrite Hbyte at 1.
    apply wp_byte; [done|]. wp_steps. rewrite (proj2 (Z.eqb_neq c 0)) by done. cbn [negb]. wp_steps.
    apply wp_text_len; [done|]. wp_steps. apply wp_strndup; [done|lia|]. wp_steps.
    specialize (IH (pre ++ e ++ [0]) (dir ++ [e]) n s E Hes ltac:(cbn in Hn; lia)).
    rewrite <- !app_assoc in IH. cbn [app] in IH. rewrite !zlen_app in IH. exact IH.
Qed.

Lemma laid_out_length es : (length es <= length (laid_out es))%nat.
Proof. induction es as [|e es IH]; [done|]. unfold laid_out in *. cbn. rewrite !length_app. cbn. lia. Qed.

Lemma follow_all_element es : forall dir d,
  Forall element es -> Forall element dir -> follow_all dir es = Some d -> Forall element d.
Proof.
  induction es as [|e es IH]; intros dir d Hes Hdir Hf; cbn in Hf; [by injection Hf as <-|].
  apply Forall_cons in Hes as [He Hes]. destruct (follow dir e) as [d'|] eqn:Hfe; [|done].
  apply (IH d'); [done| |done].
  assert (Forall element (removelast dir)) as Hr by (rewrite removelast_firstn_len; by apply Forall_take).
  unfold follow in Hfe. case_bool_decide; [|case_bool_decide].
  - destruct dir; [done|]. injection Hfe as <-. exact Hr.
  - by injection Hfe as <-.
  - injection Hfe as <-. apply Forall_app. split; [done|]. by apply Forall_singleton.
Qed.

Lemma wp_copy_elements elements k s E :
  Forall element elements -> (k <= length elements)%nat ->
  wp (copy_elements elements k) (fun r s' => r = take k elements /\ s' = s) E s.
Proof.
  intros Hes Hk. unfold copy_elements.
  assert (forall n i, (length elements - i < n)%nat -> (i <= length elements)%nat -> (i <= k)%nat -> (k <= length elements)%nat ->
    wp (loop n (fun '(i, l) =>
      if (i <? k)%nat then
        let! value := some (elements !! i) in
        let! len := strlen (value ++ [0]) in
        let value_len := len + 1 in
        kassert (negb (value_len =? 1)) >>>
        ret (inl (Datatypes.S i, l ++ [take (Z.to_nat len) value]))
      else ret (inr l)) (i, take i elements)) (fun r s' => r = take k elements /\ s' = s) E s) as Hgo.
  { induction n as [|n IH]; intros i Hn Hi Hik Hkl; [lia|]. apply wp_loop_step. wp_cond.
    destruct (Nat.ltb_spec i k) as [Hlt|Hge].
    - destruct (lookup_lt_is_Some_2 elements i) as [e He]; [lia|]. wp_cond. rewrite He.
      pose proof (proj1 (Forall_lookup _ _) Hes i e He) as Hel. pose proof (element_text e Hel) as Ht.
      wp_steps. apply wp_text_len; [done|]. wp_steps. cbv zeta. wp_cond. destruct Hel as (Hne & _).
      assert (0 < zlen e) by (destruct e; [done|]; rewrite zlen_cons; pose proof (zlen_nonneg e); lia).
      rewrite (proj2 (Z.eqb_neq _ 1)) by lia. cbn [negb]. wp_steps.
      assert (take (Z.to_nat (zlen e)) e = e) as ->.
      { pose proof (take_zlen e []) as Htz. by rewrite app_nil_r in Htz. }
      rewrite <- (take_S_r elements i e He). apply IH; lia.
    - wp_steps. by replace i with k by lia. }
  apply (Hgo _ 0%nat); lia.
Qed.

(** The theorem's content, with the elements being elements. *)
Lemma canonicalize_follows (parent relative_path post post' : list Z) s :
  text parent -> text relative_path ->
  wp (canonicalize_path_list junk (parent ++ 0 :: post) (relative_path ++ 0 :: post'))
    (fun r s' => canonical parent relative_path = Some r /\ Forall element r /\ s' = s)
    (fun e => e = AssertFail /\ canonical parent relative_path = None) s.
Proof.
  intros Hp Hr.
  assert (forall r, canonical parent relative_path = Some r -> Forall element r) as Hel.
  { intros r. unfold canonical. apply follow_all_element; [by apply elements_of_element|].
    destruct relative_path as [|c rest]; [constructor|].
    destruct (c =? SLASH); [constructor|by apply elements_of_element]. }
  apply (wp_mono _ (fun r s' => canonical parent relative_path = Some r /\ s' = s) _
    (fun e => e = AssertFail /\ canonical parent relative_path = None)); [|intros r s' [Hc ->]; auto|done].
  unfold canonicalize_path_list, canonical. wp_steps. apply wp_text_len; [done|]. wp_steps.
  destruct relative_path as [|c rest].
  - change (0 <? zlen []) with false. cbn [andb]. wp_steps. apply (wp_push_path []). constructor.
  - rewrite (proj2 (Z.ltb_lt 0 _)) by (rewrite zlen_cons; pose proof (zlen_nonneg rest); lia). cbn [andb].
    change ((c :: rest) ++ 0 :: post') with ([] ++ c :: (rest ++ 0 :: post')) at 1. apply wp_byte; [done|].
    wp_steps. destruct (Z.eqb_spec c SLASH) as [->|Hne]; cbn [negb]; wp_steps.
    + by apply (wp_push_path (SLASH :: rest)).
    + apply wp_tokenize_path; [done|]. intros k. wp_steps.
      eapply wp_mono; [apply (wp_parent_loop k _ [] [] _ s never); [by apply elements_of_element|]| |by intros e []].
      { rewrite length_app. pose proof (laid_out_length (elements_of parent)). cbn. lia. }
      intros r s' [-> ->]. by apply (wp_push_path (c :: rest)).
Qed.

(** C17. Canonicalising a path: the elements that [canonicalize_path_list]
    answers are where the relative path leads from the parent (or from the
    root when it starts with a slash): empty elements and "." stay, ".." goes
    up.  An element ".." in the root fails the assertion, and nothing else
    does; no read leaves a string and no write leaves a buffer, whatever the
    buffers held. *)
Theorem canonicalize_path_follows (parent relative_path post post' : list Z) s :
  text parent -> text relative_path ->
  wp (canonicalize_path_list junk (parent ++ 0 :: post) (relative_path ++ 0 :: post'))
    (fun r s' => canonical parent relative_path = Some r /\ s' = s)
    (fun e => e = AssertFail /\ canonical parent relative_path = None) s.
Proof.
  intros Hp Hr. eapply wp_mono; [by apply canonicalize_follows| |done].
  by intros r s' (Hc & _ & ->).
Qed.
End token_lemmas.

Section witness.
Local Open Scope Z_scope.

(** "/usr/bin" and "../lib//./x". *)
Definition sample_parent : list Z := [47; 117; 115; 114; 47; 98; 105; 110].
Definition sample_relative : list Z := [46; 46; 47; 108; 105; 98; 47; 47; 46; 47; 120].

Lemma canonicalize_path_follows_witness :
  text sample_parent /\
  wp (canonicalize_path_list (fun n => replicate (Z.to_nat n) 170) (sample_parent ++ [0]) (sample_relative ++ [0]))
    (fun r s' => r = [[117; 115; 114]; [108; 105; 98]; [120]] /\ s' = 5) never 5.
Proof.
  split; [repeat (constructor; [lia|]); constructor|].
  eapply wp_mono; [apply (canonicalize_path_follows (fun n => replicate (Z.to_nat n) 170) ) with
    (parent := sample_parent) (relative_path := sample_relative)| |].
  - intros n Hn. unfold zlen. rewrite length_replicate. lia.
  - repeat (constructor; [lia|]). constructor.
  - repeat (constructor; [lia|]). constructor.
  - intros r s' [Hr ->]. split; [|reflexivity]. vm_compute in Hr. by injection Hr.
  - intros e [_ He]. vm_compute in He. discriminate.
Defined.
End witness.
