(* ===== verification/Fs.v ===== *)
(** * The virtual file system (kernel/fs.c)

    Nodes and mounts are objects of the kernel heap with reference counts; a
    node's operations are the handlers of its driver, named by a type [Hd] and
    run through the class [Handlers] (the drivers are in file Drivers).
    [int32_t] reference counts do not wrap here: a signed overflow is
    undefined in C. *)
From S2P Require Import Prelude Interfaces FsPath.

Definition FS_NODE_FILE : Z := 0x01.
Definition FS_NODE_DIRECTORY : Z := 0x02.
Definition FS_NODE_CHARDEVICE : Z := 0x04.
Definition FS_NODE_SYMLINK : Z := 0x20.

(** [uint32_t] -1. *)
Definition MINUS_1 : Z := 2 ^ 32 - 1.

Record fs_node_t (Hd : Type) : Type := FsNode {
  n_name : list Z;
  n_flags : Z;
  n_object : Z;
  n_length : Z;
  n_read : option Hd;
  n_write : option Hd;
  n_open : option Hd;
  n_close : option Hd;
  n_readdir : option Hd;
  n_finddir : option Hd;
  n_create : option Hd;
  n_unlink : option Hd;
  n_readlink : option Hd;
  n_mkdir : option Hd;
  n_refcount : Z;
}.
Arguments FsNode {Hd} _ _ _ _ _ _ _ _ _ _ _ _ _ _ _.
Arguments n_name {Hd} _.
Arguments n_flags {Hd} _.
Arguments n_object {Hd} _.
Arguments n_length {Hd} _.
Arguments n_read {Hd} _.
Arguments n_write {Hd} _.
Arguments n_open {Hd} _.
Arguments n_close {Hd} _.
Arguments n_readdir {Hd} _.
Arguments n_finddir {Hd} _.
Arguments n_create {Hd} _.
Arguments n_unlink {Hd} _.
Arguments n_readlink {Hd} _.
Arguments n_mkdir {Hd} _.
Arguments n_refcount {Hd} _.

(** [fs_mount_t]; [m_mounts] lists the submounts. *)
Record fs_mount_t : Type := FsMount {
  m_element : list Z;
  m_node : Z;
  m_mounts : list Z;
  m_refcount : Z;
}.

(** [struct dirent]. *)
Record dirent : Type := Dirent { d_ino : Z; d_name : list Z }.

Record fstate (H D Hd : Type) : Type := FState {
  f_heap : H;
  f_nodes : gmap Z (fs_node_t Hd);
  f_mounts : gmap Z fs_mount_t;
  f_root : Z;
  f_drv : D;
}.
Arguments FState {H D Hd} _ _ _ _ _.
Arguments f_heap {H D Hd} _.
Arguments f_nodes {H D Hd} _.
Arguments f_mounts {H D Hd} _.
Arguments f_root {H D Hd} _.
Arguments f_drv {H D Hd} _.

(** The operations a node can have: [read] answers the count and the bytes
    it left at the start of the buffer, [readlink] likewise. *)
Class Handlers (S Hd : Type) : Type := {
  call_read : Hd -> Z -> Z -> Z -> M S (Z * list Z);
  call_write : Hd -> Z -> Z -> Z -> list Z -> M S Z;
  call_open : Hd -> Z -> Z -> M S unit;
  call_close : Hd -> Z -> M S unit;
  call_readdir : Hd -> Z -> Z -> M S (option dirent);
  call_finddir : Hd -> Z -> list Z -> M S Z;
  call_create : Hd -> Z -> list Z -> Z -> M S unit;
  call_unlink : Hd -> Z -> option (list Z) -> M S Z;
  call_readlink : Hd -> Z -> Z -> M S (Z * list Z);
  call_mkdir : Hd -> Z -> list Z -> Z -> M S unit;
}.

Section nodes.
Context {H D Hd : Type} `{KHeap H}.
Abbreviation St := (fstate H D Hd).

Definition set_nodes (n : gmap Z (fs_node_t Hd)) (s : St) : St :=
  FState (f_heap s) n (f_mounts s) (f_root s) (f_drv s).
Definition set_mounts (m : gmap Z fs_mount_t) (s : St) : St :=
  FState (f_heap s) (f_nodes s) m (f_root s) (f_drv s).
Definition set_root (r : Z) (s : St) : St :=
  FState (f_heap s) (f_nodes s) (f_mounts s) r (f_drv s).
Definition set_drv (d : D) (s : St) : St :=
  FState (f_heap s) (f_nodes s) (f_mounts s) (f_root s) d.
Definition fs_heap : lens St H :=
  Lens f_heap (fun h s => FState h (f_nodes s) (f_mounts s) (f_root s) (f_drv s)).

Definition node_at (p : Z) : M St (fs_node_t Hd) :=
  let! m := gets f_nodes in some (m !! p).
Definition upd_node (p : Z) (f : fs_node_t Hd -> fs_node_t Hd) : M St unit :=
  let! x := node_at p in modify (fun s => set_nodes (<[p := f x]> (f_nodes s)) s).
Definition mount_at (p : Z) : M St fs_mount_t :=
  let! m := gets f_mounts in some (m !! p).
Definition upd_mount (p : Z) (f : fs_mount_t -> fs_mount_t) : M St unit :=
  let! x := mount_at p in modify (fun s => set_mounts (<[p := f x]> (f_mounts s)) s).

(** What [kcalloc] leaves: no handlers, no references. *)
Definition zero_node : fs_node_t Hd :=
  FsNode [] 0 0 0 None None None None None None None None None None 0.
Definition set_refcount (n : Z) (x : fs_node_t Hd) : fs_node_t Hd :=
  FsNode (n_name x) (n_flags x) (n_object x) (n_length x) (n_read x) (n_write x) (n_open x)
    (n_close x) (n_readdir x) (n_finddir x) (n_create x) (n_unlink x) (n_readlink x) (n_mkdir x) n.
Definition set_object (o : Z) (x : fs_node_t Hd) : fs_node_t Hd :=
  FsNode (n_name x) (n_flags x) o (n_length x) (n_read x) (n_write x) (n_open x)
    (n_close x) (n_readdir x) (n_finddir x) (n_create x) (n_unlink x) (n_readlink x) (n_mkdir x) (n_refcount x).

(** [sizeof(fs_node_t)] is 312. *)
Definition fs_node_new : M St Z :=
  let! p := zoom fs_heap (kcalloc 312) in
  if p =? 0 then ret 0
  else
    modify (fun s => set_nodes (<[p := set_refcount 1 zero_node]> (f_nodes s)) s) >>>
    ret p.

Definition fs_node_reference (node : Z) : M St Z :=
  kassert (negb (node =? 0)) >>>
  let! x := node_at node in
  kassert (negb (n_refcount x =? 0)) >>>
  (if 0 <? n_refcount x then upd_node node (set_refcount (n_refcount x + 1)) else ret tt) >>>
  ret node.
End nodes.

(** ** The operations of fs.c *)

Section ops.
Context {H D Hd : Type} `{KHeap H}.
Abbreviation St := (fstate H D Hd).
Context `{Handlers (fstate H D Hd) Hd}.
Variable junk : Z -> list Z.

(** Answers the caller's pointer, NULL once the node is gone. *)
Definition fs_node_free (node : Z) : M St Z :=
  kassert (negb (node =? 0)) >>>
  let! x := node_at node in
  kassert (n_refcount x =? 0) >>>
  match n_close x with Some h => call_close h node | None => ret tt end >>>
  zoom fs_heap (kfree node) >>>
  modify (fun s => set_nodes (delete node (f_nodes s)) s) >>>
  ret 0.

Definition fs_node_release (node : Z) : M St Z :=
  kassert (negb (node =? 0)) >>>
  let! x := node_at node in
  if 0 <? n_refcount x then
    upd_node node (set_refcount (n_refcount x - 1)) >>>
    if n_refcount x - 1 =? 0 then fs_node_free node else ret node
  else ret node.

(** *** Mounts *)

Definition set_mount_ref (n : Z) (m : fs_mount_t) : fs_mount_t :=
  FsMount (m_element m) (m_node m) (m_mounts m) n.

(** [sizeof(fs_mount_t)] is 16; [list_init] asserts that it succeeds. *)
Definition fs_mount_new : M St Z :=
  let! p := zoom fs_heap (kcalloc 16) in
  if p =? 0 then ret 0
  else
    modify (fun s => set_mounts (<[p := FsMount [] 0 [] 1]> (f_mounts s)) s) >>>
    ret p.

Definition fs_mount_free (mount : Z) : M St Z :=
  kassert (negb (mount =? 0)) >>>
  let! m := mount_at mount in
  kassert (m_refcount m =? 0) >>>
  kassert (bool_decide (m_mounts m = [])) >>>
  zoom fs_heap (kfree mount) >>>
  modify (fun s => set_mounts (delete mount (f_mounts s)) s) >>>
  ret 0.

Definition fs_mount_reference (mount : Z) : M St Z :=
  let! m := mount_at mount in
  (if 0 <? m_refcount m then upd_mount mount (set_mount_ref (m_refcount m + 1)) else ret tt) >>>
  ret mount.

Definition fs_mount_release (mount : Z) : M St Z :=
  kassert (negb (mount =? 0)) >>>
  let! m := mount_at mount in
  kassert (negb (m_refcount m =? 0)) >>>
  if 0 <? m_refcount m then
    upd_mount mount (set_mount_ref (m_refcount m - 1)) >>>
    if m_refcount m - 1 =? 0 then fs_mount_free mount else ret mount
  else ret mount.

(** *** Calling a node's driver *)

Definition fs_open (node flags : Z) : M St unit :=
  kassert (negb (node =? 0)) >>>
  fs_node_reference node >>>
  let! x := node_at node in
  match n_open x with Some h => call_open h node flags | None => ret tt end.

Definition fs_close (node : Z) : M St Z := fs_node_release node.

Definition fs_read (node offset size : Z) : M St (Z * list Z) :=
  kassert (negb (node =? 0)) >>>
  let! x := node_at node in
  match n_read x with Some h => call_read h node offset size | None => ret (MINUS_1, []) end.

Definition fs_write (node offset size : Z) (buffer : list Z) : M St Z :=
  kassert (negb (node =? 0)) >>>
  let! x := node_at node in
  match n_write x with Some h => call_write h node offset size buffer | None => ret MINUS_1 end.

Definition has_flag (x : fs_node_t Hd) (flag : Z) : bool := negb (Z.land (n_flags x) flag =? 0).

Definition fs_readdir (node i : Z) : M St (option dirent) :=
  kassert (negb (node =? 0)) >>>
  let! x := node_at node in
  match n_readdir x with
  | Some h => if has_flag x FS_NODE_DIRECTORY then call_readdir h node i else ret None
  | None => ret None
  end.

Definition fs_finddir (node : Z) (name : list Z) : M St Z :=
  kassert (negb (node =? 0)) >>>
  let! x := node_at node in
  match n_finddir x with
  | Some h => if has_flag x FS_NODE_DIRECTORY then call_finddir h node name else ret 0
  | None => ret 0
  end.

Definition fs_create (node : Z) (name : list Z) (permissions : Z) : M St unit :=
  kassert (negb (node =? 0)) >>>
  let! x := node_at node in
  match n_create x with
  | Some h => if has_flag x FS_NODE_DIRECTORY then call_create h node name permissions else ret tt
  | None => ret tt
  end.

Definition fs_unlink (node : Z) (name : option (list Z)) : M St Z :=
  kassert (negb (node =? 0)) >>>
  let! x := node_at node in
  match n_unlink x with
  | Some h => if has_flag x FS_NODE_DIRECTORY then call_unlink h node name else ret (-1)
  | None => ret (-1)
  end.

(** [buf] is not NULL. *)
Definition fs_readlink (node size : Z) : M St (Z * list Z) :=
  kassert (negb (node =? 0)) >>>
  let! x := node_at node in
  match n_readlink x with
  | Some h => if has_flag x FS_NODE_SYMLINK then call_readlink h node size else ret (-1, [])
  | None => ret (-1, [])
  end.

Definition fs_mkdir (node : Z) (name : list Z) (permission : Z) : M St unit :=
  kassert (negb (node =? 0)) >>>
  let! x := node_at node in
  match n_mkdir x with
  | Some h => if has_flag x FS_NODE_DIRECTORY then call_mkdir h node name permission else ret tt
  | None => ret tt
  end.

(** *** The mount graph *)

Definition fs_mount_root (node : Z) : M St unit :=
  let! r := gets f_root in
  kassert (r =? 0) >>>
  kassert (negb (node =? 0)) >>>
  let! mount := fs_mount_new in
  kassert (negb (mount =? 0)) >>>
  modify (set_root mount) >>>
  let! n := fs_node_reference node in
  upd_mount mount (fun m => FsMount [SLASH] n (m_mounts m) (m_refcount m)).

Definition fs_mount_submount (parent node : Z) (path_element : list Z) : M St Z :=
  kassert (negb (parent =? 0)) >>>
  kassert (negb (node =? 0)) >>>
  let! mount := fs_mount_new in
  kassert (negb (mount =? 0)) >>>
  upd_mount mount (fun m => FsMount path_element (m_node m) (m_mounts m) (m_refcount m)) >>>
  let! n := fs_node_reference node in
  upd_mount mount (fun m => FsMount (m_element m) n (m_mounts m) (m_refcount m)) >>>
  let! child := fs_mount_reference mount in
  upd_mount parent (fun m => FsMount (m_element m) (m_node m) (m_mounts m ++ [child]) (m_refcount m)) >>>
  ret mount.

Definition fs_unmount : M St unit := fail AssertFail.

(** The submount named [subpath], or 0. *)
Definition findmount (parent : Z) (subpath : list Z) : M St Z :=
  kassert (negb (parent =? 0)) >>>
  let! p := mount_at parent in
  let! subpath_len := strlen (subpath ++ [0]) in
  let! r := for_ret (length (m_mounts p)) 0 (fun i =>
    let! mount := some (zlookup (m_mounts p) i) in
    let! m := mount_at mount in
    let! same := same_bytes (m_element m ++ [0]) (subpath ++ [0]) (subpath_len + 1) in
    ret (if same then Some mount else None)) in
  ret (match r with Some mount => mount | None => 0 end).

(** Follows the elements as long as they are mounts; answers the elements
    that are left and the mount. *)
Definition walk_mount_graph (elements : list (list Z)) (mount : Z) : M St (list (list Z) * Z) :=
  loop (S (length elements)) (fun '(elements, mount) =>
    match elements with
    | [] => ret (inr (elements, mount))
    | e :: elements' =>
        let! new_mount := findmount mount e in
        if new_mount =? 0 then ret (inr (elements, mount)) else ret (inl (elements', new_mount))
    end) (elements, mount).

(** *** Finding files *)

(** One element; [rec] is [findfile_recursive] at the next level. *)
Definition find_round (rec : list (list Z) -> Z -> M St Z) (elements : list (list Z)) (st : nat * Z) :
    M St (nat * Z + Z) :=
  let '(k, node) := st in
  match elements !! k with
  | None => ret (inr node)
  | Some element =>
      let! next_node := fs_finddir node element in
      fs_node_release node >>>
      if next_node =? 0 then ret (inr 0)
      else
        let node := next_node in
        let! x := node_at node in
        if has_flag x FS_NODE_SYMLINK then
          let! r := fs_readlink node 256 in
          let '(len, written) := r in
          if len <? 0 then fail AssertFail
          else
            let buf := written ++ drop (length written) (junk 256) in
            let! c := byte buf len in
            kassert (c =? 0) >>>
            let! l := copy_elements elements k in
            let! l := canonicalize_path_push_path junk buf l in
            let! root := gets f_root in
            let! w := walk_mount_graph l root in
            let '(l, mount) := w in
            let! m := mount_at mount in
            let! next_node := rec l (m_node m) in
            fs_node_release node >>>
            if negb (next_node =? 0) then ret (inl (S k, next_node)) else ret (inr 0)
        else ret (inl (S k, node))
  end.

Fixpoint findfile_recursive (fuel : nat) (elements : list (list Z)) (root_node level : Z) : M St Z :=
  match fuel with
  | O => fail NoFuel
  | S fuel' =>
      kassert (negb (root_node =? 0)) >>>
      if 10 <=? level then ret 0
      else
        let! node := fs_node_reference root_node in
        loop (S (length elements))
          (find_round (fun l r => findfile_recursive fuel' l r (level + 1)) elements) (0%nat, node)
  end.

(** Levels 0 to 10. *)
Definition findfile (root relative_path : list Z) : M St Z :=
  let! l := canonicalize_path_list junk root relative_path in
  let! r := gets f_root in
  let! w := walk_mount_graph l r in
  let '(l, mount) := w in
  let! m := mount_at mount in
  findfile_recursive 11 l (m_node m) 0.

(** [path] points to a C string. *)
Definition kopen (path : list Z) (flags : Z) : M St Z :=
  let! is_root := same_bytes path [SLASH; 0] 2 in
  let! node :=
    (if is_root then
       let! r := gets f_root in
       if negb (r =? 0) then let! m := mount_at r in fs_node_reference (m_node m) else ret 0
     else findfile [SLASH; 0] path) in
  if node =? 0 then ret 0
  else
    fs_open node flags >>>
    fs_node_release node.

Definition kmount (path : list Z) (node : Z) : M St bool :=
  kassert (negb (node =? 0)) >>>
  let! elements := tokenize_path_list path in
  if (length elements <? 1)%nat then ret false
  else
    let! mount_element := some (last elements) in
    let! r := gets f_root in
    let! w := walk_mount_graph elements r in
    let '(elements, parent1) := w in
    if bool_decide (elements = []) then ret false
    else if (length elements =? 1)%nat then
      let! submount := fs_mount_submount parent1 node mount_element in
      if submount =? 0 then ret false
      else
        let! m := mount_at submount in
        kassert (m_refcount m =? 2) >>>
        fs_mount_release submount >>>
        ret true
    else fail AssertFail.
End ops.

(** ** What a driver promises *)

Section laws.
Context {H D Hd : Type} `{KHeapLaws H}.
Abbreviation St := (fstate H D Hd).
Abbreviation node := (fs_node_t Hd).
Context `{!Handlers (fstate H D Hd) Hd}.

(** Nodes are live heap objects that somebody references. *)
Definition fs_ok (s : St) : Prop :=
  heap_ok (f_heap s) /\
  forall p x, f_nodes s !! p = Some x -> p ∈ heap_live (f_heap s) /\ n_refcount x <> 0.

(** The files behind the nodes.  [node_file s p]: the file that node [p] stands
    for; [finds s a name]: what directory [a] holds under [name]; [links s a]:
    where the symbolic link [a] leads, [None] when it cannot be read;
    [contents s]: the bytes that the files and the devices hold.
    [is_entry a]: nodes for [a] come out of directories, one per lookup. *)
Class FsDriver : Type := {
  file : Type;
  drv_ok : St -> Prop;
  node_file : St -> Z -> option file;
  is_dir : file -> bool;
  is_link : file -> bool;
  is_entry : file -> bool;
  finds : St -> file -> list Z -> option file;
  links : St -> file -> option (list Z);
  data : Type;
  contents : St -> data;
}.

(** The mounts, what every directory holds, where every link leads and the
    bytes of every file are in [s'] what they are in [s], and the nodes in
    [nodes] stand for the same files. *)
Definition env `{FsDriver} (nodes : gmap Z node) (s s' : St) : Prop :=
  fs_ok s' /\ drv_ok s' /\ f_mounts s' = f_mounts s /\ f_root s' = f_root s /\ contents s' = contents s /\
  (forall a n, finds s' a n = finds s a n) /\
  (forall a, links s' a = links s a) /\
  (forall p, is_Some (nodes !! p) -> node_file s' p = node_file s p).

Class FsDriverLaws `{FsDriver} : Prop := {
  law_kind (s : St) p x a :
    drv_ok s -> f_nodes s !! p = Some x -> node_file s p = Some a ->
    (is_dir a = match n_finddir x with Some _ => has_flag x FS_NODE_DIRECTORY | None => false end) /\
    is_link a = has_flag x FS_NODE_SYMLINK;
  law_finddir (s : St) p x h name a :
    fs_ok s -> drv_ok s -> f_nodes s !! p = Some x -> n_finddir x = Some h ->
    node_file s p = Some a -> is_dir a = true -> element name ->
    wp (call_finddir h p name) (fun r s' => env (f_nodes s) s s' /\
      match finds s a name with
      | None => r = 0 /\ f_nodes s' = f_nodes s
      | Some b => is_entry b = true /\ r <> 0 /\ f_nodes s !! r = None /\ node_file s' r = Some b /\
          exists y, f_nodes s' = <[r := y]> (f_nodes s) /\ n_refcount y = 1
      end) only_nomem s;
  law_readlink (s : St) p x h a :
    fs_ok s -> drv_ok s -> f_nodes s !! p = Some x -> n_readlink x = Some h ->
    node_file s p = Some a -> is_link a = true ->
    wp (call_readlink h p 256) (fun r s' => env (f_nodes s) s s' /\ f_nodes s' = f_nodes s /\
      match links s a with
      | Some t => r = (zlen t, t ++ [0]) /\ text t
      | None => fst r < 0
      end) never s;
  law_no_readlink (s : St) p x a :
    drv_ok s -> f_nodes s !! p = Some x -> node_file s p = Some a -> is_link a = true ->
    n_readlink x = None -> links s a = None;
  law_open (s : St) p x h flags :
    fs_ok s -> drv_ok s -> f_nodes s !! p = Some x -> n_open x = Some h ->
    wp (call_open h p flags) (fun _ s' => env (f_nodes s) s s' /\ f_nodes s' = f_nodes s) never s;
  (** The last reference to node [p] is gone: [close] runs, then the node is freed. *)
  law_close (s : St) p x a :
    fs_ok s -> drv_ok s -> f_nodes s !! p = Some x -> 0 < n_refcount x ->
    node_file s p = Some a -> is_entry a = true ->
    wp (match n_close x with Some h => call_close h p | None => ret tt end)
      (fun _ s' => p ∈ heap_live (f_heap s') /\ heap_ok (f_heap s') /\
        (exists y, f_nodes s' = <[p := y]> (f_nodes s)) /\
        forall h', heap_ok h' -> heap_live h' = heap_live (f_heap s') ∖ {[ p ]} ->
          env (delete p (f_nodes s)) s (lset fs_heap h' (set_nodes (delete p (f_nodes s)) s')))
      never (set_nodes (<[p := set_refcount 0 x]> (f_nodes s)) s);
  law_refcount (s : St) p x n :
    fs_ok s -> drv_ok s -> f_nodes s !! p = Some x -> 0 < n_refcount x -> 0 < n ->
    env (f_nodes s) s (set_nodes (<[p := set_refcount n x]> (f_nodes s)) s);
}.
End laws.
Arguments FsDriver : clear implicits.

(** ** References *)

Section proofs.
Context {H D Hd : Type} `{KHeapLaws H}.
Abbreviation St := (fstate H D Hd).
Abbreviation node := (fs_node_t Hd).
Context `{!Handlers (fstate H D Hd) Hd} `{!FsDriver H D Hd} `{!FsDriverLaws}.
Variable junk : Z -> list Z.
Hypothesis Hjunk : forall n, 0 <= n -> zlen (junk n) = n.
Implicit Types (s : St) (x y : node).

Lemma env_refl nodes s : fs_ok s -> drv_ok s -> env nodes s s.
Proof. done. Qed.

Lemma env_trans nodes s1 s2 s3 : env nodes s1 s2 -> env nodes s2 s3 -> env nodes s1 s3.
Proof.
  intros (A1 & A2 & A3 & A4 & A0 & A5 & A6 & A7) (B1 & B2 & B3 & B4 & B0 & B5 & B6 & B7).
  split; [done|]. split; [done|]. split; [congruence|]. split; [congruence|]. split; [congruence|].
  split; [intros; by rewrite B5|]. split; intros; [by rewrite B6|]. by rewrite B7, A7.
Qed.

Lemma env_mono nodes nodes' s s' :
  (forall p, is_Some (nodes' !! p) -> is_Some (nodes !! p)) -> env nodes s s' -> env nodes' s s'.
Proof. intros Hn (A1 & A2 & A3 & A4 & A0 & A5 & A6 & A7). repeat (split; [done|]). auto. Qed.

Lemma set_refcount_same x : set_refcount (n_refcount x) x = x.
Proof. by destruct x. Qed.

Lemma node_nonzero s p x : fs_ok s -> f_nodes s !! p = Some x -> p <> 0.
Proof. intros [Hh Hn] Hp. destruct (Hn p x Hp) as [Hl _]. pose proof (heap_live_range _ p Hh Hl). lia. Qed.

Lemma wp_node_at s p x (Q : node -> St -> Prop) E :
  f_nodes s !! p = Some x -> Q x s -> wp (node_at p) Q E s.
Proof. intros Hp HQ. unfold node_at. wp_cond. by rewrite Hp. Qed.

Lemma wp_upd_fs_node s p x f (Q : unit -> St -> Prop) E :
  f_nodes s !! p = Some x -> Q tt (set_nodes (<[p := f x]> (f_nodes s)) s) -> wp (upd_node p f) Q E s.
Proof. intros Hp HQ. unfold upd_node. wp_steps. apply (wp_node_at s p x); [done|]. by wp_steps. Qed.

(** [p] with one reference more, unless it is immortal. *)
Definition bump (p : Z) x (nodes : gmap Z node) : gmap Z node :=
  if 0 <? n_refcount x then <[p := set_refcount (n_refcount x + 1) x]> nodes else nodes.

Lemma bump_dom p x nodes q : nodes !! p = Some x -> is_Some (bump p x nodes !! q) <-> is_Some (nodes !! q).
Proof.
  intros Hp. unfold bump. destruct (0 <? n_refcount x); [|done]. destruct (decide (p = q)) as [->|Hne].
  - rewrite lookup_insert_eq, Hp. split; intros _; by eexists.
  - by rewrite lookup_insert_ne.
Qed.

Lemma wp_fs_node_reference s p x E :
  fs_ok s -> drv_ok s -> f_nodes s !! p = Some x ->
  wp (fs_node_reference p) (fun r s' => r = p /\ env (f_nodes s) s s' /\ f_nodes s' = bump p x (f_nodes s)) E s.
Proof.
  intros Hok Hdr Hp. unfold fs_node_reference. wp_cond.
  rewrite (proj2 (Z.eqb_neq p 0)) by (by eapply node_nonzero). cbn [negb]. wp_steps.
  apply (wp_node_at s p x); [done|]. wp_cond. destruct (proj2 Hok p x Hp) as [_ Hr].
  rewrite (proj2 (Z.eqb_neq _ 0)) by done. cbn [negb]. unfold bump. wp_cond.
  destruct (Z.ltb_spec 0 (n_refcount x)).
  - apply (wp_upd_fs_node s p x); [done|]. wp_steps. split; [done|]. split; [|done].
    apply law_refcount; [done..|lia].
  - wp_steps. split; [done|]. split; [|done]. by apply env_refl.
Qed.

(** What a path leads to: the root node of a mount, or a file with a node of
    its own. *)
Inductive target : Type :=
  | TMount (p : Z)
  | TFile (a : file).

(** The caller holds a reference [r] to [t] on top of [nodes]. *)
Definition held (nodes : gmap Z node) (t : target) (r : Z) (s : St) : Prop :=
  match t with
  | TMount p => r = p /\ exists x, nodes !! p = Some x /\ f_nodes s = bump p x nodes
  | TFile a => r <> 0 /\ nodes !! r = None /\ node_file s r = Some a /\
      exists y, f_nodes s = <[r := y]> nodes /\ n_refcount y = 1
  end.

Lemma held_lookup nodes t r s : held nodes t r s -> exists x, f_nodes s !! r = Some x.
Proof.
  destruct t as [p|a]; cbn [held].
  - intros (-> & x & Hx & ->). apply (bump_dom p x nodes p Hx). by eexists.
  - intros (_ & _ & _ & y & -> & _). exists y. apply lookup_insert_eq.
Qed.

(** What is there stays. *)
Lemma held_mono nodes t r s p : held nodes t r s -> is_Some (nodes !! p) -> is_Some (f_nodes s !! p).
Proof.
  destruct t as [q|a]; cbn [held].
  - intros (-> & x & Hx & ->) Hp. by apply (bump_dom q x nodes).
  - intros (_ & Hn & _ & y & -> & _) [x Hp]. rewrite lookup_insert_ne; [by eexists|congruence].
Qed.

Lemma held_fresh nodes t r s p : held nodes t r s -> f_nodes s !! p = None -> nodes !! p = None.
Proof.
  intros Hh Hp. apply eq_None_not_Some. intros Hs. destruct (held_mono _ _ _ _ _ Hh Hs). congruence.
Qed.

(** A node allocated above a held one. *)
Lemma held_insert nodes t r s s' q y :
  held nodes t r s -> f_nodes s !! q = None -> f_nodes s' = <[q := y]> (f_nodes s) ->
  env (f_nodes s) s s' -> held (<[q := y]> nodes) t r s' /\ q <> r.
Proof.
  intros Hh Hq Hs Henv. destruct (held_lookup _ _ _ _ Hh) as (x & Hx). assert (q <> r) by congruence.
  split; [|done]. destruct Henv as (_ & _ & _ & _ & _ & _ & _ & Hf). destruct t as [p|a]; cbn [held] in *.
  - destruct Hh as (-> & x0 & Hx0 & Hb). split; [done|]. exists x0. rewrite lookup_insert_ne by done.
    split; [done|]. rewrite Hs, Hb. unfold bump. destruct (0 <? n_refcount x0); [|done]. by rewrite insert_insert_ne.
  - destruct Hh as (Hr & Hn & Ha & z & Hz & Hz1). split; [done|]. rewrite lookup_insert_ne by done. split; [done|].
    split; [rewrite Hf; [done|by eexists]|]. exists z. split; [|done]. rewrite Hs, Hz. by rewrite insert_insert_ne.
Qed.

(** Nothing happens to the nodes. *)
Lemma held_env nodes t r s s' :
  held nodes t r s -> f_nodes s' = f_nodes s -> env (f_nodes s) s s' -> held nodes t r s'.
Proof.
  intros Hh Hs (_ & _ & _ & _ & _ & _ & _ & Hf). destruct t as [p|a]; cbn [held] in *; [by rewrite Hs|].
  destruct Hh as (Hr & Hn & Ha & y & Hy & Hy1). split; [done|]. split; [done|].
  split; [rewrite Hf; [done|rewrite Hy, lookup_insert_eq; by eexists]|]. exists y. by rewrite Hs.
Qed.

(** Releasing the last reference. *)
Lemma wp_release_last s r x a nodes :
  fs_ok s -> drv_ok s -> f_nodes s !! r = Some x -> node_file s r = Some a -> is_entry a = true ->
  n_refcount x = 1 -> nodes = delete r (f_nodes s) ->
  wp (fs_node_release r) (fun _ s' => env nodes s s' /\ f_nodes s' = nodes) never s.
Proof.
  intros Hok Hdr Hr Hra Hen Hone ->. pose proof (node_nonzero s r x Hok Hr). unfold fs_node_release. wp_cond.
  rewrite (proj2 (Z.eqb_neq r 0)) by done. cbn [negb]. wp_steps. apply (wp_node_at s r x); [done|]. wp_steps.
  rewrite Hone. change (0 <? 1) with true. change (1 - 1 =? 0) with true. cbv iota. wp_steps.
  apply (wp_upd_fs_node s r x); [done|]. unfold fs_node_free. wp_cond.
  rewrite (proj2 (Z.eqb_neq r 0)) by done. cbn [negb]. wp_steps.
  eapply wp_node_at; [by apply lookup_insert_eq|]. wp_cond. change (n_refcount (set_refcount (1 - 1) x) =? 0) with true.
  cbv iota. change (n_close (set_refcount (1 - 1) x)) with (n_close x). change (1 - 1) with 0. wp_steps.
  wp_apply (law_close s r x a); [done|done|done|lia|done|done| |done].
  intros u s1 (Hl & Hh1 & (y & Hn1) & Henv). wp_steps. apply wp_zoom.
  wp_apply kfree_spec; [exact Hh1|exact Hl| |by intros e []]. intros u' h' (Hh' & Hl'). cbv beta. wp_steps.
  specialize (Henv h' Hh' Hl'). change (f_nodes (lset fs_heap h' s1)) with (f_nodes s1). rewrite Hn1.
  rewrite delete_insert_eq. split; [exact Henv|done].
Qed.

(** Giving back a reference that is not the last one. *)
Lemma wp_release_bumped s p x nodes :
  fs_ok s -> drv_ok s -> nodes !! p = Some x -> f_nodes s = bump p x nodes -> n_refcount x <> 0 ->
  wp (fs_node_release p) (fun r s' => r = p /\ env (f_nodes s) s s' /\ f_nodes s' = nodes) never s.
Proof.
  intros Hok Hdr Hx Hs Hx0. unfold bump in Hs. destruct (Z.ltb_spec 0 (n_refcount x)) as [Hpos|Hneg].
  - assert (f_nodes s !! p = Some (set_refcount (n_refcount x + 1) x)) as Hp by (by rewrite Hs, lookup_insert_eq).
    pose proof (node_nonzero s p _ Hok Hp). unfold fs_node_release. wp_cond.
    rewrite (proj2 (Z.eqb_neq p 0)) by done. cbn [negb]. wp_steps. eapply wp_node_at; [exact Hp|]. wp_cond.
    cbn [n_refcount set_refcount]. rewrite (proj2 (Z.ltb_lt 0 _)) by lia. wp_steps.
    eapply wp_upd_fs_node; [exact Hp|]. rewrite (proj2 (Z.eqb_neq _ 0)) by lia. wp_steps. split; [done|].
    split; [apply law_refcount; [done|done|done|cbn; lia|lia]|].
    rewrite Hs, insert_insert_eq. change (set_refcount ?n (set_refcount ?k x)) with (set_refcount n x).
    replace (n_refcount x + 1 - 1) with (n_refcount x) by lia. rewrite set_refcount_same. by apply insert_id.
  - subst nodes. pose proof (node_nonzero s p x Hok Hx). unfold fs_node_release. wp_cond.
    rewrite (proj2 (Z.eqb_neq p 0)) by done. cbn [negb]. wp_steps. apply (wp_node_at s p x); [done|]. wp_cond.
    rewrite (proj2 (Z.ltb_ge 0 _)) by lia. wp_steps. split; [done|]. split; [by apply env_refl|done].
Qed.

(** Giving a held reference back. *)
Lemma wp_release_held s t r nodes :
  fs_ok s -> drv_ok s -> held nodes t r s -> match t with TFile a => is_entry a = true | TMount _ => True end ->
  wp (fs_node_release r) (fun _ s' => env nodes s s' /\ f_nodes s' = nodes) never s.
Proof.
  intros Hok Hdr Hh Hen. pose proof (fun p => held_mono _ _ _ _ p Hh) as Hmono. destruct t as [p|a]; cbn [held] in Hh.
  - destruct Hh as (-> & x & Hx & Hs). eapply wp_mono; [apply (wp_release_bumped s p x nodes); try done| |done].
    2: { intros u s' (_ & He & Hn). split; [|done]. by eapply env_mono. }
    unfold bump in Hs. destruct (Z.ltb_spec 0 (n_refcount x)); [lia|].
    rewrite <- Hs in Hx. by apply (proj2 Hok p x).
  - destruct Hh as (Hr & Hn & Hra & y & Hs & Hy).
    eapply (wp_release_last s r y a); [done|done|by rewrite Hs; apply lookup_insert_eq|done|done|done|].
    rewrite Hs, delete_insert_eq. by rewrite delete_id.
Qed.

(** ** The mount graph *)

Fixpoint first_named (mounts : gmap Z fs_mount_t) (cs : list Z) (e : list Z) : option Z :=
  match cs with
  | [] => None
  | c :: cs' =>
      match mounts !! c with
      | Some m => if bool_decide (m_element m = e) then Some c else first_named mounts cs' e
      | None => None
      end
  end.

Definition submount (mounts : gmap Z fs_mount_t) (p : Z) (e : list Z) : option Z :=
  match mounts !! p with Some m => first_named mounts (m_mounts m) e | None => None end.

(** The longest sequence of elements that are mounts. *)
Fixpoint walk_mounts (mounts : gmap Z fs_mount_t) (elements : list (list Z)) (p : Z) : list (list Z) * Z :=
  match elements with
  | [] => ([], p)
  | e :: es => match submount mounts p e with Some c => walk_mounts mounts es c | None => (elements, p) end
  end.

Definition mounts_ok (mounts : gmap Z fs_mount_t) : Prop :=
  forall p m, mounts !! p = Some m ->
    p <> 0 /\ text (m_element m) /\ forall c, c ∈ m_mounts m -> is_Some (mounts !! c).

Lemma first_named_in mounts cs e c : first_named mounts cs e = Some c -> c ∈ cs.
Proof.
  induction cs as [|c' cs IH]; cbn; [done|]. destruct (mounts !! c') as [m|]; [|done].
  case_bool_decide; [intros [= ->]; left|intros Hc; right; auto].
Qed.

Lemma submount_some mounts p e c :
  mounts_ok mounts -> submount mounts p e = Some c -> c <> 0 /\ is_Some (mounts !! c).
Proof.
  intros Hok. unfold submount. destruct (mounts !! p) as [m|] eqn:Hm; [|done]. intros Hc%first_named_in.
  destruct (Hok p m Hm) as (_ & _ & Hcs). destruct (Hcs c Hc) as [mc Hmc]. split; [|by eexists].
  by destruct (Hok c mc Hmc).
Qed.

Lemma wp_mount_at s p m (Q : fs_mount_t -> St -> Prop) E :
  f_mounts s !! p = Some m -> Q m s -> wp (mount_at p) Q E s.
Proof. intros Hp HQ. unfold mount_at. wp_cond. by rewrite Hp. Qed.

Lemma wp_findmount s p e (Q : Z -> St -> Prop) E :
  mounts_ok (f_mounts s) -> is_Some (f_mounts s !! p) -> text e ->
  Q (default 0 (submount (f_mounts s) p e)) s -> wp (findmount p e) Q E s.
Proof.
  intros Hok [m Hm] He HQ. destruct (Hok p m Hm) as (Hp0 & _ & Hcs). unfold submount in HQ. rewrite Hm in HQ.
  unfold findmount. wp_cond. rewrite (proj2 (Z.eqb_neq p 0)) by done. cbn [negb]. wp_steps.
  apply (wp_mount_at s p m); [done|]. wp_steps. apply wp_text_len; [done|]. wp_steps.
  assert (forall pre cs, (forall c, c ∈ cs -> is_Some (f_mounts s !! c)) ->
    wp (for_ret (length cs) (zlen pre) (fun i =>
      let! mount := some (zlookup (pre ++ cs) i) in
      let! m := mount_at mount in
      let! same := same_bytes (m_element m ++ [0]) (e ++ [0]) (zlen e + 1) in
      ret (if same then Some mount else None)))
      (fun r s' => s' = s /\ r = first_named (f_mounts s) cs e) E s) as Hgo.
  { clear Hcs. intros pre cs. revert pre. induction cs as [|c cs IH]; intros pre Hcs; [by apply wp_intro|].
    destruct (Hcs c ltac:(left)) as [mc Hmc]. cbn [length first_named]. rewrite Hmc.
    apply wp_for_ret_step. wp_cond. rewrite zlookup_app_mid. wp_steps. apply (wp_mount_at s c mc); [done|]. wp_steps.
    destruct (Hok c mc Hmc) as (_ & Ht & _). apply wp_same_bytes; [done|done|]. wp_steps.
    case_bool_decide; [done|]. rewrite app_cons_assoc.
    replace (zlen pre + 1) with (zlen (pre ++ [c])) by (by rewrite zlen_app).
    apply IH. intros c' Hc'. apply Hcs. by right. }
  eapply wp_mono; [apply (Hgo [] (m_mounts m) Hcs)| |done]. intros r s' [-> ->]. wp_steps.
  by destruct (first_named _ _ _).
Qed.

Lemma wp_walk s elements p (Q : list (list Z) * Z -> St -> Prop) E :
  mounts_ok (f_mounts s) -> is_Some (f_mounts s !! p) -> Forall text elements ->
  Q (walk_mounts (f_mounts s) elements p) s -> wp (walk_mount_graph elements p) Q E s.
Proof.
  intros Hok Hp Hes HQ. unfold walk_mount_graph. revert p Hp HQ.
  assert (forall n, (length elements < n)%nat -> forall p, is_Some (f_mounts s !! p) ->
    Q (walk_mounts (f_mounts s) elements p) s ->
    wp (loop n (fun '(elements, mount) =>
      match elements with
      | [] => ret (inr (elements, mount))
      | e :: elements' =>
          let! new_mount := findmount mount e in
          if new_mount =? 0 then ret (inr (elements, mount)) else ret (inl (elements', new_mount))
      end) (elements, p)) Q E s) as Hgo; [|intros p Hp HQ; apply Hgo; [lia|done|done]].
  induction elements as [|e es IH]; intros n Hn p Hp HQ; (destruct n as [|n]; [cbn in Hn; lia|]); apply wp_loop_step.
  - by wp_steps.
  - apply Forall_cons in Hes as [He Hes]. wp_steps. apply wp_findmount; [done|done|done|].
    cbn [walk_mounts] in HQ. destruct (submount (f_mounts s) p e) as [c|] eqn:Hc; cbn [default].
    + destruct (submount_some _ _ _ _ Hok Hc) as [Hc0 Hcs]. unfold id. rewrite (proj2 (Z.eqb_neq c 0)) by done. wp_steps.
      apply IH; [done|cbn in Hn; lia|done|done].
    + change (0 =? 0) with true. cbv iota. by wp_steps.
Qed.

Lemma walk_mounts_is_Some mounts elements p :
  mounts_ok mounts -> is_Some (mounts !! p) -> is_Some (mounts !! snd (walk_mounts mounts elements p)).
Proof.
  intros Hok. revert p. induction elements as [|e es IH]; intros p Hp; [done|]. cbn [walk_mounts].
  destruct (submount mounts p e) as [c|] eqn:Hc; [|done]. apply IH. by apply (submount_some mounts p e c).
Qed.

Lemma walk_mounts_elements mounts (P : list Z -> Prop) elements p :
  Forall P elements -> Forall P (fst (walk_mounts mounts elements p)).
Proof.
  revert p. induction elements as [|e es IH]; intros p Hes; [done|]. cbn [walk_mounts].
  destruct (submount mounts p e); [|done]. apply IH. by apply Forall_cons in Hes as [_ Hes].
Qed.

(** ** Where a path leads *)

Section resolve.
Variables (F : file -> list Z -> option file) (L : file -> option (list Z)).
Variables (mounts : gmap Z fs_mount_t) (root : Z) (root_of : Z -> option file).

Definition target_file (t : target) : option file :=
  match t with TMount p => root_of p | TFile a => Some a end.

(** One element in directory [t]. *)
Definition step (t : target) (e : list Z) : option file :=
  match target_file t with
  | Some a => if is_dir a then F a e else None
  | None => None
  end.

Definition mount_root (p : Z) : Z := match mounts !! p with Some m => m_node m | None => 0 end.

(** Follows the elements [rest] from [t]; [pre] are the ones before them and
    [again] starts over at the next level.  A link is followed from the
    elements before it, and these start at the root of the mount that the
    search began in.  [None]: an assertion fails. *)
Fixpoint resolve_from (again : list (list Z) -> target -> option (option target))
    (pre rest : list (list Z)) (t : target) : option (option target) :=
  match rest with
  | [] => Some (Some t)
  | e :: rest' =>
      match step t e with
      | None => Some None
      | Some b =>
          if is_link b then
            match L b with
            | None => None
            | Some path =>
                match follow_all pre (elements_of path) with
                | None => None
                | Some l =>
                    match again (fst (walk_mounts mounts l root))
                      (TMount (mount_root (snd (walk_mounts mounts l root)))) with
                    | Some (Some t') => resolve_from again (pre ++ [e]) rest' t'
                    | r => r
                    end
                end
            end
          else resolve_from again (pre ++ [e]) rest' (TFile b)
      end
  end.

(** [n] more levels of links. *)
Fixpoint resolve (n : nat) (elements : list (list Z)) (t : target) : option (option target) :=
  match n with
  | O => Some None
  | S n' => resolve_from (resolve n') [] elements t
  end.
End resolve.

(** What an absolute path leads to in [s]. *)
Definition lookup_path s (path : list Z) : option (option target) :=
  match canonical [SLASH] path with
  | None => None
  | Some l =>
      resolve (finds s) (links s) (f_mounts s) (f_root s) (node_file s) 10
        (fst (walk_mounts (f_mounts s) l (f_root s)))
        (TMount (mount_root (f_mounts s) (snd (walk_mounts (f_mounts s) l (f_root s)))))
  end.

(** ** Finding files *)

Section find.
Variables (s0 : St) (root_of : Z -> option file).
Let F := finds s0.
Let L := links s0.
Let mounts := f_mounts s0.
Hypothesis Hmounts : mounts_ok mounts.
Hypothesis Hroot : is_Some (mounts !! f_root s0).

(** The roots of the mounts are there. *)
Definition anchored (nodes : gmap Z node) s : Prop :=
  forall p m, mounts !! p = Some m ->
    is_Some (nodes !! m_node m) /\ exists a, node_file s (m_node m) = Some a /\ root_of (m_node m) = Some a.

Definition grounded (t : target) : Prop :=
  match t with TMount p => exists mp m, mounts !! mp = Some m /\ m_node m = p | TFile a => is_entry a = true end.

(** The search started in an environment like [s0]. *)
Definition same s : Prop :=
  fs_ok s /\ drv_ok s /\ f_mounts s = mounts /\ f_root s = f_root s0 /\
  (forall a n, finds s a n = F a n) /\ (forall a, links s a = L a).

Lemma same_env nodes s s' : same s -> env nodes s s' -> same s'.
Proof.
  intros (A1 & A2 & A3 & A4 & A5 & A6) (B1 & B2 & B3 & B4 & _ & B5 & B6 & _).
  split; [done|]. split; [done|]. split; [congruence|]. split; [congruence|].
  split; intros; [by rewrite B5|by rewrite B6].
Qed.

(** The answer of a search that started in [s] with [nodes]. *)
Definition found (nodes : gmap Z node) (res : option (option target)) s (r : Z) (s' : St) : Prop :=
  env nodes s s' /\
  match res with
  | Some (Some t) => held nodes t r s' /\ grounded t
  | Some None => r = 0 /\ f_nodes s' = nodes
  | None => False
  end.

Definition panics (res : option (option target)) (e : panic) : Prop :=
  e = NoMemory \/ (e = AssertFail /\ res = None).

Lemma anchored_env nodes s s' : anchored nodes s -> env nodes s s' -> anchored nodes s'.
Proof.
  intros Ha (_ & _ & _ & _ & _ & _ & _ & Hf) p m Hm. destruct (Ha p m Hm) as (Hs & a & Hna & Hr).
  split; [done|]. exists a. by rewrite Hf.
Qed.

Lemma anchored_more nodes nodes' s :
  anchored nodes s -> (forall p, is_Some (nodes !! p) -> is_Some (nodes' !! p)) -> anchored nodes' s.
Proof. intros Ha Hn p m Hm. destruct (Ha p m Hm) as (Hs & Hx). auto. Qed.

(** The node held for [t] stands for [t]'s file. *)
Lemma held_file nodes t r s :
  anchored nodes s -> grounded t -> held nodes t r s ->
  exists x a, f_nodes s !! r = Some x /\ node_file s r = Some a /\ target_file root_of t = Some a.
Proof.
  intros Ha Hg Hh. destruct (held_lookup _ _ _ _ Hh) as (x & Hx). exists x. destruct t as [p|a].
  - destruct Hg as (mp & m & Hm & <-). destruct (Ha mp m Hm) as (_ & a & Hna & Hr).
    destruct Hh as (-> & _). by exists a.
  - destruct Hh as (_ & _ & Hf & _). by exists a.
Qed.

(** [fs_finddir] on a held directory, and giving the directory back. *)
Lemma wp_step nodes t r e s :
  same s -> anchored nodes s -> grounded t -> held nodes t r s -> element e ->
  wp (let! next_node := fs_finddir r e in fs_node_release r >>> ret next_node)
    (fun q s' => env nodes s s' /\
       match step F root_of t e with
       | None => q = 0 /\ f_nodes s' = nodes
       | Some b => is_entry b = true /\ held nodes (TFile b) q s'
       end) only_nomem s.
Proof.
  intros Hsame Ha Hg Hh He. destruct (held_file _ _ _ _ Ha Hg Hh) as (x & a & Hx & Hxa & Hta).
  pose proof Hsame as (Hok & Hdr & _ & _ & HF & _). pose proof (node_nonzero s r x Hok Hx).
  pose proof (fun p => held_mono _ _ _ _ p Hh) as Hmono. unfold step. rewrite Hta.
  destruct (law_kind s r x a Hdr Hx Hxa) as [Hdir _].
  unfold fs_finddir. wp_cond. rewrite (proj2 (Z.eqb_neq r 0)) by done. cbn [negb]. wp_steps.
  apply (wp_node_at s r x); [done|].
  assert (forall s1, env (f_nodes s) s s1 -> f_nodes s1 = f_nodes s ->
    wp (fs_node_release r)
      (fun _ => wp (ret 0) (fun q s' => env nodes s s' /\ q = 0 /\ f_nodes s' = nodes) only_nomem) only_nomem s1) as Hrel.
  { intros s1 Henv1 Hn1. wp_apply (wp_release_held s1 t r nodes); [apply Henv1|apply Henv1|by eapply held_env|by destruct t| |by intros e0 []].
    intros u s2 [He2 Hn2]. wp_steps. split; [|done]. eapply env_trans; [by eapply env_mono|done]. }
  destruct (n_finddir x) as [h|] eqn:Hh'; [destruct (has_flag x FS_NODE_DIRECTORY) eqn:Hfl|]; rewrite Hdir.
  - wp_apply (law_finddir s r x h e a); [done..| |done].
    intros q s1 [Henv1 Hq]. rewrite HF in Hq. destruct (F a e) as [b|].
    + destruct Hq as (Hbe & Hq0 & Hqn & Hqb & y & Hn1 & Hy). destruct (held_insert _ _ _ _ s1 q y Hh Hqn Hn1 Henv1) as [Hh1 Hqr].
      wp_apply (wp_release_held s1 t r (<[q := y]> nodes)); [apply Henv1|apply Henv1|done|by destruct t| |by intros e0 []].
      intros u s2 [Henv2 Hn2]. wp_steps. split.
      * eapply env_trans; [by eapply env_mono|]. eapply env_mono; [|done]. intros p0 [z Hz].
        rewrite lookup_insert_is_Some. destruct (decide (q = p0)); [by left|right; split; [done|by eexists]].
      * destruct Henv2 as (_ & _ & _ & _ & _ & _ & _ & Hf2). split; [done|]. split; [done|]. split; [by eapply held_fresh|].
        split; [rewrite Hf2; [done|rewrite lookup_insert_eq; by eexists]|]. by exists y.
    + destruct Hq as [-> Hn1]. wp_steps. by apply Hrel.
  - wp_steps. apply Hrel; [by apply env_refl|done].
  - wp_steps. apply Hrel; [by apply env_refl|done].
Qed.

(** Reading a link into a 256-byte buffer. *)
Lemma wp_fs_readlink q y b s :
  same s -> f_nodes s !! q = Some y -> node_file s q = Some b -> is_link b = true ->
  wp (fs_readlink q 256) (fun r s' => env (f_nodes s) s s' /\ f_nodes s' = f_nodes s /\
    match L b with Some t => r = (zlen t, t ++ [0]) /\ text t | None => fst r < 0 end) never s.
Proof.
  intros Hsame Hq Hb Hl. pose proof Hsame as (Hok & Hdr & _ & _ & _ & HL). pose proof (node_nonzero s q y Hok Hq).
  destruct (law_kind s q y b Hdr Hq Hb) as [_ Hlk].
  unfold fs_readlink. wp_cond. rewrite (proj2 (Z.eqb_neq q 0)) by done. cbn [negb]. wp_steps.
  apply (wp_node_at s q y); [done|]. destruct (n_readlink y) as [h|] eqn:Hr.
  - rewrite <- Hlk, Hl. eapply wp_mono; [apply (law_readlink s q y h b); done| |done].
    intros r s1 (Henv1 & Hn & Hlr). by rewrite HL in Hlr.
  - wp_steps. split; [by apply env_refl|]. split; [done|]. rewrite <- HL, (law_no_readlink s q y b) by done. done.
Qed.

(** The node [q] of a link goes, the answer stays. *)
Lemma wp_release_link nodes t r s1 s q y b :
  anchored nodes s1 -> grounded t -> nodes !! q = None -> n_refcount y = 1 -> node_file s q = Some b -> is_entry b = true ->
  fs_ok s -> drv_ok s -> held (<[q := y]> nodes) t r s ->
  wp (fs_node_release q) (fun _ s' => env nodes s s' /\ held nodes t r s') never s.
Proof.
  intros Ha Hg Hq Hy Hqb Hbe Hok Hdr Hh.
  assert (q <> r /\ f_nodes s !! q = Some y /\
    (forall s', f_nodes s' = delete q (f_nodes s) -> env (delete q (f_nodes s)) s s' -> held nodes t r s') /\
    forall p, is_Some (nodes !! p) -> is_Some (delete q (f_nodes s) !! p)) as (Hqr & Hqy & Hback & Hmono).
  { assert (forall p, is_Some (nodes !! p) -> is_Some (delete q (f_nodes s) !! p)) as Hmono.
    { intros p Hp. assert (q <> p) by (intros ->; rewrite Hq in Hp; by destruct Hp).
      rewrite lookup_delete_ne by done. eapply held_mono; [done|]. by rewrite lookup_insert_ne. }
    destruct t as [p|a]; cbn [held] in *.
    - destruct Hh as (-> & x & Hx & Hs). assert (q <> p) as Hne.
      { intros ->. destruct Hg as (mp & m & Hm & <-). destruct (Ha mp m Hm) as ([x1 Hx1] & _). congruence. }
      rewrite lookup_insert_ne in Hx by done. split; [done|]. split; [|split; [|done]].
      + rewrite Hs. unfold bump. destruct (0 <? n_refcount x); rewrite ?lookup_insert_ne by done; apply lookup_insert_eq.
      + intros s' Hs' _. split; [done|]. exists x. split; [done|]. rewrite Hs', Hs. unfold bump.
        destruct (0 <? n_refcount x); rewrite ?delete_insert_ne by done; by rewrite delete_insert_id.
    - destruct Hh as (Hr & Hn & Hf & z & Hs & Hz). apply lookup_insert_None in Hn as [Hn Hne].
      split; [done|]. split; [rewrite Hs, lookup_insert_ne by done; apply lookup_insert_eq|]. split; [|done].
      intros s' Hs' (_ & _ & _ & _ & _ & _ & _ & Hf'). split; [done|]. split; [done|]. split.
      + rewrite Hf'; [done|]. rewrite lookup_delete_ne by done. rewrite Hs, lookup_insert_eq. by eexists.
      + exists z. split; [|done]. rewrite Hs', Hs, delete_insert_ne by done. by rewrite delete_insert_id. }
  eapply wp_mono; [apply (wp_release_last s q y b (delete q (f_nodes s)) Hok Hdr Hqy); done| |done].
  intros u s' [Henv Hn]. split; [by eapply env_mono|]. by apply Hback.
Qed.

Section level.
Variable (rec : list (list Z) -> Z -> M St Z) (again : list (list Z) -> target -> option (option target)).
Hypothesis Hrec : forall nodes l p s,
  same s -> f_nodes s = nodes -> anchored nodes s -> grounded (TMount p) -> Forall element l ->
  wp (rec l p) (found nodes (again l (TMount p)) s) (panics (again l (TMount p))) s.

(** The link [q] is followed from the first [k] elements. *)
Lemma wp_follow_link nodes q b k elements s :
  same s -> anchored nodes s -> held nodes (TFile b) q s ->
  is_link b = true -> is_entry b = true -> Forall element elements -> (k <= length elements)%nat ->
  let res := match L b with
    | None => None
    | Some path =>
        match follow_all (take k elements) (elements_of path) with
        | None => None
        | Some l => again (fst (walk_mounts mounts l (f_root s0)))
                      (TMount (mount_root mounts (snd (walk_mounts mounts l (f_root s0)))))
        end
    end in
  wp (let! r := fs_readlink q 256 in
      let '(len, written) := r in
      if len <? 0 then fail AssertFail
      else
        let buf := written ++ drop (length written) (junk 256) in
        let! c := byte buf len in
        kassert (c =? 0) >>>
        let! l := copy_elements elements k in
        let! l := canonicalize_path_push_path junk buf l in
        let! root := gets f_root in
        let! w := walk_mount_graph l root in
        let '(l, mount) := w in
        let! m := mount_at mount in
        let! next_node := rec l (m_node m) in
        fs_node_release q >>>
        if negb (next_node =? 0) then ret (inl (S k, next_node)) else ret (inr 0))
    (fun r s' => match r with
       | inl (k', r) => k' = S k /\ exists t, res = Some (Some t) /\ found nodes res s r s'
       | inr r => res = Some None /\ found nodes res s r s'
       end) (panics res) s.
Proof.
  intros Hsame Ha Hh Hlk Hbe Hes Hk res. pose proof Hh as (Hq0 & Hqn & Hqb & y & Hqy & Hy1).
  assert (f_nodes s !! q = Some y) as Hq by (by rewrite Hqy, lookup_insert_eq).
  assert (forall p, is_Some (nodes !! p) -> is_Some (f_nodes s !! p)) as Hmono by (intros p; by apply (held_mono _ (TFile b) q)).
  wp_apply (wp_fs_readlink q y b s Hsame Hq Hqb Hlk); [|by intros e0 []].
  intros [len written] s1 (Henv1 & Hn1 & Hlink).
  subst res. destruct (L b) as [path|].
  2: { cbn in Hlink. rewrite (proj2 (Z.ltb_lt len 0)) by done. wp_steps. by right. }
  destruct Hlink as [[= -> ->] Hpath]. rewrite (proj2 (Z.ltb_ge _ 0)) by apply zlen_nonneg.
  rewrite <- app_assoc. change ([0] ++ ?x) with (0 :: x). cbv zeta. set (post := drop _ _).
  wp_steps. apply wp_byte; [done|]. wp_cond. rewrite Z.eqb_refl. wp_steps.
  eapply wp_mono; [apply (wp_copy_elements elements k s1 never); [done|done]| |by intros e0 []].
  intros pre s1' [-> ->]. wp_steps. eapply wp_mono; [by apply wp_push_path| |].
  2: { intros e0 [-> Hf]. unfold panics. rewrite Hf. by right. }
  intros l s1' [Hl ->]. rewrite Hl. wp_steps.
  assert (Forall element l) as Hle.
  { eapply follow_all_element; [by apply elements_of_element| |exact Hl]. by apply Forall_take. }
  pose proof (same_env _ _ _ Hsame Henv1) as Hsame1. pose proof Hsame1 as (_ & _ & Hm1 & Hr1 & _).
  rewrite Hr1. apply wp_walk; [by rewrite Hm1|by rewrite Hm1| |].
  { eapply Forall_impl; [exact Hle|]. apply element_text. }
  rewrite Hm1. destruct (walk_mounts_is_Some mounts l (f_root s0) Hmounts Hroot) as [m Hm].
  pose proof (walk_mounts_elements mounts element l (f_root s0) Hle) as Hwl.
  destruct (walk_mounts mounts l (f_root s0)) as [l' mount]. cbn [fst snd] in *.
  wp_steps. apply (wp_mount_at s1 mount m); [by rewrite Hm1|]. wp_steps.
  unfold mount_root. rewrite Hm.
  assert (anchored (f_nodes s1) s1) as Ha1.
  { eapply anchored_more; [|rewrite Hn1; exact Hmono]. eapply anchored_env; [exact Ha|]. by eapply env_mono. }
  eapply wp_mono; [apply (Hrec (f_nodes s1) l' (m_node m) s1); try done; by exists mount, m| |done].
  intros r s2 [Henv2 Hf]. pose proof Henv2 as (Hok2 & Hdr2 & _).
  assert (env nodes s s2) as Henv02.
  { eapply env_trans; [by eapply env_mono|]. eapply env_mono; [|done]. rewrite Hn1. exact Hmono. }
  assert (node_file s2 q = Some b) as Hqb2.
  { destruct Henv1 as (_ & _ & _ & _ & _ & _ & _ & Hf1), Henv2 as (_ & _ & _ & _ & _ & _ & _ & Hf2).
    rewrite Hf2, Hf1; [done|by eexists|rewrite Hn1, Hq; by eexists]. }
  rewrite Hn1, Hqy in Hf.
  destruct (again l' (TMount (m_node m))) as [[t|]|] eqn:Hag; [| |done].
  - destruct Hf as [Hht Hgt]. assert (r <> 0) as Hr0.
    { destruct (held_lookup _ _ _ _ Hht) as (x & Hx). by eapply node_nonzero. }
    wp_apply (wp_release_link nodes t r s s2 q y b); [done..| |by intros e0 []].
    intros u s3 [Henv3 Hht3]. wp_steps. rewrite (proj2 (Z.eqb_neq r 0)) by done. cbn [negb]. wp_steps.
    split; [done|]. exists t. split; [done|]. split; [by eapply env_trans|done].
  - destruct Hf as [-> Hn2].
    wp_apply (wp_release_last s2 q y b nodes Hok2 Hdr2); [| | | | | |by intros e0 []].
    { by rewrite Hn2, lookup_insert_eq. } { done. } { done. } { done. } { rewrite Hn2, delete_insert_id; done. }
    intros u s3 [Henv3 Hn3]. wp_steps. change (0 =? 0) with true. cbn [negb]. wp_steps. split; [done|].
    split; [by eapply env_trans|done].
Qed.

Lemma wp_find_loop nodes elements : forall rest pre t r n s,
  elements = pre ++ rest -> Forall element elements ->
  same s -> anchored nodes s -> grounded t -> held nodes t r s -> (length rest < n)%nat ->
  wp (loop n (find_round junk rec elements) (length pre, r))
    (found nodes (resolve_from F L mounts (f_root s0) root_of again pre rest t) s)
    (panics (resolve_from F L mounts (f_root s0) root_of again pre rest t)) s.
Proof.
  induction rest as [|e rest IH]; intros pre t r n s Heq Hes Hsame Ha Hg Hh Hn; (destruct n as [|n]; [cbn in Hn; lia|]);
    apply wp_loop_step; cbn [find_round resolve_from].
  - rewrite lookup_ge_None_2 by (rewrite Heq, length_app; cbn; lia). wp_steps.
    split; [apply env_refl; apply Hsame|done].
  - assert (elements !! length pre = Some e) as He by (rewrite Heq; by apply list_lookup_middle).
    assert (elements = (pre ++ [e]) ++ rest) as Heq' by (by rewrite <- app_assoc).
    pose proof (proj1 (Forall_lookup _ _) Hes _ _ He) as Hel. rewrite He.
    assert (length (pre ++ [e]) = S (length pre)) as Hlen by (rewrite length_app; cbn; lia).
    assert (take (length pre) elements = pre) as Htake by (rewrite Heq; by rewrite take_app_length).
    assert (length pre <= length elements)%nat as Hle by (rewrite Heq, length_app; lia).
    wp_steps. pose proof (wp_step nodes t r e s Hsame Ha Hg Hh Hel) as Hstep.
    apply wp_bind in Hstep. eapply wp_mono; [exact Hstep| |by left]. clear Hstep.
    intros q s1 Hstep. cbv beta in Hstep. apply wp_bind in Hstep. wp_steps. eapply wp_mono; [exact Hstep| |by left]. clear Hstep.
    intros u s2 Hstep. cbv beta in Hstep |- *. apply wp_ret in Hstep as [Henv2 Hq].
    pose proof (same_env _ _ _ Hsame Henv2) as Hsame2. pose proof (anchored_env _ _ _ Ha Henv2) as Ha2.
    destruct (step F root_of t e) as [b|].
    2: { destruct Hq as [-> Hn2]. change (0 =? 0) with true. cbv iota. by wp_steps. }
    destruct Hq as [Hbe Hq]. pose proof Hq as (Hq0 & Hqn & Hqb & y & Hn2 & Hy).
    rewrite (proj2 (Z.eqb_neq q 0)) by done. cbv zeta.
    assert (f_nodes s2 !! q = Some y) as Hqy by (by rewrite Hn2, lookup_insert_eq).
    destruct (law_kind s2 q y b (proj1 (proj2 Hsame2)) Hqy Hqb) as [_ Hlk].
    assert (forall t' r' s3, env nodes s s3 -> grounded t' -> held nodes t' r' s3 ->
      wp (loop n (find_round junk rec elements) (S (length pre), r'))
        (found nodes (resolve_from F L mounts (f_root s0) root_of again (pre ++ [e]) rest t') s)
        (panics (resolve_from F L mounts (f_root s0) root_of again (pre ++ [e]) rest t')) s3) as Hnext.
    { intros t' r' s3 Henv3 Hgt Hht. rewrite <- Hlen.
      eapply wp_mono; [apply (IH (pre ++ [e]) t' r' n s3); try done| |done].
      - exact (same_env _ _ _ Hsame Henv3).
      - exact (anchored_env _ _ _ Ha Henv3).
      - cbn in Hn. lia.
      - intros r2 s4 [Henv4 Hf]. split; [exact (env_trans _ _ _ _ Henv3 Henv4)|done]. }
    wp_steps. apply (wp_node_at s2 q y); [done|]. wp_cond. rewrite <- Hlk. destruct (is_link b) eqn:Hfl.
    + eapply wp_mono; [apply (wp_follow_link nodes q b (length pre) elements s2); done| |].
      * rewrite Htake. destruct (L b) as [path|]; [destruct (follow_all pre (elements_of path)) as [l|]|].
        2,3: intros [[k r']|r'] s3; [by intros (_ & t' & Ht' & _)|by intros [Ht' _]].
        intros [[k r']|r'] s3.
        -- intros (-> & t' & -> & Henv3 & Hht & Hgt). apply Hnext; [by eapply env_trans|done|done].
        -- intros (-> & Henv3 & Hf). split; [by eapply env_trans|done].
      * rewrite Htake. destruct (L b) as [path|]; [destruct (follow_all pre (elements_of path)) as [l|]|]; [|done|done].
        intros e0 [->|[-> ->]]; [by left|by right].
    + wp_steps. by apply Hnext.
Qed.
End level.

Lemma wp_findfile_recursive n : forall nodes l p s,
  (n <= 10)%nat ->
  same s -> f_nodes s = nodes -> anchored nodes s -> grounded (TMount p) -> Forall element l ->
  wp (findfile_recursive junk (S n) l p (10 - Z.of_nat n))
    (found nodes (resolve F L mounts (f_root s0) root_of n l (TMount p)) s)
    (panics (resolve F L mounts (f_root s0) root_of n l (TMount p))) s.
Proof.
  induction n as [|n IH]; intros nodes l p s Hn Hsame Hnodes Ha Hg Hl;
    pose proof Hg as (mp & m & Hm & Hmp); destruct (Ha mp m Hm) as ([x Hx] & _); rewrite Hmp in Hx;
    pose proof Hsame as (Hok & Hdr & _); rewrite <- Hnodes in Hx; pose proof (node_nonzero s p x Hok Hx) as Hp0.
  - cbn [findfile_recursive]. wp_cond. rewrite (proj2 (Z.eqb_neq p 0)) by done. cbn [negb].
    wp_steps. wp_steps. split; [by apply env_refl|done].
  - change (findfile_recursive junk (S (S n)) l p (10 - Z.of_nat (S n))) with
      (kassert (negb (p =? 0)) >>>
       if 10 <=? 10 - Z.of_nat (S n) then ret 0
       else
         let! node := fs_node_reference p in
         loop (S (length l)) (find_round junk
           (fun l r => findfile_recursive junk (S n) l r (10 - Z.of_nat (S n) + 1)) l) (0%nat, node)).
    wp_cond. rewrite (proj2 (Z.eqb_neq p 0)) by done. cbn [negb]. wp_cond.
    rewrite (proj2 (Z.leb_gt 10 _)) by lia.
    wp_apply (wp_fs_node_reference s p x never Hok Hdr Hx); [|by intros e0 []].
    intros r s1 (-> & Henv1 & Hn1). cbn [resolve]. rewrite Hnodes in Hx, Hn1, Henv1.
    replace (10 - Z.of_nat (S n) + 1) with (10 - Z.of_nat n) by lia.
    eapply wp_mono; [apply (wp_find_loop (fun l r => findfile_recursive junk (S n) l r (10 - Z.of_nat n))
      (resolve F L mounts (f_root s0) root_of n)) with (pre := []) (nodes := nodes) (t := TMount p); try done| |done].
    + intros. apply IH; try done; lia.
    + exact (same_env _ _ _ Hsame Henv1).
    + exact (anchored_env _ _ _ Ha Henv1).
    + split; [done|]. by exists x.
    + lia.
    + intros r s2 [Henv2 Hf]. split; [by eapply env_trans|done].
Qed.
End find.

(** ** Opening *)

(** The file system is mounted and the roots of its mounts are there. *)
Definition fs_ready s : Prop :=
  fs_ok s /\ drv_ok s /\ mounts_ok (f_mounts s) /\ is_Some (f_mounts s !! f_root s) /\
  forall p m, f_mounts s !! p = Some m -> is_Some (f_nodes s !! m_node m) /\ is_Some (node_file s (m_node m)).

Lemma fs_ready_anchored s : fs_ready s -> anchored s (node_file s) (f_nodes s) s.
Proof.
  intros (_ & _ & _ & _ & Hn) p m Hm. destruct (Hn p m Hm) as [Hx [a Ha]]. split; [done|]. by exists a.
Qed.

Lemma wp_findfile s path post :
  fs_ready s -> text path ->
  wp (findfile junk [SLASH; 0] (path ++ 0 :: post))
    (found s (f_nodes s) (lookup_path s path) s) (panics (lookup_path s path)) s.
Proof.
  intros Hready Hp. pose proof (fs_ready_anchored s Hready) as Ha. destruct Hready as (Hok & Hdr & Hm & [mr Hmr] & Hn).
  unfold findfile, lookup_path. wp_steps. change [SLASH; 0] with ([SLASH] ++ 0 :: []).
  eapply wp_mono; [apply (canonicalize_follows junk Hjunk [SLASH] path [] post s); [by repeat constructor|done]| |].
  2: { intros e [-> Hc]. rewrite Hc. by right. }
  intros l s' (Hl & Hle & ->). rewrite Hl. wp_steps. apply wp_walk; [done|by eexists| |].
  { eapply Forall_impl; [exact Hle|]. apply element_text. }
  destruct (walk_mounts_is_Some (f_mounts s) l (f_root s) Hm) as [m Hmm]; [by eexists|].
  pose proof (walk_mounts_elements (f_mounts s) element l (f_root s) Hle) as Hwl.
  destruct (walk_mounts (f_mounts s) l (f_root s)) as [l' mount]. cbn [fst snd] in *.
  wp_steps. apply (wp_mount_at s mount m); [done|]. unfold mount_root. rewrite Hmm.
  apply (wp_findfile_recursive s (node_file s) Hm ltac:(by eexists) 10); try done. by exists mount, m.
Qed.

(** The caller of [kopen] gets one reference: [fs_open] takes one, and the
    one of the search is given back. *)
Lemma wp_fs_open_release s r x flags :
  fs_ok s -> drv_ok s -> f_nodes s !! r = Some x ->
  wp (fs_open r flags >>> fs_node_release r)
    (fun u s' => u = r /\ env (f_nodes s) s s' /\ f_nodes s' = f_nodes s) never s.
Proof.
  intros Hok Hdr Hr. pose proof (node_nonzero s r x Hok Hr). unfold fs_open. wp_cond.
  rewrite (proj2 (Z.eqb_neq r 0)) by done. cbn [negb].
  wp_apply (wp_fs_node_reference s r x never Hok Hdr Hr); [|done].
  intros u s1 (-> & Henv1 & Hn1). pose proof Henv1 as (Hok1 & Hdr1 & _).
  destruct (held_lookup (f_nodes s) (TMount r) r s1) as (x1 & Hx1); [by split; [|exists x]|].
  assert (n_refcount x <> 0) as Hx0 by (by apply (proj2 Hok r x)).
  assert (forall p, is_Some (f_nodes s !! p) -> is_Some (f_nodes s1 !! p)) as Hmono.
  { intros p. rewrite Hn1. by apply bump_dom. }
  wp_steps. apply (wp_node_at s1 r x1); [done|].
  assert (forall s2, env (f_nodes s1) s1 s2 -> f_nodes s2 = f_nodes s1 ->
    wp (fs_node_release r) (fun u s' => u = r /\ env (f_nodes s) s s' /\ f_nodes s' = f_nodes s) never s2) as Hrel.
  { intros s2 Henv2 Hn2. eapply wp_mono; [apply (wp_release_bumped s2 r x (f_nodes s)); [apply Henv2|apply Henv2|done|congruence|done]| |done].
    intros u s3 (-> & Henv3 & Hn3). split; [done|]. split; [|done]. eapply env_trans; [exact Henv1|].
    eapply env_mono; [exact Hmono|]. eapply env_trans; [done|]. by rewrite <- Hn2. }
  destruct (n_open x1) as [h|] eqn:Hh.
  - wp_apply (law_open s1 r x1 h flags); [done..| |by intros e []].
    intros u s2 [Henv2 Hn2]. by apply Hrel.
  - wp_steps. apply Hrel; [by apply env_refl|done].
Qed.

(** [kopen] answers what the path leads to, with one reference. *)
Lemma wp_kopen s path post flags :
  fs_ready s -> text path ->
  wp (kopen junk (path ++ 0 :: post) flags)
    (fun r s' => fs_ready s' /\ env (f_nodes s) s s' /\
       match lookup_path s path with
       | Some (Some t) => held (f_nodes s) t r s'
       | Some None => r = 0 /\ f_nodes s' = f_nodes s
       | None => False
       end)
    (fun e => e = NoMemory \/ (e = AssertFail /\ lookup_path s path = None)) s.
Proof.
  intros Hready Hp. pose proof Hready as (Hok & Hdr & Hm & [mr Hmr] & Hn). destruct (Hm _ _ Hmr) as (Hr0 & _).
  unfold kopen. wp_steps. change [SLASH; 0] with ([SLASH] ++ 0 :: []) at 1. change 2 with (zlen [SLASH] + 1).
  apply wp_same_bytes; [done|by repeat constructor|]. wp_steps.
  apply (wp_mono _ (found s (f_nodes s) (lookup_path s path) s) _ (panics (lookup_path s path))); [| |done].
  - case_bool_decide as Hroot; [|by apply wp_findfile].
    wp_steps. rewrite (proj2 (Z.eqb_neq _ 0)) by done. cbn [negb]. wp_steps. apply (wp_mount_at s _ mr); [done|].
    destruct (Hn _ _ Hmr) as [[x Hx] _]. eapply wp_mono; [apply (wp_fs_node_reference s _ x never Hok Hdr Hx)| |by intros e []].
    intros r s' (-> & Henv & Hns). subst path. unfold lookup_path, mount_root.
    change (canonical [SLASH] [SLASH]) with (Some (@nil (list Z))). cbn [walk_mounts fst snd resolve resolve_from]. rewrite Hmr.
    split; [done|]. split; [by split; [|exists x]|]. by exists (f_root s), mr.
  - intros r s1 [Henv1 Hf]. pose proof Henv1 as (Hok1 & Hdr1 & Hm1 & Hr1 & _).
    assert (forall s2, env (f_nodes s) s s2 -> (forall p, is_Some (f_nodes s !! p) -> is_Some (f_nodes s2 !! p)) -> fs_ready s2) as Hready2.
    { intros s2 (Hok2 & Hdr2 & Hm2 & Hr2 & _ & _ & _ & Hf2) Hmono. split; [done|]. split; [done|]. rewrite Hm2, Hr2.
      split; [done|]. split; [by eexists|]. intros p m Hpm. destruct (Hn p m Hpm) as [Hx Hpf].
      split; [by apply Hmono|]. by rewrite Hf2. }
    destruct (lookup_path s path) as [[t|]|]; [| |done].
    + destruct Hf as [Hh _]. destruct (held_lookup _ _ _ _ Hh) as (x & Hx).
      rewrite (proj2 (Z.eqb_neq r 0)) by (by eapply node_nonzero).
      eapply wp_mono; [apply (wp_fs_open_release s1 r x flags Hok1 Hdr1 Hx)| |by intros e []].
      intros u s2 (-> & Henv2 & Hn2).
      assert (forall p, is_Some (f_nodes s !! p) -> is_Some (f_nodes s1 !! p)) as Hmono by (intros p; by apply (held_mono _ t r)).
      assert (env (f_nodes s) s s2) as Henv by (eapply env_trans; [exact Henv1|]; by eapply env_mono).
      split; [|split; [done|by eapply held_env]]. apply Hready2; [done|by rewrite Hn2].
    + destruct Hf as [-> Hns]. change (0 =? 0) with true. cbv iota. wp_steps. split; [|done].
      apply Hready2; [done|]. by rewrite Hns.
Qed.
End proofs.
