(* ===== verification/Drivers.v ===== *)
(** * The file system drivers (kernel/tmpfs.c, tar.c, ramdisk.c, dev_null.c)

    The handlers of the four drivers and their dispatch, which makes them an
    instance of [Handlers].  Texts and file contents are values, not heap
    objects; the driver's structs are heap objects. *)
From S2P Require Import Prelude Interfaces Itoa FsPath Fs.

(** The functions that a node's fields point to. *)
Inductive handler : Type :=
  | Tmpfs_read | Tmpfs_write | Tmpfs_open | Tmpfs_close | Tmpfs_readdir
  | Tmpfs_finddir | Tmpfs_unlink | Tmpfs_mkdir | Tmpfs_create
  | Ramdisk_read | Ramdisk_write | Ramdisk_open | Ramdisk_close
  | Null_read | Null_write | Zero_read
  | Tar_read | Tar_open | Tar_close | Tar_readdir | Tar_finddir | Tar_readlink.

#[export] Instance handler_eq_dec : EqDecision handler.
Proof. solve_decision. Defined.

(** [struct tmpfs_object]; [t_childs] and [t_block] are [None] for NULL. *)
Record tmpfs_object : Type := TmpfsObject {
  t_name : list Z;
  t_flags : Z;
  t_childs : option (list Z);
  t_block : option (list Z);
  t_block_size : Z;
  t_refcount : Z;
}.

(** [struct tar_obj]. *)
Record tar_obj : Type := TarObj {
  a_device : Z;
  a_name : list Z;
  a_offset : Z;
  a_flags : Z;
  a_length : Z;
}.

(** The drivers' objects, and the memory behind ramdisks by its address. *)
Record drivers : Type := Drivers {
  d_objs : gmap Z tmpfs_object;
  d_tars : gmap Z tar_obj;
  d_disks : gmap Z (list Z);
}.

Section ops.
Context {H : Type} `{KHeap H}.
Abbreviation St := (fstate H drivers handler).
Variable junk : Z -> list Z.

Definition set_objs (o : gmap Z tmpfs_object) (d : drivers) : drivers := Drivers o (d_tars d) (d_disks d).
Definition set_tars (t : gmap Z tar_obj) (d : drivers) : drivers := Drivers (d_objs d) t (d_disks d).
Definition set_disks (m : gmap Z (list Z)) (d : drivers) : drivers := Drivers (d_objs d) (d_tars d) m.
Definition mod_drv (f : drivers -> drivers) : M St unit := modify (fun s => set_drv (f (f_drv s)) s).

Definition obj_at (o : Z) : M St tmpfs_object :=
  let! d := gets f_drv in some (d_objs d !! o).
Definition upd_obj (o : Z) (f : tmpfs_object -> tmpfs_object) : M St unit :=
  let! x := obj_at o in mod_drv (fun d => set_objs (<[o := f x]> (d_objs d)) d).
Definition tar_at (a : Z) : M St tar_obj :=
  let! d := gets f_drv in some (d_tars d !! a).

(** [memcpy(dest, src + offset, len)] out of the bytes [src]. *)
Definition copy_out (src : list Z) (offset len : Z) : M St (list Z) :=
  kassert (negb (len =? 0)) >>>
  (if offset + len <=? zlen src then ret tt else fail Fault) >>>
  ret (take (Z.to_nat len) (drop (Z.to_nat offset) src)).

(** [memcpy(dest + offset, src, len)] into the bytes [dest]. *)
Definition copy_in (dest : list Z) (offset len : Z) (src : list Z) : M St (list Z) :=
  kassert (negb (len =? 0)) >>>
  (if (offset + len <=? zlen dest) && (len <=? zlen src) then ret tt else fail Fault) >>>
  ret (take (Z.to_nat offset) dest ++ take (Z.to_nat len) src ++ drop (Z.to_nat (offset + len)) dest).

(** ** ramdisk.c *)

Definition ramdisk_size (x : fs_node_t handler) (offset size : Z) : Z :=
  if n_length x <? u32 (offset + size) then n_length x - offset else size.

Definition ramdisk_read (node offset size : Z) : M St (Z * list Z) :=
  let! x := node_at node in
  if n_length x <? offset then ret (0, [])
  else
    let size := ramdisk_size x offset size in
    if size =? 0 then ret (0, [])
    else
      let! d := gets f_drv in
      let! disk := some (d_disks d !! n_object x) in
      let! b := copy_out disk offset size in
      ret (size, b).

Definition ramdisk_write (node offset size : Z) (buffer : list Z) : M St Z :=
  let! x := node_at node in
  if n_length x <? offset then ret 0
  else
    let size := ramdisk_size x offset size in
    if size =? 0 then ret 0
    else
      let! d := gets f_drv in
      let! disk := some (d_disks d !! n_object x) in
      let! disk := copy_in disk offset size buffer in
      mod_drv (fun d => set_disks (<[n_object x := disk]> (d_disks d)) d) >>>
      ret size.

Definition ramdisk_open (node flags : Z) : M St unit := ret tt.
Definition ramdisk_close (node : Z) : M St unit := ret tt.

(** "ramdisk", "null" and "zero". *)
Definition ramdisk_init (ptr size : Z) : M St Z :=
  let! node := fs_node_new in
  kassert (negb (node =? 0)) >>>
  upd_node node (fun x => FsNode [114; 97; 109; 100; 105; 115; 107] (n_flags x) ptr size
    (Some Ramdisk_read) (Some Ramdisk_write) (Some Ramdisk_open) (Some Ramdisk_close)
    None None None None None None (n_refcount x)) >>>
  ret node.

(** ** dev_null.c *)

Definition null_read (node offset size : Z) : M St (Z * list Z) := ret (0, []).
Definition null_write (node offset size : Z) (buffer : list Z) : M St Z := ret size.
Definition zero_read (node offset size : Z) : M St (Z * list Z) :=
  kassert (negb (size =? 0)) >>> ret (size, replicate (Z.to_nat size) 0).

Definition chardev (name : list Z) (read : handler) (refs : Z) : fs_node_t handler :=
  FsNode name FS_NODE_CHARDEVICE 0 0 (Some read) (Some Null_write)
    None None None None None None None None refs.

Definition null_create : M St Z :=
  let! f := fs_node_new in
  kassert (negb (f =? 0)) >>>
  upd_node f (fun x => chardev [110; 117; 108; 108] Null_read (n_refcount x)) >>>
  ret f.

Definition zero_create : M St Z :=
  let! f := fs_node_new in
  kassert (negb (f =? 0)) >>>
  upd_node f (fun x => chardev [122; 101; 114; 111] Zero_read (n_refcount x)) >>>
  ret f.

(** ** tmpfs.c *)

Definition set_obj_ref (n : Z) (o : tmpfs_object) : tmpfs_object :=
  TmpfsObject (t_name o) (t_flags o) (t_childs o) (t_block o) (t_block_size o) n.
Definition set_childs (l : list Z) (o : tmpfs_object) : tmpfs_object :=
  TmpfsObject (t_name o) (t_flags o) (Some l) (t_block o) (t_block_size o) (t_refcount o).
Definition set_block (b : list Z) (n : Z) (o : tmpfs_object) : tmpfs_object :=
  TmpfsObject (t_name o) (t_flags o) (t_childs o) (Some b) n (t_refcount o).
Definition obj_flag (o : tmpfs_object) (flag : Z) : bool := negb (Z.land (t_flags o) flag =? 0).

(** [sizeof(struct tmpfs_object)] is 24. *)
Definition tmpfs_create_obj (name : list Z) (flags : Z) : M St Z :=
  let! obj := zoom fs_heap (kcalloc 24) in
  kassert (negb (obj =? 0)) >>>
  mod_drv (fun d => set_objs (<[obj := TmpfsObject name flags
    (if negb (Z.land flags FS_NODE_DIRECTORY =? 0) then Some [] else None) None 0 0]> (d_objs d)) d) >>>
  ret obj.

Definition tmpfs_destroy_object (o : Z) : M St unit :=
  let! obj := obj_at o in
  kassert (t_refcount obj =? 0) >>>
  (if obj_flag obj FS_NODE_FILE then ret tt
   else let! l := some (t_childs obj) in kassert (bool_decide (l = []))) >>>
  zoom fs_heap (kfree o) >>>
  mod_drv (fun d => set_objs (delete o (d_objs d)) d).

Definition tmpfs_dir_node (obj : tmpfs_object) (o refs : Z) : fs_node_t handler :=
  FsNode (take 255 (t_name obj)) (t_flags obj) o 0 None None (Some Tmpfs_open) (Some Tmpfs_close)
    (Some Tmpfs_readdir) (Some Tmpfs_finddir) (Some Tmpfs_create) (Some Tmpfs_unlink) None (Some Tmpfs_mkdir) refs.
Definition tmpfs_file_node (obj : tmpfs_object) (o refs : Z) : fs_node_t handler :=
  FsNode (take 255 (t_name obj)) (t_flags obj) o 0 (Some Tmpfs_read) (Some Tmpfs_write)
    None None None None None None None None refs.

Definition fs_node_from_tmpfs (o : Z) : M St Z :=
  kassert (negb (o =? 0)) >>>
  let! f := fs_node_new in
  kassert (negb (f =? 0)) >>>
  let! obj := obj_at o in
  (if t_flags obj =? FS_NODE_DIRECTORY then upd_node f (fun x => tmpfs_dir_node obj o (n_refcount x))
   else if t_flags obj =? FS_NODE_FILE then upd_node f (fun x => tmpfs_file_node obj o (n_refcount x))
   else fail AssertFail) >>>
  upd_obj o (fun obj => set_obj_ref (t_refcount obj + 1) obj) >>>
  ret f.

Definition tmpfs_read (node offset size : Z) : M St (Z * list Z) :=
  let! x := node_at node in
  kassert (negb (n_object x =? 0)) >>>
  let! obj := obj_at (n_object x) in
  if obj_flag obj FS_NODE_FILE then
    if t_block_size obj <? offset then ret (MINUS_1, [])
    else
      let len := if u32 (offset + size) <=? t_block_size obj then size else t_block_size obj - offset in
      if len =? 0 then ret (0, [])
      else
        let! block := some (t_block obj) in
        let! b := copy_out block offset len in
        ret (len, b)
  else ret (MINUS_1, []).

(** [krealloc]: NULL when the heap has no room, otherwise the old bytes, then
    unknown ones.  The blocks of files are bytes only: growing one does not
    show in the state of the heap. *)
Definition grown_block (block : option (list Z)) (size : Z) : list Z :=
  let old := default [] block in
  take (Z.to_nat size) old ++ drop (length old) (junk size).
Definition krealloc (block : option (list Z)) (size : Z) : M St (option (list Z)) :=
  let! room := gets (fun s => heap_room (f_heap s) size) in
  ret (if room then Some (grown_block block size) else None).

Definition tmpfs_write (node offset size : Z) (buffer : list Z) : M St Z :=
  let! x := node_at node in
  kassert (negb (n_object x =? 0)) >>>
  let! obj := obj_at (n_object x) in
  if obj_flag obj FS_NODE_FILE then
    let size_req := u32 (offset + size) in
    (if t_block_size obj <? size_req then
       let! block := krealloc (t_block obj) size_req in
       match block with
       | Some block => upd_obj (n_object x) (set_block block size_req)
       | None => fail NoMemory (* assert(obj->block != NULL) *)
       end
     else kassert (match t_block obj with Some _ => true | None => false end)) >>>
    let! obj := obj_at (n_object x) in
    let! block := some (t_block obj) in
    let! block := copy_in block offset size buffer in
    upd_obj (n_object x) (set_block block (t_block_size obj)) >>>
    ret size
  else ret MINUS_1.

Definition tmpfs_open (node flags : Z) : M St unit := ret tt.

Definition tmpfs_close (node : Z) : M St unit :=
  let! x := node_at node in
  let o := n_object x in
  kassert (negb (o =? 0)) >>>
  let! obj := obj_at o in
  upd_obj o (set_obj_ref (t_refcount obj - 1)) >>>
  (if t_refcount obj - 1 =? 0 then tmpfs_destroy_object o else ret tt) >>>
  upd_node node (set_object 0).

(** "." and "..", then the children. *)
Definition tmpfs_readdir (node i : Z) : M St (option dirent) :=
  let! x := node_at node in
  kassert (negb (n_object x =? 0)) >>>
  let! obj := obj_at (n_object x) in
  if i =? 0 then ret (Some (Dirent i [DOT]))
  else if i =? 1 then ret (Some (Dirent i [DOT; DOT]))
  else
    match t_childs obj with
    | None => fail AssertFail
    | Some l =>
        match zlookup l (i - 2) with
        | None => ret None
        | Some c => let! nobj := obj_at c in ret (Some (Dirent i (take 256 (t_name nobj))))
        end
    end.

(** The first child whose name agrees with [name] on [n] bytes. *)
Definition find_child (l : list Z) (name : list Z) (n : Z) : M St (option (Z * Z)) :=
  for_ret (length l) 0 (fun i =>
    let! v_obj := some (zlookup l i) in
    kassert (negb (v_obj =? 0)) >>>
    let! obj := obj_at v_obj in
    let! same := same_bytes (name ++ [0]) (t_name obj ++ [0]) n in
    ret (if same then Some (i, v_obj) else None)).

Definition children (o : Z) : M St (list Z) :=
  kassert (negb (o =? 0)) >>>
  let! obj := obj_at o in
  match t_childs obj with Some l => ret l | None => fail AssertFail end.

Definition tmpfs_finddir (node : Z) (name : list Z) : M St Z :=
  let! x := node_at node in
  let! l := children (n_object x) in
  let! name_strlen := strlen (name ++ [0]) in
  let! r := find_child l name name_strlen in
  match r with
  | Some (_, v_obj) => fs_node_from_tmpfs v_obj
  | None => ret 0
  end.

Definition tmpfs_unlink (node : Z) (name : option (list Z)) : M St Z :=
  let! x := node_at node in
  kassert (negb (n_object x =? 0)) >>>
  match name with
  | None => ret (-1)
  | Some name =>
      let! l := children (n_object x) in
      let! name_strlen := strlen (name ++ [0]) in
      let! r := find_child l name name_strlen in
      match r with
      | Some (i, v_obj) =>
          let! v := obj_at v_obj in
          upd_obj v_obj (set_obj_ref (t_refcount v - 1)) >>>
          (if t_refcount v - 1 =? 0 then tmpfs_destroy_object v_obj else ret tt) >>>
          upd_obj (n_object x) (set_childs (delete (Z.to_nat i) l)) >>>
          ret 0
      | None => ret (-1)
      end
  end.

(** [tmpfs_mkdir] and [tmpfs_create] differ in the flags only. *)
Definition tmpfs_add (flags node : Z) (name : list Z) : M St unit :=
  let! x := node_at node in
  let! l := children (n_object x) in
  let! name_strlen := strlen (name ++ [0]) in
  let! r := find_child l name (name_strlen + 1) in
  match r with
  | Some _ => ret tt
  | None =>
      let! nobj := tmpfs_create_obj name flags in
      upd_obj nobj (fun o => set_obj_ref (t_refcount o + 1) o) >>>
      upd_obj (n_object x) (set_childs (l ++ [nobj]))
  end.
Definition tmpfs_mkdir (node : Z) (name : list Z) (permissions : Z) : M St unit :=
  tmpfs_add FS_NODE_DIRECTORY node name.
Definition tmpfs_create (node : Z) (name : list Z) (permissions : Z) : M St unit :=
  tmpfs_add FS_NODE_FILE node name.

(** ** tar.c: entries *)

(** The header is the 512 bytes read; its fields by their offsets. *)
Definition header_size : Z := 512.
Definition h_name (h : list Z) : list Z := h.
Definition h_fsize (h : list Z) : list Z := drop 124 h.
Definition h_type (h : list Z) : Z := nth 156 h 0.
Definition h_linked_name (h : list Z) : list Z := drop 157 h.

Definition lift_res {A} (r : res A) : M St A :=
  match r with Ok a => ret a | Err e => fail e end.

Definition tar_entry_length (header : list Z) : M St Z :=
  let! n := lift_res (oct2bin (h_fsize header) 12) in
  ret (u32 ((u32 (n + 511) / 512 + 1) * 512)).

Definition tar_flags (type : Z) : Z :=
  if (type =? 0) || (type =? 48) then FS_NODE_FILE
  else if type =? 50 then FS_NODE_SYMLINK
  else if type =? 53 then FS_NODE_DIRECTORY
  else 0.

(** [sizeof(struct tar_obj)] is 20. *)
Definition tar_create_obj_from_header (device : Z) (header : list Z) (offset : Z) : M St Z :=
  let! obj := zoom fs_heap (kcalloc 20) in
  if obj =? 0 then ret 0
  else
    let! length := lift_res (oct2bin (h_fsize header) 12) in
    let! name := strndup (h_name header) 100 in
    let flags := tar_flags (h_type header) in
    let! name :=
      (if negb (Z.land flags FS_NODE_DIRECTORY =? 0) then
         let! l := strlen (name ++ [0]) in
         let! c := byte (name ++ [0]) (l - 1) in
         ret (if c =? SLASH then take (Z.to_nat (l - 1)) name else name)
       else ret name) in
    mod_drv (fun d => set_tars (<[obj := TarObj device name offset flags length]> (d_tars d)) d) >>>
    ret obj.

(** One component of the loop that fills in a node's name: the text from [s]
    on is copied to the start of the zeroed buffer. *)
Definition name_round (name : list Z) (st : Z * list Z) : M St (Z * list Z + list Z) :=
  let '(s, buf) := st in
  let! n := path_element_size (drop (Z.to_nat s) (name ++ [0])) in
  let buf := take (Z.to_nat n) (drop (Z.to_nat s) name) ++ drop (Z.to_nat n) buf in
  let! d := byte buf n in
  ret (if negb (d =? 0) then inl (s + n + 1, buf) else inr buf).

Definition fs_node_from_tar (a : Z) : M St Z :=
  let! f := fs_node_new in
  if f =? 0 then ret 0
  else
    let! obj := tar_at a in
    let! buf := loop (S (length (a_name obj))) (name_round (a_name obj)) (0, replicate 256 0) in
    let! l := strlen buf in
    upd_node f (fun x => FsNode (take (Z.to_nat l) buf) (a_flags obj) a (a_length obj) (Some Tar_read) None
      (Some Tar_open) (Some Tar_close) (Some Tar_readdir) (Some Tar_finddir) None None (Some Tar_readlink) None
      (n_refcount x)) >>>
    ret f.

Section device.
(** [fs_read] on the device. *)
Variable dev_read : Z -> Z -> Z -> M St (Z * list Z).

(** [tar_foreach_entry]: [body] answers to leave the loop. *)
Definition tar_foreach_entry {A B} (fuel : nat) (device : Z) (a : A)
    (body : Z -> list Z -> A -> M St (A + B)) : M St (A + B) :=
  loop fuel (fun '(ptr, a) =>
    let! r := dev_read device ptr header_size in
    let '(s, header) := r in
    if s =? header_size then
      let! b := body ptr header a in
      match b with
      | inr b => ret (inr (inr b))
      | inl a =>
          let! n := tar_entry_length header in
          ret (inl (u32 (ptr + n), a))
      end
    else ret (inr (inl a))) (0, a).

(** An entry takes at least 512 bytes. *)
Definition tar_fuel (device : Z) : M St nat :=
  let! x := node_at device in ret (S (S (Z.to_nat (n_length x / 512)))).

Definition tar_match (header fname : list Z) (fname_len : Z) : M St bool :=
  let! same := same_bytes (h_name header) (fname ++ [0]) fname_len in
  if same then
    let! c := byte (h_name header) fname_len in
    if c =? 0 then ret true
    else if c =? SLASH then
      let! c2 := byte (h_name header) (fname_len + 1) in ret (c2 =? 0)
    else ret false
  else ret false.

(** The offset and the header of the entry, -1 when there is none. *)
Definition tar_lookup (device : Z) (fname : list Z) : M St (Z * list Z) :=
  let! fname_len := strlen (fname ++ [0]) in
  if 98 <? fname_len then ret (MINUS_1, [])
  else
    let! fuel := tar_fuel device in
    let! r := tar_foreach_entry fuel device tt (fun ptr header _ =>
      let! m := tar_match header fname fname_len in
      ret (if m then inr (ptr, header) else inl tt)) in
    ret (match r with inr r => r | inl _ => (MINUS_1, []) end).

Definition tar_read (node offset size : Z) : M St (Z * list Z) :=
  let! x := node_at node in
  kassert (negb (n_object x =? 0)) >>>
  let! obj := tar_at (n_object x) in
  if n_length x <? offset then ret (0, [])
  else
    let size := if n_length x <? u32 (offset + size) then n_length x - offset else size in
    dev_read (a_device obj) (u32 (a_offset obj + 512 + offset)) size.

Definition tar_open (node flags : Z) : M St unit := ret tt.

Definition tar_close (node : Z) : M St unit :=
  let! x := node_at node in
  let! obj := tar_at (n_object x) in
  zoom fs_heap (kfree (n_object x)) >>>
  mod_drv (fun d => set_tars (delete (n_object x) (d_tars d)) d).

(** The name of an entry below the directory, cut to 100 bytes; [None] for
    the entries that are not directly in it. *)
Definition tar_subname (header fname : list Z) (fname_len : Z) : M St (option (list Z)) :=
  let! dot := same_bytes (h_name header) [DOT; SLASH; 0] 3 in
  if dot then ret None
  else
    let! same := same_bytes (h_name header) (fname ++ [0]) fname_len in
    if same then
      let! c := byte (h_name header) fname_len in
      let from := if c =? SLASH then fname_len + 1 else fname_len in
      let! subname := strndup (drop (Z.to_nat from) (h_name header)) 100 in
      let buf := subname ++ replicate (100 - length subname) 0 in
      let! c := byte buf 0 in
      if c =? 0 then ret None
      else
        let! plen := path_element_size buf in
        let! c := byte buf plen in
        if c =? SLASH then
          let! c2 := byte buf (plen + 1) in
          if negb (c2 =? 0) then ret None else ret (Some (take (Z.to_nat plen) subname))
        else ret (Some subname)
    else ret None.

Definition tar_readdir (node i : Z) : M St (option dirent) :=
  let! x := node_at node in
  kassert (negb (n_object x =? 0)) >>>
  let! obj := tar_at (n_object x) in
  kassert (negb (a_device obj =? 0)) >>>
  if i =? 0 then ret (Some (Dirent 0 [DOT]))
  else if i =? 1 then ret (Some (Dirent 1 [DOT; DOT]))
  else
    let fname := a_name obj in
    let! fname_len := strlen (fname ++ [0]) in
    let! fuel := tar_fuel (a_device obj) in
    let! r := tar_foreach_entry fuel (a_device obj) 1 (fun _ header j =>
      let! sub := tar_subname header fname fname_len in
      ret (match sub with
           | None => inl j
           | Some subname => if j + 1 =? i then inr subname else inl (j + 1)
           end)) in
    ret (match r with inr subname => Some (Dirent i subname) | inl _ => None end).

Definition tar_finddir (node : Z) (name : list Z) : M St Z :=
  let! x := node_at node in
  let! obj := tar_at (n_object x) in
  let! l := strlen (a_name obj ++ [0]) in
  let! _l2 := strlen (name ++ [0]) in
  let path := a_name obj ++ (if negb (l =? 0) then [SLASH] else []) ++ name in
  let! r := tar_lookup (a_device obj) path in
  let '(off, header) := r in
  if off =? MINUS_1 then ret 0
  else
    let! obj2 := tar_create_obj_from_header (a_device obj) header off in
    kassert (negb (obj2 =? 0)) >>>
    let! f := fs_node_from_tar obj2 in
    kassert (negb (f =? 0)) >>>
    ret f.

Definition tar_readlink (node size : Z) : M St (Z * list Z) :=
  let! x := node_at node in
  let! obj := tar_at (n_object x) in
  kassert (negb (Z.land (a_flags obj) FS_NODE_SYMLINK =? 0)) >>>
  let! r := dev_read (a_device obj) (a_offset obj) header_size in
  let '(s, header) := r in
  if negb (s =? header_size) then ret (-1, [])
  else
    let! l := strlen (h_linked_name header) in
    let linked_name_len := l + 1 in
    if size <? linked_name_len then ret (-1, [])
    else ret (linked_name_len - 1, take (Z.to_nat linked_name_len) (h_linked_name header)).
End device.

(** ** Dispatch

    A device may itself be a file of an archive; [depth] bounds how deep. *)
Fixpoint run_read (depth : nat) (h : handler) (node offset size : Z) : M St (Z * list Z) :=
  match h with
  | Tmpfs_read => tmpfs_read node offset size
  | Ramdisk_read => ramdisk_read node offset size
  | Null_read => null_read node offset size
  | Zero_read => zero_read node offset size
  | Tar_read =>
      match depth with
      | O => fail NoFuel
      | S depth' =>
          tar_read (fun device offset size =>
            kassert (negb (device =? 0)) >>>
            let! x := node_at device in
            match n_read x with Some h => run_read depth' h device offset size | None => ret (MINUS_1, []) end)
            node offset size
      end
  | _ => fail Fault
  end.

Definition read_depth : nat := 8.

(** [fs_read] on a device. *)
Definition read_device (device offset size : Z) : M St (Z * list Z) :=
  kassert (negb (device =? 0)) >>>
  let! x := node_at device in
  match n_read x with Some h => run_read read_depth h device offset size | None => ret (MINUS_1, []) end.

#[export] Instance kernel_handlers : Handlers (fstate H drivers handler) handler := {
  call_read h node offset size := run_read read_depth h node offset size;
  call_write h node offset size buffer :=
    match h with
    | Tmpfs_write => tmpfs_write node offset size buffer
    | Ramdisk_write => ramdisk_write node offset size buffer
    | Null_write => null_write node offset size buffer
    | _ => fail Fault
    end;
  call_open h node flags :=
    match h with
    | Tmpfs_open => tmpfs_open node flags
    | Ramdisk_open => ramdisk_open node flags
    | Tar_open => tar_open node flags
    | _ => fail Fault
    end;
  call_close h node :=
    match h with
    | Tmpfs_close => tmpfs_close node
    | Ramdisk_close => ramdisk_close node
    | Tar_close => tar_close node
    | _ => fail Fault
    end;
  call_readdir h node i :=
    match h with
    | Tmpfs_readdir => tmpfs_readdir node i
    | Tar_readdir => tar_readdir read_device node i
    | _ => fail Fault
    end;
  call_finddir h node name :=
    match h with
    | Tmpfs_finddir => tmpfs_finddir node name
    | Tar_finddir => tar_finddir read_device node name
    | _ => fail Fault
    end;
  call_create h node name permissions :=
    match h with Tmpfs_create => tmpfs_create node name permissions | _ => fail Fault end;
  call_unlink h node name :=
    match h with Tmpfs_unlink => tmpfs_unlink node name | _ => fail Fault end;
  call_readlink h node size :=
    match h with Tar_readlink => tar_readlink read_device node size | _ => fail Fault end;
  call_mkdir h node name permissions :=
    match h with Tmpfs_mkdir => tmpfs_mkdir node name permissions | _ => fail Fault end;
}.

(** "tmpfs". *)
Definition mount_tmpfs : M St Z :=
  let! tmpfs_root := tmpfs_create_obj [116; 109; 112; 102; 115] FS_NODE_DIRECTORY in
  upd_obj tmpfs_root (set_obj_ref (-1)) >>>
  let! root_node := fs_node_from_tmpfs tmpfs_root in
  fs_open root_node 0 >>>
  ret root_node.

Definition mount_tar (device : Z) : M St Z :=
  let! obj := zoom fs_heap (kcalloc 20) in
  kassert (negb (obj =? 0)) >>>
  fs_open device 0 >>>
  mod_drv (fun d => set_tars (<[obj := TarObj device [] 0 FS_NODE_DIRECTORY 0]> (d_tars d)) d) >>>
  let! f := fs_node_from_tar obj in
  kassert (negb (f =? 0)) >>>
  ret f.
End ops.

(** ** Facts the drivers share *)

Section facts.
Context {H : Type} `{KHeapLaws H}.
Abbreviation St := (fstate H drivers handler).
Implicit Types (s : St) (E : panic -> Prop).

Lemma wp_at_node s p x (Q : fs_node_t handler -> St -> Prop) E :
  f_nodes s !! p = Some x -> Q x s -> wp (node_at p) Q E s.
Proof. intros Hp HQ. unfold node_at. wp_cond. by rewrite Hp. Qed.

(** The fresh objects of an operation: the heap knows [ps] besides. *)
Definition more_live (h h' : H) (ps : list Z) : Prop :=
  heap_ok h' /\ heap_live h' = list_to_set ps ∪ heap_live h /\ NoDup ps /\
  forall p, p ∈ ps -> 0 < p < 2 ^ 32 /\ (p ∉ heap_live h).

Lemma more_live_trans h1 h2 h3 a f :
  more_live h1 h2 [a] -> more_live h2 h3 [f] -> more_live h1 h3 [f; a].
Proof.
  intros (A1 & A2 & A3 & A4) (B1 & B2 & B3 & B4). split; [done|]. split; [rewrite B2, A2; set_solver|].
  destruct (B4 f ltac:(set_solver)) as [Hf Hfn]. destruct (A4 a ltac:(set_solver)) as [Ha Han]. split.
  - apply NoDup_cons. split; [|apply NoDup_singleton]. intros ->%list_elem_of_singleton. apply Hfn. rewrite A2. set_solver.
  - intros p [->|Hp]%elem_of_cons.
    + split; [done|]. intros Hl. apply Hfn. rewrite A2. set_solver.
    + apply list_elem_of_singleton in Hp as ->. done.
Qed.

Lemma wp_fs_node_new s :
  heap_ok (f_heap s) ->
  wp fs_node_new (fun f s' => f <> 0 /\ exists h', more_live (f_heap s) h' [f] /\
    s' = FState h' (<[f := set_refcount 1 zero_node]> (f_nodes s)) (f_mounts s) (f_root s) (f_drv s)) only_nomem s.
Proof.
  intros Hh. unfold fs_node_new. wp_steps. apply wp_zoom.
  wp_apply kcalloc_spec; [exact Hh|lia| |done]. intros f h' (Hh' & Hf & Hfresh & Hlive). cbv beta. wp_cond.
  rewrite (proj2 (Z.eqb_neq f 0)) by lia. wp_steps. split; [lia|]. exists h'. split; [|done]. split; [done|]. split.
  - rewrite Hlive. set_solver.
  - split; [apply NoDup_singleton|]. intros p ->%list_elem_of_singleton. done.
Qed.
End facts.
