(* ===== verification/Tmpfs.v ===== *)
(** * Files and directories in memory (kernel/tmpfs.c)

    The contents of a file as a list of bytes, and what reading, writing and
    looking up do to it. *)
From S2P Require Import Prelude Interfaces Itoa FsPath Fs Drivers.

(** ** Contents *)

(** The bytes of a file. *)
Definition content (o : tmpfs_object) : list Z := default [] (t_block o).

(** A file has a block as long as it says, none while it is empty. *)
Definition file_ok (o : tmpfs_object) : Prop :=
  obj_flag o FS_NODE_FILE = true /\ t_block_size o = zlen (content o) /\
  (t_block o = None -> t_block_size o = 0) /\ zlen (content o) < 2 ^ 32.

(** [n] bytes of [b] from [off] on, as many as there are. *)
Definition slice (b : list Z) (off n : Z) : list Z := take (Z.to_nat n) (drop (Z.to_nat off) b).

(** [b] with [buf] written at [off]; [gap] fills what lies between. *)
Definition splice (gap b : list Z) (off : Z) (buf : list Z) : list Z :=
  take (Z.to_nat off) (b ++ drop (length b) gap) ++ buf ++ drop (Z.to_nat off + length buf) b.

Lemma splice_inside gap b off buf :
  0 <= off <= zlen b ->
  splice gap b off buf = take (Z.to_nat off) b ++ buf ++ drop (Z.to_nat off + length buf) b.
Proof. intros Hoff. unfold splice. by rewrite take_app_le by (unfold zlen in Hoff; lia). Qed.

(** What was written is what is there, and the rest stays. *)
Lemma slice_splice gap b off buf :
  0 <= off -> off <= zlen b \/ off <= zlen gap -> slice (splice gap b off buf) off (zlen buf) = buf.
Proof.
  intros Hoff Hl. unfold slice, splice.
  assert (length (take (Z.to_nat off) (b ++ drop (length b) gap)) = Z.to_nat off) as Ht.
  { rewrite length_take, length_app, length_drop. unfold zlen in Hl. lia. }
  rewrite drop_app_length' by done. unfold zlen. by rewrite Nat2Z.id, take_app_length.
Qed.

Lemma splice_length gap b off buf :
  0 <= off -> off <= zlen b \/ off <= zlen gap -> zlen (splice gap b off buf) = Z.max (zlen b) (off + zlen buf).
Proof.
  intros Hoff Hl. unfold splice, zlen in *. rewrite !length_app, length_take, length_app, !length_drop. lia.
Qed.

Lemma splice_keeps gap b off buf i :
  0 <= i < zlen b -> i < off \/ off + zlen buf <= i -> 0 <= off ->
  off <= zlen b \/ off <= zlen gap -> splice gap b off buf !! Z.to_nat i = b !! Z.to_nat i.
Proof.
  intros Hi Hout Hoff Hl. unfold splice, zlen in *.
  assert (length (take (Z.to_nat off) (b ++ drop (length b) gap)) = Z.to_nat off) as Ht.
  { rewrite length_take, length_app, length_drop. lia. }
  destruct Hout.
  - rewrite lookup_app_l by lia. rewrite lookup_take_lt by lia. by rewrite lookup_app_l by lia.
  - rewrite lookup_app_r by lia. rewrite lookup_app_r by lia. rewrite lookup_drop. f_equal. lia.
Qed.

Lemma same_bytes_comm {S} (a b : list Z) n (s : S) : same_bytes a b n s = same_bytes b a n s.
Proof.
  unfold same_bytes. cbv [bind]. generalize (Z.to_nat n) as k. intros k.
  assert (forall i s, for_ret k i (fun i =>
      let! c1 := byte a i in let! c2 := byte b i in ret (if c1 =? c2 then None else Some tt)) s =
    for_ret k i (fun i =>
      let! c1 := byte b i in let! c2 := byte a i in ret (if c1 =? c2 then None else Some tt)) (s : S)) as Hk.
  { induction k as [|k IH]; intros i s'; [done|]. rewrite !for_ret_S. unfold byte, bind, some, ret, fail.
    destruct (zlookup a i) as [x|], (zlookup b i) as [y|]; try done. rewrite (Z.eqb_sym y x).
    destruct (x =? y); [apply IH|done]. }
  by rewrite Hk.
Qed.

Section file.
Context {H : Type} `{KHeapLaws H}.
Abbreviation St := (fstate H drivers handler).
Implicit Types (s : St) (E : panic -> Prop).
Variable junk : Z -> list Z.
Hypothesis Hjunk : forall n, 0 <= n -> zlen (junk n) = n.

Definition set_obj (o : Z) (obj : tmpfs_object) (s : St) : St :=
  set_drv (set_objs (<[o := obj]> (d_objs (f_drv s))) (f_drv s)) s.

(** Node [f] stands for the object [obj] at [o]. *)
Definition stands_for s (f o : Z) (obj : tmpfs_object) : Prop :=
  o <> 0 /\ d_objs (f_drv s) !! o = Some obj /\ exists x, f_nodes s !! f = Some x /\ n_object x = o.

Lemma wp_obj s o obj (Q : tmpfs_object -> St -> Prop) E :
  d_objs (f_drv s) !! o = Some obj -> Q obj s -> wp (obj_at o) Q E s.
Proof. intros Ho HQ. unfold obj_at. wp_cond. by rewrite Ho. Qed.

Lemma wp_upd_obj s o obj f (Q : unit -> St -> Prop) E :
  d_objs (f_drv s) !! o = Some obj -> Q tt (set_obj o (f obj) s) -> wp (upd_obj o f) Q E s.
Proof. intros Ho HQ. unfold upd_obj, mod_drv. wp_steps. apply (wp_obj s o obj); [done|]. by wp_steps. Qed.

(** The tests every handler starts with. *)
Ltac wp_stands Hs :=
  let Ho := fresh "Ho" in let Hobj := fresh "Hobj" in let x := fresh "x" in let Hx := fresh "Hx" in let Hxo := fresh "Hxo" in
  destruct Hs as (Ho & Hobj & x & Hx & Hxo);
  wp_steps; apply (wp_at_node _ _ _ _ _ Hx); wp_steps; rewrite Hxo, (proj2 (Z.eqb_neq _ 0) Ho); cbn [negb]; wp_cond; wp_steps;
  apply (wp_obj _ _ _ _ _ Hobj); wp_steps.

(** ** Reading *)

Lemma wp_tmpfs_read s f o obj off size (Q : Z * list Z -> St -> Prop) E :
  stands_for s f o obj -> file_ok obj -> 0 <= off -> 0 <= size -> off + size < 2 ^ 32 ->
  Q (if zlen (content obj) <? off then (MINUS_1, [])
     else (zlen (slice (content obj) off size), slice (content obj) off size)) s ->
  wp (tmpfs_read f off size) Q E s.
Proof.
  intros Hs (Hf & Hb & Hn & Hlt) Hoff Hsize Hov HQ. unfold tmpfs_read.
  wp_stands Hs. rewrite Hf, Hb.
  destruct (Z.ltb_spec (zlen (content obj)) off) as [Hlo|Hlo]; [by wp_steps|].
  rewrite u32_small by (unfold is_u32; lia). cbv zeta.
  assert ((if off + size <=? zlen (content obj) then size else zlen (content obj) - off) =
    zlen (slice (content obj) off size)) as ->.
  { unfold slice, zlen in *. rewrite length_take, length_drop.
    destruct (Z.leb_spec (off + size) (Z.of_nat (length (content obj)))); lia. }
  destruct (Z.eqb_spec (zlen (slice (content obj) off size)) 0) as [Hz|Hz].
  { wp_steps. rewrite Hz in HQ. destruct (slice (content obj) off size); [exact HQ|done]. }
  wp_cond. destruct (t_block obj) as [b|] eqn:Hblock.
  2: { exfalso. apply Hz. unfold slice, content. rewrite Hblock. cbn. by rewrite drop_nil, take_nil. }
  assert (content obj = b) as Hc by (unfold content; by rewrite Hblock). rewrite Hc in *.
  unfold copy_out. wp_cond. rewrite (proj2 (Z.eqb_neq _ 0)) by done. cbn [negb].
  assert (zlen (slice b off size) <= zlen b - off) as Hle
    by (unfold slice, zlen in *; rewrite length_take, length_drop; lia).
  rewrite (proj2 (Z.leb_le _ _)) by lia. wp_steps.
  replace (take (Z.to_nat (zlen (slice b off size))) (drop (Z.to_nat off) b)) with (slice b off size); [exact HQ|].
  unfold slice, zlen. rewrite Nat2Z.id. by rewrite length_take, <- take_take, firstn_all.
Qed.

(** ** Writing *)

(** The object after a write. *)
Definition written (obj : tmpfs_object) (off : Z) (buf : list Z) : tmpfs_object :=
  let b := splice (junk (off + zlen buf)) (content obj) off buf in set_block b (zlen b) obj.

Lemma wp_tmpfs_write s f o obj off buf post (Q : Z -> St -> Prop) E :
  stands_for s f o obj -> file_ok obj -> 0 <= off -> buf <> [] -> off + zlen buf < 2 ^ 32 ->
  E NoMemory -> Q (zlen buf) (set_obj o (written obj off buf) s) ->
  wp (tmpfs_write junk f off (zlen buf) (buf ++ post)) Q E s.
Proof.
  intros Hs (Hf & Hb & Hn & Hlt) Hoff Hne Hov HE HQ. unfold tmpfs_write.
  pose proof Hs as (_ & Hobj0 & _). wp_stands Hs. rewrite Hf, Hb. cbv zeta.
  assert (0 < zlen buf) as Hpos by (destruct buf; [done|unfold zlen; cbn; lia]).
  rewrite u32_small by (unfold is_u32; lia). set (n := off + zlen buf) in *.
  assert (forall b m s1, off + zlen buf <= zlen b -> d_objs (f_drv s1) !! o = Some (set_block b m obj) ->
    splice (junk n) (content obj) off buf = take (Z.to_nat off) b ++ buf ++ drop (Z.to_nat n) b ->
    m = zlen b -> set_obj o (written obj off buf) s1 = set_obj o (written obj off buf) s ->
    wp (let! obj := obj_at o in
        let! block := some (t_block obj) in
        let! block := copy_in block off (zlen buf) (buf ++ post) in
        upd_obj o (set_block block (t_block_size obj)) >>> ret (zlen buf)) Q E s1) as Hgo.
  { intros b m s1 Hlen Ho1 Hsp -> Hs1. wp_steps. apply (wp_obj s1 o _ _ _ Ho1). wp_steps. cbn [t_block set_block]. wp_steps.
    unfold copy_in. wp_cond. rewrite (proj2 (Z.eqb_neq _ 0)) by lia. cbn [negb]. rewrite zlen_app. pose proof (zlen_nonneg post).
    rewrite (proj2 (Z.leb_le _ _)) by lia. rewrite (proj2 (Z.leb_le _ _)) by lia. cbn [andb]. wp_cond. wp_steps.
    apply (wp_upd_obj s1 o _ _ _ _ Ho1). wp_steps. rewrite take_zlen. fold n. rewrite <- Hsp.
    cbn [set_block t_block_size t_name t_flags t_childs t_refcount].
    replace (zlen b) with (zlen (splice (junk n) (content obj) off buf)).
    - change (Q (zlen buf) (set_obj o (written obj off buf) s1)). by rewrite Hs1.
    - rewrite Hsp. unfold zlen in *. rewrite !length_app, length_take, length_drop. lia. }
  destruct (Z.ltb_spec (zlen (content obj)) n) as [Hlt2|Hge].
  - unfold krealloc. wp_steps. destruct (heap_room (f_heap s) n); [|by wp_steps].
    apply (wp_upd_obj s o obj _ _ _ Hobj0). unfold grown_block. fold (content obj).
    assert (take (Z.to_nat n) (content obj) = content obj) as -> by (apply take_ge; unfold zlen in Hlt2; lia).
    set (b := content obj ++ drop (length (content obj)) (junk n)).
    assert (zlen b = n) as Hbn.
    { subst b. pose proof (Hjunk n ltac:(lia)). unfold zlen in *. rewrite length_app, length_drop. lia. }
    apply (Hgo b n); [lia|cbn; apply lookup_insert_eq| |done|].
    + unfold splice. fold b. do 2 f_equal. rewrite !drop_ge; [done| |]; unfold zlen in *; lia.
    + unfold set_obj, set_drv, set_objs. cbn. by rewrite insert_insert_eq.
  - destruct (t_block obj) as [b|] eqn:Hblock; [|specialize (Hn eq_refl); lia].
    assert (content obj = b) as Hc by (unfold content; by rewrite Hblock). rewrite Hc in *.
    wp_cond. apply (Hgo b (zlen b)); [lia| | |done|done].
    + rewrite Hobj0. f_equal. destruct obj. cbn in *. by subst.
    + rewrite splice_inside by lia. do 3 f_equal. unfold n, zlen in *. lia.
Qed.

(** ** Directories *)

(** The children are objects with proper names. *)
Definition children_ok (objs : gmap Z tmpfs_object) (l : list Z) : Prop :=
  Forall (fun o => o <> 0 /\ exists obj, objs !! o = Some obj /\ text (t_name obj)) l.

(** The first child whose name passes [test], and its index from [i] on. *)
Fixpoint first_child (test : list Z -> bool) (objs : gmap Z tmpfs_object) (i : Z) (l : list Z) : option (Z * Z) :=
  match l with
  | [] => None
  | o :: l' =>
      if match objs !! o with Some obj => test (t_name obj) | None => false end then Some (i, o)
      else first_child test objs (i + 1) l'
  end.

Lemma wp_find_child s l name n test (Q : option (Z * Z) -> St -> Prop) E :
  children_ok (d_objs (f_drv s)) l ->
  (forall t (Q : bool -> St -> Prop) s, text t -> Q (test t) s -> wp (same_bytes (name ++ [0]) (t ++ [0]) n) Q E s) ->
  Q (first_child test (d_objs (f_drv s)) 0 l) s -> wp (find_child l name n) Q E s.
Proof.
  clear junk Hjunk. intros Hl Htest HQ. unfold find_child.
  assert (forall post pre, l = pre ++ post -> Q (first_child test (d_objs (f_drv s)) (zlen pre) post) s ->
    wp (for_ret (length post) (zlen pre) (fun i =>
      let! v_obj := some (zlookup l i) in
      kassert (negb (v_obj =? 0)) >>>
      let! obj := obj_at v_obj in
      let! same := same_bytes (name ++ [0]) (t_name obj ++ [0]) n in
      ret (if same then Some (i, v_obj) else None))) Q E s) as Hgo.
  { intros post. induction post as [|o post IH]; intros pre Heq HQ'; cbn [length]; [cbn [for_ret]; by wp_steps|].
    apply wp_for_ret_step. rewrite Heq at 1. wp_cond. rewrite zlookup_app_mid. wp_steps.
    assert (o <> 0 /\ exists obj, d_objs (f_drv s) !! o = Some obj /\ text (t_name obj)) as (Ho & obj & Hobj & Ht).
    { eapply (proj1 (Forall_forall _ _) Hl). rewrite Heq. set_solver. }
    rewrite (proj2 (Z.eqb_neq o 0)) by done. cbn [negb]. wp_cond. wp_steps. apply (wp_obj s o obj); [done|]. wp_steps.
    apply Htest; [done|]. wp_steps. cbn [first_child] in HQ'. rewrite Hobj in HQ'. destruct (test (t_name obj)); [done|].
    replace (zlen pre + 1) with (zlen (pre ++ [o])) in * by (by rewrite zlen_app).
    apply IH; [by rewrite <- app_assoc|done]. }
  by apply (Hgo l []).
Qed.

Definition starts_with (name t : list Z) : bool := bool_decide (name `prefix_of` t).
Definition is_name (name t : list Z) : bool := bool_decide (name = t).

(** The two lookups: by the first bytes, and by the whole name. *)
Lemma wp_find_prefix s l name (Q : option (Z * Z) -> St -> Prop) E :
  children_ok (d_objs (f_drv s)) l -> text name ->
  Q (first_child (starts_with name) (d_objs (f_drv s)) 0 l) s -> wp (find_child l name (zlen name)) Q E s.
Proof.
  intros Hl Hn HQ. apply (wp_find_child s l name _ (starts_with name)); [done| |done].
  intros t Q' s' Ht HQ'. by apply (wp_same_prefix t [] name [0]).
Qed.

Lemma wp_find_name s l name (Q : option (Z * Z) -> St -> Prop) E :
  children_ok (d_objs (f_drv s)) l -> text name ->
  Q (first_child (is_name name) (d_objs (f_drv s)) 0 l) s -> wp (find_child l name (zlen name + 1)) Q E s.
Proof.
  intros Hl Hn HQ. apply (wp_find_child s l name _ (is_name name)); [done| |done].
  intros t Q' s' Ht HQ'. apply wp_intro. rewrite same_bytes_comm. apply wp_elim. apply (wp_same_bytes t [] name []); [done|done|].
  by rewrite (bool_decide_ext (t = name) (name = t)) by done.
Qed.

(** A node for an object. *)
Definition tmpfs_node (obj : tmpfs_object) (o refs : Z) : fs_node_t handler :=
  if t_flags obj =? FS_NODE_DIRECTORY then tmpfs_dir_node obj o refs else tmpfs_file_node obj o refs.

Definition is_tmpfs (obj : tmpfs_object) : Prop :=
  t_flags obj = FS_NODE_DIRECTORY \/ t_flags obj = FS_NODE_FILE.

Lemma wp_fs_node_from_tmpfs s o obj :
  heap_ok (f_heap s) -> o <> 0 -> d_objs (f_drv s) !! o = Some obj -> is_tmpfs obj ->
  wp (fs_node_from_tmpfs o) (fun f s' => f <> 0 /\ exists h', more_live (f_heap s) h' [f] /\
    s' = set_obj o (set_obj_ref (t_refcount obj + 1) obj)
      (FState h' (<[f := tmpfs_node obj o 1]> (f_nodes s)) (f_mounts s) (f_root s) (f_drv s))) only_nomem s.
Proof.
  clear junk Hjunk. intros Hh Ho Hobj Hkind. unfold fs_node_from_tmpfs. wp_cond. rewrite (proj2 (Z.eqb_neq o 0)) by done. cbn [negb].
  wp_apply (wp_fs_node_new s Hh); [|done]. intros f s1 (Hf & h' & Hlive & ->).
  wp_cond. rewrite (proj2 (Z.eqb_neq f 0)) by done. cbn [negb]. wp_steps. apply (wp_obj _ o obj); [done|]. wp_steps.
  set (s1 := FState _ _ _ _ _).
  assert (forall g : fs_node_t handler -> fs_node_t handler, g (set_refcount 1 zero_node) = tmpfs_node obj o 1 ->
    wp (upd_node f g) (fun _ s' => s' = FState h' (<[f := tmpfs_node obj o 1]> (f_nodes s)) (f_mounts s) (f_root s) (f_drv s))
      only_nomem s1) as Hupd.
  { intros g Hg. unfold upd_node. wp_steps. apply (wp_at_node s1 f (set_refcount 1 zero_node)); [apply lookup_insert_eq|].
    wp_steps. rewrite Hg. unfold s1, set_nodes. cbn [f_heap f_nodes f_mounts f_root f_drv]. by rewrite insert_insert_eq. }
  apply (wp_mono _ (fun _ s' => s' = FState h' (<[f := tmpfs_node obj o 1]> (f_nodes s)) (f_mounts s) (f_root s) (f_drv s)) _ only_nomem); [| |done].
  - unfold tmpfs_node in *. destruct Hkind as [Hk|Hk]; rewrite Hk in *.
    + change (FS_NODE_DIRECTORY =? FS_NODE_DIRECTORY) with true in *. cbv iota in *. by apply Hupd.
    + change (FS_NODE_FILE =? FS_NODE_DIRECTORY) with false in *. change (FS_NODE_FILE =? FS_NODE_FILE) with true. cbv iota in *.
      by apply Hupd.
  - intros u s2 ->. wp_steps. apply (wp_upd_obj _ o obj); [done|]. wp_steps. split; [done|]. by exists h'.
Qed.

(** ** Files as lists of bytes *)

Inductive file_op : Type :=
  | FRead (off size : Z)
  | FWrite (off : Z) (buf : list Z).

Definition run_op (f : Z) (op : file_op) : M St (Z * list Z) :=
  match op with
  | FRead off size => tmpfs_read f off size
  | FWrite off buf => let! n := tmpfs_write junk f off (zlen buf) buf in ret (n, [])
  end.

Fixpoint run_ops (f : Z) (ops : list file_op) : M St (list (Z * list Z)) :=
  match ops with
  | [] => ret []
  | op :: ops' => let! r := run_op f op in let! rs := run_ops f ops' in ret (r :: rs)
  end.

(** What an operation answers and leaves on the bytes [b]. *)
Definition spec_op (b : list Z) (op : file_op) : (Z * list Z) * list Z :=
  match op with
  | FRead off size =>
      (if zlen b <? off then (MINUS_1, []) else (zlen (slice b off size), slice b off size), b)
  | FWrite off buf => ((zlen buf, []), splice (junk (off + zlen buf)) b off buf)
  end.

Fixpoint spec_ops (b : list Z) (ops : list file_op) : list (Z * list Z) * list Z :=
  match ops with
  | [] => ([], b)
  | op :: ops' =>
      let '(r, b') := spec_op b op in
      let '(rs, b'') := spec_ops b' ops' in (r :: rs, b'')
  end.

Definition op_ok (op : file_op) : Prop :=
  match op with
  | FRead off size => 0 <= off /\ 0 <= size /\ off + size < 2 ^ 32
  | FWrite off buf => 0 <= off /\ buf <> [] /\ off + zlen buf < 2 ^ 32
  end.

Lemma written_ok obj off buf :
  file_ok obj -> 0 <= off -> buf <> [] -> off + zlen buf < 2 ^ 32 -> file_ok (written obj off buf).
Proof.
  intros (Hf & Hb & Hn & Hlt) Hoff Hne Hov. unfold written.
  assert (zlen (splice (junk (off + zlen buf)) (content obj) off buf) < 2 ^ 32) as Hl.
  { pose proof (zlen_nonneg buf). rewrite splice_length; [lia|done|]. right. rewrite Hjunk; lia. }
  split; [exact Hf|]. split; [done|]. split; [done|exact Hl].
Qed.

Lemma set_obj_twice o obj1 obj2 s : set_obj o obj2 (set_obj o obj1 s) = set_obj o obj2 s.
Proof. unfold set_obj, set_drv, set_objs. cbn. by rewrite insert_insert_eq. Qed.

Lemma stands_for_set s f o obj obj' : stands_for s f o obj -> stands_for (set_obj o obj' s) f o obj'.
Proof. intros (Ho & _ & Hx). split; [done|]. split; [cbn; apply lookup_insert_eq|exact Hx]. Qed.

Lemma set_obj_same s f o obj : stands_for s f o obj -> set_obj o obj s = s.
Proof.
  intros (_ & Hobj & _). unfold set_obj, set_drv, set_objs. rewrite insert_id by done. by destruct s as [? ? ? ? []].
Qed.


(** Runs the assignments up to the copy. *)
Ltac run_block Hobj :=
  unfold bind, upd_obj, obj_at, mod_drv, bind, gets, modify, kassert, some, copy_in, kassert, bind, ret, fail;
  cbn; rewrite ?Hobj; cbn; rewrite ?lookup_insert_eq; cbn.

(** C40. The errors of files: directories cannot be read or written through
    these handlers and reading behind the end fails, both with -1 and without
    a change; a write of no bytes fails an assertion, and so does one for which
    the block would have to grow when the heap has no room. *)
Theorem tmpfs_file_errors s f o obj off size buf :
  stands_for s f o obj -> 0 <= off < 2 ^ 32 -> 0 <= size < 2 ^ 32 ->
  (obj_flag obj FS_NODE_FILE = false ->
    tmpfs_read f off size s = Ok ((MINUS_1, []), s) /\ tmpfs_write junk f off size buf s = Ok (MINUS_1, s)) /\
  (file_ok obj -> zlen (content obj) < off -> tmpfs_read f off size s = Ok ((MINUS_1, []), s)) /\
  (file_ok obj -> size = 0 -> (off <= zlen (content obj) \/ heap_room (f_heap s) off = true) ->
    tmpfs_write junk f off size buf s = Err AssertFail) /\
  (file_ok obj -> zlen (content obj) < off + size < 2 ^ 32 -> heap_room (f_heap s) (off + size) = false ->
    tmpfs_write junk f off size buf s = Err NoMemory).
Proof.
  intros (Ho & Hobj & x & Hx & Hxo) Hoff Hsize.
  assert (forall A (k : fs_node_t handler -> tmpfs_object -> M St A),
    (let! x := node_at f in kassert (negb (n_object x =? 0)) >>> let! obj := obj_at (n_object x) in k x obj) s = k x obj s) as Hstart.
  { intros A k. unfold node_at, obj_at, bind, gets, some, kassert, ret. rewrite Hx, Hxo, (proj2 (Z.eqb_neq o 0)) by done.
    cbn. by rewrite Hobj. }
  unfold tmpfs_read, tmpfs_write. rewrite !Hstart. clear Hstart. rewrite Hxo. split; [|split; [|split]].
  - intros ->. done.
  - intros (-> & -> & _) Hl. by rewrite (proj2 (Z.ltb_lt _ _) Hl).
  - intros (-> & -> & Hn & _) -> Hroom. rewrite Z.add_0_r, u32_small by done. cbv zeta.
    destruct (Z.ltb_spec (zlen (content obj)) off) as [Hl|_].
    { destruct Hroom as [Hroom|Hroom]; [lia|]. unfold krealloc. run_block Hobj. rewrite Hroom. by run_block Hobj. }
    destruct (t_block obj) eqn:Hb; [|done]. run_block Hobj. by rewrite Hb.
  - intros (-> & -> & _) Hl Hroom. rewrite u32_small by (unfold is_u32; lia). cbv zeta. rewrite (proj2 (Z.ltb_lt _ _)) by lia.
    unfold krealloc. run_block Hobj. by rewrite Hroom.
Qed.

(** ** From creating a file to reading it *)

(** Objects and nodes are heap objects. *)
Definition objs_live s : Prop :=
  (forall o obj, d_objs (f_drv s) !! o = Some obj -> o ∈ heap_live (f_heap s)).

Lemma first_child_app test objs l l' : forall i,
  first_child test objs i (l ++ l') =
  match first_child test objs i l with Some r => Some r | None => first_child test objs (i + zlen l) l' end.
Proof.
  induction l as [|c l IH]; intros i; cbn [app first_child]; [by rewrite Z.add_0_r|].
  destruct (match objs !! c with Some obj => test (t_name obj) | None => false end); [done|].
  rewrite IH. destruct (first_child test objs (i + 1) l); [done|]. f_equal. unfold zlen. cbn [length]. lia.
Qed.

(** Only the names of the children matter. *)
Lemma first_child_ext test objs objs' l : forall i,
  (forall c, c ∈ l -> t_name <$> objs' !! c = t_name <$> objs !! c) ->
  first_child test objs' i l = first_child test objs i l.
Proof.
  clear junk Hjunk. induction l as [|c l IH]; intros i Hl; cbn [first_child]; [done|].
  specialize (IH (i + 1)). rewrite IH by (intros; apply Hl; set_solver).
  pose proof (Hl c ltac:(set_solver)) as Hc.
  destruct (objs' !! c) as [x|], (objs !! c) as [y|]; cbn in Hc; try done. by injection Hc as ->.
Qed.

Lemma first_child_weaken (test test' : list Z -> bool) objs l : forall i,
  (forall t, test' t = true -> test t = true) -> first_child test objs i l = None -> first_child test' objs i l = None.
Proof.
  induction l as [|c l IH]; intros i Ht; cbn [first_child]; [done|].
  destruct (objs !! c) as [x|]; [|by apply IH].
  destruct (test (t_name x)) eqn:Hx; [done|]. destruct (test' (t_name x)) eqn:Hx'; [|by apply IH].
  apply Ht in Hx'. congruence.
Qed.

Lemma children_ok_more objs objs' l :
  (forall c, c ∈ l -> t_name <$> objs' !! c = t_name <$> objs !! c) -> children_ok objs l -> children_ok objs' l.
Proof.
  clear junk Hjunk. intros Hl. unfold children_ok. rewrite !Forall_forall. intros Hc c Hin. destruct (Hc c Hin) as (H0c & obj & Hobj & Ht).
  split; [done|]. specialize (Hl c Hin). rewrite Hobj in Hl. destruct (objs' !! c) as [obj'|]; [|done].
  exists obj'. split; [done|]. cbn in Hl. by injection Hl as ->.
Qed.

Definition new_object (name : list Z) (flags refs : Z) : tmpfs_object :=
  TmpfsObject name flags (if negb (Z.land flags FS_NODE_DIRECTORY =? 0) then Some [] else None) None 0 refs.

Lemma wp_tmpfs_create_obj s name flags :
  heap_ok (f_heap s) ->
  wp (tmpfs_create_obj name flags) (fun o s' => exists h', more_live (f_heap s) h' [o] /\
    s' = set_obj o (new_object name flags 0) (FState h' (f_nodes s) (f_mounts s) (f_root s) (f_drv s))) only_nomem s.
Proof.
  clear junk Hjunk. intros Hh. unfold tmpfs_create_obj. wp_steps. apply wp_zoom.
  wp_apply kcalloc_spec; [exact Hh|lia| |done]. intros o h' (Hh' & Ho & Hfresh & Hlive). cbv beta. wp_cond.
  rewrite (proj2 (Z.eqb_neq o 0)) by lia. cbn [negb]. unfold mod_drv. wp_steps. exists h'. split; [|done]. split; [done|].
  split; [rewrite Hlive; set_solver|]. split; [apply NoDup_singleton|]. by intros p ->%list_elem_of_singleton.
Qed.

Lemma wp_children s o dobj l (Q : list Z -> St -> Prop) E :
  o <> 0 -> d_objs (f_drv s) !! o = Some dobj -> t_childs dobj = Some l -> Q l s -> wp (children o) Q E s.
Proof.
  intros Ho Hobj Hl HQ. unfold children. wp_cond. rewrite (proj2 (Z.eqb_neq o 0)) by done. cbn [negb].
  wp_steps. apply (wp_obj s o dobj); [done|]. rewrite Hl. by wp_steps.
Qed.

(** Making an entry that is not there. *)
Lemma wp_tmpfs_add s d o dobj l name flags :
  heap_ok (f_heap s) -> objs_live s -> stands_for s d o dobj -> t_childs dobj = Some l ->
  children_ok (d_objs (f_drv s)) l -> text name -> first_child (is_name name) (d_objs (f_drv s)) 0 l = None ->
  wp (tmpfs_add flags d name) (fun _ s' => exists c h', more_live (f_heap s) h' [c] /\ c <> o /\
    s' = set_obj o (set_childs (l ++ [c]) dobj) (set_obj c (new_object name flags 1)
      (FState h' (f_nodes s) (f_mounts s) (f_root s) (f_drv s)))) only_nomem s.
Proof.
  clear junk Hjunk. intros Hh Hlive (Ho & Hobj & x & Hx & Hxo) Hl Hok Hn Hnone. unfold tmpfs_add. wp_steps. apply (wp_at_node s d x); [done|].
  wp_steps. rewrite Hxo. apply (wp_children s o dobj l); [done..|]. wp_steps. apply wp_text_len; [done|].
  wp_steps. apply wp_find_name; [done|done|]. rewrite Hnone. wp_apply (wp_tmpfs_create_obj s name flags Hh); [|done].
  intros c s1 (h' & Hm & ->). destruct (proj2 (proj2 (proj2 Hm)) c ltac:(set_solver)) as [_ Hc].
  assert (c <> o) as Hco by (intros ->; by apply Hc, (Hlive o dobj)).
  wp_steps. apply (wp_upd_obj _ c (new_object name flags 0)); [apply lookup_insert_eq|]. wp_steps. rewrite set_obj_twice.
  apply (wp_upd_obj _ o dobj); [cbn; by rewrite lookup_insert_ne by done|]. exists c, h'. by split.
Qed.

Lemma wp_tmpfs_finddir s d o dobj l name (Q : Z -> St -> Prop) E :
  stands_for s d o dobj -> t_childs dobj = Some l -> children_ok (d_objs (f_drv s)) l -> text name ->
  wp (match first_child (starts_with name) (d_objs (f_drv s)) 0 l with
      | Some (_, c) => fs_node_from_tmpfs c
      | None => ret 0
      end) Q E s ->
  wp (tmpfs_finddir d name) Q E s.
Proof.
  intros (Ho & Hobj & x & Hx & Hxo) Hl Hok Hn HQ. unfold tmpfs_finddir. wp_steps. apply (wp_at_node s d x); [done|].
  wp_steps. rewrite Hxo. apply (wp_children s o dobj l); [done..|]. wp_steps. apply wp_text_len; [done|].
  wp_steps. apply wp_find_prefix; [done|done|]. by destruct (first_child _ _ 0 l) as [[i c]|].
Qed.

(** C22. What is written into a new file is read from it: creating a file
    under a name that no other name in the directory starts with, looking the
    name up, writing into the node found and reading it back gives the bytes
    written.  The only way to fail is running out of memory. *)
Theorem tmpfs_create_write_read s d o dobj l name permissions buf :
  heap_ok (f_heap s) -> objs_live s -> stands_for s d o dobj -> t_childs dobj = Some l ->
  children_ok (d_objs (f_drv s)) l -> text name -> first_child (starts_with name) (d_objs (f_drv s)) 0 l = None ->
  is_Some (f_nodes s !! d) -> (forall p, is_Some (f_nodes s !! p) -> p ∈ heap_live (f_heap s)) ->
  buf <> [] -> zlen buf < 2 ^ 32 ->
  wp (tmpfs_create d name permissions >>>
      let! f := tmpfs_finddir d name in
      let! n := tmpfs_write junk f 0 (zlen buf) buf in
      tmpfs_read f 0 n) (fun r _ => r = (zlen buf, buf)) only_nomem s.
Proof.
  intros Hh Hlive Hs Hl Hok Hn Hnone Hd Hnodes Hne Hlt.
  wp_apply (wp_tmpfs_add s d o dobj l name FS_NODE_FILE); [done..| | |done].
  { eapply first_child_weaken; [|exact Hnone]. unfold is_name, starts_with. by intros t ->%bool_decide_eq_true; apply bool_decide_eq_true. }
  intros u s1 (c & h' & Hm & Hco & ->). set (s1 := set_obj o _ _).
  pose proof (proj2 (proj2 (proj2 Hm)) c ltac:(set_solver)) as [Hc Hcl].
  destruct Hs as (Ho & Hobj & x & Hx & Hxo).
  assert (stands_for s1 d o (set_childs (l ++ [c]) dobj)) as Hs1.
  { split; [done|]. split; [apply lookup_insert_eq|]. by exists x. }
  assert (d_objs (f_drv s1) !! c = Some (new_object name FS_NODE_FILE 1)) as Hc1.
  { cbn. rewrite lookup_insert_ne by done. apply lookup_insert_eq. }
  assert (forall k, k ∈ l -> t_name <$> d_objs (f_drv s1) !! k = t_name <$> d_objs (f_drv s) !! k) as Hsame.
  { intros k Hk. assert (k <> c) as Hkc.
    { intros ->. apply Hcl. destruct (proj1 (Forall_forall _ _) Hok c Hk) as (_ & obj & Hko & _). by apply (Hlive c obj). }
    cbn. destruct (decide (k = o)) as [->|Hko]; [by rewrite lookup_insert_eq, Hobj|].
    by rewrite !lookup_insert_ne by done. }
  wp_steps. apply (wp_tmpfs_finddir s1 d o (set_childs (l ++ [c]) dobj) (l ++ [c])); [done|done| |done|].
  { apply Forall_app. split; [by apply (children_ok_more (d_objs (f_drv s)))|]. apply Forall_singleton.
    split; [lia|]. by exists (new_object name FS_NODE_FILE 1). }
  rewrite first_child_app, (first_child_ext _ _ _ _ _ Hsame), Hnone. cbn [first_child]. rewrite Hc1.
  cbn [t_name new_object]. unfold starts_with at 1. rewrite bool_decide_eq_true_2 by done.
  wp_apply (wp_fs_node_from_tmpfs s1 c (new_object name FS_NODE_FILE 1)); [apply Hm|lia|done|by right| |done].
  intros f s2 (Hf & h2 & Hm2 & ->). set (obj := set_obj_ref _ _).
  assert (file_ok obj) as Hfo by done.
  match goal with |- context [set_obj c obj ?s] => set (s2 := set_obj c obj s) end.
  assert (stands_for s2 f c obj) as Hs2.
  { split; [lia|]. split; [apply lookup_insert_eq|]. eexists. split; [apply lookup_insert_eq|done]. }
  wp_steps. rewrite <- (app_nil_r buf) at 2. apply (wp_tmpfs_write s2 f c obj); [done|done|lia|done|lia|done|].
  assert (content (written obj 0 buf) = buf) as Hcont.
  { unfold written, content. cbn [set_block t_block default]. unfold splice. cbn. by rewrite drop_nil, app_nil_r. }
  pose proof (zlen_nonneg buf).
  wp_steps. apply (wp_tmpfs_read _ f c (written obj 0 buf)); [by eapply stands_for_set|by apply written_ok|lia|lia|lia|].
  rewrite Hcont. rewrite (proj2 (Z.ltb_ge _ _)) by lia.
  assert (slice buf 0 (zlen buf) = buf) as ->; [|done].
  unfold slice, zlen. rewrite Nat2Z.id. cbn. apply firstn_all.
Qed.
End file.

(** ** A small file system

    A directory at 104 (its node at 100) with the file "ab" at 108, open as
    the node 112. *)

Definition sample_junk (n : Z) : list Z := replicate (Z.to_nat n) 7.

Definition sample_file : tmpfs_object := TmpfsObject [97; 98] FS_NODE_FILE None (Some [1; 2; 3]) 3 2.
Definition sample_dir : tmpfs_object := TmpfsObject [116] FS_NODE_DIRECTORY (Some [108]) None 0 0.

Definition sample_fs : fstate Interfaces.bump drivers handler :=
  FState (Bump 300 {[ 100; 104; 108; 112 ]})
    (<[100 := tmpfs_node sample_dir 104 1]> {[ 112 := tmpfs_node sample_file 108 1 ]})
    empty 0 (Drivers (<[104 := sample_dir]> {[ 108 := sample_file ]}) empty empty).

Lemma sample_junk_length n : 0 <= n -> zlen (sample_junk n) = n.
Proof. intros Hn. unfold sample_junk, zlen. rewrite length_replicate. lia. Qed.

Lemma sample_stands : stands_for sample_fs 112 108 sample_file.
Proof. split; [done|]. split; [reflexivity|]. by eexists. Qed.

Lemma sample_file_ok : file_ok sample_file.
Proof. by repeat split. Qed.


Lemma tmpfs_file_errors_witness :
  tmpfs_read 112 4 1 sample_fs = Ok ((MINUS_1, []), sample_fs) /\
  tmpfs_write sample_junk 112 2 0 [] sample_fs = Err AssertFail /\
  tmpfs_write sample_junk 112 (2 ^ 32 - 300) 4 [1; 2; 3; 4] sample_fs = Err NoMemory.
Proof.
  split; [|split].
  - apply (tmpfs_file_errors sample_junk sample_fs 112 108 sample_file 4 1 [] sample_stands);
      [lia|lia|exact sample_file_ok|done].
  - apply (tmpfs_file_errors sample_junk sample_fs 112 108 sample_file 2 0 [] sample_stands);
      [lia|lia|exact sample_file_ok|done|left; vm_compute; discriminate].
  - apply (tmpfs_file_errors sample_junk sample_fs 112 108 sample_file (2 ^ 32 - 300) 4 [1; 2; 3; 4] sample_stands);
      [lia|lia|exact sample_file_ok|change (zlen (content sample_file)) with 3; lia|reflexivity].
Defined.

(** A write whose end does not fit 32 bits needs no room, and its bytes go
    outside of the block (here an access outside of an object ends the run; the
    C code goes on). *)
Example tmpfs_write_wraps : tmpfs_write sample_junk 112 (2 ^ 32 - 2) 4 [1; 2; 3; 4] sample_fs = Err Fault.
Proof. reflexivity. Qed.

Lemma tmpfs_create_write_read_witness :
  wp (tmpfs_create 100 [97; 98; 99] 0 >>>
      let! f := tmpfs_finddir 100 [97; 98; 99] in
      let! n := tmpfs_write sample_junk f 0 (zlen [5; 6]) [5; 6] in
      tmpfs_read f 0 n) (fun r _ => r = (2, [5; 6])) only_nomem sample_fs.
Proof.
  apply (tmpfs_create_write_read sample_junk sample_junk_length sample_fs 100 104 sample_dir [108] [97; 98; 99] 0 [5; 6]);
    try reflexivity; try discriminate.
  - change (bump_ok (Bump 300 {[ 100; 104; 108; 112 ]})). split; [cbn; lia|]. intros p. cbn [bump_live]. set_solver by lia.
  - intros o obj Ho. cbn in Ho. change (o ∈ ({[ 100; 104; 108; 112 ]} : gset Z)).
    apply lookup_insert_Some in Ho as [[<- _]|[_ [<- _]%lookup_singleton_Some]]; set_solver.
  - split; [done|]. split; [reflexivity|]. by eexists.
  - apply Forall_singleton. split; [done|]. exists sample_file. split; [reflexivity|]. repeat constructor.
  - repeat constructor.
  - by eexists.
  - intros p [x Hp]. cbn in Hp. change (p ∈ ({[ 100; 104; 108; 112 ]} : gset Z)).
    apply lookup_insert_Some in Hp as [[<- _]|[_ [<- _]%lookup_singleton_Some]]; set_solver.
Defined.
