(* ===== verification/Tar.v ===== *)
(** * Archives (kernel/tar.c over kernel/ramdisk.c)

    The layout of a tar archive as a list of entries, and what the driver
    finds and reads in it. *)
From S2P Require Import Prelude Interfaces Itoa FsPath Fs Drivers.

(** ** Archives *)

Record entry : Type := Entry { e_header : list Z; e_data : list Z }.

Definition e_bytes (e : entry) : list Z := e_header e ++ e_data e.
Definition archive (es : list entry) : list Z := concat (map e_bytes es).

Definition e_fsize (e : entry) : Z :=
  match oct2bin (h_fsize (e_header e)) 12 with Ok n => n | Err _ => 0 end.

(** The C string at the start of some bytes. *)
Fixpoint c_text (b : list Z) : list Z :=
  match b with [] => [] | c :: b' => if c =? 0 then [] else c :: c_text b' end.

Definition e_name (e : entry) : list Z := c_text (e_header e).
Definition e_link (e : entry) : list Z := c_text (h_linked_name (e_header e)).
Definition e_flags (e : entry) : Z := tar_flags (h_type (e_header e)).

(** The bytes of the file. *)
Definition e_content (e : entry) : list Z := take (Z.to_nat (e_fsize e)) (e_data e).

(** A header of 512 bytes whose strings end inside it, and its data, filled
    up to whole blocks. *)
Record entry_ok (e : entry) : Prop := EntryOk {
  eo_header : zlen (e_header e) = 512;
  eo_bytes : Forall is_u8 (e_header e);
  eo_fsize : exists n, oct2bin (h_fsize (e_header e)) 12 = Ok n /\ 0 <= n;
  eo_data : zlen (e_data e) = (e_fsize e + 511) / 512 * 512;
  eo_name : exists rest, e_header e = e_name e ++ 0 :: rest;
  eo_link : exists rest, h_linked_name (e_header e) = e_link e ++ 0 :: rest;
}.

Definition archive_ok (es : list entry) : Prop :=
  Forall entry_ok es /\ zlen (archive es) < 2 ^ 31.

(** An entry matches a path with or without a slash behind it. *)
Definition e_matches (path : list Z) (e : entry) : bool :=
  bool_decide (e_name e = path) || bool_decide (e_name e = path ++ [SLASH]).

(** The first entry for [path], and its offset; [ptr] is where [es] starts. *)
Fixpoint lookup_entry (path : list Z) (ptr : Z) (es : list entry) : option (Z * entry) :=
  match es with
  | [] => None
  | e :: es' =>
      if e_matches path e then Some (ptr, e) else lookup_entry path (ptr + zlen (e_bytes e)) es'
  end.

Lemma c_text_text b : Forall is_u8 b -> text (c_text b).
Proof.
  induction b as [|c b IH]; intros Hb; cbn; [constructor|]. apply Forall_cons in Hb as [Hc Hb].
  destruct (Z.eqb_spec c 0); [constructor|]. constructor; [unfold is_u8 in Hc; lia|]. by apply IH.
Qed.

Lemma e_name_text e : entry_ok e -> text (e_name e).
Proof. intros He. apply c_text_text. apply He. Qed.

Lemma e_link_text e : entry_ok e -> text (e_link e).
Proof. intros He. apply c_text_text. unfold h_linked_name. apply Forall_drop. apply He. Qed.

Lemma e_fsize_ok e : entry_ok e -> oct2bin (h_fsize (e_header e)) 12 = Ok (e_fsize e) /\ 0 <= e_fsize e.
Proof. intros He. destruct (eo_fsize e He) as (n & Hn & H0). unfold e_fsize. by rewrite Hn. Qed.

Lemma e_bytes_length e : entry_ok e -> zlen (e_bytes e) = ((e_fsize e + 511) / 512 + 1) * 512.
Proof. intros He. unfold e_bytes. rewrite zlen_app, (eo_header e He), (eo_data e He). lia. Qed.

Lemma e_fsize_bound e : entry_ok e -> e_fsize e <= zlen (e_data e).
Proof.
  intros He. rewrite (eo_data e He). pose proof (Z.div_mod (e_fsize e + 511) 512).
  pose proof (Z.mod_pos_bound (e_fsize e + 511) 512). lia.
Qed.

Lemma archive_app es1 es2 : archive (es1 ++ es2) = archive es1 ++ archive es2.
Proof. unfold archive. by rewrite map_app, concat_app. Qed.

Lemma archive_cons e es : archive (e :: es) = e_header e ++ e_data e ++ archive es.
Proof. unfold archive. cbn. unfold e_bytes. by rewrite <- app_assoc. Qed.

(** ** Reading from the device *)

Section device.
Context {H : Type} `{KHeap H}.
Abbreviation St := (fstate H drivers handler).
Implicit Types (s : St) (E : panic -> Prop).

(** Node [p] is a ramdisk with the archive [es]. *)
Definition holds_archive s (p : Z) (es : list entry) : Prop :=
  p <> 0 /\ archive_ok es /\ exists x post, f_nodes s !! p = Some x /\ n_read x = Some Ramdisk_read /\
    n_length x = zlen (archive es) /\ d_disks (f_drv s) !! n_object x = Some (archive es ++ post).

(** A read inside the device, cut at its end. *)
Lemma wp_read_device s p es off size (Q : Z * list Z -> St -> Prop) E :
  holds_archive s p es -> 0 <= off <= zlen (archive es) -> 0 <= size < 2 ^ 31 ->
  (let n := Z.min size (zlen (archive es) - off) in
   Q (n, take (Z.to_nat n) (drop (Z.to_nat off) (archive es))) s) ->
  wp (read_device p off size) Q E s.
Proof.
  intros (Hp & [_ Hlt] & x & post & Hx & Hr & Hl & Hd) Hoff Hsize HQ. cbv zeta in HQ. unfold read_device. wp_cond.
  rewrite (proj2 (Z.eqb_neq p 0)) by done. cbn [negb]. wp_steps. apply (wp_at_node s p x); [done|].
  rewrite Hr. cbn [run_read read_depth]. unfold ramdisk_read, ramdisk_size. wp_steps. apply (wp_at_node s p x); [done|].
  rewrite Hl, (proj2 (Z.ltb_ge _ off)) by lia. cbv zeta. rewrite u32_small by (unfold is_u32; lia).
  assert ((if zlen (archive es) <? off + size then zlen (archive es) - off else size) =
    Z.min size (zlen (archive es) - off)) as -> by (destruct (Z.ltb_spec (zlen (archive es)) (off + size)); lia).
  set (n := Z.min size (zlen (archive es) - off)) in *. wp_cond. destruct (Z.eqb_spec n 0) as [Hn|Hn].
  - wp_steps. by rewrite Hn in HQ.
  - wp_cond. rewrite Hd. unfold copy_out. wp_cond. rewrite (proj2 (Z.eqb_neq n 0)) by done. cbn [negb].
    rewrite zlen_app. pose proof (zlen_nonneg post). rewrite (proj2 (Z.leb_le _ _)) by lia. wp_steps.
    rewrite drop_app_le by (unfold zlen in *; lia). rewrite take_app_le; [done|].
    rewrite length_drop. unfold zlen in *. lia.
Qed.

(** ** Going through the entries *)

Section foreach.
Context {A B : Type}.
Variable step : Z -> entry -> A -> A + B.

(** What a loop over the entries computes. *)
Fixpoint fold_entries (ptr : Z) (es : list entry) (a : A) : A + B :=
  match es with
  | [] => inl a
  | e :: es' =>
      match step ptr e a with
      | inl a' => fold_entries (ptr + zlen (e_bytes e)) es' a'
      | inr b => inr b
      end
  end.

Lemma archive_count es : Forall entry_ok es -> Z.of_nat (length es) * 512 <= zlen (archive es).
Proof.
  induction 1 as [|e es He Hes IH]; [done|]. rewrite archive_cons, !zlen_app. pose proof (eo_header e He).
  pose proof (zlen_nonneg (e_data e)). cbn [length]. lia.
Qed.

Lemma wp_tar_entry_length e (Q : Z -> St -> Prop) E s :
  entry_ok e -> zlen (e_bytes e) < 2 ^ 31 -> Q (zlen (e_bytes e)) s -> wp (tar_entry_length (e_header e)) Q E s.
Proof.
  intros He Hlt HQ. destruct (e_fsize_ok e He) as [Hn H0n]. unfold tar_entry_length. rewrite Hn. unfold lift_res. wp_steps.
  rewrite (e_bytes_length e He) in Hlt, HQ. pose proof (Z.div_mod (e_fsize e + 511) 512).
  pose proof (Z.mod_pos_bound (e_fsize e + 511) 512). pose proof (Z.div_pos (e_fsize e + 511) 512).
  rewrite (u32_small (e_fsize e + 511)) by (unfold is_u32; lia).
  by rewrite u32_small by (unfold is_u32; lia).
Qed.

Lemma wp_foreach s p es (body : Z -> list Z -> A -> M St (A + B)) a fuel (Q : A + B -> St -> Prop) E :
  holds_archive s p es ->
  (forall ptr e a, e ∈ es -> wp (body ptr (e_header e) a) (fun r s' => r = step ptr e a /\ s' = s) E s) ->
  (length es < fuel)%nat -> Q (fold_entries 0 es a) s ->
  wp (tar_foreach_entry read_device fuel p a body) Q E s.
Proof.
  intros Hdev Hbody Hfuel HQ. pose proof Hdev as (_ & [Hes Hlen] & _).
  unfold tar_foreach_entry.
  assert (forall post pre ptr a n, es = pre ++ post -> ptr = zlen (archive pre) -> (length post < n)%nat ->
    wp (loop n (fun '(ptr, a) =>
      let! r := read_device p ptr header_size in
      let '(s, header) := r in
      if s =? header_size then
        let! b := body ptr header a in
        match b with
        | inr b => ret (inr (inr b))
        | inl a => let! n := tar_entry_length header in ret (inl (u32 (ptr + n), a))
        end
      else ret (inr (inl a))) (ptr, a))
      (fun r s' => r = fold_entries ptr post a /\ s' = s) E s) as Hgo.
  { intros post. induction post as [|e post IH]; intros pre ptr a' n Heq -> Hn; (destruct n as [|n]; [cbn in Hn; lia|]);
      apply wp_loop_step.
    - rewrite app_nil_r in Heq. subst pre. wp_steps. pose proof (zlen_nonneg (archive es)).
      apply (wp_read_device s p es); [done|lia|unfold header_size; lia|]. cbv zeta. rewrite Z.sub_diag.
      change (Z.min header_size 0) with 0. wp_steps. change (0 =? header_size) with false. cbv iota. by wp_steps.
    - assert (entry_ok e) as He by (eapply (proj1 (Forall_forall _ _) Hes); rewrite Heq; set_solver).
      pose proof (eo_header e He) as Hh. pose proof (zlen_nonneg (e_data e)). pose proof (zlen_nonneg (archive post)).
      pose proof (zlen_nonneg (archive pre)).
      assert (archive es = archive pre ++ e_header e ++ e_data e ++ archive post) as Har
        by (rewrite Heq, archive_app, archive_cons; done).
      assert (zlen (archive es) = zlen (archive pre) + 512 + zlen (e_data e) + zlen (archive post)) as Hl
        by (rewrite Har, !zlen_app; lia).
      wp_steps. apply (wp_read_device s p es); [done|lia|unfold header_size; lia|]. cbv zeta.
      replace (Z.min header_size (zlen (archive es) - zlen (archive pre))) with 512 by (unfold header_size; lia).
      rewrite Har. rewrite drop_zlen.
      assert (Z.to_nat 512 = length (e_header e)) as -> by (unfold zlen in Hh; lia). rewrite take_app_length.
      wp_steps. change (512 =? header_size) with true. cbv iota.
      wp_apply (Hbody (zlen (archive pre)) e a'); [rewrite Heq; set_solver| |done].
      intros r s' [-> ->]. cbn [fold_entries]. destruct (step (zlen (archive pre)) e a') as [a2|b]; [|by wp_steps].
      wp_steps. assert (zlen (e_bytes e) = 512 + zlen (e_data e)) as Heb by (unfold e_bytes; rewrite zlen_app; lia).
      apply wp_tar_entry_length; [done|lia|]. wp_steps. rewrite u32_small by (unfold is_u32; lia).
      apply (IH (pre ++ [e])); [by rewrite <- app_assoc| |cbn in Hn; lia].
      rewrite archive_app, zlen_app, archive_cons, !zlen_app. change (zlen (archive [])) with 0. lia. }
  eapply wp_mono; [apply (Hgo es [] 0 a fuel); done| |done]. by intros r s' [-> ->].
Qed.
End foreach.

Lemma wp_tar_fuel s p es (Q : nat -> St -> Prop) E :
  holds_archive s p es -> (forall n, (length es < n)%nat -> Q n s) -> wp (tar_fuel p) Q E s.
Proof.
  intros (Hp & [Hes _] & x & post & Hx & _ & Hl & _) HQ. unfold tar_fuel. wp_steps. apply (wp_at_node s p x); [done|].
  wp_steps. apply HQ. rewrite Hl. pose proof (archive_count es Hes).
  assert (Z.of_nat (length es) <= zlen (archive es) / 512) by (apply Z.div_le_lower_bound; lia). lia.
Qed.

(** ** Looking up a path *)

Lemma prefix_cases (path name : list Z) :
  text name -> path `prefix_of` name ->
  exists r, name = path ++ r /\ (forall rest, name ++ 0 :: rest = path ++ (r ++ 0 :: rest)) /\ text r.
Proof.
  intros Ht [r ->]. exists r. split; [done|]. split; [intros; by rewrite <- app_assoc|].
  by apply Forall_app in Ht as [_ Ht].
Qed.

Lemma wp_tar_match path e (Q : bool -> St -> Prop) E s :
  entry_ok e -> text path -> Q (e_matches path e) s -> wp (tar_match (e_header e) path (zlen path)) Q E s.
Proof.
  intros He Hp HQ. destruct (eo_name e He) as [rest Hh]. pose proof (e_name_text e He) as Hn.
  unfold tar_match, h_name. unfold e_matches in HQ. rewrite Hh. set (name := e_name e) in *. clearbody name. wp_steps.
  apply (wp_same_prefix name rest path [0]); [done|done|]. wp_cond.
  destruct (bool_decide_reflect (path `prefix_of` name)) as [Hpre|Hpre].
  - destruct (prefix_cases path name Hn Hpre) as (r & Hr & Hb & Htr). rewrite Hb.
    assert (forall q, bool_decide (name = path ++ q) = bool_decide (r = q)) as Hq.
    { intros q. apply bool_decide_ext. rewrite Hr. split; [by intros ?%app_inv_head|by intros ->]. }
    assert (bool_decide (name = path) = bool_decide (r = [])) as Hq0.
    { apply bool_decide_ext. rewrite Hr. split; [|intros ->; by rewrite app_nil_r].
      intros Heq. apply (app_inv_head path). by rewrite app_nil_r. }
    rewrite Hq0, Hq in HQ. wp_steps. destruct r as [|c r]; cbn [app].
    + apply wp_byte; [done|]. wp_steps. exact HQ.
    + apply Forall_cons in Htr as [Hc Htr]. apply wp_byte; [done|]. wp_cond.
      rewrite (proj2 (Z.eqb_neq c 0)) by lia. wp_cond. destruct (Z.eqb_spec c SLASH) as [->|Hcs].
      * wp_steps. rewrite (app_cons_assoc path SLASH).
        replace (zlen path + 1) with (zlen (path ++ [SLASH])) by (by rewrite zlen_app).
        destruct r as [|c r]; cbn [app]; (apply wp_byte; [done|]); wp_steps.
        -- exact HQ.
        -- apply Forall_cons in Htr as [Hc2 _]. by rewrite (proj2 (Z.eqb_neq c 0)) by lia.
      * wp_steps. rewrite (bool_decide_eq_false_2 (c :: r = [])) in HQ by done.
        by rewrite (bool_decide_eq_false_2 (c :: r = [SLASH])) in HQ by congruence.
  - wp_steps. rewrite !bool_decide_eq_false_2 in HQ; [done| |].
    + intros ->. apply Hpre. by exists [SLASH].
    + intros ->. by apply Hpre.
Qed.

Lemma fold_lookup path es : forall ptr,
  fold_entries (A := unit) (fun ptr e _ => if e_matches path e then inr (ptr, e_header e) else inl tt) ptr es tt =
  match lookup_entry path ptr es with Some (ptr, e) => inr (ptr, e_header e) | None => inl tt end.
Proof.
  induction es as [|e es IH]; intros ptr; [done|]. cbn [fold_entries lookup_entry]. by destruct (e_matches path e).
Qed.

(** What [tar_lookup] answers: the first entry for the path, and none for a path
    of more than 98 bytes even if there is one. *)
Definition find_entry (path : list Z) (es : list entry) : option (Z * entry) :=
  if 98 <? zlen path then None else lookup_entry path 0 es.

Lemma wp_tar_lookup s p es path (Q : Z * list Z -> St -> Prop) E :
  holds_archive s p es -> text path ->
  Q (match find_entry path es with Some (ptr, e) => (ptr, e_header e) | None => (MINUS_1, []) end) s ->
  wp (tar_lookup read_device p path) Q E s.
Proof.
  intros Hdev Hp HQ. unfold tar_lookup. unfold find_entry in HQ. wp_steps. apply wp_text_len; [done|]. wp_cond.
  destruct (98 <? zlen path); [by wp_steps|]. wp_steps. apply (wp_tar_fuel s p es); [done|]. intros n Hn. wp_steps.
  apply (wp_foreach (fun ptr e _ => if e_matches path e then inr (ptr, e_header e) else inl tt) s p es); [done| |done|].
  - intros ptr e u He. wp_steps. pose proof Hdev as (_ & [Hes _] & _).
    apply wp_tar_match; [by eapply (proj1 (Forall_forall _ _) Hes)|done|]. by wp_steps.
  - wp_steps. rewrite fold_lookup. by destruct (lookup_entry path 0 es) as [[ptr e]|].
Qed.

Lemma lookup_entry_spec path : forall es ptr q e,
  lookup_entry path ptr es = Some (q, e) ->
  exists pre post, es = pre ++ e :: post /\ q = ptr + zlen (archive pre).
Proof.
  induction es as [|e0 es IH]; intros ptr q e Hl; [done|]. cbn [lookup_entry] in Hl. destruct (e_matches path e0).
  - injection Hl as <- <-. exists [], es. split; [done|]. change (zlen (archive [])) with 0. lia.
  - apply IH in Hl as (pre & post & -> & ->). exists (e0 :: pre), post. split; [done|].
    rewrite archive_cons. unfold e_bytes. rewrite !zlen_app. lia.
Qed.
End device.

(** ** The operations on archives *)

Section operations.
Context {H : Type} `{KHeapLaws H}.
Abbreviation St := (fstate H drivers handler).
Implicit Types (s : St) (E : panic -> Prop).

(** A directory's name without its last slash. *)
Definition dir_name (n : list Z) : list Z :=
  if bool_decide (last n = Some SLASH) then take (length n - 1) n else n.

(** What [tar_finddir] remembers of entry [e] at [ptr]. *)
Definition entry_obj (device ptr : Z) (e : entry) : tar_obj :=
  TarObj device
    (if negb (Z.land (e_flags e) FS_NODE_DIRECTORY =? 0) then dir_name (take 100 (e_name e)) else take 100 (e_name e))
    ptr (e_flags e) (e_fsize e).

Definition tar_node (name : list Z) (a : Z) (obj : tar_obj) (refs : Z) : fs_node_t handler :=
  FsNode name (a_flags obj) a (a_length obj) (Some Tar_read) None
    (Some Tar_open) (Some Tar_close) (Some Tar_readdir) (Some Tar_finddir) None None (Some Tar_readlink) None refs.

(** The path of [name] in the directory called [dir]. *)
Definition dir_path (dir name : list Z) : list Z :=
  dir ++ (if negb (zlen dir =? 0) then [SLASH] else []) ++ name.

Lemma dir_path_text dir name : text dir -> text name -> text (dir_path dir name).
Proof.
  intros Hd Hn. unfold dir_path. apply Forall_app. split; [done|]. apply Forall_app. split; [|done].
  destruct (negb _); [by apply Forall_singleton|constructor].
Qed.

Lemma last_byte (n : list Z) : n <> [] -> exists m c, n = m ++ [c] /\ last n = Some c.
Proof. intros Hn. destruct (exists_last Hn) as (m & c & ->). exists m, c. by rewrite last_snoc. Qed.

Lemma dir_name_text n : text n -> text (dir_name n).
Proof. intros Hn. unfold dir_name. case_bool_decide; [by apply Forall_take|done]. Qed.

Lemma entry_name_short device ptr e : zlen (a_name (entry_obj device ptr e)) <= 100.
Proof.
  cbn. assert (zlen (take 100 (e_name e)) <= 100) by (unfold zlen; rewrite length_take; lia).
  destruct (negb _); [|done]. unfold dir_name. case_bool_decide; [|done]. unfold zlen in *. rewrite !length_take in *. lia.
Qed.

Lemma entry_name_text device ptr e : entry_ok e -> text (a_name (entry_obj device ptr e)).
Proof.
  intros He. pose proof (e_name_text e He) as Hn. cbn. destruct (negb _); [apply dir_name_text|]; by apply Forall_take.
Qed.

Lemma wp_tar_create_obj s device ptr e :
  heap_ok (f_heap s) -> entry_ok e -> e_name e <> [] ->
  wp (tar_create_obj_from_header device (e_header e) ptr) (fun a s' => exists h',
    more_live (f_heap s) h' [a] /\
    s' = FState h' (f_nodes s) (f_mounts s) (f_root s)
      (set_tars (<[a := entry_obj device ptr e]> (d_tars (f_drv s))) (f_drv s))) only_nomem s.
Proof.
  intros Hh He Hne. unfold tar_create_obj_from_header. wp_steps. apply wp_zoom.
  wp_apply kcalloc_spec; [exact Hh|lia| |done]. intros a h' (Hh' & Ha & Hfresh & Hlive). cbv beta. wp_cond.
  rewrite (proj2 (Z.eqb_neq a 0)) by lia. destruct (e_fsize_ok e He) as [Hsz _]. rewrite Hsz. unfold lift_res. wp_steps.
  pose proof (e_name_text e He) as Hnt. destruct (eo_name e He) as [rest Hrest].
  assert (forall (Q : list Z -> St -> Prop) s1, Q (take 100 (e_name e)) s1 ->
    wp (strndup (h_name (e_header e)) 100) Q only_nomem s1) as Hdup.
  { intros Q s1 HQ. unfold h_name. rewrite Hrest. by apply wp_strndup_take. }
  apply Hdup. wp_steps. fold (e_flags e).
  set (n := take 100 (e_name e)).
  assert (text n) as Htn by (by apply Forall_take).
  assert (n <> []) as Hnn by (subst n; by destruct (e_name e)).
  assert (forall s1 (Q : list Z -> St -> Prop), Q (a_name (entry_obj device ptr e)) s1 ->
    wp (if negb (Z.land (e_flags e) FS_NODE_DIRECTORY =? 0)
        then let! l := strlen (n ++ [0]) in
             let! c := byte (n ++ [0]) (l - 1) in
             ret (if c =? SLASH then take (Z.to_nat (l - 1)) n else n)
        else ret n) Q only_nomem s1) as Hname.
  { intros s1 Q HQ. cbn [a_name entry_obj] in HQ. fold n in HQ. destruct (negb _); [|by wp_steps].
    wp_steps. apply wp_text_len; [done|]. wp_steps. destruct (last_byte n Hnn) as (m & c & Hm & Hlast).
    unfold dir_name in HQ. rewrite Hlast in HQ. clearbody n. subst n. rewrite <- app_assoc. cbn [app].
    apply wp_byte; [rewrite zlen_app; change (zlen [c]) with 1; lia|]. wp_steps.
    destruct (Z.eqb_spec c SLASH) as [->|Hc].
    - rewrite bool_decide_eq_true_2 in HQ by done.
      by replace (Z.to_nat (zlen (m ++ [SLASH]) - 1)) with (length (m ++ [SLASH]) - 1)%nat by (unfold zlen; lia).
    - rewrite bool_decide_eq_false_2 in HQ by congruence. done. }
  apply Hname. unfold mod_drv. wp_steps. exists h'. split; [|done]. split; [done|]. split.
  - rewrite Hlive. set_solver.
  - split; [apply NoDup_singleton|]. intros p ->%list_elem_of_singleton. done.
Qed.

(** The name of the node: the first element of the object's name. *)
Lemma wp_name_loop name (Q : list Z -> St -> Prop) s :
  text name -> zlen name <= 100 ->
  (forall e, text e -> zlen e <= 100 -> Q (e ++ replicate (256 - length e) 0) s) ->
  wp (loop (S (length name)) (name_round name) (0, replicate 256 0)) Q never s.
Proof.
  intros Ht Hl HQ. apply wp_loop_step. cbn [name_round]. change (Z.to_nat 0) with 0%nat. rewrite !drop_0.
  destruct (split_element name Ht) as (e & c & post & Heq & He & Hc & Hpre).
  assert (length e <= length name)%nat as Hle by (by apply prefix_length).
  rewrite Heq. wp_steps. apply wp_path_element_size; [done|done|]. wp_steps.
  assert (take (Z.to_nat (zlen e)) name = e) as ->.
  { destruct Hpre as [k ->]. apply take_zlen. }
  assert (drop (Z.to_nat (zlen e)) (replicate 256 0) = 0 :: replicate (255 - length e) 0) as ->.
  { unfold zlen in *. rewrite Nat2Z.id, drop_replicate.
    by replace (256 - length e)%nat with (S (255 - length e)) by lia. }
  apply wp_byte; [done|]. change (negb (0 =? 0)) with false. cbv iota. wp_steps. cbv iota.
  replace (0 :: replicate (255 - length e) 0) with (replicate (256 - length e) 0).
  - apply HQ; [|unfold zlen in *; lia]. destruct Hpre as [k ->]. by apply Forall_app in Ht as [Ht _].
  - unfold zlen in *. by replace (256 - length e)%nat with (S (255 - length e)) by lia.
Qed.

Lemma wp_fs_node_from_tar s a obj :
  heap_ok (f_heap s) -> d_tars (f_drv s) !! a = Some obj -> text (a_name obj) -> zlen (a_name obj) <= 100 ->
  wp (fs_node_from_tar a) (fun f s' => f <> 0 /\ exists h' name, more_live (f_heap s) h' [f] /\
    s' = FState h' (<[f := tar_node name a obj 1]> (f_nodes s)) (f_mounts s) (f_root s) (f_drv s)) only_nomem s.
Proof.
  intros Hh Ha Ht Hl. unfold fs_node_from_tar. wp_apply (wp_fs_node_new s Hh); [|done].
  intros f s1 (Hf & h' & Hlive & ->). wp_cond. rewrite (proj2 (Z.eqb_neq f 0)) by done.
  unfold tar_at. wp_cond. cbn [f_drv]. rewrite Ha. wp_steps. eapply (wp_mono _ _ _ never); [|intros ? ? Hq; exact Hq|by intros e0 []].
  apply wp_name_loop; [done|done|]. intros e He Hle. wp_steps.
  assert (replicate (256 - length e) 0 = 0 :: replicate (255 - length e) 0) as ->.
  { unfold zlen in Hle. by replace (256 - length e)%nat with (S (255 - length e)) by lia. }
  apply wp_text_len; [done|]. wp_steps. unfold upd_node. wp_steps.
  eapply wp_at_node; [cbn [f_nodes]; apply lookup_insert_eq|]. wp_steps. split; [done|]. exists h', e.
  split; [done|]. unfold set_nodes. cbn [f_heap f_nodes f_mounts f_root f_drv]. rewrite insert_insert_eq. by rewrite take_zlen.
Qed.

Lemma find_entry_spec path es ptr e :
  find_entry path es = Some (ptr, e) ->
  exists pre post, es = pre ++ e :: post /\ ptr = zlen (archive pre).
Proof.
  unfold find_entry. destruct (98 <? zlen path); [done|]. intros Hl. by apply lookup_entry_spec in Hl.
Qed.

Lemma lookup_entry_matches path : forall es ptr q e,
  lookup_entry path ptr es = Some (q, e) -> e_matches path e = true.
Proof.
  induction es as [|e0 es IH]; intros ptr q e Hl; [done|]. cbn [lookup_entry] in Hl.
  destruct (e_matches path e0) eqn:Hm; [by injection Hl as <- <-|by eapply IH].
Qed.

Lemma find_entry_named path es ptr e : path <> [] -> find_entry path es = Some (ptr, e) -> e_name e <> [].
Proof.
  unfold find_entry. destruct (98 <? zlen path); [done|]. intros Hne Hm%lookup_entry_matches Hn.
  unfold e_matches in Hm. rewrite Hn in Hm. apply orb_true_iff in Hm as [Hm|Hm]; apply bool_decide_eq_true in Hm.
  - by subst path.
  - by destruct path.
Qed.

Lemma dir_path_nonempty dir name : name <> [] -> dir_path dir name <> [].
Proof. intros Hn. unfold dir_path. destruct dir; [|done]. by destruct name. Qed.

(** [tar_finddir]: a new node and a new object for the entry found. *)
Lemma wp_tar_finddir s d x a obj es name :
  heap_ok (f_heap s) -> f_nodes s !! d = Some x -> n_object x = a -> d_tars (f_drv s) !! a = Some obj ->
  text (a_name obj) -> element name -> holds_archive s (a_device obj) es ->
  wp (tar_finddir read_device d name) (fun r s' =>
    match find_entry (dir_path (a_name obj) name) es with
    | None => r = 0 /\ s' = s
    | Some (ptr, e) => r <> 0 /\ exists h' a' nm, more_live (f_heap s) h' [r; a'] /\
        let obj' := entry_obj (a_device obj) ptr e in
        s' = FState h' (<[r := tar_node nm a' obj' 1]> (f_nodes s)) (f_mounts s) (f_root s)
          (set_tars (<[a' := obj']> (d_tars (f_drv s))) (f_drv s))
    end) only_nomem s.
Proof.
  intros Hh Hx Hxa Ha Ht He Hdev. pose proof (element_text name He) as Hnt. pose proof Hdev as (_ & [Hes Hlen] & _).
  unfold tar_finddir. wp_steps. apply (wp_at_node s d x); [done|]. unfold tar_at. wp_cond. rewrite Hxa, Ha. wp_steps.
  apply wp_text_len; [done|]. wp_steps. apply wp_text_len; [done|]. cbv zeta. wp_steps.
  fold (dir_path (a_name obj) name). apply (wp_tar_lookup s (a_device obj) es); [done|by apply dir_path_text|].
  destruct (find_entry (dir_path (a_name obj) name) es) as [[ptr e]|] eqn:Hfind.
  2: { change (MINUS_1 =? MINUS_1) with true. cbv iota. by wp_steps. }
  destruct (find_entry_spec _ _ _ _ Hfind) as (pre & post & -> & Hptr).
  assert (entry_ok e) as Heok by (eapply (proj1 (Forall_forall _ _) Hes); set_solver).
  assert (ptr <> MINUS_1) as Hpm.
  { rewrite Hptr. rewrite archive_app, zlen_app in Hlen. pose proof (zlen_nonneg (archive (e :: post))).
    pose proof (zlen_nonneg (archive pre)). unfold MINUS_1. lia. }
  rewrite (proj2 (Z.eqb_neq ptr _)) by done.
  wp_apply (wp_tar_create_obj s (a_device obj) ptr e Hh Heok); [| |done].
  { eapply find_entry_named; [|exact Hfind]. apply dir_path_nonempty. by destruct He. }
  intros a' s1 (h1 & Hl1 & ->). wp_cond. pose proof (proj2 (proj2 (proj2 Hl1)) a' ltac:(set_solver)) as [Ha' _].
  rewrite (proj2 (Z.eqb_neq a' 0)) by lia. cbn [negb].
  wp_apply (wp_fs_node_from_tar _ a' (entry_obj (a_device obj) ptr e)); [apply Hl1|cbn; apply lookup_insert_eq| | | |done].
  { by apply entry_name_text. } { apply entry_name_short. }
  intros f s2 (Hf & h2 & nm & Hl2 & ->). wp_cond. rewrite (proj2 (Z.eqb_neq f 0)) by done. cbn [negb]. wp_steps.
  split; [done|]. exists h2, a', nm. split; [|done]. by eapply more_live_trans.
Qed.

(** Reading a file of the archive. *)
Definition file_slice (e : entry) (off size : Z) : Z * list Z :=
  if e_fsize e <? off then (0, [])
  else
    let n := Z.min size (e_fsize e - off) in
    (n, take (Z.to_nat n) (drop (Z.to_nat off) (e_content e))).

Lemma wp_tar_read s f x obj pre e post off size (Q : Z * list Z -> St -> Prop) E :
  f_nodes s !! f = Some x -> n_object x <> 0 -> d_tars (f_drv s) !! n_object x = Some obj ->
  n_length x = e_fsize e -> a_offset obj = zlen (archive pre) ->
  holds_archive s (a_device obj) (pre ++ e :: post) ->
  0 <= off -> 0 <= size -> off + size < 2 ^ 32 ->
  Q (file_slice e off size) s ->
  wp (tar_read read_device f off size) Q E s.
Proof.
  intros Hx Hxo Hobj Hl Ho Hdev Hoff Hsize Hov HQ. pose proof Hdev as (_ & [Hes Hlen] & _).
  unfold tar_read. wp_steps. apply (wp_at_node s f x); [done|]. wp_cond. rewrite (proj2 (Z.eqb_neq _ 0)) by done.
  cbn [negb]. unfold tar_at. wp_cond. rewrite Hobj. wp_steps. rewrite Hl, Ho.
  assert (entry_ok e) as He by (eapply (proj1 (Forall_forall _ _) Hes); set_solver).
  pose proof (e_fsize_bound e He) as Hfd. destruct (e_fsize_ok e He) as [_ Hf0]. pose proof (eo_header e He) as Hh.
  assert (archive (pre ++ e :: post) = (archive pre ++ e_header e) ++ e_data e ++ archive post) as Har
    by (rewrite archive_app, archive_cons, <- app_assoc; done).
  assert (zlen (archive (pre ++ e :: post)) = zlen (archive pre) + 512 + zlen (e_data e) + zlen (archive post)) as Hal
    by (rewrite Har, !zlen_app; lia).
  pose proof (zlen_nonneg (archive pre)). pose proof (zlen_nonneg (archive post)).
  unfold file_slice in HQ. wp_cond. destruct (Z.ltb_spec (e_fsize e) off); [by wp_steps|].
  rewrite (u32_small (off + size)) by (unfold is_u32; lia). cbv zeta.
  assert ((if e_fsize e <? off + size then e_fsize e - off else size) = Z.min size (e_fsize e - off)) as ->
    by (destruct (Z.ltb_spec (e_fsize e) (off + size)); lia).
  set (n := Z.min size (e_fsize e - off)) in *. rewrite u32_small by (unfold is_u32; lia).
  apply (wp_read_device s _ (pre ++ e :: post)); [done|lia|lia|]. cbv zeta.
  replace (Z.min n _) with n by lia.
  assert (take (Z.to_nat n) (drop (Z.to_nat (zlen (archive pre) + 512 + off)) (archive (pre ++ e :: post))) =
    take (Z.to_nat n) (drop (Z.to_nat off) (e_content e))) as ->; [|done].
  rewrite Har. replace (Z.to_nat (zlen (archive pre) + 512 + off)) with
    (length (archive pre ++ e_header e) + Z.to_nat off)%nat by (rewrite length_app; unfold zlen in *; lia).
  rewrite <- drop_drop, drop_app_length. unfold e_content.
  rewrite drop_app_le by (unfold zlen in *; lia). rewrite take_app_le by (rewrite length_drop; unfold zlen in *; lia).
  rewrite !take_drop_commute, take_take. do 2 f_equal. lia.
Qed.

(** The target of a symbolic link, when it fits the caller's 256 bytes. *)
Definition link_target (e : entry) : option (list Z) :=
  if 256 <? zlen (e_link e) + 1 then None else Some (e_link e).

Lemma wp_tar_readlink s f x obj pre e post (Q : Z * list Z -> St -> Prop) E :
  f_nodes s !! f = Some x -> d_tars (f_drv s) !! n_object x = Some obj ->
  Z.land (a_flags obj) FS_NODE_SYMLINK <> 0 -> a_offset obj = zlen (archive pre) ->
  holds_archive s (a_device obj) (pre ++ e :: post) ->
  Q (match link_target e with Some t => (zlen t, t ++ [0]) | None => (-1, []) end) s ->
  wp (tar_readlink read_device f 256) Q E s.
Proof.
  intros Hx Hobj Hflag Ho Hdev HQ. pose proof Hdev as (_ & [Hes Hlen] & _).
  assert (entry_ok e) as He by (eapply (proj1 (Forall_forall _ _) Hes); set_solver).
  assert (archive (pre ++ e :: post) = archive pre ++ e_header e ++ (e_data e ++ archive post)) as Har
    by (rewrite archive_app, archive_cons; done).
  pose proof (eo_header e He) as Hh. pose proof (zlen_nonneg (archive pre)).
  pose proof (zlen_nonneg (e_data e ++ archive post)).
  assert (zlen (archive (pre ++ e :: post)) = zlen (archive pre) + 512 + zlen (e_data e ++ archive post)) as Hl
    by (rewrite Har, !zlen_app, Hh; lia).
  unfold tar_readlink. wp_steps. apply (wp_at_node s f x); [done|]. wp_steps. unfold tar_at. wp_cond. rewrite Hobj.
  wp_steps. wp_cond. rewrite (proj2 (Z.eqb_neq _ 0)) by done. cbn [negb]. wp_steps.
  rewrite Ho. apply (wp_read_device s _ (pre ++ e :: post)); [done|lia|unfold header_size; lia|]. cbv zeta.
  replace (Z.min header_size (zlen (archive (pre ++ e :: post)) - zlen (archive pre))) with 512 by (unfold header_size; lia).
  rewrite Har, drop_zlen. assert (Z.to_nat 512 = length (e_header e)) as -> by (unfold zlen in Hh; lia).
  rewrite take_app_length. change (512 =? header_size) with true. cbn [negb]. cbv iota. wp_steps.
  destruct (eo_link e He) as [rest Hrest]. pose proof (e_link_text e He) as Ht. unfold link_target in HQ. rewrite Hrest.
  apply wp_text_len; [done|]. wp_steps. destruct (256 <? zlen (e_link e) + 1); [by wp_steps|]. wp_steps.
  replace (zlen (e_link e) + 1 - 1) with (zlen (e_link e)) by lia.
  assert (take (Z.to_nat (zlen (e_link e) + 1)) (e_link e ++ 0 :: rest) = e_link e ++ [0]) as ->; [|done].
  rewrite app_cons_assoc. replace (zlen (e_link e) + 1) with (zlen (e_link e ++ [0])) by (by rewrite zlen_app). apply take_zlen.
Qed.

Lemma wp_tar_serves s d x obj es name off size :
  heap_ok (f_heap s) -> f_nodes s !! d = Some x -> d_tars (f_drv s) !! n_object x = Some obj ->
  a_device obj ∈ heap_live (f_heap s) -> text (a_name obj) -> element name -> holds_archive s (a_device obj) es ->
  0 <= off -> 0 <= size -> off + size < 2 ^ 32 ->
  wp (let! f := tar_finddir read_device d name in
      if f =? 0 then ret None else let! r := tar_read read_device f off size in ret (Some r))
    (fun r _ => r = match find_entry (dir_path (a_name obj) name) es with
                    | Some (_, e) => Some (file_slice e off size)
                    | None => None
                    end) only_nomem s.
Proof.
  intros Hh Hx Ha Hdl Ht He Hdev Hoff Hsize Hov.
  wp_apply (wp_tar_finddir s d x (n_object x) obj es name); [done..| |done].
  intros r s1 Hr. destruct (find_entry (dir_path (a_name obj) name) es) as [[ptr e]|] eqn:Hfind.
  2: { destruct Hr as [-> ->]. change (0 =? 0) with true. cbv iota. by wp_steps. }
  destruct Hr as (Hr0 & h' & a' & nm & Hlive & ->). rewrite (proj2 (Z.eqb_neq r 0)) by done.
  destruct (find_entry_spec _ _ _ _ Hfind) as (pre & post & -> & Hptr).
  destruct Hlive as (_ & _ & Hnd & Hfr). destruct (Hfr r ltac:(set_solver)) as [_ Hrl].
  destruct (Hfr a' ltac:(set_solver)) as [Ha' _].
  wp_steps. apply (wp_tar_read _ r (tar_node nm a' (entry_obj (a_device obj) ptr e) 1)
    (entry_obj (a_device obj) ptr e) pre e post); try done.
  - cbn. apply lookup_insert_eq.
  - cbn. lia.
  - cbn. apply lookup_insert_eq.
  - destruct Hdev as (Hp & Hok & y & pst & Hy & Hyr & Hyl & Hyd). split; [done|]. split; [done|]. exists y, pst.
    split; [|done]. cbn. rewrite lookup_insert_ne; [done|]. by intros ->.
Qed.

(** C14. The files of an archive: looking up a name in a directory of a mounted
    archive and reading the node it answers gives the bytes of the first
    entry for that path, from the offset on and cut at the end of the file;
    there is no node exactly when the archive has no such entry or the path is
    longer than 98 bytes, which [tar_lookup] never searches for.  Every
    archive whose entries follow the layout (512-byte header, data filled up
    to whole blocks) is searched to its end, and no read leaves the device. *)
Theorem tar_serves_files s d x obj es name off size :
  heap_ok (f_heap s) -> f_nodes s !! d = Some x -> d_tars (f_drv s) !! n_object x = Some obj ->
  a_device obj ∈ heap_live (f_heap s) -> text (a_name obj) -> element name -> holds_archive s (a_device obj) es ->
  0 <= off -> 0 <= size -> off + size < 2 ^ 32 ->
  wp (let! f := tar_finddir read_device d name in
      if f =? 0 then ret None else let! r := tar_read read_device f off size in ret (Some r))
    (fun r _ => r = if 98 <? zlen (dir_path (a_name obj) name) then None
                    else match lookup_entry (dir_path (a_name obj) name) 0 es with
                         | Some (_, e) => Some (file_slice e off size)
                         | None => None
                         end) only_nomem s.
Proof.
  intros Hh Hx Ha Hdl Ht He Hdev Hoff Hsize Hov. eapply wp_mono; [by apply (wp_tar_serves s d x obj es)| |done].
  intros r s' ->. unfold find_entry. by destruct (98 <? _).
Qed.
End operations.

(** ** An archive

    The directory "d/" and the file "d/f" with the text "abc". *)

Definition sample_header (name size : list Z) (type : Z) : list Z :=
  name ++ replicate (124 - length name) 0 ++ size ++ replicate (32 - length size) 0 ++ [type] ++ replicate 355 0.

Definition sample_archive : list entry :=
  [Entry (sample_header [100; 47] [48] 53) [];
   Entry (sample_header [100; 47; 102] [48; 51] 48) ([97; 98; 99] ++ replicate 509 0)].

Definition sample_state : fstate Interfaces.bump drivers handler :=
  FState (Bump 300 {[ 100; 104 ]})
    (<[100 := FsNode [] 0 4096 1536 (Some Ramdisk_read) None None None None None None None None None 1]>
      {[ 104 := tar_node [100] 108 (TarObj 100 [100] 0 FS_NODE_DIRECTORY 0) 1 ]})
    empty 0 (Drivers empty {[ 108 := TarObj 100 [100] 0 FS_NODE_DIRECTORY 0 ]} {[ 4096 := archive sample_archive ]}).

Lemma bytes_dec (l : list Z) : forallb (fun c => (0 <=? c) && (c <? 256)) l = true -> Forall is_u8 l.
Proof.
  rewrite forallb_forall. intros Hl. apply Forall_forall. intros c Hc%list_elem_of_In. apply Hl in Hc.
  unfold is_u8. lia.
Qed.

Lemma sample_archive_ok : archive_ok sample_archive.
Proof.
  split; [|vm_compute; reflexivity]. repeat apply Forall_cons_2; [| |apply Forall_nil_2].
  - split; [vm_compute; reflexivity|apply bytes_dec; vm_compute; reflexivity|exists 0; split; [vm_compute; reflexivity|lia]
      |vm_compute; reflexivity| |]; eexists; vm_compute; reflexivity.
  - split; [vm_compute; reflexivity|apply bytes_dec; vm_compute; reflexivity|exists 3; split; [vm_compute; reflexivity|lia]
      |vm_compute; reflexivity| |]; eexists; vm_compute; reflexivity.
Qed.

Lemma tar_serves_files_witness :
  wp (let! f := tar_finddir read_device 104 [102] in
      if f =? 0 then ret None else let! r := tar_read read_device f 1 5 in ret (Some r))
    (fun r _ => r = Some (2, [98; 99])) only_nomem sample_state.
Proof.
  apply (tar_serves_files sample_state 104 (tar_node [100] 108 (TarObj 100 [100] 0 FS_NODE_DIRECTORY 0) 1)
    (TarObj 100 [100] 0 FS_NODE_DIRECTORY 0) sample_archive [102] 1 5);
    try reflexivity; try (vm_compute; congruence).
  - change (bump_ok (Bump 300 {[ 100; 104 ]})). split; [cbn; lia|]. intros p Hp. cbn [bump_live] in Hp. apply elem_of_union in Hp as [->%elem_of_singleton| ->%elem_of_singleton]; cbn; lia.
  - repeat constructor.
  - split; [done|]. split; [repeat constructor|]. intros [Hs|Hs]%elem_of_cons; [done|by apply elem_of_nil in Hs].
  - split; [done|]. split; [exact sample_archive_ok|].
    exists (FsNode [] 0 4096 1536 (Some Ramdisk_read) None None None None None None None None None 1), [].
    split; [reflexivity|]. split; [reflexivity|]. split; [vm_compute; reflexivity|]. vm_compute. reflexivity.
Defined.
