(* ===== verification/Vfs.v ===== *)
(** * The mounted file system (kernel/fs.c over tmpfs.c, tar.c, ramdisk.c)

    The kernel's drivers keep the promises of [FsDriver], so that looking up
    a path in the mount graph follows directories in memory and archives. *)
From S2P Require Import Prelude Interfaces Itoa FsPath Fs Drivers Tmpfs Tar.

(** ** Files *)

(** A directory or a file in memory by its object, a file of an archive, or
    anything that is neither looked up nor linked. *)
Inductive vfile : Type :=
  | FDir (o : Z)
  | FFile (o : Z)
  | FTar (obj : tar_obj)
  | FOther.

Definition tar_flag (obj : tar_obj) (flag : Z) : bool := negb (Z.land (a_flags obj) flag =? 0).

(** How many nodes in [nodes] are open on the directory object [o]. *)
Definition dir_node (o : Z) (x : fs_node_t handler) : bool :=
  bool_decide (n_object x = o) && bool_decide (n_finddir x = Some Tmpfs_finddir).

Definition open_count (nodes : gmap Z (fs_node_t handler)) (o : Z) : Z :=
  Z.of_nat (size (filter (fun px => dir_node o (snd px) = true) nodes)).

Lemma open_count_fresh nodes p x o :
  nodes !! p = None -> open_count (<[p := x]> nodes) o = (if dir_node o x then 1 else 0) + open_count nodes o.
Proof.
  intros Hp. unfold open_count. destruct (dir_node o x) eqn:Hd.
  - rewrite map_filter_insert_True by done. rewrite map_size_insert_None; [lia|].
    apply map_lookup_filter_None. by left.
  - rewrite map_filter_insert_False by (cbn; congruence). by rewrite delete_id.
Qed.

Lemma open_count_delete nodes p x o :
  nodes !! p = Some x -> open_count nodes o = (if dir_node o x then 1 else 0) + open_count (delete p nodes) o.
Proof.
  intros Hp. rewrite <- (open_count_fresh (delete p nodes) p x o) by apply lookup_delete_eq.
  by rewrite insert_delete_id.
Qed.

Lemma open_count_same nodes p x y o :
  nodes !! p = Some y -> dir_node o x = dir_node o y -> open_count (<[p := x]> nodes) o = open_count nodes o.
Proof.
  intros Hp Hd. rewrite <- insert_delete_eq, open_count_fresh by apply lookup_delete_eq.
  by rewrite Hd, <- open_count_delete.
Qed.

(** What the lookup depends on: objects but for their reference counts and
    contents. *)
Definition shape (obj : tmpfs_object) : list Z * Z * option (list Z) * option (list Z) * Z :=
  (t_name obj, t_flags obj, t_childs obj, t_block obj, t_block_size obj).
Definition same_shape (objs objs' : gmap Z tmpfs_object) : Prop := forall o, shape <$> objs' !! o = shape <$> objs !! o.

Definition file_of (objs : gmap Z tmpfs_object) (c : Z) : vfile :=
  match objs !! c with
  | Some obj => if t_flags obj =? FS_NODE_DIRECTORY then FDir c else FFile c
  | None => FOther
  end.

Definition tmpfs_finds (objs : gmap Z tmpfs_object) (o : Z) (name : list Z) : option vfile :=
  match objs !! o with
  | Some obj =>
      match t_childs obj with
      | Some l => match first_child (starts_with name) objs 0 l with Some (_, c) => Some (file_of objs c) | None => None end
      | None => None
      end
  | None => None
  end.

Lemma same_shape_map objs objs' : same_shape objs objs' -> shape <$> objs' = shape <$> objs.
Proof. intros Hs. apply map_eq. intros o. rewrite !lookup_fmap. apply Hs. Qed.

Lemma same_shape_name objs objs' o : same_shape objs objs' -> t_name <$> objs' !! o = t_name <$> objs !! o.
Proof. intros Hs. specialize (Hs o). destruct (objs' !! o), (objs !! o); cbn in *; try done. by injection Hs as -> _ _. Qed.

Lemma same_shape_file objs objs' c : same_shape objs objs' -> file_of objs' c = file_of objs c.
Proof.
  intros Hs. specialize (Hs c). unfold file_of.
  destruct (objs' !! c), (objs !! c); cbn in Hs; try done. by injection Hs as _ -> _.
Qed.

Lemma tmpfs_finds_shape objs objs' o name :
  same_shape objs objs' -> tmpfs_finds objs' o name = tmpfs_finds objs o name.
Proof.
  intros Hs. unfold tmpfs_finds. pose proof (Hs o) as Ho.
  destruct (objs' !! o) as [x|], (objs !! o) as [y|]; cbn in Ho; try done. injection Ho as _ _ ->.
  destruct (t_childs y) as [l|]; [|done].
  rewrite (first_child_ext _ objs objs') by (intros; by apply same_shape_name).
  destruct (first_child _ objs 0 l) as [[i c]|]; [|done]. by rewrite (same_shape_file objs objs').
Qed.

Lemma same_shape_ref objs o obj n :
  objs !! o = Some obj -> same_shape objs (<[o := set_obj_ref n obj]> objs).
Proof.
  intros Ho k. destruct (decide (k = o)) as [->|Hne]; [by rewrite lookup_insert_eq, Ho|]. by rewrite lookup_insert_ne.
Qed.

Section vfs.
Context {H : Type} `{KHeapLaws H}.
Abbreviation St := (fstate H drivers handler).
Implicit Types (s : St) (x y : fs_node_t handler).

(** The archives on the devices, and the root objects of mounted tmpfs. *)
Variable archives : gmap Z (list entry).
Variable roots : gset Z.

(** The entry of an archive file, found by its offset. *)
Fixpoint entry_at (ptr off : Z) (es : list entry) : option entry :=
  match es with
  | [] => None
  | e :: es' => if off =? ptr then Some e else entry_at (ptr + zlen (e_bytes e)) off es'
  end.

Definition vfile_of (tars : gmap Z tar_obj) x : vfile :=
  match n_finddir x with
  | Some Tmpfs_finddir => FDir (n_object x)
  | Some Tar_finddir => match tars !! n_object x with Some obj => FTar obj | None => FOther end
  | _ => match n_read x with Some Tmpfs_read => FFile (n_object x) | _ => FOther end
  end.

Definition vfinds s (a : vfile) (name : list Z) : option vfile :=
  match a with
  | FDir o => tmpfs_finds (d_objs (f_drv s)) o name
  | FTar obj =>
      match archives !! a_device obj with
      | Some es =>
          match find_entry (dir_path (a_name obj) name) es with
          | Some (ptr, e) => Some (FTar (entry_obj (a_device obj) ptr e))
          | None => None
          end
      | None => None
      end
  | _ => None
  end.

Definition vlinks (a : vfile) : option (list Z) :=
  match a with
  | FTar obj =>
      match archives !! a_device obj with
      | Some es => match entry_at 0 (a_offset obj) es with Some e => link_target e | None => None end
      | None => None
      end
  | _ => None
  end.

(** ** What the drivers keep *)

(** The nodes the drivers make, and plain devices. *)
Inductive node_ok s (p : Z) : fs_node_t handler -> Prop :=
  | node_dir obj' o refs obj :
      d_objs (f_drv s) !! o = Some obj -> t_flags obj = FS_NODE_DIRECTORY -> t_flags obj' = FS_NODE_DIRECTORY ->
      o <> 0 -> node_ok s p (tmpfs_dir_node obj' o refs)
  | node_file obj' o refs :
      t_flags obj' = FS_NODE_FILE -> node_ok s p (tmpfs_file_node obj' o refs)
  | node_tar name a obj refs es :
      d_tars (f_drv s) !! a = Some obj -> text (a_name obj) -> archives !! a_device obj = Some es ->
      (tar_flag obj FS_NODE_SYMLINK = true -> exists pre e post, es = pre ++ e :: post /\ a_offset obj = zlen (archive pre)) ->
      (forall q y, f_nodes s !! q = Some y -> n_finddir y = Some Tar_finddir -> n_object y = a -> q = p) ->
      node_ok s p (tar_node name a obj refs)
  | node_other x :
      n_finddir x = None -> n_read x <> Some Tmpfs_read -> has_flag x FS_NODE_SYMLINK = false ->
      n_open x = None \/ n_open x = Some Ramdisk_open -> node_ok s p x.

Definition object_ok s (o : Z) (obj : tmpfs_object) : Prop :=
  is_tmpfs obj /\
  (t_flags obj = FS_NODE_DIRECTORY -> exists l, t_childs obj = Some l /\
    children_ok (d_objs (f_drv s)) l /\ Forall (fun c => ~ c ∈ roots) l) /\
  (t_flags obj = FS_NODE_DIRECTORY -> ~ o ∈ roots -> open_count (f_nodes s) o < t_refcount obj).

(** The drivers' invariant: every heap object is one thing only. *)
Record vfs_ok s : Prop := VfsOk {
  ok_nodes : forall p x, f_nodes s !! p = Some x -> node_ok s p x;
  ok_objs : forall o obj, d_objs (f_drv s) !! o = Some obj -> object_ok s o obj;
  ok_objs_live : forall o, is_Some (d_objs (f_drv s) !! o) -> o ∈ heap_live (f_heap s);
  ok_tars_live : forall a, is_Some (d_tars (f_drv s) !! a) -> a ∈ heap_live (f_heap s);
  ok_tars_apart : forall a, is_Some (d_tars (f_drv s) !! a) -> f_nodes s !! a = None /\ d_objs (f_drv s) !! a = None;
  ok_objs_apart : forall o, is_Some (d_objs (f_drv s) !! o) -> f_nodes s !! o = None;
  ok_devices : forall p es, archives !! p = Some es -> holds_archive s p es;
}.

#[local] Instance vfs_driver : FsDriver H drivers handler := {
  file := vfile;
  drv_ok := vfs_ok;
  Fs.node_file s p := vfile_of (d_tars (f_drv s)) <$> f_nodes s !! p;
  is_dir a := match a with FDir _ => true | FTar obj => tar_flag obj FS_NODE_DIRECTORY | _ => false end;
  is_link a := match a with FTar obj => tar_flag obj FS_NODE_SYMLINK | _ => false end;
  is_entry a := match a with FDir o => bool_decide (~ o ∈ roots) | FFile _ => true | FTar _ => true | FOther => false end;
  finds := vfinds;
  links _ := vlinks;
  data := gmap Z (list Z * Z * option (list Z) * option (list Z) * Z) * gmap Z (list Z);
  contents s := (shape <$> d_objs (f_drv s), d_disks (f_drv s));
}.

(** ** What keeps the invariant *)

Lemma node_ok_mono s s' p x :
  node_ok s p x ->
  same_shape (d_objs (f_drv s)) (d_objs (f_drv s')) ->
  (forall obj, n_finddir x = Some Tar_finddir -> d_tars (f_drv s) !! n_object x = Some obj ->
    d_tars (f_drv s') !! n_object x = Some obj) ->
  (forall q y, n_finddir x = Some Tar_finddir -> f_nodes s' !! q = Some y -> n_finddir y = Some Tar_finddir ->
    n_object y = n_object x -> q <> p ->
    exists y', f_nodes s !! q = Some y' /\ n_finddir y' = Some Tar_finddir /\ n_object y' = n_object x) ->
  node_ok s' p x.
Proof.
  intros Hx Hs Ht Hq. destruct Hx as [obj' o refs obj Ho Hf Hf' Ho0|obj' o refs Hf|name a obj refs es Ha Hn Hes Hl Hu|x H1x H2x H3x H4x].
  - specialize (Hs o). rewrite Ho in Hs. destruct (d_objs (f_drv s') !! o) as [obj2|] eqn:Ho2; [|done].
    injection Hs as _ Hfl _. eapply node_dir; [exact Ho2|congruence|done|done].
  - by apply node_file.
  - eapply node_tar; [by apply Ht|done|done|done|]. intros q y Hy Hyf Hyo. destruct (decide (q = p)) as [|Hne]; [done|].
    destruct (Hq q y eq_refl Hy Hyf Hyo Hne) as (y' & Hy' & Hyf' & Hyo'). by eapply Hu.
  - by apply node_other.
Qed.

Lemma node_ok_refcount s p x n : node_ok s p x -> node_ok s p (set_refcount n x).
Proof.
  intros [obj' o refs obj Ho Hf Hf' Ho0|obj' o refs Hf|name a obj refs es Ha Hn Hes Hl Hu|y H1y H2y H3y H4y].
  - by eapply (node_dir s p obj' o n obj).
  - by apply (node_file s p obj' o n).
  - by eapply (node_tar s p name a obj n es).
  - by apply node_other.
Qed.

Lemma object_ok_mono s s' o obj obj' :
  object_ok s o obj -> same_shape (d_objs (f_drv s)) (d_objs (f_drv s')) -> shape obj' = shape obj ->
  (t_flags obj = FS_NODE_DIRECTORY -> ~ o ∈ roots -> open_count (f_nodes s') o < t_refcount obj') ->
  object_ok s' o obj'.
Proof.
  intros (Hk & Hc & _) Hs Hsh Hn. injection Hsh as Hname Hflags Hchilds. unfold object_ok, is_tmpfs. rewrite Hflags, Hchilds.
  split; [done|]. split; [|done]. intros Hd. destruct (Hc Hd) as (l & Hl & Hok & Hr). exists l. split; [done|]. split; [|done].
  eapply children_ok_more; [|exact Hok]. intros c _. by apply same_shape_name.
Qed.

Lemma holds_archive_mono s s' p es :
  holds_archive s p es ->
  (forall x, f_nodes s !! p = Some x -> n_read x = Some Ramdisk_read -> exists x', f_nodes s' !! p = Some x' /\
    n_read x' = n_read x /\ n_length x' = n_length x /\ n_object x' = n_object x) ->
  d_disks (f_drv s') = d_disks (f_drv s) -> holds_archive s' p es.
Proof.
  intros (Hp & Hok & x & pst & Hx & Hr & Hl & Hd) Hsame Hdisk. destruct (Hsame x Hx Hr) as (x' & Hx' & Hr' & Hl' & Ho').
  split; [done|]. split; [done|]. exists x', pst. rewrite Hr', Hl', Ho', Hdisk. done.
Qed.

(** A node's file is an entry, so it is not a device. *)
Lemma entry_not_device s p x : node_ok s p x -> vfile_of (d_tars (f_drv s)) x <> FOther -> n_read x <> Some Ramdisk_read.
Proof.
  intros Hx Hf. destruct Hx as [| | |x H1x H2x H3x H4x]; try done. exfalso. apply Hf. unfold vfile_of. rewrite H1x.
  by destruct (n_read x) as [[]|].
Qed.

Lemma vfile_other s p x : node_ok s p x -> n_finddir x = None -> n_read x <> Some Tmpfs_read ->
  vfile_of (d_tars (f_drv s)) x = FOther.
Proof. intros _ Hf Hr. unfold vfile_of. rewrite Hf. by destruct (n_read x) as [[]|]. Qed.

Lemma law_kind' s p x :
  node_ok s p x ->
  (match vfile_of (d_tars (f_drv s)) x with FDir _ => true | FTar obj => tar_flag obj FS_NODE_DIRECTORY | _ => false end =
    match n_finddir x with Some _ => has_flag x FS_NODE_DIRECTORY | None => false end) /\
  (match vfile_of (d_tars (f_drv s)) x with FTar obj => tar_flag obj FS_NODE_SYMLINK | _ => false end = has_flag x FS_NODE_SYMLINK).
Proof.
  intros Hx. destruct Hx as [obj' o refs obj Ho Hf Hf' Ho0|obj' o refs Hf|name a obj refs es Ha Hn Hes Hl Hu|x H1x H2x H3x H4x];
    unfold vfile_of, has_flag; cbn [n_finddir n_read n_flags n_object tmpfs_dir_node tmpfs_file_node tar_node].
  - by rewrite Hf'.
  - by rewrite Hf.
  - by rewrite Ha.
  - rewrite H1x. unfold has_flag in H3x. rewrite H3x. by destruct (n_read x) as [[]|].
Qed.

Lemma entry_at_offset pre e post ptr :
  Forall entry_ok pre -> entry_at ptr (ptr + zlen (archive pre)) (pre ++ e :: post) = Some e.
Proof.
  intros Hpre. revert ptr. induction Hpre as [|e0 pre He0 Hpre IH]; intros ptr; cbn [app entry_at].
  - change (zlen (archive [])) with 0. by rewrite Z.add_0_r, Z.eqb_refl.
  - pose proof (zlen_nonneg (archive pre)). pose proof (eo_header e0 He0). pose proof (zlen_nonneg (e_data e0)).
    assert (zlen (archive (e0 :: pre)) = zlen (e_bytes e0) + zlen (archive pre)) as Hl
      by (rewrite archive_cons; unfold e_bytes; rewrite !zlen_app; lia).
    assert (512 <= zlen (e_bytes e0)) by (unfold e_bytes; rewrite zlen_app; lia).
    rewrite (proj2 (Z.eqb_neq _ _)) by lia. rewrite Hl, Z.add_assoc. apply IH.
Qed.

(** The tar node behind a link. *)
Lemma tar_node_of s p x obj :
  node_ok s p x -> vfile_of (d_tars (f_drv s)) x = FTar obj ->
  exists name a refs es, x = tar_node name a obj refs /\ d_tars (f_drv s) !! a = Some obj /\ text (a_name obj) /\
    archives !! a_device obj = Some es /\
    (tar_flag obj FS_NODE_SYMLINK = true -> exists pre e post, es = pre ++ e :: post /\ a_offset obj = zlen (archive pre)).
Proof.
  intros Hx Hf. destruct Hx as [| |name a obj0 refs es Ha Hn Hes Hl Hu|x H1x H2x _ _]; try done.
  - unfold vfile_of in Hf. cbn in Hf. rewrite Ha in Hf. injection Hf as ->. by exists name, a, refs, es.
  - unfold vfile_of in Hf. rewrite H1x in Hf. by destruct (n_read x) as [[]|].
Qed.

Lemma vfs_readlink s p x obj :
  vfs_ok s -> f_nodes s !! p = Some x -> vfile_of (d_tars (f_drv s)) x = FTar obj -> tar_flag obj FS_NODE_SYMLINK = true ->
  wp (tar_readlink read_device p 256) (fun r s' => s' = s /\
    match vlinks (FTar obj) with Some t => r = (zlen t, t ++ [0]) /\ text t | None => fst r < 0 end) never s.
Proof.
  intros Hok Hp Hf Hl. destruct (tar_node_of s p x obj (ok_nodes s Hok p x Hp) Hf) as (name & a & refs & es & -> & Ha & Hn & Hes & Hlk).
  destruct (Hlk Hl) as (pre & e & post & -> & Ho). pose proof (ok_devices s Hok _ _ Hes) as Hdev.
  pose proof Hdev as (_ & [Hall _] & _).
  apply (wp_tar_readlink s p (tar_node name a obj refs) obj pre e post); try done.
  { unfold tar_flag in Hl. apply negb_true_iff, Z.eqb_neq in Hl. done. }
  split; [done|]. cbn [vlinks]. rewrite Hes, Ho.
  pose proof (entry_at_offset pre e post 0 (proj1 (proj1 (Forall_app _ _ _) Hall))) as Hat. rewrite Z.add_0_l in Hat. rewrite Hat.
  unfold link_target. destruct (256 <? zlen (e_link e) + 1); [done|]. split; [done|]. apply e_link_text.
  apply Forall_app in Hall as [_ Hall]. by apply Forall_cons in Hall as [? _].
Qed.

(** ** Lookup in memory *)

Lemma dir_node_other o x : n_object x <> o -> dir_node o x = false.
Proof. intros Hx. unfold dir_node. by rewrite bool_decide_eq_false_2. Qed.

Lemma first_child_in test objs l : forall i j c, first_child test objs i l = Some (j, c) -> c ∈ l.
Proof.
  induction l as [|c0 l IH]; intros i j c; cbn [first_child]; [done|].
  destruct (match objs !! c0 with Some obj => test (t_name obj) | None => false end).
  - intros [= _ ->]. apply elem_of_cons. by left.
  - intros Hc. apply elem_of_cons. right. by eapply IH.
Qed.

Lemma tmpfs_node_file objs s c obj refs :
  d_objs (f_drv s) = objs -> objs !! c = Some obj -> is_tmpfs obj ->
  vfile_of (d_tars (f_drv s)) (tmpfs_node obj c refs) = file_of objs c.
Proof.
  intros _ Hc [Hk|Hk]; unfold vfile_of, tmpfs_node, file_of; rewrite Hc, Hk; done.
Qed.

Lemma tmpfs_node_ok s p c obj obj2 refs :
  d_objs (f_drv s) !! c = Some obj2 -> t_flags obj2 = t_flags obj -> c <> 0 -> is_tmpfs obj ->
  node_ok s p (tmpfs_node obj c refs).
Proof.
  intros Hc Hfl Hc0 [Hk|Hk]; unfold tmpfs_node; rewrite Hk in *.
  - by apply (node_dir s p obj c refs obj2).
  - by apply node_file.
Qed.

(** A new node on an object that is there. *)
Lemma vfs_open_object s c obj f h' :
  fs_ok s -> vfs_ok s -> d_objs (f_drv s) !! c = Some obj -> more_live (f_heap s) h' [f] ->
  let s' := set_obj c (set_obj_ref (t_refcount obj + 1) obj)
    (FState h' (<[f := tmpfs_node obj c 1]> (f_nodes s)) (f_mounts s) (f_root s) (f_drv s)) in
  env (f_nodes s) s s' /\ f_nodes s !! f = None.
Proof.
  intros Hfs Hok Hc (Hh' & Hlive & _ & Hfr). destruct (Hfr f ltac:(apply elem_of_cons; by left)) as [_ Hfl]. cbv zeta.
  set (s' := set_obj c _ _). assert (f_nodes s !! f = None) as Hfn.
  { apply eq_None_not_Some. intros [x Hx]. by apply Hfl, (proj2 Hfs f x). }
  destruct (ok_objs s Hok c obj Hc) as (Hkind & Hkids & Hrefs).
  assert (c <> 0) as Hc0.
  { pose proof (heap_live_range _ c (proj1 Hfs) (ok_objs_live s Hok c ltac:(by eexists))). lia. }
  assert (c <> f) as Hcf by (intros ->; apply Hfl, (ok_objs_live s Hok f); by eexists).
  assert (same_shape (d_objs (f_drv s)) (d_objs (f_drv s'))) as Hsh by (by apply same_shape_ref).
  assert (forall q, q <> f -> f_nodes s' !! q = f_nodes s !! q) as Hnq by (intros q Hq; cbn; by rewrite lookup_insert_ne).
  assert (forall o, open_count (f_nodes s') o = (if dir_node o (tmpfs_node obj c 1) then 1 else 0) + open_count (f_nodes s) o)
    as Hcount by (intros o; by apply open_count_fresh).
  split; [|done]. split; [|split; [|split; [done|split; [done|split; [|split; [|split; [done|]]]]]]].
  - split; [done|]. intros q y Hq. cbn [f_heap]. change (f_heap s') with h'. rewrite Hlive.
    destruct (decide (q = f)) as [->|Hne].
    + cbn in Hq. rewrite lookup_insert_eq in Hq. injection Hq as <-. split; [set_solver|].
      unfold tmpfs_node. by destruct (_ =? _).
    + rewrite Hnq in Hq by done. destruct (proj2 Hfs q y Hq). split; [set_solver|done].
  - split.
    + intros q y Hq. destruct (decide (q = f)) as [->|Hne].
      * cbn in Hq. rewrite lookup_insert_eq in Hq. injection Hq as <-.
        eapply tmpfs_node_ok; [cbn; apply lookup_insert_eq|done|done|done].
      * rewrite Hnq in Hq by done. apply (node_ok_mono s); [by apply (ok_nodes s Hok)|done|done|].
        intros q2 y2 _ Hq2 Hf2 Ho2 _. destruct (decide (q2 = f)) as [->|Hne2]; [|rewrite Hnq in Hq2 by done; by exists y2].
        cbn in Hq2. rewrite lookup_insert_eq in Hq2. injection Hq2 as <-. unfold tmpfs_node in Hf2. by destruct (_ =? _).
    + intros o o' Ho. destruct (decide (o = c)) as [->|Hne].
      * cbn in Ho. rewrite lookup_insert_eq in Ho. injection Ho as <-.
        apply (object_ok_mono s s' c obj); [by apply (ok_objs s Hok)|done|done|].
        intros Hd Hr. rewrite Hcount. specialize (Hrefs Hd Hr). cbn [t_refcount set_obj_ref].
        destruct (dir_node c _); lia.
      * cbn in Ho. rewrite lookup_insert_ne in Ho by done. destruct (ok_objs s Hok o o' Ho) as (A1 & A2 & A3).
        apply (object_ok_mono s s' o o'); [by apply (ok_objs s Hok)|done|done|].
        intros Hd Hr. rewrite Hcount, dir_node_other; [by apply A3|].
        unfold tmpfs_node. destruct (_ =? _); cbn; congruence.
    + intros o Ho. change (f_heap s') with h'. rewrite Hlive. apply elem_of_union. right.
      cbn in Ho. destruct (decide (o = c)) as [->|Hne]; [apply (ok_objs_live s Hok); by eexists|].
      rewrite lookup_insert_ne in Ho by done. by apply (ok_objs_live s Hok).
    + intros a Ha. change (f_heap s') with h'. rewrite Hlive. apply elem_of_union. right. by apply (ok_tars_live s Hok).
    + intros a Ha. destruct (ok_tars_apart s Hok a Ha) as [A1 A2]. pose proof (ok_tars_live s Hok a Ha).
      assert (a <> f) by (intros ->; done). rewrite Hnq by done. split; [done|]. cbn. rewrite lookup_insert_ne; [done|].
      intros ->. congruence.
    + intros o Ho. assert (is_Some (d_objs (f_drv s) !! o)) as Ho'.
      { cbn in Ho. destruct (decide (o = c)) as [->|Hne]; [by eexists|]. by rewrite lookup_insert_ne in Ho. }
      rewrite Hnq; [by apply (ok_objs_apart s Hok)|]. intros ->. by apply Hfl, (ok_objs_live s Hok).
    + intros q es Hes. eapply holds_archive_mono; [by apply (ok_devices s Hok)| |done].
      intros x Hx _. exists x. split; [|done]. rewrite Hnq; [done|]. by intros ->; rewrite Hfn in Hx.
  - cbn [contents vfs_driver]. f_equal. by apply same_shape_map.
  - intros a n. destruct a; [|done..]. by apply tmpfs_finds_shape.
  - intros q [y Hq]. cbn [Fs.node_file vfs_driver]. rewrite Hnq; [done|]. intros ->. by rewrite Hfn in Hq.
Qed.

(** What a lookup answers. *)
Definition looked_up s (res : option vfile) (r : Z) (s' : St) : Prop :=
  env (f_nodes s) s s' /\
  match res with
  | None => r = 0 /\ f_nodes s' = f_nodes s
  | Some b => is_entry b = true /\ r <> 0 /\ f_nodes s !! r = None /\ Fs.node_file s' r = Some b /\
      exists y, f_nodes s' = <[r := y]> (f_nodes s) /\ n_refcount y = 1
  end.

Lemma vfs_finddir_dir s p x o name :
  fs_ok s -> vfs_ok s -> f_nodes s !! p = Some x -> n_finddir x = Some Tmpfs_finddir -> n_object x = o -> text name ->
  wp (tmpfs_finddir p name) (looked_up s (tmpfs_finds (d_objs (f_drv s)) o name)) only_nomem s.
Proof.
  intros Hfs Hok Hp Hfd Ho Hn. pose proof (ok_nodes s Hok p x Hp) as Hx.
  assert (o <> 0 /\ exists obj, d_objs (f_drv s) !! o = Some obj /\ t_flags obj = FS_NODE_DIRECTORY) as (Ho0 & obj & Hobj & Hd).
  { destruct Hx as [obj' o' refs obj Hobj Hf Hf' Ho0| | |y H1y]; try done; [|by rewrite Hfd in H1y].
    cbn in Ho. subst o'. split; [done|]. by exists obj. }
  destruct (ok_objs s Hok o obj Hobj) as (_ & Hkids & _). destruct (Hkids Hd) as (l & Hl & Hc & Hr).
  apply (wp_tmpfs_finddir s p o obj l); [|done|done|done|].
  { split; [done|]. split; [done|]. by exists x. }
  unfold tmpfs_finds. rewrite Hobj, Hl.
  destruct (first_child (starts_with name) (d_objs (f_drv s)) 0 l) as [[i c]|] eqn:Hfirst.
  2: { wp_steps. split; [by apply env_refl|done]. }
  pose proof (first_child_in _ _ _ _ _ _ Hfirst) as Hin.
  destruct (proj1 (Forall_forall _ _) Hc c Hin) as (Hc0 & objc & Hobjc & _). pose proof (proj1 (Forall_forall _ _) Hr c Hin) as Hcr.
  cbn beta in Hcr. destruct (ok_objs s Hok c objc Hobjc) as (Hkind & _).
  eapply wp_mono; [exact (wp_fs_node_from_tmpfs s c objc (proj1 Hfs) Hc0 Hobjc Hkind)| |done].
  intros r s' (Hr0 & h' & Hlive & ->).
  destruct (vfs_open_object s c objc r h' Hfs Hok Hobjc Hlive) as [Henv Hfresh]. split; [exact Henv|].
  split; [|split; [done|split; [done|split]]].
  - unfold file_of. rewrite Hobjc. cbn [is_entry vfs_driver]. destruct (_ =? _); [by apply bool_decide_eq_true|done].
  - cbn [Fs.node_file vfs_driver]. cbn [f_nodes set_obj set_drv f_drv d_tars set_objs]. rewrite lookup_insert_eq. cbn [fmap option_fmap option_map].
    f_equal. by apply (tmpfs_node_file (d_objs (f_drv s)) s).
  - exists (tmpfs_node objc c 1). split; [done|]. unfold tmpfs_node. by destruct (_ =? _).
Qed.

(** ** Lookup in archives *)

(** A new node and its object. *)
Lemma vfs_open_entry s r a nm obj es h' :
  fs_ok s -> vfs_ok s -> more_live (f_heap s) h' [r; a] -> text (a_name obj) -> archives !! a_device obj = Some es ->
  (exists pre e post, es = pre ++ e :: post /\ a_offset obj = zlen (archive pre)) ->
  let s' := FState h' (<[r := tar_node nm a obj 1]> (f_nodes s)) (f_mounts s) (f_root s)
    (set_tars (<[a := obj]> (d_tars (f_drv s))) (f_drv s)) in
  env (f_nodes s) s s' /\ f_nodes s !! r = None.
Proof.
  intros Hfs Hok (Hh' & Hlive & Hnd & Hfr) Htext Hes Hat. cbv zeta. set (s' := FState _ _ _ _ _).
  destruct (Hfr r ltac:(set_solver)) as [_ Hrl]. destruct (Hfr a ltac:(set_solver)) as [_ Hal].
  assert (r <> a) as Hra by (apply NoDup_cons in Hnd as [Hnd _]; set_solver).
  assert (f_nodes s !! r = None) as Hrn.
  { apply eq_None_not_Some. intros [x Hx]. by apply Hrl, (proj2 Hfs r x). }
  assert (f_nodes s !! a = None) as Han.
  { apply eq_None_not_Some. intros [x Hx]. by apply Hal, (proj2 Hfs a x). }
  assert (d_tars (f_drv s) !! a = None) as Hta.
  { apply eq_None_not_Some. intros Hx. by apply Hal, (ok_tars_live s Hok). }
  assert (forall q, q <> r -> f_nodes s' !! q = f_nodes s !! q) as Hnq by (intros q Hq; cbn; by rewrite lookup_insert_ne).
  assert (forall q b, d_tars (f_drv s) !! q = Some b -> d_tars (f_drv s') !! q = Some b) as Htq.
  { intros q b Hq. cbn. rewrite lookup_insert_ne; [done|congruence]. }
  assert (forall q y, f_nodes s !! q = Some y -> n_finddir y = Some Tar_finddir -> n_object y <> a) as Hother.
  { intros q y Hq Hf <-. destruct (ok_nodes s Hok q y Hq) as [| |? b ? ? ? Hb| y Hy]; try done; [cbn in *; congruence|congruence]. }
  split; [|done]. split; [|split; [|split; [done|split; [done|split; [done|split; [done|split; [done|]]]]]]].
  - split; [done|]. intros q y Hq. change (f_heap s') with h'. rewrite Hlive. destruct (decide (q = r)) as [->|Hne].
    + cbn in Hq. rewrite lookup_insert_eq in Hq. injection Hq as <-. split; [set_solver|done].
    + rewrite Hnq in Hq by done. destruct (proj2 Hfs q y Hq). split; [set_solver|done].
  - split.
    + intros q y Hq. destruct (decide (q = r)) as [->|Hne].
      * cbn in Hq. rewrite lookup_insert_eq in Hq. injection Hq as <-.
        eapply node_tar; [cbn; apply lookup_insert_eq|done|done|by intros _|].
        intros q2 y2 Hq2 Hf2 Ho2. destruct (decide (q2 = r)) as [|Hne2]; [done|]. rewrite Hnq in Hq2 by done.
        by destruct (Hother q2 y2 Hq2 Hf2).
      * rewrite Hnq in Hq by done. apply (node_ok_mono s); [by apply (ok_nodes s Hok)|done|intros; by apply Htq|].
        intros q2 y2 Hf Hq2 Hf2 Ho2 _. destruct (decide (q2 = r)) as [->|Hne2]; [|rewrite Hnq in Hq2 by done; by exists y2].
        cbn in Hq2. rewrite lookup_insert_eq in Hq2. injection Hq2 as <-. cbn in Ho2. by destruct (Hother q y Hq Hf).
    + intros o obj' Ho. destruct (ok_objs s Hok o obj' Ho) as (_ & _ & Hc).
      apply (object_ok_mono s s' o obj'); [by apply (ok_objs s Hok)|done|done|].
      intros Hd Hr. specialize (Hc Hd Hr). change (f_nodes s') with (<[r := tar_node nm a obj 1]> (f_nodes s)).
      rewrite open_count_fresh by done. unfold dir_node. rewrite (bool_decide_eq_false_2 (_ = Some Tmpfs_finddir)) by done.
      by rewrite andb_false_r.
    + intros o Ho. change (f_heap s') with h'. rewrite Hlive. apply elem_of_union. right. by apply (ok_objs_live s Hok).
    + intros b Hb. change (f_heap s') with h'. rewrite Hlive. apply elem_of_union. cbn in Hb.
      destruct (decide (b = a)) as [->|Hne]; [left; set_solver|]. rewrite lookup_insert_ne in Hb by done. right.
      by apply (ok_tars_live s Hok).
    + intros b Hb. cbn in Hb. destruct (decide (b = a)) as [->|Hne].
      * rewrite Hnq by done. split; [done|]. apply eq_None_not_Some. intros Hx. by apply Hal, (ok_objs_live s Hok).
      * rewrite lookup_insert_ne in Hb by done. destruct (ok_tars_apart s Hok b Hb) as [A1 A2]. split; [|done].
        rewrite Hnq; [done|]. intros ->. by apply Hrl, (ok_tars_live s Hok).
    + intros o Ho. rewrite Hnq; [by apply (ok_objs_apart s Hok)|]. intros ->. by apply Hrl, (ok_objs_live s Hok).
    + intros q es' Hes'. eapply holds_archive_mono; [by apply (ok_devices s Hok)| |done].
      intros x Hx _. exists x. split; [|done]. rewrite Hnq; [done|]. by intros ->; rewrite Hrn in Hx.
  - intros q [y Hq]. cbn [Fs.node_file vfs_driver]. rewrite Hnq by (intros ->; by rewrite Hrn in Hq). rewrite Hq.
    cbn [fmap option_fmap option_map]. f_equal. destruct (ok_nodes s Hok q y Hq) as [| |? b ? ? ? Hb| y H1y]; try done.
    + unfold vfile_of. cbn [n_finddir tar_node n_object]. by rewrite Hb, (Htq b _ Hb).
    + unfold vfile_of. by rewrite H1y.
Qed.

Lemma vfs_finddir_tar s p x obj name :
  fs_ok s -> vfs_ok s -> f_nodes s !! p = Some x -> vfile_of (d_tars (f_drv s)) x = FTar obj -> element name ->
  wp (tar_finddir read_device p name) (looked_up s (vfinds s (FTar obj) name)) only_nomem s.
Proof.
  intros Hfs Hok Hp Hf Hn. destruct (tar_node_of s p x obj (ok_nodes s Hok p x Hp) Hf) as (nm & a & refs & es & -> & Ha & Ht & Hes & _).
  pose proof (ok_devices s Hok _ _ Hes) as Hdev. cbn [vfinds]. rewrite Hes.
  eapply wp_mono; [exact (wp_tar_finddir s p _ a obj es name (proj1 Hfs) Hp eq_refl Ha Ht Hn Hdev)| |done].
  intros r s' Hr. destruct (find_entry (dir_path (a_name obj) name) es) as [[ptr e]|] eqn:Hfind.
  2: { destruct Hr as [-> ->]. split; [by apply env_refl|done]. }
  destruct Hr as (Hr0 & h' & a' & nm' & Hlive & ->). destruct (find_entry_spec _ _ _ _ Hfind) as (pre & post & Heq & Hptr).
  assert (entry_ok e) as He.
  { destruct Hdev as (_ & [Hall _] & _). eapply (proj1 (Forall_forall _ _) Hall). rewrite Heq. set_solver. }
  destruct (vfs_open_entry s r a' nm' (entry_obj (a_device obj) ptr e) es h') as [Henv Hfresh]; [done|done|done| |done| |].
  { by apply entry_name_text. }
  { by exists pre, e, post. }
  split; [exact Henv|]. split; [done|]. split; [done|]. split; [done|]. split.
  - cbn [Fs.node_file vfs_driver]. cbn [f_nodes f_drv d_tars set_tars]. rewrite lookup_insert_eq. cbn [fmap option_fmap option_map].
    f_equal. unfold vfile_of. cbn [n_finddir n_object tar_node]. by rewrite lookup_insert_eq.
  - by eexists.
Qed.

(** ** References and closing *)

Lemma vfs_refcount s p x n :
  fs_ok s -> vfs_ok s -> f_nodes s !! p = Some x -> 0 < n_refcount x -> 0 < n ->
  env (f_nodes s) s (set_nodes (<[p := set_refcount n x]> (f_nodes s)) s).
Proof.
  intros Hfs Hok Hp Hx Hn. set (s' := set_nodes _ s).
  assert (forall q y, f_nodes s' !! q = Some y -> exists y0 k, f_nodes s !! q = Some y0 /\ y = set_refcount k y0 /\ (k = n \/ y = y0)) as Hq.
  { intros q y Hq. cbn in Hq. apply lookup_insert_Some in Hq as [[<- <-]|[_ Hq]].
    - exists x, n. split; [done|]. by split; [|left].
    - exists y, (n_refcount y). split; [done|]. split; [by destruct y|by right]. }
  assert (forall q y, f_nodes s !! q = Some y -> exists k, f_nodes s' !! q = Some (set_refcount k y)) as Hq'.
  { intros q y Hy. cbn. destruct (decide (q = p)) as [->|Hne].
    - rewrite Hp in Hy. injection Hy as <-. exists n. apply lookup_insert_eq.
    - exists (n_refcount y). rewrite lookup_insert_ne by done. by destruct y. }
  split; [|split; [|split; [done|split; [done|split; [done|split; [done|split; [done|]]]]]]].
  - split; [apply Hfs|]. intros q y Hy. destruct (Hq q y Hy) as (y0 & k & Hy0 & -> & Hk).
    destruct (proj2 Hfs q y0 Hy0) as [A1 A2]. split; [done|]. destruct Hk as [->|Hk]; [cbn; lia|]. rewrite Hk. done.
  - split; try apply Hok.
    + intros q y Hy. destruct (Hq q y Hy) as (y0 & k & Hy0 & -> & _). apply node_ok_refcount.
      apply (node_ok_mono s); [by apply (ok_nodes s Hok)|done|done|].
      intros q2 y2 _ Hq2 Hf2 Ho2 _. destruct (Hq q2 y2 Hq2) as (y3 & k3 & Hy3 & -> & _). by exists y3.
    + intros o obj Ho. destruct (ok_objs s Hok o obj Ho) as (_ & _ & Hc).
      apply (object_ok_mono s s' o obj); [by apply (ok_objs s Hok)|done|done|]. intros Hd Hr.
      cbn [f_nodes s' set_nodes]. unfold s'. cbn [f_nodes set_nodes]. rewrite (open_count_same _ p _ x); [by apply Hc|done|by destruct x].
    + intros a Ha. destruct (ok_tars_apart s Hok a Ha) as [A1 A2]. split; [|done].
      apply eq_None_not_Some. intros [y Hy]. destruct (Hq a y Hy) as (y0 & k & Hy0 & _). congruence.
    + intros o Ho. pose proof (ok_objs_apart s Hok o Ho). apply eq_None_not_Some. intros [y Hy].
      destruct (Hq o y Hy) as (y0 & k & Hy0 & _). congruence.
    + intros q es Hes. eapply holds_archive_mono; [by apply (ok_devices s Hok)| |done].
      intros y Hy _. destruct (Hq' q y Hy) as [k Hk]. by exists (set_refcount k y).
  - intros q [y Hy]. cbn [Fs.node_file vfs_driver]. destruct (Hq' q y Hy) as [k Hk]. by rewrite Hk, Hy.
Qed.

(** A node goes, and the driver gives up what only it used. *)
Lemma vfs_remove s p x h' objs' tars' :
  fs_ok s -> vfs_ok s -> f_nodes s !! p = Some x -> n_read x <> Some Ramdisk_read ->
  heap_ok h' -> same_shape (d_objs (f_drv s)) objs' ->
  (forall a b, tars' !! a = Some b -> d_tars (f_drv s) !! a = Some b) ->
  (forall q y b, f_nodes s !! q = Some y -> q <> p -> n_finddir y = Some Tar_finddir ->
    d_tars (f_drv s) !! n_object y = Some b -> tars' !! n_object y = Some b) ->
  (forall o obj', objs' !! o = Some obj' -> t_flags obj' = FS_NODE_DIRECTORY -> ~ o ∈ roots ->
    open_count (delete p (f_nodes s)) o < t_refcount obj') ->
  (forall q, q ∈ heap_live (f_heap s) -> q <> p ->
    is_Some (f_nodes s !! q) \/ is_Some (d_objs (f_drv s) !! q) \/ is_Some (tars' !! q) -> q ∈ heap_live h') ->
  env (delete p (f_nodes s)) s
    (FState h' (delete p (f_nodes s)) (f_mounts s) (f_root s) (Drivers objs' tars' (d_disks (f_drv s)))).
Proof.
  intros Hfs Hok Hp Hxr Hh' Hsh Ht Ht' Hc Hlive. set (s' := FState _ _ _ _ _).
  assert (forall q y, f_nodes s' !! q = Some y -> q <> p /\ f_nodes s !! q = Some y) as Hq.
  { intros q y Hq. change (delete p (f_nodes s) !! q = Some y) in Hq. by apply lookup_delete_Some in Hq as [Hne Hq]. }
  assert (forall o, is_Some (objs' !! o) -> is_Some (d_objs (f_drv s) !! o)) as Ho.
  { intros o [obj Hobj]. specialize (Hsh o). rewrite Hobj in Hsh. destruct (d_objs (f_drv s) !! o); [by eexists|done]. }
  assert (forall o, is_Some (objs' !! o) \/ is_Some (tars' !! o) -> o <> p) as Hop.
  { intros o Ho' ->. destruct Ho' as [Ho'|[b Hb]].
    - pose proof (ok_objs_apart s Hok p (Ho p Ho')). congruence.
    - destruct (ok_tars_apart s Hok p) as [A1 _]; [by eexists; apply Ht|congruence]. }
  split; [|split; [|split; [done|split; [done|split; [|split; [|split; [done|]]]]]]].
  - split; [done|]. intros q y Hy. apply Hq in Hy as [Hne Hy]. destruct (proj2 Hfs q y Hy). split; [|done].
    apply Hlive; [done|done|]. left. by eexists.
  - split.
    + intros q y Hy. apply Hq in Hy as [Hne Hy].
      apply (node_ok_mono s); [by apply (ok_nodes s Hok)|done|intros b Hf Hb; by eapply Ht'|].
      intros q2 y2 _ Hq2 Hf2 Ho2 _. apply Hq in Hq2 as [_ Hq2]. by exists y2.
    + intros o obj' Hobj'. pose proof (Hsh o) as Hso. change (d_objs (f_drv s')) with objs' in Hobj'. rewrite Hobj' in Hso.
      destruct (d_objs (f_drv s) !! o) as [obj|] eqn:Hobj; [|done]. injection Hso as Hn Hf Hch Hbl Hbs.
      apply (object_ok_mono s s' o obj); [by apply (ok_objs s Hok)|done|by unfold shape; rewrite Hn, Hf, Hch, Hbl, Hbs|].
      intros Hd Hr. apply Hc; [done|congruence|done].
    + intros o Ho'. apply Hlive; [apply (ok_objs_live s Hok); by apply Ho|apply Hop; by left|]. right. left. by apply Ho.
    + intros a Ha. apply Hlive; [apply (ok_tars_live s Hok)|apply Hop; by right|by right; right].
      destruct Ha as [b Hb]. eexists. by apply Ht.
    + intros a [b Hb]. apply Ht in Hb. destruct (ok_tars_apart s Hok a) as [A1 A2]; [by eexists|]. split.
      * cbn. apply lookup_delete_None. by right.
      * apply eq_None_not_Some. intros Ho'. apply Ho in Ho' as [? Ho']. congruence.
    + intros o Ho'. cbn. apply lookup_delete_None. right. by apply (ok_objs_apart s Hok), Ho.
    + intros q es Hes. eapply holds_archive_mono; [by apply (ok_devices s Hok)| |done].
      intros y Hy Hr. exists y. split; [|done]. cbn. rewrite lookup_delete_ne; [done|]. intros ->. congruence.
  - cbn [contents vfs_driver]. f_equal. by apply same_shape_map.
  - intros a n. destruct a; [|done..]. by apply tmpfs_finds_shape.
  - intros q [y Hy]. cbn [Fs.node_file vfs_driver]. change (f_nodes s' !! q) with (delete p (f_nodes s) !! q). rewrite Hy.
    apply lookup_delete_Some in Hy as [Hne Hy]. rewrite Hy. cbn [fmap option_fmap option_map]. f_equal.
    change (d_tars (f_drv s')) with tars'. unfold vfile_of. destruct (ok_nodes s Hok q y Hy) as [| |? b ? ? ? Hb| y H1y]; try done.
    + cbn [n_finddir tar_node n_object]. pose proof (Ht' q _ _ Hy ltac:(done) eq_refl Hb) as Hb'.
      cbn [n_object tar_node] in Hb'. by rewrite Hb, Hb'.
    + by rewrite H1y.
Qed.

(** What closing has to leave so that the node can be freed. *)
Definition closed s (p : Z) (s' : St) : Prop :=
  p ∈ heap_live (f_heap s') /\ heap_ok (f_heap s') /\
  (exists y, f_nodes s' = <[p := y]> (f_nodes s)) /\
  forall h', heap_ok h' -> heap_live h' = heap_live (f_heap s') ∖ {[ p ]} ->
    env (delete p (f_nodes s)) s (lset fs_heap h' (set_nodes (delete p (f_nodes s)) s')).

Definition dead s p x : St := set_nodes (<[p := set_refcount 0 x]> (f_nodes s)) s.

(** Nothing but the node goes. *)
Lemma closed_plain s p x :
  fs_ok s -> vfs_ok s -> f_nodes s !! p = Some x -> n_read x <> Some Ramdisk_read ->
  (forall o, dir_node o x = false) -> closed s p (dead s p x).
Proof.
  intros Hfs Hok Hp Hr Hd. split; [by apply (proj2 Hfs p x)|]. split; [apply Hfs|]. split; [by eexists|].
  intros h' Hh' Hlive. pose proof (vfs_remove s p x h' (d_objs (f_drv s)) (d_tars (f_drv s))) as Hrem.
  destruct s as [h nodes m r [objs tars disks]]. apply Hrem; try done.
  - intros o obj' Ho Hdir Hroot. destruct (ok_objs _ Hok o obj' Ho) as (_ & _ & Hc). specialize (Hc Hdir Hroot).
    change (open_count nodes o < t_refcount obj') in Hc. rewrite (open_count_delete nodes p x o Hp), Hd in Hc. exact Hc.
  - intros q Hq Hne _. rewrite Hlive. set_solver.
Qed.

Lemma vfs_close_dir s p x o :
  fs_ok s -> vfs_ok s -> f_nodes s !! p = Some x -> n_finddir x = Some Tmpfs_finddir -> n_object x = o -> ~ o ∈ roots ->
  n_read x = None ->
  wp (tmpfs_close p) (fun _ => closed s p) never (dead s p x).
Proof.
  intros Hfs Hok Hp Hf Ho Hr Hxr.
  assert (o <> 0 /\ exists obj, d_objs (f_drv s) !! o = Some obj /\ t_flags obj = FS_NODE_DIRECTORY) as (Ho0 & obj & Hobj & Hd).
  { destruct (ok_nodes s Hok p x Hp) as [obj' o' refs obj Hobj Hf0 Hf' Ho0| | |y H1y]; try done; [|congruence].
    cbn in Ho. subst o'. split; [done|]. by exists obj. }
  destruct (ok_objs s Hok o obj Hobj) as (_ & _ & Hc). specialize (Hc Hd Hr).
  assert (open_count (f_nodes s) o = 1 + open_count (delete p (f_nodes s)) o) as Hcount.
  { rewrite (open_count_delete (f_nodes s) p x o Hp). unfold dir_node. by rewrite Ho, Hf, !bool_decide_eq_true_2. }
  assert (0 <= open_count (delete p (f_nodes s)) o) by (unfold open_count; lia).
  unfold tmpfs_close. wp_steps. apply (wp_at_node (dead s p x) p (set_refcount 0 x)); [cbn; apply lookup_insert_eq|].
  wp_steps. cbn [n_object set_refcount]. rewrite Ho. wp_cond. rewrite (proj2 (Z.eqb_neq o 0)) by done. cbn [negb]. wp_steps.
  apply (wp_obj (dead s p x) o obj); [done|]. wp_steps. apply (wp_upd_obj (dead s p x) o obj); [done|]. wp_steps.
  rewrite (proj2 (Z.eqb_neq _ 0)) by lia. wp_steps. unfold upd_node. wp_steps.
  eapply wp_at_node; [cbn; apply lookup_insert_eq|]. wp_steps. split; [by apply (proj2 Hfs p x)|]. split; [apply Hfs|].
  split; [cbn [f_nodes set_nodes set_obj set_drv dead]; rewrite insert_insert_eq; by eexists|]. intros h' Hh' Hlive.
  pose proof (vfs_remove s p x h' (<[o := set_obj_ref (t_refcount obj - 1) obj]> (d_objs (f_drv s))) (d_tars (f_drv s))) as Hrem.
  destruct s as [h nodes m r [objs tars disks]]. apply Hrem; try done.
  - by rewrite Hxr.
  - by apply same_shape_ref.
  - intros o2 obj2 Ho2 Hd2 Hr2. cbn [d_objs f_drv] in Ho2. apply lookup_insert_Some in Ho2 as [[<- <-]|[Hne Ho2]].
    + cbn [t_refcount set_obj_ref f_nodes] in *. lia.
    + destruct (ok_objs _ Hok o2 obj2 Ho2) as (_ & _ & Hc2). specialize (Hc2 Hd2 Hr2).
      cbn [f_nodes] in *. rewrite (open_count_delete nodes p x o2 Hp), dir_node_other in Hc2 by congruence. exact Hc2.
  - intros q Hq Hne _. rewrite Hlive. cbn [f_heap set_nodes set_obj set_drv dead] in *. set_solver.
Qed.

Lemma tar_node_alone s p x :
  node_ok s p x -> n_finddir x = Some Tar_finddir ->
  is_Some (d_tars (f_drv s) !! n_object x) /\
  forall q y, f_nodes s !! q = Some y -> n_finddir y = Some Tar_finddir -> n_object y = n_object x -> q = p.
Proof.
  intros [| |? ? ? ? ? Ha ? ? ? Hu|y Hf] Hfd; try done. congruence.
Qed.

Lemma vfs_close_tar s p name a obj refs :
  fs_ok s -> vfs_ok s -> f_nodes s !! p = Some (tar_node name a obj refs) ->
  wp (tar_close p) (fun _ => closed s p) never (dead s p (tar_node name a obj refs)).
Proof.
  intros Hfs Hok Hp. set (x := tar_node name a obj refs) in *. pose proof (ok_nodes s Hok p x Hp) as Hx.
  destruct (tar_node_alone s p x Hx eq_refl) as ([obj0 Ha] & Hu). cbn [n_object x tar_node] in Ha, Hu.
  pose proof (ok_tars_live s Hok a ltac:(by eexists)) as Hal. destruct (ok_tars_apart s Hok a ltac:(by eexists)) as [Han Hao].
  assert (a <> p) as Hap by congruence.
  unfold tar_close. wp_steps. apply (wp_at_node (dead s p x) p (set_refcount 0 x)); [cbn; apply lookup_insert_eq|].
  wp_steps. cbn [n_object set_refcount x tar_node]. unfold tar_at. wp_cond. change (d_tars (f_drv (dead s p x))) with (d_tars (f_drv s)).
  rewrite Ha. wp_steps. apply wp_zoom. wp_apply (kfree_spec (f_heap s) a); [apply Hfs|done| |done].
  intros u h1 [Hh1 Hl1]. unfold mod_drv. wp_steps. split; [|split; [done|split; [by eexists|]]].
  { cbn [f_heap]. change (p ∈ heap_live h1). rewrite Hl1. pose proof (proj1 (proj2 Hfs p x Hp)). set_solver. }
  intros h' Hh' Hlive. change (heap_live h' = heap_live h1 ∖ {[ p ]}) in Hlive. rewrite Hl1 in Hlive.
  pose proof (vfs_remove s p x h' (d_objs (f_drv s)) (delete a (d_tars (f_drv s)))) as Hrem.
  destruct s as [h nodes m r [objs tars disks]]. apply Hrem; try done.
  - intros b t Hb. by apply lookup_delete_Some in Hb as [_ Hb].
  - intros q y b Hq Hne Hf Hb. rewrite lookup_delete_ne; [exact Hb|]. intros Heq. by destruct (Hne (Hu q y Hq Hf (eq_sym Heq))).
  - intros o obj' Ho Hdir Hroot. destruct (ok_objs _ Hok o obj' Ho) as (_ & _ & Hc). specialize (Hc Hdir Hroot).
    change (open_count nodes o < t_refcount obj') in Hc. rewrite (open_count_delete nodes p x o Hp) in Hc.
    unfold dir_node in Hc. rewrite (bool_decide_eq_false_2 (n_finddir x = _)), andb_false_r in Hc by done. exact Hc.
  - intros q Hq Hne Hs. rewrite Hlive. cbn [f_heap f_nodes d_objs f_drv] in *. apply elem_of_difference. split.
    + apply elem_of_difference. split; [done|]. intros ->%elem_of_singleton. cbn [d_tars f_drv] in *. rewrite Han, Hao, lookup_delete_eq in Hs.
      by destruct Hs as [[? ?]|[[? ?]|[? ?]]].
    + by intros ->%elem_of_singleton.
Qed.

(** ** The drivers keep the promises *)

(** What the allocator leaves in a block it makes larger. *)
Variable junk : Z -> list Z.
Hypothesis Hjunk : forall n, 0 <= n -> zlen (junk n) = n.

#[local] Instance vfs_handlers : Handlers (fstate H drivers handler) handler := kernel_handlers junk.

#[local] Instance vfs_driver_laws : FsDriverLaws (H := H) (D := drivers) (Hd := handler).
Proof.
  split.
  - intros s p x a Hok Hp Ha. cbn [Fs.node_file vfs_driver] in Ha. rewrite Hp in Ha. injection Ha as <-.
    apply (law_kind' s p x). by apply (ok_nodes s Hok).
  - intros s p x h name a Hfs Hok Hp Hh Ha Hd Hn. cbn [Fs.node_file vfs_driver] in Ha. rewrite Hp in Ha. injection Ha as <-.
    pose proof (ok_nodes s Hok p x Hp) as Hx. destruct (vfile_of (d_tars (f_drv s)) x) as [o| |obj|] eqn:Hf; try done.
    + assert (n_finddir x = Some Tmpfs_finddir /\ n_object x = o) as [Hfd Ho].
      { destruct Hx as [| |? b ? ? ? Hb|y H1y]; try done.
        - unfold vfile_of in Hf. cbn in Hf. injection Hf as <-. done.
        - unfold vfile_of in Hf. cbn in Hf. by rewrite Hb in Hf.
        - unfold vfile_of in Hf. rewrite H1y in Hf. by destruct (n_read y) as [[]|]. }
      rewrite Hfd in Hh. injection Hh as <-. exact (vfs_finddir_dir s p x o name Hfs Hok Hp Hfd Ho (element_text name Hn)).
    + assert (n_finddir x = Some Tar_finddir) as Hfd.
      { by destruct (tar_node_of s p x obj Hx Hf) as (? & ? & ? & ? & -> & _). }
      rewrite Hfd in Hh. injection Hh as <-. exact (vfs_finddir_tar s p x obj name Hfs Hok Hp Hf Hn).
  - intros s p x h a Hfs Hok Hp Hh Ha Hl. cbn [Fs.node_file vfs_driver] in Ha. rewrite Hp in Ha. injection Ha as <-.
    cbn [is_link vfs_driver] in Hl. destruct (vfile_of (d_tars (f_drv s)) x) as [| |obj|] eqn:Hf; try done.
    assert (h = Tar_readlink) as ->.
    { destruct (tar_node_of s p x obj (ok_nodes s Hok p x Hp) Hf) as (? & ? & ? & ? & -> & _). by injection Hh as <-. }
    eapply wp_mono; [exact (vfs_readlink s p x obj Hok Hp Hf Hl)| |done].
    intros r s' [-> Hr]. split; [by apply env_refl|]. by split.
  - intros s p x a Hok Hp Ha Hl Hn. cbn [Fs.node_file vfs_driver] in Ha. rewrite Hp in Ha. injection Ha as <-.
    cbn [is_link vfs_driver] in Hl. destruct (vfile_of (d_tars (f_drv s)) x) as [| |obj|] eqn:Hf; try done.
    by destruct (tar_node_of s p x obj (ok_nodes s Hok p x Hp) Hf) as (? & ? & ? & ? & -> & _).
  - intros s p x h flags Hfs Hok Hp Hh.
    assert (call_open h p flags = ret tt) as ->; [|by wp_steps; split; [apply env_refl|]].
    destruct (ok_nodes s Hok p x Hp) as [| | |y H1y H2y H3y [H4y|H4y]]; try congruence; try done.
    + by injection Hh as <-.
    + by injection Hh as <-.
    + rewrite H4y in Hh. by injection Hh as <-.
  - intros s p x a Hfs Hok Hp Hpos Ha He. cbn [Fs.node_file vfs_driver] in Ha. rewrite Hp in Ha. injection Ha as <-.
    change (wp (match n_close x with Some h => call_close h p | None => ret tt end) (fun _ => closed s p) never (dead s p x)).
    pose proof (ok_nodes s Hok p x Hp) as Hx. cbn [is_entry vfs_driver] in He.
    destruct Hx as [obj' o refs obj Ho Hd Hd' Ho0|obj' o refs Hd|name b obj refs es Hb Ht Hes Hl Hu|y H1y H2y H3y H4y].
    + cbn in He. apply bool_decide_eq_true in He. by apply (vfs_close_dir s p _ o).
    + cbn [n_close tmpfs_file_node]. wp_steps. apply closed_plain; [done..|]. intros o'. unfold dir_node. cbn.
      by rewrite andb_false_r.
    + by apply vfs_close_tar.
    + unfold vfile_of in He. rewrite H1y in He. by destruct (n_read y) as [[]|].
  - intros. by apply vfs_refcount.
Qed.

(** C1. Opening a file by its path: [kopen] answers what the path leads to in
    the mount graph, each element looked up in the directory in memory or in
    the archive that is there, symbolic links followed at most ten levels
    deep, and the caller holds exactly one new reference: the reference count
    of a mount's root is one higher, or one node with one reference is new, and
    no other node changes.  The mounts, what every directory holds, where every
    link leads, the bytes of every file and disk and the file behind every node
    stay.  NULL means that the path leads nowhere, and then no node changes.  The kernel only stops when memory runs
    out or where the path is malformed ("..", above the root, or an unreadable
    link). *)
Theorem kopen_resolves s path post flags :
  fs_ready s -> text path ->
  wp (kopen junk (path ++ 0 :: post) flags)
    (fun r s' => fs_ready s' /\ env (f_nodes s) s s' /\
       match lookup_path s path with
       | Some (Some t) => held (f_nodes s) t r s'
       | Some None => r = 0 /\ f_nodes s' = f_nodes s
       | None => False
       end)
    (fun e => e = NoMemory \/ (e = AssertFail /\ lookup_path s path = None)) s.
Proof. intros Hready Hp. by apply wp_kopen. Qed.
End vfs.

(** ** A mounted system

    An archive on a ramdisk as the root, and a directory in memory on "/tmp". *)

Definition sample_root_obj : tar_obj := TarObj 108 [] 0 FS_NODE_DIRECTORY 0.
Definition sample_tmp : tmpfs_object := TmpfsObject [116; 109; 112; 102; 115] FS_NODE_DIRECTORY (Some [128]) None 0 0.
Definition sample_ab : tmpfs_object := TmpfsObject [97; 98] FS_NODE_FILE None (Some [1; 2; 3]) 3 1.

Definition sample_disk : fs_node_t handler :=
  FsNode [] 0 4096 1536 (Some Ramdisk_read) None None None None None None None None None 1.

Definition sample_vfs : fstate Interfaces.bump drivers handler :=
  FState (Bump 300 {[ 100; 104; 108; 112; 116; 120; 124; 128 ]})
    (<[100 := tar_node [] 104 sample_root_obj 1]> (<[108 := sample_disk]>
      {[ 120 := tmpfs_dir_node sample_tmp 124 1 ]}))
    (<[112 := FsMount [] 100 [116] 1]> {[ 116 := FsMount [116; 109; 112] 120 [] 1 ]}) 112
    (Drivers (<[124 := sample_tmp]> {[ 128 := sample_ab ]}) {[ 104 := sample_root_obj ]} {[ 4096 := archive sample_archive ]}).

Definition sample_archives : gmap Z (list entry) := {[ 108 := sample_archive ]}.

Ltac lookup_in Hp :=
  lazymatch type of Hp with
  | <[_ := _]> _ !! _ = Some _ => apply lookup_insert_Some in Hp as [[<- <-]|[_ Hp]]; [|lookup_in Hp]
  | _ => apply lookup_singleton_Some in Hp as [<- <-]
  end.
Ltac lookup_cases Hp :=
  cbn [f_nodes f_mounts f_drv d_objs d_tars sample_vfs] in Hp; lookup_in Hp.

Lemma sample_holds : holds_archive sample_vfs 108 sample_archive.
Proof.
  split; [done|]. split; [exact sample_archive_ok|]. exists sample_disk, []. split; [reflexivity|]. split; [reflexivity|].
  split; vm_compute; reflexivity.
Qed.

Lemma sample_vfs_ok : vfs_ok sample_archives {[ 124 ]} sample_vfs.
Proof.
  split.
  - intros p x Hp. lookup_cases Hp.
    + eapply (node_tar sample_archives sample_vfs 100 [] 104 sample_root_obj 1 sample_archive); try reflexivity; [constructor|done|].
      intros q y Hq Hf Ho. by lookup_cases Hq.
    + apply node_other; [done|done|done|by left].
    + by apply (node_dir sample_archives sample_vfs 120 sample_tmp 124 1 sample_tmp).
  - intros o obj Ho. lookup_cases Ho.
    + split; [by left|]. split; [|set_solver]. intros _. exists [128]. split; [done|]. split.
      * apply Forall_singleton. split; [done|]. exists sample_ab. split; [reflexivity|]. repeat constructor.
      * apply Forall_singleton. set_solver.
    + split; [by right|]. by split.
  - intros o [obj Ho]. change (o ∈ ({[ 100; 104; 108; 112; 116; 120; 124; 128 ]} : gset Z)). lookup_cases Ho; set_solver.
  - intros a [obj Ha]. change (a ∈ ({[ 100; 104; 108; 112; 116; 120; 124; 128 ]} : gset Z)). lookup_cases Ha; set_solver.
  - intros a [obj Ha]. by lookup_cases Ha.
  - intros o [obj Ho]. by lookup_cases Ho.
  - intros p es Hes. unfold sample_archives in Hes. apply lookup_singleton_Some in Hes as [<- <-]. exact sample_holds.
Qed.

Lemma sample_fs_ready : @fs_ready _ _ _ _ (vfs_driver sample_archives {[ 124 ]}) sample_vfs.
Proof.
  split; [split|split; [exact sample_vfs_ok|split; [|split; [by eexists|]]]].
  - split; [cbn; lia|]. intros p Hp. change (p ∈ ({[ 100; 104; 108; 112; 116; 120; 124; 128 ]} : gset Z)) in Hp.
    cbn [bump_next sample_vfs f_heap]. set_solver by lia.
  - intros p x Hp. change (p ∈ ({[ 100; 104; 108; 112; 116; 120; 124; 128 ]} : gset Z) /\ n_refcount x <> 0).
    lookup_cases Hp; (split; [set_solver|done]).
  - intros p m Hm. lookup_cases Hm; (split; [done|]); (split; [repeat constructor|]); intros c Hc; cbn in Hc.
    + apply list_elem_of_singleton in Hc as ->. by eexists.
    + by apply elem_of_nil in Hc.
  - intros p m Hm. lookup_cases Hm; split; by eexists.
Qed.

#[local] Instance sample_driver : FsDriver Interfaces.bump drivers handler := vfs_driver sample_archives {[ 124 ]}.

(** The file a path leads to, when that is not the root of a mount. *)
Definition leads_to (path : list Z) : option vfile :=
  match lookup_path sample_vfs path with Some (Some (TFile a)) => Some a | _ => None end.

Lemma leads_to_file path a (nodes : gmap Z (fs_node_t handler)) r s' :
  leads_to path = Some a ->
  match lookup_path sample_vfs path with
  | Some (Some t) => held nodes t r s' | Some None => r = 0 /\ f_nodes s' = nodes | None => False
  end -> Fs.node_file s' r = Some a.
Proof.
  unfold leads_to. destruct (lookup_path sample_vfs path) as [[[p|b]|]|]; try done. intros [= ->] Hh. apply Hh.
Qed.

Lemma leads_to_found path a e :
  leads_to path = Some a -> e = NoMemory \/ (e = AssertFail /\ lookup_path sample_vfs path = None) -> only_nomem e.
Proof. unfold leads_to. intros Hl [He|[_ He]]; [done|]. by rewrite He in Hl. Qed.

Lemma kopen_resolves_witness :
  wp (kopen (H1 := kernel_handlers sample_junk) sample_junk ([47; 100; 47; 102] ++ [0]) 0)
    (fun r s' => Fs.node_file s' r = Some (FTar (TarObj 108 [100; 47; 102] 512 FS_NODE_FILE 3))) only_nomem sample_vfs /\
  wp (kopen (H1 := kernel_handlers sample_junk) sample_junk ([47; 100; 47; 46; 46; 47; 116; 109; 112; 47; 97; 98] ++ [0]) 0)
    (fun r s' => Fs.node_file s' r = Some (FFile 128)) only_nomem sample_vfs.
Proof.
  split.
  - eapply wp_mono; [apply (kopen_resolves sample_archives {[ 124 ]} sample_junk sample_junk_length sample_vfs
      [47; 100; 47; 102] [] 0 sample_fs_ready ltac:(repeat constructor))| |].
    + intros r s' (_ & _ & Hr). apply (leads_to_file [47; 100; 47; 102] _ (f_nodes sample_vfs)); [vm_compute; reflexivity|exact Hr].
    + intros e He. eapply (leads_to_found [47; 100; 47; 102]); [vm_compute; reflexivity|exact He].
  - eapply wp_mono; [apply (kopen_resolves sample_archives {[ 124 ]} sample_junk sample_junk_length sample_vfs
      [47; 100; 47; 46; 46; 47; 116; 109; 112; 47; 97; 98] [] 0 sample_fs_ready ltac:(repeat constructor))| |].
    + intros r s' (_ & _ & Hr). apply (leads_to_file [47; 100; 47; 46; 46; 47; 116; 109; 112; 47; 97; 98] _ (f_nodes sample_vfs)); [vm_compute; reflexivity|exact Hr].
    + intros e He. eapply (leads_to_found [47; 100; 47; 46; 46; 47; 116; 109; 112; 47; 97; 98]); [vm_compute; reflexivity|exact He].
Defined.
