(* ===== verification/FdTable.v ===== *)
(** * File descriptor tables (the fd helpers of kernel/process.c)

    Descriptors count their references and close their node with the last one;
    tables are arrays that grow.  Both are objects of the kernel heap, next to
    the nodes of file Fs. *)
From S2P Require Import Prelude Interfaces Fs.

(** [fd_entry_t] and [fd_table_t]; [ft_entries] is 0 for NULL. *)
Record fd_entry_t : Type := FdEntry {
  fd_node : Z;
  fd_seek : Z;
  fd_refcount : Z;
}.

Record fd_table_t : Type := FdTable {
  ft_entries : Z;
  ft_length : Z;
  ft_capacity : Z;
  ft_refcount : Z;
}.

Section state.
Context {H D Hd : Type}.

Record pstate : Type := PState {
  p_fs : fstate H D Hd;
  p_fds : gmap Z fd_entry_t;
  p_tables : gmap Z fd_table_t;
  p_arrays : gmap Z (list Z);
}.

Definition set_fds (m : gmap Z fd_entry_t) (s : pstate) : pstate := PState (p_fs s) m (p_tables s) (p_arrays s).
Definition set_tables (m : gmap Z fd_table_t) (s : pstate) : pstate := PState (p_fs s) (p_fds s) m (p_arrays s).
Definition set_arrays (m : gmap Z (list Z)) (s : pstate) : pstate := PState (p_fs s) (p_fds s) (p_tables s) m.

Definition p_files : lens pstate (fstate H D Hd) :=
  Lens p_fs (fun f s => PState f (p_fds s) (p_tables s) (p_arrays s)).
Definition p_heap : lens pstate H :=
  Lens (fun s => f_heap (p_fs s)) (fun h s => lset p_files (lset fs_heap h (p_fs s)) s).

Definition fd_at (p : Z) : M pstate fd_entry_t := let! m := gets p_fds in some (m !! p).
Definition table_at (p : Z) : M pstate fd_table_t := let! m := gets p_tables in some (m !! p).
Definition array_at (p : Z) : M pstate (list Z) := let! m := gets p_arrays in some (m !! p).
Definition put_fd (p : Z) (x : fd_entry_t) : M pstate unit := modify (fun s => set_fds (<[p := x]> (p_fds s)) s).
Definition put_table (p : Z) (x : fd_table_t) : M pstate unit := modify (fun s => set_tables (<[p := x]> (p_tables s)) s).
Definition put_array (p : Z) (x : list Z) : M pstate unit := modify (fun s => set_arrays (<[p := x]> (p_arrays s)) s).

(** [entries[i]], and its assignment. *)
Definition entry_get (entries i : Z) : M pstate Z := let! a := array_at entries in some (zlookup a i).
Definition entry_set (entries i v : Z) : M pstate unit :=
  let! a := array_at entries in
  let! _ := some (zlookup a i) in
  put_array entries (zinsert i v a).
End state.
Arguments pstate : clear implicits.

(** ** Descriptors *)

Section ops.
Context {H D Hd : Type} `{KHeap H}.
Context `{!Handlers (fstate H D Hd) Hd}.
Abbreviation P := (pstate H D Hd).

Definition set_fd_ref (n : Z) (x : fd_entry_t) : fd_entry_t := FdEntry (fd_node x) (fd_seek x) n.

Definition fd_reference (fd : Z) : M P Z :=
  kassert (negb (fd =? 0)) >>>
  let! x := fd_at fd in
  (if negb (fd_refcount x =? -1) then put_fd fd (set_fd_ref (fd_refcount x + 1) x) else ret tt) >>>
  ret fd.

Definition fd_new : M P Z :=
  let! fd := zoom p_heap (kcalloc 12) in
  if fd =? 0 then ret 0
  else put_fd fd (FdEntry 0 0 0) >>> fd_reference fd.

Definition fd_free (fd : Z) : M P unit :=
  kassert (negb (fd =? 0)) >>>
  let! x := fd_at fd in
  if fd_refcount x =? -1 then ret tt
  else
    put_fd fd (set_fd_ref (fd_refcount x - 1) x) >>>
    if fd_refcount x - 1 =? 0 then
      (if negb (fd_node x =? 0) then
         let! node := zoom p_files (fs_close (fd_node x)) in
         put_fd fd (FdEntry node (fd_seek x) 0)
       else ret tt) >>>
      zoom p_heap (kfree fd) >>>
      modify (fun s => set_fds (delete fd (p_fds s)) s)
    else ret tt.

(** ** Tables *)

Definition set_entries (a : Z) (t : fd_table_t) : fd_table_t := FdTable a (ft_length t) (ft_capacity t) (ft_refcount t).
Definition set_ft_length (n : Z) (t : fd_table_t) : fd_table_t := FdTable (ft_entries t) n (ft_capacity t) (ft_refcount t).
Definition set_capacity (n : Z) (t : fd_table_t) : fd_table_t := FdTable (ft_entries t) (ft_length t) n (ft_refcount t).
Definition set_ft_ref (n : Z) (t : fd_table_t) : fd_table_t := FdTable (ft_entries t) (ft_length t) (ft_capacity t) n.
Definition upd_table (p : Z) (f : fd_table_t -> fd_table_t) : M P unit := let! t := table_at p in put_table p (f t).

(** A cleared array of so many pointers. *)
Definition new_array (capacity : Z) : M P Z :=
  let! a := zoom p_heap (kcalloc (u32 (4 * capacity))) in
  (if a =? 0 then ret tt else put_array a (replicate (Z.to_nat capacity) 0)) >>> ret a.

(** [memcpy] of the first [length] entries. *)
Definition copy_entries (dest src length : Z) : M P unit :=
  kassert (negb (length =? 0)) >>>
  let! d := array_at dest in
  let! s := array_at src in
  (if (length <=? zlen d) && (length <=? zlen s) then ret tt else fail Fault) >>>
  put_array dest (take (Z.to_nat length) s ++ drop (Z.to_nat length) d).

Definition fd_table_realloc (table : Z) : M P unit :=
  kassert (negb (table =? 0)) >>>
  let! t := table_at table in
  (if ft_entries t =? 0 then
     let! a := new_array (ft_capacity t) in upd_table table (set_entries a)
   else
     let! a := new_array (ft_capacity t) in
     copy_entries a (ft_entries t) (ft_length t) >>>
     zoom p_heap (kfree (ft_entries t)) >>>
     modify (fun s => set_arrays (delete (ft_entries t) (p_arrays s)) s) >>>
     upd_table table (set_entries a)) >>>
  let! t := table_at table in
  kassert (negb (ft_entries t =? 0)).

Definition fd_table_reference (fd_table : Z) : M P Z :=
  kassert (negb (fd_table =? 0)) >>>
  let! t := table_at fd_table in
  (if negb (ft_refcount t =? -1) then put_table fd_table (set_ft_ref (ft_refcount t + 1) t) else ret tt) >>>
  ret fd_table.

Definition fd_table_new : M P Z :=
  let! fd_table := zoom p_heap (kcalloc 16) in
  kassert (negb (fd_table =? 0)) >>>
  put_table fd_table (FdTable 0 0 16 0) >>>
  fd_table_realloc fd_table >>>
  fd_table_reference fd_table.

Definition fd_table_get (fd_table i : Z) : M P Z :=
  kassert (negb (fd_table =? 0)) >>>
  let! t := table_at fd_table in
  if ft_length t <? i then ret 0 else entry_get (ft_entries t) i.

Definition fd_table_set (fd_table i entry : Z) : M P Z :=
  kassert (negb (fd_table =? 0)) >>>
  let! t := table_at fd_table in
  (if entry =? 0 then
     if i <? ft_capacity t then
       let! old := entry_get (ft_entries t) i in
       if negb (old =? 0) then fd_free old >>> entry_set (ft_entries t) i 0 else ret tt
     else ret tt
   else
     (if i <? ft_capacity t then
        let! old := entry_get (ft_entries t) i in
        if negb (old =? 0) then fd_free old else ret tt
      else upd_table fd_table (set_capacity i) >>> fd_table_realloc fd_table) >>>
     let! t := table_at fd_table in
     entry_set (ft_entries t) i entry >>>
     if ft_length t <? i then upd_table fd_table (set_ft_length i) else ret tt) >>>
  ret i.

Definition fd_table_append (fd_table entry : Z) : M P Z :=
  kassert (negb (fd_table =? 0)) >>>
  kassert (negb (entry =? 0)) >>>
  let! t := table_at fd_table in
  let! gap := for_ret (Z.to_nat (ft_length t)) 0 (fun i =>
    let! e := entry_get (ft_entries t) i in
    if e =? 0 then entry_set (ft_entries t) i entry >>> ret (Some i) else ret None) in
  match gap with
  | Some i => ret i
  | None =>
      (if ft_length t =? ft_capacity t then
         upd_table fd_table (set_capacity (u32 (ft_capacity t + 8))) >>> fd_table_realloc fd_table
       else ret tt) >>>
      let! t := table_at fd_table in
      entry_set (ft_entries t) (ft_length t) entry >>>
      upd_table fd_table (set_ft_length (ft_length t + 1)) >>>
      ret (ft_length t)
  end.

Definition fd_table_clone (oldfdt : Z) : M P Z :=
  kassert (negb (oldfdt =? 0)) >>>
  let! newfdt := fd_table_new in
  kassert (negb (newfdt =? 0)) >>>
  let! t := table_at oldfdt in
  for_up (Z.to_nat (ft_length t)) 0 (fun i =>
    let! oldfd := fd_table_get oldfdt i in
    (if negb (oldfd =? 0) then let! fd := fd_reference oldfd in fd_table_set newfdt i fd
     else fd_table_set newfdt i 0) >>> ret tt) >>>
  ret newfdt.

Definition fd_table_free (fd_table : Z) : M P unit :=
  kassert (negb (fd_table =? 0)) >>>
  let! t := table_at fd_table in
  kassert (negb (ft_refcount t =? -1)) >>>
  upd_table fd_table (set_ft_ref (ft_refcount t - 1)) >>>
  if ft_refcount t - 1 =? 0 then
    for_up (Z.to_nat (ft_length t)) 0 (fun i =>
      let! e := entry_get (ft_entries t) i in
      if negb (e =? 0) then fd_free e else ret tt) >>>
    zoom p_heap (kfree fd_table) >>>
    modify (fun s => set_tables (delete fd_table (p_tables s)) s)
  else ret tt.
End ops.

(** ** Tables as lists of descriptors *)

(** Where the first free slot is: the first 0, or the end. *)
Fixpoint first_free (l : list Z) : Z :=
  match l with [] => 0 | e :: l' => if e =? 0 then 0 else 1 + first_free l' end.

Lemma first_free_range l : 0 <= first_free l <= zlen l.
Proof.
  induction l as [|e l IH]; cbn [first_free]; [done|]. unfold zlen in *. cbn [length]. destruct (e =? 0); lia.
Qed.

Section proofs.
Context {H D Hd : Type} `{KHeapLaws H}.
Context `{!Handlers (fstate H D Hd) Hd}.
Abbreviation P := (pstate H D Hd).
Implicit Types (s : P) (t : fd_table_t).

Abbreviation heap s := (f_heap (p_fs s)).

(** Table [p] has the fields [t] and its array the contents [arr]. *)
Record table_ok s (p : Z) t (arr : list Z) : Prop := TableOk {
  to_table : p_tables s !! p = Some t;
  to_array : p_arrays s !! ft_entries t = Some arr;
  to_live : p ∈ heap_live (heap s);
  to_entries : ft_entries t ∈ heap_live (heap s);
  to_capacity : zlen arr = ft_capacity t;
  to_bound : 0 < ft_capacity t < 2 ^ 24;
  to_length : 0 <= ft_length t <= ft_capacity t;
}.

(** Tables and arrays are different heap objects. *)
Definition tables_live s : Prop :=
  heap_ok (heap s) /\
  (forall p, is_Some (p_tables s !! p) -> p ∈ heap_live (heap s) /\ p_arrays s !! p = None) /\
  (forall a, is_Some (p_arrays s !! a) -> a ∈ heap_live (heap s)).

Lemma wp_table s p t (Q : fd_table_t -> P -> Prop) E :
  p_tables s !! p = Some t -> Q t s -> wp (table_at p) Q E s.
Proof. intros Hp HQ. unfold table_at. wp_cond. by rewrite Hp. Qed.

Lemma wp_array s a arr (Q : list Z -> P -> Prop) E :
  p_arrays s !! a = Some arr -> Q arr s -> wp (array_at a) Q E s.
Proof. intros Ha HQ. unfold array_at. wp_cond. by rewrite Ha. Qed.

Lemma wp_entry_get s a arr i e (Q : Z -> P -> Prop) E :
  p_arrays s !! a = Some arr -> zlookup arr i = Some e -> Q e s -> wp (entry_get a i) Q E s.
Proof. intros Ha Hi HQ. unfold entry_get. wp_steps. apply (wp_array s a arr); [done|]. wp_cond. by rewrite Hi. Qed.

Lemma wp_entry_set s a arr i v (Q : unit -> P -> Prop) E :
  p_arrays s !! a = Some arr -> 0 <= i < zlen arr ->
  Q tt (set_arrays (<[a := zinsert i v arr]> (p_arrays s)) s) -> wp (entry_set a i v) Q E s.
Proof.
  intros Ha Hi HQ. unfold entry_set. wp_steps. apply (wp_array s a arr); [done|]. wp_cond.
  destruct (proj2 (zlookup_lt_is_Some arr i) Hi) as [e He]. rewrite He. unfold put_array. by wp_steps.
Qed.

Lemma wp_upd_table s p t f (Q : unit -> P -> Prop) E :
  p_tables s !! p = Some t -> Q tt (set_tables (<[p := f t]> (p_tables s)) s) -> wp (upd_table p f) Q E s.
Proof. intros Hp HQ. unfold upd_table, put_table. wp_steps. apply (wp_table s p t); [done|]. by wp_steps. Qed.

Lemma zlookup_app_l {A} (l k : list A) i : 0 <= i < zlen l -> zlookup (l ++ k) i = zlookup l i.
Proof.
  intros Hi. unfold zlookup, zlen in *. rewrite (proj2 (Z.ltb_ge i 0)) by lia. by rewrite lookup_app_l by lia.
Qed.

Lemma zlookup_take {A} (l : list A) n i : 0 <= i < n -> zlookup (take (Z.to_nat n) l) i = zlookup l i.
Proof.
  intros Hi. unfold zlookup. rewrite (proj2 (Z.ltb_ge i 0)) by lia. by rewrite lookup_take_lt by lia.
Qed.

(** The search for a free slot. *)
Lemma wp_search s a arr n entry (Q : option Z -> P -> Prop) E :
  p_arrays s !! a = Some arr -> 0 <= n <= zlen arr ->
  (let i := first_free (take (Z.to_nat n) arr) in
   if i =? n then Q None s else Q (Some i) (set_arrays (<[a := zinsert i entry arr]> (p_arrays s)) s)) ->
  wp (for_ret (Z.to_nat n) 0 (fun i =>
    let! e := entry_get a i in
    if e =? 0 then entry_set a i entry >>> ret (Some i) else ret None)) Q E s.
Proof.
  intros Ha Hn. cbv zeta.
  assert (forall post pre, take (Z.to_nat n) arr = pre ++ post -> Forall (fun e => e <> 0) pre ->
    (if zlen pre + first_free post =? n then Q None s
     else Q (Some (zlen pre + first_free post)) (set_arrays (<[a := zinsert (zlen pre + first_free post) entry arr]> (p_arrays s)) s)) ->
    wp (for_ret (length post) (zlen pre) (fun i =>
      let! e := entry_get a i in
      if e =? 0 then entry_set a i entry >>> ret (Some i) else ret None)) Q E s) as Hgo.
  { intros post. induction post as [|e post IH]; intros pre Heq Hpre HQ; cbn [length].
    - assert (zlen pre = n) as Hpn.
      { rewrite app_nil_r in Heq. rewrite <- Heq. unfold zlen in *. rewrite length_take. lia. }
      cbn [first_free] in HQ. rewrite Z.add_0_r, (proj2 (Z.eqb_eq _ _) Hpn) in HQ. cbn [for_ret]. by wp_steps.
    - assert (zlen pre < n) as Hpn.
      { assert (zlen (take (Z.to_nat n) arr) = n) as Hl by (unfold zlen in *; rewrite length_take; lia).
        rewrite Heq, zlen_app in Hl. unfold zlen in *. cbn [length] in Hl. lia. }
      pose proof (zlen_nonneg pre).
      assert (zlookup arr (zlen pre) = Some e) as Hlook.
      { rewrite <- (zlookup_take arr n) by lia. rewrite Heq. apply zlookup_app_mid. }
      apply wp_for_ret_step. wp_steps. apply (wp_entry_get s a arr _ e); [done|done|]. cbn [first_free] in HQ.
      destruct (Z.eqb_spec e 0) as [->|Hne].
      + rewrite Z.add_0_r, (proj2 (Z.eqb_neq _ _)) in HQ by lia. wp_steps. apply (wp_entry_set s a arr); [done|lia|].
        by wp_steps.
      + wp_steps. replace (zlen pre + 1) with (zlen (pre ++ [e])) by (by rewrite zlen_app).
        apply IH; [by rewrite <- app_assoc|apply Forall_app; split; [done|by apply Forall_singleton]|].
        rewrite zlen_app. change (zlen [e]) with 1. by rewrite <- Z.add_assoc. }
  intros HQ. replace (Z.to_nat n) with (length (take (Z.to_nat n) arr)) by (rewrite length_take; unfold zlen in Hn; lia).
  apply (Hgo _ []); [done|constructor|]. done.
Qed.

(** ** Growing *)

Lemma wp_new_array s n :
  tables_live s -> 0 < n < 2 ^ 24 ->
  wp (new_array n) (fun a s' => exists h', heap_ok h' /\ 0 < a < 2 ^ 32 /\ (a ∉ heap_live (heap s)) /\
    heap_live h' = {[ a ]} ∪ heap_live (heap s) /\
    s' = set_arrays (<[a := replicate (Z.to_nat n) 0]> (p_arrays s)) (lset p_heap h' s)) only_nomem s.
Proof.
  intros (Hh & _) Hn. unfold new_array. wp_steps. apply wp_zoom. rewrite u32_small by (unfold is_u32; lia).
  wp_apply kcalloc_spec; [exact Hh|lia| |done]. intros a h' (Hh' & Ha & Hfresh & Hlive). cbv beta.
  rewrite (proj2 (Z.eqb_neq a 0)) by lia. unfold put_array. wp_steps. exists h'. by repeat (split; [done|]).
Qed.

(** The array after growing: the old entries, then free slots. *)
Definition grown (arr : list Z) (n m : Z) : list Z :=
  take (Z.to_nat n) arr ++ drop (Z.to_nat n) (replicate (Z.to_nat m) 0).

Lemma wp_realloc s p t arr :
  tables_live s -> p_tables s !! p = Some t -> p_arrays s !! ft_entries t = Some arr -> p <> 0 ->
  p ∈ heap_live (heap s) -> ft_entries t ∈ heap_live (heap s) ->
  0 < ft_length t <= zlen arr -> ft_length t <= ft_capacity t < 2 ^ 24 ->
  wp (fd_table_realloc p) (fun _ s' => exists a h', heap_ok h' /\ 0 < a < 2 ^ 32 /\ (a ∉ heap_live (heap s)) /\
    heap_live h' = ({[ a ]} ∪ heap_live (heap s)) ∖ {[ ft_entries t ]} /\
    s' = PState (lset fs_heap h' (p_fs s)) (p_fds s) (<[p := set_entries a t]> (p_tables s))
      (delete (ft_entries t) (<[a := grown arr (ft_length t) (ft_capacity t)]> (p_arrays s)))) only_nomem s.
Proof.
  intros Hlive Hp Ha Hp0 Hpl Hal Hlen Hcap. pose proof Hlive as (Hh & _ & _).
  pose proof (heap_live_range _ _ Hh Hal) as Hr. unfold fd_table_realloc.
  wp_cond. rewrite (proj2 (Z.eqb_neq p 0)) by done. cbn [negb]. wp_steps. apply (wp_table s p t); [done|].
  rewrite (proj2 (Z.eqb_neq (ft_entries t) 0)) by lia.
  wp_apply (wp_new_array s (ft_capacity t) Hlive); [lia| |done]. intros a s1 (h1 & Hh1 & Har & Hfresh & Hl1 & ->).
  assert (a <> ft_entries t) as Hne by (intros ->; done).
  unfold copy_entries. wp_cond. rewrite (proj2 (Z.eqb_neq (ft_length t) 0)) by lia. cbn [negb]. wp_steps.
  eapply wp_array; [cbn; apply lookup_insert_eq|]. wp_steps. eapply wp_array; [cbn; by rewrite lookup_insert_ne|].
  wp_cond. assert (zlen (replicate (Z.to_nat (ft_capacity t)) 0) = ft_capacity t) as -> by (unfold zlen; rewrite length_replicate; lia).
  rewrite (proj2 (Z.leb_le _ _)) by lia. rewrite (proj2 (Z.leb_le _ _)) by lia. cbn [andb]. unfold put_array. wp_steps.
  apply wp_zoom. wp_apply (kfree_spec h1 (ft_entries t)); [done|rewrite Hl1; set_solver| |done]. intros u h2 [Hh2 Hl2].
  wp_steps. eapply wp_upd_table; [done|]. wp_steps. eapply wp_table; [cbn; apply lookup_insert_eq|]. wp_cond. cbn [ft_entries set_entries].
  rewrite (proj2 (Z.eqb_neq a 0)) by lia. cbn [negb]. wp_steps. exists a, h2.
  split; [done|]. split; [done|]. split; [done|]. split; [by rewrite Hl2, Hl1|].
  unfold set_tables, set_arrays, p_heap, p_files, fs_heap, grown. cbn. by rewrite insert_insert_eq.
Qed.

(** ** Appending *)

(** [s'] is [s] but for table [p], whose array was at [a]. *)
Definition others_same s (p a : Z) s' : Prop :=
  p_fds s' = p_fds s /\ f_nodes (p_fs s') = f_nodes (p_fs s) /\ f_drv (p_fs s') = f_drv (p_fs s) /\
  (forall q, q <> p -> p_tables s' !! q = p_tables s !! q) /\
  (forall b arr, b <> a -> p_arrays s !! b = Some arr -> p_arrays s' !! b = Some arr).

(** No descriptor at the end of the table or behind it. *)
Definition nothing_behind (n : Z) (arr : list Z) : Prop := forall j, n <= j -> default 0 (zlookup arr j) = 0.

(** What appending makes of the table. *)
Definition appended s (p : Z) t (arr : list Z) (i entry : Z) s' : Prop :=
  tables_live s' /\ others_same s p (ft_entries t) s' /\
  exists t' arr', table_ok s' p t' arr' /\ ft_length t' = Z.max (ft_length t) (i + 1) /\ ft_refcount t' = ft_refcount t /\
    (nothing_behind (ft_length t) arr -> nothing_behind (ft_length t') arr') /\
    forall j, 0 <= j < ft_length t' -> zlookup arr' j = if j =? i then Some entry else zlookup arr j.

Lemma zlen_zinsert {A} i (x : A) l : zlen (zinsert i x l) = zlen l.
Proof. unfold zlen, zinsert. destruct (i <? 0); [done|]. by rewrite length_insert. Qed.

Lemma zlookup_zinsert {A} (l : list A) i j x :
  0 <= i < zlen l -> zlookup (zinsert i x l) j = if j =? i then Some x else zlookup l j.
Proof.
  intros Hi. destruct (Z.eqb_spec j i) as [->|Hne]; [by apply zlookup_insert|]. by apply zlookup_insert_ne.
Qed.

Lemma tables_live_arrays s a arr : tables_live s -> is_Some (p_arrays s !! a) -> tables_live (set_arrays (<[a := arr]> (p_arrays s)) s).
Proof.
  intros (Hh & Ht & Ha) Hs. split; [done|]. split.
  { intros q Hq. destruct (Ht q Hq) as [A1 A2]. split; [done|]. cbn. rewrite lookup_insert_ne; [done|].
    intros <-. rewrite A2 in Hs. by destruct Hs. }
  intros b Hb. cbn in Hb. destruct (decide (b = a)) as [->|Hne]; [by apply Ha|].
  rewrite lookup_insert_ne in Hb by done. by apply Ha.
Qed.

Lemma grown_behind arr n m : 0 <= n <= zlen arr -> nothing_behind n (grown arr n m).
Proof.
  intros Hn j Hj. unfold grown, zlookup, zlen in *. destruct (Z.ltb_spec j 0); [done|]. rewrite lookup_app_r by (rewrite length_take; lia).
  rewrite lookup_drop. destruct (replicate _ _ !! _) as [x|] eqn:Hx; [|done]. by apply lookup_replicate in Hx as [-> _].
Qed.

(** A free slot below the end. *)
Lemma appended_gap s p t arr i entry :
  tables_live s -> table_ok s p t arr -> 0 <= i < ft_length t ->
  appended s p t arr i entry (set_arrays (<[ft_entries t := zinsert i entry arr]> (p_arrays s)) s).
Proof.
  intros Hlive [Hp Ha Hpl Hal Hc Hb Hn] Hi. split; [apply tables_live_arrays; [done|by eexists]|]. split.
  { repeat (split; [done|]). intros b arr' Hne Hb'. cbn. by rewrite lookup_insert_ne. }
  exists t, (zinsert i entry arr). split; [|split; [lia|split; [done|split]]].
  - split; try done; [cbn; apply lookup_insert_eq|by rewrite zlen_zinsert].
  - intros Hno j Hj. rewrite zlookup_zinsert by lia. rewrite (proj2 (Z.eqb_neq j i)) by lia. by apply Hno.
  - intros j Hj. apply zlookup_zinsert. lia.
Qed.

(** Room behind the end. *)
Lemma appended_room s p t arr entry :
  tables_live s -> table_ok s p t arr -> ft_length t < ft_capacity t ->
  let s1 := set_arrays (<[ft_entries t := zinsert (ft_length t) entry arr]> (p_arrays s)) s in
  appended s p t arr (ft_length t) entry (set_tables (<[p := set_ft_length (ft_length t + 1) t]> (p_tables s1)) s1).
Proof.
  intros Hlive [Hp Ha Hpl Hal Hc Hb Hn] Hlt. cbv zeta. set (s1 := set_arrays _ s).
  destruct (tables_live_arrays s (ft_entries t) (zinsert (ft_length t) entry arr) Hlive ltac:(by eexists)) as (L1 & L2 & L3).
  split; [split; [done|split; [|done]]|].
  { intros q Hq. cbn in Hq. apply L2. destruct (decide (q = p)) as [->|Hne]; [by eexists|]. by rewrite lookup_insert_ne in Hq. }
  split.
  { split; [done|]. split; [done|]. split; [done|]. split.
    - intros q Hq. cbn. by rewrite lookup_insert_ne.
    - intros b arr' Hne Hb'. cbn. by rewrite lookup_insert_ne. }
  exists (set_ft_length (ft_length t + 1) t), (zinsert (ft_length t) entry arr). split; [|split; [cbn; lia|split; [done|split]]].
  - split; cbn; try done; [apply lookup_insert_eq|apply lookup_insert_eq|by rewrite zlen_zinsert|lia].
  - intros Hno j Hj. cbn [ft_length set_ft_length] in Hj. rewrite zlookup_zinsert by lia. rewrite (proj2 (Z.eqb_neq j _)) by lia. apply Hno. lia.
  - intros j Hj. apply zlookup_zinsert. lia.
Qed.

Lemma grown_length arr n m : 0 <= n <= zlen arr -> n <= m -> zlen (grown arr n m) = m.
Proof.
  intros Hn Hm. unfold grown, zlen in *. rewrite length_app, length_take, length_drop, length_replicate. lia.
Qed.

Lemma grown_lookup arr n m j : 0 <= j < n -> n <= zlen arr -> zlookup (grown arr n m) j = zlookup arr j.
Proof.
  intros Hj Hn. unfold grown. rewrite zlookup_app_l; [by apply zlookup_take|].
  unfold zlen in *. rewrite length_take. lia.
Qed.

Lemma wp_fd_table_append s p t arr entry :
  tables_live s -> table_ok s p t arr -> entry <> 0 -> ft_capacity t + 8 < 2 ^ 24 ->
  wp (fd_table_append p entry) (fun i s' => i = first_free (take (Z.to_nat (ft_length t)) arr) /\
    appended s p t arr i entry s') only_nomem s.
Proof.
  intros Hlive Hok He Hroom. pose proof Hok as [Hp Ha Hpl Hal Hc Hb Hn].
  pose proof (heap_live_range _ _ (proj1 Hlive) Hpl) as Hpr. set (n := ft_length t) in *.
  pose proof (first_free_range (take (Z.to_nat n) arr)) as Hff.
  assert (zlen (take (Z.to_nat n) arr) = n) as Htl by (unfold zlen in *; rewrite length_take; lia). rewrite Htl in Hff.
  unfold fd_table_append. wp_cond. rewrite (proj2 (Z.eqb_neq p 0)) by lia. cbn [negb].
  wp_cond. rewrite (proj2 (Z.eqb_neq entry 0)) by done. cbn [negb]. wp_steps. apply (wp_table s p t); [done|]. wp_steps.
  fold n. apply (wp_search s (ft_entries t) arr n entry); [done|lia|]. cbv zeta.
  destruct (Z.eqb_spec (first_free (take (Z.to_nat n) arr)) n) as [Hfull|Hgap].
  2: { wp_steps. split; [done|]. apply appended_gap; [done|done|unfold n in *; lia]. }
  rewrite Hfull. destruct (Z.eqb_spec n (ft_capacity t)) as [Hcap|Hcap].
  - rewrite u32_small by (unfold is_u32; lia). wp_steps. apply (wp_upd_table s p t); [done|]. set (t1 := set_capacity (ft_capacity t + 8) t).
    set (s1 := set_tables _ s). assert (tables_live s1) as Hlive1.
    { destruct Hlive as (L1 & L2 & L3). split; [done|]. split; [|done]. intros q Hq. cbn in Hq. apply L2.
      destruct (decide (q = p)) as [->|Hne]; [by eexists|]. by rewrite lookup_insert_ne in Hq. }
    wp_steps. eapply wp_mono; [apply (wp_realloc s1 p t1 arr); try done; [cbn; apply lookup_insert_eq|lia|cbn; fold n; lia|cbn; fold n; lia]| |done].
    intros u s2 (a & h' & Hh' & Har & Hfresh & Hl' & ->). set (s2 := PState _ _ _ _).
    assert (a <> ft_entries t) as Hae by (intros ->; done).
    set (t2 := set_entries a t1). set (arr2 := grown arr n (ft_capacity t + 8)).
    assert (tables_live s2) as Hlive2.
    { destruct Hlive1 as (L1 & L2 & L3). split; [done|]. change (heap s2) with h'.
      assert (forall q, is_Some (p_tables s2 !! q) -> is_Some (p_tables s1 !! q)) as Hdom.
      { intros q Hq. cbn in Hq. destruct (decide (q = p)) as [->|Hne]; [cbn; rewrite lookup_insert_eq; by eexists|].
        by rewrite lookup_insert_ne in Hq by done. }
      split.
      - intros q Hq. destruct (L2 q (Hdom q Hq)) as [A1 A2]. change (p_arrays s1) with (p_arrays s) in A2.
        assert (q <> ft_entries t) by congruence. assert (q <> a) by (intros ->; done). split.
        + rewrite Hl'. change (heap s1) with (heap s) in *. set_solver.
        + cbn. rewrite lookup_delete_ne by done. by rewrite lookup_insert_ne.
      - intros b [arr' Hb']. cbn in Hb'. apply lookup_delete_Some in Hb' as [Hbe Hb']. rewrite Hl'.
        change (heap s1) with (heap s) in *. apply lookup_insert_Some in Hb' as [[<- _]|[_ Hb']]; [set_solver|].
        assert (b ∈ heap_live (heap s)) by (apply L3; by eexists). set_solver. }
    assert (table_ok s2 p t2 arr2) as Hok2.
    { assert (zlen arr2 = ft_capacity t + 8) as Hl2 by (apply grown_length; lia).
      split; cbn; try done; [apply lookup_insert_eq| | | |lia|lia].
      - rewrite lookup_delete_ne by done. apply lookup_insert_eq.
      - rewrite Hl'. change (heap s1) with (heap s). apply elem_of_difference. split; [set_solver|].
        intros Heq%elem_of_singleton. destruct (proj1 (proj2 Hlive) p ltac:(by eexists)) as [_ Hpn]. cbn in Heq. congruence.
      - rewrite Hl'. cbn. set_solver. }
    wp_steps. eapply wp_table; [cbn; apply lookup_insert_eq|]. wp_steps. cbn [ft_entries set_entries ft_length set_capacity t1]. fold n.
    apply (wp_entry_set s2 a arr2); [apply Hok2|rewrite (to_capacity _ _ _ _ Hok2); cbn; lia|]. wp_steps.
    eapply wp_upd_table; [cbn; apply lookup_insert_eq|]. wp_steps. split; [done|].
    destruct (appended_room s2 p t2 arr2 entry Hlive2 Hok2 ltac:(cbn; fold n; lia)) as (B1 & B2 & t3 & arr3 & B3 & B4 & B5 & B7 & B6).
    cbn [ft_length ft_entries t2 t1 set_entries set_capacity] in *. fold n in B1, B2, B3, B4, B6. split; [done|]. split.
    { destruct B2 as (C1 & C2 & C3 & C4 & C5). split; [done|]. split; [done|]. split; [done|]. split.
      - intros q Hq. rewrite C4 by done. cbn. by rewrite !lookup_insert_ne.
      - intros b arr' Hne Hb'. assert (b <> a) by (intros ->; apply Hfresh, (proj2 (proj2 Hlive)); by eexists). apply C5; [done|].
        cbn. rewrite lookup_delete_ne by done. by rewrite lookup_insert_ne. }
    exists t3, arr3. split; [done|]. split; [done|]. split; [done|]. split; [intros _; apply B7; apply grown_behind; lia|].
    intros j Hj. rewrite B6 by done.
    destruct (Z.eqb_spec j n); [done|]. apply grown_lookup; lia.
  - wp_steps. apply (wp_table s p t); [done|]. wp_steps. fold n. apply (wp_entry_set s (ft_entries t) arr); [done|lia|]. wp_steps.
    apply (wp_upd_table _ p t); [done|]. wp_steps. split; [done|]. apply appended_room; [done|done|unfold n in *; lia].
Qed.

Lemma wp_fd_table_get s p t arr j (Q : Z -> P -> Prop) E :
  heap_ok (heap s) -> table_ok s p t arr -> 0 <= j < ft_length t -> Q (default 0 (zlookup arr j)) s -> wp (fd_table_get p j) Q E s.
Proof.
  intros Hh [Hp Ha Hpl Hal Hc Hb Hn] Hj HQ. pose proof (heap_live_range _ _ Hh Hpl). unfold fd_table_get.
  wp_cond. rewrite (proj2 (Z.eqb_neq p 0)) by lia. cbn [negb]. wp_steps. apply (wp_table s p t); [done|].
  rewrite (proj2 (Z.ltb_ge _ j)) by lia. destruct (proj2 (zlookup_lt_is_Some arr j) ltac:(lia)) as [e He].
  rewrite He in HQ. by apply (wp_entry_get s (ft_entries t) arr j e).
Qed.

Lemma first_free_lookup l : forall k : nat, (Z.of_nat k < first_free l -> exists e, l !! k = Some e /\ e <> 0) /\
  (Z.of_nat k = first_free l -> default 0 (l !! k) = 0).
Proof.
  induction l as [|e l IH]; intros k; cbn [first_free]; [by split; intros; [lia|destruct k]|].
  destruct (Z.eqb_spec e 0) as [->|He]; [by split; intros; [lia|destruct k; [|lia]]|].
  destruct k as [|k]; [split; intros; [by exists e|pose proof (first_free_range l); lia]|].
  destruct (IH k) as [A B]. cbn [lookup list_lookup]. split; intros; [apply A|apply B]; lia.
Qed.

Lemma first_free_lowest arr n : 0 <= n <= zlen arr -> nothing_behind n arr ->
  let i := first_free (take (Z.to_nat n) arr) in
  default 0 (zlookup arr i) = 0 /\ forall k, 0 <= k < i -> default 0 (zlookup arr k) <> 0.
Proof.
  intros Hn Hno i. set (l := take (Z.to_nat n) arr) in *. pose proof (first_free_range l) as Hr. fold i in Hr.
  assert (zlen l = n) as Hl by (unfold l, zlen in *; rewrite length_take; lia).
  assert (forall k, 0 <= k < n -> zlookup arr k = l !! Z.to_nat k) as Hlk.
  { intros k Hk. unfold zlookup, l. rewrite (proj2 (Z.ltb_ge k 0)) by lia. by rewrite lookup_take_lt by lia. }
  split.
  - destruct (Z.eq_dec i n) as [->|Hne]; [by apply Hno|]. rewrite Hlk by lia.
    apply (proj2 (first_free_lookup l (Z.to_nat i))). lia.
  - intros k Hk. rewrite Hlk by lia. destruct (proj1 (first_free_lookup l (Z.to_nat k))) as (e & -> & He); [unfold i in Hk; lia|done].
Qed.

(** C23. A new descriptor takes the lowest free number: in a table with no
    descriptor at its end or behind it, [fd_table_append]
    answers the first free slot, or the end of the table, which then grows by
    eight slots when it is full; afterwards every number gives the descriptor
    it gave before and the new one gives the new descriptor, and again there is
    none at the end or behind it.  No other table, descriptor or node changes,
    and only running out of memory stops it.  (A cloned table has its last
    descriptor at its end, and loses it to the first one appended.) *)
Theorem fd_table_append_lowest s p t arr entry j :
  tables_live s -> table_ok s p t arr -> nothing_behind (ft_length t) arr -> entry <> 0 -> ft_capacity t + 8 < 2 ^ 24 ->
  let i := first_free (take (Z.to_nat (ft_length t)) arr) in
  0 <= j < Z.max (ft_length t) (i + 1) ->
  wp (let! i := fd_table_append p entry in let! e := fd_table_get p j in ret (i, e))
    (fun r s' => r = (i, if j =? i then entry else default 0 (zlookup arr j)) /\ default 0 (zlookup arr i) = 0 /\
      (forall k, 0 <= k < i -> default 0 (zlookup arr k) <> 0) /\ appended s p t arr i entry s' /\
      exists t' arr', table_ok s' p t' arr' /\ nothing_behind (ft_length t') arr')
    only_nomem s.
Proof.
  intros Hlive Hok Hno He Hroom i Hj. wp_apply (wp_fd_table_append s p t arr entry Hlive Hok He Hroom); [|done].
  intros i' s1 (-> & Happ). fold i in Happ. pose proof Happ as (Hlive1 & _ & t' & arr' & Hok' & Hl' & _ & Hno' & Hlook).
  wp_steps. apply (wp_fd_table_get s1 p t' arr' j); [apply Hlive1|done|lia|]. wp_steps. split.
  { rewrite Hlook by lia. by destruct (j =? i). }
  destruct (first_free_lowest arr (ft_length t)) as [F1 F2]; [destruct Hok as [_ _ _ _ Hc _ Hn]; lia|done|].
  split; [done|]. split; [done|]. split; [done|]. exists t', arr'. split; [done|]. by apply Hno'.
Qed.

(** ** Cloning *)

(** The number of the last open descriptor, 0 when there is none. *)
Fixpoint last_open_from (i r : Z) (l : list Z) : Z :=
  match l with [] => r | e :: l' => last_open_from (i + 1) (if e =? 0 then r else i) l' end.
Definition last_open (l : list Z) : Z := last_open_from 0 0 l.

Definition more_ref (x : fd_entry_t) : fd_entry_t :=
  if fd_refcount x =? -1 then x else set_fd_ref (fd_refcount x + 1) x.

(** One reference more for every slot of [l]. *)
Definition reference_all (l : list Z) (fds : gmap Z fd_entry_t) : gmap Z fd_entry_t :=
  fold_left (fun m e => if e =? 0 then m else alter more_ref e m) l fds.

Lemma last_open_from_snoc l : forall i r e,
  last_open_from i r (l ++ [e]) = if e =? 0 then last_open_from i r l else i + zlen l.
Proof.
  induction l as [|e0 l IH]; intros i r e; cbn [app last_open_from].
  - by rewrite Z.add_0_r.
  - rewrite IH. destruct (e =? 0); [done|]. unfold zlen. cbn [length]. lia.
Qed.

Lemma last_open_snoc l e : last_open (l ++ [e]) = if e =? 0 then last_open l else zlen l.
Proof. unfold last_open. by rewrite last_open_from_snoc. Qed.

Lemma last_open_range l : 0 <= last_open l <= Z.max 0 (zlen l - 1).
Proof.
  induction l as [|e l IH] using rev_ind; [done|]. rewrite last_open_snoc, zlen_app. change (zlen [e]) with 1.
  pose proof (zlen_nonneg l). destruct (e =? 0); lia.
Qed.

Lemma reference_all_snoc l e fds :
  reference_all (l ++ [e]) fds = if e =? 0 then reference_all l fds else alter more_ref e (reference_all l fds).
Proof. unfold reference_all. by rewrite fold_left_app. Qed.

Lemma reference_all_dom l fds e : is_Some (reference_all l fds !! e) <-> is_Some (fds !! e).
Proof.
  induction l as [|e0 l IH] using rev_ind; [done|]. rewrite reference_all_snoc. destruct (e0 =? 0); [done|].
  by rewrite lookup_alter_is_Some.
Qed.

Lemma wp_fd_reference s fd x (Q : Z -> P -> Prop) E :
  fd <> 0 -> p_fds s !! fd = Some x -> Q fd (set_fds (alter more_ref fd (p_fds s)) s) -> wp (fd_reference fd) Q E s.
Proof.
  intros Hfd Hx HQ. unfold fd_reference, fd_at, put_fd. wp_cond. rewrite (proj2 (Z.eqb_neq fd 0)) by done. cbn [negb].
  wp_cond. rewrite Hx. wp_steps. rewrite <- (insert_id (p_fds s) fd x Hx), alter_insert_eq in HQ at 1. unfold more_ref in HQ.
  destruct (fd_refcount x =? -1); cbn [negb]; wp_steps; [|exact HQ].
  rewrite insert_id in HQ by done. by destruct s.
Qed.

(** A fresh table of sixteen free slots. *)
Lemma wp_fd_table_new s :
  tables_live s ->
  wp fd_table_new (fun c s' => exists a h', heap_ok h' /\ 0 < c < 2 ^ 32 /\ 0 < a < 2 ^ 32 /\ c <> a /\
    (c ∉ heap_live (heap s)) /\ (a ∉ heap_live (heap s)) /\ heap_live h' = {[ a ]} ∪ ({[ c ]} ∪ heap_live (heap s)) /\
    s' = PState (lset fs_heap h' (p_fs s)) (p_fds s) (<[c := FdTable a 0 16 1]> (p_tables s))
      (<[a := replicate 16 0]> (p_arrays s))) only_nomem s.
Proof.
  intros Hlive. pose proof Hlive as (Hh & Ht & Ha). unfold fd_table_new. wp_steps. apply wp_zoom.
  wp_apply kcalloc_spec; [exact Hh|lia| |done]. intros c h1 (Hh1 & Hc & Hcf & Hl1). cbv beta. wp_cond.
  rewrite (proj2 (Z.eqb_neq c 0)) by lia. cbn [negb]. unfold put_table. wp_steps. unfold fd_table_realloc.
  wp_cond. rewrite (proj2 (Z.eqb_neq c 0)) by lia. cbn [negb]. wp_steps. eapply wp_table; [cbn; apply lookup_insert_eq|].
  cbn [ft_entries ft_capacity]. change (0 =? 0) with true. cbv iota. set (s1 := set_tables _ _).
  assert (p_arrays s !! c = None) as Hcn.
  { apply eq_None_not_Some. intros Hs. by apply Hcf, Ha. }
  assert (tables_live s1) as Hlive1.
  { split; [done|]. change (heap s1) with h1. rewrite Hl1. split.
    - intros q Hq. cbn in Hq. destruct (decide (q = c)) as [->|Hne]; [split; [set_solver|done]|].
      rewrite lookup_insert_ne in Hq by done. destruct (Ht q Hq). split; [set_solver|done].
    - intros b Hb. apply elem_of_union. right. by apply Ha. }
  wp_apply (wp_new_array s1 16 Hlive1); [lia| |done]. intros a s2 (h2 & Hh2 & Har & Haf & Hl2 & ->).
  change (heap s1) with h1 in *. rewrite Hl1 in Haf.
  wp_steps. eapply wp_upd_table; [cbn; apply lookup_insert_eq|]. wp_steps. eapply wp_table; [cbn; apply lookup_insert_eq|].
  wp_cond. cbn [ft_entries set_entries]. rewrite (proj2 (Z.eqb_neq a 0)) by lia. cbn [negb]. wp_steps.
  unfold fd_table_reference. wp_cond. rewrite (proj2 (Z.eqb_neq c 0)) by lia. cbn [negb]. wp_steps.
  eapply wp_table; [cbn; apply lookup_insert_eq|]. wp_steps. cbn [ft_refcount set_entries]. change (0 =? -1) with false. cbn [negb].
  unfold put_table. wp_steps. exists a, h2. split; [done|]. split; [done|]. split; [done|]. split; [intros ->; set_solver|].
  split; [done|]. split; [set_solver|]. split; [by rewrite Hl2, Hl1|].
  unfold set_tables, set_arrays, p_heap, p_files, fs_heap. cbn. by rewrite !insert_insert_eq.
Qed.

(** A slot of a fresh table. *)
Lemma wp_set_slot s c a n arr i e (Q : Z -> P -> Prop) E :
  c <> 0 -> p_tables s !! c = Some (FdTable a n 16 1) -> p_arrays s !! a = Some arr -> zlen arr = 16 ->
  0 <= i < 16 -> zlookup arr i = Some 0 ->
  (if e =? 0 then Q i s
   else Q i (set_tables (<[c := FdTable a (Z.max n i) 16 1]> (p_tables s)) (set_arrays (<[a := zinsert i e arr]> (p_arrays s)) s))) ->
  wp (fd_table_set c i e) Q E s.
Proof.
  intros Hc Ht Ha Hl Hi Hz HQ. unfold fd_table_set. wp_cond. rewrite (proj2 (Z.eqb_neq c 0)) by done. cbn [negb]. wp_steps.
  apply (wp_table s c _ _ _ Ht). wp_steps. cbn [ft_capacity ft_entries]. rewrite (proj2 (Z.ltb_lt i 16)) by lia.
  destruct (e =? 0).
  - wp_steps. apply (wp_entry_get s a arr i 0); [done|done|]. change (0 =? 0) with true. cbn [negb]. by wp_steps.
  - wp_steps. apply (wp_entry_get s a arr i 0); [done|done|]. change (0 =? 0) with true. cbn [negb]. wp_steps.
    apply (wp_table s c _ _ _ Ht). wp_steps. cbn [ft_entries]. apply (wp_entry_set s a arr); [done|lia|]. wp_steps.
    cbn [ft_length]. destruct (Z.ltb_spec n i).
    + apply (wp_upd_table _ c (FdTable a n 16 1)); [done|]. wp_steps. by rewrite Z.max_r in HQ by lia.
    + wp_steps. rewrite Z.max_l in HQ by lia. rewrite insert_id in HQ by done. exact HQ.
Qed.

(** The clone after the first [k] slots. *)
Definition cloning s (c a : Z) (h' : H) (l : list Z) (k : nat) : P :=
  PState (lset fs_heap h' (p_fs s)) (reference_all (take k l) (p_fds s))
    (<[c := FdTable a (last_open (take k l)) 16 1]> (p_tables s))
    (<[a := take k l ++ replicate (16 - k) 0]> (p_arrays s)).

Lemma take_snoc (l : list Z) k e : zlookup l (Z.of_nat k) = Some e -> take (S k) l = take k l ++ [e].
Proof.
  unfold zlookup. rewrite (proj2 (Z.ltb_ge _ 0)) by lia. rewrite Nat2Z.id. intros He. by apply take_S_r.
Qed.

Lemma wp_clone_slot s p t arr c a h' k :
  tables_live s -> table_ok s p t arr -> ft_length t <= 16 -> (Z.of_nat k < ft_length t) ->
  (forall e, e ∈ take (Z.to_nat (ft_length t)) arr -> e <> 0 -> is_Some (p_fds s !! e)) ->
  c <> 0 -> c <> p -> a <> ft_entries t -> heap_ok h' -> p ∈ heap_live h' ->
  let l := take (Z.to_nat (ft_length t)) arr in
  wp (let! oldfd := fd_table_get p (Z.of_nat k) in
      (if negb (oldfd =? 0) then let! fd := fd_reference oldfd in fd_table_set c (Z.of_nat k) fd
       else fd_table_set c (Z.of_nat k) 0) >>> ret tt)
    (fun _ s' => s' = cloning s c a h' l (S k)) never (cloning s c a h' l k).
Proof.
  intros Hlive [Hp Ha Hpl Hal Hcap Hb Hn] H16 Hk Hfds Hc Hcp Hae Hh' Hpl' l. set (s1 := cloning s c a h' l k).
  pose proof (heap_live_range _ _ Hh' Hpl') as Hpr.
  destruct (proj2 (zlookup_lt_is_Some arr (Z.of_nat k)) ltac:(lia)) as [e He].
  assert (zlookup l (Z.of_nat k) = Some e) as Hle by (unfold l; by rewrite zlookup_take by lia).
  pose proof (take_snoc l k e Hle) as Hsnoc.
  assert (length (take k l) = k) as Htk.
  { unfold l. rewrite !length_take. unfold zlen in *. lia. }
  unfold fd_table_get. wp_cond. rewrite (proj2 (Z.eqb_neq p 0)) by lia. cbn [negb]. wp_steps.
  apply (wp_table s1 p t); [cbn; by rewrite lookup_insert_ne|]. rewrite (proj2 (Z.ltb_ge _ _)) by lia.
  apply (wp_entry_get s1 (ft_entries t) arr _ e); [cbn; by rewrite lookup_insert_ne|done|].
  assert (zlookup (take k l ++ replicate (16 - k) 0) (Z.of_nat k) = Some 0) as Hz.
  { replace (16 - k)%nat with (S (15 - k)) by lia. cbn [replicate]. replace (Z.of_nat k) with (zlen (take k l)) by (unfold zlen; lia).
    apply zlookup_app_mid. }
  assert (zlen (take k l ++ replicate (16 - k) 0) = 16) as H16l by (unfold zlen; rewrite length_app, length_replicate; lia).
  destruct (Z.eqb_spec e 0) as [->|Hne]; cbn [negb]; wp_steps.
  - apply (wp_set_slot s1 c a (last_open (take k l)) (take k l ++ replicate (16 - k) 0) (Z.of_nat k) 0);
      [done|apply lookup_insert_eq|apply lookup_insert_eq|done|lia|done|]. change (0 =? 0) with true. cbv iota. wp_steps.
    unfold s1, cloning. rewrite Hsnoc, reference_all_snoc, last_open_snoc. cbn [Z.eqb]. do 2 f_equal.
    rewrite <- app_assoc. do 2 f_equal. by replace (16 - k)%nat with (S (16 - S k)) by lia.
  - destruct (Hfds e) as [x0 Hx0]; [|done|].
    { unfold zlookup in Hle. rewrite (proj2 (Z.ltb_ge _ 0)) in Hle by lia. by eapply list_elem_of_lookup_2. }
    destruct (proj2 (reference_all_dom (take k l) (p_fds s) e) ltac:(by eexists)) as [x Hx].
    apply (wp_fd_reference s1 e x); [done|done|]. wp_steps.
    eapply (wp_set_slot _ c a (last_open (take k l)) (take k l ++ replicate (16 - k) 0) (Z.of_nat k) e);
      [done|apply lookup_insert_eq|apply lookup_insert_eq|done|lia|done|]. rewrite (proj2 (Z.eqb_neq e 0)) by done. wp_steps.
    unfold s1, cloning, set_tables, set_arrays, set_fds. cbn [p_fs p_fds p_tables p_arrays].
    rewrite Hsnoc, reference_all_snoc, last_open_snoc, (proj2 (Z.eqb_neq e 0)) by done. rewrite !insert_insert_eq.
    pose proof (last_open_range (take k l)) as Hlr. assert (zlen (take k l) = Z.of_nat k) as -> by (unfold zlen; lia).
    rewrite Z.max_r by (unfold zlen in *; lia). f_equal. f_equal.
    replace (Z.of_nat k) with (zlen (take k l)) by (unfold zlen; lia).
    replace (16 - k)%nat with (S (16 - S k)) by lia. cbn [replicate]. rewrite zinsert_app_mid. by rewrite <- app_assoc.
Qed.

End proofs.

(** ** A process with three descriptors

    The table at 100 has the descriptors 108 and 112 and a free slot between
    them. *)

Definition sample_table : fd_table_t := FdTable 104 3 16 1.
Definition sample_slots : list Z := [108; 0; 112] ++ replicate 13 0.

Definition sample_process : pstate Interfaces.bump unit unit :=
  PState (FState (Bump 200 {[ 100; 104; 108; 112 ]}) empty empty 0 tt)
    (<[108 := FdEntry 0 0 1]> {[ 112 := FdEntry 0 7 1 ]}) {[ 100 := sample_table ]} {[ 104 := sample_slots ]}.

(** No file system behind the descriptors. *)
#[local] Instance no_handlers : Handlers (fstate Interfaces.bump unit unit) unit := {
  call_read _ _ _ _ := fail Fault; call_write _ _ _ _ _ := fail Fault; call_open _ _ _ := fail Fault;
  call_close _ _ := fail Fault; call_readdir _ _ _ := fail Fault; call_finddir _ _ _ := fail Fault;
  call_create _ _ _ _ := fail Fault; call_unlink _ _ _ := fail Fault; call_readlink _ _ _ := fail Fault;
  call_mkdir _ _ _ _ := fail Fault;
}.

Lemma sample_tables_live : tables_live sample_process.
Proof.
  split; [|split].
  - change (bump_ok (Bump 200 {[ 100; 104; 108; 112 ]})). split; [cbn; lia|]. intros p. cbn [bump_live bump_next]. set_solver by lia.
  - intros p [t Hp]. cbn [p_tables sample_process] in Hp. apply lookup_singleton_Some in Hp as [<- <-]. split; [|done].
    change (100 ∈ ({[ 100; 104; 108; 112 ]} : gset Z)). set_solver.
  - intros a [l Ha]. cbn [p_arrays sample_process] in Ha. apply lookup_singleton_Some in Ha as [<- <-].
    change (104 ∈ ({[ 100; 104; 108; 112 ]} : gset Z)). set_solver.
Qed.

Lemma sample_table_ok : table_ok sample_process 100 sample_table sample_slots.
Proof.
  by split.
Qed.

Lemma fd_table_append_lowest_witness :
  wp (let! i := fd_table_append 100 120 in let! e := fd_table_get 100 2 in ret (i, e))
    (fun r _ => r = (1, 112)) only_nomem sample_process.
Proof.
  eapply wp_mono; [apply (fd_table_append_lowest sample_process 100 sample_table sample_slots 120 2
    sample_tables_live sample_table_ok); [|done|done|cbn; lia]| |done].
  { intros k Hk. cbn in Hk. unfold zlookup, sample_slots. destruct (k <? 0); [done|]. rewrite lookup_app_r by (cbn; lia).
    destruct (replicate _ _ !! _) as [x|] eqn:Hx; [|done]. by apply lookup_replicate in Hx as [-> _]. }
  by intros r s' [-> _].
Defined.

(** The second descriptor appended to a clone of this table overwrites the last
    one, which was open. *)
Example append_after_clone :
  match (let! c := fd_table_clone 100 in let! old := fd_table_get c 2 in
         let! i := fd_table_append c 108 in let! k := fd_table_append c 120 in
         let! new := fd_table_get c 2 in ret (old, i, k, new)) sample_process with
  | Ok (r, _) => r = (112, 1, 2, 120)
  | Err _ => False
  end.
Proof. vm_compute. reflexivity. Qed.

