(* ===== verification/Uaccess.v ===== *)
(** * Memory of user processes (the copy functions of kernel/syscall.c)

    System calls reach a process's memory by mapping its pages into the
    kernel's address space for the time of a copy. *)
From stdpp Require Import functions.
From S2P Require Import Prelude Interfaces Vmm.

Definition PAGE_USER : Z := 0x04.

Section ops.
Context {F H : Type} `{FrameAlloc F, KHeap H}.
Abbreviation V := (vstate F H).

(** ** Bytes of memory *)

(** Byte [p] of physical memory. *)
Definition byte_of (mem : Z -> Z) (p : Z) : Z := mem (p / 4) / 2 ^ (8 * (p mod 4)) mod 256.

Definition read_byte (v : Z) : M V Z :=
  let! p := gets (translate false v) in
  let! p := some p in
  gets (fun s => byte_of (v_mem s) p).

Definition write_byte (v b : Z) : M V unit :=
  let! p := gets (translate true v) in
  let! p := some p in
  modify (fun s => set_mem (<[p / 4 := v_mem s (p / 4) + (b - byte_of (v_mem s) p) * 2 ^ (8 * (p mod 4))]> (v_mem s)) s).

(** [memcpy] out of and into virtual memory. *)
Definition read_bytes (v n : Z) : M V (list Z) :=
  kassert (negb (n =? 0)) >>>
  for_fold (Z.to_nat n) 0 [] (fun i acc => let! b := read_byte (u32 (v + i)) in ret (acc ++ [b])).

Definition write_bytes (v n : Z) (buffer : list Z) : M V unit :=
  kassert (negb (n =? 0)) >>>
  for_up (Z.to_nat n) 0 (fun i => let! b := some (zlookup buffer i) in write_byte (u32 (v + i)) b).

(** ** Mapping *)

(** [map_page(get_table(virtaddr, kernel_directory), virtaddr, page, flags)]. *)
Definition kernel_map (virtaddr page flags : Z) : M V unit :=
  let! k := kernel_directory in
  let! table := get_table virtaddr k in
  map_page table virtaddr page flags.

(** One round of the loop: [Some tt] goes to [failure]. *)
Definition map_round (pdir ptr kptr i : Z) : M V (option unit) :=
  let u_virtaddr := u32 (ptr + i * BLOCK_SIZE) in
  let k_virtaddr := u32 (kptr + i * BLOCK_SIZE) in
  kernel_map k_virtaddr 0 0 >>>
  invalidate_page k_virtaddr >>>
  let! table := get_table u_virtaddr pdir in
  if table =? 0 then ret (Some tt)
  else
    let! page := get_page table u_virtaddr in
    if Z.land page PAGE_PRESENT =? 0 then ret (Some tt)
    else if Z.land page PAGE_READWRITE =? 0 then ret (Some tt)
    else if Z.land page PAGE_USER =? 0 then ret (Some tt)
    else
      kernel_map k_virtaddr page (Z.lor PAGE_PRESENT PAGE_READWRITE) >>>
      invalidate_page k_virtaddr >>>
      ret None.

(** The loop behind [failure]. *)
Definition unmap_round (kptr i : Z) : M V (option unit) :=
  let virtaddr := u32 (i * BLOCK_SIZE + kptr) in
  let! k := kernel_directory in
  let! table := get_table virtaddr k in
  let! page := get_page table virtaddr in
  if page =? 0 then ret (Some tt) else map_page table virtaddr 0 0 >>> ret None.

Definition map_userspace_to_kernel (pdir ptr kptr n : Z) : M V Z :=
  kassert (negb ((pdir =? 0) || negb (Z.land ptr 0xFFF =? 0) || negb (Z.land kptr 0xFFF =? 0) || (n =? 0))) >>>
  let! failed := for_ret (Z.to_nat n) 0 (map_round pdir ptr kptr) in
  match failed with
  | None => ret 0
  | Some _ => let! _ := for_ret (Z.to_nat n) 0 (unmap_round kptr) in ret (-1)
  end.

Definition unmap_from_kernel (kptr n : Z) : M V unit :=
  kassert (negb (n =? 0)) >>>
  for_up (Z.to_nat n) 0 (fun i => kernel_map (u32 (i * BLOCK_SIZE + kptr)) 0 0).

(** ** Copying *)

Definition size_in_blocks (ptr n : Z) : Z := u32 (BLOCK_SIZE - 1 + n + Z.land ptr 0xFFF) / BLOCK_SIZE.

(** The result and what was written to [buffer]. *)
Definition copy_from_userspace (pdir ptr n : Z) : M V (Z * list Z) :=
  let blocks := size_in_blocks ptr n in
  kassert (negb (blocks =? 0)) >>>
  let! k := kernel_directory in
  let! kptr := find_vspace k blocks in
  if kptr =? 0 then ret (-1, [])
  else
    let! v := map_userspace_to_kernel pdir (Z.ldiff ptr 0xFFF) kptr blocks in
    if negb (v =? 0) then unmap_from_kernel kptr blocks >>> ret (-1, [])
    else
      let! bytes := read_bytes (u32 (kptr + Z.land ptr 0xFFF)) n in
      unmap_from_kernel kptr blocks >>>
      ret (n, bytes).

Definition copy_to_userspace (pdir ptr n : Z) (buffer : list Z) : M V Z :=
  let blocks := size_in_blocks ptr n in
  kassert (negb (blocks =? 0)) >>>
  let! k := kernel_directory in
  let! kptr := find_vspace k blocks in
  if kptr =? 0 then ret (-1)
  else
    let! v := map_userspace_to_kernel pdir (Z.ldiff ptr 0xFFF) kptr blocks in
    if negb (v =? 0) then unmap_from_kernel kptr blocks >>> ret (-1)
    else
      write_bytes (u32 (kptr + Z.land ptr 0xFFF)) n buffer >>>
      unmap_from_kernel kptr blocks >>>
      ret n.

(** [*buf = c] at index [i] of the caller's array. *)
Definition store_byte (buffer : list Z) (i c : Z) : M V (list Z) :=
  let! _ := some (zlookup buffer i) in ret (zinsert i c buffer).

(** The characters of one page: [inl] when it ends before the string does. *)
Definition string_page (kptr offset n i : Z) (buffer : list Z) : M V (Z * list Z + Z * list Z) :=
  loop (S (Z.to_nat BLOCK_SIZE)) (fun '(v, i, buffer) =>
    if v <? BLOCK_SIZE then
      if n <=? i then unmap_from_kernel kptr 1 >>> ret (inr (inr (-1, buffer)))
      else
        let! c := read_byte (u32 (kptr + v)) in
        let! buffer := store_byte buffer i c in
        if c =? 0 then unmap_from_kernel kptr 1 >>> ret (inr (inr (i, buffer)))
        else ret (inl (v + 1, i + 1, buffer))
    else ret (inr (inl (i, buffer)))) (offset, i, buffer).

(** [buffer] is the caller's array, of at least [n] bytes. *)
Definition copy_from_userspace_string (pdir ptr n : Z) (buffer : list Z) : M V (Z * list Z) :=
  kassert (negb (pdir =? 0)) >>>
  kassert (negb (ptr =? 0)) >>>
  let! k := kernel_directory in
  let! kptr := find_vspace k 1 in
  if kptr =? 0 then ret (-1, buffer)
  else
    loop (S (Z.to_nat n)) (fun '(p, offset, i, buffer) =>
      let! v := map_userspace_to_kernel pdir p kptr 1 in
      if negb (v =? 0) then unmap_from_kernel kptr 1 >>> ret (inr (-1, buffer))
      else
        let! r := string_page kptr offset n i buffer in
        match r with
        | inr r => ret (inr r)
        | inl (i, buffer) =>
            let! buffer := store_byte buffer i 0 in
            ret (inl (u32 (p + BLOCK_SIZE), 0, i, buffer))
        end) (Z.ldiff ptr 0xFFF, Z.land ptr 0xFFF, 0, buffer).
End ops.

(** ** Memory as a process sees it *)

Section proofs.
Context {F H : Type} `{FrameAllocLaws F, KHeapLaws H}.
Implicit Types (s : vstate F H) (r : role).

(** Present, writable and open to user mode. *)
Definition accessible (e : Z) : bool := Z.testbit e 0 && Z.testbit e 1 && Z.testbit e 2.

(** What a process with directory [d] can read at [v]. *)
Definition user_byte s (d v : Z) : option Z :=
  let e := user_entry s d (v / 4096) in
  if accessible e then Some (byte_of (v_mem s) (e / 4096 * 4096 + v mod 4096)) else None.

Definition user_bytes s (d ptr n : Z) : option (list Z) := mapM (user_byte s d) (seqZ ptr n).

(** No page of a process is a table of the kernel. *)
Definition user_apart s (d : Z) : Prop :=
  forall q i, 0 <= q < 2 ^ 20 -> 0 <= i < 1024 -> accessible (user_entry s d q) = true ->
    user_entry s d q / 4096 <> frame s (KTab i).

(** ** The kernel's entries while a copy runs *)

(** [s] is [s0] but for the kernel's own entries, which are [e]. *)
Definition kview s0 (e : Z -> Z) s : Prop :=
  vm_ok None s /\ v_frames s = v_frames s0 /\ v_heap s = v_heap s0 /\ v_dirs s = v_dirs s0 /\
  v_kernel s = v_kernel s0 /\
  (forall r, exists_role s0 r -> frame s r = frame s0 r) /\
  (forall f k, 0 <= k < 1024 -> (forall i, 0 <= i < 1024 -> f <> frame s0 (KTab i)) -> word s f k = word s0 f k) /\
  (forall q, 0 <= q < 2 ^ 20 -> kentry s q = e q).

(** The kernel reaches none of its structures through page [q]. *)
Definition spare s (q : Z) : Prop := forall r, exists_role s r -> pointer s r <> q * 4096.

Lemma kview_ext s0 e e' s : (forall q, 0 <= q < 2 ^ 20 -> e' q = e q) -> kview s0 e s -> kview s0 e' s.
Proof.
  intros He (A1 & A2 & A3 & A4 & A5 & A6 & A7 & A8). do 7 (split; [done|]). intros q Hq. by rewrite A8, He.
Qed.

Lemma kview_reserved s p l s' :
  reserved None s p l s' -> kview s (fun q => if (p <=? q) && (q <? p + l) then PAGE_VALUE_RESERVED else kentry s q) s'.
Proof. done. Qed.

Lemma kview_pointer s0 e s r : kview s0 e s -> pointer s r = pointer s0 r.
Proof.
  intros (_ & _ & _ & Hd & Hk & _). destruct r; cbn; unfold kdir, dir; by rewrite Hd, ?Hk.
Qed.

Lemma kview_role s0 e s r : kview s0 e s -> exists_role s r <-> exists_role s0 r.
Proof. intros (_ & _ & _ & Hd & Hk & _). by apply exists_role_dirs. Qed.

Lemma kview_set s0 e s q v :
  kview s0 e s -> 0 <= q < 2 ^ 20 -> spare s0 q -> kview s0 (<[q := v]> e) (set_kentry q v s).
Proof.
  intros Hv Hq Hs. pose proof Hv as (Hok & Hf & Hh & Hd & Hk & Hfr & Hw & He). destruct (page_split q Hq) as [Hq1 Hq2].
  split; [|split; [done|split; [done|split; [done|split; [done|split; [|split]]]]]].
  - apply vm_ok_set_kentry; [done|done|]. intros r Hr _. rewrite (kview_pointer s0 e s r Hv). apply Hs. by apply (kview_role s0 e s).
  - intros r Hr. unfold set_kentry. rewrite (frame_set_table None); try done; [by apply Hfr|]. by apply (kview_role s0 e s).
  - intros f k Hkr Hn. rewrite <- Hw by done. unfold set_kentry. rewrite word_set by done. rewrite Hfr by done.
    by rewrite (proj2 (Z.eqb_neq _ _)) by (by apply Hn).
  - intros q' Hq'. rewrite (kentry_set None) by done. destruct (Z.eqb_spec q' q) as [->|Hne].
    + by rewrite fn_lookup_insert.
    + rewrite fn_lookup_insert_ne by done. by apply He.
Qed.

Lemma kview_user s0 e s d q :
  vm_ok None s0 -> kview s0 e s -> exists_role s0 (UDir d) -> 0 <= q < 2 ^ 20 -> user_entry s d q = user_entry s0 d q.
Proof.
  intros Hok0 (Hok & _ & _ & Hd & Hk & Hfr & Hw & _) Hr Hq. unfold user_entry.
  assert (dir s d = dir s0 d) as -> by (unfold dir; by rewrite Hd).
  destruct (Z.eqb_spec (tables (dir s0 d) (q / 1024)) 0) as [|Ht]; [done|].
  destruct (page_split q Hq) as [Hq1 Hq2]. destruct Hr as [Hr1 Hr2].
  assert (exists_role s0 (UTab d (q / 1024))) as Hu by done. rewrite Hfr by done. apply Hw; [done|].
  intros i Hi Heq. by apply (vo_inj None s0 Hok0) in Heq.
Qed.

(** Bytes outside the kernel's tables are what they were. *)
Lemma kview_byte s0 e s f o :
  kview s0 e s -> (forall i, 0 <= i < 1024 -> f <> frame s0 (KTab i)) -> 0 <= o < 4096 ->
  byte_of (v_mem s) (f * 4096 + o) = byte_of (v_mem s0) (f * 4096 + o).
Proof.
  intros (_ & _ & _ & _ & _ & _ & Hw & _) Hf Ho. unfold byte_of.
  assert ((f * 4096 + o) / 4 = f * 1024 + o / 4) as ->.
  { replace (f * 4096 + o) with (o + f * 1024 * 4) by lia. rewrite Z.div_add by lia. lia. }
  pose proof (Hw f (o / 4)) as Hwo. unfold word, word_at in Hwo. rewrite Hwo; [done| |done].
  split; [apply Z.div_pos; lia|apply Z.div_lt_upper_bound; lia].
Qed.

(** ** Mapping a page *)

Lemma wp_kernel_map s0 e s q pa fl (Q : unit -> vstate F H -> Prop) E :
  kview s0 e s -> 0 <= q < 2 ^ 20 -> Q tt (set_kentry q (Z.lor pa fl) s) -> wp (kernel_map (q * 4096) pa fl) Q E s.
Proof.
  intros (Hok & _) Hq HQ. unfold kernel_map, kernel_directory. wp_steps.
  apply (wp_ktable None); [done|by apply page_u32|]. wp_steps. by apply (wp_kmap None).
Qed.

Lemma wp_invalidate s q (Q : unit -> vstate F H -> Prop) E : Q tt s -> wp (invalidate_page (q * 4096)) Q E s.
Proof. intros HQ. unfold invalidate_page. wp_cond. rewrite page_aligned. done. Qed.

Lemma testbit_land e k : 0 <= k -> (Z.land e (2 ^ k) =? 0) = negb (Z.testbit e k).
Proof.
  intros Hk. destruct (Z.testbit e k) eqn:Hb; cbn [negb].
  - apply Z.eqb_neq. intros Hz. assert (Z.testbit (Z.land e (2 ^ k)) k = false) as Hc by (rewrite Hz; apply Z.bits_0).
    rewrite Z.land_spec, Hb, Z.pow2_bits_true in Hc by done. done.
  - apply Z.eqb_eq. apply Z.bits_inj. intros j. rewrite Z.land_spec, Z.bits_0.
    destruct (Z.eq_dec j k) as [->|Hne]; [by rewrite Hb|]. rewrite Z.pow2_bits_false by done. by rewrite andb_false_r.
Qed.

(** An entry that a process can use is mapped as it is. *)
Lemma accessible_lor e : accessible e = true -> Z.lor e (Z.lor PAGE_PRESENT PAGE_READWRITE) = e.
Proof.
  unfold accessible. intros [[H1e H2e]%andb_true_iff _]%andb_true_iff. change (Z.lor PAGE_PRESENT PAGE_READWRITE) with (Z.lor (2 ^ 0) (2 ^ 1)).
  apply Z.bits_inj. intros j. rewrite !Z.lor_spec.
  destruct (Z.eq_dec j 0) as [->|H0n]; [by rewrite H1e|]. destruct (Z.eq_dec j 1) as [->|H1n]; [by rewrite H2e|].
  rewrite !Z.pow2_bits_false by done. by rewrite !orb_false_r.
Qed.

Lemma accessible_allows e : accessible e = true -> allows false e = true.
Proof. unfold accessible, allows. intros [[-> _]%andb_true_iff _]%andb_true_iff. done. Qed.

(** Page [u] of the process at page [q] of the kernel, when it is accessible. *)
Lemma wp_map_round s0 e s d u q ptr kptr i (Q : option unit -> vstate F H -> Prop) E :
  vm_ok None s0 -> kview s0 e s -> exists_role s0 (UDir d) -> 0 <= u < 2 ^ 20 -> 0 <= q < 2 ^ 20 -> spare s0 q ->
  u32 (ptr + i * BLOCK_SIZE) = u * 4096 -> u32 (kptr + i * BLOCK_SIZE) = q * 4096 ->
  (forall s', if accessible (user_entry s0 d u) then kview s0 (<[q := user_entry s0 d u]> e) s' -> Q None s'
              else kview s0 (<[q := 0]> e) s' -> Q (Some tt) s') ->
  wp (map_round d ptr kptr i) Q E s.
Proof.
  intros Hok0 Hv Hd Hu Hq Hs Hup Hkp HQ. unfold map_round. rewrite Hup, Hkp. wp_steps.
  apply (wp_kernel_map s0 e s); [done|done|]. change (Z.lor 0 0) with 0. set (s1 := set_kentry q 0 s).
  assert (kview s0 (<[q := 0]> e) s1) as Hv1 by (by apply kview_set). pose proof (kview_user s0 _ s1 d u Hok0 Hv1 Hd Hu) as Hue.
  wp_steps. apply wp_invalidate. wp_steps.
  assert (exists_role s1 (UDir d)) as Hd1 by (by apply (kview_role s0 _ s1 _ Hv1)).
  assert (d <> 0) as Hd0.
  { intros ->. destruct (vo_kernel None s1 (proj1 Hv1)) as (_ & _ & Hn). destruct Hd1 as [_ [x Hx]]. congruence. }
  destruct (page_parts u) as [E1 E2]. destruct (page_split u Hu) as [Hu1 Hu2].
  apply wp_get_table; [done|apply Hd1|by apply page_u32|]. rewrite E2. wp_steps.
  unfold user_entry in Hue at 1. destruct (Z.eqb_spec (tables (dir s1 d) (u / 1024)) 0) as [Ht|Ht].
  { wp_steps. specialize (HQ s1). rewrite <- Hue in HQ. by apply HQ. }
  assert (exists_role s1 (UTab d (u / 1024))) as Hr by (destruct Hd1; done).
  wp_steps. apply (wp_get_page None s1 (UTab d (u / 1024))); [apply Hv1|done|by apply (vo_mapped None s1 (proj1 Hv1))|].
  rewrite E1, Hue. wp_steps. change PAGE_PRESENT with (2 ^ 0) at 1. change PAGE_READWRITE with (2 ^ 1) at 1.
  change PAGE_USER with (2 ^ 2). rewrite !testbit_land by lia.
  pose proof (accessible_lor (user_entry s0 d u)) as Hlor. unfold accessible in HQ, Hlor. set (pg := user_entry s0 d u) in *.
  destruct (Z.testbit pg 0); cbn [negb andb] in *; [|wp_steps; by apply HQ].
  destruct (Z.testbit pg 1); cbn [negb andb] in *; [|wp_steps; by apply HQ].
  destruct (Z.testbit pg 2); cbn [negb andb] in *; [|wp_steps; by apply HQ].
  wp_steps. apply (wp_kernel_map s0 (<[q := 0]> e) s1); [done|done|]. rewrite Hlor by done. wp_steps. apply wp_invalidate. wp_steps.
  apply HQ. eapply kview_ext; [|by apply (kview_set s0 (<[q := 0]> e) s1 q pg)].
  intros q' _. destruct (Z.eq_dec q' q) as [->|Hne]; [by rewrite !fn_lookup_insert|]. by rewrite !fn_lookup_insert_ne.
Qed.

(** ** A run of pages *)

Section run.
Variables (s0 : vstate F H) (d up p n : Z).
Hypothesis Hok0 : vm_ok None s0.
Hypothesis Hd : exists_role s0 (UDir d).
Hypothesis Hn : 1 <= n < 2 ^ 20.
Hypothesis Hup : 0 <= up /\ up + n <= 2 ^ 20.
Hypothesis Hfree : free_run s0 p n.

(** The kernel's page for the [i]th page of the run. *)
Definition kpage_of (i : Z) : Z := (p + i) mod 2 ^ 20.

(** Nothing but the run has changed. *)
Definition outside (e : Z -> Z) : Prop := forall q, 0 <= q < 2 ^ 20 -> (forall i, 0 <= i < n -> q <> kpage_of i) -> e q = kentry s0 q.

Lemma kpage_range i : 0 <= kpage_of i < 2 ^ 20.
Proof. apply Z.mod_pos_bound. lia. Qed.

Lemma kpage_inj i j : 0 <= i < n -> 0 <= j < n -> kpage_of i = kpage_of j -> i = j.
Proof.
  unfold kpage_of. intros Hi Hj He.
  pose proof (Z.div_mod (p + i) (2 ^ 20) ltac:(lia)). pose proof (Z.div_mod (p + j) (2 ^ 20) ltac:(lia)). rewrite He in *. nia.
Qed.

Lemma kpage_spare i : 0 <= i < n -> spare s0 (kpage_of i).
Proof.
  intros Hi r Hr. apply (pointer_absent None); [done| |done|done]. unfold kpage_of. rewrite (Hfree i Hi). unfold usable. done.
Qed.

Lemma kpage_address i : u32 (p * BLOCK_SIZE + i * BLOCK_SIZE) = kpage_of i * 4096.
Proof. replace (p * BLOCK_SIZE + i * BLOCK_SIZE) with ((p + i) * BLOCK_SIZE) by lia. apply page_wrap. Qed.

Lemma upage_address i : 0 <= i < n -> u32 (up * BLOCK_SIZE + i * BLOCK_SIZE) = (up + i) * 4096.
Proof.
  intros Hi. replace (up * BLOCK_SIZE + i * BLOCK_SIZE) with ((up + i) * BLOCK_SIZE) by lia. rewrite page_wrap.
  by rewrite Z.mod_small by lia.
Qed.

Lemma outside_set e i v : 0 <= i < n -> outside e -> outside (<[kpage_of i := v]> e).
Proof. intros Hi He q Hr Hq. rewrite fn_lookup_insert_ne; [by apply He|]. intros Heq. by apply (Hq i). Qed.

(** The first [j] pages are mapped. *)
Definition mapped_to (j : Z) (s : vstate F H) : Prop :=
  exists e, kview s0 e s /\ outside e /\
    forall i, 0 <= i < j -> accessible (user_entry s0 d (up + i)) = true /\ e (kpage_of i) = user_entry s0 d (up + i).

(** A page is missing, the run is in some state. *)
Definition not_mapped (s : vstate F H) : Prop :=
  (exists j, 0 <= j < n /\ accessible (user_entry s0 d (up + j)) = false) /\ exists e, kview s0 e s /\ outside e.

Lemma wp_map_loop s E :
  (exists e, kview s0 e s /\ outside e) ->
  wp (for_ret (Z.to_nat n) 0 (map_round d (up * BLOCK_SIZE) (p * BLOCK_SIZE)))
    (fun (res : option unit) s' => match res with None => mapped_to n s' | Some _ => not_mapped s' end) E s.
Proof.
  intros (e0 & Hv0 & Ho0).
  eapply wp_mono; [apply (wp_for_ret mapped_to (fun _ => not_mapped))| |done].
  - exists e0. split; [done|]. split; [done|]. intros i Hi. lia.
  - intros j s' Hj (e & Hv & Ho & Hm).
    apply (wp_map_round s0 e s' d (up + j) (kpage_of j)); [done|done|done|lia|apply kpage_range|apply kpage_spare; lia
      |apply upage_address; lia|apply kpage_address|].
    intros s2. destruct (accessible (user_entry s0 d (up + j))) eqn:Hacc; intros Hv2.
    + exists (<[kpage_of j := user_entry s0 d (up + j)]> e). split; [done|]. split; [apply outside_set; [lia|done]|].
      intros i Hi. destruct (Z.eq_dec i j) as [->|Hne]; [by rewrite fn_lookup_insert|].
      destruct (Hm i ltac:(lia)) as [Hai Hei]. split; [done|]. rewrite fn_lookup_insert_ne; [done|].
      intros Heq. apply Hne. symmetry. apply kpage_inj; [lia|lia|done].
    + split; [exists j; split; [lia|done]|]. exists (<[kpage_of j := 0]> e). split; [done|]. apply outside_set; [lia|done].
  - intros r s'. by replace (0 + Z.of_nat (Z.to_nat n)) with n by lia.
Qed.

Lemma wp_kernel_page e s q (Q : Z -> vstate F H -> Prop) E :
  kview s0 e s -> 0 <= q < 2 ^ 20 -> Q (pointer s (KTab (q * 4096 / 2 ^ 22))) s ->
  wp (get_table (q * 4096) (v_kernel s)) Q E s.
Proof. intros (Hok & _) Hq HQ. apply (wp_ktable None); [done|by apply page_u32|done]. Qed.

Lemma wp_cleanup s E :
  (exists e, kview s0 e s /\ outside e) ->
  wp (for_ret (Z.to_nat n) 0 (unmap_round (p * BLOCK_SIZE))) (fun _ s' => exists e, kview s0 e s' /\ outside e) E s.
Proof.
  intros He. eapply wp_mono; [apply (wp_for_ret (fun _ s' => exists e, kview s0 e s' /\ outside e)
    (fun _ s' => exists e, kview s0 e s' /\ outside e))| |done]; [done| |by intros [] s'].
  intros j s' Hj (e & Hv & Ho). unfold unmap_round. rewrite Z.add_comm, kpage_address. unfold kernel_directory. wp_steps.
  apply (wp_kernel_page e); [done|apply kpage_range|]. wp_steps.
  apply (wp_kpage None); [apply Hv|done|apply kpage_range|]. wp_steps. destruct (_ =? 0); wp_steps; [by exists e|].
  apply (wp_kmap None); [apply Hv|done|apply kpage_range|]. wp_steps. exists (<[kpage_of j := 0]> e).
  split; [apply kview_set; [done|apply kpage_range|apply kpage_spare; lia]|apply outside_set; [lia|done]].
Qed.

(** Unmapping the run puts the kernel's entries back. *)
Lemma wp_unmap_from_kernel s E :
  (exists e, kview s0 e s /\ outside e) ->
  wp (unmap_from_kernel (p * BLOCK_SIZE) n) (fun _ s' => kview s0 (kentry s0) s') E s.
Proof.
  intros (e0 & Hv0 & Ho0). unfold unmap_from_kernel. wp_cond. rewrite (proj2 (Z.eqb_neq n 0)) by lia. cbn [negb].
  eapply wp_mono; [apply (wp_for_up (fun j s' => exists e, kview s0 e s' /\ outside e /\ forall i, 0 <= i < j -> e (kpage_of i) = 0))| |done].
  - exists e0. split; [done|]. split; [done|]. intros i Hi. lia.
  - intros j s' Hj (e & Hv & Ho & Hz). rewrite Z.add_comm, kpage_address.
    apply (wp_kernel_map s0 e); [done|apply kpage_range|]. change (Z.lor 0 0) with 0. exists (<[kpage_of j := 0]> e).
    split; [apply kview_set; [done|apply kpage_range|apply kpage_spare; lia]|]. split; [apply outside_set; [lia|done]|].
    intros i Hi. destruct (Z.eq_dec i j) as [->|Hne]; [by rewrite fn_lookup_insert|].
    rewrite fn_lookup_insert_ne; [apply Hz; lia|]. intros Heq. apply Hne. symmetry. apply kpage_inj; [lia|lia|done].
  - intros u s' (e & Hv & Ho & Hz). eapply kview_ext; [|exact Hv]. intros q Hq.
    destruct (Z.lt_ge_cases ((q - p) mod 2 ^ 20) n) as [Hin|Hout].
    + assert (0 <= (q - p) mod 2 ^ 20 < 2 ^ 20) as Hmod by (apply Z.mod_pos_bound; lia).
      assert (q = kpage_of ((q - p) mod 2 ^ 20)) as ->.
      { unfold kpage_of. rewrite Zplus_mod_idemp_r. replace (p + (q - p)) with q by lia. by rewrite Z.mod_small. }
      revert Hmod Hin. generalize ((q - p) mod 2 ^ 20). intros i Hmod Hin. rewrite Hz by lia. apply (Hfree i). lia.
    + symmetry. apply Ho; [done|]. intros i Hi ->. apply (Z.lt_irrefl n). eapply Z.le_lt_trans; [exact Hout|].
      unfold kpage_of. rewrite Zminus_mod_idemp_l. replace (p + i - p) with i by lia. rewrite Z.mod_small by lia. lia.
Qed.

Lemma wp_map_userspace s E :
  (exists e, kview s0 e s /\ outside e) -> d <> 0 ->
  wp (map_userspace_to_kernel d (up * BLOCK_SIZE) (p * BLOCK_SIZE) n)
    (fun (res : Z) s' => (res = 0 /\ mapped_to n s') \/ (res = -1 /\ not_mapped s')) E s.
Proof.
  intros He Hd0. unfold map_userspace_to_kernel. wp_cond.
  assert (forall q, Z.land (q * BLOCK_SIZE) 0xFFF = 0) as Hal.
  { intros q. change 0xFFF with (Z.ones 12). rewrite land_ones_mod by lia. apply Z.mod_mul. done. }
  rewrite !Hal, (proj2 (Z.eqb_neq d 0)), (proj2 (Z.eqb_neq n 0)) by lia. change (0 =? 0) with true. cbn [negb orb].
  wp_apply (wp_map_loop s E He); [|done]. intros [[]|] s' Hm.
  - destruct Hm as [Hj Hm]. wp_apply (wp_cleanup s' E Hm); [|done]. intros r s2 Hm2. wp_steps. right. by split; [|split].
  - wp_steps. by left.
Qed.

(** Byte [x] of the run is the byte of the process. *)
Lemma wp_read_byte s x (Q : Z -> vstate F H -> Prop) E :
  user_apart s0 d -> mapped_to n s -> 0 <= x < n * 4096 ->
  (forall b, user_byte s0 d (up * 4096 + x) = Some b -> Q b s) ->
  wp (read_byte (u32 (p * 4096 + x))) Q E s.
Proof.
  intros Hap (e & Hv & Ho & Hm) Hx HQ. pose proof Hv as (Hok & _ & _ & _ & _ & _ & _ & He).
  pose proof (Z.div_mod x 4096 ltac:(lia)) as Hdm. pose proof (Z.mod_pos_bound x 4096 ltac:(lia)) as Ho'.
  assert (0 <= x / 4096 < n) as Hi by (split; [apply Z.div_pos; lia|apply Z.div_lt_upper_bound; lia]).
  set (i := x / 4096) in *. set (o := x mod 4096) in *. destruct (Hm i Hi) as [Hacc Hei].
  assert (u32 (p * 4096 + x) = kpage_of i * 4096 + o) as ->.
  { unfold u32, kpage_of. replace (p * 4096 + x) with ((p + i) * 4096 + o) by lia.
    change (2 ^ 32) with (2 ^ 20 * 4096). rewrite Z.add_mod, Z.mul_mod_distr_r by lia. rewrite (Z.mod_small o) by lia.
    apply Z.mod_small. pose proof (kpage_range i). unfold kpage_of in *. lia. }
  assert (user_byte s0 d (up * 4096 + x) = Some (byte_of (v_mem s0) (user_entry s0 d (up + i) / 4096 * 4096 + o))) as Hub.
  { unfold user_byte. replace (up * 4096 + x) with (o + (up + i) * 4096) by lia.
    rewrite Z.div_add, Z.mod_add by lia. rewrite (Z.div_small o), (Z.mod_small o) by lia. rewrite Z.add_0_l. by rewrite Hacc. }
  unfold read_byte. wp_steps. destruct (vo_paging None s Hok) as (Hpg & Hcr & _). unfold translate. rewrite Hpg, Hcr.
  rewrite walk_kernel by (done || apply kpage_range). rewrite He by apply kpage_range. rewrite Hei. unfold entry_walk.
  rewrite accessible_allows by done. wp_cond. wp_steps.
  rewrite (kview_byte s0 e s); [by apply HQ|done| |done]. intros k Hk. by apply Hap; [lia|..].
Qed.

Lemma wp_read_bytes s x m E :
  user_apart s0 d -> mapped_to n s -> 0 <= x -> 0 < m -> x + m <= n * 4096 ->
  wp (read_bytes (u32 (p * 4096 + x)) m)
    (fun b s' => s' = s /\ user_bytes s0 d (up * 4096 + x) m = Some b) E s.
Proof.
  intros Hap Hm Hx Hm0 Hxm. unfold read_bytes. wp_cond. rewrite (proj2 (Z.eqb_neq m 0)) by lia. cbn [negb]. wp_steps.
  eapply wp_mono; [apply (wp_for_fold (fun j acc s' => s' = s /\ user_bytes s0 d (up * 4096 + x) j = Some acc))| |done].
  - done.
  - intros j acc s' Hj [-> Hacc]. wp_steps.
    assert (u32 (u32 (p * 4096 + x) + j) = u32 (p * 4096 + (x + j))) as ->.
    { unfold u32. rewrite Zplus_mod_idemp_l. f_equal. lia. }
    apply wp_read_byte; [done|done|lia|]. intros b Hb. wp_steps. split; [done|].
    unfold user_bytes in *. rewrite seqZ_app by lia. apply mapM_Some. apply Forall2_app; [by apply mapM_Some|].
    rewrite seqZ_cons by lia. change (Z.pred 1) with 0. cbn [seqZ Z.to_nat seq fmap list_fmap].
    constructor; [|constructor]. rewrite <- Hb. f_equal. lia.
  - intros acc s'. by replace (0 + Z.of_nat (Z.to_nat m)) with m by lia.
Qed.

(** A byte of each page is asked for. *)
Lemma user_bytes_missing off m j :
  0 <= off < 4096 -> 0 < m -> n = (4095 + m + off) / 4096 -> 0 <= j < n ->
  accessible (user_entry s0 d (up + j)) = false -> user_bytes s0 d (up * 4096 + off) m = None.
Proof.
  intros Hoff Hm Hnd Hj Hacc. unfold user_bytes. apply mapM_None. apply Exists_exists.
  assert (n * 4096 <= 4095 + m + off) as Hle by (rewrite Hnd; pose proof (Z.mul_div_le (4095 + m + off) 4096); lia).
  set (o := if j =? 0 then off else 0). assert (0 <= o < 4096 /\ off <= j * 4096 + o /\ j * 4096 + o < off + m) as Hor.
  { unfold o. destruct (Z.eqb_spec j 0); lia. }
  exists (up * 4096 + (j * 4096 + o)). split; [apply elem_of_seqZ; lia|]. unfold user_byte.
  replace (up * 4096 + (j * 4096 + o)) with (o + (up + j) * 4096) by lia. rewrite Z.div_add, (Z.div_small o) by lia.
  rewrite Z.add_0_l. by rewrite Hacc.
Qed.
End run.

(** ** Copying *)

Lemma size_in_blocks_bounds ptr n :
  0 < n < 2 ^ 31 -> 0 <= ptr -> ptr + n <= 2 ^ 32 ->
  size_in_blocks ptr n = (4095 + n + ptr mod 4096) / 4096 /\ 1 <= size_in_blocks ptr n < 2 ^ 20 /\
  ptr / 4096 + size_in_blocks ptr n <= 2 ^ 20 /\ ptr mod 4096 + n <= size_in_blocks ptr n * 4096.
Proof.
  intros Hn Hp Hpn. assert (Z.land ptr 0xFFF = ptr mod 4096) as Hl by (apply (land_ones_mod ptr 12); lia).
  pose proof (Z.mod_pos_bound ptr 4096 ltac:(lia)). pose proof (Z.div_mod ptr 4096 ltac:(lia)).
  assert (size_in_blocks ptr n = (4095 + n + ptr mod 4096) / 4096) as Hsz.
  { unfold size_in_blocks. rewrite Hl. unfold BLOCK_SIZE. rewrite u32_small by (unfold is_u32; lia). done. }
  pose proof (Z.div_mod (4095 + n + ptr mod 4096) 4096 ltac:(lia)).
  pose proof (Z.mod_pos_bound (4095 + n + ptr mod 4096) 4096 ltac:(lia)). rewrite Hsz. lia.
Qed.

(** What the caller gets: the bytes asked for, or -1 and nothing. *)
Definition copied s d ptr n (res : Z * list Z) : Prop :=
  res = match user_bytes s d ptr n with Some bytes => (n, bytes) | None => (-1, []) end.

Lemma wp_copy_from_run s s1 d ptr n p :
  vm_ok None s -> exists_role s (UDir d) -> user_apart s d -> 0 < n < 2 ^ 31 -> 0 <= ptr -> ptr + n <= 2 ^ 32 ->
  0 < p < 2 ^ 20 -> free_run s p (size_in_blocks ptr n) ->
  (exists e, kview s e s1 /\ outside s p (size_in_blocks ptr n) e) ->
  wp (let! v := map_userspace_to_kernel d (Z.ldiff ptr 0xFFF) (p * BLOCK_SIZE) (size_in_blocks ptr n) in
      if negb (v =? 0) then unmap_from_kernel (p * BLOCK_SIZE) (size_in_blocks ptr n) >>> ret (-1, [])
      else
        let! bytes := read_bytes (u32 (p * BLOCK_SIZE + Z.land ptr 0xFFF)) n in
        unmap_from_kernel (p * BLOCK_SIZE) (size_in_blocks ptr n) >>> ret (n, bytes))
    (fun res s' => copied s d ptr n res /\ kview s (kentry s) s') only_assert s1.
Proof.
  intros Hok Hd Hap Hn Hptr Hpn Hp Hfree Hs1. destruct (size_in_blocks_bounds ptr n Hn Hptr Hpn) as (Hsz & Hb & Hup & Hend).
  set (k := size_in_blocks ptr n) in *. pose proof (Z.mod_pos_bound ptr 4096 ltac:(lia)) as Hoff.
  assert (Z.land ptr 0xFFF = ptr mod 4096) as -> by (apply (land_ones_mod ptr 12); lia).
  assert (ptr = ptr / 4096 * 4096 + ptr mod 4096) as Hsplit by (rewrite Z.mul_comm; apply Z.div_mod; lia).
  assert (Z.ldiff ptr 0xFFF = ptr / 4096 * BLOCK_SIZE) as ->.
  { change 0xFFF with (Z.ones 12). rewrite Z.ldiff_ones_r, Z.shiftr_div_pow2, Z.shiftl_mul_pow2 by lia. done. }
  assert (0 <= ptr / 4096 /\ ptr / 4096 + k <= 2 ^ 20) as Hup' by (split; [apply Z.div_pos; lia|done]).
  assert (d <> 0) as Hd0.
  { intros ->. destruct (vo_kernel None s Hok) as (_ & _ & Hn0). destruct Hd as [_ [x Hx]]. congruence. }
  wp_apply (wp_map_userspace s d (ptr / 4096) p k Hok Hd Hb Hup' Hfree s1 only_assert Hs1 Hd0); [|done].
  unfold copied. intros v s2 [[-> Hm]|[-> [(j & Hj & Hacc) Hm]]].
  - change (negb (0 =? 0)) with false. cbv iota.
    wp_apply (wp_read_bytes s d (ptr / 4096) p k Hup' s2 (ptr mod 4096) n only_assert Hap Hm); [lia|lia|lia| |done].
    intros bytes s3 [-> Hbytes]. rewrite <- Hsplit in Hbytes. destruct Hm as (e & Hv & Ho & _).
    wp_apply (wp_unmap_from_kernel s p k Hok Hb Hfree s2 only_assert); [by exists e| |done].
    intros _ s4 Hs4. wp_steps. by rewrite Hbytes.
  - change (negb (-1 =? 0)) with true. cbv iota.
    wp_apply (wp_unmap_from_kernel s p k Hok Hb Hfree s2 only_assert Hm); [|done]. intros _ s3 Hs3. wp_steps.
    split; [|done]. rewrite Hsplit.
    by rewrite (user_bytes_missing s d (ptr / 4096) k (ptr mod 4096) n j ltac:(lia) ltac:(lia) Hsz Hj Hacc).
Qed.

(** C6. Reading a process's memory: [copy_from_userspace] returns exactly the
    [n] bytes that the process sees from [ptr] on when every page of the range
    is present, writable and open to user mode, and answers -1 with nothing
    copied when any one is not; either way the kernel's page tables, the
    process's, and all memory outside the kernel's tables are afterwards what
    they were: the run of kernel pages used for the copy is unmapped again.
    The only other outcome is a failed assert, when the kernel has no free
    run of pages. *)
Theorem copy_from_userspace_safe s d ptr n :
  vm_ok None s -> exists_role s (UDir d) -> user_apart s d -> 0 < n < 2 ^ 31 -> 0 <= ptr -> ptr + n <= 2 ^ 32 ->
  wp (copy_from_userspace d ptr n) (fun res s' => copied s d ptr n res /\ kview s (kentry s) s') only_assert s.
Proof.
  intros Hok Hd Hap Hn Hptr Hpn. destruct (size_in_blocks_bounds ptr n Hn Hptr Hpn) as (_ & Hb & _).
  unfold copy_from_userspace, kernel_directory. wp_cond. rewrite (proj2 (Z.eqb_neq (size_in_blocks ptr n) 0)) by lia.
  cbn [negb]. wp_steps.
  assert (wp (find_vspace (v_kernel s) (size_in_blocks ptr n)) (vspace_found None s (size_in_blocks ptr n)) only_assert s) as Hfind.
  { by apply wp_find_vspace. }
  wp_apply Hfind; [|done]. intros v s1 [(-> & -> & _)|(p & -> & Hp & Hfree & _ & Hres)].
  - change (2 ^ 32 - 1 =? 0) with false. wp_steps. unfold map_userspace_to_kernel. wp_steps.
    change (negb (Z.land (2 ^ 32 - 1) 0xFFF =? 0)) with true. rewrite !orb_true_r. cbn [negb orb]. wp_steps. done.
  - wp_cond. rewrite (proj2 (Z.eqb_neq (p * BLOCK_SIZE) 0)) by (unfold BLOCK_SIZE; lia).
    apply wp_copy_from_run; try done. eexists. split; [by apply kview_reserved|]. intros q _ Hq.
    set (l := if p + size_in_blocks ptr n <? 2 ^ 20 then size_in_blocks ptr n else 0).
    destruct ((p <=? q) && (q <? p + l)) eqn:Hin; [|done].
    apply andb_true_iff in Hin as [Hin1%Z.leb_le Hin2%Z.ltb_lt]. unfold l in Hin2.
    destruct (Z.ltb_spec (p + size_in_blocks ptr n) (2 ^ 20)); [|lia].
    destruct (Hq (q - p)); [lia|]. unfold kpage_of. replace (p + (q - p)) with q by lia. by rewrite Z.mod_small by lia.
Qed.
End proofs.

(** ** A process with one page

    The kernel of [sample] with a table of the process in frame 1027 and page
    5 of the process in frame 1500, which holds "hi". *)
Definition one_page_mem (a : Z) : Z :=
  let f := a / 1024 in
  let k := a mod 1024 in
  if f =? 1 then Z.lor ((2 + k) * 4096) 3
  else if (f =? 2) && (1 <=? k) then Z.lor (k * 4096) 3
  else if (f =? 3) && (k <=? 3) then Z.lor ((1024 + k) * 4096) 3
  else if (f =? 1026) && (k =? 0) then Z.lor (1027 * 4096) 3
  else if (f =? 1027) && (k =? 5) then Z.lor (1500 * 4096) 7
  else if (f =? 1500) && (k =? 0) then 104 + 105 * 256
  else 0.

Definition one_page : vstate bits bump :=
  VState (Bits (fun f => (f <? 1028) || (f =? 1500)) 2048) (Bump 200 {[ 50; 100 ]}) one_page_mem
    (<[50 := PageDirectory 4096 (fun i => (2 + i) * 4096) 4096 (-1)]>
      {[ 100 := PageDirectory (1026 * 4096) (fun i => if i =? 0 then 1027 * 4096 else 0) (1026 * 4096) 1 ]})
    50 4096 true.

Lemma one_page_word f k : 0 <= k < 1024 -> word one_page f k =
  if f =? 1 then Z.lor ((2 + k) * 4096) 3
  else if (f =? 2) && (1 <=? k) then Z.lor (k * 4096) 3
  else if (f =? 3) && (k <=? 3) then Z.lor ((1024 + k) * 4096) 3
  else if (f =? 1026) && (k =? 0) then Z.lor (1027 * 4096) 3
  else if (f =? 1027) && (k =? 5) then Z.lor (1500 * 4096) 7
  else if (f =? 1500) && (k =? 0) then 104 + 105 * 256
  else 0.
Proof.
  intros Hk. unfold word, word_at. cbn [v_mem one_page]. unfold one_page_mem.
  replace ((f * 1024 + k) / 1024) with f by (apply Z.div_unique with k; lia).
  by replace ((f * 1024 + k) mod 1024) with k by (apply Z.mod_unique with f; lia).
Qed.

Lemma one_page_dir d : d <> 50 -> is_Some (v_dirs one_page !! d) -> d = 100.
Proof.
  intros Hne [x Hx]. cbn [v_dirs one_page] in Hx. rewrite lookup_insert_ne in Hx by done.
  destruct (decide (d = 100)) as [|Hd]; [done|]. by rewrite lookup_singleton_ne in Hx.
Qed.

Definition one_page_frame (r : role) : Z :=
  match r with KDir => 1 | KTab i => 2 + i | UDir _ => 1026 | UTab _ _ => 1027 end.

Lemma one_page_role r : exists_role one_page r ->
  r = KDir \/ (exists i, r = KTab i /\ 0 <= i < 1024) \/ r = UDir 100 \/ r = UTab 100 0.
Proof.
  destruct r as [|i|d|d i]; [by left|by right; left; exists i| |]; cbn [exists_role].
  - intros [Hne Hs]. rewrite (one_page_dir d Hne Hs). by right; right; left.
  - intros (Hne & Hs & Hi & Ht). rewrite (one_page_dir d Hne Hs) in Ht |- *. right; right; right. f_equal.
    revert Ht. change (tables (dir one_page 100) i) with (if i =? 0 then 1027 * 4096 else 0). by destruct (Z.eqb_spec i 0).
Qed.

Lemma one_page_frames r : exists_role one_page r ->
  frame one_page r = one_page_frame r /\ pointer one_page r = one_page_frame r * 4096.
Proof.
  intros [->|[(i & -> & Hi)|[->| ->]]]%one_page_role; [done| |done|].
  - split; [|done]. cbn [frame]. change (physical_address (kdir one_page) / 4096) with 1.
    rewrite one_page_word by done. by apply present_entry.
  - split; [|done]. cbn [frame]. change (physical_address (dir one_page 100) / 4096) with 1026. by rewrite one_page_word.
Qed.

Lemma one_page_kentry p : 0 < p < 1028 -> kentry one_page p = Z.lor (p * 4096) 3.
Proof.
  intros Hp. destruct (page_split p) as [Hp1 Hp2]; [lia|]. unfold kentry.
  destruct (one_page_frames (KTab (p / 1024))) as [-> _]; [done|]. cbn [one_page_frame]. rewrite one_page_word by done.
  rewrite (proj2 (Z.eqb_neq _ 1)) by lia. destruct (Z.lt_ge_cases p 1024).
  - rewrite (Z.div_small p), (Z.mod_small p) by lia. change (2 + 0 =? 2) with true. cbn [andb].
    by rewrite (proj2 (Z.leb_le 1 p)) by lia.
  - assert (p / 1024 = 1) as -> by (symmetry; apply Z.div_unique with (p - 1024); lia).
    assert (p mod 1024 = p - 1024) as -> by (symmetry; apply Z.mod_unique with 1; lia).
    change (2 + 1 =? 2) with false. change (2 + 1 =? 3) with true. cbn [andb].
    rewrite (proj2 (Z.leb_le (p - 1024) 3)) by lia. f_equal. f_equal. lia.
Qed.

Lemma one_page_ok : vm_ok None one_page.
Proof.
  split.
  - done.
  - split; [done|]. split; [by eexists|done].
  - done.
  - intros r Hr. destruct (one_page_frames r Hr) as [-> _]. cbn.
    apply one_page_role in Hr as [->|[(i & -> & Hi)|[->| ->]]]; cbn [one_page_frame]; (split; [lia|]); apply orb_true_iff; left; apply Z.ltb_lt; lia.
  - intros r Hr _. destruct (one_page_frames r Hr) as [Hf Hp]. exists (one_page_frame r). split; [done|].
    assert (0 < one_page_frame r < 1028) as Hb
      by (apply one_page_role in Hr as [->|[(i & -> & Hi)|[->| ->]]]; cbn [one_page_frame]; lia).
    split; [lia|]. rewrite one_page_kentry, Hf by done. by apply present_entry.
  - intros r r' Hr Hr'. destruct (one_page_frames r Hr) as [-> _], (one_page_frames r' Hr') as [-> _].
    apply one_page_role in Hr as [->|[(i & -> & Hi)|[->| ->]]], Hr' as [->|[(i' & -> & Hi')|[->| ->]]];
      cbn [one_page_frame]; intros Heq; try done; try (f_equal; lia); lia.
  - intros i Hi. rewrite one_page_word by done. by apply present_entry.
  - intros d i [Hne Hs] Hi _ _. rewrite (one_page_dir d Hne Hs).
    change (frame one_page (UDir 100)) with 1026. change (tables (dir one_page 100) i) with (if i =? 0 then 1027 * 4096 else 0).
    rewrite one_page_word by done. cbn [Z.eqb Pos.eqb andb]. by destruct (Z.eqb_spec i 0).
  - intros d [Hne Hs]. by rewrite (one_page_dir d Hne Hs).
Qed.

Lemma one_page_entry q : 0 <= q < 2 ^ 20 ->
  user_entry one_page 100 q = if q =? 5 then Z.lor (1500 * 4096) 7 else 0.
Proof.
  intros Hq. unfold user_entry. destruct (page_split q Hq) as [Hq1 Hq2].
  change (tables (dir one_page 100) (q / 1024)) with (if q / 1024 =? 0 then 1027 * 4096 else 0).
  destruct (Z.eqb_spec (q / 1024) 0) as [Hz|Hz].
  - rewrite Hz. change (1027 * 4096 =? 0) with false. cbv iota. destruct (one_page_frames (UTab 100 0)) as [-> _].
    { split; [done|]. split; [by eexists|]. split; [lia|done]. }
    cbn [one_page_frame]. rewrite one_page_word by done. cbn [Z.eqb Pos.eqb andb].
    pose proof (Z.div_mod q 1024 ltac:(lia)) as Hdm. rewrite Hz in Hdm. by replace (q mod 1024) with q by lia.
  - destruct (Z.eqb_spec q 5) as [->|]; [|done]. by destruct Hz.
Qed.

Lemma one_page_udir : exists_role one_page (UDir 100).
Proof. split; [done|]. by eexists. Qed.

Lemma one_page_apart : user_apart one_page 100.
Proof.
  intros q i Hq Hi. rewrite one_page_entry by done. destruct (_ =? 5); [|done]. intros _.
  destruct (one_page_frames (KTab i)) as [-> _]; [done|]. cbn [one_page_frame].
  change (Z.lor (1500 * 4096) 7 / 4096) with 1500. lia.
Qed.

(** Two bytes are there to be read, a third page is not. *)
Lemma copy_from_userspace_safe_witness :
  wp (copy_from_userspace 100 20480 2) (fun res s' => res = (2, [104; 105]) /\ vm_ok None s') only_assert one_page /\
  wp (copy_from_userspace 100 24570 10) (fun res s' => res = (-1, []) /\ vm_ok None s') only_assert one_page.
Proof.
  split; (eapply wp_mono; [apply (copy_from_userspace_safe one_page 100); [exact one_page_ok|exact one_page_udir
    |exact one_page_apart|lia|lia|lia]| |done]); intros res s' [Hc Hv].
  - split; [|apply Hv]. rewrite Hc. reflexivity.
  - split; [|apply Hv]. rewrite Hc. reflexivity.
Defined.
