(* ===== verification/UserMem.v ===== *)
(** * Writing to the memory of user processes

    [copy_to_userspace] changes exactly the bytes that the process sees at the
    addresses it is asked for. *)
From stdpp Require Import functions.
From S2P Require Import Prelude Interfaces Vmm Uaccess.

(** ** Bytes in words *)

Lemma byte_of_set (w b k j : Z) : 0 <= k -> 0 <= j -> 0 <= b < 256 ->
  (w + (b - w / 2 ^ (8 * k) mod 256) * 2 ^ (8 * k)) / 2 ^ (8 * j) mod 256 = if j =? k then b else w / 2 ^ (8 * j) mod 256.
Proof.
  intros Hk Hj Hb. set (m := b - w / 2 ^ (8 * k) mod 256).
  assert (forall i, 0 <= i -> 0 < 2 ^ (8 * i)) as Hpos by (intros i Hi; apply Z.pow_pos_nonneg; lia).
  pose proof (Hpos k Hk). pose proof (Hpos j Hj). destruct (Z.eqb_spec j k) as [->|Hne].
  - rewrite Z.div_add by lia. unfold m. set (q := w / 2 ^ (8 * k)). pose proof (Z.div_mod q 256 ltac:(lia)).
    replace (q + (b - q mod 256)) with (b + q / 256 * 256) by lia. rewrite Z.mod_add by lia. by apply Z.mod_small.
  - destruct (Z.lt_ge_cases j k) as [Hlt|Hge].
    + assert (2 ^ (8 * k) = 2 ^ (8 * (k - j - 1)) * 256 * 2 ^ (8 * j)) as ->.
      { change 256 with (2 ^ 8). rewrite <- !Z.pow_add_r by lia. f_equal. lia. }
      rewrite !Z.mul_assoc. rewrite Z.div_add by lia. by rewrite Z.mod_add by lia.
    + assert (2 ^ (8 * j) = 2 ^ (8 * (k + 1)) * 2 ^ (8 * (j - k - 1))) as -> by (rewrite <- Z.pow_add_r by lia; f_equal; lia).
      assert (0 < 2 ^ (8 * (k + 1))) by (apply Hpos; lia). assert (0 < 2 ^ (8 * (j - k - 1))) by (apply Hpos; lia).
      rewrite <- !Z.div_div by lia. do 2 f_equal.
      assert (2 ^ (8 * (k + 1)) = 2 ^ (8 * k) * 256) as -> by (change 256 with (2 ^ 8); rewrite <- Z.pow_add_r by lia; f_equal; lia).
      rewrite <- !Z.div_div by lia. rewrite Z.div_add by lia. unfold m. set (q := w / 2 ^ (8 * k)).
      pose proof (Z.div_mod q 256 ltac:(lia)). symmetry. apply (Z.div_unique _ _ _ b); lia.
Qed.

Section mem.
Context {F H : Type} `{FrameAllocLaws F, KHeapLaws H}.
Implicit Types (s : vstate F H) (r : role).

Definition poke (p b : Z) s : vstate F H :=
  set_mem (<[p / 4 := v_mem s (p / 4) + (b - byte_of (v_mem s) p) * 2 ^ (8 * (p mod 4))]> (v_mem s)) s.

Lemma byte_of_poke p b s p' : 0 <= b < 256 -> byte_of (v_mem (poke p b s)) p' = if p' =? p then b else byte_of (v_mem s) p'.
Proof.
  intros Hb. unfold poke. cbn [v_mem set_mem]. pose proof (Z.mod_pos_bound p 4 ltac:(lia)). pose proof (Z.mod_pos_bound p' 4 ltac:(lia)).
  pose proof (Z.div_mod p 4 ltac:(lia)). pose proof (Z.div_mod p' 4 ltac:(lia)). unfold byte_of at 1.
  destruct (Z.eq_dec (p' / 4) (p / 4)) as [He|He].
  - rewrite He, fn_lookup_insert. unfold byte_of at 1. rewrite byte_of_set by lia.
    destruct (Z.eqb_spec (p' mod 4) (p mod 4)), (Z.eqb_spec p' p); try lia. unfold byte_of. by rewrite He.
  - rewrite fn_lookup_insert_ne by done. rewrite (proj2 (Z.eqb_neq p' p)) by (intros ->; done). done.
Qed.

(** ** Memory that is no paging structure *)

(** [s'] has the structures of [s]. *)
Definition same_structs s s' : Prop :=
  v_dirs s' = v_dirs s /\ v_kernel s' = v_kernel s /\ v_cr3 s' = v_cr3 s /\ v_paging s' = v_paging s /\ v_frames s' = v_frames s /\
  forall r k, exists_role s r -> 0 <= k < 1024 -> word s' (frame s r) k = word s (frame s r) k.

Section same.
Context s s' (Hs : same_structs s s').

Lemma same_dir d : dir s' d = dir s d.
Proof using Hs. destruct Hs as (Hd & _). unfold dir. by rewrite Hd. Qed.

Lemma same_kdir : kdir s' = kdir s.
Proof using Hs. destruct Hs as (Hd & Hk & _). unfold kdir, dir. by rewrite Hd, Hk. Qed.

Lemma same_role r : exists_role s' r <-> exists_role s r.
Proof using Hs. destruct Hs as (Hd & Hk & _). by apply exists_role_dirs. Qed.

Lemma same_pointer r : pointer s' r = pointer s r.
Proof using Hs. destruct r; cbn; by rewrite ?same_kdir, ?same_dir. Qed.

Lemma same_frame r : exists_role s r -> frame s' r = frame s r.
Proof using Hs.
  pose proof Hs as (_ & _ & _ & _ & _ & Hw). intros Hr. destruct r as [|i|d|d i]; cbn [frame]; rewrite ?same_kdir, ?same_dir; [done| |done|].
  - f_equal. by apply (Hw KDir).
  - destruct Hr as (R1 & R2 & R3 & _). f_equal. by apply (Hw (UDir d)).
Qed.

Lemma same_word r k : exists_role s r -> 0 <= k < 1024 -> word s' (frame s' r) k = word s (frame s r) k.
Proof using Hs. intros Hr Hk. rewrite same_frame by done. by apply Hs. Qed.

Lemma same_kentry p : 0 <= p < 2 ^ 20 -> kentry s' p = kentry s p.
Proof using Hs. intros Hp. destruct (page_split p Hp). by apply (same_word (KTab (p / 1024))). Qed.

Lemma same_user d p : exists_role s (UDir d) -> 0 <= p < 2 ^ 20 -> user_entry s' d p = user_entry s d p.
Proof using Hs.
  intros [R1 R2] Hp. destruct (page_split p Hp). unfold user_entry. rewrite same_dir. destruct (Z.eqb_spec (tables (dir s d) (p / 1024)) 0); [done|].
  by apply (same_word (UTab d (p / 1024))).
Qed.

Lemma same_ok x : vm_ok x s -> vm_ok x s'.
Proof using Hs.
  pose proof Hs as (Hd & Hk & Hc & Hp & Hf & Hw). intros [A1 A2 A3 A4 A5 A6 A7 A8 A9]. split.
  - by rewrite Hp, Hc, same_kdir.
  - by rewrite Hk, Hd.
  - by rewrite Hf.
  - intros r Hr%same_role. rewrite same_frame, Hf by done. by apply A4.
  - intros r Hr%same_role Hx. destruct (A5 r Hr Hx) as (p & P1 & P2 & P3 & P4). exists p. rewrite same_pointer, same_frame, same_kentry by (done || lia). done.
  - intros r r' Hr%same_role Hr'%same_role. rewrite !same_frame by done. by apply A6.
  - intros i Hi. rewrite (same_word KDir) by done. by apply A7.
  - intros d i Hr%same_role Hi Hx. rewrite (same_word (UDir d)), same_dir by done. by apply A8.
  - intros d Hr%same_role. rewrite same_dir. by apply A9.
Qed.
End same.

Lemma same_poke s f o b : foreign s f -> 0 <= o < 4096 -> same_structs s (poke (f * 4096 + o) b s).
Proof.
  intros Hf Ho. do 5 (split; [done|]). intros r k Hr Hk. unfold word, word_at, poke. cbn [v_mem set_mem].
  apply fn_lookup_insert_ne. specialize (Hf r Hr). pose proof (Z.div_mod (f * 4096 + o) 4 ltac:(lia)). pose proof (Z.mod_pos_bound (f * 4096 + o) 4 ltac:(lia)). lia.
Qed.

(** ** What a process sees after a write *)

(** The pages of a process: none holds a paging structure and no two are the
    same memory. *)
Record user_pages s (d : Z) : Prop := UserPages {
  up_foreign : forall q, 0 <= q < 2 ^ 20 -> accessible (user_entry s d q) = true -> foreign s (user_entry s d q / 4096);
  up_distinct : forall q q', 0 <= q < 2 ^ 20 -> 0 <= q' < 2 ^ 20 -> accessible (user_entry s d q) = true -> accessible (user_entry s d q') = true ->
    user_entry s d q / 4096 = user_entry s d q' / 4096 -> q = q';
}.

Lemma user_pages_apart s d : user_pages s d -> user_apart s d.
Proof. intros [Hf _] q i Hq Hi Ha He. by apply (Hf q Hq Ha (KTab i)). Qed.

(** The physical address behind [v]. *)
Definition user_phys s (d v : Z) : Z := user_entry s d (v / 4096) / 4096 * 4096 + v mod 4096.

Definition user_poke (d v b : Z) s : vstate F H := poke (user_phys s d v) b s.

Lemma user_page_range v : 0 <= v < 2 ^ 32 -> 0 <= v / 4096 < 2 ^ 20.
Proof. intros Hv. split; [apply Z.div_pos; lia|apply Z.div_lt_upper_bound; lia]. Qed.

Section write.
Context s (d v b : Z).
Hypothesis Hd : exists_role s (UDir d).
Hypothesis Hp : user_pages s d.
Hypothesis Hv : 0 <= v < 2 ^ 32.
Hypothesis Ha : accessible (user_entry s d (v / 4096)) = true.
Hypothesis Hb : 0 <= b < 256.

Lemma same_user_poke : same_structs s (user_poke d v b s).
Proof using Hp Hv Ha.
  apply same_poke; [|apply Z.mod_pos_bound; lia]. apply Hp; [by apply user_page_range|done].
Qed.

Lemma user_byte_poke v' : 0 <= v' < 2 ^ 32 -> user_byte (user_poke d v b s) d v' = if v' =? v then Some b else user_byte s d v'.
Proof using Hd Hp Hv Ha Hb.
  intros Hv'. unfold user_byte. rewrite (same_user s _ same_user_poke) by (done || by apply user_page_range).
  destruct (accessible (user_entry s d (v' / 4096))) eqn:Ha'; [|destruct (Z.eqb_spec v' v) as [->|]; [congruence|done]].
  unfold user_poke. rewrite byte_of_poke by done. unfold user_phys.
  pose proof (Z.mod_pos_bound v 4096 ltac:(lia)). pose proof (Z.mod_pos_bound v' 4096 ltac:(lia)).
  pose proof (Z.div_mod v 4096 ltac:(lia)). pose proof (Z.div_mod v' 4096 ltac:(lia)).
  destruct (Z.eqb_spec v' v) as [->|Hne]; [by rewrite Z.eqb_refl|].
  rewrite (proj2 (Z.eqb_neq _ _)); [done|]. intros He.
  assert (user_entry s d (v' / 4096) / 4096 = user_entry s d (v / 4096) / 4096) as Hfr by lia.
  apply (up_distinct s d Hp) in Hfr; [lia|by apply user_page_range..|done|done].
Qed.

Lemma user_pages_poke : user_pages (user_poke d v b s) d.
Proof using Hd Hp Hv Ha.
  pose proof same_user_poke as Hs. split.
  - intros q Hq. rewrite (same_user s _ Hs) by done. intros Hq2 r Hr. apply (same_role s _ Hs) in Hr. rewrite (same_frame s _ Hs) by done. by apply Hp.
  - intros q q' Hq Hq'. rewrite !(same_user s _ Hs) by done. by apply Hp.
Qed.
End write.

(** [bytes] written from [v] on. *)
Fixpoint user_write (d v : Z) (bytes : list Z) s : vstate F H :=
  match bytes with
  | [] => s
  | b :: bs => user_write d (v + 1) bs (user_poke d v b s)
  end.

Lemma user_write_rest d v bs (x : vstate F H) : let y := user_write d v bs x in
  v_heap y = v_heap x /\ v_dirs y = v_dirs x /\ v_kernel y = v_kernel x.
Proof. revert v x. induction bs as [|b bs IH]; intros v x; [done|]. cbn [user_write]. by destruct (IH (v + 1) (user_poke d v b x)) as (-> & -> & ->). Qed.

Lemma user_write_snoc d v bs b s : user_write d v (bs ++ [b]) s = user_poke d (v + zlen bs) b (user_write d v bs s).
Proof.
  revert v s. induction bs as [|c bs IH]; intros v s; cbn [app user_write].
  - f_equal. change (zlen (@nil Z)) with 0. lia.
  - rewrite IH, zlen_cons. f_equal. lia.
Qed.

Lemma same_trans s s1 s2 : same_structs s s1 -> same_structs s1 s2 -> same_structs s s2.
Proof.
  intros Hs1 Hs2. pose proof Hs1 as (A1 & A2 & A3 & A4 & A5 & A6). pose proof Hs2 as (B1 & B2 & B3 & B4 & B5 & B6).
  do 5 (split; [congruence|]). intros r k Hr Hk. rewrite <- A6 by done. rewrite <- (same_frame s s1 Hs1) by done.
  apply B6; [|done]. by apply (same_role s s1 Hs1).
Qed.

Lemma same_refl s : same_structs s s.
Proof. done. Qed.

(** All pages of the range are there. *)
Definition user_range s (d ptr n : Z) : Prop := forall v, ptr <= v < ptr + n -> accessible (user_entry s d (v / 4096)) = true.

Lemma user_bytes_range s d ptr n : is_Some (user_bytes s d ptr n) -> user_range s d ptr n.
Proof.
  intros [l Hl] v Hv. unfold user_bytes in Hl. 
  assert (is_Some (mapM (user_byte s d) (seqZ ptr n))) as Hs by (by rewrite Hl). apply mapM_is_Some in Hs.
  rewrite Forall_forall in Hs. destruct (Hs v) as [b Hb]; [apply elem_of_seqZ; lia|]. unfold user_byte in Hb. by destruct (accessible _).
Qed.

Section writes.
Context s (d : Z).
Hypothesis Hd : exists_role s (UDir d).
Hypothesis Hp : user_pages s d.

(** What the process sees after the write. *)
Lemma user_write_spec bs v :
  0 <= v -> v + zlen bs <= 2 ^ 32 -> user_range s d v (zlen bs) -> Forall is_u8 bs ->
  same_structs s (user_write d v bs s) /\ user_pages (user_write d v bs s) d /\
  (forall v', 0 <= v' < 2 ^ 32 -> user_byte (user_write d v bs s) d v' =
    if (v <=? v') && (v' <? v + zlen bs) then zlookup bs (v' - v) else user_byte s d v').
Proof using Hd Hp.
  intros Hv. induction bs as [|b bs IH] using rev_ind; intros Hend Hr Hu.
  - split; [apply same_refl|]. split; [done|]. intros v' _. change (zlen (@nil Z)) with 0.
    destruct (Z.leb_spec v v'), (Z.ltb_spec v' (v + 0)); cbn [andb]; (lia || done).
  - rewrite zlen_app in *. change (zlen [b]) with 1 in *. apply Forall_app in Hu as [Hu [Hb _]%Forall_cons]. pose proof (zlen_nonneg bs).
    destruct IH as (I1 & I2 & I3); [lia|intros v' Hv'; apply Hr; lia|done|]. rewrite user_write_snoc.
    set (s1 := user_write d v bs s) in *. assert (exists_role s1 (UDir d)) as Hd1 by (by apply (same_role s s1 I1)).
    assert (accessible (user_entry s1 d ((v + zlen bs) / 4096)) = true) as Ha.
    { rewrite (same_user s s1 I1) by (done || apply user_page_range; lia). apply Hr. lia. }
    pose proof (same_user_poke s1 d (v + zlen bs) b I2 ltac:(lia) Ha) as Hs2.
    split; [by eapply same_trans|]. split; [apply user_pages_poke; (done || lia)|].
    intros v' Hv'. rewrite user_byte_poke by (done || lia).
    destruct (Z.eqb_spec v' (v + zlen bs)) as [->|Hne].
    + rewrite (proj2 (Z.leb_le _ _)), (proj2 (Z.ltb_lt _ _)) by lia. cbn [andb]. replace (v + zlen bs - v) with (zlen bs) by lia.
      symmetry. apply zlookup_app_mid.
    + rewrite I3 by done. destruct (Z.leb_spec v v') as [Hl|], (Z.ltb_spec v' (v + zlen bs)) as [Hlt|Hge], (Z.ltb_spec v' (v + (zlen bs + 1))); cbn [andb]; try (done || lia).
      unfold zlookup. rewrite (proj2 (Z.ltb_ge (v' - v) 0)) by lia. symmetry. apply lookup_app_l. unfold zlen in *. lia.
Qed.
End writes.

(** ** Writing through the kernel's pages *)

Lemma kview_poke s0 e s f o b :
  kview s0 e s -> foreign s0 f -> 0 <= o < 4096 -> kview (poke (f * 4096 + o) b s0) e (poke (f * 4096 + o) b s).
Proof.
  intros (A1 & A2 & A3 & A4 & A5 & A6 & A7 & A8) Hf Ho.
  pose proof (same_poke s0 f o b Hf Ho) as Hs0.
  assert (foreign s f) as Hfs. { intros r Hr. apply (exists_role_dirs s0 s) in Hr; [|done..]. rewrite A6 by done. by apply Hf. }
  pose proof (same_poke s f o b Hfs Ho) as Hs.
  split; [by apply (same_ok s)|]. do 4 (split; [done|]). split; [|split].
  - intros r Hr. apply (same_role s0 _ Hs0) in Hr. rewrite (same_frame s0 _ Hs0) by done.
    rewrite (same_frame s _ Hs) by (by apply (exists_role_dirs s0 s)). by apply A6.
  - intros g k Hk Hg.
    assert (forall i, 0 <= i < 1024 -> g <> frame s0 (KTab i)) as Hg0.
    { intros i Hi. rewrite <- (same_frame s0 _ Hs0) by done. by apply Hg. }
    pose proof (A7 g k Hk Hg0) as Hw. unfold word, word_at, poke in *. cbn [v_mem set_mem].
    assert ((f * 4096 + o) / 4 = f * 1024 + o / 4) as Hdiv.
    { replace (f * 4096 + o) with (o + f * 1024 * 4) by lia. rewrite Z.div_add by lia. lia. }
    assert (0 <= o / 4 < 1024) as Ho4 by (split; [apply Z.div_pos; lia|apply Z.div_lt_upper_bound; lia]).
    assert (forall i, 0 <= i < 1024 -> f <> frame s0 (KTab i)) as Hf0 by (intros i Hi Hfe; by apply (Hf (KTab i))).
    pose proof (A7 f (o / 4) Ho4 Hf0) as Hwf. unfold word, word_at in Hwf. rewrite Hdiv. unfold byte_of. rewrite Hdiv, Hwf.
    destruct (Z.eq_dec (g * 1024 + k) (f * 1024 + o / 4)) as [->|Hne]; [by rewrite !fn_lookup_insert|]. by rewrite !fn_lookup_insert_ne.
  - intros q Hq. rewrite (same_kentry s _ Hs) by done. by apply A8.
Qed.

Lemma accessible_writes e : accessible e = true -> allows true e = true.
Proof. unfold accessible, allows. intros [[-> ->]%andb_true_iff _]%andb_true_iff. done. Qed.

Section run.
Context (d up p n : Z).
Hypothesis Hn : 1 <= n < 2 ^ 20.
Hypothesis Hup : 0 <= up /\ up + n <= 2 ^ 20.

(** [s0] may be replaced by a state with the same structures. *)
Lemma mapped_to_write s0 s x b :
  vm_ok None s0 -> exists_role s0 (UDir d) -> user_pages s0 d -> mapped_to s0 d up p n n s -> 0 <= x < n * 4096 -> 0 <= b < 256 ->
  let s1 := user_poke d (up * 4096 + x) b s0 in
  wp (write_byte (u32 (p * 4096 + x)) b) (fun _ s' => mapped_to s1 d up p n n s') never s.
Proof.
  intros Hok0 Hd Hp (e & Hv & Ho & Hm) Hx Hb s1. pose proof Hv as (Hok & _ & _ & _ & _ & _ & _ & He).
  pose proof (Z.div_mod x 4096 ltac:(lia)) as Hdm. pose proof (Z.mod_pos_bound x 4096 ltac:(lia)) as Ho'.
  assert (0 <= x / 4096 < n) as Hi by (split; [apply Z.div_pos; lia|apply Z.div_lt_upper_bound; lia]).
  destruct (Hm (x / 4096) Hi) as [Hacc Hei].
  assert (u32 (p * 4096 + x) = kpage_of p (x / 4096) * 4096 + x mod 4096) as ->.
  { unfold u32, kpage_of. replace (p * 4096 + x) with ((p + x / 4096) * 4096 + x mod 4096) by lia.
    change (2 ^ 32) with (2 ^ 20 * 4096). rewrite Z.add_mod, Z.mul_mod_distr_r by lia. rewrite (Z.mod_small (x mod 4096)) by lia.
    apply Z.mod_small. pose proof (kpage_range p (x / 4096)). unfold kpage_of in *. lia. }
  assert (up * 4096 + x = x mod 4096 + (up + x / 4096) * 4096) as Hva by lia.
  assert ((up * 4096 + x) / 4096 = up + x / 4096 /\ (up * 4096 + x) mod 4096 = x mod 4096) as [Hva1 Hva2].
  { rewrite Hva, Z.div_add, Z.mod_add, (Z.div_small (x mod 4096)), Z.mod_mod by lia. split; lia. }
  assert (accessible (user_entry s0 d ((up * 4096 + x) / 4096)) = true) as Hacc' by (by rewrite Hva1).
  pose proof (same_user_poke s0 d (up * 4096 + x) b Hp ltac:(lia) Hacc') as Hs1. fold s1 in Hs1.
  unfold write_byte. wp_steps. destruct (vo_paging None s Hok) as (Hpg & Hcr & _). unfold translate. rewrite Hpg, Hcr.
  rewrite walk_kernel by (done || apply kpage_range). rewrite He by apply kpage_range. rewrite Hei. unfold entry_walk.
  rewrite accessible_writes by done. wp_cond. wp_steps.
  exists e. split; [|split].
  - unfold s1, user_poke, user_phys. rewrite Hva1, Hva2. apply kview_poke; [done| |lia]. apply Hp; [lia|done].
  - intros q Hq Hqn. rewrite (same_kentry s0 s1 Hs1) by done. by apply Ho.
  - intros i Hi'. rewrite (same_user s0 s1 Hs1) by (done || lia). by apply Hm.
Qed.
End run.

Lemma take_S_zlookup (l : list Z) i b : 0 <= i -> zlookup l i = Some b -> take (Z.to_nat (i + 1)) l = take (Z.to_nat i) l ++ [b].
Proof.
  intros Hi Hl. unfold zlookup in Hl. rewrite (proj2 (Z.ltb_ge i 0)) in Hl by lia.
  replace (Z.to_nat (i + 1)) with (S (Z.to_nat i)) by lia. by apply take_S_r.
Qed.

Section copy.
Context s0 (d up p n x : Z) (bytes : list Z).
Hypothesis Hn : 1 <= n < 2 ^ 20.
Hypothesis Hup : 0 <= up /\ up + n <= 2 ^ 20.
Hypothesis Hok : vm_ok None s0.
Hypothesis Hd : exists_role s0 (UDir d).
Hypothesis Hp : user_pages s0 d.
Hypothesis Hx : 0 <= x /\ x + zlen bytes <= n * 4096.
Hypothesis Hu : Forall is_u8 bytes.
Hypothesis Hr : user_range s0 d (up * 4096 + x) (zlen bytes).

(** The first [j] bytes are written. *)
Definition partial (j : Z) : vstate F H := user_write d (up * 4096 + x) (take (Z.to_nat j) bytes) s0.

Lemma partial_spec j : 0 <= j <= zlen bytes -> same_structs s0 (partial j) /\ user_pages (partial j) d.
Proof using Hd Hp Hu Hr Hx Hup Hn.
  intros Hj. assert (zlen (take (Z.to_nat j) bytes) = j) as Hl by (unfold zlen in *; rewrite length_take; lia).
  destruct (user_write_spec s0 d Hd Hp (take (Z.to_nat j) bytes) (up * 4096 + x)) as (A & B & _); [lia|lia| |by apply Forall_take|done].
  intros v Hv. apply Hr. lia.
Qed.

(** The loop that writes the bytes. *)
Lemma wp_write_loop s m :
  m = length bytes -> mapped_to s0 d up p n n s ->
  wp (for_up m 0 (fun i => let! b := some (zlookup bytes i) in write_byte (u32 (u32 (p * 4096 + x) + i)) b))
    (fun _ s' => mapped_to (user_write d (up * 4096 + x) bytes s0) d up p n n s') never s.
Proof using Hn Hup Hok Hd Hp Hx Hu Hr.
  intros -> Hm. eapply wp_mono; [apply (wp_for_up (fun j s' => mapped_to (partial j) d up p n n s'))| |done].
  - exact Hm.
  - intros j s' Hj Hmj. wp_steps.
    assert (0 <= j < zlen bytes) as Hj' by (unfold zlen; lia). destruct (proj2 (zlookup_lt_is_Some bytes j) Hj') as [b Hb]. rewrite Hb. wp_cond.
    assert (u32 (u32 (p * 4096 + x) + j) = u32 (p * 4096 + (x + j))) as -> by (unfold u32; rewrite Zplus_mod_idemp_l; f_equal; lia).
    destruct (partial_spec j ltac:(lia)) as [Hs Hpj].
    assert (is_u8 b) as Hb8. { rewrite Forall_forall in Hu. apply Hu. apply list_elem_of_lookup. unfold zlookup in Hb. destruct (j <? 0); [done|]. by eexists. }
    eapply wp_mono; [apply (mapped_to_write d up p n Hup (partial j) s' (x + j) b)| |by intros e []].
    + by apply (same_ok s0).
    + by apply (same_role s0).
    + done.
    + done.
    + lia.
    + exact Hb8.
    + intros u s2 Hm2. unfold partial. rewrite (take_S_zlookup bytes j b) by (lia || done).
      rewrite user_write_snoc. fold (partial j). assert (zlen (take (Z.to_nat j) bytes) = j) as -> by (unfold zlen in *; rewrite length_take; lia).
      replace (up * 4096 + x + j) with (up * 4096 + (x + j)) by lia. exact Hm2.
  - intros u s'. unfold partial. rewrite firstn_all2 by (unfold zlen; lia). done.
Qed.
End copy.

(** ** Copying *)

(** [s'] is [s] with [buffer] written at [ptr] in the process's memory. *)
Definition written s d ptr buffer s' : Prop :=
  kview (user_write d ptr buffer s) (kentry s) s' /\ user_pages s' d /\
  forall v, 0 <= v < 2 ^ 32 -> user_byte s' d v =
    if (ptr <=? v) && (v <? ptr + zlen buffer) then zlookup buffer (v - ptr) else user_byte s d v.

Lemma kview_same_user s0 e s d : vm_ok None s0 -> kview s0 e s -> exists_role s0 (UDir d) -> user_pages s0 d ->
  user_pages s d /\ forall v, 0 <= v < 2 ^ 32 -> user_byte s d v = user_byte s0 d v.
Proof.
  intros Hok Hv Hd Hp. pose proof (kview_user s0 e s d) as Hu. pose proof Hv as (_ & _ & _ & _ & _ & Hf & _). split.
  - split.
    + intros q Hq. rewrite Hu by done. intros Ha r Hr. apply (kview_role s0 e s r Hv) in Hr. rewrite Hf by done. by apply Hp.
    + intros q q' Hq Hq'. rewrite !Hu by done. by apply Hp.
  - intros v Hvr. pose proof (user_page_range v Hvr) as Hq. unfold user_byte. rewrite Hu by done. destruct (accessible _) eqn:Ha; [|done]. f_equal.
    apply (kview_byte s0 e s); [done| |apply Z.mod_pos_bound; lia]. intros i Hi. apply not_eq_sym. by apply (up_foreign s0 d Hp _ Hq Ha (KTab i)).
Qed.

Lemma kview_ok s0 e s d : kview s0 e s -> exists_role s0 (UDir d) -> vm_ok None s /\ exists_role s (UDir d).
Proof. intros Hv Hd. split; [apply Hv|]. by apply (kview_role s0 e s). Qed.

Lemma user_write_written s s' d ptr buffer :
  vm_ok None s -> exists_role s (UDir d) -> user_pages s d -> 0 <= ptr -> ptr + zlen buffer <= 2 ^ 32 -> user_range s d ptr (zlen buffer) -> Forall is_u8 buffer ->
  kview (user_write d ptr buffer s) (kentry (user_write d ptr buffer s)) s' -> written s d ptr buffer s'.
Proof.
  intros Hok Hd Hp Hptr Hend Hr Hu Hv. destruct (user_write_spec s d Hd Hp buffer ptr Hptr Hend Hr Hu) as (A & B & C).
  assert (exists_role (user_write d ptr buffer s) (UDir d)) as Hd1 by (by apply (same_role s)).
  destruct (kview_same_user _ _ s' d (same_ok s _ A None Hok) Hv Hd1 B) as [Hp' Hb].
  split; [eapply kview_ext; [|exact Hv]; intros q Hq; symmetry; by apply (same_kentry s)|]. split; [done|]. intros v Hvr. rewrite Hb by done. by apply C.
Qed.

(** A run of kernel pages for [n] bytes at [ptr], or none. *)
Lemma wp_find_run s n (Q : Z -> vstate F H -> Prop) E :
  vm_ok None s -> 1 <= n < 2 ^ 20 -> ((forall p, 0 < p < 2 ^ 20 -> ~ free_run s p n) -> Q (2 ^ 32 - 1) s) ->
  (forall p s1, 0 < p < 2 ^ 20 -> free_run s p n -> (exists e, kview s e s1 /\ outside s p n e) -> Q (p * BLOCK_SIZE) s1) ->
  wp (find_vspace (v_kernel s) n) Q E s.
Proof.
  intros Hok Hn Hnone HQ.
  assert (wp (find_vspace (v_kernel s) n) (vspace_found None s n) E s) as Hfind.
  { by apply wp_find_vspace. }
  eapply wp_mono; [exact Hfind| |done]. intros v s1 [(-> & -> & Hno)|(p & -> & Hp & Hfree & _ & Hres)]; [by apply Hnone|].
  apply HQ; [done|done|]. eexists. split; [by apply kview_reserved|]. intros q _ Hq.
  set (l := if p + n <? 2 ^ 20 then n else 0). destruct ((p <=? q) && (q <? p + l)) eqn:Hin; [|done].
  apply andb_true_iff in Hin as [Hin1%Z.leb_le Hin2%Z.ltb_lt]. unfold l in Hin2.
  destruct (Z.ltb_spec (p + n) (2 ^ 20)); [|lia].
  destruct (Hq (q - p)); [lia|]. unfold kpage_of. replace (p + (q - p)) with q by lia. by rewrite Z.mod_small by lia.
Qed.

(** Without a run the mapping fails its assertion. *)
Lemma wp_map_nowhere s d ptr n (Q : Z -> vstate F H -> Prop) : wp (map_userspace_to_kernel d ptr (2 ^ 32 - 1) n) Q only_assert s.
Proof.
  unfold map_userspace_to_kernel. wp_steps. change (negb (Z.land (2 ^ 32 - 1) 0xFFF =? 0)) with true. rewrite !orb_true_r. cbn [negb orb]. wp_steps. done.
Qed.

Lemma page_of_ptr ptr : 0 <= ptr -> Z.ldiff ptr 0xFFF = ptr / 4096 * BLOCK_SIZE /\ Z.land ptr 0xFFF = ptr mod 4096.
Proof.
  intros Hp. split; [|apply (land_ones_mod ptr 12); lia]. change 0xFFF with (Z.ones 12).
  rewrite Z.ldiff_ones_r, Z.shiftr_div_pow2, Z.shiftl_mul_pow2 by lia. done.
Qed.

Lemma udir_nonzero s d : vm_ok None s -> exists_role s (UDir d) -> d <> 0.
Proof. intros Hok Hd ->. destruct (vo_kernel None s Hok) as (_ & _ & Hn0). destruct Hd as [_ [x Hx]]. congruence. Qed.

(** The pages of a range of the process, mapped at page [p]: the mapping
    succeeds when the process can use all of them. *)
Lemma wp_map_user s s1 d ptr n p :
  vm_ok None s -> exists_role s (UDir d) -> 0 < n < 2 ^ 31 -> 0 <= ptr -> ptr + n <= 2 ^ 32 ->
  0 < p < 2 ^ 20 -> free_run s p (size_in_blocks ptr n) -> (exists e, kview s e s1 /\ outside s p (size_in_blocks ptr n) e) ->
  wp (map_userspace_to_kernel d (Z.ldiff ptr 0xFFF) (p * BLOCK_SIZE) (size_in_blocks ptr n))
    (fun v s2 => if bool_decide (is_Some (user_bytes s d ptr n))
      then v = 0 /\ mapped_to s d (ptr / 4096) p (size_in_blocks ptr n) (size_in_blocks ptr n) s2
      else v = -1 /\ exists e, kview s e s2 /\ outside s p (size_in_blocks ptr n) e) never s1.
Proof.
  intros Hok Hd Hn Hptr Hpn Hp Hfree Hs1. destruct (size_in_blocks_bounds ptr n Hn Hptr Hpn) as (Hsz & Hb & Hup & Hend).
  destruct (page_of_ptr ptr Hptr) as [-> _]. set (k := size_in_blocks ptr n) in *.
  pose proof (Z.mod_pos_bound ptr 4096 ltac:(lia)) as Hoff. pose proof (Z.div_mod ptr 4096 ltac:(lia)) as Hdm.
  assert (0 <= ptr / 4096 /\ ptr / 4096 + k <= 2 ^ 20) as Hup' by (split; [apply Z.div_pos; lia|done]).
  eapply wp_mono; [apply (wp_map_userspace s d (ptr / 4096) p k Hok Hd Hb Hup' Hfree s1 never Hs1); by eapply udir_nonzero| |done].
  intros v s2 [[-> Hm]|[-> [(j & Hj & Hacc) Hm]]].
  - rewrite bool_decide_eq_true_2; [done|]. unfold user_bytes. apply mapM_is_Some. apply Forall_forall. intros x Hx%elem_of_seqZ.
    destruct Hm as (e & _ & _ & Hm). pose proof (Z.div_mod x 4096 ltac:(lia)). pose proof (Z.mod_pos_bound x 4096 ltac:(lia)).
    destruct (Hm (x / 4096 - ptr / 4096)) as [Ha _].
    { split; [apply Z.le_0_sub, Z.div_le_mono; lia|]. assert (x / 4096 < ptr / 4096 + k); [|lia]. apply Z.div_lt_upper_bound; lia. }
    replace (ptr / 4096 + (x / 4096 - ptr / 4096)) with (x / 4096) in Ha by lia. unfold user_byte, compose. cbv beta. rewrite Ha. by eexists.
  - rewrite bool_decide_eq_false_2; [done|].
    pose proof (user_bytes_missing s d (ptr / 4096) k (ptr mod 4096) n j ltac:(lia) ltac:(lia) Hsz Hj Hacc) as Hm0.
    replace (ptr / 4096 * 4096 + ptr mod 4096) with ptr in Hm0 by lia. rewrite Hm0. by intros [].
Qed.

(** What stops a copy: no free run of [n] pages among the kernel's addresses. *)
Definition no_run s (n : Z) : panic -> Prop := fun e => e = AssertFail /\ forall p, 0 < p < 2 ^ 20 -> ~ free_run s p n.

Lemma wp_copy_to_userspace s d ptr n buffer :
  vm_ok None s -> exists_role s (UDir d) -> user_pages s d -> 0 < n < 2 ^ 31 -> 0 <= ptr -> ptr + n <= 2 ^ 32 ->
  zlen buffer = n -> Forall is_u8 buffer ->
  wp (copy_to_userspace d ptr n buffer) (fun res s' =>
    if bool_decide (is_Some (user_bytes s d ptr n)) then res = n /\ written s d ptr buffer s'
    else res = -1 /\ kview s (kentry s) s') (no_run s (size_in_blocks ptr n)) s.
Proof.
  intros Hok Hd Hpg Hn Hptr Hpn Hl Hu. destruct (size_in_blocks_bounds ptr n Hn Hptr Hpn) as (Hsz & Hb & Hup & Hend).
  unfold copy_to_userspace, kernel_directory. wp_cond. rewrite (proj2 (Z.eqb_neq (size_in_blocks ptr n) 0)) by lia. cbn [negb]. wp_steps.
  apply wp_find_run; [done|done| |].
  - intros Hno. change (2 ^ 32 - 1 =? 0) with false. cbv iota. wp_steps. eapply wp_mono; [apply wp_map_nowhere with (Q := fun _ _ => False)|by intros|by intros e ->].
  - intros p s1 Hp Hfree Hs1. rewrite (proj2 (Z.eqb_neq (p * BLOCK_SIZE) 0)) by (unfold BLOCK_SIZE; lia).
    wp_apply (wp_map_user s s1 d ptr n p); [done..| |by intros e []]. intros v s2.
    destruct (page_of_ptr ptr Hptr) as [_ ->]. set (k := size_in_blocks ptr n) in *.
    pose proof (Z.mod_pos_bound ptr 4096 ltac:(lia)) as Hoff. pose proof (Z.div_mod ptr 4096 ltac:(lia)) as Hdm.
    assert (0 <= ptr / 4096 /\ ptr / 4096 + k <= 2 ^ 20) as Hup' by (split; [apply Z.div_pos; lia|done]).
    case_bool_decide as Hs; intros [-> Hm].
    + change (negb (0 =? 0)) with false. cbv iota. assert (ptr / 4096 * 4096 + ptr mod 4096 = ptr) as Hsplit by lia.
      pose proof (user_bytes_range s d ptr n Hs) as Hr.
      unfold write_bytes. wp_cond. rewrite (proj2 (Z.eqb_neq n 0)) by lia. cbn [negb].
      wp_apply (wp_write_loop s d (ptr / 4096) p k (ptr mod 4096) buffer Hb Hup' Hok Hd Hpg); [lia|done|by rewrite Hsplit, Hl|unfold zlen in Hl; lia|exact Hm| |by intros e []].
      rewrite Hsplit. set (sw := user_write d ptr buffer s). intros _ s3 (e & Hv & Ho & _).
      destruct (user_write_spec s d Hd Hpg buffer ptr Hptr ltac:(lia) ltac:(by rewrite Hl) Hu) as (Hss & Hpgw & _). fold sw in Hss, Hpgw.
      assert (free_run sw p k) as Hfw. { intros i Hi. rewrite (same_kentry s sw Hss) by (apply Z.mod_pos_bound; lia). by apply Hfree. }
      wp_apply (wp_unmap_from_kernel sw p k (same_ok s sw Hss None Hok) Hb Hfw s3 (no_run s k)); [by exists e| |done].
      intros _ s4 Hs4. wp_steps. split; [done|]. apply user_write_written; try done; [lia|by rewrite Hl].
    + change (negb (-1 =? 0)) with true. cbv iota.
      wp_apply (wp_unmap_from_kernel s p k Hok Hb Hfree s2 (no_run s k) Hm); [|done]. intros _ s3 Hs3. by wp_steps.
Qed.

(** C11. Writing a process's memory: [copy_to_userspace] leaves the [n] bytes of
    the buffer where the process sees them from [ptr] on, and every other byte
    that the process sees as it was, when every page of the range is present,
    writable and open to user mode; otherwise it answers -1 and changes no
    byte.  Either way the page tables of kernel and process are afterwards what
    they were. *)
Theorem copy_to_userspace_writes s d ptr n buffer :
  vm_ok None s -> exists_role s (UDir d) -> user_pages s d -> 0 < n < 2 ^ 31 -> 0 <= ptr -> ptr + n <= 2 ^ 32 ->
  zlen buffer = n -> Forall is_u8 buffer ->
  wp (copy_to_userspace d ptr n buffer) (fun res s' =>
    if bool_decide (is_Some (user_bytes s d ptr n)) then res = n /\ written s d ptr buffer s'
    else res = -1 /\ kview s (kentry s) s') only_assert s.
Proof. intros. eapply wp_mono; [by apply wp_copy_to_userspace|done|by intros e [-> _]]. Qed.
End mem.

(** ** The process with one page *)

Lemma one_page_pages : user_pages one_page 100.
Proof.
  split.
  - intros q Hq. rewrite one_page_entry by done. destruct (_ =? 5); [|done]. intros _ r Hr. destruct (one_page_frames r Hr) as [-> _].
    change (Z.lor (1500 * 4096) 7 / 4096) with 1500. apply one_page_role in Hr as [->|[(i & -> & Hi)|[->| ->]]]; cbn [one_page_frame]; lia.
  - intros q q' Hq Hq'. rewrite !one_page_entry by done. destruct (Z.eqb_spec q 5), (Z.eqb_spec q' 5); try done. lia.
Qed.

(** Three bytes over the page's two, and a range that leaves the page. *)
Lemma copy_to_userspace_writes_witness :
  wp (copy_to_userspace 100 20481 3 [7; 8; 9]) (fun res s' => res = 3 /\ user_byte s' 100 20482 = Some 8 /\ user_byte s' 100 20480 = Some 104) only_assert one_page /\
  wp (copy_to_userspace 100 24575 2 [7; 8]) (fun res s' => res = -1 /\ user_byte s' 100 24575 = Some 0) only_assert one_page.
Proof.
  split; (eapply wp_mono; [apply (copy_to_userspace_writes one_page 100); [exact one_page_ok|exact one_page_udir
    |exact one_page_pages|lia|lia|lia|reflexivity|repeat constructor; lia]| |done]); intros res s' Hc.
  - rewrite bool_decide_eq_true_2 in Hc by (by eexists). destruct Hc as [-> (_ & _ & Hb)]. split; [done|]. split; by rewrite Hb.
  - rewrite bool_decide_eq_false_2 in Hc by (by intros []). destruct Hc as [-> Hv]. split; [done|].
    rewrite (proj2 (kview_same_user _ _ s' 100 one_page_ok Hv one_page_udir one_page_pages)) by done. reflexivity.
Defined.
