(* ===== verification/ProcMem.v ===== *)
(** * The address spaces of processes (kernel/process.c)

    What processes share with the kernel, copying the address space of a
    process and giving it back.  The regions that the kernel shares with every
    process lie between symbols of the linker, which are parameters. *)
From stdpp Require Import functions.
From S2P Require Import Prelude Interfaces Vmm VmmDir Uaccess UserMem.

Section ops.
Context {F H : Type} `{FrameAlloc F, KHeap H}.
Abbreviation V := (vstate F H).

(** ** Shared regions and kernel stacks *)

Definition process_map_shared_region (pdir start end_ permissions : Z) : M V unit :=
  kassert (negb (pdir =? 0)) >>>
  kassert (Z.land start 0xFFF =? 0) >>>
  loop (S (Z.to_nat (2 ^ 20))) (fun i =>
    if i <? u32 (end_ - start) then
      let addr := u32 (start + i) in
      let! t := table_alloc addr pdir in
      map_page t addr addr permissions >>>
      ret (inl (u32 (i + BLOCK_SIZE)))
    else ret (inr tt)) 0.

Definition process_unmap_shared_region (pdir start end_ : Z) : M V unit :=
  kassert (negb (pdir =? 0)) >>>
  kassert (Z.land start 0xFFF =? 0) >>>
  loop (S (Z.to_nat (2 ^ 20))) (fun i =>
    if i <? u32 (end_ - start) then
      let addr := u32 (start + i) in
      let! t := table_alloc addr pdir in
      let! p := get_page t addr in
      kassert (addr =? Z.ldiff p 0xFFF) >>>
      let! t := table_alloc addr pdir in
      map_page t addr 0 0 >>>
      ret (inl (u32 (i + BLOCK_SIZE)))
    else ret (inr tt)) 0.

(** The kernel stack of a process whose top is [kstack]. *)
Definition process_map_kstack (pdir kstack : Z) : M V unit :=
  kassert (negb (kstack =? 0)) >>>
  for_up (Z.to_nat KSTACK_SIZE) 0 (fun i =>
    let vkaddr := u32 (kstack - i * BLOCK_SIZE) in
    let! k := kernel_directory in
    let! kt := get_table vkaddr k in
    let! page := get_page kt vkaddr in
    kassert (Z.land page PAGE_USER =? 0) >>>
    let! t := table_alloc vkaddr pdir in
    let! p := get_page t vkaddr in
    kassert (p =? 0) >>>
    let! t := table_alloc vkaddr pdir in
    set_page t vkaddr page).

Definition process_unmap_kstack (pdir kstack : Z) : M V unit :=
  kassert (negb (kstack =? 0)) >>>
  for_up (Z.to_nat KSTACK_SIZE) 0 (fun i =>
    let vkaddr := u32 (kstack - i * BLOCK_SIZE) in
    let! k := kernel_directory in
    let! kt := get_table vkaddr k in
    let! kpage := get_page kt vkaddr in
    let! t := table_alloc vkaddr pdir in
    let! upage := get_page t vkaddr in
    kassert (Z.ldiff kpage 0xFFF =? Z.ldiff upage 0xFFF) >>>
    let! t := table_alloc vkaddr pdir in
    map_page t vkaddr 0 0).

(** ** Copying an address space *)

(** [memcpy] between two places of virtual memory. *)
Definition memcpy (dest src len : Z) : M V unit :=
  kassert (negb (dest =? 0)) >>>
  kassert (negb (src =? 0)) >>>
  kassert (negb (len =? 0)) >>>
  for_up (Z.to_nat len) 0 (fun i => let! b := read_byte (u32 (src + i)) in write_byte (u32 (dest + i)) b).

(** A fresh frame with the bytes of the one of entry [page]. *)
Definition copy_frame (oldkvtmp newkvtmp page : Z) : M V Z :=
  let oldphys := Z.ldiff page 0x3FF in
  let! newphys := zoom frames_lens frame_alloc_safe in
  kernel_map oldkvtmp oldphys (Z.lor PAGE_PRESENT PAGE_READWRITE) >>>
  invalidate_page oldkvtmp >>>
  kernel_map newkvtmp newphys (Z.lor PAGE_PRESENT PAGE_READWRITE) >>>
  invalidate_page newkvtmp >>>
  memcpy newkvtmp oldkvtmp BLOCK_SIZE >>>
  ret newphys.

Definition clone_entry (newtable oldtable oldkvtmp newkvtmp i : Z) : M V unit :=
  let! page := read_word (u32 (oldtable + 4 * i)) in
  if page =? 0 then ret tt
  else if page =? PAGE_VALUE_GUARD then ret tt
  else if page =? PAGE_VALUE_RESERVED then fail AssertFail
  else if negb (Z.land page PAGE_PRESENT =? 0) && (Z.land page PAGE_USER =? 0) then ret tt
  else if negb (Z.land page PAGE_PRESENT =? 0) && negb (Z.land page PAGE_USER =? 0) then
    let! n := read_word (u32 (newtable + 4 * i)) in
    (if negb (n =? 0) then fail AssertFail else ret tt) >>>
    let! newphys := copy_frame oldkvtmp newkvtmp page in
    write_word (u32 (newtable + 4 * i)) (Z.lor newphys (Z.land page 0x3FF))
  else fail AssertFail.

Definition page_directory_clone_table (newtable oldtable : Z) : M V unit :=
  kassert (negb (oldtable =? 0)) >>>
  kassert (negb (newtable =? 0)) >>>
  let! k := kernel_directory in
  let! oldkvtmp := find_vspace k 1 in
  kassert (negb (oldkvtmp =? 0)) >>>
  let! newkvtmp := find_vspace k 1 in
  kassert (negb (newkvtmp =? 0)) >>>
  for_up 1024 0 (clone_entry newtable oldtable oldkvtmp newkvtmp) >>>
  kernel_map oldkvtmp 0 0 >>>
  invalidate_page oldkvtmp >>>
  kernel_map newkvtmp 0 0 >>>
  invalidate_page newkvtmp.

Definition clone_round (newpdir old i : Z) : M V unit :=
  let! x := directory old in
  let table := tables x i in
  let! table_phys := read_word (u32 (physical_tables x + 4 * i)) in
  if Z.land table_phys PAGE_TABLE_PRESENT =? 0 then
    (if table_phys =? 0 then ret tt else fail AssertFail)
  else
    let! newtable := table_alloc (Z.shiftl i 22) newpdir in
    page_directory_clone_table newtable table.

Definition page_directory_clone (newpdir old : Z) : M V unit :=
  kassert (negb (old =? 0)) >>>
  kassert (negb (newpdir =? 0)) >>>
  for_up 1024 0 (clone_round newpdir old).

Section regions.
Variables start_shared_data stop_shared_data start_shared_text stop_shared_text : Z.

Definition process_page_directory_map_shared (pdir : Z) : M V unit :=
  process_map_shared_region pdir start_shared_data stop_shared_data PAGE_PRESENT >>>
  process_map_shared_region pdir start_shared_text stop_shared_text PAGE_PRESENT.

Definition process_page_directory_new : M V Z :=
  let! pdir := page_directory_new in
  kassert (negb (pdir =? 0)) >>>
  process_page_directory_map_shared pdir >>>
  ret pdir.

(** An entry of a table that goes away. *)
Definition free_entry (table j : Z) : M V unit :=
  let! page := read_word (u32 (table + 4 * j)) in
  if page =? 0 then ret tt
  else if negb (Z.land page (Z.lor PAGE_PRESENT PAGE_USER) =? 0) then
    free_frame (Z.ldiff page 0xFFF) >>>
    write_word (u32 (table + 4 * j)) 0
  else fail AssertFail.

Definition free_round (pdir i : Z) : M V unit :=
  let! x := directory pdir in
  let! phys_table := read_word (u32 (physical_tables x + 4 * i)) in
  if negb (Z.land phys_table PAGE_PRESENT =? 0) then
    let table := tables x i in
    kassert (negb (table =? 0)) >>>
    for_up 1024 0 (free_entry table)
  else kassert (tables x i =? 0).

Definition process_page_directory_free (pdir : Z) : M V unit :=
  let! x := directory pdir in
  if negb (refcount x =? 1) then page_directory_release pdir
  else
    process_unmap_shared_region pdir start_shared_data stop_shared_data >>>
    process_unmap_shared_region pdir start_shared_text stop_shared_text >>>
    for_up 1024 0 (free_round pdir).

(** The address space of the child in [process_clone]. *)
Definition SYSCALL_CLONE_FLAGS_VM : Z := 0x100.

Definition clone_pdir (flags pdir : Z) : M V Z :=
  if negb (Z.land flags SYSCALL_CLONE_FLAGS_VM =? 0) then page_directory_reference pdir
  else
    let! child := page_directory_new in
    page_directory_clone child pdir >>>
    process_page_directory_map_shared child >>>
    ret child.
End regions.
End ops.

(** ** Copying a frame *)

(** Present and open to user mode: what a child gets a copy of. *)
Definition shared (e : Z) : bool := Z.testbit e 0 && Z.testbit e 2.

Lemma accessible_shared e : accessible e = true -> shared e = true.
Proof. unfold accessible, shared. by intros [[-> _]%andb_true_iff ->]%andb_true_iff. Qed.

Lemma accessible_low e e' : e mod 1024 = e' mod 1024 -> accessible e = accessible e' /\ shared e = shared e'.
Proof.
  intros He. assert (forall k, 0 <= k < 10 -> Z.testbit e k = Z.testbit e' k) as Hb.
  { intros k Hk. rewrite <- (Z.mod_pow2_bits_low e 10 k), <- (Z.mod_pow2_bits_low e' 10 k) by lia. change (2 ^ 10) with 1024. by rewrite He. }
  unfold accessible, shared. by rewrite !Hb by lia.
Qed.

(** The entry through which the kernel reaches the frame of [page]. *)
Lemma kernel_entry page : Z.lor (Z.ldiff page 0x3FF) 3 / 4096 = page / 4096 /\ usable (Z.lor (Z.ldiff page 0x3FF) 3).
Proof.
  assert (Z.lor (Z.ldiff page 0x3FF) 3 = page / 1024 * 1024 + 3) as ->.
  { change 0x3FF with (Z.ones 10). rewrite Z.ldiff_ones_r by lia. rewrite Z.shiftr_div_pow2, Z.lor_comm by lia.
    rewrite (lor_shiftl_add 3 _ 10) by lia. change (2 ^ 10) with 1024. lia. }
  split; [|unfold usable; rewrite (Z.add_comm _ 3); replace (page / 1024 * 1024) with (page / 1024 * 256 * 4) by lia; by rewrite Z.mod_add].
  change 4096 with (1024 * 4). rewrite <- !Z.div_div by lia. f_equal. symmetry. apply Z.div_unique with 3; lia.
Qed.

Section proofs.
Context {F H : Type} `{FrameAllocLaws F, KHeapLaws H}.
Implicit Types (s : vstate F H) (r : role).

Lemma byte_word s s' f o : (forall k, 0 <= k < 1024 -> word s' f k = word s f k) -> 0 <= o < 4096 ->
  byte_of (v_mem s') (f * 4096 + o) = byte_of (v_mem s) (f * 4096 + o).
Proof.
  intros Hw Ho. unfold byte_of. assert ((f * 4096 + o) / 4 = f * 1024 + o / 4) as ->.
  { replace (f * 4096 + o) with (o + f * 1024 * 4) by lia. rewrite Z.div_add by lia. lia. }
  pose proof (Hw (o / 4)) as Hwo. unfold word, word_at in Hwo. rewrite Hwo; [done|].
  split; [apply Z.div_pos; lia|apply Z.div_lt_upper_bound; lia].
Qed.

(** An address of a page that the kernel has mapped. *)
Lemma translate_kernel s b p o : vm_ok None s -> 0 <= p < 2 ^ 20 -> usable (kentry s p) -> 0 <= o < 4096 ->
  translate b (u32 (p * 4096 + o)) s = Some (kentry s p / 4096 * 4096 + o).
Proof.
  intros Hok Hp Hu Ho. rewrite u32_small by (unfold is_u32; lia). destruct (vo_paging None s Hok) as (Hpg & Hcr & _).
  unfold translate. rewrite Hpg, Hcr, walk_kernel by done. unfold entry_walk. by rewrite allows_usable.
Qed.

Definition copied_page f1 f2 s s' : Prop :=
  same_structs s s' /\ v_heap s' = v_heap s /\
  (forall f k, 0 <= k < 1024 -> f <> f2 -> word s' f k = word s f k) /\
  forall o, 0 <= o < 4096 -> byte_of (v_mem s') (f2 * 4096 + o) = byte_of (v_mem s) (f1 * 4096 + o).

Lemma wp_memcpy s p1 p2 f1 f2 E :
  vm_ok None s -> 0 < p1 < 2 ^ 20 -> 0 < p2 < 2 ^ 20 -> usable (kentry s p1) -> usable (kentry s p2) ->
  kentry s p1 / 4096 = f1 -> kentry s p2 / 4096 = f2 -> f1 <> f2 -> foreign s f2 ->
  wp (memcpy (p2 * 4096) (p1 * 4096) BLOCK_SIZE) (fun _ s' => copied_page f1 f2 s s') E s.
Proof.
  intros Hok Hp1 Hp2 Hu1 Hu2 Hf1 Hf2 Hne Hfo. unfold memcpy.
  rewrite !(proj2 (Z.eqb_neq _ 0)) by lia. change (BLOCK_SIZE =? 0) with false. cbn [negb kassert]. wp_steps.
  eapply wp_mono; [apply (wp_for_up (fun i s' => same_structs s s' /\ v_heap s' = v_heap s /\
    (forall f k, 0 <= k < 1024 -> f <> f2 -> word s' f k = word s f k) /\
    forall o, 0 <= o < i -> byte_of (v_mem s') (f2 * 4096 + o) = byte_of (v_mem s) (f1 * 4096 + o)))| |done].
  - split; [done|]. split; [done|]. split; [done|]. intros o Ho. lia.
  - intros i s1 Hi (Hs & Hh & Hw & Hb). change (0 + Z.of_nat (Z.to_nat BLOCK_SIZE)) with 4096 in Hi.
    pose proof (same_ok s s1 Hs None Hok) as Hok1. pose proof (same_kentry s s1 Hs) as Hk.
    unfold read_byte. wp_steps. rewrite translate_kernel by (rewrite ?Hk by lia; first [done|lia]). rewrite Hk, Hf1 by lia. wp_cond.
    wp_steps. unfold write_byte. wp_steps. rewrite translate_kernel by (rewrite ?Hk by lia; first [done|lia]). rewrite Hk, Hf2 by lia. wp_cond. wp_steps.
    rewrite (byte_word s s1 f1 i) by (first [lia|intros k Hkk; by apply Hw]). set (b := byte_of (v_mem s) (f1 * 4096 + i)).
    change (set_mem _ s1) with (poke (f2 * 4096 + i) b s1).
    assert (foreign s1 f2) as Hfo1 by (intros r Hr; apply (same_role s s1 Hs) in Hr; rewrite (same_frame s s1 Hs) by done; by apply Hfo).
    split; [eapply same_trans; [exact Hs|apply same_poke; [done|lia]]|]. split; [done|]. split.
    + intros f k Hkk Hff. rewrite <- Hw by done. unfold word, word_at, poke. cbn [v_mem set_mem]. apply fn_lookup_insert_ne.
      pose proof (Z.div_mod (f2 * 4096 + i) 4 ltac:(lia)). pose proof (Z.mod_pos_bound (f2 * 4096 + i) 4 ltac:(lia)). lia.
    + intros o Ho. rewrite byte_of_poke by (apply Z.mod_pos_bound; lia). destruct (Z.eqb_spec (f2 * 4096 + o) (f2 * 4096 + i)) as [He|He].
      * by replace o with i by lia.
      * apply Hb. lia.
  - intros u s1 (Hs & Hh & Hw & Hb). done.
Qed.

(** Only the kernel's entries of two pages change. *)
Definition kernel_same (p1 p2 : Z) s s' : Prop := forall q, 0 <= q < 2 ^ 20 -> q <> p1 -> q <> p2 -> kentry s' q = kentry s q.
Definition same_users s s' : Prop := forall d q, exists_role s (UDir d) -> 0 <= q < 2 ^ 20 -> user_entry s' d q = user_entry s d q.

(** [s'] is [s] with the bytes of frame [f] in a new frame [b]. *)
Record frame_copied (f p1 p2 : Z) s (b : Z) s' : Prop := FrameCopied {
  fc_ok : vm_ok None s';
  fc_grown : grown s s';
  fc_heap : v_heap s' = v_heap s;
  fc_dirs : v_dirs s' = v_dirs s;
  fc_users : same_users s s';
  fc_kernel : kernel_same p1 p2 s s';
  fc_frame : 0 < b /\ ~ taken s b /\ taken s' b /\ foreign s' b;
  fc_bytes : forall o, 0 <= o < 4096 -> byte_of (v_mem s') (b * 4096 + o) = byte_of (v_mem s) (f * 4096 + o);
}.

Lemma kview_refl s : vm_ok None s -> kview s (kentry s) s.
Proof. done. Qed.

(** Mapping a page through which no structure is reached. *)
Lemma vm_ok_spare s p v : vm_ok None s -> 0 <= p < 2 ^ 20 -> spare s p -> vm_ok None (set_kentry p v s).
Proof. intros Hok Hp Hs. apply vm_ok_set_kentry; [done|done|]. intros r Hr _. by apply Hs. Qed.

Lemma users_set_kentry s p v : vm_ok None s -> 0 <= p < 2 ^ 20 -> same_users s (set_kentry p v s).
Proof. intros Hok Hp d q Hd Hq. by apply (keeps_set_kentry None p v s). Qed.

Lemma same_users_trans s1 s2 s3 : v_kernel s2 = v_kernel s1 -> v_dirs s2 = v_dirs s1 ->
  same_users s1 s2 -> same_users s2 s3 -> same_users s1 s3.
Proof. intros Hk Hd A B d q Hr Hq. rewrite B; [by apply A| |done]. by apply (exists_role_dirs s1). Qed.

(** The two pages as the copy needs them. *)
Definition windows s (p1 p2 : Z) : Prop :=
  0 < p1 < 2 ^ 20 /\ 0 < p2 < 2 ^ 20 /\ p1 <> p2 /\ spare s p1 /\ spare s p2.

(** The kernel maps [pa] at page [p1] and [pb] at page [p2]. *)
Lemma mapped_windows s p1 p2 e1 e2 : vm_ok None s -> windows s p1 p2 ->
  let s' := set_kentry p2 e2 (set_kentry p1 e1 s) in
  vm_ok None (set_kentry p1 e1 s) /\ vm_ok None s' /\ grown s s' /\ same_users s s' /\ kernel_same p1 p2 s s' /\
  kentry s' p1 = e1 /\ kentry s' p2 = e2 /\ (forall r, exists_role s r -> frame s' r = frame s r) /\
  forall f k, foreign s f -> 0 <= k < 1024 -> word s' f k = word s f k.
Proof.
  intros Hok (Hp1 & Hp2 & Hne & S1 & S2) s'.
  assert (vm_ok None (set_kentry p1 e1 s)) as Hok1 by (apply vm_ok_spare; [done|lia|done]). set (s1 := set_kentry p1 e1 s) in *.
  assert (vm_ok None s') as Hok2 by (apply vm_ok_spare; [done|lia|done]).
  assert (grown s s1) as G1 by (apply (grown_set_kentry None); [done|lia]). assert (grown s1 s') as G2 by (apply (grown_set_kentry None); [done|lia]).
  assert (grown s s') as G by (by eapply grown_trans).
  do 2 (split; [done|]). split; [done|]. split; [|split; [|split; [|split; [|split]]]].
  - apply (same_users_trans s s1 s'); try done; apply users_set_kentry; try done; lia.
  - intros q Hq N1 N2. unfold s'. rewrite (kentry_set None) by (done || lia). rewrite (proj2 (Z.eqb_neq q p2)) by done.
    unfold s1. rewrite (kentry_set None) by (done || lia). by rewrite (proj2 (Z.eqb_neq q p1)).
  - unfold s'. rewrite (kentry_set None) by (done || lia). rewrite (proj2 (Z.eqb_neq p1 p2)) by done.
    unfold s1. rewrite (kentry_set None) by (done || lia). by rewrite Z.eqb_refl.
  - unfold s'. rewrite (kentry_set None) by (done || lia). by rewrite Z.eqb_refl.
  - intros r Hr. by apply G.
  - assert (forall s q v f k, vm_ok None s -> 0 <= q < 2 ^ 20 -> foreign s f -> 0 <= k < 1024 -> word (set_kentry q v s) f k = word s f k) as Hset.
    { intros t q v f k Ht Hq Hf Hk. destruct (page_split q Hq). unfold set_kentry. rewrite word_set by done.
      rewrite (proj2 (Z.eqb_neq f _)); [done|]. intros ->. by apply (Hf (KTab (q / 1024))). }
    intros f k Hf Hk. unfold s'. rewrite Hset; [apply Hset; (done || lia)|done|lia| |done].
    intros r Hr. rewrite (proj2 (gr_role _ _ G1 r Hr)). by apply Hf.
Qed.

(** A write to a frame that was free at the start. *)
Lemma grown_other b s s1 s2 : grown s s1 -> ~ taken s b -> same_structs s1 s2 ->
  (forall f k, 0 <= k < 1024 -> f <> b -> word s2 f k = word s1 f k) -> grown s s2.
Proof.
  intros [A1 A2 A3 A4 A5 A6] Hb Hs Hw. pose proof Hs as (_ & Sk & _ & _ & Sf & _). split; unfold taken in *; rewrite ?Sk, ?Sf; try done.
  - intros r Hr. destruct (A4 r Hr). split; [by apply (same_role s1 s2 Hs)|by rewrite (same_frame s1 s2 Hs)].
  - intros r Hr. apply (same_role s1 s2 Hs) in Hr. rewrite (same_frame s1 s2 Hs) by done. by apply A5.
  - intros f k Ht Hf Hk. rewrite Hw; [by apply A6|done|]. by intros ->.
Qed.

Lemma wp_copy_frame s p1 p2 page :
  vm_ok None s -> windows s p1 p2 -> taken s (page / 4096) -> foreign s (page / 4096) ->
  wp (copy_frame (p1 * 4096) (p2 * 4096) page)
    (fun v s' => exists b, v = b * 4096 /\ frame_copied (page / 4096) p1 p2 s b s') only_nomem s.
Proof.
  intros Hok Hw Ht Hf. pose proof Hw as (Hp1 & Hp2 & _). unfold copy_frame. wp_steps. apply wp_zoom. wp_apply frame_alloc_safe_spec; [apply Hok| |done].
  intros v f' (b & -> & Hb & Hbu & Hmk). cbv beta. set (s1 := lset frames_lens f' s).
  assert (vm_ok None s1) as Hok1 by (by apply (vm_ok_frames s b)). assert (grown s s1) as G1 by (by apply (grown_frames s b)).
  assert (~ taken s b) as Hnt by (intros [_ Hbt]; change (frame_used (v_frames s) b = false) in Hbu; congruence).
  change (lget frames_lens s) with (v_frames s) in Hb, Hmk.
  assert (taken s1 b) as Htb.
  { destruct Hmk as (_ & Hc & Hu). unfold taken. change (v_frames s1) with f'. rewrite Hc, Hu, Z.eqb_refl by lia. split; [lia|done]. }
  assert (foreign s1 b) as Hfb by (intros r Hr; by apply (fresh_frame s s1 b f')).
  wp_steps. apply (wp_kernel_map s1 (kentry s1)); [by apply kview_refl|lia|]. wp_steps. apply wp_invalidate. wp_steps.
  set (e1 := Z.lor (Z.ldiff page 0x3FF) _). set (s2 := set_kentry p1 e1 s1). unfold BLOCK_SIZE.
  set (e2 := Z.lor (b * 4096) (Z.lor PAGE_PRESENT PAGE_READWRITE)). set (s3 := set_kentry p2 e2 s2).
  destruct (mapped_windows s1 p1 p2 e1 e2 Hok1 Hw) as (Hok2 & Hok3 & G3 & U3 & K3 & E1 & E2 & R3 & W3). fold s2 s3 in Hok2, Hok3, G3, U3, K3, E1, E2, R3, W3.
  apply (wp_kernel_map s2 (kentry s2)); [by apply kview_refl|lia|]. fold e2 s3. wp_steps. apply wp_invalidate. wp_steps.
  destruct (kernel_entry page) as [D1 D2]. destruct (present_entry b 3) as [D3 D4]; [lia|done|].
  assert (page / 4096 <> b) as Hne by (intros Heq; by rewrite Heq in Ht).
  assert (foreign s1 (page / 4096)) as Hfp by (by apply (grown_foreign s s1)).
  eapply wp_mono; [apply (wp_memcpy s3 p1 p2 (page / 4096) b only_nomem); rewrite ?E1, ?E2; try done; by apply (grown_foreign s1 s3)| |done].
  intros u s4 (Hs & Hh & Hw4 & Hb4). wp_steps. exists b. split; [done|].
  pose proof (same_ok s3 s4 Hs None Hok3) as Hok4.
  split.
  - done.
  - by apply (grown_other b s s3 s4); [eapply grown_trans| | |].
  - by rewrite Hh.
  - by destruct Hs as (-> & _).
  - intros d q Hd Hq. rewrite (same_user s3 s4 Hs) by done. by apply U3.
  - intros q Hq N1 N2. rewrite (same_kentry s3 s4 Hs) by done. by apply K3.
  - split; [lia|]. split; [done|]. destruct (grown_foreign s1 s3 b) as [T3 F3]; [done..|]. pose proof Hs as (_ & _ & _ & _ & Sf & _). split.
    + unfold taken. by rewrite Sf.
    + intros r Hr. apply (same_role s3 s4 Hs) in Hr. rewrite (same_frame s3 s4 Hs) by done. by apply F3.
  - intros o Ho. rewrite Hb4 by done. apply byte_word; [|done]. intros k Hk. by rewrite W3.
Qed.

(** ** Copying an address space *)

(** The pages that a process can use are memory handed out for it. *)
Definition owned s (d : Z) : Prop := forall q, 0 <= q < 2 ^ 20 -> shared (user_entry s d q) = true ->
  taken s (user_entry s d q / 4096) /\ foreign s (user_entry s d q / 4096).

(** In [s] page [q] of the child [d'] is what it is of [d] in [s0]: present in
    a frame that was free in [s0], with the same rights and bytes. *)
Definition page_copied s0 (d d' : Z) s (q : Z) : Prop :=
  let e := user_entry s0 d q in
  if shared e then exists b, 0 < b /\ ~ taken s0 b /\ taken s b /\ foreign s b /\ user_entry s d' q = b * 4096 + e mod 1024 /\
    forall o, 0 <= o < 4096 -> byte_of (v_mem s) (b * 4096 + o) = byte_of (v_mem s0) (e / 4096 * 4096 + o)
  else user_entry s d' q = 0.

Definition same_keys s s' : Prop := forall x, is_Some (v_dirs s' !! x) <-> is_Some (v_dirs s !! x).

(** The pages below [n] are copied. *)
Record cloning s0 (d d' n : Z) s : Prop := Cloning {
  cl_ok : vm_ok None s;
  cl_grown : grown s0 s;
  cl_heap : v_heap s = v_heap s0;
  cl_keys : same_keys s0 s;
  cl_done : forall q, 0 <= q < n -> page_copied s0 d d' s q;
  cl_rest : forall q, n <= q < 2 ^ 20 -> user_entry s d' q = 0;
  cl_others : forall d2 q, d2 <> d' -> exists_role s0 (UDir d2) -> 0 <= q < 2 ^ 20 -> user_entry s d2 q = user_entry s0 d2 q;
  cl_distinct : forall q q', 0 <= q < n -> 0 <= q' < n -> shared (user_entry s0 d q) = true -> shared (user_entry s0 d q') = true ->
    user_entry s d' q / 4096 = user_entry s d' q' / 4096 -> q = q';
}.

Section clone.
Variables (s0 : vstate F H) (d d' : Z).
Hypothesis Hd : exists_role s0 (UDir d).
Hypothesis Hd' : exists_role s0 (UDir d').
Hypothesis Hdd : d <> d'.
Hypothesis Hown : owned s0 d.

Lemma cloning_dir n s x : cloning s0 d d' n s -> exists_role s0 (UDir x) -> exists_role s (UDir x).
Proof. intros Hc Hx. by apply (cl_grown _ _ _ _ _ Hc). Qed.

(** What leaves the users' entries and the memory handed out as they are. *)
Lemma cloning_step n s s' : 0 <= n <= 2 ^ 20 ->
  cloning s0 d d' n s -> vm_ok None s' -> grown s s' -> v_heap s' = v_heap s -> same_keys s s' -> same_users s s' -> cloning s0 d d' n s'.
Proof.
  intros Hn Hc Hok G Hh Hkeys Hu. pose proof Hc as [A1 A2 A3 Ak A4 A5 A6 A7]. pose proof (fun x => cloning_dir n s x Hc) as Hr. split.
  - done.
  - by eapply grown_trans.
  - congruence.
  - intros x. by rewrite (Hkeys x).
  - intros q Hq. specialize (A4 q Hq). unfold page_copied in *. destruct (shared _).
    + destruct A4 as (b & B1 & B2 & B3 & B4 & B5 & B6). destruct (grown_foreign s s' b G B3 B4) as [B3' B4']. exists b.
      do 4 (split; [done|]). split; [rewrite Hu by (auto; lia); done|]. intros o Ho. rewrite <- B6 by done.
      apply byte_word; [|done]. intros k Hk. by apply G.
    + rewrite Hu by (auto; lia). done.
  - intros q Hq. rewrite Hu by (auto; lia). by apply A5.
  - intros d2 q Hne Hd2 Hq. rewrite Hu by auto. by apply A6.
  - intros q q' Hq Hq'. rewrite !Hu by (auto; lia). by apply A7.
Qed.

(** A page that the child does not get. *)
Lemma cloning_skip n s : 0 <= n < 2 ^ 20 -> cloning s0 d d' n s -> shared (user_entry s0 d n) = false -> cloning s0 d d' (n + 1) s.
Proof.
  intros Hn [A1 A2 A3 Ak A4 A5 A6 A7] Hs. split; try done.
  - intros q Hq. destruct (Z.eq_dec q n) as [->|]; [|apply A4; lia]. unfold page_copied. rewrite Hs. apply A5. lia.
  - intros q Hq. apply A5. lia.
  - intros q q' Hq Hq' S S'. destruct (Z.eq_dec q n) as [->|]; [congruence|]. destruct (Z.eq_dec q' n) as [->|]; [congruence|].
    apply A7; try done; lia.
Qed.

Lemma clone_entry_value b e : Z.lor (b * 4096) (Z.land e 0x3FF) = b * 4096 + e mod 1024.
Proof.
  change 0x3FF with (Z.ones 10). rewrite land_ones_mod by lia. change (2 ^ 10) with 1024. apply lor_page.
  pose proof (Z.mod_pos_bound e 1024). lia.
Qed.

(** A page that it gets, in frame [b]. *)
Lemma cloning_page n s s1 b p1 p2 : 0 <= n < 2 ^ 20 -> cloning s0 d d' n s -> shared (user_entry s0 d n) = true ->
  frame_copied (user_entry s0 d n / 4096) p1 p2 s b s1 -> exists_role s (UTab d' (n / 1024)) ->
  cloning s0 d d' (n + 1) (set_word (frame s1 (UTab d' (n / 1024))) (n mod 1024) (b * 4096 + user_entry s0 d n mod 1024) s1).
Proof.
  intros Hn Hc Hs [C1 C2 C3 C4 C5 C6 (C7 & C8 & C9 & C10) C11] Hr. set (e := user_entry s0 d n) in *.
  destruct (page_split n Hn) as [N1 N2]. set (s2 := set_word _ _ _ s1).
  assert (exists_role s1 (UTab d' (n / 1024))) as Hr1 by (by apply C2).
  pose proof (cloning_step n s s1 ltac:(lia) Hc C1 C2 C3 ltac:(intros x; by rewrite C4) C5) as Hc1. pose proof Hc1 as [A1 A2 A3 Ak A4 A5 A6 A7].
  assert (grown s1 s2) as G by (by apply (grown_set_word None)).
  assert (forall x q, exists_role s0 (UDir x) -> 0 <= q < 2 ^ 20 ->
    user_entry s2 x q = if (x =? d') && (q =? n) then b * 4096 + e mod 1024 else user_entry s1 x q) as Hue.
  { intros x q Hx Hq. apply user_entry_set; try done. by apply (cloning_dir n). }
  assert (user_entry s2 d' n = b * 4096 + e mod 1024) as Hnew by (by rewrite Hue, !Z.eqb_refl).
  assert (forall q, 0 <= q < 2 ^ 20 -> q <> n -> user_entry s2 d' q = user_entry s1 d' q) as Hold.
  { intros q Hq Hne. rewrite Hue by done. by rewrite (proj2 (Z.eqb_neq q n)), andb_false_r. }
  assert ((b * 4096 + e mod 1024) / 4096 = b) as Hb.
  { symmetry. apply Z.div_unique with (e mod 1024); [|lia]. pose proof (Z.mod_pos_bound e 1024). lia. }
  assert (forall q, 0 <= q < n -> shared (user_entry s0 d q) = true -> user_entry s2 d' q / 4096 <> b) as Hfresh.
  { intros q Hq Hsq. rewrite Hold by lia. rewrite C5 by (try lia; by apply (cloning_dir n)). pose proof (cl_done _ _ _ _ _ Hc q Hq) as Hp.
    unfold page_copied in Hp. rewrite Hsq in Hp. destruct Hp as (b' & _ & _ & B3 & _ & -> & _).
    assert ((b' * 4096 + user_entry s0 d q mod 1024) / 4096 = b') as ->.
    { symmetry. apply Z.div_unique with (user_entry s0 d q mod 1024); [|lia]. pose proof (Z.mod_pos_bound (user_entry s0 d q) 1024). lia. }
    by intros ->. }
  split.
  - by apply vm_ok_set_user.
  - by eapply grown_trans.
  - done.
  - exact Ak.
  - intros q Hq. destruct (Z.eq_dec q n) as [->|Hne].
    + unfold page_copied. fold e. rewrite Hs. destruct (grown_foreign s1 s2 b G C9 C10). exists b.
      split; [done|]. split; [intros Ht; apply C8; by apply (cl_grown _ _ _ _ _ Hc)|]. do 2 (split; [done|]). split; [done|].
      intros o Ho. rewrite (byte_word s1 s2) by (first [done|intros k Hk; by apply G]). rewrite C11 by done.
      destruct (Hown n Hn Hs) as [T0 F0]. apply byte_word; [|done]. intros k Hk. by apply (cl_grown _ _ _ _ _ Hc).
    + specialize (A4 q ltac:(lia)). unfold page_copied in *. rewrite Hold by lia. destruct (shared (user_entry s0 d q)); [|done].
      destruct A4 as (b' & B1 & B2 & B3 & B4 & B5 & B6). destruct (grown_foreign s1 s2 b' G B3 B4). exists b'. do 5 (split; [done|]).
      intros o Ho. rewrite <- B6 by done. apply byte_word; [|done]. intros k Hk. by apply G.
  - intros q Hq. rewrite Hold by lia. apply A5. lia.
  - intros d2 q Hne Hd2 Hq. rewrite Hue by done. rewrite (proj2 (Z.eqb_neq d2 d')) by done. by apply A6.
  - intros q q' Hq Hq' S S'. destruct (Z.eq_dec q n) as [->|N], (Z.eq_dec q' n) as [->|N']; [done| | |].
    + rewrite Hnew, Hb. intros Heq. by destruct (Hfresh q' ltac:(lia) S').
    + rewrite Hnew, Hb. intros Heq. by destruct (Hfresh q ltac:(lia) S).
    + rewrite !Hold by lia. apply A7; try done; lia.
Qed.
End clone.

(** ** Room in the kernel's address space *)

(** [n] free pages below the last one.  A run that ends at the last page is
    not marked by [find_vspace], so two temporary pages there would be one. *)
Definition room (n : Z) s : Prop :=
  exists X : gset Z, n <= Z.of_nat (size X) /\ forall q, q ∈ X -> 0 < q < 2 ^ 20 - 1 /\ kentry s q = 0.

Lemma room_mono n n' s : n' <= n -> room n s -> room n' s.
Proof. intros Hn (X & Hx & Hf). exists X. split; [lia|done]. Qed.

Lemma room_not_full n s : 0 < n -> room n s -> ~ vspace_full s.
Proof.
  intros Hn (X & Hx & Hf) Hno. destruct (decide (X = ∅)) as [->|Hne]; [rewrite size_empty in Hx; lia|].
  apply set_choose_L in Hne as [q Hq]. destruct (Hf q Hq) as [Hr Hz]. apply (Hno q ltac:(lia)).
  intros j Hj. replace (q + j) with q by lia. by rewrite Z.mod_small by lia.
Qed.

Lemma room_space n s e : 0 < n -> room n s -> no_space s e -> only_nomem e.
Proof. intros Hn Hr [->|[_ Hf]]; [done|]. by destruct (room_not_full n s Hn Hr). Qed.

Lemma room_step n p s s' : room (n + 1) s -> (forall q, 0 <= q < 2 ^ 20 -> q <> p -> kentry s' q = kentry s q) -> room n s'.
Proof.
  intros (X & Hx & Hf) Hk. exists (X ∖ {[ p ]}). split.
  - rewrite size_difference_alt. assert (size (X ∩ {[ p ]}) <= 1)%nat; [|lia].
    rewrite <- (size_singleton (C := gset Z) p). apply subseteq_size. set_solver.
  - intros q [Hq Hne]%elem_of_difference. destruct (Hf q Hq) as [Hr Hz]. split; [done|]. rewrite Hk; [done|lia|set_solver].
Qed.

Lemma room_same n s s' : room n s -> (forall q, 0 <= q < 2 ^ 20 -> kentry s' q = kentry s q) -> room n s'.
Proof. intros (X & Hx & Hf) Hk. exists X. split; [done|]. intros q Hq. destruct (Hf q Hq). split; [done|]. rewrite Hk; [done|lia]. Qed.

(** At most [k] free pages of the kernel's address space go. *)
Definition uses (k : Z) s s' : Prop :=
  exists Y : gset Z, Z.of_nat (size Y) <= k /\ forall q, 0 <= q < 2 ^ 20 -> kentry s q = 0 -> q ∉ Y -> kentry s' q = 0.

Lemma uses_step p s s' : (forall q, 0 <= q < 2 ^ 20 -> q <> p -> kentry s' q = kentry s q) -> uses 1 s s'.
Proof. intros Hk. exists {[ p ]}. rewrite size_singleton. split; [lia|]. intros q Hq Hz Hne. rewrite Hk; [done|done|set_solver]. Qed.

Lemma uses_none s s' : (forall q, 0 <= q < 2 ^ 20 -> kentry s q = 0 -> kentry s' q = 0) -> uses 0 s s'.
Proof. intros Hk. exists ∅. rewrite size_empty. split; [done|]. intros q Hq Hz _. by apply Hk. Qed.

Lemma uses_trans k j s1 s2 s3 : uses k s1 s2 -> uses j s2 s3 -> uses (k + j) s1 s3.
Proof.
  intros (X & Hx & A) (Y & Hy & B). exists (X ∪ Y). split.
  - pose proof (size_union_alt X Y). assert (size (Y ∖ X) <= size Y)%nat by (apply subseteq_size; set_solver). lia.
  - intros q Hq Hz Hne. apply B; [done|apply A|]; set_solver.
Qed.

Lemma uses_refl s : uses 0 s s.
Proof. by apply uses_none. Qed.

Lemma uses_mono k k' s s' : k <= k' -> uses k s s' -> uses k' s s'.
Proof. intros Hk (Y & Hy & A). exists Y. split; [lia|done]. Qed.

Lemma uses_room k n s s' : uses k s s' -> room (n + k) s -> room n s'.
Proof.
  intros (Y & Hy & A) (X & Hx & Hf). exists (X ∖ Y). split.
  - rewrite size_difference_alt. assert (size (X ∩ Y) <= size Y)%nat by (apply subseteq_size; set_solver). lia.
  - intros q [Hq Hne]%elem_of_difference. destruct (Hf q Hq) as [Hr Hz]. split; [done|]. apply A; [lia|done|done].
Qed.

(** [n] free blocks of eight pages: what a kernel stack takes, whatever single
    pages have gone before. *)
Definition block_room (n : Z) s : Prop :=
  exists X : gset Z, n <= Z.of_nat (size X) /\ forall x, x ∈ X -> 0 < x < 2 ^ 17 /\ forall i, 0 <= i < 8 -> kentry s (x * 8 + i) = 0.

Lemma blocks_avoid (X Y : gset Z) : exists X' : gset Z, X' ⊆ X /\ (size X <= size X' + size Y)%nat /\ forall y, y ∈ Y -> y / 8 ∉ X'.
Proof.
  induction Y as [|y Y Hy (X' & Hs & Hn & Ha)] using set_ind_L.
  - exists X. split; [done|]. split; [lia|]. set_solver.
  - exists (X' ∖ {[ y / 8 ]}). split; [set_solver|]. split.
    + pose proof (size_union (C := gset Z) {[ y ]} Y ltac:(set_solver)). pose proof (size_singleton (C := gset Z) y). pose proof (size_difference_alt X' {[ y / 8 ]}) as Hd.
      assert (size (X' ∩ {[ (y / 8)%Z ]}) <= 1)%nat; [|lia]. rewrite <- (size_singleton (C := gset Z) (y / 8)%Z). apply subseteq_size. set_solver.
    + intros z [->%elem_of_singleton|Hz]%elem_of_union; [set_solver|]. specialize (Ha z Hz). set_solver.
Qed.

Lemma uses_blocks k n s s' : uses k s s' -> block_room (n + k) s -> block_room n s'.
Proof.
  intros (Y & Hy & A) (X & Hx & Hf). destruct (blocks_avoid X Y) as (X' & Hs & Hn & Ha). exists X'. split; [lia|].
  intros x Hin. destruct (Hf x (Hs x Hin)) as [Hr Hz]. split; [done|]. intros i Hi. apply A; [lia|by apply Hz|].
  intros Hin'. apply (Ha _ Hin'). by replace ((x * 8 + i) / 8) with x by (apply Z.div_unique with i; lia).
Qed.

Lemma block_room_mono n n' s : n' <= n -> block_room n s -> block_room n' s.
Proof. intros Hn (X & Hx & Hf). exists X. split; [lia|done]. Qed.

Lemma first_pages (X : gset Z) : exists Y : gset Z, size Y = size X /\ forall q, q ∈ Y -> exists x, x ∈ X /\ q = x * 8.
Proof.
  induction X as [|x X Hx (Y & Hn & Hy)] using set_ind_L; [by exists ∅|].
  assert (x * 8 ∉ Y) as Hne. { intros (z & Hz & Heq)%Hy. by replace x with z in Hx by lia. }
  exists ({[ x * 8 ]} ∪ Y). split.
  - pose proof (size_union (C := gset Z) {[ x * 8 ]} Y ltac:(set_solver)). pose proof (size_union (C := gset Z) {[ x ]} X ltac:(set_solver)).
    pose proof (size_singleton (C := gset Z) (x * 8)). pose proof (size_singleton (C := gset Z) x). lia.
  - intros q [->%elem_of_singleton|Hq]%elem_of_union; [exists x; set_solver|]. destruct (Hy q Hq) as (z & Hz & ->). exists z. set_solver.
Qed.

Lemma block_room_room n s : block_room n s -> room n s.
Proof.
  intros (X & Hx & Hf). destruct (first_pages X) as (Y & Hn & Hy). exists Y. split; [lia|].
  intros q (x & Hin & ->)%Hy. destruct (Hf x Hin) as [Hr Hz]. split; [lia|]. specialize (Hz 0 ltac:(lia)). by rewrite Z.add_0_r in Hz.
Qed.

(** A run for a kernel stack, or for less, that ends in the address space. *)
Lemma block_room_run n s : 0 < n -> block_room n s -> exists p, 0 < p /\ p + 8 <= 2 ^ 20 /\ forall k, k <= 8 -> free_run s p k.
Proof.
  intros Hn (X & Hx & Hf). destruct (decide (X = ∅)) as [->|Hne]; [rewrite size_empty in Hx; lia|].
  apply set_choose_L in Hne as [x Hin]. destruct (Hf x Hin) as [Hr Hz]. exists (x * 8). split; [lia|]. split; [lia|].
  intros k Hk j Hj. rewrite Z.mod_small by lia. apply Hz. lia.
Qed.

(** One page, of which there is one below the last. *)
Lemma wp_temp_page s n (Q : Z -> vstate F H -> Prop) E : vm_ok None s -> 0 <= n -> room (n + 1) s ->
  (forall p s', 0 < p < 2 ^ 20 - 1 -> kentry s p = 0 -> reserved None s p 1 s' -> room n s' -> Q (p * 4096) s') ->
  wp (find_vspace (v_kernel s) 1) Q E s.
Proof.
  intros Hok Hn Hroom HQ. assert (exists q, 0 < q < 2 ^ 20 - 1 /\ kentry s q = 0) as (q & Hq & Hz).
  { destruct Hroom as (X & Hx & Hf). destruct (decide (X = ∅)) as [->|Hne]; [rewrite size_empty in Hx; lia|].
    apply set_choose_L in Hne as [q Hq]. exists q. by apply Hf. }
  assert (free_run s q 1) as Hrun by (intros j Hj; replace (q + j) with q by lia; by rewrite Z.mod_small by lia).
  wp_apply (wp_find_vspace None s 1 E); [done|done|lia| |done]. intros v s' [(-> & -> & Hno)|(p & -> & Hp & Hf & Hlow & R)].
  { by destruct (Hno q ltac:(lia)). }
  assert (p <= q) as Hpq by (destruct (Z.le_gt_cases p q); [done|]; by destruct (Hlow q ltac:(lia))).
  rewrite (proj2 (Z.ltb_lt (p + 1) _)) in R by lia. apply HQ; [lia| |done|].
  - specialize (Hf 0 ltac:(lia)). by rewrite Z.add_0_r, Z.mod_small in Hf by lia.
  - apply (room_step n p s); [done|]. destruct R as (_ & _ & _ & _ & _ & _ & _ & He). intros x Hx Hne. rewrite He by done.
    destruct (Z.leb_spec p x), (Z.ltb_spec x (p + 1)); cbn; try done; lia.
Qed.

Lemma reserved_spare s p s' : vm_ok None s -> 0 < p < 2 ^ 20 -> kentry s p = 0 -> spare s p.
Proof. intros Hok Hp Hz r Hr. apply (pointer_absent None); try done. by rewrite Hz. Qed.

Lemma spare_dirs s s' p : v_dirs s' = v_dirs s -> v_kernel s' = v_kernel s -> spare s p -> spare s' p.
Proof.
  intros Hd Hk Hs r Hr. apply (exists_role_dirs s) in Hr; [|done..]. specialize (Hs r Hr).
  destruct r; cbn [pointer] in *; unfold kdir, dir in *; by rewrite ?Hd, ?Hk.
Qed.

Lemma windows_dirs s s' p1 p2 : v_dirs s' = v_dirs s -> v_kernel s' = v_kernel s -> windows s p1 p2 -> windows s' p1 p2.
Proof. intros Hd Hk (A1 & A2 & A3 & A4 & A5). do 3 (split; [done|]). split; by apply (spare_dirs s). Qed.

(** The entries that [page_directory_clone_table] has a case for. *)
Definition copyable s (d : Z) : Prop := forall q, 0 <= q < 2 ^ 20 ->
  let e := user_entry s d q in e = 0 \/ e = PAGE_VALUE_GUARD \/ (Z.testbit e 0 = true /\ e <> PAGE_VALUE_RESERVED).

Section clone_loops.
Variables (s0 : vstate F H) (d d' : Z).
Hypothesis Hd : exists_role s0 (UDir d).
Hypothesis Hd' : exists_role s0 (UDir d').
Hypothesis Hdd : d <> d'.
Hypothesis Hown : owned s0 d.
Hypothesis Hkinds : copyable s0 d.

Lemma page_number i k : 0 <= i < 1024 -> 0 <= k < 1024 -> 0 <= i * 1024 + k < 2 ^ 20 /\ (i * 1024 + k) / 1024 = i /\ (i * 1024 + k) mod 1024 = k.
Proof.
  intros Hi Hk. split; [lia|]. split; symmetry; [apply Z.div_unique with k; lia|apply Z.mod_unique with i; lia].
Qed.

(** The words of a table are the entries of its directory. *)
Lemma table_entry s x i k : exists_role s (UTab x i) -> 0 <= i < 1024 -> 0 <= k < 1024 ->
  word s (frame s (UTab x i)) k = user_entry s x (i * 1024 + k).
Proof.
  intros (_ & _ & _ & Ht) Hi Hk. unfold user_entry. destruct (page_number i k Hi Hk) as (_ & -> & ->).
  by rewrite (proj2 (Z.eqb_neq _ 0)).
Qed.

Lemma wp_clone_entry i k s p1 p2 : 0 <= i < 1024 -> 0 <= k < 1024 ->
  cloning s0 d d' (i * 1024 + k) s -> windows s p1 p2 -> exists_role s (UTab d i) -> exists_role s (UTab d' i) ->
  wp (clone_entry (pointer s (UTab d' i)) (pointer s (UTab d i)) (p1 * 4096) (p2 * 4096) k)
    (fun _ s' => cloning s0 d d' (i * 1024 + (k + 1)) s' /\ v_dirs s' = v_dirs s /\ kernel_same p1 p2 s s') only_nomem s.
Proof.
  intros Hi Hk Hc Hw Hr Hr'. destruct (page_number i k Hi Hk) as (Hn & Ni & Nk). set (n := i * 1024 + k) in *.
  replace (i * 1024 + (k + 1)) with (n + 1) by (unfold n; lia). pose proof (cl_ok _ _ _ _ _ Hc) as Hok.
  assert (user_entry s d n = user_entry s0 d n) as He by (apply (cl_others _ _ _ _ _ Hc); done).
  unfold clone_entry. wp_steps. apply (wp_read_role None); [done|done|by apply (vo_mapped None s Hok)|done|].
  rewrite table_entry by done. fold n. rewrite He. set (e := user_entry s0 d n) in *.
  assert (forall s, cloning s0 d d' n s -> shared e = false -> cloning s0 d d' (n + 1) s) as Hskip by (intros; by apply cloning_skip).
  wp_cond. destruct (Z.eqb_spec e 0) as [Ez|Ez]; [wp_steps; split; [apply Hskip; [done|by rewrite Ez]|done]|].
  wp_cond. destruct (Z.eqb_spec e PAGE_VALUE_GUARD) as [Eg|Eg]; [wp_steps; split; [apply Hskip; [done|by rewrite Eg]|done]|].
  pose proof (Hkinds n Hn) as Hkind. cbv zeta in Hkind. fold e in Hkind. destruct Hkind as [Hk0|[Hkg|[Hkp Hkr]]]; [done|done|].
  wp_cond. rewrite (proj2 (Z.eqb_neq e PAGE_VALUE_RESERVED)) by done.
  change PAGE_PRESENT with (2 ^ 0). change PAGE_USER with (2 ^ 2). rewrite !testbit_land by lia. rewrite !negb_involutive.
  destruct (Z.testbit e 0) eqn:B0; [|by destruct (Bool.diff_false_true)]. destruct (Z.testbit e 2) eqn:B2; cbn [negb andb].
  2: { wp_steps. split; [apply Hskip; [done|unfold shared; by rewrite B0, B2]|done]. }
  assert (shared e = true) as Hsh by (unfold shared; by rewrite B0, B2).
  wp_steps. apply (wp_read_role None); [done|done|by apply (vo_mapped None s Hok)|done|].
  rewrite table_entry by done. fold n. rewrite (cl_rest _ _ _ _ _ Hc n) by lia. change (negb (0 =? 0)) with false. cbv iota. wp_steps.
  destruct (Hown n Hn Hsh) as [T F']. destruct (grown_foreign s0 s _ (cl_grown _ _ _ _ _ Hc) T F') as [T1 F1].
  wp_apply (wp_copy_frame s p1 p2 e); [done|done|done|done| |done]. intros v s1 (b & -> & Hf).
  pose proof (fc_dirs _ _ _ _ _ _ Hf) as Hds. pose proof (fc_ok _ _ _ _ _ _ Hf) as Hok1.
  assert (v_kernel s1 = v_kernel s) as Hks by apply (fc_grown _ _ _ _ _ _ Hf).
  assert (exists_role s1 (UTab d' i)) as Hr1 by (by apply (exists_role_dirs s)).
  assert (pointer s (UTab d' i) = pointer s1 (UTab d' i)) as -> by (cbn; unfold dir; by rewrite Hds).
  apply (wp_write_role None); [done|done|by apply (vo_mapped None s1 Hok1)|done|]. rewrite clone_entry_value.
  pose proof (cloning_page s0 d d' Hd' Hown n s s1 b p1 p2 Hn Hc Hsh Hf) as Hnext. rewrite Ni, Nk in Hnext.
  split; [by apply Hnext|]. split; [done|]. intros q Hq N1 N2. rewrite kentry_user_set by done. by apply (fc_kernel _ _ _ _ _ _ Hf).
Qed.

(** One table: the two temporary pages are given back. *)
Lemma wp_clone_table i s n : 0 <= i < 1024 -> 0 <= n ->
  cloning s0 d d' (i * 1024) s -> exists_role s (UTab d i) -> exists_role s (UTab d' i) -> room (n + 2) s ->
  wp (page_directory_clone_table (pointer s (UTab d' i)) (pointer s (UTab d i)))
    (fun _ s' => cloning s0 d d' ((i + 1) * 1024) s' /\ forall q, 0 <= q < 2 ^ 20 -> kentry s' q = kentry s q) only_nomem s.
Proof.
  intros Hi Hn Hc Hr Hr' Hroom. pose proof (cl_ok _ _ _ _ _ Hc) as Hok. unfold page_directory_clone_table.
  assert (forall r, exists_role s r -> pointer s r <> 0) as Hp0.
  { intros r Hrr. destruct (vo_mapped None s Hok r Hrr) as (p & -> & Hp & _); [done|]. lia. }
  rewrite !(proj2 (Z.eqb_neq _ 0)) by (by apply Hp0). cbn [negb kassert]. unfold kernel_directory. wp_steps.
  apply (wp_temp_page s (n + 1)); [done|lia|by replace (n + 1 + 1) with (n + 2) by lia|]. intros p1 s1 Hp1 Hz1 R1 Hroom1.
  pose proof R1 as (Hok1 & _ & Hh1 & Hd1 & Hk1 & _ & _ & He1).
  rewrite (proj2 (Z.eqb_neq (p1 * 4096) 0)) by lia. cbn [negb kassert]. wp_steps. rewrite <- Hk1.
  apply (wp_temp_page s1 n); [done|done|done|]. intros p2 s2 Hp2 Hz2 R2 _.
  pose proof R2 as (Hok2 & _ & Hh2 & Hd2 & Hk2 & _ & _ & He2).
  rewrite (proj2 (Z.eqb_neq (p2 * 4096) 0)) by lia. cbn [negb kassert]. wp_steps.
  assert (p1 <> p2) as Hne.
  { intros ->. rewrite He1 in Hz2 by lia. rewrite (proj2 (Z.leb_le p2 p2)), (proj2 (Z.ltb_lt p2 (p2 + 1))) in Hz2 by lia. done. }
  assert (windows s2 p1 p2) as Hw.
  { split; [lia|]. split; [lia|]. split; [done|]. split; apply (spare_dirs s); try congruence; apply reserved_spare; try done; try lia.
    rewrite He1 in Hz2 by lia. destruct (Z.leb_spec p1 p2), (Z.ltb_spec p2 (p1 + 1)); cbn in Hz2; try done; lia. }
  assert (cloning s0 d d' (i * 1024) s2) as Hc2.
  { apply (cloning_step s0 d d' Hd' _ s); [lia|done|done|eapply grown_trans; by eapply grown_reserved|congruence|intros x; by rewrite Hd2, Hd1|].
    intros x q Hx Hq. assert (exists_role s1 (UDir x)) as Hx1 by (by apply (exists_role_dirs s)).
    pose proof (keeps_reserved s p1 s1 ltac:(lia) (or_introl R1) Hok) as (_ & _ & _ & K1 & _).
    pose proof (keeps_reserved s1 p2 s2 ltac:(lia) (or_introl R2) Hok1) as (_ & _ & _ & K2 & _). rewrite K2, K1 by done. done. }
  assert (forall x, pointer s (UTab x i) = pointer s2 (UTab x i)) as Hpt by (intros x; cbn; unfold dir; by rewrite Hd2, Hd1).
  rewrite !Hpt. eapply wp_mono; [apply (wp_for_up (fun k s' => cloning s0 d d' (i * 1024 + k) s' /\ v_dirs s' = v_dirs s2 /\ kernel_same p1 p2 s2 s'))| |done].
  - split; [by rewrite Z.add_0_r|]. split; [done|]. by intros q.
  - intros k s3 Hk (Hc3 & Hd3 & Hk3). change (0 + Z.of_nat 1024) with 1024 in Hk.
    assert (v_kernel s3 = v_kernel s2) as Hv3.
    { rewrite (gr_kernel _ _ (cl_grown _ _ _ _ _ Hc3)). symmetry. apply Hc2. }
    assert (forall x, pointer s2 (UTab x i) = pointer s3 (UTab x i)) as Hpt3 by (intros x; cbn; unfold dir; by rewrite Hd3).
    rewrite !Hpt3. wp_apply (wp_clone_entry i k s3 p1 p2); [done|done|done|by apply (windows_dirs s2)| | | |done].
    1,2: apply (exists_role_dirs s); congruence || done.
    intros u s4 (Hc4 & Hd4 & Hk4). split; [done|]. split; [congruence|]. intros q Hq N1 N2. rewrite Hk4 by done. by apply Hk3.
  - intros u s3 (Hc3 & Hd3 & Hk3). change (0 + Z.of_nat 1024) with 1024 in Hc3. pose proof (cl_ok _ _ _ _ _ Hc3) as Hok3.
    assert (v_kernel s3 = v_kernel s2) as Hv3.
    { rewrite (gr_kernel _ _ (cl_grown _ _ _ _ _ Hc3)). symmetry. apply Hc2. }
    assert (windows s3 p1 p2) as Hw3 by (by apply (windows_dirs s2)).
    destruct (mapped_windows s3 p1 p2 0 0 Hok3 Hw3) as (Hok4 & Hok5 & G5 & U5 & K5 & E1 & E2 & _).
    wp_steps. apply (wp_kernel_map s3 (kentry s3)); [by apply kview_refl|lia|]. wp_steps. apply wp_invalidate. wp_steps.
    apply (wp_kernel_map (set_kentry p1 0 s3) (kentry (set_kentry p1 0 s3))); [by apply kview_refl|lia|]. wp_steps. apply wp_invalidate.
    change (Z.lor 0 0) with 0. set (s5 := set_kentry p2 0 (set_kentry p1 0 s3)) in *. split.
    + replace ((i + 1) * 1024) with (i * 1024 + 1024) by lia. by apply (cloning_step s0 d d' Hd' _ s3); [lia|..].
    + intros q Hq. destruct (Z.eq_dec q p1) as [->|N1]; [by rewrite E1|]. destruct (Z.eq_dec q p2) as [->|N2].
      * rewrite E2. symmetry. rewrite He1 in Hz2 by done. destruct (Z.leb_spec p1 p2), (Z.ltb_spec p2 (p1 + 1)); cbn in Hz2; try done; lia.
      * rewrite K5, Hk3, He2, He1 by done. destruct (Z.leb_spec p1 q), (Z.ltb_spec q (p1 + 1)), (Z.leb_spec p2 q), (Z.ltb_spec q (p2 + 1)); cbn; try done; lia.
Qed.

(** The kernel keeps what it had mapped. *)
Definition kernel_kept s s' : Prop := forall q, 0 <= q < 2 ^ 20 -> kentry s q <> 0 -> kentry s' q = kentry s q.

Lemma cloning_no_table i s : 0 <= i < 1024 -> cloning s0 d d' (i * 1024) s -> exists_role s (UDir d) -> tables (dir s d) i = 0 ->
  cloning s0 d d' ((i + 1) * 1024) s.
Proof.
  intros Hi Hc Hr Ht. assert (forall k : nat, (k <= 1024)%nat -> cloning s0 d d' (i * 1024 + Z.of_nat k) s) as Hall.
  { induction k as [|k IH]; intros Hk; [by rewrite Z.add_0_r|]. replace (i * 1024 + Z.of_nat (Datatypes.S k)) with (i * 1024 + Z.of_nat k + 1) by lia.
    destruct (page_number i (Z.of_nat k)) as (Hn & Ni & _); [lia|lia|]. apply cloning_skip; [done|apply IH; lia|].
    rewrite <- (cl_others _ _ _ _ _ Hc) by done. unfold user_entry. rewrite Ni, Ht. done. }
  replace ((i + 1) * 1024) with (i * 1024 + Z.of_nat 1024) by lia. by apply Hall.
Qed.

Lemma wp_clone_round i s n : 0 <= i < 1024 -> 0 <= n -> cloning s0 d d' (i * 1024) s -> room (n + 3) s ->
  wp (clone_round d' d i)
    (fun _ s' => cloning s0 d d' ((i + 1) * 1024) s' /\ room (n + 2) s' /\ kernel_kept s s') only_nomem s.
Proof.
  intros Hi Hn Hc Hroom. pose proof (cl_ok _ _ _ _ _ Hc) as Hok.
  assert (exists_role s (UDir d)) as Hrd by (by apply (cloning_dir s0 d d' (i * 1024))).
  assert (exists_role s (UDir d')) as Hrd' by (by apply (cloning_dir s0 d d' (i * 1024))).
  unfold clone_round. wp_steps. apply wp_directory; [by destruct Hrd|]. wp_steps.
  apply (wp_read_role None s (UDir d)); [done|done|by apply (vo_mapped None s Hok)|done|].
  destruct (vo_udir None s Hok d i Hrd Hi) as [Hz Hu]; [done|done|]. change PAGE_TABLE_PRESENT with (Z.ones 1).
  rewrite land_ones_mod by lia. change (2 ^ 1) with 2. wp_cond.
  destruct (Z.eq_dec (tables (dir s d) i) 0) as [Ht|Ht].
  { rewrite Hz by done. change (0 mod 2 =? 0) with true. change (0 =? 0) with true. cbv iota. wp_steps.
    split; [by apply cloning_no_table|]. split; [by apply (room_mono (n + 3)); [lia|]|]. by intros q. }
  specialize (Hu Ht). unfold usable in Hu. set (w := word s (frame s (UDir d)) i) in *. pose proof (Z.div_mod w 4 ltac:(lia)) as Hw4.
  assert (w mod 2 = 1) as -> by (symmetry; apply Z.mod_unique with (2 * (w / 4) + 1); lia). change (1 =? 0) with false. cbv iota.
  assert (is_u32 (Z.shiftl i 22)) as Hva by (rewrite Z.shiftl_mul_pow2 by lia; unfold is_u32; lia).
  assert (Z.shiftl i 22 / 2 ^ 22 = i) as Hix by (rewrite Z.shiftl_mul_pow2 by lia; apply Z.div_mul; lia).
  wp_steps. wp_apply (wp_get_table_alloc 0 s d' (Z.shiftl i 22) only_nomem); [done|done|done| |intros e; apply (room_space (n + 3)); [lia|done]| |done].
  { rewrite Z.shiftl_mul_pow2 by lia. replace (i * 2 ^ 22) with (i * 1024 * 4096) by lia. apply page_aligned. }
  intros t s1 (Hok1 & Hr1 & -> & (p & Hzp & K1 & K2 & K3 & K4 & K5) & G & Hh & Hds). rewrite Hix in *.
  assert (dir s1 d = dir s d) as Hdir by (unfold dir; by rewrite Hds).
  assert (cloning s0 d d' (i * 1024) s1) as Hc1.
  { apply (cloning_step s0 d d' Hd' _ s); try done; [lia|]. intros x q Hx Hq. by apply K4. }
  assert (exists_role s1 (UTab d i)) as Hr by (destruct Hrd; by apply G).
  assert (forall q, 0 <= q < 2 ^ 20 -> kentry s q <> 0 -> kentry s1 q = kentry s q) as Hkept.
  { intros q Hq Hnz. apply K5; [done|]. intros ->. by apply Hnz, Hzp. }
  change (tables (dir s d) i) with (pointer s (UTab d i)).
  assert (pointer s (UTab d i) = pointer s1 (UTab d i)) as -> by (cbn [pointer]; by rewrite Hdir).
  assert (room (n + 2) s1) as Hroom1 by (by apply (room_step (n + 2) p s); [replace (n + 2 + 1) with (n + 3) by lia|]).
  wp_apply (wp_clone_table i s1 n); [done..| |done]. intros u s2 (Hc2 & He2). split; [done|]. split.
  - by apply (room_same (n + 2) s1).
  - intros q Hq Hnz. rewrite He2 by done. by apply Hkept.
Qed.

Lemma wp_page_directory_clone n : 0 <= n -> vm_ok None s0 -> (forall q, 0 <= q < 2 ^ 20 -> user_entry s0 d' q = 0) -> room (n + 1026) s0 ->
  wp (page_directory_clone d' d) (fun _ s' => cloning s0 d d' (2 ^ 20) s' /\ room (n + 2) s' /\ kernel_kept s0 s') only_nomem s0.
Proof.
  intros Hn Hok Hempty Hroom. unfold page_directory_clone.
  assert (forall x, exists_role s0 (UDir x) -> x <> 0) as Hnz.
  { intros x [_ [y Hy]] ->. destruct (vo_kernel None s0 Hok) as (_ & _ & Hz). congruence. }
  rewrite !(proj2 (Z.eqb_neq _ 0)) by (by apply Hnz). cbn [negb kassert]. wp_steps.
  eapply wp_mono; [apply (wp_for_up (fun i s => cloning s0 d d' (i * 1024) s /\ room (n + (1024 - i) + 2) s /\ kernel_kept s0 s))| |done].
  - split; [|split; [by replace (n + (1024 - 0) + 2) with (n + 1026) by lia|by intros q]].
    split; [done|apply grown_refl|done|done|intros q Hq; lia|intros q Hq; apply Hempty; lia|done|intros q q' Hq; lia].
  - intros i s Hi (Hc & Hr & Hk). change (0 + Z.of_nat 1024) with 1024 in Hi.
    wp_apply (wp_clone_round i s (n + (1024 - i - 1))); [lia|lia|done|by replace (n + (1024 - i - 1) + 3) with (n + (1024 - i) + 2) by lia| |done].
    intros u s' (Hc' & Hr' & Hk'). split; [done|]. split; [by replace (n + (1024 - (i + 1)) + 2) with (n + (1024 - i - 1) + 2) by lia|].
    intros q Hq Hne. rewrite Hk' by (try done; by rewrite Hk). by apply Hk.
  - intros u s (Hc & Hr & Hk). split; [done|]. split; [|done]. change (0 + Z.of_nat 1024) with 1024 in Hr.
    by replace (n + 2) with (n + (1024 - 1024) + 2) by lia.
Qed.
End clone_loops.

(** ** Regions shared with the kernel *)

(** Page [p] of [d] gets entry [e]; a table may come with it. *)
Definition page_set s (d p e : Z) s' : Prop :=
  vm_ok None s' /\ grown s s' /\ v_heap s' = v_heap s /\ same_keys s s' /\ kernel_kept s s' /\
  forall x q, exists_role s (UDir x) -> 0 <= q < 2 ^ 20 -> user_entry s' x q = if (x =? d) && (q =? p) then e else user_entry s x q.

Lemma kernel_kept_trans s1 s2 s3 : kernel_kept s1 s2 -> kernel_kept s2 s3 -> kernel_kept s1 s3.
Proof. intros A B q Hq Hne. rewrite B; [by apply A|done|by rewrite A]. Qed.

Lemma wp_map_user_page {A} s d p pa fl (K : M (vstate F H) A) Q (E : panic -> Prop) : vm_ok None s -> exists_role s (UDir d) -> 0 <= p < 2 ^ 20 ->
  (forall e, no_space s e -> E e) ->
  (forall s', page_set s d p (Z.lor pa fl) s' -> uses 1 s s' -> wp K Q E s') ->
  wp (let! t := table_alloc (p * 4096) d in map_page t (p * 4096) pa fl >>> K) Q E s.
Proof.
  intros Hok Hd Hp HE HK. unfold table_alloc. wp_steps. wp_apply (wp_get_table_alloc 0 s d (p * 4096) E); [done|done|by apply page_u32|apply page_aligned|done| |done].
  intros t s1 (Hok1 & Hr1 & -> & (p0 & Hz & K1 & K2 & K3 & K4 & K5) & G & Hh & _). destruct (page_parts p) as [E1 E2]. rewrite E2 in *.
  destruct (page_split p Hp). wp_steps. apply (wp_map_page None); [done|done|by apply (vo_mapped None s1 Hok1)|apply page_aligned|]. rewrite E1.
  apply HK.
  2: { apply (uses_step p0). intros q Hq Hne. rewrite kentry_user_set by done. by apply K5. }
  split; [by apply vm_ok_set_user|]. split; [eapply grown_trans; [exact G|by apply (grown_set_word None)]|]. do 2 (split; [done|]). split.
  - intros q Hq Hne. rewrite kentry_user_set by done. apply K5; [done|]. intros ->. by apply Hne, Hz.
  - intros x q Hx Hq. rewrite user_entry_set by (try done; by apply G). by rewrite K4.
Qed.

(** A region of whole pages, its end rounded up, that ends in the address space. *)
Definition region_ok (start end_ : Z) : Prop :=
  start mod 4096 = 0 /\ 0 <= start <= end_ /\ end_ <= 2 ^ 32 /\ end_ - start <= 2 ^ 32 - 4096.

Definition in_region (start end_ q : Z) : bool := (start <=? q * 4096) && (q * 4096 <? end_).

(** The pages of the region get their own addresses. *)
Definition region_set s (d start end_ fl : Z) s' : Prop :=
  vm_ok None s' /\ grown s s' /\ v_heap s' = v_heap s /\ same_keys s s' /\ kernel_kept s s' /\
  forall x q, exists_role s (UDir x) -> 0 <= q < 2 ^ 20 ->
    user_entry s' x q = if (x =? d) && in_region start end_ q then Z.lor (q * 4096) fl else user_entry s x q.

(** The pages of a region; each of them can need a table. *)
Definition region_pages (start end_ : Z) : Z := (end_ - start) / 4096 + 1.

Lemma wp_map_shared_region s d start end_ fl (E : panic -> Prop) : vm_ok None s -> exists_role s (UDir d) -> region_ok start end_ ->
  E NoMemory -> E AssertFail \/ room (region_pages start end_) s ->
  wp (process_map_shared_region d start end_ fl) (fun _ s' => region_set s d start end_ fl s' /\ uses (region_pages start end_) s s') E s.
Proof.
  intros Hok Hd (Ha & Hs & He & Hl) HN HA. unfold process_map_shared_region. rewrite (proj2 (Z.eqb_neq d 0)) by (by eapply udir_nonzero).
  set (p0 := start / 4096). assert (start = p0 * 4096) as Hst by (pose proof (Z.div_mod start 4096); lia).
  change 0xFFF with (Z.ones 12). rewrite land_ones_mod by lia. change (2 ^ 12) with 4096. rewrite Ha. cbn [negb kassert Z.eqb]. wp_steps.
  rewrite (u32_small (end_ - start)) by (unfold is_u32; lia). set (len := end_ - start) in *.
  eapply (wp_loop (fun i s' => exists j, i = j * 4096 /\ 0 <= j /\ i < len + 4096 /\ region_set s d start (start + i) fl s' /\ uses j s s')
    (fun i _ => Z.to_nat (2 ^ 20 - i / 4096))).
  - intros i s1 (j & -> & Hj & Hjl & (Hok1 & G & Hh & Hks & Hk & Hu) & Huse).
    assert (j <= region_pages start end_) as Hjr.
    { unfold region_pages. fold len. pose proof (Z.div_mod len 4096 ltac:(lia)). pose proof (Z.mod_pos_bound len 4096 ltac:(lia)). lia. } wp_cond. destruct (Z.ltb_spec (j * 4096) len).
    + rewrite (u32_small (start + j * 4096)) by (unfold is_u32; lia). replace (start + j * 4096) with ((p0 + j) * 4096) in * by lia.
      assert (0 <= p0 + j < 2 ^ 20) as Hpj by lia.
      assert (j < region_pages start end_) as Hjr'.
      { unfold region_pages. fold len. pose proof (Z.div_mod len 4096 ltac:(lia)). pose proof (Z.mod_pos_bound len 4096 ltac:(lia)). lia. }
      apply wp_map_user_page; [done|by apply G|done| |].
      { intros e He1. destruct HA as [HA|HA]; [by destruct He1 as [->|[-> _]]|].
        assert (only_nomem e) as ->; [|done]. apply (room_space (region_pages start end_ - j) s1); [lia| |done].
        apply (uses_room j _ s); [done|]. by replace (region_pages start end_ - j + j) with (region_pages start end_) by lia. }
      intros s2 (Hok2 & G2 & Hh2 & Hks2 & Hk2 & Hu2) Hus2. wp_steps.
      replace (j * 4096 + BLOCK_SIZE) with ((j + 1) * 4096) by (unfold BLOCK_SIZE; lia). rewrite u32_small by (unfold is_u32; lia).
      split; [|rewrite !Z.div_mul by lia; lia]. exists (j + 1). split; [done|]. split; [lia|]. split; [lia|]. split; [|by eapply uses_trans].
      split; [done|]. split; [by eapply grown_trans|]. split; [congruence|]. split; [intros x; by rewrite (Hks2 x)|]. split; [by eapply kernel_kept_trans|].
      intros x q Hx Hq. rewrite Hu2 by (try done; by apply G). rewrite Hu by done. unfold in_region.
      destruct (Z.eqb_spec x d); cbn [andb]; [|done]. destruct (Z.eqb_spec q (p0 + j)) as [->|]; destruct (Z.leb_spec start (q * 4096)) || destruct (Z.leb_spec start ((p0 + j) * 4096)); cbn [andb]; try done; try lia.
      * by rewrite (proj2 (Z.ltb_lt _ _)) by lia.
      * destruct (Z.ltb_spec (q * 4096) ((p0 + j) * 4096)), (Z.ltb_spec (q * 4096) (start + (j + 1) * 4096)); try done; lia.
    + wp_steps. split; [|by apply (uses_mono j)]. do 5 (split; [done|]). intros x q Hx Hq. rewrite Hu by done. unfold in_region.
      destruct (Z.ltb_spec (q * 4096) (start + j * 4096)), (Z.ltb_spec (q * 4096) end_); try done; lia.
  - exists 0. split; [done|]. split; [done|]. split; [lia|]. split; [|apply uses_refl]. split; [done|]. split; [apply grown_refl|]. do 2 (split; [done|]). split; [by intros q|].
    intros x q Hx Hq. replace (in_region start (start + 0) q) with false; [by rewrite andb_false_r|].
    symmetry. unfold in_region. destruct (Z.leb_spec start (q * 4096)); [|done]. cbn [andb]. apply Z.ltb_ge. lia.
  - change (0 / 4096) with 0. lia.
Qed.

(** ** The child of a process *)

Lemma user_byte_grown s s' x v : exists_role s (UDir x) -> owned s x -> grown s s' -> 0 <= v < 2 ^ 32 ->
  user_entry s' x (v / 4096) = user_entry s x (v / 4096) -> user_byte s' x v = user_byte s x v.
Proof.
  intros Hx Ho G Hv He. unfold user_byte. rewrite He. destruct (accessible (user_entry s x (v / 4096))) eqn:Ha; [|done]. f_equal.
  destruct (Ho (v / 4096)) as [T Fo]; [by apply user_page_range|by apply accessible_shared|].
  apply byte_word; [|apply Z.mod_pos_bound; lia]. intros k Hk. by apply G.
Qed.

Lemma owned_grown s s' x : owned s x -> grown s s' ->
  (forall q, 0 <= q < 2 ^ 20 -> shared (user_entry s' x q) = true -> user_entry s' x q = user_entry s x q) -> owned s' x.
Proof.
  intros Ho G Hu q Hq Hs. pose proof (Hu q Hq Hs) as He. rewrite He in *. destruct (Ho q Hq Hs). by apply (grown_foreign s s').
Qed.

Section child.
Variables (s0 : vstate F H) (d d' : Z) (s : vstate F H).
Hypothesis Hc : cloning s0 d d' (2 ^ 20) s.

Lemma child_entry q : 0 <= q < 2 ^ 20 -> shared (user_entry s d' q) = shared (user_entry s0 d q) /\ accessible (user_entry s d' q) = accessible (user_entry s0 d q).
Proof.
  intros Hq. pose proof (cl_done _ _ _ _ _ Hc q Hq) as Hp. unfold page_copied in Hp. set (e := user_entry s0 d q) in *.
  destruct (shared e) eqn:Hs.
  - destruct Hp as (b & _ & _ & _ & _ & He & _). destruct (accessible_low (user_entry s d' q) e) as [A B]; [|by rewrite A, B].
    rewrite He. replace (b * 4096) with (b * 4 * 1024) by lia. rewrite Z.add_comm, Z.mod_add by lia. by rewrite Z.mod_mod by lia.
  - rewrite Hp. split; [done|]. destruct (accessible e) eqn:Ha; [|done]. apply accessible_shared in Ha. congruence.
Qed.

Lemma child_frame q : 0 <= q < 2 ^ 20 -> shared (user_entry s d' q) = true ->
  taken s (user_entry s d' q / 4096) /\ foreign s (user_entry s d' q / 4096) /\ ~ taken s0 (user_entry s d' q / 4096).
Proof.
  intros Hq Hs. rewrite (proj1 (child_entry q Hq)) in Hs. pose proof (cl_done _ _ _ _ _ Hc q Hq) as Hp. unfold page_copied in Hp. rewrite Hs in Hp.
  destruct Hp as (b & _ & B2 & B3 & B4 & -> & _). set (m := user_entry s0 d q mod 1024). pose proof (Z.mod_pos_bound (user_entry s0 d q) 1024).
  assert ((b * 4096 + m) / 4096 = b) as -> by (symmetry; apply Z.div_unique with m; lia). done.
Qed.

Lemma child_owned : owned s d'.
Proof. intros q Hq Hs. by destruct (child_frame q Hq Hs) as (? & ? & _). Qed.

Lemma child_bytes v : 0 <= v < 2 ^ 32 -> user_byte s d' v = user_byte s0 d v.
Proof.
  intros Hv. pose proof (user_page_range v Hv) as Hq. unfold user_byte. rewrite (proj2 (child_entry _ Hq)).
  destruct (accessible (user_entry s0 d (v / 4096))) eqn:Ha; [|done]. f_equal. apply accessible_shared in Ha.
  pose proof (cl_done _ _ _ _ _ Hc _ Hq) as Hp. unfold page_copied in Hp. rewrite Ha in Hp. destruct Hp as (b & _ & _ & _ & _ & -> & Hb).
  set (m := user_entry s0 d (v / 4096) mod 1024). pose proof (Z.mod_pos_bound (user_entry s0 d (v / 4096)) 1024).
  assert ((b * 4096 + m) / 4096 = b) as -> by (symmetry; apply Z.div_unique with m; lia). apply Hb. apply Z.mod_pos_bound. lia.
Qed.

Lemma child_pages q q' : 0 <= q < 2 ^ 20 -> 0 <= q' < 2 ^ 20 -> shared (user_entry s d' q) = true -> shared (user_entry s d' q') = true ->
  user_entry s d' q / 4096 = user_entry s d' q' / 4096 -> q = q'.
Proof.
  intros Hq Hq' S S'. rewrite (proj1 (child_entry _ Hq)) in S. rewrite (proj1 (child_entry _ Hq')) in S'. by apply (cl_distinct _ _ _ _ _ Hc).
Qed.
End child.

Lemma not_shared_kernel q : shared (Z.lor (q * 4096) PAGE_PRESENT) = false.
Proof.
  rewrite lor_page by (unfold PAGE_PRESENT; lia). destruct (accessible_low (q * 4096 + PAGE_PRESENT) PAGE_PRESENT) as [_ ->]; [|done].
  replace (q * 4096) with (q * 4 * 1024) by lia. by rewrite Z.add_comm, Z.mod_add by lia.
Qed.

(** The child [d'] of [d] in [s'], where [s] was before. *)
Record forked s (d d' : Z) s' : Prop := Forked {
  fk_ok : vm_ok None s';
  fk_new : v_dirs s !! d' = None /\ exists_role s' (UDir d');
  fk_bytes : forall v, 0 <= v < 2 ^ 32 -> user_byte s' d' v = user_byte s d v;
  fk_others : forall x v, exists_role s (UDir x) -> owned s x -> 0 <= v < 2 ^ 32 -> user_byte s' x v = user_byte s x v;
  fk_owned : owned s' d' /\ forall x, exists_role s (UDir x) -> owned s x -> exists_role s' (UDir x) /\ owned s' x;
  fk_pages : user_pages s' d';
  fk_apart : forall x q q', exists_role s (UDir x) -> owned s x -> 0 <= q < 2 ^ 20 -> 0 <= q' < 2 ^ 20 ->
    shared (user_entry s' d' q) = true -> shared (user_entry s' x q') = true -> user_entry s' d' q / 4096 <> user_entry s' x q' / 4096;
  fk_kernel : kernel_kept s s';
  fk_live : dirs_live s';
}.

Section fork.
Variables data_start data_end text_start text_end : Z.
Hypothesis Hdata : region_ok data_start data_end.
Hypothesis Htext : region_ok text_start text_end.

(** Whether a page lies in one of the two regions. *)
Definition kernel_shared (q : Z) : bool := in_region data_start data_end q || in_region text_start text_end q.

Definition kernel_shared_pages : Z := region_pages data_start data_end + region_pages text_start text_end.

Lemma wp_map_shared s d (E : panic -> Prop) : vm_ok None s -> exists_role s (UDir d) -> E NoMemory -> E AssertFail \/ room kernel_shared_pages s ->
  wp (process_page_directory_map_shared data_start data_end text_start text_end d)
    (fun _ s' => vm_ok None s' /\ grown s s' /\ v_heap s' = v_heap s /\ same_keys s s' /\ kernel_kept s s' /\
      (forall x q, exists_role s (UDir x) -> 0 <= q < 2 ^ 20 ->
        user_entry s' x q = if (x =? d) && kernel_shared q then Z.lor (q * 4096) PAGE_PRESENT else user_entry s x q) /\
      uses kernel_shared_pages s s') E s.
Proof.
  intros Hok Hd HN HA. assert (0 <= region_pages data_start data_end /\ 0 <= region_pages text_start text_end) as [HP1 HP2].
  { destruct Hdata as (_ & [] & _), Htext as (_ & [] & _). unfold region_pages. split; apply Z.add_nonneg_nonneg; try done; apply Z.div_pos; lia. }
  unfold process_page_directory_map_shared. wp_steps.
  wp_apply (wp_map_shared_region s d data_start data_end PAGE_PRESENT E); [done..| | |done].
  { destruct HA as [|HA]; [by left|right]. apply (room_mono kernel_shared_pages); [unfold kernel_shared_pages; lia|done]. }
  intros u s1 ((Hok1 & G1 & Hh1 & Hs1 & Hk1 & Hu1) & Huse).
  wp_apply (wp_map_shared_region s1 d text_start text_end PAGE_PRESENT E); [done|by apply G1|done|done| | |done].
  { destruct HA as [|HA]; [by left|right]. apply (uses_room _ _ s _ Huse). by rewrite Z.add_comm. }
  intros u' s2 ((Hok2 & G2 & Hh2 & Hs2 & Hk2 & Hu2) & Huse2).
  split; [done|]. split; [by eapply grown_trans|]. split; [congruence|]. split; [intros x; by rewrite (Hs2 x)|]. split; [by eapply kernel_kept_trans|].
  split; [|by eapply uses_trans]. intros x q Hx Hq. rewrite Hu2 by (try done; by apply G1). rewrite Hu1 by done. unfold kernel_shared.
  destruct (x =? d), (in_region data_start data_end q), (in_region text_start text_end q); done.
Qed.

(** C7. Fork.  Without CLONE_VM the child of a process gets an address space
    of its own: at every address it reads the byte that the parent read (or
    faults where the parent did), its pages lie in frames that were free, no
    two in the same one, so that no write of the child reaches the parent,
    another process or the kernel; what every other process reads and what the
    kernel has mapped stays; the paging structures stay well-formed and the
    child can be forked in turn.  The parent's pages must be memory handed out
    for it, none of them in the regions the kernel shares, its entries those
    that [page_directory_clone_table] has a case for (empty, guard or present:
    a reserved one fails its assertion), and the kernel's address space must
    have room for the new directory, its tables, the two temporary pages and a
    table for each page of the two regions.  Then only running out of memory
    stops it. *)
Theorem fork_copies_memory s d flags : Z.land flags SYSCALL_CLONE_FLAGS_VM = 0 ->
  vm_ok None s -> dirs_live s -> exists_role s (UDir d) -> owned s d ->
  (forall q, 0 <= q < 2 ^ 20 -> kernel_shared q = true -> shared (user_entry s d q) = false) -> copyable s d ->
  room (kernel_shared_pages + 1027) s ->
  wp (clone_pdir data_start data_end text_start text_end flags d) (fun d' s' => forked s d d' s') only_nomem s.
Proof.
  intros Hfl Hok Hlive Hd Ho Hreg Hkinds Hroom.
  assert (0 <= kernel_shared_pages) as HP.
  { destruct Hdata as (_ & [] & _), Htext as (_ & [] & _). unfold kernel_shared_pages, region_pages.
    assert (0 <= (data_end - data_start) / 4096 /\ 0 <= (text_end - text_start) / 4096) by (split; apply Z.div_pos; lia). lia. } unfold clone_pdir. rewrite Hfl. change (negb (0 =? 0)) with false. cbv iota. wp_steps.
  wp_apply (wp_page_directory_new s only_nomem); [done|done|intros e; apply (room_space (kernel_shared_pages + 1027)); [lia|done]| |done]. intros d' s1 [N1 N2 N3 N4 N5 N6 N7 (p & Np & N8) _ _].
  assert (exists_role s1 (UDir d)) as Hd1 by (by apply N5).
  assert (d <> d') as Hne by (intros ->; destruct Hd as [_ [y Hy]]; congruence).
  assert (forall x, exists_role s (UDir x) -> owned s x -> owned s1 x) as Ho1.
  { intros x Hx Hox. apply (owned_grown s s1); [done|done|]. intros q Hq _. by apply N7. }
  assert (kernel_kept s s1) as Hk1 by (intros q Hq Hnz; apply N8; [done|]; intros ->; by apply Hnz, Np).
  assert (copyable s1 d) as Hkinds1 by (intros q Hq; cbv zeta; rewrite N7 by done; by apply Hkinds).
  wp_apply (wp_page_directory_clone s1 d d' ltac:(done) ltac:(done) ltac:(done) (Ho1 d Hd Ho) Hkinds1 kernel_shared_pages); [done|done|by intros q _| | |done].
  { apply (room_step (kernel_shared_pages + 1026) p s); [by replace (kernel_shared_pages + 1026 + 1) with (kernel_shared_pages + 1027) by lia|].
    intros q Hq Hqp. by apply N8. }
  intros u s2 (Hc & Hroom2 & Hk2). wp_steps. pose proof (cl_ok _ _ _ _ _ Hc) as Hok2. pose proof (cl_grown _ _ _ _ _ Hc) as G2.
  wp_apply (wp_map_shared s2 d' only_nomem); [done|by apply G2|done| | |done].
  { right. by apply (room_mono (kernel_shared_pages + 2)); [lia|]. }
  intros u' s3 (Hok3 & G3 & Hh3 & Hs3 & Hk3 & Hu3 & _). wp_steps.
  assert (forall q, 0 <= q < 2 ^ 20 -> shared (user_entry s3 d' q) = true -> user_entry s3 d' q = user_entry s2 d' q) as Hchild.
  { intros q Hq. rewrite Hu3, Z.eqb_refl by (try done; by apply G2). destruct (kernel_shared q); [|done]. cbn [andb]. by rewrite not_shared_kernel. }
  assert (forall x q, exists_role s (UDir x) -> 0 <= q < 2 ^ 20 -> user_entry s3 x q = user_entry s x q) as Hothers.
  { intros x q Hx Hq. assert (exists_role s1 (UDir x)) as Hx1 by (by apply N5). assert (x <> d') as Hxd by (intros ->; destruct Hx as [_ [y Hy]]; congruence).
    rewrite Hu3 by (try done; by apply G2). rewrite (proj2 (Z.eqb_neq x d')) by done. cbn [andb]. rewrite (cl_others _ _ _ _ _ Hc) by done. by apply N7. }
  assert (grown s s3) as G by (eapply grown_trans; [exact N5|by eapply grown_trans]).
  pose proof (child_owned s1 d d' s2 Hc) as Ho2. assert (owned s3 d') as Ho3 by (by apply (owned_grown s2)).
  split.
  - done.
  - split; [done|]. by apply G3, G2.
  - intros v Hv. pose proof (user_page_range v Hv) as Hq. rewrite <- (user_byte_grown s s1 d v Hd Ho N5 Hv) by (by apply N7). rewrite <- (child_bytes s1 d d' s2 Hc v Hv).
    destruct (kernel_shared (v / 4096)) eqn:Hk.
    + pose proof (Hreg _ Hq Hk) as Hns. rewrite <- (N7 d) in Hns by done. rewrite <- (proj1 (child_entry s1 d d' s2 Hc _ Hq)) in Hns.
      unfold user_byte. rewrite Hu3 by (first [done|by apply G2]). rewrite Z.eqb_refl, Hk. cbn [andb].
      destruct (accessible (Z.lor _ _)) eqn:A1; [apply accessible_shared in A1; by rewrite not_shared_kernel in A1|].
      destruct (accessible (user_entry s2 _ _)) eqn:A2; [apply accessible_shared in A2; congruence|done].
    + apply user_byte_grown; try done; [by apply G2|]. rewrite Hu3 by (first [done|by apply G2]). rewrite Z.eqb_refl, Hk. done.
  - intros x v Hx Hox Hv. apply user_byte_grown; try done. apply Hothers; [done|by apply user_page_range].
  - split; [done|]. intros x Hx Hox. split; [by apply G|]. apply (owned_grown s); try done. intros q Hq _. by apply Hothers.
  - split.
    + intros q Hq Ha. by apply Ho3, accessible_shared.
    + intros q q' Hq Hq' A A'. apply accessible_shared in A, A'. pose proof (Hchild q Hq A) as E1. pose proof (Hchild q' Hq' A') as E2.
      rewrite E1 in A |- *. rewrite E2 in A' |- *. apply (child_pages s1 d d' s2 Hc); done.
  - intros x q q' Hx Hox Hq Hq' S S' Heq. pose proof (Hchild q Hq S) as E1. rewrite E1 in S, Heq. rewrite Hothers in S', Heq by done.
    destruct (child_frame s1 d d' s2 Hc q Hq S) as (_ & _ & Hn). apply Hn. rewrite Heq. by apply N5, Hox.
  - eapply kernel_kept_trans; [exact Hk1|]. by eapply kernel_kept_trans.
  - destruct N6 as [L1 L2]. assert (v_heap s3 = v_heap s1) as Hh by (rewrite Hh3; apply Hc). split; rewrite Hh; [done|].
    intros x Hx. apply L2. apply (cl_keys _ _ _ _ _ Hc). by apply Hs3.
Qed.
End fork.
End proofs.

(** ** The process with one page has a child *)

Lemma one_page_owned : owned one_page 100.
Proof.
  intros q Hq. rewrite one_page_entry by done. destruct (_ =? 5); [|done]. intros _. change (Z.lor (1500 * 4096) 7 / 4096) with 1500.
  split; [done|]. intros r Hr. destruct (one_page_frames r Hr) as [-> _].
  apply one_page_role in Hr as [->|[(i & -> & Hi)|[->| ->]]]; cbn [one_page_frame]; lia.
Qed.

Lemma one_page_copyable : copyable one_page 100.
Proof. intros q Hq. cbv zeta. rewrite one_page_entry by done. destruct (_ =? 5); [|by left]. right. by right. Qed.

Lemma one_page_live : dirs_live one_page.
Proof.
  split; [split; [done|]; intros p [->%elem_of_singleton| ->%elem_of_singleton]%elem_of_union; done|].
  intros d Hs. cbn. destruct (decide (d = 50)) as [->|Hne]; [set_solver|]. rewrite (one_page_dir d Hne Hs). set_solver.
Qed.

Lemma one_page_free q : 2048 <= q < 2 ^ 20 -> kentry one_page q = 0.
Proof.
  intros Hq. destruct (page_split q) as [Q1 Q2]; [lia|]. unfold kentry.
  destruct (one_page_frames (KTab (q / 1024))) as [-> _]; [done|]. cbn [one_page_frame]. rewrite one_page_word by done.
  assert (2 <= q / 1024 <= 1023) as Hqd by (pose proof (Z.div_mod q 1024 ltac:(lia)); lia).
  rewrite !(proj2 (Z.eqb_neq (2 + q / 1024) _)) by lia. reflexivity.
Qed.

Lemma one_page_room : room (kernel_shared_pages 0x100000 0x102000 0x102000 0x103000 + 1027) one_page.
Proof.
  exists (list_to_set (seqZ 3000 1100)). split.
  - change (kernel_shared_pages _ _ _ _) with 5. rewrite size_list_to_set by apply NoDup_seqZ. rewrite length_seqZ. lia.
  - intros q Hq%elem_of_list_to_set%elem_of_seqZ. split; [lia|]. apply one_page_free. lia.
Qed.

Lemma fork_copies_memory_witness :
  wp (clone_pdir 0x100000 0x102000 0x102000 0x103000 0 100)
    (fun d' s' => d' <> 100 /\ user_byte s' d' 20480 = Some 104 /\ user_byte s' 100 20481 = Some 105) only_nomem one_page.
Proof.
  eapply wp_mono; [apply (fork_copies_memory 0x100000 0x102000 0x102000 0x103000 ltac:(repeat split; lia) ltac:(repeat split; lia) one_page 100 0);
    [done|exact one_page_ok|exact one_page_live|exact one_page_udir|exact one_page_owned| |exact one_page_copyable|exact one_page_room]| |done].
  - intros q Hq Hk. rewrite one_page_entry by done. destruct (Z.eqb_spec q 5) as [->|]; [by vm_compute in Hk|done].
  - intros d' s' [_ [Hn _] Hb Ho _ _ _ _ _]. split; [intros ->; by vm_compute in Hn|]. split.
    + rewrite Hb by lia. vm_compute. reflexivity.
    + rewrite Ho by (exact one_page_udir || exact one_page_owned || lia). vm_compute. reflexivity.
Defined.
