(* ===== verification/Syscall.v ===== *)
(** * System calls on files and memory (kernel/syscall.c)

    The bodies of the system calls that work on the caller's descriptors, files
    and memory.  The kernel heap is one: the state of the paging code holds it
    and the file system works on the same.  [junk] is what a local array holds
    before it is written.  Printed diagnostics are left out. *)
From stdpp Require Import functions.
From S2P Require Import Prelude Interfaces Vmm Uaccess FsPath Fs FdTable.

(** The registers that carry the number and the arguments. *)
Record registers_t : Type := Registers { r_eax : Z; r_ebx : Z; r_ecx : Z; r_edx : Z }.

(** [current_process]. *)
Record process_t : Type := Process { pid : Z; pdir : Z; fd_table : Z }.

Record ystate (F H D Hd : Type) : Type := YState {
  y_vm : vstate F H;
  y_files : pstate H D Hd;
  y_current : process_t;
}.
Arguments YState {F H D Hd} _ _ _.
Arguments y_vm {F H D Hd} _.
Arguments y_files {F H D Hd} _.
Arguments y_current {F H D Hd} _.

Section ops.
Context {F H D Hd : Type} `{FrameAlloc F, KHeap H}.
Context `{!Handlers (fstate H D Hd) Hd}.
Variable junk : Z -> list Z.
Abbreviation Y := (ystate F H D Hd).

Definition vm_lens : lens Y (vstate F H) :=
  Lens y_vm (fun v s => YState v (y_files s) (y_current s)).

(** The descriptors and files with the heap of the whole kernel. *)
Definition files_lens : lens Y (pstate H D Hd) :=
  Lens (fun s => lset p_heap (v_heap (y_vm s)) (y_files s))
    (fun p s => YState (lset heap_lens (lget p_heap p) (y_vm s)) p (y_current s)).

Definition current_process : M Y process_t := gets y_current.

(** [find_vspace(kernel_directory, n)]. *)
Definition kernel_vspace (n : Z) : M Y Z :=
  zoom vm_lens (let! k := kernel_directory in find_vspace k n).

(** The descriptor of a number: NULL, or one whose node the code asserts to be there. *)
Definition open_fd (fd : Z) : M Y fd_entry_t :=
  let! x := zoom files_lens (fd_at fd) in
  kassert (negb (fd_node x =? 0)) >>>
  ret x.

Definition set_seek (n : Z) (x : fd_entry_t) : fd_entry_t := FdEntry (fd_node x) n (fd_refcount x).

(** [fd->seek += r] unless [r] is -1. *)
Definition advance (fd r : Z) : M Y unit :=
  if negb (r =? MINUS_1) then
    let! x := zoom files_lens (fd_at fd) in
    zoom files_lens (put_fd fd (set_seek (u32 (fd_seek x + r)) x))
  else ret tt.

(** A driver leaves [bytes] at the start of the buffer at [v]. *)
Definition fill (v : Z) (bytes : list Z) : M (vstate F H) unit :=
  for_up (length bytes) 0 (fun i => let! b := some (zlookup bytes i) in write_byte (u32 (v + i)) b).

(** ** Reading and writing *)

Definition syscall_read (regs : registers_t) : M Y Z :=
  let fd_num := r_ebx regs in
  let ptr := r_ecx regs in
  let length := r_edx regs in
  let! p := current_process in
  if fd_table p =? 0 then ret MINUS_1
  else
    let! fd := zoom files_lens (fd_table_get (fd_table p) fd_num) in
    if fd =? 0 then ret MINUS_1
    else
      let! _ := open_fd fd in
      if length =? 0 then ret 0
      else
        let n_blocks := size_in_blocks ptr length in
        let! kptr := kernel_vspace n_blocks in
        let kptr2 := u32 (kptr + Z.land ptr 0xFFF) in
        let! v := zoom vm_lens (map_userspace_to_kernel (pdir p) (Z.ldiff ptr 0xFFF) kptr n_blocks) in
        if negb (v =? 0) then ret MINUS_1
        else
          let! x := zoom files_lens (fd_at fd) in
          let! '(r, bytes) := zoom files_lens (zoom p_files (fs_read (fd_node x) (fd_seek x) length)) in
          zoom vm_lens (fill kptr2 bytes) >>>
          advance fd r >>>
          zoom vm_lens (unmap_from_kernel kptr n_blocks) >>>
          ret r.

Definition syscall_write (regs : registers_t) : M Y Z :=
  let fd_num := r_ebx regs in
  let ptr := r_ecx regs in
  let length := r_edx regs in
  let! p := current_process in
  let! fd := zoom files_lens (fd_table_get (fd_table p) fd_num) in
  if fd =? 0 then ret MINUS_1
  else
    let! _ := open_fd fd in
    if length =? 0 then ret 0
    else
      let n_blocks := size_in_blocks ptr length in
      kassert (negb (n_blocks =? 0)) >>>
      let! kptr := kernel_vspace n_blocks in
      let kptr2 := u32 (kptr + Z.land ptr 0xFFF) in
      let! v := zoom vm_lens (map_userspace_to_kernel (pdir p) (Z.ldiff ptr 0xFFF) kptr n_blocks) in
      if negb (v =? 0) then ret MINUS_1
      else
        let! buffer := zoom vm_lens (read_bytes kptr2 length) in
        let! x := zoom files_lens (fd_at fd) in
        let! r := zoom files_lens (zoom p_files (fs_write (fd_node x) (fd_seek x) length buffer)) in
        advance fd r >>>
        zoom vm_lens (unmap_from_kernel kptr n_blocks) >>>
        ret r.

Definition syscall_lseek (regs : registers_t) : M Y Z :=
  let fd_num := r_ebx regs in
  let offset := r_ecx regs in
  let flags := r_edx regs in
  let! p := current_process in
  let! fd := zoom files_lens (fd_table_get (fd_table p) fd_num) in
  if fd =? 0 then ret MINUS_1
  else
    let! x := open_fd fd in
    if flags =? 0 then zoom files_lens (put_fd fd (set_seek offset x)) >>> ret 0
    else ret MINUS_1.

(** ** Descriptors *)

Definition syscall_dup (regs : registers_t) : M Y Z :=
  let oldfd := r_ebx regs in
  let! p := current_process in
  kassert (negb (fd_table p =? 0)) >>>
  let! fd := zoom files_lens (fd_table_get (fd_table p) oldfd) in
  if fd =? 0 then ret MINUS_1
  else
    let! _ := open_fd fd in
    let! r := zoom files_lens (let! fd := fd_reference fd in fd_table_append (fd_table p) fd) in
    if r =? -1 then zoom files_lens (fd_free fd) >>> ret MINUS_1 else ret r.

Definition syscall_dup2 (regs : registers_t) : M Y Z :=
  let oldfd := r_ebx regs in
  let newfd := r_ecx regs in
  let! p := current_process in
  let! fd := zoom files_lens (fd_table_get (fd_table p) oldfd) in
  if fd =? 0 then ret MINUS_1
  else
    let! _ := open_fd fd in
    if newfd =? oldfd then ret newfd
    else zoom files_lens (let! fd := fd_reference fd in fd_table_set (fd_table p) newfd fd).

Definition syscall_dup3 (regs : registers_t) : M Y Z := syscall_dup2 regs.

Definition syscall_close (regs : registers_t) : M Y Z :=
  let fd_num := r_ebx regs in
  let! p := current_process in
  let! fd := zoom files_lens (fd_table_get (fd_table p) fd_num) in
  if fd =? 0 then ret MINUS_1
  else
    let! _ := open_fd fd in
    let! _ := zoom files_lens (fd_table_set (fd_table p) fd_num 0) in
    ret 0.

(** ** Paths *)

(** [char buffer[256]] filled from the process: the result and the array. *)
Definition user_string (user_path : Z) : M Y (Z * list Z) :=
  let! p := current_process in
  zoom vm_lens (copy_from_userspace_string (pdir p) user_path 256 (junk 256)).

(** [fs_root_mount->node]. *)
Definition root_node : M Y Z :=
  zoom files_lens (zoom p_files (let! r := gets f_root in let! m := mount_at r in ret (m_node m))).

(** The text in a buffer, whose length is [n]. *)
Definition text_of (buffer : list Z) (n : Z) : list Z := take (Z.to_nat n) buffer.

Definition syscall_open (regs : registers_t) : M Y Z :=
  let! '(r, path) := user_string (r_ebx regs) in
  if r <? 0 then ret MINUS_1
  else
    let! node := zoom files_lens (zoom p_files (kopen junk path 0)) in
    if negb (node =? 0) then
      let! fd := zoom files_lens fd_new in
      if fd =? 0 then zoom files_lens (zoom p_files (fs_close node)) >>> ret MINUS_1
      else
        let! x := zoom files_lens (fd_at fd) in
        zoom files_lens (put_fd fd (FdEntry node 0 (fd_refcount x))) >>>
        let! p := current_process in
        zoom files_lens (fd_table_append (fd_table p) fd)
    else ret (u32 (-2)).

Definition syscall_mkdir (regs : registers_t) : M Y Z :=
  let! '(r, buffer) := user_string (r_ebx regs) in
  if r <? 0 then ret MINUS_1
  else
    let! node := zoom files_lens (zoom p_files (kopen junk buffer 0)) in
    if negb (node =? 0) then zoom files_lens (zoom p_files (fs_close node)) >>> ret MINUS_1
    else
      let! root := root_node in
      zoom files_lens (zoom p_files (fs_mkdir root (text_of buffer r) (r_ecx regs))) >>>
      ret 0.

Definition syscall_create (regs : registers_t) : M Y Z :=
  let! '(r, buffer) := user_string (r_ebx regs) in
  if r <? 0 then ret MINUS_1
  else
    let! root := root_node in
    zoom files_lens (zoom p_files (fs_create root (text_of buffer r) (r_ecx regs))) >>>
    ret 0.

Definition syscall_unlink (regs : registers_t) : M Y Z :=
  let! '(r, buffer) := user_string (r_ebx regs) in
  if r <? 0 then ret MINUS_1
  else
    let! root := root_node in
    let! _ := zoom files_lens (zoom p_files (fs_unlink root (Some (text_of buffer r)))) in
    ret 0.

(** ** Memory *)

(** The pages of a process, by the directory the caller has. *)
Definition user_table (va d : Z) : M Y Z := zoom vm_lens (get_table va d).

Definition mmap_prot (edx : Z) : Z :=
  if edx =? 1 then Z.lor PAGE_PRESENT PAGE_USER
  else if edx =? 3 then Z.lor (Z.lor PAGE_PRESENT PAGE_USER) PAGE_READWRITE
  else Z.lor PAGE_PRESENT PAGE_USER.

Definition mmap_page (pdir kptr virtaddr prot : Z) : M (vstate F H) unit :=
  let! block := zoom frames_lens frame_alloc_safe in
  let! t := get_table virtaddr pdir in
  let! page := get_page t virtaddr in
  kassert (page =? PAGE_VALUE_RESERVED) >>>
  kernel_map kptr block (Z.lor PAGE_PRESENT PAGE_READWRITE) >>>
  clear_page kptr >>>
  kernel_map kptr 0 0 >>>
  invalidate_page kptr >>>
  let! t := get_table virtaddr pdir in
  map_page t virtaddr block prot.

Definition syscall_mmap_anon (regs : registers_t) : M Y Z :=
  let addr := r_ebx regs in
  let len := r_ecx regs in
  if BLOCK_SIZE * 300 <? len then ret MINUS_1
  else
    let len := len / BLOCK_SIZE in
    let! p := current_process in
    let! addr := (if addr =? 0 then zoom vm_lens (find_vspace (pdir p) len) else ret addr) in
    let prot := mmap_prot (r_edx regs) in
    let! kptr := kernel_vspace 1 in
    kassert (negb (kptr =? 0)) >>>
    zoom vm_lens (for_up (Z.to_nat len) 0 (fun i => mmap_page (pdir p) kptr (u32 (addr + i * BLOCK_SIZE)) prot)) >>>
    ret addr.

(** The pages from 0 on are freed, whatever [addr] is. *)
Definition munmap_page (pdir i : Z) : M (vstate F H) unit :=
  let! t := get_table i pdir in
  let! page := get_page t i in
  if page =? 0 then ret tt
  else if negb (Z.land page PAGE_USER =? 0) then
    free_frame (Z.ldiff page 0xFFF) >>>
    let! t := get_table i pdir in
    map_page t i 0 0
  else fail AssertFail.

Definition syscall_munmap (regs : registers_t) : M Y Z :=
  let addr := r_ebx regs in
  let length := r_ecx regs in
  if negb (Z.land addr 0xFFF =? 0) then ret MINUS_1
  else if length =? 0 then ret MINUS_1
  else
    let length := if negb (Z.land length 0xFFF =? 0) then Z.land length 0xFFF + 0x1000 else length in
    let! p := current_process in
    zoom vm_lens (loop (S (Z.to_nat (2 ^ 20))) (fun i =>
      if i <? length then munmap_page (pdir p) i >>> ret (inl (u32 (i + BLOCK_SIZE))) else ret (inr tt)) 0) >>>
    ret 0.

(** ** Information *)

(** [struct utsname]: five arrays of 256 characters. *)
Definition uts_field (text : list Z) : list Z := text ++ replicate (256 - length text) 0.
Definition uname : list Z :=
  uts_field [109; 121; 117; 110; 105; 120] ++ uts_field [] ++
  uts_field [48; 46; 48; 46; 49; 45; 103; 105; 116] ++ uts_field [48; 32; 48; 32; 49] ++ uts_field [].

Definition syscall_uname (regs : registers_t) : M Y Z :=
  let! p := current_process in
  let! _ := zoom vm_lens (copy_to_userspace (pdir p) (r_ebx regs) 1280 uname) in
  ret 0.

Definition syscall_getpid (regs : registers_t) : M Y Z :=
  let! p := current_process in ret (pid p).

(** The calls that are not implemented. *)
Definition syscall_times (regs : registers_t) : M Y Z := ret MINUS_1.
Definition syscall_rmdir (regs : registers_t) : M Y Z := ret MINUS_1.
Definition syscall_gettimeofday (regs : registers_t) : M Y Z := ret MINUS_1.
Definition syscall_readlink (regs : registers_t) : M Y Z := ret MINUS_1.
Definition syscall_getuid (regs : registers_t) : M Y Z := ret 0.
Definition syscall_getgid (regs : registers_t) : M Y Z := ret 0.
Definition syscall_geteuid (regs : registers_t) : M Y Z := ret 0.
Definition syscall_getegid (regs : registers_t) : M Y Z := ret 0.
Definition syscall_setresuid (regs : registers_t) : M Y Z := ret 0.
Definition syscall_setresgid (regs : registers_t) : M Y Z := ret 0.
Definition syscall_setuid (regs : registers_t) : M Y Z := ret 0.
Definition syscall_setgid (regs : registers_t) : M Y Z := ret 0.
End ops.
