(* ===== verification/FileCalls.v ===== *)
(** * What a process sees of its files

    Reading, writing and seeking on an open file in memory, from the system
    call down to the bytes of the file and of the process, against a process
    that has a memory, a file that is a list of bytes and a position. *)
From stdpp Require Import functions.
From S2P Require Import Prelude Interfaces Vmm Uaccess UserMem FsPath Fs Drivers Tmpfs FdTable Syscall.

(** ** The specification *)

Record view : Type := View {
  w_byte : Z -> option Z;
  w_content : list Z;
  w_seek : Z;
}.

Definition w_bytes (w : view) (ptr n : Z) : option (list Z) := mapM (w_byte w) (seqZ ptr n).
Definition w_store (w : view) (ptr : Z) (buf : list Z) : Z -> option Z :=
  fun v => if (ptr <=? v) && (v <? ptr + zlen buf) then zlookup buf (v - ptr) else w_byte w v.

Inductive call : Type :=
  | CRead (ptr n : Z)
  | CWrite (ptr n : Z)
  | CSeek (off : Z).

Section spec.
Variable junk : Z -> list Z.

Definition spec_call (w : view) (c : call) : Z * view :=
  match c with
  | CRead ptr n =>
      if n =? 0 then (0, w)
      else if bool_decide (is_Some (w_bytes w ptr n)) then
        if zlen (w_content w) <? w_seek w then (MINUS_1, w)
        else
          let b := slice (w_content w) (w_seek w) n in
          (zlen b, View (w_store w ptr b) (w_content w) (w_seek w + zlen b))
      else (MINUS_1, w)
  | CWrite ptr n =>
      if n =? 0 then (0, w)
      else
        match w_bytes w ptr n with
        | Some buf => (n, View (w_byte w) (splice (junk (w_seek w + n)) (w_content w) (w_seek w) buf) (w_seek w + n))
        | None => (MINUS_1, w)
        end
  | CSeek off => (0, View (w_byte w) (w_content w) off)
  end.

Definition call_ok (w : view) (c : call) : Prop :=
  match c with
  | CRead ptr n | CWrite ptr n => 0 <= ptr /\ 0 <= n < 2 ^ 31 /\ ptr + n <= 2 ^ 32 /\ w_seek w + n < 2 ^ 32
  | CSeek off => is_u32 off
  end.

Fixpoint spec_calls (w : view) (cs : list call) : list Z * view :=
  match cs with
  | [] => ([], w)
  | c :: cs' => let '(r, w1) := spec_call w c in let '(rs, w2) := spec_calls w1 cs' in (r :: rs, w2)
  end.

Fixpoint calls_ok (w : view) (cs : list call) : Prop :=
  match cs with
  | [] => True
  | c :: cs' => call_ok w c /\ calls_ok (spec_call w c).2 cs'
  end.
End spec.

Section proofs.
Context {F H : Type} `{FrameAllocLaws F, KHeapLaws H}.
Variable junk : Z -> list Z.
Hypothesis Hjunk : forall n, 0 <= n -> zlen (junk n) = n.
Hypothesis Hjunk8 : forall n, Forall is_u8 (junk n).
#[local] Instance file_handlers : Handlers (fstate H drivers handler) handler := kernel_handlers junk.
Abbreviation Y := (ystate F H drivers handler).
Implicit Types (s : Y) (E : panic -> Prop).

Definition run_call (fd_num : Z) (c : call) : M Y Z :=
  match c with
  | CRead ptr n => syscall_read (Registers 0x03 fd_num ptr n)
  | CWrite ptr n => syscall_write (Registers 0x04 fd_num ptr n)
  | CSeek off => syscall_lseek (Registers 0x13 fd_num off 0)
  end.

Fixpoint run_calls (fd_num : Z) (cs : list call) : M Y (list Z) :=
  match cs with
  | [] => ret []
  | c :: cs' => let! r := run_call fd_num c in let! rs := run_calls fd_num cs' in ret (r :: rs)
  end.

(** ** Parts of the state *)

Definition with_vm v s : Y := YState v (y_files s) (y_current s).
Definition with_files (p : pstate H drivers handler) s : Y := YState (y_vm s) p (y_current s).

(** Both parts have the one heap. *)
Definition one_heap s : Prop := f_heap (p_fs (y_files s)) = v_heap (y_vm s).

Lemma wp_on_vm {A} (m : M (vstate F H) A) (Q : A -> Y -> Prop) E s :
  wp m (fun a v => Q a (with_vm v s)) E (y_vm s) -> wp (zoom vm_lens m) Q E s.
Proof. intros Hm. by apply wp_zoom. Qed.

Lemma wp_on_files {A} (m : M (pstate H drivers handler) A) (Q : A -> Y -> Prop) E s :
  one_heap s -> wp m (fun a p => f_heap (p_fs p) = v_heap (y_vm s) /\ Q a (with_files p s)) E (y_files s) -> wp (zoom files_lens m) Q E s.
Proof.
  intros Hs Hm. apply wp_zoom. assert (lget files_lens s = y_files s) as ->.
  { unfold one_heap in Hs. destruct s as [v [[] ? ? ?] ?]. cbn in *. by rewrite Hs. }
  eapply wp_mono; [exact Hm| |done]. intros a p [Hh HQ]. cbn [lset files_lens].
  assert (lset heap_lens (lget p_heap p) (y_vm s) = y_vm s) as ->; [|exact HQ]. destruct s as [[] ? ?]. cbn in *. by rewrite Hh.
Qed.

(** ** A process with an open file *)

Record has_file s (fd_num fd f o : Z) (obj : tmpfs_object) (seek : Z) : Prop := HasFile {
  hf_heap : one_heap s;
  hf_table : fd_table (y_current s) <> 0;
  hf_entry : exists t arr, p_tables (y_files s) !! fd_table (y_current s) = Some t /\ p_arrays (y_files s) !! ft_entries t = Some arr /\
    fd_num <= ft_length t /\ zlookup arr fd_num = Some fd;
  hf_fd : fd <> 0 /\ exists rc, p_fds (y_files s) !! fd = Some (FdEntry f seek rc);
  hf_node : f <> 0 /\ exists x, f_nodes (p_fs (y_files s)) !! f = Some x /\ n_object x = o /\ n_read x = Some Tmpfs_read /\ n_write x = Some Tmpfs_write;
  hf_object : o <> 0 /\ d_objs (f_drv (p_fs (y_files s))) !! o = Some obj;
  hf_ok : file_ok obj;
  hf_u8 : Forall is_u8 (content obj);
}.

(** The process of [s] sees [w]. *)
Record sees s (me : process_t) (fd_num fd f o : Z) (w : view) : Prop := Sees {
  se_process : y_current s = me;
  se_vm : vm_ok None (y_vm s);
  se_dir : exists_role (y_vm s) (UDir (pdir (y_current s)));
  se_pages : user_pages (y_vm s) (pdir (y_current s));
  se_bytes : forall v, 0 <= v < 2 ^ 32 -> user_byte (y_vm s) (pdir (y_current s)) v = w_byte w v;
  se_seek : 0 <= w_seek w < 2 ^ 32;
  se_file : exists obj, has_file s fd_num fd f o obj (w_seek w) /\ content obj = w_content w;
}.

Section file.
Context (me : process_t) (fd_num fd f o : Z).

Lemma stands_for_file s obj seek : has_file s fd_num fd f o obj seek -> stands_for (p_fs (y_files s)) f o obj.
Proof. intros [_ _ _ _ (_ & x & Hx & Hxo & _) (Ho & Hobj) _ _]. split; [done|]. split; [done|]. by exists x. Qed.

Lemma has_file_vm v s obj seek : v_heap v = v_heap (y_vm s) -> has_file s fd_num fd f o obj seek -> has_file (with_vm v s) fd_num fd f o obj seek.
Proof. intros Hh [Z1 A B C D E1 E2 E3]. split; try done. unfold one_heap in *. cbn. by rewrite Hh. Qed.

Lemma with_files_same s : with_files (y_files s) s = s.
Proof. by destruct s. Qed.

Lemma wp_get_fd s obj seek (Q : Z -> Y -> Prop) E :
  has_file s fd_num fd f o obj seek -> Q fd s -> wp (zoom files_lens (fd_table_get (fd_table (y_current s)) fd_num)) Q E s.
Proof.
  intros [Hh A (t & arr & B1 & B2 & B3 & B4) _ _ _ _ _] HQ. apply wp_on_files; [done|]. unfold fd_table_get. wp_cond. rewrite (proj2 (Z.eqb_neq _ 0)) by done. cbn [negb].
  wp_steps. apply (wp_table _ _ t); [done|]. rewrite (proj2 (Z.ltb_ge (ft_length t) fd_num)) by lia.
  apply (wp_entry_get _ (ft_entries t) arr fd_num fd); [done|done|]. split; [exact Hh|]. by rewrite with_files_same.
Qed.

Lemma wp_fd_at s obj seek (Q : fd_entry_t -> Y -> Prop) E :
  has_file s fd_num fd f o obj seek -> (forall rc, Q (FdEntry f seek rc) s) -> wp (zoom files_lens (fd_at fd)) Q E s.
Proof.
  intros [Hh _ _ (_ & rc & Hrc) _ _ _ _] HQ. apply wp_on_files; [done|]. unfold fd_at. wp_steps. rewrite Hrc. wp_cond. split; [exact Hh|]. by rewrite with_files_same.
Qed.

Lemma wp_open_fd s obj seek (Q : fd_entry_t -> Y -> Prop) E :
  has_file s fd_num fd f o obj seek -> (forall rc, Q (FdEntry f seek rc) s) -> wp (open_fd fd) Q E s.
Proof.
  intros Hf HQ. unfold open_fd. wp_steps. apply (wp_fd_at s obj seek); [done|]. intros rc. wp_cond.
  destruct Hf as [_ _ _ _ (Hf & _) _ _ _]. cbn [fd_node]. rewrite (proj2 (Z.eqb_neq f 0)) by done. cbn [negb]. by wp_steps.
Qed.

(** The position is set. *)
Lemma wp_put_seek s obj seek seek' rc (Q : unit -> Y -> Prop) E :
  has_file s fd_num fd f o obj seek ->
  (forall p, has_file (with_files p s) fd_num fd f o obj seek' -> Q tt (with_files p s)) ->
  wp (zoom files_lens (put_fd fd (FdEntry f seek' rc))) Q E s.
Proof.
  intros [Hh A B (C & _) D E1 E2 E3] HQ. apply wp_on_files; [done|]. unfold put_fd. wp_steps. split; [exact Hh|]. apply HQ.
  split; try done. split; [done|]. exists rc. apply lookup_insert_eq.
Qed.

Lemma wp_advance s obj seek r (Q : unit -> Y -> Prop) E :
  has_file s fd_num fd f o obj seek -> r <> MINUS_1 -> 0 <= seek + r < 2 ^ 32 ->
  (forall p, has_file (with_files p s) fd_num fd f o obj (seek + r) -> Q tt (with_files p s)) ->
  wp (advance fd r) Q E s.
Proof.
  intros Hf Hr Hs HQ. unfold advance. rewrite (proj2 (Z.eqb_neq r _)) by done. cbn [negb]. wp_steps.
  apply (wp_fd_at s obj seek); [done|]. intros rc. unfold set_seek. cbn [fd_node fd_seek fd_refcount]. rewrite u32_small by done.
  by apply (wp_put_seek s obj seek).
Qed.

Lemma wp_kernel_vspace s n (Q : Z -> Y -> Prop) E :
  vm_ok None (y_vm s) -> 1 <= n < 2 ^ 20 -> Q (2 ^ 32 - 1) s ->
  (forall p v, 0 < p < 2 ^ 20 -> free_run (y_vm s) p n -> (exists e, kview (y_vm s) e v /\ outside (y_vm s) p n e) -> Q (p * BLOCK_SIZE) (with_vm v s)) ->
  wp (kernel_vspace n) Q E s.
Proof.
  intros Hok Hn Hnone HQ. unfold kernel_vspace, kernel_directory. apply wp_on_vm. wp_steps. apply wp_find_run; [done|done| |done].
  intros _. by destruct s.
Qed.

Lemma sees_bytes s w ptr n : sees s me fd_num fd f o w -> 0 <= ptr -> ptr + n <= 2 ^ 32 ->
  user_bytes (y_vm s) (pdir (y_current s)) ptr n = w_bytes w ptr n.
Proof.
  intros Hs Hp Hn. unfold user_bytes, w_bytes. apply Forall_mapM_ext. apply Forall_forall. intros v Hv%elem_of_seqZ. apply Hs. lia.
Qed.

Lemma sees_vm s e v w : kview (y_vm s) e v -> sees s me fd_num fd f o w -> sees (with_vm v s) me fd_num fd f o w.
Proof.
  intros Hv [Me A B C D E1 (obj & G & K)]. destruct (kview_same_user _ _ _ _ A Hv B C) as [Hp Hb]. split; try done.
  - apply Hv.
  - by eapply kview_ok.
  - intros x Hx. cbn. rewrite Hb by done. by apply D.
  - exists obj. split; [|done]. apply has_file_vm; [|done]. by destruct Hv as (_ & _ & ? & _).
Qed.

(** The memory was written to, the position is another one. *)
Lemma sees_after_read s w v p ptr buf obj seek' :
  sees s me fd_num fd f o w -> UserMem.written (y_vm s) (pdir (y_current s)) ptr buf v -> has_file (with_files p (with_vm v s)) fd_num fd f o obj seek' ->
  content obj = w_content w -> 0 <= seek' < 2 ^ 32 ->
  sees (with_files p (with_vm v s)) me fd_num fd f o (View (w_store w ptr buf) (w_content w) seek').
Proof.
  intros [Me A B C D E1 _] (W1 & W2 & W3) Hf Hc Hs. split; try done.
  - apply W1.
  - change (exists_role v (UDir (pdir (y_current s)))). assert (v_kernel v = v_kernel (y_vm s) /\ v_dirs v = v_dirs (y_vm s)) as [Hk Hd].
    { destruct W1 as (_ & _ & _ & Hd & Hk & _). destruct (user_write_rest (pdir (y_current s)) ptr buf (y_vm s)) as (_ & Hd' & Hk'). by rewrite Hd, Hk. }
    by apply (exists_role_dirs (y_vm s)).
  - intros x Hx. cbn. rewrite W3 by done. unfold w_store. cbn. by rewrite D.
  - exists obj. done.
Qed.

(** ** The calls *)

Lemma wp_seek_call s w off :
  sees s me fd_num fd f o w -> call_ok w (CSeek off) ->
  wp (run_call fd_num (CSeek off)) (fun r s' => r = 0 /\ sees s' me fd_num fd f o (View (w_byte w) (w_content w) off)) assert_or_memory s.
Proof.
  intros Hs Hoff. pose proof Hs as [Me A B C D E1 (obj & Hf & K)]. cbn [run_call]. unfold syscall_lseek, current_process. cbn [r_ebx r_ecx r_edx]. wp_steps.
  apply (wp_get_fd s obj (w_seek w)); [done|]. pose proof Hf as [_ _ _ (Hfd & _) _ _ _ _]. rewrite (proj2 (Z.eqb_neq fd 0)) by done.
  wp_steps. apply (wp_open_fd s obj (w_seek w)); [done|]. intros rc. change (0 =? 0) with true. cbv iota. unfold set_seek. cbn [fd_node fd_refcount].
  wp_steps. apply (wp_put_seek s obj (w_seek w)); [done|]. intros p Hp. wp_steps. split; [done|]. split; try done. by exists obj.
Qed.

(** The call finds its descriptor. *)
Ltac wp_fd s obj w Hf :=
  apply (wp_get_fd s obj (w_seek w)); [done|]; rewrite (proj2 (Z.eqb_neq fd 0)) by (by destruct Hf as [_ _ _ (? & _) _ _ _ _]);
  wp_steps; apply (wp_open_fd s obj (w_seek w)); [done|]; intros _.

(** The file's bytes, through the descriptor's node. *)
Lemma wp_file_read s obj seek n (Q : Z * list Z -> Y -> Prop) E :
  has_file s fd_num fd f o obj seek -> 0 <= seek -> 0 <= n -> seek + n < 2 ^ 32 ->
  Q (if zlen (content obj) <? seek then (MINUS_1, []) else (zlen (slice (content obj) seek n), slice (content obj) seek n)) s ->
  wp (zoom files_lens (zoom p_files (fs_read f seek n))) Q E s.
Proof.
  intros Hf Hs Hn Hsn HQ. pose proof (stands_for_file s obj seek Hf) as Hst. destruct Hf as [Hh _ _ _ (Hf0 & x & Hx & Hxo & Hxr & _) _ Hok _].
  apply wp_on_files; [done|]. apply wp_zoom. cbn [lget p_files]. unfold fs_read. wp_cond. rewrite (proj2 (Z.eqb_neq f 0)) by done. cbn [negb]. wp_steps.
  apply (wp_at_node _ f x); [done|]. rewrite Hxr. apply (wp_tmpfs_read _ f o obj); [done|done|done|done|done|].
  split; [exact Hh|]. assert (with_files (lset p_files (p_fs (y_files s)) (y_files s)) s = s) as -> by (by destruct s as [? [] ?]). exact HQ.
Qed.

Section window.
Context (v0 : vstate F H) (d ptr n p : Z).
Hypothesis Hok : vm_ok None v0.
Hypothesis Hd : exists_role v0 (UDir d).
Hypothesis Hpg : user_pages v0 d.
Hypothesis Hn : 0 < n < 2 ^ 31.
Hypothesis Hptr : 0 <= ptr /\ ptr + n <= 2 ^ 32.
Hypothesis Hfree : free_run v0 p (size_in_blocks ptr n).
Hypothesis Hr : user_range v0 d ptr n.
Abbreviation k := (size_in_blocks ptr n).

Lemma window_split : ptr / 4096 * 4096 + ptr mod 4096 = ptr /\ Z.land ptr 0xFFF = ptr mod 4096 /\ 0 <= ptr mod 4096 < 4096.
Proof using Hptr.
  split; [|split; [apply (page_of_ptr ptr); lia|apply Z.mod_pos_bound; lia]]. pose proof (Z.div_mod ptr 4096 ltac:(lia)). lia.
Qed.

(** The driver's bytes reach the process. *)
Lemma wp_fill_user s bs E : mapped_to v0 d (ptr / 4096) p k k (y_vm s) -> zlen bs <= n -> Forall is_u8 bs ->
  wp (zoom vm_lens (fill (u32 (p * BLOCK_SIZE + Z.land ptr 0xFFF)) bs))
    (fun _ s' => exists v, s' = with_vm v s /\ mapped_to (user_write d ptr bs v0) d (ptr / 4096) p k k v) E s.
Proof using Hok Hd Hpg Hn Hptr Hr.
  intros Hm Hl Hu. destruct (size_in_blocks_bounds ptr n Hn (proj1 Hptr) (proj2 Hptr)) as (Hsz & Hb & Hup & Hend). destruct window_split as (W1 & -> & W2).
  assert (0 <= ptr / 4096 /\ ptr / 4096 + k <= 2 ^ 20) as Hup' by (split; [apply Z.div_pos; lia|done]).
  apply wp_on_vm. unfold fill.
  eapply wp_mono; [apply (wp_write_loop v0 d (ptr / 4096) p k (ptr mod 4096) bs Hb Hup' Hok Hd Hpg)| |by intros e []].
  - lia.
  - done.
  - rewrite W1. intros v Hv. apply Hr. lia.
  - done.
  - exact Hm.
  - intros u v Hv. rewrite W1 in Hv. by exists v.
Qed.

Lemma wp_unmap s bs E : mapped_to (user_write d ptr bs v0) d (ptr / 4096) p k k (y_vm s) -> zlen bs <= n -> Forall is_u8 bs ->
  wp (zoom vm_lens (unmap_from_kernel (p * BLOCK_SIZE) k)) (fun _ s' => exists v, s' = with_vm v s /\ UserMem.written v0 d ptr bs v) E s.
Proof using Hok Hd Hpg Hn Hptr Hr Hfree.
  intros (e & Hv & Ho & _) Hl Hu. destruct (size_in_blocks_bounds ptr n Hn (proj1 Hptr) (proj2 Hptr)) as (Hsz & Hb & Hup & Hend).
  assert (user_range v0 d ptr (zlen bs)) as Hr' by (intros v Hv'; apply Hr; lia).
  destruct (user_write_spec v0 d Hd Hpg bs ptr (proj1 Hptr) ltac:(lia) Hr' Hu) as (Hss & _ & _). set (sw := user_write d ptr bs v0) in *.
  assert (free_run sw p k) as Hfw. { intros i Hi. rewrite (same_kentry v0 sw Hss) by (apply Z.mod_pos_bound; lia). by apply Hfree. }
  apply wp_on_vm. eapply wp_mono; [apply (wp_unmap_from_kernel sw p k (same_ok v0 sw Hss None Hok) Hb Hfw (y_vm s) E); by exists e| |done].
  intros u v Hv'. exists v. split; [done|]. apply user_write_written; try done; lia.
Qed.
End window.

Lemma slice_bounds (l : list Z) a n : 0 <= n -> zlen (slice l a n) <= n.
Proof. intros Hn. unfold slice, zlen. rewrite length_take. lia. Qed.

Lemma wp_read_call s w ptr n :
  sees s me fd_num fd f o w -> call_ok w (CRead ptr n) ->
  wp (run_call fd_num (CRead ptr n)) (fun r s' => r = (spec_call junk w (CRead ptr n)).1 /\ sees s' me fd_num fd f o (spec_call junk w (CRead ptr n)).2) assert_or_memory s.
Proof using Hjunk.
  intros Hs (Hptr & Hn & Hpn & Hsn). pose proof Hs as [Me A B C D E1 (obj & Hf & K)]. cbn [run_call spec_call]. unfold syscall_read, current_process. cbn [r_ebx r_ecx r_edx]. wp_steps.
  rewrite (proj2 (Z.eqb_neq _ 0)) by apply Hf. wp_steps. wp_fd s obj w Hf.
  destruct (Z.eqb_spec n 0) as [->|Hn0]; [by wp_steps|].
  assert (0 < n < 2 ^ 31) as Hn' by lia. destruct (size_in_blocks_bounds ptr n Hn' Hptr Hpn) as (Hsz & Hb & Hup & Hend).
  wp_steps. apply wp_kernel_vspace; [done|done| |].
  { wp_steps. apply wp_on_vm. eapply wp_mono; [apply wp_map_nowhere with (Q := fun _ _ => False)|by intros|intros e ->; by left]. }
  intros p v1 Hp Hfree Hv1. wp_steps. apply wp_on_vm.
  eapply wp_mono; [apply (wp_map_user (y_vm s) v1 (pdir (y_current s)) ptr n p); done| |by intros e []].
  intros v v2. rewrite (sees_bytes s w) by (done || lia). case_bool_decide as Hw; intros [-> Hm].
  2: { change (negb (-1 =? 0)) with true. cbv iota. wp_steps. split; [done|]. destruct Hm as (e & He & _). exact (sees_vm s e v2 w He Hs). }
  change (negb (0 =? 0)) with false. cbv iota. cbn [y_vm with_vm]. set (s2 := with_vm v2 (with_vm v1 s)).
  assert (v_heap v2 = v_heap (y_vm s)) as Hh2 by (by destruct Hm as (e & (_ & _ & ? & _) & _)).
  assert (has_file s2 fd_num fd f o obj (w_seek w)) as Hf2 by (apply (has_file_vm v2 s); done).
  wp_steps. apply (wp_fd_at s2 obj (w_seek w)); [done|]. intros rc. cbn [fd_node fd_seek]. wp_steps.
  pose proof (user_bytes_range (y_vm s) (pdir (y_current s)) ptr n) as Hr. rewrite (sees_bytes s w) in Hr by (done || lia). specialize (Hr Hw).
  assert (0 <= ptr /\ ptr + n <= 2 ^ 32) as Hpp by done.
  apply (wp_file_read s2 obj (w_seek w)); [done|lia|lia|lia|]. rewrite K.
  set (b := slice (w_content w) (w_seek w) n). assert (zlen b <= n) as Hbn by (apply slice_bounds; lia).
  assert (Forall is_u8 b) as Hb8 by (unfold b, slice; apply Forall_take, Forall_drop; rewrite <- K; apply Hf).
  destruct (zlen (w_content w) <? w_seek w); cbn [fst snd]; wp_steps.
  - eapply wp_mono; [apply (wp_fill_user (y_vm s) (pdir (y_current s)) ptr n p A B C Hn' Hpp Hr s2 [] assert_or_memory Hm); [change (zlen (@nil Z)) with 0; lia|by apply Forall_nil]| |done].
    intros u s3 (v3 & -> & Hm3). wp_steps. unfold advance. change (negb (MINUS_1 =? MINUS_1)) with false. cbv iota. wp_steps.
    eapply wp_mono; [apply (wp_unmap (y_vm s) (pdir (y_current s)) ptr n p A B C Hn' Hpp Hfree Hr (with_vm v3 s2) [] assert_or_memory Hm3); [change (zlen (@nil Z)) with 0; lia|by apply Forall_nil]| |done].
    intros u4 s4 (v4 & -> & Hw4). wp_steps. split; [done|]. destruct Hw4 as (Hw4 & _). exact (sees_vm s _ v4 w Hw4 Hs).
  - pose proof (zlen_nonneg b).
    eapply wp_mono; [apply (wp_fill_user (y_vm s) (pdir (y_current s)) ptr n p A B C Hn' Hpp Hr s2 b assert_or_memory Hm Hbn Hb8)| |done].
    intros u s3 (v3 & -> & Hm3). assert (v_heap v3 = v_heap (y_vm s)) as Hh3.
    { destruct Hm3 as (e & (_ & _ & Hh & _) & _). rewrite Hh. apply user_write_rest. }
    wp_steps. apply (wp_advance _ obj (w_seek w)); [by apply (has_file_vm v3 s)|unfold MINUS_1; lia|lia|]. intros q Hq.
    wp_steps. eapply wp_mono; [apply (wp_unmap (y_vm s) (pdir (y_current s)) ptr n p A B C Hn' Hpp Hfree Hr (with_files q (with_vm v3 s2)) b assert_or_memory Hm3 Hbn Hb8)| |done].
    intros u4 s4 (v4 & -> & Hw4). wp_steps. split; [done|].
    apply (sees_after_read s w v4 q ptr b obj); [done|done| |done|lia].
    assert (v_heap v4 = v_heap v3) as Hh4. { destruct Hw4 as ((_ & _ & Hh & _) & _). rewrite Hh, Hh3. apply user_write_rest. }
    exact (has_file_vm v4 (with_files q (with_vm v3 s2)) obj _ Hh4 Hq).
Qed.

Lemma splice_u8 (gap b : list Z) off buf : Forall is_u8 gap -> Forall is_u8 b -> Forall is_u8 buf -> Forall is_u8 (splice gap b off buf).
Proof.
  intros Hg Hb Hu. unfold splice. rewrite !Forall_app. split; [|split; [done|by apply Forall_drop]].
  apply Forall_take, Forall_app. split; [done|by apply Forall_drop].
Qed.

Lemma wp_file_write s obj seek buf (Q : Z -> Y -> Prop) E :
  has_file s fd_num fd f o obj seek -> 0 <= seek -> buf <> [] -> seek + zlen buf < 2 ^ 32 -> Forall is_u8 buf -> E NoMemory ->
  (forall p, has_file (with_files p s) fd_num fd f o (Tmpfs.written junk obj seek buf) seek -> Q (zlen buf) (with_files p s)) ->
  wp (zoom files_lens (zoom p_files (fs_write f seek (zlen buf) buf))) Q E s.
Proof using Hjunk Hjunk8.
  intros Hf Hs Hne Hsn Hu HE HQ. pose proof (stands_for_file s obj seek Hf) as Hst. destruct Hf as [Hh A B C (Hf0 & x & Hx & Hxo & Hxr & Hxw) (Ho & Hobj) Hok H8].
  apply wp_on_files; [done|]. apply wp_zoom. cbn [lget p_files]. unfold fs_write. wp_cond. rewrite (proj2 (Z.eqb_neq f 0)) by done. cbn [negb]. wp_steps.
  apply (wp_at_node _ f x); [done|]. rewrite Hxw. rewrite <- (app_nil_r buf) at 2. apply (wp_tmpfs_write junk Hjunk _ f o obj); [done|done|done|done|done|done|].
  split; [exact Hh|]. apply HQ. split; try done.
  - split; [done|]. by exists x.
  - split; [done|]. cbn. apply lookup_insert_eq.
  - by apply written_ok.
  - cbn. by apply splice_u8.
Qed.

Lemma user_bytes_u8 (v : vstate F H) d ptr n bs : user_bytes v d ptr n = Some bs -> Forall is_u8 bs /\ zlen bs = Z.max 0 n.
Proof.
  intros Hb. apply mapM_Some in Hb. split.
  - apply Forall_forall. intros b Hin. apply list_elem_of_lookup in Hin as [i Hi].
    destruct (Forall2_lookup_r _ _ _ _ _ Hb Hi) as (x & _ & Hx). unfold user_byte in Hx. destruct (accessible _); [|done]. injection Hx as <-.
    unfold byte_of, is_u8. apply Z.mod_pos_bound. lia.
  - apply Forall2_length in Hb. unfold zlen. rewrite <- Hb, length_seqZ. lia.
Qed.

Lemma wp_write_call s w ptr n :
  sees s me fd_num fd f o w -> call_ok w (CWrite ptr n) ->
  wp (run_call fd_num (CWrite ptr n)) (fun r s' => r = (spec_call junk w (CWrite ptr n)).1 /\ sees s' me fd_num fd f o (spec_call junk w (CWrite ptr n)).2) assert_or_memory s.
Proof using Hjunk Hjunk8.
  intros Hs (Hptr & Hn & Hpn & Hsn). pose proof Hs as [Me A B C D E1 (obj & Hf & K)]. cbn [run_call spec_call]. unfold syscall_write, current_process. cbn [r_ebx r_ecx r_edx]. wp_steps.
  wp_fd s obj w Hf. destruct (Z.eqb_spec n 0) as [->|Hn0]; [by wp_steps|].
  assert (0 < n < 2 ^ 31) as Hn' by lia. destruct (size_in_blocks_bounds ptr n Hn' Hptr Hpn) as (Hsz & Hb & Hup & Hend).
  wp_cond. rewrite (proj2 (Z.eqb_neq (size_in_blocks ptr n) 0)) by lia. cbn [negb].
  wp_steps. apply wp_kernel_vspace; [done|done| |].
  { wp_steps. apply wp_on_vm. eapply wp_mono; [apply wp_map_nowhere with (Q := fun _ _ => False)|by intros|intros e ->; by left]. }
  intros p v1 Hp Hfree Hv1. wp_steps. apply wp_on_vm.
  eapply wp_mono; [apply (wp_map_user (y_vm s) v1 (pdir (y_current s)) ptr n p); done| |by intros e []].
  intros v v2. pose proof (sees_bytes s w ptr n Hs Hptr Hpn) as Hbytes. rewrite Hbytes. case_bool_decide as Hw; intros [-> Hm].
  2: { change (negb (-1 =? 0)) with true. cbv iota. wp_steps. destruct Hm as (e & He & _).
    destruct (w_bytes w ptr n) eqn:Hwb; [exfalso; apply Hw; by eexists|]. split; [done|]. exact (sees_vm s e v2 w He Hs). }
  destruct Hw as [buf Hbuf]. rewrite Hbuf in Hbytes |- *. cbn [fst snd].
  change (negb (0 =? 0)) with false. cbv iota. cbn [y_vm with_vm]. set (s2 := with_vm v2 (with_vm v1 s)).
  assert (v_heap v2 = v_heap (y_vm s)) as Hh2 by (by destruct Hm as (e & (_ & _ & ? & _) & _)).
  assert (has_file s2 fd_num fd f o obj (w_seek w)) as Hf2 by (apply (has_file_vm v2 s); done).
  assert (0 <= ptr /\ ptr + n <= 2 ^ 32) as Hpp by done. destruct (window_split ptr n Hpp) as (W1 & W2 & W3).
  assert (0 <= ptr / 4096 /\ ptr / 4096 + size_in_blocks ptr n <= 2 ^ 20) as Hup' by (split; [apply Z.div_pos; lia|done]).
  destruct (user_bytes_u8 _ _ _ _ _ Hbytes) as [Hb8 Hbl]. rewrite Z.max_r in Hbl by lia.
  wp_steps. apply wp_on_vm. rewrite W2.
  eapply wp_mono; [apply (wp_read_bytes (y_vm s) (pdir (y_current s)) (ptr / 4096) p (size_in_blocks ptr n) Hup' v2 (ptr mod 4096) n assert_or_memory (user_pages_apart _ _ C) Hm); lia| |done].
  intros bs v3 [-> Hbs]. rewrite W1, Hbytes in Hbs. injection Hbs as <-.
  change (with_vm v2 s2) with s2. wp_steps. apply (wp_fd_at s2 obj (w_seek w)); [done|]. intros rc. cbn [fd_node fd_seek]. rewrite <- Hbl at 1.
  wp_steps. apply (wp_file_write s2 obj (w_seek w) buf); [done|lia|by destruct buf|lia|done|by right|]. intros q Hq.
  wp_steps. apply (wp_advance _ (Tmpfs.written junk obj (w_seek w) buf) (w_seek w)); [exact Hq|unfold MINUS_1; lia|lia|]. intros q' Hq'. wp_steps. apply wp_on_vm.
  eapply wp_mono; [apply (wp_unmap_from_kernel (y_vm s) p (size_in_blocks ptr n) A Hb Hfree v2 assert_or_memory)| |done].
  { by destruct Hm as (e & He & Ho & _); exists e. }
  intros u v4 Hv4. wp_steps. split; [done|].
  assert (v_heap v4 = v_heap v2) as Hh4 by (destruct Hv4 as (_ & _ & -> & _); done).
  pose proof (has_file_vm v4 (with_files q' (with_files q s2)) _ _ Hh4 Hq') as Hf4. destruct (kview_same_user _ _ _ _ A Hv4 B C) as [Hp4 Hb4]. split.
  - exact Me.
  - apply Hv4.
  - exact (proj2 (kview_ok _ _ v4 _ Hv4 B)).
  - exact Hp4.
  - intros x Hx. cbn. rewrite Hb4 by done. by apply D.
  - cbn [w_seek]. lia.
  - eexists. cbn [w_seek w_content]. rewrite Hbl in Hf4. split; [exact Hf4|]. unfold Tmpfs.written, content at 1. cbn [set_block t_block default]. by rewrite K, Hbl.
Qed.
End file.

End proofs.

(** ** A process with one page and one file *)

Definition sample_call_file : tmpfs_object := TmpfsObject [97; 98] FS_NODE_FILE None (Some [1; 2; 3]) 3 2.

Definition sample_files : pstate Interfaces.bump drivers handler :=
  PState (FState (Interfaces.Bump 200 {[ 50; 100 ]}) {[ 112 := tmpfs_file_node sample_call_file 108 1 ]} ∅ 0
      (f_drv (set_obj 108 sample_call_file sample_fs)))
    {[ 120 := FdEntry 112 0 1 ]} {[ 130 := FdTable 140 1 16 1 ]} {[ 140 := 120 :: replicate 15 0 ]}.

Definition sample_process : ystate bits Interfaces.bump drivers handler := YState one_page sample_files (Process 2 100 130).

Definition sample_view : view := View (user_byte one_page 100) [1; 2; 3] 0.

Lemma sample_sees : sees sample_process (Process 2 100 130) 0 120 112 108 sample_view.
Proof.
  split; [done|exact one_page_ok|exact one_page_udir|exact one_page_pages|done|done|]. exists sample_call_file. split; [|done]. split.
  - done.
  - done.
  - exists (FdTable 140 1 16 1), (120 :: replicate 15 0). done.
  - split; [done|]. by exists 1.
  - split; [done|]. by eexists.
  - split; [done|]. cbn. apply lookup_insert_eq.
  - split; [done|]. split; [done|]. split; [done|]. reflexivity.
  - repeat constructor; lia.
Qed.

