(* ===== verification/KernelPages.v ===== *)
(** * Frames behind pages of the kernel

    A fresh frame mapped at a page of the kernel and filled, which is how
    process.c fills the pages of a process, and the kernel stacks of task.c,
    with their mapping into a process. *)
From stdpp Require Import functions.
From S2P Require Import Prelude Interfaces Vmm VmmDir Uaccess UserMem ProcMem Syscall.

Section pages.
Context {F H : Type} `{FrameAllocLaws F, KHeapLaws H}.
Implicit Types (s : vstate F H) (r : role).

(** ** A page that no structure is reached through *)

Definition window s (p : Z) : Prop :=
  0 <= p < 2 ^ 20 /\ (~ usable (kentry s p) \/ foreign s (kentry s p / 4096)).

Lemma window_spare s p : vm_ok None s -> window s p -> spare s p.
Proof.
  intros Hok [Hp Hw] r Hr Heq. destruct (vo_mapped None s Hok r Hr) as (q & Hq & _ & Hqf & Hqu); [done|].
  assert (q = p) as -> by lia. destruct Hw as [Hw|Hw]; [done|]. by apply (Hw r Hr).
Qed.

Lemma usable_0 : ~ usable 0.
Proof. done. Qed.

(** [s'] is [s] with the fresh frame [b] mapped at page [p]. *)
Record fresh_page s (p b : Z) s' : Prop := FreshPage {
  fp_ok : vm_ok None s';
  fp_grown : grown s s';
  fp_rest : v_heap s' = v_heap s /\ v_dirs s' = v_dirs s;
  fp_users : same_users s s';
  fp_page : 0 <= p < 2 ^ 20;
  fp_entry : kentry s' p = b * 4096 + 3;
  fp_kernel : forall q, 0 <= q < 2 ^ 20 -> q <> p -> kentry s' q = kentry s q;
  fp_frame : 0 < b /\ ~ taken s b /\ taken s' b /\ foreign s' b;
}.

(** A frame comes out of the allocator. *)
Lemma frame_out s b f' : vm_ok None s -> 0 < b < frame_count (v_frames s) -> frame_used (v_frames s) b = false -> frame_marked (v_frames s) true b f' ->
  let s1 := lset frames_lens f' s in
  vm_ok None s1 /\ grown s s1 /\ 0 < b /\ ~ taken s b /\ taken s1 b /\ foreign s1 b.
Proof.
  intros Hok Hb Hbu Hmk s1. split; [by apply (vm_ok_frames s b)|]. split; [by apply (grown_frames s b)|]. split; [lia|].
  split; [intros [_ Hbt]; congruence|]. split.
  - destruct Hmk as (_ & Hc & Hu). unfold taken. change (v_frames s1) with f'. rewrite Hc, Hu, Z.eqb_refl by lia. split; [lia|done].
  - intros r Hr. by apply (fresh_frame s s1 b f').
Qed.

Lemma fresh_page_mapped s p b f' : vm_ok None s -> window s p -> 0 < b < frame_count (v_frames s) -> frame_used (v_frames s) b = false ->
  frame_marked (v_frames s) true b f' -> fresh_page s p b (set_kentry p (Z.lor (b * 4096) 3) (lset frames_lens f' s)).
Proof.
  intros Hok Hw Hb Hbu Hmk. pose proof Hw as [Hp _]. destruct (frame_out s b f' Hok Hb Hbu Hmk) as (Hok1 & G1 & B0 & B1 & B2 & B3).
  set (s1 := lset frames_lens f' s) in *. pose proof (window_spare s p Hok Hw) as Hs.
  assert (vm_ok None (set_kentry p (Z.lor (b * 4096) 3) s1)) as Hok2 by (apply vm_ok_spare; [done|lia|done]).
  assert (grown s1 (set_kentry p (Z.lor (b * 4096) 3) s1)) as G2 by (apply (grown_set_kentry None); [done|lia]).
  assert (0 <= p < 2 ^ 20) as Hp' by lia. split.
  - done.
  - by eapply grown_trans.
  - done.
  - intros d q Hd Hq. by rewrite (users_set_kentry s1 p _ Hok1 Hp' d q Hd Hq).
  - done.
  - rewrite (kentry_set None), Z.eqb_refl by done. by apply lor_page.
  - intros q Hq Hne. rewrite (kentry_set None) by done. by rewrite (proj2 (Z.eqb_neq q p)).
  - split; [done|]. split; [done|]. by apply (grown_foreign s1).
Qed.

Lemma fresh_usable s p b s' : fresh_page s p b s' -> kentry s' p / 4096 = b /\ usable (kentry s' p).
Proof.
  intros Hf. rewrite (fp_entry _ _ _ _ Hf). rewrite <- (lor_page b 3) by lia. by apply present_entry.
Qed.

(** ** Its contents *)

(** Only the contents of frame [f] change. *)
Definition frame_only (f : Z) s s' : Prop :=
  same_structs s s' /\ v_heap s' = v_heap s /\ forall g k, 0 <= k < 1024 -> g <> f -> word s' g k = word s g k.

Lemma frame_only_refl f s : frame_only f s s.
Proof. done. Qed.

Lemma frame_only_trans f s1 s2 s3 : frame_only f s1 s2 -> frame_only f s2 s3 -> frame_only f s1 s3.
Proof.
  intros (A1 & A2 & A3) (B1 & B2 & B3). split; [by eapply same_trans|]. split; [congruence|]. intros g k Hk Hg. by rewrite B3, A3.
Qed.

Lemma frame_only_word s f k v : foreign s f -> 0 <= k < 1024 -> frame_only f s (set_word f k v s).
Proof.
  intros Hf Hk. split; [|split; [done|]].
  - do 5 (split; [done|]). intros r j Hr Hj. rewrite word_set by done. by rewrite (proj2 (Z.eqb_neq _ _)) by (by apply Hf).
  - intros g j Hj Hg. rewrite word_set by done. by rewrite (proj2 (Z.eqb_neq g f)).
Qed.

Lemma frame_only_poke s f o b : foreign s f -> 0 <= o < 4096 -> frame_only f s (poke (f * 4096 + o) b s).
Proof.
  intros Hf Ho. split; [by apply same_poke|]. split; [done|]. intros g k Hk Hg. unfold word, word_at, poke. cbn [v_mem set_mem]. apply fn_lookup_insert_ne.
  pose proof (Z.div_mod (f * 4096 + o) 4 ltac:(lia)). pose proof (Z.mod_pos_bound (f * 4096 + o) 4 ltac:(lia)). lia.
Qed.

Lemma frame_only_foreign f s s' g : frame_only f s s' -> foreign s g -> foreign s' g.
Proof. intros (Hs & _) Hg r Hr. apply (same_role s s' Hs) in Hr. rewrite (same_frame s s' Hs) by done. by apply Hg. Qed.

Lemma wp_write_kpage s p k v (Q : unit -> vstate F H -> Prop) E : vm_ok None s -> 0 <= p < 2 ^ 20 -> usable (kentry s p) -> 0 <= k < 1024 ->
  Q tt (set_word (kentry s p / 4096) k v s) -> wp (write_word (u32 (p * 4096 + 4 * k)) v) Q E s.
Proof.
  intros Hok Hp Hu Hk HQ. unfold write_word. wp_steps. rewrite translate_kernel by (done || lia). wp_cond. wp_steps. by rewrite word_index.
Qed.

(** [memset] of the whole page. *)
Lemma wp_clear_kpage s p E : vm_ok None s -> 0 <= p < 2 ^ 20 -> usable (kentry s p) -> foreign s (kentry s p / 4096) ->
  wp (clear_page (p * 4096)) (fun _ s' => frame_only (kentry s p / 4096) s s' /\ forall k, 0 <= k < 1024 -> word s' (kentry s p / 4096) k = 0) E s.
Proof.
  intros Hok Hp Hu Hf. unfold clear_page. set (f := kentry s p / 4096) in *.
  eapply wp_mono; [apply (wp_for_up (fun k s' => frame_only f s s' /\ forall j, 0 <= j < k -> word s' f j = 0))| |done].
  - split; [apply frame_only_refl|]. intros j Hj. lia.
  - intros k s1 Hk [Ho Hz]. change (0 + Z.of_nat 1024) with 1024 in Hk. pose proof Ho as (Hs & _). pose proof (same_kentry s s1 Hs p Hp) as He.
    apply wp_write_kpage; [by apply (same_ok s)|done|by rewrite He|done|]. rewrite He. fold f. split.
    + eapply frame_only_trans; [exact Ho|]. apply frame_only_word; [by apply (frame_only_foreign f s)|done].
    + intros j Hj. rewrite word_set, Z.eqb_refl by lia. destruct (Z.eqb_spec j k); [done|]. apply Hz. lia.
  - done.
Qed.

(** The driver leaves [bytes] at the start of the page. *)
Lemma wp_fill_kpage s p bytes E : vm_ok None s -> 0 <= p < 2 ^ 20 -> usable (kentry s p) -> foreign s (kentry s p / 4096) ->
  zlen bytes <= 4096 -> Forall is_u8 bytes ->
  wp (fill (p * 4096) bytes) (fun _ s' => frame_only (kentry s p / 4096) s s' /\
    forall o b, zlookup bytes o = Some b -> byte_of (v_mem s') (kentry s p / 4096 * 4096 + o) = b) E s.
Proof.
  intros Hok Hp Hu Hf Hl H8. unfold fill. set (f := kentry s p / 4096) in *.
  eapply wp_mono; [apply (wp_for_up (fun i s' => frame_only f s s' /\ forall o b, o < i -> zlookup bytes o = Some b -> byte_of (v_mem s') (f * 4096 + o) = b))| |done].
  - split; [apply frame_only_refl|]. intros o b Ho Hb. apply zlookup_Some_range in Hb. lia.
  - intros i s1 Hi [Ho Hb]. unfold zlen in Hl. pose proof Ho as (Hs & _). pose proof (same_kentry s s1 Hs p Hp) as He.
    destruct (proj2 (zlookup_lt_is_Some bytes i)) as [b Hbi]; [unfold zlen; lia|]. wp_steps. rewrite Hbi. wp_cond.
    unfold write_byte. wp_steps. rewrite translate_kernel by (rewrite ?He; first [by apply (same_ok s)|done|lia]). rewrite He. fold f. wp_cond. wp_steps.
    change (set_mem _ s1) with (poke (f * 4096 + i) b s1). split.
    + eapply frame_only_trans; [exact Ho|]. apply frame_only_poke; [by apply (frame_only_foreign f s)|lia].
    + intros o c Hlt Hc. rewrite byte_of_poke by (by eapply (zlookup_Forall is_u8)).
      destruct (Z.eqb_spec (f * 4096 + o) (f * 4096 + i)) as [Heq|Hne]; [|apply Hb; [lia|done]]. replace o with i in Hc by lia. congruence.
  - intros u s1 [Ho Hb]. split; [done|]. intros o b Hlk. apply Hb; [|done]. apply zlookup_Some_range in Hlk. unfold zlen in Hlk. lia.
Qed.

(** A page that was fresh in [s] and has been filled since. *)
Lemma fresh_page_filled s p b s1 s2 : fresh_page s p b s1 -> frame_only b s1 s2 -> fresh_page s p b s2.
Proof.
  intros [A1 A2 [A3 A3'] A4 Ap A5 A6 (A7 & A8 & A9 & A10)] Ho. pose proof Ho as (Hs & Hh & Hw). pose proof Hs as (Hd & _ & _ & _ & Hfr & _). split.
  - by apply (same_ok s1).
  - by apply (grown_other b s s1).
  - split; congruence.
  - intros d q Hx Hq. rewrite (same_user s1 s2 Hs) by (done || by apply A2). by apply A4.
  - done.
  - by rewrite (same_kentry s1 s2 Hs).
  - intros q Hq Hne. rewrite (same_kentry s1 s2 Hs) by done. by apply A6.
  - do 2 (split; [done|]). split; [unfold taken; by rewrite Hfr|]. by apply (frame_only_foreign b s1).
Qed.

(** ** The kernel stack of a task *)

Lemma kpage_wrap p i : u32 (p * 4096 + i * 4096) = kpage_of p i * 4096.
Proof. replace (p * 4096 + i * 4096) with ((p + i) * BLOCK_SIZE) by (unfold BLOCK_SIZE; lia). apply page_wrap. Qed.

Lemma kpage_of_of p i j : kpage_of (kpage_of p i) j = kpage_of p (i + j).
Proof. unfold kpage_of. rewrite Zplus_mod_idemp_l. f_equal. lia. Qed.

Lemma kpage_of_inj p i j : 0 <= i < 8 -> 0 <= j < 8 -> kpage_of p i = kpage_of p j -> i = j.
Proof.
  unfold kpage_of. intros Hi Hj He. pose proof (Z.div_mod (p + i) (2 ^ 20) ltac:(lia)) as A. pose proof (Z.div_mod (p + j) (2 ^ 20) ltac:(lia)) as B. lia.
Qed.

(** The stack in construction at page [p]: its lower guard and the first [n] pages. *)
Record kstack_part s (p n : Z) s' : Prop := KstackPart {
  kp_ok : vm_ok None s';
  kp_grown : grown s s';
  kp_rest : v_heap s' = v_heap s /\ v_dirs s' = v_dirs s;
  kp_users : same_users s s';
  kp_guard : kentry s' (kpage_of p 0) = PAGE_VALUE_GUARD;
  kp_pages : forall i, 1 <= i <= n -> exists b, kentry s' (kpage_of p i) = b * 4096 + 3 /\ 0 < b /\ ~ taken s b /\ taken s' b /\ foreign s' b /\
    forall k, 0 <= k < 1024 -> word s' b k = 0;
  kp_apart : forall i j, 1 <= i <= n -> 1 <= j <= n -> kentry s' (kpage_of p i) / 4096 = kentry s' (kpage_of p j) / 4096 -> i = j;
  kp_left : forall i, n < i < 8 -> ~ usable (kentry s' (kpage_of p i));
  kp_other : forall q, 0 <= q < 2 ^ 20 -> (forall i, 0 <= i < 8 -> q <> kpage_of p i) -> kentry s' q = kentry s q;
}.

Lemma page_number_entry b lo : 0 <= lo < 4096 -> (b * 4096 + lo) / 4096 = b.
Proof. intros Hlo. symmetry. apply Z.div_unique with lo; lia. Qed.

(** The next page. *)
Lemma kstack_part_step s p n s1 b s2 : 0 <= n < 6 -> kstack_part s p n s1 -> fresh_page s1 (kpage_of p (n + 1)) b s2 ->
  (forall k, 0 <= k < 1024 -> word s2 b k = 0) -> kstack_part s p (n + 1) s2.
Proof.
  intros Hn [A1 A2 [A3 A3'] A4 A5 A6 A7 A8 A9] [B1 B2 [B3 B3'] B4 Bp B5 B6 (B7 & B8 & B9 & B10)] Hz.
  assert (forall i, 0 <= i < 8 -> i <> n + 1 -> kentry s2 (kpage_of p i) = kentry s1 (kpage_of p i)) as Hold.
  { intros i Hi Hne. apply B6; [apply kpage_range|]. intros He. by apply kpage_of_inj in He; [|lia..]. }
  assert (forall i, 1 <= i <= n -> kentry s1 (kpage_of p i) / 4096 <> b) as Hnew.
  { intros i Hi He. destruct (A6 i Hi) as (c & Hc & _ & _ & Ht & _). rewrite Hc, page_number_entry in He by lia. by subst c. }
  split.
  - done.
  - by eapply grown_trans.
  - split; congruence.
  - by apply (same_users_trans s s1 s2); [apply A2|..].
  - rewrite Hold by lia. done.
  - intros i Hi. destruct (Z.eq_dec i (n + 1)) as [->|Hne].
    + exists b. split; [done|]. split; [done|]. split; [|done]. intros Ht. by apply B8, A2.
    + destruct (A6 i) as (c & C1 & C2 & C3 & C4 & C5 & C6); [lia|]. exists c. rewrite Hold by lia. do 3 (split; [done|]).
      destruct (grown_foreign s1 s2 c B2 C4 C5). split; [done|]. split; [done|]. intros k Hk. rewrite (gr_word s1 s2 B2) by done. by apply C6.
  - intros i j Hi Hj. destruct (Z.eq_dec i (n + 1)) as [->|Hne], (Z.eq_dec j (n + 1)) as [->|Hne']; [done| | |].
    + rewrite B5, page_number_entry, Hold by lia. intros He. by destruct (Hnew j ltac:(lia)).
    + rewrite B5, page_number_entry, Hold by lia. intros He. by destruct (Hnew i ltac:(lia)).
    + rewrite !Hold by lia. apply A7; lia.
  - intros i Hi. rewrite Hold by lia. apply A8. lia.
  - intros q Hq Hout. rewrite B6; [by apply A9|done|]. apply Hout. lia.
Qed.

Lemma wp_kstack_page s p n s1 : 0 <= n < 6 -> kstack_part s p n s1 ->
  wp (kstack_page (v_kernel s1) (kpage_of p 1 * 4096) n) (fun _ s2 => kstack_part s p (n + 1) s2) only_nomem s1.
Proof.
  intros Hn Hpart. pose proof Hpart as [Hok _ _ _ _ _ _ Hl _]. set (q := kpage_of p (n + 1)).
  unfold kstack_page. change BLOCK_SIZE with 4096. rewrite kpage_wrap, kpage_of_of. replace (1 + n) with (n + 1) by lia. fold q.
  assert (0 <= q < 2 ^ 20) as Hq by apply kpage_range. assert (window s1 q) as Hw by (split; [done|]; left; apply Hl; lia).
  wp_steps. apply wp_zoom. wp_apply frame_alloc_safe_spec; [apply Hok| |done]. intros v f' (b & -> & Hb & Hbu & Hmk). cbv beta.
  pose proof (fresh_page_mapped s1 q b f' Hok Hw Hb Hbu Hmk) as Hf. destruct (frame_out s1 b f' Hok Hb Hbu Hmk) as (Hok2 & _).
  change BLOCK_SIZE with 4096. set (s2 := lset frames_lens f' s1) in *. change (v_kernel s1) with (v_kernel s2). wp_steps.
  apply (wp_ktable None); [done|by apply page_u32|]. wp_steps. apply (wp_kmap None); [done|done|done|].
  change (Z.lor PAGE_PRESENT PAGE_READWRITE) with 3. set (s3 := set_kentry q _ s2) in *. wp_steps. apply wp_invalidate.
  destruct (fresh_usable s1 q b s3 Hf) as [E1 E2]. wp_steps.
  eapply wp_mono; [apply (wp_clear_kpage s3 q only_nomem); [apply Hf|done|done|rewrite E1; apply Hf]| |done]. rewrite E1.
  intros u s4 [Ho Hz]. apply (kstack_part_step s p n s1 b); [done|done|by eapply fresh_page_filled|done].
Qed.

(** A stack of six zeroed pages between two guards, its top at page [p + 7]. *)
Record kstack_made s (p : Z) s' : Prop := KstackMade {
  km_ok : vm_ok None s';
  km_grown : grown s s';
  km_rest : v_heap s' = v_heap s /\ v_dirs s' = v_dirs s;
  km_users : same_users s s';
  km_guards : kentry s' (kpage_of p 0) = PAGE_VALUE_GUARD /\ kentry s' (kpage_of p 7) = PAGE_VALUE_GUARD;
  km_pages : forall i, 1 <= i <= 6 -> exists b, kentry s' (kpage_of p i) = b * 4096 + 3 /\ 0 < b /\ ~ taken s b /\ taken s' b /\ foreign s' b /\
    forall k, 0 <= k < 1024 -> word s' b k = 0;
  km_apart : forall i j, 1 <= i <= 6 -> 1 <= j <= 6 -> kentry s' (kpage_of p i) / 4096 = kentry s' (kpage_of p j) / 4096 -> i = j;
  km_free : forall i, 0 <= i < 8 -> kentry s (kpage_of p i) = 0;
  km_other : forall q, 0 <= q < 2 ^ 20 -> (forall i, 0 <= i < 8 -> q <> kpage_of p i) -> kentry s' q = kentry s q;
}.

Lemma reserved_run s p s1 : free_run s p 8 -> reserved None s p (if p + 8 <? 2 ^ 20 then 8 else 0) s1 -> 0 < p < 2 ^ 20 ->
  (forall i, 0 <= i < 8 -> ~ usable (kentry s1 (kpage_of p i))) /\
  forall q, 0 <= q < 2 ^ 20 -> (forall i, 0 <= i < 8 -> q <> kpage_of p i) -> kentry s1 q = kentry s q.
Proof.
  intros Hrun (_ & _ & _ & _ & _ & _ & _ & He) Hp. split.
  - intros i Hi. pose proof (kpage_range p i) as Hq. rewrite He by done. destruct (_ && _); [done|].
    unfold kpage_of. specialize (Hrun i Hi). rewrite Hrun. apply usable_0.
  - intros q Hq Hout. rewrite He by done. destruct (Z.ltb_spec (p + 8) (2 ^ 20)) as [Hlt|Hge].
    + destruct (Z.leb_spec p q), (Z.ltb_spec q (p + 8)); cbn [andb]; try done. exfalso. apply (Hout (q - p)); [lia|].
      unfold kpage_of. replace (p + (q - p)) with q by lia. by rewrite Z.mod_small.
    + rewrite Z.add_0_r. destruct (Z.leb_spec p q), (Z.ltb_spec q p); cbn [andb]; try done; lia.
Qed.

Lemma wp_task_kstack_alloc s : vm_ok None s -> block_room 1 s ->
  wp task_kstack_alloc (fun kstack s' => exists p, kstack = kpage_of p 7 * 4096 /\ 0 < p /\ p + 8 <= 2 ^ 20 /\ kstack_made s p s') only_nomem s.
Proof.
  intros Hok (p8 & Hp8 & Hp8' & Hr8)%block_room_run; [|done]. unfold task_kstack_alloc, kernel_directory. wp_steps.
  wp_apply (wp_find_vspace None s KSTACK_SIZE only_nomem); [done|done|unfold KSTACK_SIZE; lia| |done].
  specialize (Hr8 KSTACK_SIZE ltac:(done)). intros v s1 [(-> & -> & Hno)|(p & -> & Hp & Hrun & Hlow & R)]; [by destruct (Hno p8 ltac:(lia))|].
  assert (p <= p8) as Hple by (destruct (Z.le_gt_cases p p8); [done|]; by destruct (Hlow p8 ltac:(lia))).
  destruct (reserved_run s p s1 Hrun R Hp) as [Hfree Hother].
  pose proof R as (Hok1 & _ & Hh1 & Hd1 & Hk1 & _). change KSTACK_SIZE with 8 in *. change BLOCK_SIZE with 4096.
  rewrite (proj2 (Z.eqb_neq (p * 4096) 0)) by lia. cbn [negb kassert]. wp_steps. rewrite <- Hk1.
  assert (p = kpage_of p 0) as Hp0 by (unfold kpage_of; rewrite Z.add_0_r; by rewrite Z.mod_small by lia).
  apply (wp_ktable None); [done|apply page_u32; lia|]. wp_steps. apply (wp_kmap None); [done|done|lia|].
  change (Z.lor PAGE_VALUE_GUARD 0) with PAGE_VALUE_GUARD. wp_steps. apply wp_invalidate. wp_steps.
  assert (window s1 p) as Hw by (split; [lia|]; left; rewrite Hp0; by apply Hfree).
  set (s2 := set_kentry p PAGE_VALUE_GUARD s1). assert (vm_ok None s2) as Hok2 by (apply vm_ok_spare; [done|lia|by apply window_spare]).
  assert (kstack_part s p 0 s2) as Hpart.
  { assert (forall i, 0 < i < 8 -> kpage_of p i <> p) as Hne by (intros i Hi He; rewrite Hp0 in He at 2; apply kpage_of_inj in He; lia). split.
    - done.
    - eapply grown_trans; [by eapply grown_reserved|]. apply (grown_set_kentry None); [done|lia].
    - done.
    - intros x q Hx Hq. unfold s2. assert (exists_role s1 (UDir x)) as Hx1 by (by apply (exists_role_dirs s)). rewrite users_set_kentry by (done || lia).
      by apply (reserved_users None s p (if p + 8 <? 2 ^ 20 then 8 else 0) s1).
    - rewrite <- Hp0. unfold s2. by rewrite (kentry_set None), Z.eqb_refl by (done || lia).
    - intros i Hi. lia.
    - intros i j Hi. lia.
    - intros i Hi. unfold s2. rewrite (kentry_set None) by (done || lia || apply kpage_range). rewrite (proj2 (Z.eqb_neq _ p)) by (apply Hne; lia). apply Hfree. lia.
    - intros q Hq Hout. unfold s2. rewrite (kentry_set None) by (done || lia). rewrite (proj2 (Z.eqb_neq q p)) by (rewrite Hp0; apply Hout; lia). by apply Hother. }
  rewrite (kpage_wrap p 1 : u32 (p * 4096 + 4096) = _). 
  eapply (wp_mono _ _ _ only_nomem); [apply (wp_for_up (fun n s' => kstack_part s p n s'))| |done].
  - done.
  - intros n s3 Hn Hpn. change (v_kernel s1) with (v_kernel s2). assert (v_kernel s2 = v_kernel s3) as ->.
    { transitivity (v_kernel s); [apply Hk1|]. symmetry. apply Hpn. }
    apply wp_kstack_page; [change (0 + Z.of_nat (Z.to_nat (8 - 2))) with 6 in Hn; lia|done].
  - intros u s3 Hp6. change (0 + Z.of_nat (Z.to_nat (8 - 2))) with 6 in Hp6. wp_steps.
    change ((8 - 2) * 4096) with (6 * 4096). rewrite kpage_wrap, kpage_of_of. change (1 + 6) with 7. pose proof (kp_ok _ _ _ _ Hp6) as Hok3.
    assert (v_kernel s1 = v_kernel s3) as -> by (rewrite Hk1; symmetry; apply Hp6).
    set (q := kpage_of p 7). assert (0 <= q < 2 ^ 20) as Hq by apply kpage_range.
    apply (wp_ktable None); [done|by apply page_u32|]. wp_steps. apply (wp_kmap None); [done|done|done|].
    change (Z.lor PAGE_VALUE_GUARD 0) with PAGE_VALUE_GUARD. wp_steps. apply wp_invalidate. wp_steps. exists p. do 2 (split; [done || lia|]). split; [lia|].
    assert (window s3 q) as Hw3 by (split; [done|]; left; apply Hp6; lia).
    destruct Hp6 as [A1 A2 A3 A4 A5 A6 A7 A8 A9]. set (s4 := set_kentry q PAGE_VALUE_GUARD s3).
    assert (grown s3 s4) as G4 by (by apply (grown_set_kentry None)).
    assert (forall i, 0 <= i < 7 -> kentry s4 (kpage_of p i) = kentry s3 (kpage_of p i)) as Hold.
    { intros i Hi. unfold s4. rewrite (kentry_set None) by (done || apply kpage_range). rewrite (proj2 (Z.eqb_neq _ q)); [done|]. intros He. apply kpage_of_inj in He; lia. }
    split.
    + apply vm_ok_spare; [done|done|by apply window_spare].
    + by eapply grown_trans.
    + done.
    + apply (same_users_trans s s3 s4); [apply A2|apply A3|done|by apply users_set_kentry].
    + split; [rewrite Hold by lia; done|]. unfold s4. by rewrite (kentry_set None), Z.eqb_refl.
    + intros i Hi. destruct (A6 i Hi) as (b & B1 & B2 & B3 & B4 & B5 & B6). exists b. rewrite Hold by lia. do 3 (split; [done|]).
      destruct (grown_foreign s3 s4 b G4 B4 B5). do 2 (split; [done|]). intros k Hk. rewrite (gr_word s3 s4 G4) by done. by apply B6.
    + intros i j Hi Hj. rewrite !Hold by lia. by apply A7.
    + intros i Hi. by apply (Hrun i Hi).
    + intros x Hx Hout. unfold s4. rewrite (kentry_set None) by done. rewrite (proj2 (Z.eqb_neq x q)) by (apply Hout; lia). by apply A9.
Qed.

Lemma kstack_uses s p s' : kstack_made s p s' -> uses 8 s s'.
Proof.
  intros [_ _ _ _ _ _ _ _ Hk]. exists (list_to_set (kpage_of p <$> seqZ 0 8)). split.
  - rewrite size_list_to_set; [done|]. apply NoDup_fmap_2_strong; [|apply NoDup_seqZ]. intros i j Hi%elem_of_seqZ Hj%elem_of_seqZ. apply kpage_of_inj; lia.
  - intros q Hq Hz Hne. rewrite Hk; [done|done|]. intros i Hi ->. apply Hne, elem_of_list_to_set, list_elem_of_fmap. exists i. split; [done|]. apply elem_of_seqZ. lia.
Qed.

(** Its pages are not open to user mode. *)
Lemma kstack_closed s p s' i : kstack_made s p s' -> 0 <= i < 8 -> Z.land (kentry s' (kpage_of p i)) PAGE_USER = 0.
Proof.
  intros Hkm Hi. destruct (decide (i = 0)) as [->|]; [by rewrite (proj1 (km_guards _ _ _ Hkm))|]. destruct (decide (i = 7)) as [->|]; [by rewrite (proj2 (km_guards _ _ _ Hkm))|].
  destruct (km_pages _ _ _ Hkm i) as (b & -> & _); [lia|]. apply Z.bits_inj'. intros k Hk. rewrite Z.land_spec, Z.bits_0. change PAGE_USER with (2 ^ 2).
  rewrite Z.pow2_bits_eqb by lia. destruct (Z.eqb_spec 2 k) as [<-|]; [|by rewrite andb_false_r]. rewrite <- (Z.mod_pow2_bits_low (b * 4096 + 3) 3) by lia.
  by replace ((b * 4096 + 3) mod 2 ^ 3) with 3 by (apply Z.mod_unique with (b * 512); lia).
Qed.

(** ** The kernel stack in a process *)

(** Page [q] is page [n] to 7 of the stack at [p]. *)
Definition stack_page (p n q : Z) : bool := (n <=? (q - p) mod 2 ^ 20) && ((q - p) mod 2 ^ 20 <? 8).

Lemma stack_index p q i : 0 <= q < 2 ^ 20 -> 0 <= i < 8 -> q = kpage_of p i <-> (q - p) mod 2 ^ 20 = i.
Proof.
  intros Hq Hi. unfold kpage_of. split.
  - intros ->. rewrite Zminus_mod_idemp_l. replace (p + i - p) with i by lia. by apply Z.mod_small; lia.
  - intros <-. rewrite Zplus_mod_idemp_r. replace (p + (q - p)) with q by lia. by rewrite Z.mod_small.
Qed.

Lemma stack_page_at p n i : 0 <= i < 8 -> stack_page p n (kpage_of p i) = (n <=? i).
Proof.
  intros Hi. pose proof (kpage_range p i) as Hq. unfold stack_page. rewrite (proj1 (stack_index p (kpage_of p i) i Hq Hi)) by done.
  rewrite (proj2 (Z.ltb_lt i 8)) by lia. by rewrite andb_true_r.
Qed.

Lemma wp_set_page x s r va v (Q : unit -> vstate F H -> Prop) E :
  vm_ok x s -> exists_role s r -> mapped s r -> Q tt (set_word (frame s r) (va / 4096 mod 1024) v s) ->
  wp (set_page (pointer s r) va v) Q E s.
Proof.
  intros Hok Hr Hm HQ. pose proof Hm as (p & Hp & Hpr & _).
  unfold set_page, page_slot. wp_cond. rewrite (proj2 (Z.eqb_neq (pointer s r) 0)) by lia. cbn [negb]. wp_steps. rewrite table_index.
  apply (wp_write_role x); try done. apply Z.mod_pos_bound. lia.
Qed.

(** A page of a process gets entry [e]; it must not have one. *)
Lemma wp_set_user_page s d p e : vm_ok None s -> exists_role s (UDir d) -> 0 <= p < 2 ^ 20 -> user_entry s d p = 0 -> room 2 s ->
  wp (let! t := table_alloc (p * 4096) d in let! x := get_page t (p * 4096) in kassert (x =? 0) >>>
      let! t := table_alloc (p * 4096) d in set_page t (p * 4096) e) (fun _ s' => page_set s d p e s' /\ uses 2 s s') only_nomem s.
Proof.
  intros Hok Hd Hp Hez Hroom. unfold table_alloc. wp_steps. wp_apply (wp_get_table_alloc 0 s d (p * 4096) only_nomem); [done|done|by apply page_u32|apply page_aligned|intros e' He'; by apply (room_space 2 s)| |done].
  intros t s1 (Hok1 & Hr1 & -> & (p0 & Hz & K1 & K2 & K3 & K4 & K5) & G & Hh & _).
  assert (uses 1 s s1) as U1 by (by apply (uses_step p0 s s1)).
  assert (word s1 (frame s1 (UTab d (p * 4096 / 2 ^ 22))) (p * 4096 / 4096 mod 1024) = 0) as Hz0.
  { destruct (page_parts p) as [E1 E2]. rewrite E1, E2. assert (user_entry s1 d p = 0) as Hu0 by (by rewrite K4). unfold user_entry in Hu0. destruct Hr1 as (_ & _ & _ & Hnz).
    rewrite E2 in Hnz. by rewrite (proj2 (Z.eqb_neq _ 0)) in Hu0. }
  wp_steps. apply (wp_get_page None); [done|done|by apply (vo_mapped None s1 Hok1)|]. rewrite Hz0. wp_cond. cbn [kassert Z.eqb]. wp_steps.
  assert (exists_role s1 (UDir d)) as Hd1 by (by apply G).
  wp_apply (wp_get_table_alloc 0 s1 d (p * 4096) only_nomem); [done|done|by apply page_u32|apply page_aligned|intros e' He'; by apply (room_space 1 s1); [|apply (uses_room 1 1 s s1)|]| |done].
  intros t s2 (Hok2 & Hr2 & -> & (p1 & Hz1 & L1 & L2 & L3 & L4 & L5) & G1 & Hh1 & _). destruct (page_parts p) as [E1 E2]. rewrite E2 in *.
  destruct (page_split p Hp). wp_steps. apply (wp_set_page None); [done|done|by apply (vo_mapped None s2 Hok2)|]. rewrite E1.
  split.
  2: { apply (uses_trans 1 1 s s1); [done|]. apply (uses_step p1 s1). intros q Hq Hne. rewrite kentry_user_set by done. by apply L5. }
  split; [by apply vm_ok_set_user|]. split; [eapply grown_trans; [exact G|]; eapply grown_trans; [exact G1|by apply (grown_set_word None)]|].
  split; [cbn; congruence|]. split; [intros x; cbn; by rewrite L2|]. split.
  - intros q Hq Hne. rewrite kentry_user_set by done. assert (kentry s1 q = kentry s q) as Hq1 by (apply K5; [done|]; intros ->; by apply Hne, Hz).
    rewrite L5; [done|done|]. intros ->. apply Hne. rewrite <- Hq1. by apply Hz1.
  - intros x q Hx Hq. assert (exists_role s1 (UDir x)) by (by apply G). rewrite user_entry_set by (try done; by apply G1). by rewrite L4, K4.
Qed.

(** Process [d] has the kernel's entries for the stack at [p]. *)
Record stack_mapped s (d p n : Z) s' : Prop := StackMapped {
  sm_ok : vm_ok None s';
  sm_grown : grown s s';
  sm_heap : v_heap s' = v_heap s;
  sm_keys : same_keys s s';
  sm_kept : kernel_kept s s';
  sm_users : forall x q, exists_role s (UDir x) -> 0 <= q < 2 ^ 20 ->
    user_entry s' x q = if (x =? d) && stack_page p n q then kentry s q else user_entry s x q;
  sm_closed : forall i, n <= i < 8 -> shared (kentry s (kpage_of p i)) = false;
}.

Lemma closed_entry e : Z.land e PAGE_USER = 0 -> shared e = false.
Proof.
  intros He. unfold shared. apply Z.eqb_eq in He. change PAGE_USER with (2 ^ 2) in He. rewrite testbit_land in He by lia.
  apply negb_true_iff in He. by rewrite He, andb_false_r.
Qed.

Lemma wp_process_map_kstack s d p : vm_ok None s -> exists_role s (UDir d) -> (forall i, 0 <= i < 8 -> kentry s (kpage_of p i) <> 0) ->
  kpage_of p 7 <> 0 -> (forall i, 0 <= i < 8 -> Z.land (kentry s (kpage_of p i)) PAGE_USER = 0 /\ user_entry s d (kpage_of p i) = 0) -> room 16 s ->
  wp (process_map_kstack d (kpage_of p 7 * 4096)) (fun _ s' => stack_mapped s d p 0 s' /\ uses 16 s s') only_nomem s.
Proof.
  intros Hok Hd Hnz Htop Hkinds Hroom. unfold process_map_kstack. wp_cond. rewrite (proj2 (Z.eqb_neq _ 0)) by lia. cbn [negb]. wp_steps.
  eapply (wp_mono _ _ _ only_nomem); [apply (wp_for_up (fun i s' => stack_mapped s d p (8 - i) s' /\ uses (2 * i) s s'))| |done].
  - split; [|by apply uses_refl]. split; [done|apply grown_refl|done|by intros x|by intros q| |intros i Hi; lia].
    intros x q Hx Hq. unfold stack_page. rewrite andb_comm. destruct (Z.leb_spec (8 - 0) ((q - p) mod 2 ^ 20)), (Z.ltb_spec ((q - p) mod 2 ^ 20) 8); cbn; try done; lia.
  - intros i s1 Hi [[A1 A2 A3 A4 A5 A6 A7] Hus]. change (0 + Z.of_nat (Z.to_nat KSTACK_SIZE)) with 8 in Hi.
    assert (u32 (kpage_of p 7 * 4096 - i * BLOCK_SIZE) = kpage_of p (7 - i) * 4096) as ->.
    { change BLOCK_SIZE with 4096. replace (kpage_of p 7 * 4096 - i * 4096) with (kpage_of p 7 * 4096 + (- i) * 4096) by lia.
      rewrite kpage_wrap, kpage_of_of. by replace (7 + - i) with (7 - i) by lia. }
    set (q := kpage_of p (7 - i)). assert (0 <= q < 2 ^ 20) as Hq by apply kpage_range.
    unfold kernel_directory. wp_steps. apply (wp_ktable None); [done|by apply page_u32|]. wp_steps. apply (wp_kpage None); [done|done|done|].
    assert (kentry s1 q = kentry s q) as He by (apply A5; [done|]; apply Hnz; lia). rewrite He.
    destruct (Hkinds (7 - i) ltac:(lia)) as [Hcl Hez]. fold q in Hcl, Hez. wp_cond. rewrite Hcl. cbn [kassert Z.eqb]. cbv beta.
    assert (user_entry s1 d q = 0) as Hez1.
    { rewrite A6 by done. unfold q. rewrite stack_page_at by lia. rewrite (proj2 (Z.leb_gt _ _)) by lia. by rewrite andb_false_r. }
    assert (room 2 s1) as Hroom1 by (apply (uses_room (2 * i) _ s s1); [done|]; apply (room_mono 16); [lia|done]).
    assert (exists_role s1 (UDir d)) as Hd1 by (by apply A2).
    eapply wp_mono; [by apply (wp_set_user_page s1 d q (kentry s q))| |done].
    + intros u s2 [(B1 & B2 & B3 & B4 & B5 & B6) Hus2]. split; [|replace (2 * (i + 1)) with (2 * i + 2) by lia; by eapply uses_trans]. split.
      * done.
      * by eapply grown_trans.
      * congruence.
      * intros x. by rewrite (B4 x).
      * by eapply kernel_kept_trans.
      * intros x y Hx Hy. rewrite B6 by (try done; by apply A2). rewrite A6 by done. destruct (Z.eqb_spec x d) as [->|]; cbn [andb]; [|done].
        destruct (Z.eqb_spec y q) as [->|Hne].
        -- unfold q. rewrite stack_page_at by lia. by rewrite (proj2 (Z.leb_le _ _)) by lia.
        -- assert ((y - p) mod 2 ^ 20 <> 7 - i) as Hix by (intros Hix; apply Hne; apply stack_index; [done|lia|done]).
           unfold stack_page. destruct (Z.leb_spec (8 - i) ((y - p) mod 2 ^ 20)), (Z.leb_spec (8 - (i + 1)) ((y - p) mod 2 ^ 20)); try done; lia.
      * intros j Hj. destruct (Z.eq_dec j (7 - i)) as [->|]; [by apply closed_entry|]. apply A7. lia.
  - intros u s1. change (0 + Z.of_nat (Z.to_nat KSTACK_SIZE)) with 8. done.
Qed.
End pages.
