(* ===== verification/HeapPages.v ===== *)
(** * The pages of the kernel heap

    The two functions through which liballoc.c takes pages from the paging
    code and gives them back, liballoc_alloc and liballoc_free, and that
    these are the pages file Liballoc relies on. *)
From stdpp Require Import functions.
From S2P Require Import Prelude Interfaces Pmm Liballoc LiballocLayout LiballocInv LiballocSpec Vmm VmmDir Uaccess UserMem ProcMem Syscall KernelPages.

(** ** The functions *)

Section code.
Context {F H : Type} `{FrameAlloc F, KHeap H}.
Abbreviation V := (vstate F H).

(** Page [i] of the run at [v]. *)
Definition heap_page_free (k v i : Z) : M V unit :=
  let vaddr := u32 (v + i * BLOCK_SIZE) in
  let! table := get_table vaddr k in
  let! page := get_page table vaddr in
  if page =? PAGE_VALUE_RESERVED then map_page table vaddr 0 0
  else
    let block := Z.ldiff page 0xFFF in
    map_page table vaddr 0 0 >>>
    free_frame block.

Definition liballoc_free (v pages : Z) : M V unit :=
  kassert (negb (v =? 0)) >>>
  let! k := kernel_directory in
  for_up (Z.to_nat pages) 0 (heap_page_free k v).

(** Without a frame the kernel stops. *)
Definition heap_page_alloc (k v_start i : Z) : M V unit :=
  let! real_block := zoom frames_lens frame_try_alloc in
  if real_block =? 0 then
    (if 0 <? i then liballoc_free v_start (i - 1) else ret tt) >>> fail Halted
  else
    let vaddr := u32 (v_start + i * BLOCK_SIZE) in
    let! t := table_alloc vaddr k in
    map_page t vaddr real_block (Z.lor PAGE_PRESENT PAGE_READWRITE).

Definition liballoc_alloc (pages : Z) : M V Z :=
  let! k := kernel_directory in
  let! v_start := find_vspace k pages in
  for_up (Z.to_nat pages) 0 (heap_page_alloc k v_start) >>>
  ret v_start.
End code.

(** ** Kernel pages and their frames *)

Section pages.
Context {F H : Type} `{FrameAllocLaws F, KHeapLaws H}.
Implicit Types (s : vstate F H) (r : role).

(** [s'] is [s] with other entries for the kernel's pages, [ent], and other
    frames handed out, [out]; nothing that processes see has changed. *)
Record repaged s (ent : Z -> Z) (out : Z -> bool) s' : Prop := Repaged {
  rp_ok : vm_ok None s';
  rp_heap : v_heap s' = v_heap s;
  rp_dirs : v_dirs s' = v_dirs s;
  rp_kernel : v_kernel s' = v_kernel s;
  rp_role : forall r, exists_role s r -> frame s' r = frame s r;
  rp_users : same_users s s';
  rp_word : forall f k, foreign s f -> 0 <= k < 1024 -> word s' f k = word s f k;
  rp_count : frame_count (v_frames s') = frame_count (v_frames s);
  rp_entry : forall q, 0 <= q < 2 ^ 20 -> kentry s' q = ent q;
  rp_out : forall c, 0 <= c -> frame_used (v_frames s') c = out c;
}.

Lemma repaged_refl s : vm_ok None s -> repaged s (kentry s) (frame_used (v_frames s)) s.
Proof. intros Hok. by split. Qed.

Lemma repaged_exists s ent out s' r : repaged s ent out s' -> exists_role s' r <-> exists_role s r.
Proof. intros R. apply exists_role_dirs; apply R. Qed.

Lemma repaged_foreign s ent out s' f : repaged s ent out s' -> foreign s' f <-> foreign s f.
Proof.
  intros R. split; intros Hf r Hr.
  - rewrite <- (rp_role _ _ _ _ R) by done. apply Hf. by apply (repaged_exists _ _ _ _ r R).
  - apply (repaged_exists _ _ _ _ r R) in Hr. rewrite (rp_role _ _ _ _ R) by done. by apply Hf.
Qed.

Lemma repaged_ext s ent ent' out out' s' : repaged s ent out s' -> (forall q, 0 <= q < 2 ^ 20 -> ent q = ent' q) ->
  (forall c, 0 <= c -> out c = out' c) -> repaged s ent' out' s'.
Proof.
  intros R He Ho. split; try apply R.
  - intros q Hq. rewrite (rp_entry _ _ _ _ R) by done. by apply He.
  - intros c Hc. rewrite (rp_out _ _ _ _ R) by done. by apply Ho.
Qed.

Lemma repaged_trans s ent out s1 ent' out' s2 : repaged s ent out s1 -> repaged s1 ent' out' s2 -> repaged s ent' out' s2.
Proof.
  intros A B. split; try apply B.
  - by rewrite (rp_heap _ _ _ _ B), (rp_heap _ _ _ _ A).
  - by rewrite (rp_dirs _ _ _ _ B), (rp_dirs _ _ _ _ A).
  - by rewrite (rp_kernel _ _ _ _ B), (rp_kernel _ _ _ _ A).
  - intros r Hr. rewrite (rp_role _ _ _ _ B); [by apply A|]. by apply (repaged_exists s ent out).
  - apply (same_users_trans s s1 s2); apply A || apply B.
  - intros f k Hf Hk. rewrite (rp_word _ _ _ _ B); [by apply A| |done]. by apply (repaged_foreign s ent out).
  - by rewrite (rp_count _ _ _ _ B), (rp_count _ _ _ _ A).
Qed.

(** A page gets another entry. *)
Lemma repaged_set s ent out s1 p v : repaged s ent out s1 -> window s1 p ->
  repaged s (fun q => if q =? p then v else ent q) out (set_kentry p v s1).
Proof.
  intros R Hw. pose proof (rp_ok _ _ _ _ R) as Hok. pose proof Hw as [Hp _]. pose proof (window_spare s1 p Hok Hw) as Hs.
  assert (forall r, exists_role s1 r -> frame (set_kentry p v s1) r = frame s1 r) as Hfr.
  { intros r Hr. destruct (page_split p Hp). by apply (frame_set_table None). }
  split; try apply R.
  - by apply vm_ok_spare.
  - intros r Hr. rewrite Hfr by (by apply (repaged_exists s ent out)). by apply R.
  - apply (same_users_trans s s1); [apply R|apply R|apply R|by apply users_set_kentry].
  - intros f k Hf Hk. rewrite <- (rp_word _ _ _ _ R) by done. destruct (page_split p Hp). unfold set_kentry. rewrite word_set by done.
    rewrite (proj2 (Z.eqb_neq f _)); [done|]. intros ->. by apply (proj2 (repaged_foreign s ent out s1 _ R) Hf (KTab (p / 1024))).
  - intros q Hq. rewrite (kentry_set None) by done. destruct (q =? p); [done|]. by apply R.
Qed.

(** A frame that holds no structure changes hands. *)
Lemma repaged_mark s ent out s1 v b f' : repaged s ent out s1 -> 0 <= b -> foreign s1 b -> frame_marked (v_frames s1) v b f' ->
  repaged s ent (fun c => if c =? b then v else out c) (lset frames_lens f' s1).
Proof.
  intros R Hb Hf (Hfo & Hc & Hu). pose proof (rp_ok _ _ _ _ R) as Hok. split; try apply R.
  - split; try apply Hok; [done|]. intros r Hr. change (exists_role s1 r) in Hr. destruct (vo_taken None s1 Hok r Hr) as [B1 B2].
    change (frame (lset frames_lens f' s1) r) with (frame s1 r). cbn [v_frames lset frames_lens]. rewrite Hc. split; [done|].
    rewrite Hu by lia. rewrite (proj2 (Z.eqb_neq b _)); [done|]. intros ->. by apply (Hf r).
  - cbn [v_frames lset frames_lens]. rewrite Hc. apply R.
  - intros c Hc0. cbn [v_frames lset frames_lens]. rewrite Hu by done. rewrite (Z.eqb_sym b c). destruct (c =? b); [done|]. by apply R.
Qed.

(** ** Runs of pages *)

(** Page [p + i] is mapped to frame [i] of [bs]. *)
Definition backed s (p : Z) (bs : list Z) : Prop :=
  0 < p /\ p + zlen bs <= 2 ^ 20 - 1 /\ NoDup bs /\
  forall i b, zlookup bs i = Some b -> kentry s (p + i) = b * 4096 + 3 /\ 0 < b /\ taken s b /\ foreign s b.

(** Entries and frames after [n] pages of it are given back. *)
Definition cut_entry s (p n q : Z) : Z := if in_run p n q then 0 else kentry s q.
Definition cut_out s (bs : list Z) (n c : Z) : bool := negb (bool_decide (c ∈ take (Z.to_nat n) bs)) && frame_used (v_frames s) c.

Lemma in_run_iff b n q : in_run b n q = true <-> b <= q < b + n.
Proof. unfold in_run. rewrite andb_true_iff, Z.leb_le, Z.ltb_lt. done. Qed.

Lemma in_run_S b n q : 0 <= n -> in_run b (n + 1) q = (q =? b + n) || in_run b n q.
Proof. intros Hn. apply eq_true_iff_eq. rewrite orb_true_iff, !in_run_iff, Z.eqb_eq. lia. Qed.

Lemma take_next (bs : list Z) n b : zlookup bs n = Some b -> take (Z.to_nat (n + 1)) bs = take (Z.to_nat n) bs ++ [b].
Proof.
  intros Hb. pose proof (zlookup_Some_range _ _ _ Hb). rewrite Z2Nat.inj_add by lia. change (Z.to_nat 1) with 1%nat. rewrite Nat.add_1_r.
  apply take_S_r. unfold zlookup in Hb. by destruct (Z.ltb_spec n 0).
Qed.

Lemma frame_entry_free b : Z.ldiff (b * 4096 + 3) 0xFFF = b * BLOCK_SIZE.
Proof.
  change 0xFFF with (Z.ones 12). rewrite Z.ldiff_ones_r by lia. rewrite Z.shiftr_div_pow2, Z.shiftl_mul_pow2 by lia. change (2 ^ 12) with 4096.
  by rewrite page_number_entry by lia.
Qed.

Lemma frame_entry_held b : (b * 4096 + 3 =? PAGE_VALUE_RESERVED) = false.
Proof. apply Z.eqb_neq. unfold PAGE_VALUE_RESERVED. lia. Qed.

Lemma window_frame s p b : 0 <= p < 2 ^ 20 -> kentry s p = b * 4096 + 3 -> foreign s b -> window s p.
Proof. intros Hp He Hf. split; [done|]. right. by rewrite He, page_number_entry by lia. Qed.

Lemma wp_heap_page_free s p bs i s1 b : backed s p bs -> zlookup bs i = Some b -> repaged s (cut_entry s p i) (cut_out s bs i) s1 ->
  wp (heap_page_free (v_kernel s) (p * BLOCK_SIZE) i) (fun _ s' => repaged s (cut_entry s p (i + 1)) (cut_out s bs (i + 1)) s') never s1.
Proof.
  intros (Hp & Hlast & _ & Hb) Hi R. pose proof (zlookup_Some_range _ _ _ Hi) as Hr. destruct (Hb i b Hi) as (He & Hb0 & Ht & Hf).
  pose proof (rp_ok _ _ _ _ R) as Hok. rewrite <- (rp_kernel _ _ _ _ R). unfold heap_page_free.
  replace (p * BLOCK_SIZE + i * BLOCK_SIZE) with ((p + i) * BLOCK_SIZE) by lia. rewrite page_wrap, Z.mod_small by lia.
  assert (0 <= p + i < 2 ^ 20) as Hq by lia. assert (kentry s1 (p + i) = b * 4096 + 3) as He1.
  { rewrite (rp_entry _ _ _ _ R) by done. unfold cut_entry, in_run. rewrite (proj2 (Z.ltb_ge (p + i) (p + i))) by lia. by rewrite andb_false_r. }
  assert (foreign s1 b) as Hf1 by (by apply (repaged_foreign s _ _ s1 b R)).
  wp_steps. apply (wp_ktable None); [done|by apply page_u32|]. wp_steps. apply (wp_kpage None); [done|done|done|].
  rewrite He1, frame_entry_held, frame_entry_free. cbv iota zeta. wp_steps. apply (wp_kmap None); [done|done|done|].
  change (Z.lor 0 0) with 0. pose proof (repaged_set s _ _ s1 (p + i) 0 R (window_frame s1 (p + i) b Hq He1 Hf1)) as R2.
  set (s2 := set_kentry (p + i) 0 s1) in *. wp_steps. unfold free_frame. apply wp_zoom.
  wp_apply frame_free_spec; [apply R2| | |by intros e []].
  { cbn [lget frames_lens]. rewrite (rp_count _ _ _ _ R2). destruct Ht. lia. }
  intros u f' Hm. cbv beta. eapply repaged_ext; [apply (repaged_mark s _ _ s2 false b f' R2); [lia|by apply (repaged_foreign s _ _ s2 b R2)|exact Hm]|..].
  - intros q Hq0. unfold cut_entry. rewrite in_run_S by lia. by destruct (q =? p + i).
  - intros c Hc. unfold cut_out. rewrite (take_next bs i b Hi). rewrite (bool_decide_ext (c ∈ take (Z.to_nat i) bs ++ [b]) (c = b \/ c ∈ take (Z.to_nat i) bs)) by set_solver.
    destruct (Z.eqb_spec c b) as [->|Hne]; [by rewrite bool_decide_eq_true_2 by (by left)|]. f_equal. f_equal. apply bool_decide_ext. naive_solver.
Qed.

Lemma wp_liballoc_free s p bs n : vm_ok None s -> backed s p bs -> 0 <= n <= zlen bs ->
  wp (liballoc_free (p * BLOCK_SIZE) n) (fun _ s' => repaged s (cut_entry s p n) (cut_out s bs n) s') never s.
Proof.
  intros Hok Hb Hn. pose proof Hb as (Hp & _). unfold liballoc_free, kernel_directory. wp_cond.
  rewrite (proj2 (Z.eqb_neq _ 0)) by (unfold BLOCK_SIZE; lia). cbn [negb]. wp_steps.
  eapply (wp_mono _ _ _ never); [apply (wp_for_up (fun i s' => repaged s (cut_entry s p i) (cut_out s bs i) s'))| |done].
  - eapply repaged_ext; [by apply repaged_refl|..].
    + intros q Hq. unfold cut_entry, in_run. destruct (Z.leb_spec p q), (Z.ltb_spec q (p + 0)); cbn; try done; lia.
    + intros c Hc. unfold cut_out. cbn. by rewrite bool_decide_eq_false_2 by (apply not_elem_of_nil).
  - intros i s1 Hi R. destruct (proj2 (zlookup_lt_is_Some bs i)) as [b Hbi]; [lia|]. by apply (wp_heap_page_free s p bs i s1 b).
  - intros u s1. rewrite Z2Nat.id by lia. done.
Qed.

(** ** Allocation *)

(** How the kernel stops when frames or addresses run out. *)
Definition out_of_pages (e : panic) : Prop := e = Halted \/ e = AssertFail.

(** The run of [n] pages at [p] is reserved and its first pages have the
    frames [bs]. *)
Definition run_entry s (p n : Z) (bs : list Z) (q : Z) : Z :=
  if in_run p n q then match zlookup bs (q - p) with Some b => b * 4096 + 3 | None => PAGE_VALUE_RESERVED end else kentry s q.
Definition run_out s (bs : list Z) (c : Z) : bool := bool_decide (c ∈ bs) || frame_used (v_frames s) c.

Definition fresh_frames s (bs : list Z) : Prop :=
  NoDup bs /\ forall b, b ∈ bs -> 0 < b < frame_count (v_frames s) /\ frame_used (v_frames s) b = false.

Record filled s (p n : Z) (bs : list Z) s' : Prop := Filled {
  fl_pages : repaged s (run_entry s p n bs) (run_out s bs) s';
  fl_frames : fresh_frames s bs;
}.

Lemma filled_foreign s p n bs s' b : vm_ok None s -> filled s p n bs s' -> b ∈ bs -> foreign s' b /\ taken s' b.
Proof.
  intros Hok [R [_ Hfr]] Hb. destruct (Hfr b Hb) as [Hc Hu]. split.
  - apply (repaged_foreign s _ _ s' b R). intros r Hr Hfb. destruct (vo_taken None s Hok r Hr) as [_ Hu']. congruence.
  - split; [rewrite (rp_count _ _ _ _ R); lia|]. rewrite (rp_out _ _ _ _ R) by lia. unfold run_out. by rewrite bool_decide_eq_true_2.
Qed.

Lemma filled_backed s p n bs s' : vm_ok None s -> filled s p n bs s' -> 0 < p -> zlen bs <= n -> p + n <= 2 ^ 20 - 1 -> backed s' p bs.
Proof.
  intros Hok Hfl Hp Hl Hn. pose proof Hfl as [R [Hnd Hfr]]. split; [done|]. split; [lia|]. split; [done|].
  intros i b Hi. pose proof (zlookup_Some_range _ _ _ Hi) as Hr. assert (b ∈ bs) as Hb by (eapply (zlookup_Forall (.∈ bs)); [by apply Forall_forall|done]).
  destruct (filled_foreign s p n bs s' b Hok Hfl Hb), (Hfr b Hb). split; [|split; [lia|done]].
  rewrite (rp_entry _ _ _ _ R) by lia. unfold run_entry. rewrite (proj2 (in_run_iff p n (p + i))) by lia.
  replace (p + i - p) with i by lia. by rewrite Hi.
Qed.

Lemma filled_start s p n s1 : vm_ok None s -> p + n < 2 ^ 20 -> reserved None s p n s1 -> filled s p n [] s1.
Proof.
  intros Hok Hn (Hok1 & Hf & Hh & Hd & Hk & Hfr & Hw & He) . split; [|by split; [apply NoDup_nil_2|intros b ?%elem_of_nil]]. split; try done.
  - intros d q Hdr Hq. by apply (reserved_users None s p n s1).
  - intros f k Hff Hkk. apply Hw; [done|]. intros i Hi ->. by apply (Hff (KTab i)).
  - by rewrite Hf.
  - intros q Hq. rewrite He by done. unfold run_entry, zlookup. rewrite lookup_nil. by destruct (in_run p n q) eqn:Hr, (q - p <? 0); unfold in_run in Hr; rewrite Hr.
  - intros c Hc. unfold run_out. rewrite bool_decide_eq_false_2 by (apply not_elem_of_nil). by rewrite Hf.
Qed.

(** An answer of -1 is no address of a page. *)
Lemma wp_no_address s (Q : unit -> vstate F H -> Prop) : vm_ok None s -> wp (heap_page_alloc (v_kernel s) (2 ^ 32 - 1) 0) Q out_of_pages s.
Proof.
  intros Hok. unfold heap_page_alloc. wp_steps. apply wp_zoom. wp_apply frame_try_alloc_spec; [apply Hok| |by intros e []].
  intros v f' Hv. cbv beta. wp_cond. destruct (Z.eqb_spec v 0) as [->|Hne]; [cbn; wp_steps; by left|].
  destruct Hv as [[? _]|(b & -> & Hb & Hbu & Hm)]; [done|]. set (s1 := lset frames_lens f' s).
  assert (vm_ok None s1) as Hok1 by (by apply (vm_ok_frames s b)). change (v_kernel s) with (v_kernel s1). unfold table_alloc. wp_steps.
  rewrite u32_small by (unfold is_u32, BLOCK_SIZE; lia). apply (wp_ktable_alloc None); [done|done|unfold is_u32, BLOCK_SIZE; lia|]. wp_steps. unfold map_page. wp_cond. destruct (negb _); [|by right]. wp_cond. by right.
Qed.

(** One more page. *)
Lemma filled_step s p n bs s1 b f' : vm_ok None s -> filled s p n bs s1 -> 0 < p -> zlen bs < n -> p + n <= 2 ^ 20 - 1 ->
  0 < b < frame_count (v_frames s1) -> frame_used (v_frames s1) b = false -> frame_marked (v_frames s1) true b f' ->
  filled s p n (bs ++ [b]) (set_kentry (p + zlen bs) (Z.lor (b * 4096) 3) (lset frames_lens f' s1)).
Proof.
  intros Hok Hfl Hp Hl Hn Hb Hbu Hm. pose proof Hfl as [R [Hnd Hfr]]. pose proof (rp_ok _ _ _ _ R) as Hok1. pose proof (zlen_nonneg bs) as Hl0.
  assert (foreign s1 b) as Hf by (intros r Hr Hfb; destruct (vo_taken None s1 Hok1 r Hr) as [_ ?]; congruence).
  pose proof (repaged_mark s _ _ s1 true b f' R ltac:(lia) Hf Hm) as R1. set (s2 := lset frames_lens f' s1) in *.
  assert (kentry s2 (p + zlen bs) = PAGE_VALUE_RESERVED) as He.
  { rewrite (rp_entry _ _ _ _ R1) by lia. unfold run_entry. rewrite (proj2 (in_run_iff p n (p + zlen bs))) by lia.
    replace (p + zlen bs - p) with (zlen bs) by lia. destruct (zlookup bs (zlen bs)) eqn:Hz; [|done]. apply zlookup_Some_range in Hz. lia. }
  assert (window s2 (p + zlen bs)) as Hw by (split; [lia|]; left; by rewrite He).
  pose proof (repaged_set s _ _ s2 (p + zlen bs) (Z.lor (b * 4096) 3) R1 Hw) as R2. assert (b ∉ bs) as Hnb.
  { intros Hin. destruct (filled_foreign s p n bs s1 b Hok Hfl Hin) as [_ [_ Ht]]. congruence. }
  assert (frame_used (v_frames s) b = false) as Hbs.
  { rewrite (rp_out _ _ _ _ R) in Hbu by lia. unfold run_out in Hbu. by apply orb_false_iff in Hbu as [_ ?]. }
  split.
  - eapply repaged_ext; [exact R2|..].
    + intros q Hq. cbv beta. unfold run_entry. destruct (Z.eqb_spec q (p + zlen bs)) as [->|Hne].
      * rewrite (proj2 (in_run_iff p n (p + zlen bs))) by lia. replace (p + zlen bs - p) with (zlen bs) by lia. rewrite zlookup_app_mid. by apply lor_page.
      * destruct (in_run p n q) eqn:Hr; [|done]. apply in_run_iff in Hr. unfold zlookup, zlen in *. destruct (Z.ltb_spec (q - p) 0); [lia|].
        destruct (decide (Z.to_nat (q - p) < length bs)%nat) as [Hlt|Hge]; [by rewrite lookup_app_l|].
        rewrite lookup_app_r, lookup_ge_None_2, lookup_ge_None_2 by (cbn; lia). done.
    + intros c Hc. cbv beta. unfold run_out. rewrite (bool_decide_ext (c ∈ bs ++ [b]) (c = b \/ c ∈ bs)) by set_solver.
      destruct (Z.eqb_spec c b) as [->|Hne]; [by rewrite bool_decide_eq_true_2 by (by left)|]. f_equal. apply bool_decide_ext. naive_solver.
  - split.
    + apply NoDup_app. split; [done|]. split; [|by apply NoDup_singleton]. by intros c Hc ->%list_elem_of_singleton.
    + intros c [Hc| ->%list_elem_of_singleton]%elem_of_app; [by apply Hfr|]. rewrite (rp_count _ _ _ _ R) in Hb. by split.
Qed.

Lemma wp_heap_page_alloc s p n i s1 bs : vm_ok None s -> 0 < p -> p + n <= 2 ^ 20 - 1 -> 0 <= i < n -> zlen bs = i -> filled s p n bs s1 ->
  wp (heap_page_alloc (v_kernel s) (p * BLOCK_SIZE) i) (fun _ s' => exists bs', zlen bs' = i + 1 /\ filled s p n bs' s') out_of_pages s1.
Proof.
  intros Hok Hp Hn Hi Hl Hfl. pose proof (fl_pages _ _ _ _ _ Hfl) as R. pose proof (rp_ok _ _ _ _ R) as Hok1. unfold heap_page_alloc. wp_steps.
  apply wp_zoom. wp_apply frame_try_alloc_spec; [apply Hok1| |by intros e []]. intros v f' Hv. cbv beta. wp_cond.
  destruct (Z.eqb_spec v 0) as [->|Hne].
  - destruct Hv as [[_ ->]|(b & ? & Hb & _)]; [|unfold BLOCK_SIZE in *; lia]. assert (lset frames_lens (lget frames_lens s1) s1 = s1) as -> by (by destruct s1). wp_steps. wp_cond. destruct (Z.ltb_spec 0 i); [|by wp_steps; left].
    wp_apply (wp_liballoc_free s1 p bs (i - 1)); [done|apply (filled_backed s p n); try done; lia|lia|by wp_steps; left|by intros e []].
  - destruct Hv as [[? _]|(b & -> & Hb & Hbu & Hm)]; [done|]. pose proof (filled_step s p n bs s1 b f' Hok Hfl Hp ltac:(lia) Hn Hb Hbu Hm) as Hst.
    assert (vm_ok None (lset frames_lens f' s1)) as Hok2 by (by apply (vm_ok_frames s1 b)).
    set (s2 := lset frames_lens f' s1) in *. replace (p * BLOCK_SIZE + i * BLOCK_SIZE) with ((p + i) * BLOCK_SIZE) by lia.
    rewrite page_wrap, Z.mod_small by lia. rewrite <- (rp_kernel _ _ _ _ R). change (v_kernel s1) with (v_kernel s2). unfold table_alloc. wp_steps.
    apply (wp_ktable_alloc None); [done|done|apply page_u32; lia|]. wp_steps. apply (wp_kmap None); [done|done|lia|]. exists (bs ++ [b]).
    rewrite zlen_app, Hl. split; [done|]. rewrite Hl in Hst. exact Hst.
Qed.

(** A run of [n] free pages that goes around the end of the address space is
    not the only one. *)
Definition no_wrap s (n : Z) : Prop :=
  forall p, 0 < p < 2 ^ 20 -> 2 ^ 20 - 1 < p + n -> free_run s p n -> exists q, 0 < q /\ q + n <= 2 ^ 20 - 1 /\ free_run s q n.

Lemma last_page_no_wrap s n : kentry s (2 ^ 20 - 1) <> 0 -> no_wrap s n.
Proof.
  intros Htop p Hp Hn Hrun. exfalso. apply Htop. specialize (Hrun (2 ^ 20 - 1 - p) ltac:(lia)).
  replace (p + (2 ^ 20 - 1 - p)) with (2 ^ 20 - 1) in Hrun by lia. exact Hrun.
Qed.

Lemma wp_liballoc_alloc s n : vm_ok None s -> no_wrap s n -> 1 <= n < 2 ^ 20 ->
  wp (liballoc_alloc n) (fun v s' => exists p bs, v = p * BLOCK_SIZE /\ 0 < p /\ p + n <= 2 ^ 20 - 1 /\ zlen bs = n /\
    free_run s p n /\ (forall q, 0 < q < p -> ~ free_run s q n) /\ filled s p n bs s') out_of_pages s.
Proof.
  intros Hok Hwrap Hn. unfold liballoc_alloc, kernel_directory. wp_steps.
  wp_apply (wp_find_vspace None s n never); [done|done|done| |by intros e []]. intros v s1 [(-> & -> & _)|(p & -> & Hp & Hrun & Hmin & R)]; cbv beta.
  - replace (Z.to_nat n) with (Datatypes.S (Z.to_nat (n - 1))) by lia. wp_steps. apply wp_for_up_step. by apply wp_no_address.
  - assert (p + n <= 2 ^ 20 - 1) as Hlast.
    { destruct (Z.le_gt_cases (p + n) (2 ^ 20 - 1)); [done|]. destruct (Hwrap p) as (q & Hq & Hqn & Hqr); [done|lia|done|]. by destruct (Hmin q ltac:(lia)). }
    rewrite (proj2 (Z.ltb_lt _ _)) in R by lia. wp_steps.
    eapply (wp_mono _ _ _ out_of_pages); [apply (wp_for_up (fun i s' => exists bs, zlen bs = i /\ filled s p n bs s'))| |done].
    + exists []. split; [done|]. apply filled_start; [done|lia|done].
    + intros i s2 Hi (bs & Hl & Hfl). apply (wp_heap_page_alloc s p n i s2 bs); try done; lia.
    + intros u s2 (bs & Hl & Hfl). rewrite Z2Nat.id in Hl by lia. wp_steps. exists p, bs. do 3 (split; [done || lia|]). done.
Qed.

(** What is allocated and given back leaves no trace. *)
Lemma filled_freed s p n bs s1 s2 : vm_ok None s -> filled s p n bs s1 -> free_run s p n -> zlen bs = n -> p + n <= 2 ^ 20 - 1 -> 0 < p ->
  repaged s1 (cut_entry s1 p n) (cut_out s1 bs n) s2 -> repaged s (kentry s) (frame_used (v_frames s)) s2.
Proof.
  intros Hok Hfl Hrun Hl Hlast Hp R2. pose proof Hfl as [R [Hnd Hfr]]. eapply repaged_ext; [by eapply repaged_trans|..].
  - intros q Hq. unfold cut_entry. rewrite (rp_entry _ _ _ _ R) by done. unfold run_entry. destruct (in_run p n q) eqn:Hr; [|done].
    apply in_run_iff in Hr. specialize (Hrun (q - p) ltac:(lia)). replace (p + (q - p)) with q in Hrun by lia. by rewrite Z.mod_small in Hrun by lia.
  - intros c Hc. unfold cut_out. rewrite (rp_out _ _ _ _ R) by done. rewrite take_ge by (unfold zlen in Hl; lia). unfold run_out.
    destruct (bool_decide_reflect (c ∈ bs)) as [Hb|Hb]; cbn; [|done]. by destruct (Hfr c Hb) as [_ ->].
Qed.

(** C31. The heap gets its pages from the paging code: the lowest free run of kernel addresses, each page
    with a frame of its own that was free, and nothing of the processes changes; giving the pages back
    restores the tables and the frames.  The lowest run must not go around the end of the address space. *)
Theorem heap_pages_roundtrip s n :
  vm_ok None s -> no_wrap s n -> 1 <= n < 2 ^ 20 ->
  wp (liballoc_alloc n) (fun v s1 => exists p bs,
    v = p * BLOCK_SIZE /\ zlen bs = n /\ free_run s p n /\ (forall q, 0 < q < p -> ~ free_run s q n) /\
    filled s p n bs s1 /\
    wp (liballoc_free v n) (fun _ s2 => repaged s (kentry s) (frame_used (v_frames s)) s2) never s1) out_of_pages s.
Proof.
  intros Hok Hwrap Hn. eapply wp_mono; [by apply wp_liballoc_alloc| |done].
  intros v s1 (p & bs & -> & Hp & Hlast & Hl & Hrun & Hmin & Hfl). exists p, bs. do 5 (split; [done|]).
  eapply wp_mono; [apply (wp_liballoc_free s1 p bs n); [apply Hfl|apply (filled_backed s p n); try done; lia|lia]| |done].
  intros u s2 R. by apply (filled_freed s p n bs s1).
Qed.
End pages.

(** ** The pages of file Liballoc *)

Section provider.
Context {F H : Type} `{FrameAllocLaws F, KHeapLaws H}.

(** The paging code and the pages the heap has. *)
Record heap_pages : Type := HeapPages { hp_vm : vstate F H; hp_held : Z -> bool }.

(** A kernel that stops for want of frames or addresses is out of memory. *)
Definition heap_pages_alloc (n : Z) : M heap_pages Z := fun x =>
  match liballoc_alloc n (hp_vm x) with
  | Ok (v, s) => Ok (v, HeapPages s (fun q => in_run (v / BLOCK_SIZE) n q || hp_held x q))
  | Err (Halted | AssertFail) => Err NoMemory
  | Err e => Err e
  end.

Definition heap_pages_free (v n : Z) : M heap_pages unit := fun x =>
  match liballoc_free v n (hp_vm x) with
  | Ok (_, s) => Ok (tt, HeapPages s (fun q => negb (in_run (v / BLOCK_SIZE) n q) && hp_held x q))
  | Err e => Err e
  end.

(** The byte at [a] as the kernel reads it. *)
Definition kernel_byte (s : vstate F H) (a : Z) : Z :=
  match translate false a s with Some x => byte_of (v_mem s) x | None => 0 end.

(** The heap's pages have frames of their own. *)
Definition held_page (s : vstate F H) (q : Z) : Prop :=
  0 < q < 2 ^ 20 - 1 /\ exists b, kentry s q = b * 4096 + 3 /\ 0 < b /\ taken s b /\ foreign s b.

Record heap_pages_ok (x : heap_pages) : Prop := HeapPagesOk {
  ho_ok : vm_ok None (hp_vm x);
  ho_top : kentry (hp_vm x) (2 ^ 20 - 1) <> 0;
  ho_held : forall q, hp_held x q = true -> held_page (hp_vm x) q;
  ho_inj : forall q q', hp_held x q = true -> hp_held x q' = true -> kentry (hp_vm x) q = kentry (hp_vm x) q' -> q = q';
}.

#[export] Instance paging_provider : PageAlloc heap_pages := {
  page_alloc := heap_pages_alloc;
  page_free := heap_pages_free;
  page_held := hp_held;
  page_junk x := kernel_byte (hp_vm x);
  page_ok := heap_pages_ok;
}.

Lemma heap_pages_alloc_ok x p n bs s' : heap_pages_ok x -> 0 < p -> p + n <= 2 ^ 20 - 1 -> zlen bs = n -> free_run (hp_vm x) p n ->
  filled (hp_vm x) p n bs s' ->
  (forall q, in_run p n q = true -> hp_held x q = false) /\ heap_pages_ok (HeapPages s' (fun q => in_run p n q || hp_held x q)).
Proof.
  intros [Hok Htop Hheld Hinj] Hp Hlast Hl Hrun Hfl. pose proof Hfl as [R [Hnd Hfr]].
  assert (forall q, in_run p n q = true -> hp_held x q = false) as Hnew.
  { intros q Hq. apply in_run_iff in Hq. destruct (hp_held x q) eqn:Hx; [|done]. destruct (Hheld q Hx) as (_ & b & He & Hb & _).
    specialize (Hrun (q - p) ltac:(lia)). replace (p + (q - p)) with q in Hrun by lia. rewrite Z.mod_small in Hrun by lia. lia. }
  assert (forall q, in_run p n q = true -> exists b, zlookup bs (q - p) = Some b /\ b ∈ bs /\ kentry s' q = b * 4096 + 3) as Hin.
  { intros q Hq. pose proof Hq as Hr%in_run_iff. destruct (proj2 (zlookup_lt_is_Some bs (q - p))) as [b Hb]; [lia|]. exists b. split; [done|].
    split; [eapply (zlookup_Forall (.∈ bs)); [by apply Forall_forall|done]|]. rewrite (rp_entry _ _ _ _ R) by lia. unfold run_entry. by rewrite Hq, Hb. }
  assert (forall q, in_run p n q = false -> 0 <= q < 2 ^ 20 -> kentry s' q = kentry (hp_vm x) q) as Hout.
  { intros q Hq Hq0. rewrite (rp_entry _ _ _ _ R) by done. unfold run_entry. by rewrite Hq. }
  split; [done|]. split; cbn [hp_vm hp_held].
  - apply R.
  - rewrite Hout; [done| |lia]. destruct (in_run p n (2 ^ 20 - 1)) eqn:Hr; [|done]. apply in_run_iff in Hr. lia.
  - intros q Hq. destruct (in_run p n q) eqn:Hr.
    + destruct (Hin q Hr) as (b & _ & Hb & He). apply in_run_iff in Hr. split; [lia|]. exists b. destruct (Hfr b Hb).
      destruct (filled_foreign _ p n bs s' b Hok Hfl Hb). split; [done|]. split; [lia|done].
    + cbn in Hq. destruct (Hheld q Hq) as (Hq0 & b & He & Hb & Ht & Hf). split; [done|]. exists b. rewrite Hout by (done || lia). split; [done|].
      split; [done|]. split; [|by apply (repaged_foreign _ _ _ s' b R)]. destruct Ht as [Ht1 Ht2]. split; [by rewrite (rp_count _ _ _ _ R)|].
      rewrite (rp_out _ _ _ _ R) by lia. unfold run_out. by rewrite Ht2, orb_true_r.
  - assert (forall q q', in_run p n q = true -> in_run p n q' = false -> hp_held x q' = true -> kentry s' q <> kentry s' q') as Hne.
    { intros q q' Hq Hq' Hh He. destruct (Hin q Hq) as (b & _ & Hb & Heq). destruct (Hheld q' Hh) as (Hr & b' & He' & Hb' & Ht & _).
      rewrite Heq, Hout, He' in He by (done || lia). destruct (Hfr b Hb) as [_ Hu]. destruct Ht as [_ Ht]. assert (b = b') by lia. congruence. }
    intros q q' Hq Hq' He. destruct (in_run p n q) eqn:Hr, (in_run p n q') eqn:Hr'; cbn in Hq, Hq'.
    + destruct (Hin q Hr) as (b & Hb & _ & E1), (Hin q' Hr') as (b' & Hb' & _ & E2). rewrite E1, E2 in He. assert (b = b') as <- by lia.
      apply in_run_iff in Hr, Hr'. unfold zlookup in Hb, Hb'. destruct (Z.ltb_spec (q - p) 0), (Z.ltb_spec (q' - p) 0); try done.
      pose proof (NoDup_lookup _ _ _ _ Hnd Hb Hb'). lia.
    + by destruct (Hne q q').
    + by destruct (Hne q' q).
    + apply Hinj; [done|done|]. rewrite <- !Hout; [done|done|by destruct (Hheld _ Hq'); lia|done|by destruct (Hheld _ Hq); lia].
Qed.

(** A run of the heap's pages, with its frames. *)
Definition run_frames (s : vstate F H) (p n : Z) : list Z := (fun q => kentry s q / 4096) <$> seqZ p n.

Lemma run_frames_at s p n i b : zlookup (run_frames s p n) i = Some b -> 0 <= i < n /\ b = kentry s (p + i) / 4096.
Proof.
  intros Hb. unfold run_frames, zlookup in Hb. destruct (Z.ltb_spec i 0); [done|]. apply list_lookup_fmap_Some in Hb as (q & -> & Hq).
  apply lookup_seqZ in Hq as [-> Hq]. rewrite Z2Nat.id in * by lia. split; [lia|done].
Qed.

Lemma elem_run_frames s p n b : b ∈ run_frames s p n <-> exists q, in_run p n q = true /\ b = kentry s q / 4096.
Proof.
  unfold run_frames. rewrite list_elem_of_fmap. split; intros (q & A & B); exists q.
  - apply elem_of_seqZ in B. split; [apply in_run_iff; lia|done].
  - apply in_run_iff in A. split; [done|]. apply elem_of_seqZ. lia.
Qed.

Lemma held_frame s q : held_page s q -> kentry s q = kentry s q / 4096 * 4096 + 3.
Proof. intros (_ & b & -> & _). by rewrite page_number_entry by lia. Qed.

Lemma held_backed x p n : heap_pages_ok x -> 0 < p -> 1 <= n -> (forall q, in_run p n q = true -> hp_held x q = true) ->
  zlen (run_frames (hp_vm x) p n) = n /\ backed (hp_vm x) p (run_frames (hp_vm x) p n).
Proof.
  intros [Hok Htop Hheld Hinj] Hp Hn Hrun. assert (zlen (run_frames (hp_vm x) p n) = n) as Hl.
  { unfold zlen, run_frames. rewrite length_fmap, length_seqZ. lia. }
  assert (forall q, p <= q < p + n -> hp_held x q = true) as Hr by (intros q Hq; by apply Hrun, in_run_iff).
  split; [done|]. split; [done|]. split; [destruct (Hheld (p + n - 1)); [apply Hr; lia|lia]|]. split.
  - unfold run_frames. apply NoDup_fmap_2_strong; [|apply NoDup_seqZ]. intros q q' Hq%elem_of_seqZ Hq'%elem_of_seqZ He.
    apply Hinj; [apply Hr; lia..|]. rewrite (held_frame _ q), (held_frame _ q') by (apply Hheld, Hr; lia). lia.
  - intros i b Hb. apply run_frames_at in Hb as [Hi ->]. destruct (Hheld (p + i)) as (_ & b & He & Hb); [apply Hr; lia|].
    rewrite He, page_number_entry by lia. done.
Qed.

Lemma heap_pages_free_ok x p n s' : heap_pages_ok x -> 0 < p -> 1 <= n -> (forall q, in_run p n q = true -> hp_held x q = true) ->
  repaged (hp_vm x) (cut_entry (hp_vm x) p n) (cut_out (hp_vm x) (run_frames (hp_vm x) p n) n) s' ->
  heap_pages_ok (HeapPages s' (fun q => negb (in_run p n q) && hp_held x q)).
Proof.
  intros Hx Hp Hn Hrun R. destruct (held_backed x p n Hx Hp Hn Hrun) as [Hl (_ & Hlast & _)]. destruct Hx as [Hok Htop Hheld Hinj]. rewrite Hl in Hlast.
  assert (forall q, in_run p n q = false -> 0 <= q < 2 ^ 20 -> kentry s' q = kentry (hp_vm x) q) as Hout.
  { intros q Hq Hq0. rewrite (rp_entry _ _ _ _ R) by done. unfold cut_entry. by rewrite Hq. }
  split; cbn [hp_vm hp_held].
  - apply R.
  - rewrite Hout; [done| |lia]. destruct (in_run p n (2 ^ 20 - 1)) eqn:Hr; [|done]. apply in_run_iff in Hr. lia.
  - intros q [Hr%negb_true_iff Hq]%andb_true_iff. pose proof (Hheld q Hq) as (Hq0 & b & He & Hb & [Ht1 Ht2] & Hf). split; [done|]. exists b.
    rewrite Hout by (done || lia). do 2 (split; [done|]). split; [|by apply (repaged_foreign _ _ _ s' b R)].
    split; [by rewrite (rp_count _ _ _ _ R)|]. rewrite (rp_out _ _ _ _ R) by lia. unfold cut_out. rewrite take_ge by (unfold zlen in Hl; lia).
    rewrite bool_decide_eq_false_2; [done|]. intros (q' & Hq' & Hbq)%elem_run_frames. assert (q = q') as <-; [|congruence].
    apply Hinj; [done|by apply Hrun|]. rewrite He, (held_frame _ q') by (by apply Hheld, Hrun). by rewrite Hbq.
  - intros q q' [Hr%negb_true_iff Hq]%andb_true_iff [Hr'%negb_true_iff Hq']%andb_true_iff He. apply Hinj; [done|done|].
    rewrite <- !Hout; [done|done|by destruct (Hheld _ Hq'); lia|done|by destruct (Hheld _ Hq); lia].
Qed.

#[export] Instance paging_provider_laws : PageAllocLaws heap_pages.
Proof.
  split.
  - intros x n Hx Hn. pose proof Hx as [Hok Htop _ _]. apply wp_intro. cbn [page_alloc paging_provider]. unfold heap_pages_alloc.
    pose proof (wp_elim _ _ _ _ (wp_liballoc_alloc (hp_vm x) n Hok (last_page_no_wrap _ n Htop) Hn)) as Hw. destruct (liballoc_alloc n (hp_vm x)) as [[v s']|e]; [|by destruct Hw as [->| ->]].
    destruct Hw as (p & bs & -> & Hp & Hlast & Hl & Hrun & _ & Hfl). exists p. unfold BLOCK_SIZE. rewrite Z.div_mul by done.
    destruct (heap_pages_alloc_ok x p n bs s' Hx Hp Hlast Hl Hrun Hfl) as [Hnew Hx']. done.
  - intros x p n Hx Hp Hn Hrun. apply wp_intro. cbn [page_free paging_provider]. unfold heap_pages_free.
    destruct (held_backed x p n Hx Hp Hn Hrun) as [Hl Hb].
    pose proof (wp_elim _ _ _ _ (wp_liballoc_free (hp_vm x) p _ n (ho_ok x Hx) Hb ltac:(lia))) as Hw.
    destruct (liballoc_free (p * BLOCK_SIZE) n (hp_vm x)) as [[u s']|e]; [|done]. unfold BLOCK_SIZE. rewrite Z.div_mul by done.
    split; [by apply heap_pages_free_ok|done].
Qed.
End provider.
Arguments heap_pages F H : clear implicits.

(** ** The kernel's allocators together

    Objects from liballoc.c, its pages from vmm.c, its frames from pmm.c:
    what the other components are verified against. *)
#[export] Instance kernel_heap_laws : KHeapLaws (kheap (P := heap_pages pmm bump)) := liballoc_heap_laws.

(** Two pages for the heap of the sample kernel. *)
Lemma heap_pages_roundtrip_witness :
  vm_ok None sample /\ no_wrap sample 2 /\
  wp (liballoc_alloc 2) (fun v s1 => exists p bs,
    v = p * BLOCK_SIZE /\ zlen bs = 2 /\ free_run sample p 2 /\ (forall q, 0 < q < p -> ~ free_run sample q 2) /\
    filled sample p 2 bs s1 /\
    wp (liballoc_free v 2) (fun _ s2 => repaged sample (kentry sample) (frame_used (v_frames sample)) s2) never s1) out_of_pages sample.
Proof.
  assert (no_wrap sample 2) as Hw.
  { intros p _ _ _. exists 2000. split; [done|]. split; [done|]. intros j Hj. assert (j = 0 \/ j = 1) as [-> | ->] by lia; by vm_compute. }
  split; [exact sample_ok|]. split; [exact Hw|]. apply heap_pages_roundtrip; [exact sample_ok|exact Hw|lia].
Defined.
