(* ===== verification/Exec.v ===== *)
(** * Starting a program (kernel/process.c)

    [process_execve] gives a process a new address space with the program's
    file, its arguments, a heap and a stack, and the registers that it starts
    with on its kernel stack.  The strings and arrays it is handed lie in the
    kernel's memory: a C string is its characters, an array of them a list
    whose NULLs are [None]. *)
From stdpp Require Import functions.
From S2P Require Import Prelude Interfaces Vmm VmmDir Uaccess UserMem ProcMem FsPath Fs FdTable Syscall.

Definition virt_text_start : Z := 0x1000000.
Definition virt_heap_start : Z := 0x2000000.
Definition virt_stack_start : Z := 0x8000000.
Definition virt_misc_start : Z := 0x10000000.

Definition TASK_TYPE_USER_PROCESS : Z := 2.

(** The part of [process->task] that an address space and a start take. *)
Record task_t : Type := Task {
  t_type : Z;
  t_pdir : Z;
  t_kstack : Z;
  t_registers : Z;
  t_esp : Z;
  t_ebp : Z;
  t_eip : Z;
}.

(** [char * const *]. *)
Definition c_array : Type := option (list (option (list Z))).

(** [sizeof(registers_t)] and the places of its members. *)
Definition REGISTERS_SIZE : Z := 80.
Definition REG_OLD_DIRECTORY : Z := 0.
Definition REG_GS : Z := 4.
Definition REG_FS : Z := 8.
Definition REG_ES : Z := 12.
Definition REG_DS : Z := 16.
Definition REG_EDI : Z := 20.
Definition REG_ESI : Z := 24.
Definition REG_EBP : Z := 28.
Definition REG_EBX : Z := 36.
Definition REG_ECX : Z := 44.
Definition REG_EAX : Z := 48.
Definition REG_ISR_NUM : Z := 52.
Definition REG_ERR_CODE : Z := 56.
Definition REG_EIP : Z := 60.
Definition REG_CS : Z := 64.
Definition REG_EFLAGS : Z := 68.
Definition REG_ESP : Z := 72.
Definition REG_SS : Z := 76.

Definition word_bytes (w : Z) : list Z := [w mod 256; w / 2 ^ 8 mod 256; w / 2 ^ 16 mod 256; w / 2 ^ 24 mod 256].

Section ops.
Context {F H D Hd : Type} `{FrameAlloc F, KHeap H}.
Context `{!Handlers (fstate H D Hd) Hd}.
Variables start_shared_data stop_shared_data start_shared_text stop_shared_text : Z.
(** The address of the assembly stub. *)
Variable return_to_regs : Z.
Abbreviation V := (vstate F H).
Abbreviation Y := (ystate F H D Hd).

Definition on_heap {A} (m : M H A) : M Y A := zoom vm_lens (zoom heap_lens m).

(** [f->length]. *)
Definition node_length (f : Z) : M Y Z :=
  zoom files_lens (zoom p_files (let! x := node_at f in ret (n_length x))).

(** ** The pages of the program *)

(** A fresh frame behind the temporary page. *)
Definition temp_frame (k_tmp : Z) : M V Z :=
  let! block := zoom frames_lens frame_alloc_safe in
  kernel_map k_tmp block (Z.lor PAGE_PRESENT PAGE_READWRITE) >>>
  invalidate_page k_tmp >>>
  ret block.

Definition user_map (pdir virtaddr block : Z) : M V unit :=
  let! t := table_alloc virtaddr pdir in
  map_page t virtaddr block (Z.lor PAGE_PRESENT (Z.lor PAGE_READWRITE PAGE_USER)).

Definition zero_page (pdir k_tmp start i : Z) : M V unit :=
  let virtaddr := u32 (start + i * BLOCK_SIZE) in
  let! block := temp_frame k_tmp in
  clear_page k_tmp >>>
  user_map pdir virtaddr block.

Definition text_page (pdir k_tmp f i : Z) : M Y unit :=
  let! block := zoom vm_lens (temp_frame k_tmp) in
  let virtaddr := u32 (virt_text_start + i) in
  let! '(j, bytes) := zoom files_lens (zoom p_files (fs_read f i BLOCK_SIZE)) in
  zoom vm_lens (fill k_tmp bytes) >>>
  kassert (negb (j =? MINUS_1)) >>>
  zoom vm_lens (user_map pdir virtaddr block).

Definition map_text (pdir k_tmp f : Z) : M Y unit :=
  loop (S (Z.to_nat (2 ^ 20))) (fun i =>
    let! length := node_length f in
    if i <? length then text_page pdir k_tmp f i >>> ret (inl (u32 (i + BLOCK_SIZE)))
    else ret (inr tt)) 0.

(** The temporary page and the regions of the program. *)
Definition map_program (pdir f : Z) : M Y unit :=
  let! k_tmp := kernel_vspace 1 in
  kassert (negb (k_tmp =? 0)) >>>
  zoom vm_lens (for_up 256 0 (zero_page pdir k_tmp virt_heap_start)) >>>
  map_text pdir k_tmp f >>>
  zoom vm_lens (for_up 256 0 (zero_page pdir k_tmp virt_stack_start)) >>>
  zoom vm_lens (for_up 1 0 (zero_page pdir k_tmp virt_misc_start)) >>>
  zoom vm_lens (kernel_map k_tmp 0 0).

(** ** Arguments *)

Definition copy_element (pdir region_end : Z) (array : list (option (list Z))) (i : Z) (r : list Z * Z) : M Y (list Z * Z) :=
  let '(ptrs, region_ptr) := r in
  let! v := some (zlookup array i) in
  match v with
  | None => fail AssertFail
  | Some v =>
      let v_len := u32 (zlen v + 1) in
      if region_end <=? u32 (region_ptr + v_len) then fail AssertFail
      else
        let! r := zoom vm_lens (copy_to_userspace pdir region_ptr v_len (v ++ [0])) in
        kassert (0 <=? r) >>>
        ret (zinsert i region_ptr ptrs, u32 (region_ptr + v_len))
  end.

(** The object with the addresses, what it holds and [*region_ptr]. *)
Definition process_exec_copy_array (pdir region_ptr region_end : Z) (array : c_array) (array_length : Z) : M Y (Z * list Z * Z) :=
  let! ptrs := on_heap (kcalloc (u32 (array_length * 4))) in
  kassert (negb (ptrs =? 0)) >>>
  match array with
  | None => kassert (array_length =? 0) >>> ret (ptrs, [], region_ptr)
  | Some array =>
      let! last := some (zlookup array array_length) in
      kassert (match last with None => true | Some _ => false end) >>>
      let! '(values, region_ptr) := for_fold (Z.to_nat array_length) 0 (replicate (Z.to_nat array_length) 0, region_ptr)
        (copy_element pdir region_end array) in
      ret (ptrs, values, region_ptr)
  end.

(** What is written to [user_stack], of which [copy_stack] makes the object; the
    words that the object held before are all overwritten. *)
Definition push_all (ptrs : list Z) (n : Z) (stack : list Z) : M Y (list Z) :=
  for_fold (Z.to_nat n) 0 stack (fun i stack => let! p := some (zlookup ptrs i) in ret (stack ++ [p])).

Definition stack_contents (argc : Z) (argv_ptrs : list Z) (envc : Z) (envp_ptrs : list Z) : M Y (list Z) :=
  let! stack := push_all argv_ptrs argc [argc] in
  let! stack := push_all envp_ptrs envc (stack ++ [0]) in
  ret (stack ++ [0]).

(** The user stack of the program, copied to the end of its heap region: its
    address. *)
Definition copy_stack (pdir : Z) (argc : Z) (argv : c_array) (envc : Z) (envp : c_array) : M Y Z :=
  let misc_region_end := virt_misc_start + BLOCK_SIZE in
  let! '(argv_obj, argv_ptrs, misc_ptr) := process_exec_copy_array pdir virt_misc_start misc_region_end argv argc in
  let! '(envp_obj, envp_ptrs, misc_ptr) := process_exec_copy_array pdir misc_ptr misc_region_end envp envc in
  let user_stack_size := u32 (argc + 2 + envc + 1) in
  let! user_stack := on_heap (kcalloc (u32 (4 * user_stack_size))) in
  kassert (negb (user_stack =? 0)) >>>
  let! words := stack_contents argc argv_ptrs envc envp_ptrs in
  kassert (zlen words =? user_stack_size) >>>
  let virt_stack_top := u32 (virt_heap_start + 256 * BLOCK_SIZE - user_stack_size * 4) in
  let! r := zoom vm_lens (copy_to_userspace pdir virt_stack_top (u32 (user_stack_size * 4)) (flat_map word_bytes words)) in
  kassert (0 <? r) >>>
  on_heap (kfree user_stack) >>>
  on_heap (kfree argv_obj) >>>
  on_heap (kfree envp_obj) >>>
  ret virt_stack_top.

(** ** Registers *)

Definition put_reg (regs place v : Z) : M V unit := write_word (u32 (regs + place)) v.

Definition start_registers (regs pdir virt_stack_top : Z) : M V unit :=
  let! x := directory pdir in
  put_reg regs REG_OLD_DIRECTORY (physical_address x) >>>
  put_reg regs REG_GS 0 >>>
  put_reg regs REG_FS 0 >>>
  put_reg regs REG_ES 0x23 >>>
  put_reg regs REG_DS 0x23 >>>
  put_reg regs REG_EDI 0 >>>
  put_reg regs REG_ESI 0 >>>
  put_reg regs REG_EBP 0 >>>
  put_reg regs REG_ESP 0 >>>
  put_reg regs REG_EBX 0 >>>
  put_reg regs REG_ECX 0 >>>
  put_reg regs REG_EAX 0 >>>
  put_reg regs REG_ISR_NUM 0 >>>
  put_reg regs REG_ERR_CODE 0 >>>
  put_reg regs REG_EIP virt_text_start >>>
  put_reg regs REG_CS 0x1B >>>
  put_reg regs REG_EFLAGS 0x200 >>>
  put_reg regs REG_ESP virt_stack_top >>>
  let! ds := read_word (u32 (regs + REG_DS)) in
  put_reg regs REG_SS ds.

(** The task afterwards. *)
Definition process_execve (task : task_t) (f argc : Z) (argv : c_array) (envc : Z) (envp : c_array) : M Y task_t :=
  kassert (negb (f =? 0)) >>>
  let! length := node_length f in
  kassert (negb (length =? 0)) >>>
  (if negb (t_pdir task =? 0) then
     zoom vm_lens (process_unmap_kstack (t_pdir task) (t_kstack task)) >>>
     zoom vm_lens (process_page_directory_free start_shared_data stop_shared_data start_shared_text stop_shared_text (t_pdir task))
   else ret tt) >>>
  let! pdir := zoom vm_lens (process_page_directory_new start_shared_data stop_shared_data start_shared_text stop_shared_text) in
  kassert (negb (pdir =? 0)) >>>
  let! kstack := (if t_kstack task =? 0 then zoom vm_lens task_kstack_alloc else ret (t_kstack task)) in
  zoom vm_lens (process_map_kstack pdir kstack) >>>
  map_program pdir f >>>
  let! virt_stack_top := copy_stack pdir argc argv envc envp in
  let regs := u32 (kstack - REGISTERS_SIZE) in
  zoom vm_lens (start_registers regs pdir virt_stack_top) >>>
  ret (Task TASK_TYPE_USER_PROCESS pdir kstack regs regs regs return_to_regs).
End ops.
