(* ===== verification/Process.v ===== *)
(** * Processes and kernel tasks (kernel/process.c, kernel/kernel_task.c)

    The whole kernel's state in one record: paging, descriptors and files, the
    process tree, the scheduler, the tasks' part of it that start and stop
    programs, and strings.  There is one heap, that of the paging code; each
    component works on it through its lens.  A [process_t] and a [ktask_t]
    begin with their task, so a task has the address of what it belongs to. *)
From stdpp Require Import functions.
From S2P Require Import Prelude Interfaces Vmm VmmDir Uaccess UserMem ProcMem FsPath Fs FdTable Syscall Exec.

From S2P Require DList Bitmap Strings Task ProcTree.

(** [ktask_t] without its task: [name], [func] and [extra]. *)
Record ktask_t : Type := Ktask { kt_name : Z; kt_func : Z; kt_extra : Z }.

(** What a task that was switched away from inside a system call still does
    for its registers at [regs]: the loop of [process_waitpid], or the answer. *)
Inductive pending : Type :=
  | PendingWait (regs pid : Z)
  | PendingReturn (regs r : Z).

Record kernel (F H D Hd : Type) : Type := Kernel {
  z_vm : vstate F H;
  z_files : pstate H D Hd;
  z_tree : ProcTree.pstate H;
  z_sched : Task.kstate H;
  z_tasks : gmap Z task_t;
  z_strings : gmap Z (list Z);
  z_ktasks : gmap Z ktask_t;
  z_pending : gmap Z pending;
}.
Arguments Kernel {F H D Hd} _ _ _ _ _ _ _ _.
Arguments z_vm {F H D Hd} _.
Arguments z_files {F H D Hd} _.
Arguments z_tree {F H D Hd} _.
Arguments z_sched {F H D Hd} _.
Arguments z_tasks {F H D Hd} _.
Arguments z_strings {F H D Hd} _.
Arguments z_ktasks {F H D Hd} _.
Arguments z_pending {F H D Hd} _.

Definition TASK_TYPE_KTASK : Z := 1.
Definition SYSCALL_CLONE_FLAGS_FILES : Z := 0x400.

Section state.
Context {F H D Hd : Type}.
Abbreviation W := (kernel F H D Hd).

Definition set_vm (v : vstate F H) (s : W) : W :=
  Kernel v (z_files s) (z_tree s) (z_sched s) (z_tasks s) (z_strings s) (z_ktasks s) (z_pending s).
Definition set_files (p : pstate H D Hd) (s : W) : W :=
  Kernel (z_vm s) p (z_tree s) (z_sched s) (z_tasks s) (z_strings s) (z_ktasks s) (z_pending s).
Definition set_tree (p : ProcTree.pstate H) (s : W) : W :=
  Kernel (z_vm s) (z_files s) p (z_sched s) (z_tasks s) (z_strings s) (z_ktasks s) (z_pending s).
Definition set_sched (k : Task.kstate H) (s : W) : W :=
  Kernel (z_vm s) (z_files s) (z_tree s) k (z_tasks s) (z_strings s) (z_ktasks s) (z_pending s).
Definition set_tasks (m : gmap Z task_t) (s : W) : W :=
  Kernel (z_vm s) (z_files s) (z_tree s) (z_sched s) m (z_strings s) (z_ktasks s) (z_pending s).
Definition set_strings (m : gmap Z (list Z)) (s : W) : W :=
  Kernel (z_vm s) (z_files s) (z_tree s) (z_sched s) (z_tasks s) m (z_ktasks s) (z_pending s).
Definition set_ktasks (m : gmap Z ktask_t) (s : W) : W :=
  Kernel (z_vm s) (z_files s) (z_tree s) (z_sched s) (z_tasks s) (z_strings s) m (z_pending s).
Definition set_pending (m : gmap Z pending) (s : W) : W :=
  Kernel (z_vm s) (z_files s) (z_tree s) (z_sched s) (z_tasks s) (z_strings s) (z_ktasks s) m.

(** The one heap. *)
Definition z_heap (s : W) : H := v_heap (z_vm s).
Definition set_z_heap (h : H) (s : W) : W := set_vm (lset heap_lens h (z_vm s)) s.

Definition tree_heap : lens (ProcTree.pstate H) H :=
  Lens (fun s => DList.ls_heap (ProcTree.p_lists s))
    (fun h s => ProcTree.set_lists (lset DList.heap_lens h (ProcTree.p_lists s)) s).
Definition sched_heap : lens (Task.kstate H) H :=
  Lens (fun s => DList.ls_heap (Task.k_lists s))
    (fun h s => Task.set_k_lists (lset DList.heap_lens h (Task.k_lists s)) s).

(** A component that has the heap in its own state. *)
Definition with_heap {T} (get : W -> T) (put : T -> W -> W) (l : lens T H) : lens W T :=
  Lens (fun s => lset l (z_heap s) (get s)) (fun t s => put t (set_z_heap (lget l t) s)).

Definition vm_lens : lens W (vstate F H) := Lens z_vm set_vm.
Definition files_lens : lens W (pstate H D Hd) := with_heap z_files set_files p_heap.
Definition tree_lens : lens W (ProcTree.pstate H) := with_heap z_tree set_tree tree_heap.
Definition sched_lens : lens W (Task.kstate H) := with_heap z_sched set_sched sched_heap.
Definition heap_of : lens W H := Lens z_heap set_z_heap.
Definition strings_lens : lens W (Strings.mem H) :=
  Lens (fun s => Strings.Mem (z_heap s) (z_strings s))
    (fun m s => set_strings (Strings.m_objs m) (set_z_heap (Strings.m_heap m) s)).

(** [process->task], [current_task] and [current_process]: 0 for NULL. *)
Definition task_at (p : Z) : M W task_t := let! m := gets z_tasks in some (m !! p).
Definition put_task (p : Z) (t : task_t) : M W unit := modify (fun s => set_tasks (<[p := t]> (z_tasks s)) s).
Definition current_task : M W Z := gets (fun s => Task.k_current (z_sched s)).
Definition current_process : M W Z :=
  let! c := current_task in
  let! t := task_at c in
  if t_type t =? TASK_TYPE_USER_PROCESS then zoom sched_lens (let! k := Task.task c in ret (Task.obj k)) else ret 0.

(** The members of a process. *)
Definition proc_at (p : Z) : M W ProcTree.process_t := zoom tree_lens (ProcTree.proc p).
Definition set_name (n : Z) (x : ProcTree.process_t) : ProcTree.process_t :=
  ProcTree.Process n (ProcTree.pid x) (ProcTree.fd_table x) (ProcTree.ptree_node x).
Definition set_fd_table (n : Z) (x : ProcTree.process_t) : ProcTree.process_t :=
  ProcTree.Process (ProcTree.name x) (ProcTree.pid x) n (ProcTree.ptree_node x).
Definition upd_process (p : Z) (f : ProcTree.process_t -> ProcTree.process_t) : M W unit := zoom tree_lens (ProcTree.upd_proc p f).

(** The current process as file Syscall has it. *)
Definition view (s : W) : process_t :=
  let c := Task.k_current (z_sched s) in
  let p := match Task.k_tasks (z_sched s) !! c with Some k => Task.obj k | None => 0 end in
  match ProcTree.p_procs (z_tree s) !! p, z_tasks s !! p with
  | Some x, Some t => Process (ProcTree.pid x) (t_pdir t) (ProcTree.fd_table x)
  | _, _ => Process 0 0 0
  end.

Definition sys_lens : lens W (ystate F H D Hd) :=
  Lens (fun s => YState (z_vm s) (z_files s) (view s)) (fun y s => set_files (y_files y) (set_vm (y_vm y) s)).
End state.

(** The fields that a kernel stack and a start change in the scheduler's record. *)
Definition k_set_kstack (n : Z) (t : Task.task_t) : Task.task_t :=
  Task.Task (Task.next_task t) (Task.state t) (Task.wait_target t) n (Task.obj t).
Definition k_set_obj (n : Z) (t : Task.task_t) : Task.task_t :=
  Task.Task (Task.next_task t) (Task.state t) (Task.wait_target t) (Task.kstack t) n.

Definition set_pdir (n : Z) (t : task_t) : task_t := Task (t_type t) n (t_kstack t) (t_registers t) (t_esp t) (t_ebp t) (t_eip t).
Definition set_kstack (n : Z) (t : task_t) : task_t := Task (t_type t) (t_pdir t) n (t_registers t) (t_esp t) (t_ebp t) (t_eip t).

(** What [kcalloc] leaves of a task. *)
Definition zero_task : task_t := Task 0 0 0 0 0 0 0.
Definition zero_ktask : Task.task_t := Task.Task 0 Task.TASK_STATE_READY 0 0 0.

Section ops.
Context {F H D Hd : Type} `{FrameAlloc F, KHeap H}.
Context `{!Handlers (fstate H D Hd) Hd}.
Variables start_shared_data stop_shared_data start_shared_text stop_shared_text : Z.
(** Where the assembly stub, [ktask_enter] and the node [tty_node] are. *)
Variables return_to_regs ktask_enter tty_node : Z.
(** What the bytes of a new object hold. *)
Variable junk : Z -> list Z.
Abbreviation W := (kernel F H D Hd).

(** ** Tasks *)

(** The task that begins at [p]. *)
Definition new_task (p : Z) : M W unit :=
  put_task p zero_task >>>
  zoom sched_lens (modify (fun k => Task.set_k_tasks (<[p := zero_ktask]> (Task.k_tasks k)) k)).

(** The scheduler's record has [kstack] too. *)
Definition put_kstack (p kstack : Z) : M W unit :=
  let! t := task_at p in
  put_task p (set_kstack kstack t) >>>
  zoom sched_lens (Task.upd_task p (k_set_kstack kstack)).

(** The task has not run yet: it starts at its [eip], with interrupts on or off. *)
Definition put_start (p : Z) (ints : bool) : M W unit :=
  zoom sched_lens (modify (fun k => Task.set_k_saved (<[p := Task.ResumeStart ints]> (Task.k_saved k)) k)).

(** A [printf] and what follows it; if another task gets the cpu meanwhile, the
    rest is not followed. *)
Definition print_then (rest : M W unit) : M W unit :=
  let! here := zoom sched_lens (Task.printf Task.__schedule) in
  if here : bool then rest else ret tt.

Definition task_kstack_alloc (p : Z) : M W unit :=
  kassert (negb (p =? 0)) >>>
  let! kstack := zoom vm_lens task_kstack_alloc in
  put_kstack p kstack.

Definition task_kstack_free (p : Z) : M W unit :=
  kassert (negb (p =? 0)) >>>
  let! t := task_at p in
  zoom vm_lens (task_kstack_free (t_kstack t)) >>>
  put_kstack p 0.

(** ** Starting processes *)

(** [strndup(s, strlen(s))]. *)
Definition string_dup (s : Z) : M W Z :=
  zoom strings_lens (
    let! n := Strings.strlen (Strings.Ptr s 0) in
    let! r := Strings.strndup junk (Strings.Ptr s 0) n in
    ret (Strings.base r)).

Definition process_execve (p f argc : Z) (argv : c_array) (envc : Z) (envp : c_array) : M W unit :=
  kassert (negb (p =? 0)) >>>
  let! t := task_at p in
  let! t := zoom sys_lens (process_execve start_shared_data stop_shared_data start_shared_text stop_shared_text return_to_regs t f argc argv envc envp) in
  put_task p t >>>
  put_kstack p (t_kstack t).

(** [kcalloc(1, sizeof(process_t))]. *)
Definition process_new : M W Z :=
  let! p := zoom tree_lens ProcTree.process_alloc in
  (if p =? 0 then ret tt
   else
     new_task p >>>
     zoom sched_lens (modify (fun k => Task.set_k_procs (<[p := Task.TaskQueue 0 0]> (Task.k_procs k)) k))) >>>
  ret p.

Definition process_spawn_init (f argc : Z) (argv : c_array) : M W Z :=
  kassert (negb (f =? 0)) >>>
  let! length := zoom sys_lens (node_length f) in
  kassert (negb (length =? 0)) >>>
  let! process := process_new in
  kassert (negb (process =? 0)) >>>
  put_task process (Task TASK_TYPE_USER_PROCESS 0 0 0 0 0 0) >>>
  zoom sched_lens (Task.upd_task process (k_set_obj process)) >>>
  upd_process process (ProcTree.set_pid 1) >>>
  let! node := zoom tree_lens ProcTree.ptree_get_init_node in
  upd_process process (ProcTree.set_ptree_node node) >>>
  zoom tree_lens (ProcTree.upd_tnode node (ProcTree.set_tn_value process)) >>>
  let! fdt := zoom files_lens fd_table_new in
  upd_process process (set_fd_table fdt) >>>
  kassert (negb (fdt =? 0)) >>>
  let! tty_fd := zoom files_lens fd_new in
  kassert (negb (tty_fd =? 0)) >>>
  zoom files_lens (
    let! x := fd_at tty_fd in
    put_fd tty_fd (FdEntry tty_node 0 (fd_refcount x)) >>>
    let! _ := fd_table_set fdt 0 tty_fd in
    let! fd := fd_reference tty_fd in
    let! _ := fd_table_set fdt 1 fd in
    let! fd := fd_reference tty_fd in
    let! _ := fd_table_set fdt 2 fd in
    ret tt) >>>
  process_execve process f argc argv 0 None >>>
  put_start process true >>>
  ret process.

(** ** Clones *)

(** The descriptors of the child: [current_process]'s, shared or copied. *)
Definition clone_files (flags fdt : Z) : M W Z :=
  zoom files_lens (if negb (Z.land flags SYSCALL_CLONE_FLAGS_FILES =? 0) then fd_table_reference fdt else fd_table_clone fdt).

(** The registers that the child starts with, at the top of its kernel stack. *)
Definition clone_registers (regs parent_regs pdir child_stack : Z) : M (vstate F H) unit :=
  memcpy regs parent_regs REGISTERS_SIZE >>>
  let! x := directory pdir in
  put_reg regs REG_OLD_DIRECTORY (physical_address x) >>>
  put_reg regs REG_EAX 0 >>>
  if negb (child_stack =? 0) then put_reg regs REG_ESP child_stack else ret tt.

(** [kfree] of a process. *)
Definition process_free (p : Z) : M W unit :=
  zoom heap_of (kfree p) >>>
  zoom tree_lens (modify (fun s => ProcTree.set_procs (delete p (ProcTree.p_procs s)) s)) >>>
  modify (fun s => set_tasks (delete p (z_tasks s)) s) >>>
  zoom sched_lens (modify (fun k => Task.set_k_procs (delete p (Task.k_procs k)) (Task.set_k_tasks (delete p (Task.k_tasks k)) k))).

Definition process_clone (oldproc flags child_stack : Z) : M W Z :=
  let! child := process_new in
  if child =? 0 then ret 0
  else
    let! cur := current_process in
    let! x := proc_at cur in
    let! fdt := clone_files flags (ProcTree.fd_table x) in
    upd_process child (set_fd_table fdt) >>>
    if fdt =? 0 then process_free child >>> ret 0
    else
      let! o := task_at oldproc in
      let! pdir := zoom vm_lens (clone_pdir start_shared_data stop_shared_data start_shared_text stop_shared_text flags (t_pdir o)) in
      let! t := task_at child in
      put_task child (set_pdir pdir t) >>>
      task_kstack_alloc child >>>
      let! t := task_at child in
      let kstack := t_kstack t in
      kassert (negb (kstack =? 0)) >>>
      zoom vm_lens (process_map_kstack pdir kstack) >>>
      let! x := proc_at cur in
      let! n := string_dup (ProcTree.name x) in
      upd_process child (set_name n) >>>
      kassert (negb (n =? 0)) >>>
      zoom tree_lens (ProcTree.clone_node oldproc child) >>>
      let! c := task_at cur in
      let regs := u32 (kstack - REGISTERS_SIZE) in
      zoom vm_lens (clone_registers regs (t_registers c) pdir child_stack) >>>
      put_task child (Task (t_type c) pdir kstack regs regs regs return_to_regs) >>>
      zoom sched_lens (Task.upd_task child (Task.t_set_state Task.TASK_STATE_READY)) >>>
      zoom sched_lens (Task.upd_task child (k_set_obj child)) >>>
      put_start child true >>>
      ret child.

Definition process_add (p : Z) : M W unit :=
  kassert (negb (p =? 0)) >>>
  let! k := zoom sched_lens (Task.task p) in
  kassert (p =? Task.obj k) >>>
  zoom sched_lens (Task.task_add p).

(** ** Ends *)

Definition page_directory_free (pdir : Z) : M W unit :=
  zoom vm_lens (process_page_directory_free start_shared_data stop_shared_data start_shared_text stop_shared_text pdir).

Definition process_destroy (p : Z) : M W unit :=
  let! x := proc_at p in
  kassert (negb (ProcTree.pid x =? 1)) >>>
  kassert (negb (ProcTree.pid x =? 0)) >>>
  zoom tree_lens (
    let! bm := gets ProcTree.pid_bitmap in
    zoom ProcTree.bits_lens (Bitmap.bitmap_unset bm (ProcTree.pid x)) >>>
    let! t := ProcTree.tnode (ProcTree.ptree_node x) in
    ProcTree.tree_node_delete_child (ProcTree.tn_parent t) (ProcTree.ptree_node x)) >>>
  let! t := task_at p in
  kassert (negb (t_kstack t =? 0)) >>>
  zoom vm_lens (process_unmap_kstack (t_pdir t) (t_kstack t)) >>>
  task_kstack_free p >>>
  zoom files_lens (fd_table_free (ProcTree.fd_table x)) >>>
  page_directory_free (t_pdir t) >>>
  zoom heap_of (kfree (ProcTree.name x)) >>>
  modify (fun s => set_strings (delete (ProcTree.name x) (z_strings s)) s) >>>
  process_free p.

Definition process_exit (status : Z) : M W unit :=
  let! p := current_process in
  let! x := proc_at p in
  if ProcTree.pid x =? 1 then print_then (fail Halted)
  else
    print_then (print_then (
      zoom files_lens (fd_table_free (ProcTree.fd_table x)) >>>
      print_then (
        let! t := task_at p in
        kassert (negb (t_kstack t =? 0)) >>>
        zoom vm_lens (process_unmap_kstack (t_pdir t) (t_kstack t)) >>>
        print_then (
          page_directory_free (t_pdir t) >>>
          zoom sched_lens (Task.process_exit_wake p))))).

(** ** Kernel tasks *)

(** [kcalloc(1, sizeof(ktask_t))], which is 60 bytes. *)
Definition ktask_new : M W Z :=
  let! p := zoom heap_of (kcalloc 60) in
  (if p =? 0 then ret tt else modify (fun s => set_ktasks (<[p := Ktask 0 0 0]> (z_ktasks s)) s) >>> new_task p) >>>
  ret p.

Definition ktask_spawn (func name extra : Z) : M W unit :=
  print_then (
    let! ktask := ktask_new in
    kassert (negb (ktask =? 0)) >>>
    let! k := zoom vm_lens kernel_directory in
    put_task ktask (Task TASK_TYPE_KTASK k 0 0 0 0 0) >>>
    zoom sched_lens (Task.upd_task ktask (k_set_obj ktask)) >>>
    task_kstack_alloc ktask >>>
    let! n := string_dup name in
    kassert (negb (n =? 0)) >>>
    modify (fun s => set_ktasks (<[ktask := Ktask n func extra]> (z_ktasks s)) s) >>>
    let! t := task_at ktask in
    let esp := u32 (t_kstack t - 4) in
    zoom vm_lens (write_word esp ktask) >>>
    let esp := u32 (esp - 4) in
    zoom vm_lens (write_word esp 0) >>>
    put_task ktask (Task TASK_TYPE_KTASK k (t_kstack t) 0 esp 0 ktask_enter) >>>
    put_start ktask false >>>
    print_then (zoom sched_lens (Task.task_add ktask))).

Definition __ktask_exit (status : Z) : M W unit :=
  zoom sched_lens (
    Task.scheduler_lock >>>
    let! c := gets Task.k_current in
    let! t := Task.task c in
    kassert (negb (Task.obj t =? 0)) >>>
    Task.task_exit).

(** [ktask_enter]; [func] runs with the task's name and its argument. *)
Definition run_ktask (func : Z -> Z -> Z -> M W Z) (ktask : Z) : M W unit :=
  let! m := gets z_ktasks in
  let! k := some (m !! ktask) in
  let! status := func (kt_func k) (kt_name k) (kt_extra k) in
  __ktask_exit status.
End ops.
