(* ===== verification/Calls.v ===== *)
(** * The system call handler (kernel/syscall.c)

    The system calls that start, clone, end and wait for processes or read
    directories, the copies of arrays of strings they need, and the dispatch
    of all system calls by number.  A call that switches to another task is
    answered when its own task goes on: [resume_call]. *)
From stdpp Require Import functions.
From S2P Require Import Prelude Interfaces Vmm VmmDir Uaccess UserMem ProcMem FsPath Fs FdTable Syscall Exec.
From S2P Require DList Bitmap Strings Task ProcTree.
From S2P Require Import Process.

(** ** Arrays of pointers *)

Section arrays.
Context {F H : Type} `{FrameAlloc F, KHeap H}.
Abbreviation V := (vstate F H).

(** The words of one page: [inl] when it ends before the array does. *)
Definition pointer_page (kptr offset size i : Z) (buffer : list Z) : M V (Z * list Z + Z * list Z) :=
  loop (S (Z.to_nat BLOCK_SIZE)) (fun '(v, i, buffer) =>
    if v <? BLOCK_SIZE then
      if size <=? i then unmap_from_kernel kptr 1 >>> ret (inr (inr (i - 1, buffer)))
      else
        let! w := read_word (u32 (kptr + v)) in
        let! buffer := store_byte buffer i w in
        if w =? 0 then unmap_from_kernel kptr 1 >>> ret (inr (inr (i, buffer)))
        else ret (inl (v + 4, i + 1, buffer))
    else ret (inr (inl (i, buffer)))) (offset, i, buffer).

(** [buffer] is the caller's array, of [size] words. *)
Definition copy_from_userspace_ptr_array (pdir ptr size : Z) (buffer : list Z) : M V (Z * list Z) :=
  kassert (negb (pdir =? 0)) >>>
  if ptr =? 0 then ret (0, buffer)
  else if negb (ptr mod 4 =? 0) then ret (-1, buffer)
  else
    let! k := kernel_directory in
    let! kptr := find_vspace k 1 in
    if kptr =? 0 then ret (-1, buffer)
    else
      loop (S (S (Z.to_nat size))) (fun '(p, offset, i, buffer) =>
        let! v := map_userspace_to_kernel pdir p kptr 1 in
        if negb (v =? 0) then unmap_from_kernel kptr 1 >>> ret (inr (-1, buffer))
        else
          let! r := pointer_page kptr offset size i buffer in
          match r with
          | inr r => ret (inr r)
          | inl (i, buffer) => ret (inl (u32 (p + BLOCK_SIZE), 0, i, buffer))
          end) (Z.ldiff ptr 0xFFF, Z.land ptr 0xFFF, 0, buffer).
End arrays.

Section ops.
Context {F H D Hd : Type} `{FrameAlloc F, KHeap H}.
Context `{!Handlers (fstate H D Hd) Hd}.
Variables start_shared_data stop_shared_data start_shared_text stop_shared_text : Z.
Variables return_to_regs path_address : Z.
Variable junk : Z -> list Z.
Abbreviation W := (kernel F H D Hd).

(** [char **]: the array's address and its elements, each with its address and
    the bytes of its object; a NULL ends them. *)
Definition string_array : Type := Z * list (Z * list Z).

(** The text of a C string in a buffer. *)
Fixpoint c_string (bytes : list Z) : list Z :=
  match bytes with [] => [] | b :: bytes' => if b =? 0 then [] else b :: c_string bytes' end.

(** Element [i]: [inr None] without memory for it or without a string at its
    address, [inr (Some _)] at the end of the array. *)
Definition array_element (pdir array user_obj : Z) (user_array : list Z) (i : Z) (elements : list (Z * list Z)) :
    M W (list (Z * list Z) + option (list (Z * list Z))) :=
  let! user_ptr := some (zlookup user_array i) in
  if user_ptr =? 0 then ret (inr (Some elements))
  else
    let! element := zoom heap_of (kcalloc 256) in
    kassert (negb (element =? 0)) >>>
    let! '(r, bytes) := zoom vm_lens (copy_from_userspace_string pdir user_ptr 256 (junk 256)) in
    if r <? 0 then
      zoom heap_of (kfree array) >>>
      zoom heap_of (kfree user_obj) >>>
      ret (inr None)
    else ret (inl (elements ++ [(element, bytes)])).

Definition copy_from_userspace_array (pdir ptr size : Z) : M W (option string_array) :=
  let! array := zoom heap_of (kcalloc (u32 (size * 4))) in
  if array =? 0 then ret None
  else
    let! user_obj := zoom heap_of (kcalloc (u32 (size * 4))) in
    if user_obj =? 0 then zoom heap_of (kfree array) >>> ret None
    else
      let! '(r, user_array) := zoom vm_lens (copy_from_userspace_ptr_array pdir ptr size (replicate (Z.to_nat size) 0)) in
      if r <? 0 then
        zoom heap_of (kfree array) >>>
        zoom heap_of (kfree user_obj) >>>
        ret None
      else
        loop (S (Z.to_nat size)) (fun '(i, elements) =>
          if i <? size - 1 then
            let! x := array_element pdir array user_obj user_array i elements in
            match x with
            | inl elements => ret (inl (i + 1, elements))
            | inr None => ret (inr None)
            | inr (Some elements) => ret (inr (Some (array, elements)))
            end
          else
            zoom heap_of (kfree user_obj) >>>
            ret (inr (Some (array, elements)))) (0, []).

(** ** Starting a program *)

(** [argv]: without one, the path alone. *)
Definition exec_argv (pdir user_argv : Z) (path : list Z) : M W (option string_array) :=
  if user_argv =? 0 then
    let! argv := zoom heap_of (kcalloc 8) in
    (if argv =? 0 then fail Fault else ret tt) >>>
    ret (Some (argv, [(path_address, path)]))
  else copy_from_userspace_array pdir user_argv 20.

(** How [process_execve] gets an array: its length and its strings. *)
Definition c_array_of (a : option string_array) : Z * c_array :=
  match a with
  | None => (0, None)
  | Some (_, l) => (zlen l, Some (((fun x => Some (c_string x.2)) <$> l) ++ [None]))
  end.

Definition free_array (a : option string_array) : M W unit :=
  match a with
  | None => ret tt
  | Some (array, l) =>
      for_up (length l) 0 (fun i => let! x := some (zlookup l i) in zoom heap_of (kfree x.1)) >>>
      zoom heap_of (kfree array)
  end.

(** The answer is also that no call of the process returns: it starts anew. *)
Definition syscall_execve (regs : registers_t) : M W Z :=
  let user_path := r_ebx regs in
  let user_argv := r_ecx regs in
  let user_envp := r_edx regs in
  let! cur := current_process in
  let! t := task_at cur in
  let! '(r, path) := zoom vm_lens (copy_from_userspace_string (t_pdir t) user_path 256 (junk 256)) in
  if r <? 0 then ret MINUS_1
  else
    let path := zinsert 255 0 path in
    let! argv := exec_argv (t_pdir t) user_argv path in
    let! envp := (if negb (user_envp =? 0) then copy_from_userspace_array (t_pdir t) user_envp 20 else ret None) in
    let! f := zoom files_lens (zoom p_files (kopen junk path 0)) in
    if f =? 0 then
      free_array argv >>>
      free_array envp >>>
      ret 2
    else
      process_execve start_shared_data stop_shared_data start_shared_text stop_shared_text return_to_regs cur f
        (c_array_of argv).1 (c_array_of argv).2 (c_array_of envp).1 (c_array_of envp).2 >>>
      let! _ := zoom files_lens (zoom p_files (fs_close f)) in
      free_array argv >>>
      free_array envp >>>
      zoom sched_lens (Task.upd_task cur (Task.t_set_state Task.TASK_STATE_RUNNING)) >>>
      let! t := task_at cur in
      zoom sched_lens (modify (Task.set_k_tss (t_kstack t))) >>>
      ret 0.

(** ** Clones and ends *)

Definition syscall_clone (regs : registers_t) : M W Z :=
  let flags := r_ebx regs in
  let child_stack := r_ecx regs in
  let! cur := current_process in
  let! child := process_clone start_shared_data stop_shared_data start_shared_text stop_shared_text return_to_regs junk cur flags child_stack in
  if child =? 0 then ret MINUS_1
  else
    process_add child >>>
    let! x := proc_at child in
    ret (ProcTree.pid x).

Definition syscall_exit (regs : registers_t) : M W unit :=
  process_exit start_shared_data stop_shared_data start_shared_text stop_shared_text (r_ebx regs).

(** One round of its loop; [None] is another one. *)
Definition process_waitpid (p : Z) : M W (option Z) :=
  let! cur := current_process in
  let! x := proc_at cur in
  let! c := zoom tree_lens (ProcTree.process_waitpid_find (ProcTree.ptree_node x) p) in
  if c =? 0 then ret (Some MINUS_1)
  else
    let! ended := zoom sched_lens (Task.waitpid_round c) in
    if ended : bool then let! y := proc_at c in ret (Some (ProcTree.pid y)) else ret None.

(** ** Directories *)

(** The bytes of [struct dirent_user]; what is between its members and behind
    the name is left as it was. *)
Definition dirent_user (d : dirent) : list Z :=
  word_bytes (d_ino d) ++ [0; 0; 0; 0] ++ [0] ++
  (take 256 (d_name d) ++ replicate (256 - length (d_name d)) 0) ++ take 3 (junk 3).

Definition syscall_readdir (regs : registers_t) : M (ystate F H D Hd) Z :=
  let fd_num := r_ebx regs in
  let d_ino := r_ecx regs in
  let! p := Syscall.current_process in
  let! fd := zoom Syscall.files_lens (fd_table_get (fd_table p) fd_num) in
  if fd =? 0 then ret MINUS_1
  else
    let! x := zoom Syscall.files_lens (fd_at fd) in
    let! dirent_k := zoom Syscall.files_lens (zoom p_files (fs_readdir (fd_node x) d_ino)) in
    match dirent_k with
    | None => ret 0
    | Some d =>
        let! r := zoom Syscall.vm_lens (copy_to_userspace (pdir p) (r_edx regs) 268 (dirent_user d)) in
        if r <? 0 then ret MINUS_1 else ret 1
    end.

(** ** The handler *)

Definition REG_EDX : Z := 40.

(** How a call ends: with an answer, in another task, or not at all. *)
Inductive answer : Type := Answer (r : Z) | Switched (p : pending) | NoAnswer.

(** A call on the current process: there is none for a kernel task. *)
Definition on_process (m : M (ystate F H D Hd) Z) : M W answer :=
  let! cur := current_process in
  (if cur =? 0 then fail Fault else ret tt) >>>
  let! r := zoom sys_lens m in
  ret (Answer r).

Definition answer_of (m : M W Z) : M W answer := let! r := m in ret (Answer r).

(** The loop of [process_waitpid], as long as its task runs; it goes on after
    an interrupt at most. *)
Definition wait_call (regs p : Z) : M W answer :=
  let! cur := current_task in
  let! fuel := gets (fun s => S (length (Task.k_irqs (z_sched s)))) in
  loop fuel (fun _ =>
    let! r := process_waitpid p in
    match r with
    | Some r => ret (inr (Answer r))
    | None => let! now := current_task in ret (if now =? cur then inl tt else inr (Switched (PendingWait regs p)))
    end) tt.

(** A call that gives up the cpu and answers 0. *)
Definition sched_call (regs : Z) (m : M (Task.kstate H) unit) : M W answer :=
  let! cur := current_task in
  zoom sched_lens m >>>
  let! now := current_task in
  ret (if now =? cur then Answer 0 else Switched (PendingReturn regs 0)).

Definition nano_sleep (delay : Z) : M (Task.kstate H) unit :=
  let! ticks := gets Task.k_ticks in
  Task.task_sleep_until Task.__schedule ((ticks + delay) mod 2 ^ 64).

Definition dispatch (regs : Z) (r : registers_t) : M W answer :=
  match r_eax r with
  | 0x01 => syscall_exit r >>> ret NoAnswer
  | 0x03 => on_process (syscall_read r)
  | 0x04 => on_process (syscall_write r)
  | 0x05 => on_process (syscall_open junk r)
  | 0x06 => on_process (syscall_close r)
  | 0x07 => wait_call regs (r_ebx r)
  | 0x08 => on_process (syscall_create junk r)
  | 0x0A => on_process (syscall_unlink junk r)
  | 0x0B => answer_of (syscall_execve r)
  | 0x0C => on_process (syscall_uname r)
  | 0x13 => on_process (syscall_lseek r)
  | 0x14 => on_process (syscall_getpid r)
  | 0x27 => on_process (syscall_mkdir junk r)
  | 0x28 => answer_of (zoom sys_lens (syscall_rmdir r))
  | 0x29 => on_process (syscall_dup r)
  | 0x2b => answer_of (zoom sys_lens (syscall_times r))
  | 0x3f => on_process (syscall_dup2 r)
  | 0x4e => answer_of (zoom sys_lens (syscall_gettimeofday r))
  | 0x59 => on_process (syscall_readdir r)
  | 0xFF => ret (Answer 0)
  | 0x78 => answer_of (syscall_clone r)
  | 0x9E => sched_call regs (Task.yield Task.__schedule)
  | 0xa2 => sched_call regs (nano_sleep (r_ebx r))
  | 0xa4 => answer_of (zoom sys_lens (syscall_setresuid r))
  | 0xaa => answer_of (zoom sys_lens (syscall_setresgid r))
  | 0xc7 => answer_of (zoom sys_lens (syscall_getuid r))
  | 0xc8 => answer_of (zoom sys_lens (syscall_getgid r))
  | 0xc9 => answer_of (zoom sys_lens (syscall_geteuid r))
  | 0xca => answer_of (zoom sys_lens (syscall_getegid r))
  | 0xd5 => answer_of (zoom sys_lens (syscall_setuid r))
  | 0xd6 => answer_of (zoom sys_lens (syscall_setgid r))
  | 0x14a => on_process (syscall_dup3 r)
  | 0x200 => on_process (syscall_mmap_anon r)
  | 0x201 => on_process (syscall_munmap r)
  | _ => fail AssertFail
  end.

(** What the answer does to the caller's registers. *)
Definition finish (cur regs : Z) (a : answer) : M W unit :=
  match a with
  | Answer r => zoom vm_lens (put_reg regs REG_EAX r)
  | Switched p => modify (fun s => set_pending (<[cur := p]> (z_pending s)) s)
  | NoAnswer => ret tt
  end.

Definition get_reg (regs place : Z) : M W Z := zoom vm_lens (read_word (u32 (regs + place))).

Definition syscall_handler (regs : Z) : M W unit :=
  let! cur := current_task in
  let! eax := get_reg regs REG_EAX in
  let! ebx := get_reg regs REG_EBX in
  let! ecx := get_reg regs REG_ECX in
  let! edx := get_reg regs REG_EDX in
  let! a := dispatch regs (Registers eax ebx ecx edx) in
  finish cur regs a.

(** The current task goes on in the call it was switched away from. *)
Definition resume_call : M W unit :=
  let! cur := current_task in
  let! m := gets z_pending in
  match m !! cur with
  | None => ret tt
  | Some p =>
      modify (fun s => set_pending (delete cur (z_pending s)) s) >>>
      match p with
      | PendingReturn regs r => finish cur regs (Answer r)
      | PendingWait regs p => let! a := wait_call regs p in finish cur regs a
      end
  end.

(** ** The first process (kernel/kmain.c) *)

(** "/init"; [init] is the address of the text "init". *)
Definition init_path : list Z := [47; 105; 110; 105; 116; 0].

Definition run_init (tty_node init : Z) : M W unit :=
  let! f := zoom files_lens (zoom p_files (kopen junk init_path 0)) in
  kassert (negb (f =? 0)) >>>
  let! p := process_spawn_init start_shared_data stop_shared_data start_shared_text stop_shared_text return_to_regs tty_node f 1
    (Some [Some [105; 110; 105; 116]; None]) in
  let! _ := zoom files_lens (zoom p_files (fs_close f)) in
  upd_process p (ProcTree.set_pid 1) >>>
  let! n := string_dup junk init in
  upd_process p (set_name n) >>>
  kassert (negb (n =? 0)) >>>
  process_add p.
End ops.
