(* ===== verification/ExecSpec.v ===== *)
(** * What a started program finds

    The address space and the registers that [process_execve] makes. *)
From stdpp Require Import functions.
From S2P Require Import Prelude Interfaces FsPath Fs FdTable Drivers Tmpfs Tar Vmm VmmDir Uaccess UserMem ProcMem Syscall KernelPages Exec.

Section build.
Context {F H : Type} `{FrameAllocLaws F, KHeapLaws H}.
Implicit Types (s : vstate F H) (r : role).

(** ** Pages that a new process has been given *)

(** What pages hold: nothing of the process's, or bytes at the places for
    which [C] has one. *)
Abbreviation contents := (Z -> option (Z -> option Z)).

(** Directory [d] of [s0] has been given pages that hold [C] in frames that
    were free in [s0]; its other entries are those of [s0]. *)
Record built s0 (d : Z) (C : contents) s : Prop := Built {
  bl_ok : vm_ok None s;
  bl_grown : grown s0 s;
  bl_keys : same_keys s0 s;
  bl_kept : kernel_kept s0 s;
  bl_page : forall q c, 0 <= q < 2 ^ 20 -> C q = Some c -> exists b, user_entry s d q = b * 4096 + 7 /\ 0 < b /\ ~ taken s0 b /\ taken s b /\ foreign s b /\
    forall o x, 0 <= o < 4096 -> c o = Some x -> byte_of (v_mem s) (b * 4096 + o) = x;
  bl_rest : forall q, 0 <= q < 2 ^ 20 -> C q = None -> user_entry s d q = user_entry s0 d q;
  bl_distinct : forall q q', 0 <= q < 2 ^ 20 -> 0 <= q' < 2 ^ 20 -> is_Some (C q) -> is_Some (C q') -> user_entry s d q / 4096 = user_entry s d q' / 4096 -> q = q';
  bl_others : forall x q, x <> d -> exists_role s0 (UDir x) -> 0 <= q < 2 ^ 20 -> user_entry s x q = user_entry s0 x q;
}.

Lemma built_dir s0 d C s x : built s0 d C s -> exists_role s0 (UDir x) -> exists_role s (UDir x).
Proof. intros B Hx. by apply (bl_grown _ _ _ _ B). Qed.

Lemma built_nothing s d : vm_ok None s -> built s d (fun _ => None) s.
Proof. intros Hok. split; try done; try apply grown_refl. Qed.

(** What changes neither the memory of the process nor anyone's entries. *)
Lemma built_step s0 d C s s' : exists_role s0 (UDir d) -> built s0 d C s -> vm_ok None s' -> grown s s' -> same_keys s s' -> same_users s s' -> kernel_kept s0 s' ->
  built s0 d C s'.
Proof.
  intros Hd0 B Hok G K U Kk. pose proof (built_dir _ _ _ _ d B Hd0) as Hd. destruct B as [A1 A2 A4 A5 A6 A7 A8 A9] eqn:HB. split.
  - done.
  - by eapply grown_trans.
  - intros x. by rewrite (K x).
  - done.
  - intros q c Hq Hc. destruct (A6 q c Hq Hc) as (b & B1 & B2 & B3 & B4 & B5 & B6). exists b. rewrite U by done. do 3 (split; [done|]).
    destruct (grown_foreign s s' b G B4 B5). do 2 (split; [done|]). intros o x Ho Hx. rewrite <- (B6 o x) by done. apply byte_word; [|done]. intros k Hk. by apply G.
  - intros q Hq Hc. rewrite U by done. by apply A7.
  - intros q q' Hq Hq'. rewrite !U by done. by apply A8.
  - intros x q Hne Hx Hq. rewrite U by (try done; by apply A2). by apply A9.
Qed.

(** The temporary page: free in [s0], reserved in [s], and no structure behind it. *)
Definition temporary s0 (p : Z) s : Prop := 0 < p < 2 ^ 20 /\ kentry s0 p = 0 /\ window s p /\ kentry s p <> 0.

Lemma fresh_uses s0 s p b s1 : temporary s0 p s -> fresh_page s p b s1 -> uses 0 s s1.
Proof.
  intros (_ & _ & _ & Hnz) Hf. apply uses_none. intros q Hq Hz. rewrite (fp_kernel _ _ _ _ Hf); [done|done|]. intros ->. done.
Qed.

(** A page [q] is filled and handed to the process. *)
Lemma built_page s0 d C s p b s1 q c s2 : exists_role s0 (UDir d) -> built s0 d C s -> temporary s0 p s -> 0 <= q < 2 ^ 20 ->
  fresh_page s p b s1 -> (forall o x, 0 <= o < 4096 -> c o = Some x -> byte_of (v_mem s1) (b * 4096 + o) = x) ->
  page_set s1 d q (b * 4096 + 7) s2 -> built s0 d (<[q := Some c]> C) s2 /\ temporary s0 p s2.
Proof.
  intros Hd0 B (Hp & Hz0 & Hw & _) Hq Hf Hc (P1 & P2 & P3 & P4 & P5 & P6). pose proof (built_dir _ _ _ _ d B Hd0) as Hd.
  pose proof Hf as [F1 F2 [F3 F3'] F4 Fp F5 F6 (F7 & F8 & F9 & F10)]. destruct (grown_foreign s1 s2 b P2 F9 F10) as [T2 O2].
  assert (kernel_kept s0 s1) as Hk1. { intros x Hx Hnz. rewrite F6; [by apply B|done|]. intros ->. by apply Hnz. }
  assert (kentry s2 p = b * 4096 + 3) as He2 by (rewrite P5 by (lia || rewrite F5; lia); exact F5).
  pose proof B as [A1 A2 A4 A5 A6 A7 A8 A9]. assert (exists_role s1 (UDir d)) as Hd1 by (by apply F2).
  assert (forall y, 0 <= y < 2 ^ 20 -> user_entry s2 d y = if y =? q then b * 4096 + 7 else user_entry s d y) as Hue.
  { intros y Hy. rewrite P6 by done. rewrite Z.eqb_refl. cbn [andb]. destruct (y =? q); [done|]. by apply F4. }
  assert (forall y, 0 <= y < 2 ^ 20 -> is_Some (C y) -> user_entry s d y / 4096 <> b) as Hnew.
  { intros y Hy [cy Hcy] Heq. destruct (A6 y cy Hy Hcy) as (b' & B1 & _ & _ & B4 & _). rewrite B1, page_number_entry in Heq by lia. by subst b'. }
  assert (forall y, y <> q -> <[q := Some c]> C y = C y) as Hins by (intros y Hne; by apply fn_lookup_insert_ne).
  split.
  - split.
    + done.
    + eapply grown_trans; [exact A2|]. by eapply grown_trans.
    + intros x. rewrite (P4 x), F3'. apply A4.
    + by apply (kernel_kept_trans s0 s1 s2).
    + intros y cy Hy Hcy. rewrite Hue by done. destruct (Z.eqb_spec y q) as [->|Hne].
      * rewrite fn_lookup_insert in Hcy. injection Hcy as <-. exists b. split; [done|]. split; [done|]. split; [intros Ht; by apply F8, A2|]. do 2 (split; [done|]).
        intros o x Ho Hx. rewrite <- (Hc o x) by done. apply byte_word; [|done]. intros k Hk. by apply P2.
      * rewrite fn_lookup_insert_ne in Hcy by done. destruct (A6 y cy Hy Hcy) as (b' & B1 & B2 & B3 & B4 & B5 & B6). exists b'. do 3 (split; [done|]).
        destruct (grown_foreign s s1 b' F2 B4 B5) as [T1 O1]. destruct (grown_foreign s1 s2 b' P2 T1 O1). do 2 (split; [done|]).
        intros o x Ho Hx. rewrite <- (B6 o x) by done. apply byte_word; [|done]. intros k Hk. rewrite (gr_word s1 s2 P2) by done. by apply F2.
    + intros y Hy Hcy. rewrite Hue by done. destruct (Z.eqb_spec y q) as [->|Hne]; [by rewrite fn_lookup_insert in Hcy|].
      rewrite fn_lookup_insert_ne in Hcy by done. by apply A7.
    + intros y y' Hy Hy'. rewrite !Hue by done. destruct (Z.eqb_spec y q) as [->|Hne], (Z.eqb_spec y' q) as [->|Hne'].
      * done.
      * rewrite (Hins y') by done. intros _ Hs Heq. rewrite page_number_entry in Heq by lia. by destruct (Hnew y' Hy' Hs).
      * rewrite (Hins y) by done. intros Hs _ Heq. rewrite page_number_entry in Heq by lia. by destruct (Hnew y Hy Hs).
      * rewrite (Hins y), (Hins y') by done. by apply A8.
    + intros x y Hxd Hx Hy. pose proof (built_dir _ _ _ _ x B Hx) as Hxs. rewrite P6 by (try done; by apply F2).
      rewrite (proj2 (Z.eqb_neq x d)) by done. cbn [andb]. rewrite F4 by done. by apply A9.
  - split; [done|]. split; [done|]. split; [|rewrite He2; lia]. split; [lia|]. right. by rewrite He2, page_number_entry by lia.
Qed.

Lemma wp_temp_frame s p (Q : Z -> vstate F H -> Prop) : vm_ok None s -> window s p ->
  (forall b s1, fresh_page s p b s1 -> Q (b * 4096) s1) -> wp (temp_frame (p * 4096)) Q only_nomem s.
Proof.
  intros Hok Hw HQ. unfold temp_frame. wp_steps. apply wp_zoom. wp_apply frame_alloc_safe_spec; [apply Hok| |done].
  intros v f' (b & -> & Hb & Hbu & Hmk). cbv beta. pose proof (fresh_page_mapped s p b f' Hok Hw Hb Hbu Hmk) as Hf.
  destruct (frame_out s b f' Hok Hb Hbu Hmk) as (Hok1 & _). set (s1 := lset frames_lens f' s) in *.
  wp_steps. apply (wp_kernel_map s1 (kentry s1)); [by apply kview_refl|apply Hw|]. wp_steps. apply wp_invalidate. wp_steps. change BLOCK_SIZE with 4096. by apply HQ.
Qed.

Lemma wp_user_map s d q b (Q : unit -> vstate F H -> Prop) : vm_ok None s -> exists_role s (UDir d) -> 0 <= q < 2 ^ 20 -> room 1 s ->
  (forall s', page_set s d q (b * 4096 + 7) s' -> uses 1 s s' -> Q tt s') -> wp (user_map d (q * 4096) (b * 4096)) Q only_nomem s.
Proof.
  intros Hok Hd Hq Hroom HQ. pose proof (wp_map_user_page s d q (b * 4096) 7 (ret tt) Q only_nomem Hok Hd Hq (fun e => room_space 1 s e ltac:(done) Hroom)) as Hw.
  assert (forall s', page_set s d q (Z.lor (b * 4096) 7) s' -> uses 1 s s' -> wp (ret tt) Q only_nomem s') as HK.
  { intros s' Hs Hu. apply wp_ret. apply HQ; [|done]. by rewrite lor_page in Hs by lia. }
  specialize (Hw HK). unfold user_map. apply wp_bind in Hw. apply wp_bind. eapply wp_mono; [exact Hw| |done].
  intros t s1 Ht. apply wp_bind in Ht. eapply wp_mono; [exact Ht| |done]. intros [] s2 Hs2. by apply wp_ret in Hs2.
Qed.

(** Page [q] of the process is a page of zeros. *)
Definition zeros : Z -> option Z := fun _ => Some 0.

Lemma wp_zero_page s0 d C s p start i : exists_role s0 (UDir d) -> built s0 d C s -> temporary s0 p s -> 0 <= start -> 0 <= i -> start + i < 2 ^ 20 -> room 1 s ->
  wp (zero_page d (p * 4096) (start * 4096) i)
    (fun _ s' => built s0 d (<[start + i := Some zeros]> C) s' /\ temporary s0 p s' /\ v_heap s' = v_heap s /\ uses 1 s s') only_nomem s.
Proof.
  intros Hd0 B T Hst Hi Hsi Hroom. pose proof (bl_ok _ _ _ _ B) as Hok. pose proof T as (Hp & _ & Hw & _). unfold zero_page.
  change BLOCK_SIZE with 4096. assert (u32 (start * 4096 + i * 4096) = (start + i) * 4096) as ->.
  { rewrite u32_small. lia. unfold is_u32. lia. }
  wp_steps. apply wp_temp_frame; [done|done|]. intros b s1 Hf. destruct (fresh_usable s p b s1 Hf) as [E1 E2].
  wp_steps. eapply wp_mono; [apply (wp_clear_kpage s1 p only_nomem); [apply Hf|lia|done|rewrite E1; apply Hf]| |done]. rewrite E1. intros u s2 [Ho Hz].
  pose proof (fresh_page_filled s p b s1 s2 Hf Ho) as Hf2.
  pose proof (fresh_uses s0 s p b s2 T Hf2) as U2.
  apply wp_user_map; [apply Hf2| |lia|by apply (uses_room 0 1 s)|]. { apply (fp_grown _ _ _ _ Hf2). by apply (built_dir s0 d C). }
  intros s3 Hs3 U3. destruct (built_page s0 d C s p b s2 (start + i) zeros s3) as [B3 T3]; try done; [lia| |].
  - intros o x Ho' Hx. injection Hx as <-. unfold byte_of. assert ((b * 4096 + o) / 4 = b * 1024 + o / 4) as ->.
    { replace (b * 4096 + o) with (o + b * 1024 * 4) by lia. rewrite Z.div_add by lia. lia. }
    pose proof (Z.mod_pos_bound (b * 4096 + o) 4 ltac:(lia)).
    assert (v_mem s2 (b * 1024 + o / 4) = 0) as ->; [|by rewrite Z.div_0_l by (apply Z.pow_nonzero; lia)].
    apply (Hz (o / 4)). split; [apply Z.div_pos; lia|apply Z.div_lt_upper_bound; lia].
  - split; [done|]. split; [done|]. split; [|by apply (uses_trans 0 1 s s2)]. destruct Hs3 as (_ & _ & -> & _). by destruct (fp_rest _ _ _ _ Hf2).
Qed.

(** [n] pages of zeros from page [start] on. *)
Definition zeroed (start n : Z) (C : contents) : contents := fun q => if (start <=? q) && (q <? start + n) then Some zeros else C q.

Lemma built_ext s0 d C C' s : (forall q, 0 <= q < 2 ^ 20 -> C' q = C q) -> built s0 d C s -> built s0 d C' s.
Proof.
  intros He [A1 A2 A4 A5 A6 A7 A8 A9]. split; try done.
  - intros q c Hq. rewrite He by done. by apply A6.
  - intros q Hq. rewrite He by done. by apply A7.
  - intros q q' Hq Hq'. rewrite !He by done. by apply A8.
Qed.

Lemma wp_zero_pages s0 d C s p start n : exists_role s0 (UDir d) -> built s0 d C s -> temporary s0 p s -> 0 <= start -> start + Z.of_nat n <= 2 ^ 20 -> room (Z.of_nat n) s ->
  wp (for_up n 0 (zero_page d (p * 4096) (start * 4096)))
    (fun _ s' => built s0 d (zeroed start (Z.of_nat n) C) s' /\ temporary s0 p s' /\ v_heap s' = v_heap s /\ uses (Z.of_nat n) s s') only_nomem s.
Proof.
  intros Hd0 B T Hst Hn Hroom. eapply (wp_mono _ _ _ only_nomem);
    [apply (wp_for_up (fun i s' => built s0 d (zeroed start i C) s' /\ temporary s0 p s' /\ v_heap s' = v_heap s /\ uses i s s'))| |done].
  - split; [|split; [done|]; split; [done|apply uses_refl]]. eapply built_ext; [|exact B]. intros q Hq. unfold zeroed. rewrite Z.add_0_r.
    destruct (Z.leb_spec start q), (Z.ltb_spec q start); cbn [andb]; (done || lia).
  - intros i s1 Hi (B1 & T1 & Hh1 & U1). eapply wp_mono; [apply (wp_zero_page s0 d (zeroed start i C) s1 p start i); try (done || lia)| |done].
    { apply (uses_room i 1 s s1 U1). apply (room_mono (Z.of_nat n)); [lia|done]. }
    intros u s2 (B2 & T2 & Hh2 & U2). split; [|split; [done|]; split; [congruence|by apply (uses_trans i 1 s s1)]]. eapply built_ext; [|exact B2]. intros q Hq.
    destruct (Z.eq_dec q (start + i)) as [->|Hne]; [rewrite fn_lookup_insert|rewrite fn_lookup_insert_ne by done]; unfold zeroed.
    + by rewrite (proj2 (Z.leb_le _ _)), (proj2 (Z.ltb_lt _ _)) by lia.
    + destruct (Z.leb_spec start q), (Z.ltb_spec q (start + i)), (Z.ltb_spec q (start + (i + 1))); cbn [andb]; (done || lia).
  - done.
Qed.
End build.

(** ** The text *)

Section program.
Context {F H D Hd : Type} `{FrameAllocLaws F, KHeapLaws H}.
Context `{!Handlers (fstate H D Hd) Hd}.
Abbreviation Y := (ystate F H D Hd).
Implicit Types (s : Y) (v : vstate F H).

(** Reading node [f] gives the bytes of [content], whatever the kernel heap
    holds otherwise. *)
Definition serves (p : pstate H D Hd) (f : Z) (content : list Z) : Prop :=
  f <> 0 /\ (exists x, f_nodes (p_fs p) !! f = Some x /\ n_length x = zlen content) /\
  forall h off, 0 <= off < zlen content ->
    wp (fs_read f off BLOCK_SIZE) (fun r fs => r = (zlen (slice content off BLOCK_SIZE), slice content off BLOCK_SIZE) /\ fs = p_fs (lset p_heap h p))
      never (p_fs (lset p_heap h p)).

(** Nothing but the paging changes, the file system's view of the heap apart. *)
Definition same_files s s' : Prop :=
  y_current s' = y_current s /\ forall h, lset p_heap h (y_files s') = lset p_heap h (y_files s).

Lemma same_files_refl s : same_files s s.
Proof. done. Qed.

Lemma same_files_trans s1 s2 s3 : same_files s1 s2 -> same_files s2 s3 -> same_files s1 s3.
Proof. intros [A1 A2] [B1 B2]. split; [congruence|]. intros h. by rewrite B2. Qed.

Lemma serves_same s s' f content : same_files s s' -> serves (y_files s) f content -> serves (y_files s') f content.
Proof.
  intros [_ He] (Hf & Hx & Hr). split; [done|]. split.
  - assert (f_nodes (p_fs (y_files s')) = f_nodes (p_fs (y_files s))) as ->; [|done]. specialize (He (f_heap (p_fs (y_files s)))).
    apply (f_equal (fun p => f_nodes (p_fs p))) in He. exact He.
  - intros h off Hoff. rewrite He. by apply Hr.
Qed.

Definition on_vm v s : Y := YState v (y_files s) (y_current s).

Lemma wp_vm {A} (m : M (vstate F H) A) (Q : A -> Y -> Prop) E s :
  wp m (fun a v => Q a (on_vm v s)) E (y_vm s) -> wp (zoom vm_lens m) Q E s.
Proof. intros Hm. by apply wp_zoom. Qed.

(** Looking at the files. *)
Lemma wp_look {A} (m : M (fstate H D Hd) A) (Q : A -> Y -> Prop) E s :
  wp m (fun a fs => fs = p_fs (lset p_heap (v_heap (y_vm s)) (y_files s)) /\ forall s', y_vm s' = y_vm s -> same_files s s' -> Q a s') E
    (p_fs (lset p_heap (v_heap (y_vm s)) (y_files s))) ->
  wp (zoom files_lens (zoom p_files m)) Q E s.
Proof.
  intros Hm. apply wp_zoom, wp_zoom. eapply wp_mono; [exact Hm| |done]. cbv beta. intros a fs [-> HQ]. apply HQ; [by destruct s as [[] ? ?]|].
  split; [done|]. intros h. by destruct s as [? [[] ? ? ?] ?].
Qed.

Lemma wp_node_length s f content (Q : Z -> Y -> Prop) E : serves (y_files s) f content ->
  (forall s', y_vm s' = y_vm s -> same_files s s' -> Q (zlen content) s') -> wp (node_length f) Q E s.
Proof.
  intros (_ & (x & Hx & Hl) & _) HQ. unfold node_length. apply wp_look. unfold node_at. wp_steps. change (f_nodes (p_fs (lset p_heap _ _))) with (f_nodes (p_fs (y_files s))).
  rewrite Hx. wp_cond. wp_steps. rewrite Hl. done.
Qed.

Lemma wp_file_page s f content off (Q : Z * list Z -> Y -> Prop) E : serves (y_files s) f content -> 0 <= off < zlen content ->
  (forall s', y_vm s' = y_vm s -> same_files s s' -> Q (zlen (slice content off BLOCK_SIZE), slice content off BLOCK_SIZE) s') ->
  wp (zoom files_lens (zoom p_files (fs_read f off BLOCK_SIZE))) Q E s.
Proof.
  intros (_ & _ & Hr) Hoff HQ. apply wp_look. eapply wp_mono; [by apply Hr| |by intros x []]. intros a fs [-> ->]. done.
Qed.

(** The first [n] pages of the text: the bytes of the file, and no promise
    behind its end. *)
Definition texted (start n : Z) (content : list Z) (C : Z -> option (Z -> option Z)) : Z -> option (Z -> option Z) :=
  fun q => if (start <=? q) && (q <? start + n) then Some (fun o => zlookup content ((q - start) * 4096 + o)) else C q.

Lemma zlookup_slice (l : list Z) off n o : 0 <= off -> 0 <= o < n -> zlookup (slice l off n) o = zlookup l (off + o).
Proof.
  intros Hoff Ho. unfold zlookup, slice. rewrite (proj2 (Z.ltb_ge o 0)), (proj2 (Z.ltb_ge (off + o) 0)) by lia.
  rewrite lookup_take_lt by lia. rewrite lookup_drop. f_equal. lia.
Qed.

Lemma slice_u8 (l : list Z) off n : Forall is_u8 l -> Forall is_u8 (slice l off n).
Proof. intros Hl. by apply Forall_take, Forall_drop. Qed.

Lemma zlen_slice_le (l : list Z) off n : 0 <= n -> zlen (slice l off n) <= n.
Proof. intros Hn. unfold slice, zlen. rewrite length_take. lia. Qed.

(** What a step of [map_program] keeps. *)
Definition building v0 (d : Z) C (p : Z) s0 s : Prop :=
  built v0 d C (y_vm s) /\ temporary v0 p (y_vm s) /\ v_heap (y_vm s) = v_heap (y_vm s0) /\ same_files s0 s.

Lemma wp_text_page v0 d C p s0 s f content q : exists_role v0 (UDir d) -> Forall is_u8 content -> building v0 d C p s0 s -> serves (y_files s) f content ->
  0 <= q -> q * 4096 < zlen content -> zlen content <= 2 ^ 24 -> room 1 (y_vm s) ->
  wp (text_page d (p * 4096) f (q * 4096))
    (fun _ s' => building v0 d (<[4096 + q := Some (fun o => zlookup content (q * 4096 + o))]> C) p s0 s' /\ uses 1 (y_vm s) (y_vm s')) only_nomem s.
Proof.
  intros Hd0 H8 (B & T & Hh & Hs) Hsv Hq Hlen Hmax Hroom. pose proof (bl_ok _ _ _ _ B) as Hok. pose proof T as (Hp & _ & Hw & _). unfold text_page.
  wp_steps. apply wp_vm, wp_temp_frame; [done|done|]. intros b v1 Hf.
  assert (u32 (virt_text_start + q * 4096) = (4096 + q) * 4096) as -> by (unfold virt_text_start; rewrite u32_small by (unfold is_u32; lia); lia).
  set (s1 := on_vm v1 s). wp_steps. apply (wp_file_page s1 f content); [done|lia|]. intros s2 Hv2 Hs2. wp_steps. apply wp_vm. rewrite Hv2. change (y_vm s1) with v1.
  destruct (fresh_usable _ p b v1 Hf) as [E1 E2].
  eapply wp_mono; [apply (wp_fill_kpage v1 p (slice content (q * 4096) BLOCK_SIZE) only_nomem); [apply Hf|lia|done|rewrite E1; apply Hf|by apply zlen_slice_le|by apply slice_u8]| |done].
  rewrite E1. intros u v3 [Ho Hb]. pose proof (fresh_page_filled _ p b v1 v3 Hf Ho) as Hf3. wp_cond.
  pose proof (zlen_slice_le content (q * 4096) BLOCK_SIZE) as Hsl. pose proof (zlen_nonneg (slice content (q * 4096) BLOCK_SIZE)).
  rewrite (proj2 (Z.eqb_neq _ MINUS_1)) by (unfold MINUS_1, BLOCK_SIZE in *; lia). cbn [negb]. wp_steps. apply wp_vm.
  pose proof (fresh_uses v0 (y_vm s) p b v3 T Hf3) as U3.
  apply wp_user_map; [apply Hf3| |lia|by apply (uses_room 0 1 (y_vm s))|]. { apply (fp_grown _ _ _ _ Hf3). by apply (built_dir v0 d C). }
  intros v4 Hv4 U4. destruct (built_page v0 d C (y_vm s) p b v3 (4096 + q) (fun o => zlookup content (q * 4096 + o)) v4) as [B4 T4]; try done; [lia| |].
  - intros o x Ho' Hx. apply Hb. rewrite zlookup_slice by (unfold BLOCK_SIZE; lia). done.
  - split; [|by apply (uses_trans 0 1 (y_vm s) v3)]. split; [done|]. split; [done|]. split.
    + destruct Hv4 as (_ & _ & Hh4 & _). destruct (fp_rest _ _ _ _ Hf3) as [Hh3 _]. change (v_heap v4 = v_heap (y_vm s0)). rewrite Hh4. change (v_heap v3 = v_heap (y_vm s0)). by rewrite Hh3.
    + eapply same_files_trans; [exact Hs|]. exact Hs2.
Qed.

Lemma building_ext v0 d C C' p s0 s : (forall q, 0 <= q < 2 ^ 20 -> C' q = C q) -> building v0 d C p s0 s -> building v0 d C' p s0 s.
Proof. intros He (B & T). split; [by eapply built_ext|done]. Qed.

Lemma building_look v0 d C p s0 s s' : y_vm s' = y_vm s -> same_files s s' -> building v0 d C p s0 s -> building v0 d C p s0 s'.
Proof. intros Hv Hs (B & T & Hh & Hf). unfold building. rewrite Hv. do 3 (split; [done|]). by eapply same_files_trans. Qed.

(** How many pages a file takes. *)
Definition pages_of (n : Z) : Z := (n + 4095) / 4096.

Lemma wp_map_text v0 d C p s0 s f content : exists_role v0 (UDir d) -> Forall is_u8 content -> building v0 d C p s0 s -> serves (y_files s0) f content ->
  zlen content <= 2 ^ 24 -> room (pages_of (zlen content)) (y_vm s) ->
  wp (map_text d (p * 4096) f)
    (fun _ s' => building v0 d (texted 4096 (pages_of (zlen content)) content C) p s0 s' /\ uses (pages_of (zlen content)) (y_vm s) (y_vm s')) only_nomem s.
Proof.
  intros Hd0 H8 HB Hsv Hmax Hroom. unfold map_text. pose proof (zlen_nonneg content) as Hl0.
  eapply (wp_loop (fun i s' => exists j, i = j * 4096 /\ 0 <= j <= pages_of (zlen content) /\ building v0 d (texted 4096 j content C) p s0 s' /\
      uses j (y_vm s) (y_vm s'))
    (fun i _ => Z.to_nat (2 ^ 20 - i / 4096))).
  - intros i s1 (j & -> & Hj & HB1 & U1). pose proof HB1 as (_ & _ & _ & Hs1). pose proof (serves_same s0 s1 f content Hs1 Hsv) as Hsv1.
    wp_steps. apply (wp_node_length s1 f content); [done|]. intros s2 Hv2 Hs2. pose proof (building_look _ _ _ _ _ s1 s2 Hv2 Hs2 HB1) as HB2.
    unfold pages_of in Hj. pose proof (Z.div_mod (zlen content + 4095) 4096 ltac:(lia)). pose proof (Z.mod_pos_bound (zlen content + 4095) 4096 ltac:(lia)).
    wp_cond. destruct (Z.ltb_spec (j * 4096) (zlen content)) as [Hlt|Hge].
    + wp_steps. eapply wp_mono; [apply (wp_text_page v0 d (texted 4096 j content C) p s0 s2 f content j); try done; [by apply (serves_same s1)|lia|]| |done].
      { rewrite Hv2. apply (uses_room j 1 (y_vm s) _ U1). apply (room_mono (pages_of (zlen content))); [unfold pages_of; lia|done]. }
      intros u s3 [HB3 U3]. wp_steps. change BLOCK_SIZE with 4096. replace (j * 4096 + 4096) with ((j + 1) * 4096) by lia. rewrite u32_small by (unfold is_u32; lia).
      split; [|rewrite !Z.div_mul by lia; lia]. exists (j + 1). split; [done|]. split; [unfold pages_of; lia|].
      split; [|rewrite Hv2 in U3; by apply (uses_trans j 1 (y_vm s) (y_vm s1))]. eapply building_ext; [|exact HB3].
      intros q Hq. destruct (Z.eq_dec q (4096 + j)) as [->|Hne]; [rewrite fn_lookup_insert|rewrite fn_lookup_insert_ne by done]; unfold texted.
      * rewrite (proj2 (Z.leb_le _ _)), (proj2 (Z.ltb_lt _ _)) by lia. cbn [andb]. by replace (4096 + j - 4096) with j by lia.
      * destruct (Z.leb_spec 4096 q), (Z.ltb_spec q (4096 + j)), (Z.ltb_spec q (4096 + (j + 1))); cbn [andb]; (done || lia).
    + wp_steps. replace (pages_of (zlen content)) with j by (unfold pages_of; lia). rewrite Hv2. done.
  - exists 0. split; [done|]. split; [split; [done|]; unfold pages_of; apply Z.div_pos; lia|]. split; [|apply uses_refl]. eapply building_ext; [|exact HB].
    intros q Hq. unfold texted. rewrite Z.add_0_r. destruct (Z.leb_spec 4096 q), (Z.ltb_spec q 4096); cbn [andb]; (done || lia).
  - change (0 / 4096) with 0. lia.
Qed.

(** ** The regions *)

Definition program_pages (content : list Z) : Z -> option (Z -> option Z) :=
  zeroed (virt_misc_start / 4096) 1 (zeroed (virt_stack_start / 4096) 256
    (texted (virt_text_start / 4096) (pages_of (zlen content)) content (zeroed (virt_heap_start / 4096) 256 (fun _ => None)))).

(** The temporary page comes and goes. *)
Lemma temporary_found v0 d C v p v1 : exists_role v0 (UDir d) -> built v0 d C v -> 0 < p < 2 ^ 20 - 1 -> kentry v p = 0 ->
  reserved None v p 1 v1 -> built v0 d C v1 /\ temporary v0 p v1.
Proof.
  intros Hd0 B Hp Hz R. pose proof R as (Hok1 & Hf1 & Hh1 & Hd1 & Hk1 & Hfr1 & _ & He1). pose proof (bl_ok _ _ _ _ B) as Hok.
  assert (kentry v0 p = 0) as Hz0.
  { destruct (decide (kentry v0 p = 0)) as [|Hnz]; [done|]. pose proof (bl_kept _ _ _ _ B p) as Hk. by rewrite Hk in Hz by (done || lia). }
  assert (kentry v1 p = PAGE_VALUE_RESERVED) as Hr by (rewrite He1 by lia; by rewrite (proj2 (Z.leb_le _ _)), (proj2 (Z.ltb_lt _ _)) by lia).
  assert (forall q, 0 <= q < 2 ^ 20 -> q <> p -> kentry v1 q = kentry v q) as Hother.
  { intros q Hq Hne. rewrite He1 by done. destruct (Z.leb_spec p q), (Z.ltb_spec q (p + 1)); cbn [andb]; try done; lia. }
  split.
  - apply (built_step v0 d C v v1); [done|done|done|by eapply grown_reserved|intros x; by rewrite Hd1| |].
    + intros x q Hx Hq. by apply (reserved_users None v p 1 v1).
    + intros q Hq Hnz. rewrite Hother; [by apply B|done|]. intros ->. by apply Hnz.
  - split; [lia|]. split; [done|]. rewrite Hr. split; [|done]. split; [lia|]. left. by rewrite Hr.
Qed.

Lemma temporary_gone v0 d C v p : exists_role v0 (UDir d) -> built v0 d C v -> temporary v0 p v -> built v0 d C (set_kentry p 0 v).
Proof.
  intros Hd0 B (Hp & Hz & Hw & _). pose proof (bl_ok _ _ _ _ B) as Hok. assert (0 <= p < 2 ^ 20) as Hp' by lia.
  apply (built_step v0 d C v); [done|done|apply vm_ok_spare; [done|done|by apply window_spare]|by apply (grown_set_kentry None)|by intros x|by apply users_set_kentry|].
  intros q Hq Hnz. rewrite (kentry_set None) by done. rewrite (proj2 (Z.eqb_neq q p)) by (intros ->; by apply Hnz). by apply B.
Qed.

(** The pages that a program gets, and its temporary page. *)
Definition program_room (content : list Z) : Z := 514 + pages_of (zlen content).

Lemma program_room_pos content : 0 < program_room content.
Proof. unfold program_room, pages_of. pose proof (zlen_nonneg content). assert (0 <= (zlen content + 4095) / 4096) by (apply Z.div_pos; lia). lia. Qed.

Lemma wp_map_program v0 d s f content : exists_role v0 (UDir d) -> Forall is_u8 content -> zlen content <= 2 ^ 24 ->
  built v0 d (fun _ => None) (y_vm s) -> serves (y_files s) f content -> room (program_room content) (y_vm s) ->
  wp (map_program d f) (fun _ s' => built v0 d (program_pages content) (y_vm s') /\ v_heap (y_vm s') = v_heap (y_vm s) /\ same_files s s' /\
    uses (program_room content) (y_vm s) (y_vm s')) only_nomem s.
Proof.
  intros Hd0 H8 Hmax B Hsv Hroom. pose proof (bl_ok _ _ _ _ B) as Hok. unfold map_program, kernel_vspace, kernel_directory.
  set (n := pages_of (zlen content)) in *. assert (0 <= n) as Hn by (unfold n, pages_of; pose proof (zlen_nonneg content); apply Z.div_pos; lia).
  wp_steps. apply wp_vm. wp_steps. apply (wp_temp_page (y_vm s) (513 + n)); [done|lia|unfold program_room in Hroom; fold n in Hroom; by replace (513 + n + 1) with (514 + n) by lia|].
  intros p v1 Hp Hz R Hroom1. destruct (temporary_found v0 d _ (y_vm s) p v1 Hd0 B Hp Hz R) as [B1 T1]. pose proof R as (_ & _ & Hh1 & _).
  assert (uses 1 (y_vm s) v1) as U1.
  { apply (uses_step p). intros q Hq Hne. destruct R as (_ & _ & _ & _ & _ & _ & _ & He). rewrite He by done. destruct (Z.leb_spec p q), (Z.ltb_spec q (p + 1)); cbn [andb]; try done; lia. }
  change BLOCK_SIZE with 4096. rewrite (proj2 (Z.eqb_neq (p * 4096) 0)) by lia. cbn [negb kassert]. wp_steps.
  apply wp_vm. change virt_heap_start with (8192 * 4096).
  eapply wp_mono; [apply (wp_zero_pages v0 d (fun _ => None) v1 p 8192 256); try (done || lia); apply (room_mono (513 + n)); (done || lia)| |done].
  change (Z.of_nat 256) with 256. intros u v2 (B2 & T2 & Hh2 & U2).
  set (s2 := on_vm v2 (on_vm v1 s)). wp_steps.
  eapply wp_mono; [apply (wp_map_text v0 d (zeroed 8192 256 (fun _ => None)) p s s2 f content); try done| |done].
  { split; [done|]. split; [done|]. split; [change (v_heap v2 = v_heap (y_vm s)); congruence|done]. }
  { apply (uses_room 256 n v1 v2 U2). apply (room_mono (513 + n)); [lia|done]. }
  fold n. change (y_vm s2) with v2. set (C3 := texted _ _ content _). intros u3 s3 [(B3 & T3 & Hh3 & Hs3) U3]. wp_steps. apply wp_vm. change virt_stack_start with (32768 * 4096).
  pose proof (uses_trans _ _ _ _ _ U2 U3) as U13.
  eapply wp_mono; [apply (wp_zero_pages v0 d C3 (y_vm s3) p 32768 256); try (done || lia)| |done].
  { apply (uses_room (256 + n) _ v1 _ U13). apply (room_mono (513 + n)); [lia|done]. }
  change (Z.of_nat 256) with 256. intros u4 v4 (B4 & T4 & Hh4 & U4). pose proof (uses_trans _ _ _ _ _ U13 U4) as U14. wp_steps. apply wp_vm.
  change virt_misc_start with (65536 * 4096). change (y_vm (on_vm v4 s3)) with v4.
  eapply wp_mono; [apply (wp_zero_pages v0 d (zeroed 32768 256 C3) v4 p 65536 1); try (done || lia)| |done].
  { apply (uses_room (256 + n + 256) 1 v1 v4 U14). apply (room_mono (513 + n)); [lia|done]. }
  change (Z.of_nat 1) with 1. intros u5 v5 (B5 & T5 & Hh5 & U5). wp_steps. apply wp_vm.
  change (y_vm (on_vm v5 (on_vm v4 s3))) with v5. apply (wp_kernel_map v5 (kentry v5)); [apply kview_refl, B5|apply T5|].
  split; [by apply temporary_gone|]. split; [change (v_heap v5 = v_heap (y_vm s)); congruence|]. split; [exact Hs3|].
  replace (program_room content) with (1 + (256 + n + 256 + 1) + 0) by (unfold program_room; fold n; lia).
  apply (uses_trans _ 0 _ v5); [by eapply uses_trans; [exact U1|]; eapply uses_trans|].
  apply uses_none. intros q Hq Hzq. change (kentry (set_kentry p 0 v5) q = 0). rewrite (kentry_set None) by (apply B5 || lia). by destruct (q =? p).
Qed.
End program.

(** ** What the process sees *)

(** A byte that the program finds at an address, [Some None] when it finds
    one that nothing is promised of, [None] where it finds nothing. *)
Abbreviation image_t := (Z -> option (option Z)).

Definition stored (ptr : Z) (bytes : list Z) (img : image_t) : image_t :=
  fun a => if (ptr <=? a) && (a <? ptr + zlen bytes) then Some (zlookup bytes (a - ptr)) else img a.

Lemma stored_nil ptr img a : stored ptr [] img a = img a.
Proof. unfold stored. change (zlen (@nil Z)) with 0. rewrite Z.add_0_r. destruct (Z.leb_spec ptr a), (Z.ltb_spec a ptr); cbn [andb]; (done || lia). Qed.

Lemma stored_app ptr b1 b2 img a : stored (ptr + zlen b1) b2 (stored ptr b1 img) a = stored ptr (b1 ++ b2) img a.
Proof.
  unfold stored. rewrite zlen_app. pose proof (zlen_nonneg b1). pose proof (zlen_nonneg b2).
  destruct (Z.leb_spec (ptr + zlen b1) a), (Z.ltb_spec a (ptr + zlen b1 + zlen b2)), (Z.leb_spec ptr a), (Z.ltb_spec a (ptr + zlen b1)), (Z.ltb_spec a (ptr + (zlen b1 + zlen b2)));
    cbn [andb]; try done; try lia; f_equal; unfold zlookup.
  - rewrite (proj2 (Z.ltb_ge (a - (ptr + zlen b1)) 0)), (proj2 (Z.ltb_ge (a - ptr) 0)) by lia. unfold zlen in *. rewrite lookup_app_r by lia. f_equal. lia.
  - rewrite (proj2 (Z.ltb_ge (a - ptr) 0)) by lia. unfold zlen in *. by rewrite lookup_app_l by lia.
Qed.

Lemma stored_over ptr bytes (img img' : image_t) a : img a = img' a -> stored ptr bytes img a = stored ptr bytes img' a.
Proof. intros He. unfold stored. by rewrite He. Qed.

Section memory.
Context {F H : Type} `{FrameAllocLaws F, KHeapLaws H}.
Implicit Types (s : vstate F H) (r : role).

(** The pages [P] of [d] hold [img], in frames that were free in [s0]. *)
Record program s0 (d : Z) (P : Z -> bool) (img : image_t) s : Prop := Program {
  pr_ok : vm_ok None s;
  pr_grown : grown s0 s;
  pr_keys : same_keys s0 s;
  pr_kept : kernel_kept s0 s;
  pr_page : forall q, 0 <= q < 2 ^ 20 -> P q = true -> exists b, user_entry s d q = b * 4096 + 7 /\ 0 < b /\ ~ taken s0 b /\ taken s b /\ foreign s b;
  pr_rest : forall q, 0 <= q < 2 ^ 20 -> P q = false -> user_entry s d q = user_entry s0 d q /\ shared (user_entry s d q) = false;
  pr_pages : user_pages s d;
  pr_others : forall x q, x <> d -> exists_role s0 (UDir x) -> 0 <= q < 2 ^ 20 -> user_entry s x q = user_entry s0 x q;
  pr_bytes : forall a, 0 <= a < 2 ^ 32 -> P (a / 4096) = true -> exists o, img a = Some o /\ forall x, o = Some x -> user_byte s d a = Some x;
  pr_holes : forall a, 0 <= a < 2 ^ 32 -> P (a / 4096) = false -> img a = None;
}.

Lemma accessible_7 b : accessible (b * 4096 + 7) = true /\ shared (b * 4096 + 7) = true.
Proof.
  destruct (accessible_low (b * 4096 + 7) 7) as [-> ->]; [|done]. replace (b * 4096 + 7) with (7 + b * 4 * 1024) by lia. by rewrite Z.mod_add.
Qed.

Lemma program_accessible s0 d P img s q : program s0 d P img s -> 0 <= q < 2 ^ 20 -> accessible (user_entry s d q) = P q /\ shared (user_entry s d q) = P q.
Proof.
  intros Hp Hq. destruct (P q) eqn:Hpq.
  - destruct (pr_page _ _ _ _ _ Hp q Hq Hpq) as (b & -> & _). apply accessible_7.
  - destruct (pr_rest _ _ _ _ _ Hp q Hq Hpq) as [_ Hs]. split; [|done]. destruct (accessible (user_entry s d q)) eqn:Ha; [|done].
    apply accessible_shared in Ha. congruence.
Qed.

(** The bytes that the pages hold. *)
Definition image_of (C : Z -> option (Z -> option Z)) : image_t :=
  fun a => match C (a / 4096) with Some c => Some (c (a mod 4096)) | None => None end.

Definition paged (C : Z -> option (Z -> option Z)) (q : Z) : bool := match C q with Some _ => true | None => false end.

Lemma built_program s0 d C s : built s0 d C s -> (forall q, 0 <= q < 2 ^ 20 -> C q = None -> shared (user_entry s0 d q) = false) ->
  program s0 d (paged C) (image_of C) s.
Proof.
  intros [A1 A2 A3 A4 A5 A6 A7 A8] Hclosed.
  assert (forall q, 0 <= q < 2 ^ 20 -> accessible (user_entry s d q) = true -> is_Some (C q)) as Hacc.
  { intros q Hq Ha. apply accessible_shared in Ha. destruct (C q) eqn:Hc; [done|]. rewrite A6, Hclosed in Ha by done. done. }
  split; try done.
  - intros q Hq. unfold paged. destruct (C q) as [c|] eqn:Hc; [|done]. intros _. destruct (A5 q c Hq Hc) as (b & B1 & B2 & B3 & B4 & B5 & _). by exists b.
  - intros q Hq. unfold paged. destruct (C q) as [c|] eqn:Hc; [done|]. intros _. rewrite A6 by done. split; [done|]. by apply Hclosed.
  - split.
    + intros q Hq Ha. destruct (Hacc q Hq Ha) as [c Hc]. destruct (A5 q c Hq Hc) as (b & -> & _ & _ & _ & B5 & _). by rewrite page_number_entry.
    + intros q q' Hq Hq' Ha Ha'. apply A7; auto.
  - intros a Ha. pose proof (user_page_range a Ha) as Hq. unfold paged, image_of. destruct (C (a / 4096)) as [c|] eqn:Hc; [|done]. intros _.
    eexists. split; [done|]. intros x Hx. destruct (A5 _ c Hq Hc) as (b & B1 & _ & _ & _ & _ & B6). unfold user_byte. rewrite B1.
    destruct (accessible_7 b) as [-> _]. rewrite page_number_entry by lia. f_equal. apply B6; [apply Z.mod_pos_bound; lia|done].
  - intros a Ha. unfold paged, image_of. by destruct (C (a / 4096)).
Qed.

(** Writing a process's memory changes no other frame. *)
Lemma user_write_word s d bs v f k : exists_role s (UDir d) -> user_pages s d -> 0 <= v -> v + zlen bs <= 2 ^ 32 -> user_range s d v (zlen bs) -> Forall is_u8 bs ->
  0 <= k < 1024 -> (forall q, 0 <= q < 2 ^ 20 -> accessible (user_entry s d q) = true -> user_entry s d q / 4096 <> f) ->
  word (user_write d v bs s) f k = word s f k.
Proof.
  intros Hd Hp Hv. induction bs as [|b bs IH] using rev_ind; intros Hend Hr Hu Hk Hf; [done|].
  rewrite zlen_app in *. change (zlen [b]) with 1 in *. apply Forall_app in Hu as [Hu [Hb _]%Forall_cons]. pose proof (zlen_nonneg bs).
  assert (user_range s d v (zlen bs)) as Hr' by (intros a Ha; apply Hr; lia).
  destruct (user_write_spec s d Hd Hp bs v Hv ltac:(lia) Hr' Hu) as (I1 & I2 & _). rewrite user_write_snoc. set (s1 := user_write d v bs s) in *.
  assert (0 <= (v + zlen bs) / 4096 < 2 ^ 20) as Hq by (apply user_page_range; lia). pose proof (Hr (v + zlen bs) ltac:(lia)) as Ha.
  pose proof (same_user s s1 I1 d ((v + zlen bs) / 4096) Hd Hq) as He. unfold user_poke, user_phys. rewrite He.
  set (g := user_entry s d ((v + zlen bs) / 4096) / 4096).
  assert (foreign s1 g) as Hfg by (unfold g; rewrite <- He; apply I2; [done|by rewrite He]).
  pose proof (frame_only_poke s1 g ((v + zlen bs) mod 4096) b Hfg ltac:(apply Z.mod_pos_bound; lia)) as (_ & _ & Hw).
  rewrite Hw; [apply IH; (done || lia)|done|]. intros ->. by apply (Hf _ Hq Ha).
Qed.

Lemma program_range s0 d P img s ptr n : program s0 d P img s -> 0 <= ptr -> ptr + n <= 2 ^ 32 -> (forall a, ptr <= a < ptr + n -> P (a / 4096) = true) ->
  is_Some (user_bytes s d ptr n).
Proof.
  intros Hp Hptr Hn HP. apply mapM_is_Some. apply Forall_forall. intros a Ha%elem_of_seqZ. change (is_Some (user_byte s d a)). unfold user_byte.
  destruct (program_accessible _ _ _ _ _ (a / 4096) Hp) as [-> _]; [apply user_page_range; lia|]. rewrite HP by lia. by eexists.
Qed.

Lemma program_written s0 d P img s ptr buffer s' : exists_role s0 (UDir d) -> program s0 d P img s -> written s d ptr buffer s' ->
  0 <= ptr -> ptr + zlen buffer <= 2 ^ 32 -> (forall a, ptr <= a < ptr + zlen buffer -> P (a / 4096) = true) -> Forall is_u8 buffer ->
  program s0 d P (stored ptr buffer img) s'.
Proof.
  intros Hd0 Hp (Hv & Hpg & Hb) Hptr Hend HP Hu. pose proof (program_range s0 d P img s ptr (zlen buffer) Hp Hptr Hend HP) as Hr%user_bytes_range.
  pose proof Hp as [A1 A2 A3 A4 A5 A6 A7 A8 A9 A10]. assert (exists_role s (UDir d)) as Hd by (by apply A2).
  destruct (user_write_spec s d Hd A7 buffer ptr Hptr Hend Hr Hu) as (W1 & W2 & _).
  assert (forall f k, 0 <= k < 1024 -> (forall q, 0 <= q < 2 ^ 20 -> accessible (user_entry s d q) = true -> user_entry s d q / 4096 <> f) ->
    word (user_write d ptr buffer s) f k = word s f k) as W4 by (intros f k Hk Hf; by apply user_write_word).
  set (u := user_write d ptr buffer s) in *. pose proof (same_ok s u W1 None A1) as Hoku. pose proof W1 as (Ud & Uk & _ & _ & Uf & _).
  pose proof Hv as (V1 & V2 & V3 & V4 & V5 & V6 & V7 & V8).
  assert (forall x q, exists_role s (UDir x) -> 0 <= q < 2 ^ 20 -> user_entry s' x q = user_entry s x q) as Hue.
  { intros x q Hx Hq. rewrite (kview_user u (kentry s) s') by (try done; by apply (same_role s u W1)). by apply same_user. }
  assert (forall r, exists_role s' r <-> exists_role s r) as Hrole by (intros r; apply exists_role_dirs; congruence).
  assert (forall r, exists_role s r -> frame s' r = frame s r) as Hfr.
  { intros r Hr'. rewrite V6 by (by apply (same_role s u W1)). by apply same_frame. }
  assert (forall f, taken s' f <-> taken s f) as Ht by (intros f; unfold taken; by rewrite V2, Uf).
  assert (forall f, foreign s f -> foreign s' f) as Hfo by (intros f Hf r Hr'%Hrole; rewrite Hfr by done; by apply Hf).
  assert (forall q, 0 <= q < 2 ^ 20 -> P q = true -> exists b, user_entry s' d q = b * 4096 + 7 /\ 0 < b /\ ~ taken s0 b /\ taken s' b /\ foreign s' b) as Hpage.
  { intros q Hq HPq. destruct (A5 q Hq HPq) as (b & B1 & B2 & B3 & B4 & B5). exists b. rewrite Hue by done. do 3 (split; [done|]). split; [by apply Ht|by apply Hfo]. }
  split.
  - done.
  - pose proof A2 as [G1 G2 G3 G4 G5 G6]. split.
    + congruence.
    + by rewrite V2, Uf.
    + intros f Hf. by apply Ht, G3.
    + intros r Hr'. destruct (G4 r Hr') as [R1 R2]. split; [by apply Hrole|]. by rewrite Hfr.
    + intros r Hr'%Hrole. rewrite Hfr by done. by apply G5.
    + intros f k Hf Hff Hk. destruct (grown_foreign s0 s f A2 Hf Hff) as [T1 F1]. rewrite V7; [|done|].
      * rewrite W4; [by apply G6|done|]. intros q Hq Ha Heq. destruct (program_accessible _ _ _ _ _ q Hp Hq) as [Ha' _]. rewrite Ha in Ha'. symmetry in Ha'.
        destruct (A5 q Hq Ha') as (b & B1 & _ & B3 & _). rewrite B1, page_number_entry in Heq by lia. by subst b.
      * intros i Hi. rewrite (same_frame s u W1) by done. intros ->. by apply (F1 (KTab i)).
  - intros x. rewrite V4, Ud. apply A3.
  - intros q Hq Hnz. rewrite V8 by done. by apply A4.
  - done.
  - intros q Hq HPq. rewrite Hue by done. by apply A6.
  - done.
  - intros x q Hne Hx Hq. rewrite Hue by (try done; by apply A2). by apply A8.
  - intros a Ha HPa. destruct (A9 a Ha HPa) as (o & Ho & Hbo). unfold stored. rewrite Hb by done. destruct ((ptr <=? a) && (a <? ptr + zlen buffer)); [by eexists|]. by exists o.
  - intros a Ha HPa. unfold stored. destruct (Z.leb_spec ptr a), (Z.ltb_spec a (ptr + zlen buffer)); cbn [andb]; try (by apply A10). rewrite HP in HPa by lia. done.
Qed.

Lemma written_heap s d ptr buffer s' : written s d ptr buffer s' -> v_heap s' = v_heap s.
Proof. intros ((_ & _ & Hh & _) & _). rewrite Hh. apply user_write_rest. Qed.

Lemma program_ext s0 d P img img' s : (forall a, 0 <= a < 2 ^ 32 -> img' a = img a) -> program s0 d P img s -> program s0 d P img' s.
Proof.
  intros He [A1 A2 A3 A4 A5 A6 A7 A8 A9 A10]. split; try done.
  - intros a Ha HPa. rewrite He by done. by apply A9.
  - intros a Ha HPa. rewrite He by done. by apply A10.
Qed.

Lemma program_heap s0 d P img s h : program s0 d P img s -> program s0 d P img (lset heap_lens h s).
Proof.
  intros [A1 A2 A3 A4 A5 A6 A7 A8 A9 A10]. split; try done; [by apply vm_ok_heap|by apply grown_heap|]. split; apply A7.
Qed.

(** The kernel writes to the process. *)
Lemma wp_program_copy s0 d P img s ptr buffer n (Q : Z -> vstate F H -> Prop) E : exists_role s0 (UDir d) -> program s0 d P img s -> block_room 1 s ->
  n = zlen buffer -> 0 < n < 2 ^ 31 -> 0 <= ptr -> ptr + n <= 2 ^ 32 -> ptr mod 4096 + n <= 8 * 4096 ->
  (forall a, ptr <= a < ptr + n -> P (a / 4096) = true) -> Forall is_u8 buffer ->
  (forall s', program s0 d P (stored ptr buffer img) s' -> v_heap s' = v_heap s -> block_room 1 s' -> Q n s') ->
  wp (copy_to_userspace d ptr n buffer) Q E s.
Proof.
  intros Hd0 Hp Hroom -> Hn Hptr Hend Hsz HP Hu HQ. pose proof (pr_grown _ _ _ _ _ Hp) as G.
  eapply wp_mono; [apply (wp_copy_to_userspace s d ptr (zlen buffer) buffer); try done; [apply Hp|by apply G|apply Hp]| |].
  - intros r s'. rewrite bool_decide_eq_true_2 by (by eapply program_range). intros [-> Hw]. apply HQ; [|by eapply written_heap|].
    + by apply (program_written s0 d P img s).
    + apply (uses_blocks 0 1 s); [|done]. apply uses_none. intros q Hq Hz. pose proof Hw as ((_ & _ & _ & _ & _ & _ & _ & Hk) & _). by rewrite Hk.
  - intros e [_ Hno]. destruct (block_room_run 1 s ltac:(done) Hroom) as (p & Hp0 & Hp8 & Hrun). exfalso. apply (Hno p ltac:(lia)), Hrun.
    destruct (size_in_blocks_bounds ptr (zlen buffer) Hn Hptr Hend) as [-> _]. apply Z.lt_succ_r, Z.div_lt_upper_bound; lia.
Qed.
End memory.

(** ** Arguments *)

(** The strings one behind the other, and where each begins. *)
Definition packed (args : list (list Z)) : list Z := flat_map (fun a => a ++ [0]) args.

Fixpoint addresses (p : Z) (args : list (list Z)) : list Z :=
  match args with [] => [] | a :: args => p :: addresses (p + zlen a + 1) args end.

(** An array of C strings with its terminating NULL, or no array. *)
Definition holds_array (array : c_array) (args : list (list Z)) : Prop :=
  Forall (fun a => Forall (fun c => 0 < c < 256) a /\ zlen a < 2 ^ 31) args /\
  match array with None => args = [] | Some vs => exists rest, vs = List.map Some args ++ None :: rest end.

Lemma packed_app l k : packed (l ++ k) = packed l ++ packed k.
Proof. apply flat_map_app. Qed.

Lemma packed_snoc l a : packed (l ++ [a]) = packed l ++ (a ++ [0]).
Proof. rewrite packed_app. f_equal. apply app_nil_r. Qed.

Lemma zlen_packed_snoc l a : zlen (packed (l ++ [a])) = zlen (packed l) + (zlen a + 1).
Proof. by rewrite packed_snoc, !zlen_app. Qed.

Lemma addresses_snoc p l a : addresses p (l ++ [a]) = addresses p l ++ [p + zlen (packed l)].
Proof.
  revert p. induction l as [|b l IH]; intros p; cbn [app addresses].
  - by rewrite Z.add_0_r.
  - rewrite IH. do 3 f_equal. change (packed (b :: l)) with ((b ++ [0]) ++ packed l). rewrite !zlen_app. change (zlen [0]) with 1. lia.
Qed.

Lemma length_addresses p l : length (addresses p l) = length l.
Proof. revert p. induction l as [|a l IH]; intros p; cbn; [done|]. by rewrite IH. Qed.

Lemma packed_length l : zlen l <= zlen (packed l).
Proof.
  induction l as [|a l IH]; [done|]. change (packed (a :: l)) with ((a ++ [0]) ++ packed l). rewrite zlen_cons, !zlen_app. change (zlen [0]) with 1.
  pose proof (zlen_nonneg a). lia.
Qed.

Lemma packed_u8 l : Forall (fun a => Forall (fun c => 0 < c < 256) a /\ zlen a < 2 ^ 31) l -> Forall is_u8 (packed l).
Proof.
  induction 1 as [|a l [Ha _] _ IH]; [by apply Forall_nil|]. change (packed (a :: l)) with ((a ++ [0]) ++ packed l).
  rewrite !Forall_app. split; [|done]. split; [|by repeat constructor]. eapply Forall_impl; [exact Ha|]. unfold is_u8. intros x Hx. change (2 ^ 8) with 256. lia.
Qed.

(** The words of the user stack, from its top on, and where it lies. *)
Definition stack_words (args envs : list (list Z)) : list Z :=
  zlen args :: addresses virt_misc_start args ++ [0] ++ addresses (virt_misc_start + zlen (packed args)) envs ++ [0].

Definition stack_bytes (args envs : list (list Z)) : list Z := flat_map word_bytes (stack_words args envs).

Definition stack_top (args envs : list (list Z)) : Z := virt_heap_start + 256 * BLOCK_SIZE - zlen (stack_words args envs) * 4.

Lemma zlen_stack_words args envs : zlen (stack_words args envs) = zlen args + 2 + zlen envs + 1.
Proof.
  unfold stack_words. rewrite zlen_cons, !zlen_app. assert (forall p l, zlen (addresses p l) = zlen l) as Hl by (intros p l; unfold zlen; by rewrite length_addresses).
  rewrite !Hl. change (zlen [0]) with 1. lia.
Qed.

Lemma zlen_word_bytes l : zlen (flat_map word_bytes l) = zlen l * 4.
Proof. induction l as [|w l IH]; [done|]. cbn [flat_map]. rewrite zlen_app, zlen_cons, IH. change (zlen (word_bytes w)) with 4. lia. Qed.

Lemma word_bytes_u8 l : Forall is_u8 (flat_map word_bytes l).
Proof.
  induction l as [|w l IH]; [by apply Forall_nil|]. cbn [flat_map]. apply Forall_app. split; [|done].
  unfold word_bytes. repeat apply Forall_cons_2; try apply Forall_nil_2; apply Z.mod_pos_bound; lia.
Qed.

Section arguments.
Context {F H D Hd : Type} `{FrameAllocLaws F, KHeapLaws H}.
Context `{!Handlers (fstate H D Hd) Hd}.
Abbreviation Y := (ystate F H D Hd).
Implicit Types (s : Y) (v : vstate F H).
Variables (v0 : vstate F H) (d : Z) (P : Z -> bool).
Hypothesis Hd0 : exists_role v0 (UDir d).
Hypothesis HPmisc : forall a, virt_misc_start <= a < virt_misc_start + BLOCK_SIZE -> P (a / 4096) = true.
Hypothesis HPheap : forall a, virt_heap_start <= a < virt_heap_start + 256 * BLOCK_SIZE -> P (a / 4096) = true.

(** The process holds [img], nothing else has changed since [s0], and the
    kernel's address space has room for a copy. *)
Definition prepared s0 img s : Prop := program v0 d P img (y_vm s) /\ same_files s0 s /\ block_room 1 (y_vm s).

(** After [i] strings. *)
Definition copied_strings s0 img (args : list (list Z)) (base i : Z) (r : list Z * Z) s : Prop :=
  let done := take (Z.to_nat i) args in
  r = (addresses base done ++ replicate (length args - Z.to_nat i) 0, base + zlen (packed done)) /\
  base + zlen (packed done) < virt_misc_start + BLOCK_SIZE /\
  prepared s0 (stored base (packed done) img) s /\ v_heap (y_vm s) = v_heap (y_vm s0).

Lemma wp_copy_element s0 img args rest base i r s : Forall (fun a => Forall (fun c => 0 < c < 256) a /\ zlen a < 2 ^ 31) args ->
  virt_misc_start <= base -> base + zlen (packed args) < virt_misc_start + BLOCK_SIZE -> 0 <= i < zlen args -> copied_strings s0 img args base i r s ->
  wp (copy_element d (virt_misc_start + BLOCK_SIZE) (List.map Some args ++ None :: rest) i r)
    (fun r' s' => copied_strings s0 img args base (i + 1) r' s') only_nomem s.
Proof.
  intros Hargs Hbase Hfits Hi (-> & Hlt & (Hp & Hs & Hroom) & Hh). set (n := Z.to_nat i) in *. unfold zlen in Hi.
  destruct (lookup_lt_is_Some_2 args n) as [a Ha]; [lia|]. pose proof (Forall_lookup_1 _ _ _ _ Hargs Ha) as [Hc Hl].
  set (done := take n args) in *. pose proof (zlen_nonneg (packed done)) as Hpd. pose proof (zlen_nonneg a) as Hal. unfold virt_misc_start, BLOCK_SIZE in *.
  assert (take (Z.to_nat (i + 1)) args = done ++ [a]) as Htake by (replace (Z.to_nat (i + 1)) with (S n) by lia; by apply take_S_r).
  assert (zlookup (List.map Some args ++ None :: rest) i = Some (Some a)) as Hlk.
  { unfold zlookup. rewrite (proj2 (Z.ltb_ge i 0)) by lia. fold n. rewrite lookup_app_l by (rewrite length_map; lia). change (List.map Some args) with (Some <$> args). by rewrite list_lookup_fmap, Ha. }
  unfold copy_element. wp_steps. rewrite Hlk. wp_cond. rewrite (u32_small (zlen a + 1)) by (unfold is_u32; lia). rewrite u32_small by (unfold is_u32; lia).
  wp_cond. assert (zlen (packed done) + (zlen a + 1) <= zlen (packed args)) as Hle.
  { rewrite <- zlen_packed_snoc, <- Htake. rewrite <- (take_drop (Z.to_nat (i + 1)) args) at 2. rewrite packed_app, zlen_app. pose proof (zlen_nonneg (packed (drop (Z.to_nat (i + 1)) args))). lia. }
  rewrite (proj2 (Z.leb_gt _ _)) by lia. wp_steps. apply wp_vm.
  assert (zlen (a ++ [0]) = zlen a + 1) as Hz by (by rewrite zlen_app).
  apply (wp_program_copy v0 d P (stored base (packed done) img) (y_vm s) _ (a ++ [0])); try done; try lia.
  - pose proof (Z.div_mod (base + zlen (packed done)) 4096 ltac:(lia)). pose proof (Z.mod_pos_bound (base + zlen (packed done)) 4096 ltac:(lia)). lia.
  - intros x Hx. apply HPmisc. lia.
  - apply Forall_app. split; [|by repeat constructor]. eapply Forall_impl; [exact Hc|]. unfold is_u8. intros x Hx. change (2 ^ 8) with 256. lia.
  - intros v' Hv Hh' Hroom'. wp_cond. rewrite (proj2 (Z.leb_le 0 _)) by lia. wp_steps. unfold copied_strings. rewrite Htake, zlen_packed_snoc, addresses_snoc.
    split; [|split; [unfold virt_misc_start, BLOCK_SIZE; lia|split; [split; [|split; [done|exact Hroom']]|change (v_heap v' = v_heap (y_vm s0)); congruence]]].
    + f_equal; [|lia]. assert (length args - n = S (length args - Z.to_nat (i + 1)))%nat as -> by lia. cbn [replicate].
      assert (zlen (addresses base done) = i) as Hz2 by (unfold zlen; rewrite length_addresses; unfold done; rewrite length_take; lia).
      rewrite <- Hz2 at 1. rewrite zinsert_app_mid. by rewrite <- app_assoc.
    + change (y_vm (on_vm v' s)) with v'. eapply program_ext; [|exact Hv]. intros x _. rewrite packed_snoc. symmetry. apply stored_app.
Qed.

Lemma wp_on_heap {A} (m : M H A) (Q : A -> Y -> Prop) E s :
  wp m (fun a h => Q a (on_vm (lset heap_lens h (y_vm s)) s)) E (v_heap (y_vm s)) -> wp (on_heap m) Q E s.
Proof. intros Hm. by apply wp_vm, wp_zoom. Qed.

(** The heap has [objs] besides what it had. *)
Definition heap_has s (L : gset Z) : Prop := heap_ok (v_heap (y_vm s)) /\ heap_live (v_heap (y_vm s)) = L.

Lemma prepared_heap s0 img s h : prepared s0 img s -> prepared s0 img (on_vm (lset heap_lens h (y_vm s)) s).
Proof. intros (Hp & Hs & Hr). split; [by apply program_heap|]. split; [exact Hs|exact Hr]. Qed.

Lemma wp_new_object s0 img s n L (Q : Z -> Y -> Prop) E : prepared s0 img s -> heap_has s L -> 0 <= n -> E NoMemory ->
  (forall p s', 0 < p -> p ∉ L -> prepared s0 img s' -> heap_has s' ({[ p ]} ∪ L) -> Q p s') -> wp (on_heap (kcalloc n)) Q E s.
Proof.
  intros Hp [Hh HL] Hn HE HQ. apply wp_on_heap. wp_apply kcalloc_spec; [done|done| |by intros e ->].
  intros p h (Hh' & Hpos & Hnew & Hlive). apply HQ; [lia|by rewrite <- HL|by apply prepared_heap|]. split; [done|]. cbn. by rewrite Hlive, HL.
Qed.

Lemma wp_drop_object s0 img s p L (Q : unit -> Y -> Prop) E : prepared s0 img s -> heap_has s L -> p ∈ L ->
  (forall s', prepared s0 img s' -> heap_has s' (L ∖ {[ p ]}) -> Q tt s') -> wp (on_heap (kfree p)) Q E s.
Proof.
  intros Hp [Hh HL] Hpl HQ. apply wp_on_heap. wp_apply kfree_spec; [done|by rewrite HL| |by intros e []].
  intros [] h [Hh' Hlive]. apply HQ; [by apply prepared_heap|]. split; [done|]. cbn. by rewrite Hlive, HL.
Qed.

Lemma holds_array_at args rest : zlookup (List.map Some args ++ None :: rest) (zlen args) = Some (None (A := list Z)).
Proof. assert (zlen args = zlen (List.map Some args)) as -> by (unfold zlen; by rewrite length_map). apply zlookup_app_mid. Qed.

Lemma wp_copy_array s0 img s array args base L (Q : Z * list Z * Z -> Y -> Prop) :
  holds_array array args -> virt_misc_start <= base -> base + zlen (packed args) < virt_misc_start + BLOCK_SIZE -> prepared s0 img s -> heap_has s L ->
  (forall p s', 0 < p -> p ∉ L -> prepared s0 (stored base (packed args) img) s' -> heap_has s' ({[ p ]} ∪ L) ->
    Q (p, addresses base args, base + zlen (packed args)) s') ->
  wp (process_exec_copy_array d base (virt_misc_start + BLOCK_SIZE) array (zlen args)) Q only_nomem s.
Proof.
  intros [Hargs Harr] Hbase Hfits Hp HL HQ. pose proof (zlen_nonneg (packed args)). unfold process_exec_copy_array. wp_steps.
  apply (wp_new_object s0 img s _ L); [done|done|apply u32_range|done|]. intros p s1 Hpos Hnew Hp1 HL1.
  rewrite (proj2 (Z.eqb_neq p 0)) by lia. cbn [negb kassert]. wp_steps. destruct array as [vs|].
  - destruct Harr as [rest ->]. wp_steps. rewrite holds_array_at. wp_cond. cbn [kassert]. wp_steps.
    eapply (wp_mono _ _ _ only_nomem); [apply (wp_for_fold (fun i r s' => copied_strings s1 img args base i r s'))| |done].
    + split; [|split; [|split; [split; [|split; [done|apply Hp1]]|done]]].
      * cbn [Z.to_nat take addresses app]. rewrite Nat.sub_0_r, Z.add_0_r. unfold zlen. by rewrite Nat2Z.id.
      * change (zlen (packed (take (Z.to_nat 0) args))) with 0. lia.
      * eapply program_ext; [|apply Hp1]. intros x _. apply stored_nil.
    + intros i r s2 Hi Hc. apply (wp_copy_element s1 img args rest base i r s2); [done|lia|done|unfold zlen in *; lia|done].
    + intros r s2 Hc. replace (0 + Z.of_nat (Z.to_nat (zlen args))) with (zlen args) in Hc by (unfold zlen; lia). unfold copied_strings in Hc.
      assert (Z.to_nat (zlen args) = length args) as Hn by (unfold zlen; lia). rewrite Hn, firstn_all, Nat.sub_diag, app_nil_r in Hc.
      destruct Hc as (-> & Hlt & (Hp2 & Hs2 & Hr2) & Hh2). wp_steps. apply HQ; [done|done| |].
      * split; [done|]. split; [|exact Hr2]. eapply same_files_trans; [apply Hp1|exact Hs2].
      * unfold heap_has. by rewrite Hh2.
  - subst args. change (zlen (@nil (list Z)) =? 0) with true. cbn [kassert]. wp_steps. change (zlen (packed [])) with 0 in HQ. rewrite Z.add_0_r in HQ.
    apply HQ; [done|done| |done]. destruct Hp1 as [Hp1 Hs1]. split; [|done]. eapply program_ext; [|exact Hp1]. intros x _. apply stored_nil.
Qed.

Lemma wp_push_all ptrs stack s (Q : list Z -> Y -> Prop) E : Q (stack ++ ptrs) s -> wp (push_all ptrs (zlen ptrs) stack) Q E s.
Proof.
  intros HQ. unfold push_all. assert (Z.to_nat (zlen ptrs) = length ptrs) as Hn by (unfold zlen; lia). rewrite Hn.
  eapply wp_mono; [apply (wp_for_fold (fun i st s' => st = stack ++ take (Z.to_nat i) ptrs /\ s' = s))| |done].
  - split; [|done]. by rewrite app_nil_r.
  - intros i st s1 Hi [-> ->]. destruct (proj2 (zlookup_lt_is_Some ptrs i)) as [x Hx]; [unfold zlen; lia|]. wp_steps. rewrite Hx. wp_cond. wp_steps.
    split; [|done]. rewrite (take_S_zlookup ptrs i x) by (lia || done). by rewrite app_assoc.
  - intros st s1 [-> ->]. rewrite Z.add_0_l, Nat2Z.id, firstn_all. done.
Qed.

Lemma wp_stack_contents args envs s (Q : list Z -> Y -> Prop) E : Q (stack_words args envs) s ->
  wp (stack_contents (zlen args) (addresses virt_misc_start args) (zlen envs) (addresses (virt_misc_start + zlen (packed args)) envs)) Q E s.
Proof.
  intros HQ. unfold stack_contents. assert (forall p l, zlen l = zlen (addresses p l)) as Hl by (intros p l; unfold zlen; by rewrite length_addresses).
  wp_steps. rewrite (Hl virt_misc_start args) at 1. apply wp_push_all. wp_steps. rewrite (Hl (virt_misc_start + zlen (packed args)) envs) at 1. apply wp_push_all. wp_steps.
  unfold stack_words in HQ. cbn [app] in *. by rewrite <- !app_assoc.
Qed.

(** Strings and stack are where the program looks for them, and the kernel
    keeps none of the objects it made for them. *)
Lemma wp_copy_stack s0 img s argv args envp envs L (Q : Z -> Y -> Prop) :
  holds_array argv args -> holds_array envp envs -> zlen (packed args) + zlen (packed envs) < BLOCK_SIZE -> prepared s0 img s -> heap_has s L ->
  (forall s', prepared s0 (stored (stack_top args envs) (stack_bytes args envs) (stored virt_misc_start (packed args ++ packed envs) img)) s' -> heap_has s' L ->
    Q (stack_top args envs) s') ->
  wp (copy_stack d (zlen args) argv (zlen envs) envp) Q only_nomem s.
Proof.
  intros Ha He Hfit Hp HL HQ. pose proof (zlen_nonneg (packed args)). pose proof (zlen_nonneg (packed envs)).
  unfold copy_stack. wp_steps. apply (wp_copy_array s0 img s argv args virt_misc_start L); [done|lia|lia|done|done|].
  intros a s1 Ha0 Haf Hp1 HL1. wp_steps.
  eapply (wp_copy_array s0 _ s1 envp envs (virt_misc_start + zlen (packed args))); [done|lia|lia|exact Hp1|exact HL1|].
  intros b s2 Hb0 Hbf Hp2 HL2. wp_steps.
  pose proof (packed_length args). pose proof (packed_length envs). pose proof (zlen_nonneg args). pose proof (zlen_nonneg envs).
  assert (u32 (zlen args + 2 + zlen envs + 1) = zlen (stack_words args envs)) as -> by (rewrite zlen_stack_words; apply u32_small; unfold is_u32, BLOCK_SIZE in *; lia).
  eapply (wp_new_object s0 _ s2); [exact Hp2|exact HL2|apply u32_range|done|]. intros u s3 Hu0 Huf (Hp3 & Hs3 & Hr3) HL3.
  rewrite (proj2 (Z.eqb_neq u 0)) by lia. cbn [negb kassert]. wp_steps. apply wp_stack_contents. rewrite Z.eqb_refl. cbn [kassert]. wp_steps.
  pose proof (zlen_stack_words args envs) as Hw. pose proof (zlen_word_bytes (stack_words args envs)) as Hwb. fold (stack_bytes args envs) in Hwb |- *.
  assert (u32 (virt_heap_start + 256 * BLOCK_SIZE - zlen (stack_words args envs) * 4) = stack_top args envs) as ->.
  { apply u32_small. unfold is_u32, stack_top, virt_heap_start, BLOCK_SIZE in *. lia. }
  assert (u32 (zlen (stack_words args envs) * 4) = zlen (stack_words args envs) * 4) as -> by (apply u32_small; unfold is_u32, BLOCK_SIZE in *; lia).
  apply wp_vm. eapply (wp_program_copy v0 d P _ (y_vm s3)); [done|exact Hp3|exact Hr3|done| | | | | | |].
  1-3: unfold stack_top, virt_heap_start, BLOCK_SIZE in *; lia.
  { unfold BLOCK_SIZE in *. pose proof (Z.mod_pos_bound (stack_top args envs) 4096 ltac:(lia)). lia. }
  { intros x Hx. apply HPheap. unfold stack_top, virt_heap_start, BLOCK_SIZE in *. lia. }
  { apply word_bytes_u8. }
  intros v4 Hp4 Hh4 Hr4. rewrite (proj2 (Z.ltb_lt 0 _)) by lia. cbn [kassert]. wp_steps.
  set (s4 := on_vm v4 s3). eassert (prepared s0 _ s4) as Hprep4 by (split; [exact Hp4|split; [exact Hs3|exact Hr4]]).
  assert (heap_has s4 ({[u]} ∪ ({[b]} ∪ ({[a]} ∪ L)))) as HL4 by (unfold heap_has; change (y_vm s4) with v4; by rewrite Hh4).
  eapply wp_drop_object; [exact Hprep4|exact HL4|set_solver|]. intros s5 Hp5 HL5. wp_steps.
  eapply wp_drop_object; [exact Hp5|exact HL5|set_solver|]. intros s6 Hp6 HL6. wp_steps.
  eapply wp_drop_object; [exact Hp6|exact HL6|set_solver|]. intros s7 Hp7 HL7. wp_steps. apply HQ.
  - destruct Hp7 as [Hp7 Hs7]. split; [|done]. eapply program_ext; [|exact Hp7]. intros x _. apply stored_over. symmetry. apply stored_app.
  - destruct HL7 as [Hh7 HL7]. split; [done|]. rewrite HL7. set_solver.
Qed.
End arguments.

(** ** The regions of a program *)

Definition within (start n a : Z) : bool := (start <=? a) && (a <? start + n).

(** What the pages hold before the arguments are written. *)
Definition regions (content : list Z) : image_t := fun a =>
  if within virt_misc_start BLOCK_SIZE a then Some (Some 0)
  else if within virt_stack_start (256 * BLOCK_SIZE) a then Some (Some 0)
  else if within virt_text_start (pages_of (zlen content) * BLOCK_SIZE) a then Some (zlookup content (a - virt_text_start))
  else if within virt_heap_start (256 * BLOCK_SIZE) a then Some (Some 0)
  else None.

(** What the program finds: its arguments and its stack over the regions. *)
Definition image (content : list Z) (args envs : list (list Z)) : image_t :=
  stored (stack_top args envs) (stack_bytes args envs) (stored virt_misc_start (packed args ++ packed envs) (regions content)).

Lemma page_within p n a : (p <=? a / 4096) && (a / 4096 <? p + n) = within (p * 4096) (n * 4096) a.
Proof.
  unfold within. pose proof (Z.div_mod a 4096 ltac:(lia)). pose proof (Z.mod_pos_bound a 4096 ltac:(lia)).
  destruct (Z.leb_spec p (a / 4096)), (Z.leb_spec (p * 4096) a); cbn [andb]; try done; try lia.
Qed.

Lemma image_regions content a : image_of (program_pages content) a = regions content a.
Proof.
  unfold image_of, program_pages, regions, zeroed, texted. rewrite !page_within.
  change (virt_misc_start / 4096 * 4096) with virt_misc_start. change (virt_stack_start / 4096 * 4096) with virt_stack_start.
  change (virt_text_start / 4096 * 4096) with virt_text_start. change (virt_heap_start / 4096 * 4096) with virt_heap_start.
  change (1 * 4096) with BLOCK_SIZE. change (256 * 4096) with (256 * BLOCK_SIZE).
  change (pages_of (zlen content) * BLOCK_SIZE) with (pages_of (zlen content) * 4096).
  destruct (within virt_misc_start BLOCK_SIZE a); [done|]. destruct (within virt_stack_start (256 * BLOCK_SIZE) a); [done|].
  destruct (within virt_text_start _ a); [|by destruct (within virt_heap_start (256 * BLOCK_SIZE) a)].
  assert ((a / 4096 - virt_text_start / 4096) * 4096 + a mod 4096 = a - virt_text_start) as ->; [|done].
  change (virt_text_start / 4096) with 4096. unfold virt_text_start. pose proof (Z.div_mod a 4096 ltac:(lia)). lia.
Qed.

Lemma paged_misc content a : virt_misc_start <= a < virt_misc_start + BLOCK_SIZE -> paged (program_pages content) (a / 4096) = true.
Proof.
  intros Ha. unfold paged, program_pages, zeroed at 1. rewrite page_within.
  assert (within (virt_misc_start / 4096 * 4096) (1 * 4096) a = true) as ->; [|done].
  unfold within, virt_misc_start, BLOCK_SIZE in *. change (0x10000000 / 4096 * 4096) with 0x10000000. by rewrite (proj2 (Z.leb_le _ _)), (proj2 (Z.ltb_lt _ _)) by lia.
Qed.

Lemma paged_heap content a : virt_heap_start <= a < virt_heap_start + 256 * BLOCK_SIZE -> paged (program_pages content) (a / 4096) = true.
Proof.
  intros Ha. unfold paged, program_pages, zeroed, texted. rewrite !page_within. do 3 (match goal with |- context [within ?p ?n a] => destruct (within p n a); [done|] end).
  assert (within (virt_heap_start / 4096 * 4096) (256 * 4096) a = true) as ->; [|done].
  unfold within, virt_heap_start, BLOCK_SIZE in *. change (0x2000000 / 4096 * 4096) with 0x2000000. by rewrite (proj2 (Z.leb_le _ _)), (proj2 (Z.ltb_lt _ _)) by lia.
Qed.

(** ** Registers *)

(** What the registers hold, by their place. *)
Definition start_frame (directory top : Z) : list (Z * Z) :=
  [(REG_SS, 0x23); (REG_ESP, top); (REG_EFLAGS, 0x200); (REG_CS, 0x1B); (REG_EIP, virt_text_start); (REG_ERR_CODE, 0); (REG_ISR_NUM, 0);
   (REG_EAX, 0); (REG_ECX, 0); (REG_EBX, 0); (REG_EBP, 0); (REG_ESI, 0); (REG_EDI, 0); (REG_DS, 0x23); (REG_ES, 0x23); (REG_FS, 0); (REG_GS, 0);
   (REG_OLD_DIRECTORY, directory)].

Section registers.
Context {F H : Type} `{FrameAllocLaws F, KHeapLaws H}.
Implicit Types (s : vstate F H) (r : role).
Variables (s : vstate F H) (q b : Z).
Hypothesis Hok : vm_ok None s.
Hypothesis Hq : 0 <= q < 2 ^ 20.
Hypothesis Hu : usable (kentry s q).
Hypothesis Hb : kentry s q / 4096 = b.
Hypothesis Hf : foreign s b.

(** The last words of the page below the top of the stack. *)
Definition reg_word (place : Z) : Z := 1004 + place / 4.

(** [s] after these writes, the last first. *)
Fixpoint with_regs (l : list (Z * Z)) : vstate F H :=
  match l with [] => s | (place, x) :: l => set_word b (reg_word place) x (with_regs l) end.

Definition reg_place (place : Z) : Prop := 0 <= place < 80 /\ place mod 4 = 0.

Lemma reg_word_range place : reg_place place -> 0 <= reg_word place < 1024 /\ q * 4096 + 4016 + place = q * 4096 + 4 * reg_word place.
Proof. intros [Hp Hm]. unfold reg_word. pose proof (Z.div_mod place 4 ltac:(lia)). lia. Qed.

Lemma with_regs_only l : Forall (fun '(place, _) => reg_place place) l -> frame_only b s (with_regs l).
Proof.
  induction 1 as [|[place x] l Hp _ IH]; [done|]. cbn [with_regs]. eapply frame_only_trans; [exact IH|].
  apply frame_only_word; [by apply (frame_only_foreign b s)|by apply reg_word_range].
Qed.

Lemma with_regs_page l : Forall (fun '(place, _) => reg_place place) l ->
  vm_ok None (with_regs l) /\ kentry (with_regs l) q = kentry s q.
Proof. intros Hl. destruct (with_regs_only l Hl) as (Hs & _). split; [by apply (same_ok s)|by apply (same_kentry s)]. Qed.

Lemma wp_put_reg l place x (Q : unit -> vstate F H -> Prop) E : Forall (fun '(place, _) => reg_place place) l -> reg_place place ->
  Q tt (with_regs ((place, x) :: l)) -> wp (put_reg (q * 4096 + 4016) place x) Q E (with_regs l).
Proof.
  intros Hl Hp HQ. destruct (with_regs_page l Hl) as [Hok1 He]. destruct (reg_word_range place Hp) as [Hw Hr]. unfold put_reg. rewrite Hr.
  apply wp_write_kpage; [done|done|by rewrite He|done|]. rewrite He, Hb. exact HQ.
Qed.

Lemma wp_get_reg l place (Q : Z -> vstate F H -> Prop) E : Forall (fun '(place, _) => reg_place place) l -> reg_place place ->
  Q (word (with_regs l) b (reg_word place)) (with_regs l) -> wp (read_word (u32 (q * 4096 + 4016 + place))) Q E (with_regs l).
Proof.
  intros Hl Hp HQ. destruct (with_regs_page l Hl) as [Hok1 He]. destruct (reg_word_range place Hp) as [Hw Hr]. rewrite Hr. unfold read_word. wp_steps.
  rewrite translate_kernel by (rewrite ?He; done || lia). wp_cond. wp_steps. rewrite He, Hb, word_index by done. exact HQ.
Qed.

Lemma with_regs_word place x l place' : reg_place place -> reg_place place' ->
  word (with_regs ((place, x) :: l)) b (reg_word place') = if place' =? place then x else word (with_regs l) b (reg_word place').
Proof.
  intros Hp Hp'. cbn [with_regs]. rewrite word_set by (by apply reg_word_range). rewrite Z.eqb_refl. cbn [andb].
  destruct (reg_word_range place Hp), (reg_word_range place' Hp'). destruct (Z.eqb_spec (reg_word place') (reg_word place)), (Z.eqb_spec place' place); try done; lia.
Qed.

Ltac reg_place := split; [split; [discriminate|reflexivity]|reflexivity].
Ltac reg_places := repeat (apply Forall_cons_2; [reg_place|]); apply Forall_nil_2.

Lemma wp_start_registers d top E : is_Some (v_dirs s !! d) ->
  wp (start_registers (q * 4096 + 4016) d top) (fun _ s' => frame_only b s s' /\
    forall place x, (place, x) ∈ start_frame (physical_address (dir s d)) top -> word s' b (reg_word place) = x) E s.
Proof.
  intros Hd. unfold start_registers. wp_steps. apply wp_directory; [done|]. set (pa := physical_address (dir s d)).
  wp_steps. match goal with |- wp ?m ?Q ?E _ => change (wp m Q E (with_regs [])) end.
  repeat (apply wp_put_reg; [reg_places|reg_place|]; wp_steps).
  apply wp_get_reg; [reg_places|reg_place|]. rewrite !with_regs_word by reg_place. cbn [Z.eqb Pos.eqb REG_DS].
  apply wp_put_reg; [reg_places|reg_place|].
  split; [apply with_regs_only; reg_places|]. intros place x Hin. unfold start_frame in Hin.
  repeat (apply elem_of_cons in Hin as [[= -> ->]|Hin]; [rewrite !with_regs_word by reg_place; reflexivity|]). by apply elem_of_nil in Hin.
Qed.
End registers.

(** ** The new address space *)

Section space.
Context {F H : Type} `{FrameAllocLaws F, KHeapLaws H}.
Implicit Types (s : vstate F H) (r : role).
Variables data_start data_end text_start text_end : Z.
Hypothesis Hdata : region_ok data_start data_end.
Hypothesis Htext : region_ok text_start text_end.
Abbreviation kernel_shared := (kernel_shared data_start data_end text_start text_end).

(** The pages of [d] before the program comes: the regions shared with the
    kernel, and the kernel stack at [p]. *)
Definition base_entry s (p q : Z) : Z :=
  if stack_page p 0 q then kentry s q else if kernel_shared q then Z.lor (q * 4096) PAGE_PRESENT else 0.

(** [s] is [s0] with a new directory [d] and a new kernel stack at [p]. *)
Record new_space s0 (d p : Z) s : Prop := NewSpace {
  ns_ok : vm_ok None s;
  ns_new : v_dirs s0 !! d = None /\ exists_role s (UDir d);
  ns_grown : grown s0 s;
  ns_kept : kernel_kept s0 s;
  ns_keys : forall x, is_Some (v_dirs s !! x) <-> is_Some (v_dirs s0 !! x) \/ x = d;
  ns_live : dirs_live s /\ heap_live (v_heap s) = {[ d ]} ∪ heap_live (v_heap s0);
  ns_entries : forall q, 0 <= q < 2 ^ 20 -> user_entry s d q = base_entry s p q /\ shared (user_entry s d q) = false;
  ns_users : forall x q, exists_role s0 (UDir x) -> 0 <= q < 2 ^ 20 -> user_entry s x q = user_entry s0 x q;
  ns_stack : forall i, 1 <= i <= 6 -> exists b, kentry s (kpage_of p i) = b * 4096 + 3 /\ ~ taken s0 b /\ taken s b /\ foreign s b;
  ns_there : forall i, 0 <= i < 8 -> kentry s (kpage_of p i) <> 0;
}.

Lemma shared_pages_pos : 0 < kernel_shared_pages data_start data_end text_start text_end.
Proof.
  pose proof Hdata as (_ & [_ D1] & _). pose proof Htext as (_ & [_ T1] & _). unfold kernel_shared_pages, region_pages.
  assert (0 <= (data_end - data_start) / 4096) by (apply Z.div_pos; lia). assert (0 <= (text_end - text_start) / 4096) by (apply Z.div_pos; lia). lia.
Qed.

Lemma wp_process_page_directory_new s0 (Q : Z -> vstate F H -> Prop) : vm_ok None s0 -> dirs_live s0 ->
  room (1 + kernel_shared_pages data_start data_end text_start text_end) s0 ->
  (forall d s1 s2, new_directory s0 d s1 -> d <> 0 -> vm_ok None s2 -> grown s1 s2 -> v_heap s2 = v_heap s1 -> same_keys s1 s2 -> kernel_kept s1 s2 ->
    (forall x q, exists_role s1 (UDir x) -> 0 <= q < 2 ^ 20 -> user_entry s2 x q = if (x =? d) && kernel_shared q then Z.lor (q * 4096) PAGE_PRESENT else user_entry s1 x q) ->
    uses (1 + kernel_shared_pages data_start data_end text_start text_end) s0 s2 -> Q d s2) ->
  wp (process_page_directory_new data_start data_end text_start text_end) Q only_nomem s0.
Proof.
  intros Hok Hlive Hroom HQ. pose proof shared_pages_pos as HP. unfold process_page_directory_new. wp_steps.
  wp_apply (wp_page_directory_new s0 only_nomem); [done|done|intros e He; eapply (room_space _ s0 e); [|exact Hroom|exact He]; lia| |done]. intros d s1 Hn.
  assert (uses 1 s0 s1) as U1. { destruct (nd_kernel _ _ _ Hn) as (p & _ & Hk). by apply (uses_step p). }
  assert (d <> 0) as Hd0 by (eapply udir_nonzero; apply Hn). rewrite (proj2 (Z.eqb_neq d 0)) by done. cbn [negb kassert]. wp_steps.
  wp_apply (wp_map_shared data_start data_end text_start text_end Hdata Htext s1 d only_nomem); [apply Hn|apply Hn|done|right| |done].
  { apply (uses_room 1 _ s0 s1 U1). by rewrite Z.add_comm. }
  intros u s2 (A1 & A2 & A3 & A4 & A5 & A6 & U2). wp_steps. apply (HQ d s1 s2); try done. by eapply uses_trans.
Qed.

(** The steps together. *)
Lemma new_space_made s0 d p s1 s2 s3 s4 : new_directory s0 d s1 -> vm_ok None s2 -> grown s1 s2 -> v_heap s2 = v_heap s1 -> same_keys s1 s2 -> kernel_kept s1 s2 ->
  (forall x q, exists_role s1 (UDir x) -> 0 <= q < 2 ^ 20 -> user_entry s2 x q = if (x =? d) && kernel_shared q then Z.lor (q * 4096) PAGE_PRESENT else user_entry s1 x q) ->
  kstack_made s2 p s3 -> stack_mapped s3 d p 0 s4 -> new_space s0 d p s4.
Proof.
  intros [N1 N2 N3 N4 N5 N6 N7 (p0 & Np & N8) N9 N10] A1 A2 A3 A4 A5 A6 [B1 B2 [B3 B3'] B4 B5 B6 B7 B8 B9] [C1 C2 C3 C4 C5 C6 C7].
  assert (grown s1 s3) as G13 by (by eapply grown_trans). assert (grown s0 s3) as G03 by (by eapply grown_trans). assert (exists_role s3 (UDir d)) as Hd3 by (by apply G13).
  assert (kernel_kept s2 s3) as K23. { intros q Hq Hnz. apply B9; [done|]. intros i Hi ->. by apply Hnz, B8. }
  assert (kernel_kept s0 s1) as K01. { intros q Hq Hnz. apply N8; [done|]. intros ->. by apply Hnz, Np. }
  assert (kernel_kept s1 s4) as K14 by (apply (kernel_kept_trans s1 s3 s4); [by apply (kernel_kept_trans s1 s2 s3)|done]).
  assert (v_heap s4 = v_heap s1) as Hh by congruence.
  assert (forall x, is_Some (v_dirs s4 !! x) <-> is_Some (v_dirs s1 !! x)) as Hk by (intros x; rewrite (C4 x), B3'; apply A4).
  assert (forall i, 0 <= i < 8 -> kentry s3 (kpage_of p i) <> 0) as Hnz.
  { intros i Hi. destruct (decide (i = 0)) as [->|]; [by rewrite (proj1 B5)|]. destruct (decide (i = 7)) as [->|]; [by rewrite (proj2 B5)|].
    destruct (B6 i) as (b & -> & Hb & _); lia. }
  assert (forall q, 0 <= q < 2 ^ 20 -> user_entry s4 d q = base_entry s4 p q) as He.
  { intros q Hq. rewrite C6 by done. rewrite Z.eqb_refl. unfold base_entry. cbn [andb]. destruct (stack_page p 0 q) eqn:Hs.
    - symmetry. apply C5; [done|]. unfold stack_page in Hs. apply andb_true_iff in Hs as [Hs1%Z.leb_le Hs2%Z.ltb_lt].
      rewrite (proj2 (stack_index p q _ Hq (conj Hs1 Hs2)) eq_refl). by apply Hnz.
    - rewrite B4 by (try done; by apply A2). rewrite A6 by done. rewrite Z.eqb_refl. cbn [andb]. by destruct (kernel_shared q). }
  split.
  - done.
  - split; [done|]. by apply C2.
  - by apply (grown_trans s0 s3 s4).
  - by apply (kernel_kept_trans s0 s1 s4).
  - intros x. by rewrite Hk, N9.
  - split; [|by rewrite Hh]. destruct N6 as [L1 L2]. split; rewrite Hh; [done|]. intros x Hx. apply L2. by apply Hk.
  - intros q Hq. split; [by apply He|]. rewrite He by done. unfold base_entry. destruct (stack_page p 0 q) eqn:Hs.
    + unfold stack_page in Hs. apply andb_true_iff in Hs as [Hs1%Z.leb_le Hs2%Z.ltb_lt]. pose proof (proj2 (stack_index p q _ Hq (conj Hs1 Hs2)) eq_refl) as Hqi.
      rewrite C5; [rewrite Hqi; by apply C7|done|rewrite Hqi; by apply Hnz].
    + destruct (kernel_shared q); [apply not_shared_kernel|done].
  - intros x q Hx Hq. assert (x <> d) as Hne by (intros ->; destruct Hx as [_ [y Hy]]; congruence). assert (exists_role s1 (UDir x)) as Hx1 by (by apply N5).
    rewrite C6 by (try done; by apply G13). rewrite (proj2 (Z.eqb_neq x d)) by done. cbn [andb]. rewrite B4 by (try done; by apply A2). rewrite A6 by done.
    rewrite (proj2 (Z.eqb_neq x d)) by done. cbn [andb]. by apply N7.
  - intros i Hi. destruct (B6 i Hi) as (b & E1 & E2 & E3 & E4 & E5 & _). exists b. split; [|split].
    + rewrite C5; [done|apply kpage_range|apply Hnz; lia].
    + intros Ht. apply E3. apply A2. by apply N5.
    + by apply (grown_foreign s3 s4).
  - intros i Hi. rewrite C5; [by apply Hnz|apply kpage_range|by apply Hnz].
Qed.
End space.

(** ** The program is started *)

Section exec.
Context {F H D Hd : Type} `{FrameAllocLaws F, KHeapLaws H}.
Context `{!Handlers (fstate H D Hd) Hd}.
Abbreviation Y := (ystate F H D Hd).
Implicit Types (s : Y) (v : vstate F H).
Variables data_start data_end text_start text_end return_to_regs : Z.
Hypothesis Hdata : region_ok data_start data_end.
Hypothesis Htext : region_ok text_start text_end.

(** A new process with directory [d] and kernel stack at [p] holds the
    program. *)
Record loaded (content : list Z) (args envs : list (list Z)) s (d p : Z) s' : Prop := Loaded {
  ld_ok : vm_ok None (y_vm s');
  ld_new : v_dirs (y_vm s) !! d = None /\ exists_role (y_vm s') (UDir d);
  ld_bytes : forall a, 0 <= a < 2 ^ 32 ->
    match image content args envs a with
    | Some (Some x) => user_byte (y_vm s') d a = Some x
    | Some None => is_Some (user_byte (y_vm s') d a)
    | None => user_byte (y_vm s') d a = None
    end;
  ld_memory : owned (y_vm s') d /\ user_pages (y_vm s') d /\
    forall q, 0 <= q < 2 ^ 20 -> shared (user_entry (y_vm s') d q) = true -> ~ taken (y_vm s) (user_entry (y_vm s') d q / 4096);
  ld_base : forall q, 0 <= q < 2 ^ 20 -> paged (program_pages content) q = false ->
    user_entry (y_vm s') d q = base_entry data_start data_end text_start text_end (y_vm s') p q;
  ld_others : forall x, exists_role (y_vm s) (UDir x) -> owned (y_vm s) x ->
    exists_role (y_vm s') (UDir x) /\ owned (y_vm s') x /\ forall a, 0 <= a < 2 ^ 32 -> user_byte (y_vm s') x a = user_byte (y_vm s) x a;
  ld_kernel : kernel_kept (y_vm s) (y_vm s');
  ld_heap : dirs_live (y_vm s') /\ heap_live (v_heap (y_vm s')) = {[ d ]} ∪ heap_live (v_heap (y_vm s));
  ld_files : same_files s s';
  ld_registers : exists b, kentry (y_vm s') (kpage_of p 6) = b * 4096 + 3 /\
    forall place x, (place, x) ∈ start_frame (physical_address (dir (y_vm s') d)) (stack_top args envs) -> word (y_vm s') b (reg_word place) = x;
}.

Lemma registers_place p : u32 (kpage_of p 7 * 4096 - REGISTERS_SIZE) = kpage_of p 6 * 4096 + 4016.
Proof.
  pose proof (kpage_wrap (kpage_of p 7) (-1)) as Hw. rewrite kpage_of_of in Hw. change (7 + -1) with 6 in Hw. unfold REGISTERS_SIZE.
  replace (kpage_of p 7 * 4096 - 80) with (kpage_of p 7 * 4096 + -1 * 4096 + 4016) by lia. unfold u32 in *. rewrite <- Zplus_mod_idemp_l, Hw.
  pose proof (kpage_range p 6). apply Z.mod_small. lia.
Qed.

Lemma byte_kept b v v' f o : frame_only b v v' -> f <> b -> 0 <= o < 4096 -> byte_of (v_mem v') (f * 4096 + o) = byte_of (v_mem v) (f * 4096 + o).
Proof. intros (_ & _ & Hw) Hf Ho. apply byte_word; [|done]. intros k Hk. by apply Hw. Qed.

(** The last step: the registers are written to the kernel stack. *)
Lemma loaded_made content args envs s v4 d p s5 b v6 L : vm_ok None (y_vm s) ->
  new_space data_start data_end text_start text_end (y_vm s) d p v4 ->
  program v4 d (paged (program_pages content)) (image content args envs) (y_vm s5) -> same_files s s5 ->
  heap_has s5 L -> L = heap_live (v_heap v4) ->
  kentry (y_vm s5) (kpage_of p 6) = b * 4096 + 3 -> ~ taken (y_vm s) b -> taken v4 b -> frame_only b (y_vm s5) v6 ->
  (forall place x, (place, x) ∈ start_frame (physical_address (dir (y_vm s5) d)) (stack_top args envs) -> word v6 b (reg_word place) = x) ->
  loaded content args envs s d p (on_vm v6 s5).
Proof.
  intros Hok0 [N1 [N2 N2'] N3 N4 N5 [[N6 N6'] N7] N8 N9 N10 N11] Hp Hs [Hh HL] -> Hb Hnt Ht Ho Hregs. pose proof Hp as [P1 P2 P3 P4 P5 P6 P7 P8 P9 P10].
  set (v5 := y_vm s5) in *. pose proof Ho as (Hss & Hhp & Hw). pose proof (same_ok v5 v6 Hss None P1) as Hok6.
  assert (grown (y_vm s) v5) as G5 by (by eapply grown_trans). assert (grown (y_vm s) v6) as G6 by (by apply (grown_other b _ v5)).
  assert (forall x, exists_role v5 (UDir x) -> exists_role v6 (UDir x)) as Hr by (intros x Hx; by apply (same_role v5 v6 Hss)).
  assert (exists_role v5 (UDir d)) as Hd5 by (by apply P2).
  assert (forall x q, exists_role v5 (UDir x) -> 0 <= q < 2 ^ 20 -> user_entry v6 x q = user_entry v5 x q) as Hue by (intros x q Hx Hq; by apply (same_user v5 v6)).
  assert (forall q, 0 <= q < 2 ^ 20 -> accessible (user_entry v5 d q) = true -> user_entry v5 d q / 4096 <> b) as Hne.
  { intros q Hq Ha Heq. destruct (program_accessible v4 d _ _ v5 q Hp Hq) as [Ha' _]. rewrite Ha in Ha'. symmetry in Ha'. destruct (P5 q Hq Ha') as (c & C1 & _ & C3 & _).
    rewrite C1, page_number_entry in Heq by lia. by subst c. }
  assert (forall a, 0 <= a < 2 ^ 32 -> user_byte v6 d a = user_byte v5 d a) as Hbytes.
  { intros a Ha. pose proof (user_page_range a Ha) as Hq. unfold user_byte. rewrite Hue by done. destruct (accessible (user_entry v5 d (a / 4096))) eqn:Hacc; [|done].
    f_equal. apply (byte_kept b); [done|by apply Hne|apply Z.mod_pos_bound; lia]. }
  assert (forall x q, exists_role (y_vm s) (UDir x) -> 0 <= q < 2 ^ 20 -> user_entry v6 x q = user_entry (y_vm s) x q) as Hothers.
  { intros x q Hx Hq. assert (x <> d) as Hxd by (intros ->; destruct Hx as [_ [y Hy]]; congruence). rewrite Hue by (try done; by apply G5). rewrite P8 by (try done; by apply N3). by apply N9. }
  split; change (y_vm (on_vm v6 s5)) with v6.
  - done.
  - split; [done|]. by apply Hr.
  - intros a Ha. pose proof (user_page_range a Ha) as Hq. rewrite Hbytes by done. destruct (paged (program_pages content) (a / 4096)) eqn:HPa.
    + destruct (P9 a Ha HPa) as (o & -> & Hx). destruct o as [x|]; [by apply Hx|]. unfold user_byte.
      destruct (program_accessible v4 d _ _ v5 _ Hp Hq) as [-> _]. rewrite HPa. by eexists.
    + rewrite P10 by done. unfold user_byte. destruct (program_accessible v4 d _ _ v5 _ Hp Hq) as [-> _]. by rewrite HPa.
  - split; [|split].
    + intros q Hq Hsh. rewrite Hue in Hsh |- * by done. destruct (program_accessible v4 d _ _ v5 q Hp Hq) as [_ Hsh']. rewrite Hsh in Hsh'. symmetry in Hsh'.
      destruct (P5 q Hq Hsh') as (c & -> & _ & _ & C4 & C5). rewrite page_number_entry by lia. split; [|by apply (frame_only_foreign b v5)].
      destruct Hss as (_ & _ & _ & _ & Hf & _). unfold taken. by rewrite Hf.
    + split.
      * intros q Hq. rewrite Hue by done. intros Ha. apply (frame_only_foreign b v5); [done|]. by apply P7.
      * intros q q' Hq Hq'. rewrite !Hue by done. by apply P7.
    + intros q Hq Hsh. rewrite Hue in Hsh |- * by done. destruct (program_accessible v4 d _ _ v5 q Hp Hq) as [_ Hsh']. rewrite Hsh in Hsh'. symmetry in Hsh'.
      destruct (P5 q Hq Hsh') as (c & -> & _ & C3 & _). rewrite page_number_entry by lia. intros Htk. by apply C3, N3.
  - intros q Hq HPq. rewrite Hue by done. rewrite (proj1 (P6 q Hq HPq)). rewrite (proj1 (N8 q Hq)). unfold base_entry. destruct (stack_page p 0 q) eqn:Hst; [|done].
    unfold stack_page in Hst. apply andb_true_iff in Hst as [Hs1%Z.leb_le Hs2%Z.ltb_lt]. pose proof (proj2 (stack_index p q _ Hq (conj Hs1 Hs2)) eq_refl) as Hqi.
    rewrite (same_kentry v5 v6 Hss) by done. symmetry. apply P4; [done|]. rewrite Hqi. by apply N11.
  - intros x Hx Hox. split; [by apply G6|]. split; [apply (owned_grown (y_vm s)); try done; intros q Hq _; by apply Hothers|].
    intros a Ha. apply user_byte_grown; try done. apply Hothers; [done|by apply user_page_range].
  - intros q Hq Hnz. rewrite (same_kentry v5 v6 Hss) by done. rewrite P4; [by apply N4|done|]. by rewrite N4.
  - split; [|rewrite Hhp; by rewrite HL]. split; [by rewrite Hhp|]. intros x Hx. rewrite Hhp, HL. apply N6'. apply P3. destruct Hss as (Hds & _). by rewrite Hds in Hx.
  - exact Hs.
  - exists b. rewrite (same_kentry v5 v6 Hss) by apply kpage_range. split; [done|]. rewrite (same_dir v5 v6 Hss). done.
Qed.

(** A block for the directory and for each page that may need a table of the
    regions shared with the kernel, of the kernel stack and of the program, and
    blocks for the stack itself, the temporary page and the last copies. *)
Definition exec_room (content : list Z) : Z :=
  1 + kernel_shared_pages data_start data_end text_start text_end + 24 + program_room content + 1.

(** C8. Starting a program.  A process without an address space gets one.
    In it the program finds the bytes of its file from 0x1000000 on, a heap and
    a stack region of 256 pages of zeros, its arguments and environment as NUL
    terminated strings in the page at 0x10000000, and at the stack pointer the
    count, the addresses of the arguments, a 0, those of the environment and
    another 0; between the end of the file and the end of its last page it
    finds bytes that nothing is said of, and nowhere else anything.  Its pages
    lie in frames that were free, no two in the same one.  What every other
    process reads, what the kernel has mapped and the files stay; of the
    objects made on the kernel heap only the directory is left.  The registers
    on its kernel stack start it in user mode at the first byte of the file,
    with interrupts on.  The arguments and the environment must fit their page
    (the code asserts it), the kernel must have the pages mapped that it shares
    with processes, and among its addresses there must be blocks of eight pages
    free: one for each page it may need and one for the kernel stack.  Then
    only running out of memory stops it. *)
Theorem execve_loads s task f content argv args envp envs :
  t_pdir task = 0 -> t_kstack task = 0 -> vm_ok None (y_vm s) -> dirs_live (y_vm s) ->
  serves (y_files s) f content -> Forall is_u8 content -> 0 < zlen content <= 2 ^ 24 -> holds_array argv args -> holds_array envp envs ->
  zlen (packed args) + zlen (packed envs) < BLOCK_SIZE ->
  (forall q, 0 <= q < 2 ^ 20 -> kernel_shared data_start data_end text_start text_end q = true -> kentry (y_vm s) q <> 0) ->
  block_room (exec_room content) (y_vm s) ->
  wp (process_execve data_start data_end text_start text_end return_to_regs task f (zlen args) argv (zlen envs) envp)
    (fun task' s' => exists d p, loaded content args envs s d p s' /\
      let regs := kpage_of p 6 * 4096 + 4016 in task' = Task TASK_TYPE_USER_PROCESS d (kpage_of p 7 * 4096) regs regs regs return_to_regs) only_nomem s.
Proof.
  intros Hpd Hks Hok Hlive Hsv H8 Hlen Hargs Henvs Hfit Hshared Hroom. pose proof (shared_pages_pos data_start data_end text_start text_end Hdata Htext) as HP.
  set (shp := kernel_shared_pages data_start data_end text_start text_end) in *. pose proof (program_room_pos content) as HPr.
  unfold exec_room in Hroom. fold shp in Hroom. unfold process_execve. rewrite Hpd, Hks.
  rewrite (proj2 (Z.eqb_neq f 0)) by apply Hsv. cbn [negb kassert]. wp_steps. apply (wp_node_length s f content); [done|]. intros s0 Hv0 Hs0.
  rewrite (proj2 (Z.eqb_neq (zlen content) 0)) by lia. change (negb (0 =? 0)) with false. change (0 =? 0) with true. cbn [negb kassert]. cbv iota. wp_steps.
  apply wp_vm. rewrite Hv0. apply (wp_process_page_directory_new data_start data_end text_start text_end Hdata Htext); [done|done|fold shp; apply block_room_room; by eapply block_room_mono, Hroom; lia|].
  intros d v1 v2 Hn Hd0 A1 A2 A3 A4 A5 A6 U2. fold shp in U2.
  assert (block_room (24 + program_room content + 1) v2) as Hr2 by (apply (uses_blocks (1 + shp) _ (y_vm s)); [done|]; eapply block_room_mono, Hroom; lia). rewrite (proj2 (Z.eqb_neq d 0)) by done. cbn [negb kassert]. wp_steps.
  apply wp_vm. wp_apply (wp_task_kstack_alloc v2); [done|by eapply block_room_mono, Hr2; lia| |done]. intros kstack v3 (p & -> & Hp0 & Hp8 & Hkm). wp_steps.
  assert (block_room (16 + program_room content + 1) v3) as Hr3 by (apply (uses_blocks 8 _ v2); [by apply (kstack_uses _ p)|]; eapply block_room_mono, Hr2; lia).
  assert (forall i, 0 <= i < 8 -> kentry v3 (kpage_of p i) <> 0) as Hnz.
  { intros i Hi. destruct (decide (i = 0)) as [->|]; [by rewrite (proj1 (km_guards _ _ _ Hkm))|]. destruct (decide (i = 7)) as [->|]; [by rewrite (proj2 (km_guards _ _ _ Hkm))|].
    destruct (km_pages _ _ _ Hkm i) as (b & -> & Hb & _); lia. }
  apply wp_vm. wp_apply (wp_process_map_kstack v3 d p); [apply Hkm|apply Hkm, A2, Hn|done|unfold kpage_of; rewrite Z.mod_small by lia; lia| | | |done].
  { intros i Hi. split; [by eapply kstack_closed|]. rewrite (km_users _ _ _ Hkm) by (apply kpage_range || apply A2, Hn). rewrite A6 by (apply kpage_range || apply Hn).
    rewrite (nd_empty _ _ _ Hn), Z.eqb_refl. cbn [andb]. destruct (kernel_shared _ _ _ _ (kpage_of p i)) eqn:Hsh; [|done].
    pose proof (Hshared _ (kpage_range p i) Hsh) as Hne. destruct (nd_kernel _ _ _ Hn) as (p0 & Hz0 & Hk0). exfalso.
    assert (kentry v2 (kpage_of p i) = kentry (y_vm s) (kpage_of p i)) as He.
    { assert (kentry v1 (kpage_of p i) = kentry (y_vm s) (kpage_of p i)) as He1 by (apply Hk0; [apply kpage_range|]; intros Heq; rewrite Heq in Hne; by apply Hne, Hz0; rewrite <- Heq; apply kpage_range).
      rewrite A5; [done|apply kpage_range|by rewrite He1]. }
    apply Hne. rewrite <- He. by apply (km_free _ _ _ Hkm). }
  { apply block_room_room. eapply block_room_mono, Hr3. lia. }
  intros u v4 [Hsm U4]. wp_steps.
  assert (block_room (program_room content + 1) v4) as Hr4 by (apply (uses_blocks 16 _ v3); [done|]; eapply block_room_mono, Hr3; lia).
  pose proof (new_space_made data_start data_end text_start text_end (y_vm s) d p v1 v2 v3 v4 Hn A1 A2 A3 A4 A5 A6 Hkm Hsm) as Hns.
  set (s4 := on_vm v4 (on_vm v3 (on_vm v2 s0))). assert (exists_role v4 (UDir d)) as Hd4 by apply Hns.
  eapply wp_mono; [apply (wp_map_program v4 d s4 f content); try done; [lia|apply built_nothing, Hns|by apply (serves_same s)|apply block_room_room; eapply block_room_mono, Hr4; lia]| |done].
  intros u5 s5 (B5 & Hh5 & Hs5 & U5). wp_steps. change (y_vm s4) with v4 in U5.
  assert (block_room 1 (y_vm s5)) as Hr5 by (apply (uses_blocks (program_room content) 1 v4); [done|]; eapply block_room_mono, Hr4; lia). change (y_vm s4) with v4 in Hh5.
  pose proof (built_program v4 d _ _ B5 (fun q Hq _ => proj2 (ns_entries _ _ _ _ _ _ _ _ Hns q Hq))) as Hp5.
  apply (wp_copy_stack v4 d (paged (program_pages content)) Hd4 (paged_misc content) (paged_heap content) s5 (image_of (program_pages content)) s5 argv args envp envs
    (heap_live (v_heap v4))); [done|done|done|split; [exact Hp5|done]|split; [rewrite Hh5; apply Hns|by rewrite Hh5]|].
  intros s6 (Hp6 & Hs6 & _) Hh6. wp_steps. rewrite registers_place. apply wp_vm.
  destruct (ns_stack _ _ _ _ _ _ _ _ Hns 6 ltac:(lia)) as (b & E1 & E2 & E3 & E4).
  assert (kentry (y_vm s6) (kpage_of p 6) = b * 4096 + 3) as E6 by (rewrite (pr_kept _ _ _ _ _ Hp6) by (apply kpage_range || apply Hns; lia); exact E1).
  assert (foreign (y_vm s6) b) as F6 by (by apply (grown_foreign v4 (y_vm s6) b (pr_grown _ _ _ _ _ Hp6))).
  eapply wp_mono; [apply (wp_start_registers (y_vm s6) (kpage_of p 6) b) with (E := only_nomem)| |done].
  - apply Hp6.
  - apply kpage_range.
  - rewrite E6. rewrite <- (lor_page b 3) by lia. by apply present_entry.
  - by rewrite E6, page_number_entry.
  - done.
  - apply (pr_keys _ _ _ _ _ Hp6). apply Hd4.
  - intros u6 v6 [Ho Hr]. wp_steps. exists d, p. split; [|done]. eapply (loaded_made content args envs s v4 d p s6 b v6); try done.
    + eapply program_ext; [|exact Hp6]. intros a _. unfold image. apply stored_over, stored_over. symmetry. apply image_regions.
    + eapply same_files_trans; [exact Hs0|]. eapply same_files_trans; [|exact Hs6]. exact Hs5.
Qed.
End exec.

(** ** A program of an archive *)

Section tar.
Context {F H : Type} `{FrameAllocLaws F, KHeapLaws H}.
Variable junk : Z -> list Z.
#[local] Instance exec_handlers : Handlers (fstate H drivers handler) handler := kernel_handlers junk.

Lemma holds_archive_heap (s : fstate H drivers handler) h dev es : holds_archive s dev es -> holds_archive (lset fs_heap h s) dev es.
Proof. by destruct s. Qed.

(** [read_device] at any depth: the device of the archive is a ramdisk. *)
Definition device_reader (depth : nat) (device offset size : Z) : M (fstate H drivers handler) (Z * list Z) :=
  kassert (negb (device =? 0)) >>>
  let! x := node_at device in
  match n_read x with Some h => run_read depth h device offset size | None => ret (MINUS_1, []) end.

Lemma tar_read_depth depth (s : fstate H drivers handler) f x obj es off size :
  f_nodes s !! f = Some x -> d_tars (f_drv s) !! n_object x = Some obj -> holds_archive s (a_device obj) es ->
  tar_read (device_reader depth) f off size s = tar_read read_device f off size s.
Proof.
  intros Hx Hobj (_ & _ & y & post & Hy & Hyr & _). unfold tar_read, tar_at, node_at, bind, gets, some, kassert, ret. rewrite Hx.
  destruct (negb (n_object x =? 0)); [|done]. rewrite Hobj. destruct (n_length x <? off); [done|].
  unfold device_reader, read_device, node_at, bind, gets, some, kassert, ret. destruct (negb (a_device obj =? 0)); [|done]. rewrite Hy, Hyr. by destruct depth.
Qed.

(** The node of an entry of an archive serves the file in it. *)
Lemma tar_file_serves (p : pstate H drivers handler) f x obj pre e post :
  f <> 0 -> f_nodes (p_fs p) !! f = Some x -> n_object x <> 0 -> n_read x = Some Tar_read -> d_tars (f_drv (p_fs p)) !! n_object x = Some obj ->
  n_length x = e_fsize e -> a_offset obj = zlen (archive pre) -> holds_archive (p_fs p) (a_device obj) (pre ++ e :: post) -> e_fsize e <= 2 ^ 24 ->
  serves p f (e_content e).
Proof.
  intros Hf Hx Hxo Hxr Hobj Hl Ho Hdev Hmax. pose proof Hdev as (_ & [Hes _] & _). assert (entry_ok e) as He by (eapply (proj1 (Forall_forall _ _) Hes); set_solver).
  destruct (e_fsize_ok e He) as [_ Hf0]. pose proof (e_fsize_bound e He) as Hb.
  assert (zlen (e_content e) = e_fsize e) as Hlen by (unfold e_content, zlen in *; rewrite length_take; lia).
  split; [done|]. split; [exists x; split; [done|by rewrite Hl]|]. intros h off Hoff. unfold fs_read. rewrite (proj2 (Z.eqb_neq f 0)) by done. cbn [negb kassert]. wp_steps.
  apply (wp_at_node _ f x); [exact Hx|]. rewrite Hxr. pose proof (holds_archive_heap (p_fs p) h _ _ Hdev) as Hdevh.
  change (call_read Tar_read f off BLOCK_SIZE) with (tar_read (device_reader 7) f off BLOCK_SIZE).
  change (p_fs (lset p_heap h p)) with (lset fs_heap h (p_fs p)).
  apply wp_intro. rewrite (tar_read_depth 7 (lset fs_heap h (p_fs p)) f x obj _ off BLOCK_SIZE Hx Hobj Hdevh). apply wp_elim.
  apply (wp_tar_read _ f x obj pre e post off BLOCK_SIZE); try done; [lia|unfold BLOCK_SIZE; lia|].
  split; [|done]. unfold file_slice. rewrite (proj2 (Z.ltb_ge _ _)) by lia. cbv zeta. set (n := Z.min BLOCK_SIZE (e_fsize e - off)).
  assert (slice (e_content e) off BLOCK_SIZE = take (Z.to_nat n) (drop (Z.to_nat off) (e_content e))) as ->.
  { unfold slice, n. destruct (Z.le_ge_cases BLOCK_SIZE (e_fsize e - off)); [by rewrite Z.min_l|]. rewrite Z.min_r by done.
    unfold zlen in Hlen. rewrite !firstn_all2 by (rewrite length_drop; lia). done. }
  f_equal. unfold zlen in *. rewrite length_take, length_drop. unfold n, BLOCK_SIZE. lia.
Qed.
End tar.

(** *** The file "d/f" of the archive, started with the argument "ab" *)

Definition sample_program : entry := Entry (sample_header [100; 47; 102] [48; 51] 48) ([97; 98; 99] ++ replicate 509 0).

Definition sample_program_files : pstate Interfaces.bump drivers handler :=
  PState (FState (Interfaces.Bump 200 {[ 50; 100 ]})
      (<[108 := FsNode [] 0 4096 1536 (Some Ramdisk_read) None None None None None None None None None 1]>
        {[ 112 := tar_node [102] 116 (entry_obj 108 512 sample_program) 1 ]})
      ∅ 0 (Drivers ∅ {[ 116 := entry_obj 108 512 sample_program ]} {[ 4096 := archive sample_archive ]}))
    ∅ ∅ ∅.

Lemma sample_program_serves (junk : Z -> list Z) :
  serves (Hd := handler) (Handlers0 := kernel_handlers junk) sample_program_files 112 [97; 98; 99].
Proof.
  change [97; 98; 99] with (e_content sample_program).
  apply (tar_file_serves junk sample_program_files 112 (tar_node [102] 116 (entry_obj 108 512 sample_program) 1)
    (entry_obj 108 512 sample_program) [Entry (sample_header [100; 47] [48] 53) []] sample_program []); try reflexivity; try done.
  - split; [done|]. split; [exact sample_archive_ok|]. eexists _, []. split; [reflexivity|]. split; [reflexivity|]. split; vm_compute; reflexivity.
Qed.

Lemma one_page_blocks : block_room (exec_room 0x100000 0x102000 0x102000 0x103000 [97; 98; 99]) one_page.
Proof.
  exists (list_to_set (seqZ 400 600)). split.
  - rewrite size_list_to_set by apply NoDup_seqZ. rewrite length_seqZ. vm_compute. discriminate.
  - intros x Hx%elem_of_list_to_set%elem_of_seqZ. split; [lia|]. intros i Hi. apply one_page_free. lia.
Qed.

Lemma one_page_shared q : 0 <= q < 2 ^ 20 -> kernel_shared 0x100000 0x102000 0x102000 0x103000 q = true -> kentry one_page q <> 0.
Proof.
  intros Hq. unfold kernel_shared, in_region. rewrite orb_true_iff, !andb_true_iff, !Z.leb_le, !Z.ltb_lt. intros Hs.
  rewrite one_page_kentry by lia. rewrite lor_page by lia. lia.
Qed.

Lemma execve_loads_witness :
  wp (process_execve (Handlers0 := kernel_handlers (fun _ => [])) 0x100000 0x102000 0x102000 0x103000 0x100100 (Task 0 0 0 0 0 0 0) 112
      1 (Some [Some [97; 98]; None]) 0 None)
    (fun task' s' => t_type task' = TASK_TYPE_USER_PROCESS /\ user_byte (y_vm s') (t_pdir task') 0x1000001 = Some 98 /\
      user_byte (y_vm s') (t_pdir task') 0x10000000 = Some 97 /\ user_byte (y_vm s') (t_pdir task') 0x20FFFF0 = Some 1 /\
      user_byte (y_vm s') (t_pdir task') 0x20FFFF7 = Some 0x10 /\ user_byte (y_vm s') 100 20480 = Some 104)
    only_nomem (YState one_page sample_program_files (Process 2 100 130)).
Proof.
  set (s := YState one_page sample_program_files (Process 2 100 130)).
  eapply wp_mono; [apply (execve_loads (Handlers0 := kernel_handlers (fun _ => [])) 0x100000 0x102000 0x102000 0x103000 0x100100
    ltac:(repeat split; lia) ltac:(repeat split; lia) s (Task 0 0 0 0 0 0 0) 112 [97; 98; 99]
    (Some [Some [97; 98]; None]) [[97; 98]] None []); try done| |done].
  - exact one_page_ok.
  - exact one_page_live.
  - apply sample_program_serves.
  - repeat constructor; lia.
  - split; [repeat constructor; (lia || done)|by exists []].
  - exact one_page_shared.
  - exact one_page_blocks.
  - intros task' s' (d & p & [_ _ Hb _ _ Ho _ _ _ _] & ->). cbn [t_type t_pdir]. split; [done|].
    pose proof (Hb 0x1000001 ltac:(lia)) as B1. pose proof (Hb 0x10000000 ltac:(lia)) as B2. pose proof (Hb 0x20FFFF0 ltac:(lia)) as B3. pose proof (Hb 0x20FFFF7 ltac:(lia)) as B4.
    change (user_byte (y_vm s') d 0x1000001 = Some 98) in B1.
    split; [exact B1|]. split; [exact B2|]. split; [exact B3|]. split; [exact B4|].
    destruct (Ho 100 one_page_udir one_page_owned) as (_ & _ & Hk). rewrite Hk by lia. vm_compute. reflexivity.
Defined.
